(* ===== verification/_CoqProject ===== *)
-Q . S2P
Prelude.v
GoStrings.v
GoTime.v
Codec.v
Errors.v
Domain.v
Json.v
JsonLaws.v
Decode.v
Events.v
Schema.v
Outbox.v
Auth.v
Limiter.v
ReadAuthority.v
CommandContract.v
Assertion.v
Identity.v
Mfa.v
Organisation.v
Access.v
Workspace.v
Snapshot.v
SnapshotLaws.v
Migrations.v
Url.v
Product.v
Command.v
Projection.v
Announce.v
System.v
Seed.v
Pages.v
Http.v
Login.v
Api.v
Ui.v
Gateway.v
Serve.v
ServeLaws.v
Admission.v
Launch.v
Config.v
Headers.v
Reconciliation.v
Fixture.v
Production.v
Import.v
ImportLaws.v
ImportKeeps.v
ImportSystem.v
Structs.v
Files.v
ReportFile.v
ReportTool.v
ManifestFile.v
ImportTool.v
