(* ===== verification/Prelude.v ===== *)
(** * Tockr Platform: a verification library

    The Platform is the control plane of the Tockr products: it owns users and
    their sessions, organisations with their members, workspaces, the product
    catalogue with entitlements and assignments, and it publishes every change
    as an event that the products project into their own databases. It is one
    Go process over one SQLite database. This library models its store (src/
    internal/db/sqlite with the types of internal/domain, internal/events and
    internal/store), its authentication (internal/auth), the contracts and
    assertions it signs and verifies (internal/platform/readauthority,
    membershipcommand and assertion), its HTTP server (internal/platform/http),
    its configuration (internal/platform/config, cmd/platform) and the
    reconciliation and import of data from the older systems (internal/platform/
    reconciliation, platform_import.go).

    ** How the program is modelled

    A store method is one transaction, so it is a function in the state monad
    [St DB error A] of this file: it returns a value and the next database, or
    an error, on which the transaction is rolled back ([exec]). Its guards,
    queries and writes follow the source in their order. A table is the list of
    its rows in rowid order; UNIQUE indexes and CHECKs are the [_ok] predicates
    of Schema.v, checked when a row is inserted. Methods that only read are
    functions of the database. SQLite runs one write transaction at a time, so
    the behaviour of the store is a sequence of committed operations: the step
    relation of System.v. The rate limiter holds a mutex for the whole of every
    method, so it is a sequence of calls too.

    An HTTP handler is a step from a request and a server (the store, the login
    limiter, the read-authority limiter, the assertion issuer, the configuration)
    to a response and the next server: [Handler] of Serve.v, one handler at a
    time. The clock and the random bytes a handler draws are its [Env]. A request
    has its path already matched by the router; forms and query strings are
    decoded values.

    The production import commits every record in a transaction of its own, so
    its operations go from a store to a result and a store, not to one or the
    other; stopping between two transactions is a step of its laws.

    A Go string is its bytes. A [time.Time] is a number of nanoseconds
    (GoTime.v); the database keeps times as RFC 3339 texts and compares them as
    texts, and so does the model: guarantees about stored times are to the
    second where the text order is not chronological within one. Durations in
    the limiter are int64 with wrap-around.

    Code outside src/ is a parameter: SHA-256, HMAC, AES-GCM and bcrypt
    ([Crypto] of Auth.v, with the documented facts the proofs use in
    [CryptoLaws]), Ed25519 ([Ed25519], [Ed25519Laws] of Assertion.v), the parsing
    of URLs ([NetURL] of Config.v), the case tables of Unicode ([UnicodeTables] of GoStrings.v;
    ASCII is computed), random bytes (arguments of the operations that draw
    them), the iteration order of Go maps (an argument of the limiter). The
    parts of Go's standard library the program relies on are written out:
    TrimSpace, strconv, UTF-8, base64, base32, hexadecimal, JSON, net.SplitHostPort.

    ** The files

    - Prelude.v: results, the transaction monad, the preservation rules (hint
      database [tx], tactic [inv_tx]), int64.
    - GoStrings.v, GoTime.v, Codec.v (base64), Json.v and JsonLaws.v (encoder,
      parser, struct decoding, round trip), Decode.v (Go types, json.Marshal and
      the strict decoder on them), Structs.v (structs of the program for it): the
      standard library.
    - Errors.v: sentinel errors and wrapping, [errors_Is].
    - Domain.v: internal/domain, types and Validate methods.
    - Events.v: internal/events/event.go.
    - Schema.v: the tables and constraints of internal/db/sqlite/store.go, the
      relational operations, the lemmas on counting and updating rows.
    - Outbox.v: events.go, the outbox and the event feed.
    - Auth.v: internal/auth token.go, password.go, mfa.go.
    - Limiter.v: internal/auth/limiter.go.
    - ReadAuthority.v, CommandContract.v: internal/platform/readauthority and
      membershipcommand, contract.go.
    - Identity.v: users.go, sessions.go, audit.go. Mfa.v: mfa.go.
    - Organisation.v: organisation.go. Access.v: access_scope.go. Workspace.v:
      workspace.go. Product.v: product.go and product_access.go.
    - Snapshot.v: platform_read_authority.go and platform_read_authority_auth.go;
      SnapshotLaws.v: their laws.
    - Command.v: membership_command.go. Projection.v: projections.go.
    - Migrations.v: store.go, the migrations and the opening of a database file.
    - System.v: all operations as one transition system.
    - Seed.v: internal/demoseed/seed.go, the demo data.
    - Assertion.v: internal/platform/assertion, issuer and verifier.
    - Url.v (net/url query escaping), Pages.v (web/pages: the properties given to
      the templates), Http.v (requests, responses, the server, the parts of
      server.go shared by the handlers), Login.v (sign-in, second factor, logout),
      Api.v (the JSON handlers of server.go), Ui.v (admin_ui.go, platform_ui.go),
      Gateway.v (read_authority.go, membership_command.go), Serve.v (the routes
      and the middleware around them). ServeLaws.v, Admission.v and Launch.v:
      their laws.
    - Config.v: config.go, assertion/config.go and the start of cmd/platform.
      Headers.v: securityHeaders of server.go, around every handler.
    - Reconciliation.v, Fixture.v, Production.v: reconciliation.go, migration.go
      and production.go of internal/platform/reconciliation.
    - Import.v: platform_import.go; ImportLaws.v: its laws.
    - ReportFile.v, ManifestFile.v: the Go types of inventories, reports and signed
      manifests and their values, for the decoder. Files.v: the files the commands
      read. ReportTool.v: cmd/platform-reconcile and cmd/platform-manifest.
      ImportTool.v: cmd/platform-import.

    Definitions have the names of the Go functions and types they translate;
    record fields have a prefix for their record.

    ** What is proved

    - System.v: on every reachable database the invariants of all components
      hold (one owner per active organisation, one active membership per user
      and scope, one active grant, no gaps in the sequences of the outbox, ...);
      every committed change of a shared record appends its event in the same
      transaction; the audit trail, the security log and the outbox only grow.
    - Organisation.v, Workspace.v, Product.v: each mutation does what it says:
      who may run it, which rows it changes, what it logs and announces, for
      every error branch the error; revoking a grant or retiring a product
      takes effect on the next access decision.
    - Access.v, Product.v: the access queries as one decision over the rows,
      and the launch list as exactly the products the decision admits.
    - Identity.v, Mfa.v, Auth.v: when a session is accepted, that a TOTP step and
      a recovery code are accepted once, the window of accepted codes.
    - Outbox.v: a consumer that follows the feed gets every event once, in
      order, and stops; publishing marks exactly the rows named.
    - Command.v: a command runs at most once per idempotency key and a retry
      gets the first result; version conflicts; how long results are kept.
    - Projection.v: events of a stream are applied in sequence order, each once;
      gaps are closed by reconciliation; a blocked stream stays as it is.
    - Snapshot.v, SnapshotLaws.v: a created snapshot reads back as exactly the
      records materialised from the database, through any paging; a request
      nonce is accepted once.
    - ReadAuthority.v, CommandContract.v: the signed texts bind their fields.
    - Assertion.v: what is issued verifies; only what was issued is accepted, and
      once.
    - Login.v: what a sign-in needs, that its session is accepted and that a logout
      ends it, throttling, and that rejections look alike.
    - Gateway.v, Admission.v: a command needs a signature and an assertion of its
      scope; the rate window; no signed request is admitted twice.
    - ServeLaws.v, Launch.v: every request leaves a reachable store; every change
      through the browser has a session and its CSRF token; an assertion is issued
      only to a user with access to the product.
    - Config.v, Headers.v: a configuration that loads is well formed; a product
      launch goes only to a configured endpoint, and the policy of every response
      lets forms post to exactly those.
    - Migrations.v: through any interrupted openings every migration is applied
      once, whole and in order; a file with another ledger is refused untouched.
    - Seed.v: seeding only adds, and leaves exactly the fixture in place.
    - Reconciliation.v: the report drops no record, does not depend on the order of
      the inventory, and proposes an identity exactly when its records agree.
    - Fixture.v, Production.v: manifests round trip through signing; the rehearsal
      importer implements a counter over the manifest.
    - ImportLaws.v: a record is applied exactly or not at all; the ledger and the
      checkpoint agree after any calls; an interrupted import resumes to the store
      of an uninterrupted one; a rollback restores the tables; only a signed,
      approved and ordered manifest is imported.
    - ReportTool.v: the commands of a rehearsal compose through their files: the
      report is read as it was built, what is signed is what was proposed, and it
      verifies.
    - ManifestFile.v, ImportTool.v: a signed manifest survives its file, its text
      binds it, and the command imports only what the approver signed.
    - Limiter.v: the delay is the closed form of exponential back-off and never
      overflows; the table is bounded; keys do not influence each other.

    ** Bounds and fuel

    The JSON parser, the UTF-8 loops and the decimal printers are structurally
    recursive on a fuel that is the length of the text (every iteration consumes
    a byte) or the 20 digits of an int64. The loops that follow a feed or the
    pages of a snapshot have fuel one more than the number of rows and are
    proved to end before it. The back-off loop runs at most failures - threshold
    times, its own bound. Everything else is structural.

    Row ids, sequences and versions are integers without wrap-around: they grow
    by one per committed row. The model covers times of years 0 to 9999, the
    ones whose text has four year digits.

    ** Not modelled

    - Foreign keys, except where rows are deleted: the cascade of snapshot records
      and the DELETE of an import rollback. The ids inserted come from queries of
      the same transaction.
    - The failure of SQLite itself (I/O errors, busy timeouts), contexts and
      cancellation, and backup (backup.go); what SQLite makes of the statements of a
      migration is a parameter of Migrations.v.
    - System roles are provisioned outside the program; System.v lets them
      change between any two operations.
    - Of the HTTP server: the matching of paths and methods by the router (chi),
      static files, the HTML of the templates (web/pages and web/templates, 3,500
      lines generated by templ, which write escaped text) and the life of
      connections.
    - Of the command lines: the parsing of flags, the printing of errors and the
      writing of output files; and the command demo-seed, which runs Seed on the
      configured database and prints its manifest. *)

From stdpp Require Import base tactics list numbers strings.
From Stdlib Require Import ZArith Lia Ascii String.

#[global] Set Default Goal Selector "!".

(** * Results

    A Go call returns a value and an [error]; the callers modelled here use the
    value only when the error is nil, so a call is a sum. *)
Inductive result (E A : Type) : Type :=
| Ok (a : A)
| Err (e : E).
Arguments Ok {E A} a.
Arguments Err {E A} e.

Lemma Ok_inj {E A} (x y : A) : Ok (E:=E) x = Ok y -> x = y.
Proof. by intros [= ->]. Qed.

Definition is_ok {E A} (r : result E A) : bool :=
  match r with Ok _ => true | Err _ => false end.

Declare Scope go_scope.
Delimit Scope go_scope with go.

(** Early return on error: [let? x := r in k] is the source's
    [x, err := r; if err != nil { return ..., err }]. *)
Notation "'let?' x := r 'in' k" :=
  (match r with Ok x => k | Err e => Err e end)
  (at level 10, x pattern, r at level 100, k at level 200) : go_scope.
#[global] Open Scope go_scope.

(** A loop that appends to a result and returns at the first error. *)
Fixpoint map_res {E A B} (f : A -> result E B) (l : list A) : result E (list B) :=
  match l with
  | [] => Ok []
  | x :: l' => let? y := f x in let? ys := map_res f l' in Ok (y :: ys)
  end.

Lemma map_res_Ok {E A B} (f : A -> result E B) (g : A -> B) l :
  (forall x, In x l -> f x = Ok (g x)) -> map_res f l = Ok (map g l).
Proof.
  induction l as [|x l IH]; simpl; intros Hf; [done|].
  rewrite (Hf x), IH; auto.
Qed.

Lemma in_firstn {A} n (l : list A) x : In x (firstn n l) -> In x l.
Proof. rewrite <-(firstn_skipn n l) at 2. intros. apply in_or_app. by left. Qed.
Lemma in_skipn {A} n (l : list A) x : In x (skipn n l) -> In x l.
Proof. rewrite <-(firstn_skipn n l) at 2. intros. apply in_or_app. by right. Qed.

Lemma filter_none {A} (p : A -> bool) l : (forall x, In x l -> p x = false) -> List.filter p l = [].
Proof. induction l as [|x l IH]; simpl; intros H; [done|]. rewrite H, IH; auto. Qed.

Lemma last_map {A B} (f : A -> B) l : last (map f l) = option_map f (last l).
Proof. induction l as [|x [|y l] IH]; simpl in *; congruence. Qed.

Lemma last_seqZ k n : last (seqZ k (Z.of_nat (S n))) = Some (k + Z.of_nat n)%Z.
Proof.
  rewrite Nat2Z.inj_succ, <-Z.add_1_r, seqZ_app, last_app by lia.
  rewrite (seqZ_cons (k + _)) by lia. by rewrite (seqZ_nil (Z.succ _)) by lia.
Qed.

(** * Stateful operations

    A store operation runs against a state [S] inside one transaction: it
    either fails (and the transaction is rolled back by its caller, [exec]) or
    returns a value together with the next state. *)
Definition St (S E A : Type) : Type := S -> result E (A * S).

Section Monad.
Context {S E : Type}.

Definition ret {A} (a : A) : St S E A := fun s => Ok (a, s).
Definition fail {A} (e : E) : St S E A := fun _ => Err e.
Definition bind {A B} (m : St S E A) (k : A -> St S E B) : St S E B :=
  fun s => match m s with Ok (a, s') => k a s' | Err e => Err e end.
Definition reads {A} (f : S -> A) : St S E A := fun s => Ok (f s, s).
Definition modify (f : S -> S) : St S E unit := fun s => Ok (tt, f s).

(** [if !b { return e }] *)
Definition require (b : bool) (e : E) : St S E unit :=
  if b then ret tt else fail e.

(** A query whose [sql.ErrNoRows] is turned into the error [e]. *)
Definition some_or {A} (o : option A) (e : E) : St S E A :=
  match o with Some a => ret a | None => fail e end.

Definition lift {A} (r : result E A) : St S E A :=
  match r with Ok a => ret a | Err e => fail e end.

Fixpoint for_each {X} (l : list X) (f : X -> St S E unit) : St S E unit :=
  match l with
  | [] => ret tt
  | x :: l' => bind (f x) (fun _ => for_each l' f)
  end.

(** A transaction: committed on success, rolled back on error. *)
Definition exec {A} (m : St S E A) (s : S) : result E A * S :=
  match m s with Ok (a, s') => (Ok a, s') | Err e => (Err e, s) end.
End Monad.

Notation "'let!' x := m 'in' k" := (bind m (fun x => k))
  (at level 10, x pattern, m at level 100, k at level 200) : go_scope.
Notation "'do!' m 'in' k" := (bind m (fun _ => k))
  (at level 10, m at level 100, k at level 200) : go_scope.

Section MonadLaws.
Context {S E : Type}.
Implicit Types s : S.

Lemma bind_Ok {A B} (m : St S E A) (k : A -> St S E B) s b s' :
  bind m k s = Ok (b, s') <-> exists a s1, m s = Ok (a, s1) /\ k a s1 = Ok (b, s').
Proof.
  unfold bind. split.
  - destruct (m s) as [[a s1]|]; [eauto|discriminate].
  - by intros (a & s1 & -> & ?).
Qed.

Lemma ret_Ok {A} (a : A) s b s' : ret (E:=E) a s = Ok (b, s') <-> b = a /\ s' = s.
Proof. unfold ret. split; [by intros [= -> ->]|by intros [-> ->]]. Qed.

Lemma fail_Ok {A} (e : E) s (b : A) s' : fail e s = Ok (b, s') <-> False.
Proof. by unfold fail. Qed.

Lemma reads_Ok {A} (f : S -> A) s b s' :
  reads (E:=E) f s = Ok (b, s') <-> b = f s /\ s' = s.
Proof. unfold reads. split; [by intros [= -> ->]|by intros [-> ->]]. Qed.

Lemma bind_reads {A B} (f : S -> A) (k : A -> St S E B) s : bind (reads f) k s = k (f s) s.
Proof. done. Qed.

Lemma modify_Ok (f : S -> S) s u s' : modify (E:=E) f s = Ok (u, s') <-> s' = f s.
Proof. unfold modify. destruct u. split; [by intros [= ->]|by intros ->]. Qed.

Lemma require_Ok b (e : E) s u s' : require b e s = Ok (u, s') <-> b = true /\ s' = s.
Proof. unfold require, ret, fail. destruct b, u; naive_solver. Qed.

(** Rewriting form: a guard followed by the rest of the operation. *)
Lemma require_then_Ok {A} b (e : E) (k : unit -> St S E A) s r :
  bind (require b e) k s = Ok r <-> b = true /\ k tt s = Ok r.
Proof. unfold bind, require, ret, fail. destruct b; naive_solver. Qed.

Lemma require_true {A} (e : E) (k : unit -> St S E A) s : bind (require true e) k s = k tt s.
Proof. done. Qed.

Lemma require_false {A} (e : E) (k : unit -> St S E A) s : bind (require false e) k s = Err e.
Proof. done. Qed.

(** The step an operation takes when its first part succeeds, or fails. *)
Lemma bind_value {A B} (m : St S E A) (k : A -> St S E B) s a s' : m s = Ok (a, s') -> bind m k s = k a s'.
Proof. unfold bind. by intros ->. Qed.
Lemma bind_lift {A B} (a : A) (k : A -> St S E B) s : bind (lift (Ok a)) k s = k a s.
Proof. done. Qed.
Lemma bind_error {A B} (m : St S E A) (k : A -> St S E B) s e : m s = Err e -> bind m k s = Err e.
Proof. unfold bind. by intros ->. Qed.

Lemma some_or_Ok {A} (o : option A) (e : E) s a s' :
  some_or o e s = Ok (a, s') <-> o = Some a /\ s' = s.
Proof. unfold some_or, ret, fail. destruct o; naive_solver. Qed.

Lemma lift_Ok {A} (r : result E A) s a s' :
  lift r s = Ok (a, s') <-> r = Ok a /\ s' = s.
Proof. unfold lift, ret, fail. destruct r; naive_solver. Qed.

Lemma for_each_Ok {X} (f : X -> St S E unit) (P : S -> Prop) l s u s' :
  (forall x s1 v s2, In x l -> f x s1 = Ok (v, s2) -> P s1 -> P s2) ->
  for_each l f s = Ok (u, s') -> P s -> P s'.
Proof.
  revert s. induction l as [|x l IH]; simpl; intros s Hf.
  - by intros [_ ->]%ret_Ok.
  - intros (v & s1 & H1 & H2)%bind_Ok HP.
    apply (IH s1); [|done|].
    + intros y s2 w s3 Hy. apply (Hf y s2 w s3); auto.
    + apply (Hf x s v s1); auto.
Qed.
End MonadLaws.

(** [inv_tx] opens one hypothesis [m s = Ok (a, s')] step by step: every guard
    becomes a boolean equation, every query an equation on the state. *)
Ltac inv_tx_step :=
  match goal with
  | H : bind _ _ _ = Ok _ |- _ => apply bind_Ok in H; destruct H as (? & ? & ? & H)
  | H : ret _ _ = Ok _ |- _ => apply ret_Ok in H; destruct H as [? ?]; subst
  | H : fail _ _ = Ok _ |- _ => apply fail_Ok in H; destruct H
  | H : reads _ _ = Ok _ |- _ => apply reads_Ok in H; destruct H as [? ?]; subst
  | H : modify _ _ = Ok _ |- _ => apply modify_Ok in H; subst
  | H : require _ _ _ = Ok _ |- _ => apply require_Ok in H; destruct H as [? ?]; subst
  | H : some_or _ _ _ = Ok _ |- _ => apply some_or_Ok in H; destruct H as [? ?]; subst
  | H : lift _ _ = Ok _ |- _ => apply lift_Ok in H; destruct H as [? ?]; subst
  | H : (_, _) = (_, _) |- _ => apply pair_equal_spec in H; destruct H; subst
  | H : Ok _ = Ok _ |- _ => injection H as ?; subst
  | H : Err _ = Ok _ |- _ => discriminate H
  | H : (let (_, _) := ?x in _) _ = Ok _ |- _ => destruct x eqn:?
  | H : (if ?b then _ else _) _ = Ok _ |- _ => destruct b eqn:?
  | H : (match ?o with Some _ => _ | None => _ end) _ = Ok _ |- _ => destruct o eqn:?
  end.
Ltac inv_tx := repeat (inv_tx_step; cbn [fst snd] in *).

(** Splits conjunctions of booleans and normalises negations. *)
Ltac bool_hyps :=
  repeat match goal with
  | H : _ && _ = true |- _ => apply andb_true_iff in H; destruct H
  | H : _ || _ = false |- _ => apply orb_false_iff in H; destruct H
  | H : negb _ = true |- _ => apply negb_true_iff in H
  | H : negb _ = false |- _ => apply negb_false_iff in H
  end.

(** * Preservation

    [preserves P m]: a committed run of [m] keeps the invariant [P]. The rules
    below are the hint database [tx], so that the preservation proof of an
    operation follows its code. *)
Definition preserves {S E A} (P : S -> Prop) (m : St S E A) : Prop :=
  forall s a s', m s = Ok (a, s') -> P s -> P s'.

Section Preserves.
Context {S E : Type} (P : S -> Prop).

Lemma preserves_ret {A} (a : A) : preserves P (ret (E:=E) a).
Proof. by intros s b s' [_ ->]%ret_Ok. Qed.
Lemma preserves_fail {A} (e : E) : preserves P (fail (A:=A) e).
Proof. by intros s b s' []%fail_Ok. Qed.
Lemma preserves_reads {A} (f : S -> A) : preserves P (reads (E:=E) f).
Proof. by intros s b s' [_ ->]%reads_Ok. Qed.
Lemma preserves_require b (e : E) : preserves P (require b e).
Proof. by intros s u s' [_ ->]%require_Ok. Qed.
Lemma preserves_some_or {A} (o : option A) (e : E) : preserves P (some_or o e).
Proof. by intros s u s' [_ ->]%some_or_Ok. Qed.
Lemma preserves_lift {A} (r : result E A) : preserves P (lift r).
Proof. by intros s u s' [_ ->]%lift_Ok. Qed.
Lemma preserves_modify (f : S -> S) :
  (forall s, P s -> P (f s)) -> preserves P (modify (E:=E) f).
Proof. intros Hf s u s' ->%modify_Ok. auto. Qed.
Lemma preserves_bind {A B} (m : St S E A) (k : A -> St S E B) :
  preserves P m -> (forall a, preserves P (k a)) -> preserves P (bind m k).
Proof. intros Hm Hk s b s' (a & s1 & H1 & H2)%bind_Ok HP. eapply Hk; eauto. Qed.
(** A guard's outcome is known to the rest of the operation. *)
Lemma preserves_lift_bind {A B} (r : result E A) (k : A -> St S E B) :
  (forall a, r = Ok a -> preserves P (k a)) -> preserves P (bind (lift r) k).
Proof. intros Hk s b s' (a & s1 & [Hr ->]%lift_Ok & H2)%bind_Ok. eapply Hk; eauto. Qed.
Lemma preserves_require_bind {B} b (e : E) (k : unit -> St S E B) :
  (b = true -> preserves P (k tt)) -> preserves P (bind (require b e) k).
Proof. intros Hk s a s' (u & s1 & [Hr ->]%require_Ok & H2)%bind_Ok. destruct u. eapply Hk; eauto. Qed.
Lemma preserves_some_or_bind {A B} (o : option A) (e : E) (k : A -> St S E B) :
  (forall a, o = Some a -> preserves P (k a)) -> preserves P (bind (some_or o e) k).
Proof. intros Hk s b s' (a & s1 & [Hr ->]%some_or_Ok & H2)%bind_Ok. eapply Hk; eauto. Qed.
Lemma preserves_reads_bind {A B} (f : S -> A) (k : A -> St S E B) :
  (forall s, P s -> forall b s', k (f s) s = Ok (b, s') -> P s') -> preserves P (bind (reads f) k).
Proof. intros Hk s b s' (a & s1 & [-> ->]%reads_Ok & H2)%bind_Ok HP. eapply Hk; eauto. Qed.

Lemma preserves_if {A} (b : bool) (m1 m2 : St S E A) :
  preserves P m1 -> preserves P m2 -> preserves P (if b then m1 else m2).
Proof. by destruct b. Qed.
Lemma preserves_for_each {X} (l : list X) (f : X -> St S E unit) :
  (forall x, preserves P (f x)) -> preserves P (for_each l f).
Proof. intros Hf s u s' H. eapply for_each_Ok; [|exact H]. intros; eapply Hf; eauto. Qed.

Lemma preserves_exec {A} (m : St S E A) s :
  preserves P m -> P s -> P (snd (exec m s)).
Proof.
  intros Hm HP. unfold exec. destruct (m s) as [[a s']|] eqn:E1; [|done].
  eapply Hm; eauto.
Qed.
End Preserves.

Create HintDb tx.
#[export] Hint Resolve preserves_ret preserves_fail preserves_reads preserves_require
  preserves_some_or preserves_lift preserves_bind preserves_if preserves_for_each : tx.
#[export] Hint Extern 2 (preserves _ (let (_, _) := ?x in _)) => destruct x : tx.
#[export] Hint Extern 2 (preserves _ (match ?x with Some _ => _ | None => _ end)) =>
  destruct x : tx.

(** * Machine integers *)

Definition int64_min : Z := - 2 ^ 63.
Definition int64_max : Z := 2 ^ 63 - 1.

(** Two's complement wrap-around of a 64-bit signed result. *)
Definition wrap64 (z : Z) : Z := (z + 2 ^ 63) mod 2 ^ 64 - 2 ^ 63.

Lemma wrap64_small z : (int64_min <= z <= int64_max)%Z -> wrap64 z = z.
Proof.
  unfold int64_min, int64_max, wrap64. intros H.
  rewrite Z.mod_small; lia.
Qed.

Lemma wrap64_range z : (int64_min <= wrap64 z <= int64_max)%Z.
Proof.
  unfold int64_min, int64_max, wrap64.
  pose proof (Z.mod_pos_bound (z + 2 ^ 63) (2 ^ 64)). lia.
Qed.

(** A decidable fact about a concrete value. *)
Ltac by_computation := apply (bool_decide_eq_true_1 _); vm_compute; reflexivity.
