(* ===== verification/GoStrings.v ===== *)
(** The part of Go's [strings], [unicode/utf8], [encoding/hex] and [strconv]
    packages the program uses, on byte strings (a Go string is its bytes, a
    Rocq [string] a list of 8-bit characters). *)
From stdpp Require Import base tactics list strings.
From Stdlib Require Import ZArith Lia Ascii String.
From S2P Require Import Prelude.

Local Open Scope string_scope.
Local Open Scope Z_scope.

#[global] Arguments String.append !_ _ / : simpl nomatch.

(** Go's [==] on strings. *)
Infix "=s" := String.eqb (at level 70, no associativity) : go_scope.

(** [len(s)]: the number of bytes. *)
Definition len (s : string) : Z := Z.of_nat (String.length s).

Definition byte_code (c : ascii) : Z := Z.of_N (N_of_ascii c).
Definition byte_of (n : Z) : ascii := ascii_of_N (Z.to_N n).

Fixpoint HasPrefix (s p : string) : bool :=
  match p with
  | "" => true
  | String c p' =>
      match s with
      | "" => false
      | String d s' => Ascii.eqb d c && HasPrefix s' p'
      end
  end.

(** [strings.HasPrefix(v, p) && len(v) > len(p)], the shape of every public
    identifier check. *)
Definition has_prefix_id (v p : string) : bool := HasPrefix v p && (len p <? len v).

Fixpoint rev_append (s acc : string) : string :=
  match s with "" => acc | String c s' => rev_append s' (String c acc) end.
Definition rev_string (s : string) : string := rev_append s "".

Fixpoint forall_bytes (p : ascii -> bool) (s : string) : bool :=
  match s with "" => true | String c s' => p c && forall_bytes p s' end.
Definition exists_byte (p : ascii -> bool) (s : string) : bool :=
  negb (forall_bytes (fun c => negb (p c)) s).

Fixpoint map_bytes (f : ascii -> ascii) (s : string) : string :=
  match s with "" => "" | String c s' => String (f c) (map_bytes f s') end.

(** [strings.ContainsAny(s, chars)] for ASCII [chars]. *)
Definition contains_byte (c : ascii) (s : string) : bool := exists_byte (Ascii.eqb c) s.
Definition ContainsAny (s chars : string) : bool :=
  exists_byte (fun c => contains_byte c chars) s.

(** ** TrimSpace

    The white space of [unicode.IsSpace] in UTF-8: six ASCII bytes, two
    two-byte and seventeen three-byte sequences. *)
Definition space1 (a : ascii) : bool :=
  let n := byte_code a in (n =? 32) || ((9 <=? n) && (n <=? 13)).
Definition space2 (a b : ascii) : bool :=
  (byte_code a =? 0xC2) && ((byte_code b =? 0x85) || (byte_code b =? 0xA0)).
Definition space3 (a b c : ascii) : bool :=
  let x := byte_code a in let y := byte_code b in let z := byte_code c in
  ((x =? 0xE1) && (y =? 0x9A) && (z =? 0x80))
  || ((x =? 0xE2) && (y =? 0x80)
      && (((0x80 <=? z) && (z <=? 0x8A)) || (z =? 0xA8) || (z =? 0xA9) || (z =? 0xAF)))
  || ((x =? 0xE2) && (y =? 0x81) && (z =? 0x9F))
  || ((x =? 0xE3) && (y =? 0x80) && (z =? 0x80)).

Fixpoint trim_front (sp1 : ascii -> bool) (sp2 : ascii -> ascii -> bool)
    (sp3 : ascii -> ascii -> ascii -> bool) (s : string) : string :=
  match s with
  | "" => ""
  | String a s1 =>
      if sp1 a then trim_front sp1 sp2 sp3 s1 else
      match s1 with
      | "" => s
      | String b s2 =>
          if sp2 a b then trim_front sp1 sp2 sp3 s2 else
          match s2 with
          | "" => s
          | String c s3 => if sp3 a b c then trim_front sp1 sp2 sp3 s3 else s
          end
      end
  end.

Definition TrimLeftSpace (s : string) : string := trim_front space1 space2 space3 s.
Definition TrimRightSpace (s : string) : string :=
  rev_string (trim_front space1 (fun a b => space2 b a) (fun a b c => space3 c b a)
                (rev_string s)).
Definition TrimSpace (s : string) : string := TrimRightSpace (TrimLeftSpace s).

(** ** Case mapping

    [strings.ToLower] and [ToUpper] take a byte-wise fast path on ASCII input;
    on other input they map every rune by the Unicode tables, which are data of
    the standard library and a parameter here. *)
Class UnicodeTables := {
  unicode_lower : string -> string;
  unicode_upper : string -> string;
}.

Definition is_ascii (s : string) : bool := forall_bytes (fun c => byte_code c <? 128) s.
Definition lower_byte (c : ascii) : ascii :=
  let n := byte_code c in if (65 <=? n) && (n <=? 90) then byte_of (n + 32) else c.
Definition upper_byte (c : ascii) : ascii :=
  let n := byte_code c in if (97 <=? n) && (n <=? 122) then byte_of (n - 32) else c.

Definition ToLower `{UnicodeTables} (s : string) : string :=
  if is_ascii s then map_bytes lower_byte s else unicode_lower s.
Definition ToUpper `{UnicodeTables} (s : string) : string :=
  if is_ascii s then map_bytes upper_byte s else unicode_upper s.

(** ** Split and Join *)
Fixpoint split_acc (sep : ascii) (s acc : string) : list string :=
  match s with
  | "" => [rev_string acc]
  | String c s' =>
      if Ascii.eqb c sep then rev_string acc :: split_acc sep s' ""
      else split_acc sep s' (String c acc)
  end.
(** [strings.Split(s, sep)] for a one-byte separator. *)
Definition Split (s : string) (sep : ascii) : list string := split_acc sep s "".

Definition Join (l : list string) (sep : string) : string := String.concat sep l.

(** ** Hexadecimal and decimal text *)
Definition hex_digit (n : Z) : ascii :=
  if n <? 10 then byte_of (48 + n) else byte_of (87 + n).
Fixpoint hex_encode (s : string) : string :=
  match s with
  | "" => ""
  | String c s' =>
      String (hex_digit (byte_code c / 16)) (String (hex_digit (byte_code c mod 16)) (hex_encode s'))
  end.
Definition is_hex (c : ascii) : bool :=
  let n := byte_code c in
  ((48 <=? n) && (n <=? 57)) || ((97 <=? n) && (n <=? 102)) || ((65 <=? n) && (n <=? 70)).
(** Whether [hex.DecodeString] succeeds. *)
Definition hex_decodable (s : string) : bool := Nat.even (String.length s) && forall_bytes is_hex s.

Definition is_digit (c : ascii) : bool := (48 <=? byte_code c) && (byte_code c <=? 57).
Definition digit_val (c : ascii) : Z := byte_code c - 48.
Definition digit_chr (n : Z) : ascii := byte_of (48 + n).

(** [w] decimal digits of [n], most significant first. *)
Fixpoint dec_pad (w : nat) (n : Z) : string :=
  match w with
  | O => ""
  | S w' => dec_pad w' (n / 10) ++ String (digit_chr (n mod 10)) ""
  end.

Fixpoint dec_value (s : string) (acc : Z) : Z :=
  match s with "" => acc | String c s' => dec_value s' (acc * 10 + digit_val c) end.

(** Number of decimal digits of a non-negative number below [10^fuel]. *)
Fixpoint dec_width (fuel : nat) (n : Z) : nat :=
  match fuel with
  | O => 1%nat
  | S f => if n <? 10 then 1%nat else S (dec_width f (n / 10))
  end.
(** [strconv.FormatInt(n, 10)] for an int64. *)
Definition FormatInt (n : Z) : string :=
  if n <? 0 then String "-" (dec_pad (dec_width 20 (- n)) (- n))
  else dec_pad (dec_width 20 n) n.

(** [strconv.ParseInt(s, 10, 64)]: optional sign, at least one digit, no
    underscores in base 10, range error outside int64. *)
Definition parse_digits (s : string) : option Z :=
  if (0 <? len s) && forall_bytes is_digit s then Some (dec_value s 0) else None.
Definition in_int64 (n : Z) : bool := (int64_min <=? n) && (n <=? int64_max).
Definition ParseInt (s : string) : option Z :=
  match s with
  | String c s' =>
      let r := if Ascii.eqb c "+" then parse_digits s'
               else if Ascii.eqb c "-" then option_map Z.opp (parse_digits s')
               else parse_digits s in
      match r with Some n => if in_int64 n then Some n else None | None => None end
  | "" => None
  end.

(** ** UTF-8

    [utf8.DecodeRune]: the rune and its width in bytes; an invalid sequence is
    the replacement rune U+FFFD of width one. *)
Definition cont (c : ascii) : bool := (0x80 <=? byte_code c) && (byte_code c <=? 0xBF).
Definition rune_error : Z := 0xFFFD.
Definition decode_rune (s : string) : Z * nat :=
  match s with
  | "" => (rune_error, 0%nat)
  | String a s1 =>
      let x := byte_code a in
      if x <? 0x80 then (x, 1%nat) else
      match s1 with
      | "" => (rune_error, 1%nat)
      | String b s2 =>
          let y := byte_code b in
          if (0xC2 <=? x) && (x <=? 0xDF) && cont b
          then ((x - 0xC0) * 64 + (y - 0x80), 2%nat) else
          match s2 with
          | "" => (rune_error, 1%nat)
          | String c s3 =>
              let z := byte_code c in
              let lo := if x =? 0xE0 then 0xA0 else 0x80 in
              let hi := if x =? 0xED then 0x9F else 0xBF in
              if (0xE0 <=? x) && (x <=? 0xEF) && (lo <=? y) && (y <=? hi) && cont c
              then ((x - 0xE0) * 4096 + (y - 0x80) * 64 + (z - 0x80), 3%nat) else
              match s3 with
              | "" => (rune_error, 1%nat)
              | String d _ =>
                  let w := byte_code d in
                  let lo := if x =? 0xF0 then 0x90 else 0x80 in
                  let hi := if x =? 0xF4 then 0x8F else 0xBF in
                  if (0xF0 <=? x) && (x <=? 0xF4) && (lo <=? y) && (y <=? hi) && cont c && cont d
                  then ((x - 0xF0) * 262144 + (y - 0x80) * 4096 + (z - 0x80) * 64 + (w - 0x80), 4%nat)
                  else (rune_error, 1%nat)
              end
          end
      end
  end.

Fixpoint drop_bytes (n : nat) (s : string) : string :=
  match n, s with S n', String _ s' => drop_bytes n' s' | _, _ => s end.

Fixpoint rune_count_fuel (fuel : nat) (s : string) : Z :=
  match fuel, s with
  | S f, String _ _ => 1 + rune_count_fuel f (drop_bytes (snd (decode_rune s)) s)
  | _, _ => 0
  end.
(** [len([]rune(s))]; every rune is at least one byte, so the length is fuel enough. *)
Definition rune_count (s : string) : Z := rune_count_fuel (String.length s) s.

(** [utf8.AppendRune] for a rune in range (the replacement rune otherwise). *)
Definition encode_rune (r : Z) : string :=
  let r := if (r <? 0) || (0x10FFFF <? r) || ((0xD800 <=? r) && (r <=? 0xDFFF)) then rune_error else r in
  if r <? 0x80 then String (byte_of r) ""
  else if r <? 0x800 then String (byte_of (0xC0 + r / 64)) (String (byte_of (0x80 + r mod 64)) "")
  else if r <? 0x10000 then
    String (byte_of (0xE0 + r / 4096)) (String (byte_of (0x80 + (r / 64) mod 64))
      (String (byte_of (0x80 + r mod 64)) ""))
  else String (byte_of (0xF0 + r / 262144)) (String (byte_of (0x80 + (r / 4096) mod 64))
      (String (byte_of (0x80 + (r / 64) mod 64)) (String (byte_of (0x80 + r mod 64)) ""))).

(** ** Lines and choices *)
Definition newline : ascii := byte_of 10.
Definition crlf : string := String (byte_of 13) (String newline "").
Definition one_of (s : string) (l : list string) : bool := existsb (fun x => s =s x) l.

(** ** Lemmas *)

Lemma string_app_assoc (a b c : string) : (a ++ b) ++ c = a ++ (b ++ c).
Proof. induction a as [|x a IH]; [done|]. cbn. by f_equal. Qed.

Lemma string_app_nil_r (a : string) : a ++ "" = a.
Proof. induction a as [|x a IH]; [done|]. cbn. by f_equal. Qed.

Lemma byte_code_range c : 0 <= byte_code c < 256.
Proof. unfold byte_code. pose proof (N_ascii_bounded c). lia. Qed.

Lemma byte_code_of n : 0 <= n < 256 -> byte_code (byte_of n) = n.
Proof. intros H. unfold byte_code, byte_of. rewrite N_ascii_embedding; lia. Qed.

Lemma byte_code_inj c d : byte_code c = byte_code d -> c = d.
Proof.
  unfold byte_code. intros H.
  rewrite <- (ascii_N_embedding c), <- (ascii_N_embedding d). f_equal. lia.
Qed.

Lemma digit_val_chr n : 0 <= n < 10 -> digit_val (digit_chr n) = n.
Proof. intros H. unfold digit_val, digit_chr. rewrite byte_code_of; lia. Qed.

Lemma is_digit_chr n : 0 <= n < 10 -> is_digit (digit_chr n) = true.
Proof. intros H. unfold is_digit, digit_chr. rewrite byte_code_of; lia. Qed.

Lemma digit_chr_neq n c : 0 <= n < 10 -> is_digit c = false -> Ascii.eqb (digit_chr n) c = false.
Proof.
  intros Hn Hc. apply Ascii.eqb_neq. intros <-. by rewrite is_digit_chr in Hc.
Qed.

Lemma forall_bytes_app p a b : forall_bytes p (a ++ b) = forall_bytes p a && forall_bytes p b.
Proof. induction a as [|x a IH]; simpl; [done|]. by rewrite IH, andb_assoc. Qed.

Lemma forall_bytes_impl (p q : ascii -> bool) s :
  (forall c, p c = true -> q c = true) -> forall_bytes p s = true -> forall_bytes q s = true.
Proof.
  intros Hpq. induction s as [|c s IH]; simpl; [done|]. intros ?; bool_hyps.
  by rewrite Hpq, IH.
Qed.

Lemma len_nonneg s : 0 <= len s.
Proof. unfold len. lia. Qed.

Lemma len_app a b : len (a ++ b) = len a + len b.
Proof. unfold len. induction a as [|x a IH]; simpl in *; lia. Qed.

Lemma len_dec_pad w n : len (dec_pad w n) = Z.of_nat w.
Proof.
  revert n. induction w as [|w IH]; intros n; simpl; [done|].
  rewrite len_app, IH. unfold len. simpl String.length. lia.
Qed.

Lemma dec_pad_digits w n : forall_bytes is_digit (dec_pad w n) = true.
Proof.
  revert n. induction w as [|w IH]; intros n; simpl; [done|].
  rewrite forall_bytes_app, IH. simpl. rewrite is_digit_chr; [done|].
  pose proof (Z.mod_pos_bound n 10). lia.
Qed.

Lemma dec_value_app a b acc : dec_value (a ++ b) acc = dec_value b (dec_value a acc).
Proof. revert acc. induction a as [|c a IH]; intros acc; simpl; auto. Qed.

Lemma dec_value_pad w n acc :
  0 <= n < 10 ^ Z.of_nat w -> dec_value (dec_pad w n) acc = acc * 10 ^ Z.of_nat w + n.
Proof.
  revert n acc. induction w as [|w IH]; intros n acc Hn; simpl dec_pad.
  - simpl in *. lia.
  - replace (Z.of_nat (S w)) with (Z.of_nat w + 1) in * by lia.
    rewrite Z.pow_add_r in * by lia. change (10 ^ 1) with 10 in *.
    rewrite dec_value_app, IH.
    + simpl. pose proof (Z.mod_pos_bound n 10). rewrite digit_val_chr by lia.
      pose proof (Z.div_mod n 10). lia.
    + split; [apply Z.div_pos; lia|]. apply Z.div_lt_upper_bound; lia.
Qed.

Lemma dec_width_pos f n : (0 < dec_width f n)%nat.
Proof. destruct f; simpl; [lia|]. destruct (n <? 10); lia. Qed.

Lemma dec_width_bound f n :
  0 <= n < 10 ^ (Z.of_nat f + 1) -> n < 10 ^ Z.of_nat (dec_width f n).
Proof.
  revert n. induction f as [|f IH]; intros n Hn; cbn [dec_width].
  - simpl. by destruct Hn.
  - destruct (Z.ltb_spec n 10); [by change (10 ^ Z.of_nat 1) with 10|].
    rewrite Nat2Z.inj_succ in *. rewrite Z.pow_succ_r by lia.
    assert (n / 10 < 10 ^ Z.of_nat (dec_width f (n / 10))) as Hb.
    + apply IH. split; [apply Z.div_pos; lia|].
      apply Z.div_lt_upper_bound; [lia|].
      rewrite <- Z.pow_succ_r by lia.
      replace (Z.succ (Z.of_nat f + 1)) with (Z.succ (Z.of_nat f) + 1) by lia. lia.
    + pose proof (Z.div_mod n 10). pose proof (Z.mod_pos_bound n 10). lia.
Qed.

Lemma parse_digits_pad w n :
  (0 < w)%nat -> 0 <= n < 10 ^ Z.of_nat w -> parse_digits (dec_pad w n) = Some n.
Proof.
  intros Hw Hn. unfold parse_digits.
  rewrite len_dec_pad, dec_pad_digits, dec_value_pad by done.
  destruct (Z.ltb_spec 0 (Z.of_nat w)); [simpl; f_equal; lia|lia].
Qed.

(** [strconv] round trip on int64. *)
Lemma ParseInt_FormatInt n : in_int64 n = true -> ParseInt (FormatInt n) = Some n.
Proof.
  intros Hr. assert (Hb := Hr). unfold in_int64, int64_min, int64_max in Hb.
  bool_hyps. unfold FormatInt.
  assert (forall k, 0 <= k <= 2 ^ 63 ->
    parse_digits (dec_pad (dec_width 20 k) k) = Some k) as Hp.
  { intros k Hk. apply parse_digits_pad; [apply dec_width_pos|].
    split; [lia|]. apply dec_width_bound. lia. }
  destruct (Z.ltb_spec n 0).
  - cbn [ParseInt]. change (Ascii.eqb "-" "+") with false. change (Ascii.eqb "-" "-") with true.
    cbn [negb]. rewrite Hp by lia. cbn. rewrite Z.opp_involutive. by rewrite Hr.
  - pose proof (dec_width_pos 20 n) as Hw.
    assert (0 <= n < 10 ^ Z.of_nat (dec_width 20 n)) as Hn.
    { split; [lia|]. apply dec_width_bound. lia. }
    pose proof (Hp n ltac:(lia)) as Hpn. pose proof (dec_pad_digits (dec_width 20 n) n) as Hd.
    destruct (dec_pad (dec_width 20 n) n) as [|c s] eqn:E; [discriminate|].
    unfold ParseInt. simpl in Hd. bool_hyps.
    assert (forall x, is_digit x = false -> Ascii.eqb c x = false) as Hx.
    { intros x Hx. apply Ascii.eqb_neq. congruence. }
    rewrite !Hx by reflexivity. rewrite Hpn. by rewrite Hr.
Qed.

(** ** Trimmed strings *)
Lemma forall_bytes_rev_append p s acc :
  forall_bytes p (rev_append s acc) = forall_bytes p s && forall_bytes p acc.
Proof.
  revert acc. induction s as [|c s IH]; simpl; intros acc; [done|].
  rewrite IH. simpl. destruct (p c), (forall_bytes p s); done.
Qed.
Lemma forall_bytes_rev p s : forall_bytes p (rev_string s) = forall_bytes p s.
Proof. unfold rev_string. rewrite forall_bytes_rev_append. apply andb_true_r. Qed.

Lemma trim_front_head sp1 sp2 sp3 s a r :
  trim_front sp1 sp2 sp3 s = String a r -> sp1 a = false.
Proof.
  remember (String.length s) as n eqn:Hn. assert (String.length s <= n)%nat as Hle by lia. clear Hn.
  revert s Hle. induction n as [|n IH]; intros [|c s]; simpl; try done; [lia|]. intros Hle.
  destruct (sp1 c) eqn:E1; [apply (IH s); lia|].
  destruct s as [|d s]; [by intros [= <- _]|]. simpl in Hle.
  destruct (sp2 c d); [apply (IH s); lia|].
  destruct s as [|e s]; [by intros [= <- _]|]. simpl in Hle.
  destruct (sp3 c d e); [apply (IH s); lia|]. by intros [= <- _].
Qed.

(** A trimmed string that is not empty has a byte other than a plain space. *)
Lemma TrimSpace_not_spaces p s :
  (forall c, p c = true -> space1 c = true) -> TrimSpace s <> "" -> forall_bytes p (TrimSpace s) = false.
Proof.
  intros Hp Hs. unfold TrimSpace, TrimRightSpace in *. rewrite forall_bytes_rev.
  destruct (trim_front _ _ _ _) as [|a r] eqn:E; [done|]. apply trim_front_head in E. simpl.
  destruct (p a) eqn:Ea; [|done]. apply Hp in Ea. congruence.
Qed.

Section Trim.
Context (sp1 : ascii -> bool) (sp2 : ascii -> ascii -> bool) (sp3 : ascii -> ascii -> ascii -> bool).
Local Abbreviation trim := (trim_front sp1 sp2 sp3).

(** Nothing to trim at the front. *)
Definition trimmed (s : string) : bool :=
  match s with
  | "" => true
  | String a s1 => negb (sp1 a) &&
      match s1 with
      | "" => true
      | String b s2 => negb (sp2 a b) && match s2 with "" => true | String c _ => negb (sp3 a b c) end
      end
  end.

Lemma trim_front_trimmed s : trimmed s = true -> trim s = s.
Proof.
  destruct s as [|a [|b [|c s]]]; simpl; try done;
    intros ?; bool_hyps; repeat match goal with H : _ = false |- _ => rewrite H end; done.
Qed.
Lemma trimmed_prefix p q : trimmed (p ++ q) = true -> trimmed p = true.
Proof.
  destruct p as [|a [|b [|c p]]]; simpl; try done; intros ?; bool_hyps;
    repeat match goal with H : _ = false |- _ => rewrite H end; done.
Qed.

(** The result is a suffix with nothing to trim at its front. *)
Lemma trim_front_suffix s : exists p, s = p ++ trim s /\ trimmed (trim s) = true.
Proof.
  remember (String.length s) as n eqn:Hn. assert (String.length s <= n)%nat as Hle by lia. clear Hn.
  revert s Hle. induction n as [|n IH]; intros [|a s1] Hle; simpl in *; try lia; [by exists ""..|].
  destruct (sp1 a) eqn:E1.
  { destruct (IH s1) as (p & Hp & Ht); [lia|]. exists (String a p). split; [simpl; by f_equal|done]. }
  destruct s1 as [|b s2]; [exists ""; simpl; by rewrite E1|]. simpl in *.
  destruct (sp2 a b) eqn:E2.
  { destruct (IH s2) as (p & Hp & Ht); [lia|]. exists (String a (String b p)).
    split; [simpl; by do 2 f_equal|done]. }
  destruct s2 as [|c s3]; [exists ""; simpl; by rewrite E1, E2|]. simpl in *.
  destruct (sp3 a b c) eqn:E3.
  { destruct (IH s3) as (p & Hp & Ht); [lia|]. exists (String a (String b (String c p))).
    split; [simpl; by do 3 f_equal|done]. }
  exists "". simpl. by rewrite E1, E2, E3.
Qed.
End Trim.

Lemma rev_append_app s acc : rev_append s acc = rev_string s ++ acc.
Proof.
  unfold rev_string. revert acc. induction s as [|c s IH]; simpl; intros acc; [done|].
  rewrite IH, (IH (String c "")), string_app_assoc. done.
Qed.
Lemma rev_string_app a b : rev_string (a ++ b) = rev_string b ++ rev_string a.
Proof.
  induction a as [|c a IH]; simpl; [by rewrite string_app_nil_r|].
  unfold rev_string at 1 3. simpl. rewrite !rev_append_app, IH, string_app_assoc. done.
Qed.
Lemma rev_string_involutive s : rev_string (rev_string s) = s.
Proof.
  induction s as [|c s IH]; [done|]. unfold rev_string at 2. simpl.
  rewrite rev_append_app, rev_string_app, IH. done.
Qed.

(** [strings.TrimSpace] is idempotent. *)
Lemma TrimSpace_idem s : TrimSpace (TrimSpace s) = TrimSpace s.
Proof.
  unfold TrimSpace at 2 3. destruct (trim_front_suffix space1 space2 space3 s) as (_ & _ & HL).
  fold (TrimLeftSpace s) in *. set (l := TrimLeftSpace s) in *.
  unfold TrimRightSpace. set (r2 := fun a b => _). set (r3 := fun a b c => _).
  destruct (trim_front_suffix space1 r2 r3 (rev_string l)) as (p & Hp & HR).
  set (t := trim_front space1 r2 r3 (rev_string l)) in *.
  assert (l = rev_string t ++ rev_string p) as Hl.
  { by rewrite <-rev_string_app, <-Hp, rev_string_involutive. }
  unfold TrimSpace, TrimLeftSpace, TrimRightSpace. fold r2 r3.
  rewrite (trim_front_trimmed _ _ _ (rev_string t)).
  - by rewrite rev_string_involutive, trim_front_trimmed.
  - rewrite Hl in HL. by apply trimmed_prefix in HL.
Qed.

(** ** Texts joined by a separator *)
Definition free_of (c : ascii) (s : string) : bool := negb (contains_byte c s).

Lemma free_of_String c d s : free_of c (String d s) = negb (Ascii.eqb c d) && free_of c s.
Proof. unfold free_of, contains_byte, exists_byte. cbn [forall_bytes]. by rewrite !negb_involutive. Qed.

(** The last separator splits a text in one way. *)
Lemma last_separator c a b a' b' :
  free_of c b = true -> free_of c b' = true ->
  a ++ String c b = a' ++ String c b' -> a = a' /\ b = b'.
Proof.
  intros Hb Hb'. assert (forall x y, free_of c (x ++ String c y) = false) as Hf.
  { intros x y. induction x as [|d x IH]; cbn [append]; rewrite free_of_String; [by rewrite Ascii.eqb_refl|].
    by rewrite IH, andb_false_r. }
  revert a'. induction a as [|d a IH]; intros [|d' a'] E; cbn [append] in E.
  - by injection E as ->.
  - injection E as -> E. by rewrite E, Hf in Hb.
  - injection E as -> E. by rewrite <-E, Hf in Hb'.
  - injection E as -> E. destruct (IH a' E) as [-> ->]. done.
Qed.

Lemma Join_snoc sep x l y : Join (x :: (l ++ [y])%list) sep = Join (x :: l) sep ++ sep ++ y.
Proof.
  unfold Join. revert x. induction l as [|z l IH]; intros x; [done|].
  change (String.concat sep (x :: (z :: l) ++ [y])%list) with (x ++ sep ++ String.concat sep (z :: (l ++ [y])%list)).
  rewrite IH. change (String.concat sep (x :: z :: l)) with (x ++ sep ++ String.concat sep (z :: l)).
  by rewrite !string_app_assoc.
Qed.

(** A join determines its elements when none but the first contains the separator. *)
Lemma Join_inj c x l x' l' :
  List.length l = List.length l' -> forallb (free_of c) l = true -> forallb (free_of c) l' = true ->
  Join (x :: l) (String c "") = Join (x' :: l') (String c "") -> x = x' /\ l = l'.
Proof.
  revert l'. induction l as [|y l IH] using rev_ind; intros l' Hlen Hl Hl' E.
  - by destruct l'.
  - destruct l' as [|y' l' _] using rev_ind; rewrite ?length_app in Hlen; simpl in Hlen; [lia|].
    rewrite !Join_snoc in E. rewrite forallb_app in Hl, Hl'. cbn [forallb] in Hl, Hl'. bool_hyps.
    cbn [append] in E. apply last_separator in E as [E ->]; [|done..].
    destruct (IH l') as [-> ->]; [lia|done..].
Qed.

Lemma split_first c a a' b b' :
  free_of c a = true -> free_of c a' = true -> a ++ String c b = a' ++ String c b' -> a = a' /\ b = b'.
Proof.
  revert a'. induction a as [|x a IH]; intros [|x' a'] Ha Ha' He; cbn in He.
  - by injection He.
  - injection He as <- _. rewrite free_of_String, Ascii.eqb_refl in Ha'. done.
  - injection He as -> _. rewrite free_of_String, Ascii.eqb_refl in Ha. done.
  - injection He as <- He. rewrite free_of_String in Ha, Ha'. apply andb_true_iff in Ha as [_ Ha], Ha' as [_ Ha'].
    by destruct (IH a' Ha Ha' He) as [-> ->].
Qed.
Lemma one_of_In s l : one_of s l = true <-> In s l.
Proof.
  unfold one_of. rewrite existsb_exists. split; [intros (x & Hx & He); apply String.eqb_eq in He; by subst|].
  intros Hs. exists s. split; [done|apply String.eqb_refl].
Qed.
Lemma forall_bytes_free p c s : p c = false -> forall_bytes p s = true -> free_of c s = true.
Proof.
  intros Hc. induction s as [|d s IH]; [done|]. cbn [forall_bytes]. intros ?; bool_hyps.
  rewrite free_of_String, IH, andb_true_r by done. destruct (Ascii.eqb_spec c d); [subst; congruence|done].
Qed.
Lemma ContainsAny_free c chars s :
  contains_byte c chars = true -> ContainsAny s chars = false -> free_of c s = true.
Proof.
  intros Hc. unfold ContainsAny, exists_byte. intros H%negb_false_iff.
  eapply forall_bytes_free; [|exact H]. cbn. by rewrite Hc.
Qed.

(** ** Texts that TrimSpace leaves alone *)
Definition printable (c : ascii) : bool := (32 <? byte_code c) && (byte_code c <? 128).

Lemma trim_front_id (sp1 : ascii -> bool) sp2 sp3 s :
  (forall a, printable a = true -> sp1 a = false) ->
  (forall a b, printable a = true -> sp2 a b = false) ->
  (forall a b c, printable a = true -> sp3 a b c = false) ->
  forall_bytes printable s = true -> trim_front sp1 sp2 sp3 s = s.
Proof.
  intros H1 H2 H3 Hs. destruct s as [|a s]; [done|]. cbn [forall_bytes] in Hs. bool_hyps.
  cbn [trim_front]. rewrite H1 by done. destruct s as [|b s]; [done|]. rewrite H2 by done.
  destruct s as [|c s]; [done|]. by rewrite H3.
Qed.

Lemma TrimSpace_id s : forall_bytes printable s = true -> TrimSpace s = s.
Proof.
  intros Hs. unfold TrimSpace, TrimLeftSpace, TrimRightSpace.
  assert (forall a, printable a = true -> space1 a = false) as H1.
  { unfold printable, space1. intros. lia. }
  assert (forall a b, printable a = true -> space2 a b = false) as H2 by (unfold printable, space2; lia).
  assert (forall a b, printable b = true -> space2 a b = false) as H2' by (unfold printable, space2; lia).
  assert (forall a b c, printable a = true -> space3 a b c = false) as H3 by (unfold printable, space3; lia).
  assert (forall a b c, printable c = true -> space3 a b c = false) as H3' by (unfold printable, space3; lia).
  rewrite (trim_front_id _ _ _ s) by auto. rewrite trim_front_id; auto using rev_string_involutive.
  by rewrite forall_bytes_rev.
Qed.

Lemma HasPrefix_app p s : HasPrefix (p ++ s) p = true.
Proof. induction p as [|c p IH]; [by destruct s|]. cbn. by rewrite Ascii.eqb_refl, IH. Qed.

Lemma FormatInt_nonempty n : 0 <= n -> 0 < len (FormatInt n).
Proof.
  intros Hn. unfold FormatInt. destruct (Z.ltb_spec n 0); [lia|]. rewrite len_dec_pad.
  pose proof (dec_width_pos 20 n). lia.
Qed.
Lemma FormatInt_printable n : 0 <= n -> forall_bytes printable (FormatInt n) = true.
Proof.
  intros Hn. unfold FormatInt. destruct (Z.ltb_spec n 0); [lia|].
  eapply forall_bytes_impl; [|apply dec_pad_digits]. unfold is_digit, printable. lia.
Qed.
Lemma ParseInt_range s n : ParseInt s = Some n -> in_int64 n = true.
Proof.
  destruct s as [|c s]; [discriminate|]. unfold ParseInt.
  destruct (if Ascii.eqb c "+" then _ else _); [|discriminate].
  destruct (in_int64 z) eqn:E; [|discriminate]. by intros [= <-].
Qed.

(** ** Splitting a joined text *)
Lemma split_acc_free sep a b acc :
  free_of sep a = true -> split_acc sep (a ++ String sep b) acc = (rev_string acc ++ a) :: split_acc sep b "".
Proof.
  revert acc. induction a as [|c a IH]; intros acc Ha; cbn [append split_acc].
  - by rewrite Ascii.eqb_refl, string_app_nil_r.
  - rewrite free_of_String in Ha. bool_hyps. rewrite Ascii.eqb_sym. destruct (Ascii.eqb sep c); [discriminate|].
    rewrite IH by done. unfold rev_string at 1. cbn [rev_append]. rewrite rev_append_app, string_app_assoc. done.
Qed.
Lemma split_acc_last sep a acc : free_of sep a = true -> split_acc sep a acc = [rev_string acc ++ a].
Proof.
  revert acc. induction a as [|c a IH]; intros acc Ha; cbn [split_acc].
  - by rewrite string_app_nil_r.
  - rewrite free_of_String in Ha. bool_hyps. rewrite Ascii.eqb_sym. destruct (Ascii.eqb sep c); [discriminate|].
    rewrite IH by done. unfold rev_string at 1. cbn [rev_append]. rewrite rev_append_app, string_app_assoc. done.
Qed.
Lemma Split_cons sep a b : free_of sep a = true -> Split (a ++ String sep b) sep = a :: Split b sep.
Proof. intros Ha. unfold Split. by rewrite split_acc_free. Qed.
Lemma Split_last sep a : free_of sep a = true -> Split a sep = [a].
Proof. intros Ha. unfold Split. by rewrite split_acc_last. Qed.

Lemma free_of_rev c s : free_of c (rev_string s) = free_of c s.
Proof. unfold free_of, contains_byte, exists_byte. by rewrite forall_bytes_rev. Qed.
Lemma Split_free sep s x : In x (Split s sep) -> free_of sep x = true.
Proof.
  unfold Split. assert (free_of sep "" = true) as Hacc by done. revert Hacc. generalize "" as acc.
  induction s as [|c s IH]; intros acc Hacc; cbn [split_acc In].
  - intros [<-|[]]. by rewrite free_of_rev.
  - destruct (Ascii.eqb_spec c sep) as [->|Hc]; cbn [In].
    + intros [<-|Hx]; [by rewrite free_of_rev|]. by apply (IH "").
    + apply IH. rewrite free_of_String, Hacc, andb_true_r. apply negb_true_iff, Ascii.eqb_neq. congruence.
Qed.
