(* ===== verification/GoTime.v ===== *)
(** Go's [time] package as the program uses it, and the text it stores in the
    database: [formatTime] and [parseTime] of internal/db/sqlite/users.go.

    A [time.Time] is its number of nanoseconds since 1970-01-01T00:00:00Z; the
    zero value is the first instant of year 1. Every time the program keeps is
    converted to UTC first, so no zone is modelled. *)
From stdpp Require Import base tactics list strings.
From Stdlib Require Import ZArith Lia Ascii String.
From S2P Require Import Prelude GoStrings.

Local Open Scope string_scope.
Local Open Scope Z_scope.

Definition Second : Z := 10 ^ 9.
Definition Minute : Z := 60 * Second.
Definition Hour : Z := 60 * Minute.

(** [time.Time{}] and [Time.IsZero] *)
Definition zero_time : Z := -62135596800 * Second.
Definition IsZero (t : Z) : bool := t =? zero_time.

(** [Time.Unix()] and the nanosecond within the second *)
Definition Unix (t : Z) : Z := t / Second.
Definition Nanosecond (t : Z) : Z := t mod Second.

(** [a.After(b)], [a.Before(b)], [t.Add(d)] *)
Definition After (a b : Z) : bool := b <? a.
Definition Before (a b : Z) : bool := a <? b.
(** [a.Sub(b)]: a Duration, which saturates at the int64 bounds *)
Definition Sub (a b : Z) : Z := Z.max int64_min (Z.min int64_max (a - b)).

(** ** Civil dates

    Days since the epoch to (year, month, day) in the proleptic Gregorian
    calendar, counted in 400-year eras that start on 1 March. *)
Definition doe_split (doe : Z) : Z * Z :=
  let c := Z.min 3 (doe / 36524) in
  let r := doe - 36524 * c in
  let q := r / 1461 in
  let r := r - 1461 * q in
  let y := Z.min 3 (r / 365) in
  (100 * c + 4 * q + y, r - 365 * y).
Definition doy_date (doy : Z) : Z * Z :=
  let mp := (5 * doy + 2) / 153 in
  (if mp <? 10 then mp + 3 else mp - 9, doy - (153 * mp + 2) / 5 + 1).
Definition civil_from_days (z : Z) : Z * Z * Z :=
  let z := z + 719468 in
  let '(yoe, doy) := doe_split (z mod 146097) in
  let '(m, d) := doy_date doy in
  let y := yoe + z / 146097 * 400 in
  (if m <=? 2 then y + 1 else y, m, d).

Definition days_from_civil (y m d : Z) : Z :=
  let y := if m <=? 2 then y - 1 else y in
  let era := y / 400 in
  let yoe := y mod 400 in
  let mp := if m <=? 2 then m + 9 else m - 3 in
  let doy := (153 * mp + 2) / 5 + d - 1 in
  era * 146097 + (yoe * 365 + yoe / 4 - yoe / 100 + doy) - 719468.

Definition days_in (y m : Z) : Z :=
  if m =? 2 then if ((y mod 4 =? 0) && negb (y mod 100 =? 0)) || (y mod 400 =? 0) then 29 else 28
  else if (m =? 4) || (m =? 6) || (m =? 9) || (m =? 11) then 30 else 31.

(** ** formatTime: [value.UTC().Format(time.RFC3339Nano)]

    The layout's fraction ".999999999" drops trailing zeros, and the point with
    them when the fraction is zero. *)
Fixpoint frac_digits (w : nat) (n : Z) : string :=
  match w with
  | O => ""
  | S w' => if n =? 0 then ""
            else String (digit_chr (n / 10 ^ Z.of_nat w')) (frac_digits w' (n mod 10 ^ Z.of_nat w'))
  end.
Definition format_frac (ns : Z) : string :=
  if ns =? 0 then "" else String "." (frac_digits 9 ns).

(** Years outside 0..9999 are printed with a sign or more digits by Go; the
    theorems are about the four-digit years. *)
Definition format_year (y : Z) : string :=
  if y <? 0 then String "-" (dec_pad (Nat.max 4 (dec_width 20 (- y))) (- y))
  else dec_pad (Nat.max 4 (dec_width 20 y)) y.

Definition format_clock (sod ns : Z) : string :=
  dec_pad 2 (sod / 3600) ++ ":" ++ dec_pad 2 (sod / 60 mod 60) ++ ":" ++ dec_pad 2 (sod mod 60)
  ++ format_frac ns ++ "Z".
Definition formatTime (t : Z) : string :=
  let sec := Unix t in
  let '(y, m, d) := civil_from_days (sec / 86400) in
  format_year y ++ "-" ++ dec_pad 2 m ++ "-" ++ dec_pad 2 d ++ "T"
  ++ format_clock (sec mod 86400) (Nanosecond t).

(** ** [time.Parse(time.RFC3339Nano, value)]

    First the strict form in UTC ("Z"), the only one formatTime writes. Digits
    after the ninth fractional one are dropped. *)
Fixpoint parse_frac (w : nat) (s : string) : option Z :=
  match s with
  | "" => None
  | String c s' =>
      if Ascii.eqb c "Z" then match s' with "" => Some 0 | _ => None end
      else if is_digit c then
        match w with
        | O => parse_frac O s'
        | S w' => option_map (Z.add (digit_val c * 10 ^ Z.of_nat w')) (parse_frac w' s')
        end
      else None
  end.
Definition parse_tail (s : string) : option Z :=
  match s with
  | String c s' =>
      if Ascii.eqb c "Z" then match s' with "" => Some 0 | _ => None end
      else if Ascii.eqb c "." then
        match s' with String d _ => if is_digit d then parse_frac 9 s' else None | _ => None end
      else None
  | "" => None
  end.
Definition two (a b : ascii) : Z := digit_val a * 10 + digit_val b.

Definition parse_fields (y m d hh mm ss : Z) (tail : string) : option Z :=
  if (1 <=? m) && (m <=? 12) && (1 <=? d) && (d <=? days_in y m)
     && (hh <=? 23) && (mm <=? 59) && (ss <=? 59)
  then match parse_tail tail with
       | Some ns => Some ((days_from_civil y m d * 86400 + hh * 3600 + mm * 60 + ss) * Second + ns)%Z
       | None => None
       end
  else None.
Definition parse_time (s : string) : option Z :=
  match s with
  | String y1 (String y2 (String y3 (String y4 (String c1 (String m1 (String m2 (String c2
    (String d1 (String d2 (String c3 (String h1 (String h2 (String c4 (String n1 (String n2
    (String c5 (String s1 (String s2 tail)))))))))))))))))) =>
      if is_digit y1 && is_digit y2 && is_digit y3 && is_digit y4 && Ascii.eqb c1 "-"
         && is_digit m1 && is_digit m2 && Ascii.eqb c2 "-" && is_digit d1 && is_digit d2
         && Ascii.eqb c3 "T" && is_digit h1 && is_digit h2 && Ascii.eqb c4 ":"
         && is_digit n1 && is_digit n2 && Ascii.eqb c5 ":" && is_digit s1 && is_digit s2
      then parse_fields (two y1 y2 * 100 + two y3 y4) (two m1 m2) (two d1 d2)
             (two h1 h2) (two n1 n2) (two s1 s2) tail
      else None
  | _ => None
  end.

(** [time.Time.UnmarshalJSON] on the text between the quotes: RFC 3339 in UTC or
    with a numeric offset. *)
Definition zone_offset (s : string) : option Z :=
  match s with
  | String g (String h1 (String h2 (String c (String m1 (String m2 ""))))) =>
      if (Ascii.eqb g "+" || Ascii.eqb g "-") && is_digit h1 && is_digit h2 && Ascii.eqb c ":"
         && is_digit m1 && is_digit m2 && (two h1 h2 <=? 23) && (two m1 m2 <=? 59)
      then Some ((if Ascii.eqb g "-" then -1 else 1) * (two h1 h2 * 3600 + two m1 m2 * 60)) else None
  | _ => None
  end.
Definition rfc3339 (s : string) : option Z :=
  match parse_time s with
  | Some t => Some t
  | None =>
      let n := (String.length s - 6)%nat in
      match zone_offset (substring n 6 s), parse_time (substring 0 n s ++ "Z") with
      | Some offset, Some t => Some (t - offset * Second)
      | _, _ => None
      end
  end.

(** What [time.Parse] reads when the strict form fails: an hour of one digit, a
    comma before the fraction, offsets up to 24 hours and 60 minutes. *)
Definition getnum (fixed : bool) (s : string) : option (Z * string) :=
  match s with
  | String a s1 =>
      if negb (is_digit a) then None else
      match s1 with
      | String b s2 => if is_digit b then Some (two a b, s2) else if fixed then None else Some (digit_val a, s1)
      | "" => if fixed then None else Some (digit_val a, "")
      end
  | "" => None
  end.
Definition literal (c : ascii) (s : string) : option string :=
  match s with String d s' => if Ascii.eqb c d then Some s' else None | "" => None end.
(** The digits that follow, at most nine of them counted, and the rest. *)
Fixpoint fraction (w : nat) (s : string) : Z * string :=
  match s with
  | String c s' =>
      if is_digit c then
        match w with
        | O => fraction O s'
        | S w' => let '(n, rest) := fraction w' s' in (digit_val c * 10 ^ Z.of_nat w' + n, rest)
        end
      else (0, s)
  | "" => (0, "")
  end.
Definition opt_fraction (s : string) : Z * string :=
  match s with
  | String c (String d _ as s') =>
      if (Ascii.eqb c "." || Ascii.eqb c ",") && is_digit d then fraction 9 s' else (0, s)
  | _ => (0, s)
  end.
Definition layout_zone (s : string) : option Z :=
  if s =s "Z" then Some 0 else
  match s with
  | String g (String h1 (String h2 (String c (String m1 (String m2 ""))))) =>
      if (Ascii.eqb g "+" || Ascii.eqb g "-") && is_digit h1 && is_digit h2 && Ascii.eqb c ":"
         && is_digit m1 && is_digit m2 && (two h1 h2 <=? 24) && (two m1 m2 <=? 60)
      then Some ((if Ascii.eqb g "-" then -1 else 1) * (two h1 h2 * 3600 + two m1 m2 * 60)) else None
  | _ => None
  end.
#[local] Notation "'let*' p := e 'in' f" := (match e with Some p => f | None => None end) (at level 200, p pattern, right associativity).
Definition parse_layout (s : string) : option Z :=
  let* (y1, s) := getnum true s in let* (y2, s) := getnum true s in let* s := literal "-" s in
  let* (m, s) := getnum true s in let* s := literal "-" s in
  let* (d, s) := getnum true s in let* s := literal "T" s in
  let* (hh, s) := getnum false s in let* s := literal ":" s in
  let* (mm, s) := getnum true s in let* s := literal ":" s in
  let* (ss, s) := getnum true s in
  let '(ns, s) := opt_fraction s in
  let* offset := layout_zone s in
  if (1 <=? m) && (m <=? 12) && (1 <=? d) && (d <=? days_in (y1 * 100 + y2) m) && (hh <=? 23) && (mm <=? 59) && (ss <=? 59)
  then Some ((days_from_civil (y1 * 100 + y2) m d * 86400 + hh * 3600 + mm * 60 + ss - offset) * Second + ns)%Z
  else None.
Definition Parse (s : string) : option Z :=
  match rfc3339 s with Some t => Some t | None => parse_layout s end.
(** parseTime: errors are ignored. *)
Definition parseTime (s : string) : Z := match Parse s with Some t => t | None => zero_time end.

(** ** Text comparison

    SQLite compares TEXT values with its BINARY collation, byte by byte. *)
Fixpoint text_lt (a b : string) : bool :=
  match a, b with
  | _, "" => false
  | "", String _ _ => true
  | String c a', String d b' =>
      (byte_code c <? byte_code d) || ((byte_code c =? byte_code d) && text_lt a' b')
  end.
Definition text_le (a b : string) : bool := negb (text_lt b a).
(** The order on several fields: the first that differs decides. *)
Fixpoint fields_before (pairs : list (string * string)) : bool :=
  match pairs with
  | [] => false
  | (a, b) :: pairs => if a =s b then fields_before pairs else text_lt a b
  end.

(** The instants of years 0 to 9999, the ones with a four-digit year. *)
Definition four_digit_year (t : Z) : Prop := -719528 * 86400 * Second <= t < 2932897 * 86400 * Second.

Example format_epoch : formatTime 0 = "1970-01-01T00:00:00Z".
Proof. reflexivity. Qed.
Example format_frac_ex : formatTime (1789516800 * Second + 120000000) = "2026-09-16T00:00:00.12Z".
Proof. reflexivity. Qed.
Example format_leap : formatTime (951782400 * Second + 1) = "2000-02-29T00:00:00.000000001Z".
Proof. reflexivity. Qed.
Example parse_ex : parseTime "2026-09-16T00:00:00.12Z" = 1789516800 * Second + 120000000.
Proof. reflexivity. Qed.
Example format_zero : formatTime zero_time = "0001-01-01T00:00:00Z".
Proof. reflexivity. Qed.

(** ** Civil dates: round trip and order *)

#[local] Ltac Zify.zify_post_hook ::= Z.to_euclidean_division_equations.

(** Days before the first of March of year [y], from year 0. *)
Definition year_start (y : Z) : Z := 365 * y + y / 4 - y / 100 + y / 400.

Lemma year_start_era y :
  year_start y = y / 400 * 146097 + (y mod 400 * 365 + y mod 400 / 4 - y mod 400 / 100).
Proof.
  unfold year_start. pose proof (Z.div_mod y 400 ltac:(lia)). pose proof (Z.mod_pos_bound y 400 ltac:(lia)).
  remember (y / 400) as e eqn:He. set (r := y mod 400) in *. clearbody r.
  assert (y / 4 = 100 * e + r / 4) as ->.
  { replace y with (r + 100 * e * 4) by lia. rewrite Z.div_add; lia. }
  assert (y / 100 = 4 * e + r / 100) as ->.
  { replace y with (r + 4 * e * 100) by lia. rewrite Z.div_add; lia. }
  lia.
Qed.

Lemma days_from_civil_start y m d :
  days_from_civil y m d =
  (if m <=? 2 then year_start (y - 1) + (153 * (m + 9) + 2) / 5
   else year_start y + (153 * (m - 3) + 2) / 5) + d - 1 - 719468.
Proof.
  unfold days_from_civil. destruct (m <=? 2); rewrite (year_start_era _); lia.
Qed.

Definition valid_date (y m d : Z) : Prop := 1 <= m <= 12 /\ 1 <= d <= days_in y m.

(** Decides the closed tests of the goal by computation. *)
Ltac closed_ifs :=
  repeat match goal with
  | |- context [if ?b then _ else _] =>
      let v := eval vm_compute in b in
      match v with true => change b with true | false => change b with false end; cbv iota
  end.

Lemma doe_split_spec doe yoe doy :
  0 <= doe < 146097 -> doe_split doe = (yoe, doy) ->
  0 <= yoe < 400 /\ 0 <= doy <= 365 /\ doe = 365 * yoe + yoe / 4 - yoe / 100 + doy
  /\ (doy = 365 -> (yoe + 1) mod 4 = 0 /\ ((yoe + 1) mod 100 = 0 -> (yoe + 1) mod 400 = 0)).
Proof.
  unfold doe_split. intros H [= <- <-].
  set (c := Z.min 3 (doe / 36524)).
  assert (Hc : 0 <= c <= 3 /\ 0 <= doe - 36524 * c <= 36524
    /\ (doe - 36524 * c = 36524 -> c = 3)) by (unfold c; lia).
  clearbody c. set (r := doe - 36524 * c) in *.
  assert (Hr : doe = 36524 * c + r) by (unfold r; lia). clearbody r.
  set (q := r / 1461). set (r2 := r - 1461 * q).
  assert (Hq : 0 <= q <= 24 /\ 0 <= r2 <= 1460 /\ r = 1461 * q + r2) by (unfold r2, q; lia).
  clearbody r2. clearbody q.
  set (y := Z.min 3 (r2 / 365)).
  assert (Hy : 0 <= y <= 3 /\ 0 <= r2 - 365 * y <= 365 /\ (r2 - 365 * y = 365 -> y = 3))
    by (unfold y; lia).
  clearbody y.
  assert ((100 * c + 4 * q + y) / 4 = 25 * c + q) as -> by lia.
  assert ((100 * c + 4 * q + y) / 100 = c) as -> by lia.
  split; [lia|]. split; [lia|]. split; [lia|]. intros He.
  assert (y = 3) as -> by lia. split; [lia|]. intros Hm.
  assert (q = 24) as -> by lia. assert (c = 3) as -> by lia. done.
Qed.

Lemma doy_date_spec doy m d :
  0 <= doy <= 365 -> doy_date doy = (m, d) ->
  1 <= m <= 12 /\ 1 <= d /\
  (if m <=? 2 then (153 * (m + 9) + 2) / 5 else (153 * (m - 3) + 2) / 5) + d - 1 = doy /\
  (m = 2 -> d <= 29 /\ (d = 29 -> doy = 365)) /\
  (m <> 2 -> d <= (if (m =? 4) || (m =? 6) || (m =? 9) || (m =? 11) then 30 else 31)).
Proof.
  unfold doy_date. intros H [= <- <-].
  set (mp := (5 * doy + 2) / 153).
  assert (Hmp : 0 <= mp <= 11) by (unfold mp; lia).
  assert (Hd : 153 * mp <= 5 * doy + 2 < 153 * mp + 153) by (unfold mp; lia).
  clearbody mp.
  assert (mp = 0 \/ mp = 1 \/ mp = 2 \/ mp = 3 \/ mp = 4 \/ mp = 5 \/ mp = 6 \/ mp = 7
          \/ mp = 8 \/ mp = 9 \/ mp = 10 \/ mp = 11) as Hc by lia.
  destruct_or! Hc; subst mp; closed_ifs; lia.
Qed.

Lemma civil_from_days_spec z y m d :
  civil_from_days z = (y, m, d) -> valid_date y m d /\ days_from_civil y m d = z.
Proof.
  unfold civil_from_days, valid_date.
  destruct (doe_split _) as [yoe doy] eqn:E1. destruct (doy_date doy) as [m' d'] eqn:E2.
  intros [= <- -> ->].
  apply doe_split_spec in E1 as (Hy & Hdoy & Hdoe & Hleap); [|lia].
  apply doy_date_spec in E2 as (Hm & Hd & Hsum & Hfeb & Hother); [|lia].
  rewrite days_from_civil_start. unfold year_start, days_in.
  set (era := (z + 719468) / 146097) in *.
  assert (z + 719468 = era * 146097 + (z + 719468) mod 146097) by (unfold era; lia).
  clearbody era.
  split; [split; [done|]|].
  - destruct (Z.eqb_spec m 2) as [->|Hm2].
    + cbn. replace ((yoe + era * 400 + 1) mod 4) with ((yoe + 1) mod 4) by lia.
      replace ((yoe + era * 400 + 1) mod 100) with ((yoe + 1) mod 100) by lia.
      replace ((yoe + era * 400 + 1) mod 400) with ((yoe + 1) mod 400) by lia.
      destruct (Z.eqb_spec ((yoe + 1) mod 4) 0), (Z.eqb_spec ((yoe + 1) mod 100) 0),
        (Z.eqb_spec ((yoe + 1) mod 400) 0); cbn -[Z.add Z.sub Z.div Z.mul Z.modulo]; lia.
    + specialize (Hother Hm2). lia.
  - destruct (Z.leb_spec m 2); lia.
Qed.

Definition date_lt (a b : Z * Z * Z) : Prop :=
  let '(y, m, d) := a in let '(y', m', d') := b in
  y < y' \/ (y = y' /\ (m < m' \/ (m = m' /\ d < d'))).

Lemma days_in_bound y m : 28 <= days_in y m <= 31.
Proof. unfold days_in. repeat case_match; lia. Qed.

Lemma year_start_mono y y' : y <= y' -> year_start y <= year_start y'.
Proof. unfold year_start. lia. Qed.

Lemma year_start_step y : year_start (y - 1) + 337 + days_in y 2 = year_start y.
Proof.
  unfold year_start, days_in. cbn [Z.eqb].
  destruct (Z.eqb_spec (y mod 4) 0), (Z.eqb_spec (y mod 100) 0), (Z.eqb_spec (y mod 400) 0);
    cbn; lia.
Qed.

(** Within a year, the last day of a month precedes the first of the next. *)
Lemma month_order y m d m' d' :
  1 <= m -> m < m' -> m' <= 12 -> d <= days_in y m -> 1 <= d' ->
  days_from_civil y m d < days_from_civil y m' d'.
Proof.
  intros Hm Hlt Hm' Hd Hd'. rewrite !days_from_civil_start.
  pose proof (year_start_step y) as Hs. pose proof (days_in_bound y 2).
  assert (m = 1 \/ m = 2 \/ m = 3 \/ m = 4 \/ m = 5 \/ m = 6 \/ m = 7 \/ m = 8 \/ m = 9
    \/ m = 10 \/ m = 11) as Hc by lia.
  assert (Hd2 : d <= (if m =? 2 then days_in y 2 else
    if (m =? 4) || (m =? 6) || (m =? 9) || (m =? 11) then 30 else 31)).
  { destruct (Z.eqb_spec m 2) as [->|]; [done|]. unfold days_in in Hd.
    by rewrite (proj2 (Z.eqb_neq m 2)) in Hd. }
  clear Hd. revert Hd2.
  destruct (Z.leb_spec m' 2) as [?|?]; destruct_or! Hc; subst m; closed_ifs; lia.
Qed.

Lemma days_order y m d y' m' d' :
  valid_date y m d -> valid_date y' m' d' ->
  date_lt (y, m, d) (y', m', d') -> days_from_civil y m d < days_from_civil y' m' d'.
Proof.
  intros [Hm Hd] [Hm' Hd'] [Hlt|[-> [Hlt|[-> Hlt]]]].
  - assert (days_from_civil y m d <= year_start y + 305 - 719468) as H1.
    { rewrite days_from_civil_start. pose proof (year_start_step y).
      pose proof (days_in_bound y 2). pose proof (days_in_bound y m).
      assert (m = 11 -> d <= 30) by (intros ->; exact (proj2 Hd)).
      destruct (Z.leb_spec m 2); lia. }
    assert (year_start (y' - 1) + 306 - 719468 <= days_from_civil y' m' d') as H2.
    { rewrite days_from_civil_start. pose proof (year_start_step y').
      pose proof (days_in_bound y' 2). destruct (Z.leb_spec m' 2); lia. }
    pose proof (year_start_mono y (y' - 1)). lia.
  - apply month_order; lia.
  - rewrite !days_from_civil_start. destruct (m' <=? 2); lia.
Qed.

Lemma civil_mono a b : a < b -> date_lt (civil_from_days a) (civil_from_days b).
Proof.
  intros Hab.
  destruct (civil_from_days a) as [[y m] d] eqn:Ea.
  destruct (civil_from_days b) as [[y' m'] d'] eqn:Eb.
  apply civil_from_days_spec in Ea as [Va Ha]. apply civil_from_days_spec in Eb as [Vb Hb].
  assert (date_lt (y, m, d) (y', m', d') \/ (y, m, d) = (y', m', d')
          \/ date_lt (y', m', d') (y, m, d)) as [?|[[= -> -> ->]|Hgt]]; [|done|lia|].
  - unfold date_lt. destruct (Z.lt_total y y') as [?|[->|?]]; [lia| |lia].
    destruct (Z.lt_total m m') as [?|[->|?]]; [lia| |lia].
    destruct (Z.lt_total d d') as [?|[->|?]]; [lia| |lia]. auto.
  - apply days_order in Hgt; [lia|done|done].
Qed.

(** ** The stored text orders instants by their second *)

Lemma text_lt_app p a b : text_lt (p ++ a) (p ++ b) = text_lt a b.
Proof.
  induction p as [|c p IH]; [done|]. simpl. rewrite IH.
  rewrite Z.ltb_irrefl, Z.eqb_refl. done.
Qed.

Lemma text_lt_irrefl a : text_lt a a = false.
Proof. induction a as [|c a IH]; [done|]. simpl. by rewrite Z.ltb_irrefl, IH, andb_false_r. Qed.

Lemma text_lt_trans a b c : text_lt a b = true -> text_lt b c = true -> text_lt a c = true.
Proof.
  revert b c. induction a as [|x a IH]; intros [|y b] [|z c]; simpl; try done.
  intros Hab Hbc. apply orb_true_iff in Hab, Hbc. apply orb_true_iff.
  destruct Hab as [Hab|Hab], Hbc as [Hbc|Hbc]; rewrite ?andb_true_iff in *.
  - left. lia.
  - left. lia.
  - left. lia.
  - right. split; [lia|]. apply (IH b); tauto.
Qed.

Lemma text_lt_total a b : text_lt a b = false -> text_lt b a = false -> a = b.
Proof.
  revert b. induction a as [|c a IH]; intros [|d b]; simpl; try done.
  destruct (Z.ltb_spec (byte_code c) (byte_code d)); [done|].
  destruct (Z.ltb_spec (byte_code d) (byte_code c)); [done|].
  assert (c = d) as -> by (apply byte_code_inj; lia). rewrite ?Ascii.eqb_refl, ?Z.eqb_refl. simpl.
  intros ? ?. f_equal. auto.
Qed.

Lemma text_lt_asym a b : text_lt a b = true -> text_lt b a = false.
Proof.
  intros H. destruct (text_lt b a) eqn:E; [|done].
  pose proof (text_lt_trans _ _ _ H E) as Hc. by rewrite text_lt_irrefl in Hc.
Qed.

Lemma text_ge_trans a b c : text_lt b a = false -> text_lt c b = false -> text_lt c a = false.
Proof.
  intros H1 H2. destruct (text_lt c a) eqn:E; [|done].
  destruct (text_lt a b) eqn:E1; [by rewrite (text_lt_trans _ _ _ E E1) in H2|].
  rewrite (text_lt_total a b E1 H1) in E. congruence.
Qed.

(** The order on fields is a total order on lists of one length. *)
Definition fields_lt (a b : list string) : bool := fields_before (zip a b).
Lemma fields_lt_cons x a y b : fields_lt (x :: a) (y :: b) = if x =s y then fields_lt a b else text_lt x y.
Proof. done. Qed.
Lemma fields_lt_asym a b : fields_lt a b = true -> fields_lt b a = false.
Proof.
  revert b. induction a as [|x a IH]; intros [|y b]; try done. rewrite !fields_lt_cons, (String.eqb_sym y x).
  destruct (x =s y); [apply IH|apply text_lt_asym].
Qed.
Lemma fields_lt_total a b :
  List.length a = List.length b -> fields_lt a b = false -> fields_lt b a = false -> a = b.
Proof.
  revert b. induction a as [|x a IH]; intros [|y b] Hl; try done. rewrite !fields_lt_cons, (String.eqb_sym y x).
  destruct (String.eqb_spec x y) as [->|Hn]; [intros; f_equal; apply IH; [by injection Hl|done..]|].
  intros Hxy Hyx. by destruct Hn; apply text_lt_total.
Qed.
Lemma fields_le_trans a b c :
  List.length a = List.length b -> List.length b = List.length c ->
  fields_lt b a = false -> fields_lt c b = false -> fields_lt c a = false.
Proof.
  revert b c. induction a as [|x a IH]; intros [|y b] [|z c] Hl Hl'; try done. rewrite !fields_lt_cons.
  injection Hl as Hl. injection Hl' as Hl'.
  destruct (String.eqb_spec y x) as [->|Hyx].
  - destruct (z =s x); [by apply IH|done].
  - intros Hyx' Hzy'. destruct (String.eqb_spec z y) as [->|Hzy].
    + by destruct (String.eqb_spec y x).
    + destruct (String.eqb_spec z x) as [->|]; [by destruct Hzy; apply text_lt_total|by eapply text_ge_trans].
Qed.

Lemma text_lt_pad w n m a b :
  0 <= n < m -> m < 10 ^ Z.of_nat w -> text_lt (dec_pad w n ++ a) (dec_pad w m ++ b) = true.
Proof.
  revert n m a b. induction w as [|w IH]; intros n m a b Hn Hm; simpl dec_pad.
  - simpl in Hm. lia.
  - rewrite Nat2Z.inj_succ, Z.pow_succ_r in Hm by lia.
    assert (m / 10 < 10 ^ Z.of_nat w) by (apply Z.div_lt_upper_bound; lia).
    rewrite !string_app_assoc. destruct (Z.eq_dec (n / 10) (m / 10)) as [E|E].
    + rewrite E, text_lt_app. simpl. unfold digit_chr. rewrite !byte_code_of by lia.
      apply orb_true_iff. left. lia.
    + apply IH; lia.
Qed.

Lemma dec_width_le w n : (0 < w)%nat -> 0 <= n < 10 ^ Z.of_nat w -> (dec_width 20 n <= w)%nat.
Proof.
  generalize 20%nat as f. intros f. revert w n.
  induction f as [|f IH]; intros w n Hw Hn; cbn [dec_width]; [lia|].
  destruct (Z.ltb_spec n 10); [lia|].
  destruct w as [|[|w]]; [lia| |].
  - simpl in Hn. lia.
  - rewrite Nat2Z.inj_succ, Z.pow_succ_r in Hn by lia.
    assert (0 <= n / 10 < 10 ^ Z.of_nat (S w)).
    { split; [lia|]. apply Z.div_lt_upper_bound; lia. }
    pose proof (IH (S w) (n / 10)). lia.
Qed.

Lemma format_year_4 y : 0 <= y <= 9999 -> format_year y = dec_pad 4 y.
Proof.
  intros Hy. unfold format_year. destruct (Z.ltb_spec y 0); [lia|].
  rewrite Nat.max_l; [done|]. apply dec_width_le; [lia|]. change (10 ^ Z.of_nat 4) with 10000. lia.
Qed.

Lemma civil_year_range t y m d :
  four_digit_year t -> civil_from_days (Unix t / 86400) = (y, m, d) -> 0 <= y <= 9999.
Proof.
  unfold four_digit_year, Unix, Second. intros Ht H.
  apply civil_from_days_spec in H as [V Hz].
  assert (-719528 <= t / 10 ^ 9 / 86400 < 2932897) as Hd by lia.
  split.
  - apply Z.nlt_ge. intros Hneg.
    pose proof (days_order y m d 0 1 1 V) as Ho.
    assert (days_from_civil 0 1 1 = -719528) by reflexivity.
    assert (valid_date 0 1 1) by (unfold valid_date; cbn; lia).
    assert (date_lt (y, m, d) (0, 1, 1)) by (cbn; lia).
    specialize (Ho ltac:(done) ltac:(done)). lia.
  - apply Z.nlt_ge. intros Hbig.
    pose proof (days_order 9999 12 31 y m d) as Ho.
    assert (days_from_civil 9999 12 31 = 2932896) by reflexivity.
    assert (valid_date 9999 12 31) by (unfold valid_date; cbn; lia).
    assert (date_lt (9999, 12, 31) (y, m, d)) by (cbn; lia).
    specialize (Ho ltac:(done) V ltac:(done)). lia.
Qed.

Lemma formatTime_unfold t y m d :
  four_digit_year t -> civil_from_days (Unix t / 86400) = (y, m, d) ->
  formatTime t = dec_pad 4 y ++ "-" ++ dec_pad 2 m ++ "-" ++ dec_pad 2 d ++ "T"
                 ++ format_clock (Unix t mod 86400) (Nanosecond t).
Proof.
  intros Ht H. unfold formatTime. rewrite H, format_year_4; [done|]. by eapply civil_year_range.
Qed.

(** Instants in different seconds are ordered by their texts. *)
Lemma formatTime_order a b :
  four_digit_year a -> four_digit_year b -> Unix a < Unix b ->
  text_lt (formatTime a) (formatTime b) = true.
Proof.
  intros Ha Hb Hlt.
  destruct (civil_from_days (Unix a / 86400)) as [[y m] d] eqn:Ea.
  destruct (civil_from_days (Unix b / 86400)) as [[y' m'] d'] eqn:Eb.
  rewrite (formatTime_unfold _ _ _ _ Ha Ea), (formatTime_unfold _ _ _ _ Hb Eb).
  pose proof (civil_year_range _ _ _ _ Ha Ea). pose proof (civil_year_range _ _ _ _ Hb Eb).
  assert (Unix a / 86400 < Unix b / 86400 \/
    Unix a / 86400 = Unix b / 86400 /\ Unix a mod 86400 < Unix b mod 86400) as [Hd|[Hd Hs]] by lia.
  - pose proof (civil_mono _ _ Hd) as Hm. rewrite Ea, Eb in Hm. cbn in Hm.
    apply civil_from_days_spec in Ea as [[Va1 Va2] _]. apply civil_from_days_spec in Eb as [[Vb1 Vb2] _].
    pose proof (days_in_bound y m). pose proof (days_in_bound y' m').
    destruct Hm as [Hy|[-> [Hm|[-> Hd2]]]].
    + apply text_lt_pad; [lia|]. change (10 ^ Z.of_nat 4) with 10000. lia.
    + rewrite !text_lt_app. apply text_lt_pad; [lia|]. change (10 ^ Z.of_nat 2) with 100. lia.
    + rewrite !text_lt_app. apply text_lt_pad; [lia|]. change (10 ^ Z.of_nat 2) with 100. lia.
  - rewrite Hd in Ea. rewrite Ea in Eb. injection Eb as -> -> ->.
    rewrite !text_lt_app. unfold format_clock.
    set (x := Unix a mod 86400) in *. set (z := Unix b mod 86400) in *.
    assert (Hx : 0 <= x < 86400) by (unfold x; lia). assert (Hz : 0 <= z < 86400) by (unfold z; lia).
    clearbody x z. clear - Hx Hz Hs.
    assert (x / 3600 < z / 3600 \/ x / 3600 = z / 3600 /\ (x / 60 mod 60 < z / 60 mod 60 \/
      x / 60 mod 60 = z / 60 mod 60 /\ x mod 60 < z mod 60)) as [Hh|[-> [Hm|[-> Hsec]]]] by lia.
    + apply text_lt_pad; [lia|]. change (10 ^ Z.of_nat 2) with 100. lia.
    + rewrite !text_lt_app. apply text_lt_pad; [lia|]. change (10 ^ Z.of_nat 2) with 100. lia.
    + rewrite !text_lt_app. apply text_lt_pad; [lia|]. change (10 ^ Z.of_nat 2) with 100. lia.
Qed.

(** ** Round trip of the stored text *)

Lemma parse_frac_digits w n :
  0 <= n < 10 ^ Z.of_nat w -> parse_frac w (frac_digits w n ++ "Z") = Some n.
Proof.
  revert n. induction w as [|w IH]; intros n Hn.
  - simpl in *. f_equal. lia.
  - cbn [frac_digits]. destruct (Z.eqb_spec n 0) as [->|Hne]; [done|].
    cbn [append parse_frac]. rewrite Nat2Z.inj_succ, Z.pow_succ_r in Hn by lia.
    set (p := 10 ^ Z.of_nat w) in *. assert (Hp : 0 < p) by (unfold p; lia).
    assert (Hq : 0 <= n / p < 10).
    { split; [apply Z.div_pos; lia|]. apply Z.div_lt_upper_bound; lia. }
    rewrite digit_chr_neq, is_digit_chr by done.
    rewrite IH by (apply Z.mod_pos_bound; lia). cbn. rewrite digit_val_chr by done.
    f_equal. pose proof (Z.div_mod n p). lia.
Qed.

Lemma frac_digits_S w n :
  n <> 0 -> frac_digits (S w) n =
    String (digit_chr (n / 10 ^ Z.of_nat w)) (frac_digits w (n mod 10 ^ Z.of_nat w)).
Proof. intros Hn. cbn [frac_digits]. by rewrite (proj2 (Z.eqb_neq n 0) Hn). Qed.

Lemma parse_tail_frac ns : 0 <= ns < Second -> parse_tail (format_frac ns ++ "Z") = Some ns.
Proof.
  intros Hns. unfold format_frac. destruct (Z.eqb_spec ns 0) as [->|Hne]; [done|].
  pose proof (parse_frac_digits 9 ns Hns) as Hp. rewrite (frac_digits_S 8 ns Hne) in *.
  cbn [append] in *. cbn [parse_tail]. rewrite is_digit_chr; [exact Hp|].
  change (10 ^ Z.of_nat 8) with 100000000. unfold Second in Hns. lia.
Qed.

Lemma pad_two n : dec_pad 2 n = String (digit_chr (n / 10 mod 10)) (String (digit_chr (n mod 10)) "").
Proof. reflexivity. Qed.
Lemma pad_four n : dec_pad 4 n =
  String (digit_chr (n / 10 / 10 / 10 mod 10)) (String (digit_chr (n / 10 / 10 mod 10))
    (String (digit_chr (n / 10 mod 10)) (String (digit_chr (n mod 10)) ""))).
Proof. reflexivity. Qed.

Lemma two_digits n : 0 <= n < 100 -> two (digit_chr (n / 10 mod 10)) (digit_chr (n mod 10)) = n.
Proof. intros H. unfold two. rewrite !digit_val_chr by lia. lia. Qed.

Lemma parse_time_format t : four_digit_year t -> parse_time (formatTime t) = Some t.
Proof.
  intros Ht. destruct (civil_from_days (Unix t / 86400)) as [[y m] d] eqn:E.
  rewrite (formatTime_unfold _ _ _ _ Ht E). pose proof (civil_year_range _ _ _ _ Ht E).
  apply civil_from_days_spec in E as [[Hm Hd] Hz]. pose proof (days_in_bound y m).
  unfold format_clock. rewrite pad_four, !pad_two.
  set (x := Unix t mod 86400). assert (Hx : 0 <= x < 86400) by (unfold x; lia).
  cbn [append parse_time]. rewrite !is_digit_chr by lia. cbn [andb Ascii.eqb Bool.eqb].
  rewrite (two_digits (y / 10 / 10)), (two_digits m), (two_digits d), (two_digits (x / 3600)),
    (two_digits (x / 60 mod 60)), (two_digits (x mod 60)) by lia.
  unfold parse_fields.
  assert (y / 10 / 10 * 100 + two (digit_chr (y / 10 mod 10)) (digit_chr (y mod 10)) = y) as ->.
  { unfold two. rewrite !digit_val_chr by lia. lia. }
  rewrite !(proj2 (Z.leb_le _ _)) by lia. cbn [andb].
  rewrite parse_tail_frac by (unfold Nanosecond, Second; lia).
  rewrite Hz. f_equal. unfold x, Unix, Nanosecond, Second. lia.
Qed.
Lemma rfc3339_format t : four_digit_year t -> rfc3339 (formatTime t) = Some t.
Proof. intros Ht. unfold rfc3339. by rewrite parse_time_format. Qed.
Lemma Parse_format t : four_digit_year t -> Parse (formatTime t) = Some t.
Proof. intros Ht. unfold Parse. by rewrite rfc3339_format. Qed.
Lemma parse_formatTime t : four_digit_year t -> parseTime (formatTime t) = t.
Proof. intros Ht. unfold parseTime. by rewrite Parse_format. Qed.

Lemma digits_printable s : forall_bytes is_digit s = true -> forall_bytes printable s = true.
Proof. apply forall_bytes_impl. intros c. unfold is_digit, printable. lia. Qed.
Lemma frac_digits_printable w n : 0 <= n < 10 ^ Z.of_nat w -> forall_bytes printable (frac_digits w n) = true.
Proof.
  revert n. induction w as [|w IH]; intros n Hn; [done|]. cbn [frac_digits]. destruct (n =? 0); [done|].
  rewrite Nat2Z.inj_succ, Z.pow_succ_r in Hn by lia. pose proof (Z.pow_pos_nonneg 10 (Z.of_nat w)).
  cbn [forall_bytes]. apply andb_true_iff. split.
  - assert (is_digit (digit_chr (n / 10 ^ Z.of_nat w)) = true) as Hd.
    { apply is_digit_chr. split; [apply Z.div_pos; lia|apply Z.div_lt_upper_bound; lia]. }
    unfold is_digit, printable in *. lia.
  - apply IH. apply Z.mod_pos_bound. lia.
Qed.
Lemma formatTime_printable t : forall_bytes printable (formatTime t) = true.
Proof.
  unfold formatTime, format_year, format_clock, format_frac. destruct (civil_from_days _) as [[y m] d].
  assert (forall w n, forall_bytes printable (dec_pad w n) = true) as Hp by (intros; apply digits_printable, dec_pad_digits).
  rewrite !forall_bytes_app. destruct (y <? 0), (Nanosecond t =? 0); cbn [forall_bytes];
    rewrite ?forall_bytes_app, !Hp, ?frac_digits_printable; try done; apply Z.mod_pos_bound; done.
Qed.
Lemma formatTime_nonempty t : (formatTime t =s "") = false.
Proof.
  unfold formatTime. destruct (civil_from_days _) as [[y m] d]. by destruct (format_year y).
Qed.

Lemma formatTime_inj a b :
  four_digit_year a -> four_digit_year b -> formatTime a = formatTime b -> a = b.
Proof. intros Ha Hb H. rewrite <- (parse_formatTime a), <- (parse_formatTime b), H by done. done. Qed.
