(* ===== verification/Codec.v ===== *)
(** [base64.RawURLEncoding] of encoding/base64, on byte strings.

    A byte is eight booleans, so that grouping three bytes into four sextets is
    a rearrangement of bits and needs no arithmetic. *)
From stdpp Require Import base tactics list strings.
From Stdlib Require Import ZArith Lia Ascii String.
From S2P Require Import Prelude GoStrings.

Local Open Scope string_scope.
Local Open Scope Z_scope.

(** A six-bit group, most significant bit first. *)
Inductive sextet := Sextet (b5 b4 b3 b2 b1 b0 : bool).

Definition sextet_code (s : sextet) : Z :=
  let 'Sextet b5 b4 b3 b2 b1 b0 := s in
  32 * Z.b2z b5 + 16 * Z.b2z b4 + 8 * Z.b2z b3 + 4 * Z.b2z b2 + 2 * Z.b2z b1 + Z.b2z b0.
Definition sextet_of (n : Z) : sextet :=
  Sextet (Z.testbit n 5) (Z.testbit n 4) (Z.testbit n 3) (Z.testbit n 2) (Z.testbit n 1) (Z.testbit n 0).

(** The URL-safe alphabet A-Z a-z 0-9 - _ . *)
Definition b64_char (s : sextet) : ascii :=
  let n := sextet_code s in
  if n <? 26 then byte_of (65 + n) else if n <? 52 then byte_of (71 + n)
  else if n <? 62 then byte_of (n - 4) else if n =? 62 then "-"%char else "_"%char.
Definition b64_val (c : ascii) : option sextet :=
  let n := byte_code c in
  if (65 <=? n) && (n <=? 90) then Some (sextet_of (n - 65))
  else if (97 <=? n) && (n <=? 122) then Some (sextet_of (n - 71))
  else if (48 <=? n) && (n <=? 57) then Some (sextet_of (n + 4))
  else if n =? 45 then Some (sextet_of 62) else if n =? 95 then Some (sextet_of 63) else None.

(** [EncodeToString]: three bytes to four characters, a tail of one or two
    bytes to two or three, without padding. [Ascii] lists bit 0 first. *)
Fixpoint b64_encode (s : string) : string :=
  match s with
  | "" => ""
  | String (Ascii a0 a1 a2 a3 a4 a5 a6 a7) s1 =>
      match s1 with
      | "" => String (b64_char (Sextet a7 a6 a5 a4 a3 a2))
                (String (b64_char (Sextet a1 a0 false false false false)) "")
      | String (Ascii b0 b1 b2 b3 b4 b5 b6 b7) s2 =>
          match s2 with
          | "" => String (b64_char (Sextet a7 a6 a5 a4 a3 a2))
                    (String (b64_char (Sextet a1 a0 b7 b6 b5 b4))
                       (String (b64_char (Sextet b3 b2 b1 b0 false false)) ""))
          | String (Ascii c0 c1 c2 c3 c4 c5 c6 c7) s3 =>
              String (b64_char (Sextet a7 a6 a5 a4 a3 a2))
                (String (b64_char (Sextet a1 a0 b7 b6 b5 b4))
                   (String (b64_char (Sextet b3 b2 b1 b0 c7 c6))
                      (String (b64_char (Sextet c5 c4 c3 c2 c1 c0)) (b64_encode s3))))
          end
      end
  end.

(** [DecodeString]: carriage returns and line feeds are skipped, a tail of one
    character is an error, unused low bits of the tail are ignored (the
    encoding is not [Strict]). *)
Fixpoint b64_sextets (s : string) : option (list sextet) :=
  match s with
  | "" => Some []
  | String c s' =>
      if (byte_code c =? 13) || (byte_code c =? 10) then b64_sextets s'
      else match b64_val c, b64_sextets s' with
           | Some x, Some l => Some (x :: l)
           | _, _ => None
           end
  end.
Fixpoint b64_bytes (l : list sextet) : option string :=
  match l with
  | [] => Some ""
  | Sextet a5 a4 a3 a2 a1 a0 :: Sextet b5 b4 b3 b2 b1 b0 :: l2 =>
      let x := Ascii b4 b5 a0 a1 a2 a3 a4 a5 in
      match l2 with
      | [] => Some (String x "")
      | Sextet c5 c4 c3 c2 c1 c0 :: l3 =>
          let y := Ascii c2 c3 c4 c5 b0 b1 b2 b3 in
          match l3 with
          | [] => Some (String x (String y ""))
          | Sextet d5 d4 d3 d2 d1 d0 :: l4 =>
              let z := Ascii d0 d1 d2 d3 d4 d5 c0 c1 in
              option_map (fun r => String x (String y (String z r))) (b64_bytes l4)
          end
      end
  | _ => None
  end.
Definition b64_decode (s : string) : option string :=
  match b64_sextets s with Some l => b64_bytes l | None => None end.

Lemma b64_val_char s : b64_val (b64_char s) = Some s.
Proof. destruct s as [[] [] [] [] [] []]; reflexivity. Qed.

(** Characters of the alphabet are none of the separators used around them. *)
Definition b64_safe (c : ascii) : bool :=
  is_digit c || (byte_code c =? 45) || (byte_code c =? 95)
  || ((65 <=? byte_code c) && (byte_code c <=? 90)) || ((97 <=? byte_code c) && (byte_code c <=? 122)).
Lemma b64_char_safe s : b64_safe (b64_char s) = true.
Proof. destruct s as [[] [] [] [] [] []]; reflexivity. Qed.

Lemma b64_sextets_cons s t :
  b64_sextets (String (b64_char s) t) =
  match b64_sextets t with Some l => Some (s :: l) | None => None end.
Proof.
  cbn [b64_sextets]. rewrite b64_val_char.
  assert ((byte_code (b64_char s) =? 13) || (byte_code (b64_char s) =? 10) = false) as ->; [|done].
  destruct s as [[] [] [] [] [] []]; reflexivity.
Qed.

(** Induction three bytes at a time. *)
Lemma string_ind3 (P : string -> Prop) :
  P "" -> (forall a, P (String a "")) -> (forall a b, P (String a (String b ""))) ->
  (forall a b c s, P s -> P (String a (String b (String c s)))) -> forall s, P s.
Proof.
  intros H0 H1 H2 H3. fix IH 1. intros [|a [|b [|c s]]]; [done|apply H1|apply H2|].
  apply H3, IH.
Qed.

Lemma b64_decode_encode s : b64_decode (b64_encode s) = Some s.
Proof.
  unfold b64_decode. induction s as [|a|a b|a b c s IH] using string_ind3.
  - done.
  - destruct a. cbn [b64_encode]. by rewrite !b64_sextets_cons.
  - destruct a, b. cbn [b64_encode]. by rewrite !b64_sextets_cons.
  - destruct a, b, c. cbn [b64_encode]. rewrite !b64_sextets_cons.
    destruct (b64_sextets (b64_encode s)) as [l|]; [|discriminate].
    cbn [b64_bytes]. by rewrite IH.
Qed.

Lemma b64_encode_safe s : forall_bytes b64_safe (b64_encode s) = true.
Proof.
  induction s as [|a|a b|a b c s IH] using string_ind3; [done| | |];
    destruct_and?; try destruct a; try destruct b; try destruct c;
    cbn [b64_encode forall_bytes]; rewrite ?b64_char_safe, ?IH; done.
Qed.

Lemma b64_encode_inj s t : b64_encode s = b64_encode t -> s = t.
Proof.
  intros H. pose proof (b64_decode_encode s) as Hs. rewrite H, b64_decode_encode in Hs.
  by injection Hs.
Qed.

Lemma b64_encode_nonempty s : s <> "" -> b64_encode s <> "".
Proof. destruct s as [|[] [|[] [|[] s]]]; simpl; done. Qed.

Example b64_ex : b64_encode "Man!?" = "TWFuIT8".
Proof. reflexivity. Qed.

Lemma b64_printable s : forall_bytes printable (b64_encode s) = true.
Proof.
  eapply forall_bytes_impl; [|apply b64_encode_safe]. intros c. unfold b64_safe, is_digit, printable. lia.
Qed.
Lemma b64_length s : len (b64_encode s) <= 2 * len s.
Proof.
  unfold len. induction s as [|a|a b|a b c s IH] using string_ind3;
    repeat match goal with x : ascii |- _ => destruct x end; cbn [b64_encode String.length] in *; lia.
Qed.
