(* ===== verification/Errors.v ===== *)
(** The error values of the program.

    A package-level [errors.New] variable is a [sentinel]; the other errors are
    texts, a missing row, a violated SQL constraint, or any of these wrapped by
    [fmt.Errorf] with %w. [errors_Is] is [errors.Is] on that chain. *)
From stdpp Require Import base tactics strings.
From S2P Require Import Prelude.

Inductive sentinel :=
(* internal/domain *)
| ErrInvalidOrganisation | ErrInvalidOrganisationName | ErrInvalidOrganisationID
| ErrInvalidOrganisationStatus | ErrInvalidOrganisationRole | ErrInvalidMembership | ErrInvalidReason
| ErrInvalidWorkspace | ErrInvalidWorkspaceID | ErrInvalidWorkspaceName | ErrInvalidWorkspaceStatus
| ErrInvalidWorkspaceRole | ErrInvalidWorkspaceMember
| ErrInvalidProduct | ErrInvalidProductKey | ErrInvalidProductStatus
| ErrInvalidEntitlement | ErrInvalidEntitlementID | ErrInvalidEntitlementStatus
| ErrInvalidProductAssignment | ErrInvalidProductAssignmentID | ErrInvalidProductAssignmentStatus
| ErrInvalidUser | ErrInvalidEmail | ErrInvalidPassword | ErrInvalidPublicID
(* internal/auth *)
| ErrMFAKeyUnavailable | ErrPasswordPolicy
(* internal/events *)
| ErrInvalidEvent | ErrInvalidEventPayload | ErrUnknownEventType | ErrInvalidAggregateID
| ErrInvalidEventSequence
(* internal/store *)
| ErrOrganisationNotFound | ErrOrganisationArchived | ErrMembershipNotFound
| ErrUnauthorisedOrganisationAction | ErrOwnerMutationNotAuthorised | ErrDuplicateOrganisationMember
| ErrWorkspaceNotFound | ErrWorkspaceArchived | ErrWorkspaceMembershipNotFound
| ErrUnauthorisedWorkspaceAction | ErrDuplicateWorkspaceMember | ErrAccessScopeDenied
| ErrProductNotFound | ErrProductRetired | ErrEntitlementNotFound | ErrEntitlementInactive
| ErrDuplicateOrganisationEntitlement | ErrUnauthorisedProductAction
| ErrProductAssignmentNotFound | ErrProductAssignmentInactive | ErrDuplicateUserProductAssignment
| ErrProductAccessDenied
| ErrInvalidOutboxLimit | ErrReadAuthoritySourceGap | ErrReadAuthoritySourceInvalid
| ErrInvalidReadAuthorityRequest | ErrInvalidReadAuthorityConsumer | ErrReadAuthoritySnapshotNotFound
| ErrReadAuthoritySnapshotExpired | ErrReadAuthoritySnapshotIncomplete | ErrReadAuthorityChecksumMismatch
| ErrReadAuthorityCursorInvalid | ErrInvalidReadAuthorityNonce | ErrReadAuthorityNonceReplay
| ErrInvalidProjectionConsumer | ErrInvalidProjectionLimit | ErrProjectionInboxNotFound
| ErrProjectionEventConflict | ErrProjectionNotReady | ErrProjectionBlocked
| ErrProjectionUnavailable | ErrProjectionGap
| ErrMembershipCommandConflict | ErrMembershipCommandReplayMismatch | ErrMembershipCommandUnsupported
(* internal/platform/assertion *)
| ErrConfiguration | ErrInvalidAssertion | ErrInvalidAudience | ErrInvalidScope
| ErrAssertionExpired | ErrAssertionNotYetValid | ErrAssertionReplay | ErrAssertionVersionMismatch
(* internal/platform/readauthority *)
| RA_ErrUnsupportedVersion | RA_ErrInvalidConsumer | RA_ErrInvalidRequest | RA_ErrInvalidRecord
| RA_ErrInvalidState | RA_ErrInvalidCursor | RA_ErrInvalidSignature
(* internal/platform/membershipcommand *)
| MC_ErrInvalidRequest | MC_ErrInvalidSignature | MC_ErrConflict
(* internal/platform/reconciliation *)
| ErrManifestBlocked | ErrManifestApprovalRequired | ErrManifestSignature | ErrManifestIntegrity
| ErrCheckpointIntegrity | ErrCheckpointManifest | ErrInvalidCheckpointKey | ErrInvalidExecutionTime
| ErrImportAlreadyReversed
| ErrProductionManifestIntegrity | ErrProductionApprovalRequired | ErrProductionSignature
| ErrProductionExecution | ErrProductionRecord
(* internal/db/sqlite/platform_import.go *)
| ErrProductionImportSecretRequired | ErrProductionImportNotFound | ErrProductionImportConflict
| ErrProductionImportRecord | ErrProductionImportRollback | ErrProductionImportCheckpoint.

#[export] Instance sentinel_eq_dec : EqDecision sentinel.
Proof. solve_decision. Defined.

Inductive error :=
| Sentinel (s : sentinel)
| Text (msg : string)
| NoRows
| Constraint (msg : string)
| Wrap (msg : string) (e : error).

#[export] Instance error_eq_dec : EqDecision error.
Proof. solve_decision. Defined.

Coercion Sentinel : sentinel >-> error.

(** [errors.Is(err, target)] for a sentinel target. *)
Fixpoint errors_Is (e : error) (target : sentinel) : bool :=
  match e with
  | Sentinel s => bool_decide (s = target)
  | Wrap _ e' => errors_Is e' target
  | _ => false
  end.

(** [if err != nil { return fmt.Errorf("...: %w", err) }] *)
Definition wrap {A} (msg : string) (r : result error A) : result error A :=
  match r with Ok a => Ok a | Err e => Err (Wrap msg e) end.

Abbreviation res := (result error).

(** The steps of Prelude at this error type, so that a sentinel coerces. *)
Abbreviation require := (Prelude.require (E:=error)).
Abbreviation fail := (Prelude.fail (E:=error)).
Abbreviation some_or := (Prelude.some_or (E:=error)).
