(* ===== verification/Domain.v ===== *)
(** internal/domain: identities, tenancy records and their validation.

    Statuses and roles are Go string types, so any string is a value of them;
    [Validate] is what restricts them. Optional times are [option Z]. *)
From stdpp Require Import base tactics list strings.
From Stdlib Require Import ZArith Lia Ascii String.
From S2P Require Import Prelude GoStrings GoTime Codec Errors.

Local Open Scope string_scope.
Local Open Scope Z_scope.

(** A short name for the sequence of checks of a [Validate] method. *)
Definition check (b : bool) (e : sentinel) : res unit := if b then Err (Sentinel e) else Ok tt.
Notation "'check!' b 'as' e 'in' k" := (match check b e with Ok _ => k | Err x => Err x end)
  (at level 10, b at level 100, e at level 9, k at level 200) : go_scope.

Definition blank (s : string) : bool := TrimSpace s =s "".
Definition is_none {A} (o : option A) : bool := match o with None => true | Some _ => false end.

(** Public identifiers: a prefix and the base64url text of 18 random bytes.
    [rand] is what [rand.Read] filled the buffer with; the call cannot fail on
    the supported Go versions, a failure is [None]. *)
Definition new_id (prefix context : string) (rand : option string) : res string :=
  match rand with
  | None => Err (Wrap context (Text "rand"))
  | Some raw => Ok (prefix ++ b64_encode raw)
  end.
Definition NewUserID := new_id "usr_" "generate user id".
Definition NewOrganisationID := new_id "org_" "generate organisation id".
Definition NewOrganisationMembershipID := new_id "omem_" "generate organisation membership id".
Definition NewWorkspaceID := new_id "wsp_" "generate workspace id".
Definition NewWorkspaceMembershipID := new_id "wmem_" "generate workspace membership id".
Definition NewOrganisationProductEntitlementID :=
  new_id "ent_" "generate organisation product entitlement id".
Definition NewUserProductAssignmentID := new_id "upa_" "generate user product assignment id".

(** ** Users *)
Record User := mkUser {
  User_ID : string; User_Email : string; User_DisplayName : string; User_PasswordHash : string;
  User_Active : bool; User_MFAEnabled : bool; User_CreatedAt : Z; User_LastLoginAt : option Z }.

Definition NormalizeEmail `{UnicodeTables} (email : string) : string := ToLower (TrimSpace email).

Definition User_Validate `{UnicodeTables} (u : User) : res unit :=
  check! negb (has_prefix_id (User_ID u) "usr_") as ErrInvalidPublicID in
  check! negb (contains_byte "@" (NormalizeEmail (User_Email u))) as ErrInvalidEmail in
  check! blank (User_DisplayName u) as ErrInvalidUser in
  Ok tt.

(** ** Organisations *)
Definition OrganisationActive := "active".
Definition OrganisationArchived := "archived".
Definition OrganisationOwner := "owner".
Definition OrganisationAdmin := "admin".
Definition OrganisationMember := "member".

Record Organisation := mkOrganisation {
  Organisation_ID : string; Organisation_Name : string; Organisation_Status : string;
  Organisation_CreatedAt : Z; Organisation_ArchivedAt : option Z }.

Record OrganisationMembership := mkOrganisationMembership {
  OM_ID : string; OM_OrganisationID : string; OM_UserID : string; OM_Role : string;
  OM_Active : bool; OM_AssignedBy : string; OM_AssignedAt : Z;
  OM_RemovedBy : string; OM_RemovedAt : option Z; OM_RemovalReason : string }.

Definition valid_name_trimmed (name : string) : bool :=
  let name := TrimSpace name in negb (name =s "") && (len name <=? 200).

Definition Organisation_Validate (o : Organisation) : res unit :=
  check! negb (has_prefix_id (Organisation_ID o) "org_") as ErrInvalidOrganisationID in
  check! negb (valid_name_trimmed (Organisation_Name o)) as ErrInvalidOrganisationName in
  check! negb (Organisation_Status o =s OrganisationActive)
         && negb (Organisation_Status o =s OrganisationArchived) as ErrInvalidOrganisationStatus in
  check! (Organisation_Status o =s OrganisationArchived) && is_none (Organisation_ArchivedAt o)
    as ErrInvalidOrganisation in
  Ok tt.

Definition OrganisationRole_Valid (r : string) : bool :=
  (r =s OrganisationOwner) || (r =s OrganisationAdmin) || (r =s OrganisationMember).
Definition OrganisationRole_CanAdminister (r : string) : bool :=
  (r =s OrganisationOwner) || (r =s OrganisationAdmin).

Definition OrganisationMembership_Validate (m : OrganisationMembership) : res unit :=
  check! negb (has_prefix_id (OM_ID m) "omem_") as ErrInvalidMembership in
  check! negb (has_prefix_id (OM_OrganisationID m) "org_") as ErrInvalidMembership in
  check! negb (has_prefix_id (OM_UserID m) "usr_") as ErrInvalidMembership in
  check! negb (has_prefix_id (OM_AssignedBy m) "usr_") as ErrInvalidMembership in
  check! negb (OM_Role m =s OrganisationOwner) && negb (OM_Role m =s OrganisationAdmin)
         && negb (OM_Role m =s OrganisationMember) as ErrInvalidOrganisationRole in
  check! IsZero (OM_AssignedAt m) as ErrInvalidMembership in
  check! negb (OM_Active m)
         && (is_none (OM_RemovedAt m) || blank (OM_RemovedBy m) || blank (OM_RemovalReason m))
    as ErrInvalidMembership in
  Ok tt.

(** ** Workspaces *)
Definition WorkspaceActive := "active".
Definition WorkspaceArchived := "archived".
Definition WorkspaceAdmin := "admin".
Definition WorkspaceMember := "member".
Definition WorkspaceViewer := "viewer".

Record Workspace := mkWorkspace {
  Workspace_ID : string; Workspace_OrganisationID : string; Workspace_Name : string;
  Workspace_Status : string; Workspace_CreatedAt : Z; Workspace_ArchivedAt : option Z }.

Record WorkspaceMembership := mkWorkspaceMembership {
  WM_ID : string; WM_WorkspaceID : string; WM_UserID : string; WM_Role : string;
  WM_Active : bool; WM_AssignedBy : string; WM_AssignedAt : Z;
  WM_RemovedBy : string; WM_RemovedAt : option Z; WM_RemovalReason : string }.

Definition Workspace_Validate (w : Workspace) : res unit :=
  check! negb (has_prefix_id (Workspace_ID w) "wsp_") as ErrInvalidWorkspaceID in
  check! negb (has_prefix_id (Workspace_OrganisationID w) "org_") as ErrInvalidWorkspace in
  check! negb (valid_name_trimmed (Workspace_Name w)) as ErrInvalidWorkspaceName in
  check! negb (Workspace_Status w =s WorkspaceActive)
         && negb (Workspace_Status w =s WorkspaceArchived) as ErrInvalidWorkspaceStatus in
  check! (Workspace_Status w =s WorkspaceArchived) && is_none (Workspace_ArchivedAt w)
    as ErrInvalidWorkspace in
  check! IsZero (Workspace_CreatedAt w) as ErrInvalidWorkspace in
  Ok tt.

Definition WorkspaceRole_Valid (r : string) : bool :=
  (r =s WorkspaceAdmin) || (r =s WorkspaceMember) || (r =s WorkspaceViewer).
Definition WorkspaceRole_CanAdminister (r : string) : bool := r =s WorkspaceAdmin.

Definition WorkspaceMembership_Validate (m : WorkspaceMembership) : res unit :=
  check! negb (has_prefix_id (WM_ID m) "wmem_") as ErrInvalidWorkspaceMember in
  check! negb (has_prefix_id (WM_WorkspaceID m) "wsp_") as ErrInvalidWorkspaceMember in
  check! negb (has_prefix_id (WM_UserID m) "usr_") as ErrInvalidWorkspaceMember in
  check! negb (has_prefix_id (WM_AssignedBy m) "usr_") as ErrInvalidWorkspaceMember in
  check! negb (WorkspaceRole_Valid (WM_Role m)) || IsZero (WM_AssignedAt m)
    as ErrInvalidWorkspaceMember in
  check! negb (WM_Active m)
         && (is_none (WM_RemovedAt m) || negb (HasPrefix (WM_RemovedBy m) "usr_")
             || blank (WM_RemovalReason m)) as ErrInvalidWorkspaceMember in
  Ok tt.

(** ** Products, entitlements and assignments *)
Definition ProductActive := "active".
Definition ProductRetired := "retired".
Definition GrantActive := "active".
Definition GrantRevoked := "revoked".

Record Product := mkProduct {
  Product_Key : string; Product_DisplayName : string; Product_Status : string;
  Product_CreatedAt : Z; Product_RetiredAt : option Z }.

Definition Product_Validate (p : Product) : res unit :=
  check! negb (has_prefix_id (Product_Key p) "product.") as ErrInvalidProductKey in
  check! blank (Product_DisplayName p) || (200 <? len (Product_DisplayName p)) as ErrInvalidProduct in
  check! negb (Product_Status p =s ProductActive) && negb (Product_Status p =s ProductRetired)
    as ErrInvalidProductStatus in
  check! (Product_Status p =s ProductRetired) && is_none (Product_RetiredAt p) as ErrInvalidProduct in
  check! (Product_Status p =s ProductActive) && negb (is_none (Product_RetiredAt p))
    as ErrInvalidProduct in
  check! IsZero (Product_CreatedAt p) as ErrInvalidProduct in
  Ok tt.

Record OrganisationProductEntitlement := mkEntitlement {
  Ent_ID : string; Ent_OrganisationID : string; Ent_ProductKey : string; Ent_Status : string;
  Ent_Active : bool; Ent_GrantedBy : string; Ent_GrantedAt : Z;
  Ent_RevokedBy : string; Ent_RevokedAt : option Z; Ent_RevocationReason : string }.

Definition Entitlement_Validate (e : OrganisationProductEntitlement) : res unit :=
  check! negb (has_prefix_id (Ent_ID e) "ent_") as ErrInvalidEntitlementID in
  check! negb (has_prefix_id (Ent_OrganisationID e) "org_")
         || negb (has_prefix_id (Ent_ProductKey e) "product.")
         || negb (has_prefix_id (Ent_GrantedBy e) "usr_") as ErrInvalidEntitlement in
  check! negb (Ent_Status e =s GrantActive) && negb (Ent_Status e =s GrantRevoked)
    as ErrInvalidEntitlementStatus in
  check! IsZero (Ent_GrantedAt e) as ErrInvalidEntitlement in
  check! (Ent_Status e =s GrantRevoked)
         && (is_none (Ent_RevokedAt e) || negb (HasPrefix (Ent_RevokedBy e) "usr_")
             || blank (Ent_RevocationReason e)) as ErrInvalidEntitlement in
  check! (Ent_Status e =s GrantActive)
         && (negb (is_none (Ent_RevokedAt e)) || negb (Ent_RevokedBy e =s "")
             || negb (Ent_RevocationReason e =s "")) as ErrInvalidEntitlement in
  Ok tt.

Record UserProductAssignment := mkAssignment {
  Asg_ID : string; Asg_UserID : string; Asg_OrganisationID : string; Asg_ProductKey : string;
  Asg_Status : string; Asg_Active : bool; Asg_AssignedBy : string; Asg_AssignedAt : Z;
  Asg_RevokedBy : string; Asg_RevokedAt : option Z; Asg_RevocationReason : string }.

Definition Assignment_Validate (a : UserProductAssignment) : res unit :=
  check! negb (has_prefix_id (Asg_ID a) "upa_") as ErrInvalidProductAssignmentID in
  check! negb (has_prefix_id (Asg_UserID a) "usr_")
         || negb (has_prefix_id (Asg_OrganisationID a) "org_")
         || negb (has_prefix_id (Asg_ProductKey a) "product.")
         || negb (has_prefix_id (Asg_AssignedBy a) "usr_") as ErrInvalidProductAssignment in
  check! negb (Asg_Status a =s GrantActive) && negb (Asg_Status a =s GrantRevoked)
    as ErrInvalidProductAssignmentStatus in
  check! IsZero (Asg_AssignedAt a) as ErrInvalidProductAssignment in
  check! (Asg_Status a =s GrantRevoked)
         && (is_none (Asg_RevokedAt a) || negb (HasPrefix (Asg_RevokedBy a) "usr_")
             || blank (Asg_RevocationReason a)) as ErrInvalidProductAssignment in
  check! (Asg_Status a =s GrantActive)
         && (negb (is_none (Asg_RevokedAt a)) || negb (Asg_RevokedBy a =s "")
             || negb (Asg_RevocationReason a =s "")) as ErrInvalidProductAssignment in
  Ok tt.

(** ** Lemmas *)

(** Every guard of a validation that succeeded is false. *)
Lemma check_then_Ok {A} b e (k : res A) a :
  (check! b as e in k) = Ok a <-> b = false /\ k = Ok a.
Proof. unfold check. destruct b; naive_solver. Qed.

Lemma is_none_true {A} (o : option A) : is_none o = true <-> o = None.
Proof. by destruct o. Qed.
