(* ===== verification/Json.v ===== *)
(** The JSON texts the program writes and reads with encoding/json.

    [encode_*] are [json.Marshal] on strings, booleans and flat objects (map
    keys sorted, HTML characters escaped); [parse] is the grammar of
    [json.Unmarshal] into a tree, with strings decoded. The parser has fuel:
    every recursive call is made on a strictly shorter text, so the length of
    the text is enough. *)
From stdpp Require Import base tactics option list strings.
From Stdlib Require Import ZArith Lia Ascii String.
From S2P Require Import Prelude GoStrings GoTime Errors.

Local Open Scope string_scope.
Local Open Scope Z_scope.

(** ** Encoding *)

Definition dquote : ascii := ascii_of_nat 34.
Definition backslash : ascii := ascii_of_nat 92.
Definition quoted (s : string) : string := String dquote (s ++ String dquote "").
Definition u_escape (n : Z) : string :=
  String backslash (String "u" (String (hex_digit (n / 4096)) (String (hex_digit (n / 256 mod 16))
    (String (hex_digit (n / 16 mod 16)) (String (hex_digit (n mod 16)) ""))))).

(** A rune of a string, as its text: [w] bytes of [s] are consumed. *)
Definition encode_char (s : string) (r : Z) (w : nat) : string :=
  if (r =? 34) || (r =? 92) then String backslash (String (byte_of r) "")
  else if r =? 8 then String backslash "b" else if r =? 12 then String backslash "f"
  else if r =? 10 then String backslash "n" else if r =? 13 then String backslash "r"
  else if r =? 9 then String backslash "t"
  else if (r <? 32) || (r =? 60) || (r =? 62) || (r =? 38) then u_escape r
  else if (r =? rune_error) && Nat.eqb w 1 then u_escape rune_error
  else if (r =? 0x2028) || (r =? 0x2029) then u_escape r
  else substring 0 w s.

Fixpoint encode_chars (fuel : nat) (s : string) : string :=
  match fuel, s with
  | S f, String _ _ =>
      let '(r, w) := decode_rune s in
      encode_char s r w ++ encode_chars f (drop_bytes w s)
  | _, _ => ""
  end.
Definition encode_string (s : string) : string := quoted (encode_chars (String.length s) s).

(** The values of the program's payload maps. *)
Inductive scalar := VString (s : string) | VBool (b : bool) | VInt (n : Z).
Definition encode_scalar (v : scalar) : string :=
  match v with
  | VString s => encode_string s
  | VBool true => "true"
  | VBool false => "false"
  | VInt n => FormatInt n
  end.

Definition encode_member (kv : string * scalar) : string :=
  encode_string (fst kv) ++ ":" ++ encode_scalar (snd kv).
(** A struct: its fields in declaration order. *)
Definition encode_fields (kvs : list (string * scalar)) : string :=
  "{" ++ String.concat "," (map encode_member kvs) ++ "}".
(** [omitempty] on a string field *)
Definition omitempty (k v : string) : list (string * scalar) :=
  if v =s "" then [] else [(k, VString v)].

(** A map: its keys in byte order. *)
Fixpoint insert_key (kv : string * scalar) (l : list (string * scalar)) : list (string * scalar) :=
  match l with
  | [] => [kv]
  | kv' :: l' => if text_lt (fst kv) (fst kv') then kv :: l else kv' :: insert_key kv l'
  end.
Definition encode_map (kvs : list (string * scalar)) : string :=
  encode_fields (fold_right insert_key [] kvs).

(** ** Decoding *)

#[local] Set Warnings "-register-all".
Inductive json :=
| JNull
| JBool (b : bool)
| JNumber (text : string)
| JString (s : string)
| JArray (l : list json)
| JObject (l : list (string * json)).

(** The text of a JSON value. *)
Fixpoint encode_json (v : json) : string :=
  match v with
  | JNull => "null"
  | JBool b => if b then "true" else "false"
  | JNumber t => t
  | JString s => encode_string s
  | JArray l => "[" ++ String.concat "," (map encode_json l) ++ "]"
  | JObject l => "{" ++ String.concat "," (map (fun kv => encode_string (fst kv) ++ ":" ++ encode_json (snd kv)) l) ++ "}"
  end.

(** [json.MarshalIndent] with no prefix and two blanks. *)
Definition line (depth : nat) : string := String newline (String.concat "" (repeat "  " depth)).
Fixpoint indent (depth : nat) (v : json) : string :=
  match v with
  | JNull => "null"
  | JBool b => if b then "true" else "false"
  | JNumber n => n
  | JString s => encode_string s
  | JArray [] => "[]"
  | JArray l => "[" ++ String.concat "," (map (fun v => line (S depth) ++ indent (S depth) v) l) ++ line depth ++ "]"
  | JObject [] => "{}"
  | JObject l => "{" ++ String.concat "," (map (fun m => line (S depth) ++ encode_string (fst m) ++ ": " ++ indent (S depth) (snd m)) l)
                 ++ line depth ++ "}"
  end.

Definition json_ws (c : ascii) : bool :=
  let n := byte_code c in (n =? 32) || (n =? 9) || (n =? 10) || (n =? 13).
Fixpoint skip_ws (s : string) : string :=
  match s with String c s' => if json_ws c then skip_ws s' else s | "" => "" end.

Definition hex_val (c : ascii) : option Z :=
  let n := byte_code c in
  if (48 <=? n) && (n <=? 57) then Some (n - 48)
  else if (97 <=? n) && (n <=? 102) then Some (n - 87)
  else if (65 <=? n) && (n <=? 70) then Some (n - 55) else None.
(** Four hexadecimal digits and the rest of the text. *)
Definition hex4 (s : string) : option (Z * string) :=
  match s with
  | String a (String b (String c (String d r))) =>
      match hex_val a, hex_val b, hex_val c, hex_val d with
      | Some a, Some b, Some c, Some d => Some (a * 4096 + b * 256 + c * 16 + d, r)
      | _, _, _, _ => None
      end
  | _ => None
  end.
(** [\uXXXX], possibly the first half of a surrogate pair; an unpaired half
    becomes the replacement rune and leaves what follows unread. *)
Definition unicode_escape (s : string) : option (Z * string) :=
  match hex4 s with
  | None => None
  | Some (r, rest) =>
      if (0xD800 <=? r) && (r <=? 0xDBFF) then
        match rest with
        | String b (String u rest') =>
            if Ascii.eqb b backslash && Ascii.eqb u "u" then
              match hex4 rest' with
              | Some (r2, rest2) =>
                  if (0xDC00 <=? r2) && (r2 <=? 0xDFFF)
                  then Some ((r - 0xD800) * 1024 + (r2 - 0xDC00) + 0x10000, rest2)
                  else Some (rune_error, rest)
              | None => None
              end
            else Some (rune_error, rest)
        | _ => Some (rune_error, rest)
        end
      else if (0xDC00 <=? r) && (r <=? 0xDFFF) then Some (rune_error, rest)
      else Some (r, rest)
  end.
Definition simple_escape (c : ascii) : option Z :=
  let n := byte_code c in
  if (n =? 34) || (n =? 92) || (n =? 47) then Some n
  else if n =? 98 then Some 8 else if n =? 102 then Some 12 else if n =? 110 then Some 10
  else if n =? 114 then Some 13 else if n =? 116 then Some 9 else None.

(** The characters of a string literal after its opening quote. *)
Fixpoint parse_chars (fuel : nat) (s acc : string) : option (string * string) :=
  match fuel, s with
  | S f, String c s' =>
      if Ascii.eqb c dquote then Some (acc, s')
      else if Ascii.eqb c backslash then
        match s' with
        | String e r =>
            if Ascii.eqb e "u" then
              match unicode_escape r with
              | Some (x, r') => parse_chars f r' (acc ++ encode_rune x)
              | None => None
              end
            else match simple_escape e with
                 | Some x => parse_chars f r (acc ++ String (byte_of x) "")
                 | None => None
                 end
        | "" => None
        end
      else if byte_code c <? 32 then None
      else let '(r, w) := decode_rune s in
           parse_chars f (drop_bytes w s) (acc ++ encode_rune r)
  | _, _ => None
  end.

Fixpoint take_digits (s acc : string) : string * string :=
  match s with
  | String c s' => if is_digit c then take_digits s' (acc ++ String c "") else (acc, s)
  | "" => (acc, "")
  end.
Definition take_digits1 (s acc : string) : option (string * string) :=
  match s with String c _ => if is_digit c then Some (take_digits s acc) else None | _ => None end.
(** A number literal: an optional minus sign, an integer part without leading
    zeros, an optional fraction and an optional exponent. Each part is taken from
    the text and added to what was read before it. *)
Definition number_sign (s : string) : string * string :=
  match s with String c s' => if Ascii.eqb c "-" then ("-", s') else ("", s) | "" => ("", s) end.
Definition number_int (s acc : string) : option (string * string) :=
  match s with String c s' => if Ascii.eqb c "0" then Some (acc ++ "0", s') else take_digits1 s acc | "" => None end.
Definition number_fraction (s acc : string) : option (string * string) :=
  match s with
  | String c s' => if Ascii.eqb c "." then take_digits1 s' (acc ++ ".") else Some (acc, s)
  | "" => Some (acc, s)
  end.
Definition number_exponent (s acc : string) : option (string * string) :=
  match s with
  | String c s' =>
      if Ascii.eqb c "e" || Ascii.eqb c "E" then
        match s' with
        | String g s2 =>
            if Ascii.eqb g "+" || Ascii.eqb g "-"
            then take_digits1 s2 (acc ++ String c (String g ""))
            else take_digits1 s' (acc ++ String c "")
        | "" => None
        end
      else Some (acc, s)
  | "" => Some (acc, s)
  end.
Definition parse_number (s : string) : option (string * string) :=
  let (acc, s) := number_sign s in
  match number_int s acc with
  | None => None
  | Some (acc, s) => match number_fraction s acc with None => None | Some (acc, s) => number_exponent s acc end
  end.

Fixpoint strip_prefix (p s : string) : option string :=
  match p, s with
  | "", _ => Some s
  | String c p', String d s' => if Ascii.eqb c d then strip_prefix p' s' else None
  | _, _ => None
  end.

(** One value; the text has no leading white space. *)
Fixpoint parse_value (fuel : nat) (s : string) {struct fuel} : option (json * string) :=
  match fuel with
  | O => None
  | S f =>
    match s with
    | "" => None
    | String c s' =>
      if Ascii.eqb c dquote then
        option_map (fun '(x, r) => (JString x, r)) (parse_chars (String.length s') s' "")
      else if Ascii.eqb c "{" then
        match skip_ws s' with
        | String d r => if Ascii.eqb d "}" then Some (JObject [], r)
                        else parse_members f (skip_ws s') []
        | "" => None
        end
      else if Ascii.eqb c "[" then
        match skip_ws s' with
        | String d r => if Ascii.eqb d "]" then Some (JArray [], r)
                        else parse_elements f (skip_ws s') []
        | "" => None
        end
      else match strip_prefix "true" s, strip_prefix "false" s, strip_prefix "null" s with
           | Some r, _, _ => Some (JBool true, r)
           | _, Some r, _ => Some (JBool false, r)
           | _, _, Some r => Some (JNull, r)
           | _, _, _ => option_map (fun '(x, r) => (JNumber x, r)) (parse_number s)
           end
    end
  end
with parse_members (fuel : nat) (s : string) (acc : list (string * json)) {struct fuel}
    : option (json * string) :=
  match fuel with
  | O => None
  | S f =>
    match s with
    | String q s' =>
      if negb (Ascii.eqb q dquote) then None else
      match parse_chars (String.length s') s' "" with
      | None => None
      | Some (k, r) =>
        match skip_ws r with
        | String col r2 =>
          if negb (Ascii.eqb col ":") then None else
          match parse_value f (skip_ws r2) with
          | None => None
          | Some (v, r3) =>
            match skip_ws r3 with
            | String d r4 =>
                if Ascii.eqb d "}" then Some (JObject (acc ++ [(k, v)]), r4)
                else if Ascii.eqb d "," then parse_members f (skip_ws r4) (acc ++ [(k, v)])
                else None
            | "" => None
            end
          end
        | "" => None
        end
      end
    | "" => None
    end
  end
with parse_elements (fuel : nat) (s : string) (acc : list json) {struct fuel}
    : option (json * string) :=
  match fuel with
  | O => None
  | S f =>
    match parse_value f s with
    | None => None
    | Some (v, r) =>
      match skip_ws r with
      | String d r2 =>
          if Ascii.eqb d "]" then Some (JArray (acc ++ [v]), r2)
          else if Ascii.eqb d "," then parse_elements f (skip_ws r2) (acc ++ [v])
          else None
      | "" => None
      end
    end
  end.

(** [json.Valid] and [json.Unmarshal]: one value and nothing but space after it. *)
Definition parse (s : string) : option json :=
  match parse_value (2 * String.length s + 1) (skip_ws s) with
  | Some (v, r) => if skip_ws r =s "" then Some v else None
  | None => None
  end.
Definition json_valid (s : string) : bool := match parse s with Some _ => true | None => false end.

(** A Go map filled from an object: the last member of a name wins. *)
Fixpoint obj_lookup (k : string) (l : list (string * json)) : option json :=
  match l with
  | [] => None
  | (k', v) :: l' =>
      match obj_lookup k l' with
      | Some w => Some w
      | None => if k =s k' then Some v else None
      end
  end.
Definition obj_keys (l : list (string * json)) : list string := nodup string_dec (map fst l).

(** ** Decoding into a struct

    A member sets the field whose name it has up to case folding (of the runes
    outside ASCII only U+017F and U+212A fold to ASCII letters). Members are
    stored in their order, null leaves the field alone, a value of another type
    is an error. *)
Fixpoint fold_key (s : string) : string :=
  match s with
  | "" => ""
  | String a s1 =>
      match s1 with
      | String b s2 =>
          if (byte_code a =? 0xC5) && (byte_code b =? 0xBF) then String "s" (fold_key s2) else
          match s2 with
          | String c s3 =>
              if (byte_code a =? 0xE2) && (byte_code b =? 0x84) && (byte_code c =? 0xAA)
              then String "k" (fold_key s3) else String (lower_byte a) (fold_key s1)
          | "" => String (lower_byte a) (fold_key s1)
          end
      | "" => String (lower_byte a) ""
      end
  end.
Definition names_field (k : string) (m : string * json) : bool := fold_key (fst m) =s fold_key k.
Definition is_null (v : json) : bool := match v with JNull => true | _ => false end.
Definition json_error {A} : res A := Err (Text "json: cannot unmarshal").

(** The values given to the field [k], each read by [get]: the last one stays. *)
Definition struct_field {A} (get : json -> option A) (zero : A) (l : list (string * json)) (k : string) : res A :=
  let vs := List.filter (fun v => negb (is_null v)) (map snd (List.filter (names_field k) l)) in
  if forallb (fun v => match get v with Some _ => true | None => false end) vs
  then Ok (match last vs with Some v => default zero (get v) | None => zero end)
  else json_error.
Definition string_field := struct_field (fun v => match v with JString s => Some s | _ => None end) "".
Definition bool_field := struct_field (fun v => match v with JBool b => Some b | _ => None end) false.
Definition int_field := struct_field (fun v => match v with JNumber n => ParseInt n | _ => None end) 0.

Example encode_ex : encode_map [("user_id", VString "usr_1"); ("active", VBool true)]
  = String "{" (quoted "active" ++ ":true," ++ quoted "user_id" ++ ":" ++ quoted "usr_1" ++ "}").
Proof. reflexivity. Qed.
Example parse_roundtrip_ex :
  parse (encode_map [("user_id", VString "a<b"); ("active", VBool true)])
  = Some (JObject [("active", JBool true); ("user_id", JString "a<b")]).
Proof. vm_compute. reflexivity. Qed.
Example parse_nested_ex : json_valid "[1, -2.5e3, {}, [null]] " = true.
Proof. vm_compute. reflexivity. Qed.
