(* ===== verification/JsonLaws.v ===== *)
(** The encoder and the parser of Json.v are inverse: a tree of valid UTF-8 strings
    and number literals reads back as it was written, and what is parsed is such
    a tree. *)
From stdpp Require Import base tactics list strings.
From Stdlib Require Import ZArith Lia Ascii String.
From S2P Require Import Prelude GoStrings GoTime Json.

Local Open Scope string_scope.
Local Open Scope Z_scope.

Ltac Zify.zify_post_hook ::= Z.div_mod_to_equations.

(** ** UTF-8 *)

Definition valid_rune (r : Z) : Prop := 0 <= r <= 0x10FFFF /\ ~ (0xD800 <= r <= 0xDFFF).

Ltac split_ifs :=
  repeat match goal with
  | |- context [if ?b then _ else _] => let E := fresh "E" in destruct b eqn:E
  | H : context [if ?b then _ else _] |- _ => let E := fresh "E" in destruct b eqn:E
  end.
(** Booleans on integers as propositions. *)
Ltac z_bools :=
  repeat match goal with
  | H : _ && _ = true |- _ => apply andb_true_iff in H; destruct H
  | H : _ || _ = false |- _ => apply orb_false_iff in H; destruct H
  | H : (_ <? _) = true |- _ => apply Z.ltb_lt in H
  | H : (_ <? _) = false |- _ => apply Z.ltb_ge in H
  | H : (_ <=? _) = true |- _ => apply Z.leb_le in H
  | H : (_ <=? _) = false |- _ => apply Z.leb_gt in H
  | H : (_ =? _) = true |- _ => apply Z.eqb_eq in H
  | H : (_ =? _) = false |- _ => apply Z.eqb_neq in H
  end.

(** A rune decoded from valid UTF-8 re-encodes to the bytes it was read from. *)
Lemma byte_of_code c n : byte_code c = n -> byte_of n = c.
Proof. intros <-. apply byte_code_inj, byte_code_of, byte_code_range. Qed.

Lemma encode_rune1 r : 0 <= r < 0x80 -> encode_rune r = String (byte_of r) "".
Proof. intros Hr. unfold encode_rune. split_ifs; z_bools; try done; lia. Qed.
Lemma encode_rune2 r : 0x80 <= r < 0x800 ->
  encode_rune r = String (byte_of (0xC0 + r / 64)) (String (byte_of (0x80 + r mod 64)) "").
Proof. intros Hr. unfold encode_rune. split_ifs; z_bools; try done; lia. Qed.
Lemma encode_rune3 r : 0x800 <= r < 0x10000 -> ~ (0xD800 <= r <= 0xDFFF) ->
  encode_rune r = String (byte_of (0xE0 + r / 4096)) (String (byte_of (0x80 + (r / 64) mod 64))
    (String (byte_of (0x80 + r mod 64)) "")).
Proof. intros Hr Hs. unfold encode_rune. split_ifs; z_bools; try done; lia. Qed.
Lemma encode_rune4 r : 0x10000 <= r <= 0x10FFFF ->
  encode_rune r = String (byte_of (0xF0 + r / 262144)) (String (byte_of (0x80 + (r / 4096) mod 64))
    (String (byte_of (0x80 + (r / 64) mod 64)) (String (byte_of (0x80 + r mod 64)) ""))).
Proof. intros Hr. unfold encode_rune. split_ifs; z_bools; try done; lia. Qed.

Lemma substring_0 s : substring 0 0 s = "".
Proof. by destruct s. Qed.
Ltac same_bytes := simpl; rewrite ?substring_0; done.

Lemma decode_rune_encode s r w :
  decode_rune s = (r, w) -> s <> "" -> ~ (r = rune_error /\ w = 1%nat) ->
  valid_rune r /\ s = encode_rune r ++ drop_bytes w s /\ substring 0 w s = encode_rune r.
Proof.
  intros Hd Hs Hne. destruct s as [|a s1]; [done|]. clear Hs. cbn [decode_rune] in Hd.
  pose proof (byte_code_range a). destruct (byte_code a <? 0x80) eqn:E1.
  { injection Hd as <- <-. z_bools. rewrite encode_rune1 by lia.
    rewrite (byte_of_code a) by done. split_and!; [unfold valid_rune; lia|same_bytes..]. }
  destruct s1 as [|b s2]; [by injection Hd as <- <-; destruct Hne|].
  pose proof (byte_code_range b). unfold cont in Hd.
  destruct (_ && _) eqn:E2 in Hd.
  { injection Hd as <- <-. z_bools. rewrite encode_rune2 by lia.
    rewrite (byte_of_code a), (byte_of_code b) by lia. split_and!; [unfold valid_rune; lia|same_bytes..]. }
  clear E2. destruct s2 as [|c s3]; [by injection Hd as <- <-; destruct Hne|].
  pose proof (byte_code_range c). destruct (_ && _) eqn:E3 in Hd.
  { injection Hd as <- <-. z_bools. split_ifs; z_bools;
      rewrite encode_rune3 by lia; rewrite (byte_of_code a), (byte_of_code b), (byte_of_code c) by lia;
      (split_and!; [unfold valid_rune; lia|same_bytes..]). }
  clear E3. destruct s3 as [|d s4]; [by injection Hd as <- <-; destruct Hne|].
  pose proof (byte_code_range d). destruct (_ && _) eqn:E4 in Hd.
  - injection Hd as <- <-. z_bools. split_ifs; z_bools;
      rewrite encode_rune4 by lia;
      rewrite (byte_of_code a), (byte_of_code b), (byte_of_code c), (byte_of_code d) by lia;
      (split_and!; [unfold valid_rune; lia|same_bytes..]).
  - by injection Hd as <- <-; destruct Hne.
Qed.

(** The encoding of a rune decodes to it, whatever follows. *)
Lemma encode_rune_decode r t :
  valid_rune r -> decode_rune (encode_rune r ++ t) = (r, String.length (encode_rune r)).
Proof.
  intros [Hr Hs].
  destruct (Z.lt_ge_cases r 0x80); [|destruct (Z.lt_ge_cases r 0x800); [|destruct (Z.lt_ge_cases r 0x10000)]].
  - rewrite encode_rune1 by lia. cbn [append decode_rune String.length]. rewrite byte_code_of by lia.
    destruct (Z.ltb_spec r 128); [done|lia].
  - rewrite encode_rune2 by lia. cbn [append decode_rune String.length]. unfold cont. rewrite !byte_code_of by lia.
    destruct (_ <? _) eqn:E1; z_bools; [lia|].
    rewrite !(proj2 (Z.leb_le _ _)) by lia. cbn. f_equal. lia.
  - rewrite encode_rune3 by lia. cbn [append decode_rune String.length]. unfold cont. rewrite !byte_code_of by lia.
    destruct (_ <? _) eqn:E1; z_bools; [lia|].
    rewrite (proj2 (Z.leb_gt _ 0xDF)), !andb_false_r by lia. cbn [andb].
    rewrite !(proj2 (Z.leb_le _ _)) by (split_ifs; z_bools; lia). cbn. f_equal. lia.
  - rewrite encode_rune4 by lia. cbn [append decode_rune String.length]. unfold cont. rewrite !byte_code_of by lia.
    destruct (_ <? _) eqn:E1; z_bools; [lia|].
    rewrite (proj2 (Z.leb_gt _ 0xDF)), (proj2 (Z.leb_gt _ 0xEF)), !andb_false_r by lia. cbn [andb].
    rewrite !(proj2 (Z.leb_le _ _)) by (split_ifs; z_bools; lia). cbn. f_equal. lia.
Qed.

(** ** Strings *)

Fixpoint valid_utf8_fuel (fuel : nat) (s : string) : bool :=
  match fuel, s with
  | S f, String _ _ =>
      let '(r, w) := decode_rune s in
      negb ((r =? rune_error) && Nat.eqb w 1) && valid_utf8_fuel f (drop_bytes w s)
  | _, _ => true
  end.
(** [utf8.ValidString] *)
Definition valid_utf8 (s : string) : bool := valid_utf8_fuel (String.length s) s.

Lemma length_app_string a b : String.length (a ++ b) = (String.length a + String.length b)%nat.
Proof. induction a; simpl; congruence. Qed.
Lemma drop_bytes_app p s : drop_bytes (String.length p) (p ++ s) = s.
Proof. by induction p. Qed.

Lemma hex_val_digit n : 0 <= n < 16 -> hex_val (hex_digit n) = Some n.
Proof.
  intros Hn. unfold hex_val, hex_digit.
  destruct (n <? 10) eqn:E; z_bools; rewrite byte_code_of by lia.
  - rewrite (proj2 (Z.leb_le 48 _)), (proj2 (Z.leb_le _ 57)) by lia. cbn. f_equal. lia.
  - rewrite (proj2 (Z.leb_gt _ 57)), (proj2 (Z.leb_le 97 _)), (proj2 (Z.leb_le _ 102)), andb_false_r by lia.
    cbn. f_equal. lia.
Qed.

Lemma unicode_escape_parse n t : 0 <= n < 0xD800 ->
  unicode_escape (String (hex_digit (n / 4096)) (String (hex_digit (n / 256 mod 16))
    (String (hex_digit (n / 16 mod 16)) (String (hex_digit (n mod 16)) t)))) = Some (n, t).
Proof.
  intros Hn. unfold unicode_escape, hex4. rewrite !hex_val_digit by lia.
  replace (n / 4096 * 4096 + n / 256 mod 16 * 256 + n / 16 mod 16 * 16 + n mod 16) with n by lia.
  rewrite (proj2 (Z.leb_gt 0xD800 n)), (proj2 (Z.leb_gt 0xDC00 n)) by lia. done.
Qed.

Lemma parse_chars_escape f n t acc : 0 <= n < 0xD800 ->
  parse_chars (S f) (u_escape n ++ t) acc = parse_chars f t (acc ++ encode_rune n).
Proof. intros Hn. unfold u_escape. cbn -[unicode_escape hex_digit encode_rune]. by rewrite unicode_escape_parse. Qed.

(** A rune written as itself. *)
Lemma parse_chars_plain f r t acc :
  valid_rune r -> 32 <= r -> r <> 34 -> r <> 92 ->
  parse_chars (S f) (encode_rune r ++ t) acc = parse_chars f t (acc ++ encode_rune r).
Proof.
  intros Hv H32 H34 H92. pose proof (encode_rune_decode r t Hv) as Hd.
  pose proof (drop_bytes_app (encode_rune r) t) as Hdrop.
  assert (exists c s, encode_rune r = String c s /\ 32 <= byte_code c /\ byte_code c <> 34 /\ byte_code c <> 92)
    as (c & s & Ec & Hc1 & Hc2 & Hc3).
  { destruct Hv as [Hr Hs].
    destruct (Z.lt_ge_cases r 0x80); [|destruct (Z.lt_ge_cases r 0x800); [|destruct (Z.lt_ge_cases r 0x10000)]].
    - rewrite encode_rune1 by lia. eexists _, _. split; [done|]. rewrite byte_code_of; lia.
    - rewrite encode_rune2 by lia. eexists _, _. split; [done|]. rewrite byte_code_of; lia.
    - rewrite encode_rune3 by lia. eexists _, _. split; [done|]. rewrite byte_code_of; lia.
    - rewrite encode_rune4 by lia. eexists _, _. split; [done|]. rewrite byte_code_of; lia. }
  rewrite Ec in *. cbn [append] in *. cbn [parse_chars].
  assert (Ascii.eqb c dquote = false) as -> by (apply Ascii.eqb_neq; intros ->; by apply Hc2).
  assert (Ascii.eqb c backslash = false) as -> by (apply Ascii.eqb_neq; intros ->; by apply Hc3).
  rewrite (proj2 (Z.ltb_ge _ _)) by lia. rewrite Hd, Hdrop. by rewrite Ec.
Qed.

Lemma parse_encoded_char s r w f t acc :
  decode_rune s = (r, w) -> s <> "" -> ~ (r = rune_error /\ w = 1%nat) ->
  parse_chars (S f) (encode_char s r w ++ t) acc = parse_chars f t (acc ++ encode_rune r)
  /\ encode_char s r w <> "".
Proof.
  intros Hd Hs Hne. destruct (decode_rune_encode _ _ _ Hd Hs Hne) as (Hv & Hsr & Hsub).
  assert (encode_rune r <> "") as Hnon.
  { unfold encode_rune. by split_ifs. }
  pose proof Hv as [Hr Hsur]. unfold encode_char. rewrite Hsub.
  repeat match goal with
  | |- context [if ?b then _ else _] => let E := fresh "E" in destruct b eqn:E
  end;
  try (split; [|done]).
  all: try (apply orb_true_iff in E as [E|E]); z_bools; subst; try (split; done); try done.
  - apply orb_true_iff in E5 as [[[E5|E5]%orb_true_iff|E5]%orb_true_iff|E5]; z_bools;
      apply parse_chars_escape; lia.
  - apply orb_true_iff in E7 as [E7|E7]; z_bools; subst; apply parse_chars_escape; lia.
  - apply parse_chars_plain; [done|lia..].
Qed.

Lemma valid_utf8_step n s r w : s <> "" -> decode_rune s = (r, w) ->
  valid_utf8_fuel (S n) s = negb ((r =? rune_error) && Nat.eqb w 1) && valid_utf8_fuel n (drop_bytes w s).
Proof. intros Hs Hd. destruct s; [done|]. cbn [valid_utf8_fuel]. by rewrite Hd. Qed.
Lemma encode_chars_step n s r w : s <> "" -> decode_rune s = (r, w) ->
  encode_chars (S n) s = encode_char s r w ++ encode_chars n (drop_bytes w s).
Proof. intros Hs Hd. destruct s; [done|]. cbn [encode_chars]. by rewrite Hd. Qed.

Lemma parse_encoded_chars n s f rest acc :
  valid_utf8_fuel n s = true -> (String.length s <= n)%nat ->
  (String.length (encode_chars n s) < f)%nat ->
  parse_chars f (encode_chars n s ++ String dquote rest) acc = Some (acc ++ s, rest).
Proof.
  revert s f acc. induction n as [|n IH]; intros s f acc Hv Hn Hf; (destruct f as [|f]; [lia|]).
  - destruct s; simpl in Hn; [|lia]. simpl. by rewrite string_app_nil_r.
  - destruct (String.eqb_spec s "") as [->|Hs]; [simpl; by rewrite string_app_nil_r|].
    destruct (decode_rune s) as [r w] eqn:Hd.
    erewrite valid_utf8_step in Hv by done. erewrite encode_chars_step in Hf |- * by done.
    apply andb_true_iff in Hv as [Hne Hv]. apply negb_true_iff, andb_false_iff in Hne.
    assert (~ (r = rune_error /\ w = 1%nat)) as Hne' by (intros [-> ->]; by destruct Hne).
    destruct (decode_rune_encode _ _ _ Hd Hs Hne') as (_ & Hsr & _).
    rewrite string_app_assoc. rewrite length_app_string in Hf.
    destruct (parse_encoded_char s r w f (encode_chars n (drop_bytes w s) ++ String dquote rest) acc Hd Hs Hne')
      as [-> Hnon].
    assert (0 < String.length (encode_char s r w))%nat by (destruct (encode_char s r w); [done|simpl; lia]).
    assert (0 < String.length (encode_rune r))%nat by (unfold encode_rune; split_ifs; simpl; lia).
    assert (String.length s = String.length (encode_rune r) + String.length (drop_bytes w s))%nat as Hlen.
    { rewrite Hsr at 1. by rewrite length_app_string. }
    rewrite IH; [|done|lia|lia]. by rewrite string_app_assoc, <-Hsr.
Qed.

Lemma parse_encoded_string s rest f :
  valid_utf8 s = true -> parse_value (S f) (encode_string s ++ rest) = Some (JString s, rest).
Proof.
  intros Hv. unfold encode_string, quoted. cbn [append parse_value].
  change (Ascii.eqb dquote dquote) with true. cbn iota.
  rewrite string_app_assoc. cbn [append].
  rewrite (parse_encoded_chars _ s) by (done || rewrite ?length_app_string; simpl; lia). done.
Qed.

(** ** Numbers *)

(** A text the number before it ends at: the end, a comma, a closing bracket or a
    line break. *)
Definition ends_value (rest : string) : Prop :=
  match rest with String c _ => c = ","%char \/ c = "}"%char \/ c = "]"%char \/ c = newline | "" => True end.
(** A text before which a literal ends as it does before [r]. *)
Definition follows (r r' : string) : Prop :=
  ends_value r' \/ exists c s s', r = String c s /\ r' = String c s'.
Lemma follows_app d r r' : follows r r' -> follows (d ++ r) (d ++ r').
Proof. destruct d as [|c d]; [done|]. intros _. right. by eexists _, _, _. Qed.
(** What a part of a literal takes does not depend on what it leaves. *)
Definition cuts (part : string -> string -> option (string * string)) : Prop :=
  forall s acc a r, part s acc = Some (a, r) -> exists d, s = d ++ r /\ a = acc ++ d
    /\ forall r', follows r r' -> part (d ++ r') acc = Some (a, r').

Lemma take_digits_cut s acc a r : take_digits s acc = (a, r) ->
  exists d, s = d ++ r /\ a = acc ++ d /\ forall_bytes is_digit d = true
    /\ forall r', follows r r' -> take_digits (d ++ r') acc = (a, r').
Proof.
  revert acc. induction s as [|c s IH]; intros acc; cbn [take_digits].
  - intros [= <- <-]. exists "". rewrite !string_app_nil_r. split_and!; [done..|]. cbn [append].
    intros [|c r'] [Hr'|(e & x & y & Hx & _)]; try done. cbn [take_digits]. by destruct Hr' as [->|[->|[->| ->]]].
  - destruct (is_digit c) eqn:Ec.
    + intros (d & -> & -> & Hd & Hr)%IH. exists (String c d). rewrite string_app_assoc. split_and!; [done|done| |].
      * cbn. by rewrite Ec.
      * intros r' Hr'. cbn [append take_digits]. rewrite Ec, Hr by done. by rewrite string_app_assoc.
    + intros [= <- <-]. exists "". rewrite !string_app_nil_r. split_and!; [done..|]. cbn [append].
      intros [|e r'] [Hr'|(x & y & z & [= <- <-] & Hz)]; try done; cbn [take_digits].
      * by destruct Hr' as [->|[->|[->| ->]]].
      * injection Hz as -> ->. by rewrite Ec.
Qed.
Lemma take_digits1_cuts : cuts take_digits1.
Proof.
  intros [|c s] acc a r; [done|]. cbn [take_digits1]. destruct (is_digit c) eqn:Ec; [|done]. intros Hs%(inj Some).
  pose proof Hs as Hs'. apply take_digits_cut in Hs' as (d & Hd & -> & _ & Hr). exists d. split_and!; [done|done|].
  assert (exists d', d = String c d') as [d' ->].
  { destruct d as [|e d]; [|injection Hd as <- _; by exists d]. cbn [append] in Hd. subst r. cbn [take_digits] in Hs. rewrite Ec in Hs.
    apply take_digits_cut in Hs as (d & Hd & _). apply (f_equal String.length) in Hd. rewrite length_app_string in Hd.
    cbn [String.length] in Hd. lia. }
  intros r' Hr'. cbn [append take_digits1]. rewrite Ec. f_equal. exact (Hr r' Hr').
Qed.
Lemma number_int_cuts : cuts number_int.
Proof.
  intros [|c s] acc a r; [done|]. cbn [number_int]. destruct (Ascii.eqb c "0") eqn:E0.
  - intros [= <- <-]. apply Ascii.eqb_eq in E0 as ->. exists "0". by split_and!.
  - intros Hs. destruct (take_digits1_cuts _ _ _ _ Hs) as (d & Hd & -> & Hr). exists d. split_and!; [done|done|].
    intros r' Hr'. specialize (Hr r' Hr'). destruct d as [|e d].
    + exfalso. cbn [append] in Hd. subst r. apply (f_equal (option_map snd)) in Hs. cbn [option_map snd] in Hs.
      pose proof (Hr) as Hr0. cbn in Hs. destruct (is_digit c) eqn:Ec; [|done]. cbn in Hs. injection Hs as Hs.
      destruct (take_digits s (acc ++ String c "")) as [x y] eqn:Ey. cbn in Hs. subst y.
      apply take_digits_cut in Ey as (d & Hd & _). apply (f_equal String.length) in Hd. rewrite length_app_string in Hd.
      cbn [String.length] in Hd. lia.
    + injection Hd as <- _. cbn [append number_int]. by rewrite E0.
Qed.
(** A part that may be missing. *)
Lemma missing_cut (part : string -> string -> option (string * string)) s acc :
  (forall c s', s = String c s' -> forall s'', part (String c s'') acc = Some (acc, String c s'')) ->
  (forall r', ends_value r' -> part r' acc = Some (acc, r')) ->
  exists d, s = d ++ s /\ acc = acc ++ d /\ forall r', follows s r' -> part (d ++ r') acc = Some (acc, r').
Proof.
  intros Hhead Hend. exists "". rewrite !string_app_nil_r. split_and!; [done..|]. cbn [append].
  intros r' [Hr'|(c & x & y & -> & ->)]; [by apply Hend|]. by eapply Hhead.
Qed.
Lemma number_fraction_cuts : cuts number_fraction.
Proof.
  assert (forall acc r', ends_value r' -> number_fraction r' acc = Some (acc, r')) as Hend.
  { intros acc [|c r'] Hr'; [done|]. by destruct Hr' as [->|[->|[->| ->]]]. }
  intros s acc a r. destruct s as [|c s].
  - intros [= <- <-]. apply missing_cut; [done|apply Hend].
  - cbn [number_fraction]. destruct (Ascii.eqb c ".") eqn:E.
    + intros (d & -> & -> & Hr)%take_digits1_cuts. apply Ascii.eqb_eq in E as ->. exists (String "." d).
      rewrite string_app_assoc. split_and!; [done..|]. intros r' Hr'. cbn [append number_fraction]. cbn [Ascii.eqb Bool.eqb].
      rewrite (Hr r' Hr'). by rewrite string_app_assoc.
    + intros [= <- <-]. apply missing_cut; [|apply Hend]. intros e s' [= <- <-] s''. cbn [number_fraction]. by rewrite E.
Qed.
Lemma number_exponent_cuts : cuts number_exponent.
Proof.
  assert (forall acc r', ends_value r' -> number_exponent r' acc = Some (acc, r')) as Hend.
  { intros acc [|c r'] Hr'; [done|]. by destruct Hr' as [->|[->|[->| ->]]]. }
  intros s acc a r. destruct s as [|c s].
  - intros [= <- <-]. apply missing_cut; [done|apply Hend].
  - cbn [number_exponent]. destruct (Ascii.eqb c "e" || Ascii.eqb c "E") eqn:E.
    + destruct s as [|g s]; [done|]. destruct (Ascii.eqb g "+" || Ascii.eqb g "-") eqn:Eg.
      * intros (d & -> & -> & Hr)%take_digits1_cuts. exists (String c (String g d)). rewrite string_app_assoc. split_and!; [done..|].
        intros r' Hr'. cbn [append number_exponent]. rewrite E, Eg, (Hr r' Hr'). by rewrite string_app_assoc.
      * intros Hs. pose proof Hs as Hs'. apply take_digits1_cuts in Hs' as (d & Hd & -> & Hr). exists (String c d).
        rewrite string_app_assoc. split_and!; [cbn [append]; by rewrite <-Hd|done|].
        intros r' Hr'. specialize (Hr r' Hr'). cbn [append number_exponent]. rewrite E. destruct d as [|x d].
        -- exfalso. cbn [append] in Hd. subst r. cbn [take_digits1] in Hs. destruct (is_digit g) eqn:Ec; [|done].
           injection Hs as Hs. cbn [take_digits] in Hs. rewrite Ec in Hs. apply take_digits_cut in Hs as (d & Hd & _).
           apply (f_equal String.length) in Hd. rewrite length_app_string in Hd. cbn [String.length] in Hd. lia.
        -- injection Hd as <- _. cbn [append]. rewrite Eg. cbn [append] in Hr. by rewrite Hr, string_app_assoc.
    + intros [= <- <-]. apply missing_cut; [|apply Hend]. intros e s' [= <- <-] s''. cbn [number_exponent]. by rewrite E.
Qed.
Lemma parse_number_cut s t r : parse_number s = Some (t, r) ->
  s = t ++ r /\ forall r', follows r r' -> parse_number (t ++ r') = Some (t, r').
Proof.
  unfold parse_number. destruct (number_sign s) as [sg s1] eqn:Es.
  assert (s = sg ++ s1 /\ forall d x y, s1 = String d x -> number_sign (sg ++ String d y) = (sg, String d y)) as [-> Hsg].
  { unfold number_sign in Es. destruct s as [|c s]; [by injection Es as <- <-|]. destruct (Ascii.eqb c "-") eqn:E; injection Es as <- <-.
    - apply Ascii.eqb_eq in E as ->. done.
    - split; [done|]. intros d x y [= <- <-]. cbn. by rewrite E. }
  destruct (number_int s1 sg) as [[a1 r1]|] eqn:E1; [|done].
  destruct (number_fraction r1 a1) as [[a2 r2]|] eqn:E2; [|done]. intros E3.
  pose proof E1 as E1'. apply number_int_cuts in E1' as (d1 & H1 & -> & Hr1).
  apply number_fraction_cuts in E2 as (d2 & -> & -> & Hr2). apply number_exponent_cuts in E3 as (d3 & -> & -> & Hr3).
  rewrite !string_app_assoc. split; [by rewrite H1|]. intros r' Hr'.
  assert (exists c x, d1 = String c x) as (c & x & ->).
  { destruct d1 as [|c x]; [|eauto]. exfalso. specialize (Hr1 "" (or_introl I)). by cbn in Hr1. }
  rewrite <-!string_app_assoc. rewrite !string_app_assoc. rewrite H1 in Hsg. cbn [append] in Hsg |- *.
  rewrite (Hsg c _ _ eq_refl). change (String c (x ++ ?y)) with (String c x ++ y).
  rewrite Hr1 by (by do 2 apply follows_app). rewrite Hr2 by (by apply follows_app). by rewrite Hr3, !string_app_assoc.
Qed.

(** A number literal by itself. *)
Definition valid_number (t : string) : bool := match parse_number t with Some (_, "") => true | _ => false end.
Lemma valid_number_parse t rest : valid_number t = true -> ends_value rest -> parse_number (t ++ rest) = Some (t, rest).
Proof.
  unfold valid_number. destruct (parse_number t) as [[x [|]]|] eqn:E; try done. intros _ Hr.
  apply parse_number_cut in E as [Ht Hx]. rewrite string_app_nil_r in Ht. subst x. apply Hx. by left.
Qed.
Lemma parsed_number s t r : parse_number s = Some (t, r) -> valid_number t = true.
Proof.
  intros [_ Hr]%parse_number_cut. specialize (Hr "" (or_introl I)). rewrite string_app_nil_r in Hr.
  unfold valid_number. by rewrite Hr.
Qed.
Lemma valid_number_head t : valid_number t = true -> exists c s, t = String c s /\ (c = "-"%char \/ is_digit c = true).
Proof.
  unfold valid_number, parse_number, number_sign. destruct t as [|c t]; [done|]. intros Hv. exists c, t. split; [done|].
  destruct (Ascii.eqb c "-") eqn:E; [left; by apply Ascii.eqb_eq|right]. cbn [number_int] in Hv.
  destruct (Ascii.eqb c "0") eqn:E0; [by apply Ascii.eqb_eq in E0 as ->|]. cbn [take_digits1] in Hv. by destruct (is_digit c).
Qed.

Lemma dec_width_lower f n : 0 < n -> 10 ^ (Z.of_nat (dec_width f n) - 1) <= n.
Proof.
  revert n. induction f as [|f IH]; intros n Hn; cbn [dec_width]; [simpl; lia|].
  destruct (Z.ltb_spec n 10); [simpl; lia|].
  specialize (IH (n / 10) ltac:(apply Z.div_str_pos; lia)).
  pose proof (dec_width_pos f (n / 10)).
  replace (Z.of_nat (S (dec_width f (n / 10))) - 1) with (Z.succ (Z.of_nat (dec_width f (n / 10)) - 1)) by lia.
  rewrite Z.pow_succ_r by lia. lia.
Qed.

(** The decimal digits of a positive number do not start with 0. *)
Lemma dec_pad_head w n :
  10 ^ Z.of_nat w <= n < 10 ^ (Z.of_nat w + 1) ->
  exists c s, dec_pad (S w) n = String c s /\ Ascii.eqb c "0" = false.
Proof.
  revert n. induction w as [|w IH]; intros n Hn.
  - change (10 ^ Z.of_nat 0) with 1 in Hn. change (10 ^ (Z.of_nat 0 + 1)) with 10 in Hn.
    exists (digit_chr (n mod 10)), "". split; [done|]. rewrite Z.mod_small by lia.
    apply Ascii.eqb_neq. intros E. apply (f_equal digit_val) in E. rewrite digit_val_chr in E by lia.
    vm_compute in E. lia.
  - destruct (IH (n / 10)) as (c & s & Hc & Hz).
    { rewrite Nat2Z.inj_succ in Hn. rewrite Z.pow_succ_r in Hn by lia.
      replace (Z.succ (Z.of_nat w) + 1) with (Z.succ (Z.of_nat w + 1)) in Hn by lia.
      rewrite (Z.pow_succ_r 10 (Z.of_nat w + 1)) in Hn by lia.
      split; [apply Z.div_le_lower_bound; lia|apply Z.div_lt_upper_bound; lia]. }
    change (dec_pad (S (S w)) n) with (dec_pad (S w) (n / 10) ++ String (digit_chr (n mod 10)) "").
    rewrite Hc. exists c, (s ++ String (digit_chr (n mod 10)) ""). done.
Qed.

(** A natural number printed without leading zeros is one JSON integer. *)
Lemma number_digits n : 0 <= n < 10 ^ 20 ->
  dec_pad (dec_width 20 n) n = "0"
  \/ exists c s, dec_pad (dec_width 20 n) n = String c s /\ Ascii.eqb c "0" = false
       /\ is_digit c = true /\ forall_bytes is_digit s = true.
Proof.
  intros Hn. destruct (Z.eq_dec n 0) as [->|Hz]; [by left|right].
  pose proof (dec_width_pos 20 n) as Hw. pose proof (dec_width_lower 20 n) as Hlo.
  pose proof (dec_width_bound 20 n) as Hhi. pose proof (dec_pad_digits (dec_width 20 n) n) as Hd.
  specialize (Hlo ltac:(lia)). change (Z.of_nat 20 + 1) with 21 in Hhi.
  assert (10 ^ 20 < 10 ^ 21) as Hp by by apply Z.pow_lt_mono_r.
  specialize (Hhi ltac:(lia)).
  destruct (dec_width 20 n) as [|w]; [lia|].
  destruct (dec_pad_head w n) as (c & s & Hc & Hc0).
  { replace (Z.of_nat (S w) - 1) with (Z.of_nat w) in Hlo by lia.
    replace (Z.of_nat w + 1) with (Z.of_nat (S w)) by lia. split; assumption. }
  rewrite Hc in *. simpl in Hd. apply andb_true_iff in Hd as [? ?]. eauto 8.
Qed.

Lemma take_digits_all d acc : forall_bytes is_digit d = true -> take_digits d acc = (acc ++ d, "").
Proof.
  revert acc. induction d as [|c d IH]; simpl; intros acc Hd; [by rewrite string_app_nil_r|].
  apply andb_true_iff in Hd as [-> Hd]. rewrite IH by done. by rewrite string_app_assoc.
Qed.
(** A machine integer is written as a number. *)
Lemma valid_FormatInt n : in_int64 n = true -> valid_number (FormatInt n) = true.
Proof.
  intros Hr. unfold in_int64, int64_min, int64_max in Hr. bool_hyps. z_bools.
  assert (forall k acc, 0 <= k < 10 ^ 20 -> exists c d, dec_pad (dec_width 20 k) k = String c d /\ is_digit c = true
    /\ number_int (String c d) acc = Some (acc ++ String c d, "")) as Hint.
  { intros k acc Hk. destruct (number_digits k Hk) as [->|(c & s & -> & Hc0 & Hc & Hs)]; [by eexists _, _|].
    exists c, s. split_and!; [done|done|]. cbn [number_int take_digits1]. rewrite Hc0, Hc. f_equal. apply take_digits_all. cbn. by rewrite Hc. }
  unfold valid_number, parse_number, FormatInt. destruct (n <? 0) eqn:E; z_bools.
  - destruct (Hint (- n) "-") as (c & d & -> & _ & Hi); [lia|]. cbn [append number_sign]. change (Ascii.eqb "-" "-") with true.
    cbn iota. by rewrite Hi.
  - destruct (Hint n "") as (c & d & -> & Hc & Hi); [lia|]. cbn [number_sign].
    assert (Ascii.eqb c "-" = false) as -> by (apply Ascii.eqb_neq; intros ->; done). by rewrite Hi.
Qed.

(** ** What a string literal gives is valid UTF-8 *)
Lemma decode_valid s r w : decode_rune s = (r, w) -> s <> "" -> valid_rune r.
Proof.
  intros Hd Hs. destruct (decide (r = rune_error /\ w = 1%nat)) as [[-> _]|Hne]; [unfold valid_rune, rune_error; lia|].
  by destruct (decode_rune_encode _ _ _ Hd Hs Hne).
Qed.
Fixpoint runes_text (rs : list Z) : string := match rs with [] => "" | r :: rs => encode_rune r ++ runes_text rs end.
Lemma runes_text_app a b : runes_text (a ++ b) = runes_text a ++ runes_text b.
Proof. induction a as [|r a IH]; [done|]. cbn. by rewrite IH, string_app_assoc. Qed.
(** Valid UTF-8 is the encoding of runes. *)
Lemma valid_utf8_runes s : valid_utf8 s = true <-> exists rs, Forall valid_rune rs /\ s = runes_text rs.
Proof.
  unfold valid_utf8. split.
  - enough (forall n s, (String.length s <= n)%nat -> valid_utf8_fuel n s = true ->
      exists rs, Forall valid_rune rs /\ s = runes_text rs) as Hgen by by apply Hgen.
    clear s. intros n. induction n as [|n IH]; intros s Hn Hv; [exists []; by destruct s; [|simpl in Hn; lia]|].
    destruct (String.eqb_spec s "") as [->|Hs]; [by exists []|]. destruct (decode_rune s) as [r w] eqn:Hd.
    rewrite (valid_utf8_step n s r w Hs Hd) in Hv. apply andb_true_iff in Hv as [Hne Hv].
    apply negb_true_iff, andb_false_iff in Hne.
    destruct (decode_rune_encode _ _ _ Hd Hs) as (Hr & Hsr & _); [by intros [-> ->]; destruct Hne|].
    destruct (IH (drop_bytes w s)) as (rs & Hrs & Ht); [|done|].
    + apply (f_equal String.length) in Hsr. rewrite length_app_string in Hsr.
      assert (0 < String.length (encode_rune r))%nat by (unfold encode_rune; split_ifs; simpl; lia). lia.
    + exists (r :: rs). split; [by constructor|]. cbn. by rewrite <-Ht.
  - intros (rs & Hrs & ->). generalize (String.length (runes_text rs)) as n. intros n. revert n.
    induction Hrs as [|r rs Hr _ IH]; intros [|n]; try done. cbn [runes_text].
    rewrite (valid_utf8_step n _ r (String.length (encode_rune r))); [|by unfold encode_rune; split_ifs|by apply encode_rune_decode].
    rewrite drop_bytes_app, IH, andb_true_r. apply negb_true_iff, andb_false_iff.
    destruct (Z.eqb_spec r rune_error) as [->|]; [right; done|by left].
Qed.
Lemma valid_utf8_snoc a r : valid_utf8 a = true -> valid_rune r -> valid_utf8 (a ++ encode_rune r) = true.
Proof.
  intros (rs & Hrs & ->)%valid_utf8_runes Hr. apply valid_utf8_runes. exists (rs ++ [r])%list. split; [apply Forall_app; split; [done|by apply Forall_singleton]|].
  rewrite runes_text_app. cbn. by rewrite string_app_nil_r.
Qed.
Lemma hex_val_range c n : hex_val c = Some n -> 0 <= n < 16.
Proof. unfold hex_val. pose proof (byte_code_range c). split_ifs; intros [= <-]; z_bools; lia. Qed.
Lemma hex4_range s n r : hex4 s = Some (n, r) -> 0 <= n < 65536.
Proof.
  unfold hex4. destruct s as [|a [|b [|c [|d s]]]]; try done.
  destruct (hex_val a) as [x|] eqn:Ea; [|done]. destruct (hex_val b) as [y|] eqn:Eb; [|done].
  destruct (hex_val c) as [z|] eqn:Ec; [|done]. destruct (hex_val d) as [w|] eqn:Ed; [|done].
  apply hex_val_range in Ea, Eb, Ec, Ed. intros [= <- <-]. lia.
Qed.
Lemma unicode_escape_valid s r t : unicode_escape s = Some (r, t) -> valid_rune r.
Proof.
  assert (valid_rune rune_error) as He by (unfold valid_rune, rune_error; lia).
  unfold unicode_escape. destruct (hex4 s) as [[n rest]|] eqn:E; [|done]. apply hex4_range in E.
  destruct (_ && _) eqn:E1.
  - destruct rest as [|b [|u rest]]; try by intros [= <- <-]. destruct (_ && _) in |- *; [|by intros [= <- <-]].
    destruct (hex4 rest) as [[n2 rest2]|] eqn:E2; [|done]. apply hex4_range in E2.
    destruct (_ && _) eqn:E3 in |- *; intros [= <- <-]; [|done]. z_bools. unfold valid_rune. split; lia.
  - destruct (_ && _) eqn:E2 in |- *; intros [= <- <-]; [done|]. unfold valid_rune. split; [lia|]. intros Hn.
    apply andb_false_iff in E1, E2. destruct E1, E2; z_bools; lia.
Qed.
Lemma simple_escape_valid c n : simple_escape c = Some n -> valid_rune n /\ String (byte_of n) "" = encode_rune n.
Proof.
  unfold simple_escape. intros Hn. assert (0 <= n < 0x80) as Hr.
  { destruct (_ || _) eqn:E in Hn; [injection Hn as <-|split_ifs; congruence || (injection Hn as <-; lia)].
    apply orb_true_iff in E as [[E|E]%orb_true_iff|E]; z_bools; lia. }
  split; [unfold valid_rune; lia|]. by rewrite encode_rune1 by done.
Qed.
Lemma parsed_chars f s acc x r : parse_chars f s acc = Some (x, r) -> valid_utf8 acc = true -> valid_utf8 x = true.
Proof.
  revert s acc. induction f as [|f IH]; intros [|c s] acc; try done. cbn [parse_chars]. intros Hp Hv.
  destruct (Ascii.eqb c dquote); [by injection Hp as <- <-|]. destruct (Ascii.eqb c backslash).
  - destruct s as [|e s]; [done|]. destruct (Ascii.eqb e "u").
    + destruct (unicode_escape s) as [[n t]|] eqn:E; [|done]. eapply IH; [exact Hp|].
      apply valid_utf8_snoc; [done|by eapply unicode_escape_valid].
    + destruct (simple_escape e) as [n|] eqn:E; [|done]. apply simple_escape_valid in E as [Hn He]. eapply IH; [exact Hp|].
      rewrite He. by apply valid_utf8_snoc.
  - destruct (byte_code c <? 32); [done|]. destruct (decode_rune (String c s)) as [n w] eqn:E. eapply IH; [exact Hp|].
    apply valid_utf8_snoc; [done|by eapply decode_valid].
Qed.

(** ** Values *)
Section JsonInduction.
Context (P : json -> Prop) (P_null : P JNull) (P_bool : forall b, P (JBool b)) (P_number : forall t, P (JNumber t))
  (P_string : forall s, P (JString s)) (P_array : forall l, Forall P l -> P (JArray l))
  (P_object : forall l, Forall (fun kv => P (snd kv)) l -> P (JObject l)).
Fixpoint json_tree_ind (v : json) : P v :=
  match v with
  | JNull => P_null
  | JBool b => P_bool b
  | JNumber t => P_number t
  | JString s => P_string s
  | JArray l => P_array l ((fix go l : Forall P l :=
      match l with [] => Forall_nil_2 P | v :: l => Forall_cons_2 P v l (json_tree_ind v) (go l) end) l)
  | JObject l => P_object l ((fix go l : Forall (fun kv => P (snd kv)) l :=
      match l with [] => Forall_nil_2 _ | kv :: l => Forall_cons_2 _ kv l (json_tree_ind (snd kv)) (go l) end) l)
  end.
End JsonInduction.

(** A tree that is the value of some text: strings of valid UTF-8 and number
    literals. *)
Fixpoint valid_json (v : json) : bool :=
  match v with
  | JNull | JBool _ => true
  | JNumber t => valid_number t
  | JString s => valid_utf8 s
  | JArray l => forallb valid_json l
  | JObject l => forallb (fun kv => valid_utf8 (fst kv) && valid_json (snd kv)) l
  end.
Definition member_text (kv : string * json) : string := encode_string (fst kv) ++ ":" ++ encode_json (snd kv).

Lemma skip_ws_none c s : json_ws c = false -> skip_ws (String c s) = String c s.
Proof. intros H. simpl. by rewrite H. Qed.
Lemma number_head_ws c : c = "-"%char \/ is_digit c = true -> json_ws c = false.
Proof.
  unfold is_digit, json_ws. intros [->|Hc]; [done|]. z_bools. rewrite !(proj2 (Z.eqb_neq _ _)) by lia. done.
Qed.
(** The text of a value starts with no space and no closing bracket. *)
Definition opens (s : string) : Prop := exists c t, s = String c t /\ json_ws c = false /\ Ascii.eqb c "]" = false.
Lemma encode_json_opens v : valid_json v = true -> opens (encode_json v).
Proof.
  destruct v as [|[]|t|s|l|l]; intros Hv; try (eexists _, _; split; [reflexivity|done]).
  destruct (valid_number_head t Hv) as (c & s & -> & Hc). exists c, s. split; [done|]. split; [by apply number_head_ws|].
  apply Ascii.eqb_neq. intros ->. by destruct Hc.
Qed.
Lemma encode_json_length v : valid_json v = true -> (0 < String.length (encode_json v))%nat.
Proof. intros Hv. destruct (encode_json_opens v Hv) as (c & t & -> & _). cbn. lia. Qed.
Lemma opens_skip s rest : opens s -> skip_ws (s ++ rest) = s ++ rest.
Proof. intros (c & t & -> & Hc & _). by apply skip_ws_none. Qed.

Lemma parse_encoded_number f t rest : valid_number t = true -> ends_value rest ->
  parse_value (S f) (t ++ rest) = Some (JNumber t, rest).
Proof.
  intros Hn Hr. pose proof (valid_number_parse t rest Hn Hr) as Hp.
  destruct (valid_number_head t Hn) as (c & s & -> & Hcs). cbn [append] in *.
  assert (forall x, x <> "-"%char -> is_digit x = false -> Ascii.eqb c x = false) as Hx.
  { intros x Hx1 Hx2. apply Ascii.eqb_neq. intros ->. destruct Hcs; congruence. }
  cbn [parse_value]. rewrite (Hx dquote), (Hx "{"%char), (Hx "["%char) by done.
  assert (forall x y, x <> "-"%char -> is_digit x = false -> strip_prefix (String x y) (String c (s ++ rest)) = None) as Hs.
  { intros x y Hx1 Hx2. cbn [strip_prefix]. rewrite Ascii.eqb_sym, Hx by done. done. }
  rewrite (Hs "t"%char), (Hs "f"%char), (Hs "n"%char) by done. by rewrite Hp.
Qed.

(** [text] is read back as [v], given fuel for its length. *)
Definition reads_as (text : string) (v : json) : Prop := forall f rest,
  (String.length text <= f)%nat -> ends_value rest -> parse_value f (text ++ rest) = Some (v, rest).
(** What follows a member or an element. *)
Definition joined (close : string) (texts : list string) (rest : string) : string :=
  match texts with [] => close ++ rest | _ => "," ++ String.concat "," texts ++ close ++ rest end.
Lemma concat_cons text texts close rest :
  String.concat "," (text :: texts) ++ close ++ rest = text ++ joined close texts rest.
Proof. destruct texts; cbn [String.concat joined]; by rewrite ?string_app_assoc. Qed.
Lemma concat_length text texts :
  (String.length text + String.length (String.concat "," texts) <= String.length (String.concat "," (text :: texts)))%nat.
Proof. destruct texts; cbn [String.concat]; rewrite ?length_app_string; cbn [String.length]; lia. Qed.

(** White space that the encoder puts between tokens: none, or a line break and
    blanks. *)
Definition spacing (s : string) : Prop := s = "" \/ exists blanks, s = String newline blanks /\ forall t, skip_ws (blanks ++ t) = skip_ws t.
Lemma spacing_skip s t : spacing s -> skip_ws (s ++ t) = skip_ws t.
Proof. intros [->|(b & -> & Hb)]; [done|]. cbn [append skip_ws]. change (json_ws newline) with true. apply Hb. Qed.
Lemma spacing_ends s close rest : spacing s -> close = "}" \/ close = "]" -> ends_value (s ++ close ++ rest).
Proof. intros [->|(b & -> & _)] [-> | ->]; cbn; auto. Qed.
Lemma joined_ends s close texts rest : spacing s -> close = "}" \/ close = "]" -> ends_value (joined (s ++ close) texts rest).
Proof. intros Hs Hc. destruct texts; [|by left]. cbn [joined]. rewrite string_app_assoc. by apply spacing_ends. Qed.

Section Laid.
(** The text of a value inside an array or an object, the white space before it,
    after the last of them, and after a colon. *)
Context (text : json -> string) (before after colon : string).
Context (Hbefore : spacing before) (Hafter : spacing after) (Hcolon : forall t, skip_ws (colon ++ t) = skip_ws t).
Definition laid_element (v : json) : string := before ++ text v.
Definition laid_member (kv : string * json) : string := before ++ encode_string (fst kv) ++ ":" ++ colon ++ text (snd kv).
Definition sound (v : json) : Prop := opens (text v) /\ reads_as (text v) v.

Lemma skip_elements v l rest : opens (text v) ->
  skip_ws (String.concat "," (map laid_element (v :: l)) ++ rest) = text v ++ joined "" (map laid_element l) rest.
Proof using Hbefore.
  intros Ho. cbn [map]. change rest with ("" ++ rest) at 1. rewrite concat_cons. unfold laid_element at 1.
  rewrite string_app_assoc, spacing_skip by done. by apply opens_skip.
Qed.
Lemma parse_elements_text v l acc f rest :
  Forall sound (v :: l) -> (String.length (String.concat "," (map laid_element (v :: l))) < f)%nat ->
  parse_elements f (skip_ws (String.concat "," (map laid_element (v :: l)) ++ after ++ "]" ++ rest)) acc
  = Some (JArray (acc ++ v :: l)%list, rest).
Proof using Hbefore Hafter.
  revert v acc f. induction l as [|w l IH]; intros v acc f Hl Hf; apply Forall_cons in Hl as [[Ho Hr] Hl];
    (destruct f as [|f]; [lia|]); rewrite (skip_elements _ _ _ Ho); cbn [parse_elements].
  - cbn [map joined] in *. cbn [String.concat] in Hf. unfold laid_element in Hf. rewrite length_app_string in Hf.
    change ("" ++ after ++ ?x) with (after ++ x). rewrite Hr; [|lia|by apply (spacing_ends after "]"); [|right]]. rewrite (spacing_skip after) by done. cbn [append].
    by rewrite skip_ws_none.
  - pose proof (concat_length (laid_element v) (map laid_element (w :: l))) as Hlen. cbn [map] in Hf, Hlen.
    assert (0 < String.length (text v) <= String.length (laid_element v))%nat
      by (unfold laid_element; rewrite length_app_string; destruct Ho as (c & t & -> & _); cbn; lia).
    cbn [map joined]. rewrite Hr; [|lia|by left]. cbn [append]. rewrite skip_ws_none by done.
    change (Ascii.eqb "," "]") with false. change (Ascii.eqb "," ",") with true. cbn iota.
    specialize (IH w (acc ++ [v])%list f Hl). cbn [map append] in IH. rewrite IH by lia. by rewrite <-List.app_assoc.
Qed.
Lemma skip_members kv l rest :
  skip_ws (String.concat "," (map laid_member (kv :: l)) ++ rest)
  = encode_string (fst kv) ++ ":" ++ colon ++ text (snd kv) ++ joined "" (map laid_member l) rest.
Proof using Hbefore.
  cbn [map]. change rest with ("" ++ rest) at 1. rewrite concat_cons. unfold laid_member at 1.
  rewrite string_app_assoc, spacing_skip by done. rewrite !string_app_assoc. apply skip_ws_none. done.
Qed.
Lemma parse_members_text kv l acc f rest :
  Forall (fun kv => valid_utf8 (fst kv) = true /\ sound (snd kv)) (kv :: l) ->
  (String.length (String.concat "," (map laid_member (kv :: l))) < f)%nat ->
  parse_members f (skip_ws (String.concat "," (map laid_member (kv :: l)) ++ after ++ "}" ++ rest)) acc
  = Some (JObject (acc ++ kv :: l)%list, rest).
Proof using Hbefore Hafter Hcolon.
  revert kv acc f. induction l as [|w l IH]; intros [k v] acc f Hl Hf; apply Forall_cons in Hl as [(Hk & Ho & Hr) Hl];
    (destruct f as [|f]; [lia|]); cbn [fst snd] in Hk, Ho, Hr; rewrite skip_members; cbn [fst snd];
    assert (String.length (text v) < String.length (laid_member (k, v)))%nat
      by (unfold laid_member; cbn [fst snd]; rewrite !length_app_string; cbn [String.length]; lia);
    unfold encode_string, quoted; cbn [append parse_members];
    change (negb (Ascii.eqb dquote dquote)) with false; cbn iota; rewrite !string_app_assoc; cbn [append];
    rewrite (parse_encoded_chars _ k) by (done || rewrite ?length_app_string; simpl; lia);
    cbn [append]; rewrite (skip_ws_none ":") by done; change (negb (Ascii.eqb ":" ":")) with false; cbn iota;
    rewrite Hcolon, opens_skip by done.
  - cbn [map joined] in *. cbn [String.concat] in Hf. change ("" ++ after ++ ?x) with (after ++ x). rewrite Hr; [|lia|by apply (spacing_ends after "}"); [|left]].
    rewrite (spacing_skip after) by done. cbn [append]. by rewrite skip_ws_none.
  - pose proof (concat_length (laid_member (k, v)) (map laid_member (w :: l))) as Hlen. cbn [map] in Hf, Hlen.
    cbn [map joined]. rewrite Hr; [|lia|by left]. cbn [append]. rewrite skip_ws_none by done.
    change (Ascii.eqb "," "}") with false. change (Ascii.eqb "," ",") with true. cbn iota.
    specialize (IH w (acc ++ [(k, v)])%list f Hl). cbn [map append] in IH. rewrite IH by lia. by rewrite <-List.app_assoc.
Qed.

(** An array and an object are read back from their texts if their parts are. *)
Lemma array_reads_as v l : Forall sound (v :: l) ->
  reads_as ("[" ++ String.concat "," (map laid_element (v :: l)) ++ after ++ "]") (JArray (v :: l)).
Proof using Hbefore Hafter.
  intros Hl f rest Hf _. rewrite !length_app_string in Hf. cbn [String.length] in Hf. destruct f as [|f]; [lia|].
  rewrite !string_app_assoc. cbn [append parse_value].
  change (Ascii.eqb "[" dquote) with false. change (Ascii.eqb "[" "{") with false. change (Ascii.eqb "[" "[") with true. cbn iota.
  pose proof (parse_elements_text v l [] f rest Hl ltac:(lia)) as Hp. cbn [append List.app] in Hp. rewrite Hp.
  apply Forall_cons in Hl as [[Ho _] _]. rewrite (skip_elements _ _ _ Ho). destruct Ho as (c & t & -> & _ & Hb). cbn [append]. by rewrite Hb.
Qed.
Lemma object_reads_as kv l : Forall (fun kv => valid_utf8 (fst kv) = true /\ sound (snd kv)) (kv :: l) ->
  reads_as ("{" ++ String.concat "," (map laid_member (kv :: l)) ++ after ++ "}") (JObject (kv :: l)).
Proof using Hbefore Hafter Hcolon.
  intros Hl f rest Hf _. rewrite !length_app_string in Hf. cbn [String.length] in Hf. destruct f as [|f]; [lia|].
  rewrite !string_app_assoc. cbn [append parse_value].
  change (Ascii.eqb "{" dquote) with false. change (Ascii.eqb "{" "{") with true. cbn iota.
  pose proof (parse_members_text kv l [] f rest Hl ltac:(lia)) as Hp. cbn [append List.app] in Hp. rewrite Hp.
  rewrite skip_members. unfold encode_string, quoted. cbn [append]. by change (Ascii.eqb dquote "}") with false.
Qed.
End Laid.

(** A tree without parts, by an encoder that writes it as [encode_json] does. *)
Lemma scalar_reads_as (text : json -> string) v :
  valid_json v = true -> text v = encode_json v ->
  match v with JArray (_ :: _) | JObject (_ :: _) => False | _ => True end -> reads_as (text v) v.
Proof.
  intros Hv -> Hs f rest Hf Hr. destruct f as [|f]; [pose proof (encode_json_length _ Hv); lia|].
  destruct v as [|[]|t|s|[|v l]|[|kv l]]; try done; [by apply parse_encoded_number|by apply parse_encoded_string].
Qed.
Lemma encode_sound v : valid_json v = true -> sound encode_json v.
Proof.
  induction v as [|b|t|s|l IH|l IH] using json_tree_ind; intros Hv; (split; [by apply encode_json_opens|]);
    try (by apply (scalar_reads_as encode_json)).
  - destruct l as [|v l]; [by apply (scalar_reads_as encode_json)|].
    apply (array_reads_as encode_json "" ""); [by left|by left|]. cbn [valid_json] in Hv. rewrite forallb_forall in Hv.
    rewrite Forall_forall in IH |- *. intros w Hw. apply IH; [done|]. by apply Hv, list_elem_of_In.
  - destruct l as [|kv l]; [by apply (scalar_reads_as encode_json)|].
    apply (object_reads_as encode_json "" "" ""); [by left|by left|done|]. cbn [valid_json] in Hv. rewrite forallb_forall in Hv.
    rewrite Forall_forall in IH |- *. intros w Hw. specialize (Hv w (proj1 (list_elem_of_In _ _) Hw)).
    apply andb_true_iff in Hv as [? ?]. split; [done|by apply IH].
Qed.
Lemma encode_reads_back v f rest : valid_json v = true -> (String.length (encode_json v) <= f)%nat -> ends_value rest ->
  parse_value f (encode_json v ++ rest) = Some (v, rest).
Proof. intros Hv. by apply encode_sound. Qed.

(** The indented text of a tree is read back as well. *)
Lemma line_spacing depth : spacing (line depth).
Proof.
  right. eexists. split; [done|]. intros t. induction depth as [|depth IH]; [done|]. cbn [repeat].
  destruct depth; [done|]. cbn [repeat String.concat] in IH |- *. exact IH.
Qed.
Lemma indent_opens depth v : valid_json v = true -> opens (indent depth v).
Proof.
  destruct v as [|[]|t|s|[|v l]|[|kv l]]; intros Hv; try (eexists _, _; split; [reflexivity|done]). by apply (encode_json_opens (JNumber t)).
Qed.
Lemma indent_sound v depth : valid_json v = true -> sound (indent depth) v.
Proof.
  revert depth. induction v as [|b|t|s|l IH|l IH] using json_tree_ind; intros depth Hv; (split; [by apply indent_opens|]);
    try (by apply (scalar_reads_as (indent depth))).
  - destruct l as [|v l]; [by apply (scalar_reads_as (indent depth))|].
    apply (array_reads_as (indent (S depth)) (line (S depth)) (line depth)); [apply line_spacing..|].
    cbn [valid_json] in Hv. rewrite forallb_forall in Hv.
    rewrite Forall_forall in IH |- *. intros w Hw. apply IH; [done|]. by apply Hv, list_elem_of_In.
  - destruct l as [|kv l]; [by apply (scalar_reads_as (indent depth))|].
    apply (object_reads_as (indent (S depth)) (line (S depth)) (line depth) " "); [apply line_spacing..|done|].
    cbn [valid_json] in Hv. rewrite forallb_forall in Hv.
    rewrite Forall_forall in IH |- *. intros w Hw. specialize (Hv w (proj1 (list_elem_of_In _ _) Hw)).
    apply andb_true_iff in Hv as [? ?]. split; [done|by apply IH].
Qed.

(** ** What is parsed is valid *)
Definition valid_entry (kv : string * json) : bool := valid_utf8 (fst kv) && valid_json (snd kv).
Lemma parsed_valid f :
  (forall s v r, parse_value f s = Some (v, r) -> valid_json v = true)
  /\ (forall s acc v r, parse_members f s acc = Some (v, r) -> forallb valid_entry acc = true -> valid_json v = true)
  /\ (forall s acc v r, parse_elements f s acc = Some (v, r) -> forallb valid_json acc = true -> valid_json v = true).
Proof.
  induction f as [|f (IHv & IHm & IHe)]; [by split_and!|]. split_and!.
  - intros [|c s] v r; [done|]. cbn [parse_value]. destruct (Ascii.eqb c dquote).
    { destruct (parse_chars _ s "") as [[x y]|] eqn:E; [|done]. intros [= <- <-]. by eapply parsed_chars. }
    destruct (Ascii.eqb c "{").
    { destruct (skip_ws s) as [|d t]; [done|]. destruct (Ascii.eqb d "}"); [by intros [= <- <-]|]. intros Hp. by apply (IHm _ _ _ _ Hp). }
    destruct (Ascii.eqb c "[").
    { destruct (skip_ws s) as [|d t]; [done|]. destruct (Ascii.eqb d "]"); [by intros [= <- <-]|]. intros Hp. by apply (IHe _ _ _ _ Hp). }
    destruct (strip_prefix "true" _); [by intros [= <- <-]|]. destruct (strip_prefix "false" _); [by intros [= <- <-]|].
    destruct (strip_prefix "null" _); [by intros [= <- <-]|]. destruct (parse_number _) as [[x y]|] eqn:E; [|done].
    intros [= <- <-]. by eapply parsed_number.
  - intros [|q s] acc v r; [done|]. cbn [parse_members]. destruct (negb _); [done|].
    destruct (parse_chars _ s "") as [[k y]|] eqn:E; [|done]. destruct (skip_ws y) as [|col y2]; [done|]. destruct (negb _); [done|].
    destruct (parse_value f _) as [[w y3]|] eqn:Ew; [|done]. destruct (skip_ws y3) as [|d y4]; [done|].
    apply parsed_chars in E; [|done]. apply IHv in Ew. intros Hp Hacc.
    assert (forallb valid_entry (acc ++ [(k, w)])%list = true) as Hacc'.
    { rewrite forallb_app, Hacc. cbn [forallb]. unfold valid_entry. cbn [fst snd]. by rewrite E, Ew. }
    destruct (Ascii.eqb d "}"); [injection Hp as <- <-; exact Hacc'|]. destruct (Ascii.eqb d ","); [|done]. by apply (IHm _ _ _ _ Hp).
  - intros s acc v r. cbn [parse_elements]. destruct (parse_value f s) as [[w y3]|] eqn:Ew; [|done].
    destruct (skip_ws y3) as [|d y4]; [done|]. apply IHv in Ew. intros Hp Hacc.
    assert (forallb valid_json (acc ++ [w])%list = true) as Hacc' by (rewrite forallb_app, Hacc; cbn [forallb]; by rewrite Ew).
    destruct (Ascii.eqb d "]"); [injection Hp as <- <-; exact Hacc'|]. destruct (Ascii.eqb d ","); [|done]. by apply (IHe _ _ _ _ Hp).
Qed.

Lemma parse_encode_json v : valid_json v = true -> parse (encode_json v) = Some v.
Proof.
  intros Hv. unfold parse. rewrite <-(string_app_nil_r (encode_json v)) at 2. rewrite opens_skip by by apply encode_json_opens.
  rewrite encode_reads_back; [done|done|lia|done].
Qed.
Lemma parse_valid s v : parse s = Some v -> valid_json v = true.
Proof.
  unfold parse. destruct (parse_value _ _) as [[w r]|] eqn:E; [|done]. destruct (_ =s "") in |- *; [|done]. intros [= <-].
  by apply (proj1 (parsed_valid _) _ _ _ E).
Qed.
(** Texts of valid trees are equal only if the trees are. *)
Lemma encode_json_inj v w : valid_json v = true -> valid_json w = true -> encode_json v = encode_json w -> v = w.
Proof. intros Hv Hw He. apply parse_encode_json in Hv, Hw. rewrite He in Hv. congruence. Qed.

(** ** Flat objects *)
Definition json_of (v : scalar) : json :=
  match v with VString s => JString s | VBool b => JBool b | VInt n => JNumber (FormatInt n) end.
Definition valid_scalar (v : scalar) : bool :=
  match v with VString s => valid_utf8 s | VBool _ => true | VInt n => in_int64 n end.
Definition valid_member (kv : string * scalar) : bool := valid_utf8 (fst kv) && valid_scalar (snd kv).
Definition json_member (kv : string * scalar) : string * json := (fst kv, json_of (snd kv)).

Lemma encode_fields_json kvs : encode_fields kvs = encode_json (JObject (map json_member kvs)).
Proof.
  unfold encode_fields. cbn [encode_json]. rewrite map_map. do 2 f_equal. f_equal. apply map_ext. intros [k [s|[]|n]]; reflexivity.
Qed.
(** What [json.Marshal] writes for a flat object is what [json.Unmarshal] reads. *)
Lemma parse_encode_fields kvs :
  forallb valid_member kvs = true -> parse (encode_fields kvs) = Some (JObject (map json_member kvs)).
Proof.
  intros Hv. rewrite encode_fields_json. apply parse_encode_json. cbn [valid_json]. rewrite forallb_forall in Hv |- *.
  intros kv (m & <- & Hm)%in_map_iff. specialize (Hv m Hm). unfold valid_member in Hv. apply andb_true_iff in Hv as [Hk Hs].
  cbn [json_member fst snd]. rewrite Hk. destruct m as [k [s|b|n]]; cbn in *; [done|done|by apply valid_FormatInt].
Qed.

(** A field of a struct, read from the members written for it. *)
Definition written (kvs : list (string * scalar)) (k : string) : list (string * scalar) :=
  List.filter (fun kv => fold_key (fst kv) =s fold_key k) kvs.

Lemma written_members kvs k :
  List.filter (names_field k) (map json_member kvs) = map json_member (written kvs k).
Proof.
  induction kvs as [|[k' v] kvs IH]; [done|]. unfold written. cbn [map List.filter].
  change (names_field k (json_member (k', v))) with (fold_key k' =s fold_key k). cbn [fst].
  destruct (fold_key k' =s fold_key k); cbn [map]; by rewrite IH.
Qed.

Lemma struct_field_written {A} (get : json -> option A) zero kvs k k' v a :
  written kvs k = [(k', v)] -> get (snd (json_member (k', v))) = Some a ->
  struct_field get zero (map json_member kvs) k = Ok a.
Proof.
  intros Hw Hg. unfold struct_field. rewrite written_members, Hw. cbn [map].
  destruct v; cbn [json_member json_of fst snd is_null negb map List.filter forallb last] in *; by rewrite Hg.
Qed.
Lemma struct_field_absent {A} (get : json -> option A) zero kvs k :
  written kvs k = [] -> struct_field get zero (map json_member kvs) k = Ok zero.
Proof. intros Hw. unfold struct_field. by rewrite written_members, Hw. Qed.

Lemma string_field_written kvs k k' s :
  written kvs k = [(k', VString s)] -> string_field (map json_member kvs) k = Ok s.
Proof. intros Hw. by apply (struct_field_written _ _ _ _ _ _ _ Hw). Qed.
Lemma bool_field_written kvs k k' b :
  written kvs k = [(k', VBool b)] -> bool_field (map json_member kvs) k = Ok b.
Proof. intros Hw. by apply (struct_field_written _ _ _ _ _ _ _ Hw). Qed.
Lemma int_field_written kvs k k' n :
  written kvs k = [(k', VInt n)] -> in_int64 n = true -> int_field (map json_member kvs) k = Ok n.
Proof. intros Hw Hn. apply (struct_field_written _ _ _ _ _ _ _ Hw). by apply ParseInt_FormatInt. Qed.

(** Optional members. *)
Definition omit_zero (k : string) (n : Z) : list (string * scalar) := if n =? 0 then [] else [(k, VInt n)].
Lemma written_app a b k : written (a ++ b) k = (written a k ++ written b k)%list.
Proof. unfold written. apply List.filter_app. Qed.
Lemma written_cons k' v l k :
  written ((k', v) :: l) k = if fold_key k' =s fold_key k then (k', v) :: written l k else written l k.
Proof. done. Qed.
Lemma written_omitempty k' v k :
  written (omitempty k' v) k = if fold_key k' =s fold_key k then omitempty k' v else [].
Proof.
  unfold omitempty, written. destruct (v =s ""); cbn [List.filter fst]; by destruct (fold_key k' =s fold_key k).
Qed.
Lemma written_omit_zero k' v k :
  written (omit_zero k' v) k = if fold_key k' =s fold_key k then omit_zero k' v else [].
Proof.
  unfold omit_zero, written. destruct (v =? 0); cbn [List.filter fst]; by destruct (fold_key k' =s fold_key k).
Qed.
Lemma string_field_omitempty kvs k s :
  written kvs k = omitempty k s -> string_field (map json_member kvs) k = Ok s.
Proof.
  unfold omitempty. destruct (String.eqb_spec s "") as [->|]; [apply struct_field_absent|apply string_field_written].
Qed.
Lemma int_field_omit_zero kvs k n :
  written kvs k = omit_zero k n -> in_int64 n = true -> int_field (map json_member kvs) k = Ok n.
Proof.
  unfold omit_zero. destruct (Z.eqb_spec n 0) as [->|].
  - intros Hw _. by apply struct_field_absent.
  - apply int_field_written.
Qed.
Lemma valid_omitempty k s : valid_utf8 k = true -> valid_utf8 s = true -> forallb valid_member (omitempty k s) = true.
Proof.
  intros Hk Hs. unfold omitempty. destruct (s =s ""); [done|]. cbn [forallb]. unfold valid_member. cbn [fst snd valid_scalar].
  by rewrite Hk, Hs.
Qed.
Lemma valid_omit_zero k n : valid_utf8 k = true -> in_int64 n = true -> forallb valid_member (omit_zero k n) = true.
Proof.
  intros Hk Hn. unfold omit_zero. destruct (n =? 0); [done|]. cbn [forallb]. unfold valid_member. cbn [fst snd valid_scalar].
  by rewrite Hk, Hn.
Qed.

Lemma known_omitempty (P : string -> bool) k s :
  P k = true -> forallb (fun m => P (fst m)) (map json_member (omitempty k s)) = true.
Proof. intros Hk. unfold omitempty. destruct (s =s ""); [done|]. cbn [map forallb json_member fst]. by rewrite Hk. Qed.
Lemma known_omit_zero (P : string -> bool) k n :
  P k = true -> forallb (fun m => P (fst m)) (map json_member (omit_zero k n)) = true.
Proof. intros Hk. unfold omit_zero. destruct (n =? 0); [done|]. cbn [map forallb json_member fst]. by rewrite Hk. Qed.

(** Finds the member written for a field of a struct with optional fields. *)
Ltac read_member :=
  rewrite ?written_app, ?written_cons, ?written_omitempty, ?written_omit_zero;
  repeat match goal with
  | |- context [if ?b then _ else _] => let v := eval vm_compute in b in change b with v; cbv iota
  end;
  cbn [app written List.filter]; rewrite ?app_nil_r; reflexivity.

(** ASCII text is valid UTF-8. *)
Lemma printable_utf8 s : forall_bytes printable s = true -> valid_utf8 s = true.
Proof.
  unfold valid_utf8. generalize (String.length s). intros n. revert s.
  induction n as [|n IH]; intros [|c s]; try done. cbn [forall_bytes]. intros ?; bool_hyps.
  cbn [valid_utf8_fuel decode_rune]. assert ((byte_code c <? 0x80) = true) as Hc by (unfold printable in *; lia).
  rewrite Hc. destruct (Z.eqb_spec (byte_code c) rune_error) as [E|_]; [unfold rune_error in E; lia|].
  cbn [andb negb drop_bytes]. apply IH. by destruct s.
Qed.
(** The arithmetic hook is for this file only. *)
Ltac Zify.zify_post_hook ::= idtac.
