(* ===== verification/Decode.v ===== *)
(** encoding/json on Go values, as the command-line tools use it: the memory that
    a value of a Go type occupies, json.Marshal of it, and a Decoder with
    DisallowUnknownFields that writes into it. What a text repeats is written
    over what was there, as Go does: a member of a struct given twice is decoded
    twice into one field, and an array into the elements of the old one. *)
From stdpp Require Import base tactics option list strings.
From Stdlib Require Import ZArith Lia Ascii String.
From S2P Require Import Prelude GoStrings GoTime Errors Json JsonLaws.

Local Open Scope string_scope.
Local Open Scope Z_scope.

(** ** Types and values *)
#[local] Set Warnings "-register-all".
(** A field has a name, whether it is omitted when empty, and a type. *)
Inductive ty :=
| TString
| TBool
| TInt
| TPointer (t : ty)
| TSlice (t : ty)
| TStruct (fields : list (string * bool * ty)).
(** A slice has elements, and what is left of older ones in its capacity. *)
Inductive mem :=
| MString (s : string)
| MBool (b : bool)
| MInt (n : Z)
| MPointer (m : option mem)
| MSlice (l : option (list mem * list mem))
| MStruct (l : list mem).
Definition field_name (f : string * bool * ty) : string := f.1.1.
Definition field_omits (f : string * bool * ty) : bool := f.1.2.
Definition field_type (f : string * bool * ty) : ty := f.2.

Fixpoint zero (t : ty) : mem :=
  match t with
  | TString => MString ""
  | TBool => MBool false
  | TInt => MInt 0
  | TPointer _ => MPointer None
  | TSlice _ => MSlice None
  | TStruct fs => MStruct (map (fun f => zero f.2) fs)
  end.

(** ** Marshal *)
Definition is_empty (m : mem) : bool :=
  match m with
  | MString s => s =s ""
  | MBool b => negb b
  | MInt n => n =? 0
  | MPointer o => match o with None => true | Some _ => false end
  | MSlice o => match o with None => true | Some (l, _) => Nat.eqb (List.length l) 0 end
  | MStruct _ => false
  end.
Section Fields.
Context (encode : ty -> mem -> json).
Fixpoint encode_struct (fs : list (string * bool * ty)) (ms : list mem) : list (string * json) :=
  match fs, ms with
  | f :: fs, m :: ms =>
      ((if field_omits f && is_empty m then [] else [(field_name f, encode f.2 m)]) ++ encode_struct fs ms)%list
  | _, _ => []
  end.
End Fields.
Fixpoint marshal (t : ty) (m : mem) {struct t} : json :=
  match t, m with
  | TString, MString s => JString s
  | TBool, MBool b => JBool b
  | TInt, MInt n => JNumber (FormatInt n)
  | TPointer t, MPointer (Some m) => marshal t m
  | TSlice t, MSlice (Some (l, _)) => JArray (map (marshal t) l)
  | TStruct fs, MStruct ms => JObject (encode_struct marshal fs ms)
  | _, _ => JNull
  end.

(** ** Decode *)
(** The field that a member names: exactly, or else up to case. *)
Fixpoint field_at (p : string -> bool) (i : nat) (fs : list (string * bool * ty)) : option (nat * ty) :=
  match fs with
  | [] => None
  | f :: fs => if p (field_name f) then Some (i, field_type f) else field_at p (S i) fs
  end.
Definition find_field (k : string) (fs : list (string * bool * ty)) : option (nat * ty) :=
  match field_at (String.eqb k) 0 fs with
  | Some x => Some x
  | None => field_at (fun name => fold_key k =s fold_key name) 0 fs
  end.
(** What a value is decoded into: through pointers, which are allocated when nil. *)
Fixpoint deref (t : ty) (old : mem) : ty * mem :=
  match t with
  | TPointer t => deref t (match old with MPointer (Some m) => m | _ => zero t end)
  | _ => (t, old)
  end.
Fixpoint reref (t : ty) (m : mem) : mem := match t with TPointer t => MPointer (Some (reref t m)) | _ => m end.
Definition fields_of (m : mem) : list mem := match m with MStruct ms => ms | _ => [] end.
(** The elements of a slice and what its capacity still holds. *)
Definition backing (m : mem) : list mem := match m with MSlice (Some (l, spare)) => (l ++ spare)%list | _ => [] end.

Section Members.
Context (decode : json -> ty -> mem -> option mem).
Fixpoint decode_members (fs : list (string * bool * ty)) (l : list (string * json)) (ms : list mem) : option (list mem) :=
  match l with
  | [] => Some ms
  | kv :: l =>
      match find_field kv.1 fs with
      | None => None
      | Some (i, t) =>
          match decode kv.2 t (default (zero t) (ms !! i)) with
          | None => None
          | Some m => decode_members fs l (<[i := m]> ms)
          end
      end
  end.
Fixpoint decode_elements (t : ty) (l : list json) (old : list mem) : option (list mem) :=
  match l with
  | [] => Some []
  | v :: l =>
      match decode v t (default (zero t) (head old)), decode_elements t l (tail old) with
      | Some m, Some ms => Some (m :: ms)
      | _, _ => None
      end
  end.
End Members.
Fixpoint decode_into (v : json) (t : ty) (old : mem) {struct v} : option mem :=
  match v with
  | JNull => Some (match t with TPointer _ => MPointer None | TSlice _ => MSlice None | _ => old end)
  | _ =>
    let target := deref t old in
    option_map (reref t)
      match v, target.1 with
      | JBool b, TBool => Some (MBool b)
      | JString s, TString => Some (MString s)
      | JNumber n, TInt => option_map MInt (ParseInt n)
      | JArray l, TSlice t' =>
          let old := backing target.2 in
          option_map (fun ms => MSlice (Some (ms, match l with [] => [] | _ => drop (List.length l) old end)))
            (decode_elements decode_into t' l old)
      | JObject l, TStruct fs => option_map MStruct (decode_members decode_into fs l (fields_of target.2))
      | _, _ => None
      end
  end.
(** Decoder.Decode: the first value of the text; what follows it is not read. *)
Definition first_value (text : string) : option json :=
  option_map fst (parse_value (2 * String.length text + 1) (skip_ws text)).
Definition decode (t : ty) (text : string) : option mem :=
  match first_value text with Some v => decode_into v t (zero t) | None => None end.

(** ** Examples of what Go does *)
Definition pair_type : ty := TStruct [("a", false, TString); ("b", true, TSlice (TStruct [("x", false, TInt); ("y", false, TInt)]))].
Definition member (k v : string) : string := encode_string k ++ ":" ++ v.
Example decode_case : decode pair_type ("{" ++ member "A" (encode_string "1") ++ "} trailing")
  = Some (MStruct [MString "1"; MSlice None]).
Proof. vm_compute. reflexivity. Qed.
Example decode_unknown : decode pair_type ("{" ++ member "c" "1" ++ "}") = None.
Proof. vm_compute. reflexivity. Qed.
(** The second array is decoded over the first. *)
Example decode_repeated :
  decode pair_type ("{" ++ member "b" ("[{" ++ member "x" "1" ++ "}, {" ++ member "x" "2" ++ "}]") ++ ","
    ++ member "b" ("[{" ++ member "y" "5" ++ "}]") ++ "}")
  = Some (MStruct [MString ""; MSlice (Some ([MStruct [MInt 1; MInt 5]], [MStruct [MInt 2; MInt 0]]))]).
Proof. vm_compute. reflexivity. Qed.

(** ** What is decoded is valid: strings of UTF-8, integers of 64 bits *)
Fixpoint valid_mem (m : mem) : bool :=
  match m with
  | MString s => valid_utf8 s
  | MBool _ => true
  | MInt n => in_int64 n
  | MPointer o => match o with Some m => valid_mem m | None => true end
  | MSlice o => match o with Some (l, spare) => forallb valid_mem l && forallb valid_mem spare | None => true end
  | MStruct l => forallb valid_mem l
  end.
Section TyInduction.
Context (P : ty -> Prop) (P_string : P TString) (P_bool : P TBool) (P_int : P TInt) (P_pointer : forall t, P t -> P (TPointer t))
  (P_slice : forall t, P t -> P (TSlice t)) (P_struct : forall fs, Forall (fun f => P (field_type f)) fs -> P (TStruct fs)).
Fixpoint ty_tree_ind (t : ty) : P t :=
  match t with
  | TString => P_string
  | TBool => P_bool
  | TInt => P_int
  | TPointer t => P_pointer t (ty_tree_ind t)
  | TSlice t => P_slice t (ty_tree_ind t)
  | TStruct fs => P_struct fs ((fix go fs : Forall (fun f => P (field_type f)) fs :=
      match fs with [] => Forall_nil_2 _ | f :: fs => Forall_cons_2 _ f fs (ty_tree_ind (field_type f)) (go fs) end) fs)
  end.
End TyInduction.
Lemma zero_valid t : valid_mem (zero t) = true.
Proof.
  induction t as [| | |t IH|t IH|fs IH] using ty_tree_ind; try done. cbn [zero valid_mem].
  apply forallb_forall. intros m (f & <- & Hf)%in_map_iff. rewrite Forall_forall in IH. by apply IH, list_elem_of_In.
Qed.
Lemma deref_valid t old : valid_mem old = true -> valid_mem (deref t old).2 = true.
Proof.
  revert old. induction t as [| | |t IH|t IH|fs IH] using ty_tree_ind; intros old Ho; try done. cbn [deref]. apply IH.
  destruct old as [| | |[m|]| |]; try apply zero_valid. exact Ho.
Qed.
Lemma reref_valid t m : valid_mem m = true -> valid_mem (reref t m) = true.
Proof. induction t as [| | |t IH|t IH|fs IH] using ty_tree_ind; intros Hm; try done. by apply IH. Qed.
Lemma fields_of_valid m : valid_mem m = true -> forallb valid_mem (fields_of m) = true.
Proof. by destruct m. Qed.
Lemma backing_valid m : valid_mem m = true -> forallb valid_mem (backing m) = true.
Proof. destruct m as [| | | |[[l spare]|]|]; try done. cbn. by rewrite forallb_app. Qed.
Lemma forallb_default {A} (p : A -> bool) l i d : forallb p l = true -> p d = true -> p (default d (l !! i)) = true.
Proof.
  intros Hl Hd. destruct (l !! i) as [x|] eqn:E; [|done]. rewrite forallb_forall in Hl. apply Hl.
  apply list_elem_of_In. by eapply list_elem_of_lookup_2.
Qed.
Lemma forallb_insert {A} (p : A -> bool) l i x : forallb p l = true -> p x = true -> forallb p (<[i := x]> l) = true.
Proof.
  intros Hl Hx. revert i. induction l as [|y l IH]; intros [|i]; [done..| |]; cbn in *; apply andb_true_iff in Hl as [Hy Hl].
  - by rewrite Hx.
  - rewrite Hy. by apply IH.
Qed.
Lemma forallb_drop {A} (p : A -> bool) n l : forallb p l = true -> forallb p (drop n l) = true.
Proof. intros Hl. rewrite <-(take_drop n l), forallb_app in Hl. by apply andb_true_iff in Hl as [_ ?]. Qed.

Lemma forallb_head {A} (p : A -> bool) d l : forallb p l = true -> p d = true -> p (default d (head l)) = true.
Proof. destruct l as [|x l]; [done|]. cbn. by intros [? _]%andb_true_iff. Qed.
Lemma forallb_tail {A} (p : A -> bool) l : forallb p l = true -> forallb p (tail l) = true.
Proof. destruct l as [|x l]; [done|]. cbn. by intros [_ ?]%andb_true_iff. Qed.

Lemma decode_into_valid v t old m :
  valid_json v = true -> valid_mem old = true -> decode_into v t old = Some m -> valid_mem m = true.
Proof.
  revert t old m. induction v as [|b|n|s|l IH|l IH] using json_tree_ind; intros t old m Hv Ho; cbn [decode_into].
  - intros [= <-]. by destruct t.
  - destruct (deref t old) as [[] m']; try done. intros [= <-]. by apply reref_valid.
  - destruct (deref t old) as [[] m']; try done. cbn. destruct (ParseInt n) eqn:En; [|done]. intros [= <-].
    apply reref_valid. by eapply ParseInt_range.
  - destruct (deref t old) as [[] m']; try done. intros [= <-]. by apply reref_valid.
  - pose proof (deref_valid t old Ho) as Hd. destruct (deref t old) as [[] m'] eqn:E; try done. cbn [fst snd] in *.
    destruct (decode_elements decode_into t0 l (backing m')) as [ms|] eqn:Em; [|done]. cbn. intros [= <-]. apply reref_valid.
    cbn [valid_mem]. apply backing_valid in Hd. apply andb_true_iff. split.
    + clear E. revert Hd ms Em. generalize (backing m') as mem. cbn [valid_json] in Hv.
      induction IH as [|w l Hw _ IHl]; intros mem Hmem ms; cbn [decode_elements]; [by intros [= <-]|].
      cbn [forallb] in Hv. apply andb_true_iff in Hv as [Hv1 Hv2].
      destruct (decode_into w t0 _) as [x|] eqn:Ex; [|done]. destruct (decode_elements _ _ _ _) as [xs|] eqn:Exs; [|done].
      intros [= <-]. cbn [forallb]. rewrite (Hw _ _ _ Hv1) by first [exact Ex|by apply forallb_head; [|apply zero_valid]].
      cbn [andb]. eapply IHl; [done| |exact Exs]. by apply forallb_tail.
    + destruct l; [done|]. by apply forallb_drop.
  - pose proof (deref_valid t old Ho) as Hd. destruct (deref t old) as [[] m'] eqn:E; try done. cbn [fst snd] in *.
    destruct (decode_members decode_into fields l (fields_of m')) as [ms|] eqn:Em; [|done]. cbn. intros [= <-]. apply reref_valid.
    cbn [valid_mem]. apply fields_of_valid in Hd. clear E. revert Hd ms Em. generalize (fields_of m') as mem. cbn [valid_json] in Hv.
    induction IH as [|kv l Hw _ IHl]; intros mem Hmem ms; cbn [decode_members]; [by intros [= <-]|].
    cbn [forallb] in Hv. apply andb_true_iff in Hv as [Hv1 Hv2]. apply andb_true_iff in Hv1 as [_ Hv1].
    destruct (find_field kv.1 fields) as [[i t0]|]; [|done]. destruct (decode_into kv.2 t0 _) as [x|] eqn:Ex; [|done].
    apply IHl; [done|]. apply forallb_insert; [done|]. eapply Hw; [done| |exact Ex]. apply forallb_default; [done|apply zero_valid].
Qed.
Lemma first_value_valid text v : first_value text = Some v -> valid_json v = true.
Proof.
  unfold first_value. destruct (parse_value _ _) as [[w r]|] eqn:E; [|done]. intros [= <-]. by apply (proj1 (parsed_valid _) _ _ _ E).
Qed.
Lemma decode_valid_mem t text m : decode t text = Some m -> valid_mem m = true.
Proof.
  unfold decode. destruct (first_value text) as [v|] eqn:E; [|done]. apply first_value_valid in E. intros Hm.
  eapply decode_into_valid; [exact E|apply zero_valid|exact Hm].
Qed.

(** ** What is marshalled is decoded *)
(** Types whose values are never written as null. *)
Definition solid (t : ty) : bool := match t with TPointer _ | TSlice _ => false | _ => true end.
Fixpoint distinct (l : list string) : bool :=
  match l with [] => true | x :: l => negb (existsb (String.eqb x) l) && distinct l end.
Fixpoint good (t : ty) : bool :=
  match t with
  | TString | TBool | TInt => true
  | TPointer t => solid t && good t
  | TSlice t => good t
  | TStruct fs => forallb (fun f => good f.2) fs && distinct (map (fun f => fold_key (field_name f)) fs)
  end.
(** A value of a type as a program holds it: no capacity beyond the elements, and
    no empty slice that is not nil in a field that is omitted when empty. *)
Definition empty_slice (m : mem) : bool :=
  match m with MSlice o => match o with Some (l, _) => Nat.eqb (List.length l) 0 | None => false end | _ => false end.
Section FitsStruct.
Context (fits : ty -> mem -> bool).
Fixpoint fits_struct (fs : list (string * bool * ty)) (ms : list mem) : bool :=
  match fs, ms with
  | [], [] => true
  | f :: fs, m :: ms => fits f.2 m && negb (field_omits f && empty_slice m) && fits_struct fs ms
  | _, _ => false
  end.
End FitsStruct.
Fixpoint fits (t : ty) (m : mem) {struct t} : bool :=
  match t, m with
  | TString, MString _ | TBool, MBool _ => true
  | TInt, MInt n => in_int64 n
  | TPointer t, MPointer o => match o with Some m => fits t m | None => true end
  | TSlice t, MSlice o =>
      match o with Some (l, spare) => Nat.eqb (List.length spare) 0 && forallb (fits t) l | None => true end
  | TStruct fs, MStruct ms => fits_struct fits fs ms
  | _, _ => false
  end.

Lemma empty_zero t m : fits t m = true -> is_empty m = true -> empty_slice m = false -> m = zero t.
Proof.
  destruct t, m as [s|b|n|[m|]|[[l sp]|]|ms]; try done; cbn.
  - by intros _ ->%String.eqb_eq.
  - by destruct b.
  - by intros _ ->%Z.eqb_eq.
  - intros _ -> ?. done.
Qed.
Lemma marshal_solid t m : solid t = true -> fits t m = true -> marshal t m <> JNull.
Proof. by destruct t, m. Qed.
Lemma decode_pointer v t : v <> JNull -> solid t = true ->
  decode_into v (TPointer t) (MPointer None) = option_map (fun m => MPointer (Some m)) (decode_into v t (zero t)).
Proof.
  intros Hv Ht. destruct v as [| | | | |]; [done|..]; destruct t; try done; cbn [decode_into deref reref fst snd zero];
    match goal with |- option_map _ ?x = _ => destruct x; done end.
Qed.
Lemma field_at_app p i fs1 f fs2 : existsb (fun g => p (field_name g)) fs1 = false -> p (field_name f) = true ->
  field_at p i (fs1 ++ f :: fs2)%list = Some ((i + List.length fs1)%nat, field_type f).
Proof.
  revert i. induction fs1 as [|g fs1 IH]; intros i H1 Hf; cbn [app field_at].
  - rewrite Hf. cbn. by rewrite Nat.add_0_r.
  - cbn in H1. apply orb_false_iff in H1 as [-> H1]. rewrite IH by done. cbn. by rewrite Nat.add_succ_r.
Qed.
Lemma distinct_middle (l1 : list string) x l2 : distinct (l1 ++ x :: l2)%list = true -> ~ In x l1.
Proof.
  induction l1 as [|y l1 IH]; cbn; [auto|]. intros [Hy Hd]%andb_true_iff [->|Hin]; [|by apply IH].
  apply negb_true_iff in Hy. rewrite existsb_app in Hy. apply orb_false_iff in Hy as [_ Hy]. cbn in Hy.
  by rewrite String.eqb_refl in Hy.
Qed.
Lemma find_middle fs1 f fs2 : distinct (map (fun f => fold_key (field_name f)) (fs1 ++ f :: fs2)%list) = true ->
  find_field (field_name f) (fs1 ++ f :: fs2)%list = Some (List.length fs1, field_type f).
Proof.
  intros Hd. unfold find_field. rewrite field_at_app; [done| |apply String.eqb_refl].
  apply not_true_is_false. intros (g & Hg & He%String.eqb_eq)%existsb_exists. rewrite map_app in Hd. cbn [map] in Hd.
  apply distinct_middle in Hd. apply Hd. rewrite He. apply in_map_iff. by exists g.
Qed.

Lemma insert_middle {A} (l1 : list A) x y l2 n : n = List.length l1 -> <[n := y]> (l1 ++ x :: l2)%list = (l1 ++ y :: l2)%list.
Proof. intros ->. induction l1 as [|z l1 IH]; [done|]. cbn. by f_equal. Qed.
Lemma decode_fields fs2 ms2 : forall fs1 ms1,
  Forall (fun f => forall m, fits (field_type f) m = true -> decode_into (marshal (field_type f) m) (field_type f) (zero (field_type f)) = Some m) fs2 ->
  distinct (map (fun f => fold_key (field_name f)) (fs1 ++ fs2)%list) = true -> List.length fs1 = List.length ms1 ->
  fits_struct fits fs2 ms2 = true ->
  decode_members decode_into (fs1 ++ fs2)%list (encode_struct marshal fs2 ms2) (ms1 ++ map (fun f => zero (field_type f)) fs2)%list
  = Some (ms1 ++ ms2)%list.
Proof.
  revert ms2. induction fs2 as [|f fs2 IH]; intros [|m ms2] fs1 ms1 Hf Hd Hlen Hfit; try done.
  cbn [fits_struct] in Hfit. apply andb_true_iff in Hfit as [[Hm Ho]%andb_true_iff Hfit]. apply Forall_cons in Hf as [Hf Hfs].
  assert (fs1 ++ f :: fs2 = (fs1 ++ [f]) ++ fs2)%list as Happ by (by rewrite <-app_assoc).
  assert (decode_members decode_into (fs1 ++ f :: fs2)%list (encode_struct marshal fs2 ms2)
            (ms1 ++ m :: map (fun f => zero (field_type f)) fs2)%list = Some (ms1 ++ m :: ms2)%list) as Hrest.
  { specialize (IH ms2 (fs1 ++ [f])%list (ms1 ++ [m])%list Hfs). rewrite <-!app_assoc in IH. cbn [app] in IH.
    apply IH; [done|by rewrite !length_app, Hlen|done]. }
  cbn [encode_struct map]. destruct (field_omits f && is_empty m) eqn:E.
  - apply andb_true_iff in E as [E1 E2]. rewrite E1 in Ho. apply negb_true_iff in Ho. cbn [andb app] in Ho |- *.
    rewrite (empty_zero _ _ Hm E2 Ho) in Hrest |- *. exact Hrest.
  - cbn [app decode_members fst snd]. rewrite (find_middle _ _ _ Hd).
    rewrite list_lookup_middle by exact Hlen. cbn [default]. unfold field_type in *. cbn. rewrite (Hf m Hm).
    rewrite insert_middle by exact Hlen. exact Hrest.
Qed.
Lemma decode_marshal t m : good t = true -> fits t m = true -> decode_into (marshal t m) t (zero t) = Some m.
Proof.
  revert m. induction t as [| | |t IH|t IH|fs IH] using ty_tree_ind; intros m Hg Hm; cbn [good] in Hg.
  - by destruct m.
  - by destruct m.
  - destruct m; try done. cbn in *. by rewrite ParseInt_FormatInt.
  - destruct m as [| | |[m|]| |]; try done. apply andb_true_iff in Hg as [Hs Hg]. cbn [fits marshal zero] in *.
    rewrite decode_pointer by (by try apply marshal_solid). by rewrite IH.
  - destruct m as [| | | |[[l sp]|]|]; try done. cbn [fits] in Hm. apply andb_true_iff in Hm as [Hsp Hl].
    destruct sp; [|done]. cbn. assert (decode_elements decode_into t (map (marshal t) l) [] = Some l) as ->; [|by destruct l].
    clear Hsp. induction l as [|m l IHl]; [done|]. cbn in *. apply andb_true_iff in Hl as [Hm Hl]. rewrite (IH m Hg Hm). by rewrite IHl.
  - destruct m as [| | | | |ms]; try done. apply andb_true_iff in Hg as [Hg Hd]. cbn [fits marshal zero decode_into deref fst snd fields_of reref] in *.
    pose proof (decode_fields fs ms [] []) as Hdec. cbn [app] in Hdec. unfold field_type in Hdec. rewrite Hdec; [done| |done|done|done].
    clear Hdec. rewrite Forall_forall in IH |- *. rewrite forallb_forall in Hg.
    intros f Hf m Hfm. apply IH; [done| |done]. apply Hg. by apply list_elem_of_In.
Qed.
(** Field names of valid UTF-8. *)
Fixpoint valid_ty (t : ty) : bool :=
  match t with
  | TString | TBool | TInt => true
  | TPointer t | TSlice t => valid_ty t
  | TStruct fs => forallb (fun f => valid_utf8 f.1.1 && valid_ty f.2) fs
  end.
Lemma marshal_valid t m : valid_ty t = true -> valid_mem m = true -> valid_json (marshal t m) = true.
Proof.
  revert m. induction t as [| | |t IH|t IH|fs IH] using ty_tree_ind; intros m Ht Hm; cbn [valid_ty] in Ht.
  - by destruct m.
  - by destruct m.
  - destruct m; try done. by apply valid_FormatInt.
  - destruct m as [| | |[m|]| |]; try done. by apply IH.
  - destruct m as [| | | |[[l sp]|]|]; try done. cbn in Hm |- *. apply andb_true_iff in Hm as [Hl _].
    rewrite forallb_forall in Hl |- *. intros v (m & <- & Hin)%in_map_iff. apply IH; [done|by apply Hl].
  - destruct m as [| | | | |ms]; try done. cbn [marshal valid_json valid_mem] in *.
    revert ms Hm. induction IH as [|f fs Hf _ IHfs]; intros [|m ms] Hm; try done. cbn [encode_struct forallb] in *.
    apply andb_true_iff in Ht as [[Hn Hf']%andb_true_iff Ht], Hm as [Hm Hms]. rewrite forallb_app, IHfs, andb_true_r by done.
    destruct (_ && _); [done|]. cbn [forallb fst snd andb]. unfold field_name. rewrite Hn, Hf by done. done.
Qed.
Lemma first_value_reads text v rest : opens text -> reads_as text v -> ends_value rest -> first_value (text ++ rest) = Some v.
Proof. intros Ho Hv Hr. unfold first_value. rewrite opens_skip by done. rewrite Hv; [done|rewrite length_app_string; lia|done]. Qed.
Lemma first_value_encode v rest : valid_json v = true -> ends_value rest -> first_value (encode_json v ++ rest) = Some v.
Proof. intros [Ho Hv]%encode_sound. by apply first_value_reads. Qed.
Lemma first_value_indent depth v rest : valid_json v = true -> ends_value rest -> first_value (indent depth v ++ rest) = Some v.
Proof. intros [Ho Hv]%(indent_sound v depth). by apply first_value_reads. Qed.
Lemma marshal_inj t m m' : good t = true -> fits t m = true -> fits t m' = true -> marshal t m = marshal t m' -> m = m'.
Proof. intros Hg Hm Hm' He. apply decode_marshal in Hm, Hm'; [|done..]. rewrite He in Hm. congruence. Qed.

(** What the program marshals is read back. For every Go type of strings,
    booleans, integers, pointers, slices and structs (no two fields of which have
    one name up to case), a value of it whose strings are valid UTF-8 is decoded
    from its text, on one line or indented, by the strict decoder exactly as it
    was, whatever separator follows; and no other value has that text. *)
Lemma decode_text t m rest : good t = true -> valid_ty t = true -> fits t m = true -> valid_mem m = true -> ends_value rest ->
  decode t (encode_json (marshal t m) ++ rest) = Some m /\ decode t (indent 0 (marshal t m) ++ rest) = Some m.
Proof.
  intros Hg Ht Hf Hm Hr. pose proof (marshal_valid t m Ht Hm) as Hv. unfold decode.
  rewrite first_value_encode, first_value_indent by done. by rewrite decode_marshal.
Qed.
Lemma marshal_text_inj t m m' : good t = true -> valid_ty t = true -> fits t m = true -> fits t m' = true ->
  valid_mem m = true -> valid_mem m' = true -> encode_json (marshal t m) = encode_json (marshal t m') -> m = m'.
Proof.
  intros Hg Ht Hf Hf' Hm Hm' He. apply (marshal_inj t); [done..|]. by apply encode_json_inj; [apply marshal_valid|apply marshal_valid|].
Qed.
