(* ===== verification/Events.v ===== *)
(** internal/events: the Platform event envelope and its per-type allow-list. *)
From stdpp Require Import base tactics list strings.
From Stdlib Require Import ZArith Lia Ascii String.
From S2P Require Import Prelude GoStrings GoTime Codec Json Errors Domain.

Local Open Scope string_scope.
Local Open Scope Z_scope.

Definition SchemaVersion : Z := 1.
Definition MaxPayloadBytes : Z := 4096.
Definition MaxEventIDLength : Z := 100.

(** AggregateType *)
Definition AggregateUser := "User".
Definition AggregateOrganisation := "Organisation".
Definition AggregateWorkspace := "Workspace".
Definition AggregateProduct := "Product".
Definition AggregateAccess := "Access".

Definition EventUserCreated := "platform.user.created".
Definition EventUserStatusChanged := "platform.user.status_changed".
Definition EventOrganisationCreated := "platform.organisation.created".
Definition EventOrganisationMembershipAdded := "platform.organisation.membership_added".
Definition EventOrganisationRoleChanged := "platform.organisation.membership_role_changed".
Definition EventOrganisationMembershipRemoved := "platform.organisation.membership_deactivated".
Definition EventOrganisationArchived := "platform.organisation.archived".
Definition EventOrganisationRenamed := "platform.organisation.renamed".
Definition EventWorkspaceCreated := "platform.workspace.created".
Definition EventWorkspaceMembershipAdded := "platform.workspace.membership_added".
Definition EventWorkspaceRoleChanged := "platform.workspace.membership_role_changed".
Definition EventWorkspaceMembershipRemoved := "platform.workspace.membership_deactivated".
Definition EventWorkspaceArchived := "platform.workspace.archived".
Definition EventProductRetired := "platform.product.retired".
Definition EventProductCreated := "platform.product.created".
Definition EventEntitlementGranted := "platform.access.entitlement_granted".
Definition EventEntitlementRevoked := "platform.access.entitlement_revoked".
Definition EventAssignmentGranted := "platform.access.assignment_granted".
Definition EventAssignmentRevoked := "platform.access.assignment_revoked".

Record Event := mkEvent {
  Event_EventID : string; Event_EventType : string; Event_AggregateType : string;
  Event_AggregateID : string; Event_Sequence : Z; Event_SchemaVersion : Z;
  Event_OccurredAt : Z; Event_Payload : string }.

Inductive fieldType := fieldString | fieldBool.

Record eventSpec := mkSpec { aggregateType : string; fields : list (string * fieldType) }.

Definition membership_fields (scope : string) : list (string * fieldType) :=
  [(scope, fieldString); ("membership_id", fieldString); ("user_id", fieldString);
   ("role", fieldString); ("active", fieldBool)].
Definition entitlement_fields : list (string * fieldType) :=
  [("entitlement_id", fieldString); ("organisation_id", fieldString);
   ("product_key", fieldString); ("status", fieldString)].
Definition assignment_fields : list (string * fieldType) :=
  [("assignment_id", fieldString); ("organisation_id", fieldString); ("user_id", fieldString);
   ("product_key", fieldString); ("status", fieldString)].

Definition specs_table : list (string * eventSpec) := [
  (EventUserCreated, mkSpec AggregateUser [("user_id", fieldString); ("active", fieldBool)]);
  (EventUserStatusChanged, mkSpec AggregateUser [("user_id", fieldString); ("active", fieldBool)]);
  (EventOrganisationCreated, mkSpec AggregateOrganisation [("organisation_id", fieldString)]);
  (EventOrganisationMembershipAdded, mkSpec AggregateOrganisation (membership_fields "organisation_id"));
  (EventOrganisationRoleChanged, mkSpec AggregateOrganisation (membership_fields "organisation_id"));
  (EventOrganisationMembershipRemoved, mkSpec AggregateOrganisation (membership_fields "organisation_id"));
  (EventOrganisationArchived, mkSpec AggregateOrganisation
     [("organisation_id", fieldString); ("active", fieldBool)]);
  (EventOrganisationRenamed, mkSpec AggregateOrganisation
     [("organisation_id", fieldString); ("name", fieldString)]);
  (EventWorkspaceCreated, mkSpec AggregateWorkspace
     [("workspace_id", fieldString); ("organisation_id", fieldString); ("active", fieldBool)]);
  (EventWorkspaceMembershipAdded, mkSpec AggregateWorkspace (membership_fields "workspace_id"));
  (EventWorkspaceRoleChanged, mkSpec AggregateWorkspace (membership_fields "workspace_id"));
  (EventWorkspaceMembershipRemoved, mkSpec AggregateWorkspace (membership_fields "workspace_id"));
  (EventWorkspaceArchived, mkSpec AggregateWorkspace
     [("workspace_id", fieldString); ("active", fieldBool)]);
  (EventProductRetired, mkSpec AggregateProduct [("product_key", fieldString); ("status", fieldString)]);
  (EventProductCreated, mkSpec AggregateProduct [("product_key", fieldString); ("status", fieldString)]);
  (EventEntitlementGranted, mkSpec AggregateAccess entitlement_fields);
  (EventEntitlementRevoked, mkSpec AggregateAccess entitlement_fields);
  (EventAssignmentGranted, mkSpec AggregateAccess assignment_fields);
  (EventAssignmentRevoked, mkSpec AggregateAccess assignment_fields)].

Definition assoc {A} (k : string) (l : list (string * A)) : option A :=
  option_map snd (find (fun kv => k =s fst kv) l).
Definition specs (eventType : string) : option eventSpec := assoc eventType specs_table.

Definition validPayloadString (name value : string) : bool :=
  let value := TrimSpace value in
  if value =s "" then false
  else if name =s "user_id" then has_prefix_id value "usr_"
  else if name =s "organisation_id" then has_prefix_id value "org_"
  else if name =s "workspace_id" then has_prefix_id value "wsp_"
  else if name =s "membership_id" then has_prefix_id value "omem_" || has_prefix_id value "wmem_"
  else if name =s "entitlement_id" then has_prefix_id value "ent_"
  else if name =s "assignment_id" then has_prefix_id value "upa_"
  else if name =s "product_key" then has_prefix_id value "product."
  else if name =s "role" then
    (value =s "owner") || (value =s "admin") || (value =s "member") || (value =s "viewer")
  else if name =s "status" then
    (value =s "active") || (value =s "archived") || (value =s "retired") || (value =s "revoked")
  else if name =s "name" then len value <=? 200
  else false.

Definition validAggregateID (aggregateType value : string) : bool :=
  let value := TrimSpace value in
  if aggregateType =s AggregateUser then has_prefix_id value "usr_"
  else if aggregateType =s AggregateOrganisation then has_prefix_id value "org_"
  else if aggregateType =s AggregateWorkspace then has_prefix_id value "wsp_"
  else if aggregateType =s AggregateProduct then has_prefix_id value "product."
  else if aggregateType =s AggregateAccess then has_prefix_id value "ent_" || has_prefix_id value "upa_"
  else false.

(** One field of the allow-list against the decoded payload map. *)
Definition valid_field (values : list (string * json)) (f : string * fieldType) : bool :=
  match obj_lookup (fst f) values, snd f with
  | Some (JString v), fieldString => validPayloadString (fst f) v
  | Some (JBool _), fieldBool => true
  | _, _ => false
  end.

Definition valid_payload (spec : eventSpec) (payload : string) : bool :=
  (0 <? len payload) && (len payload <=? MaxPayloadBytes) &&
  match parse payload with
  | Some (JObject values) =>
      Nat.eqb (List.length (obj_keys values)) (List.length (fields spec))
      && forallb (valid_field values) (fields spec)
      && forallb (fun k => negb (is_none (assoc k (fields spec)))) (obj_keys values)
  | _ => false
  end.

(** [func (e Event) validate(requireSequence bool) error] *)
Definition Event_validate (e : Event) (requireSequence : bool) : res unit :=
  match specs (Event_EventType e) with
  | None => Err (Sentinel ErrUnknownEventType)
  | Some spec =>
      check! negb (Event_AggregateType e =s aggregateType spec) as ErrUnknownEventType in
      check! negb (has_prefix_id (Event_EventID e) "evt_") || (MaxEventIDLength <? len (Event_EventID e))
        as ErrInvalidEvent in
      check! negb (validAggregateID (Event_AggregateType e) (Event_AggregateID e))
        as ErrInvalidAggregateID in
      check! negb (Event_SchemaVersion e =? SchemaVersion) || IsZero (Event_OccurredAt e)
        as ErrInvalidEvent in
      check! requireSequence && (Event_Sequence e <=? 0) as ErrInvalidEventSequence in
      check! negb (valid_payload spec (Event_Payload e)) as ErrInvalidEventPayload in
      Ok tt
  end.
Definition Event_Validate (e : Event) : res unit := Event_validate e true.

Definition NewEventID := new_id "evt_" "generate platform event id".

(** [events.New]; [payload] lists the entries of the payload map, [rand] the
    random bytes of the identifier. Marshalling strings and booleans cannot fail. *)
Definition New (eventType aggregateID : string) (occurredAt : Z) (payload : list (string * scalar))
    (rand : option string) : res Event :=
  match specs eventType with
  | None => Err (Sentinel ErrUnknownEventType)
  | Some spec =>
      check! IsZero occurredAt as ErrInvalidEvent in
      let? eventID := NewEventID rand in
      let event := mkEvent eventID eventType (aggregateType spec) (TrimSpace aggregateID) 0
                     SchemaVersion occurredAt (encode_map payload) in
      let? _ := Event_validate event false in
      Ok event
  end.

Definition WithSequence (e : Event) (sequence : Z) : res Event :=
  let e := mkEvent (Event_EventID e) (Event_EventType e) (Event_AggregateType e)
             (Event_AggregateID e) sequence (Event_SchemaVersion e) (Event_OccurredAt e)
             (Event_Payload e) in
  let? _ := Event_validate e true in Ok e.

(** [MarshalJSON]: refuses an invalid event, otherwise the envelope with the
    payload embedded as it is (it is valid JSON without insignificant space
    when it was written by [New]). *)
Definition Event_MarshalJSON (e : Event) : res string :=
  let? _ := Event_Validate e in
  Ok ("{" ++ encode_member ("event_id", VString (Event_EventID e)) ++ ","
      ++ encode_member ("event_type", VString (Event_EventType e)) ++ ","
      ++ encode_member ("aggregate_type", VString (Event_AggregateType e)) ++ ","
      ++ encode_member ("aggregate_id", VString (Event_AggregateID e)) ++ ","
      ++ encode_member ("sequence", VInt (Event_Sequence e)) ++ ","
      ++ encode_member ("schema_version", VInt (Event_SchemaVersion e)) ++ ","
      ++ encode_member ("occurred_at", VString (formatTime (Event_OccurredAt e))) ++ ","
      ++ encode_string "payload" ++ ":" ++ Event_Payload e ++ "}").

Example new_ex : is_ok (New EventUserCreated "usr_1" 0
  [("user_id", VString "usr_1"); ("active", VBool true)] (Some "0123456789abcdefgh")) = true.
Proof. vm_compute. reflexivity. Qed.

(** ** Lemmas *)

Lemma Event_validate_Ok e b :
  Event_validate e b = Ok tt <->
  exists spec, specs (Event_EventType e) = Some spec
    /\ Event_AggregateType e = aggregateType spec
    /\ has_prefix_id (Event_EventID e) "evt_" = true /\ len (Event_EventID e) <= MaxEventIDLength
    /\ validAggregateID (Event_AggregateType e) (Event_AggregateID e) = true
    /\ Event_SchemaVersion e = SchemaVersion /\ IsZero (Event_OccurredAt e) = false
    /\ (b = true -> 0 < Event_Sequence e) /\ valid_payload spec (Event_Payload e) = true.
Proof.
  unfold Event_validate. destruct (specs _) as [spec|]; [|naive_solver].
  rewrite !check_then_Ok, !orb_false_iff, !negb_false_iff, String.eqb_eq, Z.ltb_ge, Z.eqb_eq,
    andb_false_iff, Z.leb_gt.
  destruct b; naive_solver.
Qed.

Lemma New_Ok ty agg t payload rand e :
  New ty agg t payload rand = Ok e ->
  Event_validate e false = Ok tt /\ Event_EventType e = ty /\ Event_AggregateID e = TrimSpace agg
  /\ Event_OccurredAt e = t /\ Event_Payload e = encode_map payload.
Proof.
  unfold New, check. intros H.
  destruct (specs ty) as [spec|] eqn:Hs; [|done]. destruct (IsZero t); [done|].
  destruct (NewEventID rand) as [eid|]; [|done].
  destruct (Event_validate _ false) as [[]|] eqn:Hv; [|done]. injection H as <-. done.
Qed.

Lemma WithSequence_Ok e n e' :
  WithSequence e n = Ok e' ->
  Event_Validate e' = Ok tt /\ Event_Sequence e' = n /\ Event_EventID e' = Event_EventID e
  /\ Event_EventType e' = Event_EventType e /\ Event_AggregateType e' = Event_AggregateType e
  /\ Event_AggregateID e' = Event_AggregateID e /\ Event_SchemaVersion e' = Event_SchemaVersion e
  /\ Event_OccurredAt e' = Event_OccurredAt e /\ Event_Payload e' = Event_Payload e.
Proof.
  unfold WithSequence. intros H. destruct (Event_validate _ true) as [[]|] eqn:Hv; [|done].
  by injection H as <-.
Qed.
