(* ===== verification/Schema.v ===== *)
(** internal/db/sqlite/store.go: the tables of the Platform database.

    A table is the list of its rows in rowid order. The primary keys are
    [INTEGER PRIMARY KEY] without AUTOINCREMENT, so a new row gets one more than
    the greatest rowid of the table. Times are stored as text (the output of
    [formatTime]) and compared as text; flags are 0/1 columns read as booleans.
    A row that breaks a UNIQUE index or a CHECK is refused with [Constraint].
    Foreign keys of inserted rows come from a query of the same transaction, so
    their checks cannot fail; rows others refer to are deleted only by the rollback
    of an import, and Import.v has those checks. *)
From stdpp Require Import base tactics list strings sorting.
From Stdlib Require Import ZArith Lia Ascii String Sorted.
From S2P Require Import Prelude GoStrings GoTime Errors.

Local Open Scope string_scope.
Local Open Scope Z_scope.

(** ** Tables in general *)

Class Row (R : Type) := row_id : R -> Z.
#[export] Hint Mode Row ! : typeclass_instances.

Definition next_id `{Row R} (t : list R) : Z := foldr Z.max 0 (map row_id t) + 1.

(** [SELECT ... WHERE p ORDER BY id] and [SELECT COUNT( * ) WHERE p]. *)
Definition select {R} (p : R -> bool) (t : list R) : list R := List.filter p t.
Definition count {R} (p : R -> bool) (t : list R) : Z := Z.of_nat (List.length (select p t)).
(** [UPDATE ... SET f WHERE p] and [DELETE ... WHERE p]. *)
Definition update {R} (p : R -> bool) (f : R -> R) (t : list R) : list R :=
  map (fun r => if p r then f r else r) t.
Definition delete_rows {R} (p : R -> bool) (t : list R) : list R := List.filter (fun r => negb (p r)) t.
(** [ORDER BY]: a stable insertion sort on a strict comparison. *)
Fixpoint insert_by {R} (lt : R -> R -> bool) (r : R) (l : list R) : list R :=
  match l with [] => [r] | x :: l' => if lt r x then r :: l else x :: insert_by lt r l' end.
Definition sort_by {R} (lt : R -> R -> bool) (l : list R) : list R :=
  fold_left (fun acc r => insert_by lt r acc) l [].
(** [LIMIT n] *)
Definition limit {R} (n : Z) (l : list R) : list R := firstn (Z.to_nat n) l.

(** [ORDER BY at, id] on a text column and the rowid. *)
Definition earlier {R} (id : R -> Z) (at_ : R -> string) (a b : R) : bool :=
  text_lt (at_ a) (at_ b) || ((at_ a =s at_ b) && (id a <? id b)).

(** [DELETE ... WHERE id IN (SELECT id ... WHERE due ORDER BY at,id LIMIT n)]: the
    number of rows removed and the rows left. *)
Definition delete_oldest {R} (id : R -> Z) (at_ : R -> string) (due : R -> bool) (n : Z) (t : list R)
  : Z * list R :=
  let ids := map id (limit n (sort_by (earlier id at_) (select due t))) in
  let doomed r := existsb (Z.eqb (id r)) ids in
  (count doomed t, delete_rows doomed t).

(** SQLite's [lower] and NOCASE fold ASCII letters only; [trim] strips spaces;
    [length] counts characters. *)
Definition sql_lower (s : string) : string := map_bytes lower_byte s.
Definition sql_length (s : string) : Z := rune_count s.
Definition is_space (c : ascii) : bool := byte_code c =? 32.
Definition sql_blank (s : string) : bool := forall_bytes is_space s.

(** ** Rows *)

Record UserRow := mkUserRow {
  u_id : Z; u_public_id : string; u_email : string; u_display_name : string;
  u_password_hash : string; u_active : bool; u_created_at : string;
  u_last_login_at : option string; u_mfa_enabled : bool;
  u_mfa_secret : option string; u_mfa_last_step : Z }.

Record SessionRow := mkSessionRow {
  s_id : Z; s_user_id : Z; s_token_hash : string; s_csrf_hash : string;
  s_created_at : string; s_expires_at : string; s_revoked_at : option string }.

Record SecurityEventRow := mkSecurityEventRow {
  se_id : Z; se_user_id : option Z; se_event : string; se_details : string; se_occurred_at : string }.

Record EnrollmentRow := mkEnrollmentRow {
  en_id : Z; en_user_id : Z; en_token_hash : string; en_secret : string; en_expires_at : string;
  en_attempts : Z; en_created_at : string; en_used_at : option string }.

Record RecoveryCodeRow := mkRecoveryCodeRow {
  rc_id : Z; rc_user_id : Z; rc_code_hash : string; rc_created_at : string; rc_used_at : option string }.

Record OrganisationRow := mkOrganisationRow {
  o_id : Z; o_public_id : string; o_name : string; o_status : string;
  o_created_at : string; o_archived_at : option string }.

(** Rows of organisation_memberships and workspace_memberships: [m_scope] is
    the organisation_id, respectively the workspace_id column. *)
Record MembershipRow := mkMembershipRow {
  m_id : Z; m_public_id : string; m_scope : Z; m_user_id : Z; m_role : string; m_active : bool;
  m_assigned_by : Z; m_assigned_at : string; m_removed_by : option Z;
  m_removed_at : option string; m_removal_reason : string; m_version : Z }.

Record AuditRow := mkAuditRow {
  a_id : Z; a_actor_user_id : option Z; a_actor_public_id : string; a_aggregate_type : string;
  a_aggregate_id : string; a_event : string; a_details : string; a_occurred_at : string }.

Record SystemRoleRow := mkSystemRoleRow {
  sr_id : Z; sr_user_id : Z; sr_role : string; sr_active : bool; sr_assigned_by : Z;
  sr_assigned_at : string; sr_revoked_by : option Z; sr_revoked_at : option string;
  sr_revocation_reason : string }.

Record WorkspaceRow := mkWorkspaceRow {
  w_id : Z; w_public_id : string; w_organisation_id : Z; w_name : string; w_status : string;
  w_created_at : string; w_archived_at : option string }.

Record ProductRow := mkProductRow {
  p_key : string; p_display_name : string; p_status : string; p_created_at : string;
  p_retired_at : option string }.

Record EntitlementRow := mkEntitlementRow {
  e_id : Z; e_public_id : string; e_organisation_id : Z; e_product_key : string; e_status : string;
  e_granted_by : Z; e_granted_at : string; e_revoked_by : option Z; e_revoked_at : option string;
  e_revocation_reason : string }.

Record AssignmentRow := mkAssignmentRow {
  g_id : Z; g_public_id : string; g_user_id : Z; g_organisation_id : Z; g_product_key : string;
  g_status : string; g_assigned_by : Z; g_assigned_at : string; g_revoked_by : option Z;
  g_revoked_at : option string; g_revocation_reason : string }.

Record OutboxRow := mkOutboxRow {
  ob_id : Z; ob_event_id : string; ob_event_type : string; ob_aggregate_type : string;
  ob_aggregate_id : string; ob_sequence : Z; ob_schema_version : Z; ob_occurred_at : string;
  ob_payload : string; ob_published_at : option string }.

Record InboxRow := mkInboxRow {
  ib_id : Z; ib_consumer_key : string; ib_event_id : string; ib_event_type : string;
  ib_aggregate_type : string; ib_aggregate_id : string; ib_sequence : Z; ib_schema_version : Z;
  ib_occurred_at : string; ib_payload : string; ib_state : string; ib_reason : string;
  ib_received_at : string; ib_applied_at : option string }.

Record CheckpointRow := mkCheckpointRow {
  cp_id : Z; cp_consumer_key : string; cp_aggregate_type : string; cp_aggregate_id : string;
  cp_last_sequence : Z; cp_last_event_id : string; cp_state : string; cp_reason : string;
  cp_updated_at : string }.

Record CommandResultRow := mkCommandResultRow {
  cr_id : Z; cr_consumer_key : string; cr_idempotency_key : string; cr_request_hash : string;
  cr_result_json : string; cr_created_at : string }.

#[export] Instance UserRow_row : Row UserRow := u_id.
#[export] Instance SessionRow_row : Row SessionRow := s_id.
#[export] Instance SecurityEventRow_row : Row SecurityEventRow := se_id.
#[export] Instance EnrollmentRow_row : Row EnrollmentRow := en_id.
#[export] Instance RecoveryCodeRow_row : Row RecoveryCodeRow := rc_id.
#[export] Instance OrganisationRow_row : Row OrganisationRow := o_id.
#[export] Instance MembershipRow_row : Row MembershipRow := m_id.
#[export] Instance AuditRow_row : Row AuditRow := a_id.
#[export] Instance SystemRoleRow_row : Row SystemRoleRow := sr_id.
#[export] Instance WorkspaceRow_row : Row WorkspaceRow := w_id.
#[export] Instance EntitlementRow_row : Row EntitlementRow := e_id.
#[export] Instance AssignmentRow_row : Row AssignmentRow := g_id.
#[export] Instance OutboxRow_row : Row OutboxRow := ob_id.
#[export] Instance InboxRow_row : Row InboxRow := ib_id.
#[export] Instance CheckpointRow_row : Row CheckpointRow := cp_id.
#[export] Instance CommandResultRow_row : Row CommandResultRow := cr_id.

(** ** The database *)

Record DB := mkDB {
  users : list UserRow;
  sessions : list SessionRow;
  security_events : list SecurityEventRow;
  mfa_enrollments : list EnrollmentRow;
  mfa_recovery_codes : list RecoveryCodeRow;
  organisations : list OrganisationRow;
  organisation_memberships : list MembershipRow;
  audit_events : list AuditRow;
  system_role_assignments : list SystemRoleRow;
  workspaces : list WorkspaceRow;
  workspace_memberships : list MembershipRow;
  products : list ProductRow;
  entitlements : list EntitlementRow;
  assignments : list AssignmentRow;
  outbox : list OutboxRow;
  inbox : list InboxRow;
  checkpoints : list CheckpointRow;
  command_results : list CommandResultRow }.

Definition set_users (v : list UserRow) (d : DB) : DB :=
  mkDB v (sessions d) (security_events d) (mfa_enrollments d) (mfa_recovery_codes d)
    (organisations d) (organisation_memberships d) (audit_events d) (system_role_assignments d)
    (workspaces d) (workspace_memberships d) (products d) (entitlements d) (assignments d)
    (outbox d) (inbox d) (checkpoints d) (command_results d).
Definition set_sessions (v : list SessionRow) (d : DB) : DB :=
  mkDB (users d) v (security_events d) (mfa_enrollments d) (mfa_recovery_codes d) (organisations
    d) (organisation_memberships d) (audit_events d) (system_role_assignments d) (workspaces d)
    (workspace_memberships d) (products d) (entitlements d) (assignments d) (outbox d) (inbox d)
    (checkpoints d) (command_results d).
Definition set_security_events (v : list SecurityEventRow) (d : DB) : DB :=
  mkDB (users d) (sessions d) v (mfa_enrollments d) (mfa_recovery_codes d) (organisations d)
    (organisation_memberships d) (audit_events d) (system_role_assignments d) (workspaces d)
    (workspace_memberships d) (products d) (entitlements d) (assignments d) (outbox d) (inbox d)
    (checkpoints d) (command_results d).
Definition set_mfa_enrollments (v : list EnrollmentRow) (d : DB) : DB :=
  mkDB (users d) (sessions d) (security_events d) v (mfa_recovery_codes d) (organisations d)
    (organisation_memberships d) (audit_events d) (system_role_assignments d) (workspaces d)
    (workspace_memberships d) (products d) (entitlements d) (assignments d) (outbox d) (inbox d)
    (checkpoints d) (command_results d).
Definition set_mfa_recovery_codes (v : list RecoveryCodeRow) (d : DB) : DB :=
  mkDB (users d) (sessions d) (security_events d) (mfa_enrollments d) v (organisations d)
    (organisation_memberships d) (audit_events d) (system_role_assignments d) (workspaces d)
    (workspace_memberships d) (products d) (entitlements d) (assignments d) (outbox d) (inbox d)
    (checkpoints d) (command_results d).
Definition set_organisations (v : list OrganisationRow) (d : DB) : DB :=
  mkDB (users d) (sessions d) (security_events d) (mfa_enrollments d) (mfa_recovery_codes d) v
    (organisation_memberships d) (audit_events d) (system_role_assignments d) (workspaces d)
    (workspace_memberships d) (products d) (entitlements d) (assignments d) (outbox d) (inbox d)
    (checkpoints d) (command_results d).
Definition set_organisation_memberships (v : list MembershipRow) (d : DB) : DB :=
  mkDB (users d) (sessions d) (security_events d) (mfa_enrollments d) (mfa_recovery_codes d)
    (organisations d) v (audit_events d) (system_role_assignments d) (workspaces d)
    (workspace_memberships d) (products d) (entitlements d) (assignments d) (outbox d) (inbox d)
    (checkpoints d) (command_results d).
Definition set_audit_events (v : list AuditRow) (d : DB) : DB :=
  mkDB (users d) (sessions d) (security_events d) (mfa_enrollments d) (mfa_recovery_codes d)
    (organisations d) (organisation_memberships d) v (system_role_assignments d) (workspaces d)
    (workspace_memberships d) (products d) (entitlements d) (assignments d) (outbox d) (inbox d)
    (checkpoints d) (command_results d).
Definition set_system_role_assignments (v : list SystemRoleRow) (d : DB) : DB :=
  mkDB (users d) (sessions d) (security_events d) (mfa_enrollments d) (mfa_recovery_codes d)
    (organisations d) (organisation_memberships d) (audit_events d) v (workspaces d)
    (workspace_memberships d) (products d) (entitlements d) (assignments d) (outbox d) (inbox d)
    (checkpoints d) (command_results d).
Definition set_workspaces (v : list WorkspaceRow) (d : DB) : DB :=
  mkDB (users d) (sessions d) (security_events d) (mfa_enrollments d) (mfa_recovery_codes d)
    (organisations d) (organisation_memberships d) (audit_events d) (system_role_assignments d)
    v (workspace_memberships d) (products d) (entitlements d) (assignments d) (outbox d) (inbox
    d) (checkpoints d) (command_results d).
Definition set_workspace_memberships (v : list MembershipRow) (d : DB) : DB :=
  mkDB (users d) (sessions d) (security_events d) (mfa_enrollments d) (mfa_recovery_codes d)
    (organisations d) (organisation_memberships d) (audit_events d) (system_role_assignments d)
    (workspaces d) v (products d) (entitlements d) (assignments d) (outbox d) (inbox d)
    (checkpoints d) (command_results d).
Definition set_products (v : list ProductRow) (d : DB) : DB :=
  mkDB (users d) (sessions d) (security_events d) (mfa_enrollments d) (mfa_recovery_codes d)
    (organisations d) (organisation_memberships d) (audit_events d) (system_role_assignments d)
    (workspaces d) (workspace_memberships d) v (entitlements d) (assignments d) (outbox d)
    (inbox d) (checkpoints d) (command_results d).
Definition set_entitlements (v : list EntitlementRow) (d : DB) : DB :=
  mkDB (users d) (sessions d) (security_events d) (mfa_enrollments d) (mfa_recovery_codes d)
    (organisations d) (organisation_memberships d) (audit_events d) (system_role_assignments d)
    (workspaces d) (workspace_memberships d) (products d) v (assignments d) (outbox d) (inbox d)
    (checkpoints d) (command_results d).
Definition set_assignments (v : list AssignmentRow) (d : DB) : DB :=
  mkDB (users d) (sessions d) (security_events d) (mfa_enrollments d) (mfa_recovery_codes d)
    (organisations d) (organisation_memberships d) (audit_events d) (system_role_assignments d)
    (workspaces d) (workspace_memberships d) (products d) (entitlements d) v (outbox d) (inbox
    d) (checkpoints d) (command_results d).
Definition set_outbox (v : list OutboxRow) (d : DB) : DB :=
  mkDB (users d) (sessions d) (security_events d) (mfa_enrollments d) (mfa_recovery_codes d)
    (organisations d) (organisation_memberships d) (audit_events d) (system_role_assignments d)
    (workspaces d) (workspace_memberships d) (products d) (entitlements d) (assignments d) v
    (inbox d) (checkpoints d) (command_results d).
Definition set_inbox (v : list InboxRow) (d : DB) : DB :=
  mkDB (users d) (sessions d) (security_events d) (mfa_enrollments d) (mfa_recovery_codes d)
    (organisations d) (organisation_memberships d) (audit_events d) (system_role_assignments d)
    (workspaces d) (workspace_memberships d) (products d) (entitlements d) (assignments d)
    (outbox d) v (checkpoints d) (command_results d).
Definition set_checkpoints (v : list CheckpointRow) (d : DB) : DB :=
  mkDB (users d) (sessions d) (security_events d) (mfa_enrollments d) (mfa_recovery_codes d)
    (organisations d) (organisation_memberships d) (audit_events d) (system_role_assignments d)
    (workspaces d) (workspace_memberships d) (products d) (entitlements d) (assignments d)
    (outbox d) (inbox d) v (command_results d).
Definition set_command_results (v : list CommandResultRow) (d : DB) : DB :=
  mkDB (users d) (sessions d) (security_events d) (mfa_enrollments d) (mfa_recovery_codes d)
    (organisations d) (organisation_memberships d) (audit_events d) (system_role_assignments d)
    (workspaces d) (workspace_memberships d) (products d) (entitlements d) (assignments d)
    (outbox d) (inbox d) (checkpoints d) v.

(** The database after the migrations: two products, nothing else. *)
Definition empty_db : DB :=
  mkDB [] [] [] [] [] [] [] [] [] [] []
    [mkProductRow "product.tockrctrl" "TockrCTRL" "active" "2026-09-16T00:00:00Z" None;
     mkProductRow "product.tockrims" "TockrIMS" "active" "2026-09-16T00:00:00Z" None]
    [] [] [] [] [] [].

(** ** Constraints: [x_ok t r] is whether the row [r] may be added to [t]. *)

Definition fresh {R} (same : R -> bool) (t : list R) : bool := negb (existsb same t).

Definition users_ok (t : list UserRow) (r : UserRow) : bool :=
  fresh (fun x => u_public_id x =s u_public_id r) t
  && fresh (fun x => sql_lower (u_email x) =s sql_lower (u_email r)) t.

Definition sessions_ok (t : list SessionRow) (r : SessionRow) : bool :=
  fresh (fun x => s_token_hash x =s s_token_hash r) t.

Definition enrollments_ok (t : list EnrollmentRow) (r : EnrollmentRow) : bool :=
  fresh (fun x => en_token_hash x =s en_token_hash r) t.

Definition scope_status_ok (s : string) : bool := (s =s "active") || (s =s "archived").

Definition organisations_ok (t : list OrganisationRow) (r : OrganisationRow) : bool :=
  fresh (fun x => o_public_id x =s o_public_id r) t && scope_status_ok (o_status r).

(** The indexes organisation_memberships_current_idx and
    organisation_memberships_owner_idx are partial: they only see active rows. *)
Definition same_member (r x : MembershipRow) : bool :=
  m_active x && m_active r && (m_scope x =? m_scope r) && (m_user_id x =? m_user_id r).
Definition owns (x : MembershipRow) : bool := m_active x && (m_role x =s "owner").
Definition organisation_memberships_ok (t : list MembershipRow) (r : MembershipRow) : bool :=
  fresh (fun x => m_public_id x =s m_public_id r) t
  && fresh (same_member r) t
  && fresh (fun x => owns x && owns r && (m_scope x =? m_scope r)) t
  && ((m_role r =s "owner") || (m_role r =s "admin") || (m_role r =s "member"))
  && (0 <? m_version r).

Definition system_roles_ok (t : list SystemRoleRow) (r : SystemRoleRow) : bool :=
  fresh (fun x => sr_active x && sr_active r && (sr_user_id x =? sr_user_id r)) t
  && (sr_role r =s "system_admin").

Definition workspaces_ok (t : list WorkspaceRow) (r : WorkspaceRow) : bool :=
  fresh (fun x => w_public_id x =s w_public_id r) t && scope_status_ok (w_status r).

Definition workspace_memberships_ok (t : list MembershipRow) (r : MembershipRow) : bool :=
  fresh (fun x => m_public_id x =s m_public_id r) t
  && fresh (same_member r) t
  && ((m_role r =s "admin") || (m_role r =s "member") || (m_role r =s "viewer"))
  && (0 <? m_version r).

Definition products_ok (t : list ProductRow) (r : ProductRow) : bool :=
  fresh (fun x => p_key x =s p_key r) t
  && (8 <? sql_length (p_key r)) && HasPrefix (p_key r) "product."
  && negb (sql_blank (p_display_name r)) && (sql_length (p_display_name r) <=? 200)
  && match p_retired_at r with
     | None => p_status r =s "active"
     | Some _ => p_status r =s "retired"
     end.

Definition grant_ok (status : string) (by_ : option Z) (at_ : option string) (reason : string) : bool :=
  match by_, at_ with
  | None, None => (status =s "active") && (reason =s "")
  | Some _, Some _ => (status =s "revoked") && negb (sql_blank reason)
  | _, _ => false
  end.

Definition entitlements_ok (t : list EntitlementRow) (r : EntitlementRow) : bool :=
  fresh (fun x => e_public_id x =s e_public_id r) t
  && fresh (fun x => (e_status x =s "active") && (e_status r =s "active")
       && (e_organisation_id x =? e_organisation_id r) && (e_product_key x =s e_product_key r)) t
  && grant_ok (e_status r) (e_revoked_by r) (e_revoked_at r) (e_revocation_reason r).

Definition assignments_ok (t : list AssignmentRow) (r : AssignmentRow) : bool :=
  fresh (fun x => g_public_id x =s g_public_id r) t
  && fresh (fun x => (g_status x =s "active") && (g_status r =s "active")
       && (g_user_id x =? g_user_id r) && (g_organisation_id x =? g_organisation_id r)
       && (g_product_key x =s g_product_key r)) t
  && grant_ok (g_status r) (g_revoked_by r) (g_revoked_at r) (g_revocation_reason r).

Definition outbox_ok (t : list OutboxRow) (r : OutboxRow) : bool :=
  fresh (fun x => ob_event_id x =s ob_event_id r) t
  && fresh (fun x => (ob_aggregate_type x =s ob_aggregate_type r)
       && (ob_aggregate_id x =s ob_aggregate_id r) && (ob_sequence x =? ob_sequence r)) t
  && existsb (fun k => ob_aggregate_type r =s k) ["User"; "Organisation"; "Workspace"; "Product"; "Access"]
  && (0 <? ob_sequence r) && (ob_schema_version r =? 1)
  && (1 <? sql_length (ob_payload r)) && (sql_length (ob_payload r) <=? 4096).

Definition text_between (lo hi : Z) (s : string) : bool := (lo <=? sql_length s) && (sql_length s <=? hi).
Definition consumer_key_ok (s : string) : bool := negb (sql_blank s) && (sql_length s <=? 100).

Definition inbox_ok (t : list InboxRow) (r : InboxRow) : bool :=
  fresh (fun x => (ib_consumer_key x =s ib_consumer_key r) && (ib_event_id x =s ib_event_id r)) t
  && consumer_key_ok (ib_consumer_key r)
  && text_between 1 200 (ib_event_type r) && text_between 1 50 (ib_aggregate_type r)
  && text_between 1 200 (ib_aggregate_id r)
  && (0 <? ib_sequence r) && (0 <? ib_schema_version r) && text_between 2 4096 (ib_payload r)
  && existsb (fun k => ib_state r =s k) ["pending"; "applied"; "gap"; "stale"; "blocked"]
  && (sql_length (ib_reason r) <=? 500)
  && Bool.eqb (ib_state r =s "applied") (match ib_applied_at r with Some _ => true | None => false end).

Definition checkpoints_ok (t : list CheckpointRow) (r : CheckpointRow) : bool :=
  fresh (fun x => (cp_consumer_key x =s cp_consumer_key r)
       && (cp_aggregate_type x =s cp_aggregate_type r) && (cp_aggregate_id x =s cp_aggregate_id r)) t
  && consumer_key_ok (cp_consumer_key r)
  && text_between 1 50 (cp_aggregate_type r) && text_between 1 200 (cp_aggregate_id r)
  && (0 <=? cp_last_sequence r)
  && existsb (fun k => cp_state r =s k) ["current"; "stale"; "gap"; "blocked"; "unavailable"]
  && (sql_length (cp_reason r) <=? 500).

Definition command_results_ok (t : list CommandResultRow) (r : CommandResultRow) : bool :=
  fresh (fun x => (cr_consumer_key x =s cr_consumer_key r)
       && (cr_idempotency_key x =s cr_idempotency_key r)) t
  && consumer_key_ok (cr_consumer_key r)
  && negb (sql_blank (cr_idempotency_key r)) && (sql_length (cr_idempotency_key r) <=? 128)
  && (sql_length (cr_request_hash r) =? 64) && text_between 2 4096 (cr_result_json r).

(** ** Inserting *)

Definition insert_row `{Row R} (get : DB -> list R) (set : list R -> DB -> DB)
    (ok : list R -> R -> bool) (mk : Z -> R) : St DB error Z :=
  fun db =>
    let t := get db in
    let r := mk (next_id t) in
    if ok t r then Ok (next_id t, set (t ++ [r])%list db) else Err (Constraint "constraint failed").

Definition no_check {R} (t : list R) (r : R) : bool := true.

(** [fmt.Errorf("msg: %w", err)] around a failing step. *)
Definition within {A} (msg : string) (m : St DB error A) : St DB error A := fun db => wrap msg (m db).

Definition is_active_user (publicID : string) (u : UserRow) : bool :=
  (u_public_id u =s publicID) && u_active u.

(** [SELECT id FROM users WHERE public_id=? AND active=1] *)
Definition active_user (db : DB) (publicID : string) : option UserRow :=
  find (is_active_user publicID) (users db).
Definition user_by_id (db : DB) (id : Z) : option UserRow := find (fun u => u_id u =? id) (users db).
Definition user_public_id (db : DB) (id : Z) : string :=
  match user_by_id db id with Some u => u_public_id u | None => "" end.

(** [EXISTS(SELECT 1 FROM system_role_assignments WHERE user_id=? AND
    role='system_admin' AND active=1)] *)
Definition system_admin (db : DB) (userID : Z) : bool :=
  existsb (fun r => (sr_user_id r =? userID) && (sr_role r =s "system_admin") && sr_active r)
    (system_role_assignments db).

(** ** Lemmas *)

Lemma insert_row_Ok `{Row R} (get : DB -> list R) set ok mk db i db' :
  insert_row get set ok mk db = Ok (i, db') <->
  ok (get db) (mk (next_id (get db))) = true /\ i = next_id (get db)
  /\ db' = set (get db ++ [mk (next_id (get db))])%list db.
Proof. unfold insert_row. destruct (ok _ _); naive_solver. Qed.

Lemma within_Ok {A} msg (m : St DB error A) db a db' :
  within msg m db = Ok (a, db') <-> m db = Ok (a, db').
Proof. unfold within, wrap. destruct (m db) as [[]|]; naive_solver. Qed.

Lemma preserves_within {A} P msg (m : St DB error A) : preserves P m -> preserves P (within msg m).
Proof. intros Hm db a db' H%within_Ok. by eapply Hm. Qed.

Lemma preserves_insert `{Row R} P (get : DB -> list R) set ok mk :
  (forall db, P db -> ok (get db) (mk (next_id (get db))) = true ->
     P (set (get db ++ [mk (next_id (get db))])%list db)) ->
  preserves P (insert_row get set ok mk).
Proof. intros HP db i db' (Hok & _ & ->)%insert_row_Ok Hdb. auto. Qed.

#[export] Hint Resolve preserves_within : tx.

Lemma next_id_gt `{Row R} (t : list R) r : In r t -> row_id r < next_id t.
Proof.
  unfold next_id. induction t as [|x t IH]; simpl; [done|].
  intros [->|Hr]; [lia|]. specialize (IH Hr). lia.
Qed.

Lemma next_id_pos `{Row R} (t : list R) : 0 < next_id t.
Proof. unfold next_id. induction t; simpl; lia. Qed.

Lemma fresh_spec {R} (same : R -> bool) t :
  fresh same t = true <-> forall x, In x t -> same x = false.
Proof.
  unfold fresh. rewrite negb_true_iff. induction t as [|y t IH]; simpl; [naive_solver|].
  rewrite orb_false_iff, IH. naive_solver.
Qed.

Lemma in_update {R} p f (t : list R) r :
  In r (update p f t) <-> exists x, In x t /\ r = if p x then f x else x.
Proof. unfold update. rewrite in_map_iff. naive_solver. Qed.

Lemma length_update {R} p f (t : list R) : List.length (update p f t) = List.length t.
Proof. apply length_map. Qed.

Lemma update_none {R} (f : R -> R) t : update (fun _ => false) f t = t.
Proof. unfold update. apply List.map_id. Qed.

Lemma map_update {R X} (g : R -> X) p f (t : list R) :
  (forall r, p r = true -> g (f r) = g r) -> map g (update p f t) = map g t.
Proof.
  intros Hg. unfold update. rewrite map_map. apply map_ext. intros r.
  destruct (p r) eqn:E; auto.
Qed.

Lemma select_update {R} (p q : R -> bool) f t :
  (forall r, q r = true -> p (f r) = p r) -> select p (update q f t) = update q f (select p t).
Proof.
  intros H. unfold select, update. induction t as [|r t IH]; [done|]. simpl.
  destruct (q r) eqn:E; [rewrite (H r E)|]; destruct (p r); simpl; by rewrite ?E, IH.
Qed.

Lemma in_insert_by {R} lt (r x : R) l : In x (insert_by lt r l) <-> x = r \/ In x l.
Proof.
  induction l as [|y l IH]; simpl; [naive_solver|].
  destruct (lt r y); simpl; [naive_solver|]. rewrite IH. naive_solver.
Qed.

Lemma in_sort_by {R} lt (x : R) l : In x (sort_by lt l) <-> In x l.
Proof.
  unfold sort_by. enough (forall acc, In x (fold_left (fun a r => insert_by lt r a) l acc)
    <-> In x acc \/ In x l) as H by (rewrite H; simpl; tauto).
  induction l as [|y l IH]; simpl; intros acc; [tauto|].
  rewrite IH, in_insert_by. naive_solver.
Qed.

(** [inv_db] is [inv_tx] with the steps of this file. *)
Ltac inv_db_step :=
  first [ inv_tx_step
        | match goal with
          | H : within _ _ _ = Ok _ |- _ => apply within_Ok in H
          | H : insert_row _ _ _ _ _ = Ok _ |- _ =>
              apply insert_row_Ok in H; destruct H as (? & ? & ?); subst
          end ].
Ltac inv_db := repeat (inv_db_step; cbn [fst snd] in *).

(** [frame_tx] proves [preserves P m] for a step that leaves alone what [P]
    reads: writes to other tables disappear by computation. *)
Ltac frame_step :=
  lazymatch goal with
  | |- preserves _ (ret _) => apply preserves_ret
  | |- preserves _ (Prelude.fail _) => apply preserves_fail
  | |- preserves _ (reads _) => apply preserves_reads
  | |- preserves _ (Prelude.require _ _) => apply preserves_require
  | |- preserves _ (Prelude.some_or _ _) => apply preserves_some_or
  | |- preserves _ (lift _) => apply preserves_lift
  | |- preserves _ (within _ _) => apply preserves_within
  | |- preserves _ (bind (lift _) _) => apply preserves_lift_bind; intros ? ?
  | |- preserves _ (bind (Prelude.require _ _) _) => apply preserves_require_bind; intros ?
  | |- preserves _ (bind (Prelude.some_or _ _) _) => apply preserves_some_or_bind; intros ? ?
  | |- preserves _ (bind _ _) => apply preserves_bind; [|intros ?]
  | |- preserves _ (for_each _ _) => apply preserves_for_each; intros ?
  | |- preserves _ (insert_row _ _ _ _) => apply preserves_insert; [intros ? ? _; assumption]
  | |- preserves _ (modify _) => apply preserves_modify; [intros ? ?; assumption]
  | |- preserves _ (let (_, _) := ?x in _) => destruct x
  | |- preserves _ (match ?x with Some _ => _ | None => _ end) => destruct x eqn:?
  | |- preserves _ (if ?b then _ else _) => destruct b eqn:?
  end.
Ltac frame_tx := repeat (cbv beta zeta; frame_step).

(** ** Rowids are distinct *)
Definition ids_unique `{Row R} (t : list R) : Prop := NoDup (map row_id t).

Lemma ids_unique_snoc `{Row R} (t : list R) r :
  ids_unique t -> row_id r = next_id t -> ids_unique (t ++ [r])%list.
Proof.
  unfold ids_unique. intros Ht Hr. rewrite map_app. apply NoDup_app. split_and!; [done| |apply NoDup_singleton].
  intros i Hi ->%list_elem_of_singleton. apply list_elem_of_In, in_map_iff in Hi as (x & Hx & Hin).
  apply next_id_gt in Hin. lia.
Qed.

Lemma ids_unique_update `{Row R} (t : list R) p f :
  (forall r, row_id (f r) = row_id r) -> ids_unique t -> ids_unique (update p f t).
Proof. unfold ids_unique. intros Hf Ht. by rewrite map_update. Qed.

Lemma NoDup_map_filter {A B} (g : A -> B) p l : NoDup (map g l) -> NoDup (map g (List.filter p l)).
Proof.
  induction l as [|x l IH]; [done|]. simpl. intros [Hx Hl]%NoDup_cons.
  destruct (p x); [|auto]. simpl. apply NoDup_cons. split; [|auto].
  rewrite list_elem_of_In, in_map_iff in *. intros (y & Hy & [Hin _]%filter_In). naive_solver.
Qed.

Lemma NoDup_map_inj_in {A B} (g : A -> B) l x y :
  NoDup (map g l) -> In x l -> In y l -> g x = g y -> x = y.
Proof.
  induction l as [|z l IH]; [done|]. simpl. intros [Hz Hl]%NoDup_cons.
  rewrite list_elem_of_In in Hz. intros [->|Hx] [->|Hy] E; [done| | |auto].
  - destruct Hz. rewrite E. by apply in_map.
  - destruct Hz. rewrite <-E. by apply in_map.
Qed.

(** A UNIQUE column stays without duplicates. *)
Lemma NoDup_map_snoc {A} (g : A -> string) t r :
  NoDup (map g t) -> fresh (fun x => g x =s g r) t = true -> NoDup (map g (t ++ [r])%list).
Proof.
  intros Ht Hf. rewrite map_app. apply NoDup_app. split_and!; [done| |apply NoDup_singleton].
  intros x Hx ->%list_elem_of_singleton. apply list_elem_of_In, in_map_iff in Hx as (y & Hy & Hin).
  rewrite fresh_spec in Hf. specialize (Hf y Hin). apply String.eqb_neq in Hf. congruence.
Qed.

(** ** Sorting *)
Section Sorting.
Context {R : Type} (lt : R -> R -> bool).

Lemma insert_by_Permutation r l : insert_by lt r l ≡ₚ r :: l.
Proof.
  induction l as [|x l IH]; simpl; [done|]. destruct (lt r x); [done|].
  rewrite IH. constructor.
Qed.

Lemma sort_by_Permutation l : sort_by lt l ≡ₚ l.
Proof.
  unfold sort_by. enough (forall acc, fold_left (fun a r => insert_by lt r a) l acc ≡ₚ acc ++ l)%list
    as H by apply (H []).
  induction l as [|x l IH]; simpl; intros acc; [by rewrite app_nil_r|].
  rewrite IH, insert_by_Permutation. simpl. by apply Permutation_middle.
Qed.

Context (lt_asym : forall a b, lt a b = true -> lt b a = false)
        (le_trans : forall a b c, lt b a = false -> lt c b = false -> lt c a = false).

Lemma insert_by_sorted r l :
  StronglySorted (fun a b => lt b a = false) l ->
  StronglySorted (fun a b => lt b a = false) (insert_by lt r l).
Proof using lt_asym le_trans.
  induction 1 as [|x l Hl IH Hx]; simpl; [repeat constructor|].
  destruct (lt r x) eqn:E.
  - constructor; [by constructor|]. constructor; [by apply lt_asym|].
    eapply Forall_impl; [exact Hx|]. intros y Hy. eapply le_trans; [|exact Hy]. by apply lt_asym.
  - constructor; [done|]. rewrite insert_by_Permutation. by constructor.
Qed.

Lemma sort_by_sorted l : StronglySorted (fun a b => lt b a = false) (sort_by lt l).
Proof using lt_asym le_trans.
  unfold sort_by.
  enough (forall acc, StronglySorted (fun a b => lt b a = false) acc ->
    StronglySorted (fun a b => lt b a = false) (fold_left (fun a r => insert_by lt r a) l acc)) as H
    by (apply H; constructor).
  induction l as [|x l IH]; simpl; intros acc Hacc; [done|]. by apply IH, insert_by_sorted.
Qed.
End Sorting.

Lemma sort_by_unique {R} (lt : R -> R -> bool) l l' :
  (forall a b, lt a b = true -> lt b a = false) ->
  (forall a b c, lt b a = false -> lt c b = false -> lt c a = false) ->
  (forall a b, lt a b = false -> lt b a = false -> a = b) ->
  l ≡ₚ l' -> sort_by lt l = sort_by lt l'.
Proof.
  intros Ha Ht He Hp. assert (AntiSymm eq (fun a b => lt b a = false)) by (intros x y Hx Hy; by apply He).
  apply (StronglySorted_unique (fun a b => lt b a = false)); [by apply sort_by_sorted..|by rewrite !sort_by_Permutation].
Qed.
Lemma sort_by_map {A B} (f : A -> B) (lt : B -> B -> bool) (lt' : A -> A -> bool) l :
  (forall a b, In a l -> In b l -> lt (f a) (f b) = lt' a b) -> sort_by lt (map f l) = map f (sort_by lt' l).
Proof.
  intros Hf. unfold sort_by.
  enough (forall acc, (forall a, In a acc -> In a l) -> forall l', (forall a, In a l' -> In a l) ->
    fold_left (fun acc r => insert_by lt r acc) (map f l') (map f acc)
    = map f (fold_left (fun acc r => insert_by lt' r acc) l' acc)) as Hgen by (by apply (Hgen [] (fun _ x => match x with end) l)).
  assert (forall r acc, In r l -> (forall a, In a acc -> In a l) ->
    insert_by lt (f r) (map f acc) = map f (insert_by lt' r acc)) as Hi.
  { intros r acc Hr. induction acc as [|x acc IH]; intros Hacc; [done|]. cbn. rewrite Hf by (try done; apply Hacc; by left).
    destruct (lt' r x); [done|]. cbn. rewrite IH; [done|]. intros a Ha. apply Hacc. by right. }
  intros acc Hacc l'. revert acc Hacc. induction l' as [|r l' IH]; intros acc Hacc Hl'; [done|]. cbn [map fold_left].
  rewrite Hi; [|apply Hl'; by left|done]. apply IH; [|intros a Ha; apply Hl'; by right].
  intros a Hin. assert (In a (r :: acc)) as [<-|Hin'] by (eapply Permutation_in; [apply insert_by_Permutation|done]);
    [apply Hl'; by left|by apply Hacc].
Qed.
Lemma filter_perm {A} (p : A -> bool) l l' : l ≡ₚ l' -> List.filter p l ≡ₚ List.filter p l'.
Proof. induction 1 as [|x ? ? _ IH|x y ?|? ? ? _ IH _ IH']; cbn; [done|by destruct (p x); [f_equiv|]|destruct (p x), (p y); try done; constructor|by etrans]. Qed.
Lemma existsb_perm {A} (p : A -> bool) l l' : l ≡ₚ l' -> existsb p l = existsb p l'.
Proof. induction 1 as [|x ? ? _ IH|x y ?|? ? ? _ IH _ IH']; cbn; [done|congruence|by rewrite !orb_assoc, (orb_comm (p x))|congruence]. Qed.
Lemma forallb_perm {A} (p : A -> bool) l l' : l ≡ₚ l' -> forallb p l = forallb p l'.
Proof. induction 1 as [|x ? ? _ IH|x y ?|? ? ? _ IH _ IH']; cbn; [done|congruence|by rewrite !andb_assoc, (andb_comm (p x))|congruence]. Qed.

Lemma concat_perm {A} (l l' : list (list A)) : l ≡ₚ l' -> List.concat l ≡ₚ List.concat l'.
Proof. induction 1; cbn; [done|by f_equiv|by rewrite Permutation_app_swap_app|by etrans]. Qed.
Lemma concat_map_perm {A B} (f g : A -> list B) l :
  (forall x, In x l -> f x ≡ₚ g x) -> List.concat (map f l) ≡ₚ List.concat (map g l).
Proof.
  induction l as [|x l IH]; intros Hf; [done|]. cbn. rewrite (Hf x) by (by left). f_equiv. apply IH. intros y Hy.
  apply Hf. by right.
Qed.

Lemma StronglySorted_map {A B} (f : A -> B) (P : B -> B -> Prop) l :
  StronglySorted (fun a b => P (f a) (f b)) l -> StronglySorted P (map f l).
Proof. induction 1; simpl; constructor; [done|by apply Forall_map]. Qed.

Lemma StronglySorted_firstn_skipn {R} (P : R -> R -> Prop) n l x y :
  StronglySorted P l -> In x (firstn n l) -> In y (skipn n l) -> P x y.
Proof.
  intros Hl. revert n. induction Hl as [|z l Hl IH Hz]; intros [|n]; simpl; try done.
  intros [->|Hx] Hy; [|by eapply IH].
  rewrite Forall_forall in Hz. apply Hz. apply list_elem_of_In. by eapply in_skipn.
Qed.

(** The rows named by the keys of a part of a query are that part. *)
Lemma length_select_keys {R} (g : R -> Z) (t l : list R) :
  NoDup (map g t) -> NoDup (map g l) -> (forall x, In x l -> In x t) ->
  List.length (select (fun r => existsb (Z.eqb (g r)) (map g l)) t) = List.length l.
Proof.
  intros Ht Hl Hsub. rewrite <-(length_map g), <-(length_map g l). apply Permutation_length.
  apply NoDup_Permutation; [by apply NoDup_map_filter|done|].
  intros i. rewrite !list_elem_of_In, !in_map_iff. split.
  - intros (x & <- & [_ Hx]%filter_In). apply existsb_exists in Hx as (j & Hj & ->%Z.eqb_eq).
    by apply in_map_iff in Hj.
  - intros (x & <- & Hx). exists x. split; [done|]. apply filter_In. split; [auto|].
    apply existsb_exists. exists (g x). split; [by apply in_map|apply Z.eqb_refl].
Qed.

(** ** Deleting the oldest rows *)
Lemma count_delete {R} (p : R -> bool) t :
  count p t + Z.of_nat (List.length (delete_rows p t)) = Z.of_nat (List.length t).
Proof.
  unfold count, select, delete_rows. induction t as [|r t IH]; [done|].
  cbn [List.filter]. destruct (p r); cbn [negb List.length]; lia.
Qed.

Section DeleteOldest.
Context {R : Type} (id : R -> Z) (at_ : R -> string).

Lemma earlier_asym a b : earlier id at_ a b = true -> earlier id at_ b a = false.
Proof.
  unfold earlier. rewrite orb_true_iff, andb_true_iff, Z.ltb_lt, String.eqb_eq. intros [H|[E H]].
  - rewrite (text_lt_asym _ _ H). destruct (String.eqb_spec (at_ b) (at_ a)) as [E|]; [|done].
    rewrite E, text_lt_irrefl in H. done.
  - rewrite E, text_lt_irrefl, String.eqb_refl. simpl. apply Z.ltb_ge. lia.
Qed.

Lemma earlier_false a b :
  earlier id at_ a b = false <-> text_lt (at_ a) (at_ b) = false /\ (at_ a = at_ b -> id b <= id a).
Proof.
  unfold earlier. rewrite orb_false_iff, andb_false_iff, Z.ltb_ge, String.eqb_neq.
  destruct (string_dec (at_ a) (at_ b)); naive_solver.
Qed.

Lemma earlier_trans a b c :
  earlier id at_ b a = false -> earlier id at_ c b = false -> earlier id at_ c a = false.
Proof.
  rewrite !earlier_false. intros [H1 I1] [H2 I2].
  split; [by eapply text_ge_trans|]. intros E.
  assert (at_ b = at_ a) as Eb.
  { apply text_lt_total; [done|]. rewrite <-E in *. destruct (text_lt (at_ c) (at_ b)) eqn:?; congruence. }
  specialize (I1 Eb). specialize (I2 ltac:(congruence)). lia.
Qed.

(** As many due rows as the limit allows are removed, the oldest first; no row
    that is not due is. *)
Lemma delete_oldest_spec due n t k t' :
  NoDup (map id t) -> 0 < n -> delete_oldest id at_ due n t = (k, t') ->
  k = Z.min n (count due t)
  /\ k = Z.of_nat (List.length t) - Z.of_nat (List.length t')
  /\ (forall r, In r t' -> In r t)
  /\ (forall r, In r t -> ~ In r t' -> due r = true
        /\ forall r', In r' t' -> due r' = true -> text_lt (at_ r') (at_ r) = false).
Proof.
  intros Ht Hn. unfold delete_oldest. set (sorted := sort_by _ _). set (removed := limit n sorted).
  set (doomed := fun r => existsb (Z.eqb (id r)) (map id removed)). intros [= <- <-].
  assert (forall r, In r removed -> In r t /\ due r = true) as Hsub.
  { intros r Hr%in_firstn%in_sort_by. by apply filter_In in Hr. }
  assert (NoDup (map id removed)) as Hrem.
  { assert (NoDup (map id sorted)) as Hs by (unfold sorted; rewrite sort_by_Permutation; by apply NoDup_map_filter).
    rewrite <-(firstn_skipn (Z.to_nat n) sorted), map_app in Hs. by apply NoDup_app in Hs as [Hs _]. }
  assert (count doomed t = Z.of_nat (List.length removed)) as Hc.
  { unfold count. f_equal. apply length_select_keys; [done..|]. intros x Hx. by apply Hsub. }
  assert (forall r, In r t -> doomed r = true <-> In r removed) as Hd.
  { intros r Hr. unfold doomed. rewrite existsb_exists. split.
    - intros (i & (x & <- & Hx)%in_map_iff & Hi%Z.eqb_eq).
      assert (r = x) as -> by (eapply (NoDup_map_inj_in id t); eauto; by apply Hsub). done.
    - intros Hin. exists (id r). split; [by apply in_map|apply Z.eqb_refl]. }
  split_and!.
  - rewrite Hc. unfold removed, limit, sorted, count. rewrite length_firstn, sort_by_Permutation. lia.
  - pose proof (count_delete doomed t). lia.
  - by intros r [Hr _]%filter_In.
  - intros r Hr Hnr.
    assert (In r removed) as Hin.
    { apply Hd; [done|]. destruct (doomed r) eqn:E; [done|]. destruct Hnr. apply filter_In. by rewrite E. }
    split; [by apply Hsub|]. intros r' [Hr' Hk]%filter_In Hdue.
    assert (In r' sorted) as Hs by (by apply in_sort_by, filter_In).
    rewrite <-(firstn_skipn (Z.to_nat n)) in Hs. apply in_app_or in Hs as [Hs|Hlate].
    { apply Hd in Hs; [|done]. by rewrite Hs in Hk. }
    pose proof (StronglySorted_firstn_skipn _ _ _ _ _
      (sort_by_sorted _ earlier_asym earlier_trans (select due t)) Hin Hlate) as Hle.
    by apply earlier_false in Hle as [? _].
Qed.
End DeleteOldest.

(** A predicate that only holds of rows with one key selects that row. *)
Lemma select_unique {R K} (g : R -> K) (p : R -> bool) t u :
  NoDup (map g t) -> In u t -> p u = true -> (forall x, In x t -> p x = true -> g x = g u) ->
  select p t = [u].
Proof.
  intros Hnd Hin Hu Hall. unfold select. apply Permutation_singleton_r.
  apply NoDup_Permutation.
  - apply (NoDup_map_filter g p) in Hnd. revert Hnd. clear. induction (List.filter p t) as [|x l IH]; [constructor|].
    simpl. intros [Hx Hl]%NoDup_cons. constructor; [|auto]. intros Hin. apply Hx.
    apply list_elem_of_In in Hin. apply list_elem_of_In. by apply in_map.
  - apply NoDup_singleton.
  - intros x. rewrite list_elem_of_In, filter_In, list_elem_of_singleton. split.
    + intros [Hx Hp]. by apply (NoDup_map_inj_in g t); auto.
    + by intros ->.
Qed.

Lemma count_unique {R K} (g : R -> K) (p : R -> bool) t u :
  NoDup (map g t) -> In u t -> p u = true -> (forall x, In x t -> p x = true -> g x = g u) ->
  count p t = 1.
Proof. intros. unfold count. by erewrite (select_unique g). Qed.

(** An UPDATE by key changes one row in place. *)
Lemma update_unique {R K} (g : R -> K) (p : R -> bool) f t u :
  NoDup (map g t) -> In u t -> p u = true -> (forall x, In x t -> p x = true -> g x = g u) ->
  exists l1 l2, t = (l1 ++ u :: l2)%list /\ update p f t = (l1 ++ f u :: l2)%list.
Proof.
  intros Hnd Hin Hu Hall. apply in_split in Hin as (l1 & l2 & ->). exists l1, l2. split; [done|].
  rewrite map_app in Hnd. simpl in Hnd. apply NoDup_app in Hnd as (_ & H1 & [H2 _]%NoDup_cons).
  assert (forall x, In x l1 \/ In x l2 -> p x = false) as Hno.
  { intros x Hx. destruct (p x) eqn:E; [exfalso|done].
    assert (g x = g u) as Eg by (apply Hall; [apply in_or_app; simpl; tauto|done]).
    destruct Hx as [Hx|Hx]; apply (in_map g), list_elem_of_In in Hx; rewrite Eg in Hx; [|done].
    apply (H1 _ Hx). by left. }
  unfold update. rewrite map_app. cbn [map]. rewrite Hu.
  f_equal; [|f_equal]; rewrite <-List.map_id; apply map_ext_in; intros x Hx; rewrite Hno; auto.
Qed.

Lemma count_app {R} (q : R -> bool) a b : count q (a ++ b)%list = count q a + count q b.
Proof. unfold count, select. rewrite List.filter_app, length_app. lia. Qed.
Lemma count_cons {R} (q : R -> bool) r l : count q (r :: l) = (if q r then 1 else 0) + count q l.
Proof. unfold count, select. cbn [List.filter]. destruct (q r); cbn [List.length]; lia. Qed.

Lemma find_update {R} (p q : R -> bool) f t :
  (forall r, p (f r) = p r) ->
  find p (update q f t) = option_map (fun r => if q r then f r else r) (find p t).
Proof.
  intros Hp. unfold update. induction t as [|r t IH]; [done|]. simpl.
  assert (p (if q r then f r else r) = p r) as -> by (by destruct (q r)).
  destruct (p r); [done|apply IH].
Qed.

(** ** Counting and finding *)
Lemma count_ext {R} (p q : R -> bool) t : (forall r, In r t -> p r = q r) -> count p t = count q t.
Proof. intros H. unfold count, select. by rewrite (List.filter_ext_in _ _ _ H). Qed.
Lemma count_update_in {R} (p q : R -> bool) f t :
  (forall r, In r t -> p r = true -> q (f r) = q r) -> count q (update p f t) = count q t.
Proof.
  unfold count, select, update. intros H. f_equal. induction t as [|r t IH]; [done|]. simpl.
  pose proof (H r (or_introl eq_refl)) as Hr. specialize (IH ltac:(intros; apply H; [by right|done])).
  destruct (p r) eqn:E; [rewrite Hr by done|]; by destruct (q r); simpl; rewrite IH.
Qed.
Lemma count_update {R} (p q : R -> bool) f t :
  (forall r, p r = true -> q (f r) = q r) -> count q (update p f t) = count q t.
Proof. intros H. apply count_update_in. auto. Qed.

Lemma update_update {R} (p q : R -> bool) f (t : list R) :
  (forall r, p r = true -> q (f r) = false) ->
  update q f (update p f t) = update (fun r => p r || q r) f t.
Proof.
  intros H. unfold update. rewrite map_map. apply map_ext. intros r.
  destruct (p r) eqn:E; simpl; [by rewrite H|done].
Qed.
Lemma count_nonneg {R} (p : R -> bool) t : 0 <= count p t.
Proof. unfold count. lia. Qed.
Lemma count_snoc {R} (p : R -> bool) t r : count p (t ++ [r])%list = count p t + if p r then 1 else 0.
Proof. rewrite count_app. rewrite count_cons. unfold count, select. simpl. lia. Qed.
Lemma count_zero {R} (p : R -> bool) t : count p t = 0 <-> forall r, In r t -> p r = false.
Proof.
  induction t as [|x t IH]; [done|]. rewrite count_cons. pose proof (count_nonneg p t).
  simpl. split.
  - intros Hc r [<-|Hr]; destruct (p x) eqn:E; try lia; try done; apply IH; [lia|done].
  - intros Hall. rewrite (Hall x) by auto. apply IH. auto.
Qed.
Lemma count_update_le {R} (p q : R -> bool) f t :
  (forall r, p r = true -> q (f r) = false) -> count q (update p f t) <= count q t.
Proof.
  intros Hf. induction t as [|r t IH]; [done|]. unfold update in *. cbn [map]. rewrite !count_cons.
  destruct (p r) eqn:E; [rewrite (Hf r E); destruct (q r); lia|lia].
Qed.
Lemma count_mono {R} (p q : R -> bool) t : (forall r, p r = true -> q r = true) -> count p t <= count q t.
Proof.
  intros Hpq. induction t as [|r t IH]; [done|]. rewrite !count_cons.
  destruct (p r) eqn:E; [rewrite (Hpq r E); lia|destruct (q r); lia].
Qed.
Lemma find_snoc {R} (p : R -> bool) t r :
  p r = true -> (forall x, In x t -> p x = false) -> find p (t ++ [r])%list = Some r.
Proof.
  intros Hr. induction t as [|x t IH]; simpl; intros Ht; [by rewrite Hr|].
  rewrite Ht by auto. auto.
Qed.
Lemma find_count {R} (p : R -> bool) t x : count p t <= 1 -> In x t -> p x = true -> find p t = Some x.
Proof.
  intros Hc Hin Hp. apply in_split in Hin as (l1 & l2 & ->).
  rewrite count_app, count_cons, Hp in Hc. pose proof (count_nonneg p l2).
  assert (count p l1 = 0) as Hz by (pose proof (count_nonneg p l1); lia).
  rewrite count_zero in Hz. clear Hc. induction l1 as [|y l1 IH]; simpl; [by rewrite Hp|].
  rewrite (Hz y) by (by left). apply IH. intros r Hr. apply Hz. by right.
Qed.
Lemma find_key {R} (g : R -> string) (p : R -> bool) t x :
  NoDup (map g t) -> In x t -> p x = true -> (forall y, In y t -> p y = true -> g y = g x) -> find p t = Some x.
Proof.
  intros Hnd Hin Hp Hall. apply find_count; [|done..]. by rewrite (count_unique g p t x).
Qed.
Lemma existsb_count {R} (p : R -> bool) t : existsb p t = false -> count p t = 0.
Proof.
  intros H. apply count_zero. intros x Hx. apply not_true_is_false. intros E.
  assert (existsb p t = true); [apply existsb_exists; eauto|congruence].
Qed.

Lemma count_one_of {R} (p : R -> bool) t x : count p t <= 1 -> In x t -> p x = true -> count p t = 1.
Proof.
  intros Hle Hx Hp. pose proof (count_nonneg p t). destruct (Z.eq_dec (count p t) 0) as [Hz|]; [|lia].
  rewrite count_zero in Hz. by rewrite Hz in Hp.
Qed.
