(* ===== verification/Outbox.v ===== *)
(** internal/db/sqlite/events.go and internal/store/events.go: the transactional
    outbox. Every mutation appends its events here in its own transaction; the
    publisher and the read-authority feed read it in rowid order. *)
From stdpp Require Import base tactics list strings.
From Stdlib Require Import ZArith Lia Ascii String.
From S2P Require Import Prelude GoStrings GoTime Codec Json Errors Domain Events Schema.

Local Open Scope string_scope.
Local Open Scope Z_scope.

(** The random buffers an operation draws, in order. *)
Abbreviation rng := (nat -> option string).

Record OutboxEvent := mkOutboxEvent {
  oe_GlobalCursor : Z; oe_event : Event; oe_PublishedAt : option Z }.

Record PlatformEventFeed := mkFeed {
  feed_Events : list OutboxEvent; feed_SourceCursor : Z; feed_RetentionHorizon : Z;
  feed_NextCursor : Z; feed_HasMore : bool }.

(** ** Appending *)

Definition same_aggregate (ty agg : string) (r : OutboxRow) : bool :=
  (ob_aggregate_type r =s ty) && (ob_aggregate_id r =s agg).

(** [SELECT COALESCE(MAX(sequence),0)+1 ...] *)
Definition next_sequence (ty agg : string) (db : DB) : Z :=
  foldr Z.max 0 (map ob_sequence (select (same_aggregate ty agg) (outbox db))) + 1.

Definition event_row (e : Event) (id : Z) : OutboxRow :=
  mkOutboxRow id (Event_EventID e) (Event_EventType e) (Event_AggregateType e) (Event_AggregateID e)
    (Event_Sequence e) (Event_SchemaVersion e) (formatTime (Event_OccurredAt e)) (Event_Payload e) None.

Definition appendPlatformEventTx (eventType aggregateID : string) (occurredAt : Z)
    (payload : list (string * scalar)) (rand : option string) : St DB error unit :=
  let! event := lift (New eventType aggregateID occurredAt payload rand) in
  let! sequence := reads (next_sequence (Event_AggregateType event) (Event_AggregateID event)) in
  let! event := lift (WithSequence event sequence) in
  do! within "append platform outbox event"
        (insert_row outbox set_outbox outbox_ok (event_row event)) in
  ret tt.

(** [organisationMutationDetails] (organisation.go), [workspaceMutationDetails]
    (workspace.go) and [productAuditDetails] (product.go) *)
Record organisationMutationDetails := mkOMD {
  od_OrganisationID : string; od_MembershipID : string; od_UserID : string; od_Role : string;
  od_Name : string; od_Reason : string }.
Record workspaceMutationDetails := mkWMD {
  wd_WorkspaceID : string; wd_MembershipID : string; wd_UserID : string; wd_Role : string;
  wd_Reason : string }.
Record productAuditDetails := mkPAD {
  pd_ProductKey : string; pd_OrganisationID : string; pd_UserID : string; pd_EntitlementID : string;
  pd_AssignmentID : string; pd_Status : string; pd_Reason : string }.

Definition eventOrganisationCreated := "organisation_created".
Definition eventMembershipAdded := "membership_added".
Definition eventMembershipRoleChanged := "membership_role_changed".
Definition eventMembershipDeactivated := "membership_deactivated".
Definition eventOrganisationArchived := "organisation_archived".
Definition eventOrganisationRenamed := "organisation_renamed".
Definition eventWorkspaceCreated := "workspace_created".
Definition eventWorkspaceMembershipAdded := "workspace_membership_added".
Definition eventWorkspaceRoleChanged := "workspace_membership_role_changed".
Definition eventWorkspaceMemberRemoved := "workspace_membership_deactivated".
Definition eventWorkspaceArchived := "workspace_archived".
Definition eventProductRetired := "product_retired".
Definition eventProductCreated := "product_created".
Definition eventEntitlementGranted := "product_entitlement_granted".
Definition eventEntitlementRevoked := "product_entitlement_revoked".
Definition eventAssignmentGranted := "product_assignment_granted".
Definition eventAssignmentRevoked := "product_assignment_revoked".

Definition membership_payload (membershipID userID role : string) (active : bool) : list (string * scalar) :=
  [("membership_id", VString membershipID); ("user_id", VString userID); ("role", VString role);
   ("active", VBool active)].

(** The [switch eventName] of appendOrganisationEventTx: the event type and the
    members it adds to the payload. *)
Definition organisation_event (eventName : string) (d : organisationMutationDetails)
  : option (string * list (string * scalar)) :=
  let member := membership_payload (od_MembershipID d) (od_UserID d) (od_Role d) in
  if eventName =s eventOrganisationCreated then Some (EventOrganisationCreated, [])
  else if eventName =s eventMembershipAdded then Some (EventOrganisationMembershipAdded, member true)
  else if eventName =s eventMembershipRoleChanged then Some (EventOrganisationRoleChanged, member true)
  else if eventName =s eventMembershipDeactivated then Some (EventOrganisationMembershipRemoved, member false)
  else if eventName =s eventOrganisationArchived then Some (EventOrganisationArchived, [("active", VBool false)])
  else if eventName =s eventOrganisationRenamed then
    Some (EventOrganisationRenamed, [("name", VString (od_Name d))])
  else None.

Definition appendOrganisationEventTx (eventName : string) (d : organisationMutationDetails) (at_ : Z)
    (rand : option string) : St DB error unit :=
  let! (eventType, extra) := some_or (organisation_event eventName d)
                                (Text "unsupported organisation audit event") in
  appendPlatformEventTx eventType (od_OrganisationID d) at_
    (("organisation_id", VString (od_OrganisationID d)) :: extra) rand.

Definition workspace_event (eventName organisationID : string) (d : workspaceMutationDetails)
  : option (string * list (string * scalar)) :=
  let member := membership_payload (wd_MembershipID d) (wd_UserID d) (wd_Role d) in
  if eventName =s eventWorkspaceCreated then
    Some (EventWorkspaceCreated, [("organisation_id", VString organisationID); ("active", VBool true)])
  else if eventName =s eventWorkspaceMembershipAdded then Some (EventWorkspaceMembershipAdded, member true)
  else if eventName =s eventWorkspaceRoleChanged then Some (EventWorkspaceRoleChanged, member true)
  else if eventName =s eventWorkspaceMemberRemoved then Some (EventWorkspaceMembershipRemoved, member false)
  else if eventName =s eventWorkspaceArchived then Some (EventWorkspaceArchived, [("active", VBool false)])
  else None.

Definition appendWorkspaceEventTx (eventName : string) (d : workspaceMutationDetails)
    (organisationID : string) (at_ : Z) (rand : option string) : St DB error unit :=
  let! (eventType, extra) := some_or (workspace_event eventName organisationID d)
                                (Text "unsupported workspace audit event") in
  appendPlatformEventTx eventType (wd_WorkspaceID d) at_
    (("workspace_id", VString (wd_WorkspaceID d)) :: extra) rand.

Definition appendProductEventTx (eventName : string) (d : productAuditDetails) (at_ : Z)
    (rand : option string) : St DB error unit :=
  do! require ((eventName =s eventProductRetired) || (eventName =s eventProductCreated))
        (Text "unsupported product audit event") in
  let eventType := if eventName =s eventProductCreated then EventProductCreated else EventProductRetired in
  appendPlatformEventTx eventType (pd_ProductKey d) at_
    [("product_key", VString (pd_ProductKey d)); ("status", VString (pd_Status d))] rand.

(** The [switch] of appendAccessEventTx: event type, aggregate and members. *)
Definition access_event (eventName : string) (d : productAuditDetails)
  : option (string * string * list (string * scalar)) :=
  let ent := [("entitlement_id", VString (pd_EntitlementID d))] in
  let asg := [("assignment_id", VString (pd_AssignmentID d)); ("user_id", VString (pd_UserID d))] in
  if eventName =s eventEntitlementGranted then Some (EventEntitlementGranted, pd_EntitlementID d, ent)
  else if eventName =s eventEntitlementRevoked then Some (EventEntitlementRevoked, pd_EntitlementID d, ent)
  else if eventName =s eventAssignmentGranted then Some (EventAssignmentGranted, pd_AssignmentID d, asg)
  else if eventName =s eventAssignmentRevoked then Some (EventAssignmentRevoked, pd_AssignmentID d, asg)
  else None.

Definition appendAccessEventTx (eventName : string) (d : productAuditDetails) (at_ : Z)
    (rand : option string) : St DB error unit :=
  let! (eventType, aggregateID, extra) := some_or (access_event eventName d)
                                             (Text "unsupported access audit event") in
  appendPlatformEventTx eventType aggregateID at_
    ([("organisation_id", VString (pd_OrganisationID d)); ("product_key", VString (pd_ProductKey d));
      ("status", VString (pd_Status d))] ++ extra)%list rand.

(** ** Reading and publishing *)

(** The columns of one row as the [events.Event] the readers validate. *)
Definition row_event (r : OutboxRow) : Event :=
  mkEvent (ob_event_id r) (ob_event_type r) (ob_aggregate_type r) (ob_aggregate_id r)
    (ob_sequence r) (ob_schema_version r) (parseTime (ob_occurred_at r)) (ob_payload r).
Definition outbox_event (cursor : Z) (r : OutboxRow) : OutboxEvent :=
  mkOutboxEvent cursor (row_event r) (option_map parseTime (ob_published_at r)).

Definition pending (r : OutboxRow) : bool := is_none (ob_published_at r).

Definition ListPendingPlatformEvents (db : DB) (n : Z) : res (list OutboxEvent) :=
  if (n <=? 0) || (1000 <? n) then Err (Sentinel ErrInvalidOutboxLimit)
  else map_res (fun r =>
         let? _ := wrap "validate pending platform event" (Event_Validate (row_event r)) in
         Ok (outbox_event 0 r)) (limit n (select pending (outbox db))).

(** [UPDATE platform_outbox SET published_at=? WHERE event_id=? AND published_at IS NULL] *)
Definition publishable (eventID : string) (r : OutboxRow) : bool := (ob_event_id r =s eventID) && pending r.
Definition published (at_ : Z) (r : OutboxRow) : OutboxRow :=
  mkOutboxRow (ob_id r) (ob_event_id r) (ob_event_type r) (ob_aggregate_type r) (ob_aggregate_id r)
    (ob_sequence r) (ob_schema_version r) (ob_occurred_at r) (ob_payload r) (Some (formatTime at_)).

Fixpoint mark_each (eventIDs seen : list string) (at_ : Z) : St DB error unit :=
  match eventIDs with
  | [] => ret tt
  | eventID :: rest =>
      let eventID := TrimSpace eventID in
      do! require (negb (eventID =s "")) (Text "platform event ID is required") in
      do! require (negb (existsb (String.eqb eventID) seen)) (Text "duplicate platform event ID") in
      let! rows := reads (fun db => count (publishable eventID) (outbox db)) in
      do! modify (fun db => set_outbox (update (publishable eventID) (published at_) (outbox db)) db) in
      do! require (rows =? 1) (Text "platform event is missing or already published") in
      mark_each rest (eventID :: seen) at_
  end.

Definition MarkPlatformEventsPublished (eventIDs : list string) (at_ : Z) : St DB error unit :=
  do! require (negb (IsZero at_)) (Text "platform event publication time is required") in
  do! require (negb (Nat.eqb (List.length eventIDs) 0) && (Z.of_nat (List.length eventIDs) <=? 1000))
        ErrInvalidOutboxLimit in
  mark_each eventIDs [] at_.

(** [SELECT COALESCE(MIN(id),0),COALESCE(MAX(id),0) FROM platform_outbox]: rowids
    are in ascending order. *)
Definition first_id (db : DB) : Z := match outbox db with [] => 0 | r :: _ => foldr Z.min (ob_id r) (map ob_id (outbox db)) end.
Definition current_id (db : DB) : Z := foldr Z.max 0 (map ob_id (outbox db)).

(** (current, horizon) *)
Definition PlatformEventCursorBounds (db : DB) : Z * Z :=
  if first_id db =? 0 then (current_id db, 0) else (current_id db, first_id db - 1).

(** The scan loop of the feed: each rowid is the successor of the previous. *)
Fixpoint feed_rows (previous : Z) (rows : list OutboxRow) : res (list OutboxEvent) :=
  match rows with
  | [] => Ok []
  | r :: rest =>
      if negb (ob_id r =? previous + 1) then Err (Sentinel ErrReadAuthoritySourceGap)
      else match Event_Validate (row_event r) with
           | Err _ => Err (Wrap "" (Sentinel ErrReadAuthoritySourceInvalid))
           | Ok _ => let? evs := feed_rows (ob_id r) rest in Ok (outbox_event (ob_id r) r :: evs)
           end
  end.

Definition ListPlatformEventsAfter (db : DB) (after n : Z) : res PlatformEventFeed :=
  if (after <? 0) || (n <=? 0) || (500 <? n) then Err (Sentinel ErrInvalidOutboxLimit)
  else
    let first := first_id db in
    let current := current_id db in
    let horizon := if 0 <? first then first - 1 else 0 in
    if (after <? horizon) || (current <? after) then Err (Sentinel ErrReadAuthoritySourceGap)
    else
      let? evs := feed_rows after (limit (n + 1) (select (fun r => after <? ob_id r) (outbox db))) in
      if n <? Z.of_nat (List.length evs) then
        let page := limit n evs in
        Ok (mkFeed page current horizon (default 0 (option_map oe_GlobalCursor (last page))) true)
      else Ok (mkFeed evs current horizon 0 false).

(** ** The outbox invariant *)

(** Rowids are 1..n, each aggregate's sequence is 1..k in rowid order, event
    identifiers are distinct, and every row reads back as a valid event. *)
Record outbox_wf (t : list OutboxRow) : Prop := {
  wf_ids : map ob_id t = seqZ 1 (Z.of_nat (List.length t));
  wf_sequences : forall ty agg,
    map ob_sequence (select (same_aggregate ty agg) t)
    = seqZ 1 (Z.of_nat (List.length (select (same_aggregate ty agg) t)));
  wf_event_ids : NoDup (map ob_event_id t);
  wf_valid : forall r, In r t -> Event_Validate (row_event r) = Ok tt }.
Definition outbox_inv (db : DB) : Prop := outbox_wf (outbox db).

(** ** Lemmas *)

Lemma max_seqZ n : foldr Z.max 0 (seqZ 1 (Z.of_nat n)) = Z.of_nat n.
Proof.
  enough (forall m, 0 <= m -> foldr Z.max m (seqZ 1 (Z.of_nat n)) = Z.max m (Z.of_nat n)) as H
    by (rewrite H; lia).
  induction n as [|n IH]; intros m Hm; [simpl; lia|].
  rewrite Nat2Z.inj_succ, <-Z.add_1_r, seqZ_app, foldr_app by lia. simpl.
  rewrite IH by lia. lia.
Qed.

Lemma min_seqZ n x : 1 <= x -> foldr Z.min x (seqZ 1 (Z.of_nat (S n))) = 1.
Proof.
  intros Hx. rewrite seqZ_cons by lia. cbn [foldr].
  enough (forall n k, 1 <= k -> 1 <= foldr Z.min x (seqZ k (Z.of_nat n))) as H
    by (replace (Z.pred (Z.of_nat (S n))) with (Z.of_nat n) by lia; specialize (H n (Z.succ 1) ltac:(lia)); lia).
  clear n. induction n as [|n IH]; intros k Hk; [done|].
  rewrite seqZ_cons by lia. cbn [foldr].
  replace (Z.pred (Z.of_nat (S n))) with (Z.of_nat n) by lia.
  specialize (IH (Z.succ k)). lia.
Qed.

Lemma select_app {R} (p : R -> bool) a b : select p (a ++ b)%list = (select p a ++ select p b)%list.
Proof. apply List.filter_app. Qed.

Lemma seqZ_snoc n : seqZ 1 (Z.of_nat (S n)) = (seqZ 1 (Z.of_nat n) ++ [Z.of_nat n + 1])%list.
Proof. rewrite Nat2Z.inj_succ, <-Z.add_1_r, seqZ_app, (seqZ_cons (1 + _)) by lia.
  rewrite (seqZ_nil (Z.succ _)) by lia. by rewrite Z.add_comm.
Qed.

Lemma outbox_wf_next_id t : outbox_wf t -> next_id t = Z.of_nat (List.length t) + 1.
Proof. intros Hwf. unfold next_id. change row_id with ob_id. by rewrite (wf_ids _ Hwf), max_seqZ. Qed.

(** Adding the next event of its aggregate keeps the invariant. *)
Lemma outbox_wf_snoc t r :
  outbox_wf t -> ob_id r = next_id t ->
  ob_sequence r = foldr Z.max 0 (map ob_sequence
    (select (same_aggregate (ob_aggregate_type r) (ob_aggregate_id r)) t)) + 1 ->
  outbox_ok t r = true -> Event_Validate (row_event r) = Ok tt -> outbox_wf (t ++ [r])%list.
Proof.
  intros Hwf Hid Hseq Hok Hv. unfold outbox_ok in Hok. bool_hyps. split.
  - rewrite map_app, length_app, Nat.add_comm; simpl.
    by rewrite seqZ_snoc, <-(wf_ids _ Hwf), Hid, (outbox_wf_next_id _ Hwf).
  - intros ty agg. rewrite select_app, map_app, length_app. simpl.
    destruct (same_aggregate ty agg r) eqn:E; simpl; rewrite (wf_sequences _ Hwf).
    + rewrite (Nat.add_comm (List.length _)); simpl. rewrite seqZ_snoc. do 2 f_equal.
      unfold same_aggregate in E. bool_hyps.
      repeat match goal with H : String.eqb _ _ = true |- _ => apply String.eqb_eq in H end.
      subst. by rewrite Hseq, (wf_sequences _ Hwf), max_seqZ.
    + by rewrite Nat.add_0_r, app_nil_r.
  - rewrite map_app. apply NoDup_app. split_and!; [apply Hwf| |by apply NoDup_singleton].
    intros x Hx Hr. apply list_elem_of_singleton in Hr. subst x.
    apply list_elem_of_In, in_map_iff in Hx as (y & Hy & Hin).
    match goal with H : fresh (fun x => String.eqb (ob_event_id x) _) t = true |- _ =>
      rewrite fresh_spec in H; specialize (H y Hin); simpl in H; apply String.eqb_neq in H; done end.
  - intros x [Hx|[<-|[]]]%in_app_or; [by apply Hwf|done].
Qed.

Lemma row_event_event_row e id :
  four_digit_year (Event_OccurredAt e) -> row_event (event_row e id) = e.
Proof. intros Ht. destruct e. unfold row_event; simpl in *. by rewrite parse_formatTime. Qed.

(** A committed append adds one row: the validated event, next in its sequence. *)
Lemma append_Ok ty agg t payload rand db u db' :
  appendPlatformEventTx ty agg t payload rand db = Ok (u, db') ->
  exists e, Event_Validate e = Ok tt /\ Event_EventType e = ty /\ Event_AggregateID e = TrimSpace agg
    /\ Event_OccurredAt e = t /\ Event_Payload e = encode_map payload
    /\ Event_Sequence e = next_sequence (Event_AggregateType e) (Event_AggregateID e) db
    /\ outbox_ok (outbox db) (event_row e (next_id (outbox db))) = true
    /\ db' = set_outbox (outbox db ++ [event_row e (next_id (outbox db))])%list db.
Proof.
  intros H. unfold appendPlatformEventTx in H. inv_db.
  match goal with
  | Hn : New _ _ _ _ _ = Ok ?e, Hw : WithSequence ?e _ = Ok ?e' |- _ =>
      apply New_Ok in Hn as (_ & Hty & Hagg & Ht & Hp);
      apply WithSequence_Ok in Hw as (Hv & Hs & _ & Hty' & Haty & Hagg' & _ & Hat & Hp'); exists e'
  end.
  split_and!; try done; try congruence.
Qed.

Lemma preserves_append ty agg t payload rand :
  four_digit_year t -> preserves outbox_inv (appendPlatformEventTx ty agg t payload rand).
Proof.
  intros Ht db u db' (e & Hv & _ & _ & Hat & _ & Hs & Hok & ->)%append_Ok Hinv.
  unfold outbox_inv. simpl. apply outbox_wf_snoc; try done; simpl.
  by rewrite row_event_event_row by (by rewrite Hat).
Qed.

(** The rows after a rowid are a suffix of the table. *)
Lemma select_after k t (a : nat) :
  map ob_id t = seqZ k (Z.of_nat (List.length t)) ->
  select (fun r => k + Z.of_nat a - 1 <? ob_id r) t = skipn a t.
Proof.
  revert k a. induction t as [|r t IH]; intros k a Hid; [by rewrite skipn_nil|].
  cbn [List.length map] in Hid. rewrite seqZ_cons in Hid by lia. injection Hid as Hr Ht.
  replace (Z.pred (Z.of_nat (S (List.length t)))) with (Z.of_nat (List.length t)) in Ht by lia.
  unfold select in *. cbn [List.filter]. rewrite Hr. destruct a as [|a].
  - destruct (Z.ltb_spec (k + Z.of_nat 0 - 1) k); [|lia]. simpl. f_equal.
    transitivity (skipn 0 t); [|done]. rewrite <-(IH (Z.succ k) 0%nat Ht). apply List.filter_ext_in. intros x Hx.
    assert (Z.succ k <= ob_id x) as Hle.
    { apply (in_map ob_id) in Hx. rewrite Ht in Hx. apply list_elem_of_In, elem_of_seqZ in Hx. lia. }
    apply eq_true_iff_eq. rewrite !Z.ltb_lt. lia.
  - destruct (Z.ltb_spec (k + Z.of_nat (S a) - 1) k); [lia|]. cbn [skipn].
    rewrite <-(IH (Z.succ k) a Ht). apply List.filter_ext. intros x. f_equal. lia.
Qed.

Lemma ids_skipn k t a :
  map ob_id t = seqZ k (Z.of_nat (List.length t)) ->
  map ob_id (skipn a t) = seqZ (k + Z.of_nat a) (Z.of_nat (List.length (skipn a t))).
Proof.
  revert k a. induction t as [|r t IH]; intros k [|a] Hid; try done.
  - cbn [skipn]. by rewrite Z.add_0_r.
  - cbn [List.length map] in Hid. rewrite seqZ_cons in Hid by lia. injection Hid as Hr Ht.
    replace (Z.pred (Z.of_nat (S (List.length t)))) with (Z.of_nat (List.length t)) in Ht by lia.
    cbn [skipn]. rewrite (IH _ _ Ht). f_equal. lia.
Qed.

Lemma feed_rows_ok previous rows :
  (exists m, map ob_id rows = seqZ (previous + 1) m) ->
  (forall r, In r rows -> Event_Validate (row_event r) = Ok tt) ->
  feed_rows previous rows = Ok (map (fun r => outbox_event (ob_id r) r) rows).
Proof.
  revert previous. induction rows as [|r rows IH]; intros previous [m Hm] Hv; [done|].
  simpl in *. destruct (decide (0 < m)) as [Hpos|]; [|rewrite seqZ_nil in Hm by lia; done].
  rewrite seqZ_cons in Hm by lia. injection Hm as Hr Hm.
  rewrite Hr, Z.eqb_refl, Hv by auto. simpl. rewrite IH; auto.
  exists (Z.pred m). by rewrite Hm, Z.add_1_r.
Qed.

Lemma ids_firstn k t n :
  map ob_id t = seqZ k (Z.of_nat (List.length t)) ->
  map ob_id (firstn n t) = seqZ k (Z.of_nat (List.length (firstn n t))).
Proof.
  revert k n. induction t as [|r t IH]; intros k [|n] Hid; try done.
  cbn [List.length map] in Hid. rewrite seqZ_cons in Hid by lia. injection Hid as Hr Ht.
  replace (Z.pred (Z.of_nat (S (List.length t)))) with (Z.of_nat (List.length t)) in Ht by lia.
  cbn [firstn map List.length]. rewrite (IH _ n Ht), Hr, (seqZ_cons k) by lia.
  do 2 f_equal. lia.
Qed.

Lemma current_id_wf db : outbox_inv db -> current_id db = Z.of_nat (List.length (outbox db)).
Proof. intros Hwf. unfold current_id. by rewrite (wf_ids _ Hwf), max_seqZ. Qed.

Lemma first_id_wf db : outbox_inv db -> first_id db = if Nat.eqb (List.length (outbox db)) 0 then 0 else 1.
Proof.
  intros Hwf. unfold first_id. pose proof (wf_ids _ Hwf) as Hid.
  destruct (outbox db) as [|r t] eqn:E; [done|]. rewrite Hid. apply min_seqZ.
  cbn [map List.length] in Hid. rewrite seqZ_cons in Hid by lia. injection Hid as Hr _. lia.
Qed.

(** One page of the feed, in full. *)
Lemma feed_page_eq db (a n : nat) :
  outbox_inv db -> (0 < n <= 500)%nat -> (a <= List.length (outbox db))%nat ->
  let t := outbox db in
  let more := (a + n <? List.length t)%nat in
  ListPlatformEventsAfter db (Z.of_nat a) (Z.of_nat n) =
  Ok (mkFeed (map (fun r => outbox_event (ob_id r) r) (firstn n (skipn a t)))
        (Z.of_nat (List.length t)) 0 (if more then Z.of_nat (a + n) else 0) more).
Proof.
  intros Hwf Hn Ha t more. change (a <= List.length t)%nat in Ha.
  assert (map ob_id t = seqZ 1 (Z.of_nat (List.length t))) as Hid by apply Hwf.
  unfold ListPlatformEventsAfter. rewrite current_id_wf, first_id_wf by done. fold t.
  replace ((Z.of_nat a <? 0) || (Z.of_nat n <=? 0) || (500 <? Z.of_nat n)) with false by
    (symmetry; rewrite !orb_false_iff, !Z.ltb_ge, Z.leb_gt; lia).
  set (h := if 0 <? _ then _ else 0).
  assert (h = 0) as -> by (subst h; by destruct (Nat.eqb (List.length t) 0)).
  replace ((Z.of_nat a <? 0) || (Z.of_nat (List.length t) <? Z.of_nat a)) with false by
    (symmetry; rewrite orb_false_iff, !Z.ltb_ge; lia).
  unfold limit, select.
  rewrite (List.filter_ext _ (fun r => 1 + Z.of_nat a - 1 <? ob_id r)) by (intros; f_equal; lia).
  fold (select (fun r => 1 + Z.of_nat a - 1 <? ob_id r) t). rewrite (select_after 1) by done.
  replace (Z.to_nat (Z.of_nat n + 1)) with (S n) by lia.
  rewrite feed_rows_ok.
  2:{ eexists. rewrite Z.add_comm. by apply ids_firstn, ids_skipn. }
  2:{ intros r Hr%in_firstn%in_skipn. by apply Hwf. }
  rewrite length_map, length_firstn, length_skipn, Nat2Z.id.
  unfold more. destruct (Nat.ltb_spec (a + n) (List.length t)).
  - destruct (Z.ltb_spec (Z.of_nat n) (Z.of_nat (S n `min` (List.length t - a)))); [|lia].
    rewrite firstn_map, firstn_firstn, Nat.min_l by lia. do 2 f_equal.
    change (take n) with (@firstn OutboxRow n). rewrite last_map.
    replace (option_map _ _) with (Some (Z.of_nat (a + n))); [done|].
    transitivity (last (map ob_id (firstn n (skipn a t)))).
    + rewrite (ids_firstn _ _ _ (ids_skipn 1 t a Hid)), length_firstn, length_skipn.
      replace (n `min` (List.length t - a))%nat with (S (n - 1)) by lia. rewrite last_seqZ.
      f_equal. lia.
    + rewrite last_map. by destruct (last _).
  - destruct (Z.ltb_spec (Z.of_nat n) (Z.of_nat (S n `min` (List.length t - a)))); [lia|].
    do 2 f_equal. rewrite !firstn_all2; [done|rewrite length_skipn; lia..].
Qed.




Lemma existsb_not_In x l : existsb (String.eqb x) l = false <-> ~ In x l.
Proof.
  rewrite <-not_true_iff_false, existsb_exists. setoid_rewrite String.eqb_eq. naive_solver.
Qed.

(** The rows one run of the publication loop changes. *)
Definition to_publish (ids : list string) (r : OutboxRow) : bool :=
  existsb (fun id => publishable id r) ids.

Lemma mark_each_spec ids seen t db db' :
  mark_each ids seen t db = Ok (tt, db') <->
  let ids := map TrimSpace ids in
  NoDup ids /\ (forall id, In id ids -> id <> "" /\ ~ In id seen
    /\ count (publishable id) (outbox db) = 1)
  /\ db' = set_outbox (update (to_publish ids) (published t) (outbox db)) db.
Proof.
  revert seen db. induction ids as [|id ids IH]; intros seen db; cbn [map].
  - assert (set_outbox (update (to_publish []) (published t) (outbox db)) db = db) as ->.
    { unfold to_publish; simpl. rewrite update_none. by destruct db. }
    cbn [mark_each]. rewrite ret_Ok. split; [|naive_solver].
    intros [_ ->]. split_and!; [constructor|done..].
  - set (x := TrimSpace id).
    set (db1 := set_outbox (update (publishable x) (published t) (outbox db)) db).
    assert (forall y, y <> x -> count (publishable y) (outbox db1) = count (publishable y) (outbox db)) as Hc.
    { intros y Hy. apply count_update. unfold publishable. intros r Hr. bool_hyps.
      destruct (String.eqb_spec (ob_event_id r) x); [|done]. cbn.
      destruct (String.eqb_spec (ob_event_id r) y); [congruence|done]. }
    assert (update (to_publish (map TrimSpace ids)) (published t) (outbox db1)
            = update (to_publish (x :: map TrimSpace ids)) (published t) (outbox db)) as Hu.
    { apply update_update. intros r _. unfold to_publish. apply not_true_is_false.
      intros (y & _ & Hy)%existsb_exists. unfold publishable in Hy. by rewrite andb_comm in Hy. }
    cbn [mark_each]. fold x. rewrite !require_then_Ok.
    change (bind (reads ?f) ?k db) with (k (f db) db). cbn beta.
    change (bind (modify ?f) ?k db) with (k tt (f db)). cbn beta.
    rewrite require_then_Ok, IH. fold db1. cbn zeta. rewrite Hu.
    rewrite negb_true_iff, String.eqb_neq, negb_true_iff, existsb_not_In, Z.eqb_eq, NoDup_cons.
    setoid_rewrite list_elem_of_In. simpl.
    split.
    + intros (? & ? & ? & ? & Hall & ->). split_and!; try done.
      * intros (_ & Hx & _)%Hall. tauto.
      * intros y [<-|Hy]; [done|]. destruct (Hall y Hy) as (? & Hs & ?). rewrite <-Hc by (intros ->; tauto). tauto.
    + intros ([Hnx Hnd] & Hall & ->). destruct (Hall x (or_introl eq_refl)) as (? & ? & ?).
      split_and!; try done. intros y Hy. destruct (Hall y (or_intror Hy)) as (? & ? & ?).
      assert (y <> x) by congruence. rewrite Hc by done. naive_solver.
Qed.

(** A reader that follows [NextCursor] while [HasMore] is set. *)
Fixpoint read_feed (fuel : nat) (db : DB) (after n : Z) : res (list OutboxEvent) :=
  match fuel with
  | O => Err (Text "out of fuel")
  | S fuel =>
      let? feed := ListPlatformEventsAfter db after n in
      if feed_HasMore feed then
        let? rest := read_feed fuel db (feed_NextCursor feed) n in
        Ok (feed_Events feed ++ rest)%list
      else Ok (feed_Events feed)
  end.

Lemma outbox_inv_empty : outbox_inv empty_db.
Proof. split; try done. constructor. Qed.

(** ** Properties *)

(** C11: the page size and the caller's cursor never lose or repeat an event:
    on a well-formed outbox, following the cursors of the feed from any valid
    cursor with any allowed page size ends, and returns exactly the events
    after that cursor, each once, in order. *)
Theorem feed_complete db (a n fuel : nat) :
  outbox_inv db -> (0 < n <= 500)%nat -> (a <= List.length (outbox db))%nat ->
  (List.length (outbox db) - a < fuel)%nat ->
  read_feed fuel db (Z.of_nat a) (Z.of_nat n)
  = Ok (map (fun r => outbox_event (ob_id r) r) (skipn a (outbox db))).
Proof.
  intros Hwf Hn. revert a. induction fuel as [|fuel IH]; intros a Ha Hf; [lia|].
  cbn [read_feed]. rewrite feed_page_eq by done. cbn [feed_HasMore feed_NextCursor feed_Events].
  destruct (Nat.ltb_spec (a + n) (List.length (outbox db))).
  - rewrite IH by lia. f_equal. rewrite <-map_app. f_equal.
    by rewrite Nat.add_comm, <-skipn_skipn, firstn_skipn.
  - f_equal. rewrite firstn_all2; [done|]. rewrite length_skipn. lia.
Qed.

Definition sample_append (n : nat) : St DB error unit :=
  for_each (seq 1 n) (fun i =>
    appendPlatformEventTx EventOrganisationCreated "org_1" 0 [("organisation_id", VString "org_1")]
      (Some (FormatInt (Z.of_nat i)))).

Lemma feed_complete_witness :
  is_ok (fst (exec (sample_append 3) empty_db)) = true
  /\ read_feed 4 (snd (exec (sample_append 3) empty_db)) 1 2
     = Ok (map (fun r => outbox_event (ob_id r) r) (skipn 1 (outbox (snd (exec (sample_append 3) empty_db))))).
Proof.
  split; [vm_compute; reflexivity|]. apply (feed_complete _ 1 2 4).
  - apply preserves_exec; [|apply outbox_inv_empty].
    apply preserves_for_each. intros i. apply preserves_append. unfold four_digit_year. vm_compute. intuition discriminate.
  - lia.
  - vm_compute. lia.
  - vm_compute. lia.
Defined.

(** Publication is all or nothing and happens once per event. It succeeds
    exactly when the time is set, between 1 and 1000 identifiers are given, the
    trimmed identifiers are distinct and not empty and each names exactly one
    unpublished event; then precisely those rows get the publication time and
    nothing else changes. *)
Theorem publish_exact ids t db db' :
  MarkPlatformEventsPublished ids t db = Ok (tt, db') <->
  let trimmed := map TrimSpace ids in
  IsZero t = false /\ (0 < List.length ids <= 1000)%nat /\ NoDup trimmed
  /\ (forall id, In id trimmed -> id <> "" /\ count (publishable id) (outbox db) = 1)
  /\ db' = set_outbox (update (to_publish trimmed) (published t) (outbox db)) db.
Proof.
  unfold MarkPlatformEventsPublished. rewrite !require_then_Ok, mark_each_spec. cbn zeta.
  rewrite negb_true_iff, andb_true_iff, negb_true_iff, Nat.eqb_neq, Z.leb_le.
  assert (forall P Q : Prop, (P -> Q) -> (Q -> P) -> P <-> Q) as Hiff by tauto.
  apply Hiff.
  - intros (? & ? & ? & Hall & ?). split_and!; try done; try lia.
    intros id Hid. destruct (Hall id Hid) as (? & ? & ?). done.
  - intros (? & ? & ? & Hall & ?). split_and!; try done; try lia.
    intros id Hid. destruct (Hall id Hid). simpl. tauto.
Qed.

Lemma preserves_publish ids t : preserves outbox_inv (MarkPlatformEventsPublished ids t).
Proof.
  unfold MarkPlatformEventsPublished. apply preserves_bind; [auto with tx|intros _].
  apply preserves_bind; [auto with tx|intros _]. intros db u db' H Hwf. destruct u.
  apply mark_each_spec in H as (_ & _ & ->). unfold outbox_inv in *. simpl.
  set (p := to_publish _). set (t' := outbox db) in *.
  assert (forall (g : OutboxRow -> Z), (forall r, g (published t r) = g r) ->
    map g (update p (published t) t') = map g t') as Hg by (intros; apply map_update; auto).
  split.
  - rewrite length_update, Hg by done. apply Hwf.
  - intros ty agg.
    assert (select (same_aggregate ty agg) (update p (published t) t')
      = update p (published t) (select (same_aggregate ty agg) t')) as ->.
    { by apply select_update. }
    rewrite length_update, map_update by done. apply Hwf.
  - rewrite map_update by done. apply Hwf.
  - intros r (x & Hx & ->)%in_update. apply (wf_valid _ Hwf) in Hx. by destruct (p x).
Qed.
