(* ===== verification/Auth.v ===== *)
(** internal/auth: tokens, passwords, TOTP, recovery codes and the encryption of
    the TOTP secret. The cryptographic primitives are the parameters [Crypto];
    [CryptoLaws] states the documented facts about them that proofs use. *)
From stdpp Require Import base tactics list strings.
From Stdlib Require Import ZArith Lia Ascii String.
From S2P Require Import Prelude GoStrings GoTime Codec Errors.

Local Open Scope string_scope.
Local Open Scope Z_scope.

Class Crypto := {
  sha256 : string -> string;                      (* crypto/sha256.Sum256 *)
  hmac_sha256 : string -> string -> string;       (* key, message *)
  hmac_sha1 : string -> string -> string;         (* key, message *)
  gcm_seal : string -> string -> string -> string;          (* key, nonce, plaintext *)
  gcm_open : string -> string -> string -> option string;   (* key, nonce, ciphertext *)
  bcrypt_generate : string -> Z -> string -> result error string;  (* password, cost, salt *)
  bcrypt_compare : string -> string -> bool }.              (* hash, password *)

Class CryptoLaws `{Crypto} := {
  sha256_length m : len (sha256 m) = 32;
  hmac_sha256_length k m : len (hmac_sha256 k m) = 32;
  hmac_sha1_length k m : len (hmac_sha1 k m) = 20;
  gcm_open_seal k n p : gcm_open k n (gcm_seal k n p) = Some p }.

(** ** token.go *)
Section Token.
Context `{Crypto}.

(** [raw] is what [rand.Read] filled the buffer with. *)
Definition NewOpaqueToken (raw : option string) : res string :=
  match raw with
  | None => Err (Wrap "generate opaque token" (Text "rand"))
  | Some raw => Ok (b64_encode raw)
  end.
Definition HashToken (token : string) : string := b64_encode (sha256 token).
Definition VerifyTokenHash (expectedHash token : string) : bool := expectedHash =s HashToken token.
End Token.

(** ** password.go *)
Definition DummyPasswordHash := "$2a$12$1Z3c.OVxnh87fotws1nTxONdNrj6noCRzU7ILd46d7eJJyt2FLsJe".
Definition DefaultPasswordCost : Z := 12.

Section Password.
Context `{Crypto}.

Definition ValidatePassword (password : string) : res unit :=
  if (rune_count password <? 12) || (TrimSpace password =s "") then Err (Sentinel ErrPasswordPolicy)
  else Ok tt.
Definition HashPassword (password salt : string) : res string :=
  let? _ := ValidatePassword password in bcrypt_generate password DefaultPasswordCost salt.
Definition CheckPassword (hash password : string) : bool := bcrypt_compare hash password.
End Password.

(** ** mfa.go *)

(** base32.StdEncoding without padding. Newlines are skipped; a trailing group of
    1, 3 or 6 characters contributes nothing. *)
Definition b32_val (c : ascii) : option Z :=
  let n := byte_code c in
  if (65 <=? n) && (n <=? 90) then Some (n - 65)
  else if (50 <=? n) && (n <=? 55) then Some (n - 50 + 26)
  else None.
Definition b32_chr (v : Z) : ascii := byte_of (if v <? 26 then v + 65 else v - 26 + 50).

Fixpoint b32_values (s : string) : option (list Z) :=
  match s with
  | "" => Some []
  | String c s' =>
      if (byte_code c =? 10) || (byte_code c =? 13) then b32_values s'
      else match b32_val c, b32_values s' with
           | Some v, Some vs => Some (v :: vs)
           | _, _ => None
           end
  end.

Definition b32_bytes (vs : list Z) : list Z :=
  let v i := nth i vs 0 in
  [Z.lor (Z.shiftl (v 0%nat) 3) (Z.shiftr (v 1%nat) 2);
   Z.lor (Z.lor (Z.shiftl (v 1%nat) 6) (Z.shiftl (v 2%nat) 1)) (Z.shiftr (v 3%nat) 4);
   Z.lor (Z.shiftl (v 3%nat) 4) (Z.shiftr (v 4%nat) 1);
   Z.lor (Z.lor (Z.shiftl (v 4%nat) 7) (Z.shiftl (v 5%nat) 2)) (Z.shiftr (v 6%nat) 3);
   Z.lor (Z.shiftl (v 6%nat) 5) (v 7%nat)].

Fixpoint b32_groups (vs : list Z) : list Z :=
  match vs with
  | a :: b :: c :: d :: e :: f :: g :: h :: rest => (b32_bytes [a; b; c; d; e; f; g; h] ++ b32_groups rest)%list
  | [_; _; _; _; _; _; _] => firstn 4 (b32_bytes vs)
  | [_; _; _; _; _] => firstn 3 (b32_bytes vs)
  | [_; _; _; _] => firstn 2 (b32_bytes vs)
  | [_; _] => firstn 1 (b32_bytes vs)
  | _ => []
  end.

Definition string_of_bytes (l : list Z) : string :=
  fold_right (fun b s => String (byte_of (Z.land b 0xFF)) s) "" l.
Definition b32_decode (s : string) : option string :=
  option_map (fun vs => string_of_bytes (b32_groups vs)) (b32_values s).

(** 64-bit big endian. *)
Definition be64 (n : Z) : string :=
  string_of_bytes (map (fun i => Z.shiftr (n mod 2 ^ 64) (8 * i)) [7; 6; 5; 4; 3; 2; 1; 0]).

Definition byte_at (s : string) (i : Z) : Z :=
  match String.get (Z.to_nat i) s with Some c => byte_code c | None => 0 end.

(** Unix()/30: Go's division truncates. *)
Definition totp_step (t : Z) : Z := Unix t ÷ 30.

Section MFA.
Context `{UnicodeTables} `{Crypto}.

Definition TOTPCode (secret : string) (t : Z) : res string :=
  match b32_decode (ToUpper (TrimSpace secret)) with
  | None | Some "" => Err (Text "invalid MFA secret")
  | Some decoded =>
      let digest := hmac_sha1 decoded (be64 (totp_step t)) in
      let offset := Z.land (byte_at digest (len digest - 1)) 0x0f in
      let value :=
        Z.lor (Z.lor (Z.lor
          (Z.shiftl (Z.land (byte_at digest offset) 0x7f) 24)
          (Z.shiftl (byte_at digest (offset + 1)) 16))
          (Z.shiftl (byte_at digest (offset + 2)) 8))
          (byte_at digest (offset + 3)) in
      Ok (dec_pad 6 (value mod 1000000))
  end.

(** The loop over offsets -1, 0, 1: the first matching step. *)
Definition MatchTOTP (secret code : string) (t : Z) : option Z :=
  let code := TrimSpace code in
  if negb (len code =? 6) then None
  else find (fun step =>
         match TOTPCode secret (step * 30 * Second) with
         | Ok candidate => candidate =s code
         | Err _ => false
         end) (map (Z.add (totp_step t)) [-1; 0; 1]).
Definition VerifyTOTP (secret code : string) (t : Z) : bool :=
  match MatchTOTP secret code t with Some _ => true | None => false end.

Fixpoint remove_bytes (p : ascii -> bool) (s : string) : string :=
  match s with
  | "" => ""
  | String c s' => if p c then remove_bytes p s' else String c (remove_bytes p s')
  end.
Definition code_separator (c : ascii) : bool :=
  (byte_code c =? 45) || (byte_code c =? 32) || (byte_code c =? 9).
Definition NormalizeRecoveryCode (code : string) : string :=
  ToUpper (remove_bytes code_separator (TrimSpace code)).

Definition recovery_code (raw : string) : string :=
  let h := ToUpper (hex_encode raw) in
  substring 0 4 h ++ "-" ++ substring 4 4 h ++ "-" ++ substring 8 4 h ++ "-"
  ++ substring 12 (String.length h - 12) h.
(** [raws i] is the i-th random buffer of 8 bytes. *)
Definition GenerateRecoveryCodes (n : Z) (raws : nat -> string) : res (list string) :=
  if (n <? 1) || (10 <? n) then Err (Text "recovery code count must be between 1 and 10")
  else Ok (map (fun i => recovery_code (raws i)) (seq 0 (Z.to_nat n))).

Definition nonce_size : Z := 12.
Definition EncryptSecret (key plaintext nonce : string) : res string :=
  if negb (len key =? 32) then Err (Sentinel ErrMFAKeyUnavailable)
  else Ok (nonce ++ gcm_seal key nonce plaintext).
Definition DecryptSecret (key ciphertext : string) : res string :=
  if negb (len key =? 32) then Err (Sentinel ErrMFAKeyUnavailable)
  else if len ciphertext <? nonce_size then Err (Text "invalid encrypted MFA secret")
  else match gcm_open key (substring 0 12 ciphertext)
               (substring 12 (String.length ciphertext - 12) ciphertext) with
       | Some plaintext => Ok plaintext
       | None => Err (Text "invalid encrypted MFA secret")
       end.
End MFA.

(** ** Concrete primitives, for the examples and witnesses *)

(** Pads or cuts to [n] bytes. *)
Fixpoint fit (n : nat) (s : string) : string :=
  match n, s with
  | O, _ => ""
  | S n', "" => String "0" (fit n' "")
  | S n', String c s' => String c (fit n' s')
  end.
Lemma len_fit n s : len (fit n s) = Z.of_nat n.
Proof. unfold len. f_equal. revert s. induction n; intros []; simpl; auto. Qed.

Definition toy_crypto : Crypto := {|
  sha256 m := fit 32 m;
  hmac_sha256 k m := fit 32 (m ++ k);
  hmac_sha1 k m := fit 20 (rev_string m ++ k);
  gcm_seal k n p := "s" ++ p;
  gcm_open k n c := match c with String "s" p => Some p | _ => None end;
  bcrypt_generate p c s := Ok ("$" ++ p);
  bcrypt_compare h p := h =s ("$" ++ p) |}.
Lemma toy_crypto_laws : @CryptoLaws toy_crypto.
Proof. split; intros; try apply (len_fit 32); try apply (len_fit 20); done. Qed.

Definition ascii_tables : UnicodeTables :=
  {| unicode_lower := fun s => s; unicode_upper := fun s => s |}.

(** ** Lemmas *)
Section Lemmas.
Context `{UnicodeTables} `{Crypto}.

Lemma MatchTOTP_Some secret code t step :
  MatchTOTP secret code t = Some step ->
  totp_step t - 1 <= step <= totp_step t + 1
  /\ TOTPCode secret (step * 30 * Second) = Ok (TrimSpace code).
Proof.
  unfold MatchTOTP. destruct (negb _); [done|]. intros [Hin Hc]%find_some.
  simpl in Hin. split; [lia|]. destruct (TOTPCode secret _); [|done].
  by apply String.eqb_eq in Hc as ->.
Qed.

Lemma totp_step_idem step : totp_step (step * 30 * Second) = step.
Proof. unfold totp_step, Unix. rewrite Z.div_mul by done. by apply Z.quot_mul. Qed.
End Lemmas.

Lemma substring_all s : substring 0 (String.length s) s = s.
Proof. induction s as [|c s IH]; simpl; congruence. Qed.

Lemma substring_prefix a b : substring 0 (String.length a) (a ++ b) = a.
Proof. induction a as [|c a IH]; simpl; [by destruct b|by rewrite IH]. Qed.

Lemma substring_suffix a b : substring (String.length a) (String.length b) (a ++ b) = b.
Proof. induction a as [|c a IH]; simpl; [apply substring_all|apply IH]. Qed.

Lemma length_string_app a b : String.length (a ++ b) = (String.length a + String.length b)%nat.
Proof. induction a; simpl; auto. Qed.

(** ** Properties *)

(** An encrypted TOTP secret decrypts to itself with the same 32-byte key,
    whatever 12-byte nonce was drawn. *)
Theorem decrypt_encrypt `{CryptoLaws} key plaintext nonce :
  len key = 32 -> len nonce = nonce_size ->
  exists ct, EncryptSecret key plaintext nonce = Ok ct /\ DecryptSecret key ct = Ok plaintext.
Proof.
  intros Hk Hn. unfold EncryptSecret, DecryptSecret. rewrite Hk. cbn [Z.eqb Pos.eqb negb].
  eexists. split; [done|]. rewrite len_app, Hn. unfold nonce_size in *.
  assert (String.length nonce = 12%nat) as Hn' by (unfold len in Hn; lia).
  pose proof (substring_prefix nonce (gcm_seal key nonce plaintext)) as Hp.
  pose proof (substring_suffix nonce (gcm_seal key nonce plaintext)) as Hs.
  rewrite length_string_app, Hn', Nat.add_comm, Nat.add_sub. rewrite Hn' in Hp, Hs. rewrite Hp, Hs.
  destruct (Z.ltb_spec (12 + len (gcm_seal key nonce plaintext)) 12).
  - pose proof (len_nonneg (gcm_seal key nonce plaintext)). lia.
  - by rewrite gcm_open_seal.
Qed.

Lemma decrypt_encrypt_witness :
  exists ct, @EncryptSecret toy_crypto (fit 32 "k") "JBSWY3DP" (fit 12 "n") = Ok ct
    /\ @DecryptSecret toy_crypto (fit 32 "k") ct = Ok "JBSWY3DP".
Proof.
  apply (@decrypt_encrypt toy_crypto toy_crypto_laws (fit 32 "k") "JBSWY3DP" (fit 12 "n")); reflexivity.
Defined.

(** a TOTP code is accepted exactly when, trimmed, it is the six-digit code
    of the current 30-second step or of one of its two neighbours, and the step
    reported is one of these. *)
Theorem match_totp_window `{UnicodeTables} `{Crypto} secret code t :
  (exists step, MatchTOTP secret code t = Some step) <->
  len (TrimSpace code) = 6
  /\ (exists step, totp_step t - 1 <= step <= totp_step t + 1
       /\ TOTPCode secret (step * 30 * Second) = Ok (TrimSpace code)).
Proof.
  split.
  - intros [step Hm]. split; [|exists step; by apply MatchTOTP_Some].
    unfold MatchTOTP in Hm. destruct (Z.eqb_spec (len (TrimSpace code)) 6); done.
  - intros [Hl (step & Hs & Hc)]. unfold MatchTOTP. rewrite Hl. simpl negb. cbv iota.
    destruct (find _ _) as [step'|] eqn:E; [eauto|].
    assert (In step (map (Z.add (totp_step t)) [-1; 0; 1])) as Hin by (simpl; lia).
    apply (find_none _ _ E) in Hin. by rewrite Hc, String.eqb_refl in Hin.
Qed.
