(* ===== verification/Limiter.v ===== *)
(** internal/auth/limiter.go: the login rate limiter. The mutex makes every
    method one step on the map of entries; a [range] over the map visits the
    entries in an order the runtime chooses, which is the argument [shuffle] of
    the methods that depend on it. Durations are int64 nanoseconds. *)
From stdpp Require Import base tactics option list gmap strings.
From Stdlib Require Import ZArith Lia Ascii String.
From S2P Require Import Prelude GoStrings GoTime Auth.

Local Open Scope string_scope.
Local Open Scope Z_scope.

Record LoginLimiterConfig := mkLoginLimiterConfig {
  FailureThreshold : Z; BaseBackoff : Z; MaxBackoff : Z; EntryTTL : Z; MaxEntries : Z }.

Record loginEntry := mkLoginEntry { failures : Z; blockedUntil : Z; lastSeen : Z }.
(** The zero value a missing key reads as. *)
Definition zero_entry : loginEntry := mkLoginEntry 0 zero_time zero_time.

Record LoginLimiter := mkLoginLimiter { entries : gmap string loginEntry; config : LoginLimiterConfig }.

(** The configuration with its defaults filled in, in the order of the checks. *)
Definition limiter_defaults (c : LoginLimiterConfig) : LoginLimiterConfig :=
  let threshold := if FailureThreshold c <? 1 then 5 else FailureThreshold c in
  let base := if BaseBackoff c <=? 0 then 2 * Second else BaseBackoff c in
  let max := if MaxBackoff c <? base then Minute else MaxBackoff c in
  let ttl := if EntryTTL c <=? 0 then 15 * Minute else EntryTTL c in
  let size := if MaxEntries c <? 1 then 4096 else MaxEntries c in
  mkLoginLimiterConfig threshold base max ttl size.
Definition NewLoginLimiter (c : LoginLimiterConfig) : LoginLimiter :=
  mkLoginLimiter ∅ (limiter_defaults c).

(** [net.SplitHostPort]: the host, when the address has the form host:port or
    [host]:port. *)
Fixpoint last_index (c : ascii) (s : string) : option nat :=
  match s with
  | "" => None
  | String d s' =>
      match last_index c s' with
      | Some i => Some (S i)
      | None => if Ascii.eqb c d then Some O else None
      end
  end.
Definition split_host (s : string) : option string :=
  match last_index ":" s with
  | None => None
  | Some i =>
      if HasPrefix s "[" then
        match String.index 0 "]" s with
        | None => None
        | Some last =>
            if Nat.eqb (last + 1) i && negb (contains_byte "[" (drop_bytes 1 s))
               && negb (contains_byte "]" (drop_bytes (last + 1) s))
            then Some (String.substring 1 (last - 1) s) else None
        end
      else
        let host := String.substring 0 i s in
        if contains_byte ":" host || contains_byte "[" s || contains_byte "]" s then None
        else Some host
  end.

Section AbuseKey.
Context `{UnicodeTables} `{Crypto}.

Definition LoginAbuseKey (identity remoteAddr : string) : string :=
  let host := TrimSpace remoteAddr in
  let host := match split_host host with
              | Some parsed => if parsed =s "" then host else parsed
              | None => host
              end in
  let host := if host =s "" then "unknown" else host in
  hex_encode (sha256 (ToLower (TrimSpace identity) ++ String "000" host)).
End AbuseKey.

(** ** The methods *)
Definition pruneLocked (l : LoginLimiter) (now : Z) : LoginLimiter :=
  mkLoginLimiter
    (filter (fun kv => negb (EntryTTL (config l) <=? Sub now (lastSeen kv.2)) = true) (entries l))
    (config l).

(** One iteration of evictOldestLocked: the pair of the locals key and oldest. *)
Definition older (acc : string * Z) (kv : string * loginEntry) : string * Z :=
  if (acc.1 =s "") || Before (lastSeen kv.2) acc.2 then (kv.1, lastSeen kv.2) else acc.

Definition order := list (string * loginEntry) -> list (string * loginEntry).
Definition evictOldestLocked (shuffle : order) (l : LoginLimiter) : LoginLimiter :=
  let key := (fold_left older (shuffle (map_to_list (entries l))) ("", zero_time)).1 in
  if key =s "" then l else mkLoginLimiter (delete key (entries l)) (config l).

Definition RetryAfter (l : LoginLimiter) (key : string) (now : Z) : (Z * bool) * LoginLimiter :=
  let l := pruneLocked l now in
  match entries l !! key with
  | None => ((0, false), l)
  | Some entry =>
      if negb (Before now (blockedUntil entry)) then ((0, false), l)
      else ((Sub (blockedUntil entry) now, true),
            mkLoginLimiter (<[key := mkLoginEntry (failures entry) (blockedUntil entry) now]> (entries l))
              (config l))
  end.

(** The loop that doubles the delay; [n] is failures - FailureThreshold, the
    number of iterations its index allows. *)
Fixpoint backoff_loop (n : nat) (max delay : Z) : Z :=
  match n with
  | O => delay
  | S n =>
      if delay <? max then
        let delay := wrap64 (delay * 2) in
        backoff_loop n max (if max <? delay then max else delay)
      else delay
  end.

(** The entries before the new one is written: one place is free, or the key has one. *)
Definition make_room (shuffle : order) (l : LoginLimiter) (key : string) : LoginLimiter :=
  if negb (bool_decide (is_Some (entries l !! key))) && (MaxEntries (config l) <=? Z.of_nat (size (entries l)))
  then evictOldestLocked shuffle l else l.

Definition RecordFailure (shuffle : order) (l : LoginLimiter) (key : string) (now : Z)
    : (Z * bool) * LoginLimiter :=
  let l := pruneLocked l now in
  let c := config l in
  let found := entries l !! key in
  let l := make_room shuffle l key in
  let entry := default zero_entry found in
  let n := wrap64 (failures entry + 1) in
  if FailureThreshold c <=? n then
    let delay := backoff_loop (Z.to_nat (n - FailureThreshold c)) (MaxBackoff c) (BaseBackoff c) in
    ((delay, true), mkLoginLimiter (<[key := mkLoginEntry n (now + delay) now]> (entries l)) c)
  else
    ((0, false), mkLoginLimiter (<[key := mkLoginEntry n (blockedUntil entry) now]> (entries l)) c).

Definition RecordSuccess (l : LoginLimiter) (key : string) : LoginLimiter :=
  mkLoginLimiter (delete key (entries l)) (config l).

(** A sequence of calls, as the login handler makes them. *)
Inductive limiter_call :=
| CallRetryAfter (key : string) (now : Z)
| CallRecordFailure (shuffle : order) (key : string) (now : Z)
| CallRecordSuccess (key : string).
Definition limiter_step (l : LoginLimiter) (c : limiter_call) : LoginLimiter :=
  match c with
  | CallRetryAfter key now => (RetryAfter l key now).2
  | CallRecordFailure shuffle key now => (RecordFailure shuffle l key now).2
  | CallRecordSuccess key => RecordSuccess l key
  end.
Definition limiter_run (c : LoginLimiterConfig) (calls : list limiter_call) : LoginLimiter :=
  fold_left limiter_step calls (NewLoginLimiter c).

(** ** The table *)

(** The runtime may visit the entries in any order; the login handler's keys are
    digests, never empty. *)
Definition call_ok (c : limiter_call) : Prop :=
  match c with
  | CallRecordFailure shuffle key _ => key <> "" /\ forall l, shuffle l ≡ₚ l
  | _ => True
  end.

Definition entry_ok (c : LoginLimiterConfig) (n : nat) (e : loginEntry) : Prop :=
  0 <= failures e <= Z.of_nat n /\ (failures e < FailureThreshold c -> blockedUntil e = zero_time).

(** What holds after [n] calls. *)
Record limiter_inv (c : LoginLimiterConfig) (n : nat) (l : LoginLimiter) : Prop := {
  inv_config : config l = limiter_defaults c;
  inv_keys : map_Forall (fun k _ => k <> "") (entries l);
  inv_size : Z.of_nat (size (entries l)) <= MaxEntries (limiter_defaults c);
  inv_entries : map_Forall (fun _ e => entry_ok (limiter_defaults c) n e) (entries l) }.

Lemma hex_encode_empty s : hex_encode s = "" -> s = "".
Proof. by destruct s. Qed.

Lemma defaults_ok c (d := limiter_defaults c) :
  1 <= FailureThreshold d /\ 0 < BaseBackoff d /\ 0 < EntryTTL d /\ 1 <= MaxEntries d.
Proof.
  unfold d, limiter_defaults, Minute, Second; cbn.
  repeat case_match; lia.
Qed.

Lemma Forall_sub {P : string -> loginEntry -> Prop} (m m' : gmap string loginEntry) :
  m ⊆ m' -> map_Forall P m' -> map_Forall P m.
Proof. intros Hs HP k e Hk. apply HP. by eapply lookup_weaken. Qed.

Lemma inv_sub c n l l' :
  entries l' ⊆ entries l -> config l' = config l -> limiter_inv c n l -> limiter_inv c n l'.
Proof.
  intros Hs Hc []. split; [congruence|by eapply Forall_sub| |by eapply Forall_sub].
  apply map_subseteq_size in Hs. lia.
Qed.

Lemma pruned_sub l now : entries (pruneLocked l now) ⊆ entries l.
Proof. apply map_filter_subseteq. Qed.

Lemma inv_more c n l : limiter_inv c n l -> limiter_inv c (S n) l.
Proof.
  intros [? ? ? He]. split; try done. intros k e Hk. destruct (He k e Hk) as [? ?].
  split; [lia|done].
Qed.

(** ** Eviction *)
Lemma older_key kvs acc :
  acc.1 <> "" -> Forall (fun kv : string * loginEntry => kv.1 <> "") kvs ->
  let r := (fold_left older kvs acc).1 in r = acc.1 \/ r ∈ kvs.*1.
Proof.
  revert acc. induction kvs as [|kv kvs IH]; intros acc Ha Hk; [by left|].
  inversion_clear Hk as [|? ? Hkv Hkvs]. cbn [fold_left].
  destruct (IH (older acc kv)) as [Hr|Hr]; [|done| |].
  - unfold older. by case_match.
  - rewrite Hr. unfold older. case_match; [right; cbn; left|by left].
  - right. cbn. by right.
Qed.

Lemma oldest_in shuffle (m : gmap string loginEntry) :
  (forall l, shuffle l ≡ₚ l) -> map_Forall (fun k _ => k <> "") m -> m <> ∅ ->
  let key := (fold_left older (shuffle (map_to_list m)) ("", zero_time)).1 in
  key <> "" /\ is_Some (m !! key).
Proof.
  intros Hs Hk Hm. set (kvs := shuffle (map_to_list m)).
  assert (forall kv, kv ∈ kvs -> m !! kv.1 = Some kv.2) as Hin.
  { intros [k e] H. unfold kvs in H. rewrite Hs in H. by apply elem_of_map_to_list in H. }
  destruct kvs as [|kv kvs'] eqn:E.
  { destruct Hm. apply map_to_list_empty_iff, Permutation_nil_r. rewrite <-(Hs _). unfold kvs in E. by rewrite E. }
  assert (Forall (fun kv => kv.1 <> "") (kv :: kvs')) as HF.
  { apply Forall_forall. intros x Hx. by eapply Hk, Hin. }
  inversion_clear HF as [|? ? Hkv Hkvs]. cbn [fold_left]. unfold older at 2 4. cbn [fst snd].
  change ("" =s "") with true. cbn [orb].
  destruct (older_key kvs' (kv.1, lastSeen kv.2) Hkv Hkvs) as [->|Hr].
  - split; [done|]. eexists. apply (Hin kv). left.
  - apply list_elem_of_fmap in Hr as (x & -> & Hx).
    split; [rewrite Forall_forall in Hkvs; by apply Hkvs|]. eexists. apply (Hin x). by right.
Qed.

Lemma evict_sub shuffle l : entries (evictOldestLocked shuffle l) ⊆ entries l.
Proof. unfold evictOldestLocked. case_match; [done|]. apply delete_subseteq. Qed.
Lemma evict_config shuffle l : config (evictOldestLocked shuffle l) = config l.
Proof. unfold evictOldestLocked. by case_match. Qed.
Lemma evict_size shuffle l :
  (forall l, shuffle l ≡ₚ l) -> map_Forall (fun k _ => k <> "") (entries l) ->
  (0 < size (entries l))%nat ->
  (size (entries (evictOldestLocked shuffle l)) < size (entries l))%nat.
Proof.
  intros Hs Hk Hn. destruct (oldest_in shuffle (entries l) Hs Hk) as [Hkey [e He]].
  { intros E. rewrite E, map_size_empty in Hn. lia. }
  unfold evictOldestLocked. apply String.eqb_neq in Hkey. rewrite Hkey. cbn.
  rewrite map_size_delete_Some by (eexists; exact He). cbv zeta. lia.
Qed.

(** ** One step keeps the table in its bounds *)
Lemma inv_insert c n l key e :
  limiter_inv c n l -> key <> "" -> entry_ok (limiter_defaults c) n e ->
  (is_Some (entries l !! key) \/ Z.of_nat (size (entries l)) < MaxEntries (limiter_defaults c)) ->
  limiter_inv c n (mkLoginLimiter (<[key := e]> (entries l)) (limiter_defaults c)).
Proof.
  intros [Hc Hk Hs He] Hkey Hok Hroom. split; cbn [entries config]; [done|by apply map_Forall_insert_2| |by apply map_Forall_insert_2].
  destruct (entries l !! key) eqn:E.
  - rewrite map_size_insert_Some by eauto. done.
  - rewrite map_size_insert_None by done. destruct Hroom as [[? [=]]|]. lia.
Qed.

Lemma inv_pruned c n l now : limiter_inv c n l -> limiter_inv c n (pruneLocked l now).
Proof. apply inv_sub; [apply pruned_sub|done]. Qed.

Lemma inv_retry c n l key now : limiter_inv c n l -> limiter_inv c n (RetryAfter l key now).2.
Proof.
  intros H%(inv_pruned _ _ _ now). unfold RetryAfter. destruct (entries _ !! key) eqn:E; [|done].
  case_match; [done|]. rewrite (inv_config _ _ _ H). apply inv_insert; [done| | |eauto].
  - by apply (inv_keys _ _ _ H key l0).
  - apply (inv_entries _ _ _ H key l0 E).
Qed.

Lemma inv_room c n l shuffle key (l' := make_room shuffle l key) :
  limiter_inv c n l -> (forall l, shuffle l ≡ₚ l) ->
  limiter_inv c n l' /\
  (is_Some (entries l' !! key) \/ Z.of_nat (size (entries l')) < MaxEntries (limiter_defaults c)).
Proof.
  intros H Hs. unfold l', make_room. rewrite (inv_config _ _ _ H).
  pose proof (inv_size _ _ _ H). pose proof (defaults_ok c) as (_ & _ & _ & ?).
  case_bool_decide as Hf; cbn [negb andb]; [split; [done|by left]|].
  destruct (Z.leb_spec (MaxEntries (limiter_defaults c)) (Z.of_nat (size (entries l)))).
  - split; [by apply (inv_sub c n l); [apply evict_sub|apply evict_config|]|right].
    pose proof (evict_size shuffle l Hs (inv_keys _ _ _ H)). lia.
  - split; [done|by right].
Qed.

Lemma failures_bound c n l now key :
  limiter_inv c n l -> 0 <= failures (default zero_entry (entries (pruneLocked l now) !! key)) <= Z.of_nat n.
Proof.
  intros H%(inv_pruned _ _ _ now). destruct (_ !! key) as [e|] eqn:E; cbn; [|lia].
  apply (inv_entries _ _ _ H key e E).
Qed.

Lemma inv_failure c n l shuffle key now :
  limiter_inv c n l -> key <> "" -> (forall l, shuffle l ≡ₚ l) -> Z.of_nat n < int64_max ->
  limiter_inv c (S n) (RecordFailure shuffle l key now).2.
Proof.
  intros H Hkey Hs Hn. pose proof (failures_bound c n l now key H) as Hf.
  apply (inv_pruned _ _ _ now) in H. unfold RecordFailure.
  destruct (inv_room c n _ shuffle key H Hs) as [H' Hroom].
  rewrite (inv_config _ _ _ H), wrap64_small by (unfold int64_min in *; lia).
  apply inv_more in H'.
  destruct (Z.leb_spec (FailureThreshold (limiter_defaults c))
    (failures (default zero_entry (entries (pruneLocked l now) !! key)) + 1)); cbn [snd];
    apply inv_insert; try done; (split; cbn [failures blockedUntil]; [lia|]; [intros; try lia]).
  destruct (entries (pruneLocked l now) !! key) as [e|] eqn:E; cbn [default failures blockedUntil] in *; [|done].
  apply (inv_entries _ _ _ H key e E). cbn in *. lia.
Qed.

Lemma inv_step c n l k :
  limiter_inv c n l -> call_ok k -> Z.of_nat n < int64_max -> limiter_inv c (S n) (limiter_step l k).
Proof.
  destruct k as [key now|shuffle key now|key]; intros H Hok Hn; cbn.
  - by apply inv_more, inv_retry.
  - destruct Hok. by apply inv_failure.
  - by apply (inv_sub c _ l); [apply delete_subseteq| |apply inv_more].
Qed.

Lemma inv_run c calls :
  Forall call_ok calls -> Z.of_nat (List.length calls) <= int64_max ->
  limiter_inv c (List.length calls) (limiter_run c calls).
Proof.
  induction calls as [|k calls IH] using rev_ind; intros HF Hn.
  - destruct (defaults_ok c) as (_ & _ & _ & Hm). split; [done|apply map_Forall_empty| |apply map_Forall_empty].
    change (entries _) with (∅ : gmap string loginEntry). rewrite map_size_empty. lia.
  - apply Forall_app in HF as [HF Hk]. inversion_clear Hk.
    rewrite length_app in *; cbn [List.length] in *. unfold limiter_run. rewrite fold_left_app. cbn [fold_left].
    rewrite Nat.add_1_r. apply inv_step; [apply IH; [done|lia]|done|lia].
Qed.

(** ** Delays *)
Definition config_in_range (c : LoginLimiterConfig) : Prop :=
  BaseBackoff c <= int64_max /\ MaxBackoff c <= 2 ^ 62 /\ EntryTTL c <= int64_max.

Lemma defaults_in_range c : config_in_range c -> config_in_range (limiter_defaults c).
Proof.
  unfold config_in_range, limiter_defaults, Minute, Second, int64_max; cbn.
  intros (? & ? & ?). repeat case_match; lia.
Qed.

Lemma backoff_loop_eq n max delay :
  max <= 2 ^ 62 -> 0 < delay ->
  backoff_loop n max delay = Z.max delay (Z.min max (delay * 2 ^ Z.of_nat n)).
Proof.
  intros Hmax. revert delay. induction n as [|n IH]; intros delay Hd; cbn [backoff_loop].
  - change (2 ^ Z.of_nat 0) with 1. lia.
  - rewrite Nat2Z.inj_succ, Z.pow_succ_r by lia.
    pose proof (Z.pow_pos_nonneg 2 (Z.of_nat n)) as Hp.
    destruct (Z.ltb_spec delay max); [|nia].
    rewrite wrap64_small by (unfold int64_min, int64_max; lia).
    destruct (Z.ltb_spec max (delay * 2)); rewrite IH by lia; nia.
Qed.

(** The delay the program means after [n] failures. *)
Definition login_delay (d : LoginLimiterConfig) (n : Z) : Z :=
  Z.max (BaseBackoff d) (Z.min (MaxBackoff d) (BaseBackoff d * 2 ^ (n - FailureThreshold d))).

Lemma RecordFailure_eq c n l shuffle key now
    (d := limiter_defaults c)
    (e := default zero_entry (entries (pruneLocked l now) !! key)) (k := failures e + 1) :
  limiter_inv c n l -> config_in_range c -> Z.of_nat n < int64_max ->
  RecordFailure shuffle l key now =
  let l' := make_room shuffle (pruneLocked l now) key in
  let blocked := FailureThreshold d <=? k in
  ((if blocked then login_delay d k else 0, blocked),
   mkLoginLimiter (<[key := mkLoginEntry k (if blocked then now + login_delay d k else zero_time) now]> (entries l')) d).
Proof.
  intros H Hr%defaults_in_range Hn. destruct Hr as (_ & Hmax & _).
  destruct (defaults_ok c) as (_ & Hb & _). pose proof (failures_bound c n l now key H) as Hf. fold e in Hf.
  assert (k <= FailureThreshold d - 1 -> blockedUntil e = zero_time) as Hz.
  { intros Hk. apply (inv_pruned _ _ _ now) in H. unfold k, e in Hk |- *.
    destruct (entries (pruneLocked l now) !! key) as [e'|] eqn:E; cbn [default] in *; [|done].
    apply (inv_entries _ _ _ H key e' E). cbn [id] in *. unfold d in Hk. lia. }
  unfold RecordFailure. change (config (pruneLocked l now)) with (config l). rewrite (inv_config _ _ _ H).
  fold e d. rewrite wrap64_small by (unfold int64_min in *; lia). fold k.
  destruct (Z.leb_spec (FailureThreshold d) k); [|by rewrite Hz by lia].
  rewrite backoff_loop_eq by done. unfold login_delay. by rewrite Z2Nat.id by lia.
Qed.

Lemma Sub_ge a b d : d <= int64_max -> int64_min < d -> (d <=? Sub a b) = (d <=? a - b).
Proof.
  unfold Sub, int64_min, int64_max. intros.
  destruct (Z.leb_spec d (a - b)); [apply Z.leb_le|apply Z.leb_gt]; lia.
Qed.

(** What RetryAfter answers, as a decision on the entry. *)
Lemma RetryAfter_eq l key now :
  0 < EntryTTL (config l) <= int64_max ->
  (RetryAfter l key now).1 =
  match entries l !! key with
  | Some e => if (now - lastSeen e <? EntryTTL (config l)) && (now <? blockedUntil e)
              then (Sub (blockedUntil e) now, true) else (0, false)
  | None => (0, false)
  end.
Proof.
  intros Httl. unfold RetryAfter, pruneLocked. cbn [entries].
  destruct (entries l !! key) as [e|] eqn:E.
  - destruct (Z.ltb_spec (now - lastSeen e) (EntryTTL (config l))).
    + rewrite (map_lookup_filter_Some_2 _ _ _ e); [|done|].
      * unfold Before. by destruct (now <? blockedUntil e).
      * cbn. rewrite Sub_ge by (unfold int64_min; lia). by destruct (Z.leb_spec (EntryTTL (config l)) (now - lastSeen e)); [lia|].
    + rewrite map_lookup_filter_None_2; [done|]. right. intros e' He'. rewrite E in He'. injection He' as <-.
      cbn. rewrite Sub_ge by (unfold int64_min; lia). by destruct (Z.leb_spec (EntryTTL (config l)) (now - lastSeen e)); [|lia].
  - by rewrite map_lookup_filter_None_2 by auto.
Qed.

Lemma config_retry l key now : config (RetryAfter l key now).2 = config l.
Proof. unfold RetryAfter. repeat case_match; done. Qed.
Lemma config_failure shuffle l key now : config (RecordFailure shuffle l key now).2 = config l.
Proof. unfold RecordFailure. by case_match. Qed.
Lemma retry_other l k now key :
  k <> key -> entries (RetryAfter l k now).2 !! key = entries (pruneLocked l now) !! key.
Proof.
  intros Hk. unfold RetryAfter. repeat case_match; try done. cbn [snd entries].
  by rewrite lookup_insert_ne.
Qed.
Lemma failure_other shuffle l k now key :
  k <> key -> Z.of_nat (size (entries (pruneLocked l now))) < MaxEntries (config l) ->
  entries (RecordFailure shuffle l k now).2 !! key = entries (pruneLocked l now) !! key.
Proof.
  intros Hk Hroom. unfold RecordFailure. case_match; cbn [snd entries]; rewrite lookup_insert_ne by done;
    unfold make_room; change (config (pruneLocked l now)) with (config l);
    destruct (Z.leb_spec (MaxEntries (config l)) (Z.of_nat (size (entries (pruneLocked l now)))));
    rewrite ?andb_false_r; done || lia.
Qed.

(** Pruning at an earlier time only removes an entry that has expired anyway. *)
Lemma pruned_lookup l now later key :
  now <= later -> 0 < EntryTTL (config l) <= int64_max ->
  entries (pruneLocked l now) !! key = entries l !! key \/
  entries (pruneLocked l now) !! key = None /\
    exists e, entries l !! key = Some e /\ EntryTTL (config l) <= later - lastSeen e.
Proof.
  intros Hl Httl. unfold pruneLocked. cbn [entries]. destruct (entries l !! key) as [e|] eqn:E.
  - destruct (EntryTTL (config l) <=? Sub now (lastSeen e)) eqn:Ee.
    + right. split; [|exists e; split; [done|]].
      * apply map_lookup_filter_None_2. right. intros e' He'. rewrite E in He'. injection He' as <-. cbn. by rewrite Ee.
      * rewrite Sub_ge in Ee by (unfold int64_min; lia). lia.
    + left. apply map_lookup_filter_Some_2; [done|]. cbn. by rewrite Ee.
  - left. apply map_lookup_filter_None_2. by left.
Qed.

Lemma retry_same d l l' key later :
  0 < EntryTTL d <= int64_max -> config l' = d -> config l = d ->
  (entries l' !! key = entries l !! key \/
   entries l' !! key = None /\ exists e, entries l !! key = Some e /\ EntryTTL d <= later - lastSeen e) ->
  (RetryAfter l' key later).1 = (RetryAfter l key later).1.
Proof.
  intros Httl Hc' Hc He. rewrite !RetryAfter_eq by (rewrite ?Hc, ?Hc'; lia). rewrite Hc, Hc'.
  destruct He as [->|(-> & e & -> & He)]; [done|].
  by destruct (Z.ltb_spec (later - lastSeen e) (EntryTTL d)); [lia|].
Qed.

(** ** Claims *)
Definition call_key (k : limiter_call) : string :=
  match k with CallRetryAfter key _ | CallRecordFailure _ key _ | CallRecordSuccess key => key end.
Definition call_by (k : limiter_call) (later : Z) : Prop :=
  match k with CallRetryAfter _ now | CallRecordFailure _ _ now => now <= later | CallRecordSuccess _ => True end.

(** C28: after any sequence of calls, recording a failure for a key that had
    [n - 1] live failures blocks it exactly when [n] reaches the threshold, for
    the base back-off doubled once per failure beyond the threshold and capped
    at the maximum; asking later answers "blocked" with exactly the time that is
    left, until the delay has passed (or the entry has outlived its TTL), and
    "not blocked" from then on. Neither the doubling nor the failure counter
    overflows. *)
Theorem limiter_backoff_exact c calls shuffle key now later
    (l := limiter_run c calls) (d := limiter_defaults c)
    (n := failures (default zero_entry (entries (pruneLocked l now) !! key)) + 1) :
  Forall call_ok calls -> Z.of_nat (List.length calls) < int64_max -> config_in_range c ->
  zero_time <= later -> now <= later ->
  let r := RecordFailure shuffle l key now in
  r.1 = (if FailureThreshold d <=? n then login_delay d n else 0, FailureThreshold d <=? n) /\
  (RetryAfter r.2 key later).1 =
    if (FailureThreshold d <=? n) && (later - now <? Z.min (login_delay d n) (EntryTTL d))
    then (login_delay d n - (later - now), true) else (0, false).
Proof.
  intros Hok Hn Hr Hz Hl. pose proof (inv_run c calls Hok ltac:(lia)) as H. fold l in H.
  cbv zeta. rewrite (RecordFailure_eq c _ l shuffle key now H Hr Hn). cbv zeta. fold d n. cbn [fst snd].
  split; [done|]. apply defaults_in_range in Hr as (Hb & Hmax & Httl).
  destruct (defaults_ok c) as (_ & Hb0 & Httl0 & _). fold d in Hb, Hmax, Httl, Hb0, Httl0.
  rewrite RetryAfter_eq by (cbn [config]; lia). cbn [entries config]. rewrite lookup_insert_eq. cbn [lastSeen blockedUntil].
  assert (login_delay d n <= int64_max) by (unfold login_delay, int64_max in *; lia).
  destruct (FailureThreshold d <=? n); cbn [andb].
  - destruct (Z.ltb_spec (later - now) (EntryTTL d)), (Z.ltb_spec later (now + login_delay d n)),
      (Z.ltb_spec (later - now) (Z.min (login_delay d n) (EntryTTL d))); cbn [andb]; try lia; try done.
    f_equal. unfold Sub, int64_min in *. lia.
  - destruct (Z.ltb_spec later zero_time); [lia|]. by rewrite andb_false_r.
Qed.

(** The table never holds more than MaxEntries entries, whatever the calls
    and whatever order the runtime iterates the map in: when it is full a new
    key evicts one. *)
Theorem limiter_bounded c calls :
  Forall call_ok calls -> Z.of_nat (List.length calls) <= int64_max ->
  Z.of_nat (size (entries (limiter_run c calls))) <= MaxEntries (limiter_defaults c).
Proof. intros Hok Hn. apply (inv_run c calls Hok Hn). Qed.

(** keys are independent: while the table has room, no call for another
    identity and address changes what RetryAfter answers for this one, at that
    time or later. *)
Theorem limiter_isolated c calls k key later (l := limiter_run c calls) :
  Forall call_ok calls -> Z.of_nat (List.length calls) <= int64_max -> config_in_range c ->
  call_key k <> key -> call_by k later ->
  Z.of_nat (size (entries l)) < MaxEntries (limiter_defaults c) ->
  (RetryAfter (limiter_step l k) key later).1 = (RetryAfter l key later).1.
Proof.
  intros Hok Hn Hr Hkey Hby Hroom. pose proof (inv_run c calls Hok Hn) as H. fold l in H.
  pose proof (inv_config _ _ _ H) as Hc.
  apply defaults_in_range in Hr as (_ & _ & Httl). destruct (defaults_ok c) as (_ & _ & Httl0 & _).
  apply (retry_same (limiter_defaults c)); [lia| |done|].
  - destruct k as [k now|shuffle k now|k]; cbn.
    + by rewrite config_retry.
    + by rewrite config_failure.
    + done.
  - destruct k as [k now|shuffle k now|k]; cbn [limiter_step call_key call_by] in *.
    + rewrite retry_other by done. rewrite <-Hc in *; apply pruned_lookup; [done|lia].
    + rewrite failure_other; [rewrite <-Hc in *; apply pruned_lookup; [done|lia]|done|].
      rewrite Hc. pose proof (map_subseteq_size _ _ (pruned_sub l now)). lia.
    + cbn. rewrite lookup_delete_ne by done. by left.
Qed.

(** ** Witnesses: six failures two seconds apart for one address, with the
    default configuration. *)
Definition sample_limiter_config : LoginLimiterConfig := mkLoginLimiterConfig 0 0 0 0 0.
Definition sample_limiter_calls : list limiter_call :=
  map (fun i => CallRecordFailure id "k" (i * 2 * Second)) [0; 1; 2; 3; 4; 5].

Lemma sample_limiter_calls_ok : Forall call_ok sample_limiter_calls.
Proof. repeat constructor; done. Qed.

Theorem limiter_backoff_exact_witness :
  (RecordFailure id (limiter_run sample_limiter_config sample_limiter_calls) "k" (12 * Second)).1
    = (8 * Second, true) /\
  (RetryAfter (RecordFailure id (limiter_run sample_limiter_config sample_limiter_calls) "k" (12 * Second)).2
     "k" (15 * Second)).1 = (5 * Second, true).
Proof.
  destruct (limiter_backoff_exact sample_limiter_config sample_limiter_calls id "k" (12 * Second) (15 * Second))
    as [H1 H2].
  - apply sample_limiter_calls_ok.
  - unfold int64_max; cbn; lia.
  - unfold config_in_range, int64_max; cbn; lia.
  - unfold zero_time, Second; lia.
  - unfold Second; lia.
  - rewrite H1, H2. split; vm_compute; reflexivity.
Defined.

Theorem limiter_bounded_witness :
  Z.of_nat (size (entries (limiter_run sample_limiter_config sample_limiter_calls))) <= 4096.
Proof.
  apply (limiter_bounded sample_limiter_config sample_limiter_calls).
  - apply sample_limiter_calls_ok.
  - unfold int64_max; cbn; lia.
Defined.

Theorem limiter_isolated_witness :
  (RetryAfter (limiter_step (limiter_run sample_limiter_config sample_limiter_calls)
      (CallRecordFailure id "other" (11 * Second))) "k" (12 * Second)).1
  = (RetryAfter (limiter_run sample_limiter_config sample_limiter_calls) "k" (12 * Second)).1.
Proof.
  apply (limiter_isolated sample_limiter_config sample_limiter_calls).
  - apply sample_limiter_calls_ok.
  - unfold int64_max; cbn; lia.
  - unfold config_in_range, int64_max; cbn; lia.
  - discriminate.
  - cbn; unfold Second; lia.
  - vm_compute; reflexivity.
Defined.
