(* ===== verification/ReadAuthority.v ===== *)
(** internal/platform/readauthority/contract.go: the wire contract between the
    Platform and the products that project its records. The string types of the
    source (EntityKind, State, ErrorCode, ...) are strings. *)
From stdpp Require Import base tactics list strings.
From Stdlib Require Import ZArith Lia Ascii String.
From S2P Require Import Prelude GoStrings GoTime Codec Errors Domain Json JsonLaws Auth.

Local Open Scope string_scope.
Local Open Scope Z_scope.

(** ** Constants *)
Definition VersionV1 := "platform.read-authority.v1".
Definition VersionV2 := "platform.read-authority.v2".
Definition ConsumerCTRL := "tockrctrl".
Definition ConsumerIMS := "tockrims".
Definition ProductCTRL := "product.tockrctrl".
Definition ProductIMS := "product.tockrims".
Definition NonceMaxLength : Z := 128.
Definition SnapshotMaxRecords : Z := 10000.
Definition SnapshotMaxPageSize : Z := 500.
Definition SnapshotMaxTTLSeconds : Z := 24 * 60 * 60.
Definition SourceSchemaVersion : Z := 1.

Definition EntityUser := "user".
Definition EntityOrganisation := "organisation".
Definition EntityOrganisationMembership := "organisation_membership".
Definition EntityWorkspace := "workspace".
Definition EntityWorkspaceMembership := "workspace_membership".
Definition EntityProduct := "product".
Definition EntityOrganisationEntitlement := "organisation_product_entitlement".
Definition EntityUserProductAssignment := "user_product_assignment".
Definition allowedEntityKinds : list string :=
  [EntityUser; EntityOrganisation; EntityOrganisationMembership; EntityWorkspace;
   EntityWorkspaceMembership; EntityProduct; EntityOrganisationEntitlement; EntityUserProductAssignment].

Definition ProvenanceEvent := "event".
Definition ProvenanceMigrationSeed := "migration_seed".

Definition StateCurrent := "current".
Definition StateStale := "stale".
Definition StateGap := "gap".
Definition StateBlocked := "blocked".
Definition StateUnavailable := "unavailable".
Definition StateResyncRequired := "resync_required".

Definition StatusActive := "active".
Definition StatusArchived := "archived".
Definition StatusRevoked := "revoked".
Definition StatusRetired := "retired".

(** ** Consumers, versions, states and kinds *)
Definition ProductForConsumer (consumer : string) : option string :=
  let c := TrimSpace consumer in
  if c =s ConsumerCTRL then Some ProductCTRL else if c =s ConsumerIMS then Some ProductIMS else None.
Definition ValidateVersion (value : string) : res unit :=
  if one_of (TrimSpace value) [VersionV1; VersionV2] then Ok tt else Err (Sentinel RA_ErrUnsupportedVersion).
Definition ValidateConsumer (value : string) : res unit :=
  match ProductForConsumer value with Some _ => Ok tt | None => Err (Sentinel RA_ErrInvalidConsumer) end.
Definition IsAuthoritative (state : string) : bool := state =s StateCurrent.
Definition ValidateState (state : string) : res unit :=
  if one_of state [StateCurrent; StateStale; StateGap; StateBlocked; StateUnavailable; StateResyncRequired]
  then Ok tt else Err (Sentinel RA_ErrInvalidState).
Definition ValidateEntityKind (kind : string) : res unit :=
  if one_of kind allowedEntityKinds then Ok tt else Err (Wrap "kind" (Sentinel RA_ErrInvalidRequest)).

Record SnapshotRequest := mkSnapshotRequest { SR_EntityKinds : list string; SR_ExpiresInSeconds : Z }.

(** The loop over the kinds: known and not seen before. *)
Fixpoint kinds_valid (seen kinds : list string) : res unit :=
  match kinds with
  | [] => Ok tt
  | kind :: kinds =>
      let? _ := ValidateEntityKind kind in
      if one_of kind seen then Err (Wrap "duplicate entity kind" (Sentinel RA_ErrInvalidRequest))
      else kinds_valid (kind :: seen) kinds
  end.
Definition ValidateSnapshotRequest (request : SnapshotRequest) : res unit :=
  let kinds := SR_EntityKinds request in
  if (Nat.eqb (List.length kinds) 0) || (Nat.ltb (List.length allowedEntityKinds) (List.length kinds))
  then Err (Wrap "entity_kinds" (Sentinel RA_ErrInvalidRequest))
  else
    let? _ := kinds_valid [] kinds in
    if (SR_ExpiresInSeconds request <=? 0) || (SnapshotMaxTTLSeconds <? SR_ExpiresInSeconds request)
    then Err (Wrap "snapshot expiry" (Sentinel RA_ErrInvalidRequest)) else Ok tt.

(** ** Records *)
Record RARecord := mkRecord {
  Rec_EntityKind : string; Rec_ID : string; Rec_Status : string; Rec_UserID : string;
  Rec_OrganisationID : string; Rec_WorkspaceID : string; Rec_ProductKey : string; Rec_Role : string;
  Rec_Name : string; Rec_ProvenanceKind : string; Rec_SourceEventID : string; Rec_SourceSequence : Z;
  Rec_SourceSchemaVersion : Z; Rec_MigrationVersion : Z; Rec_MigrationName : string;
  Rec_MigrationChecksum : string }.

Definition record_error {A} (msg : string) : res A := Err (Wrap msg (Sentinel RA_ErrInvalidRecord)).

Definition hasMigrationProvenance (r : RARecord) : bool :=
  negb (Rec_MigrationVersion r =? 0) || negb (Rec_MigrationName r =s "")
  || negb (Rec_MigrationChecksum r =s "").
Definition isSHA256 (value : string) : bool := (len value =? 64) && hex_decodable value.
Definition validateEventProvenance (r : RARecord) : res unit :=
  if (Rec_SourceEventID r =s "") || negb (HasPrefix (Rec_SourceEventID r) "evt_")
     || (Rec_SourceSequence r <=? 0) || negb (Rec_SourceSchemaVersion r =? SourceSchemaVersion)
  then record_error "source event provenance" else Ok tt.

Definition validateProvenance (version : string) (r : RARecord) : res unit :=
  if version =s VersionV1 then
    if negb (Rec_ProvenanceKind r =s "") && negb (Rec_ProvenanceKind r =s ProvenanceEvent)
    then record_error "v1 only permits event provenance"
    else
      let? _ := validateEventProvenance r in
      if hasMigrationProvenance r then record_error "v1 cannot carry migration provenance" else Ok tt
  else if Rec_ProvenanceKind r =s ProvenanceEvent then
    if hasMigrationProvenance r then record_error "event provenance cannot carry migration identity"
    else validateEventProvenance r
  else if Rec_ProvenanceKind r =s ProvenanceMigrationSeed then
    if negb (Rec_SourceEventID r =s "") || negb (Rec_SourceSequence r =? 0)
       || negb (Rec_SourceSchemaVersion r =? 0)
    then record_error "migration seed cannot carry event identity"
    else if (Rec_MigrationVersion r <=? 0) || (TrimSpace (Rec_MigrationName r) =s "")
            || (200 <? len (Rec_MigrationName r)) || negb (isSHA256 (Rec_MigrationChecksum r))
    then record_error "migration provenance" else Ok tt
  else record_error "provenance kind".

(** [Record.hasAny]: a field named in the list is set. *)
Definition record_field (r : RARecord) (field : string) : string :=
  if field =s "user_id" then Rec_UserID r
  else if field =s "organisation_id" then Rec_OrganisationID r
  else if field =s "workspace_id" then Rec_WorkspaceID r
  else if field =s "product_key" then Rec_ProductKey r
  else if field =s "role" then Rec_Role r
  else if field =s "name" then Rec_Name r else "".
Definition hasAny (r : RARecord) (fields : list string) : bool :=
  existsb (fun f => negb (record_field r f =s "")) fields.

Definition validRole (v : string) : bool := one_of v ["owner"; "admin"; "member"; "viewer"].
Definition validProductKey (v : string) : bool := (v =s ProductCTRL) || (v =s ProductIMS).
Definition validName (v : string) : bool := negb (v =s "") && (len v <=? 200).

(** The [switch record.EntityKind]: whether the fields are those of the kind. *)
Definition fields_of_kind (r : RARecord) : bool :=
  let kind := Rec_EntityKind r in
  let id p := has_prefix_id (Rec_ID r) p in
  let user := has_prefix_id (Rec_UserID r) "usr_" in
  let organisation := has_prefix_id (Rec_OrganisationID r) "org_" in
  let workspace := has_prefix_id (Rec_WorkspaceID r) "wsp_" in
  let status l := one_of (Rec_Status r) l in
  let no l := negb (hasAny r l) in
  if kind =s EntityUser then
    id "usr_" && status [StatusActive; StatusArchived]
    && no ["organisation_id"; "workspace_id"; "product_key"; "role"; "name"; "user_id"]
  else if kind =s EntityOrganisation then
    id "org_" && status [StatusActive; StatusArchived] && validName (Rec_Name r)
    && no ["user_id"; "organisation_id"; "workspace_id"; "product_key"; "role"]
  else if kind =s EntityOrganisationMembership then
    id "omem_" && user && organisation && validRole (Rec_Role r)
    && status [StatusActive; StatusRevoked] && no ["workspace_id"; "product_key"; "name"]
  else if kind =s EntityWorkspace then
    id "wsp_" && organisation && status [StatusActive; StatusArchived] && validName (Rec_Name r)
    && no ["user_id"; "workspace_id"; "product_key"; "role"]
  else if kind =s EntityWorkspaceMembership then
    id "wmem_" && user && workspace && validRole (Rec_Role r)
    && status [StatusActive; StatusRevoked] && no ["organisation_id"; "product_key"; "name"]
  else if kind =s EntityProduct then
    id "product." && status [StatusActive; StatusRetired]
    && no ["user_id"; "organisation_id"; "workspace_id"; "product_key"; "role"; "name"]
  else if kind =s EntityOrganisationEntitlement then
    id "ent_" && organisation && validProductKey (Rec_ProductKey r)
    && status [StatusActive; StatusRevoked] && no ["user_id"; "workspace_id"; "role"; "name"]
  else if kind =s EntityUserProductAssignment then
    id "upa_" && user && organisation && validProductKey (Rec_ProductKey r)
    && status [StatusActive; StatusRevoked] && no ["workspace_id"; "role"; "name"]
  else true.

Definition ValidateRecordVersion (version : string) (r : RARecord) : res unit :=
  match ValidateVersion version, ValidateEntityKind (Rec_EntityKind r) with
  | Err _, _ => record_error "version"
  | _, Err _ => record_error "entity kind"
  | _, _ =>
      let? _ := validateProvenance version r in
      if negb (one_of (Rec_Status r) [StatusActive; StatusArchived; StatusRevoked; StatusRetired])
      then record_error "invalid status"
      else if Rec_ID r =s "" then record_error "missing id"
      else if fields_of_kind r then Ok tt else record_error "fields"
  end.
Definition ValidateRecord (r : RARecord) : res unit := ValidateRecordVersion VersionV2 r.

(** ** The JSON of a record *)
Definition record_fields (r : RARecord) : list (string * scalar) :=
  ([("entity_kind", VString (Rec_EntityKind r)); ("id", VString (Rec_ID r)); ("status", VString (Rec_Status r))]
   ++ omitempty "user_id" (Rec_UserID r) ++ omitempty "organisation_id" (Rec_OrganisationID r)
   ++ omitempty "workspace_id" (Rec_WorkspaceID r) ++ omitempty "product_key" (Rec_ProductKey r)
   ++ omitempty "role" (Rec_Role r) ++ omitempty "name" (Rec_Name r)
   ++ omitempty "provenance_kind" (Rec_ProvenanceKind r) ++ omitempty "source_event_id" (Rec_SourceEventID r)
   ++ omit_zero "source_sequence" (Rec_SourceSequence r)
   ++ omit_zero "source_schema_version" (Rec_SourceSchemaVersion r)
   ++ omit_zero "migration_version" (Rec_MigrationVersion r)
   ++ omitempty "migration_name" (Rec_MigrationName r)
   ++ omitempty "migration_checksum" (Rec_MigrationChecksum r))%list.
Definition encode_record (r : RARecord) : string := encode_fields (record_fields r).

Definition record_names : list string :=
  ["entity_kind"; "id"; "status"; "user_id"; "organisation_id"; "workspace_id"; "product_key"; "role"; "name";
   "provenance_kind"; "source_event_id"; "source_sequence"; "source_schema_version"; "migration_version";
   "migration_name"; "migration_checksum"].
Definition known_name (name : string) : bool := existsb (fun k => fold_key name =s fold_key k) record_names.
(** A decoder with [DisallowUnknownFields], then the end of the text. *)
Definition decode_record (text : string) : res RARecord :=
  match parse text with
  | Some JNull => Ok (mkRecord "" "" "" "" "" "" "" "" "" "" "" 0 0 0 "" "")
  | Some (JObject l) =>
      if negb (forallb (fun m => known_name (fst m)) l) then json_error else
      let s := string_field l in
      let n := int_field l in
      let? kind := s "entity_kind" in let? id := s "id" in let? status := s "status" in
      let? user := s "user_id" in let? organisation := s "organisation_id" in
      let? workspace := s "workspace_id" in let? product := s "product_key" in
      let? role := s "role" in let? name := s "name" in let? provenance := s "provenance_kind" in
      let? event := s "source_event_id" in let? sequence := n "source_sequence" in
      let? schema := n "source_schema_version" in let? migration := n "migration_version" in
      let? mname := s "migration_name" in let? msum := s "migration_checksum" in
      Ok (mkRecord kind id status user organisation workspace product role name provenance event sequence
            schema migration mname msum)
  | _ => json_error
  end.

Section Digests.
Context `{Crypto}.
Definition BodyDigest (body : string) : string := hex_encode (sha256 body).
(** [json.Marshal] of the slice, which is never nil. *)
Definition encode_records (rs : list RARecord) : string := "[" ++ String.concat "," (map encode_record rs) ++ "]".
Definition RecordsChecksum (rs : list RARecord) : string := BodyDigest (encode_records rs).
End Digests.

(** ** The canonical request and the source cursor *)
Definition token_byte (c : ascii) : bool :=
  let n := byte_code c in
  ((48 <=? n) && (n <=? 57)) || ((65 <=? n) && (n <=? 90)) || ((97 <=? n) && (n <=? 122))
  || (n =? 45) || (n =? 46) || (n =? 95) || (n =? 126).
Definition validRequestToken (value : string) : bool := negb (value =s "") && forall_bytes token_byte value.
Definition ValidateKeyID (value : string) : bool :=
  validRequestToken (TrimSpace value) && (len (TrimSpace value) <=? 128).

Section Canonical.
Context `{UnicodeTables}.

Definition validSHA256Hex (value : string) : bool :=
  (len value =? 64) && (ToLower value =s value) && validRequestToken value.

Definition CanonicalRequest (method path bodyDigest consumer keyID timestamp nonce : string) : res string :=
  let method := TrimSpace method in let path := TrimSpace path in
  let bodyDigest := TrimSpace bodyDigest in let consumer := TrimSpace consumer in
  let keyID := TrimSpace keyID in let timestamp := TrimSpace timestamp in let nonce := TrimSpace nonce in
  if (method =s "") || ContainsAny method crlf || (path =s "") || negb (HasPrefix path "/")
     || ContainsAny path crlf || negb (validRequestToken consumer) || negb (validRequestToken keyID)
     || negb (validRequestToken timestamp) || negb (validRequestToken nonce)
     || (NonceMaxLength <? len nonce) || negb (validSHA256Hex bodyDigest)
  then Err (Sentinel RA_ErrInvalidSignature)
  else Ok (Join [ToUpper method; path; bodyDigest; consumer; keyID; timestamp; nonce] (String newline "")).
End Canonical.

Definition SourceCursor (value : Z) : string := if value <? 0 then "" else "cur_" ++ FormatInt value.
Definition ParseSourceCursor (value : string) : res Z :=
  let value := TrimSpace value in
  if negb (has_prefix_id value "cur_") then Err (Sentinel RA_ErrInvalidCursor)
  else match ParseInt (drop_bytes 4 value) with
       | Some parsed => if parsed <? 0 then Err (Sentinel RA_ErrInvalidCursor) else Ok parsed
       | None => Err (Sentinel RA_ErrInvalidCursor)
       end.

Definition IsReadAuthorityRoute (path : string) : bool := HasPrefix path "/api/v1/read-authority/".
Definition HTTPStatus (code : string) : Z :=
  if code =s "version_mismatch" then 406
  else if code =s "unauthenticated" then 401
  else if code =s "forbidden" then 403
  else if one_of code ["invalid_request"; "limit_exceeded"] then 400
  else if one_of code ["stale"; "gap"; "blocked"; "unavailable"; "resync_required"; "cursor_expired";
                       "snapshot_expired"; "snapshot_incomplete"; "checksum_mismatch"; "conflict"] then 409
  else 500.

(** ** The record reads back *)
Definition record_encodable (r : RARecord) : bool :=
  forallb valid_utf8 [Rec_EntityKind r; Rec_ID r; Rec_Status r; Rec_UserID r; Rec_OrganisationID r;
    Rec_WorkspaceID r; Rec_ProductKey r; Rec_Role r; Rec_Name r; Rec_ProvenanceKind r; Rec_SourceEventID r;
    Rec_MigrationName r; Rec_MigrationChecksum r]
  && in_int64 (Rec_SourceSequence r) && in_int64 (Rec_SourceSchemaVersion r) && in_int64 (Rec_MigrationVersion r).

Lemma record_names_known r :
  forallb (fun m => known_name (fst m)) (map json_member (record_fields r)) = true.
Proof.
  unfold record_fields.
  rewrite !map_app, !forallb_app, !(known_omitempty known_name), !(known_omit_zero known_name) by reflexivity.
  reflexivity.
Qed.

Lemma record_fields_valid r : record_encodable r = true -> forallb valid_member (record_fields r) = true.
Proof.
  unfold record_encodable, record_fields. cbn [forallb]. intros ?; bool_hyps.
  rewrite !forallb_app, !valid_omitempty, !valid_omit_zero by (assumption || reflexivity).
  cbn [forallb]. unfold valid_member. cbn [fst snd valid_scalar].
  by repeat match goal with H : _ = true |- _ => rewrite H; clear H end.
Qed.

Lemma decode_encode_record r : record_encodable r = true -> decode_record (encode_record r) = Ok r.
Proof.
  intros Hr. unfold decode_record, encode_record. rewrite parse_encode_fields by by apply record_fields_valid.
  rewrite record_names_known. cbn [negb].
  unfold record_encodable in Hr. bool_hyps.
  rewrite (string_field_written (record_fields r) _ "entity_kind" (Rec_EntityKind r)) by (unfold record_fields; read_member).
  rewrite (string_field_written (record_fields r) _ "id" (Rec_ID r)) by (unfold record_fields; read_member).
  rewrite (string_field_written (record_fields r) _ "status" (Rec_Status r)) by (unfold record_fields; read_member).
  rewrite (string_field_omitempty (record_fields r) "user_id" (Rec_UserID r)) by (unfold record_fields; read_member).
  rewrite (string_field_omitempty (record_fields r) "organisation_id" (Rec_OrganisationID r)) by (unfold record_fields; read_member).
  rewrite (string_field_omitempty (record_fields r) "workspace_id" (Rec_WorkspaceID r)) by (unfold record_fields; read_member).
  rewrite (string_field_omitempty (record_fields r) "product_key" (Rec_ProductKey r)) by (unfold record_fields; read_member).
  rewrite (string_field_omitempty (record_fields r) "role" (Rec_Role r)) by (unfold record_fields; read_member).
  rewrite (string_field_omitempty (record_fields r) "name" (Rec_Name r)) by (unfold record_fields; read_member).
  rewrite (string_field_omitempty (record_fields r) "provenance_kind" (Rec_ProvenanceKind r)) by (unfold record_fields; read_member).
  rewrite (string_field_omitempty (record_fields r) "source_event_id" (Rec_SourceEventID r)) by (unfold record_fields; read_member).
  rewrite (int_field_omit_zero (record_fields r) "source_sequence" (Rec_SourceSequence r)) by (assumption || unfold record_fields; read_member).
  rewrite (int_field_omit_zero (record_fields r) "source_schema_version" (Rec_SourceSchemaVersion r))
    by (assumption || unfold record_fields; read_member).
  rewrite (int_field_omit_zero (record_fields r) "migration_version" (Rec_MigrationVersion r))
    by (assumption || unfold record_fields; read_member).
  rewrite (string_field_omitempty (record_fields r) "migration_name" (Rec_MigrationName r)) by (unfold record_fields; read_member).
  rewrite (string_field_omitempty (record_fields r) "migration_checksum" (Rec_MigrationChecksum r)) by (unfold record_fields; read_member).
  by destruct r.
Qed.

Lemma validRequestToken_free s : validRequestToken s = true -> free_of newline s = true.
Proof. unfold validRequestToken. intros ?; bool_hyps. by apply (forall_bytes_free token_byte). Qed.

Section Laws.
Context `{UnicodeTables}.

(** C29: a signature over the canonical request binds every field of it: two
    requests with the same signed text have the same method (in upper case),
    path, body digest, consumer, key, timestamp and nonce, up to surrounding
    white space. No field can smuggle in the separator of another. *)
Theorem canonical_request_binds m p d c k t n m' p' d' c' k' t' n' s :
  CanonicalRequest m p d c k t n = Ok s -> CanonicalRequest m' p' d' c' k' t' n' = Ok s ->
  ToUpper (TrimSpace m) = ToUpper (TrimSpace m') /\
  map TrimSpace [p; d; c; k; t; n] = map TrimSpace [p'; d'; c'; k'; t'; n'].
Proof.
  unfold CanonicalRequest. intros E E'.
  match type of E with (if ?b then _ else _) = _ => destruct b eqn:B; [discriminate|] end.
  match type of E' with (if ?b then _ else _) = _ => destruct b eqn:B'; [discriminate|] end.
  rewrite <-E' in E. apply Ok_inj in E. bool_hyps. unfold validSHA256Hex in *. bool_hyps.
  apply Join_inj in E; [done|done| |]; cbn [forallb];
    rewrite (ContainsAny_free newline crlf), !validRequestToken_free by done; done.
Qed.
End Laws.

Lemma cursor_reads_back v : 0 <= v <= int64_max -> ParseSourceCursor (SourceCursor v) = Ok v.
Proof.
  intros Hv. unfold SourceCursor. destruct (Z.ltb_spec v 0); [lia|]. unfold ParseSourceCursor.
  rewrite TrimSpace_id by (rewrite forall_bytes_app, FormatInt_printable by lia; done).
  unfold has_prefix_id. rewrite HasPrefix_app, len_app. pose proof (FormatInt_nonempty v).
  destruct (Z.ltb_spec (len "cur_") (len "cur_" + len (FormatInt v))); [|lia]. cbn [negb andb].
  change 4%nat with (String.length "cur_"). rewrite drop_bytes_app, ParseInt_FormatInt.
  - by destruct (Z.ltb_spec v 0); [lia|].
  - unfold in_int64, int64_min, int64_max in *. lia.
Qed.
Lemma cursor_in_range text w : ParseSourceCursor text = Ok w -> 0 <= w <= int64_max.
Proof.
  unfold ParseSourceCursor. case_match; [discriminate|].
  destruct (ParseInt _) as [z|] eqn:E; [|discriminate]. apply ParseInt_range in E. unfold in_int64 in E.
  destruct (Z.ltb_spec z 0); [discriminate|]. intros [= <-]. lia.
Qed.

(** ** Witnesses *)
Definition sample_digest : string := hex_encode (rev_string "0123456789abcdef0123456789abcdef").

Theorem canonical_request_binds_witness :
  is_ok (CanonicalRequest (H:=ascii_tables) " get" "/api/v1/read-authority/changes" sample_digest "tockrims" "k1"
    "1700000000" "n-1") = true /\
  map TrimSpace ["/api/v1/read-authority/changes"; sample_digest; "tockrims"; "k1"; "1700000000"; "n-1"]
  = map TrimSpace ["/api/v1/read-authority/changes"; sample_digest; " tockrims"; "k1"; "1700000000"; "n-1 "].
Proof.
  split; [vm_compute; reflexivity|].
  apply (canonical_request_binds (H:=ascii_tables) " get" "/api/v1/read-authority/changes" sample_digest
    "tockrims" "k1" "1700000000" "n-1" "GET" "/api/v1/read-authority/changes" sample_digest " tockrims" "k1" "1700000000" "n-1 "
    (Join ["GET"; "/api/v1/read-authority/changes"; sample_digest; "tockrims"; "k1"; "1700000000"; "n-1"]
      (String newline ""))); vm_compute; reflexivity.
Defined.
