(* ===== verification/CommandContract.v ===== *)
(** internal/platform/membershipcommand/contract.go: the wire contract of the
    membership commands: validation of the body and the text a product signs. *)
From stdpp Require Import base tactics list strings.
From Stdlib Require Import ZArith Lia Ascii String.
From S2P Require Import Prelude GoStrings Errors Auth ReadAuthority.

Local Open Scope string_scope.
Local Open Scope Z_scope.

Module MembershipCommand.

Definition OperationAdd := "add".
Definition OperationRole := "change_role".
Definition OperationRemove := "deactivate".
Definition ScopeOrganisation := "organisation_membership".
Definition ScopeWorkspace := "workspace_membership".
Definition MaxReason : Z := 500.
Definition MaxIdempotencyKey : Z := 128.

Record Request := mkRequest {
  Req_Scope : string; Req_Operation : string; Req_OrganisationID : string; Req_WorkspaceID : string;
  Req_UserID : string; Req_Role : string; Req_Reason : string; Req_IdempotencyKey : string;
  Req_ExpectedVersion : Z }.

Definition validToken (value : string) : bool := negb (value =s "") && forall_bytes token_byte value.
Definition blanks : string := String (byte_of 13) (String newline (String " " (String (byte_of 9) ""))).
Definition validID (value prefix : string) : bool :=
  HasPrefix value prefix && (len prefix <? len value) && (len value <=? 200) && negb (ContainsAny value blanks).
Definition validSHA256 (value : string) : bool := (len value =? 64) && hex_decodable value.

Definition request_error (msg : string) : res unit := Err (Wrap msg (Sentinel MC_ErrInvalidRequest)).
Definition ValidateRequest (r : Request) : res unit :=
  let organisation := Req_Scope r =s ScopeOrganisation in
  let workspace := Req_Scope r =s ScopeWorkspace in
  let no_role := TrimSpace (Req_Role r) =s "" in
  if negb organisation && negb workspace then request_error "scope"
  else if negb (Req_Operation r =s OperationAdd) && negb (Req_Operation r =s OperationRole)
          && negb (Req_Operation r =s OperationRemove) then request_error "operation"
  else if negb (validID (Req_UserID r) "usr_") || (negb (validID (Req_OrganisationID r) "org_") && organisation)
          || (negb (validID (Req_WorkspaceID r) "wsp_") && workspace) then request_error "target identity"
  else if (organisation && negb (Req_WorkspaceID r =s "")) || (workspace && negb (Req_OrganisationID r =s ""))
  then request_error "mixed scope"
  else if (len (TrimSpace (Req_Reason r)) =? 0) || (MaxReason <? len (Req_Reason r))
          || ContainsAny (Req_Reason r) crlf then request_error "reason"
  else if negb (validToken (Req_IdempotencyKey r)) || (MaxIdempotencyKey <? len (Req_IdempotencyKey r))
  then request_error "idempotency key"
  else if Req_Operation r =s OperationAdd then
    if negb (Req_ExpectedVersion r =? 0) || no_role then request_error "add version or role" else Ok tt
  else if (Req_ExpectedVersion r <=? 0) || ((Req_Operation r =s OperationRole) && no_role)
          || ((Req_Operation r =s OperationRemove) && negb no_role)
  then request_error "mutation version or role"
  else Ok tt.

Definition ValidateConsumer (value : string) : bool := (value =s ConsumerCTRL) || (value =s ConsumerIMS).
Definition ValidateKeyID (value : string) : bool := validToken value && (len value <=? 100).
Definition ValidateNonce (value : string) : bool := validToken value && (len value <=? 128).
Definition ValidateTimestamp (value : string) : bool := validToken value && (len value <=? 20).

Definition StatusForCode (code : string) : Z :=
  if code =s "version_mismatch" then 406
  else if code =s "unauthenticated" then 401
  else if code =s "forbidden" then 403
  else if code =s "invalid_request" then 400
  else if code =s "conflict" then 409
  else if code =s "stale" then 409
  else if code =s "limit_exceeded" then 429
  else if code =s "unavailable" then 503
  else 500.

Section Canonical.
Context `{UnicodeTables}.

Definition CanonicalRequest (method path bodyDigest consumer keyID timestamp nonce : string) : res string :=
  if (TrimSpace method =s "") || negb (HasPrefix path "/") || negb (validToken consumer)
     || negb (validToken keyID) || negb (validToken timestamp) || negb (validToken nonce)
     || negb (validSHA256 bodyDigest)
  then Err (Sentinel MC_ErrInvalidSignature)
  else Ok (Join [ToUpper (TrimSpace method); TrimSpace path; TrimSpace bodyDigest; TrimSpace consumer;
                 TrimSpace keyID; TrimSpace timestamp; TrimSpace nonce] (String newline "")).

Definition CanonicalRequestWithActor (method path bodyDigest actorDigest consumer keyID timestamp nonce : string)
  : res string :=
  if negb (validSHA256 actorDigest) then Err (Sentinel MC_ErrInvalidSignature) else
  let? base := CanonicalRequest method path bodyDigest consumer keyID timestamp nonce in
  Ok (Join [base; TrimSpace actorDigest] (String newline "")).

(** ** The signed text *)
Lemma token_printable s : validToken s = true -> forall_bytes printable s = true.
Proof.
  unfold validToken. intros ?; bool_hyps. eapply forall_bytes_impl; [|done].
  intros c. unfold token_byte, printable. lia.
Qed.
Lemma sha_printable s : validSHA256 s = true -> forall_bytes printable s = true.
Proof.
  unfold validSHA256, hex_decodable. intros ?; bool_hyps. eapply forall_bytes_impl; [|done].
  intros c. unfold is_hex, printable. lia.
Qed.
Lemma printable_free s : forall_bytes printable s = true -> free_of newline (TrimSpace s) = true.
Proof. intros Hs. rewrite TrimSpace_id by done. by apply (forall_bytes_free printable). Qed.

Lemma WithActor_Ok m p d a c k t n s :
  CanonicalRequestWithActor m p d a c k t n = Ok s ->
  s = Join (Join [ToUpper (TrimSpace m); TrimSpace p] (String newline "") :: map TrimSpace [d; c; k; t; n; a])
        (String newline "") /\
  forallb (free_of newline) (map TrimSpace [d; c; k; t; n; a]) = true.
Proof.
  unfold CanonicalRequestWithActor, CanonicalRequest.
  destruct (validSHA256 a) eqn:Ea; [|discriminate]. cbn [negb].
  match goal with |- context [if ?b then _ else _] => destruct b eqn:B; [discriminate|] end.
  intros <-%Ok_inj. bool_hyps. split.
  - unfold Join. cbn [String.concat map]. by rewrite !string_app_assoc.
  - cbn [map forallb]. rewrite !printable_free by (auto using token_printable, sha_printable). done.
Qed.

(** The fields have no white space around them. *)
Lemma WithActor_fields m p d a c k t n s :
  CanonicalRequestWithActor m p d a c k t n = Ok s -> map TrimSpace [d; c; k; t; n; a] = [d; c; k; t; n; a].
Proof.
  unfold CanonicalRequestWithActor, CanonicalRequest.
  destruct (validSHA256 a) eqn:Ea; [|discriminate]. cbn [negb].
  match goal with |- context [if ?b then _ else _] => destruct b eqn:B; [discriminate|] end.
  intros _. bool_hyps. cbn [map]. by rewrite !TrimSpace_id by (auto using token_printable, sha_printable).
Qed.

(** The signature of a command binds the body digest, the consumer, the key,
    the timestamp, the nonce and the actor proof, and the method and path
    together: two commands with the same signed text agree on all of them. *)
Theorem signed_command_binds m p d a c k t n m' p' d' a' c' k' t' n' s :
  CanonicalRequestWithActor m p d a c k t n = Ok s ->
  CanonicalRequestWithActor m' p' d' a' c' k' t' n' = Ok s ->
  [d; c; k; t; n; a] = [d'; c'; k'; t'; n'; a'] /\
  Join [ToUpper (TrimSpace m); TrimSpace p] (String newline "")
  = Join [ToUpper (TrimSpace m'); TrimSpace p'] (String newline "").
Proof.
  intros H1 H2. pose proof (WithActor_fields _ _ _ _ _ _ _ _ _ H1) as F1.
  pose proof (WithActor_fields _ _ _ _ _ _ _ _ _ H2) as F2.
  apply WithActor_Ok in H1 as [-> G1], H2 as [E G2].
  apply Join_inj in E as [E1 E2]; [|done..]. split; [|done]. by rewrite F1, F2 in E2.
Qed.
End Canonical.

(** ** Witnesses *)
Theorem signed_command_binds_witness :
  is_ok (CanonicalRequestWithActor (H:=ascii_tables) "post" "/x" sample_digest sample_digest "tockrims" "k" "17" "n") = true /\
  Join [ToUpper (H:=ascii_tables) (TrimSpace "post"); TrimSpace "/x"] (String newline "")
  = Join [ToUpper (H:=ascii_tables) (TrimSpace "POST "); TrimSpace "/x"] (String newline "").
Proof.
  split; [vm_compute; reflexivity|].
  apply (signed_command_binds (H:=ascii_tables) "post" "/x" sample_digest sample_digest "tockrims" "k" "17" "n"
    "POST " "/x" sample_digest sample_digest "tockrims" "k" "17" "n"
    (Join ["POST"; "/x"; sample_digest; "tockrims"; "k"; "17"; "n"; sample_digest] (String newline "")));
    vm_compute; reflexivity.
Defined.

(** The method and the path are only bound together: a newline, which this
    contract does not refuse in either, can move from one to the other. *)
Example method_path_ambiguous :
  CanonicalRequest (H:=ascii_tables) (String "G" (String newline "/A")) "/b" sample_digest "tockrims" "k" "17" "n"
  = CanonicalRequest (H:=ascii_tables) "G" ("/A" ++ String newline "/b") sample_digest "tockrims" "k" "17" "n".
Proof. vm_compute. reflexivity. Qed.
End MembershipCommand.
