(* ===== verification/Assertion.v ===== *)
(** internal/platform/assertion: the signed, short-lived assertions with which
    the Platform hands a user over to a product, and their verification with
    replay protection.

    Ed25519 is a parameter. The replay map is the state of an [Issuer]; Verify
    holds its mutex while it prunes, checks and inserts, so a call is one step.
    [clock] is what time.Now() would return. *)
From stdpp Require Import base tactics option list gmap strings.
From Stdlib Require Import ZArith Lia Ascii String.
From S2P Require Import Prelude GoStrings GoTime Codec Errors Json JsonLaws Schema Auth ReadAuthority CommandContract.

Local Open Scope string_scope.
Local Open Scope Z_scope.

(** crypto/ed25519: the public key of a private key, Sign and Verify. *)
Class Ed25519 := {
  ed_public : string -> string;
  ed_sign : string -> string -> string;             (* private key, message *)
  ed_verify : string -> string -> string -> bool }. (* public key, message, signature *)
Class Ed25519Laws `{Ed25519} := {
  ed_public_length k : len (ed_public k) = 32;
  ed_sign_length k m : len (ed_sign k m) = 64;
  ed_verify_sign k m : ed_verify (ed_public k) m (ed_sign k m) = true }.

Module Assertion.

Definition Algorithm := "Ed25519".
Definition Type_ := "TockrPlatformAssertion".
Definition CurrentVersion : Z := 1.
Definition DefaultLifetime : Z := 2 * Minute.

Record Claims := mkClaims {
  cl_Issuer : string; cl_Audience : string; cl_PlatformUserID : string; cl_PlatformOrganisationID : string;
  cl_PlatformWorkspaceID : string; cl_IssuedAt : Z; cl_ExpiresAt : Z; cl_AssertionID : string;
  cl_AssertionVersion : Z }.
Record header := mkHeader { hd_Algorithm : string; hd_KeyID : string; hd_Type : string }.
Record IssueRequest := mkIssueRequest {
  ir_Audience : string; ir_PlatformUserID : string; ir_OrganisationID : string; ir_WorkspaceID : string;
  ir_Lifetime : Z }.
(** VerificationKeys lists the map in the order the runtime visits it. *)
Record Config := mkConfig {
  cf_Issuer : string; cf_ActiveKeyID : string; cf_ActivePrivateKey : string;
  cf_VerificationKeys : list (string * string); cf_Audiences : list string; cf_MaxLifetime : Z;
  cf_ClockSkew : Z }.
Record VerifierConfig := mkVerifierConfig {
  vc_Issuer : string; vc_VerificationKeys : list (string * string); vc_Audiences : list string;
  vc_MaxLifetime : Z; vc_ClockSkew : Z }.
Record Issuer := mkIssuer {
  is_issuer : string; is_activeKeyID : string; is_privateKey : string; is_publicKeys : gmap string string;
  is_audiences : list string; is_maxLifetime : Z; is_clockSkew : Z; is_replayed : gmap string Z }.

Definition has_blank (s : string) : bool := ContainsAny s MembershipCommand.blanks.
Definition validScopeID (value prefix : string) : bool :=
  HasPrefix value prefix && (len prefix <? len value) && (len value <=? 200) && negb (has_blank value).
Definition validText (value : string) (max : Z) : bool :=
  let value := TrimSpace value in negb (value =s "") && (len value <=? max) && negb (has_blank value).

(** ** New and NewVerifier *)
Definition config_error {A} (what : string) : res A := Err (Wrap what (Sentinel ErrConfiguration)).
Definition valid_line (value : string) (max : Z) : bool :=
  validText value max && negb (ContainsAny value crlf).
Definition life_of (maxLifetime : Z) : res Z :=
  let d := if maxLifetime =? 0 then 5 * Minute else maxLifetime in
  if (d <? DefaultLifetime) || (15 * Minute <? d) then config_error "max lifetime" else Ok d.
Definition skew_of (clockSkew : Z) : res Z :=
  let d := if clockSkew =? 0 then 5 * Second else clockSkew in
  if (d <? 0) || (Minute <? d) then config_error "clock skew" else Ok d.
Fixpoint audiences_of (seen values : list string) : res (list string) :=
  match values with
  | [] => Ok seen
  | value :: values =>
      let value := TrimSpace value in
      if negb (valid_line value 100) then config_error "audience"
      else if existsb (String.eqb value) seen then config_error "duplicate audience"
      else audiences_of (value :: seen) values
  end.
(** The loop over the keys; NewVerifier trims the key ids, New does not. *)
Fixpoint keys_of (trim : string -> string) (acc : gmap string string) (keys : list (string * string))
  : res (gmap string string) :=
  match keys with
  | [] => Ok acc
  | (keyID, publicKey) :: keys =>
      let keyID := trim keyID in
      if negb (validText keyID 100) || negb (len publicKey =? 32) then config_error "verification key"
      else keys_of trim (<[keyID := publicKey]> acc) keys
  end.

Section Issuing.
Context `{Ed25519}.

Definition New (c : Config) : res Issuer :=
  let issuer := TrimSpace (cf_Issuer c) in
  if negb (valid_line issuer 200) then config_error "issuer" else
  let activeKeyID := TrimSpace (cf_ActiveKeyID c) in
  if negb (validText activeKeyID 100) then config_error "active key id" else
  if negb (len (cf_ActivePrivateKey c) =? 64) then config_error "active private key" else
  let? maxLifetime := life_of (cf_MaxLifetime c) in
  let? clockSkew := skew_of (cf_ClockSkew c) in
  if Nat.eqb (List.length (cf_Audiences c)) 0 then config_error "audiences" else
  let? audiences := audiences_of [] (cf_Audiences c) in
  let activePublic := ed_public (cf_ActivePrivateKey c) in
  if negb (len activePublic =? 32) then config_error "active public key" else
  let? publicKeys := keys_of id ∅ (cf_VerificationKeys c) in
  if match publicKeys !! activeKeyID with Some existing => negb (existing =s activePublic) | None => false end
  then config_error "active public key mismatch" else
  Ok (mkIssuer issuer activeKeyID (cf_ActivePrivateKey c) (<[activeKeyID := activePublic]> publicKeys) audiences
        maxLifetime clockSkew ∅).

Definition NewVerifier (c : VerifierConfig) : res Issuer :=
  let issuer := TrimSpace (vc_Issuer c) in
  if negb (valid_line issuer 200) then config_error "issuer" else
  let? maxLifetime := life_of (vc_MaxLifetime c) in
  let? clockSkew := skew_of (vc_ClockSkew c) in
  if Nat.eqb (List.length (vc_Audiences c)) 0 || Nat.eqb (List.length (vc_VerificationKeys c)) 0
  then config_error "audiences and verification keys" else
  let? audiences := audiences_of [] (vc_Audiences c) in
  let? publicKeys := keys_of TrimSpace ∅ (vc_VerificationKeys c) in
  Ok (mkIssuer issuer "" "" publicKeys audiences maxLifetime clockSkew ∅).

(** ** Issue *)
Definition newAssertionID (raw : option string) : res string :=
  match raw with
  | None => Err (Text "generate assertion id")
  | Some raw => Ok ("ast_" ++ b64_encode raw)
  end.

(** The struct fields; a time is written as RFC 3339 and has a four-digit year. *)
Definition header_fields (h : header) : list (string * scalar) :=
  [("alg", VString (hd_Algorithm h)); ("kid", VString (hd_KeyID h)); ("typ", VString (hd_Type h))].
Definition claims_fields (c : Claims) : list (string * scalar) :=
  [("issuer", VString (cl_Issuer c)); ("audience", VString (cl_Audience c));
   ("platform_user_id", VString (cl_PlatformUserID c));
   ("platform_organisation_id", VString (cl_PlatformOrganisationID c));
   ("platform_workspace_id", VString (cl_PlatformWorkspaceID c));
   ("issued_at", VString (formatTime (cl_IssuedAt c))); ("expires_at", VString (formatTime (cl_ExpiresAt c)));
   ("assertion_id", VString (cl_AssertionID c)); ("assertion_version", VInt (cl_AssertionVersion c))].
Definition json_time (t : Z) : bool := (-719528 * 86400 * Second <=? t) && (t <? 2932897 * 86400 * Second).
Definition marshal_claims (c : Claims) : res string :=
  if json_time (cl_IssuedAt c) && json_time (cl_ExpiresAt c) then Ok (encode_fields (claims_fields c))
  else Err (Text "Time.MarshalJSON: year outside of range [0,9999]").
Definition signed_text (keyID payload : string) : string :=
  b64_encode (encode_fields (header_fields (mkHeader Algorithm keyID Type_))) ++ "." ++ b64_encode payload.

Definition sign (i : Issuer) (c : Claims) : res (string * Claims) :=
  let? payload := wrap "marshal assertion claims" (marshal_claims c) in
  let signed := signed_text (is_activeKeyID i) payload in
  Ok (signed ++ "." ++ b64_encode (ed_sign (is_privateKey i) signed), c).

Definition Issue (i : Issuer) (r : IssueRequest) (at_ clock : Z) (raw : option string) : res (string * Claims) :=
  if negb (len (is_privateKey i) =? 64) then Err (Sentinel ErrConfiguration) else
  let audience := TrimSpace (ir_Audience r) in
  if negb (existsb (String.eqb audience) (is_audiences i)) then Err (Sentinel ErrInvalidAudience) else
  if negb (validScopeID (ir_PlatformUserID r) "usr_") || negb (validScopeID (ir_OrganisationID r) "org_")
     || negb (validScopeID (ir_WorkspaceID r) "wsp_") then Err (Sentinel ErrInvalidScope) else
  let at_ := if IsZero at_ then clock else at_ in
  let lifetime := if ir_Lifetime r =? 0 then DefaultLifetime else ir_Lifetime r in
  if (lifetime <=? 0) || (is_maxLifetime i <? lifetime)
  then Err (Wrap "assertion lifetime" (Sentinel ErrInvalidAssertion)) else
  let? assertionID := newAssertionID raw in
  sign i (mkClaims (is_issuer i) audience (ir_PlatformUserID r) (ir_OrganisationID r) (ir_WorkspaceID r) at_
            (at_ + lifetime) assertionID CurrentVersion).

(** ** Verify *)

(** decodeStrict: one object, no key twice, only known fields. A time with JSON
    escapes, which Marshal never writes, is read as if it had none. *)
Fixpoint has_duplicate (l : list string) : bool :=
  match l with [] => false | k :: l => existsb (String.eqb k) l || has_duplicate l end.
Definition decode_strict (names : list string) (text : string) : res (list (string * json)) :=
  match parse text with
  | Some (JObject l) =>
      if has_duplicate (map fst l) then Err (Text "duplicate assertion object key")
      else if forallb (fun m => existsb (fun k => fold_key (fst m) =s fold_key k) names) l then Ok l
      else json_error
  | _ => json_error
  end.
Definition time_field := struct_field (fun v => match v with JString s => rfc3339 s | _ => None end) zero_time.
Definition decode_header (text : string) : res header :=
  let? l := decode_strict ["alg"; "kid"; "typ"] text in
  let? alg := string_field l "alg" in let? kid := string_field l "kid" in let? typ := string_field l "typ" in
  Ok (mkHeader alg kid typ).
Definition claims_names : list string :=
  ["issuer"; "audience"; "platform_user_id"; "platform_organisation_id"; "platform_workspace_id"; "issued_at";
   "expires_at"; "assertion_id"; "assertion_version"].
Definition decode_claims (text : string) : res Claims :=
  let? l := decode_strict claims_names text in
  let? issuer := string_field l "issuer" in let? audience := string_field l "audience" in
  let? user := string_field l "platform_user_id" in
  let? organisation := string_field l "platform_organisation_id" in
  let? workspace := string_field l "platform_workspace_id" in
  let? issuedAt := time_field l "issued_at" in let? expiresAt := time_field l "expires_at" in
  let? assertionID := string_field l "assertion_id" in let? version := int_field l "assertion_version" in
  Ok (mkClaims issuer audience user organisation workspace issuedAt expiresAt assertionID version).

Definition validateClaims (i : Issuer) (c : Claims) (now : Z) : res unit :=
  if negb (cl_AssertionVersion c =? CurrentVersion) then Err (Sentinel ErrAssertionVersionMismatch)
  else if negb (cl_Issuer c =s is_issuer i) then Err (Sentinel ErrInvalidAssertion)
  else if negb (existsb (String.eqb (cl_Audience c)) (is_audiences i)) then Err (Sentinel ErrInvalidAudience)
  else if negb (validScopeID (cl_PlatformUserID c) "usr_") || negb (validScopeID (cl_PlatformOrganisationID c) "org_")
          || negb (validScopeID (cl_PlatformWorkspaceID c) "wsp_") || negb (validScopeID (cl_AssertionID c) "ast_")
  then Err (Sentinel ErrInvalidScope)
  else if IsZero (cl_IssuedAt c) || IsZero (cl_ExpiresAt c) || negb (After (cl_ExpiresAt c) (cl_IssuedAt c))
          || (is_maxLifetime i <? Sub (cl_ExpiresAt c) (cl_IssuedAt c))
  then Err (Sentinel ErrInvalidAssertion)
  else if After (cl_IssuedAt c) (now + is_clockSkew i) then Err (Sentinel ErrAssertionNotYetValid)
  else if negb (After (cl_ExpiresAt c) now) then Err (Sentinel ErrAssertionExpired)
  else Ok tt.

(** Everything Verify does before it takes the mutex. *)
Definition invalid {A} : res A := Err (Sentinel ErrInvalidAssertion).
Definition check_token (i : Issuer) (token : string) (now : Z) : res Claims :=
  match Split token "." with
  | [part0; part1; part2] =>
      if (2048 <? len part0) || (4096 <? len part1) || (4096 <? len part2) then invalid else
      match b64_decode part0 with
      | None => invalid
      | Some headerBytes =>
          match decode_header headerBytes with
          | Err _ => invalid
          | Ok h =>
              if negb (hd_Algorithm h =s Algorithm) || negb (hd_Type h =s Type_) || negb (validText (hd_KeyID h) 100)
              then invalid else
              match is_publicKeys i !! hd_KeyID h, b64_decode part2 with
              | Some publicKey, Some signature =>
                  if negb (len signature =? 64) || negb (ed_verify publicKey (part0 ++ "." ++ part1) signature)
                  then invalid else
                  match b64_decode part1 with
                  | None => invalid
                  | Some payload =>
                      match decode_claims payload with
                      | Err _ => invalid
                      | Ok claims => let? _ := validateClaims i claims now in Ok claims
                      end
                  end
              | _, _ => invalid
              end
          end
      end
  | _ => invalid
  end.
Definition with_replayed (m : gmap string Z) (i : Issuer) : Issuer :=
  mkIssuer (is_issuer i) (is_activeKeyID i) (is_privateKey i) (is_publicKeys i) (is_audiences i)
    (is_maxLifetime i) (is_clockSkew i) m.
Definition Verify (i : Issuer) (token : string) (now clock : Z) : res Claims * Issuer :=
  let now := if IsZero now then clock else now in
  match check_token i token now with
  | Err e => (Err e, i)
  | Ok claims =>
      let replayed := filter (fun kv => After kv.2 now = true) (is_replayed i) in
      match replayed !! cl_AssertionID claims with
      | Some _ => (Err (Sentinel ErrAssertionReplay), with_replayed replayed i)
      | None => (Ok claims, with_replayed (<[cl_AssertionID claims := cl_ExpiresAt claims]> replayed) i)
      end
  end.

(** PublicKeys: the active key, then the others by key id. *)
Record VerificationKey := mkVerificationKey { vk_KeyID : string; vk_Algorithm : string; vk_PublicKey : string }.
Definition PublicKeys (i : Issuer) : list VerificationKey :=
  let key kv := mkVerificationKey kv.1 Algorithm kv.2 in
  match is_publicKeys i !! is_activeKeyID i with Some k => [key (is_activeKeyID i, k)] | None => [] end
  ++ sort_by (fun a b => text_lt (vk_KeyID a) (vk_KeyID b))
       (map key (List.filter (fun kv => negb (kv.1 =s is_activeKeyID i)) (map_to_list (is_publicKeys i)))).

(** ** consumer.go *)
Inductive FailureClass :=
| FailureUnauthenticated | FailureForbidden | FailureStale | FailureUnavailable | FailureVersionMismatch.
Definition ProductForAudience (audience : string) : option string :=
  let a := TrimSpace audience in
  if a =s "tockrctrl" then Some "product.tockrctrl" else if a =s "tockrims" then Some "product.tockrims" else None.
Definition classifyVerificationFailure (e : error) : FailureClass :=
  if errors_Is e ErrConfiguration then FailureUnavailable
  else if errors_Is e ErrAssertionVersionMismatch then FailureVersionMismatch
  else if errors_Is e ErrAssertionExpired || errors_Is e ErrAssertionNotYetValid || errors_Is e ErrAssertionReplay
  then FailureStale
  else if errors_Is e ErrInvalidAudience || errors_Is e ErrInvalidScope then FailureForbidden
  else FailureUnauthenticated.
Definition VerifyForProduct (i : Issuer) (token expectedAudience expectedProductKey : string) (now clock : Z)
  : result FailureClass Claims * Issuer :=
  match ProductForAudience expectedAudience with
  | Some productKey =>
      if negb (productKey =s TrimSpace expectedProductKey) then (Err FailureForbidden, i) else
      match Verify i token now clock with
      | (Err e, i) => (Err (classifyVerificationFailure e), i)
      | (Ok claims, i) =>
          if negb (cl_Audience claims =s TrimSpace expectedAudience) then (Err FailureForbidden, i)
          else (Ok claims, i)
      end
  | None => (Err FailureForbidden, i)
  end.

(** ** The texts of a token read back *)
Definition header_encodable (keyID : string) : Prop :=
  valid_utf8 keyID = true /\ len (b64_encode (encode_fields (header_fields (mkHeader Algorithm keyID Type_)))) <= 2048.
Definition utf8_claims (c : Claims) : Prop :=
  forallb valid_utf8 [cl_Issuer c; cl_Audience c; cl_PlatformUserID c; cl_PlatformOrganisationID c;
    cl_PlatformWorkspaceID c; cl_AssertionID c] = true.
Definition claims_encodable (c : Claims) : Prop :=
  utf8_claims c /\ in_int64 (cl_AssertionVersion c) = true
  /\ len (b64_encode (encode_fields (claims_fields c))) <= 4096.

Lemma json_time_iff t : json_time t = true <-> four_digit_year t.
Proof. unfold json_time, four_digit_year. rewrite andb_true_iff, Z.leb_le, Z.ltb_lt. done. Qed.

Lemma decode_header_encode h :
  forallb valid_utf8 [hd_Algorithm h; hd_KeyID h; hd_Type h] = true ->
  decode_header (encode_fields (header_fields h)) = Ok h.
Proof.
  cbn [forallb]. intros ?; bool_hyps. unfold decode_header, decode_strict. rewrite parse_encode_fields.
  - change (has_duplicate _) with false. change (forallb _ _) with true. cbv beta iota. set (m := header_fields h).
    rewrite (string_field_written m "alg" "alg" (hd_Algorithm h)) by reflexivity.
    rewrite (string_field_written m "kid" "kid" (hd_KeyID h)) by reflexivity.
    rewrite (string_field_written m "typ" "typ" (hd_Type h)) by reflexivity.
    by destruct h.
  - unfold header_fields. cbn [forallb]. unfold valid_member. cbn [fst snd valid_scalar].
    by repeat match goal with E : _ = true |- _ => rewrite E; clear E end.
Qed.

Lemma time_field_written kvs k k' t :
  written kvs k = [(k', VString (formatTime t))] -> four_digit_year t ->
  time_field (map json_member kvs) k = Ok t.
Proof. intros Hw Ht. apply (struct_field_written _ _ _ _ _ _ _ Hw). cbn. by apply rfc3339_format. Qed.

Lemma decode_claims_encode c :
  utf8_claims c -> in_int64 (cl_AssertionVersion c) = true ->
  four_digit_year (cl_IssuedAt c) -> four_digit_year (cl_ExpiresAt c) ->
  decode_claims (encode_fields (claims_fields c)) = Ok c.
Proof.
  unfold utf8_claims. intros Hu Hv H1 H2. cbn [forallb] in Hu. bool_hyps.
  unfold decode_claims, decode_strict. rewrite parse_encode_fields.
  - change (has_duplicate _) with false. change (forallb _ _) with true. cbv beta iota. set (m := claims_fields c).
    rewrite (string_field_written m "issuer" "issuer" (cl_Issuer c)) by reflexivity.
    rewrite (string_field_written m "audience" "audience" (cl_Audience c)) by reflexivity.
    rewrite (string_field_written m "platform_user_id" "platform_user_id" (cl_PlatformUserID c)) by reflexivity.
    rewrite (string_field_written m "platform_organisation_id" "platform_organisation_id"
      (cl_PlatformOrganisationID c)) by reflexivity.
    rewrite (string_field_written m "platform_workspace_id" "platform_workspace_id"
      (cl_PlatformWorkspaceID c)) by reflexivity.
    rewrite (time_field_written m "issued_at" "issued_at" (cl_IssuedAt c)) by (done || reflexivity).
    rewrite (time_field_written m "expires_at" "expires_at" (cl_ExpiresAt c)) by (done || reflexivity).
    rewrite (string_field_written m "assertion_id" "assertion_id" (cl_AssertionID c)) by reflexivity.
    rewrite (int_field_written m "assertion_version" "assertion_version" (cl_AssertionVersion c)) by done.
    by destruct c.
  - unfold claims_fields. cbn [forallb]. unfold valid_member. cbn [fst snd valid_scalar].
    rewrite !(printable_utf8 (formatTime _)) by apply formatTime_printable.
    by repeat match goal with E : _ = true |- _ => rewrite E; clear E end.
Qed.

Lemma dot_app s : "." ++ s = String "." s.
Proof. done. Qed.
Lemma b64_free s : free_of "." (b64_encode s) = true.
Proof. by apply (forall_bytes_free b64_safe); [|apply b64_encode_safe]. Qed.

(** A token of three encoded parts, checked against a key it verifies under. *)
Lemma check_signed i keyID c signature publicKey now :
  is_publicKeys i !! keyID = Some publicKey -> validText keyID 100 = true -> header_encodable keyID ->
  claims_encodable c -> four_digit_year (cl_IssuedAt c) -> four_digit_year (cl_ExpiresAt c) ->
  len signature = 64 ->
  ed_verify publicKey (signed_text keyID (encode_fields (claims_fields c))) signature = true ->
  check_token i (signed_text keyID (encode_fields (claims_fields c)) ++ "." ++ b64_encode signature) now
  = let? _ := validateClaims i c now in Ok c.
Proof.
  intros Hk Htext [Hutf Hlen] Hc H1 H2 Hs Hv. unfold check_token, signed_text.
  rewrite !string_app_assoc, !dot_app. rewrite Split_cons, Split_cons, Split_last by apply b64_free.
  destruct (Z.ltb_spec 2048 (len (b64_encode (encode_fields (header_fields (mkHeader Algorithm keyID Type_)))))); [lia|].
  pose proof (proj2 (proj2 Hc)).
  destruct (Z.ltb_spec 4096 (len (b64_encode (encode_fields (claims_fields c))))); [lia|].
  pose proof (b64_length signature). destruct (Z.ltb_spec 4096 (len (b64_encode signature))); [lia|]. cbn [orb].
  rewrite !b64_decode_encode, decode_header_encode
    by (cbn [forallb hd_KeyID hd_Algorithm hd_Type]; rewrite Hutf; reflexivity).
  cbn [hd_Algorithm hd_Type hd_KeyID]. rewrite !String.eqb_refl, Htext, Hk, Hs. cbn [negb orb].
  rewrite Z.eqb_refl. cbn [negb orb].
  unfold signed_text in Hv. rewrite Hv. cbn [negb]. destruct Hc as (Hu & Hint & _). by rewrite decode_claims_encode.
Qed.

(** ** What New and Issue establish *)
Lemma life_of_Ok v d : life_of v = Ok d -> DefaultLifetime <= d <= 15 * Minute.
Proof.
  unfold life_of, config_error. set (x := if v =? 0 then _ else v). destruct (_ || _) eqn:E; [discriminate|].
  intros <-%Ok_inj. bool_hyps. lia.
Qed.
Lemma skew_of_Ok v d : skew_of v = Ok d -> 0 <= d <= Minute.
Proof.
  unfold skew_of, config_error. set (x := if v =? 0 then _ else v). destruct (_ || _) eqn:E; [discriminate|].
  intros <-%Ok_inj. bool_hyps. lia.
Qed.
Lemma New_issuer_Ok c i :
  New c = Ok i ->
  validText (is_activeKeyID i) 100 = true /\ is_replayed i = ∅ /\ len (is_privateKey i) = 64 /\
  is_publicKeys i !! is_activeKeyID i = Some (ed_public (is_privateKey i)) /\
  DefaultLifetime <= is_maxLifetime i <= 15 * Minute /\ 0 <= is_clockSkew i <= Minute.
Proof.
  unfold New, config_error. intros Hn.
  destruct (valid_line _ _); [|discriminate]. cbn [negb] in Hn.
  destruct (validText (TrimSpace (cf_ActiveKeyID c)) 100) eqn:Ek; [|discriminate]. cbn [negb] in Hn.
  destruct (Z.eqb_spec (len (cf_ActivePrivateKey c)) 64); [|discriminate]. cbn [negb] in Hn.
  destruct (life_of _) as [life|] eqn:El; [|discriminate]. destruct (skew_of _) as [skew|] eqn:Es; [|discriminate].
  destruct (Nat.eqb _ _); [discriminate|]. destruct (audiences_of _ _); [|discriminate].
  destruct (negb (len _ =? 32)); [discriminate|]. destruct (keys_of _ _ _); [|discriminate].
  match type of Hn with (if ?b then _ else _) = _ => destruct b; [discriminate|] end.
  apply Ok_inj in Hn as <-. cbn. rewrite lookup_insert_eq.
  do 4 (split; [done|]). split; [by apply life_of_Ok in El|by apply skew_of_Ok in Es].
Qed.

(** The claims of an issued assertion, and its text. *)
Record issued (i : Issuer) (token : string) (c : Claims) : Prop := {
  isd_key : len (is_privateKey i) = 64;
  isd_version : cl_AssertionVersion c = CurrentVersion;
  isd_issuer : cl_Issuer c = is_issuer i;
  isd_audience : existsb (String.eqb (cl_Audience c)) (is_audiences i) = true;
  isd_user : validScopeID (cl_PlatformUserID c) "usr_" = true;
  isd_organisation : validScopeID (cl_PlatformOrganisationID c) "org_" = true;
  isd_workspace : validScopeID (cl_PlatformWorkspaceID c) "wsp_" = true;
  isd_life : cl_IssuedAt c < cl_ExpiresAt c <= cl_IssuedAt c + is_maxLifetime i;
  isd_issued : four_digit_year (cl_IssuedAt c);
  isd_expires : four_digit_year (cl_ExpiresAt c);
  isd_token : token = signed_text (is_activeKeyID i) (encode_fields (claims_fields c)) ++ "."
    ++ b64_encode (ed_sign (is_privateKey i) (signed_text (is_activeKeyID i) (encode_fields (claims_fields c)))) }.

Lemma Issue_Ok i r at_ clock raw token c :
  Issue i r at_ clock raw = Ok (token, c) ->
  issued i token c /\ (exists raw', raw = Some raw' /\ cl_AssertionID c = "ast_" ++ b64_encode raw') /\
  cl_IssuedAt c = (if IsZero at_ then clock else at_).
Proof.
  unfold Issue. intros E. destruct (Z.eqb_spec (len (is_privateKey i)) 64); [|discriminate]. cbn [negb] in E.
  destruct (existsb _ _) eqn:Ea; [|discriminate]. cbn [negb] in E.
  destruct (_ || _) eqn:Es in E; [discriminate|]. set (t := if IsZero at_ then clock else at_) in *.
  set (life := if ir_Lifetime r =? 0 then DefaultLifetime else ir_Lifetime r) in *.
  destruct (_ || _) eqn:El in E; [discriminate|]. unfold newAssertionID in E. destruct raw as [raw|]; [|discriminate].
  unfold sign, marshal_claims, wrap in E. cbn [cl_IssuedAt cl_ExpiresAt] in E.
  destruct (_ && _) eqn:Et in E; [|discriminate]. injection E as <- <-. bool_hyps.
  rewrite json_time_iff in *. split; [|by eauto].
  split; cbn; try done. clearbody life. lia.
Qed.

(** The id of 18 random bytes. *)
Lemma assertion_id_ok raw : raw <> "" -> len raw = 18 -> validScopeID ("ast_" ++ b64_encode raw) "ast_" = true.
Proof.
  intros Hne Hlen. unfold validScopeID. rewrite HasPrefix_app, len_app. pose proof (b64_length raw) as Hb.
  assert (0 < len (b64_encode raw)) as Hp.
  { pose proof (b64_encode_nonempty raw Hne). destruct (b64_encode raw); [done|]. unfold len. cbn [String.length]. lia. }
  change (len "ast_") with 4. destruct (Z.ltb_spec 4 (4 + len (b64_encode raw))); [|lia].
  destruct (Z.leb_spec (4 + len (b64_encode raw)) 200); [|lia]. cbn [andb].
  unfold has_blank, ContainsAny, exists_byte. rewrite negb_involutive, forall_bytes_app.
  apply andb_true_iff. split; [reflexivity|]. eapply forall_bytes_impl; [|apply b64_encode_safe].
  intros x Hx. assert (forall d, b64_safe d = false -> Ascii.eqb x d = false) as Hd.
  { intros d Hd. apply Ascii.eqb_neq. intros ->. congruence. }
  unfold contains_byte, exists_byte, MembershipCommand.blanks. cbn [forall_bytes].
  by rewrite !Hd by reflexivity.
Qed.

Lemma validate_issued i token c now m :
  issued i token c -> validScopeID (cl_AssertionID c) "ast_" = true -> is_maxLifetime i <= 15 * Minute ->
  zero_time < cl_IssuedAt c ->
  validateClaims (with_replayed m i) c now =
    if now + is_clockSkew i <? cl_IssuedAt c then Err (Sentinel ErrAssertionNotYetValid)
    else if cl_ExpiresAt c <=? now then Err (Sentinel ErrAssertionExpired) else Ok tt.
Proof.
  intros [] Hid Hmax Hz. unfold validateClaims. cbn [is_issuer is_audiences is_maxLifetime is_clockSkew with_replayed].
  rewrite isd_version0, isd_issuer0, isd_audience0, isd_user0, isd_organisation0, isd_workspace0, Hid.
  rewrite Z.eqb_refl, String.eqb_refl. cbn [negb orb]. unfold IsZero, After.
  destruct (Z.eqb_spec (cl_IssuedAt c) zero_time); [lia|]. destruct (Z.eqb_spec (cl_ExpiresAt c) zero_time); [lia|].
  destruct (Z.ltb_spec (cl_IssuedAt c) (cl_ExpiresAt c)); [|lia]. cbn [negb orb].
  assert ((is_maxLifetime i <? Sub (cl_ExpiresAt c) (cl_IssuedAt c)) = false) as ->.
  { apply Z.ltb_ge. unfold Sub, int64_min, int64_max, Minute, Second in *. lia. }
  by rewrite <-Z.leb_antisym.
Qed.

(** ** Steps of Verify *)
Lemma pruned_lookup_eq (m : gmap string Z) now k :
  filter (fun kv => After kv.2 now = true) m !! k =
  match m !! k with Some e => if now <? e then Some e else None | None => None end.
Proof.
  destruct (m !! k) as [e|] eqn:E.
  - destruct (now <? e) eqn:Ee.
    + by apply map_lookup_filter_Some_2.
    + apply map_lookup_filter_None_2. right. intros e' He'. rewrite E in He'. injection He' as <-.
      unfold After. cbn. by rewrite Ee.
  - apply map_lookup_filter_None_2. by left.
Qed.

Lemma Verify_Ok i token now clock c i' :
  Verify i token now clock = (Ok c, i') -> now <> zero_time ->
  check_token i token now = Ok c /\
  filter (fun kv => After kv.2 now = true) (is_replayed i) !! cl_AssertionID c = None /\
  is_replayed i' = <[cl_AssertionID c := cl_ExpiresAt c]> (filter (fun kv => After kv.2 now = true) (is_replayed i)).
Proof.
  unfold Verify, IsZero. intros HV Hz. destruct (Z.eqb_spec now zero_time); [done|].
  destruct (check_token i token now) as [d|]; [|done]. destruct (_ !! _) eqn:E in HV; [done|].
  injection HV as -> <-. done.
Qed.

(** The id of [c] is remembered until its expiry, or [now] is past it. *)
Definition remembers (c : Claims) (now : Z) (i : Issuer) : Prop :=
  is_replayed i !! cl_AssertionID c = Some (cl_ExpiresAt c) \/ cl_ExpiresAt c <= now.

Lemma Verify_remembers i token t clock c i' now :
  Verify i token t clock = (Ok c, i') -> t <> zero_time -> remembers c now i'.
Proof.
  intros HV Hz. apply Verify_Ok in HV as (_ & _ & Hm); [|done]. left. by rewrite Hm, lookup_insert_eq.
Qed.

Lemma Verify_keeps i token t clock c now :
  t <> zero_time -> t <= now -> remembers c now i -> remembers c now (Verify i token t clock).2.
Proof.
  intros Hz Ht [Hi|?]; [|by right]. unfold Verify, IsZero. destruct (Z.eqb_spec t zero_time); [done|].
  destruct (Z.ltb_spec t (cl_ExpiresAt c)) as [Hlt|]; [|right; lia]. apply Z.ltb_lt in Hlt.
  assert (filter (fun kv => After kv.2 t = true) (is_replayed i) !! cl_AssertionID c = Some (cl_ExpiresAt c)) as Hk.
  { by rewrite pruned_lookup_eq, Hi, Hlt. }
  destruct (check_token i token t) as [d|]; [|by left].
  destruct (_ !! cl_AssertionID d) eqn:E; cbn [snd]; left; [done|].
  cbn [is_replayed with_replayed]. rewrite lookup_insert_ne; [done|]. intros Heq. rewrite Heq in E. congruence.
Qed.

Lemma check_token_Ok i token now c :
  check_token i token now = Ok c ->
  exists p0 p1 p2 h pk signature payload, Split token "." = [p0; p1; p2] /\
    is_publicKeys i !! hd_KeyID h = Some pk /\ b64_decode p0 <> None /\ b64_decode p2 = Some signature /\
    ed_verify pk (p0 ++ "." ++ p1) signature = true /\ b64_decode p1 = Some payload /\
    decode_claims payload = Ok c /\ validateClaims i c now = Ok tt.
Proof.
  unfold check_token, invalid. destruct (Split token ".") as [|p0 [|p1 [|p2 [|]]]]; try discriminate.
  destruct (_ || _); [discriminate|]. destruct (b64_decode p0) as [hb|] eqn:E0; [|discriminate].
  destruct (decode_header hb) as [h|]; [|discriminate]. destruct (_ || _); [discriminate|].
  destruct (is_publicKeys i !! hd_KeyID h) as [pk|] eqn:Ek; [|discriminate].
  destruct (b64_decode p2) as [sig|] eqn:E2; [|discriminate]. destruct (_ || _) eqn:Es; [discriminate|]. bool_hyps.
  destruct (b64_decode p1) as [payload|] eqn:E1; [|discriminate].
  destruct (decode_claims payload) as [d|] eqn:Ed; [|discriminate].
  destruct (validateClaims i d now) as [[]|] eqn:Ev; [|discriminate]. intros <-%Ok_inj.
  exists p0, p1, p2, h, pk, sig, payload. by rewrite E0.
Qed.

Lemma validate_Ok i c now :
  validateClaims i c now = Ok tt ->
  cl_Issuer c = is_issuer i /\ In (cl_Audience c) (is_audiences i) /\ now < cl_ExpiresAt c.
Proof.
  unfold validateClaims. intros H0. repeat (destruct (negb _ || _) eqn:? in H0 || destruct (_ || _) eqn:? in H0
    || destruct (negb _) eqn:? in H0 || destruct (After _ _) eqn:? in H0); try discriminate.
  bool_hyps. unfold After in *. split; [by apply String.eqb_eq|]. split; [|lia].
  match goal with He : existsb _ _ = true |- _ => apply existsb_exists in He as (x & Hx & ->%String.eqb_eq) end. done.
Qed.

Lemma check_token_live i token now c : check_token i token now = Ok c -> now < cl_ExpiresAt c.
Proof. intros (? & ? & ? & ? & ? & ? & ? & _ & _ & _ & _ & _ & _ & _ & Hv)%check_token_Ok. apply (validate_Ok _ _ _ Hv). Qed.


(** ** Claims *)
Context {laws : Ed25519Laws}.

(** C30: an issued assertion verifies exactly while it is valid, when its texts are
    UTF-8 and its encoded header and claims are within the 2048 and 4096 bytes that
    Verify reads (Issue checks neither). Whatever the replay map of the issuer holds,
    the token [Issue] returned, with an id of 18 random bytes, is refused as not yet
    valid before its issue time less the clock skew, as expired from its expiry on, as
    a replay while its id is remembered, and otherwise gives back exactly the claims it
    was issued with. *)
Theorem issued_verifies config i r at_ clock raw token c m now clock' :
  New config = Ok i -> Issue i r at_ clock (Some raw) = Ok (token, c) -> len raw = 18 ->
  header_encodable (is_activeKeyID i) -> claims_encodable c -> zero_time < cl_IssuedAt c -> now <> zero_time ->
  (Verify (with_replayed m i) token now clock').1 =
    if now + is_clockSkew i <? cl_IssuedAt c then Err (Sentinel ErrAssertionNotYetValid)
    else if cl_ExpiresAt c <=? now then Err (Sentinel ErrAssertionExpired)
    else match m !! cl_AssertionID c with
         | Some expiry => if now <? expiry then Err (Sentinel ErrAssertionReplay) else Ok c
         | None => Ok c
         end.
Proof.
  intros HN HI Hraw Hh Hc Hz Hnow. apply New_issuer_Ok in HN as (Htext & _ & Hlen & Hkey & Hlife & _).
  apply Issue_Ok in HI as (Hi & (raw' & [= <-] & Hid) & _).
  assert (validScopeID (cl_AssertionID c) "ast_" = true) as Hast.
  { rewrite Hid. apply assertion_id_ok; [|done]. by intros ->. }
  unfold Verify. unfold IsZero. destruct (Z.eqb_spec now zero_time); [done|].
  rewrite (isd_token _ _ _ Hi).
  rewrite (check_signed _ _ c _ (ed_public (is_privateKey i))); try done.
  - rewrite (validate_issued i token c) by (done || lia).
    destruct (now + is_clockSkew i <? cl_IssuedAt c); [done|]. destruct (cl_ExpiresAt c <=? now); [done|].
    cbn [is_replayed with_replayed]. rewrite pruned_lookup_eq. by destruct (m !! _) as [e|]; [destruct (now <? e)|].
  - by destruct Hi.
  - by destruct Hi.
  - apply ed_sign_length.
  - apply ed_verify_sign.
Qed.

(** A sequence of verifications on one issuer, with the times they see. *)
Definition verify_all (calls : list (string * Z)) (i : Issuer) (clock : Z) : Issuer :=
  fold_left (fun i x => (Verify i x.1 x.2 clock).2) calls i.

(** C32: an assertion is accepted once. After a verification accepted some claims,
    and after any other verifications at times up to [now], one at [now] that
    accepts claims with the same assertion id does so only when the first have
    expired, and never accepts the same claims again. *)
Theorem assertion_single_use i token c i' calls clock token' now c' i'' t :
  Verify i token t clock = (Ok c, i') -> t <> zero_time -> now <> zero_time ->
  Forall (fun x : string * Z => x.2 <> zero_time /\ x.2 <= now) calls ->
  Verify (verify_all calls i' clock) token' now clock = (Ok c', i'') ->
  cl_AssertionID c' = cl_AssertionID c -> cl_ExpiresAt c <= now /\ c' <> c.
Proof.
  intros H1 Ht Hnow Hcalls H2 Hid.
  assert (remembers c now i') as Hr by (by eapply Verify_remembers).
  assert (remembers c now (verify_all calls i' clock)) as Hr'.
  { clear -Hcalls Hr. revert i' Hr. induction Hcalls as [|[tok t] calls [Hz Ht] Hcalls IH]; intros i' Hr; [done|].
    cbn [verify_all fold_left fst snd]. apply IH. by apply Verify_keeps. }
  apply Verify_Ok in H2 as (Hcheck & Hnone & _); [|done].
  assert (cl_ExpiresAt c <= now) as Hexp.
  { destruct Hr' as [Hr'|?]; [|done]. rewrite Hid, pruned_lookup_eq, Hr' in Hnone.
    destruct (Z.ltb_spec now (cl_ExpiresAt c)); [done|lia]. }
  split; [done|]. intros ->. apply check_token_live in Hcheck. lia.
Qed.


End Issuing.

(** ** A concrete issuer, its product and two assertions *)
Module Sample.
Definition sk := fit 64 "private".
#[export] Instance toy_ed25519 : Ed25519 := {|
  ed_public k := fit 32 k; ed_sign k m := fit 64 (k ++ m); ed_verify _ _ _ := true |}.
#[export] Instance toy_laws : Ed25519Laws.
Proof. split; intros; [apply (len_fit 32)|apply (len_fit 64)|done]. Qed.
(** One that checks: a signature is the public key and the start of the message. *)
Definition keyed : Ed25519 := {|
  ed_public k := fit 32 k; ed_sign k m := fit 64 (fit 32 k ++ m); ed_verify p m s := s =s fit 64 (p ++ m) |}.
Lemma keyed_laws : @Ed25519Laws keyed.
Proof. split; intros; [apply (len_fit 32)|apply (len_fit 64)|apply String.eqb_refl]. Qed.
Definition config :=
  mkConfig "https://platform.example" "key-1" sk [] ["tockrctrl"; "tockrims"] (10 * Minute) (5 * Second).
Definition verifier_config :=
  mkVerifierConfig "https://platform.example" [("key-1", fit 32 sk)] ["tockrctrl"] (10 * Minute) (5 * Second).
Definition request := mkIssueRequest "tockrctrl" "usr_1" "org_1" "wsp_1" 0.
Definition raw := fit 18 "random".
Definition t0 : Z := 1767225600 * Second.
Definition t1 : Z := t0 + 10 * Minute.
Definition no_claims := mkClaims "" "" "" "" "" 0 0 "" 0.
Definition no_issuer := mkIssuer "" "" "" ∅ [] 0 0 ∅.
Definition platform : Issuer := Eval vm_compute in match New config with Ok i => i | Err _ => no_issuer end.
Definition product : Issuer := Eval vm_compute in match NewVerifier verifier_config with Ok i => i | Err _ => no_issuer end.
Definition issue_at (t : Z) : string * Claims :=
  match Issue platform request t t (Some raw) with Ok x => x | Err _ => ("", no_claims) end.
Definition token0 := Eval vm_compute in (issue_at t0).1.
Definition claims0 := Eval vm_compute in (issue_at t0).2.
Definition token1 := Eval vm_compute in (issue_at t1).1.
Definition claims1 := Eval vm_compute in (issue_at t1).2.
Definition signed0 := signed_text "key-1" (encode_fields (claims_fields claims0)).
(** Identifiers that the JSON encoder writes with six bytes a character. *)
Definition wide (prefix : string) : string := prefix ++ string_of_list_ascii (repeat "<"%char 196).
Definition wide_request := mkIssueRequest "tockrctrl" (wide "usr_") (wide "org_") (wide "wsp_") 0.
Definition wide_token := Eval vm_compute in
  match Issue platform wide_request t0 t0 (Some raw) with Ok x => x.1 | Err _ => "" end.
End Sample.

Lemma issued_verifies_witness :
  (Verify (H:=Sample.toy_ed25519) (with_replayed ∅ Sample.platform) Sample.token0 Sample.t0 0).1 = Ok Sample.claims0.
Proof.
  transitivity (if Sample.t0 + is_clockSkew Sample.platform <? cl_IssuedAt Sample.claims0
      then Err (Sentinel ErrAssertionNotYetValid)
      else if cl_ExpiresAt Sample.claims0 <=? Sample.t0 then Err (Sentinel ErrAssertionExpired)
      else match (∅ : gmap string Z) !! cl_AssertionID Sample.claims0 with
           | Some expiry => if Sample.t0 <? expiry then Err (Sentinel ErrAssertionReplay) else Ok Sample.claims0
           | None => Ok Sample.claims0
           end); [|vm_compute; reflexivity].
  apply (issued_verifies (H:=Sample.toy_ed25519) (laws:=Sample.toy_laws)
    Sample.config Sample.platform Sample.request Sample.t0 Sample.t0 Sample.raw).
  - vm_compute; reflexivity.
  - vm_compute; reflexivity.
  - vm_compute; reflexivity.
  - split; [vm_compute; reflexivity|apply Z.leb_le; vm_compute; reflexivity].
  - split; [vm_compute; reflexivity|split; [vm_compute; reflexivity|apply Z.leb_le; vm_compute; reflexivity]].
  - apply Z.ltb_lt. vm_compute. reflexivity.
  - apply Z.eqb_neq. vm_compute. reflexivity.
Defined.

Definition sample_first := Eval vm_compute in
  Verify (H:=Sample.toy_ed25519) Sample.product Sample.token0 (Sample.t0 + Second) 0.
Definition sample_second := Eval vm_compute in
  Verify (H:=Sample.toy_ed25519) sample_first.2 Sample.token1 (Sample.t1 + Second) 0.
Lemma assertion_single_use_witness :
  cl_AssertionID Sample.claims1 = cl_AssertionID Sample.claims0 /\
  cl_ExpiresAt Sample.claims0 <= Sample.t1 + Second /\ Sample.claims1 <> Sample.claims0.
Proof.
  split; [vm_compute; reflexivity|].
  apply (assertion_single_use (H:=Sample.toy_ed25519) Sample.product Sample.token0 Sample.claims0 sample_first.2
    [(Sample.token0, Sample.t0 + 2 * Second)] 0 Sample.token1 (Sample.t1 + Second) Sample.claims1 sample_second.2
    (Sample.t0 + Second)).
  - vm_compute; reflexivity.
  - apply Z.eqb_neq. vm_compute. reflexivity.
  - apply Z.eqb_neq. vm_compute. reflexivity.
  - constructor; [|constructor]. split; [apply Z.eqb_neq|apply Z.leb_le]; vm_compute; reflexivity.
  - vm_compute; reflexivity.
  - vm_compute; reflexivity.
Defined.

(** Issue accepts identifiers that make a token longer than Verify reads. *)
Example wide_token_unverifiable :
  (exists c, Issue (H:=Sample.toy_ed25519) Sample.platform Sample.wide_request Sample.t0 Sample.t0 (Some Sample.raw)
     = Ok (Sample.wide_token, c))
  /\ (Verify (H:=Sample.toy_ed25519) Sample.platform Sample.wide_token Sample.t0 0).1 = Err (Sentinel ErrInvalidAssertion).
Proof. split; [eexists|]; vm_compute; reflexivity. Qed.

(** Under [keyed] a token with another signature is refused. *)
Example forged_refused :
  (Verify (H:=Sample.keyed) Sample.product (Sample.signed0 ++ "." ++ b64_encode (fit 64 "forged")) Sample.t0 0).1
  = Err (Sentinel ErrInvalidAssertion).
Proof. vm_compute. reflexivity. Qed.
End Assertion.
