(* ===== verification/Identity.v ===== *)
(** internal/db/sqlite/users.go, sessions.go and audit.go: accounts, browser
    sessions and the security log. [now] is the value of time.Now(), [salt] and
    [rand] the random bytes an operation draws. *)
From stdpp Require Import base tactics list strings.
From Stdlib Require Import ZArith Lia Ascii String Sorted.
From S2P Require Import Prelude GoStrings GoTime Codec Json Errors Domain Events Schema Outbox Auth.

Local Open Scope string_scope.
Local Open Scope Z_scope.

(** internal/store/identity.go *)
Record LoginCredential := mkCredential { lc_User : User; lc_PasswordHash : string }.
Record Session := mkSession { sn_UserID : string; sn_CSRFToken : string; sn_ExpiresAt : Z }.
Record AuthenticatedSession := mkAuthenticatedSession { as_Session : Session; as_User : User }.

(** ** users.go *)

(** The columns of a user as a [domain.User]; [hash] is the password hash the
    query exposes. *)
Definition user_of_row (hash : string) (r : UserRow) : User :=
  mkUser (u_public_id r) (u_email r) (u_display_name r) hash (u_active r) (u_mfa_enabled r)
    (parseTime (u_created_at r)) (option_map parseTime (u_last_login_at r)).

Definition with_active (v : bool) (r : UserRow) : UserRow :=
  mkUserRow (u_id r) (u_public_id r) (u_email r) (u_display_name r) (u_password_hash r) v
    (u_created_at r) (u_last_login_at r) (u_mfa_enabled r) (u_mfa_secret r) (u_mfa_last_step r).
Definition with_last_login (v : string) (r : UserRow) : UserRow :=
  mkUserRow (u_id r) (u_public_id r) (u_email r) (u_display_name r) (u_password_hash r) (u_active r)
    (u_created_at r) (Some v) (u_mfa_enabled r) (u_mfa_secret r) (u_mfa_last_step r).

Definition has_public_id (publicID : string) (r : UserRow) : bool := u_public_id r =s publicID.

Section Users.
Context `{UnicodeTables} `{Crypto}.

Definition CreateUser (user : User) (password salt : string) (now : Z) (rand : option string)
  : St DB error User :=
  do! lift (User_Validate user) in
  do! require (is_ok (ValidatePassword password)) ErrInvalidPassword in
  let! hash := lift (wrap "hash user password" (HashPassword password salt)) in
  let createdAt := if IsZero (User_CreatedAt user) then now else User_CreatedAt user in
  do! within "create user" (insert_row users set_users users_ok (fun id =>
        mkUserRow id (User_ID user) (NormalizeEmail (User_Email user))
          (TrimSpace (User_DisplayName user)) hash (User_Active user) (formatTime createdAt)
          None false None (-1))) in
  do! within "record user creation event" (appendPlatformEventTx EventUserCreated (User_ID user) createdAt
        [("user_id", VString (User_ID user)); ("active", VBool (User_Active user))] rand) in
  ret (mkUser (User_ID user) (NormalizeEmail (User_Email user)) (User_DisplayName user) ""
         (User_Active user) (User_MFAEnabled user) createdAt (User_LastLoginAt user)).

Definition findUser (p : UserRow -> bool) (db : DB) : option User :=
  option_map (fun r => user_of_row (u_password_hash r) r) (find p (users db)).
Definition email_is (email : string) (r : UserRow) : bool := sql_lower (u_email r) =s sql_lower email.
Definition FindUserByEmail (email : string) (db : DB) : option User :=
  findUser (email_is (NormalizeEmail email)) db.
Definition FindUserByID (publicID : string) (db : DB) : option User :=
  findUser (has_public_id (TrimSpace publicID)) db.
Definition FindLoginCredential (email : string) (db : DB) : option LoginCredential :=
  option_map (fun r => mkCredential (user_of_row "" r) (u_password_hash r))
    (find (email_is (NormalizeEmail email)) (users db)).

Definition SetUserActive (publicID : string) (active : bool) (now : Z) (rand : option string)
  : St DB error unit :=
  let publicID := TrimSpace publicID in
  let! row := reads (fun db => find (has_public_id publicID) (users db)) in
  let! current := some_or row NoRows in
  if Bool.eqb (u_active current) active then ret tt
  else
    let! rows := reads (fun db => count (has_public_id publicID) (users db)) in
    do! modify (fun db => set_users (update (has_public_id publicID) (with_active active) (users db)) db) in
    do! require (rows =? 1) NoRows in
    within "record user status event" (appendPlatformEventTx EventUserStatusChanged publicID now
      [("user_id", VString publicID); ("active", VBool active)] rand).

Definition TouchLogin (publicID : string) (at_ : Z) : St DB error unit :=
  modify (fun db => set_users (update (has_public_id (TrimSpace publicID))
                                 (with_last_login (formatTime at_)) (users db)) db).
End Users.

(** ** audit.go *)

Definition insert_security_event (userID : option Z) (event details : string) (at_ : Z) : St DB error unit :=
  do! insert_row security_events set_security_events no_check (fun id =>
        mkSecurityEventRow id userID event details (formatTime at_)) in
  ret tt.

Definition RecordSecurityEvent (publicUserID : option string) (event details : string) (at_ : Z)
  : St DB error unit :=
  match publicUserID with
  | Some id =>
      if negb (id =s "") then
        let! row := reads (fun db => find (has_public_id id) (users db)) in
        let! user := some_or row (Wrap "resolve audit user" NoRows) in
        insert_security_event (Some (u_id user)) event details at_
      else insert_security_event None event details at_
  | None => insert_security_event None event details at_
  end.
Definition SecurityEventCount (event : string) (db : DB) : Z :=
  count (fun r => se_event r =s event) (security_events db).
Definition UserCount (db : DB) : Z := Z.of_nat (List.length (users db)).

(** ** sessions.go *)

Definition maxSessionLifetime : Z := 30 * 24 * Hour.

Definition validateSessionExpiry (createdAt expiresAt : Z) : res unit :=
  if negb (After expiresAt createdAt) || After expiresAt (createdAt + maxSessionLifetime)
  then Err (Text "session expiry is outside the bounded lifetime") else Ok tt.

Definition with_revoked (at_ : Z) (r : SessionRow) : SessionRow :=
  mkSessionRow (s_id r) (s_user_id r) (s_token_hash r) (s_csrf_hash r) (s_created_at r) (s_expires_at r)
    (match s_revoked_at r with Some v => Some v | None => Some (formatTime at_) end).

Section Sessions.
Context `{Crypto}.

Definition session_row (userID : Z) (token csrf : string) (createdAt expiresAt : Z) (id : Z) : SessionRow :=
  mkSessionRow id userID (HashToken token) (HashToken csrf) (formatTime createdAt)
    (formatTime expiresAt) None.

Definition tokens_given (userID token csrfToken : string) : bool :=
  negb (blank userID || blank token || blank csrfToken).

Definition CreateSession (userID token csrfToken : string) (expiresAt now : Z) : St DB error unit :=
  do! require (tokens_given userID token csrfToken) (Text "session user and tokens are required") in
  do! lift (validateSessionExpiry now expiresAt) in
  let! row := reads (fun db => active_user db userID) in
  let! user := some_or row (Wrap "resolve session user" NoRows) in
  do! insert_row sessions set_sessions sessions_ok
        (session_row (u_id user) token csrfToken now expiresAt) in
  ret tt.

Definition EstablishSession (userID token csrfToken : string) (expiresAt loginAt : Z) : St DB error unit :=
  do! require (tokens_given userID token csrfToken) (Text "session user and tokens are required") in
  do! lift (validateSessionExpiry loginAt expiresAt) in
  let! row := reads (fun db => active_user db userID) in
  let! user := some_or row (Wrap "resolve session user" NoRows) in
  do! within "create session" (insert_row sessions set_sessions sessions_ok
        (session_row (u_id user) token csrfToken loginAt expiresAt)) in
  do! modify (fun db => set_users (update (fun u => u_id u =? u_id user)
                                     (with_last_login (formatTime loginAt)) (users db)) db) in
  within "record login audit" (insert_security_event (Some (u_id user)) "login" "password" loginAt).

(** The WHERE clause of AuthenticatedSession on the session columns. *)
Definition session_live (token : string) (now : Z) (s : SessionRow) : bool :=
  (s_token_hash s =s HashToken token) && is_none (s_revoked_at s)
  && text_lt (formatTime now) (s_expires_at s).

Definition AuthenticatedSession_ (token : string) (now : Z) (db : DB) : res AuthenticatedSession :=
  let joined := flat_map (fun s => map (pair s)
                  (select (fun u => (u_id u =? s_user_id s) && session_live token now s && u_active u)
                     (users db))) (sessions db) in
  match joined with
  | [] => Err NoRows
  | (s, u) :: _ =>
      Ok (mkAuthenticatedSession (mkSession (u_public_id u) "" (parseTime (s_expires_at s)))
            (user_of_row "" u))
  end.

Definition has_token (token : string) (s : SessionRow) : bool := s_token_hash s =s HashToken token.

Definition SessionCSRFHash (token : string) (db : DB) : res string :=
  match find (fun s => has_token token s && is_none (s_revoked_at s)) (sessions db) with
  | Some s => Ok (s_csrf_hash s)
  | None => Err NoRows
  end.
Definition VerifySessionCSRF (token csrfToken : string) (db : DB) : res bool :=
  let? hash := SessionCSRFHash token db in Ok (VerifyTokenHash hash csrfToken).

Definition RevokeSession (token : string) (at_ : Z) : St DB error unit :=
  modify (fun db => set_sessions (update (has_token token) (with_revoked at_) (sessions db)) db).

Definition RevokeSessionAndRecordLogout (token userID : string) (at_ : Z) : St DB error unit :=
  let! user := reads (fun db => find (has_public_id userID) (users db)) in
  let owned s := has_token token s
                 && match user with Some u => s_user_id s =? u_id u | None => false end in
  let! rows := reads (fun db => count owned (sessions db)) in
  do! modify (fun db => set_sessions (update owned (with_revoked at_) (sessions db)) db) in
  do! require (rows =? 1) NoRows in
  let! u := some_or user (Wrap "resolve logout user" NoRows) in
  within "record logout audit" (insert_security_event (Some (u_id u)) "logout" "session revoked" at_).

Definition expired (now : Z) (s : SessionRow) : bool := text_le (s_expires_at s) (formatTime now).

Definition CleanupExpiredSessions (now n : Z) : St DB error Z :=
  do! require (0 <? n) (Text "session cleanup limit must be positive") in
  let! (rows, left_) := reads (fun db => delete_oldest s_id s_expires_at (expired now) n (sessions db)) in
  do! modify (set_sessions left_) in
  ret rows.
End Sessions.

(** ** The user table *)

Record users_wf (t : list UserRow) : Prop := {
  wf_user_ids : ids_unique t;
  wf_user_public_ids : NoDup (map u_public_id t) }.
Definition user_inv (db : DB) : Prop := users_wf (users db).

Lemma users_wf_snoc t u :
  users_wf t -> u_id u = next_id t -> users_ok t u = true -> users_wf (t ++ [u])%list.
Proof.
  intros Hwf Hid Hok. unfold users_ok in Hok. bool_hyps. split.
  - by apply ids_unique_snoc; [apply Hwf|].
  - by apply NoDup_map_snoc; [apply Hwf|].
Qed.

Lemma users_wf_update t p f :
  (forall u, u_id (f u) = u_id u) -> (forall u, u_public_id (f u) = u_public_id u) ->
  users_wf t -> users_wf (update p f t).
Proof.
  intros Hi Hp Hwf. split.
  - apply ids_unique_update; [done|apply Hwf].
  - rewrite map_update by auto. apply Hwf.
Qed.

(** The active user with a public identifier, when identifiers are unique. *)
Lemma active_user_Some db uid u :
  user_inv db -> active_user db uid = Some u <-> In u (users db) /\ u_public_id u = uid /\ u_active u = true.
Proof.
  intros Hwf. unfold active_user. split.
  - intros [Hin Hu]%find_some. unfold is_active_user in Hu. bool_hyps.
    split_and!; try done. by apply String.eqb_eq.
  - intros (Hin & Hid & Ha). destruct (find _ _) as [v|] eqn:E.
    + apply find_some in E as [Hv Hp]. unfold is_active_user in Hp. bool_hyps.
      f_equal. eapply (NoDup_map_inj_in u_public_id); [apply Hwf|done..|].
      rewrite Hid. by apply String.eqb_eq.
    + apply (find_none _ _ E) in Hin. unfold is_active_user in Hin.
      by rewrite Hid, String.eqb_refl, Ha in Hin.
Qed.

(** ** The session invariant *)

Definition bounded_session (s : SessionRow) : Prop :=
  exists c e, s_created_at s = formatTime c /\ s_expires_at s = formatTime e
    /\ four_digit_year e /\ c < e <= c + maxSessionLifetime.

Record sessions_wf (t : list SessionRow) : Prop := {
  wf_session_ids : ids_unique t;
  wf_session_tokens : NoDup (map s_token_hash t);
  wf_session_bounds : forall s, In s t -> bounded_session s }.
Definition session_inv (db : DB) : Prop := sessions_wf (sessions db).

Lemma sessions_wf_snoc t s :
  sessions_wf t -> s_id s = next_id t -> sessions_ok t s = true -> bounded_session s ->
  sessions_wf (t ++ [s])%list.
Proof.
  intros Hwf Hid Hok Hb. split.
  - by apply ids_unique_snoc; [apply Hwf|].
  - by apply NoDup_map_snoc; [apply Hwf|].
  - intros x [Hx|[<-|[]]]%in_app_or; [by apply Hwf|done].
Qed.

Lemma sessions_wf_revoke t p at_ : sessions_wf t -> sessions_wf (update p (with_revoked at_) t).
Proof.
  intros Hwf. split.
  - apply ids_unique_update; [done|apply Hwf].
  - rewrite map_update by done. apply Hwf.
  - intros s (x & Hx & ->)%in_update. destruct (wf_session_bounds _ Hwf x Hx) as (c & e & ?).
    exists c, e. by destruct (p x).
Qed.

Lemma sessions_wf_delete t p : sessions_wf t -> sessions_wf (delete_rows p t).
Proof.
  intros Hwf. split.
  - unfold ids_unique, delete_rows. apply NoDup_map_filter, Hwf.
  - apply NoDup_map_filter, Hwf.
  - intros s [Hs _]%filter_In. by apply Hwf.
Qed.

Lemma validateSessionExpiry_Ok c e u :
  validateSessionExpiry c e = Ok u -> c < e <= c + maxSessionLifetime.
Proof.
  unfold validateSessionExpiry, After. intros H.
  destruct (Z.ltb_spec c e), (Z.ltb_spec (c + maxSessionLifetime) e); simpl in H; done.
Qed.

Section SessionLemmas.
Context `{Crypto}.

Lemma preserves_session_insert get uid token csrf c e :
  get = sessions -> four_digit_year e -> c < e <= c + maxSessionLifetime ->
  preserves session_inv (insert_row get set_sessions sessions_ok (session_row uid token csrf c e)).
Proof.
  intros -> He Hce. apply preserves_insert. intros db Hdb Hok.
  apply sessions_wf_snoc; [done..|]. by exists c, e.
Qed.

Lemma preserves_CreateSession uid token csrf e now :
  four_digit_year e -> preserves session_inv (CreateSession uid token csrf e now).
Proof.
  intros He. unfold CreateSession. frame_tx.
  apply preserves_session_insert; [done..|]. by eapply validateSessionExpiry_Ok.
Qed.

Lemma preserves_EstablishSession uid token csrf e loginAt :
  four_digit_year e -> preserves session_inv (EstablishSession uid token csrf e loginAt).
Proof.
  intros He. unfold EstablishSession, insert_security_event. frame_tx.
  apply preserves_session_insert; [done..|]. by eapply validateSessionExpiry_Ok.
Qed.

Lemma preserves_RevokeSession token t : preserves session_inv (RevokeSession token t).
Proof. apply preserves_modify. intros db. apply sessions_wf_revoke. Qed.

Lemma preserves_Logout token uid t : preserves session_inv (RevokeSessionAndRecordLogout token uid t).
Proof.
  unfold RevokeSessionAndRecordLogout, insert_security_event. frame_tx.
  apply preserves_modify. intros db. apply sessions_wf_revoke.
Qed.

Lemma preserves_Cleanup now n : preserves session_inv (CleanupExpiredSessions now n).
Proof.
  intros db k db' Hop Hwf. unfold CleanupExpiredSessions in Hop. inv_db.
  match goal with E : delete_oldest _ _ _ _ _ = _ |- _ => injection E as <- <- end.
  by apply sessions_wf_delete.
Qed.

(** What an accepted session is. *)
Lemma AuthenticatedSession_Ok token now db r :
  AuthenticatedSession_ token now db = Ok r ->
  exists s u, In s (sessions db) /\ In u (users db) /\ session_live token now s = true
    /\ u_id u = s_user_id s /\ u_active u = true
    /\ r = mkAuthenticatedSession (mkSession (u_public_id u) "" (parseTime (s_expires_at s)))
             (user_of_row "" u).
Proof.
  unfold AuthenticatedSession_. set (l := flat_map _ _). destruct l as [|[s u] l'] eqn:E; [done|].
  assert (In (s, u) l) as Hin by (rewrite E; by left). intros [= <-]. subst l.
  apply in_flat_map in Hin as (s' & Hs & (u' & [= -> ->] & [Hu Hp]%filter_In)%in_map_iff).
  bool_hyps. exists s, u. split_and!; try done. by apply Z.eqb_eq.
Qed.

Lemma AuthenticatedSession_complete token now db s u :
  In s (sessions db) -> In u (users db) -> session_live token now s = true ->
  u_id u = s_user_id s -> u_active u = true ->
  is_ok (AuthenticatedSession_ token now db) = true.
Proof.
  intros Hs Hu Hl Hid Ha. unfold AuthenticatedSession_. set (l := flat_map _ _).
  assert (In (s, u) l) as Hin.
  { apply in_flat_map. exists s. split; [done|]. apply in_map, filter_In.
    by rewrite Hid, Z.eqb_refl, Hl, Ha. }
  by destruct l as [|[] ?].
Qed.
End SessionLemmas.

(** Text comparison of instants, up to the second. *)
Lemma text_lt_Unix a b :
  four_digit_year a -> four_digit_year b -> text_lt (formatTime a) (formatTime b) = true -> Unix a <= Unix b.
Proof.
  intros Ha Hb H. destruct (Z.le_gt_cases (Unix a) (Unix b)) as [|Hgt]; [done|].
  pose proof (formatTime_order b a Hb Ha Hgt) as H'.
  pose proof (text_lt_trans _ _ _ H H') as Hc. by rewrite text_lt_irrefl in Hc.
Qed.

(** ** Properties *)
Section Properties.
Context `{Crypto}.

(** C24: a session token is accepted only for a stored, unrevoked session of an
    active user that has not expired by a whole second, and the session that
    is reported is that one; conversely every such session whose expiry second
    lies ahead is accepted. (Within the expiry second the text comparison of
    the stored times decides.) *)
Theorem session_decision token now db :
  session_inv db -> four_digit_year now ->
  (forall r, AuthenticatedSession_ token now db = Ok r ->
     exists s u, In s (sessions db) /\ In u (users db) /\ s_token_hash s = HashToken token
       /\ s_revoked_at s = None /\ s_user_id s = u_id u /\ u_active u = true
       /\ sn_UserID (as_Session r) = u_public_id u
       /\ s_expires_at s = formatTime (sn_ExpiresAt (as_Session r))
       /\ Unix now <= Unix (sn_ExpiresAt (as_Session r)))
  /\ (forall s u e, In s (sessions db) -> In u (users db) -> s_token_hash s = HashToken token ->
        s_revoked_at s = None -> s_user_id s = u_id u -> u_active u = true ->
        s_expires_at s = formatTime e -> four_digit_year e -> Unix now < Unix e ->
        is_ok (AuthenticatedSession_ token now db) = true).
Proof.
  intros Hinv Hnow. split.
  - intros r (s & u & Hs & Hu & Hl & Hid & Ha & ->)%AuthenticatedSession_Ok.
    unfold session_live in Hl. bool_hyps.
    destruct (wf_session_bounds _ Hinv s Hs) as (c & e & _ & He & Hye & _).
    exists s, u. simpl. rewrite He, parse_formatTime by done.
    split_and!; try done; [by apply String.eqb_eq|by apply is_none_true|].
    apply text_lt_Unix; [done..|]. by rewrite <-He.
  - intros s u e Hs Hu Ht Hr Hid Ha He Hye Hlt.
    eapply AuthenticatedSession_complete; eauto. unfold session_live.
    rewrite Ht, String.eqb_refl, Hr, He. by apply formatTime_order.
Qed.

(** The cleanup of expired sessions never removes a session that has not
    expired, removes as many expired ones as the limit allows, reports how
    many, and takes the ones that expired first. *)
Theorem cleanup_expired now n db k db' :
  session_inv db -> CleanupExpiredSessions now n db = Ok (k, db') ->
  k = Z.min n (count (expired now) (sessions db))
  /\ k = Z.of_nat (List.length (sessions db)) - Z.of_nat (List.length (sessions db'))
  /\ (forall s, In s (sessions db') -> In s (sessions db))
  /\ (forall s, In s (sessions db) -> ~ In s (sessions db') -> expired now s = true
        /\ forall s', In s' (sessions db') -> expired now s' = true ->
           text_lt (s_expires_at s') (s_expires_at s) = false).
Proof.
  intros Hinv Hop. unfold CleanupExpiredSessions in Hop. inv_db.
  match goal with Hn : (0 <? n) = true |- _ => apply Z.ltb_lt in Hn end.
  eapply (delete_oldest_spec s_id s_expires_at); [apply Hinv|done|eassumption].
Qed.
End Properties.

(** ** Witnesses *)

(** One user with two sessions, one of which expires after a minute. *)
Definition sample_identity : St DB error unit :=
  do! @CreateUser ascii_tables toy_crypto (mkUser "usr_1" "a@example.com" "A" "" true false 0 None)
        "correct horse battery" "salt" (Second) (Some "0123456789abcdefgh") in
  do! @EstablishSession toy_crypto "usr_1" "token-1" "csrf" (60 * Second) Second in
  @EstablishSession toy_crypto "usr_1" "token-2" "csrf" (600 * Second) (2 * Second).
Definition sample_db : DB := snd (exec sample_identity empty_db).

Lemma sample_session_inv : session_inv sample_db.
Proof.
  unfold sample_db. apply (preserves_exec session_inv).
  - unfold sample_identity. apply preserves_bind; [|intros _].
    + unfold CreateUser, appendPlatformEventTx. frame_tx.
    + apply preserves_bind; [|intros _]; apply preserves_EstablishSession; unfold four_digit_year;
        vm_compute; intuition discriminate.
  - split; [constructor|constructor|done].
Qed.

Lemma session_decision_witness :
  is_ok (@AuthenticatedSession_ toy_crypto "token-1" (59 * Second) sample_db) = true
  /\ (forall r, @AuthenticatedSession_ toy_crypto "token-1" (59 * Second) sample_db = Ok r ->
        Unix (59 * Second) <= Unix (sn_ExpiresAt (as_Session r))).
Proof.
  split; [vm_compute; reflexivity|]. intros r Hr.
  destruct (@session_decision toy_crypto "token-1" (59 * Second) sample_db) as [Hs _].
  - apply sample_session_inv.
  - unfold four_digit_year. vm_compute. intuition discriminate.
  - destruct (Hs r Hr) as (s & u & _ & _ & _ & _ & _ & _ & _ & _ & Hle). exact Hle.
Defined.

Lemma cleanup_expired_witness :
  exists db', CleanupExpiredSessions (60 * Second) 10 sample_db = Ok (1, db')
    /\ 1 = Z.min 10 (count (expired (60 * Second)) (sessions sample_db)).
Proof.
  assert (exists db', CleanupExpiredSessions (60 * Second) 10 sample_db = Ok (1, db')) as [db' Hop].
  { eexists. vm_compute. reflexivity. }
  exists db'. split; [exact Hop|].
  exact (proj1 (cleanup_expired (60 * Second) 10 sample_db 1 db' sample_session_inv Hop)).
Defined.
