(* ===== verification/Mfa.v ===== *)
(** internal/db/sqlite/mfa.go: TOTP verification with replay protection,
    single-use recovery codes and bounded enrolment attempts. *)
From stdpp Require Import base tactics list strings.
From Stdlib Require Import ZArith Lia Ascii String Sorted.
From S2P Require Import Prelude GoStrings GoTime Codec Json Errors Domain Events Schema Outbox Auth.
From S2P Require Import Identity.

Local Open Scope string_scope.
Local Open Scope Z_scope.

Definition maxMFAEnrollmentAttempts : Z := 5.

Definition with_mfa_step (step : Z) (r : UserRow) : UserRow :=
  mkUserRow (u_id r) (u_public_id r) (u_email r) (u_display_name r) (u_password_hash r) (u_active r)
    (u_created_at r) (u_last_login_at r) (u_mfa_enabled r) (u_mfa_secret r) step.
Definition with_mfa (secret : string) (step : Z) (r : UserRow) : UserRow :=
  mkUserRow (u_id r) (u_public_id r) (u_email r) (u_display_name r) (u_password_hash r) (u_active r)
    (u_created_at r) (u_last_login_at r) true (Some secret) step.
Definition with_code_used (at_ : Z) (r : RecoveryCodeRow) : RecoveryCodeRow :=
  mkRecoveryCodeRow (rc_id r) (rc_user_id r) (rc_code_hash r) (rc_created_at r) (Some (formatTime at_)).
Definition with_enrollment (attempts : Z) (used : option string) (r : EnrollmentRow) : EnrollmentRow :=
  mkEnrollmentRow (en_id r) (en_user_id r) (en_token_hash r) (en_secret r) (en_expires_at r) attempts
    (en_created_at r) used.

Section Mfa.
Context `{UnicodeTables} `{Crypto} (secretKey : string).

(** [UPDATE users SET mfa_last_step=? WHERE public_id=? AND active=1 AND mfa_last_step<?] *)
Definition step_behind (userID : string) (step : Z) (r : UserRow) : bool :=
  is_active_user userID r && (u_mfa_last_step r <? step).

Definition VerifyMFA (userID code : string) (now : Z) : St DB error bool :=
  let! row := reads (fun db => active_user db userID) in
  match row with
  | None => ret false
  | Some u =>
      if negb (u_mfa_enabled u) || (default "" (u_mfa_secret u) =s "") then ret false
      else
        let! secret := lift (DecryptSecret secretKey (default "" (u_mfa_secret u))) in
        match MatchTOTP secret code now with
        | None => ret false
        | Some step =>
            if step <=? u_mfa_last_step u then ret false
            else
              let! rows := reads (fun db => count (step_behind userID step) (users db)) in
              do! modify (fun db => set_users (update (step_behind userID step) (with_mfa_step step)
                                                 (users db)) db) in
              ret (rows =? 1)
        end
  end.

Definition unused_code (userID : Z) (r : RecoveryCodeRow) : bool :=
  (rc_user_id r =? userID) && is_none (rc_used_at r).

Definition UseRecoveryCode (userID code : string) (at_ : Z) : St DB error bool :=
  let code := NormalizeRecoveryCode code in
  if code =s "" then ret false
  else
    let! row := reads (fun db => active_user db userID) in
    match row with
    | None => ret false
    | Some u =>
        if negb (u_mfa_enabled u) then ret false
        else
          let! codes := reads (fun db => limit 10 (select (unused_code (u_id u)) (mfa_recovery_codes db))) in
          match find (fun r => CheckPassword (rc_code_hash r) code) codes with
          | None => ret false
          | Some matched =>
              do! modify (fun db => set_mfa_recovery_codes
                    (update (fun r => (rc_id r =? rc_id matched) && is_none (rc_used_at r))
                       (with_code_used at_) (mfa_recovery_codes db)) db) in
              do! within "record recovery audit"
                    (insert_security_event (Some (u_id u)) "mfa_recovery_used" "recovery code" at_) in
              ret true
          end
    end.

(** [nonce] and [raw] are the random bytes of the cipher nonce and the token. *)
Definition CreateMFAEnrollment (userID secret : string) (expiresAt now : Z) (nonce : string)
    (raw : option string) : St DB error string :=
  do! lift (TOTPCode secret now) in
  let! ciphertext := lift (EncryptSecret secretKey secret nonce) in
  let! token := lift (NewOpaqueToken raw) in
  do! require (After expiresAt now && negb (After expiresAt (now + 30 * Minute)))
        (Text "MFA enrollment expiry is outside the bounded lifetime") in
  let! row := reads (fun db => active_user db userID) in
  let! u := some_or row (Wrap "resolve MFA enrollment user" NoRows) in
  do! require (negb (u_mfa_enabled u)) (Text "MFA is already enabled") in
  do! modify (fun db => set_mfa_enrollments
        (update (fun e => (en_user_id e =? u_id u) && is_none (en_used_at e))
           (fun e => with_enrollment (en_attempts e) (Some (formatTime now)) e) (mfa_enrollments db)) db) in
  do! within "create MFA enrollment" (insert_row mfa_enrollments set_mfa_enrollments enrollments_ok
        (fun id => mkEnrollmentRow id (u_id u) (HashToken token) ciphertext (formatTime expiresAt) 0
                     (formatTime now) None)) in
  ret token.

(** [SELECT ... FROM mfa_enrollments e JOIN users u ... WHERE e.token_hash=? AND
    e.used_at IS NULL AND u.public_id=? AND u.active=1 ORDER BY e.id DESC LIMIT 1] *)
Definition open_enrollment (userID token : string) (db : DB) : option (EnrollmentRow * UserRow) :=
  last (flat_map (fun e => map (pair e)
         (select (fun u => (u_id u =? en_user_id e) && (en_token_hash e =s HashToken token)
                           && is_none (en_used_at e) && is_active_user userID u) (users db)))
       (mfa_enrollments db)).

Definition update_enrollment (token : string) (p : EnrollmentRow -> bool)
    (f : EnrollmentRow -> EnrollmentRow) : St DB error unit :=
  modify (fun db => set_mfa_enrollments
    (update (fun e => (en_token_hash e =s HashToken token) && p e) f (mfa_enrollments db)) db).

Definition CompleteMFAEnrollment (userID token code : string) (recoveryHashes : list string) (at_ : Z)
  : St DB error bool :=
  do! require (Nat.eqb (List.length recoveryHashes) 10) (Text "exactly 10 recovery codes are required") in
  let! row := reads (open_enrollment userID token) in
  match row with
  | None => ret false
  | Some (e, u) =>
      if u_mfa_enabled u || negb (Before at_ (parseTime (en_expires_at e)))
         || (maxMFAEnrollmentAttempts <=? en_attempts e) then
        do! update_enrollment token (fun e => is_none (en_used_at e))
              (fun e => with_enrollment (en_attempts e) (Some (formatTime at_)) e) in
        ret false
      else
        let! secret := lift (DecryptSecret secretKey (en_secret e)) in
        if negb (VerifyTOTP secret code at_) then
          let attempts := en_attempts e + 1 in
          let usedAt := if maxMFAEnrollmentAttempts <=? attempts then Some (formatTime at_) else None in
          do! update_enrollment token (fun _ => true) (with_enrollment attempts usedAt) in
          ret false
        else
          let currentStep := totp_step at_ - 1 in
          do! modify (fun db => set_users (update (fun r => u_id r =? en_user_id e)
                                             (with_mfa (en_secret e) currentStep) (users db)) db) in
          do! modify (fun db => set_mfa_recovery_codes
                (delete_rows (fun r => rc_user_id r =? en_user_id e) (mfa_recovery_codes db)) db) in
          do! for_each recoveryHashes (fun hash =>
                do! require (negb (blank hash)) (Text "recovery code hash is empty") in
                do! within "store recovery code" (insert_row mfa_recovery_codes set_mfa_recovery_codes
                      no_check (fun id => mkRecoveryCodeRow id (en_user_id e) hash (formatTime at_) None)) in
                ret tt) in
          do! update_enrollment token (fun _ => true)
                (fun e => with_enrollment (en_attempts e) (Some (formatTime at_)) e) in
          do! within "record MFA audit" (insert_security_event (Some (en_user_id e)) "mfa_enabled"
                "totp and recovery codes" at_) in
          ret true
  end.
End Mfa.

(** ** Properties *)
Section Properties.
Context `{UnicodeTables} `{Crypto} (secretKey : string).

(** [code] is the user's code of time step [step], within one step of [now]. *)
Definition code_of_step (u : UserRow) (attempt : string * Z) (step : Z) : Prop :=
  exists secret, DecryptSecret secretKey (default "" (u_mfa_secret u)) = Ok secret
    /\ TOTPCode secret (step * 30 * Second) = Ok (TrimSpace attempt.1)
    /\ totp_step attempt.2 - 1 <= step <= totp_step attempt.2 + 1.

Lemma VerifyMFA_Ok userID code now db b db' :
  user_inv db -> VerifyMFA secretKey userID code now db = Ok (b, db') ->
  user_inv db' /\
  if b then exists u step, active_user db userID = Some u /\ code_of_step u (code, now) step
            /\ u_mfa_last_step u < step /\ active_user db' userID = Some (with_mfa_step step u)
  else db' = db \/ active_user db userID = None.
Proof.
  intros Hwf Hop. unfold VerifyMFA in *. inv_db; try (split; [done|by auto]).
  pose proof Heqo as Hu. apply (active_user_Some _ _ _ Hwf) in Heqo as (Hin & Hid & Ha). apply Z.leb_gt in Heqb1.
  match goal with Hm : MatchTOTP _ _ _ = Some _ |- _ => apply MatchTOTP_Some in Hm as [Hwin Hcode] end.
  set (db1 := set_users _ db).
  assert (user_inv db1) as Hwf1 by by apply users_wf_update.
  assert (step_behind userID z u = true) as Hb.
  { unfold step_behind, is_active_user. rewrite Hid, String.eqb_refl, Ha. by apply Z.ltb_lt. }
  rewrite (count_unique u_public_id _ _ u); [|apply Hwf|done|done|].
  2:{ intros v _ Hv. unfold step_behind, is_active_user in Hv. bool_hyps. rewrite Hid. by apply String.eqb_eq. }
  split; [done|]. exists u, z. split_and!; try done; [by eexists|].
  apply active_user_Some; [done|]. split_and!; try done. apply in_update. exists u. by rewrite Hb.
Qed.

(** A sequence of sign-in attempts with TOTP codes of one user, each committed
    before the next: the accepted ones, in order. *)
Fixpoint accepted (userID : string) (attempts : list (string * Z)) (db : DB) : list (string * Z) :=
  match attempts with
  | [] => []
  | attempt :: rest =>
      let (r, db') := exec (VerifyMFA secretKey userID attempt.1 attempt.2) db in
      match r with
      | Ok true => attempt :: accepted userID rest db'
      | _ => accepted userID rest db'
      end
  end.

(** C34: a TOTP code cannot be replayed. Whatever codes are presented at whatever
    times (clocks may even step back), every accepted code is the code of a time step
    within one step of its time, for the user's secret, and these steps strictly
    increase from each accepted code to the next, starting after the step recorded
    for the user: so no step is accepted twice, and no code again in its step. *)
Theorem mfa_steps_increase userID attempts db u :
  user_inv db -> active_user db userID = Some u ->
  exists steps, Forall2 (code_of_step u) (accepted userID attempts db) steps
    /\ StronglySorted Z.lt (u_mfa_last_step u :: steps).
Proof.
  revert db u. induction attempts as [|[code now] rest IH]; intros db u Hwf Hu.
  { exists []. split; [constructor|repeat constructor]. }
  cbn [accepted fst snd]. unfold exec.
  destruct (VerifyMFA secretKey userID code now db) as [[b db']|e] eqn:E; [|by apply IH].
  apply VerifyMFA_Ok in E as [Hwf' Hb]; [|done]. destruct b.
  - destruct Hb as (v & step & Hv & Hcode & Hlt & Hu'). rewrite Hu in Hv. injection Hv as <-.
    destruct (IH db' _ Hwf' Hu') as (steps & Hall & Hsort). exists (step :: steps). split.
    + constructor; [done|]. exact Hall.
    + cbn [u_mfa_last_step with_mfa_step] in Hsort. constructor; [done|].
      apply StronglySorted_inv in Hsort as [_ Hs]. constructor; [done|].
      eapply Forall_impl; [exact Hs|]. simpl. intros. lia.
  - destruct Hb as [->|Hn]; [by apply IH|congruence].
Qed.

(** A recovery code works once. A successful use consumes exactly one
    unused code of the active user, one whose hash matches, so the user has one
    code fewer; other users' codes are untouched. A refused attempt changes
    nothing. *)
Theorem recovery_code_single_use userID code t db b db' :
  ids_unique (mfa_recovery_codes db) ->
  UseRecoveryCode userID code t db = Ok (b, db') ->
  if b then
    exists u r, active_user db userID = Some u /\ u_mfa_enabled u = true
      /\ In r (mfa_recovery_codes db) /\ unused_code (u_id u) r = true
      /\ CheckPassword (rc_code_hash r) (NormalizeRecoveryCode code) = true
      /\ In (with_code_used t r) (mfa_recovery_codes db')
      /\ forall v, count (unused_code v) (mfa_recovery_codes db')
           = count (unused_code v) (mfa_recovery_codes db) - (if v =? u_id u then 1 else 0)
  else db' = db.
Proof.
  intros Hids Hop. unfold UseRecoveryCode, insert_security_event in Hop. inv_db; try done.
  match goal with Hf : find _ _ = Some ?r, Hu : active_user _ _ = Some ?u |- _ =>
    apply find_some in Hf as [Hin%in_firstn Hcheck]; exists u, r end.
  apply filter_In in Hin as [Hin Hun].
  match goal with Hm : negb (u_mfa_enabled _) = false |- _ => apply negb_false_iff in Hm end.
  split_and!; try done.
  - apply in_update. eexists. split; [exact Hin|]. unfold unused_code in Hun. bool_hyps.
    rewrite Z.eqb_refl. by match goal with Hn : is_none _ = true |- _ => rewrite Hn end.
  - intros v. cbn [mfa_recovery_codes set_security_events set_mfa_recovery_codes].
    pose proof Hun as Hun'. unfold unused_code in Hun'. bool_hyps.
    match goal with |- context [update ?p ?f ?tbl] =>
      destruct (update_unique rc_id p f tbl r) as (l1 & l2 & Heq & ->) end; try done.
    + rewrite Z.eqb_refl. by match goal with Hn : is_none _ = true |- _ => rewrite Hn end.
    + intros y _ Hy. bool_hyps. by apply Z.eqb_eq.
    + rewrite Heq, !count_app, !count_cons.
      replace (unused_code v (with_code_used t r)) with false
        by (unfold unused_code; simpl; by rewrite andb_false_r).
      replace (unused_code v r) with (v =? u_id u); [lia|].
      unfold unused_code. match goal with Hn : is_none _ = true |- _ => rewrite Hn end.
      match goal with Hz : (rc_user_id r =? _) = true |- _ => apply Z.eqb_eq in Hz as -> end.
      by rewrite andb_true_r, Z.eqb_sym.
Qed.

(** Storing the recovery hashes appends one unused row for each. *)
Definition code_rows_of (userID : Z) (hashes : list string) (rows : list RecoveryCodeRow) : Prop :=
  map rc_code_hash rows = hashes
  /\ Forall (fun r => rc_user_id r = userID /\ rc_used_at r = None) rows.

Lemma store_codes_Ok userID t hashes db u db' :
  for_each hashes (fun hash =>
    do! require (negb (blank hash)) (Text "recovery code hash is empty") in
    do! within "store recovery code" (insert_row mfa_recovery_codes set_mfa_recovery_codes
          no_check (fun id => mkRecoveryCodeRow id userID hash (formatTime t) None)) in
    ret tt) db = Ok (u, db') ->
  exists rows, db' = set_mfa_recovery_codes (mfa_recovery_codes db ++ rows)%list db
    /\ code_rows_of userID hashes rows.
Proof.
  revert db. induction hashes as [|h hashes IH]; intros db Hop; cbn [for_each] in Hop; inv_db.
  - exists []. rewrite app_nil_r. split; [by destruct db|by split].
  - match goal with Hf : for_each _ _ _ = _ |- _ => apply IH in Hf as (rows & -> & Hmap & Hall) end.
    eexists (_ :: rows). split; [|split].
    + cbn [mfa_recovery_codes set_mfa_recovery_codes]. by rewrite <-app_assoc.
    + simpl. by rewrite Hmap.
    + by constructor.
Qed.

Lemma unused_after_replacement userID hashes rows t :
  code_rows_of userID hashes rows ->
  map rc_code_hash (select (unused_code userID)
    (delete_rows (fun r => rc_user_id r =? userID) t ++ rows)%list) = hashes.
Proof.
  intros [Hmap Hall]. unfold select, delete_rows. rewrite List.filter_app.
  rewrite (filter_none _ (List.filter _ t)).
  - rewrite <-Hmap. simpl. f_equal. clear Hmap. induction Hall as [|r rows [Hu Hn] _ IH]; [done|].
    simpl. unfold unused_code at 1. by rewrite Hu, Hn, Z.eqb_refl, IH.
  - intros r [_ Hr]%filter_In. unfold unused_code. apply negb_true_iff in Hr. by rewrite Hr.
Qed.

Lemma open_enrollment_closed userID token db :
  (forall e, In e (mfa_enrollments db) -> (en_token_hash e =s HashToken token) = true ->
     is_none (en_used_at e) = false) ->
  open_enrollment userID token db = None.
Proof.
  intros Hcl. unfold open_enrollment. set (l := flat_map _ _).
  destruct l as [|[e u] l'] eqn:E; [done|].
  assert (In (e, u) l) as Hin by (rewrite E; by left). subst l.
  apply in_flat_map in Hin as (e' & He & (u' & [= -> ->] & [_ Hp]%filter_In)%in_map_iff).
  bool_hyps. match goal with Hn : is_none _ = true |- _ => by rewrite Hcl in Hn end.
Qed.

(** completing an enrolment needs an open, unexpired enrolment of that
    user with fewer than five failed attempts and a valid code for its
    secret; it then enables MFA with that secret, leaves the current step
    usable and refuses older ones, replaces the user's recovery codes by the
    ten given, and closes the enrolment. *)
Theorem enrolment_complete userID token code hashes t db db' :
  CompleteMFAEnrollment secretKey userID token code hashes t db = Ok (true, db') ->
  exists e u secret, open_enrollment userID token db = Some (e, u)
    /\ u_mfa_enabled u = false /\ t < parseTime (en_expires_at e)
    /\ en_attempts e < maxMFAEnrollmentAttempts
    /\ DecryptSecret secretKey (en_secret e) = Ok secret /\ VerifyTOTP secret code t = true
    /\ users db' = update (fun r => u_id r =? en_user_id e)
                     (with_mfa (en_secret e) (totp_step t - 1)) (users db)
    /\ map rc_code_hash (select (unused_code (en_user_id e)) (mfa_recovery_codes db')) = hashes
    /\ List.length hashes = 10%nat
    /\ open_enrollment userID token db' = None.
Proof.
  intros Hop. unfold CompleteMFAEnrollment, update_enrollment, insert_security_event in Hop. inv_db; try done.
  match goal with Hf : for_each _ _ _ = _ |- _ => apply store_codes_Ok in Hf as (rows & -> & Hrows) end.
  apply orb_false_iff in Heqb as [Heqb Hatt]. apply orb_false_iff in Heqb as [Hdis Hexp].
  apply negb_false_iff in Hexp, Heqb0. apply Z.ltb_lt in Hexp. apply Z.leb_gt in Hatt.
  match goal with Hl : Nat.eqb _ 10 = true |- _ => apply Nat.eqb_eq in Hl end.
  eexists e, u, _. split_and!; try done.
  - cbn [mfa_recovery_codes set_mfa_recovery_codes set_mfa_enrollments set_security_events set_users].
    by apply unused_after_replacement.
  - apply open_enrollment_closed. intros r (x' & Hx & ->)%in_update Ht.
    destruct (String.eqb_spec (en_token_hash x') (HashToken token)) as [|Hne]; [done|].
    by destruct Hne; apply String.eqb_eq.
Qed.
End Properties.

(** ** Witnesses *)

Definition sample_key : string := fit 32 "key".
Definition sample_secret : string := "JBSWY3DPEHPK3PXP".
Definition sample_code (t : Z) : string :=
  match @TOTPCode ascii_tables toy_crypto sample_secret t with Ok c => c | Err _ => "" end.
(** One user without MFA, then an open enrolment, then the confirmation. *)
Definition sample_hashes : list string := map (fun i => "$" ++ FormatInt i) (seqZ 0 10).
Definition sample_user_db : DB :=
  set_users [mkUserRow 1 "usr_1" "a@example.com" "A" "h" true "1970-01-01T00:00:01Z" None false None (-1)] empty_db.
Definition sample_enrol : St DB error string :=
  @CreateMFAEnrollment ascii_tables toy_crypto sample_key "usr_1" sample_secret (600 * Second) (60 * Second)
    (fit 12 "n") (Some (fit 32 "r")).
Definition sample_enrol_db : DB := snd (exec sample_enrol sample_user_db).
Definition sample_complete : St DB error bool :=
  @CompleteMFAEnrollment ascii_tables toy_crypto sample_key "usr_1" (b64_encode (fit 32 "r"))
    (sample_code (90 * Second)) sample_hashes (90 * Second).
Definition sample_mfa_db : DB := snd (exec sample_complete sample_enrol_db).

Definition sample_attempts : list (string * Z) := Eval vm_compute in
  [(sample_code (120 * Second), 90 * Second); (sample_code (120 * Second), 121 * Second);
   (sample_code (150 * Second), 140 * Second)].
(** The code of the next step is accepted early, and refused when its step has come. *)
Lemma sample_accepted : @accepted ascii_tables toy_crypto sample_key "usr_1" sample_attempts sample_mfa_db
  = [(sample_code (120 * Second), 90 * Second); (sample_code (150 * Second), 140 * Second)].
Proof. vm_compute. reflexivity. Qed.
Lemma mfa_steps_increase_witness :
  exists steps u, active_user sample_mfa_db "usr_1" = Some u /\ List.length steps = 2%nat
    /\ StronglySorted Z.lt (u_mfa_last_step u :: steps).
Proof.
  assert (exists u, active_user sample_mfa_db "usr_1" = Some u) as (u & Hu) by (eexists; vm_compute; reflexivity).
  destruct (@mfa_steps_increase ascii_tables toy_crypto sample_key "usr_1" sample_attempts sample_mfa_db u) as (steps & Hs & Hsort).
  - split; vm_compute; apply NoDup_singleton.
  - exact Hu.
  - exists steps, u. split; [exact Hu|]. split; [|exact Hsort].
    apply Forall2_length in Hs. rewrite sample_accepted in Hs. symmetry. exact Hs.
Defined.

Lemma recovery_code_single_use_witness :
  exists db', @UseRecoveryCode ascii_tables toy_crypto "usr_1" " 3 " (100 * Second) sample_mfa_db = Ok (true, db')
    /\ exists u r, active_user sample_mfa_db "usr_1" = Some u /\ In r (mfa_recovery_codes sample_mfa_db)
         /\ unused_code (u_id u) r = true.
Proof.
  assert (exists db', @UseRecoveryCode ascii_tables toy_crypto "usr_1" " 3 " (100 * Second) sample_mfa_db
    = Ok (true, db')) as [db' E] by (eexists; vm_compute; reflexivity).
  exists db'. split; [exact E|].
  assert (ids_unique (mfa_recovery_codes sample_mfa_db)) as Hids.
  { unfold ids_unique. vm_compute.
    repeat (apply NoDup_cons; split; [rewrite list_elem_of_In; vm_compute; intuition discriminate|]).
    constructor. }
  destruct (@recovery_code_single_use ascii_tables toy_crypto _ _ _ _ _ _ Hids E)
    as (u & r & Hu & _ & Hr & Hun & _). exists u, r. exact (conj Hu (conj Hr Hun)).
Defined.

Lemma enrolment_complete_witness :
  exists db', @CompleteMFAEnrollment ascii_tables toy_crypto sample_key "usr_1" (b64_encode (fit 32 "r"))
      (sample_code (90 * Second)) sample_hashes (90 * Second) sample_enrol_db = Ok (true, db')
    /\ @open_enrollment toy_crypto "usr_1" (b64_encode (fit 32 "r")) db' = None.
Proof.
  assert (exists db', @CompleteMFAEnrollment ascii_tables toy_crypto sample_key "usr_1"
    (b64_encode (fit 32 "r")) (sample_code (90 * Second)) sample_hashes (90 * Second) sample_enrol_db
    = Ok (true, db')) as [db' E] by (eexists; vm_compute; reflexivity).
  exists db'. split; [exact E|].
  destruct (@enrolment_complete ascii_tables toy_crypto sample_key "usr_1" (b64_encode (fit 32 "r"))
    (sample_code (90 * Second)) sample_hashes (90 * Second) sample_enrol_db db' E)
    as (e & u & secret & _ & _ & _ & _ & _ & _ & _ & _ & _ & Hclosed). exact Hclosed.
Defined.
