(* ===== verification/Organisation.v ===== *)
(** internal/db/sqlite/organisation.go: organisations, their owner, members and
    lifecycle, with the audit trail and the outbox event of every mutation. [rs]
    gives the random buffers an operation draws, in order. *)
From stdpp Require Import base tactics list strings.
From Stdlib Require Import ZArith Lia Ascii String Sorted.
From S2P Require Import Prelude GoStrings GoTime Codec Json Errors Domain Events Schema Outbox Auth.
From S2P Require Import Identity.

Local Open Scope string_scope.
Local Open Scope Z_scope.

Definition auditOrganisation := "Organisation".

(** ** Helpers *)

Definition validateMutationReason (reason : string) : res unit :=
  let reason := TrimSpace reason in
  if (reason =s "") || (500 <? len reason) then Err (Sentinel ErrInvalidReason) else Ok tt.

Definition activeUserIDTx (publicID : string) : St DB error Z :=
  let! row := reads (fun db => active_user db (TrimSpace publicID)) in
  let! u := some_or row ErrUnauthorisedOrganisationAction in
  ret (u_id u).

Definition organisation_by_public_id (publicID : string) (db : DB) : option OrganisationRow :=
  find (fun o => o_public_id o =s publicID) (organisations db).

(** [WHERE organisation_id=? AND user_id=? AND active=1] *)
Definition current_member (scope userID : Z) (m : MembershipRow) : bool :=
  (m_scope m =? scope) && (m_user_id m =? userID) && m_active m.

(** The actor, its role ("" for a system administrator), the organisation and
    whether the actor is a system administrator. *)
Definition authorisedOrganisationMutationTx (actorUserID organisationID : string)
  : St DB error (Z * string * Z * bool) :=
  let! row := reads (fun db => active_user db actorUserID) in
  let! actor := some_or row ErrUnauthorisedOrganisationAction in
  let! row := reads (organisation_by_public_id organisationID) in
  let! org := some_or row ErrOrganisationNotFound in
  do! require (o_status org =s OrganisationActive) ErrOrganisationArchived in
  let! systemAdmin := reads (fun db => system_admin db (u_id actor)) in
  if systemAdmin then ret (u_id actor, "", o_id org, true)
  else
    let! row := reads (fun db => find (current_member (o_id org) (u_id actor)) (organisation_memberships db)) in
    let! m := some_or row ErrUnauthorisedOrganisationAction in
    do! require (OrganisationRole_CanAdminister (m_role m)) ErrUnauthorisedOrganisationAction in
    ret (u_id actor, m_role m, o_id org, false).

Definition organisation_details_json (d : organisationMutationDetails) : string :=
  encode_fields ([("organisation_id", VString (od_OrganisationID d))]
    ++ omitempty "membership_id" (od_MembershipID d) ++ omitempty "user_id" (od_UserID d)
    ++ omitempty "role" (od_Role d) ++ omitempty "name" (od_Name d)
    ++ omitempty "reason" (od_Reason d))%list.

(** [INSERT INTO audit_events ... SELECT ?,public_id,... FROM users WHERE id=?] *)
Definition insert_audit (actorID : Z) (aggregateType aggregateID event details : string) (at_ : Z)
  : St DB error unit :=
  let! actor := reads (fun db => user_by_id db actorID) in
  match actor with
  | Some u =>
      do! insert_row audit_events set_audit_events no_check (fun id =>
            mkAuditRow id (Some actorID) (u_public_id u) aggregateType aggregateID event details
              (formatTime at_)) in
      ret tt
  | None => ret tt
  end.

Definition recordOrganisationAuditTx (actorID : Z) (organisationID event : string)
    (d : organisationMutationDetails) (at_ : Z) (rand : option string) : St DB error unit :=
  do! within "record organisation audit"
        (insert_audit actorID auditOrganisation organisationID event (organisation_details_json d) at_) in
  within "record organisation outbox event" (appendOrganisationEventTx event d at_ rand).

Definition membership_row (publicID : string) (scope userID : Z) (role : string) (actorID at_ version : Z)
    (id : Z) : MembershipRow :=
  mkMembershipRow id publicID scope userID role true actorID (formatTime at_) None None "" version.

(** [SET active=0,removed_by=?,removed_at=?,removal_reason=?] *)
Definition deactivated (actorID at_ : Z) (reason : string) (m : MembershipRow) : MembershipRow :=
  mkMembershipRow (m_id m) (m_public_id m) (m_scope m) (m_user_id m) (m_role m) false (m_assigned_by m)
    (m_assigned_at m) (Some actorID) (Some (formatTime at_)) (TrimSpace reason) (m_version m).

(** ** Mutations *)

Definition CreateOrganisation (actorUserID : string) (organisation : Organisation) (reason : string)
    (at_ : Z) (rs : rng) : St DB error (Organisation * OrganisationMembership) :=
  do! lift (validateMutationReason reason) in
  let! orgID := (if Organisation_ID organisation =s "" then lift (NewOrganisationID (rs 0%nat))
                 else ret (Organisation_ID organisation)) in
  let organisation := mkOrganisation orgID (TrimSpace (Organisation_Name organisation))
                        OrganisationActive at_ None in
  do! lift (Organisation_Validate organisation) in
  do! require (negb (IsZero at_)) (Text "organisation creation time is required") in
  let! membershipID := lift (NewOrganisationMembershipID (rs 1%nat)) in
  let! actorID := activeUserIDTx actorUserID in
  do! within "create organisation" (insert_row organisations set_organisations organisations_ok (fun id =>
        mkOrganisationRow id orgID (Organisation_Name organisation) OrganisationActive (formatTime at_) None)) in
  let! row := reads (organisation_by_public_id orgID) in
  let! org := some_or row (Wrap "resolve created organisation" NoRows) in
  do! within "assign organisation owner"
        (insert_row organisation_memberships set_organisation_memberships organisation_memberships_ok
           (membership_row membershipID (o_id org) actorID OrganisationOwner actorID at_ 1)) in
  do! recordOrganisationAuditTx actorID orgID eventOrganisationCreated
        (mkOMD orgID "" "" "" "" (TrimSpace reason)) at_ (rs 2%nat) in
  do! recordOrganisationAuditTx actorID orgID eventMembershipAdded
        (mkOMD orgID membershipID actorUserID OrganisationOwner "" (TrimSpace reason)) at_ (rs 3%nat) in
  ret (organisation,
       mkOrganisationMembership membershipID orgID actorUserID OrganisationOwner true actorUserID at_ "" None "").

Definition assignable_role (role : string) : bool := (role =s OrganisationAdmin) || (role =s OrganisationMember).

Definition addOrganisationMemberTx (actorUserID organisationID targetUserID role reason : string)
    (at_ : Z) (rs : rng) : St DB error OrganisationMembership :=
  do! require (assignable_role role) ErrInvalidOrganisationRole in
  do! lift (validateMutationReason reason) in
  do! require (negb (IsZero at_)) (Text "membership assignment time is required") in
  let! membershipID := lift (NewOrganisationMembershipID (rs 0%nat)) in
  let! (actorID, actorRole, orgID, systemAdmin) := authorisedOrganisationMutationTx actorUserID organisationID in
  do! require (negb (negb systemAdmin && (actorRole =s OrganisationAdmin) && (role =s OrganisationAdmin)))
        ErrUnauthorisedOrganisationAction in
  let! targetID := activeUserIDTx targetUserID in
  let! exists_ := reads (fun db => count (current_member orgID targetID) (organisation_memberships db)) in
  do! require (exists_ =? 0) ErrDuplicateOrganisationMember in
  do! within "add organisation member"
        (insert_row organisation_memberships set_organisation_memberships organisation_memberships_ok
           (membership_row membershipID orgID targetID role actorID at_ 1)) in
  do! recordOrganisationAuditTx actorID organisationID eventMembershipAdded
        (mkOMD organisationID membershipID targetUserID role "" (TrimSpace reason)) at_ (rs 1%nat) in
  ret (mkOrganisationMembership membershipID organisationID targetUserID role true actorUserID at_ "" None "").

Definition AddOrganisationMember (actorUserID organisationID targetUserID role reason : string)
    (at_ : Z) (rs : rng) : St DB error OrganisationMembership :=
  do! require (assignable_role role) ErrInvalidOrganisationRole in
  do! lift (validateMutationReason reason) in
  do! require (negb (IsZero at_)) (Text "membership assignment time is required") in
  addOrganisationMemberTx actorUserID organisationID targetUserID role reason at_ rs.

(** [FROM organisation_memberships m JOIN users u ON u.id=m.user_id AND u.active=1
    WHERE m.organisation_id=? AND u.public_id=? AND m.active=1] *)
Definition member_of_active_user (db : DB) (scope : Z) (targetUserID : string) (m : MembershipRow) : bool :=
  (m_scope m =? scope) && m_active m
  && existsb (fun u => (u_id u =? m_user_id m) && is_active_user targetUserID u) (users db).

(** [expectedVersion != nil && *expectedVersion != currentVersion] *)
Definition version_conflict (expectedVersion : option Z) (current : Z) : bool :=
  match expectedVersion with Some v => negb (v =? current) | None => false end.

Definition changeOrganisationMemberRoleTx (actorUserID organisationID targetUserID role reason : string)
    (at_ : Z) (expectedVersion : option Z) (rs : rng) : St DB error OrganisationMembership :=
  do! require (assignable_role role) ErrInvalidOrganisationRole in
  do! lift (validateMutationReason reason) in
  do! require (negb (IsZero at_)) (Text "membership role change time is required") in
  let! membershipID := lift (NewOrganisationMembershipID (rs 0%nat)) in
  let! (actorID, actorRole, orgID, systemAdmin) := authorisedOrganisationMutationTx actorUserID organisationID in
  let! row := reads (fun db => find (member_of_active_user db orgID targetUserID) (organisation_memberships db)) in
  let! current := some_or row ErrMembershipNotFound in
  do! require (negb (version_conflict expectedVersion (m_version current))) ErrMembershipCommandConflict in
  do! require (negb (m_role current =s OrganisationOwner)) ErrOwnerMutationNotAuthorised in
  do! require (negb (negb systemAdmin && (actorRole =s OrganisationAdmin)
                     && negb (m_role current =s OrganisationMember))) ErrUnauthorisedOrganisationAction in
  do! require (negb (m_role current =s role)) ErrDuplicateOrganisationMember in
  let! targetID := activeUserIDTx targetUserID in
  do! modify (fun db => set_organisation_memberships
        (update (fun m => (m_id m =? m_id current) && m_active m) (deactivated actorID at_ reason)
           (organisation_memberships db)) db) in
  do! within "write membership role"
        (insert_row organisation_memberships set_organisation_memberships organisation_memberships_ok
           (membership_row membershipID orgID targetID role actorID at_ (m_version current + 1))) in
  do! recordOrganisationAuditTx actorID organisationID eventMembershipRoleChanged
        (mkOMD organisationID membershipID targetUserID role "" (TrimSpace reason)) at_ (rs 1%nat) in
  ret (mkOrganisationMembership membershipID organisationID targetUserID role true actorUserID at_ "" None "").

Definition ChangeOrganisationMemberRole (actorUserID organisationID targetUserID role reason : string)
    (at_ : Z) (rs : rng) : St DB error OrganisationMembership :=
  do! require (assignable_role role) ErrInvalidOrganisationRole in
  do! lift (validateMutationReason reason) in
  do! require (negb (IsZero at_)) (Text "membership role change time is required") in
  changeOrganisationMemberRoleTx actorUserID organisationID targetUserID role reason at_ None rs.

Definition deactivateOrganisationMemberTx (actorUserID organisationID targetUserID reason : string)
    (at_ : Z) (expectedVersion : option Z) (rs : rng) : St DB error OrganisationMembership :=
  do! lift (validateMutationReason reason) in
  do! require (negb (IsZero at_)) (Text "membership deactivation time is required") in
  let! (actorID, actorRole, orgID, systemAdmin) := authorisedOrganisationMutationTx actorUserID organisationID in
  let! row := reads (fun db => find (member_of_active_user db orgID targetUserID) (organisation_memberships db)) in
  let! current := some_or row ErrMembershipNotFound in
  do! require (negb (version_conflict expectedVersion (m_version current))) ErrMembershipCommandConflict in
  do! require (negb (m_role current =s OrganisationOwner)) ErrOwnerMutationNotAuthorised in
  do! require (negb (negb systemAdmin && (actorRole =s OrganisationAdmin)
                     && negb (m_role current =s OrganisationMember))) ErrUnauthorisedOrganisationAction in
  let leaving m := (m_id m =? m_id current) && m_active m in
  let! rows := reads (fun db => count leaving (organisation_memberships db)) in
  do! modify (fun db => set_organisation_memberships
        (update leaving (deactivated actorID at_ reason) (organisation_memberships db)) db) in
  do! require (rows =? 1) ErrMembershipNotFound in
  do! recordOrganisationAuditTx actorID organisationID eventMembershipDeactivated
        (mkOMD organisationID (m_public_id current) targetUserID (m_role current) "" (TrimSpace reason))
        at_ (rs 0%nat) in
  ret (mkOrganisationMembership (m_public_id current) organisationID targetUserID (m_role current) false
         actorUserID at_ "" None "").

Definition DeactivateOrganisationMember (actorUserID organisationID targetUserID reason : string)
    (at_ : Z) (rs : rng) : St DB error unit :=
  do! lift (validateMutationReason reason) in
  do! require (negb (IsZero at_)) (Text "membership deactivation time is required") in
  do! deactivateOrganisationMemberTx actorUserID organisationID targetUserID reason at_ None rs in
  ret tt.

Definition organisation_active_with_id (orgID : Z) (o : OrganisationRow) : bool :=
  (o_id o =? orgID) && (o_status o =s OrganisationActive).
Definition archived_organisation (at_ : Z) (o : OrganisationRow) : OrganisationRow :=
  mkOrganisationRow (o_id o) (o_public_id o) (o_name o) OrganisationArchived (o_created_at o)
    (Some (formatTime at_)).
Definition renamed_organisation (name : string) (o : OrganisationRow) : OrganisationRow :=
  mkOrganisationRow (o_id o) (o_public_id o) name (o_status o) (o_created_at o) (o_archived_at o).

(** [WHERE organisation_id=? AND active=1] *)
Definition active_in_scope (scope : Z) (m : MembershipRow) : bool := (m_scope m =? scope) && m_active m.

(** [SELECT m.public_id,u.public_id,m.role FROM organisation_memberships m JOIN
    users u ON u.id=m.user_id WHERE m.organisation_id=? AND m.active=1 ORDER BY m.id] *)
Definition members_to_archive (scope : Z) (db : DB) : list (string * string * string) :=
  flat_map (fun m => map (fun u => (m_public_id m, u_public_id u, m_role m))
                       (select (fun u => u_id u =? m_user_id m) (users db)))
    (select (active_in_scope scope) (organisation_memberships db)).

Definition ArchiveOrganisation (actorUserID organisationID reason : string) (at_ : Z) (rs : rng)
  : St DB error unit :=
  do! lift (validateMutationReason reason) in
  do! require (negb (IsZero at_)) (Text "organisation archive time is required") in
  let! (actorID, actorRole, orgID, systemAdmin) := authorisedOrganisationMutationTx actorUserID organisationID in
  do! require (negb (negb systemAdmin && negb (actorRole =s OrganisationOwner)))
        ErrUnauthorisedOrganisationAction in
  let! rows := reads (fun db => count (organisation_active_with_id orgID) (organisations db)) in
  do! modify (fun db => set_organisations
        (update (organisation_active_with_id orgID) (archived_organisation at_) (organisations db)) db) in
  do! require (rows =? 1) ErrOrganisationArchived in
  let! members := reads (members_to_archive orgID) in
  do! modify (fun db => set_organisation_memberships
        (update (active_in_scope orgID) (deactivated actorID at_ reason) (organisation_memberships db)) db) in
  do! for_each (combine (seq 0 (List.length members)) members) (fun im =>
        let '(i, (membershipID, userID, role)) := im in
        recordOrganisationAuditTx actorID organisationID eventMembershipDeactivated
          (mkOMD organisationID membershipID userID role "" (TrimSpace reason)) at_ (rs i)) in
  recordOrganisationAuditTx actorID organisationID eventOrganisationArchived
    (mkOMD organisationID "" "" "" "" (TrimSpace reason)) at_ (rs (List.length members)).

Definition RenameOrganisation (actorUserID organisationID name reason : string) (at_ : Z) (rs : rng)
  : St DB error Organisation :=
  let name := TrimSpace name in
  do! require (negb (name =s "") && (len name <=? 200)) ErrInvalidOrganisationName in
  do! lift (validateMutationReason reason) in
  do! require (negb (IsZero at_)) (Text "organisation rename time is required") in
  let! (actorID, _, orgID, _) := authorisedOrganisationMutationTx actorUserID organisationID in
  let! rows := reads (fun db => count (organisation_active_with_id orgID) (organisations db)) in
  do! modify (fun db => set_organisations
        (update (organisation_active_with_id orgID) (renamed_organisation name) (organisations db)) db) in
  do! require (rows =? 1) ErrOrganisationArchived in
  do! recordOrganisationAuditTx actorID organisationID eventOrganisationRenamed
        (mkOMD organisationID "" "" "" name (TrimSpace reason)) at_ (rs 0%nat) in
  ret (mkOrganisation organisationID name OrganisationActive zero_time None).

(** ** Reads *)

Record UserOrganisation := mkUserOrganisation { uo_Organisation : Organisation; uo_Role : string }.
Record OrganisationMemberRecord := mkOrganisationMemberRecord {
  omr_MembershipID : string; omr_OrganisationID : string; omr_UserID : string; omr_Email : string;
  omr_DisplayName : string; omr_Role : string; omr_AssignedAt : Z }.
Record OrganisationAuditRecord := mkOrganisationAuditRecord {
  oar_ID : Z; oar_OrganisationID : string; oar_ActorUserID : string; oar_Event : string;
  oar_Details : string; oar_OccurredAt : Z }.

Definition organisation_of_row (o : OrganisationRow) : Organisation :=
  mkOrganisation (o_public_id o) (o_name o) (o_status o) (parseTime (o_created_at o))
    (option_map parseTime (o_archived_at o)).

(** [EXISTS (SELECT 1 FROM users u JOIN system_role_assignments sra ... WHERE
    u.public_id=? AND u.active=1)] *)
Definition is_system_admin (db : DB) (publicID : string) : bool :=
  existsb (fun u => is_active_user publicID u && system_admin db (u_id u)) (users db).

(** [EXISTS (SELECT 1 FROM organisation_memberships m JOIN users u ON
    u.id=m.user_id AND u.active=1 WHERE m.organisation_id=? AND m.active=1 AND
    u.public_id=?)] *)
Definition is_member (db : DB) (scope : Z) (publicID : string) : bool :=
  existsb (fun m => active_in_scope scope m
    && existsb (fun u => (u_id u =? m_user_id m) && is_active_user publicID u) (users db))
    (organisation_memberships db).

(** [ORDER BY name, public_id] *)
Definition text_pair_lt (a b : string * string) : bool :=
  text_lt (fst a) (fst b) || ((fst a =s fst b) && text_lt (snd a) (snd b)).

Definition ListUserOrganisations (requesterUserID : string) (db : DB) : list UserOrganisation :=
  let requester := TrimSpace requesterUserID in
  let me := active_user db requester in
  let joined (o : OrganisationRow) : list (option MembershipRow) :=
    let ms := match me with
              | Some u => select (fun m => current_member (o_id o) (u_id u) m) (organisation_memberships db)
              | None => []
              end in
    match ms with [] => [None] | _ => map Some ms end in
  let rows := flat_map (fun o => map (pair o) (joined o)) (organisations db) in
  let visible := select (fun om => (o_status (fst om) =s OrganisationActive)
                   && (negb (is_none (snd om)) || is_system_admin db requester)) rows in
  map (fun om => mkUserOrganisation (organisation_of_row (fst om))
                   (match snd om with Some m => m_role m | None => "" end))
    (sort_by (fun a b => text_pair_lt (o_name (fst a), o_public_id (fst a)) (o_name (fst b), o_public_id (fst b)))
       visible).

Definition GetOrganisation (requesterUserID organisationID : string) (db : DB) : res Organisation :=
  match find (fun o => (o_public_id o =s organisationID) && (o_status o =s OrganisationActive)
                && (is_member db (o_id o) requesterUserID || is_system_admin db requesterUserID))
          (organisations db) with
  | Some o => Ok (organisation_of_row o)
  | None =>
      if count (fun o => o_public_id o =s organisationID) (organisations db) =? 0
      then Err (Sentinel ErrOrganisationNotFound)
      else Err (Sentinel ErrUnauthorisedOrganisationAction)
  end.

(** The joined rows of GetOrganisationMembership, in table order. *)
Definition GetOrganisationMembership (requesterUserID organisationID targetUserID : string) (db : DB)
  : res OrganisationMembership :=
  let joined :=
    flat_map (fun m =>
      flat_map (fun o =>
        if (o_id o =? m_scope m) && (o_status o =s OrganisationActive)
           && (o_public_id o =s organisationID) && m_active m
           && (is_member db (o_id o) requesterUserID || is_system_admin db requesterUserID)
           && existsb (fun u => (u_id u =? m_user_id m) && is_active_user targetUserID u) (users db)
        then map (fun a => mkOrganisationMembership (m_public_id m) organisationID targetUserID (m_role m)
                             (m_active m) (u_public_id a) (parseTime (m_assigned_at m)) "" None "")
               (select (fun a => u_id a =? m_assigned_by m) (users db))
        else []) (organisations db)) (organisation_memberships db) in
  match joined with m :: _ => Ok m | [] => Err (Sentinel ErrMembershipNotFound) end.

Definition authorisedOrganisationRead (requesterUserID organisationID : string) (adminOnly : bool) (db : DB)
  : res Z :=
  match organisation_by_public_id organisationID db with
  | None => Err (Sentinel ErrOrganisationNotFound)
  | Some o =>
      if negb (o_status o =s OrganisationActive) then Err (Sentinel ErrOrganisationArchived)
      else match active_user db requesterUserID with
      | None => Err (Sentinel ErrUnauthorisedOrganisationAction)
      | Some u =>
          if system_admin db (u_id u) then Ok (o_id o)
          else match find (current_member (o_id o) (u_id u)) (organisation_memberships db) with
          | None => Err (Sentinel ErrUnauthorisedOrganisationAction)
          | Some m =>
              if adminOnly && negb (OrganisationRole_CanAdminister (m_role m))
              then Err (Sentinel ErrUnauthorisedOrganisationAction)
              else Ok (o_id o)
          end
      end
  end.

Definition ListOrganisationMembers (requesterUserID organisationID : string) (db : DB)
  : res (list OrganisationMemberRecord) :=
  let? orgID := authorisedOrganisationRead requesterUserID organisationID true db in
  let rows := flat_map (fun m =>
    flat_map (fun o =>
      if (o_id o =? m_scope m) && (o_status o =s OrganisationActive) && active_in_scope orgID m
      then map (fun u => mkOrganisationMemberRecord (m_public_id m) (o_public_id o) (u_public_id u) (u_email u)
                           (u_display_name u) (m_role m) (parseTime (m_assigned_at m)))
             (select (fun u => (u_id u =? m_user_id m) && u_active u) (users db))
      else []) (organisations db)) (organisation_memberships db) in
  Ok (sort_by (fun a b => text_pair_lt (omr_DisplayName a, omr_UserID a) (omr_DisplayName b, omr_UserID b)) rows).

(** [COALESCE(NULLIF(a.actor_user_public_id,''),actor.public_id,'')] *)
Definition audit_actor (db : DB) (a : AuditRow) : string :=
  if a_actor_public_id a =s "" then
    match a_actor_user_id a with Some id => user_public_id db id | None => "" end
  else a_actor_public_id a.

(** [ORDER BY occurred_at DESC, id DESC] *)
Definition audit_later (a b : AuditRow) : bool :=
  text_lt (a_occurred_at b) (a_occurred_at a)
  || ((a_occurred_at a =s a_occurred_at b) && (a_id b <? a_id a)).

Definition ListOrganisationAudit (requesterUserID organisationID : string) (n : Z) (db : DB)
  : res (list OrganisationAuditRecord) :=
  let? orgID := authorisedOrganisationRead requesterUserID organisationID true db in
  if (n <=? 0) || (100 <? n) then Err (Text "organisation audit limit must be between 1 and 100")
  else
    let known := existsb (fun o => (o_public_id o =s organisationID) && (o_id o =? orgID)) (organisations db) in
    let rows := select (fun a => (a_aggregate_type a =s auditOrganisation)
                  && (a_aggregate_id a =s organisationID) && known) (audit_events db) in
    Ok (map (fun a => mkOrganisationAuditRecord (a_id a) organisationID (audit_actor db a) (a_event a)
                        (a_details a) (parseTime (a_occurred_at a))) (limit n (sort_by audit_later rows))).

Definition organisationAuditCount (organisationID event : string) (db : DB) : Z :=
  count (fun a => (a_aggregate_type a =s auditOrganisation) && (a_aggregate_id a =s organisationID)
          && (a_event a =s event)) (audit_events db).

(** ** Lemmas on the helpers *)

(** Invariants that do not read the audit trail or the outbox. *)
Definition ignores_log (P : DB -> Prop) : Prop :=
  (forall v db, P db -> P (set_audit_events v db)) /\ (forall v db, P db -> P (set_outbox v db)).

Lemma preserves_append_log P ty agg t payload rand :
  ignores_log P -> preserves P (appendPlatformEventTx ty agg t payload rand).
Proof.
  intros [_ HP]. unfold appendPlatformEventTx. frame_tx.
  apply preserves_insert. intros db Hdb _. by apply HP.
Qed.

Lemma preserves_insert_audit P a ty agg e d t :
  ignores_log P -> preserves P (insert_audit a ty agg e d t).
Proof.
  intros [HP _]. unfold insert_audit. frame_tx.
  apply preserves_insert. intros db Hdb _. by apply HP.
Qed.

Lemma preserves_organisation_audit P a o e d t rand :
  ignores_log P -> preserves P (recordOrganisationAuditTx a o e d t rand).
Proof.
  intros HP. unfold recordOrganisationAuditTx, appendOrganisationEventTx. frame_tx.
  - by apply preserves_insert_audit.
  - by apply preserves_append_log.
Qed.

Lemma preserves_activeUserIDTx P uid : preserves P (activeUserIDTx uid).
Proof. unfold activeUserIDTx. frame_tx. Qed.
Lemma preserves_authorised P a o : preserves P (authorisedOrganisationMutationTx a o).
Proof. unfold authorisedOrganisationMutationTx. frame_tx. Qed.

(** [frame_ops] proves that an operation keeps an invariant about tables it does
    not write: the hint database [frame] knows the shared helpers. *)
Create HintDb frame.
#[export] Hint Resolve preserves_append_log preserves_insert_audit preserves_organisation_audit
  preserves_activeUserIDTx preserves_authorised : frame.
#[export] Hint Extern 0 (ignores_log _) => (split; intros ? ? Hlog; exact Hlog) : frame.
Ltac frame_ops := frame_tx; auto 3 with frame.

Lemma validateMutationReason_Ok reason u :
  validateMutationReason reason = Ok u -> TrimSpace reason <> "" /\ len (TrimSpace reason) <= 500.
Proof.
  unfold validateMutationReason. intros H.
  destruct (String.eqb_spec (TrimSpace reason) ""), (Z.ltb_spec 500 (len (TrimSpace reason))); done.
Qed.

Lemma activeUserIDTx_Ok uid db i db' :
  activeUserIDTx uid db = Ok (i, db') <->
  db' = db /\ exists u, active_user db (TrimSpace uid) = Some u /\ i = u_id u.
Proof.
  unfold activeUserIDTx. split.
  - intros Hop. inv_db. split; [done|]. eauto.
  - intros (-> & u & Hu & ->). unfold bind, reads, Prelude.some_or, ret. by rewrite Hu.
Qed.

(** Who may change an organisation: an active user who is a system administrator
    or an owner or administrator of the organisation, which must be active. *)
Definition may_administer (db : DB) (actorUserID organisationID : string)
    (actorID : Z) (role : string) (orgID : Z) (systemAdmin : bool) : Prop :=
  exists u o, active_user db actorUserID = Some u /\ u_id u = actorID
    /\ organisation_by_public_id organisationID db = Some o /\ o_id o = orgID
    /\ o_status o = OrganisationActive
    /\ system_admin db actorID = systemAdmin
    /\ if systemAdmin then role = "" else
       exists m, find (current_member orgID actorID) (organisation_memberships db) = Some m
         /\ m_role m = role /\ OrganisationRole_CanAdminister role = true.

Lemma authorised_Ok actorUserID organisationID db a r o s db' :
  authorisedOrganisationMutationTx actorUserID organisationID db = Ok ((a, r, o, s), db') <->
  db' = db /\ may_administer db actorUserID organisationID a r o s.
Proof.
  unfold authorisedOrganisationMutationTx, may_administer. split.
  - intros Hop. inv_db; split; try done;
      (match goal with He : String.eqb _ _ = true |- _ => apply String.eqb_eq in He end);
      eexists _, _; split_and!; try done; eauto.
  - intros (-> & u & org & Hu & <- & Ho & <- & Hst & <- & Hrest).
    unfold bind, reads, Prelude.some_or, Prelude.require, ret, Prelude.fail.
    rewrite Hu, Ho, Hst. cbn. destruct (system_admin db (u_id u)).
    + by rewrite Hrest.
    + destruct Hrest as (m & -> & Hm & Hc). cbn. by rewrite Hm, Hc.
Qed.

(** ** The organisation invariant *)

Definition owner_of (scope : Z) (m : MembershipRow) : bool := owns m && (m_scope m =? scope).

(** Every active organisation has exactly one active owner, an archived one has
    no active member left, and a user is an active member at most once. *)
Record org_wf (os : list OrganisationRow) (ms : list MembershipRow) : Prop := {
  ow_ids : ids_unique os;
  ow_public_ids : NoDup (map o_public_id os);
  ow_member_ids : ids_unique ms;
  ow_scopes : forall m, In m ms -> exists o, In o os /\ o_id o = m_scope m;
  ow_status : forall o, In o os -> scope_status_ok (o_status o) = true;
  ow_owner : forall o, In o os -> o_status o = OrganisationActive ->
    count (owner_of (o_id o)) ms = 1;
  ow_archived : forall o, In o os -> o_status o = OrganisationArchived ->
    count (active_in_scope (o_id o)) ms = 0;
  ow_current : forall scope uid, count (current_member scope uid) ms <= 1 }.
Definition org_inv (db : DB) : Prop := org_wf (organisations db) (organisation_memberships db).

(** The same with exceptions, each a set of public identifiers: an organisation of
    [imported] may be without an owner, a member of [joined] may be active in an
    archived organisation, and a membership of [removable] may be deleted: it is in
    the table, and is not the owner's of an active organisation not [imported]. *)
Record org_wf_except (imported joined removable : string -> Prop) (os : list OrganisationRow) (ms : list MembershipRow)
  : Prop := {
  oe_ids : ids_unique os;
  oe_public_ids : NoDup (map o_public_id os);
  oe_member_ids : ids_unique ms;
  oe_scopes : forall m, In m ms -> exists o, In o os /\ o_id o = m_scope m;
  oe_status : forall o, In o os -> scope_status_ok (o_status o) = true;
  oe_owner : forall o, In o os -> o_status o = OrganisationActive -> ~ imported (o_public_id o) ->
    count (owner_of (o_id o)) ms = 1;
  oe_owner_once : forall scope, count (owner_of scope) ms <= 1;
  oe_archived : forall o m, In o os -> o_status o = OrganisationArchived -> In m ms ->
    active_in_scope (o_id o) m = true -> joined (m_public_id m);
  oe_current : forall scope uid, count (current_member scope uid) ms <= 1;
  oe_removable : forall o m, In o os -> o_status o = OrganisationActive -> ~ imported (o_public_id o) ->
    In m ms -> removable (m_public_id m) -> owner_of (o_id o) m = false;
  oe_live : forall id, removable id -> In id (map m_public_id ms) }.
Definition org_inv_except (imported joined removable : string -> Prop) (db : DB) : Prop :=
  org_wf_except imported joined removable (organisations db) (organisation_memberships db).
Definition nobody (publicID : string) : Prop := False.

Lemma org_inv_empty : org_inv empty_db.
Proof. split; try done; constructor. Qed.
Lemma org_inv_log : ignores_log org_inv.
Proof. by split. Qed.
Lemma org_inv_except_log imported joined removable : ignores_log (org_inv_except imported joined removable).
Proof. by split. Qed.

Lemma owner_active scope m : owner_of scope m = true -> active_in_scope scope m = true.
Proof. unfold owner_of, owns, active_in_scope. intros. bool_hyps. by apply andb_true_iff. Qed.
Lemma current_active scope uid m : current_member scope uid m = true -> active_in_scope scope m = true.
Proof. unfold current_member, active_in_scope. intros. bool_hyps. by apply andb_true_iff. Qed.

Lemma status_cases s : scope_status_ok s = true -> s = OrganisationActive \/ s = OrganisationArchived.
Proof. unfold scope_status_ok. intros [H%String.eqb_eq|H%String.eqb_eq]%orb_true_iff; auto. Qed.
(** Without exceptions it is the invariant above. *)
Lemma org_wf_iff os ms : org_wf os ms <-> org_wf_except nobody nobody nobody os ms.
Proof.
  split; intros Hwf.
  - split; try apply Hwf; try done.
    + intros o Ho Hs _. by apply Hwf.
    + intros scope. destruct (decide (count (owner_of scope) ms <= 1)) as [|Hn]; [done|].
      assert (exists m, In m ms /\ owner_of scope m = true) as (m & Hm & Hp).
      { unfold count in Hn. destruct (select (owner_of scope) ms) as [|m l] eqn:E; [cbn in Hn; lia|].
        exists m. apply filter_In. change (List.filter _ ms) with (select (owner_of scope) ms). rewrite E. by left. }
      destruct (ow_scopes _ _ Hwf m Hm) as (o & Ho & Hid). pose proof Hp as Hp'. unfold owner_of in Hp'. bool_hyps.
      match goal with Hz : (_ =? _) = true |- _ => apply Z.eqb_eq in Hz; subst scope end. rewrite <-Hid in *.
      destruct (status_cases _ (ow_status _ _ Hwf o Ho)) as [Hs|Hs]; [by rewrite (ow_owner _ _ Hwf o Ho Hs) in Hn|].
      pose proof (proj1 (count_zero _ _) (ow_archived _ _ Hwf o Ho Hs) m Hm) as Hz.
      by rewrite (owner_active _ _ Hp) in Hz.
    + intros o m Ho Hs Hm Hact. by rewrite (proj1 (count_zero _ _) (ow_archived _ _ Hwf o Ho Hs) m Hm) in Hact.
  - split; try apply Hwf.
    + intros o Ho Hs. apply Hwf; [done..|]. by intros [].
    + intros o Ho Hs. apply count_zero. intros m Hm. apply not_true_is_false. intros Hact.
      by destruct (oe_archived _ _ _ _ _ Hwf o m Ho Hs Hm Hact).
Qed.
Lemma preserves_org_inv {A} (op : St DB error A) :
  (forall imported joined removable, preserves (org_inv_except imported joined removable) op) -> preserves org_inv op.
Proof. intros Hop db a db' Hrun Hwf%org_wf_iff. apply org_wf_iff. by apply (Hop _ _ _ _ _ _ Hrun). Qed.

Section Exceptions.
Context (imported joined removable : string -> Prop).
#[local] Abbreviation org_wf_except' := (org_wf_except imported joined removable).

Lemma not_owner_of scope m : m_role m <> OrganisationOwner -> owner_of scope m = false.
Proof. intros Hr%String.eqb_neq. unfold owner_of, owns. unfold OrganisationOwner in Hr. by rewrite Hr, andb_false_r. Qed.
Lemma same_org os ms o o' : org_wf_except' os ms -> In o os -> In o' os -> o_id o = o_id o' -> o = o'.
Proof. intros Hwf. by apply (NoDup_map_inj_in o_id), Hwf. Qed.
(** A new member the table's indexes admit is current, and the owner, at most once. *)
Lemma member_once ms r scope uid : organisation_memberships_ok ms r = true ->
  (current_member scope uid r = true -> count (current_member scope uid) ms = 0)
  /\ (owner_of scope r = true -> count (owner_of scope) ms = 0).
Proof.
  unfold organisation_memberships_ok. intros Hok. bool_hyps.
  split; intros E; apply count_zero; intros m Hm; apply not_true_is_false; intros E';
    repeat match goal with Hf : fresh _ ms = true |- _ => rewrite fresh_spec in Hf; specialize (Hf m Hm); cbv beta in Hf end;
    unfold same_member, owner_of, current_member in *; bool_hyps;
    repeat match goal with Hz : (_ =? _) = true |- _ => apply Z.eqb_eq in Hz end; subst;
    repeat match goal with Hz : _ = true |- _ => rewrite Hz in * end;
    repeat match goal with Hf : _ && _ = false |- _ => revert Hf end;
    rewrite ?andb_false_iff, ?Z.eqb_neq, ?andb_true_l; naive_solver congruence.
Qed.

(** A new active member who is not the owner. *)
Lemma org_wf_add os ms r o :
  org_wf_except' os ms -> organisation_memberships_ok ms r = true -> m_id r = next_id ms ->
  m_role r <> OrganisationOwner -> In o os -> o_id o = m_scope r -> o_status o = OrganisationActive ->
  org_wf_except' os (ms ++ [r])%list.
Proof.
  intros Hwf Hok Hid Hrole Ho Hscope Hst.
  split; try apply Hwf.
  - apply ids_unique_snoc; [apply Hwf|done].
  - intros m [Hm|[<-|[]]]%in_app_or; [by apply Hwf|eauto].
  - intros o' Ho' Hst' Hn. rewrite count_snoc, not_owner_of, Z.add_0_r by done. by apply Hwf.
  - intros s. rewrite count_snoc, not_owner_of, Z.add_0_r by done. apply Hwf.
  - intros o' m Ho' Hst' [Hm|[<-|[]]]%in_app_or Hact; [by eapply Hwf|].
    unfold active_in_scope in Hact. bool_hyps. match goal with Hz : (_ =? _) = true |- _ => apply Z.eqb_eq in Hz end.
    assert (o' = o) as -> by (eapply same_org; [done..|congruence]). by rewrite Hst in Hst'.
  - intros s uid. rewrite count_snoc. destruct (current_member s uid r) eqn:E.
    + rewrite (proj1 (member_once _ _ s uid Hok) E). lia.
    + rewrite Z.add_0_r. apply Hwf.
  - intros x m Hx Hxs Hn [Hm|[<-|[]]]%in_app_or Hr; [by apply Hwf|by apply not_owner_of].
  - intros id Hr. rewrite map_app. apply in_or_app. left. by apply (oe_live _ _ _ _ _ Hwf).
Qed.

Lemma gone_not_owner s actor t reason m : owner_of s (deactivated actor t reason m) = false.
Proof. done. Qed.
(** Members who are not the owner become inactive. *)
Lemma org_wf_leave os ms p actor t reason :
  org_wf_except' os ms -> (forall m, In m ms -> p m = true -> m_role m <> OrganisationOwner) ->
  org_wf_except' os (update p (deactivated actor t reason) ms).
Proof.
  intros Hwf Hp.
  assert (forall scope, count (owner_of scope) (update p (deactivated actor t reason) ms) = count (owner_of scope) ms) as Hsame.
  { intros scope. apply count_update_in. intros m Hm Hpm. rewrite (not_owner_of scope m) by auto.
    unfold owner_of, owns. done. }
  split; try apply Hwf.
  - apply ids_unique_update; [done|apply Hwf].
  - intros m (x & Hx & ->)%in_update. destruct (oe_scopes _ _ _ _ _ Hwf x Hx) as (o & ? & ?).
    exists o. by destruct (p x).
  - intros o Ho Hst Hn. rewrite Hsame. by apply Hwf.
  - intros s. rewrite Hsame. apply Hwf.
  - intros o m Ho Hst (x & Hx & ->)%in_update Hact. destruct (p x); [|by eapply Hwf].
    unfold active_in_scope in Hact. cbn in Hact. by rewrite andb_false_r in Hact.
  - intros s uid. etransitivity; [apply count_update_le|apply Hwf].
    intros. unfold current_member. simpl. apply andb_false_r.
  - intros o m Ho Hst Hn (x & Hx & ->)%in_update Hr. destruct (p x); [apply gone_not_owner|by apply Hwf].
  - intros id Hr. rewrite map_update by done. by apply (oe_live _ _ _ _ _ Hwf).
Qed.

Lemma ids_lt_next `{Row R} (t : list R) i : i = next_id t -> forall x, In x t -> row_id x <> i.
Proof. intros -> x Hx. apply next_id_gt in Hx. lia. Qed.
(** No membership belongs to a rowid that is new. *)
Lemma no_members os ms id p : org_wf_except' os ms -> id = next_id os -> (forall m, p m = true -> m_scope m = id) ->
  count p ms = 0.
Proof.
  intros Hwf Hid Hp. apply count_zero. intros m Hm. apply not_true_is_false. intros E.
  destruct (oe_scopes _ _ _ _ _ Hwf m Hm) as (x & Hx & Hxm). apply (ids_lt_next os id Hid x Hx). change (row_id x) with (o_id x).
  rewrite Hxm. by apply Hp.
Qed.
Lemma owner_scope s m : owner_of s m = true -> m_scope m = s.
Proof. unfold owner_of. intros. bool_hyps. by apply Z.eqb_eq. Qed.
Lemma active_scope s m : active_in_scope s m = true -> m_scope m = s.
Proof. unfold active_in_scope. intros. bool_hyps. by apply Z.eqb_eq. Qed.
Lemma current_scope s uid m : current_member s uid m = true -> m_scope m = s.
Proof. intros H%current_active. by apply active_scope. Qed.

(** A new organisation with its owner, whose membership may not be deleted. *)
Lemma org_wf_create os ms o r :
  org_wf_except' os ms -> organisations_ok os o = true -> o_id o = next_id os -> o_status o = OrganisationActive ->
  organisation_memberships_ok ms r = true -> m_id r = next_id ms -> m_scope r = o_id o ->
  m_role r = OrganisationOwner -> m_active r = true ->
  org_wf_except' (os ++ [o])%list (ms ++ [r])%list.
Proof.
  intros Hwf Hok Hid Hst Hmok Hmid Hscope Hrole Hact.
  assert (forall x, In x os -> o_id x <> o_id o) as Hfresh by (by apply ids_lt_next).
  unfold organisations_ok in Hok. bool_hyps. split.
  - by apply ids_unique_snoc; [apply Hwf|].
  - by apply NoDup_map_snoc; [apply Hwf|].
  - by apply ids_unique_snoc; [apply Hwf|].
  - intros m [Hm|[<-|[]]]%in_app_or.
    + destruct (oe_scopes _ _ _ _ _ Hwf m Hm) as (x & ? & ?). exists x. split; [apply in_or_app; by left|done].
    + exists o. split; [apply in_or_app; right; by left|done].
  - intros x [Hx|[<-|[]]]%in_app_or; [by apply Hwf|done].
  - intros x Hx Hxs Hn. rewrite count_snoc. unfold owner_of at 2, owns. rewrite Hact, Hrole, Hscope. cbn.
    apply in_app_or in Hx as [Hx|[<-|[]]].
    + rewrite (oe_owner _ _ _ _ _ Hwf x Hx Hxs Hn). specialize (Hfresh x Hx).
      destruct (Z.eqb_spec (o_id o) (o_id x)); [congruence|lia].
    + rewrite Z.eqb_refl, (no_members _ _ _ _ Hwf Hid); [lia|]. intros m. apply owner_scope.
  - intros s. rewrite count_snoc. destruct (owner_of s r) eqn:E; [|rewrite Z.add_0_r; apply Hwf].
    rewrite (proj2 (member_once _ _ s 0 Hmok) E). lia.
  - intros x m Hx Hxs Hm Hxact. apply in_app_or in Hx as [Hx|[<-|[]]]; [|by rewrite Hst in Hxs].
    apply in_app_or in Hm as [Hm|[<-|[]]]; [by eapply Hwf|]. apply active_scope in Hxact. by destruct (Hfresh x Hx); congruence.
  - intros s uid. rewrite count_snoc. destruct (current_member s uid r) eqn:E; [|rewrite Z.add_0_r; apply Hwf].
    rewrite (proj1 (member_once _ _ s uid Hmok) E). lia.
  - intros x m Hx Hxs Hn [Hm|[<-|[]]]%in_app_or Hr.
    + apply in_app_or in Hx as [Hx|[<-|[]]]; [by apply Hwf|]. apply not_true_is_false.
      intros How%owner_scope. destruct (oe_scopes _ _ _ _ _ Hwf m Hm) as (y & Hy & E). destruct (Hfresh y Hy). congruence.
    + apply (oe_live _ _ _ _ _ Hwf), in_map_iff in Hr as (y & Hy & Hin). unfold organisation_memberships_ok in Hmok. bool_hyps.
      match goal with Hf : fresh (fun x => m_public_id x =s _) ms = true |- _ => rewrite fresh_spec in Hf; specialize (Hf y Hin) end.
      by rewrite Hy, String.eqb_refl in *.
  - intros id Hr. rewrite map_app. apply in_or_app. left. by apply (oe_live _ _ _ _ _ Hwf).
Qed.

(** An UPDATE of organisations that keeps ids and status. *)
Lemma org_wf_rename os ms p name : org_wf_except' os ms -> org_wf_except' (update p (renamed_organisation name) os) ms.
Proof.
  intros Hwf.
  assert (forall o, In o (update p (renamed_organisation name) os) ->
    exists x, In x os /\ o_id x = o_id o /\ o_status x = o_status o /\ o_public_id x = o_public_id o) as Hback.
  { intros o (x & Hx & ->)%in_update. exists x. by destruct (p x). }
  assert (forall o, In o os -> exists x, In x (update p (renamed_organisation name) os) /\ o_id x = o_id o /\ o_public_id x = o_public_id o) as Hfwd.
  { intros o Ho. exists (if p o then renamed_organisation name o else o).
    split; [apply in_update; eauto|by destruct (p o)]. }
  split; try apply Hwf.
  - by apply ids_unique_update; [|apply Hwf].
  - rewrite map_update by done. apply Hwf.
  - intros m Hm. destruct (oe_scopes _ _ _ _ _ Hwf m Hm) as (o & Ho & <-). destruct (Hfwd o Ho) as (x & ? & ? & _). eauto.
  - intros o (x & Hx & _ & <- & _)%Hback. by apply Hwf.
  - intros o (x & Hx & <- & <- & <-)%Hback. by apply Hwf.
  - intros o m (x & Hx & <- & <- & _)%Hback. by apply Hwf.
  - intros o m (x & Hx & <- & <- & <-)%Hback. by apply Hwf.
Qed.

(** The archive of one organisation and of its memberships. *)
Lemma org_wf_archive os ms actor t t' reason org :
  org_wf_except' os ms ->
  org_wf_except' (update (organisation_active_with_id org) (archived_organisation t) os)
         (update (active_in_scope org) (deactivated actor t' reason) ms).
Proof.
  intros Hwf.
  set (os' := update _ _ os). set (ms' := update _ _ ms).
  assert (forall o, In o os' -> exists x, In x os /\ o_id x = o_id o /\ o_public_id x = o_public_id o
    /\ (o = x \/ (o_id o = org /\ o_status o = OrganisationArchived))) as Hback.
  { intros o (x & Hx & ->)%in_update. exists x. unfold organisation_active_with_id.
    destruct (_ && _) eqn:E; [|tauto]. bool_hyps. split_and!; try done. right.
    split; [by apply Z.eqb_eq|done]. }
  assert (forall o, In o os -> exists x, In x os' /\ o_id x = o_id o /\ o_public_id x = o_public_id o) as Hfwd.
  { intros o Ho. exists (if organisation_active_with_id org o then archived_organisation t o else o).
    split; [apply in_update; eauto|by destruct (organisation_active_with_id org o)]. }
  assert (forall s, count (owner_of s) ms' <= count (owner_of s) ms) as Hless by (intros s; by apply count_update_le).
  split.
  - by apply ids_unique_update; [|apply Hwf].
  - unfold os'. rewrite map_update by done. apply Hwf.
  - by apply ids_unique_update; [|apply Hwf].
  - intros m (x & Hx & ->)%in_update. destruct (oe_scopes _ _ _ _ _ Hwf x Hx) as (o & Ho & Hs).
    destruct (Hfwd o Ho) as (y & ? & ? & _). exists y. split; [done|]. destruct (active_in_scope org x); cbn; congruence.
  - intros o (x & Hx & _ & _ & [->|[_ ->]])%Hback; [by apply Hwf|done].
  - intros o Ho Hst Hn. pose proof Ho as (x & Hx & Hid & Hp & [->|[_ Ha]])%Hback; [|by rewrite Ha in Hst].
    unfold ms'. rewrite count_update_in; [by apply Hwf|]. intros m Hm Hact. transitivity false; [done|symmetry].
    apply not_true_is_false. intros How%owner_scope. apply active_scope in Hact.
    apply in_update in Ho as (y & Hy & E). assert (y = x) as ->.
    { eapply same_org; [done..|]. rewrite E. by destruct (organisation_active_with_id org y). }
    unfold organisation_active_with_id in E. rewrite Hst, <-How, Hact, Z.eqb_refl in E. cbn in E.
    rewrite E in Hst. done.
  - intros s. etransitivity; [apply Hless|apply Hwf].
  - intros o m Ho Hst (x & Hx & ->)%in_update Hact. destruct (active_in_scope org x) eqn:E.
    { unfold active_in_scope in Hact. cbn in Hact. by rewrite andb_false_r in Hact. }
    apply Hback in Ho as (y & Hy & Hid & _ & [->|[Ho _]]); [by eapply Hwf|].
    by rewrite Ho, E in Hact.
  - intros s uid. etransitivity; [apply count_update_le|apply Hwf].
    intros. unfold current_member. simpl. apply andb_false_r.
  - intros o m Ho Hst Hn (y & Hy & ->)%in_update Hr. destruct (active_in_scope org y); [apply gone_not_owner|].
    apply Hback in Ho as (x & Hx & Hid & Hp & [->|[_ Ha]]); [by apply Hwf|by rewrite Ha in Hst].
  - intros id Hr. unfold ms'. rewrite map_update by done. by apply (oe_live _ _ _ _ _ Hwf).
Qed.

End Exceptions.

(** ** Every operation keeps the invariant *)

(** Strips the audit and outbox writes that end an operation. *)
Ltac strip_log HP :=
  repeat match goal with
  | Hrec : recordOrganisationAuditTx _ _ _ _ _ _ _ = Ok (_, ?d) |- _ ?d =>
      apply (preserves_organisation_audit _ _ _ _ _ _ _ HP _ _ _ Hrec)
  end.
(** [inv_db] with the two lookups of this file. *)
Ltac inv_org_step :=
  first [ inv_db_step
        | match goal with
          | Ha : authorisedOrganisationMutationTx _ _ _ = Ok ((_, _, _, _), _) |- _ =>
              apply authorised_Ok in Ha; destruct Ha; subst
          | Hu : activeUserIDTx _ _ = Ok _ |- _ =>
              apply activeUserIDTx_Ok in Hu; destruct Hu as (? & ? & ? & ?); subst
          end ].
Ltac inv_org := repeat (inv_org_step; cbn [fst snd] in *).
Ltac str_eq :=
  repeat match goal with
  | H : String.eqb _ _ = true |- _ => apply String.eqb_eq in H
  | H : String.eqb _ _ = false |- _ => apply String.eqb_neq in H
  end.

Lemma organisation_by_public_id_In publicID db o :
  organisation_by_public_id publicID db = Some o -> In o (organisations db) /\ o_public_id o = publicID.
Proof. intros [Hin He]%find_some. split; [done|by apply String.eqb_eq]. Qed.

Lemma assignable_not_owner role : assignable_role role = true -> role <> OrganisationOwner.
Proof. unfold assignable_role. intros H ->. by vm_compute in H. Qed.

(** The row just inserted is the one its public id resolves to. *)

Lemma created_organisation_found pid db o y :
  o_public_id o = pid -> organisations_ok (organisations db) o = true ->
  organisation_by_public_id pid (set_organisations (organisations db ++ [o])%list db) = Some y ->
  y = o.
Proof.
  unfold organisation_by_public_id. cbn [organisations set_organisations]. intros <- Hok Hf.
  rewrite find_snoc in Hf; [by injection Hf|apply String.eqb_refl|].
  unfold organisations_ok in Hok. bool_hyps. by apply fresh_spec.
Qed.

Section Operations.
Context (imported joined removable : string -> Prop).
#[local] Abbreviation org_inv' := (org_inv_except imported joined removable).
Lemma except_CreateOrganisation a o r t rs : preserves org_inv' (CreateOrganisation a o r t rs).
Proof.
  intros db res db' Hop Hwf. unfold CreateOrganisation in Hop. inv_org; strip_log (org_inv_except_log imported joined removable);
    match goal with Hf : organisation_by_public_id _ _ = Some _ |- _ =>
      apply created_organisation_found in Hf; [subst|done..] end; by apply org_wf_create.
Qed.

Lemma may_administer_active db a org ai r oi sa :
  may_administer db a org ai r oi sa ->
  exists o, In o (organisations db) /\ o_id o = oi /\ o_status o = OrganisationActive.
Proof. intros (u & o & _ & _ & [Ho _]%organisation_by_public_id_In & Hid & Hst & _). eauto. Qed.

Lemma except_addOrganisationMemberTx a o u role r t rs :
  preserves org_inv' (addOrganisationMemberTx a o u role r t rs).
Proof.
  intros db res db' Hop Hwf. unfold addOrganisationMemberTx in Hop. inv_org. strip_log (org_inv_except_log imported joined removable).
  match goal with Hm : may_administer _ _ _ _ _ _ _ |- _ =>
    apply may_administer_active in Hm as (org & Hin & Hid & Hst) end.
  eapply org_wf_add; eauto; by apply assignable_not_owner.
Qed.

Lemma except_AddOrganisationMember a o u role r t rs :
  preserves org_inv' (AddOrganisationMember a o u role r t rs).
Proof. unfold AddOrganisationMember. frame_tx. apply except_addOrganisationMemberTx. Qed.

(** The membership a change or removal names is the only row it touches. *)
Lemma only_row db p m c :
  org_inv' db -> find p (organisation_memberships db) = Some c -> In m (organisation_memberships db) ->
  (m_id m =? m_id c) && m_active m = true -> m = c.
Proof.
  intros Hwf [Hc _]%find_some Hm He. bool_hyps.
  eapply (NoDup_map_inj_in m_id); [apply Hwf|done..|]. by apply Z.eqb_eq.
Qed.

Lemma except_changeOrganisationMemberRoleTx a o u role r t ev rs :
  preserves org_inv' (changeOrganisationMemberRoleTx a o u role r t ev rs).
Proof.
  intros db res db' Hop Hwf. unfold changeOrganisationMemberRoleTx in Hop. inv_org. strip_log (org_inv_except_log imported joined removable).
  match goal with Hm : may_administer _ _ _ _ _ _ _ |- _ =>
    apply may_administer_active in Hm as (org & Hin & Hid & Hst) end.
  bool_hyps; str_eq. eapply org_wf_add; eauto; [|by apply assignable_not_owner].
  apply org_wf_leave; [done|]. intros m Hm He.
  match goal with Hf : find _ _ = Some _ |- _ => by rewrite (only_row _ _ _ _ Hwf Hf Hm He) end.
Qed.

Lemma except_ChangeOrganisationMemberRole a o u role r t rs :
  preserves org_inv' (ChangeOrganisationMemberRole a o u role r t rs).
Proof. unfold ChangeOrganisationMemberRole. frame_tx. apply except_changeOrganisationMemberRoleTx. Qed.

Lemma except_deactivateOrganisationMemberTx a o u r t ev rs :
  preserves org_inv' (deactivateOrganisationMemberTx a o u r t ev rs).
Proof.
  intros db res db' Hop Hwf. unfold deactivateOrganisationMemberTx in Hop. inv_org. strip_log (org_inv_except_log imported joined removable).
  bool_hyps; str_eq. apply org_wf_leave; [done|]. intros m Hm He.
  match goal with Hf : find _ _ = Some _ |- _ => by rewrite (only_row _ _ _ _ Hwf Hf Hm He) end.
Qed.

Lemma except_DeactivateOrganisationMember a o u r t rs :
  preserves org_inv' (DeactivateOrganisationMember a o u r t rs).
Proof. unfold DeactivateOrganisationMember. frame_tx. apply except_deactivateOrganisationMemberTx. Qed.

Lemma except_ArchiveOrganisation a o r t rs : preserves org_inv' (ArchiveOrganisation a o r t rs).
Proof.
  intros db res db' Hop Hwf. unfold ArchiveOrganisation in Hop. inv_org. strip_log (org_inv_except_log imported joined removable).
  match goal with Hf : for_each _ _ _ = Ok _ |- _ =>
    refine (preserves_for_each org_inv' _ _ _ _ _ _ Hf _) end.
  - intros [i [[mid uid] role]]. apply preserves_organisation_audit, (org_inv_except_log imported joined removable).
  - by apply org_wf_archive.
Qed.

Lemma except_RenameOrganisation a o n r t rs : preserves org_inv' (RenameOrganisation a o n r t rs).
Proof.
  intros db res db' Hop Hwf. unfold RenameOrganisation in Hop. inv_org. strip_log (org_inv_except_log imported joined removable).
  by apply org_wf_rename.
Qed.

End Operations.

Lemma preserves_CreateOrganisation a o r t rs : preserves org_inv (CreateOrganisation a o r t rs).
Proof. apply preserves_org_inv. intros. apply except_CreateOrganisation. Qed.
Lemma preserves_addOrganisationMemberTx a o u role r t rs : preserves org_inv (addOrganisationMemberTx a o u role r t rs).
Proof. apply preserves_org_inv. intros. apply except_addOrganisationMemberTx. Qed.
Lemma preserves_AddOrganisationMember a o u role r t rs : preserves org_inv (AddOrganisationMember a o u role r t rs).
Proof. apply preserves_org_inv. intros. apply except_AddOrganisationMember. Qed.

(** ** What a committed mutation leaves behind *)

(** One audit row by the actor and one outbox event of the given type for the
    organisation were added, and nothing else changed. *)
Definition logged (actorID : Z) (organisationID event eventType : string) (db db' : DB) : Prop :=
  exists a e, db' = set_outbox (outbox db ++ [e])%list (set_audit_events (audit_events db ++ [a])%list db)
    /\ a_actor_user_id a = Some actorID /\ a_event a = event /\ a_aggregate_id a = organisationID
    /\ ob_event_type e = eventType /\ ob_aggregate_id e = TrimSpace organisationID
    /\ Event_Validate (row_event e) = Ok tt.

Lemma user_by_id_In db u : In u (users db) -> exists v, user_by_id db (u_id u) = Some v.
Proof.
  intros Hin. unfold user_by_id. destruct (find _ _) as [v|] eqn:E; [eauto|].
  apply (find_none _ _ E) in Hin. by rewrite Z.eqb_refl in Hin.
Qed.

Lemma organisation_audit_Ok actorID orgID event d t rand db u db' :
  four_digit_year t -> (exists v, In v (users db) /\ u_id v = actorID) ->
  recordOrganisationAuditTx actorID orgID event d t rand db = Ok (u, db') ->
  od_OrganisationID d = orgID ->
  exists eventType extra, organisation_event event d = Some (eventType, extra)
    /\ logged actorID orgID event eventType db db'.
Proof.
  intros Ht (v & Hv & <-) Hop <-. destruct (user_by_id_In db v Hv) as [w Hw].
  unfold recordOrganisationAuditTx, insert_audit, appendOrganisationEventTx in Hop. inv_db; [|congruence].
  match goal with Ha : appendPlatformEventTx _ _ _ _ _ _ = Ok _ |- _ =>
    apply append_Ok in Ha as (e & Hval & Hty & Hagg & Hat & _ & _ & _ & ->) end.
  eexists _, _. split; [done|]. eexists _, _. split; [reflexivity|]. split_and!; try done.
  rewrite row_event_event_row; [done|]. by rewrite Hat.
Qed.

Lemma may_administer_actor db a org ai r oi sa :
  may_administer db a org ai r oi sa -> exists v, In v (users db) /\ u_id v = ai.
Proof. intros (u & o & [Hu _]%find_some & Hid & _). eauto. Qed.

(** What an administrator may do to another member's row. *)
Definition outranks (systemAdmin : bool) (actorRole targetRole : string) : Prop :=
  systemAdmin = true \/ actorRole <> OrganisationAdmin \/ targetRole = OrganisationMember.

Lemma outranks_guard sa ar tr :
  negb (negb sa && (ar =s OrganisationAdmin) && negb (tr =s OrganisationMember)) = true -> outranks sa ar tr.
Proof.
  unfold outranks. destruct sa; [tauto|]. destruct (String.eqb_spec ar OrganisationAdmin); [|tauto].
  destruct (String.eqb_spec tr OrganisationMember); [tauto|done].
Qed.

Lemma version_conflict_false ev v :
  negb (version_conflict ev v) = true -> match ev with Some w => w = v | None => True end.
Proof. destruct ev as [w|]; [|done]. simpl. intros H. bool_hyps. by apply Z.eqb_eq. Qed.

(** The current membership row of an active user with unique identifiers. *)
Lemma member_of_active_user_user db scope target m :
  user_inv db -> find (member_of_active_user db scope target) (organisation_memberships db) = Some m ->
  In m (organisation_memberships db) /\ m_scope m = scope /\ m_active m = true
  /\ forall u, active_user db target = Some u -> u_id u = m_user_id m.
Proof.
  intros Hwf [Hin Hp]%find_some. unfold member_of_active_user in Hp. bool_hyps.
  match goal with Hz : (_ =? _) = true |- _ => apply Z.eqb_eq in Hz end. split_and!; try done.
  intros u Hu. match goal with He : existsb _ _ = true |- _ => apply existsb_exists in He as (v & Hv & Hp') end.
  apply andb_true_iff in Hp' as [Hid Hact]. apply Z.eqb_eq in Hid. rewrite <-Hid.
  apply (active_user_Some _ _ _ Hwf) in Hu as (Hu & Hup & _).
  unfold is_active_user in Hact. apply andb_true_iff in Hact as [Hvp _]. apply String.eqb_eq in Hvp.
  f_equal. eapply (NoDup_map_inj_in u_public_id); [apply Hwf|done..|congruence].
Qed.

(** ** Properties *)

(** C35: a role change that commits was made by someone allowed to administer the
    active organisation, on a current member other than the owner whom the actor
    outranks and whose version is the expected one; it retires exactly that row,
    adds one row with the new role and the next version, and logs exactly one audit
    record and one event. The new row is for the active user whose identifier is the
    given one without its surrounding white space: the same user as in the retired
    row when there is none. *)
Theorem role_change_exact actor org target role reason t ev rs db res db' :
  user_inv db -> four_digit_year t ->
  changeOrganisationMemberRoleTx actor org target role reason t ev rs db = Ok (res, db') ->
  exists ai ar oi sa cur new,
    may_administer db actor org ai ar oi sa
    /\ find (member_of_active_user db oi target) (organisation_memberships db) = Some cur
    /\ m_role cur <> OrganisationOwner /\ outranks sa ar (m_role cur)
    /\ (match ev with Some v => v = m_version cur | None => True end)
    /\ m_scope new = oi /\ m_role new = role /\ m_role new <> m_role cur
    /\ (exists u, active_user db (TrimSpace target) = Some u /\ m_user_id new = u_id u)
    /\ (TrimSpace target = target -> m_user_id new = m_user_id cur)
    /\ m_active new = true /\ m_version new = m_version cur + 1
    /\ logged ai org eventMembershipRoleChanged EventOrganisationRoleChanged
         (set_organisation_memberships
            (update (fun m => (m_id m =? m_id cur) && m_active m) (deactivated ai t reason)
               (organisation_memberships db) ++ [new])%list db) db'.
Proof.
  intros Hu Ht Hop. unfold changeOrganisationMemberRoleTx in Hop. inv_org.
  match goal with Hm : may_administer _ _ _ _ _ _ _, Hf : find _ _ = Some _,
    Hr : recordOrganisationAuditTx _ _ _ _ _ _ _ = Ok _ |- _ =>
    pose proof (may_administer_actor _ _ _ _ _ _ _ Hm) as Hact;
    destruct (member_of_active_user_user _ _ _ _ Hu Hf) as (Hin & Hscope & Ha & Hid);
    apply organisation_audit_Ok in Hr as (ty & extra & [= <- <-] & Hlog); [|done..] end.
  match goal with Hr : negb (negb _ && _ && negb _) = true |- _ => apply outranks_guard in Hr end.
  match goal with Hr : negb (version_conflict _ _) = true |- _ => apply version_conflict_false in Hr end.
  bool_hyps; str_eq. eexists _, _, _, _, _, _. split_and!.
  13: exact Hlog.
  all: try eassumption; cbn; auto.
  all: try congruence.
  - by eexists.
  - intros Htrim. rewrite Htrim in *. auto.
Qed.

(** a member removal that commits was made by someone allowed to administer
    the active organisation, on a current member other than the owner whom the
    actor outranks; exactly that membership becomes inactive, with who removed it,
    when and why, and one audit record and one event are logged. *)
Theorem member_removal_exact actor org target reason t ev rs db res db' :
  user_inv db -> four_digit_year t ->
  deactivateOrganisationMemberTx actor org target reason t ev rs db = Ok (res, db') ->
  exists ai ar oi sa cur,
    may_administer db actor org ai ar oi sa
    /\ find (member_of_active_user db oi target) (organisation_memberships db) = Some cur
    /\ m_role cur <> OrganisationOwner /\ outranks sa ar (m_role cur)
    /\ (match ev with Some v => v = m_version cur | None => True end)
    /\ TrimSpace reason <> "" /\ OM_ID res = m_public_id cur /\ OM_Active res = false
    /\ logged ai org eventMembershipDeactivated EventOrganisationMembershipRemoved
         (set_organisation_memberships
            (update (fun m => (m_id m =? m_id cur) && m_active m) (deactivated ai t reason)
               (organisation_memberships db)) db) db'.
Proof.
  intros Hu Ht Hop. unfold deactivateOrganisationMemberTx in Hop. inv_org.
  match goal with Hm : may_administer _ _ _ _ _ _ _, Hv : validateMutationReason _ = Ok _,
    Hr : recordOrganisationAuditTx _ _ _ _ _ _ _ = Ok _ |- _ =>
    pose proof (may_administer_actor _ _ _ _ _ _ _ Hm) as Hact;
    apply validateMutationReason_Ok in Hv as [Hreason _];
    apply organisation_audit_Ok in Hr as (ty & extra & [= <- <-] & Hlog); [|done..] end.
  match goal with Hr : negb (negb _ && _ && negb _) = true |- _ => apply outranks_guard in Hr end.
  match goal with Hr : negb (version_conflict _ _) = true |- _ => apply version_conflict_false in Hr end.
  bool_hyps; str_eq. eexists _, _, _, _, _. split_and!.
  9: exact Hlog.
  all: try eassumption; done.
Qed.

(** an addition that commits was made by someone allowed to administer the
    active organisation (an administrator may only add plain members), for an
    active user who was not a current member; it adds exactly one row, at
    version 1 and never with the owner role, and logs one record and one event. *)
Theorem member_addition_exact actor org target role reason t rs db res db' :
  user_inv db -> four_digit_year t ->
  AddOrganisationMember actor org target role reason t rs db = Ok (res, db') ->
  exists ai ar oi sa u new,
    may_administer db actor org ai ar oi sa /\ (sa = true \/ ar <> OrganisationAdmin \/ role <> OrganisationAdmin)
    /\ active_user db (TrimSpace target) = Some u
    /\ count (current_member oi (u_id u)) (organisation_memberships db) = 0
    /\ current_member oi (u_id u) new = true /\ m_role new = role /\ role <> OrganisationOwner
    /\ m_version new = 1
    /\ logged ai org eventMembershipAdded EventOrganisationMembershipAdded
         (set_organisation_memberships (organisation_memberships db ++ [new])%list db) db'.
Proof.
  intros Hu Ht Hop. unfold AddOrganisationMember, addOrganisationMemberTx in Hop. inv_org.
  match goal with Hm : may_administer _ _ _ _ _ _ _,
    Hr : recordOrganisationAuditTx _ _ _ _ _ _ _ = Ok _, Ha : assignable_role _ = true |- _ =>
    pose proof (may_administer_actor _ _ _ _ _ _ _ Hm) as Hact;
    apply assignable_not_owner in Ha;
    apply organisation_audit_Ok in Hr as (ty & extra & [= <- <-] & Hlog); [|done..] end.
  match goal with Hr : (count _ _ =? 0) = true |- _ => apply Z.eqb_eq in Hr end.
  eexists _, _, _, _, _, _. split_and!.
  9: exact Hlog.
  all: try eassumption; try done.
  - match goal with Hg : negb (negb ?sa && (?ar =s _) && (?r =s _)) = true |- _ =>
      destruct sa, (String.eqb_spec ar OrganisationAdmin), (String.eqb_spec r OrganisationAdmin); tauto end.
  - unfold current_member. cbn. by rewrite !Z.eqb_refl.
Qed.

(** only the owner or a system administrator can archive an organisation,
    and the archive is complete: the organisation is archived and no active
    membership of it is left. *)
Theorem archive_exact actor org reason t rs db u db' :
  org_inv db -> ArchiveOrganisation actor org reason t rs db = Ok (u, db') ->
  exists ai ar oi sa,
    may_administer db actor org ai ar oi sa /\ (sa = true \/ ar = OrganisationOwner)
    /\ organisation_memberships db'
       = update (active_in_scope oi) (deactivated ai t reason) (organisation_memberships db)
    /\ count (active_in_scope oi) (organisation_memberships db') = 0
    /\ organisation_by_public_id org db'
       = option_map (archived_organisation t) (organisation_by_public_id org db).
Proof.
  intros Hwf Hop. unfold ArchiveOrganisation in Hop. inv_org.
  match goal with Hf : for_each _ _ ?d = Ok _ |- _ =>
    set (P d' := organisations d' = organisations d /\ organisation_memberships d' = organisation_memberships d);
    rename Hf into Hloop end.
  assert (ignores_log P) as HP by (by split).
  assert (P db') as [Ho Hms].
  { strip_log HP. refine (preserves_for_each P _ _ _ _ _ _ Hloop _); [|by split].
    intros [i [[mid uid] role]]. by apply preserves_organisation_audit. }
  cbn [organisations organisation_memberships set_organisations set_organisation_memberships] in *.
  match goal with Hm : may_administer _ _ _ ?ai ?ar ?oi ?sa |- _ =>
    exists ai, ar, oi, sa; rename Hm into Hauth end.
  rewrite Hms. split_and!; try done.
  - match goal with Hg : negb (negb ?sa && negb (?ar =s _)) = true |- _ =>
      destruct sa, (String.eqb_spec ar OrganisationOwner); tauto end.
  - apply count_zero. intros m (y & _ & ->)%in_update.
    match goal with |- active_in_scope ?z _ = _ => destruct (active_in_scope z y) eqn:E; [|done] end.
    unfold active_in_scope. simpl. apply andb_false_r.
  - destruct Hauth as (w & o & _ & _ & Ho' & <- & Hst & _).
    unfold organisation_by_public_id in *. rewrite Ho, find_update, Ho' by done. simpl.
    unfold organisation_active_with_id. by rewrite Z.eqb_refl, Hst.
Qed.

(** ** Witnesses *)

Definition sample_rs (tag : string) : rng := fun n => Some (tag ++ FormatInt (Z.of_nat n)).
Definition sample_create_user (id : string) : St DB error User :=
  @CreateUser ascii_tables toy_crypto (mkUser id (id ++ "@example.com") id "" true false 0 None)
    "correct horse battery" "salt" Second (Some id).
(** Two users; the first owns an organisation the second is a member of. *)
Definition sample_organisation : St DB error unit :=
  do! sample_create_user "usr_1" in
  do! sample_create_user "usr_2" in
  do! CreateOrganisation "usr_1" (mkOrganisation "org_1" "Org" "" 0 None) "setup" Second (sample_rs "a") in
  do! AddOrganisationMember "usr_1" "org_1" "usr_2" "member" "join" (2 * Second) (sample_rs "b") in
  ret tt.
Definition sample_org_db : DB := snd (exec sample_organisation empty_db).


Lemma sample_org_users : user_inv sample_org_db.
Proof. split; [unfold ids_unique|]; by_computation. Qed.

Lemma sample_org_inv : org_inv sample_org_db.
Proof.
  unfold sample_org_db. apply (preserves_exec org_inv); [|apply org_inv_empty].
  unfold sample_organisation, sample_create_user, CreateUser. frame_tx.
  1,2: apply preserves_append_log, org_inv_log.
  - apply preserves_CreateOrganisation.
  - apply preserves_AddOrganisationMember.
Qed.

Lemma sample_year : four_digit_year (3 * Second).
Proof. unfold four_digit_year. vm_compute. intuition discriminate. Qed.

Lemma role_change_exact_witness :
  exists res db', changeOrganisationMemberRoleTx "usr_1" "org_1" "usr_2" "admin" "promote" (3 * Second)
      (Some 1) (sample_rs "c") sample_org_db = Ok (res, db')
    /\ exists ai ar oi sa, may_administer sample_org_db "usr_1" "org_1" ai ar oi sa.
Proof.
  assert (exists res db', changeOrganisationMemberRoleTx "usr_1" "org_1" "usr_2" "admin" "promote" (3 * Second)
      (Some 1) (sample_rs "c") sample_org_db = Ok (res, db')) as (res & db' & E)
    by (do 2 eexists; vm_compute; reflexivity).
  exists res, db'. split; [exact E|].
  destruct (role_change_exact "usr_1" "org_1" "usr_2" "admin" "promote" (3 * Second) (Some 1) (sample_rs "c")
    sample_org_db res db' sample_org_users sample_year E)
    as (ai & ar & oi & sa & cur & new & Hm & _). exists ai, ar, oi, sa. exact Hm.
Defined.

Lemma member_removal_exact_witness :
  exists res db', deactivateOrganisationMemberTx "usr_1" "org_1" "usr_2" "leave" (3 * Second)
      (Some 1) (sample_rs "c") sample_org_db = Ok (res, db') /\ OM_Active res = false.
Proof.
  assert (exists res db', deactivateOrganisationMemberTx "usr_1" "org_1" "usr_2" "leave" (3 * Second)
      (Some 1) (sample_rs "c") sample_org_db = Ok (res, db')) as (res & db' & E)
    by (do 2 eexists; vm_compute; reflexivity).
  exists res, db'. split; [exact E|].
  destruct (member_removal_exact "usr_1" "org_1" "usr_2" "leave" (3 * Second) (Some 1) (sample_rs "c")
    sample_org_db res db' sample_org_users sample_year E)
    as (ai & ar & oi & sa & cur & _ & _ & _ & _ & _ & _ & _ & Ha & _). exact Ha.
Defined.

Definition sample_third_db : DB := snd (exec (sample_create_user "usr_3") sample_org_db).
Lemma sample_third_users : user_inv sample_third_db.
Proof. split; [unfold ids_unique|]; by_computation. Qed.

Lemma member_addition_exact_witness :
  exists res db', AddOrganisationMember "usr_1" "org_1" "usr_3" "admin" "join" (3 * Second)
      (sample_rs "c") sample_third_db = Ok (res, db')
    /\ exists u, active_user sample_third_db "usr_3" = Some u.
Proof.
  assert (exists res db', AddOrganisationMember "usr_1" "org_1" "usr_3" "admin" "join" (3 * Second)
      (sample_rs "c") sample_third_db = Ok (res, db')) as (res & db' & E)
    by (do 2 eexists; vm_compute; reflexivity).
  exists res, db'. split; [exact E|].
  destruct (member_addition_exact "usr_1" "org_1" "usr_3" "admin" "join" (3 * Second) (sample_rs "c")
    sample_third_db res db' sample_third_users sample_year E)
    as (ai & ar & oi & sa & u & new & _ & _ & Hu & _). exists u. exact Hu.
Defined.

Lemma archive_exact_witness :
  exists db', ArchiveOrganisation "usr_1" "org_1" "closing" (3 * Second) (sample_rs "c") sample_org_db = Ok (tt, db')
    /\ exists oi, count (active_in_scope oi) (organisation_memberships db') = 0.
Proof.
  assert (exists db', ArchiveOrganisation "usr_1" "org_1" "closing" (3 * Second) (sample_rs "c") sample_org_db
    = Ok (tt, db')) as (db' & E) by (eexists; vm_compute; reflexivity).
  exists db'. split; [exact E|].
  destruct (archive_exact "usr_1" "org_1" "closing" (3 * Second) (sample_rs "c")
    sample_org_db tt db' sample_org_inv E) as (ai & ar & oi & sa & _ & _ & _ & Hz & _). exists oi. exact Hz.
Defined.
