(* ===== verification/Access.v ===== *)
(** internal/db/sqlite/access_scope.go and internal/store/access_scope.go: the
    proof that a user may use, or administer, a workspace. *)
From stdpp Require Import base tactics list strings.
From Stdlib Require Import ZArith Lia Ascii String Sorted.
From S2P Require Import Prelude GoStrings GoTime Codec Json Errors Domain Events Schema Outbox Auth.
From S2P Require Import Identity Organisation.

Local Open Scope string_scope.
Local Open Scope Z_scope.

Record WorkspaceScope := mkWorkspaceScope {
  ws_UserID : string; ws_OrganisationID : string; ws_WorkspaceID : string;
  ws_OrganisationRole : string; ws_WorkspaceRole : string; ws_SystemAdmin : bool }.

Record workspaceScopeProof := mkScopeProof {
  userInternalID : Z; organisationInternalID : Z; workspaceInternalID : Z; scope : WorkspaceScope }.

(** [COALESCE(m.role,'')] of a LEFT JOIN on the current membership. *)
Definition current_role (scope uid : Z) (t : list MembershipRow) : string :=
  match find (current_member scope uid) t with Some m => m_role m | None => "" end.

Definition active_workspace (workspaceID : string) (db : DB) : option WorkspaceRow :=
  find (fun w => (w_public_id w =s workspaceID) && (w_status w =s WorkspaceActive)) (workspaces db).
Definition active_organisation_by_id (id : Z) (db : DB) : option OrganisationRow :=
  find (fun o => (o_id o =? id) && (o_status o =s OrganisationActive)) (organisations db).

(** The row of the scope query: the active user, the active workspace, its
    active organisation, and the roles the user holds in them. *)
Definition scope_row (db : DB) (requesterUserID workspaceID : string) : option workspaceScopeProof :=
  match active_user db requesterUserID, active_workspace workspaceID db with
  | Some u, Some w =>
      match active_organisation_by_id (w_organisation_id w) db with
      | Some o =>
          Some (mkScopeProof (u_id u) (o_id o) (w_id w)
            (mkWorkspaceScope (u_public_id u) (o_public_id o) (w_public_id w)
               (current_role (o_id o) (u_id u) (organisation_memberships db))
               (current_role (w_id w) (u_id u) (workspace_memberships db))
               (system_admin db (u_id u))))
      | None => None
      end
  | _, _ => None
  end.

Definition proveWorkspaceScopeQuery (db : DB) (requesterUserID workspaceID : string) (adminOnly : bool)
  : res workspaceScopeProof :=
  match scope_row db requesterUserID workspaceID with
  | None => Err (Sentinel ErrAccessScopeDenied)
  | Some proof =>
      let s := scope proof in
      if negb (ws_SystemAdmin s) && negb (OrganisationRole_Valid (ws_OrganisationRole s))
      then Err (Sentinel ErrAccessScopeDenied)
      else if adminOnly && negb (ws_SystemAdmin s)
              && negb (OrganisationRole_CanAdminister (ws_OrganisationRole s))
              && negb (WorkspaceRole_CanAdminister (ws_WorkspaceRole s))
      then Err (Sentinel ErrAccessScopeDenied)
      else if negb adminOnly && negb (ws_SystemAdmin s)
              && negb (OrganisationRole_CanAdminister (ws_OrganisationRole s))
              && negb (WorkspaceRole_Valid (ws_WorkspaceRole s))
      then Err (Sentinel ErrAccessScopeDenied)
      else Ok proof
  end.

Definition ProveWorkspaceScope (db : DB) (requesterUserID workspaceID : string) (adminOnly : bool)
  : res WorkspaceScope :=
  let? proof := proveWorkspaceScopeQuery db requesterUserID workspaceID adminOnly in Ok (scope proof).

(** ** The contract: who may do what in a workspace *)

(** The access rule, as a predicate on the roles a user holds. *)
Definition scope_allows (adminOnly systemAdmin : bool) (orgRole wsRole : string) : Prop :=
  systemAdmin = true
  \/ OrganisationRole_CanAdminister orgRole = true
  \/ OrganisationRole_Valid orgRole = true
     /\ (if adminOnly then wsRole = WorkspaceAdmin else WorkspaceRole_Valid wsRole = true).

Lemma CanAdminister_Valid r : OrganisationRole_CanAdminister r = true -> OrganisationRole_Valid r = true.
Proof. unfold OrganisationRole_CanAdminister, OrganisationRole_Valid. intros ->. done. Qed.

Lemma prove_scope_Ok db uid wid adminOnly p :
  proveWorkspaceScopeQuery db uid wid adminOnly = Ok p <->
  scope_row db uid wid = Some p
  /\ scope_allows adminOnly (ws_SystemAdmin (scope p)) (ws_OrganisationRole (scope p))
       (ws_WorkspaceRole (scope p)).
Proof.
  unfold proveWorkspaceScopeQuery, scope_allows.
  destruct (scope_row db uid wid) as [q|]; [|naive_solver].
  destruct (ws_SystemAdmin (scope q)) eqn:Es; cbn [negb andb].
  { rewrite !andb_false_r. cbn. naive_solver. }
  pose proof (CanAdminister_Valid (ws_OrganisationRole (scope q))) as Hv.
  unfold WorkspaceRole_CanAdminister.
  destruct (OrganisationRole_CanAdminister (ws_OrganisationRole (scope q))) eqn:Ec;
    destruct (OrganisationRole_Valid (ws_OrganisationRole (scope q))) eqn:Ev; try (specialize (Hv eq_refl); done);
    destruct adminOnly; cbn [negb andb];
    destruct (String.eqb_spec (ws_WorkspaceRole (scope q)) WorkspaceAdmin);
    destruct (WorkspaceRole_Valid (ws_WorkspaceRole (scope q))) eqn:Ew; cbn [negb andb];
    split; intros; naive_solver congruence.
Qed.

(** ** Properties *)

(** C23: workspace access is proved exactly for the users the access rule names:
    the user is active, the workspace and its organisation are active, and the
    user is a system administrator, an owner or administrator of the
    organisation, or a member of the organisation who is also a workspace
    administrator (for administration) or any workspace member (for use). Every
    other request is denied, with the one access-scope error. *)
Theorem scope_decision db uid wid adminOnly :
  (forall s, ProveWorkspaceScope db uid wid adminOnly = Ok s <->
     exists u w o, active_user db uid = Some u /\ active_workspace wid db = Some w
       /\ active_organisation_by_id (w_organisation_id w) db = Some o
       /\ s = mkWorkspaceScope (u_public_id u) (o_public_id o) (w_public_id w)
                (current_role (o_id o) (u_id u) (organisation_memberships db))
                (current_role (w_id w) (u_id u) (workspace_memberships db))
                (system_admin db (u_id u))
       /\ scope_allows adminOnly (ws_SystemAdmin s) (ws_OrganisationRole s) (ws_WorkspaceRole s))
  /\ (forall e, ProveWorkspaceScope db uid wid adminOnly = Err e -> e = Sentinel ErrAccessScopeDenied).
Proof.
  split.
  - intros s. unfold ProveWorkspaceScope. split.
    + destruct (proveWorkspaceScopeQuery _ _ _ _) as [p|] eqn:E; [|done]. intros [= <-].
      apply prove_scope_Ok in E as [Hrow Hal]. unfold scope_row in Hrow.
      destruct (active_user db uid) as [u|]; [|done]. destruct (active_workspace wid db) as [w|]; [|done].
      destruct (active_organisation_by_id _ db) as [o|] eqn:Eo; [|done]. injection Hrow as <-.
      exists u, w, o. done.
    + intros (u & w & o & Hu & Hw & Ho & -> & Hal).
      assert (proveWorkspaceScopeQuery db uid wid adminOnly = Ok (mkScopeProof (u_id u) (o_id o) (w_id w)
        (mkWorkspaceScope (u_public_id u) (o_public_id o) (w_public_id w)
          (current_role (o_id o) (u_id u) (organisation_memberships db))
          (current_role (w_id w) (u_id u) (workspace_memberships db)) (system_admin db (u_id u))))) as ->; [|done].
      apply prove_scope_Ok. split; [|done]. unfold scope_row. by rewrite Hu, Hw, Ho.
  - intros e. unfold ProveWorkspaceScope, proveWorkspaceScopeQuery.
    destruct (scope_row db uid wid) as [p|]; [|naive_solver].
    set (b1 := _ && _). set (b2 := _ && _). set (b3 := _ && _).
    destruct b1; [naive_solver|]. destruct b2; [naive_solver|]. destruct b3; naive_solver.
Qed.
