(* ===== verification/Workspace.v ===== *)
(** internal/db/sqlite/workspace.go: workspaces inside an organisation and their
    members, authorised by the scope proof of Access.v. *)
From stdpp Require Import base tactics list strings.
From Stdlib Require Import ZArith Lia Ascii String Sorted.
From S2P Require Import Prelude GoStrings GoTime Codec Json Errors Domain Events Schema Outbox Auth.
From S2P Require Import Identity Organisation Access.

Local Open Scope string_scope.
Local Open Scope Z_scope.

Definition auditWorkspace := "Workspace".

(** ** Helpers *)

Definition workspace_by_public_id (publicID : string) (db : DB) : option WorkspaceRow :=
  find (fun w => w_public_id w =s publicID) (workspaces db).
Definition workspace_by_id (id : Z) (db : DB) : option WorkspaceRow :=
  find (fun w => w_id w =? id) (workspaces db).

(** [FROM workspaces w JOIN organisations o ON o.id=w.organisation_id WHERE w.public_id=?] *)
Definition workspace_with_organisation (workspaceID : string) (db : DB) : option (WorkspaceRow * OrganisationRow) :=
  match workspace_by_public_id workspaceID db with
  | Some w => option_map (pair w) (find (fun o => o_id o =? w_organisation_id w) (organisations db))
  | None => None
  end.

Definition classifyWorkspaceScopeError (db : DB) (workspaceID : string) (err : error) : error :=
  if negb (errors_Is err ErrAccessScopeDenied) then err
  else match workspace_with_organisation workspaceID db with
       | None => Sentinel ErrWorkspaceNotFound
       | Some (w, o) =>
           if negb (w_status w =s WorkspaceActive) || negb (o_status o =s OrganisationActive)
           then Sentinel ErrWorkspaceArchived else Sentinel ErrUnauthorisedWorkspaceAction
       end.

Definition authorisedWorkspaceRead (requesterUserID workspaceID : string) (adminOnly : bool) (db : DB) : res Z :=
  match proveWorkspaceScopeQuery db requesterUserID workspaceID adminOnly with
  | Err e => Err (classifyWorkspaceScopeError db workspaceID e)
  | Ok proof => Ok (workspaceInternalID proof)
  end.

(** The user, organisation and workspace, and whether the actor is a system
    administrator. *)
Definition authorisedWorkspaceMutationTx (actorUserID workspaceID : string) (allowWorkspaceAdmin : bool)
  : St DB error (Z * Z * Z * bool) :=
  let! proved := reads (fun db =>
    match proveWorkspaceScopeQuery db actorUserID workspaceID true with
    | Err e => Err (classifyWorkspaceScopeError db workspaceID e)
    | Ok proof => Ok proof
    end) in
  let! proof := lift proved in
  do! require (allowWorkspaceAdmin || ws_SystemAdmin (scope proof)
               || OrganisationRole_CanAdminister (ws_OrganisationRole (scope proof)))
        ErrUnauthorisedWorkspaceAction in
  ret (userInternalID proof, organisationInternalID proof, workspaceInternalID proof,
       ws_SystemAdmin (scope proof)).

(** [EXISTS(SELECT 1 FROM users u JOIN organisations o ON o.id=(SELECT
    organisation_id FROM workspaces WHERE id=?) AND o.status='active' JOIN
    organisation_memberships om ... WHERE u.public_id=? AND u.active=1)] *)
Definition target_in_organisation (workspaceInternalID : Z) (targetUserID : string) (db : DB) : bool :=
  match workspace_by_id workspaceInternalID db with
  | None => false
  | Some w =>
      existsb (fun o => organisation_active_with_id (w_organisation_id w) o
        && existsb (fun u => is_active_user targetUserID u
             && existsb (current_member (o_id o) (u_id u)) (organisation_memberships db)) (users db))
        (organisations db)
  end.
Definition activeWorkspaceTargetUserTx (workspaceInternalID : Z) (targetUserID : string) : St DB error unit :=
  let! exists_ := reads (target_in_organisation workspaceInternalID targetUserID) in
  require exists_ ErrUnauthorisedWorkspaceAction.

Definition targetUserIDInternal (targetUserID : string) : St DB error Z :=
  let! row := reads (fun db => active_user db targetUserID) in
  let! u := some_or row (Wrap "resolve workspace member user" NoRows) in
  ret (u_id u).

Definition workspace_details_json (d : workspaceMutationDetails) : string :=
  encode_fields ([("workspace_id", VString (wd_WorkspaceID d))]
    ++ omitempty "membership_id" (wd_MembershipID d) ++ omitempty "user_id" (wd_UserID d)
    ++ omitempty "role" (wd_Role d) ++ omitempty "reason" (wd_Reason d))%list.

Definition recordWorkspaceAuditTx (actorID : Z) (workspaceID event : string) (d : workspaceMutationDetails)
    (at_ : Z) (rand : option string) : St DB error unit :=
  do! within "record workspace audit"
        (insert_audit actorID auditWorkspace workspaceID event (workspace_details_json d) at_) in
  let! row := reads (workspace_with_organisation workspaceID) in
  let! (_, o) := some_or row (Wrap "resolve workspace event organisation" NoRows) in
  within "record workspace outbox event" (appendWorkspaceEventTx event d (o_public_id o) at_ rand).

(** ** Mutations *)

Definition CreateWorkspace (actorUserID organisationID : string) (workspace : Workspace) (reason : string)
    (at_ : Z) (rs : rng) : St DB error (Workspace * WorkspaceMembership) :=
  do! lift (validateMutationReason reason) in
  do! require (negb (IsZero at_)) (Text "workspace creation time is required") in
  let! wspID := (if Workspace_ID workspace =s "" then lift (NewWorkspaceID (rs 0%nat))
                 else ret (Workspace_ID workspace)) in
  let workspace := mkWorkspace wspID organisationID (TrimSpace (Workspace_Name workspace))
                     WorkspaceActive at_ None in
  do! lift (Workspace_Validate workspace) in
  let! membershipID := lift (NewWorkspaceMembershipID (rs 1%nat)) in
  let! (actorID, _, orgID, _) := authorisedOrganisationMutationTx actorUserID organisationID in
  do! within "create workspace" (insert_row workspaces set_workspaces workspaces_ok (fun id =>
        mkWorkspaceRow id wspID orgID (Workspace_Name workspace) WorkspaceActive (formatTime at_) None)) in
  let! row := reads (workspace_by_public_id wspID) in
  let! w := some_or row (Wrap "resolve created workspace" NoRows) in
  do! within "assign workspace administrator"
        (insert_row workspace_memberships set_workspace_memberships workspace_memberships_ok
           (membership_row membershipID (w_id w) actorID WorkspaceAdmin actorID at_ 1)) in
  do! recordWorkspaceAuditTx actorID wspID eventWorkspaceCreated
        (mkWMD wspID "" "" "" (TrimSpace reason)) at_ (rs 2%nat) in
  do! recordWorkspaceAuditTx actorID wspID eventWorkspaceMembershipAdded
        (mkWMD wspID membershipID actorUserID WorkspaceAdmin (TrimSpace reason)) at_ (rs 3%nat) in
  ret (workspace, mkWorkspaceMembership membershipID wspID actorUserID WorkspaceAdmin true actorUserID at_ "" None "").

Definition addWorkspaceMemberTx (actorUserID workspaceID targetUserID role reason : string)
    (at_ : Z) (rs : rng) : St DB error WorkspaceMembership :=
  do! require (WorkspaceRole_Valid role) ErrInvalidWorkspaceRole in
  do! lift (validateMutationReason reason) in
  do! require (negb (IsZero at_)) (Text "workspace membership assignment time is required") in
  let! membershipID := lift (NewWorkspaceMembershipID (rs 0%nat)) in
  let! (actorID, _, wspID, _) := authorisedWorkspaceMutationTx actorUserID workspaceID true in
  do! activeWorkspaceTargetUserTx wspID targetUserID in
  let! active := reads (fun db => existsb (member_of_active_user db wspID targetUserID) (workspace_memberships db)) in
  do! require (negb active) ErrDuplicateWorkspaceMember in
  let! targetID := targetUserIDInternal targetUserID in
  do! within "assign workspace membership"
        (insert_row workspace_memberships set_workspace_memberships workspace_memberships_ok
           (membership_row membershipID wspID targetID role actorID at_ 1)) in
  do! recordWorkspaceAuditTx actorID workspaceID eventWorkspaceMembershipAdded
        (mkWMD workspaceID membershipID targetUserID role (TrimSpace reason)) at_ (rs 1%nat) in
  ret (mkWorkspaceMembership membershipID workspaceID targetUserID role true actorUserID at_ "" None "").

Definition AddWorkspaceMember (actorUserID workspaceID targetUserID role reason : string)
    (at_ : Z) (rs : rng) : St DB error WorkspaceMembership :=
  do! require (WorkspaceRole_Valid role) ErrInvalidWorkspaceRole in
  do! lift (validateMutationReason reason) in
  do! require (negb (IsZero at_)) (Text "workspace membership assignment time is required") in
  addWorkspaceMemberTx actorUserID workspaceID targetUserID role reason at_ rs.

Definition changeWorkspaceMemberRoleTx (actorUserID workspaceID targetUserID role reason : string)
    (at_ : Z) (expectedVersion : option Z) (rs : rng) : St DB error WorkspaceMembership :=
  do! require (WorkspaceRole_Valid role) ErrInvalidWorkspaceRole in
  do! lift (validateMutationReason reason) in
  do! require (negb (IsZero at_)) (Text "workspace membership role-change time is required") in
  let! membershipID := lift (NewWorkspaceMembershipID (rs 0%nat)) in
  let! (actorID, _, wspID, _) := authorisedWorkspaceMutationTx actorUserID workspaceID true in
  do! activeWorkspaceTargetUserTx wspID targetUserID in
  let! row := reads (fun db => find (member_of_active_user db wspID targetUserID) (workspace_memberships db)) in
  let! current := some_or row ErrWorkspaceMembershipNotFound in
  do! require (negb (version_conflict expectedVersion (m_version current))) ErrMembershipCommandConflict in
  do! require (negb (m_role current =s role)) ErrDuplicateWorkspaceMember in
  do! modify (fun db => set_workspace_memberships
        (update (fun m => (m_id m =? m_id current) && m_active m) (deactivated actorID at_ reason)
           (workspace_memberships db)) db) in
  let! targetID := targetUserIDInternal targetUserID in
  do! within "write workspace membership role"
        (insert_row workspace_memberships set_workspace_memberships workspace_memberships_ok
           (membership_row membershipID wspID targetID role actorID at_ (m_version current + 1))) in
  do! recordWorkspaceAuditTx actorID workspaceID eventWorkspaceRoleChanged
        (mkWMD workspaceID membershipID targetUserID role (TrimSpace reason)) at_ (rs 1%nat) in
  ret (mkWorkspaceMembership membershipID workspaceID targetUserID role true actorUserID at_ "" None "").

Definition ChangeWorkspaceMemberRole (actorUserID workspaceID targetUserID role reason : string)
    (at_ : Z) (rs : rng) : St DB error WorkspaceMembership :=
  do! require (WorkspaceRole_Valid role) ErrInvalidWorkspaceRole in
  do! lift (validateMutationReason reason) in
  do! require (negb (IsZero at_)) (Text "workspace membership role-change time is required") in
  changeWorkspaceMemberRoleTx actorUserID workspaceID targetUserID role reason at_ None rs.

Definition deactivateWorkspaceMemberTx (actorUserID workspaceID targetUserID reason : string)
    (at_ : Z) (expectedVersion : option Z) (rs : rng) : St DB error WorkspaceMembership :=
  do! lift (validateMutationReason reason) in
  do! require (negb (IsZero at_)) (Text "workspace membership deactivation time is required") in
  let! (actorID, _, wspID, _) := authorisedWorkspaceMutationTx actorUserID workspaceID true in
  do! activeWorkspaceTargetUserTx wspID targetUserID in
  let! row := reads (fun db => find (member_of_active_user db wspID targetUserID) (workspace_memberships db)) in
  let! current := some_or row ErrWorkspaceMembershipNotFound in
  do! require (negb (version_conflict expectedVersion (m_version current))) ErrMembershipCommandConflict in
  let leaving m := (m_id m =? m_id current) && m_active m in
  let! rows := reads (fun db => count leaving (workspace_memberships db)) in
  do! modify (fun db => set_workspace_memberships
        (update leaving (deactivated actorID at_ reason) (workspace_memberships db)) db) in
  do! require (rows =? 1) ErrWorkspaceMembershipNotFound in
  do! recordWorkspaceAuditTx actorID workspaceID eventWorkspaceMemberRemoved
        (mkWMD workspaceID (m_public_id current) targetUserID (m_role current) (TrimSpace reason))
        at_ (rs 0%nat) in
  ret (mkWorkspaceMembership (m_public_id current) workspaceID targetUserID (m_role current) false
         actorUserID at_ "" None "").

Definition DeactivateWorkspaceMember (actorUserID workspaceID targetUserID reason : string)
    (at_ : Z) (rs : rng) : St DB error unit :=
  do! lift (validateMutationReason reason) in
  do! require (negb (IsZero at_)) (Text "workspace membership deactivation time is required") in
  do! deactivateWorkspaceMemberTx actorUserID workspaceID targetUserID reason at_ None rs in
  ret tt.

Definition workspace_active_with_id (id : Z) (w : WorkspaceRow) : bool :=
  (w_id w =? id) && (w_status w =s WorkspaceActive).
Definition archived_workspace (at_ : Z) (w : WorkspaceRow) : WorkspaceRow :=
  mkWorkspaceRow (w_id w) (w_public_id w) (w_organisation_id w) (w_name w) WorkspaceArchived (w_created_at w)
    (Some (formatTime at_)).
Definition workspace_members_to_archive (id : Z) (db : DB) : list (string * string * string) :=
  flat_map (fun m => map (fun u => (m_public_id m, u_public_id u, m_role m))
                       (select (fun u => u_id u =? m_user_id m) (users db)))
    (select (active_in_scope id) (workspace_memberships db)).

(** The organisation role of the actor: "" when there is none. *)
Definition workspace_org_role (wspID actorID : Z) (db : DB) : string :=
  match workspace_by_id wspID db with
  | Some w => current_role (w_organisation_id w) actorID (organisation_memberships db)
  | None => ""
  end.

Definition ArchiveWorkspace (actorUserID workspaceID reason : string) (at_ : Z) (rs : rng) : St DB error unit :=
  do! lift (validateMutationReason reason) in
  do! require (negb (IsZero at_)) (Text "workspace archive time is required") in
  let! (actorID, _, wspID, _) := authorisedWorkspaceMutationTx actorUserID workspaceID false in
  let! orgRole := reads (workspace_org_role wspID actorID) in
  let! systemAdmin := reads (fun db => system_admin db actorID) in
  do! require (systemAdmin || OrganisationRole_CanAdminister orgRole) ErrUnauthorisedWorkspaceAction in
  let! rows := reads (fun db => count (workspace_active_with_id wspID) (workspaces db)) in
  do! modify (fun db => set_workspaces
        (update (workspace_active_with_id wspID) (archived_workspace at_) (workspaces db)) db) in
  do! require (rows =? 1) ErrWorkspaceArchived in
  let! members := reads (workspace_members_to_archive wspID) in
  do! modify (fun db => set_workspace_memberships
        (update (active_in_scope wspID) (deactivated actorID at_ reason) (workspace_memberships db)) db) in
  do! for_each (combine (seq 0 (List.length members)) members) (fun im =>
        let '(i, (membershipID, userID, role)) := im in
        recordWorkspaceAuditTx actorID workspaceID eventWorkspaceMemberRemoved
          (mkWMD workspaceID membershipID userID role (TrimSpace reason)) at_ (rs i)) in
  recordWorkspaceAuditTx actorID workspaceID eventWorkspaceArchived
    (mkWMD workspaceID "" "" "" (TrimSpace reason)) at_ (rs (List.length members)).

(** ** Reads *)

Record WorkspaceMemberRecord := mkWorkspaceMemberRecord {
  wmr_MembershipID : string; wmr_WorkspaceID : string; wmr_UserID : string; wmr_Email : string;
  wmr_DisplayName : string; wmr_Role : string; wmr_AssignedAt : Z }.
Record WorkspaceAuditRecord := mkWorkspaceAuditRecord {
  war_ID : Z; war_WorkspaceID : string; war_ActorUserID : string; war_Event : string;
  war_Details : string; war_OccurredAt : Z }.
Record OrganisationWorkspaceEntry := mkOrganisationWorkspaceEntry {
  owe_OrganisationID : string; owe_Resource : string; owe_Available : bool;
  owe_DefaultWorkspaceID : string; owe_Workspaces : list Workspace }.

Definition workspace_of_row (o : OrganisationRow) (w : WorkspaceRow) : Workspace :=
  mkWorkspace (w_public_id w) (o_public_id o) (w_name w) (w_status w) (parseTime (w_created_at w))
    (option_map parseTime (w_archived_at w)).

Definition GetWorkspace (requesterUserID workspaceID : string) (db : DB) : res Workspace :=
  let? _ := authorisedWorkspaceRead requesterUserID workspaceID false db in
  match active_workspace workspaceID db with
  | Some w =>
      match active_organisation_by_id (w_organisation_id w) db with
      | Some o => Ok (workspace_of_row o w)
      | None => Err (Wrap "read workspace" NoRows)
      end
  | None => Err (Wrap "read workspace" NoRows)
  end.

Definition GetWorkspaceMembership (requesterUserID workspaceID targetUserID : string) (db : DB)
  : res WorkspaceMembership :=
  let adminOnly := negb (TrimSpace requesterUserID =s TrimSpace targetUserID) in
  let? _ := authorisedWorkspaceRead requesterUserID workspaceID adminOnly db in
  let joined :=
    flat_map (fun m =>
      flat_map (fun w =>
        if (w_id w =? m_scope m) && (w_status w =s WorkspaceActive) && (w_public_id w =s workspaceID)
           && m_active m && negb (is_none (active_organisation_by_id (w_organisation_id w) db))
           && existsb (fun u => (u_id u =? m_user_id m) && is_active_user targetUserID u) (users db)
        then map (fun a => mkWorkspaceMembership (m_public_id m) workspaceID targetUserID (m_role m)
                             (m_active m) (u_public_id a) (parseTime (m_assigned_at m)) "" None "")
               (select (fun a => u_id a =? m_assigned_by m) (users db))
        else []) (workspaces db)) (workspace_memberships db) in
  match joined with m :: _ => Ok m | [] => Err (Sentinel ErrWorkspaceMembershipNotFound) end.

(** [(SELECT id FROM users WHERE public_id=?)] *)
Definition user_id_of (publicID : string) (db : DB) : option Z :=
  option_map u_id (find (has_public_id publicID) (users db)).

Definition ListOrganisationWorkspaces (requesterUserID organisationID : string) (db : DB) : res (list Workspace) :=
  let? orgID := authorisedOrganisationRead requesterUserID organisationID false db in
  let me := user_id_of requesterUserID db in
  let role := match me with Some id => current_role orgID id (organisation_memberships db) | None => "" end in
  let systemAdmin := match me with Some id => system_admin db id | None => false end in
  let mine w := match me with
    | Some id => existsb (fun m => current_member (w_id w) id m
                   && existsb (fun u => (u_id u =? m_user_id m) && u_active u) (users db))
                   (workspace_memberships db)
    | None => false
    end in
  let visible w := (w_organisation_id w =? orgID) && (w_status w =s WorkspaceActive)
    && (systemAdmin || OrganisationRole_CanAdminister role || mine w) in
  Ok (flat_map (fun w => match active_organisation_by_id (w_organisation_id w) db with
                         | Some o => [workspace_of_row o w] | None => [] end)
        (sort_by (fun a b => text_pair_lt (w_name a, w_public_id a) (w_name b, w_public_id b))
           (select visible (workspaces db)))).

(** organisation.go: GetOrganisationWorkspaceEntry *)
Definition GetOrganisationWorkspaceEntry (requesterUserID organisationID : string) (db : DB)
  : res OrganisationWorkspaceEntry :=
  let? _ := GetOrganisation requesterUserID organisationID db in
  let? ws := ListOrganisationWorkspaces requesterUserID organisationID db in
  Ok (mkOrganisationWorkspaceEntry organisationID "workspaces" (negb (Nat.eqb (List.length ws) 0))
        (match ws with w :: _ => Workspace_ID w | [] => "" end) ws).

Definition ListWorkspaceMembers (requesterUserID workspaceID : string) (db : DB)
  : res (list WorkspaceMemberRecord) :=
  let? wspID := authorisedWorkspaceRead requesterUserID workspaceID true db in
  let rows := flat_map (fun m =>
    flat_map (fun w =>
      if (w_id w =? m_scope m) && (w_status w =s WorkspaceActive) && active_in_scope wspID m
         && negb (is_none (active_organisation_by_id (w_organisation_id w) db))
      then map (fun u => mkWorkspaceMemberRecord (m_public_id m) (w_public_id w) (u_public_id u) (u_email u)
                           (u_display_name u) (m_role m) (parseTime (m_assigned_at m)))
             (select (fun u => (u_id u =? m_user_id m) && u_active u) (users db))
      else []) (workspaces db)) (workspace_memberships db) in
  Ok (sort_by (fun a b => text_pair_lt (wmr_DisplayName a, wmr_UserID a) (wmr_DisplayName b, wmr_UserID b)) rows).

Definition ListWorkspaceAudit (requesterUserID workspaceID : string) (n : Z) (db : DB)
  : res (list WorkspaceAuditRecord) :=
  let? wspID := authorisedWorkspaceRead requesterUserID workspaceID true db in
  if (n <=? 0) || (100 <? n) then Err (Text "workspace audit limit must be between 1 and 100")
  else
    let known := existsb (fun w => (w_public_id w =s workspaceID) && (w_id w =? wspID)) (workspaces db) in
    let rows := select (fun a => (a_aggregate_type a =s auditWorkspace)
                  && (a_aggregate_id a =s workspaceID) && known) (audit_events db) in
    Ok (map (fun a => mkWorkspaceAuditRecord (a_id a) workspaceID (audit_actor db a) (a_event a)
                        (a_details a) (parseTime (a_occurred_at a))) (limit n (sort_by audit_later rows))).

Definition workspaceAuditCount (workspaceID event : string) (db : DB) : Z :=
  count (fun a => (a_aggregate_type a =s auditWorkspace) && (a_aggregate_id a =s workspaceID)
          && (a_event a =s event)) (audit_events db).

(** ** The workspace invariant *)

Record workspace_wf (ws : list WorkspaceRow) (ms : list MembershipRow) : Prop := {
  ww_ids : ids_unique ws;
  ww_public_ids : NoDup (map w_public_id ws);
  ww_member_ids : ids_unique ms;
  ww_scopes : forall m, In m ms -> exists w, In w ws /\ w_id w = m_scope m;
  ww_status : forall w, In w ws -> scope_status_ok (w_status w) = true;
  ww_archived : forall w, In w ws -> w_status w = WorkspaceArchived ->
    count (active_in_scope (w_id w)) ms = 0;
  ww_current : forall s uid, count (current_member s uid) ms <= 1 }.
Definition workspace_inv (db : DB) : Prop := workspace_wf (workspaces db) (workspace_memberships db).

(** The same, except that a member whose public identifier is in [joined] may be
    active in an archived workspace. *)
Record workspace_wf_except (joined : string -> Prop) (ws : list WorkspaceRow) (ms : list MembershipRow) : Prop := {
  we_ids : ids_unique ws;
  we_public_ids : NoDup (map w_public_id ws);
  we_member_ids : ids_unique ms;
  we_scopes : forall m, In m ms -> exists w, In w ws /\ w_id w = m_scope m;
  we_status : forall w, In w ws -> scope_status_ok (w_status w) = true;
  we_archived : forall w m, In w ws -> w_status w = WorkspaceArchived -> In m ms ->
    active_in_scope (w_id w) m = true -> joined (m_public_id m);
  we_current : forall s uid, count (current_member s uid) ms <= 1 }.
Definition workspace_inv_except (joined : string -> Prop) (db : DB) : Prop :=
  workspace_wf_except joined (workspaces db) (workspace_memberships db).

Lemma workspace_inv_empty : workspace_inv empty_db.
Proof. split; try done; constructor. Qed.
Lemma workspace_inv_log : ignores_log workspace_inv.
Proof. by split. Qed.
Lemma workspace_inv_except_log joined : ignores_log (workspace_inv_except joined).
Proof. by split. Qed.
Lemma workspace_wf_iff ws ms : workspace_wf ws ms <-> workspace_wf_except nobody ws ms.
Proof.
  split; intros Hwf; (split; try apply Hwf).
  - intros w m Hw Hs Hm Hact. by rewrite (proj1 (count_zero _ _) (ww_archived _ _ Hwf w Hw Hs) m Hm) in Hact.
  - intros w Hw Hs. apply count_zero. intros m Hm. apply not_true_is_false. intros Hact.
    by destruct (we_archived _ _ _ Hwf w m Hw Hs Hm Hact).
Qed.
Lemma preserves_workspace_inv {A} (op : St DB error A) :
  (forall joined, preserves (workspace_inv_except joined) op) -> preserves workspace_inv op.
Proof. intros Hop db a db' Hrun Hwf%workspace_wf_iff. apply workspace_wf_iff. by apply (Hop _ _ _ _ Hrun). Qed.

(** A row that the UNIQUE index on current members admits is the only one. *)
Lemma fresh_current ms r s uid :
  fresh (same_member r) ms = true -> current_member s uid r = true -> count (current_member s uid) ms = 0.
Proof.
  intros Hf Hr. apply count_zero. intros m Hm. apply not_true_is_false. intros Hc.
  rewrite fresh_spec in Hf. specialize (Hf m Hm). unfold same_member, current_member in *. bool_hyps.
  repeat match goal with Hz : (_ =? _) = true |- _ => apply Z.eqb_eq in Hz end. subst.
  revert Hf. rewrite !andb_false_iff, !Z.eqb_neq. naive_solver congruence.
Qed.

Section Exceptions.
Context (joined : string -> Prop).
#[local] Abbreviation workspace_wf' := (workspace_wf_except joined).

Lemma workspace_wf_add ws ms r w :
  workspace_wf' ws ms -> workspace_memberships_ok ms r = true -> m_id r = next_id ms ->
  In w ws -> w_id w = m_scope r -> (w_status w = WorkspaceActive \/ joined (m_public_id r)) ->
  workspace_wf' ws (ms ++ [r])%list.
Proof.
  intros Hwf Hok Hid Hw Hs Hst. unfold workspace_memberships_ok in Hok. bool_hyps. split; try apply Hwf.
  - by apply ids_unique_snoc; [apply Hwf|].
  - intros m [Hm|[<-|[]]]%in_app_or; [by apply Hwf|eauto].
  - intros x m Hx Hxs [Hm|[<-|[]]]%in_app_or Hact; [by eapply Hwf|]. destruct Hst as [Hst|]; [exfalso|done].
    apply active_scope in Hact. assert (x = w) as ->; [|by rewrite Hst in Hxs].
    eapply (NoDup_map_inj_in w_id); [apply Hwf|done..|congruence].
  - intros s uid. rewrite count_snoc. destruct (current_member s uid r) eqn:E.
    + rewrite (fresh_current ms r s uid) by done. lia.
    + rewrite Z.add_0_r. apply Hwf.
Qed.

Lemma workspace_wf_leave ws ms p actor t reason :
  workspace_wf' ws ms -> workspace_wf' ws (update p (deactivated actor t reason) ms).
Proof.
  intros Hwf. split; try apply Hwf.
  - by apply ids_unique_update; [|apply Hwf].
  - intros m (x & Hx & ->)%in_update. destruct (we_scopes _ _ _ Hwf x Hx) as (w & ? & ?).
    exists w. by destruct (p x).
  - intros w m Hw Hst (x & Hx & ->)%in_update Hact. destruct (p x); [|by eapply Hwf].
    unfold active_in_scope in Hact. cbn in Hact. by rewrite andb_false_r in Hact.
  - intros s uid. etransitivity; [apply count_update_le|apply Hwf].
    intros. unfold current_member. simpl. apply andb_false_r.
Qed.

(** A new workspace, of any status: no membership is of its rowid. *)
Lemma workspace_wf_insert ws ms w :
  workspace_wf' ws ms -> workspaces_ok ws w = true -> w_id w = next_id ws -> workspace_wf' (ws ++ [w])%list ms.
Proof.
  intros Hwf Hok Hid. unfold workspaces_ok in Hok. bool_hyps. split; try apply Hwf.
  - by apply ids_unique_snoc; [apply Hwf|].
  - by apply NoDup_map_snoc; [apply Hwf|].
  - intros m Hm. destruct (we_scopes _ _ _ Hwf m Hm) as (x & ? & ?). exists x. split; [apply in_or_app; by left|done].
  - intros x [Hx|[<-|[]]]%in_app_or; [by apply Hwf|done].
  - intros x m [Hx|[<-|[]]]%in_app_or Hxs Hm Hact; [by eapply Hwf|]. apply active_scope in Hact.
    destruct (we_scopes _ _ _ Hwf m Hm) as (y & Hy & Hym). destruct (ids_lt_next ws _ Hid y Hy). change (row_id y) with (w_id y). congruence.
Qed.

Lemma workspace_wf_create ws ms w r :
  workspace_wf' ws ms -> workspaces_ok ws w = true -> w_id w = next_id ws -> w_status w = WorkspaceActive ->
  workspace_memberships_ok ms r = true -> m_id r = next_id ms -> m_scope r = w_id w ->
  workspace_wf' (ws ++ [w])%list (ms ++ [r])%list.
Proof.
  intros Hwf Hok Hid Hst Hmok Hmid Hscope. eapply workspace_wf_add; eauto using workspace_wf_insert.
  apply in_or_app. right. by left.
Qed.

Lemma workspace_wf_archive ws ms actor t t' reason id :
  workspace_wf' ws ms ->
  workspace_wf' (update (workspace_active_with_id id) (archived_workspace t) ws)
               (update (active_in_scope id) (deactivated actor t' reason) ms).
Proof.
  intros Hwf. pose proof (workspace_wf_leave ws ms (active_in_scope id) actor t' reason Hwf) as Hwf'.
  split; try apply Hwf'.
  - by apply ids_unique_update; [|apply Hwf].
  - rewrite map_update by done. apply Hwf.
  - intros m Hm. destruct (we_scopes _ _ _ Hwf' m Hm) as (w & Hw & <-).
    exists (if workspace_active_with_id id w then archived_workspace t w else w).
    split; [apply in_update; eauto|]. by destruct (workspace_active_with_id id w).
  - intros w (x & Hx & ->)%in_update. destruct (workspace_active_with_id id x); [done|by apply Hwf].
  - intros w m (x & Hx & ->)%in_update Hst Hm Hact. destruct (workspace_active_with_id id x) eqn:E; [|by eapply Hwf'].
    unfold workspace_active_with_id in E. bool_hyps.
    match goal with Hz : (_ =? _) = true |- _ => apply Z.eqb_eq in Hz; rewrite <-Hz in * end.
    apply in_update in Hm as (y & _ & ->). cbn in Hact.
    destruct (active_in_scope (w_id x) y) eqn:E; [|by rewrite E in Hact].
    unfold active_in_scope in Hact. cbn in Hact. by rewrite andb_false_r in Hact.
Qed.
End Exceptions.

(** ** Every operation keeps the invariant *)

(** Who may change a workspace. *)
Definition may_administer_workspace (db : DB) (actorUserID workspaceID : string) (allowWorkspaceAdmin : bool)
    (p : workspaceScopeProof) : Prop :=
  scope_row db actorUserID workspaceID = Some p
  /\ scope_allows true (ws_SystemAdmin (scope p)) (ws_OrganisationRole (scope p)) (ws_WorkspaceRole (scope p))
  /\ (allowWorkspaceAdmin = false -> ws_SystemAdmin (scope p) = true
      \/ OrganisationRole_CanAdminister (ws_OrganisationRole (scope p)) = true).

Lemma authorised_workspace_Ok actor wid allow db a o w s db' :
  authorisedWorkspaceMutationTx actor wid allow db = Ok ((a, o, w, s), db') ->
  db' = db /\ exists p, may_administer_workspace db actor wid allow p
    /\ a = userInternalID p /\ o = organisationInternalID p /\ w = workspaceInternalID p
    /\ s = ws_SystemAdmin (scope p).
Proof.
  unfold authorisedWorkspaceMutationTx. intros Hop. inv_db.
  destruct (proveWorkspaceScopeQuery db actor wid true) as [p|] eqn:E; [|done].
  match goal with Hq : Ok p = Ok _ |- _ => injection Hq as <- end.
  apply prove_scope_Ok in E as [Hrow Hal]. split; [done|]. exists p. unfold may_administer_workspace. split_and!; try done.
  intros ->. match goal with Hb : _ || _ = true |- _ => simpl in Hb; by apply orb_true_iff in Hb end.
Qed.

Lemma scope_row_Some db uid wid p :
  scope_row db uid wid = Some p ->
  exists u w, active_user db uid = Some u /\ active_workspace wid db = Some w
    /\ userInternalID p = u_id u /\ workspaceInternalID p = w_id w
    /\ ws_OrganisationRole (scope p)
       = current_role (w_organisation_id w) (u_id u) (organisation_memberships db).
Proof.
  unfold scope_row. destruct (active_user db uid) as [u|]; [|done].
  destruct (active_workspace wid db) as [w|]; [|done].
  destruct (active_organisation_by_id _ db) as [o|] eqn:E; [|done]. intros [= <-]. exists u, w.
  split_and!; try done. simpl. apply find_some in E as [_ E]. bool_hyps.
  match goal with Hz : (_ =? _) = true |- _ => by apply Z.eqb_eq in Hz as -> end.
Qed.

Lemma may_administer_workspace_active db actor wid allow p :
  may_administer_workspace db actor wid allow p ->
  exists w, In w (workspaces db) /\ w_id w = workspaceInternalID p /\ w_status w = WorkspaceActive.
Proof.
  intros (Hrow & _). apply scope_row_Some in Hrow as (u & w & _ & Hw & _ & -> & _).
  apply find_some in Hw as [Hin Hp]. bool_hyps. exists w. split_and!; try done. by apply String.eqb_eq.
Qed.

Lemma target_user_Ok uid db i db' :
  targetUserIDInternal uid db = Ok (i, db') -> db' = db /\ exists u, active_user db uid = Some u /\ i = u_id u.
Proof. unfold targetUserIDInternal. intros Hop. inv_db. eauto. Qed.

Lemma active_target_Ok wid uid db v db' :
  activeWorkspaceTargetUserTx wid uid db = Ok (v, db') -> db' = db /\ target_in_organisation wid uid db = true.
Proof. unfold activeWorkspaceTargetUserTx. intros Hop. by inv_db. Qed.

Lemma preserves_workspace_audit P a w e d t rand :
  ignores_log P -> preserves P (recordWorkspaceAuditTx a w e d t rand).
Proof.
  intros HP. unfold recordWorkspaceAuditTx, appendWorkspaceEventTx. frame_tx.
  - by apply preserves_insert_audit.
  - by apply preserves_append_log.
Qed.

Lemma preserves_authorised_workspace P a w b : preserves P (authorisedWorkspaceMutationTx a w b).
Proof. unfold authorisedWorkspaceMutationTx. frame_tx. Qed.
Lemma preserves_activeTarget P w u : preserves P (activeWorkspaceTargetUserTx w u).
Proof. unfold activeWorkspaceTargetUserTx. frame_tx. Qed.
Lemma preserves_targetUser P u : preserves P (targetUserIDInternal u).
Proof. unfold targetUserIDInternal. frame_tx. Qed.
#[export] Hint Resolve preserves_authorised_workspace preserves_activeTarget preserves_targetUser
  preserves_workspace_audit : frame.

Ltac strip_workspace_log HP :=
  repeat match goal with
  | Hrec : recordWorkspaceAuditTx _ _ _ _ _ _ _ = Ok (_, ?d) |- _ ?d =>
      apply (preserves_workspace_audit _ _ _ _ _ _ _ HP _ _ _ Hrec)
  end.
Ltac inv_wsp_step :=
  first [ inv_org_step
        | match goal with
          | Ha : authorisedWorkspaceMutationTx _ _ _ _ = Ok ((_, _, _, _), _) |- _ =>
              apply authorised_workspace_Ok in Ha; destruct Ha as (? & ? & ? & ? & ? & ? & ?); subst
          | Hu : targetUserIDInternal _ _ = Ok _ |- _ =>
              apply target_user_Ok in Hu; destruct Hu as (? & ? & ? & ?); subst
          | Hu : activeWorkspaceTargetUserTx _ _ _ = Ok _ |- _ =>
              apply active_target_Ok in Hu; destruct Hu as (? & ?); subst
          end ].
Ltac inv_wsp := repeat (inv_wsp_step; cbn [fst snd] in *).

Lemma created_workspace_found pid db w y :
  w_public_id w = pid -> workspaces_ok (workspaces db) w = true ->
  workspace_by_public_id pid (set_workspaces (workspaces db ++ [w])%list db) = Some y -> y = w.
Proof.
  unfold workspace_by_public_id. cbn [workspaces set_workspaces]. intros <- Hok Hf.
  rewrite find_snoc in Hf; [by injection Hf|apply String.eqb_refl|].
  unfold workspaces_ok in Hok. bool_hyps. by apply fresh_spec.
Qed.

Section Operations.
Context (joined : string -> Prop).
#[local] Abbreviation workspace_inv' := (workspace_inv_except joined).
Lemma except_CreateWorkspace a o w r t rs : preserves workspace_inv' (CreateWorkspace a o w r t rs).
Proof.
  intros db res db' Hop Hwf. unfold CreateWorkspace in Hop. inv_wsp; strip_workspace_log (workspace_inv_except_log joined);
    match goal with Hf : workspace_by_public_id _ _ = Some _ |- _ =>
      apply created_workspace_found in Hf; [subst|done..] end; by apply workspace_wf_create.
Qed.

Lemma except_addWorkspaceMemberTx a w u role r t rs :
  preserves workspace_inv' (addWorkspaceMemberTx a w u role r t rs).
Proof.
  intros db res db' Hop Hwf. unfold addWorkspaceMemberTx in Hop. inv_wsp.
  strip_workspace_log (workspace_inv_except_log joined).
  match goal with Hm : may_administer_workspace _ _ _ _ _ |- _ =>
    apply may_administer_workspace_active in Hm as (wrow & Hin & Hid & Hst) end.
  by eapply workspace_wf_add; eauto.
Qed.

Lemma except_AddWorkspaceMember a w u role r t rs :
  preserves workspace_inv' (AddWorkspaceMember a w u role r t rs).
Proof. unfold AddWorkspaceMember. frame_tx. apply except_addWorkspaceMemberTx. Qed.

Lemma except_changeWorkspaceMemberRoleTx a w u role r t ev rs :
  preserves workspace_inv' (changeWorkspaceMemberRoleTx a w u role r t ev rs).
Proof.
  intros db res db' Hop Hwf. unfold changeWorkspaceMemberRoleTx in Hop. inv_wsp.
  strip_workspace_log (workspace_inv_except_log joined).
  match goal with Hm : may_administer_workspace _ _ _ _ _ |- _ =>
    apply may_administer_workspace_active in Hm as (wrow & Hin & Hid & Hst) end.
  eapply workspace_wf_add; eauto. by apply workspace_wf_leave.
Qed.

Lemma except_ChangeWorkspaceMemberRole a w u role r t rs :
  preserves workspace_inv' (ChangeWorkspaceMemberRole a w u role r t rs).
Proof. unfold ChangeWorkspaceMemberRole. frame_tx. apply except_changeWorkspaceMemberRoleTx. Qed.

Lemma except_deactivateWorkspaceMemberTx a w u r t ev rs :
  preserves workspace_inv' (deactivateWorkspaceMemberTx a w u r t ev rs).
Proof.
  intros db res db' Hop Hwf. unfold deactivateWorkspaceMemberTx in Hop. inv_wsp.
  strip_workspace_log (workspace_inv_except_log joined). by apply workspace_wf_leave.
Qed.

Lemma except_DeactivateWorkspaceMember a w u r t rs :
  preserves workspace_inv' (DeactivateWorkspaceMember a w u r t rs).
Proof. unfold DeactivateWorkspaceMember. frame_tx. apply except_deactivateWorkspaceMemberTx. Qed.

Lemma except_ArchiveWorkspace a w r t rs : preserves workspace_inv' (ArchiveWorkspace a w r t rs).
Proof.
  intros db res db' Hop Hwf. unfold ArchiveWorkspace in Hop. inv_wsp. strip_workspace_log (workspace_inv_except_log joined).
  match goal with Hf : for_each _ _ _ = Ok _ |- _ =>
    refine (preserves_for_each workspace_inv' _ _ _ _ _ _ Hf _) end.
  - intros [i [[mid uid] role]]. apply preserves_workspace_audit, (workspace_inv_except_log joined).
  - by apply workspace_wf_archive.
Qed.

End Operations.

Lemma preserves_CreateWorkspace a o w r t rs : preserves workspace_inv (CreateWorkspace a o w r t rs).
Proof. apply preserves_workspace_inv. intros. apply except_CreateWorkspace. Qed.

(** ** What a committed mutation leaves behind *)

Definition workspace_logged (actorID : Z) (workspaceID event eventType : string) (db db' : DB) : Prop :=
  exists a e, db' = set_outbox (outbox db ++ [e])%list (set_audit_events (audit_events db ++ [a])%list db)
    /\ a_actor_user_id a = Some actorID /\ a_event a = event /\ a_aggregate_id a = workspaceID
    /\ ob_event_type e = eventType /\ ob_aggregate_id e = TrimSpace workspaceID
    /\ Event_Validate (row_event e) = Ok tt.

Lemma workspace_audit_Ok actorID wid event d t rand db u db' :
  four_digit_year t -> (exists v, In v (users db) /\ u_id v = actorID) ->
  recordWorkspaceAuditTx actorID wid event d t rand db = Ok (u, db') ->
  wd_WorkspaceID d = wid ->
  exists org eventType extra, workspace_event event org d = Some (eventType, extra)
    /\ workspace_logged actorID wid event eventType db db'.
Proof.
  intros Ht (v & Hv & <-) Hop <-. destruct (user_by_id_In db v Hv) as [w Hw].
  unfold recordWorkspaceAuditTx, insert_audit, appendWorkspaceEventTx in Hop. inv_db; [|congruence].
  match goal with Ha : appendPlatformEventTx _ _ _ _ _ _ = Ok _ |- _ =>
    apply append_Ok in Ha as (e & Hval & Hty & Hagg & Hat & _ & _ & _ & ->) end.
  eexists _, _, _. split; [done|]. eexists _, _. split; [reflexivity|]. split_and!; try done.
  rewrite row_event_event_row; [done|]. by rewrite Hat.
Qed.

Lemma may_administer_workspace_actor db actor wid allow p :
  may_administer_workspace db actor wid allow p -> exists v, In v (users db) /\ u_id v = userInternalID p.
Proof.
  intros (Hrow & _). apply scope_row_Some in Hrow as (u & w & [Hu _]%find_some & _ & -> & _). eauto.
Qed.

(** ** Properties *)

(** a workspace addition that commits was made by someone who may administer
    the workspace (both it and its organisation being active), for an active user
    who is a current member of the workspace's organisation and was not yet a
    member of the workspace; it adds exactly one row, at version 1 with the role
    asked for, and logs one audit record and one event. *)
Theorem workspace_addition_exact actor wid target role reason t rs db res db' :
  user_inv db -> four_digit_year t ->
  AddWorkspaceMember actor wid target role reason t rs db = Ok (res, db') ->
  exists p u w new,
    may_administer_workspace db actor wid true p /\ active_user db target = Some u
    /\ workspace_by_id (workspaceInternalID p) db = Some w
    /\ (exists o m, In o (organisations db) /\ organisation_active_with_id (w_organisation_id w) o = true
          /\ In m (organisation_memberships db) /\ current_member (o_id o) (u_id u) m = true)
    /\ count (member_of_active_user db (workspaceInternalID p) target) (workspace_memberships db) = 0
    /\ current_member (workspaceInternalID p) (u_id u) new = true
    /\ m_role new = role /\ WorkspaceRole_Valid role = true /\ m_version new = 1
    /\ workspace_logged (userInternalID p) wid eventWorkspaceMembershipAdded EventWorkspaceMembershipAdded
         (set_workspace_memberships (workspace_memberships db ++ [new])%list db) db'.
Proof.
  intros Hu Ht Hop. unfold AddWorkspaceMember, addWorkspaceMemberTx in Hop. inv_wsp.
  match goal with Hm : may_administer_workspace _ _ _ _ ?p, Hau : active_user _ target = Some ?u,
    Hr : recordWorkspaceAuditTx _ _ _ _ _ _ _ = Ok _, Htg : target_in_organisation _ _ _ = true |- _ =>
    pose proof (may_administer_workspace_actor _ _ _ _ _ Hm) as Hact;
    apply workspace_audit_Ok in Hr as (org & ty & extra & [= <- <-] & Hlog); [|done..];
    unfold target_in_organisation in Htg; rename Htg into Htarget, Hau into Hau', u into usr;
    exists p, usr end.
  destruct (workspace_by_id _ db) as [w|]; [|done].
  apply existsb_exists in Htarget as (o & Ho & Htarget). apply andb_true_iff in Htarget as [Hao Htarget].
  apply existsb_exists in Htarget as (v & Hv & Htarget). apply andb_true_iff in Htarget as [Hav Htarget].
  apply existsb_exists in Htarget as (m & Hm & Hcur).
  assert (v = usr) as ->.
  { apply (active_user_Some _ _ _ Hu) in Hau' as (Hin & Hpid & _). unfold is_active_user in Hav. bool_hyps.
    eapply (NoDup_map_inj_in u_public_id); [apply Hu|done..|]. rewrite Hpid. by apply String.eqb_eq. }
  eexists w, _. split_and!.
  10: exact Hlog.
  all: try eassumption; try done.
  - by exists o, m.
  - apply count_zero. intros r Hr. apply not_true_is_false. intros Hc.
    match goal with Hn : negb (existsb _ _) = true |- _ =>
      apply negb_true_iff in Hn; enough (true = false) by done; rewrite <-Hn; symmetry;
      apply existsb_exists; exists r; done end.
  - unfold current_member. cbn. by rewrite !Z.eqb_refl.
Qed.

(** a workspace can be archived only by a system administrator or an owner or
    administrator of its organisation (being workspace administrator is not
    enough), and the archive is complete: the workspace is archived and no active
    membership of it is left. *)
Theorem workspace_archive_exact actor wid reason t rs db u db' :
  workspace_inv db -> ArchiveWorkspace actor wid reason t rs db = Ok (u, db') ->
  exists p, may_administer_workspace db actor wid false p
    /\ workspace_memberships db' = update (active_in_scope (workspaceInternalID p))
         (deactivated (userInternalID p) t reason) (workspace_memberships db)
    /\ count (active_in_scope (workspaceInternalID p)) (workspace_memberships db') = 0
    /\ workspaces db' = update (workspace_active_with_id (workspaceInternalID p)) (archived_workspace t)
         (workspaces db)
    /\ count (workspace_active_with_id (workspaceInternalID p)) (workspaces db) = 1
    /\ active_workspace wid db' = None.
Proof.
  intros Hwf Hop. unfold ArchiveWorkspace in Hop. inv_wsp.
  match goal with Hf : for_each _ _ ?d = Ok _ |- _ =>
    set (P d' := workspaces d' = workspaces d /\ workspace_memberships d' = workspace_memberships d);
    rename Hf into Hloop end.
  assert (ignores_log P) as HP by (by split).
  assert (P db') as [Hw Hms].
  { strip_workspace_log HP. refine (preserves_for_each P _ _ _ _ _ _ Hloop _); [|by split].
    intros [i [[mid uid] role]]. by apply preserves_workspace_audit. }
  cbn [workspaces workspace_memberships set_workspaces set_workspace_memberships] in *.
  match goal with Hm : may_administer_workspace _ _ _ _ ?p, Hc : (count _ _ =? 1) = true |- _ =>
    exists p; rename Hm into Hauth; apply Z.eqb_eq in Hc; rename p into prf end.
  rewrite Hms, Hw. split_and!; try done.
  - apply count_zero. intros m (y & _ & ->)%in_update.
    destruct (active_in_scope (workspaceInternalID prf) y) eqn:E; [|done].
    unfold active_in_scope. simpl. apply andb_false_r.
  - destruct Hauth as (Hrow & _). apply scope_row_Some in Hrow as (v & w & _ & Haw & _ & Hid & _).
    apply find_some in Haw as [Hin Hp]. bool_hyps. str_eq.
    unfold active_workspace. rewrite Hw. destruct (find _ (update _ _ _)) as [wr|] eqn:E; [exfalso|done].
    apply find_some in E as [(y & Hy & ->)%in_update Hwr]. bool_hyps. str_eq.
    assert (y = w) as ->.
    { eapply (NoDup_map_inj_in w_public_id); [apply Hwf|done..|].
      by destruct (workspace_active_with_id (workspaceInternalID prf) y); simpl in *; congruence. }
    rewrite Hid in *. unfold workspace_active_with_id in *. rewrite Z.eqb_refl in *.
    match goal with Hs : w_status w = WorkspaceActive |- _ => rewrite Hs in * end. done.
Qed.

(** ** Witnesses *)

Definition sample_workspace : St DB error unit :=
  do! CreateWorkspace "usr_1" "org_1" (mkWorkspace "wsp_1" "" "Main" "" 0 None) "setup" (2 * Second)
        (sample_rs "w") in ret tt.
Definition sample_wsp_db : DB := snd (exec sample_workspace sample_org_db).

Lemma sample_wsp_users : user_inv sample_wsp_db.
Proof. split; [unfold ids_unique|]; by_computation. Qed.

Lemma sample_wsp_inv : workspace_inv sample_wsp_db.
Proof.
  unfold sample_wsp_db. apply (preserves_exec workspace_inv).
  - unfold sample_workspace. frame_tx. apply preserves_CreateWorkspace.
  - unfold sample_org_db. apply (preserves_exec workspace_inv); [|apply workspace_inv_empty].
    unfold sample_organisation, sample_create_user, CreateUser, CreateOrganisation, AddOrganisationMember,
      addOrganisationMemberTx. frame_ops.
Qed.

Lemma workspace_addition_exact_witness :
  exists res db', AddWorkspaceMember "usr_1" "wsp_1" "usr_2" "viewer" "join" (3 * Second) (sample_rs "c")
      sample_wsp_db = Ok (res, db') /\ exists u, active_user sample_wsp_db "usr_2" = Some u.
Proof.
  assert (exists res db', AddWorkspaceMember "usr_1" "wsp_1" "usr_2" "viewer" "join" (3 * Second) (sample_rs "c")
      sample_wsp_db = Ok (res, db')) as (res & db' & E) by (do 2 eexists; vm_compute; reflexivity).
  exists res, db'. split; [exact E|].
  destruct (workspace_addition_exact "usr_1" "wsp_1" "usr_2" "viewer" "join" (3 * Second) (sample_rs "c")
    sample_wsp_db res db' sample_wsp_users sample_year E) as (p & u & w & new & _ & Hu & _). exists u. exact Hu.
Defined.

Lemma workspace_archive_exact_witness :
  exists db', ArchiveWorkspace "usr_1" "wsp_1" "closing" (3 * Second) (sample_rs "c") sample_wsp_db = Ok (tt, db')
    /\ active_workspace "wsp_1" db' = None.
Proof.
  assert (exists db', ArchiveWorkspace "usr_1" "wsp_1" "closing" (3 * Second) (sample_rs "c") sample_wsp_db
    = Ok (tt, db')) as (db' & E) by (eexists; vm_compute; reflexivity).
  exists db'. split; [exact E|].
  destruct (workspace_archive_exact "usr_1" "wsp_1" "closing" (3 * Second) (sample_rs "c")
    sample_wsp_db tt db' sample_wsp_inv E) as (p & _ & _ & _ & _ & _ & Hn). exact Hn.
Defined.
