(* ===== verification/Snapshot.v ===== *)
(** internal/db/sqlite/platform_read_authority.go and
    platform_read_authority_auth.go: immutable snapshots of the shared records,
    their paging, and the reservation of request nonces.

    The state is the Platform database of Schema.v, which snapshots only read,
    with the tables of migrations 10 and 11 beside it. *)
From stdpp Require Import base tactics list strings.
From Stdlib Require Import ZArith Lia Ascii String Sorted.
From S2P Require Import Prelude GoStrings GoTime Codec Errors Domain Json JsonLaws Events Schema Outbox Auth.
From S2P Require Import ReadAuthority.

Local Open Scope string_scope.
Local Open Scope Z_scope.

(** ** The tables *)
Record MigrationRow := mkMigrationRow { mg_version : Z; mg_name : string; mg_checksum : string }.
Record SnapshotRow := mkSnapshotRow {
  sn_id : Z; sn_snapshot_id : string; sn_consumer_key : string; sn_contract_version : string;
  sn_source_cursor : string; sn_checksum_algorithm : string; sn_checksum : string; sn_created_at : string;
  sn_expires_at : string; sn_record_count : Z; sn_page_size : Z; sn_complete : bool;
  sn_finalized_at : option string }.
Record SnapshotRecordRow := mkSnapshotRecordRow {
  sc_id : Z; sc_snapshot_id : string; sc_ordinal : Z; sc_entity_kind : string; sc_record_id : string;
  sc_record_hash : string; sc_record_json : string }.
Record NonceRow := mkNonceRow {
  no_id : Z; no_consumer_key : string; no_nonce : string; no_reserved_at : string; no_expires_at : string }.
#[export] Instance SnapshotRow_row : Row SnapshotRow := sn_id.
#[export] Instance SnapshotRecordRow_row : Row SnapshotRecordRow := sc_id.
#[export] Instance NonceRow_row : Row NonceRow := no_id.

Record ReadStore := mkReadStore {
  platform : DB; schema_migrations : list MigrationRow; snapshots : list SnapshotRow;
  snapshot_records : list SnapshotRecordRow; nonces : list NonceRow }.
Definition set_snapshots v (s : ReadStore) : ReadStore :=
  mkReadStore (platform s) (schema_migrations s) v (snapshot_records s) (nonces s).
Definition set_snapshot_records v (s : ReadStore) : ReadStore :=
  mkReadStore (platform s) (schema_migrations s) (snapshots s) v (nonces s).
Definition set_nonces v (s : ReadStore) : ReadStore :=
  mkReadStore (platform s) (schema_migrations s) (snapshots s) (snapshot_records s) v.

Definition snapshots_ok (t : list SnapshotRow) (r : SnapshotRow) : bool :=
  fresh (fun x => sn_snapshot_id x =s sn_snapshot_id r) t
  && (5 <? sql_length (sn_snapshot_id r)) && HasPrefix (sn_snapshot_id r) "snap_"
  && consumer_key_ok (sn_consumer_key r) && (sn_contract_version r =s VersionV2)
  && (4 <? sql_length (sn_source_cursor r)) && HasPrefix (sn_source_cursor r) "cur_"
  && (sn_checksum_algorithm r =s "sha256") && (sql_length (sn_checksum r) =? 64)
  && (0 <=? sn_record_count r) && (sn_record_count r <=? 10000)
  && (0 <? sn_page_size r) && (sn_page_size r <=? 500)
  && Bool.eqb (sn_complete r) (match sn_finalized_at r with Some _ => true | None => false end)
  && text_lt (sn_created_at r) (sn_expires_at r).
Definition snapshot_records_ok (t : list SnapshotRecordRow) (r : SnapshotRecordRow) : bool :=
  let same x := sc_snapshot_id x =s sc_snapshot_id r in
  fresh (fun x => same x && (sc_ordinal x =? sc_ordinal r)) t
  && fresh (fun x => same x && (sc_entity_kind x =s sc_entity_kind r) && (sc_record_id x =s sc_record_id r)) t
  && fresh (fun x => same x && (sc_record_hash x =s sc_record_hash r)) t
  && (0 <=? sc_ordinal r) && (sc_ordinal r <? 10000) && (sql_length (sc_record_hash r) =? 64)
  && text_between 2 4096 (sc_record_json r).
Definition nonces_ok (t : list NonceRow) (r : NonceRow) : bool :=
  fresh (fun x => (no_consumer_key x =s no_consumer_key r) && (no_nonce x =s no_nonce r)) t
  && consumer_key_ok (no_consumer_key r) && text_between 1 128 (no_nonce r)
  && text_lt (no_reserved_at r) (no_expires_at r).

Definition insert_into `{Row R} (get : ReadStore -> list R) (set : list R -> ReadStore -> ReadStore)
    (ok : list R -> R -> bool) (mk : Z -> R) : St ReadStore error unit :=
  fun s => let r := mk (next_id (get s)) in
           if ok (get s) r then Ok (tt, set (get s ++ [r])%list s) else Err (Constraint "constraint failed").
Definition inside {A} (msg : string) (m : St ReadStore error A) : St ReadStore error A := fun s => wrap msg (m s).

(** ** Provenance *)

(** SQLite's [LIKE] on code points: [%] any text, [_] any character, ASCII
    letters without regard to case. *)
Fixpoint runes_fuel (fuel : nat) (s : string) : list Z :=
  match fuel, s with
  | S f, String _ _ => let '(r, w) := decode_rune s in r :: runes_fuel f (drop_bytes w s)
  | _, _ => []
  end.
Definition runes (s : string) : list Z := runes_fuel (String.length s) s.
Definition fold_case (r : Z) : Z := if (65 <=? r) && (r <=? 90) then r + 32 else r.
Fixpoint like (p : list Z) : list Z -> bool :=
  match p with
  | [] => fun t => match t with [] => true | _ => false end
  | c :: p =>
      if c =? 37 then
        fix any t := like p t || match t with [] => false | _ :: t => any t end
      else fun t => match t with
                    | d :: t => ((c =? 95) || (fold_case c =? fold_case d)) && like p t
                    | [] => false
                    end
  end.
Definition sql_like (text pattern : string) : bool := like (runes pattern) (runes text).

Record SourceEvent := mkSourceEvent {
  ev_EventID : string; ev_EventType : string; ev_Sequence : Z; ev_SchemaVersion : Z }.
Definition payload_pattern (field value : string) : string :=
  "%" ++ quoted field ++ ":" ++ quoted value ++ "%".
Definition source_of (aggregateType aggregateID payloadField payloadValue : string) (r : OutboxRow) : bool :=
  same_aggregate aggregateType aggregateID r
  && ((payloadField =s "") || sql_like (ob_payload r) (payload_pattern payloadField payloadValue)).
Definition latestReadAuthoritySourceEventTx (db : DB) (aggregateType aggregateID payloadField payloadValue : string)
  : option SourceEvent :=
  option_map (fun r => mkSourceEvent (ob_event_id r) (ob_event_type r) (ob_sequence r) (ob_schema_version r))
    (last (select (source_of aggregateType aggregateID payloadField payloadValue) (outbox db))).

Definition setReadAuthorityEventProvenance (r : RARecord) (e : SourceEvent) : RARecord :=
  mkRecord (Rec_EntityKind r) (Rec_ID r) (Rec_Status r) (Rec_UserID r) (Rec_OrganisationID r) (Rec_WorkspaceID r)
    (Rec_ProductKey r) (Rec_Role r) (Rec_Name r) ProvenanceEvent (ev_EventID e) (ev_Sequence e)
    (ev_SchemaVersion e) (Rec_MigrationVersion r) (Rec_MigrationName r) (Rec_MigrationChecksum r).
Definition validated (r : RARecord) : res RARecord :=
  let? _ := wrap "validate snapshot" (ValidateRecordVersion VersionV2 r) in Ok r.
Definition addEventProvenance (db : DB) (r : RARecord) (aggregateType aggregateID field value : string)
  : res RARecord :=
  match latestReadAuthoritySourceEventTx db aggregateType aggregateID field value with
  | None => Err (Text "missing source provenance")
  | Some event => validated (setReadAuthorityEventProvenance r event)
  end.

(** ** Materialisation: the records of one kind, by public id *)
Definition snapshotActiveStatus (active : bool) : string := if active then StatusActive else StatusArchived.
Definition snapshotMembershipStatus (active : bool) : string := if active then StatusActive else StatusRevoked.
Definition fact (kind id status user organisation workspace product role name : string) : RARecord :=
  mkRecord kind id status user organisation workspace product role name "" "" 0 0 0 "" "".

(** [ORDER BY key LIMIT 10001], the bound, and one record per row. *)
Definition materialize {R} (key : R -> string) (record : R -> res RARecord) (rows : list R) : res (list RARecord) :=
  let values := limit 10001 (sort_by (fun a b => text_lt (key a) (key b)) rows) in
  if SnapshotMaxRecords <? Z.of_nat (List.length values) then Err (Sentinel ErrInvalidReadAuthorityRequest)
  else map_res record values.

(** A row with the rows its foreign keys name: the inner joins. *)
Definition user_of (db : DB) (id : Z) : list string := map u_public_id (select (fun u => u_id u =? id) (users db)).
Definition organisation_of (db : DB) (id : Z) : list string :=
  map o_public_id (select (fun o => o_id o =? id) (organisations db)).
Definition workspace_of (db : DB) (id : Z) : list string :=
  map w_public_id (select (fun w => w_id w =? id) (workspaces db)).
Definition join2 (us os : list string) : list (string * string) := flat_map (fun u => map (pair u) os) us.

Definition materializeUsersTx (db : DB) : res (list RARecord) :=
  materialize u_public_id (fun u =>
    addEventProvenance db (fact EntityUser (u_public_id u) (snapshotActiveStatus (u_active u)) "" "" "" "" "" "")
      AggregateUser (u_public_id u) "" "") (users db).
Definition materializeOrganisationsTx (db : DB) : res (list RARecord) :=
  materialize o_public_id (fun o =>
    addEventProvenance db (fact EntityOrganisation (o_public_id o) (o_status o) "" "" "" "" "" (o_name o))
      AggregateOrganisation (o_public_id o) "" "") (organisations db).
Definition materializeOrganisationMembershipsTx (db : DB) : res (list RARecord) :=
  materialize (fun v => m_public_id (fst v)) (fun '(m, (user, organisation)) =>
    addEventProvenance db
      (fact EntityOrganisationMembership (m_public_id m) (snapshotMembershipStatus (m_active m))
         user organisation "" "" (m_role m) "")
      AggregateOrganisation organisation "membership_id" (m_public_id m))
    (flat_map (fun m => map (pair m) (join2 (user_of db (m_user_id m)) (organisation_of db (m_scope m))))
       (organisation_memberships db)).
Definition materializeWorkspacesTx (db : DB) : res (list RARecord) :=
  materialize (fun v => w_public_id (fst v)) (fun '(w, organisation) =>
    addEventProvenance db
      (fact EntityWorkspace (w_public_id w) (w_status w) "" organisation "" "" "" (w_name w))
      AggregateWorkspace (w_public_id w) "" "")
    (flat_map (fun w => map (pair w) (organisation_of db (w_organisation_id w))) (workspaces db)).
Definition materializeWorkspaceMembershipsTx (db : DB) : res (list RARecord) :=
  materialize (fun v => m_public_id (fst v)) (fun '(m, (user, workspace)) =>
    addEventProvenance db
      (fact EntityWorkspaceMembership (m_public_id m) (snapshotMembershipStatus (m_active m))
         user "" workspace "" (m_role m) "")
      AggregateWorkspace workspace "membership_id" (m_public_id m))
    (flat_map (fun m => map (pair m) (join2 (user_of db (m_user_id m)) (workspace_of db (m_scope m))))
       (workspace_memberships db)).

Definition product_record (db : DB) (seed : MigrationRow) (p : ProductRow) : res RARecord :=
  let r := fact EntityProduct (p_key p) (p_status p) "" "" "" "" "" "" in
  match latestReadAuthoritySourceEventTx db AggregateProduct (p_key p) "" "" with
  | Some event => validated (setReadAuthorityEventProvenance r event)
  | None =>
      if (p_status p =s "active") && ((p_key p =s ProductCTRL) || (p_key p =s ProductIMS))
      then validated (mkRecord (Rec_EntityKind r) (Rec_ID r) (Rec_Status r) "" "" "" "" "" ""
             ProvenanceMigrationSeed "" 0 0 (mg_version seed) (mg_name seed) (mg_checksum seed))
      else Err (Text "missing source provenance for product")
  end.
Definition materializeProductsTx (db : DB) (seed : MigrationRow) : res (list RARecord) :=
  materialize p_key (product_record db seed) (products db).
Definition materializeEntitlementsTx (db : DB) : res (list RARecord) :=
  materialize (fun v => e_public_id (fst v)) (fun '(e, organisation) =>
    addEventProvenance db
      (fact EntityOrganisationEntitlement (e_public_id e) (e_status e) "" organisation "" (e_product_key e) "" "")
      AggregateAccess (e_public_id e) "entitlement_id" (e_public_id e))
    (flat_map (fun e => map (pair e) (organisation_of db (e_organisation_id e))) (entitlements db)).
Definition materializeAssignmentsTx (db : DB) : res (list RARecord) :=
  materialize (fun v => g_public_id (fst v)) (fun '(g, (user, organisation)) =>
    addEventProvenance db
      (fact EntityUserProductAssignment (g_public_id g) (g_status g) user organisation "" (g_product_key g) "" "")
      AggregateAccess (g_public_id g) "assignment_id" (g_public_id g))
    (flat_map (fun g => map (pair g) (join2 (user_of db (g_user_id g)) (organisation_of db (g_organisation_id g))))
       (assignments db)).

Definition materialize_kind (db : DB) (seed : MigrationRow) (kind : string) : res (list RARecord) :=
  if kind =s EntityUser then materializeUsersTx db
  else if kind =s EntityOrganisation then materializeOrganisationsTx db
  else if kind =s EntityOrganisationMembership then materializeOrganisationMembershipsTx db
  else if kind =s EntityWorkspace then materializeWorkspacesTx db
  else if kind =s EntityWorkspaceMembership then materializeWorkspaceMembershipsTx db
  else if kind =s EntityProduct then materializeProductsTx db seed
  else if kind =s EntityOrganisationEntitlement then materializeEntitlementsTx db
  else if kind =s EntityUserProductAssignment then materializeAssignmentsTx db
  else Ok [].

Fixpoint index_of (kind : string) (l : list string) : Z :=
  match l with [] => 0 | k :: l => if kind =s k then 0 else 1 + index_of kind l end.
Definition readAuthorityKindRank (kind : string) : Z := index_of kind allowedEntityKinds.
(** The comparison of sort.SliceStable: the kind, then the fields in order. *)
Definition record_before (a b : RARecord) : bool :=
  let ra := readAuthorityKindRank (Rec_EntityKind a) in
  let rb := readAuthorityKindRank (Rec_EntityKind b) in
  if negb (ra =? rb) then ra <? rb
  else fields_before [(Rec_ID a, Rec_ID b); (Rec_UserID a, Rec_UserID b);
         (Rec_OrganisationID a, Rec_OrganisationID b); (Rec_WorkspaceID a, Rec_WorkspaceID b);
         (Rec_ProductKey a, Rec_ProductKey b); (Rec_Role a, Rec_Role b)].

Fixpoint materialize_kinds (db : DB) (seed : MigrationRow) (kinds : list string) (records : list RARecord)
  : res (list RARecord) :=
  match kinds with
  | [] => Ok records
  | kind :: kinds =>
      let? values := materialize_kind db seed kind in
      let records := (records ++ values)%list in
      if SnapshotMaxRecords <? Z.of_nat (List.length records) then Err (Sentinel ErrInvalidReadAuthorityRequest)
      else materialize_kinds db seed kinds records
  end.
Definition materializeReadAuthorityRecordsTx (db : DB) (kinds : list string) (seed : MigrationRow)
  : res (list RARecord) :=
  let? records := materialize_kinds db seed kinds [] in
  Ok (sort_by record_before records).

(** ** Creating a snapshot *)
Definition MaxReadAuthoritySnapshotTTL : Z := 24 * Hour.
Definition readAuthoritySnapshotPageSize : Z := SnapshotMaxPageSize.
Definition readAuthoritySnapshotMaxRows : Z := SnapshotMaxRecords.

Fixpoint distinct_kinds (seen values : list string) : res (list string) :=
  match values with
  | [] => Ok seen
  | value :: values =>
      let kind := TrimSpace value in
      if negb (is_ok (ValidateEntityKind kind)) || one_of kind seen
      then Err (Sentinel ErrInvalidReadAuthorityRequest) else distinct_kinds (kind :: seen) values
  end.
Definition validateReadAuthorityKinds (values : list string) : res (list string) :=
  if (Nat.eqb (List.length values) 0) || (Nat.ltb (List.length allowedEntityKinds) (List.length values))
  then Err (Sentinel ErrInvalidReadAuthorityRequest)
  else
    let? seen := distinct_kinds [] values in
    Ok (List.filter (fun kind => one_of kind seen) allowedEntityKinds).

(** [raw] is what [rand.Read] filled the buffer with. *)
Definition newReadAuthorityID (raw : option string) : res string :=
  match raw with
  | None => Err (Text "generate read-authority snapshot id")
  | Some raw => Ok ("snap_" ++ b64_encode raw)
  end.
Definition readAuthoritySourceCursorTx (db : DB) : string := SourceCursor (foldr Z.max 0 (map ob_id (outbox db))).
Definition readAuthorityMigrationSeedTx (s : ReadStore) : res MigrationRow :=
  match find (fun m => mg_version m =? 6) (schema_migrations s) with
  | Some m => Ok m
  | None => Err (Wrap "read product migration provenance" NoRows)
  end.

Record ReadAuthoritySnapshot := mkSnapshot {
  SN_Version : string; SN_SnapshotID : string; SN_Consumer : string; SN_ContractVersion : string;
  SN_SourceCursor : string; SN_ChecksumAlgorithm : string; SN_Checksum : string; SN_CreatedAt : Z;
  SN_ExpiresAt : Z; SN_RecordCount : Z; SN_PageSize : Z; SN_Complete : bool }.

Definition finalized (at_ : string) (r : SnapshotRow) : SnapshotRow :=
  mkSnapshotRow (sn_id r) (sn_snapshot_id r) (sn_consumer_key r) (sn_contract_version r) (sn_source_cursor r)
    (sn_checksum_algorithm r) (sn_checksum r) (sn_created_at r) (sn_expires_at r) (sn_record_count r)
    (sn_page_size r) true (Some at_).

Section Store.
Context `{Crypto}.

Definition record_row (snapshotID : string) (ordinal : Z) (r : RARecord) (id : Z) : SnapshotRecordRow :=
  mkSnapshotRecordRow id snapshotID ordinal (Rec_EntityKind r) (Rec_ID r) (BodyDigest (encode_record r))
    (encode_record r).
Fixpoint store_records (snapshotID : string) (ordinal : Z) (records : list RARecord) : St ReadStore error unit :=
  match records with
  | [] => ret tt
  | r :: records =>
      do! inside "store read-authority record"
            (insert_into snapshot_records set_snapshot_records snapshot_records_ok
               (record_row snapshotID ordinal r)) in
      store_records snapshotID (ordinal + 1) records
  end.

Definition CreateReadAuthoritySnapshot (consumer : string) (entityKinds : list string) (ttl pageSize createdAt : Z)
    (raw : option string) : St ReadStore error ReadAuthoritySnapshot :=
  let consumer := TrimSpace consumer in
  do! require (is_ok (ValidateConsumer consumer)) ErrInvalidReadAuthorityConsumer in
  let pageSize := if pageSize =? 0 then readAuthoritySnapshotPageSize else pageSize in
  do! require (negb ((pageSize <? 1) || (readAuthoritySnapshotPageSize <? pageSize) || (ttl <=? 0)
               || (MaxReadAuthoritySnapshotTTL <? ttl) || negb (Z.rem ttl Second =? 0) || IsZero createdAt))
        ErrInvalidReadAuthorityRequest in
  let! kinds := lift (validateReadAuthorityKinds entityKinds) in
  let expiresAt := createdAt + ttl in
  let! snapshotID := lift (newReadAuthorityID raw) in
  let! sourceCursor := reads (fun s => readAuthoritySourceCursorTx (platform s)) in
  let! seed := reads readAuthorityMigrationSeedTx in
  let! seed := lift seed in
  let! records := reads (fun s => materializeReadAuthorityRecordsTx (platform s) kinds seed) in
  let! records := lift records in
  let n := Z.of_nat (List.length records) in
  do! require (negb (readAuthoritySnapshotMaxRows <? n)) ErrInvalidReadAuthorityRequest in
  let checksum := RecordsChecksum records in
  do! inside "create read-authority snapshot"
        (insert_into snapshots set_snapshots snapshots_ok (fun id =>
           mkSnapshotRow id snapshotID consumer VersionV2 sourceCursor "sha256" checksum (formatTime createdAt)
             (formatTime expiresAt) n pageSize false None)) in
  do! store_records snapshotID 0 records in
  do! modify (fun s => set_snapshots
        (update (fun r => (sn_snapshot_id r =s snapshotID) && negb (sn_complete r))
           (finalized (formatTime createdAt)) (snapshots s)) s) in
  ret (mkSnapshot VersionV2 snapshotID consumer VersionV2 sourceCursor "sha256" checksum createdAt expiresAt n
         pageSize true).

(** ** Reading it back *)
Definition readReadAuthoritySnapshotMetadata (s : ReadStore) (consumer snapshotID : string)
  : res ReadAuthoritySnapshot :=
  match find (fun r => (sn_consumer_key r =s consumer) && (sn_snapshot_id r =s snapshotID)) (snapshots s) with
  | None => Err (Sentinel ErrReadAuthoritySnapshotNotFound)
  | Some r =>
      match sn_finalized_at r with
      | None => Err (Wrap "read read-authority snapshot" (Text "converting NULL to string is unsupported"))
      | Some finalizedAt =>
          let createdAt := parseTime (sn_created_at r) in
          let expiresAt := parseTime (sn_expires_at r) in
          let version := sn_contract_version r in
          if negb (version =s VersionV2) || negb (sn_checksum_algorithm r =s "sha256")
             || (sn_record_count r <? 0) || (readAuthoritySnapshotMaxRows <? sn_record_count r)
             || (sn_page_size r <? 1) || (readAuthoritySnapshotPageSize <? sn_page_size r)
             || IsZero createdAt || IsZero expiresAt || negb (After expiresAt createdAt)
             || negb (is_ok (ParseSourceCursor (sn_source_cursor r)))
          then Err (Sentinel ErrReadAuthorityChecksumMismatch)
          else Ok (mkSnapshot version (sn_snapshot_id r) (sn_consumer_key r) version (sn_source_cursor r)
                     (sn_checksum_algorithm r) (sn_checksum r) createdAt expiresAt (sn_record_count r)
                     (sn_page_size r) (sn_complete r && negb (finalizedAt =s "")))
      end
  end.

Definition mismatch {A} (msg : string) : res A := Err (Wrap msg (Sentinel ErrReadAuthorityChecksumMismatch)).
Definition read_record (row : SnapshotRecordRow) : res RARecord :=
  match decode_record (sc_record_json row) with
  | Err _ => mismatch "decode"
  | Ok record =>
      if negb (is_ok (ValidateRecordVersion VersionV2 record)) then mismatch "validate"
      else if negb (Rec_EntityKind record =s sc_entity_kind row) || negb (Rec_ID record =s sc_record_id row)
              || negb (BodyDigest (sc_record_json row) =s sc_record_hash row)
      then mismatch "identity" else Ok record
  end.
Fixpoint read_records (wantOrdinal : Z) (rows : list SnapshotRecordRow) : res (list RARecord) :=
  match rows with
  | [] => Ok []
  | row :: rows =>
      if negb (sc_ordinal row =? wantOrdinal) then Err (Sentinel ErrReadAuthorityChecksumMismatch) else
      let? record := read_record row in
      if readAuthoritySnapshotMaxRows <? wantOrdinal + 1 then Err (Sentinel ErrReadAuthorityChecksumMismatch) else
      let? records := read_records (wantOrdinal + 1) rows in
      Ok (record :: records)
  end.
Definition readReadAuthoritySnapshotRecords (s : ReadStore) (snapshotID : string) : res (list RARecord) :=
  read_records 0 (sort_by (fun a b => sc_ordinal a <? sc_ordinal b)
    (select (fun r => sc_snapshot_id r =s snapshotID) (snapshot_records s))).

Definition readAndVerifyReadAuthoritySnapshot (s : ReadStore) (consumer snapshotID : string) (at_ : Z)
  : res (ReadAuthoritySnapshot * list RARecord) :=
  let? snapshot := readReadAuthoritySnapshotMetadata s consumer snapshotID in
  if negb (SN_Complete snapshot) then Err (Sentinel ErrReadAuthoritySnapshotIncomplete)
  else if negb (Before at_ (SN_ExpiresAt snapshot)) then Err (Sentinel ErrReadAuthoritySnapshotExpired)
  else
    let? records := readReadAuthoritySnapshotRecords s snapshotID in
    if negb (Z.of_nat (List.length records) =? SN_RecordCount snapshot)
       || negb (RecordsChecksum records =s SN_Checksum snapshot)
    then Err (Sentinel ErrReadAuthorityChecksumMismatch) else Ok (snapshot, records).

Definition GetReadAuthoritySnapshot (s : ReadStore) (consumer snapshotID : string) (at_ : Z)
  : res ReadAuthoritySnapshot :=
  let consumer := TrimSpace consumer in
  if negb (is_ok (ValidateConsumer consumer)) then Err (Sentinel ErrInvalidReadAuthorityConsumer)
  else if (TrimSpace snapshotID =s "") || IsZero at_ then Err (Sentinel ErrInvalidReadAuthorityRequest)
  else
    let? (snapshot, records) := readAndVerifyReadAuthoritySnapshot s consumer snapshotID at_ in
    if negb (Z.of_nat (List.length records) =? SN_RecordCount snapshot)
    then Err (Sentinel ErrReadAuthorityChecksumMismatch) else Ok snapshot.
End Store.

(** ** Pages *)
Definition cursor_fields (snapshotID consumer entityKind : string) (ordinal : Z) : list (string * scalar) :=
  [("snapshot_id", VString snapshotID); ("consumer", VString consumer); ("entity_kind", VString entityKind);
   ("ordinal", VInt ordinal)].
Definition encodeReadAuthorityPageCursor (snapshot : ReadAuthoritySnapshot) (entityKind : string) (ordinal : Z)
  : string :=
  "page_" ++ b64_encode (encode_fields (cursor_fields (SN_SnapshotID snapshot) (SN_Consumer snapshot) entityKind ordinal)).

Definition cursor_of_json (text : string) : res (string * string * string * Z) :=
  match parse text with
  | Some JNull => Ok ("", "", "", 0)
  | Some (JObject l) =>
      let? snapshotID := string_field l "snapshot_id" in
      let? consumer := string_field l "consumer" in
      let? entityKind := string_field l "entity_kind" in
      let? ordinal := int_field l "ordinal" in
      Ok (snapshotID, consumer, entityKind, ordinal)
  | _ => json_error
  end.
Definition decodeReadAuthorityPageCursor (value : string) (snapshot : ReadAuthoritySnapshot) (entityKind : string)
  : res Z :=
  let invalid := Err (Sentinel ErrReadAuthorityCursorInvalid) in
  if TrimSpace value =s "" then Ok (-1)
  else if negb (HasPrefix value "page_") then invalid
  else match b64_decode (drop_bytes 5 value) with
       | None => invalid
       | Some payload =>
           match cursor_of_json payload with
           | Err _ => invalid
           | Ok (snapshotID, consumer, kind, ordinal) =>
               if negb (snapshotID =s SN_SnapshotID snapshot) || negb (consumer =s SN_Consumer snapshot)
                  || negb (kind =s entityKind) || (ordinal <? 0) || (SN_RecordCount snapshot <=? ordinal)
               then invalid else Ok ordinal
           end
       end.

Definition of_kind (entityKind : string) (r : RARecord) : bool :=
  (entityKind =s "") || (Rec_EntityKind r =s entityKind).
(** The loop that selects a page: the next [n] records of the kind after [start]. *)
Fixpoint select_page (entityKind : string) (start ordinal : Z) (records : list RARecord) (n : nat)
  : list (Z * RARecord) :=
  match records with
  | [] => []
  | r :: records =>
      if (ordinal <=? start) || negb (of_kind entityKind r)
      then select_page entityKind start (ordinal + 1) records n
      else match n with
           | O | S O => [(ordinal, r)]
           | S n => (ordinal, r) :: select_page entityKind start (ordinal + 1) records n
           end
  end.

Record ReadAuthoritySnapshotPage := mkPage {
  PG_Snapshot : ReadAuthoritySnapshot; PG_Records : list RARecord; PG_NextCursor : string; PG_Complete : bool }.

Definition page_of (snapshot : ReadAuthoritySnapshot) (records : list RARecord) (entityKind : string)
    (start limit : Z) : ReadAuthoritySnapshotPage :=
  let selected := select_page entityKind start 0 records (Z.to_nat limit) in
  match last selected with
  | Some (ordinal, _) =>
      if (Z.of_nat (List.length selected) =? limit)
         && existsb (of_kind entityKind) (skipn (Z.to_nat (ordinal + 1)) records)
      then mkPage snapshot (map snd selected) (encodeReadAuthorityPageCursor snapshot entityKind ordinal) false
      else mkPage snapshot (map snd selected) "" true
  | None => mkPage snapshot [] "" true
  end.

Definition ListReadAuthoritySnapshotRecords `{Crypto} (s : ReadStore) (consumer snapshotID entityKind after : string)
    (limit at_ : Z) : res ReadAuthoritySnapshotPage :=
  let consumer := TrimSpace consumer in
  if negb (is_ok (ValidateConsumer consumer)) then Err (Sentinel ErrInvalidReadAuthorityConsumer)
  else if (limit <? 1) || (readAuthoritySnapshotPageSize <? limit) || (TrimSpace snapshotID =s "") || IsZero at_
  then Err (Sentinel ErrInvalidReadAuthorityRequest)
  else if negb (entityKind =s "") && negb (is_ok (ValidateEntityKind entityKind))
  then Err (Sentinel ErrInvalidReadAuthorityRequest)
  else
    let? (snapshot, records) := readAndVerifyReadAuthoritySnapshot s consumer snapshotID at_ in
    let? startOrdinal := decodeReadAuthorityPageCursor after snapshot entityKind in
    Ok (page_of snapshot records entityKind startOrdinal limit).

(** ** Clean-up, with the records of the removed snapshots (ON DELETE CASCADE) *)
Definition CleanupReadAuthoritySnapshots (consumer : string) (at_ n : Z) : St ReadStore error Z :=
  let consumer := TrimSpace consumer in
  do! require (is_ok (ValidateConsumer consumer)) ErrInvalidReadAuthorityConsumer in
  do! require (negb (IsZero at_ || (n <? 1) || (1000 <? n))) ErrInvalidReadAuthorityRequest in
  let! doomed := reads (fun s => map sn_snapshot_id (limit n
    (sort_by (fun a b => fields_before [(sn_expires_at a, sn_expires_at b); (sn_snapshot_id a, sn_snapshot_id b)])
      (select (fun r => (sn_consumer_key r =s consumer) && text_le (sn_expires_at r) (formatTime at_))
         (snapshots s))))) in
  let! removed := reads (fun s => count (fun r => one_of (sn_snapshot_id r) doomed) (snapshots s)) in
  do! modify (fun s => set_snapshots (delete_rows (fun r => one_of (sn_snapshot_id r) doomed) (snapshots s)) s) in
  do! modify (fun s => set_snapshot_records
        (delete_rows (fun r => one_of (sc_snapshot_id r) doomed) (snapshot_records s)) s) in
  ret removed.

(** ** Nonces *)
(** The guard on the trimmed consumer and nonce and the two times. *)
Definition nonce_request_ok (consumer nonce : string) (reservedAt expiresAt : Z) : bool :=
  negb ((consumer =s "") || (100 <? len consumer) || (nonce =s "") || (128 <? len nonce)
        || IsZero reservedAt || IsZero expiresAt || negb (After expiresAt reservedAt)).
Definition ReserveReadAuthorityNonce (consumer nonce : string) (reservedAt expiresAt : Z) : St ReadStore error unit :=
  let consumer := TrimSpace consumer in
  let nonce := TrimSpace nonce in
  do! require (nonce_request_ok consumer nonce reservedAt expiresAt) ErrInvalidReadAuthorityNonce in
  do! modify (fun s => set_nonces
        (delete_rows (fun r => text_le (no_expires_at r) (formatTime reservedAt)) (nonces s)) s) in
  let! used := reads (fun s => existsb (fun r => (no_consumer_key r =s consumer) && (no_nonce r =s nonce)) (nonces s)) in
  do! require (negb used) ErrReadAuthorityNonceReplay in
  inside "reserve read-authority nonce"
    (insert_into nonces set_nonces nonces_ok (fun id =>
       mkNonceRow id consumer nonce (formatTime reservedAt) (formatTime expiresAt))).
