(* ===== verification/SnapshotLaws.v ===== *)
(** Laws of the read-authority snapshots: what is stored reads back, page by
    page, and a nonce is accepted once. *)
From stdpp Require Import base tactics option list strings relations.
From Stdlib Require Import ZArith Lia Ascii String Sorted.
From S2P Require Import Prelude GoStrings GoTime Codec Errors Domain Json JsonLaws Events Schema Outbox Auth.
From S2P Require Import Identity Organisation ReadAuthority Snapshot.

Local Open Scope string_scope.
Local Open Scope Z_scope.

(** ** Pages of a list *)
Fixpoint numbered (k : Z) (l : list RARecord) : list (Z * RARecord) :=
  match l with [] => [] | r :: l => (k, r) :: numbered (k + 1) l end.
Definition rows_after (kind : string) (start k : Z) (l : list RARecord) : list (Z * RARecord) :=
  List.filter (fun x => (start <? fst x) && of_kind kind (snd x)) (numbered k l).

Lemma select_page_eq kind start k l n :
  (0 < n)%nat -> select_page kind start k l n = firstn n (rows_after kind start k l).
Proof.
  revert k n. induction l as [|r l IH]; intros k n Hn; [by destruct n|].
  cbn [select_page rows_after numbered List.filter fst snd]. unfold rows_after in IH.
  destruct (Z.leb_spec k start), (Z.ltb_spec start k); try lia; cbn [orb andb]; [by apply IH|].
  destruct (of_kind kind r); cbn [negb]; [|by apply IH].
  destruct n as [|[|n]]; [lia|done|]. cbn [firstn]. f_equal. apply IH. lia.
Qed.

Lemma filter_split {A} (p : A -> bool) l a x b :
  List.filter p l = (a ++ x :: b)%list ->
  exists l1 l2, l = (l1 ++ x :: l2)%list /\ List.filter p l1 = a /\ List.filter p l2 = b /\ p x = true.
Proof.
  revert a. induction l as [|y l IH]; intros a H; [by destruct a|]. cbn in H. destruct (p y) eqn:Ey.
  - destruct a as [|y' a]; injection H as -> H.
    + exists [], l. done.
    + destruct (IH a H) as (l1 & l2 & -> & <- & <- & ?). exists (y' :: l1), l2. cbn. by rewrite Ey.
  - destruct (IH a H) as (l1 & l2 & -> & <- & <- & ?). exists (y :: l1), l2. cbn. by rewrite Ey.
Qed.

Lemma numbered_split k l l1 o r l2 :
  numbered k l = (l1 ++ (o, r) :: l2)%list ->
  exists m1 m2, l = (m1 ++ r :: m2)%list /\ l1 = numbered k m1 /\ l2 = numbered (o + 1) m2
    /\ o = k + Z.of_nat (List.length m1).
Proof.
  revert k l1. induction l as [|x l IH]; intros k l1 H; [by destruct l1|]. cbn in H.
  destruct l1 as [|y l1]; injection H as E H.
  - exists [], l. cbn. inversion E; subst. split; [done|]. split; [done|]. split; [done|]. lia.
  - destruct (IH _ _ H) as (m1 & m2 & -> & -> & -> & ->). exists (x :: m1), m2. subst y.
    split; [done|]. split; [done|]. split; [done|]. cbn [List.length]. lia.
Qed.

Lemma in_numbered k l x : In x (numbered k l) -> k <= fst x < k + Z.of_nat (List.length l).
Proof.
  revert k. induction l as [|r l IH]; intros k; [done|]. cbn [numbered In List.length].
  intros [<-|H%IH]; cbn; lia.
Qed.

(** The rows after a selected row. *)
Lemma rows_after_selected kind start l a o r b (rows := rows_after kind start 0 l) :
  rows = (a ++ (o, r) :: b)%list ->
  rows_after kind o 0 l = b /\ 0 <= o < Z.of_nat (List.length l) /\
  existsb (of_kind kind) (skipn (Z.to_nat (o + 1)) l) = match b with [] => false | _ => true end.
Proof.
  intros H. apply filter_split in H as (l1 & l2 & E & Ha & Hb & Hp). cbn [fst snd] in Hp. bool_hyps.
  pose proof (numbered_split _ _ _ _ _ _ E) as (m1 & m2 & -> & -> & -> & Ho).
  assert (rows_after kind o 0 (m1 ++ r :: m2) = b) as Hrows.
  { unfold rows_after. rewrite E, List.filter_app. cbn [List.filter fst snd].
    destruct (Z.ltb_spec o o); [lia|]. cbn [andb].
    rewrite filter_none; [|intros x Hx%in_numbered; destruct (Z.ltb_spec o (fst x)); [lia|done]].
    rewrite <-Hb. apply List.filter_ext_in. intros x Hx%in_numbered.
    by destruct (Z.ltb_spec o (fst x)), (Z.ltb_spec start (fst x)); try lia. }
  split; [done|]. split; [rewrite length_app; cbn [List.length]; lia|].
  replace (Z.to_nat (o + 1)) with (List.length (m1 ++ [r])) by (rewrite length_app; cbn; lia).
  change (m1 ++ r :: m2)%list with (m1 ++ [r] ++ m2)%list. rewrite (app_assoc m1), skipn_app, skipn_all, Nat.sub_diag.
  cbn [app skipn]. rewrite <-Hb. clear -H Ho.
  assert (forall k, o < k -> existsb (of_kind kind) m2 =
    match List.filter (fun x => (start <? fst x) && of_kind kind (snd x)) (numbered k m2) with [] => false | _ => true end) as G.
  { induction m2 as [|x m2 IH]; intros k Hk; [done|]. cbn [existsb numbered List.filter fst snd].
    destruct (Z.ltb_spec start k); [|lia]. cbn [andb]. destruct (of_kind kind x); [done|]. apply IH. lia. }
  apply G. lia.
Qed.

(** A page takes the next rows and says whether there are more. *)
Lemma page_of_eq snapshot l kind start limit (rows := rows_after kind start 0 l) :
  1 <= limit ->
  exists next,
  page_of snapshot l kind start limit =
    mkPage snapshot (map snd (firstn (Z.to_nat limit) rows)) next
      (match skipn (Z.to_nat limit) rows with [] => true | _ => false end) /\
  (skipn (Z.to_nat limit) rows <> [] -> exists o,
     next = encodeReadAuthorityPageCursor snapshot kind o /\ 0 <= o < Z.of_nat (List.length l) /\
     rows_after kind o 0 l = skipn (Z.to_nat limit) rows).
Proof.
  intros Hl. unfold page_of. rewrite select_page_eq by lia. fold rows.
  destruct (last (firstn (Z.to_nat limit) rows)) as [[o r]|] eqn:E.
  - apply last_Some in E as [a Ea].
    assert (rows = a ++ (o, r) :: skipn (Z.to_nat limit) rows)%list as Hrows.
    { rewrite <-(firstn_skipn (Z.to_nat limit) rows) at 1. by rewrite Ea, <-List.app_assoc. }
    destruct (rows_after_selected _ _ _ _ _ _ _ Hrows) as (H1 & H2 & ->).
    destruct (skipn (Z.to_nat limit) rows) as [|x b] eqn:Eb.
    + rewrite andb_false_r. eexists. by split.
    + rewrite andb_true_r. pose proof (f_equal (@List.length _) Eb) as Hlen. rewrite length_skipn in Hlen.
      cbn [List.length] in Hlen. rewrite length_firstn.
      destruct (Z.eqb_spec (Z.of_nat (Nat.min (Z.to_nat limit) (List.length rows))) limit); [|lia].
      eexists. split; [done|]. intros _. exists o. by rewrite H1.
  - apply last_None in E. assert (rows = []) as Hr.
    { destruct rows; [done|]. destruct (Z.to_nat limit) eqn:E2; [lia|done]. }
    rewrite Hr, firstn_nil, skipn_nil. by eexists.
Qed.

(** ** Cursors *)
Lemma decode_cursor_fields id consumer kind o :
  valid_utf8 id = true -> valid_utf8 consumer = true -> valid_utf8 kind = true -> in_int64 o = true ->
  cursor_of_json (encode_fields (cursor_fields id consumer kind o)) = Ok (id, consumer, kind, o).
Proof.
  intros H1 H2 H3 H4. unfold cursor_of_json. rewrite parse_encode_fields.
  - set (m := cursor_fields id consumer kind o).
    rewrite (string_field_written m "snapshot_id" "snapshot_id" id) by reflexivity.
    rewrite (string_field_written m "consumer" "consumer" consumer) by reflexivity.
    rewrite (string_field_written m "entity_kind" "entity_kind" kind) by reflexivity.
    by rewrite (int_field_written m "ordinal" "ordinal" o).
  - unfold cursor_fields. cbn [forallb]. unfold valid_member. cbn [fst snd valid_scalar]. by rewrite H1, H2, H3, H4.
Qed.

Lemma decode_encode_cursor snapshot kind o :
  valid_utf8 (SN_SnapshotID snapshot) = true -> valid_utf8 (SN_Consumer snapshot) = true ->
  valid_utf8 kind = true -> 0 <= o < SN_RecordCount snapshot -> SN_RecordCount snapshot <= int64_max ->
  decodeReadAuthorityPageCursor (encodeReadAuthorityPageCursor snapshot kind o) snapshot kind = Ok o.
Proof.
  intros H1 H2 H3 Ho Hmax. unfold decodeReadAuthorityPageCursor, encodeReadAuthorityPageCursor.
  rewrite TrimSpace_id by (rewrite forall_bytes_app, b64_printable; done).
  rewrite HasPrefix_app. change 5%nat with (String.length "page_"). rewrite drop_bytes_app, b64_decode_encode.
  change ("page_" ++ _ =s "") with false. cbn [negb].
  rewrite decode_cursor_fields by (done || unfold in_int64, int64_min, int64_max in *; lia).
  rewrite !String.eqb_refl. cbn [negb orb].
  destruct (Z.ltb_spec o 0), (Z.leb_spec (SN_RecordCount snapshot) o); lia || done.
Qed.

(** ** The client's loop: pages until one is complete *)
Section Reading.
Context `{Crypto}.

Fixpoint read_pages (fuel : nat) (s : ReadStore) (consumer snapshotID kind after : string) (limit at_ : Z)
  : res (list RARecord) :=
  match fuel with
  | O => Err (Text "out of fuel")
  | S fuel =>
      let? page := ListReadAuthoritySnapshotRecords s consumer snapshotID kind after limit at_ in
      if PG_Complete page then Ok (PG_Records page) else
      let? records := read_pages fuel s consumer snapshotID kind (PG_NextCursor page) limit at_ in
      Ok (PG_Records page ++ records)%list
  end.

(** The requests the store accepts for a snapshot that verifies. *)
Record readable (s : ReadStore) (consumer snapshotID kind : string) (limit at_ : Z)
    (snapshot : ReadAuthoritySnapshot) (records : list RARecord) : Prop := {
  rd_consumer : is_ok (ValidateConsumer (TrimSpace consumer)) = true;
  rd_id : TrimSpace snapshotID <> "";
  rd_time : at_ <> zero_time;
  rd_limit : 1 <= limit <= readAuthoritySnapshotPageSize;
  rd_kind : kind = "" \/ is_ok (ValidateEntityKind kind) = true;
  rd_records : readAndVerifyReadAuthoritySnapshot s (TrimSpace consumer) snapshotID at_ = Ok (snapshot, records) }.

Lemma list_page s consumer snapshotID kind after limit at_ snapshot records start :
  readable s consumer snapshotID kind limit at_ snapshot records ->
  decodeReadAuthorityPageCursor after snapshot kind = Ok start ->
  ListReadAuthoritySnapshotRecords s consumer snapshotID kind after limit at_
  = Ok (page_of snapshot records kind start limit).
Proof.
  intros [Hc Hid Ht Hl Hk Hr] Hs. unfold ListReadAuthoritySnapshotRecords. rewrite Hc, Hr, Hs. cbn [negb].
  apply String.eqb_neq in Hid. rewrite Hid. unfold IsZero.
  destruct (Z.eqb_spec at_ zero_time); [done|]. destruct (Z.ltb_spec limit 1); [lia|].
  destruct (Z.ltb_spec readAuthoritySnapshotPageSize limit); [lia|]. cbn [orb].
  destruct Hk as [->| ->]; [done|]. by rewrite andb_false_r.
Qed.

Lemma read_pages_from fuel s consumer snapshotID kind after limit at_ snapshot records start :
  readable s consumer snapshotID kind limit at_ snapshot records ->
  valid_utf8 (SN_SnapshotID snapshot) = true -> valid_utf8 (SN_Consumer snapshot) = true ->
  SN_RecordCount snapshot = Z.of_nat (List.length records) -> SN_RecordCount snapshot <= int64_max ->
  decodeReadAuthorityPageCursor after snapshot kind = Ok start ->
  (List.length (rows_after kind start 0 records) < fuel)%nat ->
  read_pages fuel s consumer snapshotID kind after limit at_ = Ok (map snd (rows_after kind start 0 records)).
Proof.
  intros Hr H1 H2 Hn Hmax. assert (valid_utf8 kind = true) as H3.
  { destruct (rd_kind _ _ _ _ _ _ _ _ Hr) as [->|Hk]; [done|]. apply printable_utf8.
    unfold ValidateEntityKind, one_of in Hk. destruct (existsb _ _) eqn:E; [|done].
    apply existsb_exists in E as (k & Hin & ->%String.eqb_eq).
    assert (forallb (forall_bytes printable) allowedEntityKinds = true) as Hall by reflexivity.
    rewrite forallb_forall in Hall. by apply Hall. }
  pose proof (rd_limit _ _ _ _ _ _ _ _ Hr) as Hl. revert after start.
  induction fuel as [|fuel IH]; intros after start Hs Hf; [lia|]. cbn [read_pages].
  rewrite (list_page _ _ _ _ _ _ _ _ _ _ Hr Hs).
  destruct (page_of_eq snapshot records kind start limit) as (next & -> & Hnext); [lia|].
  cbn [PG_Complete PG_Records PG_NextCursor].
  set (rows := rows_after kind start 0 records) in *.
  rewrite <-(firstn_skipn (Z.to_nat limit) rows) at 3.
  destruct (skipn (Z.to_nat limit) rows) as [|x b] eqn:Eb; [by rewrite app_nil_r|].
  destruct Hnext as (o & -> & Ho & Hrows); [done|].
  rewrite (IH _ o); [by rewrite Hrows, map_app| |].
  - apply decode_encode_cursor; try done. by rewrite Hn.
  - rewrite Hrows. pose proof (f_equal (@List.length _) Eb) as Hlen. rewrite length_skipn in Hlen.
    cbn [List.length] in *. lia.
Qed.
End Reading.

(** ** What is stored *)
Lemma insert_into_Ok `{Row R} (get : ReadStore -> list R) set ok mk s u s' :
  insert_into get set ok mk s = Ok (u, s') ->
  ok (get s) (mk (next_id (get s))) = true /\ s' = set (get s ++ [mk (next_id (get s))])%list s.
Proof. unfold insert_into. destruct (ok _ _) eqn:E; [|discriminate]. by intros [= _ <-]. Qed.
Lemma inside_Ok {A} msg (m : St ReadStore error A) s r : inside msg m s = Ok r <-> m s = Ok r.
Proof. unfold inside, wrap. by destruct (m s). Qed.

Ltac inv_read_step :=
  first [ inv_tx_step
        | match goal with
          | H : inside _ _ _ = Ok _ |- _ => apply inside_Ok in H
          | H : insert_into _ _ _ _ _ = Ok _ |- _ => apply insert_into_Ok in H; destruct H as [? ?]; subst
          end ].
Ltac inv_read := repeat (inv_read_step; cbn [fst snd] in *).

Lemma sort_by_id {R} (lt : R -> R -> bool) l :
  StronglySorted (fun a b => lt b a = false) l -> sort_by lt l = l.
Proof.
  intros Hs. unfold sort_by.
  enough (forall acc, StronglySorted (fun a b => lt b a = false) (acc ++ l)%list ->
    fold_left (fun a r => insert_by lt r a) l acc = (acc ++ l)%list) as H by (by apply (H [])).
  clear Hs. induction l as [|r l IH]; intros acc Hacc; [by rewrite app_nil_r|]. cbn [fold_left].
  assert (insert_by lt r acc = (acc ++ [r])%list) as ->.
  { clear IH. induction acc as [|x acc IH]; [done|]. cbn [app] in Hacc. inversion_clear Hacc as [|? ? Hacc' Hx].
    cbn [insert_by app]. rewrite IH by done. rewrite Forall_app, Forall_cons in Hx. destruct Hx as (_ & -> & _). done. }
  rewrite IH by (by rewrite <-List.app_assoc). by rewrite <-List.app_assoc.
Qed.

Section Storing.
Context `{Crypto}.

(** The rows of the records [rs], numbered from [k]. *)
Fixpoint stored (snapshotID : string) (k : Z) (rs : list RARecord) (rows : list SnapshotRecordRow) : Prop :=
  match rs, rows with
  | [], [] => True
  | r :: rs, row :: rows => (exists i, row = record_row snapshotID k r i) /\ stored snapshotID (k + 1) rs rows
  | _, _ => False
  end.

Lemma store_records_Ok id k rs s u s' :
  store_records id k rs s = Ok (u, s') ->
  exists rows, stored id k rs rows /\ s' = set_snapshot_records (snapshot_records s ++ rows)%list s.
Proof.
  revert k s. induction rs as [|r rs IH]; intros k s Hs; cbn [store_records] in Hs.
  - inv_read. exists []. rewrite app_nil_r. by destruct s.
  - inv_read. apply IH in Hs as (rows & Hrows & ->). eexists (_ :: rows). split; [split; [by eexists|done]|].
    unfold set_snapshot_records at 1. cbn. by rewrite <-List.app_assoc.
Qed.

Lemma stored_rows id k rs rows :
  stored id k rs rows ->
  List.filter (fun r => sc_snapshot_id r =s id) rows = rows /\
  (forall x, In x rows -> k <= sc_ordinal x) /\
  StronglySorted (fun a b => (sc_ordinal b <? sc_ordinal a) = false) rows.
Proof.
  revert k rows. induction rs as [|r rs IH]; intros k [|row rows] Hs; try done.
  - split; [done|]. split; [done|constructor].
  - destruct Hs as [[i ->] Hs]. destruct (IH _ _ Hs) as (H1 & H2 & H3). cbn [List.filter record_row sc_snapshot_id].
    rewrite String.eqb_refl, H1. split; [done|]. split.
    + intros x [<-|Hx%H2]; cbn; lia.
    + constructor; [done|]. apply Forall_forall. intros x Hx%list_elem_of_In%H2. cbn. lia.
Qed.

Definition record_valid (r : RARecord) : Prop := is_ok (ValidateRecordVersion VersionV2 r) = true.

Lemma read_records_stored id k rs rows :
  stored id k rs rows -> Forall record_valid rs -> forallb record_encodable rs = true ->
  k + Z.of_nat (List.length rs) <= readAuthoritySnapshotMaxRows -> read_records k rows = Ok rs.
Proof.
  revert k rows. induction rs as [|r rs IH]; intros k [|row rows] Hs Hv He Hk; try done.
  destruct Hs as [[i ->] Hs]. inversion_clear Hv as [|? ? Hr Hv']. cbn [forallb] in He. bool_hyps.
  cbn [List.length] in Hk. cbn [read_records record_row sc_ordinal]. rewrite Z.eqb_refl. cbn [negb].
  unfold read_record, record_row. cbn [sc_record_json sc_entity_kind sc_record_id sc_record_hash].
  rewrite decode_encode_record by done. unfold record_valid in Hr. rewrite Hr, !String.eqb_refl. cbn [negb orb].
  destruct (Z.ltb_spec readAuthoritySnapshotMaxRows (k + 1)); [lia|]. rewrite (IH _ rows); try done. lia.
Qed.
End Storing.

(** ** Materialised records are valid *)
Lemma map_res_Forall {X A B} (f : A -> result X B) (P : B -> Prop) l ys :
  (forall x y, f x = Ok y -> P y) -> map_res f l = Ok ys -> Forall P ys.
Proof.
  intros Hf. revert ys. induction l as [|x l IH]; cbn [map_res]; intros ys.
  - intros <-%Ok_inj. constructor.
  - destruct (f x) as [y|] eqn:E; [|discriminate]. destruct (map_res f l) as [ys'|]; [|discriminate].
    intros <-%Ok_inj. constructor; [by eapply Hf|by apply IH].
Qed.

Lemma validated_Ok r r' : validated r = Ok r' -> r' = r /\ record_valid r.
Proof.
  unfold validated, wrap, record_valid. destruct (ValidateRecordVersion VersionV2 r); [|discriminate].
  by intros <-%Ok_inj.
Qed.
Lemma addEventProvenance_valid db r ty agg f v r' : addEventProvenance db r ty agg f v = Ok r' -> record_valid r'.
Proof.
  unfold addEventProvenance. destruct (latestReadAuthoritySourceEventTx _ _ _ _ _); [|discriminate].
  by intros [-> ?]%validated_Ok.
Qed.
Lemma product_record_valid db seed p r : product_record db seed p = Ok r -> record_valid r.
Proof.
  unfold product_record. destruct (latestReadAuthoritySourceEventTx _ _ _ _ _).
  - by intros [-> ?]%validated_Ok.
  - case_match; [|discriminate]. by intros [-> ?]%validated_Ok.
Qed.
Lemma materialize_Forall {R} (P : RARecord -> Prop) key record (rows : list R) rs :
  (forall x y, record x = Ok y -> P y) -> materialize key record rows = Ok rs -> Forall P rs.
Proof. unfold materialize. case_match; [discriminate|]. intros Hf. by apply map_res_Forall. Qed.

Lemma materialize_kind_valid db seed kind rs : materialize_kind db seed kind = Ok rs -> Forall record_valid rs.
Proof.
  unfold materialize_kind, materializeUsersTx, materializeOrganisationsTx, materializeOrganisationMembershipsTx,
    materializeWorkspacesTx, materializeWorkspaceMembershipsTx, materializeProductsTx, materializeEntitlementsTx,
    materializeAssignmentsTx.
  repeat case_match; try (intros <-%Ok_inj; constructor); apply materialize_Forall;
    try (intros [? [? ?]] ?; apply addEventProvenance_valid); try (intros [? ?] ?; apply addEventProvenance_valid);
    intros ? ?; apply addEventProvenance_valid || apply product_record_valid.
Qed.
Lemma materialize_kinds_valid db seed kinds rs rs' :
  Forall record_valid rs -> materialize_kinds db seed kinds rs = Ok rs' -> Forall record_valid rs'.
Proof.
  revert rs. induction kinds as [|kind kinds IH]; intros rs Hrs; cbn [materialize_kinds].
  - by intros <-%Ok_inj.
  - destruct (materialize_kind db seed kind) eqn:E; [|discriminate]. case_match; [discriminate|].
    apply IH. apply Forall_app. split; [done|]. by eapply materialize_kind_valid.
Qed.
Lemma materialized_valid db kinds seed rs :
  materializeReadAuthorityRecordsTx db kinds seed = Ok rs -> Forall record_valid rs.
Proof.
  unfold materializeReadAuthorityRecordsTx. destruct (materialize_kinds _ _ _ _) eqn:E; [|discriminate].
  intros <-%Ok_inj. apply materialize_kinds_valid in E; [|constructor].
  by rewrite sort_by_Permutation.
Qed.

(** ** Creation *)
(** A record belongs to a snapshot: the foreign key of the records. *)
Definition records_owned (s : ReadStore) : Prop :=
  forall x, In x (snapshot_records s) -> In (sc_snapshot_id x) (map sn_snapshot_id (snapshots s)).

Section Creation.
Context `{Crypto}.

Record created (s : ReadStore) (consumer : string) (entityKinds : list string) (ttl createdAt : Z)
    (snap : ReadAuthoritySnapshot) (s' : ReadStore) (kinds : list string) (seed : MigrationRow)
    (rs : list RARecord) (raw : string) (pageSize : Z) : Prop := {
  cr_consumer_ok : is_ok (ValidateConsumer (TrimSpace consumer)) = true;
  cr_page : 1 <= pageSize <= readAuthoritySnapshotPageSize;
  cr_ttl : 0 < ttl;
  cr_kinds : validateReadAuthorityKinds entityKinds = Ok kinds;
  cr_seed : readAuthorityMigrationSeedTx s = Ok seed;
  cr_records : materializeReadAuthorityRecordsTx (platform s) kinds seed = Ok rs;
  cr_count : Z.of_nat (List.length rs) <= readAuthoritySnapshotMaxRows;
  cr_snapshot : snap = mkSnapshot VersionV2 ("snap_" ++ b64_encode raw) (TrimSpace consumer) VersionV2
    (readAuthoritySourceCursorTx (platform s)) "sha256" (RecordsChecksum rs) createdAt (createdAt + ttl)
    (Z.of_nat (List.length rs)) pageSize true;
  cr_fresh : ~ In ("snap_" ++ b64_encode raw) (map sn_snapshot_id (snapshots s));
  cr_state : exists id rows, stored ("snap_" ++ b64_encode raw) 0 rs rows /\
    s' = set_snapshot_records (snapshot_records s ++ rows)%list (set_snapshots (snapshots s ++
      [mkSnapshotRow id ("snap_" ++ b64_encode raw) (TrimSpace consumer) VersionV2
         (readAuthoritySourceCursorTx (platform s)) "sha256" (RecordsChecksum rs) (formatTime createdAt)
         (formatTime (createdAt + ttl)) (Z.of_nat (List.length rs)) pageSize true
         (Some (formatTime createdAt))])%list s) }.

Lemma update_snoc_only {R} (p : R -> bool) f (t : list R) r :
  (forall x, In x t -> p x = false) -> p r = true -> update p f (t ++ [r])%list = (t ++ [f r])%list.
Proof.
  intros Ht Hr. unfold update. rewrite map_app. cbn [map]. rewrite Hr. f_equal.
  rewrite <-(List.map_id t) at 2. apply map_ext_in. intros x Hx. by rewrite Ht.
Qed.

Lemma Create_Ok consumer entityKinds ttl pageSize createdAt raw s snap s' :
  CreateReadAuthoritySnapshot consumer entityKinds ttl pageSize createdAt raw s = Ok (snap, s') ->
  exists kinds seed rs raw' page, created s consumer entityKinds ttl createdAt snap s' kinds seed rs raw' page.
Proof.
  unfold CreateReadAuthoritySnapshot. set (page := if pageSize =? 0 then _ else pageSize). intros Hm.
  inv_read. bool_hyps. destruct raw as [raw|]; [|discriminate].
  repeat match goal with E : newReadAuthorityID (Some _) = Ok _ |- _ => unfold newReadAuthorityID in E; apply Ok_inj in E; subst end.
  match goal with E : store_records _ _ _ _ = Ok _ |- _ => apply store_records_Ok in E as (rows & Hrows & ->) end.
  match goal with E : snapshots_ok _ _ = true |- _ => unfold snapshots_ok in E; rename E into Hok end.
  bool_hyps. cbn [sn_snapshot_id] in *.
  match goal with E : fresh _ (snapshots s) = true |- _ => rewrite fresh_spec in E; rename E into Hfresh end.
  clearbody page. eexists _, _, _, raw, page. split; try done.
  - lia.
  - lia.
  - lia.
  - intros (row & Hx & Hin)%in_map_iff. specialize (Hfresh row Hin). by rewrite Hx, String.eqb_refl in Hfresh.
  - eexists _, rows. split; [done|]. unfold set_snapshots, set_snapshot_records.
    cbn [platform schema_migrations snapshots snapshot_records nonces].
    rewrite update_snoc_only; [done| |].
    + intros row Hin. by rewrite (Hfresh row Hin).
    + cbn [sn_snapshot_id sn_complete]. by rewrite String.eqb_refl.
Qed.
End Creation.

(** ** What a created snapshot reads back as *)
Section Back.
Context `{Crypto}.

Lemma created_records s consumer kinds0 ttl t snap s' kinds seed rs raw page :
  created s consumer kinds0 ttl t snap s' kinds seed rs raw page -> records_owned s ->
  forallb record_encodable rs = true -> readReadAuthoritySnapshotRecords s' (SN_SnapshotID snap) = Ok rs.
Proof.
  intros [] Hown He. destruct cr_state0 as (id & rows & Hrows & ->). rewrite cr_snapshot0. cbn [SN_SnapshotID].
  set (sid := "snap_" ++ b64_encode raw) in *. pose proof (stored_rows _ _ _ _ Hrows) as (H1 & _ & H3).
  unfold readReadAuthoritySnapshotRecords. cbn [snapshot_records set_snapshot_records set_snapshots].
  unfold select. rewrite List.filter_app, H1, filter_none.
  - cbn [app]. rewrite sort_by_id by done. apply (read_records_stored sid 0); [done| |done|lia].
    by eapply materialized_valid.
  - intros x Hx%Hown. apply String.eqb_neq. by intros E; rewrite E in Hx.
Qed.

Lemma known_consumer consumer :
  is_ok (ValidateConsumer (TrimSpace consumer)) = true -> valid_utf8 (TrimSpace consumer) = true.
Proof.
  unfold ValidateConsumer, ProductForConsumer. rewrite TrimSpace_idem.
  destruct (String.eqb_spec (TrimSpace consumer) ConsumerCTRL) as [->|_]; [done|].
  by destruct (String.eqb_spec (TrimSpace consumer) ConsumerIMS) as [->|_].
Qed.

Lemma max_id_bound (t : list OutboxRow) :
  (forall r, In r t -> ob_id r <= int64_max) -> 0 <= foldr Z.max 0 (map ob_id t) <= int64_max.
Proof.
  induction t as [|r t IH]; intros Ht; cbn [map foldr]; [unfold int64_max; lia|].
  specialize (Ht r) as Hr. assert (0 <= foldr Z.max 0 (map ob_id t) <= int64_max).
  { apply IH. intros x Hx. apply Ht. by right. }
  specialize (Hr (or_introl eq_refl)). lia.
Qed.
Lemma source_cursor_ok (t : list OutboxRow) :
  (forall r, In r t -> ob_id r <= int64_max) -> is_ok (ParseSourceCursor (SourceCursor (foldr Z.max 0 (map ob_id t)))) = true.
Proof. intros Ht. by rewrite (cursor_reads_back _ (max_id_bound t Ht)). Qed.

Lemma find_last {A} (p : A -> bool) t x : (forall y, In y t -> p y = false) -> p x = true -> find p (t ++ [x])%list = Some x.
Proof.
  intros Ht Hx. induction t as [|y t IH]; cbn; [by rewrite Hx|]. rewrite (Ht y) by (by left). apply IH.
  intros z Hz. apply Ht. by right.
Qed.

Lemma created_metadata s consumer kinds0 ttl t snap s' kinds seed rs raw page :
  created s consumer kinds0 ttl t snap s' kinds seed rs raw page ->
  (forall r, In r (outbox (platform s)) -> ob_id r <= int64_max) ->
  zero_time < t -> four_digit_year t -> four_digit_year (t + ttl) ->
  readReadAuthoritySnapshotMetadata s' (TrimSpace consumer) (SN_SnapshotID snap) = Ok snap.
Proof.
  intros [] Hids Ht Hy Hy'. destruct cr_state0 as (id & rows & _ & ->). rewrite cr_snapshot0. cbn [SN_SnapshotID].
  set (sid := "snap_" ++ b64_encode raw) in *. unfold readReadAuthoritySnapshotMetadata.
  cbn [snapshots set_snapshot_records set_snapshots]. rewrite find_last.
  - cbn [sn_finalized_at sn_created_at sn_expires_at sn_contract_version sn_checksum_algorithm sn_record_count
      sn_page_size sn_source_cursor sn_snapshot_id sn_consumer_key sn_checksum sn_complete].
    rewrite !parse_formatTime by done. unfold readAuthoritySourceCursorTx. rewrite source_cursor_ok by done.
    rewrite !String.eqb_refl. unfold IsZero, After.
    destruct (Z.eqb_spec t zero_time); [lia|]. destruct (Z.eqb_spec (t + ttl) zero_time); [lia|].
    destruct (Z.ltb_spec t (t + ttl)); [|lia]. destruct (Z.ltb_spec (Z.of_nat (List.length rs)) 0); [lia|].
    destruct (Z.ltb_spec readAuthoritySnapshotMaxRows (Z.of_nat (List.length rs))); [lia|].
    destruct (Z.ltb_spec page 1); [lia|]. destruct (Z.ltb_spec readAuthoritySnapshotPageSize page); [lia|].
    cbn [negb orb andb]. by rewrite formatTime_nonempty.
  - intros row Hrow. apply andb_false_iff. right. apply String.eqb_neq. intros E. apply cr_fresh0. rewrite <-E.
    by apply in_map.
  - cbn [sn_consumer_key sn_snapshot_id]. by rewrite !String.eqb_refl.
Qed.

Lemma created_verifies s consumer kinds0 ttl t snap s' kinds seed rs raw page at_ :
  created s consumer kinds0 ttl t snap s' kinds seed rs raw page -> records_owned s ->
  (forall r, In r (outbox (platform s)) -> ob_id r <= int64_max) ->
  zero_time < t -> four_digit_year t -> four_digit_year (t + ttl) -> forallb record_encodable rs = true ->
  at_ < t + ttl ->
  readAndVerifyReadAuthoritySnapshot s' (TrimSpace consumer) (SN_SnapshotID snap) at_ = Ok (snap, rs).
Proof.
  intros Hc Hown Hids Ht Hy Hy' He Hat. unfold readAndVerifyReadAuthoritySnapshot.
  rewrite (created_metadata _ _ _ _ _ _ _ _ _ _ _ _ Hc) by done.
  rewrite (created_records _ _ _ _ _ _ _ _ _ _ _ _ Hc) by done.
  destruct Hc. rewrite cr_snapshot0. cbn [SN_Complete SN_ExpiresAt SN_RecordCount SN_Checksum negb].
  unfold Before. destruct (Z.ltb_spec at_ (t + ttl)); [|lia]. cbn [negb].
  by rewrite Z.eqb_refl, String.eqb_refl.
Qed.

Lemma rows_after_all kind k l : -1 < k -> map snd (rows_after kind (-1) k l) = List.filter (of_kind kind) l.
Proof.
  revert k. induction l as [|r l IH]; intros k Hk; [done|]. unfold rows_after in *. cbn [numbered List.filter fst snd].
  destruct (Z.ltb_spec (-1) k); [|lia]. cbn [andb]. destruct (of_kind kind r); cbn [map snd]; rewrite IH; done || lia.
Qed.

Lemma created_id s consumer kinds0 ttl t snap s' kinds seed rs raw page :
  created s consumer kinds0 ttl t snap s' kinds seed rs raw page ->
  TrimSpace (SN_SnapshotID snap) <> "" /\ valid_utf8 (SN_SnapshotID snap) = true.
Proof.
  intros []. rewrite cr_snapshot0. cbn [SN_SnapshotID].
  assert (forall_bytes printable ("snap_" ++ b64_encode raw) = true) as Hp by (rewrite forall_bytes_app, b64_printable; done).
  split; [by rewrite TrimSpace_id|by apply printable_utf8].
Qed.

(** ** Later operations on the store *)
(** [t] is in a second before that of [e]. *)
Definition before_second (t e : Z) : Prop := four_digit_year t /\ Unix t < Unix e.
(** Other snapshots, reservations, clean-ups before the second of [expiry], and
    whatever the platform does to its own tables. *)
Inductive later (expiry : Z) (s : ReadStore) : ReadStore -> Prop :=
| later_create consumer kinds ttl page createdAt raw snap s' :
    CreateReadAuthoritySnapshot consumer kinds ttl page createdAt raw s = Ok (snap, s') -> later expiry s s'
| later_reserve consumer nonce reservedAt expiresAt s' :
    ReserveReadAuthorityNonce consumer nonce reservedAt expiresAt s = Ok (tt, s') -> later expiry s s'
| later_cleanup consumer at_ n removed s' :
    before_second at_ expiry -> CleanupReadAuthoritySnapshots consumer at_ n s = Ok (removed, s') -> later expiry s s'
| later_platform db : later expiry s
    (mkReadStore db (schema_migrations s) (snapshots s) (snapshot_records s) (nonces s)).

(** The rows of one snapshot. *)
Definition of_snapshot (id : string) (row : SnapshotRow) (rows : list SnapshotRecordRow) (s : ReadStore) : Prop :=
  select (fun r => sn_snapshot_id r =s id) (snapshots s) = [row]
  /\ select (fun r => sc_snapshot_id r =s id) (snapshot_records s) = rows.
Lemma find_selected {R} (p q : R -> bool) t : find (fun r => p r && q r) t = find p (select q t).
Proof.
  unfold select. induction t as [|r t IH]; [done|]. cbn. destruct (q r); cbn; destruct (p r); cbn; congruence.
Qed.
(** A read depends on no other row. *)
Lemma read_same id row rows s s' consumer at_ : of_snapshot id row rows s -> of_snapshot id row rows s' ->
  readAndVerifyReadAuthoritySnapshot s' consumer id at_ = readAndVerifyReadAuthoritySnapshot s consumer id at_.
Proof.
  intros [H1 H2] [H1' H2']. unfold readAndVerifyReadAuthoritySnapshot, readReadAuthoritySnapshotMetadata,
    readReadAuthoritySnapshotRecords. by rewrite !find_selected, H1, H1', H2, H2'.
Qed.
Lemma read_pages_same id row rows s s' fuel consumer kind after limit at_ :
  of_snapshot id row rows s -> of_snapshot id row rows s' ->
  read_pages fuel s' consumer id kind after limit at_ = read_pages fuel s consumer id kind after limit at_.
Proof.
  intros H1 H2. revert after. induction fuel as [|fuel IH]; intros after; [done|]. cbn [read_pages].
  unfold ListReadAuthoritySnapshotRecords. rewrite (read_same id row rows s s') by done.
  destruct (negb _); [done|]. destruct (_ || _); [done|]. destruct (_ && _); [done|].
  destruct (readAndVerifyReadAuthoritySnapshot _ _ _ _) as [[snap rs]|]; [|done].
  destruct (decodeReadAuthorityPageCursor _ _ _); [|done]. destruct (PG_Complete _); [done|]. by rewrite IH.
Qed.
Lemma select_other {A R} (f : R -> string) (g : A -> string) id (t : list R) (l : list A) h :
  (forall x, In x l -> f (h x) = g x /\ g x <> id) ->
  select (fun r => f r =s id) (t ++ map h l)%list = select (fun r => f r =s id) t.
Proof.
  intros Hl. unfold select. rewrite List.filter_app, (filter_none _ (map h l)); [apply app_nil_r|].
  intros r (x & <- & Hx)%in_map_iff. destruct (Hl x Hx) as [-> Hne]. by apply String.eqb_neq.
Qed.
Lemma later_keeps id row rows expiry s s' : four_digit_year expiry -> sn_expires_at row = formatTime expiry ->
  of_snapshot id row rows s -> later expiry s s' -> of_snapshot id row rows s'.
Proof.
  intros He Hrow [H1 H2] [consumer kinds ttl page createdAt raw snap s1 Hc|consumer nonce r e s1 Hc|consumer at_ n k s1 Ht Hc|db].
  - apply Create_Ok in Hc as (kinds' & seed & rs & raw' & page' & []).
    assert (id <> "snap_" ++ b64_encode raw') as Hid.
    { intros ->. apply cr_fresh0. apply in_map_iff.
      assert (In row (select (fun r => sn_snapshot_id r =s "snap_" ++ b64_encode raw') (snapshots s))) as Hin by (rewrite H1; by left).
      apply filter_In in Hin as [Hin Hs%String.eqb_eq]. by exists row. }
    destruct cr_state0 as (i & rows' & Hst & ->). split; cbn [snapshots snapshot_records set_snapshots set_snapshot_records].
    + rewrite <-H1. apply (select_other sn_snapshot_id sn_snapshot_id id (snapshots s) [_] (fun x => x)). by intros x [<-|[]].
    + rewrite <-H2, <-(List.map_id rows'). apply (select_other sc_snapshot_id sc_snapshot_id). intros x Hx. split; [done|].
      apply stored_rows in Hst as (Hf & _). rewrite <-Hf in Hx. apply filter_In in Hx as [_ Hx%String.eqb_eq]. congruence.
  - unfold ReserveReadAuthorityNonce in Hc. inv_read. by split.
  - unfold CleanupReadAuthoritySnapshots in Hc. inv_read. cbn [snapshots snapshot_records set_snapshots set_snapshot_records].
    match goal with |- context [one_of _ (map sn_snapshot_id (limit n ?l))] => set (doomed := map sn_snapshot_id (limit n l)) end.
    assert (one_of id doomed = false) as Hkept.
    { apply not_true_is_false. intros (r & Hr & Hin%in_firstn)%one_of_In%in_map_iff. apply in_sort_by, filter_In in Hin as [Hin Hp].
      apply andb_true_iff in Hp as [_ Hp]. assert (In r (select (fun r => sn_snapshot_id r =s id) (snapshots s))) as Hr'.
      { apply filter_In. split; [done|]. by apply String.eqb_eq. }
      rewrite H1 in Hr'. destruct Hr' as [->|[]]. rewrite Hrow in Hp. destruct Ht as [Hy Hlt]. unfold text_le in Hp.
      by rewrite (formatTime_order at_ expiry) in Hp. }
    assert (forall R (f : R -> string) (t : list R),
      select (fun r => f r =s id) (delete_rows (fun r => one_of (f r) doomed) t) = select (fun r => f r =s id) t) as Hsel.
    { intros R f t. unfold select, delete_rows. induction t as [|r t IH]; [done|]. cbn.
      destruct (String.eqb_spec (f r) id) as [E|E].
      - rewrite E, Hkept. cbn. by rewrite E, String.eqb_refl, IH.
      - destruct (one_of (f r) doomed); cbn; [done|]. by rewrite (proj2 (String.eqb_neq _ _) E). }
    split; cbn [snapshots snapshot_records set_snapshots set_snapshot_records]; by rewrite Hsel.
  - by split.
Qed.
Lemma created_holds s consumer kinds0 ttl t snap s' kinds seed rs raw page :
  created s consumer kinds0 ttl t snap s' kinds seed rs raw page -> records_owned s ->
  exists row rows, of_snapshot (SN_SnapshotID snap) row rows s' /\ sn_expires_at row = formatTime (t + ttl).
Proof.
  intros [] Hown. destruct cr_state0 as (id & rows & Hst & ->). rewrite cr_snapshot0. cbn [SN_SnapshotID].
  eexists _, rows. split; [split|]; cbn [snapshots snapshot_records set_snapshots set_snapshot_records].
  - unfold select. rewrite List.filter_app, filter_none; [cbn; by rewrite String.eqb_refl|].
    intros x Hx. apply String.eqb_neq. intros E. apply cr_fresh0. rewrite <-E. by apply in_map.
  - unfold select. rewrite List.filter_app, filter_none; [by apply stored_rows in Hst as (-> & _)|].
    intros x Hx%Hown. apply String.eqb_neq. intros E. by rewrite E in Hx.
  - done.
Qed.

(** C25: a snapshot is what the database was. The records of a created snapshot are
    those materialised from the Platform tables, all valid under the contract. If
    their texts are UTF-8 and their numbers fit the JSON (the store takes names that
    are not, and such a snapshot never reads back), then until it expires the store
    returns its metadata unchanged, and a client that follows the page cursors, for any
    kind and any page size, gets exactly those records, in order, each once, and then
    stops: whatever other snapshots are created, nonces reserved and Platform records
    changed meanwhile, and whatever clean-ups run before the second of its expiry. *)
Theorem snapshot_reads_back consumer entityKinds ttl pageSize createdAt raw s snap s' :
  records_owned s -> (forall r, In r (outbox (platform s)) -> ob_id r <= int64_max) ->
  zero_time < createdAt -> four_digit_year createdAt -> four_digit_year (createdAt + ttl) ->
  CreateReadAuthoritySnapshot consumer entityKinds ttl pageSize createdAt raw s = Ok (snap, s') ->
  exists kinds seed rs,
    validateReadAuthorityKinds entityKinds = Ok kinds /\ readAuthorityMigrationSeedTx s = Ok seed /\
    materializeReadAuthorityRecordsTx (platform s) kinds seed = Ok rs /\
    Forall record_valid rs /\
    (forallb record_encodable rs = true ->
     forall s'' at_, rtc (later (createdAt + ttl)) s' s'' -> at_ <> zero_time -> at_ < createdAt + ttl ->
     GetReadAuthoritySnapshot s'' consumer (SN_SnapshotID snap) at_ = Ok snap /\
     forall kind limit, kind = "" \/ is_ok (ValidateEntityKind kind) = true ->
       1 <= limit <= readAuthoritySnapshotPageSize ->
       read_pages (S (List.length rs)) s'' consumer (SN_SnapshotID snap) kind "" limit at_
       = Ok (List.filter (of_kind kind) rs)).
Proof.
  intros Hown Hids Ht Hy Hy' Hm. apply Create_Ok in Hm as (kinds & seed & rs & raw' & page & Hc).
  exists kinds, seed, rs. do 3 (split; [by destruct Hc|]).
  split; [destruct Hc; by eapply materialized_valid|]. intros He s'' at_ Hlater Hz Hat.
  destruct (created_holds _ _ _ _ _ _ _ _ _ _ _ _ Hc Hown) as (row & rows & Hs' & Hexp).
  assert (of_snapshot (SN_SnapshotID snap) row rows s'') as Hs''.
  { clear -Hlater Hs' Hexp Hy'. induction Hlater as [|s0 s1 s2 Hstep _ IH]; [done|]. apply IH. by eapply later_keeps. }
  pose proof (created_verifies _ _ _ _ _ _ _ _ _ _ _ _ at_ Hc Hown Hids Ht Hy Hy' He Hat) as Hv.
  pose proof (created_id _ _ _ _ _ _ _ _ _ _ _ _ Hc) as [Hid Hutf]. destruct Hc.
  assert (SN_RecordCount snap = Z.of_nat (List.length rs)) as Hn by (by rewrite cr_snapshot0).
  split.
  - unfold GetReadAuthoritySnapshot. rewrite cr_consumer_ok0, (read_same _ row rows s' s''), Hv, Hn, Z.eqb_refl by done. cbn [negb].
    apply String.eqb_neq in Hid. rewrite Hid. unfold IsZero. by destruct (Z.eqb_spec at_ zero_time).
  - intros kind limit Hk Hl. rewrite (read_pages_same _ row rows s' s''), <-(rows_after_all kind 0 rs) by (done || lia).
    apply (read_pages_from _ _ _ _ _ _ _ _ snap rs); try done.
    + by rewrite cr_snapshot0; apply known_consumer.
    + unfold readAuthoritySnapshotMaxRows, SnapshotMaxRecords in *. unfold int64_max. lia.
    + pose proof (f_equal (@List.length _) (rows_after_all kind 0 rs ltac:(lia))) as El. rewrite length_map in El.
      rewrite El. pose proof (List.filter_length_le (of_kind kind) rs). lia.
Qed.
End Back.

(** ** Nonces *)
Definition reservation := (string * string * Z * Z)%type.
Definition reserve (x : reservation) : St ReadStore error unit :=
  let '(consumer, nonce, reservedAt, expiresAt) := x in ReserveReadAuthorityNonce consumer nonce reservedAt expiresAt.
Definition reserve_all (xs : list reservation) (s : ReadStore) : ReadStore :=
  fold_left (fun s x => snd (exec (reserve x) s)) xs s.

(** The reservation of a nonce until [e] is on file. *)
Definition held (consumer nonce : string) (e : Z) (s : ReadStore) : Prop :=
  exists row, In row (nonces s) /\ no_consumer_key row = consumer /\ no_nonce row = nonce
    /\ no_expires_at row = formatTime e.

Lemma kept_row row e t :
  four_digit_year e -> before_second t e -> no_expires_at row = formatTime e ->
  text_le (no_expires_at row) (formatTime t) = false.
Proof.
  intros He [Ht Hlt] ->. unfold text_le. apply negb_false_iff.
  by rewrite (formatTime_order t e).
Qed.

Lemma in_delete {R} (p : R -> bool) t x : In x t -> p x = false -> In x (delete_rows p t).
Proof. intros Hx Hp. unfold delete_rows. apply List.filter_In. by rewrite Hp. Qed.

Lemma reserve_keeps c n e c' n' t e' s :
  four_digit_year e -> before_second t e -> held c n e s ->
  held c n e (snd (exec (ReserveReadAuthorityNonce c' n' t e') s)).
Proof.
  intros He Ht (row & Hin & Hc & Hn & Hx). unfold exec.
  destruct (ReserveReadAuthorityNonce c' n' t e' s) as [[u s']|] eqn:E; cbn [snd]; [|by exists row].
  unfold ReserveReadAuthorityNonce in E. inv_read. exists row. split; [|done].
  cbn [nonces set_nonces]. apply in_or_app. left. apply in_delete; [done|]. by apply (kept_row row e t).
Qed.

Lemma reserve_all_keeps c n e xs s :
  four_digit_year e -> Forall (fun x : reservation => before_second x.1.2 e) xs ->
  held c n e s -> held c n e (reserve_all xs s).
Proof.
  intros He Hxs. revert s. induction Hxs as [|[[[c' n'] t] e'] xs Hx Hxs IH]; intros s Hs; [done|].
  cbn [reserve_all fold_left]. apply IH. by apply reserve_keeps.
Qed.

Lemma Reserve_platform c n t e st u st' :
  ReserveReadAuthorityNonce c n t e st = Ok (u, st') -> platform st' = platform st.
Proof. unfold ReserveReadAuthorityNonce. intros E. by inv_read. Qed.
Lemma reserved_holds c n r e s u s' :
  ReserveReadAuthorityNonce c n r e s = Ok (u, s') -> held (TrimSpace c) (TrimSpace n) e s'.
Proof.
  unfold ReserveReadAuthorityNonce. intros E. inv_read. eexists.
  split; [cbn [nonces set_nonces]; apply in_or_app; right; by left|done].
Qed.

Lemma held_replays c n e t e' s :
  four_digit_year e -> before_second t e -> held (TrimSpace c) (TrimSpace n) e s ->
  ReserveReadAuthorityNonce c n t e' s =
    Err (Sentinel (if nonce_request_ok (TrimSpace c) (TrimSpace n) t e' then ErrReadAuthorityNonceReplay
                   else ErrInvalidReadAuthorityNonce)).
Proof.
  intros He Ht (row & Hin & Hc & Hn & Hx). unfold ReserveReadAuthorityNonce.
  destruct (nonce_request_ok _ _ _ _); [|done].
  rewrite require_true. unfold bind at 1. cbn [modify]. rewrite bind_reads. cbn [nonces set_nonces].
  assert (existsb (fun r => (no_consumer_key r =s TrimSpace c) && (no_nonce r =s TrimSpace n))
    (delete_rows (fun r => text_le (no_expires_at r) (formatTime t)) (nonces s)) = true) as ->; [|done].
  apply existsb_exists. exists row. split; [|by rewrite Hc, Hn, !String.eqb_refl].
  apply in_delete; [done|]. by apply (kept_row row e t).
Qed.

(** C27: a nonce is accepted once. After a consumer reserved a nonce until [e],
    and whatever reservations by anyone follow, no attempt to reserve it again
    in a second before that of [e] succeeds; a well-formed one is refused as a
    replay. *)
Theorem nonce_single_use c n r e s u s' xs c' n' t e' :
  four_digit_year e -> ReserveReadAuthorityNonce c n r e s = Ok (u, s') ->
  Forall (fun x : reservation => before_second x.1.2 e) xs ->
  TrimSpace c' = TrimSpace c -> TrimSpace n' = TrimSpace n -> before_second t e ->
  fst (exec (ReserveReadAuthorityNonce c' n' t e') (reserve_all xs s')) =
    Err (Sentinel (if negb (IsZero t || IsZero e') && After e' t then ErrReadAuthorityNonceReplay
                   else ErrInvalidReadAuthorityNonce)).
Proof.
  intros He Hr Hxs Hc Hn Ht. pose proof (reserved_holds _ _ _ _ _ _ _ Hr) as Hh.
  apply (reserve_all_keeps _ _ _ xs) in Hh; [|done..]. rewrite <-Hc, <-Hn in Hh.
  unfold exec. rewrite (held_replays c' n' e t e' _ He Ht Hh). cbn [fst]. do 3 f_equal.
  unfold ReserveReadAuthorityNonce in Hr. inv_read. unfold nonce_request_ok in *. rewrite Hc, Hn. bool_hyps.
  repeat match goal with E : (_ =s "") = false |- _ => rewrite E; clear E
                    | E : (_ <? len _) = false |- _ => rewrite E; clear E end.
  cbn [orb]. by rewrite negb_orb, negb_involutive.
Qed.

(** ** Witnesses *)
Definition sample_hash (s : string) : string :=
  let fix go (s : string) (h : Z) := match s with "" => h | String c s => go s ((h * 131 + byte_code c) mod 1000003) end in
  fit 32 (FormatInt (go s 7) ++ "0123456789abcdef0123456789abcdef").
Definition sample_crypto : Crypto := {|
  sha256 := sample_hash; hmac_sha256 := fun _ m => sample_hash m; hmac_sha1 := fun _ m => fit 20 m;
  gcm_seal := fun _ _ p => p; gcm_open := fun _ _ c => Some c;
  bcrypt_generate := fun p _ _ => Ok p; bcrypt_compare := String.eqb |}.
Definition sample_time : Z := 1700000000 * Second.
Definition sample_store (db : DB) : ReadStore :=
  mkReadStore db [mkMigrationRow 6 "products" sample_digest] [] [] [].
Definition sample_snapshot :=
  CreateReadAuthoritySnapshot (H:=sample_crypto) "tockrims" ["product"; "user"] Hour 1 sample_time (Some "0123456789abcdefgh")
    (sample_store empty_db).

(** The store after it, after another snapshot taken a second later, and after a
    clean-up, which removes that one. *)
Definition sample_second_snapshot :=
  CreateReadAuthoritySnapshot (H:=sample_crypto) "tockrims" ["user"] Second 1 (sample_time + Second)
    (Some "9876543210abcdefgh").
Definition sample_cleanup := CleanupReadAuthoritySnapshots "tockrims" (sample_time + 2 * Second) 10.
Definition sample_s1 : ReadStore := Eval vm_compute in
  match sample_snapshot with Ok (_, s) => s | Err _ => sample_store empty_db end.
Definition sample_s2 : ReadStore := Eval vm_compute in snd (exec sample_second_snapshot sample_s1).
Definition sample_s3 : ReadStore := Eval vm_compute in snd (exec sample_cleanup sample_s2).
Lemma sample_s2_run : exists snap, sample_second_snapshot sample_s1 = Ok (snap, sample_s2).
Proof. eexists. vm_compute. reflexivity. Qed.
Lemma sample_s3_run : sample_cleanup sample_s2 = Ok (1, sample_s3).
Proof. vm_compute. reflexivity. Qed.
Lemma sample_later : rtc (@later sample_crypto (sample_time + Hour)) sample_s1 sample_s3.
Proof.
  destruct sample_s2_run as [snap Hs]. apply (rtc_l _ _ sample_s2).
  { unfold sample_second_snapshot in Hs. revert Hs. generalize sample_s1 sample_s2. intros s1 s2 Hs. eapply later_create. exact Hs. }
  clear Hs. apply rtc_once. pose proof sample_s3_run as Hs. unfold sample_cleanup in Hs. revert Hs. generalize sample_s2 sample_s3.
  intros s2 s3 Hs. eapply later_cleanup; [|exact Hs].
  split; [vm_compute; split; [discriminate|reflexivity]|vm_compute; reflexivity].
Qed.
Theorem snapshot_reads_back_witness :
  exists snap s', sample_snapshot = Ok (snap, s') /\
  exists rs, map Rec_ID rs = ["product.tockrctrl"; "product.tockrims"] /\
    GetReadAuthoritySnapshot (H:=sample_crypto) sample_s3 "tockrims" (SN_SnapshotID snap) (sample_time + 3 * Second) = Ok snap /\
    read_pages (H:=sample_crypto) (S (List.length rs)) sample_s3 "tockrims" (SN_SnapshotID snap) "product" "" 1
      (sample_time + 3 * Second)
    = Ok (List.filter (of_kind "product") rs).
Proof.
  destruct sample_snapshot as [[snap s']|] eqn:E; [|vm_compute in E; discriminate E].
  exists snap, s'. split; [reflexivity|].
  destruct (snapshot_reads_back (H:=sample_crypto) "tockrims" ["product"; "user"] Hour 1 sample_time
    (Some "0123456789abcdefgh") (sample_store empty_db) snap s') as (kinds & seed & rs & Hk & Hseed & Hrs & _ & Hread).
  - intros x [].
  - intros r [].
  - vm_compute. reflexivity.
  - vm_compute. split; [discriminate|reflexivity].
  - vm_compute. split; [discriminate|reflexivity].
  - exact E.
  - exists rs. vm_compute in Hk. injection Hk as <-. vm_compute in Hseed. injection Hseed as <-.
    vm_compute in Hrs. injection Hrs as <-. split; [reflexivity|].
    assert (s' = sample_s1) as -> by (vm_compute in E; injection E as _ <-; reflexivity).
    destruct (Hread eq_refl sample_s3 (sample_time + 3 * Second) sample_later) as [Hget Hpages];
      [vm_compute; discriminate|vm_compute; reflexivity|].
    split; [exact Hget|]. apply (Hpages "product" 1).
    + right. reflexivity.
    + vm_compute. split; discriminate.
Defined.

Definition sample_reservations : list reservation :=
  [("tockrctrl", "n1", sample_time + Second, sample_time + 9 * Second);
   ("tockrims", "n2", sample_time + 2 * Second, sample_time + 9 * Second)].
Theorem nonce_single_use_witness :
  exists s', ReserveReadAuthorityNonce "tockrims" "n1" sample_time (sample_time + 5 * Second) (sample_store empty_db) = Ok (tt, s')
    /\ fst (exec (ReserveReadAuthorityNonce " tockrims" "n1" (sample_time + 3 * Second) (sample_time + 8 * Second))
        (reserve_all sample_reservations s')) = Err (Sentinel ErrReadAuthorityNonceReplay).
Proof.
  destruct (ReserveReadAuthorityNonce "tockrims" "n1" sample_time (sample_time + 5 * Second) (sample_store empty_db))
    as [[[] s']|] eqn:E; [|vm_compute in E; discriminate E].
  exists s'. split; [reflexivity|].
  rewrite (nonce_single_use "tockrims" "n1" sample_time (sample_time + 5 * Second) (sample_store empty_db) tt s'
    sample_reservations " tockrims" "n1" (sample_time + 3 * Second) (sample_time + 8 * Second)).
  - vm_compute. reflexivity.
  - vm_compute. split; [discriminate|reflexivity].
  - exact E.
  - repeat constructor; vm_compute; split || reflexivity || discriminate.
  - vm_compute. reflexivity.
  - reflexivity.
  - vm_compute. repeat split; discriminate.
Defined.

(** The condition on texts is needed: the store accepts an organisation whose
    name is not UTF-8 (here the byte 0xFF), and a snapshot with it is created but
    never verifies, because json.Marshal escapes the byte once and writes the
    replacement character it reads back in another way. *)
Definition sample_bad_db : DB :=
  snd (exec (CreateOrganisation "usr_1" (mkOrganisation "org_2" (String (byte_of 255) "") "" 0 None) "setup"
    (3 * Second) (sample_rs "z")) sample_org_db).
Example invalid_name_unreadable :
  match CreateReadAuthoritySnapshot (H:=sample_crypto) "tockrims" ["organisation"] Hour 1 sample_time
          (Some "0123456789abcdefgh") (sample_store sample_bad_db) with
  | Ok (snap, s') =>
      GetReadAuthoritySnapshot (H:=sample_crypto) s' "tockrims" (SN_SnapshotID snap) sample_time
      = Err (Sentinel ErrReadAuthorityChecksumMismatch)
  | Err _ => False
  end.
Proof. vm_compute. reflexivity. Qed.
