(* ===== verification/Migrations.v ===== *)
(** Opening the store: internal/db/sqlite/store.go. The migrations of the schema
    as the source lists them, and the runner that brings a database file to the
    newest of them. What SQLite makes of a statement is a parameter, a function
    of the text; the machine may refuse any statement at any time. *)
From stdpp Require Import base tactics option list strings relations sorting.
From Stdlib Require Import ZArith Lia Ascii String.
From S2P Require Import Prelude GoStrings GoTime Codec Errors Domain Schema Auth Identity Snapshot SnapshotLaws.

Local Open Scope string_scope.
Local Open Scope Z_scope.

(** ** The migrations *)
Record migration := mkMigration { mi_version : Z; mi_name : string; mi_statements : list string }.
Definition migration_1 : migration := mkMigration 1 "identity-authentication-foundation"
  ["CREATE TABLE users (
				id INTEGER PRIMARY KEY,
				public_id TEXT NOT NULL UNIQUE,
				email TEXT NOT NULL UNIQUE COLLATE NOCASE,
				display_name TEXT NOT NULL,
				password_hash TEXT NOT NULL,
				active INTEGER NOT NULL DEFAULT 1 CHECK(active IN (0,1)),
				created_at TEXT NOT NULL,
				last_login_at TEXT
			)";
   "CREATE TABLE sessions (
				id INTEGER PRIMARY KEY,
				user_id INTEGER NOT NULL REFERENCES users(id) ON DELETE CASCADE,
				token_hash TEXT NOT NULL UNIQUE,
				csrf_token_hash TEXT NOT NULL,
				created_at TEXT NOT NULL,
				expires_at TEXT NOT NULL,
				revoked_at TEXT
			)";
   "CREATE INDEX sessions_active_token_idx ON sessions(token_hash, expires_at, revoked_at)";
   "CREATE TABLE security_events (
				id INTEGER PRIMARY KEY,
				user_id INTEGER REFERENCES users(id) ON DELETE SET NULL,
				event TEXT NOT NULL,
				details TEXT NOT NULL DEFAULT '',
				occurred_at TEXT NOT NULL
			)";
   "CREATE INDEX security_events_user_time_idx ON security_events(user_id, occurred_at)"].
Definition migration_2 : migration := mkMigration 2 "sessions-mfa-recovery"
  ["ALTER TABLE users ADD COLUMN mfa_enabled INTEGER NOT NULL DEFAULT 0 CHECK(mfa_enabled IN (0,1))";
   "ALTER TABLE users ADD COLUMN mfa_secret_ciphertext BLOB";
   "ALTER TABLE users ADD COLUMN mfa_last_step INTEGER NOT NULL DEFAULT -1";
   "CREATE TABLE mfa_enrollments (
					id INTEGER PRIMARY KEY,
					user_id INTEGER NOT NULL REFERENCES users(id) ON DELETE CASCADE,
					token_hash TEXT NOT NULL UNIQUE,
					secret_ciphertext BLOB NOT NULL,
					expires_at TEXT NOT NULL,
					attempts INTEGER NOT NULL DEFAULT 0,
					created_at TEXT NOT NULL,
					used_at TEXT
				)";
   "CREATE INDEX mfa_enrollments_expiry_idx ON mfa_enrollments(expires_at, used_at)";
   "CREATE TABLE mfa_recovery_codes (
					id INTEGER PRIMARY KEY,
					user_id INTEGER NOT NULL REFERENCES users(id) ON DELETE CASCADE,
					code_hash TEXT NOT NULL,
					created_at TEXT NOT NULL,
					used_at TEXT
				)";
   "CREATE INDEX mfa_recovery_active_idx ON mfa_recovery_codes(user_id, used_at)";
   "CREATE INDEX sessions_expiry_idx ON sessions(expires_at, revoked_at)"].
Definition migration_3 : migration := mkMigration 3 "organisation-authority"
  ["CREATE TABLE organisations (
					id INTEGER PRIMARY KEY,
					public_id TEXT NOT NULL UNIQUE,
					name TEXT NOT NULL,
					status TEXT NOT NULL CHECK(status IN ('active','archived')),
					created_at TEXT NOT NULL,
					archived_at TEXT
				)";
   "CREATE TABLE organisation_memberships (
					id INTEGER PRIMARY KEY,
					public_id TEXT NOT NULL UNIQUE,
					organisation_id INTEGER NOT NULL REFERENCES organisations(id),
					user_id INTEGER NOT NULL REFERENCES users(id),
					role TEXT NOT NULL CHECK(role IN ('owner','admin','member')),
					active INTEGER NOT NULL DEFAULT 1 CHECK(active IN (0,1)),
					assigned_by INTEGER NOT NULL REFERENCES users(id),
					assigned_at TEXT NOT NULL,
					removed_by INTEGER REFERENCES users(id),
					removed_at TEXT,
					removal_reason TEXT NOT NULL DEFAULT ''
				)";
   "CREATE UNIQUE INDEX organisation_memberships_current_idx ON organisation_memberships(organisation_id,user_id) WHERE active=1";
   "CREATE UNIQUE INDEX organisation_memberships_owner_idx ON organisation_memberships(organisation_id) WHERE active=1 AND role='owner'";
   "CREATE INDEX organisation_memberships_scope_idx ON organisation_memberships(organisation_id,user_id,active,role)";
   "CREATE TABLE audit_events (
					id INTEGER PRIMARY KEY,
					actor_user_id INTEGER NOT NULL REFERENCES users(id),
					aggregate_type TEXT NOT NULL,
					aggregate_id TEXT NOT NULL,
					event TEXT NOT NULL,
					details TEXT NOT NULL DEFAULT '',
					occurred_at TEXT NOT NULL
				)";
   "CREATE INDEX audit_events_aggregate_time_idx ON audit_events(aggregate_type,aggregate_id,occurred_at,id)"].
Definition migration_4 : migration := mkMigration 4 "organisation-administration-authority"
  ["CREATE TABLE system_role_assignments (
					id INTEGER PRIMARY KEY,
					user_id INTEGER NOT NULL REFERENCES users(id),
					role TEXT NOT NULL CHECK(role='system_admin'),
					active INTEGER NOT NULL DEFAULT 1 CHECK(active IN (0,1)),
					assigned_by INTEGER NOT NULL REFERENCES users(id),
					assigned_at TEXT NOT NULL,
					revoked_by INTEGER REFERENCES users(id),
					revoked_at TEXT,
					revocation_reason TEXT NOT NULL DEFAULT ''
				)";
   "CREATE UNIQUE INDEX system_role_assignments_current_idx ON system_role_assignments(user_id,role) WHERE active=1";
   "CREATE INDEX system_role_assignments_active_idx ON system_role_assignments(user_id,active,role)"].
Definition migration_5 : migration := mkMigration 5 "workspace-authority"
  ["CREATE TABLE workspaces (
					id INTEGER PRIMARY KEY,
					public_id TEXT NOT NULL UNIQUE,
					organisation_id INTEGER NOT NULL REFERENCES organisations(id),
					name TEXT NOT NULL,
					status TEXT NOT NULL CHECK(status IN ('active','archived')),
					created_at TEXT NOT NULL,
					archived_at TEXT
				)";
   "CREATE INDEX workspaces_organisation_status_idx ON workspaces(organisation_id,status,public_id)";
   "CREATE TABLE workspace_memberships (
					id INTEGER PRIMARY KEY,
					public_id TEXT NOT NULL UNIQUE,
					workspace_id INTEGER NOT NULL REFERENCES workspaces(id),
					user_id INTEGER NOT NULL REFERENCES users(id),
					role TEXT NOT NULL CHECK(role IN ('admin','member','viewer')),
					active INTEGER NOT NULL DEFAULT 1 CHECK(active IN (0,1)),
					assigned_by INTEGER NOT NULL REFERENCES users(id),
					assigned_at TEXT NOT NULL,
					removed_by INTEGER REFERENCES users(id),
					removed_at TEXT,
					removal_reason TEXT NOT NULL DEFAULT ''
				)";
   "CREATE UNIQUE INDEX workspace_memberships_current_idx ON workspace_memberships(workspace_id,user_id) WHERE active=1";
   "CREATE INDEX workspace_memberships_scope_idx ON workspace_memberships(workspace_id,user_id,active,role)"].
Definition migration_6 : migration := mkMigration 6 "product-catalogue-organisation-entitlements"
  ["CREATE TABLE products (
					product_key TEXT PRIMARY KEY CHECK(length(product_key)>8 AND substr(product_key,1,8)='product.'),
					display_name TEXT NOT NULL CHECK(length(trim(display_name))>0 AND length(display_name)<=200),
					status TEXT NOT NULL CHECK(status IN ('active','retired')),
					created_at TEXT NOT NULL,
					retired_at TEXT,
					CHECK((status='active' AND retired_at IS NULL) OR (status='retired' AND retired_at IS NOT NULL))
				)";
   "INSERT INTO products(product_key,display_name,status,created_at) VALUES
					('product.tockrctrl','TockrCTRL','active','2026-09-16T00:00:00Z'),
					('product.tockrims','TockrIMS','active','2026-09-16T00:00:00Z')";
   "CREATE TABLE organisation_product_entitlements (
					id INTEGER PRIMARY KEY,
					public_id TEXT NOT NULL UNIQUE,
					organisation_id INTEGER NOT NULL REFERENCES organisations(id),
					product_key TEXT NOT NULL REFERENCES products(product_key),
					status TEXT NOT NULL CHECK(status IN ('active','revoked')),
					granted_by INTEGER NOT NULL REFERENCES users(id),
					granted_at TEXT NOT NULL,
					revoked_by INTEGER REFERENCES users(id),
					revoked_at TEXT,
					revocation_reason TEXT NOT NULL DEFAULT '',
					CHECK((status='active' AND revoked_by IS NULL AND revoked_at IS NULL AND revocation_reason='') OR
						(status='revoked' AND revoked_by IS NOT NULL AND revoked_at IS NOT NULL AND length(trim(revocation_reason))>0))
				)";
   "CREATE UNIQUE INDEX organisation_product_entitlements_current_idx ON organisation_product_entitlements(organisation_id,product_key) WHERE status='active'";
   "CREATE INDEX organisation_product_entitlements_scope_idx ON organisation_product_entitlements(organisation_id,product_key,status,granted_at,id)"].
Definition migration_7 : migration := mkMigration 7 "user-product-assignments"
  ["CREATE TABLE user_product_assignments (
					id INTEGER PRIMARY KEY,
					public_id TEXT NOT NULL UNIQUE,
					user_id INTEGER NOT NULL REFERENCES users(id),
					organisation_id INTEGER NOT NULL REFERENCES organisations(id),
					product_key TEXT NOT NULL REFERENCES products(product_key),
					status TEXT NOT NULL CHECK(status IN ('active','revoked')),
					assigned_by INTEGER NOT NULL REFERENCES users(id),
					assigned_at TEXT NOT NULL,
					revoked_by INTEGER REFERENCES users(id),
					revoked_at TEXT,
					revocation_reason TEXT NOT NULL DEFAULT '',
					CHECK((status='active' AND revoked_by IS NULL AND revoked_at IS NULL AND revocation_reason='') OR
						(status='revoked' AND revoked_by IS NOT NULL AND revoked_at IS NOT NULL AND length(trim(revocation_reason))>0))
				)";
   "CREATE UNIQUE INDEX user_product_assignments_current_idx ON user_product_assignments(user_id,organisation_id,product_key) WHERE status='active'";
   "CREATE INDEX user_product_assignments_scope_idx ON user_product_assignments(organisation_id,user_id,product_key,status,assigned_at,id)"].
Definition migration_8 : migration := mkMigration 8 "platform-event-outbox"
  ["CREATE TABLE platform_outbox (
					id INTEGER PRIMARY KEY,
					event_id TEXT NOT NULL UNIQUE,
					event_type TEXT NOT NULL,
					aggregate_type TEXT NOT NULL CHECK(aggregate_type IN ('User','Organisation','Workspace','Product','Access')),
					aggregate_id TEXT NOT NULL,
					sequence INTEGER NOT NULL CHECK(sequence>0),
					schema_version INTEGER NOT NULL CHECK(schema_version=1),
					occurred_at TEXT NOT NULL,
					payload TEXT NOT NULL CHECK(length(payload)>1 AND length(payload)<=4096),
					published_at TEXT,
					UNIQUE(aggregate_type,aggregate_id,sequence)
				)";
   "CREATE INDEX platform_outbox_pending_idx ON platform_outbox(published_at,id)";
   "CREATE INDEX platform_outbox_aggregate_idx ON platform_outbox(aggregate_type,aggregate_id,sequence)"].
Definition migration_9 : migration := mkMigration 9 "platform-projection-inbox"
  ["CREATE TABLE platform_projection_inbox (
					id INTEGER PRIMARY KEY,
					consumer_key TEXT NOT NULL CHECK(length(trim(consumer_key))>0 AND length(consumer_key)<=100),
					event_id TEXT NOT NULL,
					event_type TEXT NOT NULL CHECK(length(event_type)>0 AND length(event_type)<=200),
					aggregate_type TEXT NOT NULL CHECK(length(aggregate_type)>0 AND length(aggregate_type)<=50),
					aggregate_id TEXT NOT NULL CHECK(length(aggregate_id)>0 AND length(aggregate_id)<=200),
					sequence INTEGER NOT NULL CHECK(sequence>0),
					schema_version INTEGER NOT NULL CHECK(schema_version>0),
					occurred_at TEXT NOT NULL,
					payload TEXT NOT NULL CHECK(length(payload)>1 AND length(payload)<=4096),
					state TEXT NOT NULL CHECK(state IN ('pending','applied','gap','stale','blocked')),
					reason TEXT NOT NULL DEFAULT '' CHECK(length(reason)<=500),
					received_at TEXT NOT NULL,
					applied_at TEXT,
					UNIQUE(consumer_key,event_id),
					CHECK((state='applied' AND applied_at IS NOT NULL) OR (state<>'applied' AND applied_at IS NULL))
				)";
   "CREATE INDEX platform_projection_inbox_order_idx ON platform_projection_inbox(consumer_key,aggregate_type,aggregate_id,sequence,id)";
   "CREATE INDEX platform_projection_inbox_state_idx ON platform_projection_inbox(consumer_key,state,id)";
   "CREATE TABLE platform_projection_checkpoints (
					id INTEGER PRIMARY KEY,
					consumer_key TEXT NOT NULL CHECK(length(trim(consumer_key))>0 AND length(consumer_key)<=100),
					aggregate_type TEXT NOT NULL CHECK(length(aggregate_type)>0 AND length(aggregate_type)<=50),
					aggregate_id TEXT NOT NULL CHECK(length(aggregate_id)>0 AND length(aggregate_id)<=200),
					last_sequence INTEGER NOT NULL CHECK(last_sequence>=0),
					last_event_id TEXT NOT NULL DEFAULT '',
					state TEXT NOT NULL CHECK(state IN ('current','stale','gap','blocked','unavailable')),
					reason TEXT NOT NULL DEFAULT '' CHECK(length(reason)<=500),
					updated_at TEXT NOT NULL,
					UNIQUE(consumer_key,aggregate_type,aggregate_id)
				)";
   "CREATE INDEX platform_projection_checkpoint_state_idx ON platform_projection_checkpoints(consumer_key,state,updated_at)"].
Definition migration_10 : migration := mkMigration 10 "platform-read-authority-snapshots"
  ["CREATE TABLE platform_read_authority_snapshots (
					id INTEGER PRIMARY KEY,
					snapshot_id TEXT NOT NULL UNIQUE CHECK(length(snapshot_id)>5 AND substr(snapshot_id,1,5)='snap_'),
					consumer_key TEXT NOT NULL CHECK(length(trim(consumer_key))>0 AND length(consumer_key)<=100),
					contract_version TEXT NOT NULL CHECK(contract_version='platform.read-authority.v2'),
					source_cursor TEXT NOT NULL CHECK(length(source_cursor)>4 AND substr(source_cursor,1,4)='cur_'),
					checksum_algorithm TEXT NOT NULL CHECK(checksum_algorithm='sha256'),
					checksum TEXT NOT NULL CHECK(length(checksum)=64),
					created_at TEXT NOT NULL,
					expires_at TEXT NOT NULL,
					record_count INTEGER NOT NULL CHECK(record_count>=0 AND record_count<=10000),
					page_size INTEGER NOT NULL CHECK(page_size>0 AND page_size<=500),
					complete INTEGER NOT NULL CHECK(complete IN (0,1)),
					finalized_at TEXT,
					CHECK((complete=1 AND finalized_at IS NOT NULL) OR (complete=0 AND finalized_at IS NULL)),
					CHECK(expires_at>created_at)
				)";
   "CREATE INDEX platform_read_authority_snapshots_consumer_idx ON platform_read_authority_snapshots(consumer_key,created_at,snapshot_id)";
   "CREATE TABLE platform_read_authority_snapshot_records (
					id INTEGER PRIMARY KEY,
					snapshot_id TEXT NOT NULL REFERENCES platform_read_authority_snapshots(snapshot_id) ON DELETE CASCADE,
					ordinal INTEGER NOT NULL CHECK(ordinal>=0 AND ordinal<10000),
					entity_kind TEXT NOT NULL,
					record_id TEXT NOT NULL,
					record_hash TEXT NOT NULL CHECK(length(record_hash)=64),
					record_json TEXT NOT NULL CHECK(length(record_json)>1 AND length(record_json)<=4096),
					UNIQUE(snapshot_id,ordinal),
					UNIQUE(snapshot_id,entity_kind,record_id),
					UNIQUE(snapshot_id,record_hash)
				)";
   "CREATE INDEX platform_read_authority_snapshot_records_page_idx ON platform_read_authority_snapshot_records(snapshot_id,ordinal)";
   "CREATE INDEX platform_read_authority_snapshot_records_kind_idx ON platform_read_authority_snapshot_records(snapshot_id,entity_kind,ordinal)"].
Definition migration_11 : migration := mkMigration 11 "platform-read-authority-nonce-replay"
  ["CREATE TABLE platform_read_authority_nonces (
					id INTEGER PRIMARY KEY,
					consumer_key TEXT NOT NULL CHECK(length(trim(consumer_key))>0 AND length(consumer_key)<=100),
					nonce TEXT NOT NULL CHECK(length(nonce)>0 AND length(nonce)<=128),
					reserved_at TEXT NOT NULL,
					expires_at TEXT NOT NULL CHECK(expires_at>reserved_at),
					UNIQUE(consumer_key,nonce)
				)";
   "CREATE INDEX platform_read_authority_nonces_expiry_idx ON platform_read_authority_nonces(expires_at)"].
Definition migration_12 : migration := mkMigration 12 "membership-command-idempotency-and-versions"
  ["ALTER TABLE organisation_memberships ADD COLUMN membership_version INTEGER NOT NULL DEFAULT 1 CHECK(membership_version>0)";
   "ALTER TABLE workspace_memberships ADD COLUMN membership_version INTEGER NOT NULL DEFAULT 1 CHECK(membership_version>0)";
   "CREATE TABLE platform_membership_command_results (
					id INTEGER PRIMARY KEY,
					consumer_key TEXT NOT NULL CHECK(length(trim(consumer_key))>0 AND length(consumer_key)<=100),
					idempotency_key TEXT NOT NULL CHECK(length(trim(idempotency_key))>0 AND length(idempotency_key)<=128),
					request_hash TEXT NOT NULL CHECK(length(request_hash)=64),
					result_json TEXT NOT NULL CHECK(length(result_json)>1 AND length(result_json)<=4096),
					created_at TEXT NOT NULL,
					UNIQUE(consumer_key,idempotency_key)
				)";
   "CREATE INDEX platform_membership_command_results_created_idx ON platform_membership_command_results(created_at)"].
Definition migration_13 : migration := mkMigration 13 "platform-production-import-ledger"
  ["CREATE TABLE platform_import_runs (
					id INTEGER PRIMARY KEY,
					manifest_id TEXT NOT NULL UNIQUE CHECK(length(manifest_id)=64),
					manifest_digest TEXT NOT NULL CHECK(length(manifest_digest)=64),
					contract_version TEXT NOT NULL CHECK(contract_version='platform.reconciliation.import.v1'),
					source_report_sha256 TEXT NOT NULL CHECK(length(source_report_sha256)=64),
					source_snapshots_json TEXT NOT NULL CHECK(length(source_snapshots_json)>1 AND length(source_snapshots_json)<=4096),
					approval_id TEXT NOT NULL CHECK(length(trim(approval_id))>0 AND length(approval_id)<=200),
					operator_id TEXT NOT NULL CHECK(length(trim(operator_id))>0 AND length(operator_id)<=200),
					key_id TEXT NOT NULL CHECK(length(trim(key_id))>0 AND length(key_id)<=200),
					approved_at TEXT NOT NULL,
					status TEXT NOT NULL CHECK(status IN ('running','paused','completed','rolled_back')),
					next_index INTEGER NOT NULL CHECK(next_index>=0),
					applied_count INTEGER NOT NULL CHECK(applied_count>=0),
					created_count INTEGER NOT NULL CHECK(created_count>=0),
					reconciled_count INTEGER NOT NULL CHECK(reconciled_count>=0),
					conflict_count INTEGER NOT NULL CHECK(conflict_count>=0),
					checkpoint_mac TEXT NOT NULL CHECK(length(checkpoint_mac)=64),
					created_at TEXT NOT NULL,
					updated_at TEXT NOT NULL,
					receipt_json TEXT NOT NULL CHECK(length(receipt_json)>1 AND length(receipt_json)<=8192)
				)";
   "CREATE TABLE platform_import_records (
					id INTEGER PRIMARY KEY,
					manifest_id TEXT NOT NULL REFERENCES platform_import_runs(manifest_id) ON DELETE CASCADE,
					record_order INTEGER NOT NULL CHECK(record_order>=0),
					entity_kind TEXT NOT NULL CHECK(length(trim(entity_kind))>0 AND length(entity_kind)<=100),
					platform_id TEXT NOT NULL CHECK(length(trim(platform_id))>0 AND length(platform_id)<=200),
					record_digest TEXT NOT NULL CHECK(length(record_digest)=64),
					source_refs_json TEXT NOT NULL CHECK(length(source_refs_json)>1 AND length(source_refs_json)<=4096),
					outcome TEXT NOT NULL CHECK(outcome IN ('created','reconciled','skipped','conflict','rolled_back')),
					created_by_import INTEGER NOT NULL CHECK(created_by_import IN (0,1)),
					compensated INTEGER NOT NULL DEFAULT 0 CHECK(compensated IN (0,1)),
					applied_at TEXT NOT NULL,
					UNIQUE(manifest_id,record_order),
					UNIQUE(manifest_id,platform_id)
				)";
   "CREATE INDEX platform_import_records_manifest_order_idx ON platform_import_records(manifest_id,record_order)";
   "CREATE INDEX platform_import_records_created_idx ON platform_import_records(manifest_id,created_by_import,compensated)";
   "CREATE TABLE platform_import_compensations (
					id INTEGER PRIMARY KEY,
					manifest_id TEXT NOT NULL REFERENCES platform_import_runs(manifest_id) ON DELETE CASCADE,
					record_order INTEGER NOT NULL,
					entity_kind TEXT NOT NULL,
					platform_id TEXT NOT NULL,
					status TEXT NOT NULL CHECK(status IN ('compensated','skipped','blocked')),
					reason TEXT NOT NULL DEFAULT '' CHECK(length(reason)<=500),
					occurred_at TEXT NOT NULL,
					UNIQUE(manifest_id,record_order)
				)"].
Definition migration_14 : migration := mkMigration 14 "audit-actor-tombstone-provenance"
  ["ALTER TABLE audit_events RENAME TO audit_events_legacy";
   "CREATE TABLE audit_events (
					id INTEGER PRIMARY KEY,
					actor_user_id INTEGER REFERENCES users(id) ON DELETE SET NULL,
					actor_user_public_id TEXT NOT NULL DEFAULT '',
					aggregate_type TEXT NOT NULL,
					aggregate_id TEXT NOT NULL,
					event TEXT NOT NULL,
					details TEXT NOT NULL DEFAULT '',
					occurred_at TEXT NOT NULL
				)";
   "INSERT INTO audit_events(id,actor_user_id,actor_user_public_id,aggregate_type,aggregate_id,event,details,occurred_at)
				 SELECT a.id,a.actor_user_id,COALESCE(u.public_id,''),a.aggregate_type,a.aggregate_id,a.event,a.details,a.occurred_at
				 FROM audit_events_legacy a LEFT JOIN users u ON u.id=a.actor_user_id";
   "DROP TABLE audit_events_legacy";
   "CREATE INDEX audit_events_aggregate_time_idx ON audit_events(aggregate_type,aggregate_id,occurred_at,id)"].
Definition supportedMigrations : list migration :=
  [migration_1; migration_2; migration_3; migration_4; migration_5; migration_6; migration_7; migration_8; migration_9;
   migration_10; migration_11; migration_12; migration_13; migration_14].

(** ** The database file *)
Record LedgerRow := mkLedgerRow { lg_row : MigrationRow; lg_applied_at : string }.
(** The data under the schema, and the ledger table once it exists. *)
Record Disk (D : Type) := mkDisk { dk_data : D; dk_ledger : option (list LedgerRow) }.
Arguments mkDisk {D}.
Arguments dk_data {D}.
Arguments dk_ledger {D}.
Definition ledger {D} (s : Disk D) : list LedgerRow := default [] (dk_ledger s).
(** One opening: the statements of a migration (0: outside of any) that the
    machine refuses, and the clock when a migration is recorded. *)
Record Machine := mkMachine { mc_refuses : Z -> string -> bool; mc_clock : Z -> Z }.
Definition ready_machine (clock : Z -> Z) : Machine := mkMachine (fun _ _ => false) clock.

Section Runner.
Context `{UnicodeTables} `{Crypto} {D : Type} (sql : string -> D -> res D).

Definition newline : string := String "010" "".
Definition migrationChecksum (value : migration) : string := hex_encode (sha256 (Join (mi_statements value) newline)).
Definition row_of (m : migration) : MigrationRow := mkMigrationRow (mi_version m) (mi_name m) (migrationChecksum m).
Definition refused : error := Text "sqlite".
Definition ExecContext (e : Machine) (version : Z) (statement : string) (d : D) : res D :=
  if mc_refuses e version statement then Err refused else sql statement d.

Definition create_ledger := "CREATE TABLE IF NOT EXISTS schema_migrations (version INTEGER PRIMARY KEY, name TEXT NOT NULL, checksum TEXT NOT NULL, applied_at TEXT NOT NULL)".
Definition record_migration := "INSERT INTO schema_migrations(version,name,checksum,applied_at) VALUES(?,?,?,?)".
Definition pragmas : list string := ["PRAGMA foreign_keys = ON"; "PRAGMA journal_mode = WAL"; "PRAGMA busy_timeout = 5000"].

(** [for _, statement := range value.statements] *)
Fixpoint exec_all (e : Machine) (version : Z) (statements : list string) (d : D) : res D :=
  match statements with
  | [] => Ok d
  | statement :: rest => let? d := ExecContext e version statement d in exec_all e version rest d
  end.
(** The transaction of one migration; on an error it is rolled back. *)
Definition applyMigration (e : Machine) (value : migration) (s : Disk D) : res (Disk D) :=
  let v := mi_version value in
  if mc_refuses e v "BEGIN" then Err (Wrap ("begin migration " ++ FormatInt v) refused) else
  let? d := wrap ("apply migration " ++ FormatInt v) (exec_all e v (mi_statements value) (dk_data s)) in
  if mc_refuses e v record_migration || existsb (fun r => mg_version (lg_row r) =? v) (ledger s)
  then Err (Wrap ("record migration " ++ FormatInt v) refused) else
  if mc_refuses e v "COMMIT" then Err (Wrap ("commit migration " ++ FormatInt v) refused) else
  Ok (mkDisk d (Some (ledger s ++ [mkLedgerRow (row_of value) (formatTime (mc_clock e v))])%list)).

Definition same_migration (a b : MigrationRow) : bool :=
  (mg_version a =? mg_version b) && (mg_name a =s mg_name b) && (mg_checksum a =s mg_checksum b).
(** The migrations that are left, if the ledger lists the first ones. *)
Fixpoint verify_ledger (rows : list LedgerRow) (migrations : list migration) : res (list migration) :=
  match rows, migrations with
  | [], _ => Ok migrations
  | r :: rows, m :: migrations =>
      if same_migration (lg_row r) (row_of m) then verify_ledger rows migrations
      else Err (Text ("migration ledger diverges at version " ++ FormatInt (mg_version (lg_row r))))
  | r :: _, [] => Err (Text ("migration ledger diverges at version " ++ FormatInt (mg_version (lg_row r))))
  end.
Fixpoint apply_migrations (e : Machine) (migrations : list migration) (s : Disk D) : res unit * Disk D :=
  match migrations with
  | [] => (Ok tt, s)
  | m :: rest => match applyMigration e m s with Ok s => apply_migrations e rest s | Err err => (Err err, s) end
  end.
Definition by_version (a b : LedgerRow) : bool := mg_version (lg_row a) <? mg_version (lg_row b).
Definition migrate (e : Machine) (s : Disk D) : res unit * Disk D :=
  if mc_refuses e 0 create_ledger then (Err (Wrap "create migration ledger" refused), s) else
  let s := mkDisk (dk_data s) (Some (ledger s)) in
  if mc_refuses e 0 "SELECT version,name,checksum FROM schema_migrations ORDER BY version"
  then (Err (Wrap "read migration ledger" refused), s) else
  match verify_ledger (sort_by by_version (ledger s)) supportedMigrations with
  | Err err => (Err err, s)
  | Ok rest => apply_migrations e rest s
  end.

Definition configure (e : Machine) : res unit :=
  match find (mc_refuses e 0) pragmas with
  | Some statement => Err (Wrap ("configure sqlite (" ++ statement ++ ")") refused)
  | None => Ok tt
  end.
(** The file at [path]; the store is open when the result is its key. *)
Definition open_ (e : Machine) (path secretKey : string) (s : Disk D) : res string * Disk D :=
  if TrimSpace path =s "" then (Err (Text "sqlite path is required"), s) else
  match configure e with
  | Err err => (Err err, s)
  | Ok _ => match migrate e s with (Ok _, s) => (Ok secretKey, s) | (Err err, s) => (Err err, s) end
  end.
Definition OpenWithKey (e : Machine) (path secretKey : string) (s : Disk D) : res string * Disk D :=
  if negb (len secretKey =? 32) then (Err (Text "Platform MFA key must be exactly 32 bytes"), s)
  else open_ e path secretKey s.
End Runner.

(** ** Lemmas *)
Example versions_ascending : map mi_version supportedMigrations = [1; 2; 3; 4; 5; 6; 7; 8; 9; 10; 11; 12; 13; 14].
Proof. reflexivity. Qed.

Lemma same_migration_spec a b : same_migration a b = true <-> a = b.
Proof.
  unfold same_migration. rewrite !andb_true_iff, Z.eqb_eq, !String.eqb_eq. destruct a, b; cbn. naive_solver.
Qed.
Section Accepted.
Context `{Crypto}.
(** The ledger is accepted exactly when it lists the first migrations. *)
Lemma verify_ledger_spec rows migrations rest :
  verify_ledger rows migrations = Ok rest <->
  exists l, migrations = (l ++ rest)%list /\ map lg_row rows = map row_of l.
Proof.
  revert migrations. induction rows as [|r rows IH]; intros migrations.
  - cbn. split; [intros [= ->]; by exists []|]. intros ([|m l] & -> & Hl); [done|discriminate Hl].
  - destruct migrations as [|m migrations]; cbn [verify_ledger].
    + split; [done|]. intros ([|] & Hm & Hl); [discriminate Hl|discriminate Hm].
    + destruct (same_migration (lg_row r) (row_of m)) eqn:E.
      * apply same_migration_spec in E. rewrite IH. split.
        -- intros (l & -> & Hl). exists (m :: l). split; [done|]. cbn [map]. by rewrite E, Hl.
        -- intros ([|m' l] & Hm & Hl); [discriminate Hl|]. injection Hm as <- ->. exists l. split; [done|].
           cbn [map] in Hl. by injection Hl.
      * split; [done|]. intros ([|m' l] & Hm & Hl); [discriminate Hl|]. injection Hm as <- ->. cbn [map] in Hl. injection Hl as Hr _.
        apply same_migration_spec in Hr. congruence.
Qed.
End Accepted.

Section Laws.
Context `{UnicodeTables} `{Crypto} {D : Type} (sql : string -> D -> res D).

(** What the statements of some migrations make of the data, in order. *)
Definition outcome (l : list migration) (d : D) : res D :=
  exec_all sql (ready_machine (fun v => v)) 0 (List.concat (map mi_statements l)) d.
(** Exactly the first [k] migrations were applied to [d0], whole, once and in
    order, and the ledger lists them. *)
Definition at_version (d0 : D) (k : nat) (s : Disk D) : Prop :=
  (k <= List.length supportedMigrations)%nat /\ map lg_row (ledger s) = map row_of (take k supportedMigrations)
  /\ outcome (take k supportedMigrations) d0 = Ok (dk_data s).

Lemma exec_all_accepted e v w statements d d' : exec_all sql e v statements d = Ok d' ->
  exec_all sql (ready_machine (fun v => v)) w statements d = Ok d'.
Proof.
  revert d. induction statements as [|st l IH]; intros d; [done|]. cbn [exec_all]. unfold ExecContext. cbn [mc_refuses ready_machine].
  destruct (mc_refuses e v st); [done|]. destruct (sql st d) as [d1|]; [apply IH|done].
Qed.
Lemma exec_all_app e v a b d : exec_all sql e v (a ++ b)%list d = let? d := exec_all sql e v a d in exec_all sql e v b d.
Proof.
  revert d. induction a as [|st a IH]; intros d; [done|]. cbn [exec_all app]. destruct (ExecContext sql e v st d); [apply IH|done].
Qed.
Lemma outcome_app a b d : outcome (a ++ b)%list d = let? d := outcome a d in outcome b d.
Proof. unfold outcome. by rewrite map_app, concat_app, exec_all_app. Qed.

Lemma ledger_some (d : D) l : ledger (mkDisk d (Some l)) = l.
Proof. done. Qed.
(** The versions of the ledger at [k] are those of the first [k] migrations. *)
Lemma versions_at k : (k <= 14)%nat ->
  map (fun m => mg_version (row_of m)) (take k supportedMigrations) = map Z.of_nat (seq 1 k).
Proof. intros Hk. do 15 (destruct k as [|k]; [reflexivity|]). lia. Qed.
Lemma ledger_versions d0 k s : at_version d0 k s -> map (fun r => mg_version (lg_row r)) (ledger s) = map Z.of_nat (seq 1 k).
Proof.
  intros (Hk & Hl & _). rewrite <-(versions_at k Hk). rewrite <-(map_map lg_row mg_version), Hl. by rewrite map_map.
Qed.
Lemma seq_sorted n k : StronglySorted Z.lt (map Z.of_nat (seq n k)).
Proof.
  revert n. induction k as [|k IH]; intros n; constructor; [apply IH|]. apply Forall_forall.
  intros z Hz. rewrite list_elem_of_In in Hz. apply in_map_iff in Hz as (i & <- & Hi%in_seq). lia.
Qed.
Lemma ledger_in_order d0 k s : at_version d0 k s -> sort_by by_version (ledger s) = ledger s.
Proof.
  intros Hs. apply sort_by_id. pose proof (ledger_versions _ _ _ Hs) as Hv. pose proof (seq_sorted 1 k) as Hq. rewrite <-Hv in Hq.
  clear Hv Hs. induction (ledger s) as [|r l IH]; constructor; cbn [map] in Hq; apply StronglySorted_inv in Hq as [Hq Hr]; [by apply IH|].
  apply Forall_forall. intros x Hx. rewrite Forall_forall in Hr. unfold by_version. apply Z.ltb_ge.
  specialize (Hr (mg_version (lg_row x))). rewrite list_elem_of_In in Hr. apply Z.lt_le_incl, Hr, in_map_iff.
  exists x. split; [done|by apply list_elem_of_In].
Qed.
Lemma verify_at d0 k s : at_version d0 k s ->
  verify_ledger (sort_by by_version (ledger s)) supportedMigrations = Ok (drop k supportedMigrations).
Proof.
  intros Hs. rewrite (ledger_in_order _ _ _ Hs). apply verify_ledger_spec. exists (take k supportedMigrations).
  split; [by rewrite take_drop|by apply Hs].
Qed.

(** One migration takes the file to the next version, or leaves it as it is. *)
Lemma apply_next e d0 k m s s' : at_version d0 k s -> supportedMigrations !! k = Some m ->
  applyMigration sql e m s = Ok s' -> at_version d0 (S k) s'.
Proof.
  intros (Hk & Hl & Hd) Hm. unfold applyMigration. destruct (mc_refuses _ _ _); [done|].
  destruct (exec_all sql e _ _ _) as [d|] eqn:E; [|done]. cbn [wrap]. destruct (_ || _); [done|].
  destruct (mc_refuses _ _ _); [done|]. intros [= <-]. unfold at_version. rewrite (take_S_r _ _ _ Hm). split_and!.
  - apply lookup_lt_Some in Hm. lia.
  - rewrite ledger_some, !map_app, Hl. done.
  - rewrite outcome_app, Hd. cbn [dk_data]. unfold outcome. cbn [map List.concat]. rewrite app_nil_r. by eapply exec_all_accepted.
Qed.
Lemma apply_rest e d0 k s r s' : at_version d0 k s ->
  apply_migrations sql e (drop k supportedMigrations) s = (r, s') ->
  exists k', (k <= k')%nat /\ at_version d0 k' s' /\ (r = Ok tt -> k' = List.length supportedMigrations).
Proof.
  intros Hs. remember (drop k supportedMigrations) as l eqn:El. revert k s Hs El. induction l as [|m l IH]; intros k s Hs El.
  - intros [= <- <-]. exists k. split_and!; [done|done|]. intros _. destruct Hs as [Hk _].
    apply (f_equal (@List.length _)) in El. rewrite length_drop in El. cbn [List.length] in El. lia.
  - cbn [apply_migrations]. assert (supportedMigrations !! k = Some m) as Hm.
    { rewrite <-(Nat.add_0_r k), <-lookup_drop, <-El. done. }
    destruct (applyMigration sql e m s) as [s1|err] eqn:Ea.
    + intros Ha. apply (apply_next _ _ _ _ _ _ Hs Hm) in Ea. destruct (IH (S k) s1) as (k' & Hk' & Hs' & Hr); [done| |done|].
      { by rewrite (drop_S _ _ _ Hm) in El; injection El. }
      exists k'. split_and!; [lia|done|done].
    + intros [= <- <-]. exists k. by split_and!.
Qed.

Lemma migrate_at e d0 k s r s' : at_version d0 k s -> migrate sql e s = (r, s') ->
  exists k', (k <= k')%nat /\ at_version d0 k' s' /\ (r = Ok tt -> k' = List.length supportedMigrations).
Proof.
  intros Hs. unfold migrate. destruct (mc_refuses _ _ _); [intros [= <- <-]; exists k; by split_and!|].
  assert (at_version d0 k (mkDisk (dk_data s) (Some (ledger s)))) as Hs' by done. revert Hs'. generalize (mkDisk (dk_data s) (Some (ledger s))).
  intros s1 Hs1. destruct (mc_refuses _ _ _); [intros [= <- <-]; exists k; by split_and!|].
  rewrite (verify_at _ _ _ Hs1). by apply apply_rest.
Qed.
Lemma open_at e path secretKey d0 k s r s' : at_version d0 k s -> OpenWithKey sql e path secretKey s = (r, s') ->
  exists k', (k <= k')%nat /\ at_version d0 k' s'
    /\ (forall store, r = Ok store -> k' = List.length supportedMigrations /\ store = secretKey /\ len secretKey = 32).
Proof.
  intros Hs. unfold OpenWithKey, open_. destruct (len secretKey =? 32) eqn:El; cbn [negb];
    [|intros [= <- <-]; exists k; by split_and!].
  destruct (TrimSpace path =s ""); [intros [= <- <-]; exists k; by split_and!|].
  destruct (configure e); [|intros [= <- <-]; exists k; by split_and!].
  destruct (migrate sql e s) as [r1 s1] eqn:Em. destruct (migrate_at _ _ _ _ _ _ Hs Em) as (k' & Hk & Hs1 & Hr).
  destruct r1 as [[]|err]; intros [= <- <-]; exists k'; split_and!; try done.
  intros store [= <-]. split_and!; [by apply Hr|done|by apply Z.eqb_eq].
Qed.

(** *** With a machine that refuses nothing *)
Lemma exec_all_ready clock v w l d : exec_all sql (ready_machine clock) v l d = exec_all sql (ready_machine (fun v => v)) w l d.
Proof. revert d. induction l as [|st l IH]; intros d; [done|]. cbn. destruct (sql st d); [apply IH|done]. Qed.
Lemma version_of k m : supportedMigrations !! k = Some m -> mi_version m = Z.of_nat (S k).
Proof.
  intros Hm. assert (k < 14)%nat as Hk by (apply lookup_lt_Some in Hm; exact Hm).
  do 14 (destruct k as [|k]; [by injection Hm as <-|]). lia.
Qed.
Lemma apply_ready clock d0 k m s d : at_version d0 k s -> supportedMigrations !! k = Some m ->
  outcome (take (S k) supportedMigrations) d0 = Ok d ->
  exists s', applyMigration sql (ready_machine clock) m s = Ok s' /\ at_version d0 (S k) s' /\ dk_data s' = d.
Proof.
  intros Hs Hm Hd. pose proof Hs as (Hk & Hl & Hk0). rewrite (take_S_r _ _ _ Hm), outcome_app, Hk0 in Hd. cbn in Hd.
  unfold outcome in Hd. cbn [map List.concat] in Hd. rewrite app_nil_r in Hd.
  rewrite <-(exec_all_ready clock (mi_version m)) in Hd.
  assert (existsb (fun r => mg_version (lg_row r) =? mi_version m) (ledger s) = false) as Hf.
  { apply not_true_is_false. intros (r & Hr & Hv%Z.eqb_eq)%existsb_exists. rewrite (version_of _ _ Hm) in Hv.
    apply (in_map (fun r => mg_version (lg_row r))) in Hr. rewrite (ledger_versions _ _ _ Hs), Hv in Hr.
    apply in_map_iff in Hr as (i & Hi & Hin%in_seq). lia. }
  eexists. assert (applyMigration sql (ready_machine clock) m s = Ok (mkDisk d (Some (ledger s
    ++ [mkLedgerRow (row_of m) (formatTime (clock (mi_version m)))])%list))) as Ha.
  { unfold applyMigration. cbn [mc_refuses ready_machine orb]. by rewrite Hd, Hf. }
  split; [exact Ha|]. split; [by eapply apply_next|done].
Qed.
Lemma apply_all_ready clock d0 k s d : at_version d0 k s -> outcome supportedMigrations d0 = Ok d ->
  exists s', apply_migrations sql (ready_machine clock) (drop k supportedMigrations) s = (Ok tt, s') /\ dk_data s' = d.
Proof.
  intros Hs Hd. remember (drop k supportedMigrations) as l eqn:El. revert k s Hs El. induction l as [|m l IH]; intros k s Hs El.
  - exists s. split; [done|]. destruct Hs as (Hk & _ & Hs). rewrite take_ge in Hs; [congruence|].
    apply (f_equal (@List.length _)) in El. rewrite length_drop in El. cbn [List.length] in El. lia.
  - assert (supportedMigrations !! k = Some m) as Hm.
    { rewrite <-(Nat.add_0_r k), <-lookup_drop, <-El. done. }
    assert (exists d1, outcome (take (S k) supportedMigrations) d0 = Ok d1) as [d1 Hd1].
    { rewrite <-(take_drop (S k) supportedMigrations), outcome_app in Hd. destruct (outcome (take _ _) d0) as [d1|]; [by exists d1|done]. }
    destruct (apply_ready clock _ _ _ _ _ Hs Hm Hd1) as (s1 & Ha & Hs1 & _). cbn [apply_migrations]. rewrite Ha.
    apply (IH (S k)); [done|]. by rewrite (drop_S _ _ _ Hm) in El; injection El.
Qed.
Lemma open_ready clock path secretKey d0 k s d : at_version d0 k s -> outcome supportedMigrations d0 = Ok d ->
  len secretKey = 32 -> TrimSpace path <> "" ->
  exists s', OpenWithKey sql (ready_machine clock) path secretKey s = (Ok secretKey, s') /\ dk_data s' = d.
Proof.
  intros Hs Hd Hl Hp. destruct (apply_all_ready clock d0 k (mkDisk (dk_data s) (Some (ledger s))) d) as (s' & Ha & Hd'); [done..|].
  exists s'. split; [|done]. unfold OpenWithKey, open_. rewrite Hl, (proj2 (String.eqb_neq _ _) Hp). cbn [Z.eqb negb Pos.eqb].
  unfold migrate. cbn [mc_refuses ready_machine configure find pragmas]. cbv zeta. rewrite ledger_some.
  pose proof (verify_at d0 k s Hs) as Hv. rewrite Hv. by rewrite Ha.
Qed.
End Laws.

(** ** Properties *)
Section Properties.
Context `{UnicodeTables} `{Crypto} {D : Type} (sql : string -> D -> res D).

(** An attempt to open the file, by any process on any machine. *)
Definition opening (s s' : Disk D) : Prop := exists e path secretKey, (OpenWithKey sql e path secretKey s).2 = s'.
Lemma openings_at s s' : rtc opening s s' -> forall k d0, at_version sql d0 k s -> exists k', at_version sql d0 k' s'.
Proof.
  induction 1 as [s|s s1 s2 (e & path & key & Ho) _ IH]; intros k d0 Hs; [by exists k|].
  destruct (OpenWithKey sql e path key s) as [r s1'] eqn:E. cbn in Ho. subst s1'.
  destruct (open_at _ _ _ _ _ _ _ _ _ Hs E) as (k' & _ & Hs' & _). by apply (IH k').
Qed.

(** C26: every migration is applied once, whole and in order, through any number
    of attempts to open the file, whatever they were refused and wherever they
    stopped. After them the data is what the first [k] migrations make of it and
    the ledger lists exactly those; an attempt that opens the store leaves all
    fourteen applied (so that the provenance of the seeded products, migration 6,
    is found by the read authority); and if SQLite accepts the statements in
    order, the next attempt on a machine that refuses none opens it. *)
Theorem migrations_once s0 s :
  ledger s0 = [] -> rtc opening s0 s ->
  exists k, at_version sql (dk_data s0) k s
    /\ (forall e path secretKey store s', OpenWithKey sql e path secretKey s = (Ok store, s') ->
         store = secretKey /\ len secretKey = 32 /\ at_version sql (dk_data s0) 14 s'
         /\ forall platform sn rec no, readAuthorityMigrationSeedTx (mkReadStore platform (map lg_row (ledger s')) sn rec no)
              = Ok (row_of migration_6))
    /\ (forall d clock path secretKey, outcome sql supportedMigrations (dk_data s0) = Ok d ->
         len secretKey = 32 -> TrimSpace path <> "" ->
         exists s', OpenWithKey sql (ready_machine clock) path secretKey s = (Ok secretKey, s') /\ dk_data s' = d).
Proof.
  intros Hempty Hrun. destruct (openings_at _ _ Hrun 0%nat (dk_data s0)) as [k Hs]; [split_and!; [lia|by rewrite Hempty|done]|].
  exists k. split; [done|]. split.
  - intros e path key store s' Ho. destruct (open_at _ _ _ _ _ _ _ _ _ Hs Ho) as (k' & _ & Hs' & Hk).
    destruct (Hk store eq_refl) as (-> & -> & Hl). split_and!; [done|done|done|].
    intros platform sn rec no. unfold readAuthorityMigrationSeedTx. cbn [schema_migrations]. by rewrite (proj1 (proj2 Hs')).
  - intros. by eapply open_ready.
Qed.

(** C38: a ledger that is not the beginning of the program's own (another program's,
    a newer one's, or one with a migration renamed or edited) is refused, and
    nothing of the file's data or ledger changes. *)
Theorem divergent_ledger_refused e path secretKey s :
  (forall k, map lg_row (sort_by by_version (ledger s)) <> map row_of (take k supportedMigrations)) ->
  exists err s', OpenWithKey sql e path secretKey s = (Err err, s') /\ dk_data s' = dk_data s /\ ledger s' = ledger s.
Proof.
  intros Hdiv. unfold OpenWithKey, open_. destruct (negb _); [by eexists _, _|]. destruct (_ =s ""); [by eexists _, _|].
  destruct (configure e); [|by eexists _, _]. unfold migrate. destruct (mc_refuses _ _ _); [by eexists _, _|].
  cbv zeta. destruct (mc_refuses _ _ _); [by eexists _, _|]. rewrite ledger_some.
  destruct (verify_ledger _ _) as [rest|err] eqn:E; [|by eexists _, _].
  apply verify_ledger_spec in E as (l & Hl & Hrows). destruct (Hdiv (List.length l)).
  by rewrite Hl, take_app_length.
Qed.
End Properties.

(** ** Witnesses: a catalogue of names for SQLite *)
Module Catalogue.
#[export] Existing Instances ascii_tables toy_crypto.
(** A table by its name, an index by its name and its table. *)
Definition names := list (string * string).
Definition separator (c : ascii) : bool := contains_byte c (" (" ++ newline ++ String "009" "").
Fixpoint words (word s : string) : list string :=
  let here := if word =s "" then [] else [word] in
  match s with
  | "" => here
  | String c s' => if separator c then (here ++ words "" s')%list else words (word ++ String c "") s'
  end.
Definition has (x : string) (d : names) : bool := existsb (fun n => n.1 =s x) d.
Definition create (x table : string) (d : names) : res names :=
  if has x d || negb ((x =s table) || has table d) then Err refused else Ok (d ++ [(x, table)])%list.
Definition sql (statement : string) (d : names) : res names :=
  match words "" statement with
  | "CREATE" :: "TABLE" :: x :: _ => create x x d
  | "CREATE" :: "INDEX" :: x :: "ON" :: table :: _ | "CREATE" :: "UNIQUE" :: "INDEX" :: x :: "ON" :: table :: _ => create x table d
  | "ALTER" :: "TABLE" :: x :: "RENAME" :: "TO" :: y :: _ =>
      if has x d && negb (has y d)
      then Ok (map (fun n => (if n.1 =s x then y else n.1, if n.2 =s x then y else n.2)) d) else Err refused
  | "ALTER" :: "TABLE" :: x :: "ADD" :: "COLUMN" :: _ | "INSERT" :: "INTO" :: x :: _ | "UPDATE" :: x :: _ =>
      if has x d then Ok d else Err refused
  | "DROP" :: "TABLE" :: x :: _ => if has x d then Ok (List.filter (fun n => negb (n.2 =s x)) d) else Err refused
  | _ => Err refused
  end.
Definition tables (d : names) : list string := map fst (List.filter (fun n => n.1 =s n.2) d).
(** A machine that stops in the ninth migration, and one that does not. *)
Definition failing : Machine := mkMachine (fun v st => (v =? 9) && HasPrefix st "CREATE INDEX") (fun v => v * Second).
Definition key : string := fit 32 "mfa".
Definition fresh_file : Disk names := mkDisk [] None.
Definition interrupted : Disk names := Eval vm_compute in (OpenWithKey sql failing "platform.db" key fresh_file).2.
End Catalogue.
#[local] Existing Instances ascii_tables toy_crypto.

(** The tables of the store, the read authority and the import ledger, each made
    once; no index is left without its table. *)
Example migrated_tables :
  match outcome Catalogue.sql supportedMigrations [] with
  | Ok d => Catalogue.tables d =
      ["users"; "sessions"; "security_events"; "mfa_enrollments"; "mfa_recovery_codes"; "organisations";
       "organisation_memberships"; "system_role_assignments"; "workspaces"; "workspace_memberships"; "products";
       "organisation_product_entitlements"; "user_product_assignments"; "platform_outbox"; "platform_projection_inbox";
       "platform_projection_checkpoints"; "platform_read_authority_snapshots"; "platform_read_authority_snapshot_records";
       "platform_read_authority_nonces"; "platform_membership_command_results"; "platform_import_runs";
       "platform_import_records"; "platform_import_compensations"; "audit_events"]
  | Err _ => False
  end.
Proof. vm_compute. reflexivity. Qed.

Lemma migrations_once_witness :
  List.length (ledger Catalogue.interrupted) = 8%nat
  /\ exists s', OpenWithKey Catalogue.sql (ready_machine (fun v => v * Second)) "platform.db" Catalogue.key Catalogue.interrupted
    = (Ok Catalogue.key, s') /\ at_version Catalogue.sql [] 14 s' /\ List.length (ledger s') = 14%nat.
Proof.
  split; [reflexivity|].
  destruct (migrations_once Catalogue.sql Catalogue.fresh_file Catalogue.interrupted) as (k & _ & Hopen & Hready).
  - reflexivity.
  - apply rtc_once. exists Catalogue.failing, "platform.db", Catalogue.key. vm_compute. reflexivity.
  - destruct (outcome Catalogue.sql supportedMigrations (dk_data Catalogue.fresh_file)) as [d|e] eqn:Ed;
      [|vm_compute in Ed; discriminate Ed].
    destruct (Hready d (fun v => v * Second) "platform.db" Catalogue.key eq_refl) as (s' & Ho & _);
      [vm_compute; reflexivity|vm_compute; discriminate|].
    destruct (Hopen _ _ _ _ _ Ho) as (_ & _ & Hs & _). exists s'. split; [exact Ho|]. split; [exact Hs|].
    destruct Hs as (_ & Hl & _). apply (f_equal (@List.length _)) in Hl. rewrite !List.length_map in Hl. exact Hl.
Defined.

(** The ledger of a newer program. *)
Lemma divergent_ledger_refused_witness :
  exists err s', OpenWithKey Catalogue.sql (ready_machine (fun v => v)) "platform.db" Catalogue.key
    (mkDisk [] (Some [mkLedgerRow (mkMigrationRow 15 "later" "") ""])) = (Err err, s') /\ List.length (ledger s') = 1%nat.
Proof.
  destruct (divergent_ledger_refused Catalogue.sql (ready_machine (fun v => v)) "platform.db" Catalogue.key
    (mkDisk [] (Some [mkLedgerRow (mkMigrationRow 15 "later" "") ""]))) as (err & s' & Ho & _ & Hl).
  - intros [|k] Hk; [discriminate Hk|]. apply (f_equal (fun l => match l with m :: _ => mg_version m | [] => 0 end)) in Hk.
    vm_compute in Hk. discriminate Hk.
  - exists err, s'. split; [exact Ho|]. rewrite Hl. reflexivity.
Defined.
