(* ===== verification/Url.v ===== *)
(** The part of net/url the HTTP layer uses: escaping of query and path texts,
    query parsing and the canonical encoding of a query. *)
From stdpp Require Import base tactics option list strings.
From Stdlib Require Import ZArith Lia Ascii String.
From S2P Require Import Prelude GoStrings GoTime Errors Domain Json Schema.

Local Open Scope string_scope.
Local Open Scope Z_scope.

(** ** Escaping *)
Definition upper_hex (n : Z) : ascii := if n <? 10 then byte_of (48 + n) else byte_of (55 + n).
Definition percent (c : ascii) : string :=
  String "%" (String (upper_hex (byte_code c / 16)) (String (upper_hex (byte_code c mod 16)) "")).
Definition unreserved (c : ascii) : bool :=
  let n := byte_code c in
  ((48 <=? n) && (n <=? 57)) || ((65 <=? n) && (n <=? 90)) || ((97 <=? n) && (n <=? 122))
  || contains_byte c "-_.~".
Fixpoint escape (byte : ascii -> string) (s : string) : string :=
  match s with "" => "" | String c s' => byte c ++ escape byte s' end.
Definition query_byte (c : ascii) : string :=
  if unreserved c then String c "" else if Ascii.eqb c " " then "+" else percent c.
Definition QueryEscape : string -> string := escape query_byte.
Definition PathEscape : string -> string :=
  escape (fun c => if unreserved c || contains_byte c "$&+=:@" then String c "" else percent c).

Fixpoint QueryUnescape (s : string) : option string :=
  match s with
  | "" => Some ""
  | String "%" rest =>
      match rest with
      | String a (String b s') =>
          match hex_val a, hex_val b with
          | Some a, Some b => option_map (String (byte_of (a * 16 + b))) (QueryUnescape s')
          | _, _ => None
          end
      | _ => None
      end
  | String "+" s' => option_map (String " ") (QueryUnescape s')
  | String c s' => option_map (String c) (QueryUnescape s')
  end.

(** ** Queries: url.Values as the list of its pairs, in the order they were added *)
Abbreviation Values := (list (string * string)).
Fixpoint Cut (s : string) (sep : ascii) : string * string :=
  match s with
  | "" => ("", "")
  | String c s' => if Ascii.eqb c sep then ("", s') else let (a, b) := Cut s' sep in (String c a, b)
  end.
Definition parse_pair (piece : string) : option (string * string) :=
  if contains_byte ";" piece then None else
  let (k, v) := Cut piece "=" in
  match QueryUnescape k, QueryUnescape v with Some k, Some v => Some (k, v) | _, _ => None end.
(** The pairs that parse, and whether all of them do. *)
Definition ParseQuery (query : string) : Values * bool :=
  let pieces := List.filter (fun p => negb (p =s "")) (Split query "&") in
  (omap parse_pair pieces, forallb (fun p => negb (is_none (parse_pair p))) pieces).
Definition has_key (k : string) (kv : string * string) : bool := fst kv =s k.
Definition Get (vs : Values) (k : string) : string :=
  match find (has_key k) vs with Some kv => snd kv | None => "" end.

Definition grouped (vs : Values) : Values :=
  flat_map (fun k => List.filter (has_key k) vs) (sort_by text_lt (nodup string_dec (map fst vs))).
Definition encode_pair (kv : string * string) : string := QueryEscape (fst kv) ++ "=" ++ QueryEscape (snd kv).
Definition Encode (vs : Values) : string := Join (map encode_pair (grouped vs)) "&".

Example query_ex : Encode (fst (ParseQuery "b=2&a=x%20y&&b=%26+1")) = "a=x+y&b=2&b=%26+1".
Proof. reflexivity. Qed.
Example query_bad : snd (ParseQuery "a=1;b=2") = false /\ snd (ParseQuery "a=%2") = false.
Proof. split; reflexivity. Qed.

(** ** Escaping reads back *)
Lemma byte_cases (P : ascii -> Prop) : (forall c, In c (map byte_of (map Z.of_nat (seq 0 256))) -> P c) -> forall c, P c.
Proof.
  intros HP c. apply HP. rewrite map_map. apply in_map_iff. pose proof (byte_code_range c).
  exists (Z.to_nat (byte_code c)). rewrite Z2Nat.id by lia. split; [|apply in_seq; lia].
  apply byte_code_inj. by rewrite byte_code_of.
Qed.
Lemma all_bytes (p : ascii -> bool) :
  forallb p (map byte_of (map Z.of_nat (seq 0 256))) = true -> forall c, p c = true.
Proof. intros Hp. apply byte_cases. by apply forallb_forall. Qed.

Lemma unescape_query_byte c s : QueryUnescape (query_byte c ++ s) = option_map (String c) (QueryUnescape s).
Proof.
  destruct c as [[] [] [] [] [] [] [] []]; reflexivity.
Qed.
Lemma QueryUnescape_QueryEscape s : QueryUnescape (QueryEscape s) = Some s.
Proof.
  unfold QueryEscape. induction s as [|c s IH]; [done|]. cbn [escape]. by rewrite unescape_query_byte, IH.
Qed.
Lemma escape_safe (p : ascii -> bool) s : (forall c, forall_bytes p (query_byte c) = true) ->
  forall_bytes p (QueryEscape s) = true.
Proof.
  intros Hp. unfold QueryEscape. induction s as [|c s IH]; [done|]. cbn [escape]. by rewrite forall_bytes_app, Hp, IH.
Qed.
Lemma escape_free d s : contains_byte d "&=;" = true -> free_of d (QueryEscape s) = true.
Proof.
  intros Hd. apply (forall_bytes_free (fun c => negb (contains_byte c "&=;"))); [by rewrite Hd|].
  apply escape_safe. apply all_bytes. vm_compute. reflexivity.
Qed.

Lemma Cut_free c a b : free_of c a = true -> Cut (a ++ String c b) c = (a, b).
Proof.
  induction a as [|d a IH]; cbn [String.append Cut]; [by rewrite Ascii.eqb_refl|].
  rewrite free_of_String. intros [Hd Ha]%andb_true_iff. rewrite Ascii.eqb_sym. apply negb_true_iff in Hd as ->.
  by rewrite IH.
Qed.

Lemma free_of_app c a b : free_of c (a ++ b) = free_of c a && free_of c b.
Proof.
  induction a as [|d a IH]; [done|]. cbn [String.append]. rewrite !free_of_String, IH. by destruct (negb _).
Qed.

Lemma encode_pair_free d kv : d = "&"%char \/ d = ";"%char -> free_of d (encode_pair kv) = true.
Proof.
  intros Hd. unfold encode_pair. rewrite !free_of_app, !escape_free by (by destruct Hd as [-> | ->]).
  by destruct Hd as [-> | ->].
Qed.
Lemma parse_encode_pair kv : parse_pair (encode_pair kv) = Some kv.
Proof.
  unfold parse_pair. pose proof (encode_pair_free ";" kv (or_intror eq_refl)) as Hf. unfold free_of in Hf.
  apply negb_true_iff in Hf. rewrite Hf. unfold encode_pair. change ("=" ++ ?x) with (String "=" x).
  rewrite Cut_free by (by apply escape_free). rewrite !QueryUnescape_QueryEscape. by destruct kv.
Qed.

Lemma Split_Join c l x : forallb (free_of c) (x :: l) = true -> Split (Join (x :: l) (String c "")) c = x :: l.
Proof.
  revert x. induction l as [|y l IH]; intros x Hf; apply andb_true_iff in Hf as [Hx Hl].
  - by apply Split_last.
  - change (Join (x :: y :: l) (String c "")) with (x ++ String c (Join (y :: l) (String c ""))).
    rewrite Split_cons by done. f_equal. by apply IH.
Qed.

Lemma encode_pair_nonempty kv : negb (encode_pair kv =s "") = true.
Proof. unfold encode_pair. by destruct (QueryEscape (fst kv)). Qed.

(** What [Encode] writes [ParseQuery] reads. *)
Lemma ParseQuery_Encode vs : ParseQuery (Encode vs) = (grouped vs, true).
Proof.
  unfold Encode. generalize (grouped vs) as l. intros [|kv l]; [done|]. unfold ParseQuery.
  rewrite map_cons, Split_Join.
  - rewrite <-map_cons. generalize (kv :: l) as l'. clear. induction l' as [|kv l IH]; [done|].
    cbn [map List.filter]. rewrite encode_pair_nonempty. cbn [omap list_omap forallb]. rewrite parse_encode_pair.
    injection IH as -> ->. done.
  - rewrite <-map_cons. apply forallb_forall. intros p (? & <- & _)%in_map_iff. apply encode_pair_free. by left.
Qed.

Lemma filter_flat_map {A B} (p : B -> bool) (f : A -> list B) l :
  List.filter p (flat_map f l) = flat_map (fun x => List.filter p (f x)) l.
Proof. induction l as [|x l IH]; [done|]. cbn [flat_map]. by rewrite List.filter_app, IH. Qed.
Lemma filter_has_key k k' vs :
  List.filter (has_key k) (List.filter (has_key k') vs) = if k =s k' then List.filter (has_key k) vs else [].
Proof.
  unfold has_key. destruct (String.eqb_spec k k') as [<-|Hn]; induction vs as [|[x y] vs IH]; try done; cbn [List.filter fst].
  - destruct (x =s k) eqn:E; cbn [List.filter fst]; rewrite ?E; by rewrite IH.
  - destruct (String.eqb_spec x k') as [->|]; cbn [List.filter fst]; [|done].
    destruct (String.eqb_spec k' k); congruence.
Qed.
Lemma flat_map_once {B} k (l : list string) (v : list B) :
  NoDup l -> flat_map (fun x => if k =s x then v else []) l = if existsb (String.eqb k) l then v else [].
Proof.
  induction 1 as [|x l Hx Hl IH]; [done|]. cbn [flat_map existsb]. rewrite IH.
  destruct (String.eqb_spec k x) as [->|]; [|done]. cbn [orb].
  destruct (existsb _ l) eqn:E; [|by rewrite app_nil_r]. apply existsb_exists in E as (y & Hy & <-%String.eqb_eq).
  by rewrite list_elem_of_In in Hx.
Qed.

(** Grouping keeps the values of each key, in their order. *)
Lemma grouped_values k vs : List.filter (has_key k) (grouped vs) = List.filter (has_key k) vs.
Proof.
  unfold grouped. rewrite filter_flat_map. erewrite flat_map_ext by (intros; apply filter_has_key).
  rewrite flat_map_once.
  - destruct (existsb _ _) eqn:E; [done|]. symmetry. destruct (List.filter (has_key k) vs) as [|kv l] eqn:F; [done|].
    assert (In kv vs /\ has_key k kv = true) as [Hin Hk] by (apply filter_In; rewrite F; by left).
    unfold has_key in Hk. apply String.eqb_eq in Hk. subst k. exfalso. apply not_true_iff_false in E. apply E. apply existsb_exists.
    exists (fst kv). split; [|apply String.eqb_refl]. apply in_sort_by, nodup_In. by apply in_map.
  - rewrite sort_by_Permutation. apply NoDup_ListNoDup, List.NoDup_nodup.
Qed.

(** So two queries with the same encoding have the same values for every key. *)
Lemma Encode_inj vs vs' : Encode vs = Encode vs' -> forall k, List.filter (has_key k) vs = List.filter (has_key k) vs'.
Proof.
  intros He k. rewrite <-(grouped_values k vs), <-(grouped_values k vs').
  pose proof (ParseQuery_Encode vs) as H1. rewrite He, ParseQuery_Encode in H1. by injection H1 as ->.
Qed.
