(* ===== verification/Product.v ===== *)
(** internal/db/sqlite/product.go and product_access.go: the product catalogue,
    the entitlements of organisations, the assignments of users, and the one
    predicate that decides whether a user may launch a product. *)
From stdpp Require Import base tactics list strings.
From Stdlib Require Import ZArith Lia Ascii String Sorted.
From S2P Require Import Prelude GoStrings GoTime Codec Json Errors Domain Events Schema Outbox Auth.
From S2P Require Import Identity Organisation Access Workspace.

Local Open Scope string_scope.
Local Open Scope Z_scope.

Definition auditProduct := "Product".

(** ** Helpers *)

Definition validProductKey (value : string) : bool := has_prefix_id value "product.".

Definition product_details_json (d : productAuditDetails) : string :=
  encode_fields ([("product_key", VString (pd_ProductKey d))]
    ++ omitempty "organisation_id" (pd_OrganisationID d) ++ omitempty "user_id" (pd_UserID d)
    ++ omitempty "entitlement_id" (pd_EntitlementID d) ++ omitempty "assignment_id" (pd_AssignmentID d)
    ++ omitempty "status" (pd_Status d) ++ omitempty "reason" (pd_Reason d))%list.

Definition requireSystemAdmin (requesterUserID : string) (db : DB) : res unit :=
  if is_system_admin db (TrimSpace requesterUserID) then Ok tt
  else Err (Sentinel ErrUnauthorisedProductAction).

Definition systemAdminInternalTx (actorUserID : string) : St DB error Z :=
  let! row := reads (fun db =>
    find (fun u => is_active_user (TrimSpace actorUserID) u && system_admin db (u_id u)) (users db)) in
  let! u := some_or row ErrUnauthorisedProductAction in
  ret (u_id u).

Definition recordProductAuditTx (actorID : Z) (productKey event : string) (d : productAuditDetails)
    (at_ : Z) (rand : option string) : St DB error unit :=
  do! within "record product audit"
        (insert_audit actorID auditProduct productKey event (product_details_json d) at_) in
  within "record product outbox event" (appendProductEventTx event d at_ rand).

Definition recordOrganisationProductAuditTx (actorID : Z) (organisationID event : string)
    (d : productAuditDetails) (at_ : Z) (rand : option string) : St DB error unit :=
  do! within "record organisation product audit"
        (insert_audit actorID auditOrganisation organisationID event (product_details_json d) at_) in
  within "record access outbox event" (appendAccessEventTx event d at_ rand).

Definition product_by_key (productKey : string) (db : DB) : option ProductRow :=
  find (fun p => p_key p =s productKey) (products db).

(** [WHERE product_key=? AND status='active'] *)
Definition retirable (productKey : string) (p : ProductRow) : bool :=
  (p_key p =s productKey) && (p_status p =s ProductActive).
Definition retired_product (at_ : Z) (p : ProductRow) : ProductRow :=
  mkProductRow (p_key p) (p_display_name p) ProductRetired (p_created_at p) (Some (formatTime at_)).

(** [WHERE organisation_id=? AND product_key=? AND status='active'] *)
Definition entitled (orgID : Z) (productKey : string) (e : EntitlementRow) : bool :=
  (e_organisation_id e =? orgID) && (e_product_key e =s productKey) && (e_status e =s GrantActive).
Definition revoked_entitlement (actorID at_ : Z) (reason : string) (e : EntitlementRow) : EntitlementRow :=
  mkEntitlementRow (e_id e) (e_public_id e) (e_organisation_id e) (e_product_key e) GrantRevoked
    (e_granted_by e) (e_granted_at e) (Some actorID) (Some (formatTime at_)) (TrimSpace reason).

(** [WHERE user_id=? AND organisation_id=? AND product_key=? AND status='active'] *)
Definition assigned (userID orgID : Z) (productKey : string) (a : AssignmentRow) : bool :=
  (g_user_id a =? userID) && (g_organisation_id a =? orgID) && (g_product_key a =s productKey)
  && (g_status a =s GrantActive).
Definition revoked_assignment (actorID at_ : Z) (reason : string) (a : AssignmentRow) : AssignmentRow :=
  mkAssignmentRow (g_id a) (g_public_id a) (g_user_id a) (g_organisation_id a) (g_product_key a) GrantRevoked
    (g_assigned_by a) (g_assigned_at a) (Some actorID) (Some (formatTime at_)) (TrimSpace reason).

(** [JOIN organisations o ON o.id=... WHERE o.public_id=?] *)
Definition in_organisation (db : DB) (organisationID : string) (id : Z) : bool :=
  existsb (fun o => (o_id o =? id) && (o_public_id o =s organisationID)) (organisations db).

(** ** Mutations *)

Definition RetireProduct (actorUserID productKey reason : string) (at_ : Z) (rs : rng) : St DB error unit :=
  let productKey := TrimSpace productKey in
  do! require (validProductKey productKey) ErrInvalidProductKey in
  do! lift (validateMutationReason reason) in
  do! require (negb (IsZero at_)) (Text "product retirement time is required") in
  let! actorID := systemAdminInternalTx actorUserID in
  let! rows := reads (fun db => count (retirable productKey) (products db)) in
  do! modify (fun db => set_products
        (update (retirable productKey) (retired_product at_) (products db)) db) in
  let! row := reads (product_by_key productKey) in
  do! (if rows =? 0 then
         let! p := some_or row ErrProductNotFound in
         if p_status p =s ProductRetired then fail ErrProductRetired else fail ErrProductNotFound
       else ret tt) in
  recordProductAuditTx actorID productKey eventProductRetired
    (mkPAD productKey "" "" "" "" ProductRetired (TrimSpace reason)) at_ (rs 0%nat).

Definition EntitleOrganisation (actorUserID organisationID productKey reason : string) (at_ : Z) (rs : rng)
  : St DB error OrganisationProductEntitlement :=
  let productKey := TrimSpace productKey in
  do! require (validProductKey productKey) ErrInvalidProductKey in
  do! lift (validateMutationReason reason) in
  do! require (negb (IsZero at_)) (Text "product entitlement time is required") in
  let! entitlementID := lift (NewOrganisationProductEntitlementID (rs 0%nat)) in
  let! (actorID, _, orgID, _) := authorisedOrganisationMutationTx actorUserID organisationID in
  let! row := reads (product_by_key productKey) in
  let! product := some_or row ErrProductNotFound in
  do! require (p_status product =s ProductActive) ErrProductRetired in
  let! active := reads (fun db => existsb (entitled orgID productKey) (entitlements db)) in
  do! require (negb active) ErrDuplicateOrganisationEntitlement in
  do! within "create product entitlement" (insert_row entitlements set_entitlements entitlements_ok (fun id =>
        mkEntitlementRow id entitlementID orgID productKey GrantActive actorID (formatTime at_) None None "")) in
  do! recordOrganisationProductAuditTx actorID organisationID eventEntitlementGranted
        (mkPAD productKey organisationID "" entitlementID "" GrantActive (TrimSpace reason)) at_ (rs 1%nat) in
  ret (mkEntitlement entitlementID organisationID productKey GrantActive true actorUserID at_ "" None "").

Definition entitlement_of (organisationID entitlementID : string) (db : DB) : option EntitlementRow :=
  find (fun e => (e_public_id e =s entitlementID) && in_organisation db organisationID (e_organisation_id e))
    (entitlements db).

Definition RevokeOrganisationEntitlement (actorUserID organisationID entitlementID reason : string)
    (at_ : Z) (rs : rng) : St DB error unit :=
  do! lift (validateMutationReason reason) in
  do! require (negb (IsZero at_)) (Text "product entitlement revocation time is required") in
  let! row := reads (entitlement_of organisationID (TrimSpace entitlementID)) in
  let! e := some_or row ErrEntitlementNotFound in
  let! (actorID, _, _, _) := authorisedOrganisationMutationTx actorUserID organisationID in
  do! require (e_status e =s GrantActive) ErrEntitlementInactive in
  do! modify (fun db => set_entitlements
        (update (fun x => (e_id x =? e_id e) && (e_status x =s GrantActive))
           (revoked_entitlement actorID at_ reason) (entitlements db)) db) in
  recordOrganisationProductAuditTx actorID organisationID eventEntitlementRevoked
    (mkPAD (e_product_key e) organisationID "" entitlementID "" GrantRevoked (TrimSpace reason)) at_ (rs 0%nat).

Definition AssignUserProduct (actorUserID organisationID targetUserID productKey reason : string)
    (at_ : Z) (rs : rng) : St DB error UserProductAssignment :=
  let targetUserID := TrimSpace targetUserID in
  let productKey := TrimSpace productKey in
  do! require (validProductKey productKey) ErrInvalidProductKey in
  do! lift (validateMutationReason reason) in
  do! require (negb (IsZero at_)) (Text "user product assignment time is required") in
  let! assignmentID := lift (NewUserProductAssignmentID (rs 0%nat)) in
  let! (actorID, _, orgID, _) := authorisedOrganisationMutationTx actorUserID organisationID in
  let! row := reads (product_by_key productKey) in
  let! product := some_or row ErrProductNotFound in
  do! require (p_status product =s ProductActive) ErrProductRetired in
  let! row := reads (fun db => find (fun u => is_active_user (TrimSpace targetUserID) u
                && existsb (current_member orgID (u_id u)) (organisation_memberships db)) (users db)) in
  let! target := some_or row ErrUnauthorisedOrganisationAction in
  let! active := reads (fun db => existsb (assigned (u_id target) orgID productKey) (assignments db)) in
  do! require (negb active) ErrDuplicateUserProductAssignment in
  do! within "create user product assignment" (insert_row assignments set_assignments assignments_ok (fun id =>
        mkAssignmentRow id assignmentID (u_id target) orgID productKey GrantActive actorID (formatTime at_)
          None None "")) in
  do! recordOrganisationProductAuditTx actorID organisationID eventAssignmentGranted
        (mkPAD productKey organisationID targetUserID "" assignmentID GrantActive (TrimSpace reason))
        at_ (rs 1%nat) in
  ret (mkAssignment assignmentID targetUserID organisationID productKey GrantActive true actorUserID at_ "" None "").

(** The row of the query and the public id of its user. *)
Definition assignment_of (organisationID assignmentID : string) (db : DB) : option (AssignmentRow * UserRow) :=
  match find (fun a => (g_public_id a =s assignmentID) && in_organisation db organisationID (g_organisation_id a)
                && existsb (fun u => u_id u =? g_user_id a) (users db)) (assignments db) with
  | Some a => option_map (pair a) (user_by_id db (g_user_id a))
  | None => None
  end.

Definition RevokeUserProduct (actorUserID organisationID assignmentID reason : string) (at_ : Z) (rs : rng)
  : St DB error unit :=
  do! lift (validateMutationReason reason) in
  do! require (negb (IsZero at_)) (Text "user product assignment revocation time is required") in
  let! row := reads (assignment_of (TrimSpace organisationID) (TrimSpace assignmentID)) in
  let! (a, target) := some_or row ErrProductAssignmentNotFound in
  let! (actorID, _, _, _) := authorisedOrganisationMutationTx actorUserID organisationID in
  do! require (g_status a =s GrantActive) ErrProductAssignmentInactive in
  do! modify (fun db => set_assignments
        (update (fun x => (g_id x =? g_id a) && (g_status x =s GrantActive))
           (revoked_assignment actorID at_ reason) (assignments db)) db) in
  recordOrganisationProductAuditTx actorID organisationID eventAssignmentRevoked
    (mkPAD (g_product_key a) organisationID (u_public_id target) "" assignmentID GrantRevoked (TrimSpace reason))
    at_ (rs 0%nat).

(** ** Reads *)

Record ProductAccess := mkProductAccess {
  pa_UserID : string; pa_OrganisationID : string; pa_ProductKey : string; pa_WorkspaceID : string;
  pa_OrganisationRole : string; pa_WorkspaceRole : string }.

Definition product_of_row (p : ProductRow) : Product :=
  mkProduct (p_key p) (p_display_name p) (p_status p) (parseTime (p_created_at p))
    (option_map parseTime (p_retired_at p)).

(** [ORDER BY product_key] *)
Definition key_before (a b : ProductRow) : bool := text_lt (p_key a) (p_key b).

Definition ListProducts (requesterUserID : string) (db : DB) : res (list Product) :=
  let? _ := requireSystemAdmin requesterUserID db in
  Ok (map product_of_row (sort_by key_before (products db))).

Definition optional_user (db : DB) (id : option Z) : string :=
  match id with Some i => user_public_id db i | None => "" end.

Definition entitlement_of_row (db : DB) (o : OrganisationRow) (p : ProductRow) (granted : UserRow)
    (e : EntitlementRow) : OrganisationProductEntitlement :=
  mkEntitlement (e_public_id e) (o_public_id o) (e_product_key e) (e_status e)
    ((e_status e =s GrantActive) && (o_status o =s OrganisationActive) && (p_status p =s ProductActive))
    (u_public_id granted) (parseTime (e_granted_at e)) (optional_user db (e_revoked_by e))
    (option_map parseTime (e_revoked_at e)) (e_revocation_reason e).

Definition ListOrganisationProductEntitlements (requesterUserID organisationID : string) (db : DB)
  : res (list OrganisationProductEntitlement) :=
  let? orgID := authorisedOrganisationRead requesterUserID organisationID true db in
  Ok (flat_map (fun e =>
        flat_map (fun o => flat_map (fun p => map (fun u => entitlement_of_row db o p u e)
            (select (fun u => u_id u =? e_granted_by e) (users db)))
          (select (fun p => p_key p =s e_product_key e) (products db)))
        (select (fun o => o_id o =? e_organisation_id e) (organisations db)))
      (sort_by (earlier e_id e_granted_at) (select (fun e => e_organisation_id e =? orgID) (entitlements db)))).

Definition assignment_of_row (db : DB) (u : UserRow) (o : OrganisationRow) (by_ : UserRow)
    (a : AssignmentRow) : UserProductAssignment :=
  mkAssignment (g_public_id a) (u_public_id u) (o_public_id o) (g_product_key a) (g_status a)
    (g_status a =s GrantActive) (u_public_id by_) (parseTime (g_assigned_at a))
    (optional_user db (g_revoked_by a)) (option_map parseTime (g_revoked_at a)) (g_revocation_reason a).

Definition ListUserProductAssignments (requesterUserID organisationID : string) (db : DB)
  : res (list UserProductAssignment) :=
  let? orgID := authorisedOrganisationRead requesterUserID organisationID true db in
  Ok (flat_map (fun a =>
        flat_map (fun u => flat_map (fun o => flat_map (fun _ => map (fun v => assignment_of_row db u o v a)
              (select (fun v => u_id v =? g_assigned_by a) (users db)))
            (select (fun p => p_key p =s g_product_key a) (products db)))
          (select (fun o => o_id o =? g_organisation_id a) (organisations db)))
        (select (fun u => u_id u =? g_user_id a) (users db)))
      (sort_by (earlier g_id g_assigned_at) (select (fun a => g_organisation_id a =? orgID) (assignments db)))).

(** [w.organisation_id=o.id AND w.status='active'] with the LEFT JOIN on the
    user's current workspace membership and the role condition. *)
Definition may_enter (db : DB) (userID orgID : Z) (role workspaceID : string) (w : WorkspaceRow) : bool :=
  (w_public_id w =s workspaceID) && (w_organisation_id w =? orgID) && (w_status w =s WorkspaceActive)
  && (OrganisationRole_CanAdminister role
      || existsb (current_member (w_id w) userID) (workspace_memberships db)).

(** The joins of ListLaunchableProducts for one product. *)
Definition launchable (db : DB) (userID organisationID workspaceID : string) (p : ProductRow) : bool :=
  (p_status p =s ProductActive)
  && match active_user db userID with
     | None => false
     | Some u =>
         existsb (fun o => (o_public_id o =s organisationID) && (o_status o =s OrganisationActive)
           && existsb (entitled (o_id o) (p_key p)) (entitlements db)
           && existsb (assigned (u_id u) (o_id o) (p_key p)) (assignments db)
           && existsb (fun om => current_member (o_id o) (u_id u) om
                && existsb (may_enter db (u_id u) (o_id o) (m_role om) workspaceID) (workspaces db))
                (organisation_memberships db)) (organisations db)
     end.

Definition ListLaunchableProducts (userID organisationID workspaceID : string) (db : DB) : res (list Product) :=
  if blank userID || blank organisationID || blank workspaceID then Err (Sentinel ErrProductAccessDenied)
  else Ok (map product_of_row (sort_by key_before
             (select (launchable db (TrimSpace userID) (TrimSpace organisationID) (TrimSpace workspaceID))
                (products db)))).

Definition active_organisation (organisationID : string) (db : DB) : option OrganisationRow :=
  find (fun o => (o_public_id o =s organisationID) && (o_status o =s OrganisationActive)) (organisations db).

(** The row of ProveProductAccess's query. *)
Definition access_row (db : DB) (userID organisationID productKey workspaceID : string) : option ProductAccess :=
  match active_user db userID, active_organisation organisationID db,
        find (retirable productKey) (products db), active_workspace workspaceID db with
  | Some u, Some o, Some p, Some w =>
      match find (current_member (o_id o) (u_id u)) (organisation_memberships db) with
      | Some om =>
          if existsb (entitled (o_id o) (p_key p)) (entitlements db)
             && existsb (assigned (u_id u) (o_id o) (p_key p)) (assignments db)
             && may_enter db (u_id u) (o_id o) (m_role om) workspaceID w
          then Some (mkProductAccess (u_public_id u) (o_public_id o) (p_key p) (w_public_id w) (m_role om)
                       (current_role (w_id w) (u_id u) (workspace_memberships db)))
          else None
      | None => None
      end
  | _, _, _, _ => None
  end.

Definition ProveProductAccess (userID organisationID productKey workspaceID : string) (db : DB)
  : res ProductAccess :=
  if negb (validProductKey (TrimSpace productKey)) then Err (Sentinel ErrProductAccessDenied)
  else match access_row db userID organisationID (TrimSpace productKey) workspaceID with
       | Some access => Ok access
       | None => Err (Sentinel ErrProductAccessDenied)
       end.

(** ** The invariant of the catalogue, the entitlements and the assignments *)

(** A product's retirement time agrees with its status. *)
Definition product_status_ok (p : ProductRow) : bool :=
  match p_retired_at p with
  | None => p_status p =s ProductActive
  | Some _ => p_status p =s ProductRetired
  end.

Record product_wf (ps : list ProductRow) (es : list EntitlementRow) (gs : list AssignmentRow) : Prop := {
  pw_keys : NoDup (map p_key ps);
  pw_status : forall p, In p ps -> product_status_ok p = true;
  pw_ent_ids : ids_unique es;
  pw_ent_public : NoDup (map e_public_id es);
  pw_ent_state : forall e, In e es ->
    grant_ok (e_status e) (e_revoked_by e) (e_revoked_at e) (e_revocation_reason e) = true;
  pw_ent_product : forall e, In e es -> exists p, In p ps /\ p_key p = e_product_key e;
  pw_ent_current : forall org key, count (entitled org key) es <= 1;
  pw_asg_ids : ids_unique gs;
  pw_asg_public : NoDup (map g_public_id gs);
  pw_asg_state : forall g, In g gs ->
    grant_ok (g_status g) (g_revoked_by g) (g_revoked_at g) (g_revocation_reason g) = true;
  pw_asg_product : forall g, In g gs -> exists p, In p ps /\ p_key p = g_product_key g;
  pw_asg_current : forall uid org key, count (assigned uid org key) gs <= 1 }.
Definition product_inv (db : DB) : Prop := product_wf (products db) (entitlements db) (assignments db).

Lemma product_inv_empty : product_inv empty_db.
Proof.
  split; try (unfold ids_unique; by_computation); try done.
  - intros p Hp. by repeat (destruct Hp as [<-|Hp]; [done|]).
Qed.
Lemma product_inv_log : ignores_log product_inv.
Proof. by split. Qed.

(** A new grant that its UNIQUE index admits is the only current one. *)
Lemma count_current {R} (p : R -> bool) t r :
  count p t <= 1 -> (p r = true -> count p t = 0) -> count p (t ++ [r])%list <= 1.
Proof. intros Ht Hr. rewrite count_snoc. destruct (p r); [rewrite Hr by done; lia|lia]. Qed.

Lemma fresh_zero {R} (same p : R -> bool) t :
  fresh same t = true -> (forall x, In x t -> p x = true -> same x = true) -> count p t = 0.
Proof.
  rewrite fresh_spec. intros Hf Hp. apply count_zero. intros x Hx. apply not_true_is_false. intros E.
  specialize (Hf x Hx). by rewrite (Hp x Hx E) in Hf.
Qed.

Lemma product_wf_entitle ps es gs e p :
  product_wf ps es gs -> entitlements_ok es e = true -> e_id e = next_id es ->
  In p ps -> p_key p = e_product_key e -> product_wf ps (es ++ [e])%list gs.
Proof.
  intros Hwf Hok Hid Hp Hkey. unfold entitlements_ok in Hok. bool_hyps. split; try apply Hwf.
  - by apply ids_unique_snoc; [apply Hwf|].
  - by apply NoDup_map_snoc; [apply Hwf|].
  - intros x [Hx|[<-|[]]]%in_app_or; [by apply Hwf|done].
  - intros x [Hx|[<-|[]]]%in_app_or; [by apply Hwf|eauto].
  - intros org key. apply count_current; [apply Hwf|]. intros Er. eapply fresh_zero; [eassumption|].
    intros x _ Ex. unfold entitled in *. bool_hyps. str_eq.
    repeat match goal with Hz : (_ =? _) = true |- _ => apply Z.eqb_eq in Hz end.
    rewrite !andb_true_iff, Z.eqb_eq, !String.eqb_eq. unfold GrantActive in *. split_and!; congruence.
Qed.

Lemma product_wf_assign ps es gs g p :
  product_wf ps es gs -> assignments_ok gs g = true -> g_id g = next_id gs ->
  In p ps -> p_key p = g_product_key g -> product_wf ps es (gs ++ [g])%list.
Proof.
  intros Hwf Hok Hid Hp Hkey. unfold assignments_ok in Hok. bool_hyps. split; try apply Hwf.
  - by apply ids_unique_snoc; [apply Hwf|].
  - by apply NoDup_map_snoc; [apply Hwf|].
  - intros x [Hx|[<-|[]]]%in_app_or; [by apply Hwf|done].
  - intros x [Hx|[<-|[]]]%in_app_or; [by apply Hwf|eauto].
  - intros uid org key. apply count_current; [apply Hwf|]. intros Er. eapply fresh_zero; [eassumption|].
    intros x _ Ex. unfold assigned in *. bool_hyps. str_eq.
    repeat match goal with Hz : (_ =? _) = true |- _ => apply Z.eqb_eq in Hz end.
    rewrite !andb_true_iff, !Z.eqb_eq, !String.eqb_eq. unfold GrantActive in *. split_and!; congruence.
Qed.

(** The reason written by a revocation passes the table's CHECK. *)
Lemma revoked_grant_ok actor t reason u :
  validateMutationReason reason = Ok u ->
  grant_ok GrantRevoked (Some actor) (Some (formatTime t)) (TrimSpace reason) = true.
Proof.
  intros [Hr _]%validateMutationReason_Ok. simpl. unfold sql_blank. rewrite TrimSpace_not_spaces; [done| |done].
  intros c Hc. unfold is_space, space1 in *. by rewrite Hc.
Qed.

Lemma product_wf_revoke_entitlement ps es gs q actor t reason u :
  product_wf ps es gs -> validateMutationReason reason = Ok u ->
  product_wf ps (update q (revoked_entitlement actor t reason) es) gs.
Proof.
  intros Hwf Hr. split; try apply Hwf.
  - by apply ids_unique_update; [|apply Hwf].
  - rewrite map_update by done. apply Hwf.
  - intros e (x & Hx & ->)%in_update. destruct (q x); [|by apply Hwf].
    by apply (revoked_grant_ok _ _ _ u).
  - intros e (x & Hx & ->)%in_update. destruct (pw_ent_product _ _ _ Hwf x Hx) as (p & ? & ?).
    exists p. by destruct (q x).
  - intros org key. etransitivity; [apply count_update_le|apply Hwf].
    intros. unfold entitled. simpl. apply andb_false_r.
Qed.

Lemma product_wf_revoke_assignment ps es gs q actor t reason u :
  product_wf ps es gs -> validateMutationReason reason = Ok u ->
  product_wf ps es (update q (revoked_assignment actor t reason) gs).
Proof.
  intros Hwf Hr. split; try apply Hwf.
  - by apply ids_unique_update; [|apply Hwf].
  - rewrite map_update by done. apply Hwf.
  - intros e (x & Hx & ->)%in_update. destruct (q x); [|by apply Hwf].
    by apply (revoked_grant_ok _ _ _ u).
  - intros e (x & Hx & ->)%in_update. destruct (pw_asg_product _ _ _ Hwf x Hx) as (p & ? & ?).
    exists p. by destruct (q x).
  - intros uid org key. etransitivity; [apply count_update_le|apply Hwf].
    intros. unfold assigned. simpl. apply andb_false_r.
Qed.

Lemma product_wf_retire ps es gs key t :
  product_wf ps es gs -> product_wf (update (retirable key) (retired_product t) ps) es gs.
Proof.
  intros Hwf.
  assert (forall k, (exists p, In p ps /\ p_key p = k) ->
    exists p, In p (update (retirable key) (retired_product t) ps) /\ p_key p = k) as Hkeep.
  { intros k (p & Hp & <-). exists (if retirable key p then retired_product t p else p).
    split; [apply in_update; eauto|by destruct (retirable key p)]. }
  split; try apply Hwf.
  - rewrite map_update by done. apply Hwf.
  - intros p (x & Hx & ->)%in_update. destruct (retirable key x); [done|by apply Hwf].
  - intros e He. by apply Hkeep, Hwf.
  - intros g Hg. by apply Hkeep, Hwf.
Qed.

(** ** Every operation keeps the invariant *)

Lemma preserves_product_audit P a k e d t rand :
  ignores_log P -> preserves P (recordProductAuditTx a k e d t rand).
Proof. intros HP. unfold recordProductAuditTx, appendProductEventTx. frame_ops. Qed.
Lemma preserves_organisation_product_audit P a o e d t rand :
  ignores_log P -> preserves P (recordOrganisationProductAuditTx a o e d t rand).
Proof. intros HP. unfold recordOrganisationProductAuditTx, appendAccessEventTx. frame_ops. Qed.
Lemma preserves_systemAdmin P a : preserves P (systemAdminInternalTx a).
Proof. unfold systemAdminInternalTx. frame_tx. Qed.
#[export] Hint Resolve preserves_product_audit preserves_organisation_product_audit preserves_systemAdmin : frame.

Ltac strip_product_log HP :=
  repeat match goal with
  | Hrec : recordOrganisationProductAuditTx _ _ _ _ _ _ _ = Ok (_, ?d) |- _ ?d =>
      apply (preserves_organisation_product_audit _ _ _ _ _ _ _ HP _ _ _ Hrec)
  | Hrec : recordProductAuditTx _ _ _ _ _ _ _ = Ok (_, ?d) |- _ ?d =>
      apply (preserves_product_audit _ _ _ _ _ _ _ HP _ _ _ Hrec)
  end.

Lemma systemAdmin_Ok actor db i db' :
  systemAdminInternalTx actor db = Ok (i, db') <->
  db' = db /\ exists u, find (fun u => is_active_user (TrimSpace actor) u && system_admin db (u_id u)) (users db)
                        = Some u /\ i = u_id u.
Proof.
  unfold systemAdminInternalTx. split.
  - intros Hop. inv_db. split; [done|]. eauto.
  - intros (-> & u & Hu & ->). unfold bind, reads, Prelude.some_or, ret. by rewrite Hu.
Qed.

Ltac inv_product_step :=
  first [ inv_org_step
        | match goal with
          | Ha : systemAdminInternalTx _ _ = Ok _ |- _ =>
              apply systemAdmin_Ok in Ha; destruct Ha as (? & ? & ? & ?); subst
          end ].
Ltac inv_product := repeat (inv_product_step; cbn [fst snd] in *).

Lemma product_by_key_In key db p : product_by_key key db = Some p -> In p (products db) /\ p_key p = key.
Proof. intros [Hin He]%find_some. split; [done|by apply String.eqb_eq]. Qed.

Lemma preserves_RetireProduct a k r t rs : preserves product_inv (RetireProduct a k r t rs).
Proof.
  intros db res db' Hop Hwf. unfold RetireProduct in Hop. inv_product; strip_product_log product_inv_log;
    by apply product_wf_retire.
Qed.
Lemma preserves_EntitleOrganisation a o k r t rs : preserves product_inv (EntitleOrganisation a o k r t rs).
Proof.
  intros db res db' Hop Hwf. unfold EntitleOrganisation in Hop. inv_product. strip_product_log product_inv_log.
  match goal with Hf : product_by_key _ _ = Some _ |- _ => apply product_by_key_In in Hf as [Hin Hk] end.
  by eapply product_wf_entitle.
Qed.
Lemma preserves_RevokeOrganisationEntitlement a o e r t rs :
  preserves product_inv (RevokeOrganisationEntitlement a o e r t rs).
Proof.
  intros db res db' Hop Hwf. unfold RevokeOrganisationEntitlement in Hop. inv_product.
  strip_product_log product_inv_log. by eapply product_wf_revoke_entitlement.
Qed.
Lemma preserves_AssignUserProduct a o u k r t rs : preserves product_inv (AssignUserProduct a o u k r t rs).
Proof.
  intros db res db' Hop Hwf. unfold AssignUserProduct in Hop. inv_product. strip_product_log product_inv_log.
  match goal with Hf : product_by_key _ _ = Some _ |- _ => apply product_by_key_In in Hf as [Hin Hk] end.
  by eapply product_wf_assign.
Qed.
Lemma preserves_RevokeUserProduct a o g r t rs : preserves product_inv (RevokeUserProduct a o g r t rs).
Proof.
  intros db res db' Hop Hwf. unfold RevokeUserProduct in Hop. inv_product.
  strip_product_log product_inv_log. by eapply product_wf_revoke_assignment.
Qed.

(** ** The shared access rule *)

(** The rule of the source's documentation: an active user with a current
    membership of an active organisation, an active product the organisation is
    entitled to and the user is assigned in it, and an active workspace of the
    organisation that the user administers by organisation role or belongs to. *)
Definition may_use_product (db : DB) (userID organisationID productKey workspaceID : string) : Prop :=
  exists u o p w m,
    (In u (users db) /\ u_public_id u = userID /\ u_active u = true)
    /\ (In o (organisations db) /\ o_public_id o = organisationID /\ o_status o = OrganisationActive)
    /\ (In p (products db) /\ p_key p = productKey /\ p_status p = ProductActive)
    /\ (In w (workspaces db) /\ w_public_id w = workspaceID /\ w_organisation_id w = o_id o
        /\ w_status w = WorkspaceActive)
    /\ (In m (organisation_memberships db) /\ current_member (o_id o) (u_id u) m = true)
    /\ (exists e, In e (entitlements db) /\ entitled (o_id o) productKey e = true)
    /\ (exists g, In g (assignments db) /\ assigned (u_id u) (o_id o) productKey g = true)
    /\ (OrganisationRole_CanAdminister (m_role m) = true
        \/ exists x, In x (workspace_memberships db) /\ current_member (w_id w) (u_id u) x = true).


Section Access.
Context (db : DB) (Husers : user_inv db) (Horgs : org_inv db) (Hwsps : workspace_inv db)
        (Hprods : product_inv db).

Lemma active_organisation_Some organisationID o :
  active_organisation organisationID db = Some o <->
  In o (organisations db) /\ o_public_id o = organisationID /\ o_status o = OrganisationActive.
Proof using Horgs.
  unfold active_organisation. split.
  - intros [Hin Hp]%find_some. bool_hyps. str_eq. done.
  - intros (Hin & <- & Hst). apply (find_key o_public_id); [apply Horgs|done| |].
    + by rewrite String.eqb_refl, Hst.
    + intros y _ Hy. bool_hyps. by str_eq.
Qed.
Lemma active_workspace_Some workspaceID w :
  active_workspace workspaceID db = Some w <->
  In w (workspaces db) /\ w_public_id w = workspaceID /\ w_status w = WorkspaceActive.
Proof using Hwsps.
  unfold active_workspace. split.
  - intros [Hin Hp]%find_some. bool_hyps. str_eq. done.
  - intros (Hin & <- & Hst). apply (find_key w_public_id); [apply Hwsps|done| |].
    + by rewrite String.eqb_refl, Hst.
    + intros y _ Hy. bool_hyps. by str_eq.
Qed.
Lemma active_product_Some key p :
  find (retirable key) (products db) = Some p <->
  In p (products db) /\ p_key p = key /\ p_status p = ProductActive.
Proof using Hprods.
  unfold retirable. split.
  - intros [Hin Hp]%find_some. bool_hyps. str_eq. done.
  - intros (Hin & <- & Hst). apply (find_key p_key); [apply Hprods|done| |].
    + by rewrite String.eqb_refl, Hst.
    + intros y _ Hy. bool_hyps. by str_eq.
Qed.

Lemma may_enter_iff uid org role wid w :
  may_enter db uid org role wid w = true <->
  w_public_id w = wid /\ w_organisation_id w = org /\ w_status w = WorkspaceActive
  /\ (OrganisationRole_CanAdminister role = true
      \/ exists x, In x (workspace_memberships db) /\ current_member (w_id w) uid x = true).
Proof using.
  unfold may_enter. rewrite !andb_true_iff, orb_true_iff, !String.eqb_eq, Z.eqb_eq, existsb_exists. tauto.
Qed.

Lemma access_row_granted uid oid key wid :
  (exists access, access_row db uid oid key wid = Some access) <-> may_use_product db uid oid key wid.
Proof using Husers Horgs Hwsps Hprods.
  unfold access_row, may_use_product. split.
  - intros (access & H).
    destruct (active_user db uid) as [u|] eqn:Eu; [|done].
    destruct (active_organisation oid db) as [o|] eqn:Eo; [|done].
    destruct (find (retirable key) _) as [p|] eqn:Ep; [|done].
    destruct (active_workspace wid db) as [w|] eqn:Ew; [|done].
    destruct (find (current_member _ _) _) as [m|] eqn:Em; [|done].
    destruct (existsb _ _ && _ && _) eqn:E; [|done]. bool_hyps.
    apply (active_user_Some _ _ _ Husers) in Eu. apply active_organisation_Some in Eo.
    apply active_product_Some in Ep as (Hp & <- & Hps). apply active_workspace_Some in Ew as (Hw & Hwid & Hws).
    apply find_some in Em. exists u, o, p, w, m. rewrite !existsb_exists, may_enter_iff in *.
    split_and!; try tauto.
  - intros (u & o & p & w & m & Hu & Ho & Hp & (Hw & Hwid & Hworg & Hws) & Hm & He & Hg & Hrole).
    rewrite (proj2 (active_user_Some _ _ _ Husers) Hu), (proj2 (active_organisation_Some _ _) Ho),
      (proj2 (active_product_Some _ _) Hp), (proj2 (active_workspace_Some _ _) (conj Hw (conj Hwid Hws))).
    rewrite (find_count _ _ m (ow_current _ _ Horgs _ _)) by tauto.
    destruct Hp as (_ & -> & _).
    assert (may_enter db (u_id u) (o_id o) (m_role m) wid w = true) as -> by (by apply may_enter_iff).
    rewrite <-!existsb_exists in *. rewrite He, Hg. eauto.
Qed.

Lemma launchable_granted uid oid wid p :
  In p (products db) ->
  launchable db uid oid wid p = true <-> may_use_product db uid oid (p_key p) wid.
Proof using Husers Hprods.
  intros Hp. unfold launchable, may_use_product. rewrite andb_true_iff, String.eqb_eq. split.
  - intros [Hst H]. destruct (active_user db uid) as [u|] eqn:Eu; [|done].
    apply (active_user_Some _ _ _ Husers) in Eu.
    apply existsb_exists in H as (o & Ho & H). bool_hyps. str_eq.
    match goal with Hx : existsb (fun _ => _ && existsb _ _) _ = true |- _ =>
      apply existsb_exists in Hx as (m & Hm & Hx); apply andb_true_iff in Hx as [Hc Hx];
      apply existsb_exists in Hx as (w & Hw & (? & ? & ? & ?)%may_enter_iff) end.
    exists u, o, p, w, m. rewrite !existsb_exists in *. split_and!; try tauto.
  - intros (u & o & q & w & m & Hu & (Ho & Hoid & Host) & (Hq & Hk & Hst) & (Hw & Hwid & Hworg & Hws)
            & (Hm & Hc) & He & Hg & Hrole).
    assert (q = p) as -> by (by eapply (NoDup_map_inj_in p_key); [apply Hprods|..]). split; [done|].
    rewrite (proj2 (active_user_Some _ _ _ Husers) Hu). apply existsb_exists. exists o. split; [done|].
    rewrite <-!existsb_exists in He, Hg. rewrite Host, Hoid, He, Hg, String.eqb_refl. cbn.
    apply existsb_exists. exists m. split; [done|]. rewrite Hc. apply existsb_exists. exists w.
    split; [done|]. by apply may_enter_iff.
Qed.
End Access.

(** ** Properties *)

(** C8: product access is proved exactly for the users the shared rule names, and
    every other request is denied with the one access error. The four invariants
    hold of every reachable database. *)
Theorem product_access_decision db uid oid key wid :
  user_inv db -> org_inv db -> workspace_inv db -> product_inv db ->
  ((exists access, ProveProductAccess uid oid key wid db = Ok access)
     <-> validProductKey (TrimSpace key) = true /\ may_use_product db uid oid (TrimSpace key) wid)
  /\ (forall e, ProveProductAccess uid oid key wid db = Err e -> e = Sentinel ErrProductAccessDenied).
Proof.
  intros Hu Ho Hw Hp. unfold ProveProductAccess. rewrite <-access_row_granted by done.
  destruct (validProductKey _); [|naive_solver].
  destruct (access_row _ _ _ _ _) as [a|]; cbn [negb]; naive_solver.
Qed.

(** C36: the launcher shows exactly the products the access proof admits: for
    well-formed identifiers ListLaunchableProducts and ProveProductAccess agree
    on every product key, and the list is ordered by key. *)
Theorem launch_list_exact db uid oid wid ps :
  user_inv db -> org_inv db -> workspace_inv db -> product_inv db ->
  TrimSpace uid = uid -> TrimSpace oid = oid -> TrimSpace wid = wid ->
  ListLaunchableProducts uid oid wid db = Ok ps ->
  (forall key, TrimSpace key = key -> validProductKey key = true ->
     In key (map Product_Key ps) <-> exists access, ProveProductAccess uid oid key wid db = Ok access)
  /\ StronglySorted (fun a b => text_lt (Product_Key b) (Product_Key a) = false) ps.
Proof.
  intros Hu Ho Hw Hp Tu To Tw Hl. unfold ListLaunchableProducts in Hl. rewrite Tu, To, Tw in Hl.
  destruct (_ || _); [done|]. injection Hl as <-. split.
  - intros key Tk Hk. unfold ProveProductAccess. rewrite Tk, Hk. cbn [negb].
    rewrite map_map, in_map_iff.
    transitivity (may_use_product db uid oid key wid).
    2:{ rewrite <-access_row_granted by done. destruct (access_row _ _ _ _ _); naive_solver. }
    split.
    + intros (p & <- & [Hin Hl]%in_sort_by%filter_In). by apply launchable_granted.
    + intros Hmay. pose proof Hmay as (_ & _ & p & _ & _ & _ & _ & (Hin & Hkey & _) & _).
      exists p. split; [done|]. apply in_sort_by, filter_In. split; [done|].
      apply launchable_granted; [done..|]. by rewrite Hkey.
  - apply (StronglySorted_map product_of_row). apply sort_by_sorted.
    + intros a b. apply text_lt_asym.
    + intros a b c. apply text_ge_trans.
Qed.

(** One audit row by the actor under the organisation and one event for the grant
    were added, and nothing else changed. *)
Definition access_logged (actorID : Z) (organisationID event eventType grantID : string) (db db' : DB) : Prop :=
  exists a e, db' = set_outbox (outbox db ++ [e])%list (set_audit_events (audit_events db ++ [a])%list db)
    /\ a_actor_user_id a = Some actorID /\ a_event a = event /\ a_aggregate_id a = organisationID
    /\ ob_event_type e = eventType /\ ob_aggregate_id e = TrimSpace grantID
    /\ Event_Validate (row_event e) = Ok tt.

Lemma organisation_product_audit_Ok actorID oid event d t rand db u db' :
  four_digit_year t -> (exists v, In v (users db) /\ u_id v = actorID) ->
  recordOrganisationProductAuditTx actorID oid event d t rand db = Ok (u, db') ->
  exists eventType agg extra, access_event event d = Some (eventType, agg, extra)
    /\ access_logged actorID oid event eventType agg db db'.
Proof.
  intros Ht (v & Hv & <-) Hop. destruct (user_by_id_In db v Hv) as [w Hw].
  unfold recordOrganisationProductAuditTx, insert_audit, appendAccessEventTx in Hop. inv_db; [|congruence].
  match goal with Ha : appendPlatformEventTx _ _ _ _ _ _ = Ok _ |- _ =>
    apply append_Ok in Ha as (e & Hval & Hty & Hagg & Hat & _ & _ & _ & ->) end.
  eexists _, _, _. split; [done|]. eexists _, _. split; [reflexivity|]. split_and!; try done.
  rewrite row_event_event_row; [done|]. by rewrite Hat.
Qed.


(** an entitlement that commits was granted by someone allowed to administer
    the active organisation, for a product that is active and the organisation
    was not entitled to; exactly one active entitlement row is added, and one
    audit record and one event are logged. *)
Theorem entitlement_grant_exact actor org key reason t rs db res db' :
  four_digit_year t -> EntitleOrganisation actor org key reason t rs db = Ok (res, db') ->
  exists ai ar oi sa p new,
    may_administer db actor org ai ar oi sa
    /\ In p (products db) /\ p_key p = TrimSpace key /\ p_status p = ProductActive
    /\ count (entitled oi (TrimSpace key)) (entitlements db) = 0
    /\ entitled oi (TrimSpace key) new = true /\ e_public_id new = Ent_ID res /\ e_granted_by new = ai
    /\ access_logged ai org eventEntitlementGranted EventEntitlementGranted (Ent_ID res)
         (set_entitlements (entitlements db ++ [new])%list db) db'.
Proof.
  intros Ht Hop. unfold EntitleOrganisation in Hop. inv_product.
  match goal with Hm : may_administer _ _ _ _ _ _ _, Hf : product_by_key _ _ = Some _,
    He : negb (existsb _ _) = true, Hr : recordOrganisationProductAuditTx _ _ _ _ _ _ _ = Ok _ |- _ =>
    pose proof (may_administer_actor _ _ _ _ _ _ _ Hm) as Hact;
    apply product_by_key_In in Hf as [Hin Hk]; apply negb_true_iff, existsb_count in He;
    apply organisation_product_audit_Ok in Hr as (ty & agg & extra & [= <- <- <-] & Hlog); [|done..] end.
  str_eq. eexists _, _, _, _, _, _. split_and!.
  9: exact Hlog.
  all: try eassumption; try done.
  unfold entitled. cbn. by rewrite Z.eqb_refl, String.eqb_refl.
Qed.

(** an assignment that commits was made by someone allowed to administer the
    active organisation, for an active product and an active user who is a
    current member of the organisation and was not assigned yet; exactly one
    active assignment row is added, and one audit record and one event logged. *)
Theorem assignment_grant_exact actor org target key reason t rs db res db' :
  four_digit_year t -> AssignUserProduct actor org target key reason t rs db = Ok (res, db') ->
  exists ai ar oi sa p u m new,
    may_administer db actor org ai ar oi sa
    /\ (In p (products db) /\ p_key p = TrimSpace key /\ p_status p = ProductActive)
    /\ (In u (users db) /\ is_active_user (TrimSpace (TrimSpace target)) u = true)
    /\ (In m (organisation_memberships db) /\ current_member oi (u_id u) m = true)
    /\ count (assigned (u_id u) oi (TrimSpace key)) (assignments db) = 0
    /\ assigned (u_id u) oi (TrimSpace key) new = true /\ g_public_id new = Asg_ID res
    /\ access_logged ai org eventAssignmentGranted EventAssignmentGranted (Asg_ID res)
         (set_assignments (assignments db ++ [new])%list db) db'.
Proof.
  intros Ht Hop. unfold AssignUserProduct in Hop. inv_product.
  match goal with Hm : may_administer _ _ _ _ _ _ _, Hf : product_by_key _ _ = Some _,
    Hu : find _ _ = Some ?u,
    He : negb (existsb _ _) = true, Hr : recordOrganisationProductAuditTx _ _ _ _ _ _ _ = Ok _ |- _ =>
    pose proof (may_administer_actor _ _ _ _ _ _ _ Hm) as Hact;
    apply product_by_key_In in Hf as [Hin Hk]; apply negb_true_iff, existsb_count in He;
    apply find_some in Hu as [Hu Hmem]; apply andb_true_iff in Hmem as [Hua Hmem];
    apply existsb_exists in Hmem as (m & Hmi & Hmc);
    apply organisation_product_audit_Ok in Hr as (ty & agg & extra & [= <- <- <-] & Hlog); [|done..] end.
  str_eq. eexists _, _, _, _, _, _, m, _. split_and!.
  12: exact Hlog.
  all: try eassumption; try done.
  unfold assigned. cbn. by rewrite !Z.eqb_refl, String.eqb_refl.
Qed.

Lemma in_organisation_id db org id o :
  org_inv db -> in_organisation db org id = true -> In o (organisations db) -> o_public_id o = org -> id = o_id o.
Proof.
  intros Hwf [x [Hx Hp]]%existsb_exists Ho <-. apply andb_true_iff in Hp as [Hid Hpub].
  apply Z.eqb_eq in Hid. apply String.eqb_eq in Hpub. rewrite <-Hid. f_equal.
  by eapply (NoDup_map_inj_in o_public_id); [apply Hwf|..].
Qed.

(** After the only current grant is revoked, none is left. *)
Lemma revoke_leaves_none {R} (g : R -> Z) (p current : R -> bool) f t e :
  count p t <= 1 -> In e t -> p e = true -> (forall x, p x = true -> current x = true) ->
  (forall x, p (f x) = false) ->
  existsb p (update (fun x => (g x =? g e) && current x) f t) = false.
Proof.
  intros Hc Hin Hp Hcur Hf. apply not_true_is_false. intros (y & (x & Hx & ->)%in_update & Hy)%existsb_exists.
  destruct ((g x =? g e) && current x) eqn:E; [by rewrite Hf in Hy|].
  assert (x = e) as ->.
  { pose proof (find_count _ _ _ Hc Hin Hp) as H1. rewrite (find_count _ _ _ Hc Hx Hy) in H1. by injection H1. }
  by rewrite Z.eqb_refl, Hcur in E.
Qed.

Lemma access_row_needs db uid oid key wid access :
  access_row db uid oid key wid = Some access ->
  exists u o p, active_user db uid = Some u /\ active_organisation oid db = Some o
    /\ In p (products db) /\ p_key p = key /\ p_status p = ProductActive
    /\ existsb (entitled (o_id o) key) (entitlements db) = true
    /\ existsb (assigned (u_id u) (o_id o) key) (assignments db) = true.
Proof.
  unfold access_row. intros H.
  destruct (active_user db uid) as [u|]; [|done]. destruct (active_organisation oid db) as [o|]; [|done].
  destruct (find (retirable key) _) as [p|] eqn:Ep; [|done].
  destruct (active_workspace wid db); [|done]. destruct (find _ (organisation_memberships db)); [|done].
  destruct (_ && _) eqn:E; [|done]. apply find_some in Ep as [Hin Hk]. unfold retirable in Hk. bool_hyps. str_eq.
  subst. exists u, o, p. done.
Qed.

Lemma access_denied db uid oid key wid :
  (forall access, access_row db uid oid (TrimSpace key) wid <> Some access) ->
  ProveProductAccess uid oid key wid db = Err (Sentinel ErrProductAccessDenied).
Proof.
  intros H. unfold ProveProductAccess. destruct (validProductKey _); [|done]. cbn.
  destruct (access_row _ _ _ _ _) as [a|] eqn:E; [by destruct (H a)|done].
Qed.

(** Revoking an entitlement takes effect at once and for everybody: in the
    resulting database no user, in whatever workspace, is granted access to that
    product in that organisation. *)
Theorem entitlement_revocation_denies actor org ent reason t rs db x db' :
  org_inv db -> product_inv db ->
  RevokeOrganisationEntitlement actor org ent reason t rs db = Ok (x, db') ->
  exists e, entitlement_of org (TrimSpace ent) db = Some e
    /\ forall uid key wid, TrimSpace key = e_product_key e ->
       ProveProductAccess uid org key wid db' = Err (Sentinel ErrProductAccessDenied).
Proof.
  intros Ho Hp Hop. unfold RevokeOrganisationEntitlement in Hop. inv_product.
  match goal with He : entitlement_of _ _ _ = Some ?r |- _ => exists r; split; [done|]; rename He into Hof end.
  match goal with Hr : recordOrganisationProductAuditTx _ _ _ _ _ _ ?d = Ok _ |- _ => set (mid := d) in * end.
  assert (organisations db' = organisations mid /\ entitlements db' = entitlements mid) as [Eo Ee].
  { pattern db'. strip_product_log (conj (fun _ _ H => H) (fun _ _ H => H) : ignores_log
      (fun d => organisations d = organisations mid /\ entitlements d = entitlements mid)). done. }
  intros uid key wid Hk. apply access_denied. intros access Ha.
  apply access_row_needs in Ha as (u & o & p & _ & Hao & _ & _ & _ & Hent & _).
  unfold active_organisation in Hao. rewrite Eo in Hao. apply find_some in Hao as [Hoin Hoact]. bool_hyps. str_eq.
  apply find_some in Hof as [Hein Hep]. apply andb_true_iff in Hep as [_ Hio].
  apply (in_organisation_id db org _ o Ho) in Hio; [|done..].
  rewrite Ee, Hk in Hent. cbn in Hent.
  rewrite (revoke_leaves_none e_id _ (fun y => e_status y =s GrantActive)) in Hent; [done|apply Hp|done|..].
  - unfold entitled. rewrite Hio, Z.eqb_refl, String.eqb_refl. by apply String.eqb_eq.
  - intros y Hy. unfold entitled in Hy. by bool_hyps.
  - intros y. unfold entitled. cbn. apply andb_false_r.
Qed.

(** Revoking an assignment takes effect at once: in the resulting database the
    assigned user is denied the product in that organisation in every workspace. *)
Theorem assignment_revocation_denies actor org asg reason t rs db x db' :
  user_inv db -> org_inv db -> product_inv db ->
  RevokeUserProduct actor org asg reason t rs db = Ok (x, db') ->
  exists g u, assignment_of (TrimSpace org) (TrimSpace asg) db = Some (g, u)
    /\ forall key wid, TrimSpace key = g_product_key g ->
       ProveProductAccess (u_public_id u) (TrimSpace org) key wid db' = Err (Sentinel ErrProductAccessDenied).
Proof.
  intros Hu Ho Hp Hop. unfold RevokeUserProduct in Hop. inv_product.
  match goal with He : assignment_of _ _ _ = Some (?g, ?u) |- _ =>
    exists g, u; split; [done|]; rename He into Hof, g into g0, u into u0 end.
  match goal with Hr : recordOrganisationProductAuditTx _ _ _ _ _ _ ?d = Ok _ |- _ => set (mid := d) in * end.
  assert (organisations db' = organisations mid /\ assignments db' = assignments mid /\ users db' = users mid)
    as (Eo & Eg & Eu).
  { pattern db'. strip_product_log (conj (fun _ _ H => H) (fun _ _ H => H) : ignores_log
      (fun d => organisations d = organisations mid /\ assignments d = assignments mid
                /\ users d = users mid)). done. }
  intros key wid Hk. apply access_denied. intros access Ha.
  apply access_row_needs in Ha as (v & o & p & Hv & Hao & _ & _ & _ & _ & Hasg).
  unfold active_organisation in Hao. rewrite Eo in Hao. apply find_some in Hao as [Hoin Hoact].
  unfold active_user in Hv. rewrite Eu in Hv. apply find_some in Hv as [Hvin Hvid].
  unfold assignment_of in Hof. destruct (find _ (assignments db)) as [g1|] eqn:Ef; [|done]. simpl in Hof.
  destruct (user_by_id db (g_user_id g1)) as [u1|] eqn:Eu1; [|done]. injection Hof as -> ->.
  apply find_some in Ef as [Hgin Hg]. apply find_some in Eu1 as [Huin Huid].
  unfold is_active_user in Hvid. bool_hyps. str_eq.
  assert (v = u0) as -> by (by eapply (NoDup_map_inj_in u_public_id); [apply Hu|..]).
  match goal with Hio : in_organisation _ _ _ = true |- _ => apply (in_organisation_id db _ _ o Ho) in Hio as Hoid; [|done..] end.
  apply Z.eqb_eq in Huid.
  rewrite Eg, Hk in Hasg. cbn in Hasg.
  rewrite (revoke_leaves_none g_id _ (fun y => g_status y =s GrantActive)) in Hasg; [done|apply Hp|done|..].
  - unfold assigned. rewrite Huid, Hoid, !Z.eqb_refl, String.eqb_refl. by apply String.eqb_eq.
  - intros y Hy. unfold assigned in Hy. by bool_hyps.
  - intros y. unfold assigned. cbn. apply andb_false_r.
Qed.

(** Retiring a product needs a system administrator and an active product, and
    takes effect at once for every organisation: afterwards nobody is granted
    access to it anywhere, and retiring it again fails. *)
Theorem retired_product_denies actor key reason t rs db x db' :
  product_inv db -> RetireProduct actor key reason t rs db = Ok (x, db') ->
  (exists u, In u (users db) /\ is_active_user (TrimSpace actor) u = true /\ system_admin db (u_id u) = true)
  /\ (exists p, product_by_key (TrimSpace key) db = Some p /\ p_status p = ProductActive)
  /\ (forall uid oid wid, ProveProductAccess uid oid key wid db' = Err (Sentinel ErrProductAccessDenied))
  /\ (exists p, product_by_key (TrimSpace key) db' = Some p /\ p_status p = ProductRetired
        /\ p_retired_at p = Some (formatTime t)).
Proof.
  intros Hp Hop. unfold RetireProduct in Hop. inv_product.
  match goal with Hr : recordProductAuditTx _ _ _ _ _ _ ?d = Ok _ |- _ => set (mid := d) in * end.
  assert (products db' = products mid) as Ep.
  { pattern db'. strip_product_log (conj (fun _ _ H => H) (fun _ _ H => H) : ignores_log
      (fun d => products d = products mid)). done. }
  match goal with Hc : (count _ _ =? 0) = false |- _ => apply Z.eqb_neq in Hc; rename Hc into Hcount end.
  assert (exists p, In p (products db) /\ retirable (TrimSpace key) p = true) as (p & Hpin & Hpr).
  { destruct (existsb (retirable (TrimSpace key)) (products db)) eqn:E; [by apply existsb_exists|].
    by apply existsb_count in E. }
  pose proof Hpr as Hpr'. unfold retirable in Hpr'. apply andb_true_iff in Hpr' as [Hk Hst].
  assert (product_by_key (TrimSpace key) db = Some p) as Hfind.
  { str_eq. apply (find_key p_key); [apply Hp|done|by apply String.eqb_eq|].
    intros y _ Hy. str_eq. congruence. }
  split_and!.
  - match goal with Hu : find _ (users db) = Some ?u |- _ => apply find_some in Hu as [Hin Hu]; exists u end. by bool_hyps.
  - exists p. split; [done|]. by str_eq.
  - intros uid oid wid. apply access_denied. intros access Ha.
    apply access_row_needs in Ha as (_ & _ & q & _ & _ & Hq & Hqk & Hqs & _).
    rewrite Ep in Hq. apply in_update in Hq as (y & Hy & ->).
    destruct (retirable (TrimSpace key) y) eqn:E; [done|].
    unfold retirable in E. by rewrite Hqk, Hqs, String.eqb_refl in E.
  - exists (retired_product t p). split_and!; [|done..]. unfold product_by_key in *. rewrite Ep. cbn.
    rewrite find_update by done. rewrite Hfind. simpl. by rewrite Hpr.
Qed.

(** ** Witnesses *)

(** The owner of the sample organisation is entitled to and assigned a product;
    a system administrator has been provisioned. *)
Definition with_system_admin (db : DB) : DB :=
  set_system_role_assignments [mkSystemRoleRow 1 1 "system_admin" true 1 (formatTime Second) None None ""] db.
Definition sample_grants : St DB error unit :=
  do! EntitleOrganisation "usr_1" "org_1" "product.tockrims" "licence" (2 * Second) (sample_rs "e") in
  do! AssignUserProduct "usr_1" "org_1" "usr_1" "product.tockrims" "licence" (2 * Second) (sample_rs "g") in
  ret tt.
Definition sample_product_db : DB := snd (exec sample_grants (with_system_admin sample_wsp_db)).

Lemma sample_product_users : user_inv sample_product_db.
Proof. split; [unfold ids_unique|]; by_computation. Qed.

Ltac sample_grants_frame := unfold sample_grants, EntitleOrganisation, AssignUserProduct; frame_ops.
Lemma with_system_admin_inv db :
  (org_inv db -> org_inv (with_system_admin db))
  /\ (workspace_inv db -> workspace_inv (with_system_admin db))
  /\ (product_inv db -> product_inv (with_system_admin db)).
Proof. split_and!; intros Hdb; exact Hdb. Qed.

Lemma sample_product_org : org_inv sample_product_db.
Proof.
  apply (preserves_exec org_inv); [sample_grants_frame|]. apply with_system_admin_inv.
  apply (preserves_exec org_inv); [|apply sample_org_inv].
  unfold sample_workspace, CreateWorkspace. frame_ops.
Qed.
Lemma sample_product_wsp : workspace_inv sample_product_db.
Proof. apply (preserves_exec workspace_inv); [sample_grants_frame|]. apply with_system_admin_inv, sample_wsp_inv. Qed.
Lemma sample_product_inv : product_inv sample_product_db.
Proof.
  apply (preserves_exec product_inv).
  { unfold sample_grants. frame_tx; [apply preserves_EntitleOrganisation|apply preserves_AssignUserProduct]. }
  apply with_system_admin_inv, (preserves_exec product_inv).
  { unfold sample_workspace, CreateWorkspace. frame_ops. }
  apply (preserves_exec product_inv); [|apply product_inv_empty].
  unfold sample_organisation, sample_create_user, CreateUser, CreateOrganisation, AddOrganisationMember,
    addOrganisationMemberTx. frame_ops.
Qed.

Lemma product_access_decision_witness :
  may_use_product sample_product_db "usr_1" "org_1" "product.tockrims" "wsp_1".
Proof.
  destruct (product_access_decision sample_product_db "usr_1" "org_1" "product.tockrims" "wsp_1"
    sample_product_users sample_product_org sample_product_wsp sample_product_inv) as [[H _] _].
  apply H. eexists. vm_compute. reflexivity.
Defined.

Lemma launch_list_exact_witness :
  exists ps, ListLaunchableProducts "usr_1" "org_1" "wsp_1" sample_product_db = Ok ps
    /\ In "product.tockrims" (map Product_Key ps).
Proof.
  assert (exists ps, ListLaunchableProducts "usr_1" "org_1" "wsp_1" sample_product_db = Ok ps) as (ps & E)
    by (eexists; vm_compute; reflexivity).
  exists ps. split; [exact E|].
  destruct (launch_list_exact sample_product_db "usr_1" "org_1" "wsp_1" ps sample_product_users
    sample_product_org sample_product_wsp sample_product_inv eq_refl eq_refl eq_refl E) as [H _].
  apply (H "product.tockrims" eq_refl eq_refl). eexists. vm_compute. reflexivity.
Defined.

Lemma entitlement_grant_exact_witness :
  exists res db', EntitleOrganisation "usr_1" "org_1" "product.tockrctrl" "licence" (3 * Second)
      (sample_rs "n") sample_product_db = Ok (res, db')
    /\ exists p, In p (products sample_product_db) /\ p_key p = "product.tockrctrl".
Proof.
  assert (exists res db', EntitleOrganisation "usr_1" "org_1" "product.tockrctrl" "licence" (3 * Second)
      (sample_rs "n") sample_product_db = Ok (res, db')) as (res & db' & E)
    by (do 2 eexists; vm_compute; reflexivity).
  exists res, db'. split; [exact E|].
  destruct (entitlement_grant_exact "usr_1" "org_1" "product.tockrctrl" "licence" (3 * Second) (sample_rs "n")
    sample_product_db res db' sample_year E) as (ai & ar & oi & sa & p & new & _ & Hin & Hk & _).
  exists p. split; [exact Hin|exact Hk].
Defined.

Lemma assignment_grant_exact_witness :
  exists res db', AssignUserProduct "usr_1" "org_1" "usr_2" "product.tockrims" "licence" (3 * Second)
      (sample_rs "n") sample_product_db = Ok (res, db')
    /\ exists u, In u (users sample_product_db) /\ is_active_user "usr_2" u = true.
Proof.
  assert (exists res db', AssignUserProduct "usr_1" "org_1" "usr_2" "product.tockrims" "licence" (3 * Second)
      (sample_rs "n") sample_product_db = Ok (res, db')) as (res & db' & E)
    by (do 2 eexists; vm_compute; reflexivity).
  exists res, db'. split; [exact E|].
  destruct (assignment_grant_exact "usr_1" "org_1" "usr_2" "product.tockrims" "licence" (3 * Second)
    (sample_rs "n") sample_product_db res db' sample_year E)
    as (ai & ar & oi & sa & p & u & m & new & _ & _ & Hu & _). exists u. exact Hu.
Defined.

Definition sample_entitlement_id : string :=
  match entitlements sample_product_db with e :: _ => e_public_id e | [] => "" end.
Definition sample_assignment_id : string :=
  match assignments sample_product_db with g :: _ => g_public_id g | [] => "" end.

Lemma entitlement_revocation_denies_witness :
  exists db', RevokeOrganisationEntitlement "usr_1" "org_1" sample_entitlement_id "expired" (3 * Second)
      (sample_rs "n") sample_product_db = Ok (tt, db')
    /\ exists e, entitlement_of "org_1" (TrimSpace sample_entitlement_id) sample_product_db = Some e.
Proof.
  assert (exists db', RevokeOrganisationEntitlement "usr_1" "org_1" sample_entitlement_id "expired" (3 * Second)
      (sample_rs "n") sample_product_db = Ok (tt, db')) as (db' & E) by (eexists; vm_compute; reflexivity).
  exists db'. split; [exact E|].
  destruct (entitlement_revocation_denies "usr_1" "org_1" sample_entitlement_id "expired" (3 * Second)
    (sample_rs "n") sample_product_db tt db' sample_product_org sample_product_inv E) as (e & He & _).
  exists e. exact He.
Defined.

Lemma assignment_revocation_denies_witness :
  exists db', RevokeUserProduct "usr_1" "org_1" sample_assignment_id "leaver" (3 * Second)
      (sample_rs "n") sample_product_db = Ok (tt, db')
    /\ exists g u, assignment_of "org_1" (TrimSpace sample_assignment_id) sample_product_db = Some (g, u).
Proof.
  assert (exists db', RevokeUserProduct "usr_1" "org_1" sample_assignment_id "leaver" (3 * Second)
      (sample_rs "n") sample_product_db = Ok (tt, db')) as (db' & E) by (eexists; vm_compute; reflexivity).
  exists db'. split; [exact E|].
  destruct (assignment_revocation_denies "usr_1" "org_1" sample_assignment_id "leaver" (3 * Second)
    (sample_rs "n") sample_product_db tt db' sample_product_users sample_product_org sample_product_inv E)
    as (g & u & Hg & _). exists g, u. exact Hg.
Defined.

Lemma retired_product_denies_witness :
  exists db', RetireProduct "usr_1" "product.tockrims" "end of life" (3 * Second) (sample_rs "n")
      sample_product_db = Ok (tt, db')
    /\ ProveProductAccess "usr_1" "org_1" "product.tockrims" "wsp_1" db' = Err (Sentinel ErrProductAccessDenied).
Proof.
  assert (exists db', RetireProduct "usr_1" "product.tockrims" "end of life" (3 * Second) (sample_rs "n")
      sample_product_db = Ok (tt, db')) as (db' & E) by (eexists; vm_compute; reflexivity).
  exists db'. split; [exact E|].
  destruct (retired_product_denies "usr_1" "product.tockrims" "end of life" (3 * Second) (sample_rs "n")
    sample_product_db tt db' sample_product_inv E) as (_ & _ & H & _).
  exact (H "usr_1" "org_1" "wsp_1").
Defined.
