(* ===== verification/Command.v ===== *)
(** internal/db/sqlite/membership_command.go: membership commands sent by the
    products, executed at most once per idempotency key, and the retention of
    their results. *)
From stdpp Require Import base tactics list strings.
From Stdlib Require Import ZArith Lia Ascii String Sorted.
From S2P Require Import Prelude GoStrings GoTime Codec Json JsonLaws Errors Domain Events Schema Outbox.
From S2P Require Import Auth Identity Organisation Access Workspace.

Local Open Scope string_scope.
Local Open Scope Z_scope.

(** ** internal/store/membership_command.go *)

Record MembershipCommandRequest := mkCommandRequest {
  mr_Consumer : string; mr_Scope : string; mr_Operation : string; mr_OrganisationID : string;
  mr_WorkspaceID : string; mr_UserID : string; mr_Role : string; mr_Reason : string;
  mr_IdempotencyKey : string; mr_ExpectedVersion : Z; mr_RequestHash : string; mr_ActorUserID : string;
  mr_OccurredAt : Z }.

Record MembershipCommandResult := mkCommandResult {
  mc_MembershipID : string; mc_OrganisationID : string; mc_WorkspaceID : string; mc_UserID : string;
  mc_Role : string; mc_Active : bool; mc_MembershipVersion : Z; mc_Replay : bool }.

Definition membershipCommandResultRetention : Z := 24 * Hour.

(** ** The stored result

    [json.Marshal] of the result: the struct has no tags, so every field is
    written under its Go name. *)
Definition result_fields (r : MembershipCommandResult) : list (string * scalar) :=
  [("MembershipID", VString (mc_MembershipID r)); ("OrganisationID", VString (mc_OrganisationID r));
   ("WorkspaceID", VString (mc_WorkspaceID r)); ("UserID", VString (mc_UserID r));
   ("Role", VString (mc_Role r)); ("Active", VBool (mc_Active r));
   ("MembershipVersion", VInt (mc_MembershipVersion r)); ("Replay", VBool (mc_Replay r))].
Definition encode_result (r : MembershipCommandResult) : string := encode_fields (result_fields r).

(** [json.Unmarshal] into the struct. *)
Definition decode_result (text : string) : res MembershipCommandResult :=
  match parse text with
  | Some (JObject l) =>
      let? membershipID := string_field l "MembershipID" in
      let? organisationID := string_field l "OrganisationID" in
      let? workspaceID := string_field l "WorkspaceID" in
      let? userID := string_field l "UserID" in
      let? role := string_field l "Role" in
      let? active := bool_field l "Active" in
      let? version := int_field l "MembershipVersion" in
      let? replay := bool_field l "Replay" in
      Ok (mkCommandResult membershipID organisationID workspaceID userID role active version replay)
  | Some JNull => Ok (mkCommandResult "" "" "" "" "" false 0 false)
  | _ => json_error
  end.

Definition as_replay (r : MembershipCommandResult) : MembershipCommandResult :=
  mkCommandResult (mc_MembershipID r) (mc_OrganisationID r) (mc_WorkspaceID r) (mc_UserID r) (mc_Role r)
    (mc_Active r) (mc_MembershipVersion r) true.

(** ** Execution *)

Definition validateMembershipCommandActorTx (r : MembershipCommandRequest) : St DB error unit :=
  if mr_Scope r =s "organisation_membership" then
    do! authorisedOrganisationMutationTx (mr_ActorUserID r) (mr_OrganisationID r) in ret tt
  else if mr_Scope r =s "workspace_membership" then
    do! authorisedWorkspaceMutationTx (mr_ActorUserID r) (mr_WorkspaceID r) true in ret tt
  else fail ErrMembershipCommandUnsupported.

Definition organisation_result (version : Z) (m : OrganisationMembership) : MembershipCommandResult :=
  mkCommandResult (OM_ID m) (OM_OrganisationID m) "" (OM_UserID m) (OM_Role m) (OM_Active m) version false.
Definition workspace_result (version : Z) (m : WorkspaceMembership) : MembershipCommandResult :=
  mkCommandResult (WM_ID m) "" (WM_WorkspaceID m) (WM_UserID m) (WM_Role m) (WM_Active m) version false.

Definition executeOrganisationMembershipCommandTx (r : MembershipCommandRequest) (reason : string) (rs : rng)
  : St DB error MembershipCommandResult :=
  let v := mr_ExpectedVersion r in
  if mr_Operation r =s "add" then
    let! m := addOrganisationMemberTx (mr_ActorUserID r) (mr_OrganisationID r) (mr_UserID r) (mr_Role r)
                reason (mr_OccurredAt r) rs in
    ret (organisation_result 1 m)
  else if mr_Operation r =s "change_role" then
    let! m := changeOrganisationMemberRoleTx (mr_ActorUserID r) (mr_OrganisationID r) (mr_UserID r) (mr_Role r)
                reason (mr_OccurredAt r) (Some v) rs in
    ret (organisation_result (v + 1) m)
  else if mr_Operation r =s "deactivate" then
    let! m := deactivateOrganisationMemberTx (mr_ActorUserID r) (mr_OrganisationID r) (mr_UserID r)
                reason (mr_OccurredAt r) (Some v) rs in
    ret (organisation_result v m)
  else fail ErrMembershipCommandUnsupported.

Definition executeWorkspaceMembershipCommandTx (r : MembershipCommandRequest) (reason : string) (rs : rng)
  : St DB error MembershipCommandResult :=
  let v := mr_ExpectedVersion r in
  if mr_Operation r =s "add" then
    let! m := addWorkspaceMemberTx (mr_ActorUserID r) (mr_WorkspaceID r) (mr_UserID r) (mr_Role r)
                reason (mr_OccurredAt r) rs in
    ret (workspace_result 1 m)
  else if mr_Operation r =s "change_role" then
    let! m := changeWorkspaceMemberRoleTx (mr_ActorUserID r) (mr_WorkspaceID r) (mr_UserID r) (mr_Role r)
                reason (mr_OccurredAt r) (Some v) rs in
    ret (workspace_result (v + 1) m)
  else if mr_Operation r =s "deactivate" then
    let! m := deactivateWorkspaceMemberTx (mr_ActorUserID r) (mr_WorkspaceID r) (mr_UserID r)
                reason (mr_OccurredAt r) (Some v) rs in
    ret (workspace_result v m)
  else fail ErrMembershipCommandUnsupported.

(** [WHERE consumer_key=? AND idempotency_key=?] *)
Definition recorded (r : MembershipCommandRequest) (x : CommandResultRow) : bool :=
  (cr_consumer_key x =s mr_Consumer r) && (cr_idempotency_key x =s mr_IdempotencyKey r).

Definition execute_command (r : MembershipCommandRequest) (rs : rng) : St DB error MembershipCommandResult :=
  let reason := TrimSpace (mr_Reason r) in
  if mr_Scope r =s "organisation_membership" then executeOrganisationMembershipCommandTx r reason rs
  else if mr_Scope r =s "workspace_membership" then executeWorkspaceMembershipCommandTx r reason rs
  else fail ErrMembershipCommandUnsupported.

Definition ExecuteMembershipCommand (r : MembershipCommandRequest) (rs : rng)
  : St DB error MembershipCommandResult :=
  do! require (negb (blank (mr_Consumer r) || blank (mr_RequestHash r) || blank (mr_IdempotencyKey r)
               || IsZero (mr_OccurredAt r))) ErrMembershipCommandConflict in
  let! stored := reads (fun db => find (recorded r) (command_results db)) in
  match stored with
  | Some row =>
      do! require (cr_request_hash row =s mr_RequestHash r) ErrMembershipCommandReplayMismatch in
      do! validateMembershipCommandActorTx r in
      let! result := lift (wrap "decode stored membership command result" (decode_result (cr_result_json row))) in
      ret (as_replay result)
  | None =>
      let! result := execute_command r rs in
      do! within "record membership command result"
            (insert_row command_results set_command_results command_results_ok (fun id =>
               mkCommandResultRow id (mr_Consumer r) (mr_IdempotencyKey r) (mr_RequestHash r)
                 (encode_result result) (formatTime (mr_OccurredAt r)))) in
      ret result
  end.

Definition CleanupMembershipCommandResults (before n now : Z) : St DB error Z :=
  do! require (negb (IsZero before || After before (now - membershipCommandResultRetention)
               || (n <? 1) || (1000 <? n))) ErrInvalidReadAuthorityRequest in
  let! (removed, left_) := reads (fun db =>
    delete_oldest cr_id cr_created_at (fun x => text_le (cr_created_at x) (formatTime before)) n
      (command_results db)) in
  do! modify (set_command_results left_) in
  ret removed.

(** ** The stored result reads back *)

Definition result_encodable (r : MembershipCommandResult) : bool :=
  valid_utf8 (mc_MembershipID r) && valid_utf8 (mc_OrganisationID r) && valid_utf8 (mc_WorkspaceID r)
  && valid_utf8 (mc_UserID r) && valid_utf8 (mc_Role r) && in_int64 (mc_MembershipVersion r).

Lemma decode_encode_result r : result_encodable r = true -> decode_result (encode_result r) = Ok r.
Proof.
  unfold result_encodable. intros Hr. bool_hyps. unfold decode_result, encode_result.
  rewrite parse_encode_fields.
  - set (m := result_fields r).
    rewrite (string_field_written m _ "MembershipID" (mc_MembershipID r)) by reflexivity.
    rewrite (string_field_written m _ "OrganisationID" (mc_OrganisationID r)) by reflexivity.
    rewrite (string_field_written m _ "WorkspaceID" (mc_WorkspaceID r)) by reflexivity.
    rewrite (string_field_written m _ "UserID" (mc_UserID r)) by reflexivity.
    rewrite (string_field_written m _ "Role" (mc_Role r)) by reflexivity.
    rewrite (bool_field_written m _ "Active" (mc_Active r)) by reflexivity.
    rewrite (int_field_written m _ "MembershipVersion" (mc_MembershipVersion r)) by done.
    rewrite (bool_field_written m _ "Replay" (mc_Replay r)) by reflexivity.
    by destruct r.
  - unfold result_fields. cbn -[valid_utf8 in_int64]. unfold valid_member. cbn -[valid_utf8 in_int64].
    by repeat match goal with H : _ = true |- _ => rewrite H; clear H end.
Qed.

(** ** The invariant of the stored results *)

Definition same_key (r r2 : MembershipCommandRequest) : Prop :=
  mr_Consumer r2 = mr_Consumer r /\ mr_IdempotencyKey r2 = mr_IdempotencyKey r.

Record command_wf (t : list CommandResultRow) : Prop := {
  cw_ids : ids_unique t;
  cw_keys : forall r, count (recorded r) t <= 1;
  cw_times : forall x, In x t -> exists c, cr_created_at x = formatTime c /\ four_digit_year c }.
Definition command_inv (db : DB) : Prop := command_wf (command_results db).

Lemma command_inv_empty : command_inv empty_db.
Proof. split; [constructor|done|done]. Qed.
Lemma command_inv_log : ignores_log command_inv.
Proof. by split. Qed.

Lemma command_wf_snoc t x c :
  command_wf t -> command_results_ok t x = true -> cr_id x = next_id t -> cr_created_at x = formatTime c ->
  four_digit_year c -> command_wf (t ++ [x])%list.
Proof.
  intros Hwf Hok Hid Hc Hy. unfold command_results_ok in Hok. bool_hyps. split.
  - by apply ids_unique_snoc; [apply Hwf|].
  - intros r. rewrite count_snoc. pose proof (cw_keys _ Hwf r). destruct (recorded r x) eqn:E; [|lia].
    assert (count (recorded r) t = 0) as ->; [|lia].
    match goal with Hf : fresh _ _ = true |- _ => rewrite fresh_spec in Hf; rename Hf into Hfresh end.
    apply count_zero. intros y Hy'. apply not_true_is_false. intros E'. specialize (Hfresh y Hy').
    unfold recorded in *. bool_hyps. str_eq.
    revert Hfresh. rewrite andb_false_iff, !String.eqb_neq. naive_solver congruence.
  - intros y [Hy'|[<-|[]]]%in_app_or; [by apply Hwf|eauto].
Qed.

Lemma command_wf_delete t p : command_wf t -> command_wf (delete_rows p t).
Proof.
  intros Hwf. split.
  - unfold ids_unique, delete_rows. apply NoDup_map_filter, Hwf.
  - intros r. etransitivity; [|apply (cw_keys _ Hwf r)]. unfold delete_rows.
    induction t as [|x t IH]; [done|]. cbn [List.filter].
    assert (command_wf t) as Hwf'.
    { split; [apply (NoDup_cons_1_2 _ _ (cw_ids _ Hwf))|..]; intros.
      - pose proof (cw_keys _ Hwf r0) as Hc. rewrite count_cons in Hc. destruct (recorded r0 x); lia.
      - apply Hwf. by right. }
    specialize (IH Hwf'). rewrite !count_cons. destruct (p x); cbn [negb]; rewrite ?count_cons;
      destruct (recorded r x); lia.
  - intros x [Hx _]%filter_In. by apply Hwf.
Qed.

Ltac unfold_command := unfold execute_command, executeOrganisationMembershipCommandTx,
  executeWorkspaceMembershipCommandTx, addOrganisationMemberTx, changeOrganisationMemberRoleTx,
  deactivateOrganisationMemberTx, addWorkspaceMemberTx, changeWorkspaceMemberRoleTx,
  deactivateWorkspaceMemberTx.

(** Executing a command writes no stored result of its own. *)
Lemma execute_command_results t0 r rs : preserves (fun db => command_results db = t0) (execute_command r rs).
Proof. unfold_command. frame_ops. Qed.

Lemma preserves_validateActor P r : preserves P (validateMembershipCommandActorTx r).
Proof. unfold validateMembershipCommandActorTx. frame_ops. Qed.
Lemma validateActor_keeps r db u db' : validateMembershipCommandActorTx r db = Ok (u, db') -> db' = db.
Proof. intros H. by apply (preserves_validateActor (fun d => d = db) r db u db' H). Qed.

Lemma preserves_ExecuteMembershipCommand r rs :
  four_digit_year (mr_OccurredAt r) -> preserves command_inv (ExecuteMembershipCommand r rs).
Proof.
  intros Hy db res db' Hop Hwf. unfold ExecuteMembershipCommand in Hop. inv_db.
  - match goal with Hv : validateMembershipCommandActorTx _ _ = Ok _ |- _ => by apply validateActor_keeps in Hv as -> end.
  - match goal with He : execute_command _ _ _ = Ok (_, ?d) |- _ =>
      pose proof (execute_command_results _ _ _ _ _ _ He eq_refl) as Hsame end.
    unfold command_inv in *. cbn. rewrite Hsame in *. by eapply command_wf_snoc.
Qed.
Lemma preserves_CleanupMembershipCommandResults before n now :
  preserves command_inv (CleanupMembershipCommandResults before n now).
Proof.
  intros db k db' Hop Hwf. unfold CleanupMembershipCommandResults in Hop. inv_db.
  match goal with E : delete_oldest _ _ _ _ _ = _ |- _ => injection E as <- <- end.
  by apply command_wf_delete.
Qed.

(** ** Properties *)

(** C12: a command runs at most once. After a request has committed for the first
    time, any later request with the same consumer and idempotency key, at that
    state, changes nothing: with the same request hash it is answered from the
    stored result, marked as a replay, provided its actor may still administer
    the scope (and with the authorisation error otherwise); with another hash it
    is refused as a mismatch. *)
Theorem command_at_most_once r rs db res db' r2 rs2 :
  find (recorded r) (command_results db) = None ->
  ExecuteMembershipCommand r rs db = Ok (res, db') -> result_encodable res = true ->
  same_key r r2 -> blank (mr_RequestHash r2) = false -> IsZero (mr_OccurredAt r2) = false ->
  (mr_RequestHash r2 = mr_RequestHash r ->
     ExecuteMembershipCommand r2 rs2 db'
     = match validateMembershipCommandActorTx r2 db' with
       | Ok _ => Ok (as_replay res, db')
       | Err e => Err e
       end)
  /\ (mr_RequestHash r2 <> mr_RequestHash r ->
     ExecuteMembershipCommand r2 rs2 db' = Err (Sentinel ErrMembershipCommandReplayMismatch)).
Proof.
  intros Hnone Hop Henc [Hc Hk] Hh Ht. unfold ExecuteMembershipCommand in Hop. rewrite require_then_Ok in Hop.
  destruct Hop as [Hguard Hop]. rewrite bind_reads, Hnone in Hop. inv_db.
  match goal with He : execute_command _ _ _ = Ok (_, ?d) |- _ =>
    pose proof (execute_command_results (command_results db) _ _ _ _ _ He eq_refl) as Hsame; set (mid := d) in * end.
  set (row := mkCommandResultRow _ _ _ _ _ _). set (db' := set_command_results _ _).
  assert (find (recorded r2) (command_results db') = Some row) as Hfind.
  { unfold db'. cbn [command_results set_command_results]. rewrite Hsame. apply find_snoc.
    - unfold recorded, row. cbn. by rewrite Hc, Hk, !String.eqb_refl.
    - intros y Hx. pose proof (find_none _ _ Hnone y Hx) as Hf. unfold recorded in *. by rewrite Hc, Hk. }
  bool_hyps.
  assert (forall A (k : unit -> St DB error A),
    bind (Errors.require (negb (blank (mr_Consumer r2) || blank (mr_RequestHash r2) || blank (mr_IdempotencyKey r2)
       || IsZero (mr_OccurredAt r2))) ErrMembershipCommandConflict) k db' = k tt db') as Hg.
  { intros A k. rewrite Hh, Ht, Hc, Hk. by repeat match goal with H : blank _ = false |- _ => rewrite H; clear H end. }
  unfold ExecuteMembershipCommand. rewrite Hg, bind_reads, Hfind.
  cbn [cr_request_hash cr_result_json row].
  split; intros Heq.
  - rewrite Heq, String.eqb_refl, require_true. unfold bind at 1.
    destruct (validateMembershipCommandActorTx r2 db') as [[u d]|e] eqn:E; [|done].
    apply validateActor_keeps in E as ->. by rewrite decode_encode_result.
  - assert ((mr_RequestHash r =s mr_RequestHash r2) = false) as -> by (apply String.eqb_neq; congruence).
    apply require_false.
Qed.

Definition first_execution (r : MembershipCommandRequest) (db : DB) : Prop :=
  find (recorded r) (command_results db) = None
  /\ blank (mr_Consumer r) = false /\ blank (mr_RequestHash r) = false
  /\ blank (mr_IdempotencyKey r) = false /\ IsZero (mr_OccurredAt r) = false.

Lemma ExecuteMembershipCommand_first r rs db : first_execution r db ->
  ExecuteMembershipCommand r rs db
  = bind (execute_command r rs) (fun result =>
      do! within "record membership command result"
            (insert_row command_results set_command_results command_results_ok (fun id =>
               mkCommandResultRow id (mr_Consumer r) (mr_IdempotencyKey r) (mr_RequestHash r)
                 (encode_result result) (formatTime (mr_OccurredAt r)))) in
      ret result) db.
Proof.
  intros (Hn & Hc & Hh & Hk & Ht). unfold ExecuteMembershipCommand.
  rewrite Hc, Hh, Hk, Ht, require_true, bind_reads, Hn. done.
Qed.

(** A stale command is refused: when the member's current version is not the
    version the command expects, a role change or a deactivation whose other
    guards pass fails with the conflict error, so (the transaction being rolled
    back) nothing is changed and no result is recorded. *)
Theorem stale_command_conflicts r rs db ai ar oi sa cur raw u :
  first_execution r db -> mr_Scope r = "organisation_membership" ->
  (mr_Operation r = "change_role" /\ assignable_role (mr_Role r) = true \/ mr_Operation r = "deactivate") ->
  validateMutationReason (TrimSpace (mr_Reason r)) = Ok u -> rs 0%nat = Some raw ->
  may_administer db (mr_ActorUserID r) (mr_OrganisationID r) ai ar oi sa ->
  find (member_of_active_user db oi (mr_UserID r)) (organisation_memberships db) = Some cur ->
  m_version cur <> mr_ExpectedVersion r ->
  ExecuteMembershipCommand r rs db = Err (Sentinel ErrMembershipCommandConflict).
Proof.
  intros Hf Hsc Hop Hreason Hraw Hauth Hcur Hver. pose proof Hf as (_ & _ & _ & _ & Ht).
  rewrite ExecuteMembershipCommand_first by done. apply bind_error.
  assert (authorisedOrganisationMutationTx (mr_ActorUserID r) (mr_OrganisationID r) db = Ok ((ai, ar, oi, sa), db))
    as Ha by (by apply authorised_Ok).
  assert (version_conflict (Some (mr_ExpectedVersion r)) (m_version cur) = true) as Hconf.
  { cbn. apply negb_true_iff, Z.eqb_neq. congruence. }
  unfold execute_command. rewrite Hsc. unfold executeOrganisationMembershipCommandTx.
  destruct Hop as [[Hop Hrole]|Hop]; rewrite Hop; cbn -[changeOrganisationMemberRoleTx deactivateOrganisationMemberTx];
    apply bind_error.
  - unfold changeOrganisationMemberRoleTx, NewOrganisationMembershipID, new_id.
    rewrite Hrole, require_true, Hreason, Hraw, Ht. unfold lift at 1 2.
    do 3 (erewrite bind_value by reflexivity). erewrite bind_value by exact Ha. cbn beta iota.
    rewrite bind_reads, Hcur. erewrite bind_value by reflexivity. by rewrite Hconf.
  - unfold deactivateOrganisationMemberTx. rewrite Hreason, Ht. unfold lift.
    do 2 (erewrite bind_value by reflexivity). erewrite bind_value by exact Ha. cbn beta iota.
    rewrite bind_reads, Hcur. erewrite bind_value by reflexivity. by rewrite Hconf.
Qed.

(** The version a command reports is the version it left in the database: a
    first role change that commits found the member at the expected version, and
    the row it adds for that member carries the reported id, role and version,
    one above. *)
Theorem command_version_advances r rs db res db' :
  user_inv db -> four_digit_year (mr_OccurredAt r) -> TrimSpace (mr_UserID r) = mr_UserID r ->
  first_execution r db -> mr_Scope r = "organisation_membership" -> mr_Operation r = "change_role" ->
  ExecuteMembershipCommand r rs db = Ok (res, db') ->
  exists oi cur new,
    find (member_of_active_user db oi (mr_UserID r)) (organisation_memberships db) = Some cur
    /\ m_version cur = mr_ExpectedVersion r
    /\ In new (organisation_memberships db') /\ m_active new = true /\ m_user_id new = m_user_id cur
    /\ m_public_id new = mc_MembershipID res /\ m_role new = mr_Role r
    /\ m_version new = mc_MembershipVersion res /\ mc_MembershipVersion res = m_version cur + 1.
Proof.
  intros Hu Hy Htrim Hf Hsc Hop Hex. rewrite ExecuteMembershipCommand_first in Hex by done.
  unfold execute_command in Hex. rewrite Hsc in Hex. unfold executeOrganisationMembershipCommandTx in Hex.
  rewrite Hop in Hex. cbn -[changeOrganisationMemberRoleTx] in Hex.
  apply bind_Ok in Hex as (res0 & mid & Hchange & Hins). inv_db.
  unfold changeOrganisationMemberRoleTx in *. inv_org. rewrite Htrim in *.
  match goal with Hfind : find (member_of_active_user _ _ _) _ = Some _ |- _ =>
    destruct (member_of_active_user_user _ _ _ _ Hu Hfind) as (_ & _ & _ & Hid) end.
  match goal with Hv : negb (version_conflict _ _) = true |- _ => apply version_conflict_false in Hv end.
  match goal with Hr : recordOrganisationAuditTx _ _ _ _ _ _ ?d = Ok (_, ?d') |- _ =>
    assert (organisation_memberships d' = organisation_memberships d) as Hms
      by (refine (preserves_organisation_audit (fun x => organisation_memberships x = organisation_memberships d)
            _ _ _ _ _ _ _ _ _ _ Hr eq_refl); by split) end.
  eexists _, _, _. split_and!; [eassumption|done|..].
  - cbn. rewrite Hms. cbn. apply in_or_app. right. left. reflexivity.
  - done.
  - cbn. by apply Hid.
  - done.
  - done.
  - cbn. congruence.
  - cbn. congruence.
Qed.

#[export] Instance CommandResultRow_eq_dec : EqDecision CommandResultRow.
Proof. solve_decision. Defined.

(** Stored results are kept for a day, so a retry within 24 hours (to the
    second) of a command is still recognised: a cleanup removes no result created
    after that, removes the oldest ones first, no more than its limit, and
    reports their number. *)
Theorem command_results_retained before n now db k db' :
  command_inv db -> four_digit_year before ->
  CleanupMembershipCommandResults before n now db = Ok (k, db') ->
  (forall x c, In x (command_results db) -> cr_created_at x = formatTime c -> four_digit_year c ->
     Unix (now - membershipCommandResultRetention) < Unix c -> In x (command_results db'))
  /\ k = Z.of_nat (List.length (command_results db)) - Z.of_nat (List.length (command_results db'))
  /\ 0 <= k <= n /\ n <= 1000
  /\ (forall x y, In x (command_results db) -> ~ In x (command_results db') -> In y (command_results db') ->
        text_le (cr_created_at y) (formatTime before) = true ->
        text_lt (cr_created_at y) (cr_created_at x) = false).
Proof.
  intros Hwf Hb Hop. unfold CleanupMembershipCommandResults in Hop. inv_db. bool_hyps. z_bools.
  assert (0 < n) as Hn by lia.
  match goal with E : delete_oldest _ _ _ _ _ = _ |- _ =>
    destruct (delete_oldest_spec cr_id cr_created_at _ _ _ _ _ (cw_ids _ Hwf : NoDup (map cr_id _)) Hn E)
      as (Hk & Hlen & _ & Hold) end.
  cbn [command_results set_command_results]. split_and!; [|done| | |done|].
  - intros y c Hx Hc Hy Hlt. destruct (decide (y ∈ l)) as [Hin|Hnin]; [by apply list_elem_of_In|exfalso].
    destruct (Hold y Hx) as [Hdue _]; [by rewrite <-list_elem_of_In|].
    rewrite Hc in Hdue. unfold text_le in Hdue.
    assert (Unix before < Unix c) as Hbc.
    { match goal with Ha : After _ _ = false |- _ => unfold After in Ha; z_bools end.
      eapply Z.le_lt_trans; [|exact Hlt]. unfold Unix. apply Z.div_le_mono; [done|lia]. }
    rewrite (formatTime_order before c) in Hdue by done. done.
  - rewrite Hk. pose proof (count_nonneg (fun y => text_le (cr_created_at y) (formatTime before)) (command_results db)).
    lia.
  - rewrite Hk. lia.
  - intros y y' Hx Hnx Hy Hdue. by apply (proj2 (Hold y Hx Hnx)).
Qed.

(** ** Witnesses *)

Definition sample_hash : string := dec_pad 64 7.
Definition sample_command (op role key : string) (version : Z) : MembershipCommandRequest :=
  mkCommandRequest "tockrctrl" "organisation_membership" op "org_1" "" "usr_2" role "requested" key version
    sample_hash "usr_1" (3 * Second).

Lemma command_at_most_once_witness :
  exists res db', ExecuteMembershipCommand (sample_command "change_role" "admin" "key-1" 1) (sample_rs "c")
      sample_org_db = Ok (res, db')
    /\ ExecuteMembershipCommand (sample_command "change_role" "admin" "key-1" 1) (sample_rs "d") db'
       = Ok (as_replay res, db').
Proof.
  assert (exists res db', ExecuteMembershipCommand (sample_command "change_role" "admin" "key-1" 1) (sample_rs "c")
      sample_org_db = Ok (res, db') /\ result_encodable res = true
      /\ is_ok (validateMembershipCommandActorTx (sample_command "change_role" "admin" "key-1" 1) db') = true)
    as (res & db' & E & He & Hv).
  { do 2 eexists. split; [vm_compute; reflexivity|]. split; vm_compute; reflexivity. }
  exists res, db'. split; [exact E|].
  destruct (command_at_most_once (sample_command "change_role" "admin" "key-1" 1) (sample_rs "c") sample_org_db
    res db' (sample_command "change_role" "admin" "key-1" 1) (sample_rs "d") eq_refl E He
    (conj eq_refl eq_refl) eq_refl eq_refl) as [H _].
  rewrite (H eq_refl). destruct (validateMembershipCommandActorTx _ db'); [reflexivity|discriminate Hv].
Defined.

Lemma sample_first op role key version :
  blank key = false -> first_execution (sample_command op role key version) sample_org_db.
Proof. intros Hk. unfold first_execution. split_and!; try done; by vm_compute. Qed.

Lemma stale_command_conflicts_witness :
  ExecuteMembershipCommand (sample_command "deactivate" "" "key-2" 7) (sample_rs "c") sample_org_db
  = Err (Sentinel ErrMembershipCommandConflict).
Proof.
  assert (exists u o m cur, active_user sample_org_db "usr_1" = Some u
    /\ organisation_by_public_id "org_1" sample_org_db = Some o
    /\ find (current_member (o_id o) (u_id u)) (organisation_memberships sample_org_db) = Some m
    /\ find (member_of_active_user sample_org_db (o_id o) "usr_2") (organisation_memberships sample_org_db) = Some cur
    /\ o_status o = OrganisationActive /\ system_admin sample_org_db (u_id u) = false
    /\ OrganisationRole_CanAdminister (m_role m) = true /\ m_version cur <> 7)
    as (u & o & m & cur & Hu & Ho & Hm & Hc & Hst & Hsa & Hadm & Hver).
  { do 4 eexists. split_and!; try (vm_compute; reflexivity). vm_compute. discriminate. }
  refine (stale_command_conflicts (sample_command "deactivate" "" "key-2" 7) (sample_rs "c") sample_org_db
    (u_id u) (m_role m) (o_id o) false cur _ tt
    (sample_first "deactivate" "" "key-2" 7 eq_refl) eq_refl (or_intror eq_refl)
    eq_refl eq_refl _ Hc Hver).
  exists u, o. split_and!; try assumption; try reflexivity. exists m. split_and!; [exact Hm|reflexivity|exact Hadm].
Defined.

Lemma command_version_advances_witness :
  exists res db', ExecuteMembershipCommand (sample_command "change_role" "admin" "key-1" 1) (sample_rs "c")
      sample_org_db = Ok (res, db') /\ exists cur : MembershipRow, mc_MembershipVersion res = m_version cur + 1.
Proof.
  assert (exists res db', ExecuteMembershipCommand (sample_command "change_role" "admin" "key-1" 1) (sample_rs "c")
      sample_org_db = Ok (res, db')) as (res & db' & E) by (do 2 eexists; vm_compute; reflexivity).
  exists res, db'. split; [exact E|].
  destruct (command_version_advances (sample_command "change_role" "admin" "key-1" 1) (sample_rs "c")
    sample_org_db res db' sample_org_users sample_year eq_refl
    (sample_first "change_role" "admin" "key-1" 1 eq_refl) eq_refl eq_refl E)
    as (oi & cur & new & _ & _ & _ & _ & _ & _ & _ & _ & Hv). exists cur. exact Hv.
Defined.

Definition sample_command_db : DB :=
  snd (exec (ExecuteMembershipCommand (sample_command "change_role" "admin" "key-1" 1) (sample_rs "c")) sample_org_db).
Lemma sample_command_inv : command_inv sample_command_db.
Proof.
  apply (preserves_exec command_inv); [apply preserves_ExecuteMembershipCommand, sample_year|].
  apply (preserves_exec command_inv); [|apply command_inv_empty].
  unfold sample_organisation, sample_create_user, CreateUser, CreateOrganisation, AddOrganisationMember,
    addOrganisationMemberTx. frame_ops.
Qed.

(** A cleanup two days later removes the result; one at a day's age would not. *)
Lemma command_results_retained_witness :
  exists db', CleanupMembershipCommandResults (4 * Second) 10 (48 * Hour) sample_command_db = Ok (1, db')
    /\ 0 <= 1 <= 10.
Proof.
  assert (exists db', CleanupMembershipCommandResults (4 * Second) 10 (48 * Hour) sample_command_db = Ok (1, db'))
    as (db' & E) by (eexists; vm_compute; reflexivity).
  exists db'. split; [exact E|].
  assert (four_digit_year (4 * Second)) as Hy by (unfold four_digit_year; vm_compute; intuition discriminate).
  destruct (command_results_retained (4 * Second) 10 (48 * Hour) sample_command_db 1 db' sample_command_inv Hy E)
    as (_ & _ & Hk & _). exact Hk.
Defined.
