(* ===== verification/Projection.v ===== *)
(** internal/db/sqlite/projections.go: the inbox of a consumer that follows the
    event feed, and the checkpoint of every aggregate it projects. *)
From stdpp Require Import base tactics list strings.
From Stdlib Require Import ZArith Lia Ascii String Sorted.
From S2P Require Import Prelude GoStrings GoTime Codec Json JsonLaws Errors Domain Events Schema Outbox.
From S2P Require Import Auth Identity Organisation.

Local Open Scope string_scope.
Local Open Scope Z_scope.

(** ** internal/store/projections.go *)

Definition MaxProjectionReasonLength : Z := 500.

Definition InboxPending := "pending".
Definition InboxApplied := "applied".
Definition InboxGap := "gap".
Definition InboxStale := "stale".
Definition InboxBlocked := "blocked".

Definition ProjectionCurrent := "current".
Definition ProjectionStale := "stale".
Definition ProjectionGap := "gap".
Definition ProjectionBlocked := "blocked".
Definition ProjectionUnavailable := "unavailable".

Definition OutcomeAccepted := "accepted".
Definition OutcomeDuplicate := "duplicate".
Definition OutcomeStale := "stale".
Definition OutcomeBlocked := "blocked".
Definition OutcomeGapFound := "gap".

Record ProjectionInboxEvent := mkInboxEvent {
  ie_ConsumerKey : string; ie_EventID : string; ie_EventType : string; ie_AggregateType : string;
  ie_AggregateID : string; ie_Sequence : Z; ie_SchemaVersion : Z; ie_OccurredAt : Z; ie_Payload : string;
  ie_State : string; ie_Reason : string; ie_ReceivedAt : Z; ie_AppliedAt : option Z }.

Record ProjectionIngestResult := mkIngestResult { ir_Outcome : string; ir_State : string; ir_Reason : string }.

Record ProjectionCheckpoint := mkCheckpoint {
  pc_ConsumerKey : string; pc_AggregateType : string; pc_AggregateID : string; pc_LastSequence : Z;
  pc_LastEventID : string; pc_State : string; pc_Reason : string; pc_UpdatedAt : Z }.

Record ProjectionReconciliation := mkReconciliation {
  pr_Checkpoint : ProjectionCheckpoint; pr_Promoted : Z }.

(** ** Validation *)

Definition maxProjectionConsumerLength : Z := 100.
Definition maxProjectionEventType : Z := 200.
Definition maxProjectionAggregateType : Z := 50.
Definition maxProjectionAggregateID : Z := 200.

(** A byte outside ASCII belongs to a rune outside the allowed ranges. *)
Definition consumer_char (c : ascii) : bool :=
  let n := byte_code c in
  ((97 <=? n) && (n <=? 122)) || ((48 <=? n) && (n <=? 57)) || (n =? 46) || (n =? 95) || (n =? 45).
Definition validateProjectionConsumer (value : string) : res unit :=
  let value := TrimSpace value in
  check! (value =s "") || (maxProjectionConsumerLength <? len value) as ErrInvalidProjectionConsumer in
  check! negb (forall_bytes consumer_char value) as ErrInvalidProjectionConsumer in
  Ok tt.

Definition validateProjectionAggregate (aggregateType aggregateID : string) : res unit :=
  if blank aggregateType || (maxProjectionAggregateType <? len aggregateType) || blank aggregateID
     || (maxProjectionAggregateID <? len aggregateID)
  then Err (Text "projection aggregate identity is invalid") else Ok tt.

(** The reason an event is blocked for, "" when it is not. *)
Definition validateProjectionSourceEvent (e : Event) : res string :=
  if negb (has_prefix_id (Event_EventID e) "evt_") || (MaxEventIDLength <? len (Event_EventID e))
  then Err (Text "projection event identity is invalid")
  else if blank (Event_EventType e) || (maxProjectionEventType <? len (Event_EventType e))
          || (Event_Sequence e <=? 0) || (Event_SchemaVersion e <=? 0) || IsZero (Event_OccurredAt e)
  then Err (Text "projection event envelope is invalid")
  else let? _ := validateProjectionAggregate (Event_AggregateType e) (Event_AggregateID e) in
  if (len (Event_Payload e) =? 0) || (MaxPayloadBytes <? len (Event_Payload e))
     || negb (json_valid (Event_Payload e))
  then Err (Text "projection event payload is invalid")
  else if negb (Event_SchemaVersion e =? SchemaVersion) then Ok "unknown_schema_version"
  else match Event_Validate e with Err _ => Ok "invalid_event" | Ok _ => Ok "" end.

(** ** Reading the two tables *)

Definition same_stream (consumerKey aggregateType aggregateID : string) (r : InboxRow) : bool :=
  (ib_consumer_key r =s consumerKey) && (ib_aggregate_type r =s aggregateType)
  && (ib_aggregate_id r =s aggregateID).
Definition same_checkpoint (consumerKey aggregateType aggregateID : string) (r : CheckpointRow) : bool :=
  (cp_consumer_key r =s consumerKey) && (cp_aggregate_type r =s aggregateType)
  && (cp_aggregate_id r =s aggregateID).
Definition inbox_key (consumerKey eventID : string) (r : InboxRow) : bool :=
  (ib_consumer_key r =s consumerKey) && (ib_event_id r =s eventID).

Definition scanProjectionInbox (r : InboxRow) : ProjectionInboxEvent :=
  mkInboxEvent (ib_consumer_key r) (ib_event_id r) (ib_event_type r) (ib_aggregate_type r) (ib_aggregate_id r)
    (ib_sequence r) (ib_schema_version r) (parseTime (ib_occurred_at r)) (ib_payload r) (ib_state r)
    (ib_reason r) (parseTime (ib_received_at r)) (option_map parseTime (ib_applied_at r)).

Definition readProjectionInboxByEvent (consumerKey eventID : string) (db : DB) : option ProjectionInboxEvent :=
  option_map scanProjectionInbox (find (inbox_key consumerKey eventID) (inbox db)).

Definition sameProjectionEvent (existing : ProjectionInboxEvent) (e : Event) : bool :=
  (ie_EventID existing =s Event_EventID e) && (ie_EventType existing =s Event_EventType e)
  && (ie_AggregateType existing =s Event_AggregateType e) && (ie_AggregateID existing =s Event_AggregateID e)
  && (ie_Sequence existing =? Event_Sequence e) && (ie_SchemaVersion existing =? Event_SchemaVersion e)
  && (ie_OccurredAt existing =? Event_OccurredAt e) && (ie_Payload existing =s Event_Payload e).

Definition checkpoint_of_row (r : CheckpointRow) : ProjectionCheckpoint :=
  mkCheckpoint (cp_consumer_key r) (cp_aggregate_type r) (cp_aggregate_id r) (cp_last_sequence r)
    (cp_last_event_id r) (cp_state r) (cp_reason r) (parseTime (cp_updated_at r)).
Definition readProjectionCheckpoint (consumerKey aggregateType aggregateID : string) (db : DB)
  : option ProjectionCheckpoint :=
  option_map checkpoint_of_row (find (same_checkpoint consumerKey aggregateType aggregateID) (checkpoints db)).

Definition unavailableProjectionCheckpoint (consumerKey aggregateType aggregateID : string) (at_ : Z)
  : ProjectionCheckpoint :=
  mkCheckpoint consumerKey aggregateType aggregateID 0 "" ProjectionUnavailable "not_initialized" at_.

(** ** Writing the checkpoint *)

Definition checkpoint_row (c : ProjectionCheckpoint) (id : Z) : CheckpointRow :=
  mkCheckpointRow id (pc_ConsumerKey c) (pc_AggregateType c) (pc_AggregateID c) (pc_LastSequence c)
    (pc_LastEventID c) (pc_State c) (pc_Reason c) (formatTime (pc_UpdatedAt c)).

(** [INSERT ... ON CONFLICT(consumer_key,aggregate_type,aggregate_id) DO UPDATE]:
    the CHECKs apply to the row either way. *)
Definition upsertProjectionCheckpointTx (c : ProjectionCheckpoint) : St DB error unit :=
  let mine := same_checkpoint (pc_ConsumerKey c) (pc_AggregateType c) (pc_AggregateID c) in
  do! require (checkpoints_ok [] (checkpoint_row c 0)) (Wrap "upsert projection checkpoint" (Constraint "CHECK")) in
  let! exists_ := reads (fun db => existsb mine (checkpoints db)) in
  if exists_
  then modify (fun db => set_checkpoints
         (update mine (fun r => checkpoint_row c (cp_id r)) (checkpoints db)) db)
  else do! within "upsert projection checkpoint"
             (insert_row checkpoints set_checkpoints checkpoints_ok (checkpoint_row c)) in ret tt.

Definition with_state (state reason : string) (c : ProjectionCheckpoint) : ProjectionCheckpoint :=
  mkCheckpoint (pc_ConsumerKey c) (pc_AggregateType c) (pc_AggregateID c) (pc_LastSequence c)
    (pc_LastEventID c) state reason (pc_UpdatedAt c).
Definition with_updated (at_ : Z) (c : ProjectionCheckpoint) : ProjectionCheckpoint :=
  mkCheckpoint (pc_ConsumerKey c) (pc_AggregateType c) (pc_AggregateID c) (pc_LastSequence c)
    (pc_LastEventID c) (pc_State c) (pc_Reason c) at_.
Definition with_last (sequence : Z) (eventID : string) (c : ProjectionCheckpoint) : ProjectionCheckpoint :=
  mkCheckpoint (pc_ConsumerKey c) (pc_AggregateType c) (pc_AggregateID c) sequence eventID (pc_State c)
    (pc_Reason c) (pc_UpdatedAt c).

Definition checkpoint_after_ingest (inboxState reason : string) (c : ProjectionCheckpoint)
  : ProjectionCheckpoint :=
  if (pc_State c =s ProjectionUnavailable) || (pc_State c =s ProjectionBlocked) then c
  else if inboxState =s InboxBlocked then with_state ProjectionBlocked reason c
  else if inboxState =s InboxGap then with_state ProjectionGap reason c
  else if inboxState =s InboxPending then
    if pc_State c =s ProjectionGap then c else with_state ProjectionStale reason c
  else c.

Definition upsertProjectionCheckpointAfterIngest (consumerKey aggregateType aggregateID : string)
    (checkpoint : option ProjectionCheckpoint) (inboxState reason : string) (at_ : Z) : St DB error unit :=
  let c := match checkpoint with
           | Some c => c
           | None => mkCheckpoint consumerKey aggregateType aggregateID 0 "" "" "" zero_time
           end in
  upsertProjectionCheckpointTx (with_updated at_ (checkpoint_after_ingest inboxState reason c)).

(** [ORDER BY sequence,id] *)
Definition sequence_before (a b : InboxRow) : bool :=
  (ib_sequence a <? ib_sequence b) || ((ib_sequence a =? ib_sequence b) && (ib_id a <? ib_id b)).
Definition unresolved (r : InboxRow) : bool :=
  (ib_state r =s InboxBlocked) || (ib_state r =s InboxGap) || (ib_state r =s InboxPending).
(** [... ORDER BY sequence,id LIMIT 1] on one stream *)
Definition first_in_stream (p : InboxRow -> bool) (consumerKey aggregateType aggregateID : string) (db : DB)
  : option InboxRow :=
  hd_error (sort_by sequence_before
    (select (fun r => same_stream consumerKey aggregateType aggregateID r && p r) (inbox db))).

(** The state the checkpoint takes from its first unresolved event. *)
Definition refreshed_state (first : option InboxRow) (c : ProjectionCheckpoint) : ProjectionCheckpoint :=
  match first with
  | None => with_state ProjectionCurrent "" c
  | Some r =>
      if ib_state r =s InboxBlocked then with_state ProjectionBlocked (ib_reason r) c
      else if ib_state r =s InboxGap then with_state ProjectionGap (ib_reason r) c
      else if ib_state r =s InboxPending then
        if ib_sequence r =? pc_LastSequence c + 1 then with_state ProjectionStale (ib_reason r) c
        else with_state ProjectionGap "missing_prior_sequence" c
      else c
  end.
Definition refreshProjectionCheckpointTx (c : ProjectionCheckpoint) (at_ : Z)
  : St DB error ProjectionCheckpoint :=
  let! first := reads (first_in_stream unresolved (pc_ConsumerKey c) (pc_AggregateType c) (pc_AggregateID c)) in
  let c := with_updated at_ (refreshed_state first c) in
  do! upsertProjectionCheckpointTx c in
  ret c.

(** ** Operations *)

(** The chain of conditions that classifies a new event: inbox state, outcome
    and reason. *)
Definition classify (blockedReason : string) (checkpoint : option ProjectionCheckpoint) (sequence : Z)
  : string * string * string :=
  if negb (blockedReason =s "") then (InboxBlocked, OutcomeBlocked, blockedReason)
  else match checkpoint with
  | Some c =>
      if pc_State c =s ProjectionBlocked then (InboxBlocked, OutcomeBlocked, "prior_blocked_event")
      else if sequence <=? pc_LastSequence c then (InboxStale, OutcomeStale, "sequence_already_applied")
      else if pc_LastSequence c + 1 <? sequence then (InboxGap, OutcomeGapFound, "missing_prior_sequence")
      else (InboxPending, OutcomeAccepted, "awaiting_apply")
  | None =>
      if 1 <? sequence then (InboxGap, OutcomeGapFound, "missing_prior_sequence")
      else (InboxPending, OutcomeAccepted, "awaiting_apply")
  end.

Definition inbox_row (consumerKey : string) (e : Event) (state reason : string) (receivedAt id : Z) : InboxRow :=
  mkInboxRow id consumerKey (Event_EventID e) (Event_EventType e) (Event_AggregateType e) (Event_AggregateID e)
    (Event_Sequence e) (Event_SchemaVersion e) (formatTime (Event_OccurredAt e)) (Event_Payload e) state reason
    (formatTime receivedAt) None.

Definition IngestPlatformProjectionEvent (consumerKey : string) (event : OutboxEvent) (receivedAt : Z)
  : St DB error ProjectionIngestResult :=
  let consumerKey := TrimSpace consumerKey in
  let e := oe_event event in
  do! lift (validateProjectionConsumer consumerKey) in
  do! require (negb (IsZero receivedAt)) (Text "projection receive time is required") in
  let! blockedReason := lift (validateProjectionSourceEvent e) in
  let! existing := reads (readProjectionInboxByEvent consumerKey (Event_EventID e)) in
  match existing with
  | Some x =>
      do! require (sameProjectionEvent x e) ErrProjectionEventConflict in
      ret (mkIngestResult OutcomeDuplicate (ie_State x) (ie_Reason x))
  | None =>
      let! checkpoint := reads (readProjectionCheckpoint consumerKey (Event_AggregateType e) (Event_AggregateID e)) in
      let '(inboxState, outcome, reason) := classify blockedReason checkpoint (Event_Sequence e) in
      do! within "store projection inbox event"
            (insert_row inbox set_inbox inbox_ok (inbox_row consumerKey e inboxState reason receivedAt)) in
      do! upsertProjectionCheckpointAfterIngest consumerKey (Event_AggregateType e) (Event_AggregateID e)
            checkpoint inboxState reason receivedAt in
      ret (mkIngestResult outcome inboxState reason)
  end.

Definition ListPlatformProjectionInbox (consumerKey : string) (n : Z) (db : DB)
  : res (list ProjectionInboxEvent) :=
  let consumerKey := TrimSpace consumerKey in
  let? _ := validateProjectionConsumer consumerKey in
  check! (n <=? 0) || (1000 <? n) as ErrInvalidProjectionLimit in
  Ok (map scanProjectionInbox (limit n (select (fun r => ib_consumer_key r =s consumerKey) (inbox db)))).

Definition applied_row (at_ : Z) (r : InboxRow) : InboxRow :=
  mkInboxRow (ib_id r) (ib_consumer_key r) (ib_event_id r) (ib_event_type r) (ib_aggregate_type r)
    (ib_aggregate_id r) (ib_sequence r) (ib_schema_version r) (ib_occurred_at r) (ib_payload r) InboxApplied ""
    (ib_received_at r) (Some (formatTime at_)).

(** [consumerKey=? AND event_id=? AND state='pending'] *)
Definition to_apply (consumerKey eventID : string) (r : InboxRow) : bool :=
  inbox_key consumerKey eventID r && (ib_state r =s InboxPending).

Definition MarkPlatformProjectionEventApplied (consumerKey eventID : string) (appliedAt : Z)
  : St DB error unit :=
  let consumerKey := TrimSpace consumerKey in
  do! lift (validateProjectionConsumer consumerKey) in
  do! require (negb (blank eventID || IsZero appliedAt)) (Text "projection event and apply time are required") in
  let! row := reads (readProjectionInboxByEvent consumerKey (TrimSpace eventID)) in
  let! event := some_or row ErrProjectionInboxNotFound in
  if ie_State event =s InboxApplied then ret tt
  else
    do! require (negb (ie_State event =s InboxBlocked)) ErrProjectionBlocked in
    do! require (negb (ie_State event =s InboxGap)) ErrProjectionGap in
    do! require (ie_State event =s InboxPending) ErrProjectionNotReady in
    let! row := reads (readProjectionCheckpoint consumerKey (ie_AggregateType event) (ie_AggregateID event)) in
    let! checkpoint := some_or row ErrProjectionBlocked in
    do! require (negb (pc_State checkpoint =s ProjectionBlocked)) ErrProjectionBlocked in
    do! require (negb (pc_State checkpoint =s ProjectionUnavailable)) ErrProjectionUnavailable in
    do! require (negb (pc_LastSequence checkpoint + 1 <? ie_Sequence event)) ErrProjectionGap in
    do! require (ie_Sequence event =? pc_LastSequence checkpoint + 1) ErrProjectionNotReady in
    do! modify (fun db => set_inbox
          (update (to_apply consumerKey (ie_EventID event)) (applied_row appliedAt) (inbox db)) db) in
    do! refreshProjectionCheckpointTx (with_last (ie_Sequence event) (ie_EventID event) checkpoint) appliedAt in
    ret tt.

Definition promoted_row (r : InboxRow) : InboxRow :=
  mkInboxRow (ib_id r) (ib_consumer_key r) (ib_event_id r) (ib_event_type r) (ib_aggregate_type r)
    (ib_aggregate_id r) (ib_sequence r) (ib_schema_version r) (ib_occurred_at r) (ib_payload r) InboxPending
    "awaiting_apply" (ib_received_at r) (ib_applied_at r).

(** The body of the promotion loop, which leaves it on every path after one
    iteration: the first gap event is promoted when it is the next one. *)
Definition promote_once (c : ProjectionCheckpoint) : St DB error Z :=
  let! first := reads (first_in_stream (fun r => ib_state r =s InboxGap) (pc_ConsumerKey c) (pc_AggregateType c)
                         (pc_AggregateID c)) in
  match first with
  | None => ret 0
  | Some r =>
      if negb (ib_sequence r =? pc_LastSequence c + 1) then ret 0
      else
        do! modify (fun db => set_inbox
              (update (fun x => (ib_id x =? ib_id r) && (ib_state x =s InboxGap)) promoted_row (inbox db)) db) in
        ret 1
  end.

Definition ReconcilePlatformProjection (consumerKey aggregateType aggregateID : string) (n reconciledAt : Z)
  : St DB error ProjectionReconciliation :=
  let consumerKey := TrimSpace consumerKey in
  do! lift (validateProjectionConsumer consumerKey) in
  do! lift (validateProjectionAggregate aggregateType aggregateID) in
  do! require (negb ((n <=? 0) || (1000 <? n))) ErrInvalidProjectionLimit in
  do! require (negb (IsZero reconciledAt)) (Text "projection reconciliation time is required") in
  let! row := reads (readProjectionCheckpoint consumerKey aggregateType aggregateID) in
  match row with
  | None =>
      ret (mkReconciliation (unavailableProjectionCheckpoint consumerKey aggregateType aggregateID reconciledAt) 0)
  | Some checkpoint =>
      if (pc_State checkpoint =s ProjectionBlocked) || (pc_State checkpoint =s ProjectionUnavailable)
      then ret (mkReconciliation checkpoint 0)
      else
        let! promoted := promote_once checkpoint in
        let! checkpoint := refreshProjectionCheckpointTx checkpoint reconciledAt in
        ret (mkReconciliation checkpoint promoted)
  end.

Definition GetPlatformProjectionCheckpoint (consumerKey aggregateType aggregateID : string) (now : Z) (db : DB)
  : res ProjectionCheckpoint :=
  let consumerKey := TrimSpace consumerKey in
  let? _ := validateProjectionConsumer consumerKey in
  let? _ := validateProjectionAggregate aggregateType aggregateID in
  Ok (match readProjectionCheckpoint consumerKey aggregateType aggregateID db with
      | Some c => c
      | None => unavailableProjectionCheckpoint consumerKey aggregateType aggregateID now
      end).

Definition MarkPlatformProjectionUnavailable (consumerKey aggregateType aggregateID reason : string) (at_ : Z)
  : St DB error unit :=
  let consumerKey := TrimSpace consumerKey in
  do! lift (validateProjectionConsumer consumerKey) in
  do! lift (validateProjectionAggregate aggregateType aggregateID) in
  let reason := TrimSpace reason in
  do! require (negb ((reason =s "") || (MaxProjectionReasonLength <? len reason) || IsZero at_))
        (Text "projection unavailable reason and time are required") in
  let! row := reads (readProjectionCheckpoint consumerKey aggregateType aggregateID) in
  let checkpoint := match row with
                    | Some c => c
                    | None => mkCheckpoint consumerKey aggregateType aggregateID 0 "" "" "" zero_time
                    end in
  upsertProjectionCheckpointTx (with_updated at_ (with_state ProjectionUnavailable reason checkpoint)).

Definition ResumePlatformProjection (consumerKey aggregateType aggregateID : string) (at_ : Z)
  : St DB error ProjectionCheckpoint :=
  let consumerKey := TrimSpace consumerKey in
  do! lift (validateProjectionConsumer consumerKey) in
  do! lift (validateProjectionAggregate aggregateType aggregateID) in
  do! require (negb (IsZero at_)) (Text "projection resume time is required") in
  let! row := reads (readProjectionCheckpoint consumerKey aggregateType aggregateID) in
  match row with
  | None => ret (unavailableProjectionCheckpoint consumerKey aggregateType aggregateID at_)
  | Some checkpoint =>
      if negb (pc_State checkpoint =s ProjectionUnavailable) then ret checkpoint
      else refreshProjectionCheckpointTx checkpoint at_
  end.

(** ** Consistency of the inbox and the checkpoints

    The sequences applied from a stream are exactly 1 to the checkpoint's last
    sequence, each one once, and the checkpoint names the last event applied. *)

Definition applied_at (k ty agg : string) (n : Z) (r : InboxRow) : bool :=
  same_stream k ty agg r && (ib_state r =s InboxApplied) && (ib_sequence r =? n).

Definition tracked (rows : list InboxRow) (k ty agg : string) (last : Z) (event : string) : Prop :=
  0 <= last
  /\ (forall n, count (applied_at k ty agg n) rows = if (1 <=? n) && (n <=? last) then 1 else 0)
  /\ (0 < last -> exists r, In r rows /\ applied_at k ty agg last r = true /\ ib_event_id r = event).

Record projection_wf (rows : list InboxRow) (cs : list CheckpointRow) : Prop := {
  pw_ids : ids_unique rows;
  pw_event : forall k e, count (inbox_key k e) rows <= 1;
  pw_checkpoint : forall k ty agg, count (same_checkpoint k ty agg) cs <= 1;
  pw_stream : forall r, In r rows -> exists c, In c cs
    /\ same_checkpoint (ib_consumer_key r) (ib_aggregate_type r) (ib_aggregate_id r) c = true;
  pw_tracked : forall c, In c cs ->
    tracked rows (cp_consumer_key c) (cp_aggregate_type c) (cp_aggregate_id c) (cp_last_sequence c)
      (cp_last_event_id c);
  pw_row : forall c, In c cs -> checkpoints_ok [] c = true;
  pw_reason : forall r, In r rows -> sql_length (ib_reason r) <= 500 }.
Definition projection_inv (db : DB) : Prop := projection_wf (inbox db) (checkpoints db).

Lemma projection_inv_empty : projection_inv empty_db.
Proof. split; try done. apply NoDup_nil_2. Qed.
Lemma projection_inv_log : ignores_log projection_inv.
Proof. by split. Qed.

Lemma same_checkpoint_iff k ty agg c :
  same_checkpoint k ty agg c = true <->
  cp_consumer_key c = k /\ cp_aggregate_type c = ty /\ cp_aggregate_id c = agg.
Proof. unfold same_checkpoint. rewrite !andb_true_iff, !String.eqb_eq. tauto. Qed.
Lemma same_stream_iff k ty agg r :
  same_stream k ty agg r = true <->
  ib_consumer_key r = k /\ ib_aggregate_type r = ty /\ ib_aggregate_id r = agg.
Proof. unfold same_stream. rewrite !andb_true_iff, !String.eqb_eq. tauto. Qed.
Lemma inbox_key_iff k e r : inbox_key k e r = true <-> ib_consumer_key r = k /\ ib_event_id r = e.
Proof. unfold inbox_key. by rewrite andb_true_iff, !String.eqb_eq. Qed.
Lemma applied_at_iff k ty agg n r :
  applied_at k ty agg n r = true <->
  same_stream k ty agg r = true /\ ib_state r = InboxApplied /\ ib_sequence r = n.
Proof. unfold applied_at. rewrite !andb_true_iff, String.eqb_eq, Z.eqb_eq. tauto. Qed.

(** *** The upsert *)

Definition keyed (c : ProjectionCheckpoint) : CheckpointRow -> bool :=
  same_checkpoint (pc_ConsumerKey c) (pc_AggregateType c) (pc_AggregateID c).
Definition upserted (c : ProjectionCheckpoint) (cs : list CheckpointRow) : list CheckpointRow :=
  if existsb (keyed c) cs then update (keyed c) (fun r => checkpoint_row c (cp_id r)) cs
  else (cs ++ [checkpoint_row c (next_id cs)])%list.

Lemma upsert_Ok c db u db' :
  upsertProjectionCheckpointTx c db = Ok (u, db') ->
  checkpoints_ok [] (checkpoint_row c 0) = true /\ db' = set_checkpoints (upserted c (checkpoints db)) db.
Proof.
  unfold upsertProjectionCheckpointTx, upserted. fold (keyed c). intros H.
  apply require_then_Ok in H as [Hok H]. split; [done|]. rewrite bind_reads in H.
  destruct (existsb _ _); by inv_db.
Qed.

Lemma keyed_self c id : keyed c (checkpoint_row c id) = true.
Proof. unfold keyed. by apply same_checkpoint_iff. Qed.

Lemma in_upserted c cs x :
  In x (upserted c cs) -> (exists id, x = checkpoint_row c id) \/ (In x cs /\ keyed c x = false).
Proof.
  unfold upserted. destruct (existsb _ cs) eqn:E.
  - intros (y & Hy & ->)%in_update. destruct (keyed c y) eqn:Ek; eauto.
  - intros [Hx|[<-|[]]]%in_app_or; [right|by eauto]. split; [done|].
    apply existsb_count in E. by apply (proj1 (count_zero _ _) E).
Qed.

Lemma upserted_has c cs : exists id, In (checkpoint_row c id) (upserted c cs).
Proof.
  unfold upserted. destruct (existsb _ cs) eqn:E.
  - apply existsb_exists in E as (y & Hy & Hk). exists (cp_id y). apply in_update. exists y. by rewrite Hk.
  - eexists. apply in_or_app. right. by left.
Qed.

Lemma upserted_keeps c cs x : In x cs -> keyed c x = false -> In x (upserted c cs).
Proof.
  intros Hx Hk. unfold upserted. destruct (existsb _ cs).
  - apply in_update. exists x. by rewrite Hk.
  - apply in_or_app. by left.
Qed.

Lemma same_checkpoint_row k ty agg c id :
  same_checkpoint k ty agg (checkpoint_row c id)
  = (pc_ConsumerKey c =s k) && (pc_AggregateType c =s ty) && (pc_AggregateID c =s agg).
Proof. done. Qed.

Lemma count_upserted k ty agg c cs :
  count (same_checkpoint k ty agg) cs <= 1 -> count (same_checkpoint k ty agg) (upserted c cs) <= 1.
Proof.
  intros Hle. unfold upserted. destruct (existsb _ cs) eqn:E.
  - rewrite count_update; [done|]. intros r Hr. unfold keyed in Hr.
    apply same_checkpoint_iff in Hr as (Hk & Ht & Ha). unfold same_checkpoint at 2. by rewrite Hk, Ht, Ha.
  - apply existsb_count in E. rewrite count_snoc, same_checkpoint_row.
    destruct (_ && _) eqn:Ek; [|lia]. bool_hyps. str_eq. subst. unfold keyed in E. lia.
Qed.

(** One step of the projection: new rows and one checkpoint written. *)
Lemma projection_wf_step rows rows' cs c :
  projection_wf rows cs -> checkpoints_ok [] (checkpoint_row c 0) = true -> ids_unique rows' ->
  (forall k e, count (inbox_key k e) rows' <= 1) -> (forall r, In r rows' -> sql_length (ib_reason r) <= 500) ->
  (forall r, In r rows' ->
     same_stream (pc_ConsumerKey c) (pc_AggregateType c) (pc_AggregateID c) r = true
     \/ exists x, In x cs
        /\ same_checkpoint (ib_consumer_key r) (ib_aggregate_type r) (ib_aggregate_id r) x = true) ->
  tracked rows' (pc_ConsumerKey c) (pc_AggregateType c) (pc_AggregateID c) (pc_LastSequence c) (pc_LastEventID c) ->
  (forall x last event, keyed c x = false ->
     tracked rows (cp_consumer_key x) (cp_aggregate_type x) (cp_aggregate_id x) last event ->
     tracked rows' (cp_consumer_key x) (cp_aggregate_type x) (cp_aggregate_id x) last event) ->
  projection_wf rows' (upserted c cs).
Proof.
  intros Hwf Hrow Hids Hev Hreason Hstream Hc Hother. split; [done|done| | | | |done].
  - intros. by apply count_upserted, Hwf.
  - intros r Hr. destruct (upserted_has c cs) as [id Hid].
    destruct (Hstream r Hr) as [(Hk & Ht & Ha)%same_stream_iff|(x & Hx & Hs)].
    + exists (checkpoint_row c id). split; [done|]. by apply same_checkpoint_iff.
    + destruct (keyed c x) eqn:Ek; [|exists x; split; [by apply upserted_keeps|done]].
      exists (checkpoint_row c id). split; [done|]. unfold keyed in Ek.
      apply same_checkpoint_iff in Ek as (?&?&?). apply same_checkpoint_iff in Hs as (?&?&?).
      apply same_checkpoint_iff. cbn. split_and!; congruence.
  - intros x [[id ->]|[Hx Hk]]%in_upserted; [done|]. apply Hother; [done|]. by apply Hwf.
  - intros x [[id ->]|[Hx _]]%in_upserted; [done|]. by apply (pw_row _ _ Hwf).
Qed.

(** *** What the rows of a stream say *)

Lemma tracked_snoc rows k ty agg last event r :
  ib_state r <> InboxApplied -> tracked rows k ty agg last event -> tracked (rows ++ [r])%list k ty agg last event.
Proof.
  intros Hr (Hl & Hc & Hlast). split_and!; [done| |].
  - intros n. rewrite count_snoc, <-Hc. destruct (applied_at k ty agg n r) eqn:E; [|lia].
    by apply applied_at_iff in E as (_ & ? & _).
  - intros Hpos. destruct (Hlast Hpos) as (x & Hx & ?). exists x. split; [by apply in_or_app; left|done].
Qed.

(** An UPDATE that neither reads nor makes applied rows of this stream. *)
Lemma tracked_update rows k ty agg last event p f :
  (forall r n, In r rows -> p r = true -> applied_at k ty agg n r = false /\ applied_at k ty agg n (f r) = false) ->
  tracked rows k ty agg last event -> tracked (update p f rows) k ty agg last event.
Proof.
  intros Hp (Hl & Hc & Hlast). split_and!; [done| |].
  - intros n. rewrite count_update_in, Hc; [done|]. intros r Hin Hr. destruct (Hp r n Hin Hr). congruence.
  - intros Hpos. destruct (Hlast Hpos) as (x & Hx & Ha & He). exists x. split; [|done].
    apply in_update. exists x. split; [done|]. destruct (p x) eqn:E; [|done].
    destruct (Hp x last Hx E). congruence.
Qed.

Lemma inbox_unique rows k e x y :
  count (inbox_key k e) rows <= 1 -> In x rows -> In y rows -> inbox_key k e x = true ->
  inbox_key k e y = true -> x = y.
Proof.
  intros Hc Hx Hy Kx Ky. pose proof (find_count _ _ _ Hc Hx Kx). pose proof (find_count _ _ _ Hc Hy Ky).
  congruence.
Qed.

Lemma count_apply k e at_ q r rows :
  ids_unique rows -> count (inbox_key k e) rows <= 1 -> In r rows -> to_apply k e r = true ->
  count q (update (to_apply k e) (applied_row at_) rows)
  = count q rows + (if q (applied_row at_ r) then 1 else 0) - (if q r then 1 else 0).
Proof.
  intros Hids Hev Hin Hr.
  destruct (update_unique row_id (to_apply k e) (applied_row at_) rows r) as (l1 & l2 & -> & ->); [done..| |].
  - intros x Hx Hpx. f_equal. unfold to_apply in *. bool_hyps. by apply (inbox_unique rows k e).
  - rewrite !count_app, !count_cons. destruct (q r), (q (applied_row at_ r)); lia.
Qed.

(** Applying the event that follows the last one. *)
Lemma tracked_apply rows k ty agg last event r at_ :
  ids_unique rows -> count (inbox_key k (ib_event_id r)) rows <= 1 -> In r rows ->
  to_apply k (ib_event_id r) r = true -> same_stream k ty agg r = true -> ib_sequence r = last + 1 ->
  tracked rows k ty agg last event ->
  tracked (update (to_apply k (ib_event_id r)) (applied_row at_) rows) k ty agg (last + 1) (ib_event_id r).
Proof.
  intros Hids Hev Hin Hr Hs Hseq (Hl & Hc & Hlast).
  assert (forall n, applied_at k ty agg n (applied_row at_ r) = (last + 1 =? n)) as Hnew.
  { intros n. apply eq_true_iff_eq. rewrite applied_at_iff, Z.eqb_eq. cbn. rewrite Hseq.
    apply same_stream_iff in Hs. split; [tauto|]. intros <-. split_and!; [|done|done].
    by apply same_stream_iff. }
  assert (forall n, applied_at k ty agg n r = false) as Hold.
  { intros n. apply not_true_is_false. intros (_ & Ha & _)%applied_at_iff.
    unfold to_apply in Hr. rewrite Ha in Hr. by rewrite andb_false_r in Hr. }
  split_and!; [lia| |].
  - intros n. rewrite (count_apply _ _ _ _ r), Hc, Hnew, Hold by done.
    destruct (Z.leb_spec 1 n), (Z.leb_spec n last), (Z.leb_spec n (last + 1)), (Z.eqb_spec (last + 1) n);
      cbn; lia.
  - intros _. exists (applied_row at_ r). split_and!; [|rewrite Hnew; apply Z.eqb_refl|done].
    apply in_update. exists r. by rewrite Hr.
Qed.

Definition stored_checkpoint (k ty agg : string) (o : option ProjectionCheckpoint) : ProjectionCheckpoint :=
  match o with Some c => c | None => mkCheckpoint k ty agg 0 "" "" "" zero_time end.

(** What every update of a checkpoint but an application leaves alone. *)
Definition core (c : ProjectionCheckpoint) : string * string * string * Z * string :=
  (pc_ConsumerKey c, pc_AggregateType c, pc_AggregateID c, pc_LastSequence c, pc_LastEventID c).

Lemma core_eq c c' : core c = core c' ->
  pc_ConsumerKey c = pc_ConsumerKey c' /\ pc_AggregateType c = pc_AggregateType c'
  /\ pc_AggregateID c = pc_AggregateID c' /\ pc_LastSequence c = pc_LastSequence c'
  /\ pc_LastEventID c = pc_LastEventID c'.
Proof. unfold core. by intros [= -> -> -> -> ->]. Qed.

Lemma readProjectionCheckpoint_Some k ty agg db c :
  readProjectionCheckpoint k ty agg db = Some c ->
  exists x, In x (checkpoints db) /\ same_checkpoint k ty agg x = true /\ c = checkpoint_of_row x
    /\ pc_ConsumerKey c = k /\ pc_AggregateType c = ty /\ pc_AggregateID c = agg.
Proof.
  unfold readProjectionCheckpoint. destruct (find _ _) as [x|] eqn:E; [|done]. intros [= <-].
  apply find_some in E as [Hx Hs]. exists x. split_and!; try done; by apply same_checkpoint_iff in Hs as (?&?&?).
Qed.

Lemma stored_tracked k ty agg db c :
  projection_inv db -> c = stored_checkpoint k ty agg (readProjectionCheckpoint k ty agg db) ->
  (pc_ConsumerKey c = k /\ pc_AggregateType c = ty /\ pc_AggregateID c = agg)
  /\ tracked (inbox db) k ty agg (pc_LastSequence c) (pc_LastEventID c).
Proof.
  intros Hwf ->. destruct (readProjectionCheckpoint k ty agg db) as [c|] eqn:E; cbn.
  - apply readProjectionCheckpoint_Some in E as (x & Hx & Hs & -> & Hk & Ht & Ha). split; [done|].
    pose proof (pw_tracked _ _ Hwf x Hx) as H. cbn in *. by rewrite Hk, Ht, Ha in H.
  - split; [done|]. split_and!; [done| |done]. intros n.
    replace ((1 <=? n) && (n <=? 0)) with false
      by (destruct (Z.leb_spec 1 n), (Z.leb_spec n 0); cbn; lia || done).
    apply count_zero. intros r Hr. apply not_true_is_false. intros (Hs & _)%applied_at_iff.
    destruct (pw_stream _ _ Hwf r Hr) as (x & Hx & Hxs).
    apply same_stream_iff in Hs as (Hk & Ht & Ha). rewrite Hk, Ht, Ha in Hxs.
    unfold readProjectionCheckpoint in E. destruct (find _ _) eqn:Ef; [done|].
    by rewrite (find_none _ _ Ef x Hx) in Hxs.
Qed.

Lemma inv_checkpoint db k ty agg c :
  projection_inv db -> checkpoints_ok [] (checkpoint_row c 0) = true -> core c = core (stored_checkpoint k ty agg (readProjectionCheckpoint k ty agg db)) ->
  projection_inv (set_checkpoints (upserted c (checkpoints db)) db).
Proof.
  intros Hwf Hrow Hcore. destruct (stored_tracked k ty agg db _ Hwf eq_refl) as ((Hk & Ht & Ha) & Htr).
  apply core_eq in Hcore as (E1 & E2 & E3 & E4 & E5).
  apply (projection_wf_step (inbox db)); [done..|apply Hwf|apply Hwf|apply Hwf| |by rewrite E1, E2, E3, E4, E5, Hk, Ht, Ha|done].
  intros r Hr. right. by apply (pw_stream _ _ Hwf).
Qed.

Lemma core_refreshed first c : core (refreshed_state first c) = core c.
Proof. unfold refreshed_state. destruct first as [r|]; [|done]. by repeat case_match. Qed.
Lemma core_after_ingest state reason c : core (checkpoint_after_ingest state reason c) = core c.
Proof. unfold checkpoint_after_ingest. by repeat case_match. Qed.

(** The checkpoint a refresh computes from the rows as they are. *)
Definition refreshed (c : ProjectionCheckpoint) (at_ : Z) (db : DB) : ProjectionCheckpoint :=
  with_updated at_ (refreshed_state
    (first_in_stream unresolved (pc_ConsumerKey c) (pc_AggregateType c) (pc_AggregateID c) db) c).

Lemma refresh_Ok c at_ db c' db' :
  refreshProjectionCheckpointTx c at_ db = Ok (c', db') ->
  c' = refreshed c at_ db /\ checkpoints_ok [] (checkpoint_row c' 0) = true
  /\ db' = set_checkpoints (upserted c' (checkpoints db)) db.
Proof.
  unfold refreshProjectionCheckpointTx. intros H. inv_db.
  match goal with Hu : upsertProjectionCheckpointTx _ _ = Ok _ |- _ => by apply upsert_Ok in Hu as [? ->] end.
Qed.
Lemma core_refresh c at_ db : core (refreshed c at_ db) = core c.
Proof. apply core_refreshed. Qed.

Lemma classify_state b c n : let '(state, _, _) := classify b c n in state <> InboxApplied.
Proof.
  unfold classify. destruct (negb (b =s "")); [done|]. destruct c as [c|]; [|by destruct (1 <? n)].
  destruct (pc_State c =s ProjectionBlocked), (n <=? pc_LastSequence c), (pc_LastSequence c + 1 <? n); done.
Qed.

Lemma inbox_snoc_unique k e rows r :
  count (inbox_key k e) rows <= 1 ->
  fresh (fun x => (ib_consumer_key x =s ib_consumer_key r) && (ib_event_id x =s ib_event_id r)) rows = true ->
  count (inbox_key k e) (rows ++ [r])%list <= 1.
Proof.
  intros Hle Hf. rewrite count_snoc. destruct (inbox_key k e r) eqn:E; [|lia].
  enough (count (inbox_key k e) rows = 0) by lia. apply count_zero. intros x Hx.
  rewrite fresh_spec in Hf. specialize (Hf x Hx). apply inbox_key_iff in E as [<- <-]. exact Hf.
Qed.

(** A first ingest: what it checks and writes. *)
Definition ingested (k : string) (e : Event) (state reason : string) (t : Z) (db : DB) : ProjectionCheckpoint :=
  with_updated t (checkpoint_after_ingest state reason
    (stored_checkpoint k (Event_AggregateType e) (Event_AggregateID e)
       (readProjectionCheckpoint k (Event_AggregateType e) (Event_AggregateID e) db))).
Definition after_ingest (k : string) (e : Event) (state reason : string) (t : Z) (db : DB) : DB :=
  set_checkpoints (upserted (ingested k e state reason t db) (checkpoints db))
    (set_inbox (inbox db ++ [inbox_row k e state reason t (next_id (inbox db))])%list db).

Lemma Ingest_Ok k0 ev t db res db' :
  IngestPlatformProjectionEvent k0 ev t db = Ok (res, db') ->
  let k := TrimSpace k0 in let e := oe_event ev in
  validateProjectionConsumer k = Ok tt /\ IsZero t = false
  /\ exists b, validateProjectionSourceEvent e = Ok b
  /\ match readProjectionInboxByEvent k (Event_EventID e) db with
     | Some x => sameProjectionEvent x e = true /\ db' = db
                 /\ res = mkIngestResult OutcomeDuplicate (ie_State x) (ie_Reason x)
     | None => exists state outcome reason,
         classify b (readProjectionCheckpoint k (Event_AggregateType e) (Event_AggregateID e) db) (Event_Sequence e)
         = (state, outcome, reason)
         /\ inbox_ok (inbox db) (inbox_row k e state reason t (next_id (inbox db))) = true
         /\ checkpoints_ok [] (checkpoint_row (ingested k e state reason t db) 0) = true
         /\ res = mkIngestResult outcome state reason /\ db' = after_ingest k e state reason t db
     end.
Proof.
  intros Hop. unfold IngestPlatformProjectionEvent in Hop. cbn zeta.
  apply bind_Ok in Hop as ([] & s1 & [Hv ->]%lift_Ok & Hop).
  rewrite require_then_Ok in Hop. destruct Hop as [Hz Hop].
  apply bind_Ok in Hop as (b & s1 & [Hb ->]%lift_Ok & Hop). rewrite bind_reads in Hop.
  split_and!; [done|by apply negb_true_iff in Hz|]. exists b. split; [done|].
  destruct (readProjectionInboxByEvent _ _ _) as [x|].
  - rewrite require_then_Ok in Hop. destruct Hop as [Hs Hop]. by inv_tx.
  - rewrite bind_reads in Hop. destruct (classify _ _ _) as [[state outcome] reason].
    exists state, outcome, reason. split; [done|]. unfold upsertProjectionCheckpointAfterIngest in Hop. inv_db.
    match goal with Hu : upsertProjectionCheckpointTx _ _ = Ok _ |- _ => apply upsert_Ok in Hu as [? ->] end.
    by split_and!.
Qed.

Lemma preserves_IngestPlatformProjectionEvent k0 ev t :
  preserves projection_inv (IngestPlatformProjectionEvent k0 ev t).
Proof.
  intros db res db' (_ & _ & b & _ & Hop)%Ingest_Ok Hwf. set (k := TrimSpace k0) in *. set (e := oe_event ev) in *.
  destruct (readProjectionInboxByEvent _ _ _) as [x|]; [by destruct Hop as (_ & -> & _)|].
  destruct Hop as (state & outcome & reason & Hcl & Hok & Hrow & _ & ->).
  pose proof (classify_state b (readProjectionCheckpoint k (Event_AggregateType e) (Event_AggregateID e) db)
    (Event_Sequence e)) as Hst. rewrite Hcl in Hst.
  unfold after_ingest, ingested in *. set (base := stored_checkpoint _ _ _ _) in *. set (c := with_updated _ _) in *.
  destruct (stored_tracked _ _ _ db base Hwf eq_refl) as ((Hk & Ht & Ha) & Htr).
  assert (core c = core base) as Hcore by apply core_after_ingest. clearbody c.
  apply core_eq in Hcore as (E1 & E2 & E3 & E4 & E5). rewrite Hk in E1. rewrite Ht in E2. rewrite Ha in E3.
  unfold inbox_ok in Hok. cbn in Hok. bool_hyps.
  apply (projection_wf_step (inbox db)); cbn [checkpoints set_inbox]; [done|done| | | | | |].
  - apply ids_unique_snoc; [apply Hwf|done].
  - intros. apply inbox_snoc_unique; [apply Hwf|done].
  - intros r [Hr|[<-|[]]]%in_app_or; [by apply (pw_reason _ _ Hwf)|by apply Z.leb_le].
  - intros r [Hr|[<-|[]]]%in_app_or; [right; by apply (pw_stream _ _ Hwf)|left].
    apply same_stream_iff. cbn. by rewrite E1, E2, E3.
  - rewrite E1, E2, E3, E4, E5. by apply tracked_snoc.
  - intros. by apply tracked_snoc.
Qed.

Lemma readProjectionInboxByEvent_Some k e db x :
  readProjectionInboxByEvent k e db = Some x ->
  exists r, In r (inbox db) /\ x = scanProjectionInbox r /\ ib_consumer_key r = k /\ ib_event_id r = e.
Proof.
  unfold readProjectionInboxByEvent. destruct (find _ _) as [r|] eqn:E; [|done]. intros [= <-].
  apply find_some in E as [Hr Hk%inbox_key_iff]. by exists r.
Qed.

(** A committed application: the event was applied already, or it is pending,
    next in its stream, and its stream is neither blocked nor unavailable. *)
Definition applied_rows (k e : string) (t : Z) (db : DB) : DB :=
  set_inbox (update (to_apply k e) (applied_row t) (inbox db)) db.
Definition advanced (k e : string) (r : InboxRow) (c : ProjectionCheckpoint) (t : Z) (db : DB)
  : ProjectionCheckpoint := refreshed (with_last (ib_sequence r) e c) t (applied_rows k e t db).
Definition after_apply (k e : string) (r : InboxRow) (c : ProjectionCheckpoint) (t : Z) (db : DB) : DB :=
  set_checkpoints (upserted (advanced k e r c t db) (checkpoints db)) (applied_rows k e t db).

Lemma Apply_Ok k0 e0 t db u db' :
  MarkPlatformProjectionEventApplied k0 e0 t db = Ok (u, db') ->
  let k := TrimSpace k0 in let e := TrimSpace e0 in
  exists r, In r (inbox db) /\ ib_consumer_key r = k /\ ib_event_id r = e
  /\ (ib_state r = InboxApplied /\ db' = db
      \/ ib_state r = InboxPending
         /\ exists c, readProjectionCheckpoint k (ib_aggregate_type r) (ib_aggregate_id r) db = Some c
            /\ pc_State c <> ProjectionBlocked /\ pc_State c <> ProjectionUnavailable
            /\ ib_sequence r = pc_LastSequence c + 1
            /\ checkpoints_ok [] (checkpoint_row (advanced k e r c t db) 0) = true
            /\ db' = after_apply k e r c t db).
Proof.
  intros Hop. unfold MarkPlatformProjectionEventApplied in Hop. cbn zeta. inv_db.
  all: match goal with Hx : readProjectionInboxByEvent _ _ _ = Some ?x |- _ =>
         apply readProjectionInboxByEvent_Some in Hx as (r & Hr & -> & Hk & He) end.
  all: exists r; split_and!; [done..|]; cbn [scanProjectionInbox ie_State ie_Sequence ie_EventID
         ie_AggregateType ie_AggregateID] in *; bool_hyps; str_eq.
  { by left. }
  right. match goal with Hr : refreshProjectionCheckpointTx _ _ _ = Ok _ |- _ => apply refresh_Ok in Hr as (-> & ? & ->) end.
  split; [done|]. eexists. unfold after_apply, advanced.
  split_and!; [eassumption|done|done|by apply Z.eqb_eq|by rewrite <-He|by rewrite <-He].
Qed.

Lemma to_apply_row k e r :
  ib_consumer_key r = k -> ib_event_id r = e -> ib_state r = InboxPending -> to_apply k e r = true.
Proof. intros <- <- Hs. unfold to_apply. rewrite Hs. apply andb_true_iff. split; [by apply inbox_key_iff|done]. Qed.
Lemma to_apply_only k e db r y :
  projection_inv db -> In r (inbox db) -> to_apply k e r = true -> In y (inbox db) -> to_apply k e y = true -> y = r.
Proof.
  intros Hwf Hr Hp Hy Hq. unfold to_apply in *. bool_hyps. by apply (inbox_unique (inbox db) k e); [apply Hwf|..].
Qed.

Lemma preserves_MarkPlatformProjectionEventApplied k0 e0 t :
  preserves projection_inv (MarkPlatformProjectionEventApplied k0 e0 t).
Proof.
  intros db u db' (r & Hr & Hk & He & [[_ ->]|(Hst & c & Hc & _ & _ & Hseq & Hrow & ->)])%Apply_Ok Hwf; [done|].
  set (k := TrimSpace k0) in *. set (e := TrimSpace e0) in *. pose proof (to_apply_row _ _ _ Hk He Hst) as Hto.
  destruct (stored_tracked _ _ _ db c Hwf ltac:(by rewrite Hc)) as ((Ec & Et & Ea) & Htr).
  unfold after_apply, advanced in *. set (c' := refreshed _ _ _) in *.
  assert (core c' = core (with_last (ib_sequence r) e c)) as Hcore by apply core_refresh. clearbody c'.
  apply core_eq in Hcore as (E1 & E2 & E3 & E4 & E5). cbn in E1, E2, E3, E4, E5.
  rewrite Ec in E1. rewrite Et in E2. rewrite Ea in E3.
  apply (projection_wf_step (inbox db)); [done|done| | | | | |].
  - apply ids_unique_update; [done|apply Hwf].
  - intros. unfold applied_rows. cbn. rewrite count_update; [apply Hwf|done].
  - intros y (z & Hz & ->)%in_update. destruct (to_apply _ _ z); [done|by apply (pw_reason _ _ Hwf z)].
  - intros y (z & Hz & ->)%in_update. right. destruct (to_apply _ _ z); by apply (pw_stream _ _ Hwf z).
  - rewrite E1, E2, E3, E4, E5, Hseq, <-He in *. unfold applied_rows. cbn.
    eapply tracked_apply; try done; [apply Hwf..|by apply same_stream_iff].
  - intros x last event Hkey. apply tracked_update. intros y n Hy Hp.
    pose proof (to_apply_only _ _ _ _ _ Hwf Hr Hto Hy Hp) as ->. unfold applied_at.
    enough (same_stream (cp_consumer_key x) (cp_aggregate_type x) (cp_aggregate_id x) r = false) as Hs
      by (unfold same_stream in *; cbn; by rewrite Hs).
    apply not_true_is_false. intros (Sk & St & Sa)%same_stream_iff. unfold keyed in Hkey.
    rewrite E1, E2, E3, <-Hk, Sk, St, Sa in Hkey. unfold same_checkpoint in Hkey. by rewrite !String.eqb_refl in Hkey.
Qed.

Lemma preserves_MarkPlatformProjectionUnavailable k0 ty agg reason t :
  preserves projection_inv (MarkPlatformProjectionUnavailable k0 ty agg reason t).
Proof.
  intros db u db' Hop Hwf. unfold MarkPlatformProjectionUnavailable in Hop.
  repeat first [rewrite require_then_Ok in Hop; destruct Hop as [_ Hop]
               |rewrite bind_reads in Hop|apply bind_Ok in Hop as (? & ? & [_ ->]%lift_Ok & Hop)].
  apply upsert_Ok in Hop as [Hrow ->]. by eapply inv_checkpoint.
Qed.

Lemma inv_refreshed db k ty agg c t :
  projection_inv db -> readProjectionCheckpoint k ty agg db = Some c ->
  checkpoints_ok [] (checkpoint_row (refreshed c t db) 0) = true ->
  projection_inv (set_checkpoints (upserted (refreshed c t db) (checkpoints db)) db).
Proof.
  intros Hwf Hc Hrow. apply (inv_checkpoint _ k ty agg); [done..|]. rewrite Hc. apply core_refresh.
Qed.

Lemma preserves_ResumePlatformProjection k0 ty agg t :
  preserves projection_inv (ResumePlatformProjection k0 ty agg t).
Proof.
  intros db c db' Hop Hwf. unfold ResumePlatformProjection in Hop. inv_db; [done| |done].
  match goal with Hr : refreshProjectionCheckpointTx _ _ _ = Ok _ |- _ => apply refresh_Ok in Hr as (-> & ? & ->) end.
  by eapply inv_refreshed.
Qed.

(** The first gap row of a checkpoint's stream, when it is the next one. *)
Definition next_gap (c : ProjectionCheckpoint) (db : DB) : option InboxRow :=
  match first_in_stream (fun r => ib_state r =s InboxGap) (pc_ConsumerKey c) (pc_AggregateType c)
          (pc_AggregateID c) db with
  | Some r => if ib_sequence r =? pc_LastSequence c + 1 then Some r else None
  | None => None
  end.
Definition to_promote (r x : InboxRow) : bool := (ib_id x =? ib_id r) && (ib_state x =s InboxGap).
Definition promoted_rows (o : option InboxRow) (db : DB) : DB :=
  match o with Some r => set_inbox (update (to_promote r) promoted_row (inbox db)) db | None => db end.

Lemma promote_once_eq c db :
  promote_once c db
  = Ok (match next_gap c db with Some _ => 1 | None => 0 end, promoted_rows (next_gap c db) db).
Proof.
  unfold promote_once, next_gap. rewrite bind_reads. destruct (first_in_stream _ _ _ _ _) as [r|]; [|done].
  by destruct (ib_sequence r =? _).
Qed.

Lemma hd_error_In {A} (l : list A) x : hd_error l = Some x -> In x l.
Proof. destruct l; [done|]. intros [= <-]. by left. Qed.

Lemma first_in_stream_In p k ty agg db r :
  first_in_stream p k ty agg db = Some r -> In r (inbox db) /\ same_stream k ty agg r = true /\ p r = true.
Proof. unfold first_in_stream. intros [H Hp]%hd_error_In%in_sort_by%filter_In. bool_hyps. done. Qed.

Lemma next_gap_Some c db r :
  next_gap c db = Some r ->
  In r (inbox db) /\ same_stream (pc_ConsumerKey c) (pc_AggregateType c) (pc_AggregateID c) r = true
  /\ ib_state r = InboxGap /\ ib_sequence r = pc_LastSequence c + 1.
Proof.
  unfold next_gap. destruct (first_in_stream _ _ _ _ _) as [x|] eqn:E; [|done].
  apply first_in_stream_In in E as (Hin & Hs & Hp%String.eqb_eq).
  destruct (Z.eqb_spec (ib_sequence x) (pc_LastSequence c + 1)); [|done]. by intros [= <-].
Qed.

Lemma inv_promoted o db : projection_inv db -> projection_inv (promoted_rows o db).
Proof.
  intros Hwf. destruct o as [r|]; [|done]. destruct Hwf as [Hids Hev Hcp Hst Htr Hrow Hreason]. split; cbn; [| |done| | |done|].
  - by apply ids_unique_update.
  - intros k e. by rewrite count_update.
  - intros x (y & Hy & ->)%in_update. destruct (to_promote r y); by apply (Hst y).
  - intros c Hc. apply tracked_update; [|by apply Htr]. intros x n _ Hp. unfold to_promote in Hp. bool_hyps.
    unfold applied_at. cbn. split; [|by rewrite andb_false_r].
    match goal with H : (ib_state x =s InboxGap) = true |- _ => apply String.eqb_eq in H as -> end.
    by rewrite andb_false_r.
  - intros x (y & Hy & ->)%in_update. destruct (to_promote r y); [done|by apply Hreason].
Qed.

Lemma preserves_ReconcilePlatformProjection k0 ty agg n t :
  preserves projection_inv (ReconcilePlatformProjection k0 ty agg n t).
Proof.
  intros db res db' Hop Hwf. unfold ReconcilePlatformProjection in Hop. inv_db; [done| |done].
  match goal with Hr : refreshProjectionCheckpointTx _ _ _ = Ok _ |- _ => apply refresh_Ok in Hr as (-> & ? & ->) end.
  match goal with Hp : promote_once ?c _ = Ok _ |- _ => rewrite promote_once_eq in Hp; injection Hp as _ <-;
    eapply (inv_refreshed _ (TrimSpace k0) ty agg c) end.
  - by apply inv_promoted.
  - match goal with Hc : readProjectionCheckpoint _ _ _ _ = Some ?c |- _ => rewrite <-Hc end.
    by destruct (next_gap _ _).
  - done.
Qed.

(** *** Sequences of operations *)

(** What a consumer may ask of its projection. *)
Inductive projection_call : Type :=
| Ingest (consumer : string) (event : OutboxEvent) (at_ : Z)
| Apply (consumer event : string) (at_ : Z)
| Reconcile (consumer aggregateType aggregateID : string) (n at_ : Z)
| Unavailable (consumer aggregateType aggregateID reason : string) (at_ : Z)
| Resume (consumer aggregateType aggregateID : string) (at_ : Z).

(** The state a call leaves, whether it commits or not. *)
Definition call (c : projection_call) (db : DB) : DB :=
  match c with
  | Ingest k e t => snd (exec (IngestPlatformProjectionEvent k e t) db)
  | Apply k e t => snd (exec (MarkPlatformProjectionEventApplied k e t) db)
  | Reconcile k ty agg n t => snd (exec (ReconcilePlatformProjection k ty agg n t) db)
  | Unavailable k ty agg reason t => snd (exec (MarkPlatformProjectionUnavailable k ty agg reason t) db)
  | Resume k ty agg t => snd (exec (ResumePlatformProjection k ty agg t) db)
  end.
Definition calls (cs : list projection_call) (db : DB) : DB := fold_left (fun s c => call c s) cs db.

Lemma call_inv c db : projection_inv db -> projection_inv (call c db).
Proof.
  intros Hwf. destruct c; cbn; apply (preserves_exec projection_inv); try done.
  - apply preserves_IngestPlatformProjectionEvent.
  - apply preserves_MarkPlatformProjectionEventApplied.
  - apply preserves_ReconcilePlatformProjection.
  - apply preserves_MarkPlatformProjectionUnavailable.
  - apply preserves_ResumePlatformProjection.
Qed.
Lemma calls_inv cs db : projection_inv db -> projection_inv (calls cs db).
Proof. revert db. induction cs as [|c cs IH]; intros db Hwf; [done|]. apply IH, call_inv, Hwf. Qed.

(** ** Reading back a written checkpoint *)

Definition stored (c : ProjectionCheckpoint) : ProjectionCheckpoint :=
  with_updated (parseTime (formatTime (pc_UpdatedAt c))) c.

Lemma read_upserted_same db c :
  (forall k ty agg, count (same_checkpoint k ty agg) (checkpoints db) <= 1) ->
  readProjectionCheckpoint (pc_ConsumerKey c) (pc_AggregateType c) (pc_AggregateID c)
    (set_checkpoints (upserted c (checkpoints db)) db) = Some (stored c).
Proof.
  intros Hwf. unfold readProjectionCheckpoint. cbn [checkpoints set_checkpoints].
  destruct (upserted_has c (checkpoints db)) as [id Hid].
  erewrite find_count with (x := checkpoint_row c id); [done|by apply count_upserted|done|].
  by apply same_checkpoint_iff.
Qed.

Lemma find_update_other {R} (p q : R -> bool) f t :
  (forall r, q r = true -> p r = false /\ p (f r) = false) -> find p (update q f t) = find p t.
Proof.
  intros H. induction t as [|r t IH]; [done|]. unfold update in *. cbn [map find]. rewrite IH.
  destruct (q r) eqn:E; [|done]. by destruct (H r E) as [-> ->].
Qed.
Lemma find_snoc_other {R} (p : R -> bool) t r : p r = false -> find p (t ++ [r])%list = find p t.
Proof. intros Hr. induction t as [|x t IH]; simpl; [by rewrite Hr|]. by rewrite IH. Qed.

Lemma read_upserted_other k ty agg db c :
  (pc_ConsumerKey c, pc_AggregateType c, pc_AggregateID c) <> (k, ty, agg) ->
  readProjectionCheckpoint k ty agg (set_checkpoints (upserted c (checkpoints db)) db)
  = readProjectionCheckpoint k ty agg db.
Proof.
  intros Hne. unfold readProjectionCheckpoint. cbn [checkpoints set_checkpoints]. f_equal.
  assert (forall id, same_checkpoint k ty agg (checkpoint_row c id) = false) as Hrow.
  { intros id. apply not_true_is_false. intros (? & ? & ?)%same_checkpoint_iff. cbn in *. congruence. }
  unfold upserted. destruct (existsb _ _); [|by apply find_snoc_other].
  apply find_update_other. intros r (? & ? & ?)%same_checkpoint_iff. split; [|done].
  apply not_true_is_false. intros (? & ? & ?)%same_checkpoint_iff. congruence.
Qed.

(** ** Rows keep the event they hold *)

Definition holds (k : string) (e : Event) (db : DB) : Prop :=
  exists r, In r (inbox db) /\ ib_consumer_key r = k /\ sameProjectionEvent (scanProjectionInbox r) e = true.

Lemma holds_update k e db p f :
  (forall r, ib_consumer_key (f r) = ib_consumer_key r
     /\ sameProjectionEvent (scanProjectionInbox (f r)) e = sameProjectionEvent (scanProjectionInbox r) e) ->
  holds k e db -> holds k e (set_inbox (update p f (inbox db)) db).
Proof.
  intros Hf (r & Hr & Hk & Hs). exists (if p r then f r else r). split; [apply in_update; eauto|].
  destruct (Hf r) as [Hfk Hfs]. destruct (p r); split; congruence.
Qed.

Lemma preserves_holds k e c db : holds k e db -> holds k e (call c db).
Proof.
  intros Hh. destruct c as [k0 ev t|k0 e0 t|k0 ty agg n t|k0 ty agg reason t|k0 ty agg t]; cbn;
    refine (preserves_exec _ _ db _ Hh); intros s a s' Hop Hs.
  - apply Ingest_Ok in Hop as (_ & _ & b & _ & Hop).
    destruct (readProjectionInboxByEvent _ _ _); [by destruct Hop as (_ & -> & _)|].
    destruct Hop as (state & outcome & reason & _ & _ & _ & _ & ->).
    destruct Hs as (r & Hr & ?). exists r. split; [|done]. cbn. apply in_or_app. by left.
  - apply Apply_Ok in Hop as (r & _ & _ & _ & [[_ ->]|(_ & c & _ & _ & _ & _ & _ & ->)]); [done|].
    by apply holds_update.
  - unfold ReconcilePlatformProjection in Hop. inv_db; [done| |done].
    match goal with Hr : refreshProjectionCheckpointTx _ _ _ = Ok _ |- _ => apply refresh_Ok in Hr as (-> & _ & ->) end.
    match goal with Hp : promote_once ?c _ = Ok _ |- _ => rewrite promote_once_eq in Hp; injection Hp as _ <- end.
    destruct (next_gap _ _); [by apply holds_update|done].
  - unfold MarkPlatformProjectionUnavailable in Hop. inv_db;
    match goal with Hu : upsertProjectionCheckpointTx _ _ = Ok _ |- _ => by apply upsert_Ok in Hu as [_ ->] end.
  - unfold ResumePlatformProjection in Hop. inv_db; [done| |done].
    match goal with Hr : refreshProjectionCheckpointTx _ _ _ = Ok _ |- _ => by apply refresh_Ok in Hr as (-> & _ & ->) end.
Qed.
Lemma calls_holds k e cs db : holds k e db -> holds k e (calls cs db).
Proof. revert db. induction cs as [|c cs IH]; intros db Hh; [done|]. by apply IH, preserves_holds. Qed.

Lemma sameProjectionEvent_iff x e :
  sameProjectionEvent x e = true <->
  ie_EventID x = Event_EventID e /\ ie_EventType x = Event_EventType e /\ ie_AggregateType x = Event_AggregateType e
  /\ ie_AggregateID x = Event_AggregateID e /\ ie_Sequence x = Event_Sequence e
  /\ ie_SchemaVersion x = Event_SchemaVersion e /\ ie_OccurredAt x = Event_OccurredAt e
  /\ ie_Payload x = Event_Payload e.
Proof. unfold sameProjectionEvent. rewrite !andb_true_iff, !String.eqb_eq, !Z.eqb_eq. tauto. Qed.

Lemma ingested_holds k0 ev t db res db' :
  four_digit_year (Event_OccurredAt (oe_event ev)) ->
  IngestPlatformProjectionEvent k0 ev t db = Ok (res, db') -> holds (TrimSpace k0) (oe_event ev) db'.
Proof.
  intros Hy (_ & _ & b & _ & Hop)%Ingest_Ok.
  destruct (readProjectionInboxByEvent _ _ _) as [x|] eqn:E.
  - destruct Hop as (Hs & -> & _). apply readProjectionInboxByEvent_Some in E as (r & Hr & -> & Hk & _). by exists r.
  - destruct Hop as (state & outcome & reason & _ & _ & _ & _ & ->).
    eexists. split; [cbn; apply in_or_app; right; by left|]. split; [done|].
    apply sameProjectionEvent_iff. split_and!; try done. by apply parse_formatTime.
Qed.

(** ** What succeeds *)

Lemma upsert_total c db :
  checkpoints_ok [] (checkpoint_row c 0) = true ->
  upsertProjectionCheckpointTx c db = Ok (tt, set_checkpoints (upserted c (checkpoints db)) db).
Proof.
  intros Hok. unfold upsertProjectionCheckpointTx, upserted. fold (keyed c). rewrite Hok, require_true, bind_reads.
  destruct (existsb (keyed c) (checkpoints db)) eqn:E; [done|].
  unfold within, wrap, insert_row, bind.
  assert (checkpoints_ok (checkpoints db) (checkpoint_row c (next_id (checkpoints db))) = true) as ->; [|done].
  unfold checkpoints_ok in *. cbn [fresh existsb negb andb] in Hok.
  assert (fresh (keyed c) (checkpoints db) = true) as Hf by (unfold fresh; by rewrite E).
  unfold keyed, same_checkpoint in Hf. cbn in *. by rewrite Hf.
Qed.

Lemma refreshed_ok rows c c' at_ db :
  projection_wf rows (checkpoints db) -> (forall r, In r (inbox db) -> sql_length (ib_reason r) <= 500) ->
  checkpoints_ok [] (checkpoint_row c 0) = true -> 0 <= pc_LastSequence c' ->
  pc_ConsumerKey c' = pc_ConsumerKey c -> pc_AggregateType c' = pc_AggregateType c ->
  pc_AggregateID c' = pc_AggregateID c -> pc_State c' = pc_State c -> pc_Reason c' = pc_Reason c ->
  checkpoints_ok [] (checkpoint_row (refreshed c' at_ db) 0) = true.
Proof.
  intros Hwf Hreason Hok Hlast Hk Ht Ha Hs Hr.
  destruct (core_eq _ _ (core_refresh c' at_ db)) as (E1 & E2 & E3 & E4 & _).
  unfold checkpoints_ok in *. cbn -[refreshed sql_length text_between consumer_key_ok] in *.
  rewrite E1, E2, E3, E4, Hk, Ht, Ha. apply Z.leb_le in Hlast. rewrite Hlast. bool_hyps.
  repeat match goal with H : ?b = true |- context [?b] => rewrite H; clear H end.
  unfold refreshed, refreshed_state.
  destruct (first_in_stream _ _ _ _ _) as [r|] eqn:E; [|done]. apply first_in_stream_In in E as (Hin & _ & _).
  apply Hreason, Z.leb_le in Hin.
  destruct (ib_state r =s InboxBlocked); [by cbn -[sql_length]; rewrite Hin|].
  destruct (ib_state r =s InboxGap); [by cbn -[sql_length]; rewrite Hin|].
  destruct (ib_state r =s InboxPending); [destruct (ib_sequence r =? _); [by cbn -[sql_length]; rewrite Hin|done]|].
  cbn -[sql_length]. rewrite Hs, Hr. by repeat match goal with H : ?b = true |- context [?b] => rewrite H; clear H end.
Qed.
Lemma refresh_total c at_ db :
  checkpoints_ok [] (checkpoint_row (refreshed c at_ db) 0) = true ->
  refreshProjectionCheckpointTx c at_ db
  = Ok (refreshed c at_ db, set_checkpoints (upserted (refreshed c at_ db) (checkpoints db)) db).
Proof.
  intros Hok. unfold refreshProjectionCheckpointTx. rewrite bind_reads.
  fold (refreshed c at_ db). by erewrite bind_value by (by apply upsert_total).
Qed.

Lemma read_row_ok k ty agg db c :
  projection_inv db -> readProjectionCheckpoint k ty agg db = Some c ->
  checkpoints_ok [] (checkpoint_row c 0) = true /\ 0 <= pc_LastSequence c.
Proof.
  intros Hwf (x & Hx & _ & -> & _)%readProjectionCheckpoint_Some.
  destruct (pw_tracked _ _ Hwf x Hx) as [Hl _]. split; [|exact Hl]. exact (pw_row _ _ Hwf x Hx).
Qed.

(** A stream that is neither blocked nor unavailable accepts its next event. *)
Lemma Apply_total k0 e0 t db r c :
  projection_inv db -> validateProjectionConsumer (TrimSpace k0) = Ok tt -> blank e0 = false -> IsZero t = false ->
  In r (inbox db) -> ib_consumer_key r = TrimSpace k0 -> ib_event_id r = TrimSpace e0 -> ib_state r = InboxPending ->
  readProjectionCheckpoint (TrimSpace k0) (ib_aggregate_type r) (ib_aggregate_id r) db = Some c ->
  pc_State c <> ProjectionBlocked -> pc_State c <> ProjectionUnavailable ->
  ib_sequence r = pc_LastSequence c + 1 ->
  MarkPlatformProjectionEventApplied k0 e0 t db = Ok (tt, after_apply (TrimSpace k0) (TrimSpace e0) r c t db).
Proof.
  intros Hwf Hv He Ht Hr Hk Hid Hst Hc Hb Hu Hseq.
  destruct (read_row_ok _ _ _ _ _ Hwf Hc) as [Hok Hl].
  assert (readProjectionInboxByEvent (TrimSpace k0) (TrimSpace e0) db = Some (scanProjectionInbox r)) as Hread.
  { unfold readProjectionInboxByEvent. erewrite find_count with (x := r); [done|apply Hwf|done|].
    by apply inbox_key_iff. }
  apply String.eqb_neq in Hb, Hu.
  unfold MarkPlatformProjectionEventApplied. rewrite Hv, bind_lift, He, Ht, require_true, bind_reads, Hread.
  erewrite bind_value by reflexivity.
  cbn [scanProjectionInbox ie_State ie_Sequence ie_EventID ie_AggregateType ie_AggregateID]. rewrite Hst.
  change (InboxPending =s InboxApplied) with false. change (InboxPending =s InboxBlocked) with false.
  change (InboxPending =s InboxGap) with false. cbn [negb]. rewrite String.eqb_refl.
  rewrite !require_true, bind_reads, Hc. erewrite bind_value by reflexivity.
  rewrite Hb, Hu, Hseq, Z.ltb_irrefl, Z.eqb_refl, Hid. cbn [negb]. rewrite !require_true.
  erewrite bind_value by reflexivity. fold (applied_rows (TrimSpace k0) (TrimSpace e0) t db).
  erewrite bind_value; [|apply refresh_total]; [by rewrite <-Hseq|].
  apply (refreshed_ok (inbox db) c); try done; [|cbn; lia].
  intros x (y & Hy & ->)%in_update. destruct (to_apply _ _ y); [done|by apply (pw_reason _ _ Hwf)].
Qed.

Lemma after_apply_read k e r c t db :
  projection_inv db -> four_digit_year t ->
  readProjectionCheckpoint k (ib_aggregate_type r) (ib_aggregate_id r) db = Some c ->
  (exists c', readProjectionCheckpoint k (ib_aggregate_type r) (ib_aggregate_id r) (after_apply k e r c t db) = Some c'
     /\ pc_LastSequence c' = ib_sequence r /\ pc_LastEventID c' = e /\ pc_UpdatedAt c' = t)
  /\ forall k2 ty2 agg2, (k, ib_aggregate_type r, ib_aggregate_id r) <> (k2, ty2, agg2) ->
     readProjectionCheckpoint k2 ty2 agg2 (after_apply k e r c t db) = readProjectionCheckpoint k2 ty2 agg2 db.
Proof.
  intros Hwf Ht Hc. destruct (readProjectionCheckpoint_Some _ _ _ _ _ Hc) as (x & _ & _ & _ & Ek & Et & Ea).
  unfold after_apply. assert (core (advanced k e r c t db) = core (with_last (ib_sequence r) e c)) as Hcore
    by apply core_refresh.
  assert (pc_UpdatedAt (advanced k e r c t db) = t) as Hup by done.
  set (c' := advanced k e r c t db) in *. clearbody c'.
  apply core_eq in Hcore as (E1 & E2 & E3 & E4 & E5). cbn in E1, E2, E3, E4, E5. split.
  - exists (stored c'). split_and!; [|done|done|].
    2: { change (parseTime (formatTime (pc_UpdatedAt c')) = t). by rewrite Hup, parse_formatTime. }
    rewrite <-Ek, <-Et, <-Ea, <-E1, <-E2, <-E3.
    apply (read_upserted_same (applied_rows _ e t db)). apply Hwf.
  - intros k2 ty2 agg2 Hne. rewrite <-Ek, <-Et, <-Ea, <-E1, <-E2, <-E3 in Hne.
    exact (read_upserted_other _ _ _ (applied_rows k e t db) c' Hne).
Qed.

(** The one call that takes a stream out of the blocked state. *)
Definition declares_unavailable (k ty agg : string) (c : projection_call) : Prop :=
  match c with
  | Unavailable k0 ty0 agg0 _ _ => (TrimSpace k0, ty0, agg0) = (k, ty, agg)
  | _ => False
  end.
Definition blocked_at (k ty agg : string) (last : Z) (event : string) (db : DB) : Prop :=
  exists c, readProjectionCheckpoint k ty agg db = Some c
    /\ pc_State c = ProjectionBlocked /\ pc_LastSequence c = last /\ pc_LastEventID c = event.

Lemma blocked_other k ty agg last event db c :
  (pc_ConsumerKey c, pc_AggregateType c, pc_AggregateID c) <> (k, ty, agg) -> blocked_at k ty agg last event db ->
  blocked_at k ty agg last event (set_checkpoints (upserted c (checkpoints db)) db).
Proof. intros Hne (x & Hx & ?). exists x. by rewrite read_upserted_other. Qed.

Lemma refreshed_key c at_ db :
  (pc_ConsumerKey (refreshed c at_ db), pc_AggregateType (refreshed c at_ db), pc_AggregateID (refreshed c at_ db))
  = (pc_ConsumerKey c, pc_AggregateType c, pc_AggregateID c).
Proof. by destruct (core_eq _ _ (core_refresh c at_ db)) as (-> & -> & -> & _). Qed.

Lemma blocked_refresh k ty agg last event db db0 k0 ty0 agg0 c c' t :
  (pc_ConsumerKey c', pc_AggregateType c', pc_AggregateID c')
  = (pc_ConsumerKey c, pc_AggregateType c, pc_AggregateID c) ->
  readProjectionCheckpoint k0 ty0 agg0 db0 = Some c -> pc_State c <> ProjectionBlocked ->
  blocked_at k ty agg last event db0 -> checkpoints db = checkpoints db0 ->
  blocked_at k ty agg last event (set_checkpoints (upserted (refreshed c' t db) (checkpoints db)) db).
Proof.
  intros Hkey Hc Hb Hbl Heq. apply blocked_other.
  - rewrite refreshed_key, Hkey. apply readProjectionCheckpoint_Some in Hc as Hk. destruct Hk as (_ & _ & _ & _ & -> & -> & ->).
    intros [= -> -> ->]. destruct Hbl as (x & Hx & Hs & _). congruence.
  - unfold blocked_at, readProjectionCheckpoint in *. by rewrite Heq.
Qed.

Lemma blocked_ingest k ty agg last event db k0 e state reason t :
  projection_inv db -> blocked_at k ty agg last event db ->
  blocked_at k ty agg last event (after_ingest k0 e state reason t db).
Proof.
  intros Hwf Hbl. unfold after_ingest. set (db1 := set_inbox _ db).
  destruct (stored_tracked k0 (Event_AggregateType e) (Event_AggregateID e) db _ Hwf eq_refl) as [(Hk & Ht & Ha) _].
  pose proof (core_after_ingest state reason (stored_checkpoint k0 (Event_AggregateType e) (Event_AggregateID e)
    (readProjectionCheckpoint k0 (Event_AggregateType e) (Event_AggregateID e) db))) as Hcore.
  apply core_eq in Hcore as (E1 & E2 & E3 & E4 & E5). rewrite Hk in E1. rewrite Ht in E2. rewrite Ha in E3.
  destruct (decide ((k0, Event_AggregateType e, Event_AggregateID e) = (k, ty, agg))) as [[= -> <- <-]|Hne].
  - destruct Hbl as (c & Hc & Hs & Hl & He). exists (stored (ingested k e state reason t db)). unfold ingested in *.
    split.
    + match goal with |- context [upserted ?c _] => pose proof (read_upserted_same db1 c (pw_checkpoint _ _ Hwf)) as Hread end.
      change (pc_ConsumerKey (with_updated t ?c)) with (pc_ConsumerKey c) in Hread.
      change (pc_AggregateType (with_updated t ?c)) with (pc_AggregateType c) in Hread.
      change (pc_AggregateID (with_updated t ?c)) with (pc_AggregateID c) in Hread.
      by rewrite E1, E2, E3 in Hread.
    + rewrite Hc in *. cbn in E4, E5. unfold checkpoint_after_ingest. cbn [stored_checkpoint].
      rewrite Hs. cbn. done.
  - apply (blocked_other _ _ _ _ _ db1); [|exact Hbl]. unfold ingested. cbn. by rewrite E1, E2, E3.
Qed.

Lemma call_blocked k ty agg last event c db :
  projection_inv db -> ~ declares_unavailable k ty agg c ->
  blocked_at k ty agg last event db -> blocked_at k ty agg last event (call c db).
Proof.
  intros Hwf Hnot Hbl. destruct c as [k0 ev t|k0 e0 t|k0 ty0 agg0 n t|k0 ty0 agg0 reason t|k0 ty0 agg0 t]; cbn;
    unfold exec; lazymatch goal with |- context [match ?m with Ok _ => _ | Err _ => _ end] =>
      destruct m as [[a db']|] eqn:Hop; cbn [snd]; [|done] end.
  - apply Ingest_Ok in Hop as (_ & _ & b & _ & Hop).
    destruct (readProjectionInboxByEvent _ _ _); [by destruct Hop as (_ & -> & _)|].
    destruct Hop as (state & outcome & reason & _ & _ & _ & _ & ->).
    by apply blocked_ingest.
  - apply Apply_Ok in Hop as (r & _ & _ & _ & [[_ ->]|(_ & c & Hc & Hb & _ & _ & _ & ->)]); [done|].
    by apply (blocked_refresh _ _ _ _ _ (applied_rows (TrimSpace k0) (TrimSpace e0) t db) db _ _ _ c
      (with_last (ib_sequence r) (TrimSpace e0) c) t eq_refl Hc).
  - unfold ReconcilePlatformProjection in Hop. inv_db; [done| |done]. bool_hyps. str_eq.
    match goal with Hr : refreshProjectionCheckpointTx _ _ _ = Ok _ |- _ => apply refresh_Ok in Hr as (-> & _ & ->) end.
    match goal with Hp : promote_once ?c _ = Ok _ |- _ => rewrite promote_once_eq in Hp; injection Hp as _ <- end.
    eapply blocked_refresh with (db0 := db); try done. by destruct (next_gap _ _).
  - unfold MarkPlatformProjectionUnavailable in Hop.
    repeat first [rewrite require_then_Ok in Hop; destruct Hop as [_ Hop]
                 |rewrite bind_reads in Hop|apply bind_Ok in Hop as (? & ? & [_ ->]%lift_Ok & Hop)].
    apply upsert_Ok in Hop as [_ ->]. apply blocked_other; [|done]. cbn.
    destruct (stored_tracked (TrimSpace k0) ty0 agg0 db _ Hwf eq_refl) as [(Ek & Et & Ea) _].
    unfold stored_checkpoint in *. by rewrite Ek, Et, Ea.
  - unfold ResumePlatformProjection in Hop. inv_db; [done| |done]. bool_hyps. str_eq.
    match goal with Hr : refreshProjectionCheckpointTx _ _ _ = Ok _ |- _ => apply refresh_Ok in Hr as (-> & _ & ->) end.
    eapply blocked_refresh with (db0 := db); try done.
    match goal with E : pc_State _ = _ |- _ => by rewrite E end.
Qed.

(** ** Closing a gap *)

#[export] Instance InboxRow_eq_dec : EqDecision InboxRow.
Proof. solve_decision. Defined.

Lemma sequence_before_iff a b :
  sequence_before a b = true <->
  ib_sequence a < ib_sequence b \/ ib_sequence a = ib_sequence b /\ ib_id a < ib_id b.
Proof. unfold sequence_before. rewrite orb_true_iff, andb_true_iff, !Z.ltb_lt, Z.eqb_eq. tauto. Qed.
Lemma sequence_before_false a b :
  sequence_before a b = false <->
  ~ (ib_sequence a < ib_sequence b \/ ib_sequence a = ib_sequence b /\ ib_id a < ib_id b).
Proof. by rewrite <-sequence_before_iff, not_true_iff_false. Qed.
Lemma sequence_before_asym a b : sequence_before a b = true -> sequence_before b a = false.
Proof. rewrite sequence_before_iff, sequence_before_false. lia. Qed.
Lemma sequence_before_trans a b c :
  sequence_before b a = false -> sequence_before c b = false -> sequence_before c a = false.
Proof. rewrite !sequence_before_false. lia. Qed.

Lemma first_in_stream_min p k ty agg db r :
  In r (inbox db) -> same_stream k ty agg r = true -> p r = true ->
  (forall x, In x (inbox db) -> same_stream k ty agg x = true -> p x = true -> x <> r ->
     ib_sequence r < ib_sequence x) ->
  first_in_stream p k ty agg db = Some r.
Proof.
  intros Hin Hs Hp Hmin. unfold first_in_stream.
  set (q := fun x => same_stream k ty agg x && p x). set (l := select q (inbox db)).
  assert (In r (sort_by sequence_before l)) as Hr by (apply in_sort_by, filter_In; unfold q; by rewrite Hs, Hp).
  pose proof (sort_by_sorted _ sequence_before_asym sequence_before_trans l) as Hsorted.
  assert (forall x, In x (sort_by sequence_before l) -> x = r \/ ib_sequence r < ib_sequence x) as Hall.
  { intros x [Hx Hq]%in_sort_by%filter_In. unfold q in Hq. bool_hyps.
    destruct (decide (x = r)); [by left|right; by apply Hmin]. }
  destruct (sort_by sequence_before l) as [|h rest]; [done|]. simpl. f_equal.
  destruct (Hall h (or_introl eq_refl)) as [?|Hlt]; [done|].
  destruct Hr as [?|Hr]; [done|]. inversion Hsorted as [|? ? _ Hh]; subst.
  rewrite List.Forall_forall in Hh. specialize (Hh r Hr). apply sequence_before_false in Hh. lia.
Qed.

(** The lowest unresolved event of a stream. *)
Definition lowest_unresolved (k ty agg : string) (r : InboxRow) (db : DB) : Prop :=
  In r (inbox db) /\ same_stream k ty agg r = true
  /\ forall x, In x (inbox db) -> same_stream k ty agg x = true -> unresolved x = true -> x <> r ->
       ib_sequence r < ib_sequence x.

Lemma promoted_first k ty agg r c db :
  projection_inv db -> lowest_unresolved k ty agg r db -> ib_state r = InboxGap ->
  pc_ConsumerKey c = k -> pc_AggregateType c = ty -> pc_AggregateID c = agg -> ib_sequence r = pc_LastSequence c + 1 ->
  next_gap c db = Some r
  /\ In (promoted_row r) (inbox (promoted_rows (Some r) db))
  /\ first_in_stream unresolved k ty agg (promoted_rows (Some r) db) = Some (promoted_row r).
Proof.
  intros Hwf (Hin & Hs & Hmin) Hg <- <- <- Hseq. split.
  { unfold next_gap. rewrite (first_in_stream_min _ _ _ _ _ r); [by rewrite Hseq, Z.eqb_refl|done|done|by rewrite Hg|].
    intros x Hx Hxs Hxg Hne. apply Hmin; try done. unfold unresolved. rewrite Hxg. by rewrite orb_true_r. }
  assert (to_promote r r = true) as Hself by (unfold to_promote; by rewrite Hg, Z.eqb_refl).
  assert (In (promoted_row r) (inbox (promoted_rows (Some r) db))) as Hin'.
  { cbn. apply in_update. exists r. by rewrite Hself. }
  split; [done|]. apply first_in_stream_min; [done|done|done|].
  intros x Hx Hxs Hxu Hne. cbn in Hx. apply in_update in Hx as (y & Hy & ->).
  destruct (to_promote r y) eqn:E.
  - unfold to_promote in E. bool_hyps.
    assert (y = r) as -> by (apply (NoDup_map_inj_in ib_id (inbox db)); [apply Hwf|done|done|by apply Z.eqb_eq]). done.
  - apply Hmin; try done. intros ->. congruence.
Qed.

(** ** Properties *)

(** C10: a projection applies each stream in order and once. Whatever a consumer
    calls, in whatever order and with whatever events, the sequences it has
    applied from a stream are exactly 1 up to the checkpoint's last sequence,
    each of them once, and the checkpoint names the last event applied; every
    stream with an event in the inbox has exactly one checkpoint, and every event
    is in the inbox once. *)
Theorem projection_in_order cs db c :
  db = calls cs empty_db -> In c (checkpoints db) ->
  let k := cp_consumer_key c in let ty := cp_aggregate_type c in let agg := cp_aggregate_id c in
  0 <= cp_last_sequence c
  /\ (forall n, count (applied_at k ty agg n) (inbox db) = if (1 <=? n) && (n <=? cp_last_sequence c) then 1 else 0)
  /\ (0 < cp_last_sequence c -> exists r, In r (inbox db)
        /\ applied_at k ty agg (cp_last_sequence c) r = true /\ ib_event_id r = cp_last_event_id c)
  /\ count (same_checkpoint k ty agg) (checkpoints db) = 1
  /\ forall r, In r (inbox db) -> count (inbox_key (ib_consumer_key r) (ib_event_id r)) (inbox db) = 1
       /\ exists x, In x (checkpoints db)
            /\ same_checkpoint (ib_consumer_key r) (ib_aggregate_type r) (ib_aggregate_id r) x = true.
Proof.
  intros -> Hc. pose proof (calls_inv cs empty_db projection_inv_empty) as Hwf.
  destruct (pw_tracked _ _ Hwf c Hc) as (Hl & Hn & He). split_and!; [done..| |].
  - apply (count_one_of _ _ c); [apply Hwf|done|by apply same_checkpoint_iff].
  - intros r Hr. split; [|by apply Hwf].
    apply (count_one_of _ _ r); [apply Hwf|done|by apply inbox_key_iff].
Qed.

(** Delivery is at least once, recording exactly once. After an event has been
    ingested, and whatever the consumer calls next, ingesting it again is
    answered as a duplicate and changes nothing; another event under the same
    identifier is refused as a conflict. *)
Theorem ingest_idempotent k ev t db res db' cs k2 ev2 t2 :
  projection_inv db -> four_digit_year (Event_OccurredAt (oe_event ev)) ->
  IngestPlatformProjectionEvent k ev t db = Ok (res, db') ->
  TrimSpace k2 = TrimSpace k -> IsZero t2 = false -> Event_EventID (oe_event ev2) = Event_EventID (oe_event ev) ->
  let later := calls cs db' in
  (oe_event ev2 = oe_event ev -> exists state reason,
     IngestPlatformProjectionEvent k2 ev2 t2 later = Ok (mkIngestResult OutcomeDuplicate state reason, later))
  /\ (oe_event ev2 <> oe_event ev -> is_ok (validateProjectionSourceEvent (oe_event ev2)) = true ->
     IngestPlatformProjectionEvent k2 ev2 t2 later = Err (Sentinel ErrProjectionEventConflict)).
Proof.
  intros Hwf Hy Hop Hk Ht2 Hid. cbn zeta.
  pose proof (preserves_IngestPlatformProjectionEvent _ _ _ _ _ _ Hop Hwf) as Hwf'.
  pose proof (calls_inv cs _ Hwf') as Hlater.
  destruct (calls_holds _ _ cs _ (ingested_holds _ _ _ _ _ _ Hy Hop)) as (r & Hr & Hrk & Hrs).
  apply Ingest_Ok in Hop as (Hv & _ & b & Hb & _). set (later := calls cs db') in *.
  assert (readProjectionInboxByEvent (TrimSpace k2) (Event_EventID (oe_event ev2)) later
    = Some (scanProjectionInbox r)) as Hread.
  { unfold readProjectionInboxByEvent. erewrite find_count with (x := r); [done|apply Hlater|done|].
    apply inbox_key_iff. rewrite Hk, Hid. split; [done|]. by apply sameProjectionEvent_iff in Hrs as [? _]. }
  rewrite Hk in Hread. split.
  - intros Heq. unfold IngestPlatformProjectionEvent.
    rewrite Hk, Hv, Ht2, bind_lift, require_true, Heq, Hb, bind_lift, bind_reads.
    rewrite Heq in Hread. rewrite Hread, Hrs, require_true. by do 2 eexists.
  - intros Hne Hok. unfold IngestPlatformProjectionEvent. rewrite Hk, Hv, Ht2, bind_lift, require_true.
    destruct (validateProjectionSourceEvent (oe_event ev2)) as [b2|]; [|done].
    rewrite bind_lift, bind_reads, Hread.
    destruct (sameProjectionEvent (scanProjectionInbox r) (oe_event ev2)) eqn:E; [|apply require_false].
    destruct Hne. apply sameProjectionEvent_iff in E, Hrs. destruct (oe_event ev2), (oe_event ev).
    cbn in *. destruct Hrs as (?&?&?&?&?&?&?&?), E as (?&?&?&?&?&?&?&?). congruence.
Qed.

(** Applying is exact. A committed application found the event in the inbox.
    Either it had been applied, and nothing changes, or it was pending with the
    sequence that follows its stream's checkpoint, the stream being neither
    blocked nor unavailable; then its row alone becomes applied, its checkpoint
    moves to that sequence and event at that time, and every other stream's
    checkpoint is as before. *)
Theorem projection_apply_exact k0 e0 t db u db' :
  projection_inv db -> four_digit_year t -> MarkPlatformProjectionEventApplied k0 e0 t db = Ok (u, db') ->
  exists r, In r (inbox db) /\ ib_consumer_key r = TrimSpace k0 /\ ib_event_id r = TrimSpace e0
  /\ (ib_state r = InboxApplied /\ db' = db
      \/ ib_state r = InboxPending
         /\ exists c c' before after,
              let ty := ib_aggregate_type r in let agg := ib_aggregate_id r in
              readProjectionCheckpoint (TrimSpace k0) ty agg db = Some c
              /\ pc_State c <> ProjectionBlocked /\ pc_State c <> ProjectionUnavailable
              /\ ib_sequence r = pc_LastSequence c + 1
              /\ inbox db = (before ++ r :: after)%list /\ inbox db' = (before ++ applied_row t r :: after)%list
              /\ readProjectionCheckpoint (TrimSpace k0) ty agg db' = Some c'
              /\ pc_LastSequence c' = ib_sequence r /\ pc_LastEventID c' = ib_event_id r /\ pc_UpdatedAt c' = t
              /\ forall k2 ty2 agg2, (TrimSpace k0, ty, agg) <> (k2, ty2, agg2) ->
                   readProjectionCheckpoint k2 ty2 agg2 db' = readProjectionCheckpoint k2 ty2 agg2 db).
Proof.
  intros Hwf Ht (r & Hr & Hk & He & Hcase)%Apply_Ok. exists r. split_and!; [done..|].
  destruct Hcase as [?|(Hst & c & Hc & Hb & Hu & Hseq & _ & ->)]; [by left|right]. split; [done|].
  pose proof (to_apply_row _ _ _ Hk He Hst) as Hto.
  destruct (update_unique row_id (to_apply (TrimSpace k0) (TrimSpace e0)) (applied_row t) (inbox db) r)
    as (l1 & l2 & Hl & Hl'); [apply Hwf|done|done| |].
  { intros y Hy Hp. f_equal. by apply (to_apply_only (TrimSpace k0) (TrimSpace e0) db). }
  destruct (after_apply_read (TrimSpace k0) (TrimSpace e0) r c t db Hwf Ht Hc) as [(c' & Hc' & Hs & Hid & Hup) Hother].
  exists c, c', l1, l2. cbn zeta. rewrite He. split_and!; done.
Qed.

(** A blocked stream does not move. Once a stream's checkpoint is blocked, then
    whatever the consumer calls, short of declaring that very stream unavailable,
    the checkpoint stays blocked at the same sequence and event, and no event of
    the stream is applied. *)
Theorem blocked_stream_frozen k ty agg last event cs db :
  projection_inv db -> blocked_at k ty agg last event db -> Forall (fun c => ~ declares_unavailable k ty agg c) cs ->
  blocked_at k ty agg last event (calls cs db)
  /\ forall n, count (applied_at k ty agg n) (inbox (calls cs db)) = count (applied_at k ty agg n) (inbox db).
Proof.
  intros Hwf Hbl Hcs. assert (blocked_at k ty agg last event (calls cs db)) as Hbl'.
  { revert db Hwf Hbl. induction Hcs as [|c cs Hc _ IH]; intros db Hwf Hbl; [done|].
    apply IH; [by apply call_inv|by apply call_blocked]. }
  split; [done|]. intros n.
  destruct Hbl as (c & Hc & _ & Hl & _), Hbl' as (c' & Hc' & _ & Hl' & _).
  destruct (stored_tracked _ _ _ db c Hwf ltac:(by rewrite Hc)) as (_ & _ & Hn & _).
  destruct (stored_tracked _ _ _ (calls cs db) c' (calls_inv cs db Hwf) ltac:(by rewrite Hc')) as (_ & _ & Hn' & _).
  by rewrite Hn, Hn', Hl, Hl'.
Qed.

(** A filled gap closes. When the lowest unresolved event of a stream is held
    back as a gap but has become the next one, and the stream is neither blocked
    nor unavailable, a reconciliation promotes it and leaves the stream behind by
    a pending event, after which applying the event succeeds and moves the
    checkpoint to it. *)
Theorem gap_closes k0 ty agg n t1 e0 t2 db c r :
  projection_inv db -> validateProjectionConsumer (TrimSpace k0) = Ok tt -> validateProjectionAggregate ty agg = Ok tt ->
  0 < n <= 1000 -> IsZero t1 = false -> four_digit_year t1 -> IsZero t2 = false -> four_digit_year t2 ->
  readProjectionCheckpoint (TrimSpace k0) ty agg db = Some c ->
  pc_State c <> ProjectionBlocked -> pc_State c <> ProjectionUnavailable ->
  lowest_unresolved (TrimSpace k0) ty agg r db -> ib_state r = InboxGap -> ib_sequence r = pc_LastSequence c + 1 ->
  blank e0 = false -> TrimSpace e0 = ib_event_id r ->
  exists rec db1 db2 c2,
    ReconcilePlatformProjection k0 ty agg n t1 db = Ok (rec, db1)
    /\ pr_Promoted rec = 1 /\ pc_State (pr_Checkpoint rec) = ProjectionStale
    /\ MarkPlatformProjectionEventApplied k0 e0 t2 db1 = Ok (tt, db2)
    /\ readProjectionCheckpoint (TrimSpace k0) ty agg db2 = Some c2
    /\ pc_LastSequence c2 = pc_LastSequence c + 1 /\ pc_LastEventID c2 = ib_event_id r.
Proof.
  intros Hwf Hv Hva Hn Ht1 Hy1 Ht2 Hy2 Hc Hb Hu Hlow Hg Hseq He0 Hid.
  destruct (readProjectionCheckpoint_Some _ _ _ _ _ Hc) as (x & _ & _ & _ & Ek & Et & Ea).
  destruct (promoted_first _ _ _ _ _ _ Hwf Hlow Hg Ek Et Ea Hseq) as (Hnext & Hin & Hfirst).
  destruct (read_row_ok _ _ _ _ _ Hwf Hc) as [Hok Hl]. destruct Hlow as (Hr & (Sk & St & Sa)%same_stream_iff & _).
  set (mid := promoted_rows (Some r) db) in *. set (c1 := refreshed c t1 mid).
  set (db1 := set_checkpoints (upserted c1 (checkpoints mid)) mid).
  assert (projection_inv mid) as Hmid by (by apply inv_promoted).
  assert (checkpoints_ok [] (checkpoint_row c1 0) = true) as Hok1.
  { apply (refreshed_ok (inbox db) c); try done. intros y. by apply (pw_reason _ _ Hmid). }
  assert (ReconcilePlatformProjection k0 ty agg n t1 db = Ok (mkReconciliation c1 1, db1)) as Hrec.
  { unfold ReconcilePlatformProjection. rewrite Hv, bind_lift, Hva, bind_lift, Ht1.
    destruct (Z.leb_spec n 0), (Z.ltb_spec 1000 n); [lia..|]. cbn [orb negb].
    rewrite !require_true, bind_reads, Hc. apply String.eqb_neq in Hb, Hu. rewrite Hb, Hu. cbn [orb].
    erewrite bind_value by apply promote_once_eq. rewrite Hnext. fold mid.
    erewrite bind_value by (by apply refresh_total). done. }
  assert (projection_inv db1) as Hwf1 by (by eapply inv_refreshed with (k := TrimSpace k0) (ty := ty) (agg := agg)).
  destruct (core_eq _ _ (core_refresh c t1 mid)) as (F1 & F2 & F3 & F4 & _). fold c1 in F1, F2, F3, F4.
  assert (pc_State c1 = ProjectionStale) as Hst1.
  { unfold c1, refreshed, refreshed_state. rewrite Ek, Et, Ea, Hfirst. cbn -[Z.add]. by rewrite Hseq, Z.eqb_refl. }
  assert (readProjectionCheckpoint (TrimSpace k0) ty agg db1 = Some (stored c1)) as Hread1.
  { pose proof (read_upserted_same mid c1 (pw_checkpoint _ _ Hmid)) as H. by rewrite F1, F2, F3, Ek, Et, Ea in H. }
  assert (MarkPlatformProjectionEventApplied k0 e0 t2 db1
    = Ok (tt, after_apply (TrimSpace k0) (TrimSpace e0) (promoted_row r) (stored c1) t2 db1)) as Happly.
  { apply Apply_total; try done; [by cbn; rewrite St, Sa|by change (pc_State c1 <> ProjectionBlocked); rewrite Hst1
      |by change (pc_State c1 <> ProjectionUnavailable); rewrite Hst1|].
    change (ib_sequence r = pc_LastSequence c1 + 1). by rewrite F4. }
  destruct (after_apply_read (TrimSpace k0) (TrimSpace e0) (promoted_row r) (stored c1) t2 db1 Hwf1 Hy2)
    as [(c2 & Hc2 & Hs2 & He2 & _) _]; [by cbn; rewrite St, Sa|]. cbn in Hc2. rewrite St, Sa in Hc2.
  eexists (mkReconciliation c1 1), db1, _, c2. split_and!; [exact Hrec|done|done|exact Happly|exact Hc2| |].
  - rewrite Hs2. exact Hseq.
  - by rewrite He2.
Qed.

(** ** Witnesses *)

Definition sample_event (n : Z) : OutboxEvent :=
  mkOutboxEvent n (mkEvent ("evt_" ++ FormatInt n) EventOrganisationCreated AggregateOrganisation "org_1" n
    SchemaVersion (3 * Second) (encode_map [("organisation_id", VString "org_1")])) None.

(** The second event arrives first; the first is then ingested and applied. *)
Definition sample_calls : list projection_call :=
  [Ingest "consumer" (sample_event 2) (3 * Second); Ingest "consumer" (sample_event 1) (3 * Second);
   Apply "consumer" "evt_1" (3 * Second)].
Definition sample_projection_db : DB := calls sample_calls empty_db.
Lemma sample_projection_inv : projection_inv sample_projection_db.
Proof. apply calls_inv, projection_inv_empty. Qed.

Lemma projection_in_order_witness :
  exists c, In c (checkpoints sample_projection_db) /\ cp_last_sequence c = 1
    /\ count (applied_at (cp_consumer_key c) (cp_aggregate_type c) (cp_aggregate_id c) 1)
         (inbox sample_projection_db) = 1.
Proof.
  assert (exists c, In c (checkpoints sample_projection_db) /\ cp_last_sequence c = 1) as (c & Hc & Hl).
  { eexists. split; [vm_compute; left; reflexivity|vm_compute; reflexivity]. }
  exists c. split; [exact Hc|]. split; [exact Hl|].
  assert (sample_projection_db = calls sample_calls empty_db) as Hdb by (unfold sample_projection_db; reflexivity).
  destruct (projection_in_order sample_calls sample_projection_db c Hdb Hc) as (_ & Hn & _).
  rewrite (Hn 1), Hl. reflexivity.
Defined.

Lemma ingest_idempotent_witness :
  exists res db', IngestPlatformProjectionEvent "consumer" (sample_event 3) (3 * Second) sample_projection_db
      = Ok (res, db')
    /\ exists state reason,
         IngestPlatformProjectionEvent "consumer" (sample_event 3) (4 * Second) (calls sample_calls db')
         = Ok (mkIngestResult OutcomeDuplicate state reason, calls sample_calls db').
Proof.
  assert (exists res db', IngestPlatformProjectionEvent "consumer" (sample_event 3) (3 * Second) sample_projection_db
      = Ok (res, db')) as (res & db' & E) by (do 2 eexists; vm_compute; reflexivity).
  exists res, db'. split; [exact E|].
  destruct (ingest_idempotent "consumer" (sample_event 3) (3 * Second) sample_projection_db res db' sample_calls
    "consumer" (sample_event 3) (4 * Second) sample_projection_inv sample_year E eq_refl eq_refl eq_refl) as [H _].
  exact (H eq_refl).
Defined.

Definition sample_pending_db : DB := calls [Ingest "consumer" (sample_event 1) (3 * Second)] empty_db.
Lemma projection_apply_exact_witness :
  exists db' r, MarkPlatformProjectionEventApplied "consumer" "evt_1" (3 * Second) sample_pending_db = Ok (tt, db')
    /\ In r (inbox sample_pending_db) /\ ib_event_id r = "evt_1".
Proof.
  assert (exists db', MarkPlatformProjectionEventApplied "consumer" "evt_1" (3 * Second) sample_pending_db
    = Ok (tt, db')) as (db' & E) by (eexists; vm_compute; reflexivity).
  destruct (projection_apply_exact "consumer" "evt_1" (3 * Second) sample_pending_db tt db'
    (calls_inv _ empty_db projection_inv_empty) sample_year E) as (r & Hr & _ & Hid & _).
  exists db', r. split; [exact E|]. split; [exact Hr|exact Hid].
Defined.

(** An event of an unknown schema version blocks its stream. *)
Definition sample_blocking : OutboxEvent :=
  mkOutboxEvent 9 (mkEvent "evt_9" EventOrganisationCreated AggregateOrganisation "org_1" 3 7 (3 * Second) "{}") None.
Definition sample_blocked_db : DB := call (Ingest "consumer" sample_blocking (3 * Second)) sample_projection_db.
Lemma blocked_stream_frozen_witness :
  blocked_at "consumer" AggregateOrganisation "org_1" 1 "evt_1"
    (calls [Apply "consumer" "evt_2" (3 * Second); Resume "consumer" AggregateOrganisation "org_1" (3 * Second)]
       sample_blocked_db).
Proof.
  assert (blocked_at "consumer" AggregateOrganisation "org_1" 1 "evt_1" sample_blocked_db) as Hb.
  { eexists. split; [vm_compute; reflexivity|]. split; [|split]; vm_compute; reflexivity. }
  assert (projection_inv sample_blocked_db) as Hwf by (apply call_inv, sample_projection_inv).
  refine (proj1 (blocked_stream_frozen "consumer" AggregateOrganisation "org_1" 1 "evt_1"
    [Apply "consumer" "evt_2" (3 * Second); Resume "consumer" AggregateOrganisation "org_1" (3 * Second)]
    sample_blocked_db Hwf Hb _)).
  repeat constructor; intros [].
Defined.

Lemma gap_closes_witness :
  exists rec db1 db2 c2,
    ReconcilePlatformProjection "consumer" AggregateOrganisation "org_1" 10 (3 * Second) sample_projection_db = Ok (rec, db1)
    /\ MarkPlatformProjectionEventApplied "consumer" "evt_2" (3 * Second) db1 = Ok (tt, db2)
    /\ readProjectionCheckpoint "consumer" AggregateOrganisation "org_1" db2 = Some c2 /\ pc_LastEventID c2 = "evt_2".
Proof.
  assert (exists c r, readProjectionCheckpoint "consumer" AggregateOrganisation "org_1" sample_projection_db = Some c
    /\ find (inbox_key "consumer" "evt_2") (inbox sample_projection_db) = Some r
    /\ pc_State c = ProjectionGap /\ ib_state r = InboxGap /\ ib_sequence r = pc_LastSequence c + 1
    /\ same_stream "consumer" AggregateOrganisation "org_1" r = true
    /\ forallb (fun x => bool_decide (x = r) || negb (unresolved x)) (inbox sample_projection_db) = true)
    as (c & r & Hc & Hf & Hst & Hg & Hseq & Hs & Hall).
  { do 2 eexists. split; [vm_compute; reflexivity|]. split; [vm_compute; reflexivity|].
    split; [vm_compute; reflexivity|]. split; [vm_compute; reflexivity|]. split; [vm_compute; reflexivity|].
    split; vm_compute; reflexivity. }
  apply find_some in Hf as [Hr [_ Hid]%inbox_key_iff].
  assert (lowest_unresolved "consumer" AggregateOrganisation "org_1" r sample_projection_db) as Hlow.
  { split; [exact Hr|]. split; [exact Hs|]. intros x Hx _ Hu Hne. rewrite forallb_forall in Hall.
    specialize (Hall x Hx). rewrite bool_decide_eq_false_2 in Hall by exact Hne.
    rewrite Hu in Hall. discriminate Hall. }
  assert (0 < 10 <= 1000) as Hn by lia.
  assert (pc_State c <> ProjectionBlocked) as Hb by (rewrite Hst; discriminate).
  assert (pc_State c <> ProjectionUnavailable) as Hu by (rewrite Hst; discriminate).
  destruct (gap_closes "consumer" AggregateOrganisation "org_1" 10 (3 * Second) "evt_2" (3 * Second) sample_projection_db
    c r sample_projection_inv eq_refl eq_refl Hn eq_refl sample_year eq_refl sample_year Hc Hb Hu Hlow Hg Hseq eq_refl
    (eq_sym Hid)) as (rec & db1 & db2 & c2 & H1 & _ & _ & H2 & H3 & _ & H4).
  exists rec, db1, db2, c2. split; [exact H1|]. split; [exact H2|]. split; [exact H3|]. by rewrite H4.
Defined.

(** Two events of one stream that claim the same sequence are both accepted; once
    one is applied the other stays pending, the checkpoint reports a gap, and
    neither applying nor reconciling changes that. *)
Definition sample_rival : OutboxEvent :=
  mkOutboxEvent 8 (mkEvent "evt_8" EventOrganisationCreated AggregateOrganisation "org_1" 2
    SchemaVersion (3 * Second) (encode_map [("organisation_id", VString "org_1")])) None.
Example conflicting_sequence_sticks :
  let db := calls [Ingest "consumer" (sample_event 1) (3 * Second); Apply "consumer" "evt_1" (3 * Second);
                   Ingest "consumer" (sample_event 2) (3 * Second); Ingest "consumer" sample_rival (3 * Second);
                   Apply "consumer" "evt_2" (3 * Second)] empty_db in
  let db' := calls [Apply "consumer" "evt_8" (3 * Second);
                    Reconcile "consumer" AggregateOrganisation "org_1" 10 (3 * Second);
                    Resume "consumer" AggregateOrganisation "org_1" (3 * Second)] db in
  map (fun c => (cp_last_sequence c, cp_state c)) (checkpoints db) = [(2, ProjectionGap)] /\ db' = db.
Proof. vm_compute. split; reflexivity. Qed.
