(* ===== verification/Announce.v ===== *)
(** What a transaction adds to the logs: the append-only history, the events it
    appends, and the tables whose changes they announce. *)
From stdpp Require Import base tactics list strings relations.
From Stdlib Require Import ZArith Lia Ascii String.
From S2P Require Import Prelude GoStrings GoTime Codec Errors Domain Events Schema Outbox Auth Identity.
From S2P Require Import Organisation Workspace Product.

Local Open Scope string_scope.
Local Open Scope Z_scope.

(** The helpers that record a change, opened. *)
Ltac unfold_records :=
  unfold recordOrganisationAuditTx, recordWorkspaceAuditTx, recordProductAuditTx, recordOrganisationProductAuditTx,
    appendOrganisationEventTx, appendWorkspaceEventTx, appendProductEventTx, appendAccessEventTx.

(** ** History is append-only *)

Definition unpublished (r : OutboxRow) : OutboxRow :=
  mkOutboxRow (ob_id r) (ob_event_id r) (ob_event_type r) (ob_aggregate_type r) (ob_aggregate_id r)
    (ob_sequence r) (ob_schema_version r) (ob_occurred_at r) (ob_payload r) None.
(** Every record of [db] is still there, at its place, in [d]. *)
Definition extends (db d : DB) : Prop :=
  audit_events db `prefix_of` audit_events d /\ security_events db `prefix_of` security_events d
  /\ map unpublished (outbox db) `prefix_of` map unpublished (outbox d).

Lemma prefix_snoc {A} (l l' : list A) x : l `prefix_of` l' -> l `prefix_of` (l' ++ [x])%list.
Proof. intros Hp. by apply prefix_app_r. Qed.
Lemma extends_insert_audit db a ty agg e d t : preserves (extends db) (insert_audit a ty agg e d t).
Proof.
  unfold insert_audit. frame_tx. apply preserves_insert. intros s (Ha & Hs & Ho) _. split_and!; [by apply prefix_snoc|done..].
Qed.
Lemma extends_security db u e d t : preserves (extends db) (insert_security_event u e d t).
Proof.
  unfold insert_security_event. frame_tx. apply preserves_insert. intros s (Ha & Hs & Ho) _.
  split_and!; [done|by apply prefix_snoc|done].
Qed.
Lemma extends_append db ty agg t payload rand : preserves (extends db) (appendPlatformEventTx ty agg t payload rand).
Proof.
  unfold appendPlatformEventTx. frame_tx. apply preserves_insert. intros s (Ha & Hs & Ho) _.
  split_and!; [done|done|]. cbn. rewrite map_app. by apply prefix_snoc.
Qed.
Lemma extends_publish db ids t : preserves (extends db) (MarkPlatformEventsPublished ids t).
Proof.
  assert (forall seen, preserves (extends db) (mark_each ids seen t)) as Hm.
  { induction ids as [|id ids IH]; intros seen; simpl; [apply preserves_ret|]. frame_tx; [|apply IH].
    apply preserves_modify. intros s (Ha & Hs & Ho). split_and!; [done|done|]. cbn. by rewrite map_update. }
  unfold MarkPlatformEventsPublished. frame_tx. apply Hm.
Qed.
Create HintDb history.
#[export] Hint Resolve extends_insert_audit extends_security extends_append extends_publish : history.
#[export] Hint Resolve preserves_activeUserIDTx preserves_authorised preserves_authorised_workspace preserves_activeTarget
  preserves_targetUser preserves_systemAdmin : history.

(** ** Changes and their events *)

Definition events_at_least (n : nat) (d : DB) : Prop := (n <= List.length (outbox d))%nat.
Definition monotone {A} (m : St DB error A) : Prop := forall n, preserves (events_at_least n) m.
(** A committed run appends to the outbox. *)
Definition emits {A} (m : St DB error A) : Prop :=
  forall db a db', m db = Ok (a, db') -> (List.length (outbox db) < List.length (outbox db'))%nat.

Lemma extends_monotone {A} (m : St DB error A) : (forall db, preserves (extends db) m) -> monotone m.
Proof.
  intros Hm n db a db' Hop Hn. destruct (Hm db db a db' Hop) as (_ & _ & Hp); [by split_and!|].
  apply prefix_length in Hp. rewrite !length_map in Hp. unfold events_at_least in *. lia.
Qed.
Lemma emits_append ty agg t payload rand : emits (appendPlatformEventTx ty agg t payload rand).
Proof. intros db u db' (e & _ & _ & _ & _ & _ & _ & _ & ->)%append_Ok. cbn. rewrite length_app. cbn. lia. Qed.
Lemma emits_within {A} msg (m : St DB error A) : emits m -> emits (within msg m).
Proof. intros Hm db a db' Hop%within_Ok. by eapply Hm. Qed.
Lemma emits_fail {A} e : emits (Prelude.fail (A:=A) e).
Proof. by intros db a db' ?%fail_Ok. Qed.
Lemma emits_later {A B} (m : St DB error A) (k : A -> St DB error B) :
  monotone m -> (forall a, emits (k a)) -> emits (bind m k).
Proof.
  intros Hm Hk db b db' (a & s & H1 & H2)%bind_Ok. specialize (Hm (List.length (outbox db)) db a s H1 (le_n _)).
  specialize (Hk a s b db' H2). unfold events_at_least in Hm. lia.
Qed.
Lemma emits_now {A B} (m : St DB error A) (k : A -> St DB error B) :
  emits m -> (forall a, monotone (k a)) -> emits (bind m k).
Proof.
  intros Hm Hk db b db' (a & s & H1 & H2)%bind_Ok. specialize (Hm db a s H1).
  specialize (Hk a (List.length (outbox s)) s b db' H2 (le_n _)). unfold events_at_least in Hk. lia.
Qed.

Create HintDb emit.
#[export] Hint Resolve emits_append emits_fail : emit.
Ltac is_monotone :=
  apply extends_monotone; intros ?; solve [frame_tx; auto 2 with history; unfold_records; frame_tx; auto 2 with history].
(** Descends to the record an operation ends with. *)
Ltac emit_step :=
  lazymatch goal with
  | |- emits (bind _ _) => first [ apply emits_now; [solve [try apply emits_within; auto 2 with emit]|intros ?; is_monotone]
                                 | apply emits_later; [is_monotone|intros ?] ]
  | |- emits (within _ _) => apply emits_within
  | |- emits (let (_, _) := ?x in _) => destruct x
  | |- emits (match ?x with Some _ => _ | None => _ end) => destruct x
  | |- emits (if ?b then _ else _) => destruct b
  | |- _ => solve [auto 2 with emit]
  end.
Ltac emits_tx := repeat (cbv beta zeta; emit_step).

Lemma emits_organisation_audit a o e d t rand : emits (recordOrganisationAuditTx a o e d t rand).
Proof. unfold_records. emits_tx. Qed.
Lemma emits_workspace_audit a w e d t rand : emits (recordWorkspaceAuditTx a w e d t rand).
Proof. unfold_records. emits_tx. Qed.
Lemma emits_product_audit a k e d t rand : emits (recordProductAuditTx a k e d t rand).
Proof. unfold_records. emits_tx. Qed.
Lemma emits_organisation_product_audit a o e d t rand : emits (recordOrganisationProductAuditTx a o e d t rand).
Proof. unfold_records. emits_tx. Qed.
#[export] Hint Resolve emits_organisation_audit emits_workspace_audit emits_product_audit emits_organisation_product_audit : emit.

(** The tables other systems follow through the feed. *)
Definition directory (db : DB) :=
  (organisations db, organisation_memberships db, workspaces db, workspace_memberships db,
   (products db, entitlements db, assignments db), map (fun u => (u_public_id u, u_active u)) (users db)).
Lemma quiet_users_update d p f :
  (forall u, u_public_id (f u) = u_public_id u /\ u_active (f u) = u_active u) ->
  preserves (fun db => directory db = d) (modify (E:=error) (fun db => set_users (update p f (users db)) db)).
Proof.
  intros Hf. apply preserves_modify. intros db <-. unfold directory. cbn. f_equal.
  apply map_update. intros u _. by destruct (Hf u) as [-> ->].
Qed.
#[export] Hint Resolve quiet_users_update : emit.
(** An operation either emits or leaves the directory alone. *)
Definition announces {A} (m : St DB error A) : Prop := forall db a db', m db = Ok (a, db') ->
  (List.length (outbox db) < List.length (outbox db'))%nat \/ directory db' = directory db.
Lemma announces_emits {A} (m : St DB error A) : emits m -> announces m.
Proof. intros He db a db' Hm. left. by eapply He. Qed.
Lemma announces_quiet {A} (m : St DB error A) : (forall d, preserves (fun db => directory db = d) m) -> announces m.
Proof. intros Hq db a db' Hm. right. by apply (Hq _ _ _ _ Hm). Qed.
(** A guard or a query, then the rest. *)
Lemma announces_read {A B} (m : St DB error A) (k : A -> St DB error B) :
  (forall P, preserves P m) -> (forall a, announces (k a)) -> announces (bind m k).
Proof.
  intros Hm Hk db b db' (a & s & H1 & H2)%bind_Ok.
  pose proof (Hm (fun d => d = db) _ _ _ H1 eq_refl) as ->. by eapply Hk.
Qed.
Ltac announces_read := apply announces_read; [intros ?; frame_ops|intros ?].
(** At least one event was appended. *)
Definition announced (d d' : DB) : Prop :=
  exists e l, map unpublished (outbox d') = (map unpublished (outbox d) ++ e :: l)%list.
Lemma announces_announced {A} (m : St DB error A) d a d' :
  (forall db, preserves (extends db) m) -> announces m -> m d = Ok (a, d') -> directory d' <> directory d -> announced d d'.
Proof.
  intros He Ha Hm Hne. destruct (He d d a d' Hm) as (_ & _ & l & Hl); [by split_and!|].
  destruct (Ha d a d' Hm) as [Hlt|Heq]; [|done].
  destruct l as [|e l]; [|by exists e, l]. apply (f_equal (@List.length _)) in Hl.
  rewrite length_app, !length_map in Hl. simpl in Hl. lia.
Qed.
