(* ===== verification/System.v ===== *)
(** The methods of the platform's store that change it, as the steps of one transition
    system from an empty database, and the invariants of all its components on every
    state they reach. The production import and its rollback, the other methods that
    change these tables, join them in ImportSystem.v. *)
From stdpp Require Import base tactics list strings relations.
From Stdlib Require Import ZArith Lia Ascii String.
From S2P Require Import Prelude GoStrings GoTime Codec Errors Domain Events Schema Outbox Auth Identity.
From S2P Require Import Mfa Organisation Workspace Product Command Projection Announce.

Local Open Scope string_scope.
Local Open Scope Z_scope.

Section System.
Context `{UnicodeTables} `{Crypto} (secretKey : string).

(** The methods of *sqlite.Store that are one transaction on the platform's tables,
    but for the production import and its rollback, whose transactions ImportSystem.v
    adds to these, and for the snapshots and nonces of the read authority, which are in
    tables of their own (Snapshot.v). Times that are stored and parsed again are those
    of a four-digit year. *)
Inductive operation : forall A, St DB error A -> Prop :=
| op_CreateUser user password salt now rand :
    four_digit_year now -> four_digit_year (User_CreatedAt user) ->
    operation _ (CreateUser user password salt now rand)
| op_SetUserActive id active now rand : four_digit_year now -> operation _ (SetUserActive id active now rand)
| op_TouchLogin id t : operation _ (TouchLogin id t)
| op_RecordSecurityEvent id event details t : operation _ (RecordSecurityEvent id event details t)
| op_CreateSession id token csrf e now : four_digit_year e -> operation _ (CreateSession id token csrf e now)
| op_EstablishSession id token csrf e now : four_digit_year e -> operation _ (EstablishSession id token csrf e now)
| op_RevokeSession token t : operation _ (RevokeSession token t)
| op_Logout token id t : operation _ (RevokeSessionAndRecordLogout token id t)
| op_CleanupExpiredSessions now n : operation _ (CleanupExpiredSessions now n)
| op_VerifyMFA id code now : operation _ (VerifyMFA secretKey id code now)
| op_UseRecoveryCode id code t : operation _ (UseRecoveryCode id code t)
| op_CreateMFAEnrollment id secret e now nonce raw :
    operation _ (CreateMFAEnrollment secretKey id secret e now nonce raw)
| op_CompleteMFAEnrollment id token code hashes t :
    operation _ (CompleteMFAEnrollment secretKey id token code hashes t)
| op_MarkPublished ids t : operation _ (MarkPlatformEventsPublished ids t)
| op_CreateOrganisation a o r t rs : four_digit_year t -> operation _ (CreateOrganisation a o r t rs)
| op_AddOrganisationMember a o u role r t rs :
    four_digit_year t -> operation _ (AddOrganisationMember a o u role r t rs)
| op_ChangeOrganisationMemberRole a o u role r t rs :
    four_digit_year t -> operation _ (ChangeOrganisationMemberRole a o u role r t rs)
| op_DeactivateOrganisationMember a o u r t rs :
    four_digit_year t -> operation _ (DeactivateOrganisationMember a o u r t rs)
| op_ArchiveOrganisation a o r t rs : four_digit_year t -> operation _ (ArchiveOrganisation a o r t rs)
| op_RenameOrganisation a o n r t rs : four_digit_year t -> operation _ (RenameOrganisation a o n r t rs)
| op_CreateWorkspace a o w r t rs : four_digit_year t -> operation _ (CreateWorkspace a o w r t rs)
| op_AddWorkspaceMember a w u role r t rs :
    four_digit_year t -> operation _ (AddWorkspaceMember a w u role r t rs)
| op_ChangeWorkspaceMemberRole a w u role r t rs :
    four_digit_year t -> operation _ (ChangeWorkspaceMemberRole a w u role r t rs)
| op_DeactivateWorkspaceMember a w u r t rs :
    four_digit_year t -> operation _ (DeactivateWorkspaceMember a w u r t rs)
| op_ArchiveWorkspace a w r t rs : four_digit_year t -> operation _ (ArchiveWorkspace a w r t rs)
| op_RetireProduct a k r t rs : four_digit_year t -> operation _ (RetireProduct a k r t rs)
| op_EntitleOrganisation a o k r t rs : four_digit_year t -> operation _ (EntitleOrganisation a o k r t rs)
| op_RevokeEntitlement a o e r t rs : four_digit_year t -> operation _ (RevokeOrganisationEntitlement a o e r t rs)
| op_AssignUserProduct a o u k r t rs : four_digit_year t -> operation _ (AssignUserProduct a o u k r t rs)
| op_RevokeUserProduct a o g r t rs : four_digit_year t -> operation _ (RevokeUserProduct a o g r t rs)
| op_ExecuteCommand r rs : four_digit_year (mr_OccurredAt r) -> operation _ (ExecuteMembershipCommand r rs)
| op_CleanupResults before n now : operation _ (CleanupMembershipCommandResults before n now)
| op_Ingest k e t : operation _ (IngestPlatformProjectionEvent k e t)
| op_Apply k e t : operation _ (MarkPlatformProjectionEventApplied k e t)
| op_Reconcile k ty agg n t : operation _ (ReconcilePlatformProjection k ty agg n t)
| op_Unavailable k ty agg r t : operation _ (MarkPlatformProjectionUnavailable k ty agg r t)
| op_Resume k ty agg t : operation _ (ResumePlatformProjection k ty agg t).

(** A committed transaction, or the provisioning of system roles, which operators
    do outside the program. *)
Inductive step (db : DB) : DB -> Prop :=
| step_commit A (m : St DB error A) a db' : operation A m -> m db = Ok (a, db') -> step db db'
| step_provision roles : step db (set_system_role_assignments roles db).
Definition reachable : DB -> Prop := rtc step empty_db.

(** ** The invariants of the components *)

(** An operation of one component, for the invariant of another. *)
Ltac unfold_operations :=
  unfold CreateUser, SetUserActive, TouchLogin, RecordSecurityEvent, CreateSession, EstablishSession, RevokeSession,
    RevokeSessionAndRecordLogout, CleanupExpiredSessions, VerifyMFA, UseRecoveryCode,
    CreateMFAEnrollment, CompleteMFAEnrollment, update_enrollment, CreateOrganisation, AddOrganisationMember,
    ChangeOrganisationMemberRole, DeactivateOrganisationMember, addOrganisationMemberTx,
    changeOrganisationMemberRoleTx, deactivateOrganisationMemberTx, ArchiveOrganisation, RenameOrganisation,
    CreateWorkspace, AddWorkspaceMember, ChangeWorkspaceMemberRole, DeactivateWorkspaceMember, addWorkspaceMemberTx,
    changeWorkspaceMemberRoleTx, deactivateWorkspaceMemberTx, ArchiveWorkspace, RetireProduct, EntitleOrganisation,
    RevokeOrganisationEntitlement, AssignUserProduct, RevokeUserProduct, ExecuteMembershipCommand, execute_command,
    executeOrganisationMembershipCommandTx, executeWorkspaceMembershipCommandTx, validateMembershipCommandActorTx,
    CleanupMembershipCommandResults, IngestPlatformProjectionEvent, upsertProjectionCheckpointAfterIngest,
    MarkPlatformProjectionEventApplied, ReconcilePlatformProjection, MarkPlatformProjectionUnavailable,
    ResumePlatformProjection, refreshProjectionCheckpointTx, upsertProjectionCheckpointTx, promote_once.
Ltac frame_operation := unfold_operations; unfold insert_security_event; frame_ops.

Lemma preserves_publish_frame (P : DB -> Prop) ids t : ignores_log P -> preserves P (MarkPlatformEventsPublished ids t).
Proof.
  intros [_ HP]. assert (forall seen, preserves P (mark_each ids seen t)) as Hm.
  { induction ids as [|id ids IH]; intros seen; simpl; [apply preserves_ret|]. frame_tx; [|apply IH].
    apply preserves_modify. intros db Hdb. by apply HP. }
  unfold MarkPlatformEventsPublished. frame_tx. apply Hm.
Qed.
Hint Resolve preserves_publish_frame : frame.

(** The membership command around the operation it runs. *)
Ltac open_command :=
  unfold ExecuteMembershipCommand, execute_command, executeOrganisationMembershipCommandTx,
    executeWorkspaceMembershipCommandTx, validateMembershipCommandActorTx; frame_tx.
(** Own operations by their lemmas, the others because they write other tables. *)
Ltac operation_keeps :=
  first [ solve [auto 2 with own frame] | solve [frame_operation]
        | open_command; first [solve [auto 2 with own frame] | solve [frame_operation]] ].

Create HintDb own.
Hint Resolve except_CreateOrganisation except_AddOrganisationMember except_ChangeOrganisationMemberRole
  except_DeactivateOrganisationMember except_ArchiveOrganisation except_RenameOrganisation
  except_addOrganisationMemberTx except_changeOrganisationMemberRoleTx
  except_deactivateOrganisationMemberTx : own.
Hint Resolve except_CreateWorkspace except_AddWorkspaceMember except_ChangeWorkspaceMemberRole
  except_DeactivateWorkspaceMember except_ArchiveWorkspace
  except_addWorkspaceMemberTx except_changeWorkspaceMemberRoleTx except_deactivateWorkspaceMemberTx : own.
Hint Resolve preserves_RetireProduct preserves_EntitleOrganisation preserves_RevokeOrganisationEntitlement
  preserves_AssignUserProduct preserves_RevokeUserProduct : own.
Hint Resolve preserves_ExecuteMembershipCommand preserves_CleanupMembershipCommandResults : own.
Hint Resolve preserves_CreateSession preserves_EstablishSession preserves_RevokeSession preserves_Logout
  preserves_Cleanup : own.
Hint Resolve preserves_IngestPlatformProjectionEvent preserves_MarkPlatformProjectionEventApplied
  preserves_ReconcilePlatformProjection preserves_MarkPlatformProjectionUnavailable
  preserves_ResumePlatformProjection : own.

Lemma operation_org_except imported joined removable A m :
  operation A m -> preserves (org_inv_except imported joined removable) m.
Proof. destruct 1; operation_keeps. Qed.
Lemma operation_org A m : operation A m -> preserves org_inv m.
Proof. intros Hop. apply preserves_org_inv. intros. by apply operation_org_except. Qed.
Lemma operation_workspace_except joined A m : operation A m -> preserves (workspace_inv_except joined) m.
Proof. destruct 1; operation_keeps. Qed.
Lemma operation_workspace A m : operation A m -> preserves workspace_inv m.
Proof. intros Hop. apply preserves_workspace_inv. intros. by apply operation_workspace_except. Qed.
Lemma operation_product A m : operation A m -> preserves product_inv m.
Proof. destruct 1; operation_keeps. Qed.
Lemma operation_command A m : operation A m -> preserves command_inv m.
Proof. destruct 1; operation_keeps. Qed.
Lemma operation_session A m : operation A m -> preserves session_inv m.
Proof. destruct 1; operation_keeps. Qed.
Lemma operation_projection A m : operation A m -> preserves projection_inv m.
Proof. destruct 1; operation_keeps. Qed.

(** *** The users *)

Lemma preserves_users_update p f :
  (forall u, u_id (f u) = u_id u) -> (forall u, u_public_id (f u) = u_public_id u) ->
  preserves user_inv (modify (E:=error) (fun db => set_users (update p f (users db)) db)).
Proof. intros Hi Hp. apply preserves_modify. intros db. by apply users_wf_update. Qed.
Lemma preserves_users_insert mk :
  (forall id, u_id (mk id) = id) -> preserves user_inv (insert_row users set_users users_ok mk).
Proof.
  intros Hid. apply preserves_insert. intros db Hdb Hok. apply users_wf_snoc; [done|by rewrite Hid|done].
Qed.
Hint Resolve preserves_users_update preserves_users_insert : own.

Lemma operation_user A m : operation A m -> preserves user_inv m.
Proof.
  destruct 1; try operation_keeps.
  all: unfold_operations; unfold insert_security_event; frame_tx; auto 3 with own frame.
Qed.

(** *** The outbox: every event is appended at a time of a four-digit year *)

Lemma outbox_organisation_audit a o e d t rand :
  four_digit_year t -> preserves outbox_inv (recordOrganisationAuditTx a o e d t rand).
Proof.
  intros Ht. unfold recordOrganisationAuditTx, appendOrganisationEventTx, insert_audit. frame_tx.
  by apply preserves_append.
Qed.
Lemma outbox_workspace_audit a w e d t rand :
  four_digit_year t -> preserves outbox_inv (recordWorkspaceAuditTx a w e d t rand).
Proof.
  intros Ht. unfold recordWorkspaceAuditTx, appendWorkspaceEventTx, insert_audit. frame_tx.
  by apply preserves_append.
Qed.
Lemma outbox_product_audit a k e d t rand :
  four_digit_year t -> preserves outbox_inv (recordProductAuditTx a k e d t rand).
Proof.
  intros Ht. unfold recordProductAuditTx, appendProductEventTx, insert_audit. frame_tx.
  by apply preserves_append.
Qed.
Lemma outbox_organisation_product_audit a o e d t rand :
  four_digit_year t -> preserves outbox_inv (recordOrganisationProductAuditTx a o e d t rand).
Proof.
  intros Ht. unfold recordOrganisationProductAuditTx, appendAccessEventTx, insert_audit. frame_tx;
    by apply preserves_append.
Qed.
Create HintDb feed.
Hint Resolve preserves_append preserves_publish outbox_organisation_audit outbox_workspace_audit
  outbox_product_audit outbox_organisation_product_audit : feed.
Hint Extern 1 (four_digit_year (if ?b then _ else _)) => destruct b : feed.
Hint Resolve preserves_activeUserIDTx preserves_authorised preserves_authorised_workspace preserves_activeTarget
  preserves_targetUser preserves_systemAdmin : feed.

Lemma operation_outbox A m : operation A m -> preserves outbox_inv m.
Proof.
  destruct 1; try solve [auto 2 with feed]; unfold_operations; unfold insert_security_event; frame_tx;
    auto 3 with feed.
  all: unfold_operations; frame_tx; auto 3 with feed.
Qed.

(** *** History is append-only *)
Lemma operation_extends A m db : operation A m -> preserves (extends db) m.
Proof.
  destruct 1; try solve [auto 2 with history].
  all: unfold_operations; frame_tx; auto 2 with history.
  all: unfold_operations; frame_tx; auto 2 with history.
  all: unfold_records; frame_tx; auto 2 with history.
Qed.

(** *** Changes and their events *)
Lemma emits_addOrganisationMember a o u role r t rs : emits (addOrganisationMemberTx a o u role r t rs).
Proof. unfold addOrganisationMemberTx. emits_tx. Qed.
Lemma emits_changeOrganisationMemberRole a o u role r t ev rs :
  emits (changeOrganisationMemberRoleTx a o u role r t ev rs).
Proof. unfold changeOrganisationMemberRoleTx. emits_tx. Qed.
Lemma emits_deactivateOrganisationMember a o u r t ev rs : emits (deactivateOrganisationMemberTx a o u r t ev rs).
Proof. unfold deactivateOrganisationMemberTx. emits_tx. Qed.
Lemma emits_addWorkspaceMember a w u role r t rs : emits (addWorkspaceMemberTx a w u role r t rs).
Proof. unfold addWorkspaceMemberTx. emits_tx. Qed.
Lemma emits_changeWorkspaceMemberRole a w u role r t ev rs : emits (changeWorkspaceMemberRoleTx a w u role r t ev rs).
Proof. unfold changeWorkspaceMemberRoleTx. emits_tx. Qed.
Lemma emits_deactivateWorkspaceMember a w u r t ev rs : emits (deactivateWorkspaceMemberTx a w u r t ev rs).
Proof. unfold deactivateWorkspaceMemberTx. emits_tx. Qed.
Hint Resolve emits_addOrganisationMember emits_changeOrganisationMemberRole emits_deactivateOrganisationMember
  emits_addWorkspaceMember emits_changeWorkspaceMemberRole emits_deactivateWorkspaceMember : emit.

Lemma emits_command r rs : emits (execute_command r rs).
Proof.
  unfold execute_command, executeOrganisationMembershipCommandTx, executeWorkspaceMembershipCommandTx. emits_tx.
Qed.
Hint Resolve emits_command : emit.

Lemma announces_SetUserActive id active now rand : announces (SetUserActive id active now rand).
Proof.
  unfold SetUserActive. do 2 announces_read. destruct (Bool.eqb _ _).
  - apply announces_quiet. intros d. frame_tx.
  - apply announces_emits. emits_tx.
Qed.
Lemma announces_ExecuteMembershipCommand r rs : announces (ExecuteMembershipCommand r rs).
Proof.
  unfold ExecuteMembershipCommand. do 2 announces_read. destruct _ as [x|].
  - apply announces_quiet. intros d. frame_tx. apply preserves_validateActor.
  - apply announces_emits. emits_tx.
Qed.

Lemma operation_announces A m : operation A m -> announces m.
Proof.
  destruct 1; try solve [apply announces_SetUserActive|apply announces_ExecuteMembershipCommand].
  all: try solve [apply announces_emits; unfold_operations; emits_tx].
  all: try solve [apply announces_quiet; intros d; unfold_operations; unfold insert_security_event; frame_tx;
                  auto 3 with emit frame].
  - apply announces_emits. unfold DeactivateOrganisationMember. emits_tx.
  - apply announces_emits. unfold DeactivateWorkspaceMember. emits_tx.
Qed.

(** ** Properties *)

Lemma step_keeps (P : DB -> Prop) :
  (forall A m, operation A m -> preserves P m) ->
  (forall roles db, P db -> P (set_system_role_assignments roles db)) ->
  forall db db', rtc step db db' -> P db -> P db'.
Proof.
  intros Hop Hrole db db' Hrun. induction Hrun as [|db mid db' Hs _ IH]; [done|].
  intros HP. apply IH. destruct Hs as [A m a mid Hm Hc|roles]; [|by apply Hrole]. by apply (Hop A m Hm _ _ _ Hc).
Qed.

(** Without the production import: in every state the store can reach, from an empty
    database, by any committed operations of the platform in any order, every component
    is consistent: rowids and public identifiers are unique, sessions are bounded, every
    active organisation has its owner and every organisation at most one current
    membership per user (and the same for workspaces), grants are current at most once,
    stored command results are unique per key, outbox events are valid and numbered
    without gaps, and every projection has applied its streams in order. *)
Theorem reachable_consistent db :
  reachable db ->
  user_inv db /\ session_inv db /\ org_inv db /\ workspace_inv db /\ product_inv db /\ command_inv db
  /\ outbox_inv db /\ projection_inv db.
Proof.
  intros Hrun. split_and!.
  - apply (step_keeps user_inv operation_user) with (db := empty_db); [done..|split; constructor].
  - apply (step_keeps session_inv operation_session) with (db := empty_db); [done..|split; [constructor|constructor|done]].
  - apply (step_keeps org_inv operation_org) with (db := empty_db); [done..|apply org_inv_empty].
  - apply (step_keeps workspace_inv operation_workspace) with (db := empty_db); [done..|apply workspace_inv_empty].
  - apply (step_keeps product_inv operation_product) with (db := empty_db); [done..|apply product_inv_empty].
  - apply (step_keeps command_inv operation_command) with (db := empty_db); [done..|apply command_inv_empty].
  - apply (step_keeps outbox_inv operation_outbox) with (db := empty_db); [done..|apply outbox_inv_empty].
  - apply (step_keeps projection_inv operation_projection) with (db := empty_db); [done..|apply projection_inv_empty].
Qed.

(** The audit trail, the security log and the outbox are append-only: whatever
    operations run, every row they held stays at its place with its contents,
    except that an event's publication time may be set. *)
Theorem history_append_only db db' :
  rtc step db db' ->
  (exists l, audit_events db' = audit_events db ++ l)%list
  /\ (exists l, security_events db' = security_events db ++ l)%list
  /\ (exists l, map unpublished (outbox db') = map unpublished (outbox db) ++ l)%list.
Proof.
  intros Hrun. apply (step_keeps (extends db)) with (db := db); [|done|done|by split_and!].
  intros A m Hm. by apply operation_extends.
Qed.

End System.

(** ** Witnesses *)

Definition sample_registration : St DB error User :=
  @CreateUser ascii_tables toy_crypto (mkUser "usr_1" "a@example.com" "A" "" true false Second None)
    "correct horse battery" "salt" Second (Some "0123456789abcdefgh").
Lemma sample_registration_op : @operation ascii_tables toy_crypto "key" _ sample_registration.
Proof. apply op_CreateUser; unfold four_digit_year; vm_compute; intuition discriminate. Qed.
Lemma sample_registration_runs : exists a db, sample_registration empty_db = Ok (a, db)
  /\ List.length (users db) = 1%nat.
Proof. do 2 eexists. split; [vm_compute; reflexivity|reflexivity]. Qed.

Lemma reachable_consistent_witness :
  exists db, List.length (users db) = 1%nat /\ user_inv db /\ outbox_inv db.
Proof.
  destruct sample_registration_runs as (a & db & Hrun & Hlen).
  destruct (@reachable_consistent ascii_tables toy_crypto "key" db) as (Hu & _ & _ & _ & _ & _ & Ho & _).
  { apply rtc_once. eapply step_commit; [apply sample_registration_op|exact Hrun]. }
  exists db. split; [exact Hlen|]. split; [exact Hu|exact Ho].
Defined.

Lemma history_append_only_witness :
  exists db l, List.length (users db) = 1%nat /\ audit_events db = (audit_events empty_db ++ l)%list.
Proof.
  destruct sample_registration_runs as (a & db & Hrun & Hlen).
  destruct (@history_append_only ascii_tables toy_crypto "key" empty_db db) as ((l & Hl) & _ & _).
  { apply rtc_once. eapply step_commit; [apply sample_registration_op|exact Hrun]. }
  exists db, l. split; [exact Hlen|exact Hl].
Defined.
