(* ===== verification/Seed.v ===== *)
(** The local demo fixture: internal/demoseed/seed.go. A run is a sequence of
    store operations, each committed by itself: what was committed before an
    error stays. *)
From stdpp Require Import base tactics option list strings relations.
From Stdlib Require Import ZArith Lia Ascii String.
From S2P Require Import Prelude GoStrings GoTime Codec Errors Domain Events Schema Outbox Auth Identity.
From S2P Require Import Organisation Access Workspace Product Command Projection Announce System.

Local Open Scope string_scope.
Local Open Scope Z_scope.

(** ** The manifest *)
Definition FixtureVersion : Z := 1.
Definition FixtureName := "tockr-local-demo-v1".
Definition Password := "Tockr-Demo-2026!".
Definition seedReason := "create local demo fixture v1".
Record OrganisationRecord := mkOrganisationRecord { or_ID : string; or_Name : string }.
Record WorkspaceRecord := mkWorkspaceRecord { wr_ID : string; wr_OrganisationID : string; wr_Name : string }.
Record UserRecord := mkUserRecord {
  ur_ID : string; ur_Email : string; ur_DisplayName : string; ur_OrganisationRole : string; ur_WorkspaceRole : string }.
Record Manifest := mkManifest {
  mf_Version : Z; mf_Fixture : string; mf_Organisation : OrganisationRecord; mf_Workspace : WorkspaceRecord;
  mf_Products : list string; mf_Users : list UserRecord }.
(** manifest.Users[0] and manifest.Users[1:] *)
Definition admin : UserRecord :=
  mkUserRecord "usr_tockr_demo_admin" "admin@example.com" "Tockr Demo Administrator" "owner" "admin".
Definition others : list UserRecord :=
  [mkUserRecord "usr_tockr_demo_anika" "anika.demo@tockrctrl.local" "Anika Maseko" "member" "viewer";
   mkUserRecord "usr_tockr_demo_sipho" "sipho.demo@tockrctrl.local" "Sipho Dlamini" "member" "member";
   mkUserRecord "usr_tockr_demo_maya" "maya.demo@tockrctrl.local" "Maya Naidoo" "member" "member";
   mkUserRecord "usr_tockr_demo_daniel" "daniel.demo@tockrctrl.local" "Daniel Jacobs" "member" "member"].
Definition manifest : Manifest :=
  mkManifest FixtureVersion FixtureName (mkOrganisationRecord "org_tockr_demo" "Default Organisation")
    (mkWorkspaceRecord "wsp_tockr_demo" "org_tockr_demo" "Default Workspace")
    ["product.tockrctrl"; "product.tockrims"] (admin :: others).

(** ** Runs: the database and the number of operations called so far, by which
    each call has random draws of its own. *)
Definition Run (A : Type) : Type := DB * nat -> res A * (DB * nat).
Definition done_ {A} (a : A) : Run A := fun s => (Ok a, s).
Definition stop {A} (e : error) : Run A := fun s => (Err e, s).
Definition and_then {A B} (m : Run A) (k : A -> Run B) : Run B := fun s =>
  match m s with (Ok a, s') => k a s' | (Err e, s') => (Err e, s') end.
Notation "'run!' x := m 'in' k" := (and_then m (fun x => k)) (at level 10, x pattern, m at level 100, k at level 200).
Definition query {A} (f : DB -> A) : Run A := fun s => (Ok (f s.1), s).
Definition commit {A} (message : string) (op : nat -> St DB error A) : Run A := fun s =>
  let (r, db) := exec (within message (op s.2)) s.1 in (r, (db, S s.2)).
Fixpoint each {A} (l : list A) (f : A -> Run unit) : Run unit :=
  match l with [] => done_ tt | x :: l => run! _ := f x in each l f end.
(** A read whose [notFound] error is no failure. *)
Definition found {A} (message : string) (notFound : sentinel) (read : DB -> res A) : Run (option A) := fun s =>
  match read s.1 with
  | Ok a => (Ok (Some a), s)
  | Err e => (if errors_Is e notFound then Ok None else Err (Wrap message e), s)
  end.

Section Seed.
Context `{UnicodeTables} `{Crypto} (now : Z) (salts : nat -> string) (rands : nat -> rng).

Definition conflicts (what id : string) : error := Text ("Platform " ++ what ++ " " ++ id ++ " conflicts with demo fixture v1").

Definition ensureUser (person : UserRecord) : Run unit :=
  run! user := query (FindUserByID (ur_ID person)) in
  match user with
  | None =>
      run! byEmail := query (FindUserByEmail (ur_Email person)) in
      match byEmail with
      | Some u => stop (Text ("demo email " ++ ur_Email person ++ " already belongs to Platform User " ++ User_ID u))
      | None =>
          run! _ := commit ("create demo User " ++ ur_ID person) (fun n =>
            CreateUser (mkUser (ur_ID person) (ur_Email person) (ur_DisplayName person) "" true false now None)
              Password (salts n) now (rands n 0%nat)) in
          done_ tt
      end
  | Some u =>
      if negb (User_Email u =s ur_Email person) || negb (User_DisplayName u =s ur_DisplayName person) || negb (User_Active u)
      then stop (conflicts "User" (ur_ID person)) else done_ tt
  end.

Definition ensureOrganisation : Run Organisation :=
  let wanted := mf_Organisation manifest in
  run! organisation := found "read demo Organisation" ErrOrganisationNotFound (GetOrganisation (ur_ID admin) (or_ID wanted)) in
  run! organisation :=
    match organisation with
    | Some o => done_ o
    | None =>
        run! created := commit "create demo Organisation" (fun n =>
          CreateOrganisation (ur_ID admin) (mkOrganisation (or_ID wanted) (or_Name wanted) "" zero_time None) seedReason now (rands n)) in
        done_ created.1
    end in
  if negb (Organisation_Name organisation =s or_Name wanted) || negb (Organisation_Status organisation =s OrganisationActive)
  then stop (conflicts "Organisation" (Organisation_ID organisation)) else done_ organisation.

Definition ensureWorkspace (organisation : Organisation) : Run Workspace :=
  let wanted := mf_Workspace manifest in
  run! workspace := found "read demo Workspace" ErrWorkspaceNotFound (GetWorkspace (ur_ID admin) (wr_ID wanted)) in
  run! workspace :=
    match workspace with
    | Some w => done_ w
    | None =>
        run! created := commit "create demo Workspace" (fun n =>
          CreateWorkspace (ur_ID admin) (Organisation_ID organisation)
            (mkWorkspace (wr_ID wanted) "" (wr_Name wanted) "" zero_time None) seedReason now (rands n)) in
        done_ created.1
    end in
  if negb (Workspace_Name workspace =s wr_Name wanted) || negb (Workspace_OrganisationID workspace =s Organisation_ID organisation)
     || negb (Workspace_Status workspace =s WorkspaceActive)
  then stop (conflicts "Workspace" (Workspace_ID workspace)) else done_ workspace.

Definition ensureOrganisationMembership (adminID organisationID : string) (person : UserRecord) : Run unit :=
  let role := ur_OrganisationRole person in
  run! membership := found ("read Organisation membership for " ++ ur_ID person) ErrMembershipNotFound
    (GetOrganisationMembership adminID organisationID (ur_ID person)) in
  match membership with
  | None =>
      run! _ := commit ("add Organisation membership for " ++ ur_ID person) (fun n =>
        AddOrganisationMember adminID organisationID (ur_ID person) role seedReason now (rands n)) in
      done_ tt
  | Some m =>
      if negb (OM_Active m) then stop (Text ("Organisation membership for " ++ ur_ID person ++ " is inactive"))
      else if negb (OM_Role m =s role) then
        run! _ := commit ("align Organisation role for " ++ ur_ID person) (fun n =>
          ChangeOrganisationMemberRole adminID organisationID (ur_ID person) role seedReason now (rands n)) in
        done_ tt
      else done_ tt
  end.

Definition ensureWorkspaceMembership (adminID workspaceID : string) (person : UserRecord) : Run unit :=
  let role := ur_WorkspaceRole person in
  run! membership := found ("read Workspace membership for " ++ ur_ID person) ErrWorkspaceMembershipNotFound
    (GetWorkspaceMembership adminID workspaceID (ur_ID person)) in
  match membership with
  | None =>
      run! _ := commit ("add Workspace membership for " ++ ur_ID person) (fun n =>
        AddWorkspaceMember adminID workspaceID (ur_ID person) role seedReason now (rands n)) in
      done_ tt
  | Some m =>
      if negb (WM_Active m) then stop (Text ("Workspace membership for " ++ ur_ID person ++ " is inactive"))
      else if negb (WM_Role m =s role) then
        run! _ := commit ("align Workspace role for " ++ ur_ID person) (fun n =>
          ChangeWorkspaceMemberRole adminID workspaceID (ur_ID person) role seedReason now (rands n)) in
        done_ tt
      else done_ tt
  end.

(** A list that is read, with every error a failure. *)
Definition listed {A} (message : string) (read : DB -> res (list A)) : Run (list A) := fun s =>
  match read s.1 with Ok l => (Ok l, s) | Err e => (Err (Wrap message e), s) end.
Definition ensureEntitlement (adminID organisationID productKey : string) : Run unit :=
  run! items := listed "read demo product entitlements" (ListOrganisationProductEntitlements adminID organisationID) in
  if existsb (fun item => (Ent_ProductKey item =s productKey) && Ent_Active item) items then done_ tt else
  run! _ := commit ("entitle demo product " ++ productKey) (fun n =>
    EntitleOrganisation adminID organisationID productKey seedReason now (rands n)) in
  done_ tt.
Definition ensureAssignment (adminID organisationID userID productKey : string) : Run unit :=
  run! items := listed "read demo product assignments" (ListUserProductAssignments adminID organisationID) in
  if existsb (fun item => (Asg_UserID item =s userID) && (Asg_ProductKey item =s productKey) && Asg_Active item) items
  then done_ tt else
  run! _ := commit ("assign demo product " ++ productKey ++ " to " ++ userID) (fun n =>
    AssignUserProduct adminID organisationID userID productKey seedReason now (rands n)) in
  done_ tt.

Definition Seed : Run Manifest :=
  run! _ := each (mf_Users manifest) ensureUser in
  run! organisation := ensureOrganisation in
  run! workspace := ensureWorkspace organisation in
  run! _ := each others (fun person =>
    run! _ := ensureOrganisationMembership (ur_ID admin) (Organisation_ID organisation) person in
    ensureWorkspaceMembership (ur_ID admin) (Workspace_ID workspace) person) in
  run! _ := each (mf_Products manifest) (fun productKey =>
    run! _ := ensureEntitlement (ur_ID admin) (Organisation_ID organisation) productKey in
    each (mf_Users manifest) (fun person =>
      ensureAssignment (ur_ID admin) (Organisation_ID organisation) (ur_ID person) productKey)) in
  done_ manifest.
End Seed.

(** ** Lemmas *)

(** What every run relates its first and last database by. *)
Section Related.
Context (R : DB -> DB -> Prop) {R_refl : Reflexive R} {R_trans : Transitive R}.
Definition related {A} (m : Run A) : Prop := forall s, R s.1 (m s).2.1.
Lemma related_still {A} (m : Run A) : (forall s, (m s).2.1 = s.1) -> related m.
Proof. intros Hm s. by rewrite Hm. Qed.
Lemma related_then {A B} (m : Run A) (k : A -> Run B) : related m -> (forall a, related (k a)) -> related (and_then m k).
Proof.
  intros Hm Hk s. unfold and_then. specialize (Hm s). destruct (m s) as [[a|e] s']; [|exact Hm].
  etransitivity; [exact Hm|apply Hk].
Qed.
Lemma related_each {A} (l : list A) f : (forall x, related (f x)) -> related (each l f).
Proof. intros Hf. induction l as [|x l IH]; [by apply related_still|]. by apply related_then. Qed.
Lemma related_commit {A} message (op : nat -> St DB error A) :
  (forall n db a db', op n db = Ok (a, db') -> R db db') -> related (commit message op).
Proof.
  intros Hop [db n]. unfold commit, exec, within. cbn [fst snd]. destruct (op n db) as [[a db']|e] eqn:E; [|reflexivity].
  by eapply Hop.
Qed.
Lemma related_found {A} message e (read : DB -> res A) : related (found message e read).
Proof. apply related_still. intros s. unfold found. by destruct (read s.1). Qed.
Lemma related_listed {A} message (read : DB -> res (list A)) : related (listed message read).
Proof. apply related_still. intros s. unfold listed. by destruct (read s.1). Qed.
Lemma related_done {A} (a : A) : related (done_ a).
Proof. by apply related_still. Qed.
Lemma related_stop {A} e : related (stop (A:=A) e).
Proof. by apply related_still. Qed.
Lemma related_query {A} (f : DB -> A) : related (query f).
Proof. by apply related_still. Qed.
End Related.
Create HintDb seed.
#[export] Hint Resolve related_done related_stop related_query related_found related_listed related_each : seed.
Ltac related_run :=
  repeat first
  [ progress auto 1 with seed
  | apply related_then
  | intros ?
  | match goal with |- context [match ?x with _ => _ end] => destruct x end ].

(** Rows that are only ever added to. *)
Definition only_adds (db d : DB) : Prop :=
  users db `prefix_of` users d /\ organisations db `prefix_of` organisations d /\ workspaces db `prefix_of` workspaces d
  /\ entitlements db `prefix_of` entitlements d /\ assignments db `prefix_of` assignments d
  /\ products d = products db /\ sessions d = sessions db
  /\ system_role_assignments d = system_role_assignments db.
#[export] Instance only_adds_refl : Reflexive only_adds.
Proof. intros db. by split_and!. Qed.
#[export] Instance only_adds_trans : Transitive only_adds.
Proof.
  intros a b c (?&?&?&?&?&Ep&Es&Er) (?&?&?&?&?&Ep'&Es'&Er').
  split_and!; try (by etransitivity); congruence.
Qed.
Ltac adds :=
  match goal with
  | |- preserves (only_adds _) (insert_row _ _ _ _) =>
      apply preserves_insert; intros ? (?&?&?&?&?&?&?&?) _; split_and!; try assumption; apply prefix_snoc; assumption
  end.
Lemma adds_insert_audit db a ty agg e d t : preserves (only_adds db) (insert_audit a ty agg e d t).
Proof. unfold insert_audit. frame_tx. Qed.
Lemma adds_append db ty agg t payload rand : preserves (only_adds db) (appendPlatformEventTx ty agg t payload rand).
Proof. unfold appendPlatformEventTx. frame_tx. Qed.
Create HintDb adds.
#[export] Hint Resolve adds_insert_audit adds_append : adds.
#[export] Hint Resolve preserves_activeUserIDTx preserves_authorised preserves_authorised_workspace preserves_activeTarget
  preserves_targetUser : adds.
Ltac adds_tx := frame_tx; auto 2 with adds; try adds; unfold_records; frame_tx; auto 2 with adds.

Section Operations.
Context `{UnicodeTables} `{Crypto} (secretKey : string).
(** An operation of the store, as the fixture uses it. *)
Definition adding {A} (m : St DB error A) : Prop := operation secretKey A m /\ forall db, preserves (only_adds db) m.
Lemma adding_CreateUser u p salt now rand : four_digit_year now -> four_digit_year (User_CreatedAt u) ->
  adding (CreateUser u p salt now rand).
Proof. intros. split; [by constructor|]. intros db. unfold CreateUser. adds_tx. Qed.
Lemma adding_CreateOrganisation a o r t rs : four_digit_year t -> adding (CreateOrganisation a o r t rs).
Proof. intros. split; [by constructor|]. intros db. unfold CreateOrganisation. adds_tx. Qed.
Lemma adding_CreateWorkspace a o w r t rs : four_digit_year t -> adding (CreateWorkspace a o w r t rs).
Proof. intros. split; [by constructor|]. intros db. unfold CreateWorkspace. adds_tx. Qed.
Lemma adding_AddOrganisationMember a o u role r t rs : four_digit_year t -> adding (AddOrganisationMember a o u role r t rs).
Proof. intros. split; [by constructor|]. intros db. unfold AddOrganisationMember, addOrganisationMemberTx. adds_tx. Qed.
Lemma adding_ChangeOrganisationMemberRole a o u role r t rs :
  four_digit_year t -> adding (ChangeOrganisationMemberRole a o u role r t rs).
Proof. intros. split; [by constructor|]. intros db. unfold ChangeOrganisationMemberRole, changeOrganisationMemberRoleTx. adds_tx. Qed.
Lemma adding_AddWorkspaceMember a w u role r t rs : four_digit_year t -> adding (AddWorkspaceMember a w u role r t rs).
Proof. intros. split; [by constructor|]. intros db. unfold AddWorkspaceMember, addWorkspaceMemberTx. adds_tx. Qed.
Lemma adding_ChangeWorkspaceMemberRole a w u role r t rs :
  four_digit_year t -> adding (ChangeWorkspaceMemberRole a w u role r t rs).
Proof. intros. split; [by constructor|]. intros db. unfold ChangeWorkspaceMemberRole, changeWorkspaceMemberRoleTx. adds_tx. Qed.
Lemma adding_EntitleOrganisation a o k r t rs : four_digit_year t -> adding (EntitleOrganisation a o k r t rs).
Proof. intros. split; [by constructor|]. intros db. unfold EntitleOrganisation. adds_tx. Qed.
Lemma adding_AssignUserProduct a o u k r t rs : four_digit_year t -> adding (AssignUserProduct a o u k r t rs).
Proof. intros. split; [by constructor|]. intros db. unfold AssignUserProduct. adds_tx. Qed.
End Operations.
#[export] Hint Resolve adding_CreateUser adding_CreateOrganisation adding_CreateWorkspace adding_AddOrganisationMember
  adding_ChangeOrganisationMemberRole adding_AddWorkspaceMember adding_ChangeWorkspaceMemberRole adding_EntitleOrganisation
  adding_AssignUserProduct : seed.

(** ** Runs that call no operation *)
(** The calls counted never decrease, and without one nothing changes. *)
Definition counted {A} (m : Run A) : Prop :=
  forall s, (s.2 <= (m s).2.2)%nat /\ ((m s).2.2 = s.2 -> (m s).2 = s).
Lemma counted_still {A} (m : Run A) : (forall s, (m s).2 = s) -> counted m.
Proof. intros Hm s. by rewrite Hm. Qed.
Lemma counted_commit {A} message (op : nat -> St DB error A) : counted (commit message op).
Proof. intros [db n]. unfold commit. destruct (exec _ _) as [r db']. cbn. split; lia. Qed.
Lemma counted_then {A B} (m : Run A) (k : A -> Run B) : counted m -> (forall a, counted (k a)) -> counted (and_then m k).
Proof.
  intros Hm Hk s. unfold and_then. destruct (Hm s) as [Hle Heq]. destruct (m s) as [[a|e] s'] eqn:E; [|by split].
  destruct (Hk a s') as [Hle' Heq']. cbn [fst snd] in *. split; [lia|]. intros Hn.
  rewrite Heq' by lia. apply Heq. lia.
Qed.
Lemma counted_each {A} (l : list A) f : (forall x, counted (f x)) -> counted (each l f).
Proof. intros Hf. induction l as [|x l IH]; [by apply counted_still|]. by apply counted_then. Qed.
Lemma counted_found {A} message e (read : DB -> res A) : counted (found message e read).
Proof. apply counted_still. intros s. unfold found. by destruct (read s.1). Qed.
Lemma counted_listed {A} message (read : DB -> res (list A)) : counted (listed message read).
Proof. apply counted_still. intros s. unfold listed. by destruct (read s.1). Qed.
Lemma counted_done {A} (a : A) : counted (done_ a).
Proof. by apply counted_still. Qed.
Lemma counted_stop {A} e : counted (stop (A:=A) e).
Proof. by apply counted_still. Qed.
Lemma counted_query {A} (f : DB -> A) : counted (query f).
Proof. by apply counted_still. Qed.
Lemma counted_if {A} (b : bool) (m m' : Run A) : counted m -> counted m' -> counted (if b then m else m').
Proof. by destruct b. Qed.
Lemma counted_option {A B} (o : option B) (m : B -> Run A) (m' : Run A) : (forall b, counted (m b)) -> counted m' ->
  counted (match o with Some b => m b | None => m' end).
Proof. by destruct o. Qed.
Create HintDb counted.
#[export] Hint Resolve counted_done counted_stop counted_query counted_found counted_listed counted_each counted_commit
  counted_then counted_if counted_option : counted.

(** A run that succeeds without an operation is made of runs that do. *)
Lemma then_still {A B} (m : Run A) (k : A -> Run B) s b : counted m -> (forall a, counted (k a)) ->
  and_then m k s = (Ok b, s) <-> exists a, m s = (Ok a, s) /\ k a s = (Ok b, s).
Proof.
  intros Hm Hk. unfold and_then. split; [|by intros (a & -> & ->)].
  destruct (Hm s) as [Hle Heq]. destruct (m s) as [[a|e] s'] eqn:E; [|by intros [= ?]]. intros Hs.
  destruct (Hk a s') as [Hle' _]. rewrite Hs in Hle'. cbn [fst snd] in *. rewrite (Heq ltac:(lia)) in *. by exists a.
Qed.
Lemma each_still {A} (l : list A) f s : (forall x, counted (f x)) ->
  each l f s = (Ok tt, s) <-> Forall (fun x => f x s = (Ok tt, s)) l.
Proof.
  intros Hf. induction l as [|x l IH]; [by split|]. cbn [each]. rewrite then_still by auto with counted.
  rewrite Forall_cons, <-IH. split; [intros ([] & ? & ?); by split|intros [? ?]; by exists tt].
Qed.
(** A call is counted. *)
Lemma commit_calls {A B} message (op : nat -> St DB error A) (k : A -> Run B) s b :
  (forall a, counted (k a)) -> and_then (commit message op) k s <> (Ok b, s).
Proof.
  intros Hk Hs. apply then_still in Hs as (a & Ha & _); [|apply counted_commit|done]. unfold commit in Ha.
  destruct (exec _ _). apply (f_equal (fun x => x.2.2)) in Ha. cbn in Ha. lia.
Qed.
Lemma found_still {A} message e (read : DB -> res A) s x : found message e read s = (Ok x, s) <->
  match x with Some a => read s.1 = Ok a | None => exists err, read s.1 = Err err /\ errors_Is err e = true end.
Proof.
  unfold found. destruct (read s.1) as [a|err].
  - split; [intros [= <-]; done|]. destruct x; [by intros [= ->]|by intros (? & ? & _)].
  - destruct (errors_Is err e) eqn:E.
    + split; [intros [= <-]; eauto|]. destruct x; [done|]. by intros (? & _ & _).
    + split; [done|]. destruct x; [done|]. intros (? & [= <-] & ?). congruence.
Qed.

(** ** The fixture *)
Section Fixture.
Context `{UnicodeTables} `{Crypto}.

Definition org_id := or_ID (mf_Organisation manifest).
Definition wsp_id := wr_ID (mf_Workspace manifest).
Definition person_known (db : DB) (p : UserRecord) : Prop :=
  exists u, FindUserByID (ur_ID p) db = Some u
    /\ User_Email u = ur_Email p /\ User_DisplayName u = ur_DisplayName p /\ User_Active u = true.
Definition person_joined (db : DB) (p : UserRecord) : Prop :=
  (exists m, GetOrganisationMembership (ur_ID admin) org_id (ur_ID p) db = Ok m
     /\ OM_Active m = true /\ OM_Role m = ur_OrganisationRole p)
  /\ exists m, GetWorkspaceMembership (ur_ID admin) wsp_id (ur_ID p) db = Ok m
       /\ WM_Active m = true /\ WM_Role m = ur_WorkspaceRole p.
Definition product_granted (db : DB) (key : string) : Prop :=
  (exists items item, ListOrganisationProductEntitlements (ur_ID admin) org_id db = Ok items /\ In item items
     /\ Ent_ProductKey item = key /\ Ent_Active item = true)
  /\ Forall (fun p => exists items item, ListUserProductAssignments (ur_ID admin) org_id db = Ok items /\ In item items
       /\ Asg_UserID item = ur_ID p /\ Asg_ProductKey item = key /\ Asg_Active item = true) (mf_Users manifest).
(** A database that holds the fixture of the manifest. *)
Definition seeded (db : DB) : Prop :=
  Forall (person_known db) (mf_Users manifest)
  /\ (exists o, GetOrganisation (ur_ID admin) org_id db = Ok o
       /\ Organisation_Name o = or_Name (mf_Organisation manifest) /\ Organisation_Status o = OrganisationActive)
  /\ (exists w, GetWorkspace (ur_ID admin) wsp_id db = Ok w /\ Workspace_Name w = wr_Name (mf_Workspace manifest)
       /\ Workspace_OrganisationID w = org_id /\ Workspace_Status w = WorkspaceActive)
  /\ Forall (person_joined db) others /\ Forall (product_granted db) (mf_Products manifest).

Lemma GetOrganisation_ID requester id db o : GetOrganisation requester id db = Ok o -> Organisation_ID o = id.
Proof.
  unfold GetOrganisation. destruct (find _ _) as [r|] eqn:E; [|by destruct (_ =? _)]. intros [= <-].
  apply find_some in E as [_ E]. bool_hyps. by apply String.eqb_eq.
Qed.
Lemma GetWorkspace_ID requester id db w : GetWorkspace requester id db = Ok w -> Workspace_ID w = id.
Proof.
  unfold GetWorkspace. destruct (authorisedWorkspaceRead _ _ _ _); [|done]. cbn.
  destruct (active_workspace id db) as [r|] eqn:E; [|done]. destruct (active_organisation_by_id _ _); [|done]. intros [= <-].
  apply find_some in E as [_ E]. bool_hyps. by apply String.eqb_eq.
Qed.
Lemma existsb_item {A} (p : A -> bool) (P : A -> Prop) l : (forall x, p x = true <-> P x) ->
  existsb p l = true <-> exists x, In x l /\ P x.
Proof. intros Hp. rewrite existsb_exists. split; intros (x & ? & ?); exists x; (split; [done|]); by apply Hp. Qed.

Context (now : Z) (salts : nat -> string) (rands : nat -> rng).
Lemma counted_user p : counted (ensureUser now salts rands p).
Proof. unfold ensureUser. eauto 9 with counted. Qed.
Lemma counted_organisation : counted (ensureOrganisation now rands).
Proof. unfold ensureOrganisation. eauto 9 with counted. Qed.
Lemma counted_workspace o : counted (ensureWorkspace now rands o).
Proof. unfold ensureWorkspace. eauto 9 with counted. Qed.
Lemma counted_organisation_membership a o p : counted (ensureOrganisationMembership now rands a o p).
Proof. unfold ensureOrganisationMembership. eauto 9 with counted. Qed.
Lemma counted_workspace_membership a o p : counted (ensureWorkspaceMembership now rands a o p).
Proof. unfold ensureWorkspaceMembership. eauto 9 with counted. Qed.
Lemma counted_entitlement a o k : counted (ensureEntitlement now rands a o k).
Proof. unfold ensureEntitlement. eauto 9 with counted. Qed.
Lemma counted_assignment a o u k : counted (ensureAssignment now rands a o u k).
Proof. unfold ensureAssignment. eauto 9 with counted. Qed.

Hint Resolve counted_user counted_organisation counted_workspace counted_organisation_membership counted_workspace_membership
  counted_entitlement counted_assignment : counted.
Ltac still := rewrite ?then_still by eauto 20 with counted.
(** A call in a run that ends without one. *)
Ltac no_call := match goal with C : and_then (commit _ _) _ _ = _ |- _ =>
  exfalso; revert C; apply commit_calls; intros; apply counted_done end.

Lemma user_still p s : ensureUser now salts rands p s = (Ok tt, s) <-> person_known s.1 p.
Proof.
  unfold ensureUser, person_known. still. split.
  - intros (user & [= <-] & Hu). destruct (FindUserByID (ur_ID p) s.1) as [u|].
    + exists u. split; [done|]. destruct (_ || _) eqn:E in Hu; [done|]. bool_hyps. split_and!; try done; by apply String.eqb_eq.
    + apply then_still in Hu as (e & _ & Hu); [|eauto 20 with counted..]. destruct e; [done|no_call].
  - intros (u & Hu & He & Hn & Ha). exists (Some u). unfold query. rewrite Hu. split; [done|].
    by rewrite He, Hn, !String.eqb_refl, Ha.
Qed.
Lemma organisation_still s o : ensureOrganisation now rands s = (Ok o, s) <->
  GetOrganisation (ur_ID admin) org_id s.1 = Ok o
  /\ Organisation_Name o = or_Name (mf_Organisation manifest) /\ Organisation_Status o = OrganisationActive.
Proof.
  unfold ensureOrganisation. still. split.
  - intros (x & Hx%found_still & Ho). apply then_still in Ho as (o' & Ho & Hc); [|eauto 20 with counted..].
    destruct x as [x|]; [|no_call]. injection Ho as <-. destruct (_ || _) eqn:E in Hc; [done|]. injection Hc as <-.
    bool_hyps. split; [done|]. split; by apply String.eqb_eq.
  - intros (Ho & Hn & Hs). exists (Some o). rewrite found_still. split; [done|]. still. exists o. split; [done|].
    by rewrite Hn, Hs.
Qed.
Lemma workspace_still s o w : Organisation_ID o = org_id -> ensureWorkspace now rands o s = (Ok w, s) <->
  GetWorkspace (ur_ID admin) wsp_id s.1 = Ok w /\ Workspace_Name w = wr_Name (mf_Workspace manifest)
  /\ Workspace_OrganisationID w = org_id /\ Workspace_Status w = WorkspaceActive.
Proof.
  intros Hid. unfold ensureWorkspace. rewrite Hid. still. split.
  - intros (x & Hx%found_still & Ho). apply then_still in Ho as (w' & Ho & Hc); [|eauto 20 with counted..].
    destruct x as [x|]; [|no_call]. injection Ho as <-. destruct (_ || _) eqn:E in Hc; [done|]. injection Hc as <-.
    bool_hyps. split; [done|]. split_and!; by apply String.eqb_eq.
  - intros (Hw & Hn & Ho & Hs). exists (Some w). rewrite found_still. split; [done|]. still. exists w. split; [done|].
    by rewrite Hn, Ho, Hs.
Qed.
Lemma joined_still p s : 
  (run! _ := ensureOrganisationMembership now rands (ur_ID admin) org_id p in
   ensureWorkspaceMembership now rands (ur_ID admin) wsp_id p) s = (Ok tt, s) <-> person_joined s.1 p.
Proof.
  still. unfold person_joined. split.
  - intros ([] & Ho & Hw). split; [clear Hw; rename Ho into Hm; unfold ensureOrganisationMembership in Hm|
      clear Ho; rename Hw into Hm; unfold ensureWorkspaceMembership in Hm].
    all: apply then_still in Hm as (x & Hx%found_still & Hm); [|eauto 20 with counted..].
    all: destruct x as [m|]; [|no_call]; exists m; split; [done|].
    all: destruct (negb _) eqn:Ea in Hm; [done|]; destruct (negb _) eqn:Er in Hm; [no_call|]; bool_hyps.
    all: split; [done|by apply String.eqb_eq].
  - intros [(m & Hm & Ha & Hr) (m' & Hm' & Ha' & Hr')]. exists tt. split.
    + unfold ensureOrganisationMembership. still. exists (Some m). rewrite found_still. split; [done|].
      by rewrite Ha, Hr, String.eqb_refl.
    + unfold ensureWorkspaceMembership. still. exists (Some m'). rewrite found_still. split; [done|].
      by rewrite Ha', Hr', String.eqb_refl.
Qed.
Lemma listed_still {A} message (read : DB -> res (list A)) s l : listed message read s = (Ok l, s) <-> read s.1 = Ok l.
Proof. unfold listed. destruct (read s.1); [|done]. split; [by intros [= ->]|by intros [= ->]]. Qed.
(** What is found in a list or else granted. *)
Lemma grant_still {A B} message (read : DB -> res (list A)) p message' (op : nat -> St DB error B) s :
  (run! items := listed message read in
   if existsb p items then done_ tt else run! _ := commit message' op in done_ tt) s = (Ok tt, s)
  <-> exists items item, read s.1 = Ok items /\ In item items /\ p item = true.
Proof.
  still. split.
  - intros (items & Hl%listed_still & Hc). destruct (existsb p items) eqn:E; [|no_call].
    apply existsb_exists in E as (item & ? & ?). by exists items, item.
  - intros (items & item & Hl & Hin & Hp). exists items. rewrite listed_still. split; [done|].
    assert (existsb p items = true) as -> by (apply existsb_exists; eauto). done.
Qed.
Lemma granted_still key s :
  (run! _ := ensureEntitlement now rands (ur_ID admin) org_id key in
   each (mf_Users manifest) (fun person => ensureAssignment now rands (ur_ID admin) org_id (ur_ID person) key)) s
    = (Ok tt, s) <-> product_granted s.1 key.
Proof.
  still. unfold product_granted.
  assert (ensureEntitlement now rands (ur_ID admin) org_id key s = (Ok tt, s) <-> exists items item,
    ListOrganisationProductEntitlements (ur_ID admin) org_id s.1 = Ok items /\ In item items
    /\ Ent_ProductKey item = key /\ Ent_Active item = true) as He.
  { unfold ensureEntitlement. rewrite grant_still. by setoid_rewrite andb_true_iff; setoid_rewrite String.eqb_eq. }
  rewrite <-He. clear He. assert (forall p, ensureAssignment now rands (ur_ID admin) org_id (ur_ID p) key s = (Ok tt, s)
    <-> exists items item, ListUserProductAssignments (ur_ID admin) org_id s.1 = Ok items /\ In item items
          /\ Asg_UserID item = ur_ID p /\ Asg_ProductKey item = key /\ Asg_Active item = true) as Ha.
  { intros p. unfold ensureAssignment. rewrite grant_still. setoid_rewrite andb_true_iff. setoid_rewrite andb_true_iff.
    setoid_rewrite String.eqb_eq. naive_solver. }
  assert (each (mf_Users manifest) (fun p => ensureAssignment now rands (ur_ID admin) org_id (ur_ID p) key) s = (Ok tt, s)
    <-> Forall (fun p => exists items item, ListUserProductAssignments (ur_ID admin) org_id s.1 = Ok items /\ In item items
          /\ Asg_UserID item = ur_ID p /\ Asg_ProductKey item = key /\ Asg_Active item = true) (mf_Users manifest)) as <-.
  { rewrite each_still by auto with counted. by apply Forall_iff. }
  split; [by intros ([] & ? & ?)|intros [? ?]; by exists tt].
Qed.

(** A run calls no operation and succeeds exactly on a seeded database. *)
Lemma Seed_still s : Seed now salts rands s = (Ok manifest, s) <-> seeded s.1.
Proof.
  unfold Seed, seeded. still.
  assert (each (mf_Users manifest) (ensureUser now salts rands) s = (Ok tt, s) <-> Forall (person_known s.1) (mf_Users manifest)) as Hu.
  { rewrite each_still by auto with counted. apply Forall_iff. intros p. apply user_still. }
  rewrite <-Hu. clear Hu. split.
  - intros ([] & Hu & Hs). split; [done|]. apply then_still in Hs as (o & Ho & Hs); [|eauto 20 with counted..].
    apply organisation_still in Ho. pose proof (GetOrganisation_ID _ _ _ _ (proj1 Ho)) as Hid.
    apply then_still in Hs as (w & Hw & Hs); [|eauto 20 with counted..]. apply workspace_still in Hw; [|done].
    pose proof (GetWorkspace_ID _ _ _ _ (proj1 Hw)) as Hwid. rewrite Hid, Hwid in Hs.
    apply then_still in Hs as ([] & Hj & Hs); [|eauto 20 with counted..].
    apply then_still in Hs as ([] & Hg & _); [|eauto 20 with counted..].
    split; [by exists o|]. split; [by exists w|]. rewrite each_still in Hj by auto with counted.
    rewrite each_still in Hg by auto with counted. split; (eapply Forall_impl; [eassumption|]); intros p Hp;
      [by apply joined_still|by apply granted_still].
  - intros (Hu & (o & Ho) & (w & Hw) & Hj & Hg). exists tt. split; [done|]. still. exists o.
    pose proof (GetOrganisation_ID _ _ _ _ (proj1 Ho)) as Hid. pose proof (GetWorkspace_ID _ _ _ _ (proj1 Hw)) as Hwid.
    rewrite organisation_still. split; [done|]. still. exists w. rewrite workspace_still by done. split; [done|].
    rewrite Hid, Hwid. still. exists tt. split.
    { apply each_still; [auto with counted|]. eapply Forall_impl; [exact Hj|]. intros p. apply joined_still. }
    still. exists tt. split; [|done]. apply each_still; [auto with counted|]. eapply Forall_impl; [exact Hg|].
    intros p. apply granted_still.
Qed.
End Fixture.
#[export] Hint Resolve counted_user counted_organisation counted_workspace counted_organisation_membership
  counted_workspace_membership counted_entitlement counted_assignment : counted.

Section Safety.
Context `{UnicodeTables} `{Crypto} (secretKey : string) (now : Z) (salts : nat -> string) (rands : nat -> rng).
Context (now_year : four_digit_year now).

(** Committed operations of the store that only add rows to the tables of
    identities and grants. *)
Definition adds (db d : DB) : Prop := rtc (step secretKey) db d /\ only_adds db d.
#[local] Instance adds_refl : Reflexive adds.
Proof. by split. Qed.
#[local] Instance adds_trans : Transitive adds.
Proof. intros a b c [? ?] [? ?]. split; by etransitivity. Qed.
Lemma related_adding {A} message (op : nat -> St DB error A) :
  (forall n, adding secretKey (op n)) -> related adds (commit message op).
Proof.
  intros Hop. apply related_commit; [apply _..|]. intros n db a db' Hm. destruct (Hop n) as [Ho Ha]. split.
  - apply rtc_once. by eapply step_commit.
  - by apply (Ha db _ _ _ Hm).
Qed.
Lemma Seed_adds : related adds (Seed now salts rands).
Proof using now_year.
  assert (forall A message (op : nat -> St DB error A) (B : Type) (k : A -> Run B), (forall n, adding secretKey (op n)) ->
    (forall a, related adds (k a)) -> related adds (and_then (commit message op) k)) as Hc.
  { intros. apply related_then; [apply _|by apply related_adding|done]. }
  unfold Seed, ensureUser, ensureOrganisation, ensureWorkspace, ensureOrganisationMembership, ensureWorkspaceMembership,
    ensureEntitlement, ensureAssignment.
  repeat first
  [ apply Hc; [intros ?; auto 2 with seed|]
  | apply related_then; [apply _| |]
  | apply related_each; [apply _..|]
  | apply related_done; apply _ | apply related_stop; apply _ | apply related_query; apply _
  | apply related_found; apply _ | apply related_listed; apply _
  | intros ?
  | match goal with |- context [match ?x with _ => _ end] => destruct x end ].
Qed.

(** C40: the demo fixture only adds, and is written once. Whatever a run answers,
    what it leaves was reached by committed operations of the store, and every
    user, organisation, workspace, entitlement and assignment of before is still
    there as it was, with the products, sessions and system roles untouched; an
    answer is the manifest; and a run succeeds without an operation exactly on a
    database that holds the fixture, which it leaves as it is. *)
Theorem seed_only_adds db n r db' n' :
  Seed now salts rands (db, n) = (r, (db', n')) ->
  rtc (step secretKey) db db' /\ only_adds db db'
  /\ (forall m, r = Ok m -> m = manifest)
  /\ (r = Ok manifest /\ n' = n <-> seeded db)
  /\ (seeded db -> db' = db).
Proof using now_year.
  intros Hs. pose proof (Seed_adds (db, n)) as [Hstep Hadd]. rewrite Hs in Hstep, Hadd. cbn [fst snd] in Hstep, Hadd.
  assert (counted (Seed now salts rands)) as Hc by (unfold Seed; eauto 20 with counted).
  pose proof (Seed_still now salts rands (db, n)) as Hstill. cbn [fst] in Hstill. rewrite Hs in Hstill.
  split_and!; [done|done| | |].
  - intros m ->. revert Hs. unfold Seed, and_then, done_. clear. intros Hs.
    repeat match type of Hs with context [match ?x with _ => _ end] => destruct x as [[] ?] end; congruence.
  - rewrite <-Hstill. destruct (Hc (db, n)) as [_ Heq]. rewrite Hs in Heq. cbn [fst snd] in Heq. split; [|by intros [= -> -> ->]].
    intros [-> ->]. by rewrite (Heq eq_refl).
  - intros Hseed. apply Hstill in Hseed. congruence.
Qed.
End Safety.

(** ** Witness: a fresh database, and a second run *)
(** ** Witness: a fresh database, and a second run *)
Module Demo.
#[export] Existing Instances ascii_tables toy_crypto.
Definition now : Z := 1789000000 * Second.
Definition draws (n i : nat) : option string :=
  Some ("draw-" ++ FormatInt (1000 + Z.of_nat n) ++ "-" ++ FormatInt (1000000 + Z.of_nat i)).
Definition salt (n : nat) : string := "salt".
Definition db : DB := Eval vm_compute in (Seed now salt draws (empty_db, 0%nat)).2.1.
Lemma first_run : Seed now salt draws (empty_db, 0%nat) = (Ok manifest, (db, 27%nat)).
Proof. vm_compute. reflexivity. Qed.
Lemma second_run : Seed now salt draws (db, 0%nat) = (Ok manifest, (db, 0%nat)).
Proof. vm_compute. reflexivity. Qed.
Lemma now_year : four_digit_year now.
Proof. vm_compute. intuition discriminate. Qed.
End Demo.
#[local] Existing Instances ascii_tables toy_crypto.

Lemma seed_only_adds_witness :
  rtc (step "key") empty_db Demo.db /\ List.length (users Demo.db) = 5%nat /\ seeded Demo.db.
Proof.
  destruct (seed_only_adds "key" Demo.now Demo.salt Demo.draws Demo.now_year _ _ _ _ _ Demo.first_run) as (Hr & _).
  destruct (seed_only_adds "key" Demo.now Demo.salt Demo.draws Demo.now_year _ _ _ _ _ Demo.second_run) as (_ & _ & _ & Hs & _).
  split; [exact Hr|]. split; [reflexivity|]. apply Hs. split; reflexivity.
Defined.
