(* ===== verification/Pages.v ===== *)
(** web/pages/platform.go and web/pages/admin.go: what the handlers give the page
    templates. The templates themselves (generated code) only render it. *)
From Stdlib Require Import ZArith String.
From S2P Require Import Prelude Domain.

(** *** platform.go *)
Record OrganisationOption := mkOrganisationOption { oo_ID : string; oo_Name : string; oo_Role : string; oo_Selected : bool }.
Record WorkspaceOption := mkWorkspaceOption { wo_ID : string; wo_Name : string; wo_Selected : bool }.
Record ProductOption := mkProductOption { po_Key : string; po_DisplayName : string; po_AccessURL : string; po_HandoffURL : string }.
Record LauncherProps := mkLauncherProps {
  lp_User : User; lp_CSRF : string; lp_CurrentPath : string; lp_Organisations : list OrganisationOption;
  lp_Workspaces : list WorkspaceOption; lp_Products : list ProductOption; lp_OrganisationID : string;
  lp_OrganisationName : string; lp_WorkspaceID : string; lp_WorkspaceName : string }.
Record WorkspaceSelectorProps := mkWorkspaceSelectorProps {
  wsp_User : User; wsp_CSRF : string; wsp_CurrentPath : string; wsp_OrganisationID : string;
  wsp_OrganisationName : string; wsp_Workspaces : list WorkspaceOption }.
Record ProductAccessProps := mkProductAccessProps {
  pap_User : User; pap_CSRF : string; pap_CurrentPath : string; pap_Product : ProductOption;
  pap_OrganisationID : string; pap_OrganisationName : string; pap_WorkspaceID : string; pap_WorkspaceName : string }.
Record ProductHandoffProps := mkProductHandoffProps {
  php_User : User; php_CSRF : string; php_CurrentPath : string; php_ProductName : string; php_TargetURL : string;
  php_Assertion : string }.

(** *** admin.go *)
Record AdminNavItem := mkAdminNavItem { ani_Href : string; ani_Label : string; ani_Active : bool }.
Record AdminMember := mkAdminMember {
  am_MembershipID : string; am_UserID : string; am_Email : string; am_DisplayName : string; am_Role : string;
  am_RoleChange : string; am_AssignedAt : string }.
Record AdminWorkspace := mkAdminWorkspace {
  aw_ID : string; aw_Name : string; aw_Status : string; aw_CreatedAt : string; aw_AdminURL : string }.
Record AdminAudit := mkAdminAudit { aa_Event : string; aa_Details : string; aa_OccurredAt : string }.
Record AdminEntitlement := mkAdminEntitlement { ae_ID : string; ae_ProductKey : string; ae_Status : string; ae_Active : bool }.
Record AdminAssignment := mkAdminAssignment {
  ag_ID : string; ag_UserID : string; ag_ProductKey : string; ag_Status : string; ag_Active : bool }.
Record AdminProduct := mkAdminProduct { ap_Key : string; ap_DisplayName : string; ap_Status : string; ap_Active : bool }.
Record OrganisationAdminProps := mkOrganisationAdminProps {
  oap_User : User; oap_CSRF : string; oap_CurrentPath : string; oap_OrganisationID : string;
  oap_OrganisationName : string; oap_Role : string; oap_Section : string; oap_CanAdmin : bool;
  oap_SystemAdmin : bool; oap_Navigation : list AdminNavItem; oap_Members : list AdminMember;
  oap_Workspaces : list AdminWorkspace; oap_Audit : list AdminAudit; oap_Entitlements : list AdminEntitlement;
  oap_Assignments : list AdminAssignment; oap_Flash : string }.
Record WorkspaceAdminProps := mkWorkspaceAdminProps {
  wap_User : User; wap_CSRF : string; wap_CurrentPath : string; wap_OrganisationID : string;
  wap_OrganisationName : string; wap_WorkspaceID : string; wap_WorkspaceName : string;
  wap_OrganisationRole : string; wap_WorkspaceRole : string; wap_CanAdmin : bool;
  wap_Members : list AdminMember; wap_Audit : list AdminAudit; wap_Flash : string }.
Record SystemProductAdminProps := mkSystemProductAdminProps {
  spp_User : User; spp_CSRF : string; spp_CurrentPath : string; spp_Products : list AdminProduct; spp_Flash : string }.

(** The templates of web/templates and web/pages with their arguments. *)
Inductive Page :=
| LoginPage (csrfToken message : string)
| AccountPage (user : User) (csrfToken : string)
| MFASetupPage (user : User) (csrfToken enrollmentToken secret message : string)
| MFARecoveryPage (user : User) (csrfToken : string) (codes : list string)
| LauncherPage (props : LauncherProps)
| WorkspaceSelectorPage (props : WorkspaceSelectorProps)
| ProductAccessPage (props : ProductAccessProps)
| ProductHandoffPage (props : ProductHandoffProps)
| OrganisationAdminPage (props : OrganisationAdminProps)
| WorkspaceAdminPage (props : WorkspaceAdminProps)
| SystemProductAdminPage (props : SystemProductAdminProps).
