(* ===== verification/Http.v ===== *)
(** internal/platform/http/server.go, the parts every handler shares: what
    net/http gives a handler, the responses, the state of a [Server], the errors
    of the store as statuses, the session and the CSRF check.

    A handler is a function of the request, of the readings of the clock and of
    the random source it makes, and of the server; it gives the response and the
    server after it. One handler runs at a time on the state it touches: the
    store serialises its transactions and the limiters hold their mutex. *)
From stdpp Require Import base tactics option list gmap strings.
From Stdlib Require Import ZArith Lia Ascii String.
From S2P Require Import Prelude GoStrings GoTime Errors Domain Json Schema Outbox Auth Limiter Assertion Identity Url.
From S2P Require Import Organisation Workspace Product Snapshot Pages.

Local Open Scope string_scope.
Local Open Scope Z_scope.

(** ** Requests

    [rq_EscapedPath] is URL.EscapedPath(); [rq_Body] is what reading the body
    gives, None when it fails. [rq_Form] holds the values ParseForm puts in
    r.Form and [rq_FormOk] whether it succeeds; [rq_IsForm] says that the body is
    a form, so that it is gone once r.Form is read. *)
Record Request := mkRequest {
  rq_Method : string; rq_Path : string; rq_EscapedPath : string; rq_RawQuery : string;
  rq_Header : string -> string; rq_Cookies : list (string * string); rq_RemoteAddr : string;
  rq_Body : option string; rq_FormOk : bool; rq_Form : Values; rq_IsForm : bool }.
(** r.Cookie(name).Value, r.FormValue(key) and r.URL.Query().Get(key). *)
Definition Cookie (r : Request) (name : string) : option string :=
  option_map snd (find (has_key name) (rq_Cookies r)).
Definition FormValue (r : Request) (key : string) : string := Get (rq_Form r) key.
Definition Query (r : Request) (key : string) : string := Get (fst (ParseQuery (rq_RawQuery r))) key.
(** http.MaxBytesReader read to its end. *)
Definition MaxBytesReader (body : option string) (n : Z) : option string :=
  match body with Some b => if len b <=? n then Some b else None | None => None end.

Record readAuthorityRateEntry := mkRateEntry { started : Z; rate_count : Z }.
Abbreviation readAuthorityRateLimiter := (gmap string readAuthorityRateEntry).
Definition newReadAuthorityRateLimiter : readAuthorityRateLimiter := ∅.

(** The clock when the session is loaded, when the handler reads it, and when the
    store reads it; the random bytes of the store's identifiers and of the
    handler's tokens; the order in which the login limiter's map is visited, and
    the first key a range over the rate limiter's map gives; what GenerateTOTPSecret
    gives, the cipher's nonce, and the random bytes of recovery codes and salts. *)
Record Env := mkEnv {
  en_load : Z; en_now : Z; en_store : Z; en_rng : rng; en_raw : nat -> option string; en_order : Limiter.order;
  en_pick : readAuthorityRateLimiter -> string;
  en_secret : res string; en_nonce : string; en_codes : nat -> string; en_salts : nat -> string }.

(** ** Responses *)
Record SetCookie := mkSetCookie {
  ck_Name : string; ck_Value : string; ck_Path : string; ck_MaxAge : Z; ck_Secure : bool }.
Inductive Body :=
| BNone
| BText (message : string)
| BJson (value : json)
| BPage (page : Page).
Record Response := mkResponse {
  rs_Status : Z; rs_Headers : list (string * string); rs_Cookies : list SetCookie; rs_Body : Body }.

Definition StatusText (code : Z) : string :=
  if code =? 400 then "Bad Request" else if code =? 401 then "Unauthorized" else if code =? 403 then "Forbidden"
  else if code =? 404 then "Not Found" else if code =? 409 then "Conflict"
  else if code =? 503 then "Service Unavailable" else if code =? 500 then "Internal Server Error" else "".
Definition http_Error (message : string) (code : Z) : Response := mkResponse code [] [] (BText message).
Definition Redirect (url : string) : Response := mkResponse 303 [("Location", url)] [] BNone.
Definition NotFound : Response := http_Error "404 page not found" 404.
Definition WriteHeader (code : Z) : Response := mkResponse code [] [] BNone.
Definition writeJSON (status : Z) (value : json) : Response :=
  mkResponse status [("Content-Type", "application/json; charset=utf-8"); ("Cache-Control", "no-store")] []
    (BJson value).
Definition serverError : Response := http_Error "service unavailable" 500.
(** render, whose write to the connection is taken to succeed. *)
Definition render (page : Page) : Response :=
  mkResponse 200 [("Content-Type", "text/html; charset=utf-8")] [] (BPage page).
Definition setCookies (cs : list SetCookie) (r : Response) : Response :=
  mkResponse (rs_Status r) (rs_Headers r) (cs ++ rs_Cookies r) (rs_Body r).
Definition setHeaders (hs : list (string * string)) (r : Response) : Response :=
  mkResponse (rs_Status r) (hs ++ rs_Headers r) (rs_Cookies r) (rs_Body r).

(** ** The server *)
Definition sessionCookieName := "platform_session".
Definition loginCSRFCookie := "platform_login_csrf".
Definition defaultRequestBodyLimit : Z := 2 ^ 20.

(** Public keys by consumer, then by key id; a launch target by product key. *)
Abbreviation PublicKeySet := (gmap string (gmap string string)).
Record ProductLaunchTarget := mkTarget { URL : string; Audience : string }.

Record Config := mkConfig {
  CookieSecure : bool; AllowInsecureCookies : bool; SessionTTL : Z; RateLimitEnabled : bool;
  LoginLimiterOf : LoginLimiterConfig; AssertionIssuer : option Assertion.Issuer; MaxRequestBodyBytes : Z;
  ReadAuthorityKeys : PublicKeySet; MembershipCommandKeys : PublicKeySet;
  ProductLaunchTargets : gmap string ProductLaunchTarget }.
Record Server := mkServer {
  sv_store : ReadStore; sv_cfg : Config; sv_limiter : LoginLimiter;
  sv_readAuthorityKeys : PublicKeySet; sv_membershipCommandKeys : PublicKeySet;
  sv_readAuthorityRate : readAuthorityRateLimiter; sv_productLaunchTargets : gmap string ProductLaunchTarget }.

Definition with_defaults (c : Config) : Config :=
  mkConfig (if AllowInsecureCookies c then CookieSecure c else true) (AllowInsecureCookies c)
    (if SessionTTL c <=? 0 then 12 * Hour else SessionTTL c) (RateLimitEnabled c) (LoginLimiterOf c)
    (AssertionIssuer c) (if MaxRequestBodyBytes c <=? 0 then defaultRequestBodyLimit else MaxRequestBodyBytes c)
    (ReadAuthorityKeys c) (MembershipCommandKeys c) (ProductLaunchTargets c).
Definition NewServer (persistence : ReadStore) (cfg : Config) : Server :=
  let cfg := with_defaults cfg in
  mkServer persistence cfg (NewLoginLimiter (LoginLimiterOf cfg)) (ReadAuthorityKeys cfg)
    (if Nat.eqb (size (MembershipCommandKeys cfg)) 0 then ReadAuthorityKeys cfg else MembershipCommandKeys cfg)
    newReadAuthorityRateLimiter (ProductLaunchTargets cfg).

Definition db_of (s : Server) : DB := platform (sv_store s).
Definition set_store (st : ReadStore) (s : Server) : Server :=
  mkServer st (sv_cfg s) (sv_limiter s) (sv_readAuthorityKeys s) (sv_membershipCommandKeys s)
    (sv_readAuthorityRate s) (sv_productLaunchTargets s).
Definition set_db (db : DB) (s : Server) : Server :=
  let st := sv_store s in
  set_store (mkReadStore db (schema_migrations st) (snapshots st) (snapshot_records st) (nonces st)) s.
Definition set_limiter (l : LoginLimiter) (s : Server) : Server :=
  mkServer (sv_store s) (sv_cfg s) l (sv_readAuthorityKeys s) (sv_membershipCommandKeys s)
    (sv_readAuthorityRate s) (sv_productLaunchTargets s).
Definition set_rate (m : readAuthorityRateLimiter) (s : Server) : Server :=
  mkServer (sv_store s) (sv_cfg s) (sv_limiter s) (sv_readAuthorityKeys s) (sv_membershipCommandKeys s)
    m (sv_productLaunchTargets s).
Definition set_issuer (i : Assertion.Issuer) (s : Server) : Server :=
  let c := sv_cfg s in
  mkServer (sv_store s)
    (mkConfig (CookieSecure c) (AllowInsecureCookies c) (SessionTTL c) (RateLimitEnabled c) (LoginLimiterOf c)
       (Some i) (MaxRequestBodyBytes c) (ReadAuthorityKeys c) (MembershipCommandKeys c) (ProductLaunchTargets c))
    (sv_limiter s) (sv_readAuthorityKeys s) (sv_membershipCommandKeys s) (sv_readAuthorityRate s)
    (sv_productLaunchTargets s).

(** A transaction of the store: committed with its result, or rolled back. *)
Definition transact {A} (m : St DB error A) (s : Server) : res A * Server :=
  match m (db_of s) with Ok (a, db) => (Ok a, set_db db s) | Err e => (Err e, s) end.
Definition transact_store {A} (m : St ReadStore error A) (s : Server) : res A * Server :=
  match m (sv_store s) with Ok (a, st) => (Ok a, set_store st s) | Err e => (Err e, s) end.
Abbreviation handler := (Server -> Response * Server).
Definition answer (r : Response) : handler := fun s => (r, s).
(** [result, err := s.store.Op(...)] and the two ways to go on. *)
Definition store_call {A} (m : St DB error A) (on_error : error -> Response) (on_ok : A -> Response) : handler :=
  fun s => match transact m s with (Ok a, s) => (on_ok a, s) | (Err e, s) => (on_error e, s) end.
Definition store_read {A} (read : DB -> res A) (on_error : error -> Response) (on_ok : A -> Response) : handler :=
  fun s => match read (db_of s) with Ok a => (on_ok a, s) | Err e => (on_error e, s) end.

Lemma transact_cases {A} (m : St DB error A) s r s' :
  transact m s = (r, s') ->
  (exists a db, m (db_of s) = Ok (a, db) /\ r = Ok a /\ s' = set_db db s) \/
  (exists e, m (db_of s) = Err e /\ r = Err e /\ s' = s).
Proof. unfold transact. destruct (m (db_of s)) as [[a db]|e]; intros [= <- <-]; [left|right]; eauto. Qed.
Lemma store_call_cases {A} (m : St DB error A) f k s r s' :
  store_call m f k s = (r, s') ->
  (exists a db, m (db_of s) = Ok (a, db) /\ r = k a /\ s' = set_db db s) \/
  (exists e, m (db_of s) = Err e /\ r = f e /\ s' = s).
Proof.
  unfold store_call. destruct (transact m s) as [x s1] eqn:E.
  apply transact_cases in E as [(a & db & ? & -> & ->)|(e & ? & -> & ->)]; intros [= <- <-]; [left|right]; eauto.
Qed.
Lemma transact_preserves {A} (P : DB -> Prop) (m : St DB error A) s :
  preserves P m -> P (db_of s) -> P (db_of (transact m s).2).
Proof. intros Hm HP. unfold transact. destruct (m (db_of s)) as [[a db]|e] eqn:E; [|done]. by apply (Hm _ _ _ E). Qed.

(** ** Errors of the store as responses *)
Definition any_Is (e : error) (targets : list sentinel) : bool := existsb (errors_Is e) targets.
Definition status_of (e : error) (table : list (Z * list sentinel)) : Z :=
  match find (fun row => any_Is e (snd row)) table with Some row => fst row | None => 500 end.
Definition error_with (table : list (Z * list sentinel)) (e : error) : Response :=
  let status := status_of e table in
  if status =? 500 then http_Error "service unavailable" status else http_Error (StatusText status) status.
Definition writeOrganisationError : error -> Response := error_with
  [(404, [ErrOrganisationNotFound; ErrOrganisationArchived; ErrMembershipNotFound; ErrUnauthorisedOrganisationAction]);
   (403, [ErrOwnerMutationNotAuthorised]);
   (409, [ErrDuplicateOrganisationMember]);
   (400, [ErrInvalidOrganisation; ErrInvalidOrganisationName; ErrInvalidOrganisationRole; ErrInvalidReason])].
Definition writeWorkspaceError : error -> Response := error_with
  [(404, [ErrAccessScopeDenied; ErrWorkspaceNotFound; ErrWorkspaceArchived; ErrWorkspaceMembershipNotFound;
          ErrUnauthorisedWorkspaceAction]);
   (409, [ErrDuplicateWorkspaceMember]);
   (400, [ErrInvalidWorkspace; ErrInvalidWorkspaceID; ErrInvalidWorkspaceName; ErrInvalidWorkspaceRole;
          ErrInvalidWorkspaceMember; ErrInvalidReason])].
Definition writeProductError : error -> Response := error_with
  [(404, [ErrProductNotFound; ErrEntitlementNotFound; ErrUnauthorisedProductAction; ErrOrganisationNotFound;
          ErrOrganisationArchived; ErrUnauthorisedOrganisationAction; ErrProductAssignmentNotFound;
          ErrProductAccessDenied]);
   (409, [ErrProductRetired; ErrEntitlementInactive; ErrDuplicateOrganisationEntitlement;
          ErrProductAssignmentInactive; ErrDuplicateUserProductAssignment]);
   (400, [ErrInvalidProduct; ErrInvalidProductKey; ErrInvalidProductStatus; ErrInvalidEntitlement;
          ErrInvalidEntitlementID; ErrInvalidEntitlementStatus; ErrInvalidProductAssignment;
          ErrInvalidProductAssignmentID; ErrInvalidProductAssignmentStatus; ErrInvalidReason; ErrInvalidAudience;
          ErrInvalidScope; ErrInvalidAssertion])].

(** ** JSON bodies *)
Definition jint (n : Z) : json := JNumber (FormatInt n).
Definition jtime (t : Z) : json := JString (formatTime t).
Definition opt_time (k : string) (t : option Z) : list (string * json) :=
  match t with Some t => [(k, jtime t)] | None => [] end.
Definition opt_string (k v : string) : list (string * json) := if v =s "" then [] else [(k, JString v)].

(** The decoded members of a body of at most [n] bytes: one JSON value, an object
    with known names only (null sets no field). *)
Definition decode_members (names : list string) (body : option string) (n : Z) : option (list (string * json)) :=
  match MaxBytesReader body n with
  | None => None
  | Some text =>
      match parse text with
      | Some (JObject l) =>
          if forallb (fun m => existsb (fun k => fold_key (fst m) =s fold_key k) names) l then Some l else None
      | Some JNull => Some []
      | _ => None
      end
  end.
Definition decodeJSON {A} (names : list string) (decode : list (string * json) -> res A) (body : option string)
  : option A :=
  match decode_members names body defaultRequestBodyLimit with
  | Some l => match decode l with Ok a => Some a | Err _ => None end
  | None => None
  end.
Definition invalid_request : Response := http_Error "invalid request" 400.

Section Sessions.
Context `{Crypto}.

(** ** Sessions and CSRF *)
Definition loadSession (r : Request) (now : Z) (db : DB) : res AuthenticatedSession :=
  match Cookie r sessionCookieName with
  | Some value => if blank value then Err NoRows else AuthenticatedSession_ value now db
  | None => Err NoRows
  end.
(** errors.Is(err, sql.ErrNoRows) *)
Fixpoint Is_NoRows (e : error) : bool :=
  match e with NoRows => true | Wrap _ e => Is_NoRows e | _ => false end.
(** The handler behind requireSession, with the session its context carries. *)
Definition requireSession (r : Request) (env : Env) (next : AuthenticatedSession -> handler) : handler := fun s =>
  match loadSession r (en_load env) (db_of s) with
  | Err e => (if Is_NoRows e then Redirect "/login" else serverError, s)
  | Ok session => next session s
  end.
Definition User_of (session : AuthenticatedSession) : string := User_ID (as_User session).

Definition csrf_rejected : Response := http_Error "request could not be validated" 403.
(** The token and whether r.FormValue was called to get it. *)
Definition json_content `{UnicodeTables} (r : Request) : bool :=
  HasPrefix (ToLower (rq_Header r "Content-Type")) "application/json".
Definition csrf_token `{UnicodeTables} (r : Request) : string * bool :=
  let token := rq_Header r "X-CSRF-Token" in
  if (token =s "") && negb (json_content r) then (FormValue r "csrf", true) else (token, false).
Definition verifyMutationCSRF `{UnicodeTables} (r : Request) (db : DB) : bool :=
  match Cookie r sessionCookieName with
  | None => false
  | Some cookie =>
      match VerifySessionCSRF cookie (fst (csrf_token r)) db with Ok valid => valid | Err _ => false end
  end.
(** What is left of the body for decodeJSON. *)
Definition body_after_csrf `{UnicodeTables} (r : Request) : option string :=
  if snd (csrf_token r) && rq_IsForm r then Some "" else rq_Body r.
End Sessions.
