(* ===== verification/Login.v ===== *)
(** internal/platform/http/server.go, signing in and out: the login form with its
    rate limit and second factor, MFA enrolment, the account page and logout. *)
From stdpp Require Import base tactics option list gmap strings.
From Stdlib Require Import ZArith Lia Ascii String.
From S2P Require Import Prelude GoStrings GoTime Codec Errors Domain Json Events Schema Outbox Auth Limiter Identity Mfa.
From S2P Require Import Url Snapshot Announce System Pages Http.

Local Open Scope string_scope.
Local Open Scope Z_scope.


Section Login.
Context `{UnicodeTables} `{Crypto} (secretKey : string).

Definition sessionCookies (s : Server) (token csrf : string) : list SetCookie :=
  let secure := CookieSecure (sv_cfg s) in
  let age := Z.quot (SessionTTL (sv_cfg s)) Second in
  [mkSetCookie sessionCookieName token "/" age secure; mkSetCookie "platform_csrf" csrf "/" age secure;
   mkSetCookie loginCSRFCookie "" "/login" (-1) secure].

Definition loginPage (r : Request) (env : Env) : handler := fun s =>
  match loadSession r (en_load env) (db_of s) with
  | Ok _ => (Redirect "/account", s)
  | Err _ =>
      match NewOpaqueToken (en_raw env 0) with
      | Err _ => (serverError, s)
      | Ok token =>
          let message := if Query r "error" =s "1" then "Invalid credentials" else "" in
          (setCookies [mkSetCookie loginCSRFCookie token "/login" 900 (CookieSecure (sv_cfg s))]
             (render (LoginPage token message)), s)
      end
  end.

Definition renderLoginThrottle (retryAfter : Z) : Response :=
  let seconds := Z.quot (wrap64 (retryAfter + Second - 1)) Second in
  let seconds := if seconds <? 1 then 1 else seconds in
  setHeaders [("Retry-After", FormatInt seconds)] (http_Error "too many login attempts" 429).

(** A rejected attempt: the audit event, the limiter, the redirect. *)
Definition reject_login (userID : option string) (event details key : string) (env : Env) : handler := fun s =>
  match transact (RecordSecurityEvent userID event details (en_now env)) s with
  | (Err _, s) => (serverError, s)
  | (Ok _, s) =>
      if RateLimitEnabled (sv_cfg s) then
        let '((retryAfter, blocked), l) := RecordFailure (en_order env) (sv_limiter s) key (en_now env) in
        let s := set_limiter l s in
        if blocked then (renderLoginThrottle retryAfter, s) else (Redirect "/login?error=1", s)
      else (Redirect "/login?error=1", s)
  end.

(** VerifyMFA, then UseRecoveryCode if it did not succeed; the error of the last
    one that ran. *)
Definition second_factor (r : Request) (userID : string) (env : Env) (s : Server) : res bool * Server :=
  let (mfa, s) := if TrimSpace (FormValue r "mfa_code") =s "" then (Ok false, s)
                  else transact (VerifyMFA secretKey userID (TrimSpace (FormValue r "mfa_code")) (en_store env)) s in
  let valid := match mfa with Ok b => b | Err _ => false end in
  if negb valid && negb (TrimSpace (FormValue r "recovery_code") =s "")
  then transact (UseRecoveryCode userID (FormValue r "recovery_code") (en_now env)) s
  else (mfa, s).

Definition establish (userID key : string) (env : Env) : handler := fun s =>
  let s := if RateLimitEnabled (sv_cfg s) then set_limiter (RecordSuccess (sv_limiter s) key) s else s in
  match NewOpaqueToken (en_raw env 0), NewOpaqueToken (en_raw env 1) with
  | Ok token, Ok sessionCSRF =>
      store_call (EstablishSession userID token sessionCSRF (en_now env + SessionTTL (sv_cfg s)) (en_now env))
        (fun _ => serverError)
        (fun _ => setCookies (sessionCookies s token sessionCSRF) (Redirect "/account")) s
  | _, _ => (serverError, s)
  end.

Definition login_csrf (r : Request) : bool :=
  match Cookie r loginCSRFCookie with
  | Some value => VerifyTokenHash (HashToken value) (FormValue r "csrf")
  | None => false
  end.
Definition login_email (r : Request) : string := ToLower (TrimSpace (FormValue r "email")).
Definition login_key (r : Request) : string := LoginAbuseKey (login_email r) (rq_RemoteAddr r).
Definition password_hash (credential : option LoginCredential) : string :=
  match credential with
  | Some c => if negb (lc_PasswordHash c =s "") then lc_PasswordHash c else DummyPasswordHash
  | None => DummyPasswordHash
  end.
(** The user whose password was given, when the account is active. *)
Definition first_factor (r : Request) (db : DB) : option User :=
  let credential := FindLoginCredential (login_email r) db in
  let passwordOK := CheckPassword (password_hash credential) (FormValue r "password") in
  match credential with
  | Some c => if negb passwordOK || negb (User_Active (lc_User c)) then None else Some (lc_User c)
  | None => None
  end.

(** Everything after the limiter let the attempt through. *)
Definition attempt (r : Request) (env : Env) : handler := fun s =>
  let key := login_key r in
  match first_factor r (db_of s) with
  | None =>
      reject_login (option_map (fun c => User_ID (lc_User c)) (FindLoginCredential (login_email r) (db_of s)))
        "failed_login" "credentials rejected" key env s
  | Some user =>
      if User_MFAEnabled user then
        match second_factor r (User_ID user) env s with
        | (Err _, s) => (serverError, s)
        | (Ok false, s) => reject_login (Some (User_ID user)) "failed_mfa" "second factor rejected" key env s
        | (Ok true, s) => establish (User_ID user) key env s
        end
      else establish (User_ID user) key env s
  end.

Definition login (r : Request) (env : Env) : handler := fun s =>
  if negb (rq_FormOk r) then (invalid_request, s) else
  if negb (login_csrf r) then (csrf_rejected, s) else
  if RateLimitEnabled (sv_cfg s) then
    let '((retryAfter, blocked), l) := RetryAfter (sv_limiter s) (login_key r) (en_now env) in
    let s := set_limiter l s in
    if blocked then (renderLoginThrottle retryAfter, s) else attempt r env s
  else attempt r env s.

(** ** Behind requireSession *)
Definition accountPage (r : Request) (session : AuthenticatedSession) : handler := fun s =>
  match Cookie r "platform_csrf" with
  | Some csrf =>
      if blank csrf then (http_Error "session requires renewal" 401, s)
      else (render (AccountPage (as_User session) csrf), s)
  | None => (http_Error "session requires renewal" 401, s)
  end.

(** The CSRF cookie, when the form's token is the one of the session. *)
Definition sessionCSRF (r : Request) (db : DB) : option string :=
  match Cookie r sessionCookieName, Cookie r "platform_csrf" with
  | Some cookie, Some csrfCookie =>
      match VerifySessionCSRF cookie (FormValue r "csrf") db with Ok true => Some csrfCookie | _ => None end
  | _, _ => None
  end.

Definition mfaSetup (r : Request) (env : Env) (session : AuthenticatedSession) : handler := fun s =>
  if negb (rq_FormOk r) then (invalid_request, s) else
  match sessionCSRF r (db_of s) with
  | None => (csrf_rejected, s)
  | Some csrfCookie =>
      if User_MFAEnabled (as_User session) then (http_Error "MFA is already enabled" 409, s) else
      match en_secret env with
      | Err _ => (serverError, s)
      | Ok secret =>
          store_call (CreateMFAEnrollment secretKey (User_of session) secret (en_now env + 10 * Minute)
                        (en_store env) (en_nonce env) (en_raw env 0))
            (fun _ => serverError)
            (fun token => render (MFASetupPage (as_User session) csrfCookie token secret "")) s
      end
  end.

(** HashPassword of every code, in order; [salts] are bcrypt's. *)
Fixpoint hash_codes (salts : nat -> string) (i : nat) (codes : list string) : res (list string) :=
  match codes with
  | [] => Ok []
  | code :: codes =>
      let? hash := HashPassword (NormalizeRecoveryCode code) (salts i) in
      let? hashes := hash_codes salts (S i) codes in Ok (hash :: hashes)
  end.
Definition mfaConfirm (r : Request) (env : Env) (session : AuthenticatedSession) : handler := fun s =>
  if negb (rq_FormOk r) then (invalid_request, s) else
  match sessionCSRF r (db_of s) with
  | None => (csrf_rejected, s)
  | Some csrfCookie =>
      match (let? codes := GenerateRecoveryCodes 10 (en_codes env) in
             let? hashes := hash_codes (en_salts env) 0 codes in Ok (codes, hashes)) with
      | Err _ => (serverError, s)
      | Ok (codes, hashes) =>
          store_call (CompleteMFAEnrollment secretKey (User_of session) (FormValue r "enrollment_token")
                        (FormValue r "code") hashes (en_now env))
            (fun _ => serverError)
            (fun completed => if completed : bool
               then render (MFARecoveryPage (as_User session) csrfCookie codes)
               else render (MFASetupPage (as_User session) csrfCookie (FormValue r "enrollment_token") ""
                      "The code was invalid or the setup window expired.")) s
      end
  end.

Definition logout (r : Request) (env : Env) (session : AuthenticatedSession) : handler := fun s =>
  if negb (rq_FormOk r) then (invalid_request, s) else
  match Cookie r sessionCookieName with
  | None => (csrf_rejected, s)
  | Some cookie =>
      match VerifySessionCSRF cookie (FormValue r "csrf") (db_of s) with
      | Ok true =>
          let secure := CookieSecure (sv_cfg s) in
          store_call (RevokeSessionAndRecordLogout cookie (User_of session) (en_now env))
            (fun _ => serverError)
            (fun _ => setCookies [mkSetCookie sessionCookieName "" "/" (-1) secure;
                                  mkSetCookie "platform_csrf" "" "/" (-1) secure] (Redirect "/login")) s
      | _ => (csrf_rejected, s)
      end
  end.

(** ** What the steps of a login leave alone *)
Lemma sessions_RecordSecurityEvent l id event details t :
  preserves (fun db => sessions db = l) (RecordSecurityEvent id event details t).
Proof. unfold RecordSecurityEvent, insert_security_event. frame_tx. Qed.
Lemma sessions_VerifyMFA l id code t : preserves (fun db => sessions db = l) (VerifyMFA secretKey id code t).
Proof. unfold VerifyMFA. frame_tx. Qed.
Lemma sessions_UseRecoveryCode l id code t : preserves (fun db => sessions db = l) (UseRecoveryCode id code t).
Proof. unfold UseRecoveryCode, insert_security_event. frame_tx. Qed.

Lemma second_factor_sessions r id env s x s1 :
  second_factor r id env s = (x, s1) -> sessions (db_of s1) = sessions (db_of s) /\ sv_cfg s1 = sv_cfg s.
Proof.
  assert (forall {A} (m : St DB error A) y, sv_cfg (transact m y).2 = sv_cfg y) as Hcfg.
  { intros A m y. unfold transact. by destruct (m (db_of y)) as [[]|]. }
  unfold second_factor. intros E. 
  match type of E with (let (_, _) := ?b in _) = _ => destruct b as [y s2] eqn:E2 end.
  assert (sessions (db_of s2) = sessions (db_of s) /\ sv_cfg s2 = sv_cfg s) as [H1 H2].
  { destruct (_ =s "") in E2; [by injection E2 as <- <-|].
    rewrite (surjective_pairing (transact _ _)) in E2. injection E2 as <- <-. split; [|apply Hcfg].
    by apply transact_preserves; [apply sessions_VerifyMFA|]. }
  destruct (_ && _) in E; [|by injection E as <- <-].
  rewrite (surjective_pairing (transact _ _)) in E. injection E as <- <-. rewrite <-H1, <-H2. split; [|apply Hcfg].
  by apply transact_preserves; [apply sessions_UseRecoveryCode|].
Qed.

Lemma second_factor_users r id env s : user_inv (db_of s) -> user_inv (db_of (second_factor r id env s).2).
Proof.
  intros Hu. assert (forall A (m : St DB error A) y, operation secretKey A m -> user_inv (db_of y) -> user_inv (db_of (transact m y).2)) as Ht.
  { intros A m y Hm. apply transact_preserves. by apply (operation_user secretKey). }
  unfold second_factor. destruct (TrimSpace (FormValue r "mfa_code") =s "").
  - destruct (_ && _); [|done]. apply Ht; [constructor|done].
  - rewrite (surjective_pairing (transact _ _)). destruct (_ && _); cbn [snd].
    + apply Ht; [constructor|]. apply Ht; [constructor|done].
    + apply Ht; [constructor|done].
Qed.

Lemma reject_login_sessions id event details key env s resp s1 :
  reject_login id event details key env s = (resp, s1) -> sessions (db_of s1) = sessions (db_of s).
Proof.
  unfold reject_login. rewrite (surjective_pairing (transact _ _)).
  assert (sessions (db_of (transact (RecordSecurityEvent id event details (en_now env)) s).2) = sessions (db_of s)) as Hs
    by (by apply transact_preserves; [apply sessions_RecordSecurityEvent|]).
  destruct (transact _ _).1; [|by intros [= <- <-]]. destruct (RateLimitEnabled _); [|by intros [= <- <-]].
  destruct (RecordFailure _ _ _ _) as [[? []] ?]; by intros [= <- <-].
Qed.

(** *** EstablishSession *)
Lemma EstablishSession_Ok uid token csrf e t db u db' :
  EstablishSession uid token csrf e t db = Ok (u, db') ->
  exists user, active_user db uid = Some user /\ blank token = false /\ t < e <= t + maxSessionLifetime
    /\ sessions_ok (sessions db) (session_row (u_id user) token csrf t e (next_id (sessions db))) = true
    /\ sessions db' = (sessions db ++ [session_row (u_id user) token csrf t e (next_id (sessions db))])%list
    /\ users db' = update (fun x => u_id x =? u_id user) (with_last_login (formatTime t)) (users db).
Proof.
  unfold EstablishSession, insert_security_event. intros Hop. inv_db.
  match goal with Hv : validateSessionExpiry _ _ = Ok _ |- _ => apply validateSessionExpiry_Ok in Hv end.
  unfold tokens_given in *. bool_hyps.
  match goal with Ha : active_user db uid = Some ?x |- _ => exists x end. split_and!; try done; lia.
Qed.

(** The session [row] is on file as it was opened, and its user is active. *)
Definition still_open (row : SessionRow) (userID : string) (db : DB) : Prop :=
  In row (sessions db)
  /\ exists u, In u (users db) /\ u_id u = s_user_id row /\ u_public_id u = userID /\ u_active u = true.
(** Such a session authenticates its user before the second of its expiry. *)
Lemma open_authenticates db r now row uid token e :
  user_inv db -> session_inv db -> still_open row uid db -> s_token_hash row = HashToken token -> blank token = false ->
  s_revoked_at row = None -> s_expires_at row = formatTime e -> four_digit_year e ->
  Cookie r sessionCookieName = Some token -> four_digit_year now -> Unix now < Unix e ->
  exists session, loadSession r now db = Ok session /\ User_of session = uid.
Proof.
  intros Hu Hs (Hrow & u & Hin & Huid & Hpub & Ha) Htok Hb Hrev Hexp He Hc Hn Hlt.
  unfold loadSession. rewrite Hc, Hb. destruct (AuthenticatedSession_ token now db) as [session|err] eqn:EA.
  - exists session. split; [done|]. apply AuthenticatedSession_Ok in EA as (s0 & u0 & Hs0 & Hu0 & Hl & Hid & _ & ->).
    unfold session_live in Hl. bool_hyps.
    assert (s0 = row) as ->.
    { apply (NoDup_map_inj_in s_token_hash (sessions db)); [apply Hs|done..|]. rewrite Htok. by apply String.eqb_eq. }
    assert (u0 = u) as -> by (apply (NoDup_map_inj_in u_id (users db)); [apply Hu|done..|congruence]). done.
  - exfalso. assert (is_ok (AuthenticatedSession_ token now db) = true) as Hok; [|by rewrite EA in Hok].
    eapply (AuthenticatedSession_complete token now db row u); try done.
    unfold session_live. rewrite Htok, Hrev, Hexp, String.eqb_refl. by apply formatTime_order.
Qed.
(** The session a login establishes. *)
Lemma established_open uid token csrf e t db u db' :
  user_inv db -> session_inv db -> four_digit_year e -> EstablishSession uid token csrf e t db = Ok (u, db') ->
  user_inv db' /\ session_inv db' /\ blank token = false /\ exists row, still_open row uid db'
    /\ s_token_hash row = HashToken token /\ s_revoked_at row = None /\ s_expires_at row = formatTime e.
Proof.
  intros Hu Hs He HE. pose proof (preserves_EstablishSession uid token csrf e t He db u db' HE Hs) as Hs'.
  pose proof (operation_user secretKey _ _ (op_EstablishSession secretKey uid token csrf e t He) db u db' HE Hu) as Hu'.
  apply EstablishSession_Ok in HE as (user & Hau & Hb & _ & _ & Hss & Hus).
  apply active_user_Some in Hau as (Hin & Hpub & Ha); [|done].
  do 3 (split; [done|]). exists (session_row (u_id user) token csrf t e (next_id (sessions db))).
  split; [|done]. split; [rewrite Hss; apply in_app_iff; right; by left|].
  exists (with_last_login (formatTime t) user). split; [|done]. rewrite Hus. apply in_update. exists user. by rewrite Z.eqb_refl.
Qed.

Lemma set_limiter_transact {A} (m : St DB error A) l s :
  transact m (set_limiter l s) = ((transact m s).1, set_limiter l (transact m s).2).
Proof. unfold transact, db_of. cbn. by destruct (m _) as [[]|]. Qed.
Lemma second_factor_limiter r id env l s :
  second_factor r id env (set_limiter l s) = ((second_factor r id env s).1, set_limiter l (second_factor r id env s).2).
Proof.
  unfold second_factor. destruct (TrimSpace (FormValue r "mfa_code") =s "").
  - cbn [negb andb]. destruct (_ =s ""); cbn [negb]; [done|]. apply set_limiter_transact.
  - rewrite set_limiter_transact. destruct (transact (VerifyMFA _ _ _ _) s) as [x s1]. cbn [fst snd].
    destruct (_ && _); [|done]. apply set_limiter_transact.
Qed.

Lemma first_factor_Some r db user :
  first_factor r db = Some user ->
  exists c, FindLoginCredential (login_email r) db = Some c /\ user = lc_User c
    /\ CheckPassword (password_hash (Some c)) (FormValue r "password") = true /\ User_Active user = true.
Proof.
  unfold first_factor. destruct (FindLoginCredential _ _) as [c|]; [|done].
  destruct (_ || _) eqn:E; [done|]. intros [= <-]. apply orb_false_iff in E as [H1%negb_false_iff H2%negb_false_iff].
  by exists c.
Qed.

(** The two ends of an attempt that opens a session. *)
Lemma establish_session uid key env s resp s' :
  establish uid key env s = (resp, s') -> sessions (db_of s') <> sessions (db_of s) ->
  exists token csrf, resp = setCookies (sessionCookies s token csrf) (Redirect "/account")
    /\ EstablishSession uid token csrf (en_now env + SessionTTL (sv_cfg s)) (en_now env) (db_of s) = Ok (tt, db_of s').
Proof.
  unfold establish. set (s0 := if RateLimitEnabled _ then _ else _).
  assert (db_of s0 = db_of s /\ sv_cfg s0 = sv_cfg s) as [Hdb Hcfg] by (unfold s0; by destruct (RateLimitEnabled _)).
  intros E Hne. destruct (NewOpaqueToken (en_raw env 0)) as [token|]; [|injection E as <- <-; by rewrite Hdb in Hne].
  destruct (NewOpaqueToken (en_raw env 1)) as [csrf|]; [|injection E as <- <-; by rewrite Hdb in Hne].
  apply store_call_cases in E as [([] & db' & HE & -> & ->)|(e & _ & -> & ->)]; [|by rewrite Hdb in Hne].
  exists token, csrf. rewrite Hcfg, Hdb in HE. split; [|done]. unfold sessionCookies. by rewrite Hcfg.
Qed.

Lemma Logout_revokes token uid t db u db' x :
  session_inv db -> RevokeSessionAndRecordLogout token uid t db = Ok (u, db') ->
  In x (sessions db') -> s_token_hash x = HashToken token -> s_revoked_at x <> None.
Proof.
  intros Hs HR. unfold RevokeSessionAndRecordLogout, insert_security_event in HR. inv_db.
  match goal with Hn : (count ?p _ =? 1) = true |- _ => set (owned := p) in * end. cbn [sessions set_sessions set_security_events].
  intros (y & Hy & ->)%in_update Hh.
  assert (exists z, In z (sessions db) /\ owned z = true) as (z & Hz & Ho).
  { destruct (select owned (sessions db)) as [|z l] eqn:E.
    - match goal with Hn : (count owned _ =? 1) = true |- _ => unfold count in Hn; by rewrite E in Hn end.
    - exists z. apply filter_In. unfold select in E. rewrite E. by left. }
  assert (s_token_hash z = HashToken token) as Hzt.
  { unfold owned in Ho. apply andb_true_iff in Ho as [Ho _]. by apply String.eqb_eq. }
  assert (y = z) as ->.
  { apply (NoDup_map_inj_in s_token_hash (sessions db)); [apply Hs|done..|]. rewrite Hzt, <-Hh. by destruct (owned y). }
  rewrite Ho. cbn. by destruct (s_revoked_at z).
Qed.

Lemma RecordSecurityEvent_known r event details t db :
  exists db', RecordSecurityEvent (option_map (fun c => User_ID (lc_User c)) (FindLoginCredential (login_email r) db))
    event details t db = Ok (tt, db').
Proof.
  unfold FindLoginCredential, RecordSecurityEvent, insert_security_event.
  destruct (find (email_is _) (users db)) as [row|] eqn:E; cbn [option_map lc_User]; [|by eexists].
  destruct (negb _); [|by eexists]. unfold bind, reads. cbn.
  destruct (find (has_public_id (u_public_id row)) (users db)) eqn:F; [by eexists|].
  apply find_some in E as [Hin _]. pose proof (find_none _ _ F _ Hin) as Hn. unfold has_public_id in Hn.
  by rewrite String.eqb_refl in Hn.
Qed.

(** ** Claims *)

(** C6: a login opens a session only for a user whose password was given, whose
    account is active and, with MFA enabled, whose second factor was accepted,
    and only for a form with the token of the login cookie. The session's cookie
    then authenticates that user before the second of the session's expiry: in the
    store the login leaves, and in every consistent store that still holds the session
    as it was opened (it was not revoked or cleaned up) and that user as active. *)
Theorem login_session r env s resp s' :
  user_inv (db_of s) -> session_inv (db_of s) -> four_digit_year (en_now env + SessionTTL (sv_cfg s)) ->
  login r env s = (resp, s') -> sessions (db_of s') <> sessions (db_of s) ->
  login_csrf r = true /\ exists c user token csrf row,
    FindLoginCredential (login_email r) (db_of s) = Some c /\ user = lc_User c /\ User_Active user = true
    /\ CheckPassword (password_hash (Some c)) (FormValue r "password") = true
    /\ (User_MFAEnabled user = true -> (second_factor r (User_ID user) env s).1 = Ok true)
    /\ resp = setCookies (sessionCookies s token csrf) (Redirect "/account")
    /\ user_inv (db_of s') /\ session_inv (db_of s') /\ still_open row (User_ID user) (db_of s')
    /\ (forall db r' now, user_inv db -> session_inv db -> still_open row (User_ID user) db ->
          Cookie r' sessionCookieName = Some token -> four_digit_year now ->
          Unix now < Unix (en_now env + SessionTTL (sv_cfg s)) ->
          exists session, loadSession r' now db = Ok session /\ User_of session = User_ID user).
Proof.
  intros Hu Hs He HL Hne. unfold login in HL. destruct (rq_FormOk r); [|by injection HL as <- <-].
  destruct (login_csrf r); [|by injection HL as <- <-]. cbn [negb] in HL. split; [done|].
  assert (exists l, attempt r env (set_limiter l s) = (resp, s')) as [l HA].
  { destruct (RateLimitEnabled _); [|exists (sv_limiter s); by destruct s].
    destruct (RetryAfter _ _ _) as [[d []] l]; [by injection HL as <- <-|by exists l]. }
  clear HL. unfold attempt in HA. change (db_of (set_limiter l s)) with (db_of s) in HA.
  destruct (first_factor r (db_of s)) as [user|] eqn:EF; [|by apply reject_login_sessions in HA].
  assert (exists s1, user_inv (db_of s1) /\ sessions (db_of s1) = sessions (db_of s) /\ sv_cfg s1 = sv_cfg s
    /\ (User_MFAEnabled user = true -> (second_factor r (User_ID user) env s).1 = Ok true)
    /\ establish (User_ID user) (login_key r) env s1 = (resp, s')) as (s1 & Hu1 & Hs1 & Hc1 & Hmfa & HE).
  { destruct (User_MFAEnabled user); [|by exists (set_limiter l s)].
    destruct (second_factor r (User_ID user) env (set_limiter l s)) as [[[]|] s1] eqn:E2;
      pose proof (second_factor_sessions _ _ _ _ _ _ E2) as [Hs1 Hc1]; [| |by injection HA as <- <-].
    - exists s1. split_and!; try done; [|by rewrite second_factor_limiter in E2; injection E2].
      replace s1 with (second_factor r (User_ID user) env (set_limiter l s)).2 by (by rewrite E2).
      apply second_factor_users, Hu.
    - apply reject_login_sessions in HA. exfalso. apply Hne. by rewrite HA, Hs1. }
  apply establish_session in HE as (token & csrf & -> & HE); [|congruence].
  apply first_factor_Some in EF as (c & Hf & -> & Hpw & Ha). rewrite Hc1 in HE.
  apply established_open in HE as (Hu' & Hs' & Hb & row & Hopen & Htok & Hrev & Hexp); [|exact Hu1|unfold session_inv; by rewrite Hs1|exact He].
  exists c, (lc_User c), token, csrf, row.
  split_and!; try done; [unfold sessionCookies; by rewrite Hc1|].
  intros db r' now Hud Hsd Hod Hck Hny Hlt. by eapply open_authenticates.
Qed.

(** A rejected login does not say why. Whether the account does not exist,
    is not active, or the password is wrong, in whatever state of the store, the
    response is the same and so is the limiter afterwards. *)
Theorem login_rejections_alike r env s1 s2 :
  sv_cfg s1 = sv_cfg s2 -> sv_limiter s1 = sv_limiter s2 ->
  first_factor r (db_of s1) = None -> first_factor r (db_of s2) = None ->
  (login r env s1).1 = (login r env s2).1 /\ sv_limiter (login r env s1).2 = sv_limiter (login r env s2).2.
Proof.
  intros Hc Hl H1 H2.
  assert (forall l, (attempt r env (set_limiter l s1)).1 = (attempt r env (set_limiter l s2)).1
    /\ sv_limiter (attempt r env (set_limiter l s1)).2 = sv_limiter (attempt r env (set_limiter l s2)).2) as HA.
  { intros l. unfold attempt. change (db_of (set_limiter l ?s)) with (db_of s). rewrite H1, H2.
    unfold reject_login, transact. change (db_of (set_limiter l ?s)) with (db_of s).
    destruct (RecordSecurityEvent_known r "failed_login" "credentials rejected" (en_now env) (db_of s1)) as [d1 ->].
    destruct (RecordSecurityEvent_known r "failed_login" "credentials rejected" (en_now env) (db_of s2)) as [d2 ->].
    cbn [sv_cfg sv_limiter set_db set_store set_limiter]. rewrite Hc.
    destruct (RateLimitEnabled _); [|done]. by destruct (RecordFailure _ _ _ _) as [[? []] ?]. }
  unfold login. destruct (rq_FormOk r); [|done]. destruct (login_csrf r); [|done]. cbn [negb].
  rewrite Hc, Hl. destruct (RateLimitEnabled _).
  - destruct (RetryAfter _ _ _) as [[? []] l]; [done|apply HA].
  - specialize (HA (sv_limiter s1)). rewrite Hl in HA at 2. rewrite Hl in HA at 3. destruct s1, s2. cbn in *. subst. done.
Qed.

(** While the limiter blocks the address and account of a login, the attempt
    is answered with 429 and the whole seconds until the block ends, rounded
    up, and the store is not touched: no password is checked. *)
Theorem login_throttled r env s entry :
  RateLimitEnabled (sv_cfg s) = true -> rq_FormOk r = true -> login_csrf r = true ->
  entries (pruneLocked (sv_limiter s) (en_now env)) !! login_key r = Some entry ->
  en_now env < blockedUntil entry < en_now env + 2 ^ 62 ->
  exists n l, login r env s = (setHeaders [("Retry-After", FormatInt n)] (http_Error "too many login attempts" 429),
                               set_limiter l s)
    /\ (n - 1) * Second < blockedUntil entry - en_now env <= n * Second.
Proof.
  intros Hr Hf Hc He Hb. unfold login. rewrite Hr, Hf, Hc. cbn [negb]. unfold RetryAfter. rewrite He.
  assert (Before (en_now env) (blockedUntil entry) = true) as -> by (unfold Before; lia). cbn [negb].
  eexists _, _. split; [unfold renderLoginThrottle; reflexivity|].
  assert (Sub (blockedUntil entry) (en_now env) = blockedUntil entry - en_now env) as ->
    by (unfold Sub, int64_min, int64_max; lia).
  unfold wrap64. rewrite Z.mod_small by (unfold Second; lia).
  set (d := blockedUntil entry - en_now env) in *. rewrite Z.quot_div_nonneg by (unfold Second in *; lia).
  destruct (Z.ltb_spec ((d + Second - 1 + 2 ^ 63 - 2 ^ 63) / Second) 1); unfold Second in *; Z.to_euclidean_division_equations; lia.
Qed.

(** Logging out ends the session: the cookie that logged out is accepted for
    no request afterwards, at any time. *)
Theorem logout_ends_session r env session s resp s' r' now :
  session_inv (db_of s) -> logout r env session s = (resp, s') -> rs_Status resp = 303 ->
  Cookie r' sessionCookieName = Cookie r sessionCookieName -> loadSession r' now (db_of s') = Err NoRows.
Proof.
  intros Hs HL H303 Hc. unfold logout in HL. destruct (rq_FormOk r); [|by injection HL as <- <-]. cbn [negb] in HL.
  unfold loadSession. rewrite Hc. destruct (Cookie r sessionCookieName) as [token|]; [|by injection HL as <- <-].
  destruct (VerifySessionCSRF _ _ _) as [[]|]; try by injection HL as <- <-.
  apply store_call_cases in HL as [([] & db' & HR & _ & ->)|(e & _ & -> & _)]; [|done]. change (db_of (set_db db' s)) with db'.
  destruct (blank token); [done|]. destruct (AuthenticatedSession_ token now db') as [a|err] eqn:EA.
  - apply AuthenticatedSession_Ok in EA as (s0 & u0 & Hin & _ & Hl & _). unfold session_live in Hl. bool_hyps.
    eapply Logout_revokes in HR; [|exact Hs|exact Hin|by apply String.eqb_eq]. by destruct (s_revoked_at s0).
  - unfold AuthenticatedSession_ in EA. by destruct (flat_map _ _) as [|[] ?]; [injection EA as <-|].
Qed.

End Login.

(** ** Witnesses *)

(** The user of [sample_db] signs in on a server that limits the rate. *)
Module SignIn.
Definition config : Config :=
  mkConfig true false (12 * Hour) true (mkLoginLimiterConfig 0 0 0 0 0) None 0 ∅ ∅ ∅.
Definition server : Server := NewServer (mkReadStore sample_db [] [] [] []) config.
Definition csrf_token := "login-token".
Definition form (email password : string) : Request :=
  mkRequest "POST" "/login" "/login" "" (fun _ => "") [(loginCSRFCookie, csrf_token)] "10.0.0.1:4711" (Some "") true
    [("csrf", csrf_token); ("email", email); ("password", password)] true.
Definition at_time (t : Z) : Env :=
  mkEnv t t t (fun _ => Some "id") (fun n => Some (fit 32 (FormatInt (Z.of_nat n)))) (fun l => l) (fun _ => "")
    (Err (Text "rand")) "" (fun _ => "") (fun _ => "").
Definition session_cookie (token : string) : Request :=
  mkRequest "POST" "/logout" "/logout" "" (fun _ => "") [(sessionCookieName, token)] "10.0.0.1:4711" (Some "") true
    [("csrf", "csrf")] true.
#[export] Existing Instances ascii_tables toy_crypto.
Definition good := form " A@Example.com" "correct horse battery".
Definition bad := form "a@example.com" "wrong horse battery".
Definition unknown := form "b@example.com" "correct horse battery".
Definition served (r : Request) (t : Z) : Server -> Server := fun s => (login "key" r (at_time t) s).2.
(** Eight wrong passwords from one address. *)
Definition attacked : Server := fold_left (fun s n => served bad (n * Second) s) (seqZ 100 8) server.
(** The user of the session with token [token-2]. *)
Definition signed_in : AuthenticatedSession :=
  match loadSession (session_cookie "token-2") (100 * Second) sample_db with
  | Ok session => session
  | Err _ => mkAuthenticatedSession (mkSession "" "" 0) (mkUser "" "" "" "" false false 0 None)
  end.
End SignIn.

Lemma signin_users : user_inv (db_of SignIn.server).
Proof. split; [unfold ids_unique|]; by_computation. Qed.

Lemma login_session_witness :
  exists session, loadSession (H:=toy_crypto) (SignIn.session_cookie (b64_encode (fit 32 "0"))) (200 * Second)
      (db_of (SignIn.served SignIn.good (100 * Second) SignIn.server)) = Ok session /\ User_of session = "usr_1".
Proof.
  pose (first := login (H:=ascii_tables) (H0:=toy_crypto) "key" SignIn.good (SignIn.at_time (100 * Second)) SignIn.server).
  destruct (login_session (H:=ascii_tables) (H0:=toy_crypto) "key" SignIn.good (SignIn.at_time (100 * Second))
    SignIn.server first.1 first.2) as (_ & c & user & token & csrf & row & Hf & Hu & _ & _ & _ & Hr & Hui & Hsi & Ho & Hs).
  - exact signin_users.
  - exact sample_session_inv.
  - unfold four_digit_year. vm_compute. intuition discriminate.
  - apply surjective_pairing.
  - intros E. apply (f_equal (@List.length _)) in E. vm_compute in E. discriminate E.
  - vm_compute in Hf. injection Hf as <-. rewrite Hu in Hs, Ho. apply (Hs _ (SignIn.session_cookie (b64_encode (fit 32 "0"))) (200 * Second) Hui Hsi Ho).
    + change (Some (b64_encode (fit 32 "0")) = Some token).
      assert (Some (b64_encode (fit 32 "0")) = option_map ck_Value (head (rs_Cookies first.1))) as ->
        by (vm_compute; reflexivity).
      rewrite Hr. reflexivity.
    + unfold four_digit_year. vm_compute. intuition discriminate.
    + apply Z.ltb_lt. vm_compute. reflexivity.
Defined.

(** A wrong password and an unknown account, on two databases. *)
Lemma login_rejections_alike_witness :
  (login (H:=ascii_tables) (H0:=toy_crypto) "key" SignIn.bad (SignIn.at_time (100 * Second)) SignIn.server).1
  = (login (H:=ascii_tables) (H0:=toy_crypto) "key" SignIn.bad (SignIn.at_time (100 * Second))
       (set_db empty_db SignIn.server)).1.
Proof.
  apply (login_rejections_alike (H:=ascii_tables) (H0:=toy_crypto) "key" SignIn.bad (SignIn.at_time (100 * Second))
    SignIn.server (set_db empty_db SignIn.server)); vm_compute; reflexivity.
Defined.

(** The right password while eight wrong ones block the address. *)
Lemma login_throttled_witness :
  rs_Status (login (H:=ascii_tables) (H0:=toy_crypto) "key" SignIn.good (SignIn.at_time (108 * Second)) SignIn.attacked).1
  = 429.
Proof.
  destruct (login_throttled (H:=ascii_tables) (H0:=toy_crypto) "key" SignIn.good (SignIn.at_time (108 * Second))
    SignIn.attacked (mkLoginEntry 6 (110 * Second) (107 * Second))) as (n & l & -> & _).
  - vm_compute. reflexivity.
  - reflexivity.
  - vm_compute. reflexivity.
  - vm_compute. reflexivity.
  - split; apply Z.ltb_lt; vm_compute; reflexivity.
  - reflexivity.
Defined.

Lemma logout_ends_session_witness :
  is_ok (loadSession (H:=toy_crypto) (SignIn.session_cookie "token-2") (150 * Second) (db_of SignIn.server)) = true
  /\ loadSession (H:=toy_crypto) (SignIn.session_cookie "token-2") (150 * Second)
       (db_of (logout (H0:=toy_crypto) (SignIn.session_cookie "token-2") (SignIn.at_time (100 * Second))
                 SignIn.signed_in SignIn.server).2) = Err NoRows.
Proof.
  split; [vm_compute; reflexivity|].
  apply (logout_ends_session (H0:=toy_crypto) (SignIn.session_cookie "token-2") (SignIn.at_time (100 * Second))
    SignIn.signed_in SignIn.server
    (logout (H0:=toy_crypto) (SignIn.session_cookie "token-2") (SignIn.at_time (100 * Second)) SignIn.signed_in SignIn.server).1).
  - exact sample_session_inv.
  - apply surjective_pairing.
  - vm_compute. reflexivity.
  - reflexivity.
Defined.
