(* ===== verification/Api.v ===== *)
(** internal/platform/http/server.go, the JSON API behind requireSession: the
    request and response structs and one handler per route. URL parameters are
    arguments; [session] is the session requireSession put in the context. *)
From stdpp Require Import base tactics option list gmap strings.
From Stdlib Require Import ZArith Lia Ascii String.
From S2P Require Import Prelude GoStrings GoTime Codec Errors Domain Json Schema Outbox Auth Assertion Identity.
From S2P Require Import Organisation Access Workspace Product Url Snapshot Http.

Local Open Scope string_scope.
Local Open Scope Z_scope.

(** ** Requests *)
Record organisationCreateRequest := mkOrganisationCreate { ocr_Name : string; ocr_Reason : string }.
Record workspaceCreateRequest := mkWorkspaceCreate { wcr_Name : string; wcr_Reason : string }.
Record organisationRenameRequest := mkOrganisationRename { orr_Name : string; orr_Reason : string }.
Record organisationMemberMutationRequest := mkMemberMutation { omm_UserID : string; omm_Role : string; omm_Reason : string }.
Record organisationReasonRequest := mkReason { reason_Reason : string }.
Record productEntitlementRequest := mkProductEntitlement { per_ProductKey : string; per_Reason : string }.
Record productAssignmentRequest := mkProductAssignment { par_UserID : string; par_ProductKey : string; par_Reason : string }.
Record productAssertionRequest := mkProductAssertion { asr_Audience : string }.

Definition two_strings {A} (mk : string -> string -> A) (k1 k2 : string) (body : option string) : option A :=
  decodeJSON [k1; k2] (fun l => let? a := string_field l k1 in let? b := string_field l k2 in Ok (mk a b)) body.
Definition one_string {A} (mk : string -> A) (k : string) (body : option string) : option A :=
  decodeJSON [k] (fun l => let? a := string_field l k in Ok (mk a)) body.
Definition three_strings {A} (mk : string -> string -> string -> A) (k1 k2 k3 : string) (body : option string) : option A :=
  decodeJSON [k1; k2; k3] (fun l => let? a := string_field l k1 in let? b := string_field l k2 in
    let? c := string_field l k3 in Ok (mk a b c)) body.
Definition read_organisationCreate := two_strings mkOrganisationCreate "name" "reason".
Definition read_workspaceCreate := two_strings mkWorkspaceCreate "name" "reason".
Definition read_organisationRename := two_strings mkOrganisationRename "name" "reason".
Definition read_memberMutation := three_strings mkMemberMutation "user_id" "role" "reason".
Definition read_reason := one_string mkReason "reason".
Definition read_productEntitlement := two_strings mkProductEntitlement "product_key" "reason".
Definition read_productAssignment := three_strings mkProductAssignment "user_id" "product_key" "reason".
Definition read_productAssertion := one_string mkProductAssertion "audience".

(** ** Responses *)
Definition organisationResponseFromDomain (o : Organisation) : json :=
  JObject ([("id", JString (Organisation_ID o)); ("name", JString (Organisation_Name o));
            ("status", JString (Organisation_Status o)); ("created_at", jtime (Organisation_CreatedAt o))]
           ++ opt_time "archived_at" (Organisation_ArchivedAt o)).
Definition workspaceResponseFromDomain (w : Workspace) : json :=
  JObject ([("id", JString (Workspace_ID w)); ("organisation_id", JString (Workspace_OrganisationID w));
            ("name", JString (Workspace_Name w)); ("status", JString (Workspace_Status w));
            ("created_at", jtime (Workspace_CreatedAt w))] ++ opt_time "archived_at" (Workspace_ArchivedAt w)).
Definition productResponseFromDomain (p : Product) : json :=
  JObject ([("key", JString (Product_Key p)); ("display_name", JString (Product_DisplayName p));
            ("status", JString (Product_Status p)); ("created_at", jtime (Product_CreatedAt p))]
           ++ opt_time "retired_at" (Product_RetiredAt p)).
Definition organisationProductEntitlementResponseFromDomain (e : OrganisationProductEntitlement) : json :=
  JObject ([("id", JString (Ent_ID e)); ("organisation_id", JString (Ent_OrganisationID e));
            ("product_key", JString (Ent_ProductKey e)); ("status", JString (Ent_Status e));
            ("active", JBool (Ent_Active e)); ("granted_by", JString (Ent_GrantedBy e));
            ("granted_at", jtime (Ent_GrantedAt e))]
           ++ opt_string "revoked_by" (Ent_RevokedBy e) ++ opt_time "revoked_at" (Ent_RevokedAt e)
           ++ opt_string "revocation_reason" (Ent_RevocationReason e)).
Definition userProductAssignmentResponseFromDomain (a : UserProductAssignment) : json :=
  JObject ([("id", JString (Asg_ID a)); ("user_id", JString (Asg_UserID a));
            ("organisation_id", JString (Asg_OrganisationID a)); ("product_key", JString (Asg_ProductKey a));
            ("status", JString (Asg_Status a)); ("active", JBool (Asg_Active a));
            ("assigned_by", JString (Asg_AssignedBy a)); ("assigned_at", jtime (Asg_AssignedAt a))]
           ++ opt_string "revoked_by" (Asg_RevokedBy a) ++ opt_time "revoked_at" (Asg_RevokedAt a)
           ++ opt_string "revocation_reason" (Asg_RevocationReason a)).
Definition organisationMemberResponse (m : OrganisationMemberRecord) : json :=
  JObject [("membership_id", JString (omr_MembershipID m)); ("organisation_id", JString (omr_OrganisationID m));
           ("user_id", JString (omr_UserID m)); ("email", JString (omr_Email m));
           ("display_name", JString (omr_DisplayName m)); ("role", JString (omr_Role m));
           ("assigned_at", jtime (omr_AssignedAt m))].
Definition organisationMembershipResponse (m : OrganisationMembership) : json :=
  organisationMemberResponse
    (mkOrganisationMemberRecord (OM_ID m) (OM_OrganisationID m) (OM_UserID m) "" "" (OM_Role m) (OM_AssignedAt m)).
Definition organisationAuditResponse (e : OrganisationAuditRecord) : json :=
  JObject [("id", jint (oar_ID e)); ("organisation_id", JString (oar_OrganisationID e));
           ("actor_user_id", JString (oar_ActorUserID e)); ("event", JString (oar_Event e));
           ("details", JString (oar_Details e)); ("occurred_at", jtime (oar_OccurredAt e))].
Definition workspaceMemberResponse (m : WorkspaceMemberRecord) : json :=
  JObject ([("membership_id", JString (wmr_MembershipID m)); ("workspace_id", JString (wmr_WorkspaceID m));
            ("user_id", JString (wmr_UserID m))]
           ++ opt_string "email" (wmr_Email m) ++ opt_string "display_name" (wmr_DisplayName m)
           ++ [("role", JString (wmr_Role m)); ("assigned_at", jtime (wmr_AssignedAt m))]).
Definition workspaceMembershipResponse (m : WorkspaceMembership) : json :=
  workspaceMemberResponse
    (mkWorkspaceMemberRecord (WM_ID m) (WM_WorkspaceID m) (WM_UserID m) "" "" (WM_Role m) (WM_AssignedAt m)).
Definition workspaceAuditResponse (e : WorkspaceAuditRecord) : json :=
  JObject [("id", jint (war_ID e)); ("workspace_id", JString (war_WorkspaceID e));
           ("actor_user_id", JString (war_ActorUserID e)); ("event", JString (war_Event e));
           ("details", JString (war_Details e)); ("occurred_at", jtime (war_OccurredAt e))].
Definition organisationWorkspaceEntryResponse (e : OrganisationWorkspaceEntry) : json :=
  JObject ([("organisation_id", JString (owe_OrganisationID e)); ("resource", JString (owe_Resource e));
            ("available", JBool (owe_Available e))]
           ++ opt_string "default_workspace_id" (owe_DefaultWorkspaceID e)
           ++ [("workspaces", JArray (map workspaceResponseFromDomain (owe_Workspaces e)))]).
Definition productAccessResponse (a : ProductAccess) : json :=
  JObject [("allowed", JBool true); ("user_id", JString (pa_UserID a));
           ("organisation_id", JString (pa_OrganisationID a)); ("product_key", JString (pa_ProductKey a));
           ("workspace_id", JString (pa_WorkspaceID a)); ("organisation_role", JString (pa_OrganisationRole a));
           ("workspace_role", JString (pa_WorkspaceRole a))].
Definition productAssertionResponse (token : string) (c : Assertion.Claims) : json :=
  JObject [("assertion", JString token); ("assertion_version", jint (Assertion.cl_AssertionVersion c));
           ("issued_at", jtime (Assertion.cl_IssuedAt c)); ("expires_at", jtime (Assertion.cl_ExpiresAt c))].
Definition assertionKeyResponse (k : Assertion.VerificationKey) : json :=
  JObject [("key_id", JString (Assertion.vk_KeyID k)); ("algorithm", JString (Assertion.vk_Algorithm k));
           ("public_key", JString (b64_encode (Assertion.vk_PublicKey k)))].

(** limit=, at most 100 and 50 by default. *)
Definition audit_limit (r : Request) : option Z :=
  let value := TrimSpace (Query r "limit") in
  match (if value =s "" then Some 50 else ParseInt value) with
  | Some n => if (n <? 1) || (100 <? n) then None else Some n
  | None => None
  end.
Definition invalid_limit : Response := http_Error "invalid limit" 400.

Section Api.
Context `{UnicodeTables} `{Crypto} `{Ed25519}.
Variables (r : Request) (env : Env) (session : AuthenticatedSession).

(** The start of every mutation: the CSRF check, then the body. *)
Definition mutation {A} (read : option string -> option A) (next : A -> handler) : handler := fun s =>
  if negb (verifyMutationCSRF r (db_of s)) then (csrf_rejected, s) else
  match read (body_after_csrf r) with
  | None => (invalid_request, s)
  | Some request => next request s
  end.
Definition no_content {A} (_ : A) : Response := WriteHeader 204.

(** ** Organisations *)
Definition createOrganisation : handler := mutation read_organisationCreate (fun q =>
  store_call (CreateOrganisation (User_of session) (mkOrganisation "" (ocr_Name q) "" zero_time None) (ocr_Reason q)
                (en_now env) (en_rng env))
    writeOrganisationError (fun x => writeJSON 201 (organisationResponseFromDomain (fst x)))).
Definition getOrganisation (organisationID : string) : handler :=
  store_read (GetOrganisation (User_of session) organisationID)
    writeOrganisationError (fun o => writeJSON 200 (organisationResponseFromDomain o)).
Definition listOrganisationMembers (organisationID : string) : handler :=
  store_read (ListOrganisationMembers (User_of session) organisationID)
    writeOrganisationError (fun l => writeJSON 200 (JArray (map organisationMemberResponse l))).
Definition listOrganisationAudit (organisationID : string) : handler :=
  match audit_limit r with
  | None => answer invalid_limit
  | Some n => store_read (ListOrganisationAudit (User_of session) organisationID n)
                writeOrganisationError (fun l => writeJSON 200 (JArray (map organisationAuditResponse l)))
  end.
Definition getOrganisationWorkspaceEntry (organisationID : string) : handler :=
  store_read (GetOrganisationWorkspaceEntry (User_of session) organisationID)
    writeOrganisationError (fun e => writeJSON 200 (organisationWorkspaceEntryResponse e)).
Definition renameOrganisation (organisationID : string) : handler := mutation read_organisationRename (fun q =>
  store_call (RenameOrganisation (User_of session) organisationID (orr_Name q) (orr_Reason q) (en_now env) (en_rng env))
    writeOrganisationError (fun o => writeJSON 200 (organisationResponseFromDomain o))).
Definition addOrganisationMember (organisationID : string) : handler := mutation read_memberMutation (fun q =>
  store_call (AddOrganisationMember (User_of session) organisationID (TrimSpace (omm_UserID q))
                (TrimSpace (omm_Role q)) (omm_Reason q) (en_now env) (en_rng env))
    writeOrganisationError (fun m => writeJSON 201 (organisationMembershipResponse m))).
Definition changeOrganisationMemberRole (organisationID userID : string) : handler := mutation read_memberMutation (fun q =>
  store_call (ChangeOrganisationMemberRole (User_of session) organisationID userID (TrimSpace (omm_Role q))
                (omm_Reason q) (en_now env) (en_rng env))
    writeOrganisationError (fun m => writeJSON 200 (organisationMembershipResponse m))).
Definition deactivateOrganisationMember (organisationID userID : string) : handler := mutation read_reason (fun q =>
  store_call (DeactivateOrganisationMember (User_of session) organisationID userID (reason_Reason q) (en_now env)
                (en_rng env)) writeOrganisationError no_content).
Definition archiveOrganisation (organisationID : string) : handler := mutation read_reason (fun q =>
  store_call (ArchiveOrganisation (User_of session) organisationID (reason_Reason q) (en_now env) (en_rng env))
    writeOrganisationError no_content).

(** ** Workspaces *)
Definition createWorkspace (organisationID : string) : handler := mutation read_workspaceCreate (fun q =>
  store_call (CreateWorkspace (User_of session) organisationID (mkWorkspace "" "" (wcr_Name q) "" zero_time None)
                (wcr_Reason q) (en_now env) (en_rng env))
    writeWorkspaceError (fun x => writeJSON 201 (workspaceResponseFromDomain (fst x)))).
Definition listOrganisationWorkspaces (organisationID : string) : handler :=
  store_read (ListOrganisationWorkspaces (User_of session) organisationID)
    writeWorkspaceError (fun l => writeJSON 200 (JArray (map workspaceResponseFromDomain l))).
(** The handlers below this check run only for a proved scope. *)
Definition requireWorkspaceScope (adminOnly : bool) (workspaceID : string) (next : handler) : handler := fun s =>
  match ProveWorkspaceScope (db_of s) (User_of session) workspaceID adminOnly with
  | Err e => (if errors_Is e ErrAccessScopeDenied then http_Error (StatusText 404) 404 else serverError, s)
  | Ok _ => next s
  end.
Definition getWorkspace (workspaceID : string) : handler :=
  store_read (GetWorkspace (User_of session) workspaceID)
    writeWorkspaceError (fun w => writeJSON 200 (workspaceResponseFromDomain w)).
Definition listWorkspaceMembers (workspaceID : string) : handler :=
  store_read (ListWorkspaceMembers (User_of session) workspaceID)
    writeWorkspaceError (fun l => writeJSON 200 (JArray (map workspaceMemberResponse l))).
Definition listWorkspaceAudit (workspaceID : string) : handler :=
  match audit_limit r with
  | None => answer invalid_limit
  | Some n => store_read (ListWorkspaceAudit (User_of session) workspaceID n)
                writeWorkspaceError (fun l => writeJSON 200 (JArray (map workspaceAuditResponse l)))
  end.
Definition addWorkspaceMember (workspaceID : string) : handler := mutation read_memberMutation (fun q =>
  store_call (AddWorkspaceMember (User_of session) workspaceID (TrimSpace (omm_UserID q)) (TrimSpace (omm_Role q))
                (omm_Reason q) (en_now env) (en_rng env))
    writeWorkspaceError (fun m => writeJSON 201 (workspaceMembershipResponse m))).
Definition changeWorkspaceMemberRole (workspaceID userID : string) : handler := mutation read_memberMutation (fun q =>
  store_call (ChangeWorkspaceMemberRole (User_of session) workspaceID userID (TrimSpace (omm_Role q)) (omm_Reason q)
                (en_now env) (en_rng env))
    writeWorkspaceError (fun m => writeJSON 200 (workspaceMembershipResponse m))).
Definition deactivateWorkspaceMember (workspaceID userID : string) : handler := mutation read_reason (fun q =>
  store_call (DeactivateWorkspaceMember (User_of session) workspaceID userID (reason_Reason q) (en_now env) (en_rng env))
    writeWorkspaceError no_content).
Definition archiveWorkspace (workspaceID : string) : handler := mutation read_reason (fun q =>
  store_call (ArchiveWorkspace (User_of session) workspaceID (reason_Reason q) (en_now env) (en_rng env))
    writeWorkspaceError no_content).

(** ** Products *)
Definition listProducts : handler :=
  store_read (ListProducts (User_of session))
    writeProductError (fun l => writeJSON 200 (JArray (map productResponseFromDomain l))).
Definition retireProduct (productKey : string) : handler := mutation read_reason (fun q =>
  store_call (RetireProduct (User_of session) productKey (reason_Reason q) (en_now env) (en_rng env))
    writeProductError no_content).
Definition listOrganisationProductEntitlements (organisationID : string) : handler :=
  store_read (ListOrganisationProductEntitlements (User_of session) organisationID)
    writeProductError (fun l => writeJSON 200 (JArray (map organisationProductEntitlementResponseFromDomain l))).
Definition entitleOrganisation (organisationID : string) : handler := mutation read_productEntitlement (fun q =>
  store_call (EntitleOrganisation (User_of session) organisationID (per_ProductKey q) (per_Reason q) (en_now env)
                (en_rng env))
    writeProductError (fun e => writeJSON 201 (organisationProductEntitlementResponseFromDomain e))).
Definition revokeOrganisationEntitlement (organisationID entitlementID : string) : handler := mutation read_reason (fun q =>
  store_call (RevokeOrganisationEntitlement (User_of session) organisationID entitlementID (reason_Reason q)
                (en_now env) (en_rng env)) writeProductError no_content).
Definition listUserProductAssignments (organisationID : string) : handler :=
  store_read (ListUserProductAssignments (User_of session) organisationID)
    writeProductError (fun l => writeJSON 200 (JArray (map userProductAssignmentResponseFromDomain l))).
Definition assignUserProduct (organisationID : string) : handler := mutation read_productAssignment (fun q =>
  store_call (AssignUserProduct (User_of session) organisationID (par_UserID q) (par_ProductKey q) (par_Reason q)
                (en_now env) (en_rng env))
    writeProductError (fun a => writeJSON 201 (userProductAssignmentResponseFromDomain a))).
Definition revokeUserProduct (organisationID assignmentID : string) : handler := mutation read_reason (fun q =>
  store_call (RevokeUserProduct (User_of session) organisationID assignmentID (reason_Reason q) (en_now env)
                (en_rng env)) writeProductError no_content).
Definition proveProductAccess (organisationID productKey workspaceID : string) : handler :=
  store_read (ProveProductAccess (User_of session) organisationID productKey workspaceID)
    writeProductError (fun a => writeJSON 200 (productAccessResponse a)).

(** ** Assertions *)
Definition issueProductAssertion (organisationID productKey workspaceID : string) : handler :=
  mutation read_productAssertion (fun q s =>
    match AssertionIssuer (sv_cfg s) with
    | None => (http_Error "service unavailable" 503, s)
    | Some issuer =>
        match ProveProductAccess (User_of session) organisationID productKey workspaceID (db_of s) with
        | Err e => (writeProductError e, s)
        | Ok access =>
            match Assertion.Issue issuer
                    (Assertion.mkIssueRequest (asr_Audience q) (pa_UserID access) (pa_OrganisationID access)
                       (pa_WorkspaceID access) 0) (en_now env) (en_now env) (en_raw env 0) with
            | Err e => (writeProductError e, s)
            | Ok (token, claims) => (writeJSON 201 (productAssertionResponse token claims), s)
            end
        end
    end).
Definition assertionKeys : handler := fun s =>
  match AssertionIssuer (sv_cfg s) with
  | None => (http_Error "service unavailable" 503, s)
  | Some issuer => (writeJSON 200 (JArray (map assertionKeyResponse (Assertion.PublicKeys issuer))), s)
  end.
End Api.
