(* ===== verification/Ui.v ===== *)
(** internal/platform/http/platform_ui.go and admin_ui.go: the launcher, the
    hand-over to a product, the administration pages and their forms, behind
    requireSession. *)
From stdpp Require Import base tactics option list gmap strings.
From Stdlib Require Import ZArith Lia Ascii String.
From S2P Require Import Prelude GoStrings GoTime Errors Domain Json Schema Outbox Auth Assertion Identity.
From S2P Require Import Organisation Access Workspace Product Url Snapshot Pages Http.

Local Open Scope string_scope.
Local Open Scope Z_scope.

(** ** admin_ui.go: labels and page rows *)
Definition adminFlash (status : string) : string :=
  if status =s "saved" then "Platform administration change saved."
  else if status =s "created" then "Platform record created." else "".
Definition organisationRoleLabel (role : string) (systemAdmin : bool) : string :=
  if systemAdmin then "System administrator" else if role =s "" then "Organisation member" else role.
Definition workspaceRoleLabel (workspaceRole organisationRole : string) (systemAdmin : bool) : string :=
  if systemAdmin then "System administrator"
  else if OrganisationRole_CanAdminister organisationRole then organisationRole
  else if workspaceRole =s "" then "Workspace viewer" else workspaceRole.
(** The layout "2006-01-02 15:04 UTC". *)
Definition adminTime (value : Z) : string :=
  if IsZero value then "" else
  let sec := Unix value in
  let '(y, m, d) := civil_from_days (sec / 86400) in
  format_year y ++ "-" ++ dec_pad 2 m ++ "-" ++ dec_pad 2 d ++ " "
  ++ dec_pad 2 (sec mod 86400 / 3600) ++ ":" ++ dec_pad 2 (sec mod 86400 / 60 mod 60) ++ " UTC".
Definition organisationRoleChange (role : string) : string :=
  if role =s OrganisationMember then OrganisationAdmin else OrganisationMember.
Definition workspaceRoleChange (role : string) : string :=
  if role =s WorkspaceAdmin then WorkspaceMember else WorkspaceAdmin.
Definition organisationMemberPages : list OrganisationMemberRecord -> list AdminMember :=
  map (fun m => mkAdminMember (omr_MembershipID m) (omr_UserID m) (omr_Email m) (omr_DisplayName m) (omr_Role m)
                  (organisationRoleChange (omr_Role m)) (adminTime (omr_AssignedAt m))).
Definition workspaceMemberPages : list WorkspaceMemberRecord -> list AdminMember :=
  map (fun m => mkAdminMember (wmr_MembershipID m) (wmr_UserID m) (wmr_Email m) (wmr_DisplayName m) (wmr_Role m)
                  (workspaceRoleChange (wmr_Role m)) (adminTime (wmr_AssignedAt m))).
Definition organisationAuditPages : list OrganisationAuditRecord -> list AdminAudit :=
  map (fun e => mkAdminAudit (oar_Event e) (oar_Details e) (adminTime (oar_OccurredAt e))).
Definition workspaceAuditPages : list WorkspaceAuditRecord -> list AdminAudit :=
  map (fun e => mkAdminAudit (war_Event e) (war_Details e) (adminTime (war_OccurredAt e))).

Definition not_found : Response := http_Error (StatusText 404) 404.
Definition uiNotFoundOrError (e : error) : Response :=
  if any_Is e [ErrOrganisationNotFound; ErrOrganisationArchived; ErrUnauthorisedOrganisationAction; ErrAccessScopeDenied;
               ErrWorkspaceNotFound; ErrWorkspaceArchived; ErrUnauthorisedWorkspaceAction; ErrProductAccessDenied;
               ErrUnauthorisedProductAction]
  then not_found else serverError.
Definition uiMutationError : error -> Response := error_with
  [(404, [ErrOrganisationNotFound; ErrOrganisationArchived; ErrMembershipNotFound; ErrUnauthorisedOrganisationAction;
          ErrWorkspaceNotFound; ErrWorkspaceArchived; ErrWorkspaceMembershipNotFound; ErrUnauthorisedWorkspaceAction;
          ErrProductNotFound; ErrEntitlementNotFound; ErrUnauthorisedProductAction; ErrProductAssignmentNotFound]);
   (403, [ErrOwnerMutationNotAuthorised]);
   (409, [ErrDuplicateOrganisationMember; ErrDuplicateWorkspaceMember; ErrDuplicateOrganisationEntitlement;
          ErrDuplicateUserProductAssignment; ErrProductRetired; ErrEntitlementInactive; ErrProductAssignmentInactive]);
   (400, [ErrInvalidReason; ErrInvalidOrganisationName; ErrInvalidOrganisationRole; ErrInvalidWorkspaceName;
          ErrInvalidWorkspaceRole; ErrInvalidProductKey])].
Definition redirectAdmin (path status : string) : Response := Redirect (path ++ "?" ++ Encode [("status", status)]).

Section Ui.
Context `{UnicodeTables} `{Crypto} `{Ed25519}.
Variables (r : Request) (env : Env) (session : AuthenticatedSession).

(** uiSession: the platform_csrf cookie has to be there as well. *)
Definition uiSession (next : string -> handler) : handler := fun s =>
  match Cookie r "platform_csrf" with
  | Some csrf => if blank csrf then (http_Error "session requires renewal" 401, s) else next csrf s
  | None => (http_Error "session requires renewal" 401, s)
  end.
(** A read of the store whose error ends the request. *)
Definition ui_read {A} (read : DB -> res A) (next : A -> handler) : handler := fun s =>
  match read (db_of s) with Err e => (uiNotFoundOrError e, s) | Ok a => next a s end.

(** ** platform_ui.go *)
Definition configured (s : Server) (key : string) : bool :=
  bool_decide (is_Some (sv_productLaunchTargets s !! key)).
Definition handoff_url (s : Server) (key : string) : string :=
  if configured s key then "/launch/" ++ PathEscape key ++ "/handoff" else "".
Definition launchable_option (s : Server) (organisationID workspaceID : string) (p : Product) : ProductOption :=
  mkProductOption (Product_Key p) (Product_DisplayName p)
    ("/launch/" ++ PathEscape (Product_Key p) ++ "?"
     ++ Encode [("organisation_id", organisationID); ("workspace_id", workspaceID)])
    (handoff_url s (Product_Key p)).
(** The id asked for, or that of the first row. *)
Definition chosen (asked : string) (ids : list string) : string :=
  if asked =s "" then match ids with id :: _ => id | [] => "" end else asked.
Definition launcherProps (userID csrf : string) (s : Server) : res LauncherProps :=
  let organisations := ListUserOrganisations userID (db_of s) in
  let org_id o := Organisation_ID (uo_Organisation o) in
  let organisationID := chosen (TrimSpace (Query r "organisation_id")) (map org_id organisations) in
  let options := map (fun o => mkOrganisationOption (org_id o) (Organisation_Name (uo_Organisation o)) (uo_Role o)
                                 (org_id o =s organisationID)) organisations in
  if negb ((organisationID =s "") || existsb (fun o => org_id o =s organisationID) organisations)
  then Err (Sentinel ErrUnauthorisedOrganisationAction) else
  let organisationName := match last (List.filter (fun o => org_id o =s organisationID) organisations) with
                          | Some o => Organisation_Name (uo_Organisation o) | None => "" end in
  let props := mkLauncherProps (as_User session) csrf (rq_Path r) options in
  if organisationID =s "" then Ok (props [] [] organisationID organisationName "" "") else
  let? workspaces := ListOrganisationWorkspaces userID organisationID (db_of s) in
  let workspaceID := chosen (TrimSpace (Query r "workspace_id")) (map Workspace_ID workspaces) in
  if negb ((workspaceID =s "") || existsb (fun w => Workspace_ID w =s workspaceID) workspaces)
  then Err (Sentinel ErrAccessScopeDenied) else
  let workspaceName := match last (List.filter (fun w => Workspace_ID w =s workspaceID) workspaces) with
                       | Some w => Workspace_Name w | None => "" end in
  let workspaceOptions := map (fun w => mkWorkspaceOption (Workspace_ID w) (Workspace_Name w)
                                          (Workspace_ID w =s workspaceID)) workspaces in
  let? launchable := if workspaceID =s "" then Ok []
                     else ListLaunchableProducts userID organisationID workspaceID (db_of s) in
  Ok (props workspaceOptions (map (launchable_option s organisationID workspaceID) launchable) organisationID
        organisationName workspaceID workspaceName).
Definition platformLauncher : handler := uiSession (fun csrf s =>
  match launcherProps (User_of session) csrf s with
  | Err e => (uiNotFoundOrError e, s)
  | Ok props => (render (LauncherPage props), s)
  end).

Definition workspaceSelector (organisationID : string) : handler := uiSession (fun csrf =>
  let organisationID := TrimSpace organisationID in
  ui_read (GetOrganisation (User_of session) organisationID) (fun organisation =>
  ui_read (ListOrganisationWorkspaces (User_of session) organisationID) (fun workspaces =>
  answer (render (WorkspaceSelectorPage (mkWorkspaceSelectorProps (as_User session) csrf (rq_Path r)
    (Organisation_ID organisation) (Organisation_Name organisation)
    (map (fun w => mkWorkspaceOption (Workspace_ID w) (Workspace_Name w) false) workspaces))))))).

Definition productAccessPage (productKey : string) : handler := uiSession (fun csrf =>
  let organisationID := TrimSpace (Query r "organisation_id") in
  let workspaceID := TrimSpace (Query r "workspace_id") in
  let productKey := TrimSpace productKey in
  if (organisationID =s "") || (workspaceID =s "") || (productKey =s "") then answer NotFound else
  ui_read (GetOrganisation (User_of session) organisationID) (fun organisation =>
  ui_read (GetWorkspace (User_of session) workspaceID) (fun workspace =>
  if negb (Workspace_OrganisationID workspace =s Organisation_ID organisation) then answer NotFound else
  ui_read (ProveProductAccess (User_of session) organisationID productKey workspaceID) (fun _ =>
  ui_read (ListLaunchableProducts (User_of session) organisationID workspaceID) (fun products s =>
  match find (fun p => Product_Key p =s productKey) products with
  | Some p =>
      if Product_Key p =s "" then (NotFound, s) else
      (render (ProductAccessPage (mkProductAccessProps (as_User session) csrf (rq_Path r)
         (mkProductOption (Product_Key p) (Product_DisplayName p) "" (handoff_url s (Product_Key p)))
         (Organisation_ID organisation) (Organisation_Name organisation) (Workspace_ID workspace)
         (Workspace_Name workspace))), s)
  | None => (NotFound, s)
  end))))).

Definition productHandoff (productKey : string) : handler := uiSession (fun csrf s =>
  if negb (rq_FormOk r) then (invalid_request, s) else
  if negb (verifyMutationCSRF r (db_of s)) then (csrf_rejected, s) else
  let productKey := TrimSpace productKey in
  match sv_productLaunchTargets s !! productKey, AssertionIssuer (sv_cfg s) with
  | Some target, Some issuer =>
      let organisationID := TrimSpace (FormValue r "organisation_id") in
      let workspaceID := TrimSpace (FormValue r "workspace_id") in
      if (organisationID =s "") || (workspaceID =s "") then (NotFound, s) else
      ui_read (ProveProductAccess (User_of session) organisationID productKey workspaceID) (fun access =>
      ui_read (ListLaunchableProducts (User_of session) (pa_OrganisationID access) (pa_WorkspaceID access))
        (fun products s =>
      match find (fun p => Product_Key p =s productKey) products with
      | None => (NotFound, s)
      | Some product =>
          match Assertion.Issue issuer
                  (Assertion.mkIssueRequest (Audience target) (pa_UserID access) (pa_OrganisationID access)
                     (pa_WorkspaceID access) 0) (en_now env) (en_now env) (en_raw env 0) with
          | Err _ => (http_Error "service unavailable" 503, s)
          | Ok (token, _) =>
              (setHeaders [("Cache-Control", "no-store"); ("Pragma", "no-cache")]
                 (render (ProductHandoffPage (mkProductHandoffProps (as_User session) csrf (rq_Path r)
                    (Product_DisplayName product) (URL target) token))), s)
          end
      end)) s
  | _, _ => (NotFound, s)
  end).

(** ** admin_ui.go: pages *)
Definition isSystemAdministrator (userID : string) (db : DB) : res bool :=
  match ListProducts userID db with
  | Err e => if errors_Is e ErrUnauthorisedProductAction then Ok false else Err e
  | Ok _ => Ok true
  end.
Record organisationAdminContext := mkOrganisationAdminContext {
  oac_Organisation : Organisation; oac_Role : string; oac_SystemAdmin : bool; oac_CanAdmin : bool }.
Definition resolveOrganisationAdminContext (userID : string) (organisation : Organisation) (db : DB)
  : res organisationAdminContext :=
  match find (fun c => Organisation_ID (uo_Organisation c) =s Organisation_ID organisation)
          (ListUserOrganisations userID db) with
  | None => Err (Sentinel ErrUnauthorisedOrganisationAction)
  | Some candidate =>
      let role := uo_Role candidate in
      let? systemAdmin := isSystemAdministrator userID db in
      Ok (mkOrganisationAdminContext organisation role systemAdmin
            (systemAdmin || OrganisationRole_CanAdminister role))
  end.

Definition adminLanding : handler := fun s =>
  let organisations := ListUserOrganisations (User_of session) (db_of s) in
  let asked := TrimSpace (Query r "organisation_id") in
  let admin_of id := Redirect ("/organisations/" ++ PathEscape id ++ "/admin") in
  if negb (asked =s "") then (admin_of asked, s) else
  match organisations with
  | o :: _ => (admin_of (Organisation_ID (uo_Organisation o)), s)
  | [] =>
      match isSystemAdministrator (User_of session) (db_of s) with
      | Err _ => (serverError, s)
      | Ok true => (Redirect "/admin/system/products", s)
      | Ok false => (Redirect "/", s)
      end
  end.

(** A list the page shows only under [b]. *)
Definition when {A B} (b : bool) (read : DB -> res (list A)) (show : list A -> list B) (db : DB) : res (list B) :=
  if b then let? l := read db in Ok (show l) else Ok [].
Definition organisationAdminPage (organisationID section : string) : handler := uiSession (fun csrf =>
  let section := if TrimSpace section =s "" then "general" else TrimSpace section in
  if negb (existsb (String.eqb section) ["general"; "members"; "workspaces"; "products"]) then answer NotFound else
  ui_read (GetOrganisation (User_of session) organisationID) (fun organisation =>
  ui_read (resolveOrganisationAdminContext (User_of session) organisation) (fun access =>
  let id := Organisation_ID organisation in
  let shown name := section =s name in
  if (shown "members" || shown "products") && negb (oac_CanAdmin access) then answer NotFound else
  ui_read (when (oac_CanAdmin access && shown "general") (ListOrganisationAudit (User_of session) id 50)
             organisationAuditPages) (fun audit =>
  ui_read (when (shown "members") (ListOrganisationMembers (User_of session) id) organisationMemberPages) (fun members =>
  ui_read (when (shown "workspaces") (ListOrganisationWorkspaces (User_of session) id)
             (map (fun w => mkAdminWorkspace (Workspace_ID w) (Workspace_Name w) (Workspace_Status w)
                              (adminTime (Workspace_CreatedAt w)) ("/workspaces/" ++ Workspace_ID w ++ "/admin"))))
    (fun workspaces =>
  ui_read (when (shown "products") (ListOrganisationProductEntitlements (User_of session) id)
             (map (fun e => mkAdminEntitlement (Ent_ID e) (Ent_ProductKey e) (Ent_Status e) (Ent_Active e))))
    (fun entitlements =>
  ui_read (when (shown "products") (ListUserProductAssignments (User_of session) id)
             (map (fun a => mkAdminAssignment (Asg_ID a) (Asg_UserID a) (Asg_ProductKey a) (Asg_Status a) (Asg_Active a))))
    (fun assignments =>
  let item name label := mkAdminNavItem ("/organisations/" ++ id ++ "/admin/" ++ name) label (shown name) in
  let navigation := ([item "general" "General"; item "members" "Members"; item "workspaces" "Workspaces";
                      item "products" "Products"]
                     ++ if oac_SystemAdmin access
                        then [mkAdminNavItem "/admin/system/products" "System catalogue" false] else [])%list in
  answer (render (OrganisationAdminPage (mkOrganisationAdminProps (as_User session) csrf (rq_Path r) id
    (Organisation_Name organisation) (organisationRoleLabel (oac_Role access) (oac_SystemAdmin access)) section
    (oac_CanAdmin access) (oac_SystemAdmin access) navigation members workspaces audit entitlements assignments
    (adminFlash (Query r "status"))))))))))))).

Definition workspaceAdminPage (workspaceID : string) : handler := uiSession (fun csrf =>
  ui_read (GetWorkspace (User_of session) workspaceID) (fun workspace =>
  ui_read (GetOrganisation (User_of session) (Workspace_OrganisationID workspace)) (fun organisation =>
  ui_read (fun db => ProveWorkspaceScope db (User_of session) (Workspace_ID workspace) false) (fun scope =>
  let canAdmin := ws_SystemAdmin scope || OrganisationRole_CanAdminister (ws_OrganisationRole scope)
                  || (ws_WorkspaceRole scope =s WorkspaceAdmin) in
  ui_read (when canAdmin (ListWorkspaceMembers (User_of session) (Workspace_ID workspace)) workspaceMemberPages)
    (fun members =>
  ui_read (when canAdmin (ListWorkspaceAudit (User_of session) (Workspace_ID workspace) 50) workspaceAuditPages)
    (fun audit =>
  answer (render (WorkspaceAdminPage (mkWorkspaceAdminProps (as_User session) csrf (rq_Path r)
    (Organisation_ID organisation) (Organisation_Name organisation) (Workspace_ID workspace) (Workspace_Name workspace)
    (organisationRoleLabel (ws_OrganisationRole scope) (ws_SystemAdmin scope))
    (workspaceRoleLabel (ws_WorkspaceRole scope) (ws_OrganisationRole scope) (ws_SystemAdmin scope)) canAdmin
    members audit (adminFlash (Query r "status"))))))))))).

Definition systemProductAdminPage : handler := uiSession (fun csrf =>
  ui_read (ListProducts (User_of session)) (fun products =>
  answer (render (SystemProductAdminPage (mkSystemProductAdminProps (as_User session) csrf (rq_Path r)
    (map (fun p => mkAdminProduct (Product_Key p) (Product_DisplayName p) (Product_Status p)
                     (Product_Status p =s ProductActive)) products) (adminFlash (Query r "status"))))))).

(** ** admin_ui.go: forms *)
Definition prepareUIForm (next : handler) : handler := fun s =>
  if negb (rq_FormOk r) then (invalid_request, s)
  else if negb (verifyMutationCSRF r (db_of s)) then (csrf_rejected, s) else next s.
(** A form that runs one operation of the store and redirects. *)
Definition form {A} (op : St DB error A) (after : Response) : handler :=
  prepareUIForm (store_call op uiMutationError (fun _ => after)).
Definition reason_value : string := FormValue r "reason".
Definition organisation_admin (organisationID section : string) : string :=
  "/organisations/" ++ organisationID ++ "/admin/" ++ section.
Definition workspace_admin (workspaceID : string) : string := "/workspaces/" ++ workspaceID ++ "/admin".

Definition renameOrganisationUI (organisationID : string) : handler :=
  form (RenameOrganisation (User_of session) organisationID (FormValue r "name") reason_value (en_now env) (en_rng env))
    (redirectAdmin (organisation_admin organisationID "general") "saved").
Definition archiveOrganisationUI (organisationID : string) : handler :=
  form (ArchiveOrganisation (User_of session) organisationID reason_value (en_now env) (en_rng env))
    (Redirect "/organisations").
Definition addOrganisationMemberUI (organisationID : string) : handler :=
  form (AddOrganisationMember (User_of session) organisationID (FormValue r "user_id") (FormValue r "role")
          reason_value (en_now env) (en_rng env))
    (redirectAdmin (organisation_admin organisationID "members") "saved").
Definition changeOrganisationMemberRoleUI (organisationID userID : string) : handler :=
  form (ChangeOrganisationMemberRole (User_of session) organisationID userID (FormValue r "role") reason_value
          (en_now env) (en_rng env))
    (redirectAdmin (organisation_admin organisationID "members") "saved").
Definition deactivateOrganisationMemberUI (organisationID userID : string) : handler :=
  form (DeactivateOrganisationMember (User_of session) organisationID userID reason_value (en_now env) (en_rng env))
    (redirectAdmin (organisation_admin organisationID "members") "saved").
Definition createWorkspaceUI (organisationID : string) : handler :=
  form (CreateWorkspace (User_of session) organisationID (mkWorkspace "" "" (FormValue r "name") "" zero_time None)
          reason_value (en_now env) (en_rng env))
    (redirectAdmin (organisation_admin organisationID "workspaces") "created").
Definition entitleOrganisationUI (organisationID : string) : handler :=
  form (EntitleOrganisation (User_of session) organisationID (FormValue r "product_key") reason_value (en_now env)
          (en_rng env))
    (redirectAdmin (organisation_admin organisationID "products") "saved").
Definition revokeOrganisationEntitlementUI (organisationID entitlementID : string) : handler :=
  form (RevokeOrganisationEntitlement (User_of session) organisationID entitlementID reason_value (en_now env)
          (en_rng env))
    (redirectAdmin (organisation_admin organisationID "products") "saved").
Definition assignUserProductUI (organisationID : string) : handler :=
  form (AssignUserProduct (User_of session) organisationID (FormValue r "user_id") (FormValue r "product_key")
          reason_value (en_now env) (en_rng env))
    (redirectAdmin (organisation_admin organisationID "products") "saved").
Definition revokeUserProductUI (organisationID assignmentID : string) : handler :=
  form (RevokeUserProduct (User_of session) organisationID assignmentID reason_value (en_now env) (en_rng env))
    (redirectAdmin (organisation_admin organisationID "products") "saved").
Definition addWorkspaceMemberUI (workspaceID : string) : handler :=
  form (AddWorkspaceMember (User_of session) workspaceID (FormValue r "user_id") (FormValue r "role") reason_value
          (en_now env) (en_rng env)) (redirectAdmin (workspace_admin workspaceID) "saved").
Definition changeWorkspaceMemberRoleUI (workspaceID userID : string) : handler :=
  form (ChangeWorkspaceMemberRole (User_of session) workspaceID userID (FormValue r "role") reason_value (en_now env)
          (en_rng env)) (redirectAdmin (workspace_admin workspaceID) "saved").
Definition deactivateWorkspaceMemberUI (workspaceID userID : string) : handler :=
  form (DeactivateWorkspaceMember (User_of session) workspaceID userID reason_value (en_now env) (en_rng env))
    (redirectAdmin (workspace_admin workspaceID) "saved").
Definition archiveWorkspaceUI (workspaceID : string) : handler :=
  form (ArchiveWorkspace (User_of session) workspaceID reason_value (en_now env) (en_rng env))
    (Redirect "/organisations").
Definition retireProductUI (productKey : string) : handler :=
  form (RetireProduct (User_of session) productKey reason_value (en_now env) (en_rng env))
    (redirectAdmin "/admin/system/products" "saved").
End Ui.
