(* ===== verification/Gateway.v ===== *)
(** internal/platform/http/read_authority.go and membership_command.go: the two
    machine interfaces. Requests are signed by a consumer's key over their method,
    path, query and body, limited in rate, and accepted once per nonce. *)
From stdpp Require Import base tactics option list gmap strings.
From Stdlib Require Import ZArith Lia Ascii String Sorted.
From S2P Require Import Prelude GoStrings GoTime Codec Errors Domain Json JsonLaws Events Schema Outbox Auth Limiter.
From S2P Require Import ReadAuthority CommandContract Assertion Identity Organisation Snapshot SnapshotLaws Command Url Pages Http.

Local Open Scope string_scope.
Local Open Scope Z_scope.

(** ** The rate limiter *)
Definition readAuthorityRateWindow : Z := Minute.
Definition RequestsPerMinute : Z := 120.
Definition in_window (now : Z) (e : readAuthorityRateEntry) : bool := Before now (started e + readAuthorityRateWindow).
Definition Allow (pick : readAuthorityRateLimiter -> string) (m : readAuthorityRateLimiter) (consumer : string) (now : Z)
  : bool * readAuthorityRateLimiter :=
  let m := filter (fun kv => in_window now kv.2 = true) m in
  let new := fun m => (true, <[consumer := mkRateEntry now 1]> (if (4096 <=? Z.of_nat (size m)) then delete (pick m) m else m)) in
  match m !! consumer with
  | None => new m
  | Some entry =>
      if negb (in_window now entry) then new m
      else if RequestsPerMinute <=? rate_count entry then (false, m)
      else (true, <[consumer := mkRateEntry (started entry) (rate_count entry + 1)]> m)
  end.

(** ** The rate limiter over a sequence of calls *)

(** A call: the key, the clock, and what ranging over the map gives first. The
    log holds the accepted calls. *)
Definition rate_call := (string * Z * (readAuthorityRateLimiter -> string))%type.
Definition rate_step (x : readAuthorityRateLimiter * list (string * Z)) (call : rate_call)
  : readAuthorityRateLimiter * list (string * Z) :=
  let (allowed, m) := Allow call.2 x.1 call.1.1 call.1.2 in
  (m, if allowed then call.1 :: x.2 else x.2).
Definition rate_run (calls : list rate_call) : readAuthorityRateLimiter * list (string * Z) :=
  fold_left rate_step calls (∅, []).
(** The accepted calls of a key at times from [a] to before [b]. *)
Definition accepted (key : string) (a b : Z) (log : list (string * Z)) : Z :=
  Schema.count (fun x => (x.1 =s key) && (a <=? x.2) && (x.2 <? b)) log.

(** The entry of a key that a call at [t] still sees. *)
Definition live (m : readAuthorityRateLimiter) (t : Z) (k : string) : option readAuthorityRateEntry :=
  match m !! k with Some e => if in_window t e then Some e else None | None => None end.
Definition after_call (t : Z) (e : option readAuthorityRateEntry) : bool * readAuthorityRateEntry :=
  match e with
  | None => (true, mkRateEntry t 1)
  | Some e => if RequestsPerMinute <=? rate_count e then (false, e) else (true, mkRateEntry (started e) (rate_count e + 1))
  end.

Lemma lookup_live (m : readAuthorityRateLimiter) t k : filter (fun kv => in_window t kv.2 = true) m !! k = live m t k.
Proof.
  unfold live. destruct (m !! k) as [e|] eqn:E.
  - destruct (in_window t e) eqn:W.
    + by apply map_lookup_filter_Some.
    + apply map_lookup_filter_None. right. intros e' He'. rewrite E in He'. injection He' as <-. cbn. by rewrite W.
  - apply map_lookup_filter_None. by left.
Qed.
Lemma live_Some m t k e : live m t k = Some e -> m !! k = Some e /\ t < started e + Minute.
Proof.
  unfold live, in_window, Before, readAuthorityRateWindow. destruct (m !! k) as [e'|]; [|done].
  destruct (t <? started e' + Minute) eqn:W; [|done]. intros [= <-]. split; [done|lia].
Qed.
Lemma live_None m t k e : live m t k = None -> m !! k = Some e -> started e + Minute <= t.
Proof.
  unfold live, in_window, Before, readAuthorityRateWindow. intros E He. rewrite He in E. destruct (_ <? _) eqn:W; [done|lia].
Qed.

Lemma accepted_cons k a b x log :
  accepted k a b (x :: log) = (if (x.1 =s k) && (a <=? x.2) && (x.2 <? b) then 1 else 0) + accepted k a b log.
Proof. unfold accepted. by rewrite count_cons. Qed.
Lemma accepted_mono k a b b' log : b <= b' -> accepted k a b log <= accepted k a b' log.
Proof. intros Hb. apply count_mono. intros y. rewrite !andb_true_iff, !Z.ltb_lt. intuition lia. Qed.
Lemma accepted_none k a b now log : Forall (fun y => y.2 <= now) log -> now < a -> accepted k a b log = 0.
Proof.
  intros Hl Ha. apply count_zero. intros y Hy. rewrite Forall_forall in Hl. apply list_elem_of_In, Hl in Hy.
  apply andb_false_iff. left. apply andb_false_iff. right. lia.
Qed.

Section Rate.
Variable keys : list string.
Hypothesis keys_few : Z.of_nat (List.length keys) <= 4096.

Lemma few_entries (m : readAuthorityRateLimiter) c :
  (forall k e, m !! k = Some e -> In k keys) -> In c keys -> m !! c = None -> Z.of_nat (size m) < 4096.
Proof.
  intros Hm Hc Hn.
  assert (List.length (c :: (map_to_list m).*1) <= List.length keys)%nat as Hl.
  { apply List.NoDup_incl_length.
    - apply NoDup_ListNoDup, NoDup_cons. split; [|apply NoDup_fst_map_to_list].
      intros ((k & e) & -> & He)%list_elem_of_fmap. apply elem_of_map_to_list in He. cbn in Hn. by rewrite He in Hn.
    - intros k [<-|Hk]; [done|]. apply list_elem_of_In, list_elem_of_fmap in Hk as ((k' & e) & -> & He).
      apply elem_of_map_to_list in He. by apply (Hm _ _ He). }
  cbn [List.length] in Hl. rewrite length_fmap, length_map_to_list in Hl. lia.
Qed.
Lemma Allow_spec pick m c t :
  (forall k e, m !! k = Some e -> In k keys) -> In c keys ->
  exists m', Allow pick m c t = ((after_call t (live m t c)).1, m')
    /\ forall k, m' !! k = if bool_decide (k = c) then Some (after_call t (live m t c)).2 else live m t k.
Proof.
  intros Hm Hc. unfold Allow. set (f := filter _ m). rewrite (lookup_live m t c : f !! c = _).
  assert (forall k, f !! k = live m t k) as Hf by (intros k; apply lookup_live). 
  destruct (live m t c) as [e|] eqn:El; cbn [after_call].
  - assert (in_window t e = true) as ->.
    { unfold live in El. destruct (m !! c) as [e'|]; [|done]. destruct (in_window t e') eqn:W; [|done]. by injection El as <-. }
    cbn [negb]. destruct (RequestsPerMinute <=? rate_count e); eexists; (split; [reflexivity|]); intros k; cbn [snd].
    + destruct (bool_decide_reflect (k = c)) as [->|]; [by rewrite Hf|apply Hf].
    + destruct (bool_decide_reflect (k = c)) as [->|]; [apply lookup_insert_eq|].
      rewrite lookup_insert_ne by congruence. apply Hf.
  - assert ((4096 <=? Z.of_nat (size f)) = false) as ->.
    { apply Z.leb_gt, (few_entries f c); [|done|by rewrite Hf]. intros k e. rewrite Hf. unfold live.
      destruct (m !! k) eqn:E; [|done]. intros _. by apply (Hm _ _ E). }
    eexists. split; [reflexivity|]. intros k. cbn [snd].
    destruct (bool_decide_reflect (k = c)) as [->|]; [apply lookup_insert_eq|].
    rewrite lookup_insert_ne by congruence. apply Hf.
Qed.

Definition rate_ok (now : Z) (x : readAuthorityRateLimiter * list (string * Z)) : Prop :=
  Forall (fun y => y.2 <= now) x.2
  /\ forall k e, x.1 !! k = Some e ->
       In k keys /\ 1 <= rate_count e <= RequestsPerMinute /\ started e <= now
       /\ rate_count e <= accepted k (started e) (now + 1) x.2.

Lemma rate_step_spec x c t pick :
  (forall k e, x.1 !! k = Some e -> In k keys) -> In c keys ->
  exists m, rate_step x (c, t, pick) = (m, if (after_call t (live x.1 t c)).1 then (c, t) :: x.2 else x.2)
    /\ forall k, m !! k = if bool_decide (k = c) then Some (after_call t (live x.1 t c)).2 else live x.1 t k.
Proof.
  intros Hm Hc. destruct (Allow_spec pick x.1 c t Hm Hc) as (m & E & Hl). exists m. split; [|exact Hl].
  unfold rate_step. cbn [fst snd]. by rewrite E.
Qed.
Lemma rate_ok_step now t c pick x :
  rate_ok now x -> now <= t -> In c keys -> rate_ok t (rate_step x (c, t, pick)).
Proof.
  intros [Hl Hm] Ht Hc. destruct (rate_step_spec x c t pick) as (m & -> & Hk); [by intros k e [Hi _]%Hm|done|].
  cbv beta in Hl. assert (Forall (fun y : string * Z => y.2 <= t) x.2) as Hl' by (eapply Forall_impl; [exact Hl|cbv beta; lia]).
  split; cbn [fst snd].
  - destruct (after_call _ _).1; [constructor; [cbn; lia|exact Hl']|exact Hl'].
  - assert (forall k e, live x.1 t k = Some e -> In k keys /\ 1 <= rate_count e <= RequestsPerMinute /\ started e <= t
      /\ rate_count e <= accepted k (started e) (t + 1) x.2) as Hlive.
    { intros k e [He _]%live_Some. apply Hm in He as (H1 & H2 & H3 & H4).
      pose proof (accepted_mono k (started e) (now + 1) (t + 1) x.2 ltac:(lia)). split_and!; try done; lia. }
    intros k e. rewrite Hk. destruct (bool_decide_reflect (k = c)) as [->|Hne].
    + destruct (live x.1 t c) as [e0|] eqn:E; cbn [after_call].
      * destruct (Hlive _ _ E) as (H1 & H2 & H3 & H4). destruct (Z.leb_spec RequestsPerMinute (rate_count e0)); intros [= <-];
          cbn [fst snd started rate_count]; [done|].
        rewrite accepted_cons. cbn [fst snd]. rewrite String.eqb_refl. cbn [andb].
        destruct (Z.leb_spec (started e0) t); [|lia]. destruct (Z.ltb_spec t (t + 1)); [|lia]. cbn [andb].
        split_and!; try done; lia.
      * intros [= <-]. cbn [fst snd started rate_count]. rewrite accepted_cons. cbn [fst snd].
        rewrite String.eqb_refl, Z.leb_refl. destruct (Z.ltb_spec t (t + 1)); [|lia]. cbn [andb].
        pose proof (count_nonneg (fun y => (y.1 =s c) && (t <=? y.2) && (y.2 <? t + 1)) x.2). unfold accepted, RequestsPerMinute.
        split_and!; try done; lia.
    + intros E. destruct (Hlive _ _ E) as (H1 & H2 & H3 & H4). split_and!; try done; try lia.
      destruct (after_call _ _).1; [|done]. rewrite accepted_cons. cbn [fst snd].
      destruct (_ && _); lia.
Qed.

(** What a key may still spend of the interval from [a]. *)
Definition budget (a : Z) (e : option readAuthorityRateEntry) : Z :=
  match e with
  | None => RequestsPerMinute
  | Some e => if started e <? a then 2 * RequestsPerMinute - rate_count e else RequestsPerMinute - rate_count e
  end.
Definition window_ok (c : string) (a now : Z) (x : readAuthorityRateLimiter * list (string * Z)) : Prop :=
  let n := accepted c a (a + Minute) x.2 in
  n <= 2 * RequestsPerMinute - 1 /\ (now < a + Minute -> n + budget a (x.1 !! c) <= 2 * RequestsPerMinute - 1).

Lemma window_ok_step c a now t c' pick x :
  rate_ok now x -> window_ok c a now x -> now <= t -> In c' keys -> window_ok c a t (rate_step x (c', t, pick)).
Proof.
  intros Hok [Hn Hb] Ht Hc. pose proof (rate_ok_step now t c' pick x Hok Ht Hc) as [Hl' Hm']. destruct Hok as [_ Hm].
  destruct (rate_step_spec x c' t pick) as (m & E & Hk); [by intros k e [Hi _]%Hm|done|].
  rewrite E in Hl', Hm' |- *. clear E. unfold window_ok. cbn [fst snd] in *.
  destruct (Z.lt_ge_cases t a) as [Hta|Hta].
  { rewrite (accepted_none _ _ _ _ _ Hl' Hta). split; [by vm_compute|]. intros _.
    destruct (m !! c) as [e|] eqn:Ee; cbn [budget]; unfold RequestsPerMinute in *; [|lia].
    destruct (Hm' _ _ Ee) as (_ & ? & ? & _). destruct (Z.ltb_spec (started e) a); lia. }
  clear Hl' Hm'. rewrite Hk. clear Hk.
  assert (t < a + Minute ->
    accepted c a (a + Minute) x.2 + (if live x.1 t c is Some _ then budget a (x.1 !! c) else RequestsPerMinute) <= 2 * RequestsPerMinute - 1) as Hb'.
  { intros H1. specialize (Hb ltac:(lia)). destruct (live x.1 t c) as [e|] eqn:E; [done|].
    destruct (x.1 !! c) as [e|] eqn:Ex; cbn [budget] in Hb; [|done]. pose proof (live_None _ _ _ _ E Ex).
    destruct (Hm _ _ Ex) as (_ & Hc' & _). destruct (Z.ltb_spec (started e) a); lia. }
  pose proof (count_nonneg (fun y => (y.1 =s c) && (a <=? y.2) && (y.2 <? a + Minute)) x.2) as H0.
  change (count _ x.2) with (accepted c a (a + Minute) x.2) in H0.
  set (n := accepted c a (a + Minute) x.2) in *.
  assert (forall b : bool, accepted c a (a + Minute) (if b then (c', t) :: x.2 else x.2)
    = n + if b && (c' =s c) && (t <? a + Minute) then 1 else 0) as ->.
  { intros []; [|unfold n; cbn; lia]. rewrite accepted_cons. cbn [fst snd andb]. fold n.
    destruct (Z.leb_spec a t); [|lia]. rewrite andb_true_r. lia. }
  destruct (bool_decide_reflect (c = c')) as [<-|Hne].
  - rewrite String.eqb_refl, andb_true_r. destruct (live x.1 t c) as [e|] eqn:E; cbn [after_call fst snd].
    + apply live_Some in E as [Ee _]. rewrite Ee in Hb'. cbn [budget] in Hb'.
      destruct (Hm _ _ Ee) as (_ & ? & _).
      destruct (Z.leb_spec RequestsPerMinute (rate_count e)); cbn [andb fst snd budget started rate_count];
        destruct (Z.ltb_spec t (a + Minute)), (Z.ltb_spec (started e) a); unfold RequestsPerMinute in *; split; lia.
    + cbn [andb budget started rate_count]. destruct (Z.ltb_spec t a); [lia|].
      destruct (Z.ltb_spec t (a + Minute)); unfold RequestsPerMinute in *; split; lia.
  - assert ((c' =s c) = false) as -> by (by apply String.eqb_neq). rewrite andb_false_r. cbn [andb].
    split; [lia|]. intros H1. specialize (Hb' H1). destruct (live x.1 t c) as [e|] eqn:E; [|cbn [budget]; lia].
    apply live_Some in E as [Ee _]. rewrite Ee in Hb'. lia.
Qed.

Lemma rate_run_ok c a upper calls now x :
  rate_ok now x -> window_ok c a now x -> Sorted Z.le (now :: map (fun y : rate_call => y.1.2) calls) ->
  Forall (fun y : rate_call => In y.1.1 keys /\ y.1.2 <= upper) calls -> now <= upper ->
  exists now', now' <= upper /\ rate_ok now' (fold_left rate_step calls x) /\ window_ok c a now' (fold_left rate_step calls x).
Proof.
  revert now x. induction calls as [|[[k t] pick] calls IH]; intros now x Hr Hw Hs Hk Hu; [by exists now|].
  inversion_clear Hs as [|? ? Hs' Hh]. inversion_clear Hh as [|? ? Ht]. inversion_clear Hk as [|? ? [Hin Hb] Hk'].
  cbn [fst snd] in *. cbn [fold_left]. apply (IH t); try done; [by eapply rate_ok_step|by eapply window_ok_step].
Qed.
End Rate.

(** ** What both interfaces check of a request *)
Definition SignatureMaxClockSkewSecs : Z := 300.
Definition RequestMaxBodyBytes : Z := 64 * 1024.
Definition ResponseMaxBytes : Z := 4 * 1024 * 1024.
Definition ChangeMaxPageSize : Z := 500.
Definition ConsumerHeader := "X-Tockr-Platform-Consumer".
Definition KeyIDHeader := "X-Tockr-Platform-Key-ID".
Definition TimestampHeader := "X-Tockr-Platform-Timestamp".
Definition NonceHeader := "X-Tockr-Platform-Nonce".
Definition SignatureHeader := "X-Tockr-Platform-Signature".
Definition ActorHeader := "X-Tockr-Platform-Actor-Assertion".
Definition RA_VersionHeader := "X-Tockr-Platform-Read-Authority-Version".
Definition MC_VersionHeader := "X-Tockr-Platform-Membership-Command-Version".
Definition MC_Version := "platform.membership-command.v1".

Definition header (r : Request) (name : string) : string := TrimSpace (rq_Header r name).
Definition canonicalReadAuthorityPath (r : Request) : option string :=
  let path := if rq_EscapedPath r =s "" then "/" else rq_EscapedPath r in
  let (query, ok) := ParseQuery (rq_RawQuery r) in
  if negb ok then None else
  let encoded := Encode query in Some (if encoded =s "" then path else path ++ "?" ++ encoded).
(** strings.Trim(value, digits) is empty exactly for texts of digits. *)
Definition validReadAuthorityTimestamp (value : string) (now : Z) : bool :=
  if (value =s "") || negb (forall_bytes is_digit value) then false else
  match ParseInt value with
  | Some parsed => (Unix now - SignatureMaxClockSkewSecs <=? parsed) && (parsed <=? Unix now + SignatureMaxClockSkewSecs)
  | None => false
  end.
Definition public_key (keys : PublicKeySet) (consumer keyID : string) : option string :=
  match keys !! consumer with Some ks => ks !! keyID | None => None end.

Section Gateway.
Context `{UnicodeTables} `{Crypto} `{Ed25519}.

Definition signed_by (key canonical signatureText : string) : bool :=
  match b64_decode signatureText with
  | Some signature => (len signature =? 64) && ed_verify key canonical signature
  | None => false
  end.

(** ** read_authority.go *)
Definition readAuthorityMessage (code : string) : string :=
  if code =s "version_mismatch" then "read authority contract version is unsupported"
  else if code =s "unauthenticated" then "read authority machine authentication failed"
  else if code =s "invalid_request" then "read authority request is invalid"
  else if code =s "limit_exceeded" then "read authority request exceeds its limit"
  else if code =s "snapshot_expired" then "read authority snapshot has expired"
  else if code =s "snapshot_incomplete" then "read authority snapshot is incomplete"
  else if code =s "checksum_mismatch" then "read authority snapshot integrity could not be verified"
  else if code =s "resync_required" then "read authority requires resynchronisation"
  else if code =s "blocked" then "read authority source is blocked"
  else "read authority is unavailable".
Definition ra_headers : list (string * string) :=
  [(RA_VersionHeader, VersionV2); ("Content-Type", "application/json; charset=utf-8"); ("Cache-Control", "no-store")].
Definition writeReadAuthorityError (code state : string) (retryable resync : bool) : Response :=
  mkResponse (HTTPStatus code) ra_headers [] (BJson (JObject
    ([("version", JString VersionV2); ("code", JString code)] ++ opt_string "state" state
     ++ [("retryable", JBool retryable); ("resync_required", JBool resync);
         ("message", JString (readAuthorityMessage code))]))).
(** A response that is too large becomes an error (whose own text is short). *)
Definition writeReadAuthorityResponse (status : Z) (value : json) : Response :=
  if ResponseMaxBytes <? len (encode_json value) then writeReadAuthorityError "limit_exceeded" StateUnavailable false false
  else mkResponse status ra_headers [] (BJson value).
Definition writeReadAuthorityStoreError (e : error) : Response :=
  if any_Is e [ErrInvalidReadAuthorityRequest; ErrInvalidOutboxLimit; ErrReadAuthorityCursorInvalid]
  then writeReadAuthorityError "invalid_request" StateUnavailable false false
  else if errors_Is e ErrReadAuthoritySnapshotExpired then writeReadAuthorityError "snapshot_expired" StateStale false true
  else if any_Is e [ErrReadAuthoritySnapshotNotFound; ErrReadAuthoritySnapshotIncomplete]
  then writeReadAuthorityError "snapshot_incomplete" StateBlocked false true
  else if errors_Is e ErrReadAuthorityChecksumMismatch
  then writeReadAuthorityError "checksum_mismatch" StateBlocked false true
  else if errors_Is e ErrReadAuthoritySourceGap
  then writeReadAuthorityError "resync_required" StateResyncRequired false true
  else if errors_Is e ErrReadAuthoritySourceInvalid then writeReadAuthorityError "blocked" StateBlocked false false
  else writeReadAuthorityError "unavailable" StateUnavailable true false.

(** The checks of requireReadAuthority before it touches the server's state: the
    consumer and the nonce of an authentic request, or the error code. *)
Definition authenticateRead (r : Request) (now : Z) (keys : PublicKeySet) : result string (string * string) :=
  if negb (header r RA_VersionHeader =s VersionV2) then Err "version_mismatch" else
  let consumer := header r ConsumerHeader in
  let keyID := header r KeyIDHeader in
  let timestamp := header r TimestampHeader in
  let nonce := header r NonceHeader in
  let signatureText := header r SignatureHeader in
  if negb (is_ok (ValidateConsumer consumer)) || negb (ValidateKeyID keyID)
     || negb (validReadAuthorityTimestamp timestamp now) || negb (ValidateKeyID nonce) || (signatureText =s "")
  then Err "unauthenticated" else
  match public_key keys consumer keyID with
  | None => Err "unauthenticated"
  | Some key =>
      if negb (len key =? 32) then Err "unauthenticated" else
      match MaxBytesReader (rq_Body r) RequestMaxBodyBytes with
      | None => Err "limit_exceeded"
      | Some body =>
          match canonicalReadAuthorityPath r with
          | None => Err "unauthenticated"
          | Some path =>
              match CanonicalRequest (rq_Method r) path (BodyDigest body) consumer keyID timestamp nonce with
              | Err _ => Err "unauthenticated"
              | Ok canonical => if signed_by key canonical signatureText then Ok (consumer, nonce) else Err "unauthenticated"
              end
          end
      end
  end.
(** The rate limit and the nonce, the same for both interfaces. *)
Definition admission (key consumer nonce : string) (rate_now reservedAt : Z) (env : Env) (s : Server) : result string unit * Server :=
  let (allowed, m) := Allow (en_pick env) (sv_readAuthorityRate s) key rate_now in
  let s := set_rate m s in
  if negb allowed then (Err "limit_exceeded", s) else
  match transact_store (ReserveReadAuthorityNonce consumer nonce reservedAt (reservedAt + 24 * Hour)) s with
  | (Ok _, s) => (Ok tt, s)
  | (Err e, s) => (Err (if any_Is e [ErrReadAuthorityNonceReplay; ErrInvalidReadAuthorityNonce]
                        then "unauthenticated" else "unavailable"), s)
  end.
Definition requireReadAuthority (r : Request) (env : Env) (next : string -> handler) : handler := fun s =>
  match authenticateRead r (en_load env) (sv_readAuthorityKeys s) with
  | Err code => (writeReadAuthorityError code StateUnavailable false false, s)
  | Ok (consumer, nonce) =>
      match admission consumer consumer nonce (en_now env) (en_store env) env s with
      | (Err code, s) => (writeReadAuthorityError code StateUnavailable (negb (code =s "unauthenticated")) false, s)
      | (Ok _, s) => next consumer s
      end
  end.

Definition string_list (v : json) : option (list string) :=
  match v with
  | JArray l => if forallb (fun x => match x with JString _ | JNull => true | _ => false end) l
                then Some (map (fun x => match x with JString s => s | _ => "" end) l) else None
  | _ => None
  end.
Definition read_snapshotRequest (body : option string) : option SnapshotRequest :=
  match decode_members ["entity_kinds"; "expires_in_seconds"] body RequestMaxBodyBytes with
  | None => None
  | Some l =>
      match (let? kinds := struct_field string_list [] l "entity_kinds" in
             let? seconds := int_field l "expires_in_seconds" in Ok (mkSnapshotRequest kinds seconds)) with
      | Ok request => Some request
      | Err _ => None
      end
  end.
Definition readAuthoritySnapshotMetadata (n : ReadAuthoritySnapshot) : json :=
  JObject [("version", JString VersionV2); ("snapshot_id", JString (SN_SnapshotID n));
           ("consumer", JString (SN_Consumer n)); ("contract_version", JString VersionV2);
           ("source_cursor", JString (SN_SourceCursor n)); ("checksum_algorithm", JString (SN_ChecksumAlgorithm n));
           ("checksum", JString (SN_Checksum n)); ("created_at", jtime (SN_CreatedAt n));
           ("expires_at", jtime (SN_ExpiresAt n)); ("record_count", jint (SN_RecordCount n));
           ("page_size", jint (SN_PageSize n)); ("complete", JBool (SN_Complete n))].
Definition createReadAuthoritySnapshot (r : Request) (env : Env) (consumer : string) : handler := fun s =>
  let invalid := writeReadAuthorityError "invalid_request" StateUnavailable false false in
  match read_snapshotRequest (rq_Body r) with
  | None => (invalid, s)
  | Some request =>
      if negb (is_ok (ValidateSnapshotRequest request)) then (invalid, s) else
      match transact_store (CreateReadAuthoritySnapshot consumer (SR_EntityKinds request)
              (SR_ExpiresInSeconds request * Second) SnapshotMaxPageSize (en_now env) (en_raw env 0)) s with
      | (Err e, s) => (writeReadAuthorityStoreError e, s)
      | (Ok snapshot, s) => (writeReadAuthorityResponse 201 (readAuthoritySnapshotMetadata snapshot), s)
      end
  end.

Definition readAuthorityLimit (value : string) (maximum : Z) : option Z :=
  if TrimSpace value =s "" then Some maximum else
  match ParseInt value with
  | Some parsed => if (0 <? parsed) && (parsed <=? maximum) then Some parsed else None
  | None => None
  end.
Definition cursor_json (value : string) : json := if value =s "" then JNull else JString value.
Definition listReadAuthoritySnapshotRecords (snapshotID : string) (r : Request) (env : Env) (consumer : string)
  : handler := fun s =>
  match readAuthorityLimit (Query r "limit") SnapshotMaxPageSize with
  | None => (writeReadAuthorityError "limit_exceeded" StateUnavailable false false, s)
  | Some n =>
      match ListReadAuthoritySnapshotRecords (sv_store s) consumer snapshotID (Query r "entity_kind") (Query r "after")
              n (en_now env) with
      | Err e => (writeReadAuthorityStoreError e, s)
      | Ok page =>
          if negb (forallb (fun x => is_ok (ValidateRecordVersion VersionV2 x)) (PG_Records page))
          then (writeReadAuthorityError "checksum_mismatch" StateBlocked false false, s) else
          (writeReadAuthorityResponse 200 (JObject
             [("version", JString VersionV2); ("snapshot_id", JString (SN_SnapshotID (PG_Snapshot page)));
              ("source_cursor", JString (SN_SourceCursor (PG_Snapshot page)));
              ("checksum", JString (SN_Checksum (PG_Snapshot page)));
              ("records", JArray (map (fun x => JObject (map json_member (record_fields x))) (PG_Records page)));
              ("next_cursor", cursor_json (PG_NextCursor page)); ("complete", JBool (PG_Complete page))]), s)
      end
  end.

(** The event of a change; None when its payload is not JSON. *)
Definition change_of (e : OutboxEvent) : option json :=
  let v := oe_event e in
  match parse (Event_Payload v) with
  | None => None
  | Some payload => Some (JObject
      [("cursor", JString (SourceCursor (oe_GlobalCursor e)));
       ("event", JObject
          [("event_id", JString (Event_EventID v)); ("event_type", JString (Event_EventType v));
           ("aggregate_type", JString (Event_AggregateType v)); ("aggregate_id", JString (Event_AggregateID v));
           ("sequence", jint (Event_Sequence v)); ("schema_version", jint (Event_SchemaVersion v));
           ("occurred_at", jtime (Event_OccurredAt v)); ("payload", payload)])])
  end.
Fixpoint changes_of (l : list OutboxEvent) : option (list json) :=
  match l with
  | [] => Some []
  | e :: l => match change_of e, changes_of l with Some c, Some cs => Some (c :: cs) | _, _ => None end
  end.
Definition listReadAuthorityChanges (r : Request) (consumer : string) : handler := fun s =>
  let value := TrimSpace (Query r "after") in
  match (if value =s "" then Ok 0 else ParseSourceCursor value) with
  | Err _ => (writeReadAuthorityError "invalid_request" StateUnavailable false false, s)
  | Ok after =>
      match readAuthorityLimit (Query r "limit") ChangeMaxPageSize with
      | None => (writeReadAuthorityError "limit_exceeded" StateUnavailable false false, s)
      | Some n =>
          match ListPlatformEventsAfter (db_of s) after n with
          | Err e => (writeReadAuthorityStoreError e, s)
          | Ok feed =>
              match changes_of (feed_Events feed) with
              | None => (writeReadAuthorityError "blocked" StateBlocked false false, s)
              | Some changes =>
                  (writeReadAuthorityResponse 200 (JObject
                     [("version", JString VersionV2); ("state", JString StateCurrent);
                      ("source_cursor", JString (SourceCursor (feed_SourceCursor feed))); ("changes", JArray changes);
                      ("next_cursor", if feed_HasMore feed then JString (SourceCursor (feed_NextCursor feed)) else JNull);
                      ("has_more", JBool (feed_HasMore feed))]), s)
              end
          end
      end
  end.
Definition readAuthorityStatus (consumer : string) : handler := fun s =>
  let (current, horizon) := PlatformEventCursorBounds (db_of s) in
  (writeReadAuthorityResponse 200 (JObject
     [("version", JString VersionV2); ("consumer", JString consumer); ("contract_version", JString VersionV2);
      ("state", JString StateCurrent); ("ready", JBool true); ("source_cursor", JString (SourceCursor current));
      ("retention_horizon", JString (SourceCursor horizon))]), s).

(** ** membership_command.go *)
Definition membershipCommandAudience (consumer : string) : string * string :=
  if consumer =s ConsumerIMS then ("tockrims", ProductIMS) else ("tockrctrl", ProductCTRL).
Definition membershipCommandMessage (code : string) : string :=
  if code =s "version_mismatch" then "command contract version is not supported"
  else if code =s "unauthenticated" then "command authentication failed"
  else if code =s "forbidden" then "command is not authorised"
  else if code =s "invalid_request" then "command request is invalid"
  else if code =s "conflict" then "command conflicts with current membership state"
  else if code =s "stale" then "actor assertion is stale"
  else if code =s "limit_exceeded" then "command rate or size limit exceeded"
  else if code =s "unavailable" then "command service is unavailable"
  else "command failed".
Definition command_response (status : Z) (value : json) : Response :=
  setHeaders [(MC_VersionHeader, MC_Version)] (writeJSON status value).
Definition command_fail (code : string) (retryable : bool) : Response :=
  command_response (MembershipCommand.StatusForCode code)
    (JObject [("version", JString MC_Version); ("code", JString code); ("retryable", JBool retryable);
              ("message", JString (membershipCommandMessage code))]).
Definition membership_error_code (e : error) : string * bool :=
  if any_Is e [ErrMembershipCommandConflict; ErrMembershipCommandReplayMismatch; ErrDuplicateOrganisationMember;
               ErrDuplicateWorkspaceMember] then ("conflict", false)
  else if any_Is e [ErrUnauthorisedOrganisationAction; ErrUnauthorisedWorkspaceAction; ErrOwnerMutationNotAuthorised;
                    ErrOrganisationNotFound; ErrOrganisationArchived; ErrWorkspaceNotFound; ErrWorkspaceArchived;
                    ErrMembershipNotFound; ErrWorkspaceMembershipNotFound] then ("forbidden", false)
  else if any_Is e [ErrInvalidOrganisationRole; ErrInvalidWorkspaceRole; ErrInvalidReason;
                    ErrMembershipCommandUnsupported] then ("invalid_request", false)
  else ("unavailable", true).
Definition writeMembershipCommandStoreError (e : error) : Response :=
  let (code, retryable) := membership_error_code e in command_fail code retryable.

Record authentic_command := mkAuthentic { ac_consumer : string; ac_nonce : string; ac_actor : string; ac_body : string }.
(** The checks of membershipCommand before it touches the server's state. *)
Definition authenticateCommand (r : Request) (now : Z) (keys : PublicKeySet) : result string authentic_command :=
  if negb (header r MC_VersionHeader =s MC_Version) then Err "version_mismatch" else
  let consumer := header r ConsumerHeader in
  let keyID := header r KeyIDHeader in
  let timestamp := header r TimestampHeader in
  let nonce := header r NonceHeader in
  let signatureText := header r SignatureHeader in
  let actorProof := header r ActorHeader in
  if negb (MembershipCommand.ValidateConsumer consumer) || negb (MembershipCommand.ValidateKeyID keyID)
     || negb (MembershipCommand.ValidateTimestamp timestamp) || negb (MembershipCommand.ValidateNonce nonce)
     || (signatureText =s "")
  then Err "unauthenticated" else
  match public_key keys consumer keyID, ParseInt timestamp with
  | Some key, Some parsed =>
      if negb (len key =? 32) || (parsed <? Unix now - SignatureMaxClockSkewSecs)
         || (Unix now + SignatureMaxClockSkewSecs <? parsed)
      then Err "unauthenticated" else
      match MaxBytesReader (rq_Body r) RequestMaxBodyBytes with
      | None => Err "invalid_request"
      | Some body =>
          match canonicalReadAuthorityPath r with
          | None => Err "unauthenticated"
          | Some path =>
              if actorProof =s "" then Err "unauthenticated" else
              match MembershipCommand.CanonicalRequestWithActor (rq_Method r) path (BodyDigest body)
                      (BodyDigest actorProof) consumer keyID timestamp nonce with
              | Err _ => Err "unauthenticated"
              | Ok canonical =>
                  if signed_by key canonical signatureText then Ok (mkAuthentic consumer nonce actorProof body)
                  else Err "unauthenticated"
              end
          end
      end
  | _, _ => Err "unauthenticated"
  end.

Definition command_names : list string :=
  ["scope"; "operation"; "organisation_id"; "workspace_id"; "user_id"; "role"; "reason"; "idempotency_key";
   "expected_version"].
Definition decode_command (l : list (string * json)) : res MembershipCommand.Request :=
  let? scope := string_field l "scope" in let? operation := string_field l "operation" in
  let? organisation := string_field l "organisation_id" in let? workspace := string_field l "workspace_id" in
  let? user := string_field l "user_id" in let? role := string_field l "role" in
  let? reason := string_field l "reason" in let? key := string_field l "idempotency_key" in
  let? version := int_field l "expected_version" in
  Ok (MembershipCommand.mkRequest scope operation organisation workspace user role reason key version).
Definition command_fields (q : MembershipCommand.Request) : list (string * scalar) :=
  ([("scope", VString (MembershipCommand.Req_Scope q)); ("operation", VString (MembershipCommand.Req_Operation q))]
   ++ omitempty "organisation_id" (MembershipCommand.Req_OrganisationID q)
   ++ omitempty "workspace_id" (MembershipCommand.Req_WorkspaceID q)
   ++ [("user_id", VString (MembershipCommand.Req_UserID q))]
   ++ omitempty "role" (MembershipCommand.Req_Role q)
   ++ [("reason", VString (MembershipCommand.Req_Reason q));
       ("idempotency_key", VString (MembershipCommand.Req_IdempotencyKey q));
       ("expected_version", VInt (MembershipCommand.Req_ExpectedVersion q))])%list.
Definition read_command (body : string) : option MembershipCommand.Request :=
  match decode_members command_names (Some body) RequestMaxBodyBytes with
  | None => None
  | Some l =>
      match decode_command l with
      | Err _ => None
      | Ok request => if is_ok (MembershipCommand.ValidateRequest request) then Some request else None
      end
  end.
Definition class_failure (c : Assertion.FailureClass) : Response :=
  match c with
  | Assertion.FailureForbidden => command_fail "forbidden" false
  | Assertion.FailureStale => command_fail "stale" false
  | Assertion.FailureUnavailable => command_fail "unavailable" true
  | Assertion.FailureVersionMismatch => command_fail "version_mismatch" false
  | Assertion.FailureUnauthenticated => command_fail "unauthenticated" false
  end.
Definition scope_mismatch (q : MembershipCommand.Request) (c : Assertion.Claims) : bool :=
  ((MembershipCommand.Req_Scope q =s MembershipCommand.ScopeOrganisation)
   && negb (Assertion.cl_PlatformOrganisationID c =s MembershipCommand.Req_OrganisationID q))
  || ((MembershipCommand.Req_Scope q =s MembershipCommand.ScopeWorkspace)
      && negb (Assertion.cl_PlatformWorkspaceID c =s MembershipCommand.Req_WorkspaceID q)).
Definition store_request (consumer : string) (q : MembershipCommand.Request) (actor : string) (now : Z)
  : MembershipCommandRequest :=
  mkCommandRequest consumer (MembershipCommand.Req_Scope q) (MembershipCommand.Req_Operation q)
    (MembershipCommand.Req_OrganisationID q) (MembershipCommand.Req_WorkspaceID q) (MembershipCommand.Req_UserID q)
    (MembershipCommand.Req_Role q) (MembershipCommand.Req_Reason q) (MembershipCommand.Req_IdempotencyKey q)
    (MembershipCommand.Req_ExpectedVersion q) (BodyDigest (encode_fields (command_fields q))) actor now.
Definition command_result (consumer : string) (q : MembershipCommand.Request) (x : MembershipCommandResult) : json :=
  JObject ([("version", JString MC_Version); ("consumer", JString consumer);
            ("scope", JString (MembershipCommand.Req_Scope q)); ("operation", JString (MembershipCommand.Req_Operation q));
            ("membership_id", JString (mc_MembershipID x))]
           ++ opt_string "organisation_id" (mc_OrganisationID x) ++ opt_string "workspace_id" (mc_WorkspaceID x)
           ++ [("user_id", JString (mc_UserID x))] ++ opt_string "role" (mc_Role x)
           ++ [("active", JBool (mc_Active x)); ("membership_version", jint (mc_MembershipVersion x))]
           ++ if mc_Replay x then [("replay", JBool true)] else []).

(** The request of an admitted command: its actor's assertion, then the store. *)
Definition run_command (a : authentic_command) (q : MembershipCommand.Request) (issuer : Assertion.Issuer)
    (now clock : Z) (rs : rng) : handler := fun s =>
  let consumer := ac_consumer a in
  let (audience, productKey) := membershipCommandAudience consumer in
  match Assertion.VerifyForProduct issuer (ac_actor a) audience productKey now clock with
  | (Err class, issuer) => (class_failure class, set_issuer issuer s)
  | (Ok claims, issuer) =>
      let s := set_issuer issuer s in
      if scope_mismatch q claims then (command_fail "forbidden" false, s) else
      store_call (ExecuteMembershipCommand (store_request consumer q (Assertion.cl_PlatformUserID claims) now) rs)
        writeMembershipCommandStoreError (fun x => command_response 200 (command_result consumer q x)) s
  end.
Definition membershipCommand (r : Request) (env : Env) : handler := fun s =>
  let now := en_now env in
  match authenticateCommand r now (sv_membershipCommandKeys s) with
  | Err code => (command_fail code false, s)
  | Ok a =>
      match AssertionIssuer (sv_cfg s) with
      | None => (command_fail "unavailable" true, s)
      | Some issuer =>
          match admission ("membership-command:" ++ ac_consumer a) (ac_consumer a) (ac_nonce a) now now env s with
          | (Err code, s) => (command_fail code (negb (code =s "unauthenticated")), s)
          | (Ok _, s) =>
              match read_command (ac_body a) with
              | None => (command_fail "invalid_request" false, s)
              | Some q => run_command a q issuer now (en_load env) (en_rng env) s
              end
          end
      end
  end.

(** ** What an authenticated command is *)
Lemma signed_by_Ok key canonical text :
  signed_by key canonical text = true ->
  exists signature, b64_decode text = Some signature /\ ed_verify key canonical signature = true.
Proof.
  unfold signed_by. destruct (b64_decode text) as [signature|]; [|done]. intros ?; bool_hyps. by exists signature.
Qed.
(** The message of a request that verifies under the consumer's key. *)
Definition command_signed (r : Request) (keys : PublicKeySet) (a : authentic_command) : Prop :=
  exists key path canonical signature,
    public_key keys (ac_consumer a) (header r KeyIDHeader) = Some key
    /\ MaxBytesReader (rq_Body r) RequestMaxBodyBytes = Some (ac_body a)
    /\ canonicalReadAuthorityPath r = Some path
    /\ MembershipCommand.CanonicalRequestWithActor (rq_Method r) path (BodyDigest (ac_body a)) (BodyDigest (ac_actor a))
         (ac_consumer a) (header r KeyIDHeader) (header r TimestampHeader) (ac_nonce a) = Ok canonical
    /\ ed_verify key canonical signature = true.
Lemma authenticateCommand_Ok r now keys a :
  authenticateCommand r now keys = Ok a ->
  command_signed r keys a /\ ac_consumer a = header r ConsumerHeader /\ ac_nonce a = header r NonceHeader
  /\ exists p, ParseInt (header r TimestampHeader) = Some p /\ Unix now - 300 <= p <= Unix now + 300.
Proof.
  unfold authenticateCommand, command_signed. destruct (negb _); [done|]. destruct (_ || _) in |- *; [done|].
  destruct (public_key keys _ _) as [key|] eqn:Ek; [|done]. destruct (ParseInt _) as [p|] eqn:Ep; [|done].
  destruct (negb (len key =? 32) || _ || _) eqn:Et; [done|].
  destruct (MaxBytesReader _ _) as [body|] eqn:Eb; [|done]. destruct (canonicalReadAuthorityPath r) as [path|]; [|done].
  destruct (header r ActorHeader =s ""); [done|].
  destruct (MembershipCommand.CanonicalRequestWithActor _ _ _ _ _ _ _ _) as [canonical|] eqn:Ec; [|done].
  destruct (signed_by _ _ _) eqn:Es; [|done]. intros [= <-]. cbn [ac_consumer ac_nonce ac_body ac_actor].
  apply signed_by_Ok in Es as (signature & _ & Hv). split; [by exists key, path, canonical, signature|].
  split; [done|]. split; [done|]. exists p. split; [done|]. bool_hyps. unfold SignatureMaxClockSkewSecs in *. lia.
Qed.
Lemma authenticateRead_Ok r now keys c n :
  authenticateRead r now keys = Ok (c, n) ->
  c = header r ConsumerHeader /\ n = header r NonceHeader
  /\ exists p, ParseInt (header r TimestampHeader) = Some p /\ Unix now - 300 <= p <= Unix now + 300.
Proof.
  unfold authenticateRead. cbv zeta. destruct (negb _); [done|].
  match goal with |- (if ?b then _ else _) = _ -> _ => destruct b eqn:Ev; [done|] end.
  destruct (public_key keys _ _) as [key|]; [|done]. destruct (negb _) in |- *; [done|].
  destruct (MaxBytesReader _ _); [|discriminate]. destruct (canonicalReadAuthorityPath r); [|done].
  destruct (CanonicalRequest _ _ _ _ _ _ _); [|done]. destruct (signed_by _ _ _); [|done]. intros [= <- <-].
  split; [done|]. split; [done|]. bool_hyps. unfold validReadAuthorityTimestamp in *.
  match goal with T : (if ?b then _ else _) = true |- _ => destruct b; [done|] end.
  destruct (ParseInt _) as [p|]; [|done]. exists p. split; [done|]. bool_hyps. unfold SignatureMaxClockSkewSecs in *. lia.
Qed.
Lemma admit_frame key c n t1 t2 env s x s1 :
  admission key c n t1 t2 env s = (x, s1) ->
  db_of s1 = db_of s /\ sv_cfg s1 = sv_cfg s /\ sv_membershipCommandKeys s1 = sv_membershipCommandKeys s.
Proof.
  unfold admission. destruct (Allow _ _ _ _) as [[] m]; cbn [negb]; [|by intros [= <- <-]]. unfold transact_store.
  destruct (ReserveReadAuthorityNonce _ _ _ _ _) as [[u st]|e] eqn:E; intros [= <- <-]; [|done].
  split; [|done]. unfold db_of. cbn. by rewrite (Reserve_platform _ _ _ _ _ _ _ E).
Qed.

(** ** Claims *)

(** C7: a membership command changes the database only with authority. The request
    was signed under the consumer's key over its method, path, query, body and
    actor; the body is a valid command; the actor's assertion verified for the
    consumer's product and names the scope of the command; the change is exactly
    the store's execution of that command by that actor, and it is reported. *)
Theorem command_needs_authority r env s resp s' :
  membershipCommand r env s = (resp, s') -> db_of s' <> db_of s ->
  exists a q issuer claims x,
    authenticateCommand r (en_now env) (sv_membershipCommandKeys s) = Ok a
    /\ command_signed r (sv_membershipCommandKeys s) a
    /\ read_command (ac_body a) = Some q
    /\ AssertionIssuer (sv_cfg s) = Some issuer
    /\ (Assertion.VerifyForProduct issuer (ac_actor a) (membershipCommandAudience (ac_consumer a)).1
          (membershipCommandAudience (ac_consumer a)).2 (en_now env) (en_load env)).1 = Ok claims
    /\ scope_mismatch q claims = false
    /\ ExecuteMembershipCommand (store_request (ac_consumer a) q (Assertion.cl_PlatformUserID claims) (en_now env))
         (en_rng env) (db_of s) = Ok (x, db_of s')
    /\ resp = command_response 200 (command_result (ac_consumer a) q x).
Proof.
  unfold membershipCommand. intros E Hne.
  destruct (authenticateCommand _ _ _) as [a|] eqn:Ea; [|by injection E as <- <-].
  destruct (AssertionIssuer (sv_cfg s)) as [issuer|] eqn:Ei; [|by injection E as <- <-].
  destruct (admission _ _ _ _ _ _ _) as [[u|code] s1] eqn:Ead; apply admit_frame in Ead as (Hdb & Hcfg & _);
    [|injection E as <- <-; congruence].
  destruct (read_command (ac_body a)) as [q|] eqn:Eq; [|injection E as <- <-; congruence].
  unfold run_command in E. destruct (membershipCommandAudience (ac_consumer a)) as [audience key] eqn:Em.
  destruct (Assertion.VerifyForProduct _ _ _ _ _ _) as [[claims|class] issuer'] eqn:Ev;
    [|injection E as <- <-; by rewrite <-Hdb in Hne].
  destruct (scope_mismatch q claims) eqn:Es; [injection E as <- <-; by rewrite <-Hdb in Hne|].
  apply store_call_cases in E as [(x & db' & HE & -> & ->)|(e & _ & _ & ->)]; [|by rewrite <-Hdb in Hne].
  change (db_of (set_issuer issuer' s1)) with (db_of s1) in HE. rewrite Hdb in HE.
  pose proof (authenticateCommand_Ok _ _ _ _ Ea) as [Hsig _].
  exists a, q, issuer, claims, x. rewrite Em. cbn [fst snd]. rewrite Ev. done.
Qed.

(** C33: the rate limit of the machine interfaces, on any sequence of calls by
    at most 4096 keys in the order of their clocks. In no interval of a minute
    does a key get more than 239 requests through, one less than two windows; and
    a request is refused only when 120 of its key got through in the minute that
    ends with it. *)
Theorem rate_window keys calls c upper :
  Z.of_nat (List.length keys) <= 4096 -> Sorted Z.le (map (fun y : rate_call => y.1.2) calls) ->
  Forall (fun y : rate_call => In y.1.1 keys /\ y.1.2 <= upper) calls ->
  (forall a, accepted c a (a + Minute) (rate_run calls).2 <= 2 * RequestsPerMinute - 1)
  /\ (forall pick t, In c keys -> upper <= t -> (Allow pick (rate_run calls).1 c t).1 = false ->
       RequestsPerMinute <= accepted c (t - Minute + 1) (t + 1) (rate_run calls).2).
Proof.
  intros Hk Hs Hc.
  assert (forall a, exists now, now <= upper /\ rate_ok keys now (rate_run calls) /\ window_ok c a now (rate_run calls)
    \/ calls = []) as Hrun.
  { intros a. destruct calls as [|[[k t] pick] calls]; [exists 0; by right|].
    inversion_clear Hc as [|? ? [Hin Hb] Hc']. cbn [fst snd map] in *.
    destruct (rate_run_ok keys Hk c a upper ((k, t, pick) :: calls) t (∅, [])) as (now & Hn);
      [split; [constructor|intros k' e; cbn [fst]; by rewrite lookup_empty]| | | |done|].
    - split; [by vm_compute|]. intros _. by vm_compute.
    - constructor; [exact Hs|]. constructor. cbn. lia.
    - by constructor.
    - exists now. by left. }
  split.
  - intros a. destruct (Hrun a) as (now & [(_ & _ & Hw & _)| ->]); [exact Hw|by vm_compute].
  - intros pick t Hin Ht Hf. destruct (Hrun 0) as (now & [(Hnow & [_ Hm] & _)| ->]); [|by vm_compute in Hf].
    destruct (Allow_spec keys Hk pick (rate_run calls).1 c t) as (m & E & _); [by intros k e [Hi _]%Hm|done|].
    rewrite E in Hf. cbn [fst] in Hf. destruct (live _ t c) as [e|] eqn:El; cbn [after_call] in Hf; [|done].
    destruct (Z.leb_spec RequestsPerMinute (rate_count e)) as [Hge|]; [|done].
    apply live_Some in El as [Ee Hlt]. apply Hm in Ee as (_ & _ & _ & He). etrans; [exact Hge|]. etrans; [exact He|].
    apply count_mono. intros y. rewrite !andb_true_iff, !Z.ltb_lt, !Z.leb_le. intuition lia.
Qed.
End Gateway.

(** ** Witnesses *)

(** The first user of [sample_third_db] adds the third one through TockrCTRL. *)
Module Wire.
#[export] Existing Instances ascii_tables toy_crypto.
#[export] Existing Instances Assertion.Sample.toy_ed25519.
Definition now : Z := Assertion.Sample.t0.
Definition keys : PublicKeySet := {[ "tockrctrl" := {[ "key-1" := fit 32 "public" ]} ]}.
Definition config : Config :=
  mkConfig true false (12 * Hour) true (mkLoginLimiterConfig 0 0 0 0 0) (Some Assertion.Sample.platform) 0 keys ∅ ∅.
Definition server : Server := NewServer (mkReadStore sample_third_db [] [] [] []) config.
Definition body (organisation : string) : string :=
  encode_json (JObject [("scope", JString "organisation_membership"); ("operation", JString "add");
    ("organisation_id", JString organisation); ("user_id", JString "usr_3"); ("role", JString "member");
    ("reason", JString "join"); ("idempotency_key", JString "key-1"); ("expected_version", JNumber "0")]).
Definition headers (nonce name : string) : string :=
  if name =s ConsumerHeader then "tockrctrl" else if name =s KeyIDHeader then "key-1"
  else if name =s TimestampHeader then "1767225600" else if name =s NonceHeader then nonce
  else if name =s SignatureHeader then b64_encode (fit 64 "signature")
  else if name =s ActorHeader then Assertion.Sample.token0 else if name =s MC_VersionHeader then MC_Version
  else if name =s RA_VersionHeader then VersionV2 else "".
Definition command (organisation : string) : Request :=
  mkRequest "POST" "/api/v1/membership-commands" "/api/v1/membership-commands" "" (headers "nonce-1") [] "10.0.0.2:1"
    (Some (body organisation)) true [] false.
Definition env : Env :=
  mkEnv now now now (sample_rs "m") (fun n => Some (fit 32 (FormatInt (Z.of_nat n)))) (fun l => l) (fun _ => "")
    (Err (Text "rand")) "" (fun _ => "") (fun _ => "").
End Wire.
#[local] Existing Instances ascii_tables toy_crypto Assertion.Sample.toy_ed25519.

Lemma command_needs_authority_witness :
  let s' := (membershipCommand (Wire.command "org_1") Wire.env Wire.server).2 in
  List.length (organisation_memberships (db_of s')) = 3%nat /\
  exists a claims, command_signed (Wire.command "org_1") Wire.keys a /\
    (Assertion.VerifyForProduct Assertion.Sample.platform (ac_actor a) "tockrctrl" "product.tockrctrl" Wire.now Wire.now).1
    = Ok claims.
Proof.
  split; [vm_compute; reflexivity|].
  destruct (command_needs_authority (Wire.command "org_1") Wire.env Wire.server
    (membershipCommand (Wire.command "org_1") Wire.env Wire.server).1
    (membershipCommand (Wire.command "org_1") Wire.env Wire.server).2)
    as (a & q & issuer & claims & x & Ha & Hs & _ & Hi & Hv & _).
  - apply surjective_pairing.
  - intros E. apply (f_equal (fun db => List.length (organisation_memberships db))) in E. vm_compute in E. discriminate E.
  - exists a, claims. split; [exact Hs|].
    assert (ac_consumer a = "tockrctrl") as Hc.
    { apply authenticateCommand_Ok in Ha as (_ & -> & _). vm_compute. reflexivity. }
    rewrite Hc in Hv. cbn in Hi. injection Hi as <-. exact Hv.
Defined.

(** A burst at the end of one window and at the start of the next. *)
Definition burst : list rate_call :=
  map (fun t => ("tockrctrl", t, fun _ => "")) (0 :: repeat (59 * Second) 130 ++ repeat Minute 130)%list.
Lemma rate_window_witness :
  accepted "tockrctrl" 1 (1 + Minute) (rate_run burst).2 = 239
  /\ accepted "tockrctrl" 1 (1 + Minute) (rate_run burst).2 <= 2 * RequestsPerMinute - 1.
Proof.
  split; [vm_compute; reflexivity|].
  apply (proj1 (rate_window ["tockrctrl"] burst "tockrctrl" Minute ltac:(vm_compute; discriminate)
    ltac:(apply Sorted_LocallySorted_iff; vm_compute; repeat constructor; discriminate)
    ltac:(repeat constructor; vm_compute; discriminate)) 1).
Defined.
