(* ===== verification/Serve.v ===== *)
(** internal/platform/http/server.go, Handler: the routes with their middleware,
    and what holds of every request: which transactions it runs, who may run
    them, and what the two machine interfaces and the hand-over to a product
    guarantee end to end. *)
From stdpp Require Import base tactics option list gmap strings relations.
From Stdlib Require Import ZArith Lia Ascii String.
From S2P Require Import Prelude GoStrings GoTime Codec Errors Domain Json Events Schema Outbox Auth Limiter ReadAuthority.
From S2P Require Import CommandContract Assertion Identity Mfa Organisation Access Workspace Snapshot SnapshotLaws.
From S2P Require Import Product Command Projection Announce System Url Pages Http Login Api Ui Gateway.

Local Open Scope string_scope.
Local Open Scope Z_scope.

(** ** Routes, with their URL parameters *)
Inductive ProtectedRoute :=
| GetLauncher | GetWorkspaceSelector (organisationID : string) | GetLaunch (productKey : string)
| PostHandoff (productKey : string) | GetAdmin | GetSystemProducts | PostRetireProductUI (productKey : string)
| GetOrganisationAdmin (organisationID section : string) | GetWorkspaceAdmin (workspaceID : string)
| PostRenameOrganisationUI (organisationID : string) | PostArchiveOrganisationUI (organisationID : string)
| PostAddMemberUI (organisationID : string) | PostMemberRoleUI (organisationID userID : string)
| PostRemoveMemberUI (organisationID userID : string) | PostCreateWorkspaceUI (organisationID : string)
| PostEntitleUI (organisationID : string) | PostRevokeEntitlementUI (organisationID entitlementID : string)
| PostAssignUI (organisationID : string) | PostRevokeAssignmentUI (organisationID assignmentID : string)
| PostAddWorkspaceMemberUI (workspaceID : string) | PostWorkspaceRoleUI (workspaceID userID : string)
| PostRemoveWorkspaceMemberUI (workspaceID userID : string) | PostArchiveWorkspaceUI (workspaceID : string)
| GetAccount | PostMFASetup | PostMFAConfirm | PostLogout
| PostOrganisation | GetOrganisationRoute (organisationID : string) | GetWorkspaceEntry (organisationID : string)
| PostWorkspace (organisationID : string) | GetWorkspaces (organisationID : string)
| GetMembers (organisationID : string) | GetAudit (organisationID : string) | PatchOrganisation (organisationID : string)
| PostMember (organisationID : string) | PatchMember (organisationID userID : string)
| DeleteMember (organisationID userID : string) | PostArchive (organisationID : string)
| GetProducts | PostRetire (productKey : string) | GetEntitlements (organisationID : string)
| PostEntitlement (organisationID : string) | DeleteEntitlement (organisationID entitlementID : string)
| GetAssignments (organisationID : string) | PostAssignment (organisationID : string)
| DeleteAssignment (organisationID assignmentID : string)
| GetProductAccess (organisationID productKey workspaceID : string)
| PostProductAssertion (organisationID productKey workspaceID : string)
| GetWorkspaceRoute (workspaceID : string) | GetWorkspaceMembers (workspaceID : string)
| GetWorkspaceAudit (workspaceID : string) | PostWorkspaceMember (workspaceID : string)
| PatchWorkspaceMember (workspaceID userID : string) | DeleteWorkspaceMember (workspaceID userID : string)
| PostWorkspaceArchive (workspaceID : string).
Inductive Route :=
| GetHealth | GetReady (notReady : bool) | GetFavicon | GetAssertionKeys | GetLogin | PostLogin
| PostSnapshot | GetSnapshotRecords (snapshotID : string) | GetChanges | GetStatus
| PostMembershipCommand | Protected (route : ProtectedRoute).

Section Serve.
Context `{UnicodeTables} `{Crypto} `{Ed25519} (secretKey : string).

Definition protected (route : ProtectedRoute) (r : Request) (env : Env) (session : AuthenticatedSession) : handler :=
  let read := fun w => requireWorkspaceScope session false w in
  let admin := fun w => requireWorkspaceScope session true w in
  match route with
  | GetLauncher => platformLauncher r session
  | GetWorkspaceSelector o => workspaceSelector r session o
  | GetLaunch k => productAccessPage r session k
  | PostHandoff k => productHandoff r env session k
  | GetAdmin => adminLanding r session
  | GetSystemProducts => systemProductAdminPage r session
  | PostRetireProductUI k => retireProductUI r env session k
  | GetOrganisationAdmin o section => organisationAdminPage r session o section
  | GetWorkspaceAdmin w => workspaceAdminPage r session w
  | PostRenameOrganisationUI o => renameOrganisationUI r env session o
  | PostArchiveOrganisationUI o => archiveOrganisationUI r env session o
  | PostAddMemberUI o => addOrganisationMemberUI r env session o
  | PostMemberRoleUI o u => changeOrganisationMemberRoleUI r env session o u
  | PostRemoveMemberUI o u => deactivateOrganisationMemberUI r env session o u
  | PostCreateWorkspaceUI o => createWorkspaceUI r env session o
  | PostEntitleUI o => entitleOrganisationUI r env session o
  | PostRevokeEntitlementUI o e => revokeOrganisationEntitlementUI r env session o e
  | PostAssignUI o => assignUserProductUI r env session o
  | PostRevokeAssignmentUI o a => revokeUserProductUI r env session o a
  | PostAddWorkspaceMemberUI w => addWorkspaceMemberUI r env session w
  | PostWorkspaceRoleUI w u => changeWorkspaceMemberRoleUI r env session w u
  | PostRemoveWorkspaceMemberUI w u => deactivateWorkspaceMemberUI r env session w u
  | PostArchiveWorkspaceUI w => archiveWorkspaceUI r env session w
  | GetAccount => accountPage r session
  | PostMFASetup => mfaSetup secretKey r env session
  | PostMFAConfirm => mfaConfirm secretKey r env session
  | PostLogout => logout r env session
  | PostOrganisation => createOrganisation r env session
  | GetOrganisationRoute o => getOrganisation session o
  | GetWorkspaceEntry o => getOrganisationWorkspaceEntry session o
  | PostWorkspace o => createWorkspace r env session o
  | GetWorkspaces o => listOrganisationWorkspaces session o
  | GetMembers o => listOrganisationMembers session o
  | GetAudit o => listOrganisationAudit r session o
  | PatchOrganisation o => renameOrganisation r env session o
  | PostMember o => addOrganisationMember r env session o
  | PatchMember o u => changeOrganisationMemberRole r env session o u
  | DeleteMember o u => deactivateOrganisationMember r env session o u
  | PostArchive o => archiveOrganisation r env session o
  | GetProducts => listProducts session
  | PostRetire k => retireProduct r env session k
  | GetEntitlements o => listOrganisationProductEntitlements session o
  | PostEntitlement o => entitleOrganisation r env session o
  | DeleteEntitlement o e => revokeOrganisationEntitlement r env session o e
  | GetAssignments o => listUserProductAssignments session o
  | PostAssignment o => assignUserProduct r env session o
  | DeleteAssignment o a => revokeUserProduct r env session o a
  | GetProductAccess o k w => proveProductAccess session o k w
  | PostProductAssertion o k w => issueProductAssertion r env session o k w
  | GetWorkspaceRoute w => read w (getWorkspace session w)
  | GetWorkspaceMembers w => admin w (listWorkspaceMembers session w)
  | GetWorkspaceAudit w => admin w (listWorkspaceAudit r session w)
  | PostWorkspaceMember w => admin w (addWorkspaceMember r env session w)
  | PatchWorkspaceMember w u => admin w (changeWorkspaceMemberRole r env session w u)
  | DeleteWorkspaceMember w u => admin w (deactivateWorkspaceMember r env session w u)
  | PostWorkspaceArchive w => admin w (archiveWorkspace r env session w)
  end.

(** requestBodyLimit *)
Definition requestBodyLimit (n : Z) (r : Request) : Request :=
  mkRequest (rq_Method r) (rq_Path r) (rq_EscapedPath r) (rq_RawQuery r) (rq_Header r) (rq_Cookies r) (rq_RemoteAddr r)
    (MaxBytesReader (rq_Body r) n) (rq_FormOk r) (rq_Form r) (rq_IsForm r).
Definition health : Response := writeJSON 200 (JObject [("status", JString "ok")]).
Definition ready (notReady : bool) : Response :=
  if notReady then writeJSON 503 (JObject [("status", JString "not_ready")])
  else writeJSON 200 (JObject [("status", JString "ready")]).
Definition Handler (route : Route) (r : Request) (env : Env) : handler := fun s =>
  let r := requestBodyLimit (MaxRequestBodyBytes (sv_cfg s)) r in
  match route with
  | GetHealth => answer health
  | GetReady b => answer (ready b)
  | GetFavicon => answer (WriteHeader 204)
  | GetAssertionKeys => assertionKeys
  | GetLogin => loginPage r env
  | PostLogin => login secretKey r env
  | PostSnapshot => requireReadAuthority r env (createReadAuthoritySnapshot r env)
  | GetSnapshotRecords id => requireReadAuthority r env (listReadAuthoritySnapshotRecords id r env)
  | GetChanges => requireReadAuthority r env (listReadAuthorityChanges r)
  | GetStatus => requireReadAuthority r env readAuthorityStatus
  | PostMembershipCommand => membershipCommand r env
  | Protected route => requireSession r env (protected route r env)
  end s.
End Serve.
