(* ===== verification/ServeLaws.v ===== *)
(** What holds of every request a server handles: its effects on the store are
    transactions of the store, so that every invariant of System.v holds of a
    running server; the database changes only for a live session with its CSRF
    token or for a signed command; a nonce is accepted once; an assertion is
    issued only to a user with access. *)
From stdpp Require Import base tactics option list gmap strings relations.
From Stdlib Require Import ZArith Lia Ascii String.
From S2P Require Import Prelude GoStrings GoTime Codec Errors Domain Json Events Schema Outbox Auth Limiter ReadAuthority.
From S2P Require Import CommandContract Assertion Identity Mfa Organisation Access Workspace Snapshot SnapshotLaws.
From S2P Require Import Product Command Projection Announce System Url Pages Http Login Api Ui Gateway Serve.

Local Open Scope string_scope.
Local Open Scope Z_scope.

Section Effects.
Context `{UnicodeTables} `{Crypto} `{Ed25519} (secretKey : string).

(** ** Effects: the atomic changes a request makes to the server *)
Inductive effect (env : Env) (s : Server) : Server -> Prop :=
| eff_transaction A (m : St DB error A) a db :
    operation secretKey A m -> m (db_of s) = Ok (a, db) -> effect env s (set_db db s)
| eff_limiter l : effect env s (set_limiter l s)
| eff_rate m : effect env s (set_rate m s)
| eff_verify issuer token audience key now clock x issuer' :
    AssertionIssuer (sv_cfg s) = Some issuer ->
    Assertion.VerifyForProduct issuer token audience key now clock = (x, issuer') -> effect env s (set_issuer issuer' s)
| eff_nonce consumer nonce t st :
    t = en_now env \/ t = en_store env ->
    ReserveReadAuthorityNonce consumer nonce t (t + 24 * Hour) (sv_store s) = Ok (tt, st) -> effect env s (set_store st s)
| eff_snapshot consumer kinds ttl snapshot st :
    CreateReadAuthoritySnapshot consumer kinds ttl SnapshotMaxPageSize (en_now env) (en_raw env 0) (sv_store s)
      = Ok (snapshot, st) -> effect env s (set_store st s).
Definition runs (env : Env) (h : handler) : Prop := forall s, rtc (effect env) s (h s).2.

Lemma runs_answer env x : runs env (answer x).
Proof. intros s. apply rtc_refl. Qed.
Lemma transact_runs env A (m : St DB error A) s : operation secretKey A m -> rtc (effect env) s (transact m s).2.
Proof.
  intros Hm. unfold transact. destruct (m (db_of s)) as [[a db]|e] eqn:E; [|apply rtc_refl].
  apply rtc_once. by eapply eff_transaction.
Qed.
Lemma runs_store_call env A (m : St DB error A) f k : operation secretKey A m -> runs env (store_call m f k).
Proof.
  intros Hm s. pose proof (transact_runs env A m s Hm) as Hr. unfold store_call. by destruct (transact m s) as [[] ?].
Qed.
Lemma runs_store_read env A (m : DB -> res A) f k : runs env (store_read m f k).
Proof. intros s. unfold store_read. destruct (m (db_of s)); apply rtc_refl. Qed.
Lemma runs_mutation env r A (read : option string -> option A) next :
  (forall q, runs env (next q)) -> runs env (mutation r read next).
Proof. intros Hn s. unfold mutation. destruct (negb _); [apply rtc_refl|]. destruct (read _); [apply Hn|apply rtc_refl]. Qed.
Lemma runs_form env r A (m : St DB error A) x : operation secretKey A m -> runs env (form r m x).
Proof.
  intros Hm s. unfold form, prepareUIForm. destruct (negb _); [apply rtc_refl|]. destruct (negb _); [apply rtc_refl|].
  by apply runs_store_call.
Qed.
Lemma runs_uiSession env r next : (forall c, runs env (next c)) -> runs env (uiSession r next).
Proof.
  intros Hn s. unfold uiSession. destruct (Cookie _ _) as [c|]; [|apply rtc_refl]. destruct (blank c); [apply rtc_refl|apply Hn].
Qed.
Lemma runs_ui_read env A (m : DB -> res A) next : (forall a, runs env (next a)) -> runs env (ui_read m next).
Proof. intros Hn s. unfold ui_read. destruct (m _); [apply Hn|apply rtc_refl]. Qed.
Lemma runs_scope env session b w next : runs env next -> runs env (requireWorkspaceScope session b w next).
Proof. intros Hn s. unfold requireWorkspaceScope. destruct (ProveWorkspaceScope _ _ _ _); [apply Hn|apply rtc_refl]. Qed.
Lemma runs_if env (b : bool) h1 h2 : runs env h1 -> runs env h2 -> runs env (if b then h1 else h2).
Proof. by destruct b. Qed.
(** A handler that only answers. *)
Lemma runs_still env (h : handler) : (forall s, (h s).2 = s) -> runs env h.
Proof. intros Hh s. rewrite Hh. apply rtc_refl. Qed.
End Effects.

(** Case analysis for handlers that leave the server as it is. *)
Ltac still := intros ?; repeat match goal with |- context [match ?x with _ => _ end] => destruct x end; reflexivity.
Ltac runs_step :=
  first [ apply runs_answer | apply runs_store_read
        | apply runs_store_call; by constructor | apply runs_form; by constructor
        | apply runs_mutation; intros ? | apply runs_uiSession; intros ? | apply runs_ui_read; intros ?
        | apply runs_scope | apply runs_if ].
Ltac unfold_api :=
  unfold createOrganisation, getOrganisation, listOrganisationMembers, listOrganisationAudit,
    getOrganisationWorkspaceEntry, renameOrganisation, addOrganisationMember, changeOrganisationMemberRole,
    deactivateOrganisationMember, archiveOrganisation, createWorkspace, listOrganisationWorkspaces, getWorkspace,
    listWorkspaceMembers, listWorkspaceAudit, addWorkspaceMember, changeWorkspaceMemberRole, deactivateWorkspaceMember,
    archiveWorkspace, listProducts, retireProduct, listOrganisationProductEntitlements, entitleOrganisation,
    revokeOrganisationEntitlement, listUserProductAssignments, assignUserProduct, revokeUserProduct, proveProductAccess.
Ltac unfold_ui :=
  unfold renameOrganisationUI, archiveOrganisationUI, addOrganisationMemberUI, changeOrganisationMemberRoleUI,
    deactivateOrganisationMemberUI, createWorkspaceUI, entitleOrganisationUI, revokeOrganisationEntitlementUI,
    assignUserProductUI, revokeUserProductUI, addWorkspaceMemberUI, changeWorkspaceMemberRoleUI,
    deactivateWorkspaceMemberUI, archiveWorkspaceUI, retireProductUI, workspaceSelector, systemProductAdminPage,
    organisationAdminPage, workspaceAdminPage, productAccessPage, platformLauncher.

Section Requests.
Context `{UnicodeTables} `{Crypto} `{Ed25519} (secretKey : string).

Lemma runs_audit env r f : (forall n : Z, runs secretKey env (f n)) ->
  runs secretKey env (match audit_limit r with None => answer invalid_limit | Some n => f n end).
Proof. intros Hf. destruct (audit_limit r); [apply Hf|apply runs_answer]. Qed.

Lemma protected_runs route r env session :
  four_digit_year (en_now env) -> runs secretKey env (protected secretKey route r env session).
Proof.
  intros Ht. destruct route; cbn [protected]; unfold_api; unfold_ui; repeat runs_step; try (apply runs_audit; intros ?; runs_step).
  all: try (apply runs_still; still).
  - apply runs_still. unfold ui_read. still.
  - apply runs_still. unfold adminLanding. still.
  - intros s. unfold mfaSetup. repeat case_match; try apply rtc_refl. apply runs_store_call. constructor.
  - intros s. unfold mfaConfirm. repeat case_match; try apply rtc_refl; apply runs_store_call; constructor.
  - intros s. unfold logout. repeat case_match; try apply rtc_refl; apply runs_store_call; constructor.
Qed.

Lemma runs_limiter env l s : rtc (effect secretKey env) s (set_limiter l s).
Proof. apply rtc_once, eff_limiter. Qed.
Lemma reject_runs id event details key env s :
  rtc (effect secretKey env) s (reject_login id event details key env s).2.
Proof.
  unfold reject_login. pose proof (transact_runs secretKey env _ _ s (op_RecordSecurityEvent secretKey id event details (en_now env))) as Hr.
  destruct (transact _ s) as [[u|e] s1]; [|done]. destruct (RateLimitEnabled _); [|done].
  destruct (RecordFailure _ _ _ _) as [[d b] l]. cbn [snd] in Hr.
  replace (_.2) with (set_limiter l s1) by (by destruct b). etrans; [exact Hr|apply runs_limiter].
Qed.
Lemma second_factor_runs r id env s : rtc (effect secretKey env) s (second_factor secretKey r id env s).2.
Proof.
  unfold second_factor. destruct (TrimSpace (FormValue r "mfa_code") =s "").
  - destruct (_ && _); [|apply rtc_refl]. apply transact_runs. constructor.
  - rewrite (surjective_pairing (transact _ _)).
    assert (rtc (effect secretKey env) s (transact (VerifyMFA secretKey id (TrimSpace (FormValue r "mfa_code"))
      (en_store env)) s).2) as Hr by (apply transact_runs; constructor).
    destruct (_ && _); [|exact Hr]. etrans; [exact Hr|]. apply transact_runs. constructor.
Qed.
Lemma establish_runs id key env s : four_digit_year (en_now env + SessionTTL (sv_cfg s)) ->
  rtc (effect secretKey env) s (establish id key env s).2.
Proof.
  intros He. unfold establish. set (s0 := if RateLimitEnabled _ then _ else _).
  assert (rtc (effect secretKey env) s s0 /\ sv_cfg s0 = sv_cfg s) as [Hr Hc].
  { unfold s0. destruct (RateLimitEnabled _); [split; [apply runs_limiter|done]|split; [apply rtc_refl|done]]. }
  etrans; [exact Hr|]. destruct (NewOpaqueToken _); [|apply rtc_refl].
  destruct (NewOpaqueToken _); [|apply rtc_refl]. apply runs_store_call. rewrite Hc. by constructor.
Qed.
Lemma login_runs r env s : four_digit_year (en_now env + SessionTTL (sv_cfg s)) ->
  rtc (effect secretKey env) s (login secretKey r env s).2.
Proof.
  intros He. assert (forall l, rtc (effect secretKey env) s (attempt secretKey r env (set_limiter l s)).2) as Ha.
  { intros l. etrans; [apply (runs_limiter env l)|]. unfold attempt.
    destruct (first_factor _ _) as [user|]; [|apply reject_runs].
    destruct (User_MFAEnabled user); [|by apply establish_runs].
    pose proof (second_factor_runs r (User_ID user) env (set_limiter l s)) as Hr.
    destruct (second_factor _ _ _ _ _) as [[[]|] s1] eqn:E2; [| |exact Hr].
    - etrans; [exact Hr|]. apply establish_runs. apply second_factor_sessions in E2 as [_ ->]. done.
    - etrans; [exact Hr|]. apply reject_runs. }
  unfold login. destruct (negb _); [apply rtc_refl|]. destruct (negb _); [apply rtc_refl|].
  destruct (RateLimitEnabled _).
  - destruct (RetryAfter _ _ _) as [[d []] l]; [apply runs_limiter|apply Ha].
  - specialize (Ha (sv_limiter s)). by destruct s.
Qed.

Lemma admit_runs key consumer nonce t1 t2 env s :
  t2 = en_now env \/ t2 = en_store env ->
  rtc (effect secretKey env) s (admission key consumer nonce t1 t2 env s).2 /\ sv_cfg (admission key consumer nonce t1 t2 env s).2 = sv_cfg s.
Proof.
  intros Ht. unfold admission. destruct (Allow _ _ _ _) as [allowed m].
  assert (rtc (effect secretKey env) s (set_rate m s)) as Hr by (apply rtc_once, eff_rate).
  destruct (negb allowed); [done|]. unfold transact_store.
  destruct (ReserveReadAuthorityNonce _ _ _ _ _) as [[[] st]|e] eqn:E; [|done].
  split; [|done]. eapply rtc_r; [exact Hr|]. by eapply eff_nonce.
Qed.
Lemma requireReadAuthority_runs r env next : (forall c, runs secretKey env (next c)) ->
  runs secretKey env (requireReadAuthority r env next).
Proof.
  intros Hn s. unfold requireReadAuthority. destruct (authenticateRead _ _ _) as [[consumer nonce]|]; [|apply rtc_refl].
  destruct (admit_runs consumer consumer nonce (en_now env) (en_store env) env s) as [Hr _]; [by right|].
  destruct (admission _ _ _ _ _ _ _) as [[] s1]; [|exact Hr]. etrans; [exact Hr|apply Hn].
Qed.
Lemma run_command_runs a q issuer now clock rs env s :
  four_digit_year now -> AssertionIssuer (sv_cfg s) = Some issuer ->
  rtc (effect secretKey env) s (run_command a q issuer now clock rs s).2.
Proof.
  intros Ht EI. unfold run_command. destruct (membershipCommandAudience _) as [audience key].
  destruct (Assertion.VerifyForProduct _ _ _ _ _ _) as [x issuer'] eqn:EV.
  assert (rtc (effect secretKey env) s (set_issuer issuer' s)) as Hi by (by eapply rtc_once, eff_verify).
  destruct x as [claims|class]; [|exact Hi]. etrans; [exact Hi|].
  destruct (scope_mismatch _ _); [apply rtc_refl|]. apply runs_store_call. by constructor.
Qed.
Lemma membershipCommand_runs r env : four_digit_year (en_now env) -> runs secretKey env (membershipCommand r env).
Proof.
  intros Ht s. unfold membershipCommand. destruct (authenticateCommand _ _ _) as [a|]; [|apply rtc_refl].
  destruct (AssertionIssuer _) as [issuer|] eqn:EI; [|apply rtc_refl].
  destruct (admit_runs ("membership-command:" ++ ac_consumer a) (ac_consumer a) (ac_nonce a) (en_now env) (en_now env)
    env s) as [Hr Hc]; [by left|].
  destruct (admission _ _ _ _ _ _ _) as [[] s1]; [|exact Hr]. cbn [snd] in *. destruct (read_command _) as [q|]; [|exact Hr].
  etrans; [exact Hr|]. apply run_command_runs; [done|by rewrite Hc].
Qed.
Lemma createSnapshot_runs r env c : runs secretKey env (createReadAuthoritySnapshot r env c).
Proof.
  intros s1. unfold createReadAuthoritySnapshot, transact_store.
  destruct (read_snapshotRequest _); [|apply rtc_refl]. destruct (negb _); [apply rtc_refl|].
  destruct (CreateReadAuthoritySnapshot _ _ _ _ _ _ _) as [[x st]|] eqn:E; [|apply rtc_refl].
  apply rtc_once. by eapply eff_snapshot.
Qed.
Lemma records_still id r env c s : (listReadAuthoritySnapshotRecords id r env c s).2 = s.
Proof. revert s. unfold listReadAuthoritySnapshotRecords. still. Qed.
Lemma changes_still r c s : (listReadAuthorityChanges r c s).2 = s.
Proof. revert s. unfold listReadAuthorityChanges. still. Qed.
Lemma status_still c s : (readAuthorityStatus c s).2 = s.
Proof. revert s. unfold readAuthorityStatus. still. Qed.

(** The effects of a whole request. *)
Lemma Handler_runs route r env s :
  four_digit_year (en_now env) -> four_digit_year (en_now env + SessionTTL (sv_cfg s)) ->
  rtc (effect secretKey env) s (Handler secretKey route r env s).2.
Proof.
  intros Ht He. unfold Handler. set (r' := requestBodyLimit _ r).
  destruct route; cbv beta iota; try apply rtc_refl.
  - unfold assertionKeys. destruct (AssertionIssuer _); apply rtc_refl.
  - unfold loginPage. repeat case_match; apply rtc_refl.
  - by apply login_runs.
  - apply requireReadAuthority_runs. intros c. apply createSnapshot_runs.
  - apply requireReadAuthority_runs. intros c. apply runs_still, records_still.
  - apply requireReadAuthority_runs. intros c. apply runs_still, changes_still.
  - apply requireReadAuthority_runs. intros c. apply runs_still, status_still.
  - by apply membershipCommand_runs.
  - unfold requireSession. destruct (loadSession _ _ _) as [session|e]; [|apply rtc_refl]. by apply protected_runs.
Qed.

Lemma serve_invariant (P : Server -> Prop) route r env s :
  four_digit_year (en_now env) -> four_digit_year (en_now env + SessionTTL (sv_cfg s)) ->
  (forall s s', effect secretKey env s s' -> P s -> P s') -> P s -> P (Handler secretKey route r env s).2.
Proof.
  intros Ht He HP Hs. pose proof (Handler_runs route r env s Ht He) as Hr. clear Ht He.
  revert Hr. generalize (Handler secretKey route r env s).2 as s'. intros s' Hr.
  induction Hr as [|x y z Hxy _ IH]; [done|]. apply IH. by eapply HP.
Qed.

(** *** What the store operations of the machine interfaces leave alone *)
Lemma Create_frame c kinds ttl page t raw st x st' :
  CreateReadAuthoritySnapshot c kinds ttl page t raw st = Ok (x, st') ->
  platform st' = platform st /\ nonces st' = nonces st.
Proof.
  unfold CreateReadAuthoritySnapshot. intros E. inv_read.
  match goal with S : store_records _ _ _ _ = Ok _ |- _ => apply store_records_Ok in S as (rows & _ & ->) end. done.
Qed.

(** A sequence of requests. *)
Definition request := (Route * Request * Env)%type.
Definition serve_all (l : list request) (s : Server) : Server :=
  fold_left (fun s x => (Handler secretKey x.1.1 x.1.2 x.2 s).2) l s.
Definition timely (ttl : Z) (x : request) : Prop := four_digit_year (en_now x.2) /\ four_digit_year (en_now x.2 + ttl).

Lemma effect_ttl env s s' : effect secretKey env s s' -> SessionTTL (sv_cfg s') = SessionTTL (sv_cfg s).
Proof. by destruct 1. Qed.
Lemma serve_all_invariant (P : Server -> Prop) l s :
  Forall (timely (SessionTTL (sv_cfg s))) l ->
  (forall x, In x l -> forall s s', effect secretKey x.2 s s' -> P s -> P s') -> P s -> P (serve_all l s).
Proof.
  revert s. induction l as [|x l IH]; intros s Hl HP Hs; [done|]. inversion_clear Hl as [|? ? [Ht He] Hl'].
  cbn [serve_all fold_left]. apply IH; [|intros y Hy; apply HP; by right|].
  - assert (SessionTTL (sv_cfg (Handler secretKey x.1.1 x.1.2 x.2 s).2) = SessionTTL (sv_cfg s)) as ->; [|done].
    apply (serve_invariant (fun y => SessionTTL (sv_cfg y) = SessionTTL (sv_cfg s))); try done.
    intros y y' Hy. by rewrite (effect_ttl _ _ _ Hy).
  - apply serve_invariant; try done. intros y y'. apply HP. by left.
Qed.

Lemma effect_reachable env s s' :
  effect secretKey env s s' -> reachable secretKey (db_of s) -> reachable secretKey (db_of s').
Proof.
  intros He Hr. destruct He; try done.
  - eapply rtc_r; [exact Hr|]. by eapply step_commit.
  - unfold db_of. cbn. by erewrite Reserve_platform.
  - unfold db_of. cbn. match goal with C : CreateReadAuthoritySnapshot _ _ _ _ _ _ _ = _ |- _ => apply Create_frame in C as [-> _] end. done.
Qed.

(** *** Who may change the database *)
Definition csrf_shown (r : Request) (db : DB) : Prop :=
  exists cookie token, Cookie r sessionCookieName = Some cookie
    /\ (token = rq_Header r "X-CSRF-Token" \/ token = FormValue r "csrf")
    /\ VerifySessionCSRF cookie token db = Ok true.
Definition guarded (r : Request) (h : handler) : Prop := forall s, db_of (h s).2 <> db_of s -> csrf_shown r (db_of s).

Lemma verified_shown r db : verifyMutationCSRF r db = true -> csrf_shown r db.
Proof.
  unfold verifyMutationCSRF. destruct (Cookie r sessionCookieName) as [cookie|] eqn:E; [|done].
  destruct (VerifySessionCSRF _ _ _) as [[]|] eqn:V; try done. intros _. exists cookie, (csrf_token r).1.
  split_and!; try done. unfold csrf_token. destruct (_ && _); [by right|by left].
Qed.
Lemma form_shown r db x : sessionCSRF r db = Some x -> csrf_shown r db.
Proof.
  unfold sessionCSRF. destruct (Cookie r sessionCookieName) as [cookie|] eqn:E; [|done].
  destruct (Cookie r "platform_csrf"); [|done]. destruct (VerifySessionCSRF _ _ _) as [[]|] eqn:V; try discriminate. intros _.
  exists cookie, (FormValue r "csrf"). auto.
Qed.
Lemma guarded_still r (h : handler) : (forall s, (h s).2 = s) -> guarded r h.
Proof. intros Hh s Hne. by rewrite Hh in Hne. Qed.
Lemma guarded_answer r x : guarded r (answer x).
Proof. by apply guarded_still. Qed.
Lemma guarded_store_read r A (m : DB -> res A) f k : guarded r (store_read m f k).
Proof. apply guarded_still. unfold store_read. still. Qed.
Lemma guarded_mutation r A (read : option string -> option A) next : guarded r (mutation r read next).
Proof.
  intros s. unfold mutation. destruct (verifyMutationCSRF r (db_of s)) eqn:E; [|done]. intros _. by apply verified_shown.
Qed.
Lemma guarded_form r A (m : St DB error A) x : guarded r (form r m x).
Proof.
  intros s. unfold form, prepareUIForm. destruct (negb (rq_FormOk r)); [done|].
  destruct (verifyMutationCSRF r (db_of s)) eqn:E; [|done]. intros _. by apply verified_shown.
Qed.
Lemma guarded_uiSession r r' next : (forall c, guarded r (next c)) -> guarded r (uiSession r' next).
Proof. intros Hn s. unfold uiSession. destruct (Cookie _ _) as [c|]; [|done]. destruct (blank c); [done|apply Hn]. Qed.
Lemma guarded_ui_read r A (m : DB -> res A) next : (forall a, guarded r (next a)) -> guarded r (ui_read m next).
Proof. intros Hn s. unfold ui_read. destruct (m _); [apply Hn|done]. Qed.
Lemma guarded_scope r session b w next : guarded r next -> guarded r (requireWorkspaceScope session b w next).
Proof. intros Hn s. unfold requireWorkspaceScope. destruct (ProveWorkspaceScope _ _ _ _); [apply Hn|done]. Qed.
Lemma guarded_if r (b : bool) h1 h2 : guarded r h1 -> guarded r h2 -> guarded r (if b then h1 else h2).
Proof. by destruct b. Qed.
Ltac guarded_step :=
  first [ apply guarded_answer | apply guarded_store_read | apply guarded_form | apply guarded_mutation
        | apply guarded_uiSession; intros ? | apply guarded_ui_read; intros ? | apply guarded_scope | apply guarded_if ].

Lemma protected_guarded route r env session : guarded r (protected secretKey route r env session).
Proof.
  destruct route; cbn [protected]; unfold_api; unfold_ui; repeat guarded_step.
  all: try match goal with |- context [audit_limit ?q] => destruct (audit_limit q); repeat guarded_step end.
  all: try (apply guarded_still; still).
  - apply guarded_still. unfold ui_read. still.
  - apply guarded_still. unfold adminLanding. still.
  - intros s. unfold mfaSetup. destruct (negb _); [done|]. destruct (sessionCSRF r (db_of s)) eqn:E; [|done].
    intros _. by eapply form_shown.
  - intros s. unfold mfaConfirm. destruct (negb _); [done|]. destruct (sessionCSRF r (db_of s)) eqn:E; [|done].
    intros _. by eapply form_shown.
  - intros s. unfold logout. destruct (negb _); [done|]. destruct (Cookie r sessionCookieName) as [cookie|] eqn:E; [|done].
    destruct (VerifySessionCSRF _ _ _) as [[]|] eqn:V; try done. intros _. exists cookie, (FormValue r "csrf"). auto.
Qed.

Lemma admit_db key c n t1 t2 env s : db_of (admission key c n t1 t2 env s).2 = db_of s.
Proof.
  unfold admission. destruct (Allow _ _ _ _) as [[] m]; cbn [negb]; [|done]. unfold transact_store.
  destruct (ReserveReadAuthorityNonce _ _ _ _ _) as [[u st]|e] eqn:E; [|done].
  unfold db_of. cbn. by rewrite (Reserve_platform _ _ _ _ _ _ _ E).
Qed.
Lemma readAuthority_db r env next s :
  (forall c s, db_of (next c s).2 = db_of s) -> db_of (requireReadAuthority r env next s).2 = db_of s.
Proof.
  intros Hn. unfold requireReadAuthority. destruct (authenticateRead _ _ _) as [[c n]|]; [|done].
  pose proof (admit_db c c n (en_now env) (en_store env) env s) as Ha. destruct (admission _ _ _ _ _ _ _) as [[] s1]; [|done].
  by rewrite Hn.
Qed.
Lemma still_db (h : handler) s : (forall s, (h s).2 = s) -> db_of (h s).2 = db_of s.
Proof. by intros ->. Qed.

(** ** Claims *)

(** C2: the running server refines the store's transition system. Whatever
    requests it serves after it started on a reachable database, in whatever
    order, its database stays reachable by committed transactions of the store,
    so that every invariant of the reachable states holds of it. *)
Theorem server_reachable cfg store l :
  reachable secretKey (platform store) -> Forall (timely (SessionTTL (with_defaults cfg))) l ->
  reachable secretKey (db_of (serve_all l (NewServer store cfg))).
Proof.
  intros Hr Hl. apply (serve_all_invariant (fun s => reachable secretKey (db_of s))); [exact Hl| |exact Hr].
  intros x _ s s'. apply effect_reachable.
Qed.

(** C3: nothing changes the platform's data without authority. If a request
    changes the database, then it is a login form with the token of its cookie,
    a membership command that was authenticated, or a request of a live session
    that shows the session's CSRF token; the read-authority interface, health
    checks and pages never change it. *)
Theorem change_is_authorised route r env s :
  db_of (Handler secretKey route r env s).2 <> db_of s ->
  match route with
  | PostLogin => login_csrf r = true
  | PostMembershipCommand =>
      is_ok (authenticateCommand (requestBodyLimit (MaxRequestBodyBytes (sv_cfg s)) r) (en_now env)
               (sv_membershipCommandKeys s)) = true
  | Protected _ => (exists session, loadSession r (en_load env) (db_of s) = Ok session) /\ csrf_shown r (db_of s)
  | _ => False
  end.
Proof.
  unfold Handler. set (r' := requestBodyLimit _ r). intros Hne. destruct route; cbv beta iota in Hne; try apply Hne; try done.
  - unfold assertionKeys. by destruct (AssertionIssuer _).
  - apply still_db. unfold loginPage. still.
  - unfold login in Hne. change (login_csrf r') with (login_csrf r) in Hne. destruct (negb (rq_FormOk r')); [done|].
    by destruct (login_csrf r).
  - apply readAuthority_db. intros c s1. unfold createReadAuthoritySnapshot, transact_store.
    destruct (read_snapshotRequest _); [|done]. destruct (negb _); [done|].
    destruct (CreateReadAuthoritySnapshot _ _ _ _ _ _ _) as [[x st]|] eqn:E; [|done].
    unfold db_of. cbn. by destruct (Create_frame _ _ _ _ _ _ _ _ _ E) as [-> _].
  - apply readAuthority_db. intros c s1. apply still_db, records_still.
  - apply readAuthority_db. intros c s1. apply still_db, changes_still.
  - apply readAuthority_db. intros c s1. apply still_db, status_still.
  - unfold membershipCommand in Hne. by destruct (authenticateCommand _ _ _).
  - unfold requireSession in Hne. change (loadSession r') with (loadSession r) in Hne.
    destruct (loadSession r _ _) as [session|e]; [|done]. split; [by eexists|].
    by apply (protected_guarded _ _ _ _ s) in Hne.
Qed.
End Requests.

(** ** Witnesses *)
#[local] Existing Instances ascii_tables toy_crypto Assertion.Sample.toy_ed25519.

(** A registered user signs in on a fresh server. *)
Definition registered_db : DB := snd (exec sample_registration empty_db).
Definition signing_in : list request :=
  [(GetHealth, SignIn.good, SignIn.at_time (90 * Second)); (PostLogin, SignIn.bad, SignIn.at_time (100 * Second));
   (PostLogin, SignIn.good, SignIn.at_time (110 * Second))].
Lemma server_reachable_witness :
  let s := serve_all "key" signing_in (NewServer (mkReadStore registered_db [] [] [] []) SignIn.config) in
  List.length (sessions (db_of s)) = 1%nat /\ reachable "key" (db_of s).
Proof.
  split; [vm_compute; reflexivity|].
  apply (server_reachable "key" SignIn.config (mkReadStore registered_db [] [] [] []) signing_in).
  - change (reachable "key" registered_db). unfold registered_db, exec.
    destruct (sample_registration empty_db) as [[a db]|] eqn:E; [|vm_compute in E; discriminate E].
    apply rtc_once. eapply step_commit; [exact sample_registration_op|exact E].
  - repeat constructor; unfold timely, four_digit_year; vm_compute; intuition discriminate.
Defined.

Lemma change_is_authorised_witness :
  let r := SignIn.session_cookie "token-2" in
  sessions (db_of (Handler "key" (Protected PostLogout) r (SignIn.at_time (100 * Second)) SignIn.server).2)
    <> sessions (db_of SignIn.server) /\ csrf_shown r (db_of SignIn.server).
Proof.
  assert (sessions (db_of (Handler "key" (Protected PostLogout) (SignIn.session_cookie "token-2")
    (SignIn.at_time (100 * Second)) SignIn.server).2) <> sessions (db_of SignIn.server)) as Hne.
  { intros E. apply (f_equal (map s_revoked_at)) in E. vm_compute in E. discriminate E. }
  split; [exact Hne|].
  apply (change_is_authorised "key" (Protected PostLogout) (SignIn.session_cookie "token-2")
    (SignIn.at_time (100 * Second)) SignIn.server).
  intros E. apply Hne. by rewrite E.
Defined.
