(* ===== verification/Admission.v ===== *)
(** Requests of the machine interfaces against a running server: a signed request
    is let in once, whatever the server is asked in between. *)
From stdpp Require Import base tactics option list gmap strings relations.
From Stdlib Require Import ZArith Lia Ascii String.
From S2P Require Import Prelude GoStrings GoTime Codec Errors Domain Json Events Schema Outbox Auth Limiter ReadAuthority.
From S2P Require Import CommandContract Assertion Identity Mfa Organisation Access Workspace Snapshot SnapshotLaws.
From S2P Require Import Product Command Projection Announce System Url Pages Http Login Api Ui Gateway Serve ServeLaws.

Local Open Scope string_scope.
Local Open Scope Z_scope.

(** The routes behind a signature; the clock their timestamp is checked against,
    and the one at which their nonce is reserved. *)
Definition machine (route : Route) : bool :=
  match route with
  | PostSnapshot | GetSnapshotRecords _ | GetChanges | GetStatus | PostMembershipCommand => true
  | _ => false
  end.
Definition stamp_clock (route : Route) (env : Env) : Z :=
  match route with PostMembershipCommand => en_now env | _ => en_load env end.
Definition reserve_clock (route : Route) (env : Env) : Z :=
  match route with PostMembershipCommand => en_now env | _ => en_store env end.
Definition rate_key (route : Route) (consumer : string) : string :=
  match route with PostMembershipCommand => "membership-command:" ++ consumer | _ => consumer end.

Section Admission.
Context `{UnicodeTables} `{Crypto} `{Ed25519} (secretKey : string).

(** The consumer and the nonce of an authenticated request. *)
Definition authentic (route : Route) (r : Request) (env : Env) (s : Server) : option (string * string) :=
  let r := requestBodyLimit (MaxRequestBodyBytes (sv_cfg s)) r in
  match route with
  | PostMembershipCommand =>
      match authenticateCommand r (en_now env) (sv_membershipCommandKeys s), AssertionIssuer (sv_cfg s) with
      | Ok a, Some _ => Some (ac_consumer a, ac_nonce a)
      | _, _ => None
      end
  | PostSnapshot | GetSnapshotRecords _ | GetChanges | GetStatus =>
      match authenticateRead r (en_load env) (sv_readAuthorityKeys s) with Ok x => Some x | Err _ => None end
  | _ => None
  end.
Definition admitted (route : Route) (r : Request) (env : Env) (s : Server) : bool :=
  match authentic route r env s with
  | Some (c, n) => is_ok (admission (rate_key route c) c n (en_now env) (reserve_clock route env) env s).1
  | None => false
  end.

Lemma authentic_stamp route r env s c n :
  authentic route r env s = Some (c, n) ->
  c = header r ConsumerHeader /\ n = header r NonceHeader
  /\ exists p, ParseInt (header r TimestampHeader) = Some p
       /\ Unix (stamp_clock route env) - 300 <= p <= Unix (stamp_clock route env) + 300.
Proof.
  unfold authentic. set (r' := requestBodyLimit _ r). change (header r ?h) with (header r' h).
  destruct route; try done; intros Ha; cbn [stamp_clock].
  5: { destruct (authenticateCommand _ _ _) as [a|] eqn:E; [|done]. destruct (AssertionIssuer _); [|done].
       injection Ha as <- <-. apply authenticateCommand_Ok in E as (_ & Hc & Hn & Hp). done. }
  all: destruct (authenticateRead _ _ _) as [x|] eqn:E; [|done]; injection Ha as ->; by apply authenticateRead_Ok in E.
Qed.

Lemma admission_Ok key c n t1 t2 env s s' :
  admission key c n t1 t2 env s = (Ok tt, s') -> held (TrimSpace c) (TrimSpace n) (t2 + 24 * Hour) (sv_store s').
Proof.
  unfold admission. destruct (Allow _ _ _ _) as [[] m]; cbn [negb]; [|done]. unfold transact_store.
  destruct (ReserveReadAuthorityNonce _ _ _ _ _) as [[u st]|e] eqn:E; intros [= <-]. by apply reserved_holds in E.
Qed.
Lemma admission_Err key c n t1 t2 env s e s' : admission key c n t1 t2 env s = (Err e, s') -> sv_store s' = sv_store s.
Proof.
  unfold admission. destruct (Allow _ _ _ _) as [[] m]; cbn [negb]; [|by intros [= <- <-]]. unfold transact_store.
  by destruct (ReserveReadAuthorityNonce _ _ _ _ _) as [[u st]|e'] eqn:E; intros [= <- <-].
Qed.
Lemma admission_held key c n e t1 t2 env s :
  four_digit_year e -> before_second t2 e -> held (TrimSpace c) (TrimSpace n) e (sv_store s) ->
  is_ok (admission key c n t1 t2 env s).1 = false.
Proof.
  intros He Ht Hh. unfold admission. destruct (Allow _ _ _ _) as [[] m]; cbn [negb]; [|done]. unfold transact_store.
  change (sv_store (set_rate m s)) with (sv_store s). by rewrite (held_replays c n e t2 _ _ He Ht Hh).
Qed.

(** What follows an admission: the rest of the handler. *)
Lemma admitted_held route r env s c n :
  four_digit_year (en_now env) -> authentic route r env s = Some (c, n) -> admitted route r env s = true ->
  exists s1, held (TrimSpace c) (TrimSpace n) (reserve_clock route env + 24 * Hour) (sv_store s1)
    /\ rtc (effect secretKey env) s1 (Handler secretKey route r env s).2.
Proof.
  intros Ht Ha Had. unfold admitted in Had. rewrite Ha in Had.
  destruct (admission _ _ _ _ _ _ _) as [[[]|] s1] eqn:E; [|done]. clear Had. exists s1.
  split; [by apply admission_Ok in E|]. revert Ha. unfold authentic, Handler. set (r' := requestBodyLimit _ r).
  destruct route; try done; cbn [rate_key reserve_clock] in E; cbv beta iota.
  5: { unfold membershipCommand. destruct (authenticateCommand _ _ _) as [a|]; [|done].
       destruct (AssertionIssuer _) as [issuer|] eqn:EI; [|done]. intros [= <- <-]. rewrite E.
       destruct (read_command _) as [q|]; [|apply rtc_refl]. apply run_command_runs; [done|].
       pose proof (admit_frame _ _ _ _ _ _ _ _ _ E) as (_ & -> & _). done. }
  all: unfold requireReadAuthority; destruct (authenticateRead _ _ _) as [[c' n']|]; [|done]; intros [= -> ->]; rewrite E.
  - by apply createSnapshot_runs.
  - by apply runs_still, records_still.
  - by apply runs_still, changes_still.
  - by apply runs_still, status_still.
Qed.

(** *** A nonce stays held *)
Lemma effect_held c n e env s s' :
  four_digit_year e -> before_second (en_now env) e -> before_second (en_store env) e ->
  effect secretKey env s s' -> held c n e (sv_store s) -> held c n e (sv_store s').
Proof.
  intros He Hn Hs Heff Hh. destruct Heff as [| | | |c' n' t st Ht E|c' kinds ttl snapshot st E]; try exact Hh.
  - assert (before_second t e) as Hb by (by destruct Ht as [->| ->]).
    apply (reserve_keeps c n e c' n' t (t + 24 * Hour)) in Hh; [|done..]. unfold exec in Hh. by rewrite E in Hh.
  - apply Create_frame in E as [_ Hnn]. unfold held. cbn [sv_store set_store]. by rewrite Hnn.
Qed.
Lemma effects_held c n e env s s' :
  four_digit_year e -> before_second (en_now env) e -> before_second (en_store env) e ->
  rtc (effect secretKey env) s s' -> held c n e (sv_store s) -> held c n e (sv_store s').
Proof. intros He Hn Hs Hr. induction Hr; [done|]. intros Hh. apply IHHr. by eapply effect_held. Qed.

(** A machine request that is not admitted leaves the store alone. *)
Lemma not_admitted_store route r env s :
  machine route = true -> admitted route r env s = false -> sv_store (Handler secretKey route r env s).2 = sv_store s.
Proof.
  unfold admitted, authentic, Handler. set (r' := requestBodyLimit _ r).
  destruct route; try done; intros _; cbn [rate_key reserve_clock]; cbv beta iota.
  5: { unfold membershipCommand. destruct (authenticateCommand _ _ _) as [a|]; [|done].
       destruct (AssertionIssuer _) as [issuer|]; [|done].
       destruct (admission _ _ _ _ _ _ _) as [[u|code] s1] eqn:E; [done|]. intros _. by apply admission_Err in E. }
  all: unfold requireReadAuthority; destruct (authenticateRead _ _ _) as [[c n]|]; [|done].
  all: destruct (admission _ _ _ _ _ _ _) as [[u|code] s1] eqn:E; [done|]; intros _; by apply admission_Err in E.
Qed.

(** The clocks of a request, none of them after [upper]. *)
Definition clocked (ttl upper : Z) (x : request) : Prop :=
  timely ttl x /\ four_digit_year (en_store x.2) /\ en_now x.2 <= upper /\ en_store x.2 <= upper.
(** A handler that reserves its nonce within an hour of checking the timestamp. *)
Definition prompt (route : Route) (env : Env) : Prop :=
  stamp_clock route env <= reserve_clock route env <= stamp_clock route env + Hour.

(** C5: a signed request is let in once. After a machine request was admitted,
    and whatever the server was asked in between, a request with the same
    consumer, nonce and timestamp is never admitted again, on any of the machine
    routes and however much later, and does not touch the store: for a day
    because its nonce is held, after that because its timestamp is stale. *)
Theorem signed_request_once route r env s l route' r' env' :
  admitted route r env s = true -> machine route' = true -> prompt route env -> prompt route' env' ->
  Forall (clocked (SessionTTL (sv_cfg s)) (reserve_clock route' env')) ((route, r, env) :: l) ->
  four_digit_year (reserve_clock route env + 24 * Hour) -> four_digit_year (reserve_clock route' env') ->
  header r' ConsumerHeader = header r ConsumerHeader -> header r' NonceHeader = header r NonceHeader ->
  header r' TimestampHeader = header r TimestampHeader ->
  let s' := serve_all secretKey ((route, r, env) :: l) s in
  admitted route' r' env' s' = false /\ sv_store (Handler secretKey route' r' env' s').2 = sv_store s'.
Proof.
  intros Had Hm [Hp1 _] [_ Hp2] Hl He Ht Hc Hn Hs s'.
  assert (admitted route' r' env' s' = false) as Hna; [|split; [done|by apply not_admitted_store]].
  unfold admitted. destruct (authentic route' r' env' s') as [[c' n']|] eqn:Ha'; [|done].
  apply authentic_stamp in Ha' as (-> & -> & p & Hpp & Hp'). rewrite Hc, Hn.
  destruct (authentic route r env s) as [[c n]|] eqn:Ha; [|unfold admitted in Had; by rewrite Ha in Had].
  pose proof (authentic_stamp _ _ _ _ _ _ Ha) as (-> & -> & p' & Hpp' & Hp).
  rewrite Hs, Hpp' in Hpp. injection Hpp as <-. set (e := reserve_clock route env + 24 * Hour) in *.
  assert (Unix (reserve_clock route' env') < Unix e) as Hlt.
  { unfold e. unfold Unix, Hour, Minute, Second in *. Z.to_euclidean_division_equations. lia. }
  assert (forall x, In x ((route, r, env) :: l) -> before_second (en_now x.2) e /\ before_second (en_store x.2) e) as Hb.
  { intros x Hx. destruct (proj1 (List.Forall_forall _ _) Hl x Hx) as ([? _] & ? & Hu1 & Hu2).
    apply (Z.div_le_mono _ _ Second) in Hu1, Hu2; [|done..]. unfold before_second, Unix in *. split; split; try done; lia. }
  apply (admission_held _ _ _ e); [done|split; done|].
  destruct (admitted_held route r env s _ _ ltac:(by inversion_clear Hl as [|? ? [[? _] _] _]) Ha Had) as (s1 & Hh & Hr).
  destruct (Hb (route, r, env)) as [Hb1 Hb2]; [by left|]. pose proof (effects_held _ _ _ _ _ _ He Hb1 Hb2 Hr Hh) as Hh2.
  unfold s'. cbn [serve_all fold_left]. cbn [fst snd] in *.
  apply (serve_all_invariant secretKey (fun s => held (TrimSpace (header r ConsumerHeader)) (TrimSpace (header r NonceHeader)) e (sv_store s)));
    [|intros x Hx y y'; apply effect_held; [done|apply Hb; by right..]|exact Hh2].
  inversion_clear Hl as [|? ? [[Hf1 Hf2] _] Hl']. 
  assert (SessionTTL (sv_cfg (Handler secretKey route r env s).2) = SessionTTL (sv_cfg s)) as ->.
  { apply (serve_invariant secretKey (fun y => SessionTTL (sv_cfg y) = SessionTTL (sv_cfg s))); try done.
    intros y y' Hy. by rewrite (effect_ttl _ _ _ _ Hy). }
  eapply Forall_impl; [exact Hl'|]. cbv beta. by intros ? [Hx _].
Qed.
End Admission.

(** ** Witnesses *)
#[local] Existing Instances ascii_tables toy_crypto Assertion.Sample.toy_ed25519.

(** The command of Gateway.v, captured and sent again after a minute and after
    two days, the first time with its nonce, the second time with its timestamp. *)
Definition wire_env (t : Z) : Env :=
  mkEnv t t t (sample_rs "m") (fun n => Some (fit 32 (FormatInt (Z.of_nat n)))) (fun l => l) (fun _ => "")
    (Err (Text "rand")) "" (fun _ => "") (fun _ => "").
Ltac clocks := repeat constructor; unfold clocked, prompt, timely, four_digit_year; vm_compute; intuition discriminate.
Lemma signed_request_once_witness :
  let s' := serve_all "key" [(PostMembershipCommand, Wire.command "org_1", Wire.env); (GetHealth, Wire.command "", Wire.env)]
              Wire.server in
  admitted PostMembershipCommand (Wire.command "org_1") Wire.env Wire.server = true
  /\ admitted PostMembershipCommand (Wire.command "org_1") (wire_env (Wire.now + Minute)) s' = false
  /\ admitted GetStatus (Wire.command "org_1") (wire_env (Wire.now + 48 * Hour)) s' = false.
Proof.
  split; [vm_compute; reflexivity|]. split.
  - apply (signed_request_once "key" PostMembershipCommand (Wire.command "org_1") Wire.env Wire.server
      [(GetHealth, Wire.command "", Wire.env)] PostMembershipCommand (Wire.command "org_1") (wire_env (Wire.now + Minute)));
      try reflexivity; clocks.
  - apply (signed_request_once "key" PostMembershipCommand (Wire.command "org_1") Wire.env Wire.server
      [(GetHealth, Wire.command "", Wire.env)] GetStatus (Wire.command "org_1") (wire_env (Wire.now + 48 * Hour)));
      try reflexivity; clocks.
Defined.
