(* ===== verification/Launch.v ===== *)
(** Handing out launch assertions: which responses of the server carry one, and
    whom they speak for. *)
From stdpp Require Import base tactics option list gmap strings.
From Stdlib Require Import ZArith Lia Ascii String.
From S2P Require Import Prelude GoStrings GoTime Codec Errors Domain Json Events Schema Outbox Auth Limiter ReadAuthority.
From S2P Require Import CommandContract Assertion Identity Mfa Organisation Access Workspace Snapshot SnapshotLaws.
From S2P Require Import Product Command Projection Announce System Url Pages Http Login Api Ui Gateway Serve ServeLaws.

Local Open Scope string_scope.
Local Open Scope Z_scope.

(** The assertion a response carries: a member of its JSON or the hidden field of
    the handoff page. *)
Definition handed (x : Response) : option string :=
  match rs_Body x with
  | BJson (JObject l) => match find (fun m => m.1 =s "assertion") l with Some (_, JString token) => Some token | _ => None end
  | BPage (ProductHandoffPage p) => Some (php_Assertion p)
  | _ => None
  end.
Definition plain (h : handler) : Prop := forall s, handed (h s).1 = None.

Section Launch.
Context `{UnicodeTables} `{Crypto} `{Ed25519} (secretKey : string).

Lemma handed_error table e : handed (error_with table e) = None.
Proof. unfold error_with. by destruct (_ =? 500). Qed.
Lemma handed_ui e : handed (uiNotFoundOrError e) = None.
Proof. unfold uiNotFoundOrError. by destruct (any_Is _ _). Qed.
Lemma plain_answer x : handed x = None -> plain (answer x).
Proof. by intros Hx s. Qed.
Lemma plain_store_read A (m : DB -> res A) f k :
  (forall e, handed (f e) = None) -> (forall a, handed (k a) = None) -> plain (store_read m f k).
Proof. intros Hf Hk s. unfold store_read. destruct (m _); [apply Hk|apply Hf]. Qed.
Lemma plain_store_call A (m : St DB error A) f k :
  (forall e, handed (f e) = None) -> (forall a, handed (k a) = None) -> plain (store_call m f k).
Proof. intros Hf Hk s. unfold store_call. destruct (transact m s) as [[] s']; [apply Hk|apply Hf]. Qed.
Lemma plain_mutation r A (read : option string -> option A) next :
  (forall q, plain (next q)) -> plain (mutation r read next).
Proof. intros Hn s. unfold mutation. destruct (negb _); [done|]. destruct (read _); [apply Hn|done]. Qed.
Lemma plain_form r A (m : St DB error A) x : handed x = None -> plain (form r m x).
Proof.
  intros Hx s. unfold form, prepareUIForm. destruct (negb _); [done|]. destruct (negb _); [done|].
  apply plain_store_call; [intros e; apply handed_error|done].
Qed.
Lemma plain_uiSession r next : (forall c, plain (next c)) -> plain (uiSession r next).
Proof. intros Hn s. unfold uiSession. destruct (Cookie _ _) as [c|]; [|done]. destruct (blank c); [done|apply Hn]. Qed.
Lemma plain_ui_read A (m : DB -> res A) next : (forall a, plain (next a)) -> plain (ui_read m next).
Proof. intros Hn s. unfold ui_read. destruct (m _); [apply Hn|apply handed_ui]. Qed.
Lemma plain_scope session b w next : plain next -> plain (requireWorkspaceScope session b w next).
Proof.
  intros Hn s. unfold requireWorkspaceScope. destruct (ProveWorkspaceScope _ _ _ _) as [|e]; [apply Hn|].
  by destruct (errors_Is e _).
Qed.
Lemma plain_if (b : bool) h1 h2 : plain h1 -> plain h2 -> plain (if b then h1 else h2).
Proof. by destruct b. Qed.
End Launch.

(** The body of a response by case analysis on its optional members. *)
Ltac no_token :=
  intros; first
    [ apply handed_error
    | unfold organisationResponseFromDomain, workspaceResponseFromDomain, productResponseFromDomain,
        organisationProductEntitlementResponseFromDomain, userProductAssignmentResponseFromDomain,
        organisationWorkspaceEntryResponse, opt_time, opt_string;
      repeat case_match; reflexivity ].
Ltac plain_step :=
  lazymatch goal with
  | |- plain (answer _) => apply plain_answer; no_token
  | |- plain (store_read _ _ _) => apply plain_store_read; no_token
  | |- plain (store_call _ _ _) => apply plain_store_call; no_token
  | |- plain (form _ _ _) => apply plain_form; no_token
  | |- plain (mutation _ _ _) => apply plain_mutation; intros ?
  | |- plain (uiSession _ _) => apply plain_uiSession; intros ?
  | |- plain (ui_read _ _) => apply plain_ui_read; intros ?
  | |- plain (requireWorkspaceScope _ _ _ _) => apply plain_scope
  | |- plain (if _ then _ else _) => apply plain_if
  end.

Section Protected.
Context `{UnicodeTables} `{Crypto} `{Ed25519} (secretKey : string).
Lemma protected_plain route r env session :
  match route with PostHandoff _ | PostProductAssertion _ _ _ => True | _ => plain (protected secretKey route r env session) end.
Proof.
  destruct route; try exact I; cbn [protected]; unfold_api; unfold_ui; repeat plain_step.
  all: try match goal with |- context [audit_limit ?q] => destruct (audit_limit q); repeat plain_step end.
  - intros s. by destruct (launcherProps _ _ _ _ _); [|apply handed_ui].
  - intros s. destruct (find _ _) as [p|]; [|done]. by destruct (_ =s "").
  - intros s. unfold adminLanding. destruct (negb _); [done|]. destruct (ListUserOrganisations _ _); [|done].
    by destruct (isSystemAdministrator _ _) as [[]|].
  - intros s. unfold accountPage. destruct (Cookie _ _) as [c|]; [|done]. by destruct (blank c).
  - intros s. unfold mfaSetup. destruct (negb _); [done|]. destruct (sessionCSRF _ _); [|done].
    destruct (User_MFAEnabled _); [done|]. destruct (en_secret env); [|done]. by apply plain_store_call.
  - intros s. unfold mfaConfirm. destruct (negb _); [done|]. destruct (sessionCSRF _ _); [|done].
    repeat case_match; try done; apply plain_store_call; try done; by intros [].
  - intros s. unfold logout. destruct (negb _); [done|]. destruct (Cookie _ _); [|done].
    destruct (VerifySessionCSRF _ _ _) as [[]|]; try done. by apply plain_store_call.
Qed.

Lemma login_plain r env : plain (login secretKey r env).
Proof.
  assert (forall s id e d k, handed (reject_login id e d k env s).1 = None) as Hr.
  { intros. unfold reject_login. destruct (transact _ _) as [[] s1]; [|done]. destruct (RateLimitEnabled _); [|done].
    by destruct (RecordFailure _ _ _ _) as [[? []] ?]. }
  assert (forall s id k, handed (establish id k env s).1 = None) as He.
  { intros. unfold establish. destruct (NewOpaqueToken _); [|done]. destruct (NewOpaqueToken _); [|done].
    by apply plain_store_call. }
  assert (plain (attempt secretKey r env)) as Ha.
  { intros s. unfold attempt. destruct (first_factor _ _) as [u|]; [|apply Hr]. destruct (User_MFAEnabled u); [|apply He].
    destruct (second_factor _ _ _ _ _) as [[[]|] s1]; [apply He|apply Hr|done]. }
  intros s. unfold login. destruct (negb _); [done|]. destruct (negb _); [done|]. destruct (RateLimitEnabled _); [|apply Ha].
  by destruct (RetryAfter _ _ _) as [[d []] l]; [|apply Ha].
Qed.
Lemma handed_machine code state b c : handed (writeReadAuthorityError code state b c) = None.
Proof. unfold writeReadAuthorityError, opt_string. by destruct (state =s ""). Qed.
Lemma handed_machine_store e : handed (writeReadAuthorityStoreError e) = None.
Proof. unfold writeReadAuthorityStoreError. repeat case_match; apply handed_machine. Qed.
Lemma handed_machine_response n l :
  find (fun m => m.1 =s "assertion") l = None -> handed (writeReadAuthorityResponse n (JObject l)) = None.
Proof.
  intros Hl. unfold writeReadAuthorityResponse. destruct (_ <? _); [apply handed_machine|]. cbn. by rewrite Hl.
Qed.
Lemma handed_command code b : handed (command_fail code b) = None.
Proof. done. Qed.
Lemma handed_result c q x : handed (command_response 200 (command_result c q x)) = None.
Proof. unfold command_result, opt_string. repeat case_match; reflexivity. Qed.
Lemma machine_plain r env next : (forall c, plain (next c)) -> plain (requireReadAuthority r env next).
Proof.
  intros Hn s. unfold requireReadAuthority. destruct (authenticateRead _ _ _) as [[c n]|]; [|apply handed_machine].
  destruct (admission _ _ _ _ _ _ _) as [[] s1]; [apply Hn|apply handed_machine].
Qed.
Lemma command_plain r env : plain (membershipCommand r env).
Proof.
  intros s. unfold membershipCommand. destruct (authenticateCommand _ _ _) as [a|]; [|done].
  destruct (AssertionIssuer _) as [issuer|]; [|done]. destruct (admission _ _ _ _ _ _ _) as [[] s1]; [|done].
  destruct (read_command _) as [q|]; [|done]. unfold run_command. destruct (membershipCommandAudience _) as [audience key].
  destruct (Assertion.VerifyForProduct _ _ _ _ _ _) as [[claims|[]] issuer']; try done.
  destruct (scope_mismatch _ _); [done|]. apply plain_store_call; [|intros x; apply handed_result].
  intros e. unfold writeMembershipCommandStoreError. by destruct (membership_error_code e).
Qed.

(** What the claims of an issued assertion say. *)
Lemma Issue_scope i q at_ clock raw token c :
  Assertion.Issue i q at_ clock raw = Ok (token, c) ->
  Assertion.cl_Audience c = TrimSpace (Assertion.ir_Audience q) /\ Assertion.cl_PlatformUserID c = Assertion.ir_PlatformUserID q
  /\ Assertion.cl_PlatformOrganisationID c = Assertion.ir_OrganisationID q
  /\ Assertion.cl_PlatformWorkspaceID c = Assertion.ir_WorkspaceID q.
Proof.
  unfold Assertion.Issue. cbv zeta. destruct (negb _); [done|]. destruct (negb _); [done|]. destruct (_ || _) in |- *; [done|].
  destruct (_ || _) in |- *; [done|]. destruct (Assertion.newAssertionID raw) as [id|]; [|done].
  unfold Assertion.sign, Assertion.marshal_claims, wrap. cbn [Assertion.cl_IssuedAt Assertion.cl_ExpiresAt].
  destruct (_ && _) in |- *; [|done]. by intros [= _ <-].
Qed.
Lemma access_ids uid oid key wid db a :
  ProveProductAccess uid oid key wid db = Ok a ->
  pa_UserID a = uid /\ pa_OrganisationID a = oid /\ pa_ProductKey a = TrimSpace key /\ pa_WorkspaceID a = wid.
Proof.
  unfold ProveProductAccess, access_row. destruct (negb _); [done|].
  destruct (active_user db uid) as [u|] eqn:Eu; [|done]. destruct (active_organisation oid db) as [o|] eqn:Eo; [|done].
  destruct (find _ _) as [p|] eqn:Ep in |- *; [|done]. destruct (active_workspace wid db) as [w|] eqn:Ew; [|done].
  destruct (find _ _) as [om|] in |- *; [|done]. destruct (_ && _) in |- *; [|done]. intros [= <-].
  apply find_some in Eu as [_ Eu], Eo as [_ Eo], Ep as [_ Ep], Ew as [_ Ew].
  unfold is_active_user, retirable, has_public_id in *. rewrite !andb_true_iff, !String.eqb_eq in *.
  cbn. intuition.
Qed.

Lemma snapshot_plain r env c : plain (createReadAuthoritySnapshot r env c).
Proof.
  intros s. unfold createReadAuthoritySnapshot. destruct (read_snapshotRequest _); [|apply handed_machine].
  destruct (negb _); [apply handed_machine|]. destruct (transact_store _ _) as [[x|e] s1]; [|apply handed_machine_store].
  by apply handed_machine_response.
Qed.
Lemma records_plain id r env c : plain (listReadAuthoritySnapshotRecords id r env c).
Proof.
  intros s. unfold listReadAuthoritySnapshotRecords. destruct (readAuthorityLimit _ _); [|apply handed_machine].
  destruct (ListReadAuthoritySnapshotRecords _ _ _ _ _ _ _) as [page|e]; [|apply handed_machine_store].
  destruct (negb _); [apply handed_machine|]. by apply handed_machine_response.
Qed.
Lemma changes_plain r c : plain (listReadAuthorityChanges r c).
Proof.
  intros s. unfold listReadAuthorityChanges.
  destruct (if TrimSpace (Query r "after") =s "" then Ok 0 else _); [|apply handed_machine].
  destruct (readAuthorityLimit _ _); [|apply handed_machine].
  destruct (ListPlatformEventsAfter _ _ _) as [feed|e]; [|apply handed_machine_store].
  destruct (changes_of _); [by apply handed_machine_response|apply handed_machine].
Qed.
Lemma status_plain c : plain (readAuthorityStatus c).
Proof.
  intros s. unfold readAuthorityStatus. destruct (PlatformEventCursorBounds _). by apply handed_machine_response.
Qed.

(** The assertion is one the issuer made for a user of whom access was proved. *)
Definition speaks_for (userID oid key wid token : string) (env : Env) (s : Server) (claims : Assertion.Claims) : Prop :=
  exists access issuer q,
    ProveProductAccess userID oid key wid (db_of s) = Ok access
    /\ AssertionIssuer (sv_cfg s) = Some issuer
    /\ Assertion.Issue issuer q (en_now env) (en_now env) (en_raw env 0) = Ok (token, claims)
    /\ Assertion.cl_PlatformUserID claims = userID /\ Assertion.cl_PlatformOrganisationID claims = oid
    /\ Assertion.cl_PlatformWorkspaceID claims = wid.
Lemma issued_speaks uid oid key wid token env s claims access issuer audience :
  ProveProductAccess uid oid key wid (db_of s) = Ok access -> AssertionIssuer (sv_cfg s) = Some issuer ->
  Assertion.Issue issuer (Assertion.mkIssueRequest audience (pa_UserID access) (pa_OrganisationID access)
    (pa_WorkspaceID access) 0) (en_now env) (en_now env) (en_raw env 0) = Ok (token, claims) ->
  speaks_for uid oid key wid token env s claims /\ Assertion.cl_Audience claims = TrimSpace audience.
Proof.
  intros Ha Hi HI. pose proof (access_ids _ _ _ _ _ _ Ha) as (Hu & Ho & _ & Hw).
  pose proof (Issue_scope _ _ _ _ _ _ _ HI) as (Haud & H2 & H3 & H4). cbn in Haud, H2, H3, H4.
  split; [|done]. exists access, issuer. eexists. split_and!; try done; congruence.
Qed.

Lemma issueProductAssertion_token r env session o k w s token :
  handed (issueProductAssertion r env session o k w s).1 = Some token ->
  csrf_shown r (db_of s) /\ (issueProductAssertion r env session o k w s).2 = s
  /\ exists claims, speaks_for (User_of session) o k w token env s claims.
Proof.
  unfold issueProductAssertion, mutation. destruct (verifyMutationCSRF r (db_of s)) eqn:Ev; [|done]. cbn [negb].
  destruct (read_productAssertion _) as [q|]; [|done]. destruct (AssertionIssuer _) as [issuer|] eqn:Ei; [|done].
  destruct (ProveProductAccess _ _ _ _ _) as [access|e] eqn:Ea; [|cbn [fst]; unfold writeProductError; by rewrite handed_error].
  destruct (Assertion.Issue _ _ _ _ _) as [[t claims]|e] eqn:EI; [|cbn [fst]; unfold writeProductError; by rewrite handed_error].
  intros [= <-]. split; [by apply verified_shown|]. split; [done|]. exists claims.
  by destruct (issued_speaks _ _ _ _ _ _ _ _ _ _ _ Ea Ei EI).
Qed.
Lemma productHandoff_token r env session k s token :
  handed (productHandoff r env session k s).1 = Some token ->
  csrf_shown r (db_of s) /\ (productHandoff r env session k s).2 = s
  /\ exists oid wid claims target, speaks_for (User_of session) oid (TrimSpace k) wid token env s claims
       /\ sv_productLaunchTargets s !! TrimSpace k = Some target
       /\ Assertion.cl_Audience claims = TrimSpace (Audience target).
Proof.
  unfold productHandoff, uiSession. destruct (Cookie r "platform_csrf") as [c|]; [|done]. destruct (blank c); [done|].
  destruct (negb _); [done|]. destruct (verifyMutationCSRF r (db_of s)) eqn:Ev; [|done]. cbn [negb].
  destruct (sv_productLaunchTargets s !! TrimSpace k) as [target|] eqn:Et; [|done].
  destruct (AssertionIssuer _) as [issuer|] eqn:Ei; [|done]. destruct (_ || _) in |- *; [done|]. unfold ui_read.
  destruct (ProveProductAccess _ _ _ _ _) as [access|e] eqn:Ea; [|cbn [fst]; by rewrite handed_ui].
  destruct (ListLaunchableProducts _ _ _ _) as [products|e]; [|cbn [fst]; by rewrite handed_ui].
  destruct (find _ _) as [p|] in |- *; [|done]. destruct (Assertion.Issue _ _ _ _ _) as [[t claims]|e] eqn:EI; [|done].
  intros [= <-]. split; [by apply verified_shown|]. split; [done|].
  destruct (issued_speaks _ _ _ _ _ _ _ _ _ _ _ Ea Ei EI). by eexists _, _, claims, target.
Qed.

(** C4: an assertion is handed out only to a user with access. If a response of
    the server carries one, then the request was of a live session and showed its
    CSRF token, the access proof of the store admitted that user to a product in
    a workspace, and the assertion was issued for exactly that user, organisation
    and workspace; from the handoff page its audience is the one configured for
    the product proved. Nothing of the server changed. *)
Theorem assertion_requires_access route r env s token :
  handed (Handler secretKey route r env s).1 = Some token ->
  exists session oid key wid claims,
    loadSession r (en_load env) (db_of s) = Ok session /\ csrf_shown r (db_of s)
    /\ speaks_for (User_of session) oid key wid token env s claims
    /\ match route with
       | Protected (PostHandoff k) =>
           exists target, key = TrimSpace k /\ sv_productLaunchTargets s !! key = Some target
             /\ Assertion.cl_Audience claims = TrimSpace (Audience target)
       | Protected (PostProductAssertion o k w) => oid = o /\ key = k /\ wid = w
       | _ => False
       end
    /\ (Handler secretKey route r env s).2 = s.
Proof.
  unfold Handler. set (r' := requestBodyLimit _ r). intros Hh.
  destruct route as [|b| | | | | | | | | |route]; cbv beta iota in Hh |- *; try discriminate Hh.
  - by destruct b.
  - unfold assertionKeys in Hh. by destruct (AssertionIssuer _).
  - unfold loginPage in Hh. destruct (loadSession _ _ _); [done|]. by destruct (NewOpaqueToken _).
  - by rewrite login_plain in Hh.
  - by rewrite (machine_plain _ _ _ (snapshot_plain _ _)) in Hh.
  - by rewrite (machine_plain _ _ _ (records_plain _ _ _)) in Hh.
  - by rewrite (machine_plain _ _ _ (changes_plain _)) in Hh.
  - by rewrite (machine_plain _ _ _ status_plain) in Hh.
  - by rewrite command_plain in Hh.
  - unfold requireSession in *. change (loadSession r') with (loadSession r) in *.
    destruct (loadSession r _ _) as [session|e] eqn:Es; [|by destruct (Is_NoRows e)].
    pose proof (protected_plain route r' env session) as Hp.
    destruct route; try by rewrite Hp in Hh.
    + apply productHandoff_token in Hh as (Hc & Hs & oid & wid & claims & target & Hf & Ht & Ha).
      exists session, oid, (TrimSpace productKey), wid, claims. split_and!; try done. by exists target.
    + apply issueProductAssertion_token in Hh as (Hc & Hs & claims & Hf).
      exists session, organisationID, productKey, workspaceID, claims. split_and!; done.
Qed.
End Protected.

(** ** Witnesses *)

(** The user of [sample_product_db], who may use TockrIMS, in a browser. *)
Module Browser.
#[export] Existing Instances ascii_tables toy_crypto Assertion.Sample.toy_ed25519.
Definition now : Z := Assertion.Sample.t0.
Definition db : DB := snd (exec (EstablishSession "usr_1" "token-1" "csrf" (now + 60 * Second) now) sample_product_db).
Definition targets : gmap string ProductLaunchTarget :=
  {[ "product.tockrims" := mkTarget "https://ims.example/auth/platform/session" "tockrims" ]}.
Definition config : Config :=
  mkConfig true false (12 * Hour) true (mkLoginLimiterConfig 0 0 0 0 0) (Some Assertion.Sample.platform) 0 ∅ ∅ targets.
Definition server : Server := NewServer (mkReadStore db [] [] [] []) config.
Definition env : Env :=
  mkEnv now now now (fun _ => Some "id") (fun _ => Some (fit 18 "random")) (fun l => l) (fun _ => "")
    (Err (Text "rand")) "" (fun _ => "") (fun _ => "").
Definition handoff : Request :=
  mkRequest "POST" "/launch/product.tockrims/handoff" "/launch/product.tockrims/handoff" "" (fun _ => "")
    [(sessionCookieName, "token-1"); ("platform_csrf", "csrf")] "10.0.0.1:1" (Some "") true
    [("csrf", "csrf"); ("organisation_id", "org_1"); ("workspace_id", "wsp_1")] true.
Definition ask (audience : string) : Request :=
  mkRequest "POST" "" "" "" (fun name => if name =s "X-CSRF-Token" then "csrf" else "")
    [(sessionCookieName, "token-1")] "10.0.0.1:1"
    (Some (encode_json (JObject [("audience", JString audience)]))) true [] false.
End Browser.
#[local] Existing Instances ascii_tables toy_crypto Assertion.Sample.toy_ed25519.

Lemma assertion_requires_access_witness :
  exists token claims,
    handed (Handler "key" (Protected (PostHandoff "product.tockrims")) Browser.handoff Browser.env Browser.server).1
      = Some token
    /\ Assertion.cl_PlatformUserID claims = "usr_1" /\ Assertion.cl_Audience claims = "tockrims".
Proof.
  destruct (handed (Handler "key" (Protected (PostHandoff "product.tockrims")) Browser.handoff Browser.env Browser.server).1)
    as [token|] eqn:E; [|vm_compute in E; discriminate E].
  destruct (assertion_requires_access "key" (Protected (PostHandoff "product.tockrims")) Browser.handoff Browser.env
    Browser.server token E) as (session & oid & key & wid & claims & Hs & _ & (a & i & q & _ & _ & _ & Hu & _) & Ht & _).
  exists token, claims. split; [reflexivity|]. split.
  - rewrite Hu. vm_compute in Hs. injection Hs as <-. reflexivity.
  - destruct Ht as (target & -> & Ht & ->). vm_compute in Ht. injection Ht as <-. reflexivity.
Defined.

(** The JSON route takes the audience from the browser: the user, who has no
    access to TockrCTRL, asks for TockrIMS with TockrCTRL's audience and gets an
    assertion that TockrCTRL accepts. *)
Example audience_not_bound :
  ProveProductAccess "usr_1" "org_1" "product.tockrctrl" "wsp_1" (db_of Browser.server)
    = Err (Sentinel ErrProductAccessDenied)
  /\ exists token claims,
       handed (Handler "key" (Protected (PostProductAssertion "org_1" "product.tockrims" "wsp_1"))
                 (Browser.ask "tockrctrl") Browser.env Browser.server).1 = Some token
       /\ (Assertion.VerifyForProduct Assertion.Sample.platform token "tockrctrl" "product.tockrctrl" Browser.now
             Browser.now).1 = Ok claims
       /\ Assertion.cl_PlatformUserID claims = "usr_1".
Proof.
  split; [vm_compute; reflexivity|]. eexists _, _. split; [vm_compute; reflexivity|].
  split; [vm_compute; reflexivity|reflexivity].
Qed.
