(* ===== verification/Config.v ===== *)
(** Starting the process: internal/platform/config/config.go, internal/platform/
    assertion/config.go and cmd/platform/main.go up to the running server. The
    environment is a function from names to values, "" when unset. *)
From stdpp Require Import base tactics option list gmap strings.
From Stdlib Require Import ZArith Lia Ascii String.
From S2P Require Import Prelude GoStrings GoTime Codec Errors Domain Json JsonLaws Events Schema Outbox Auth Limiter ReadAuthority.
From S2P Require Import CommandContract Assertion Identity Product Snapshot Announce System Url Pages Http Login Gateway Serve ServeLaws Launch.

Local Open Scope string_scope.
Local Open Scope Z_scope.

(** net/url: what Parse gives, and whether ParseRequestURI succeeds. Host and
    Hostname() are kept apart, as are Port() and the flags of an empty query. *)
Record ParsedURL := mkParsedURL {
  pu_Scheme : string; pu_HasUser : bool; pu_Host : string; pu_Hostname : string; pu_Port : string;
  pu_Opaque : string; pu_Path : string; pu_RawPath : string; pu_RawQuery : string; pu_ForceQuery : bool;
  pu_Fragment : string; pu_RawFragment : string }.
Class NetURL := { url_Parse : string -> option ParsedURL; ParseRequestURI : string -> bool }.

(** ** encoding/hex and encoding/base64 *)
Fixpoint hex_decode (s : string) : option string :=
  match s with
  | "" => Some ""
  | String a (String b s') =>
      match hex_val a, hex_val b, hex_decode s' with
      | Some a, Some b, Some t => Some (String (byte_of (16 * a + b)) t)
      | _, _, _ => None
      end
  | _ => None
  end.
(** The standard alphabet in terms of the URL one: + and / for - and _. *)
Definition std_byte (c : ascii) : ascii :=
  if Ascii.eqb c "+" then "-"%char else if Ascii.eqb c "/" then "_"%char
  else if Ascii.eqb c "-" || Ascii.eqb c "_" then "="%char else c.
Definition RawStdDecode (s : string) : option string := b64_decode (map_bytes std_byte s).
(** The padded form: what is left after line breaks is groups of four, the last
    one with up to two = signs. *)
Fixpoint without (p : ascii -> bool) (s : string) : string :=
  match s with "" => "" | String c s' => if p c then without p s' else String c (without p s') end.
Definition HasSuffix (s p : string) : bool := HasPrefix (rev_string s) (rev_string p).
Definition StdDecode (s : string) : option string :=
  let t := without (fun c => contains_byte c crlf) s in
  let n := String.length t in
  if negb (Nat.eqb (n mod 4) 0) then None else
  let pad := if HasSuffix t "==" then 2%nat else if HasSuffix t "=" then 1%nat else 0%nat in
  RawStdDecode (String.substring 0 (n - pad) t).

(** ** config.go *)
Definition defaultDBPath := "platform.db".
Definition defaultHTTPAddr := ":8080".
Definition defaultMaxHeaders : Z := 2 ^ 20.
Definition defaultReadHeader : Z := 10 * Second.
Definition defaultReadTimeout : Z := 15 * Second.
Definition defaultWriteTimeout : Z := 30 * Second.
Definition defaultIdleTimeout : Z := 120 * Second.
Definition defaultShutdown : Z := 10 * Second.

Record ProcessConfig := mkProcessConfig {
  pc_DBPath : string; pc_MFAKey : string; pc_HTTPAddr : string; pc_AllowInsecureCookie : bool;
  pc_MaxHeaderBytes : Z; pc_ReadHeaderTimeout : Z; pc_ReadTimeout : Z; pc_WriteTimeout : Z; pc_IdleTimeout : Z;
  pc_ShutdownTimeout : Z; pc_ReadAuthorityKeys : PublicKeySet;
  pc_ProductLaunchTargets : gmap string ProductLaunchTarget }.

(** The patterns, anchored at both ends. *)
Definition lower_alnum (c : ascii) : bool := is_digit c || ((97 <=? byte_code c) && (byte_code c <=? 122)).
Definition pattern_tail (more : string) (max : Z) (s : string) : bool :=
  match s with
  | "" => false
  | String c s' => lower_alnum c && (len s' <=? max) && forall_bytes (fun c => lower_alnum c || contains_byte c more) s'
  end.
Definition launchProductKeyPattern (s : string) : bool :=
  HasPrefix s "product." && pattern_tail ".-" 98 (drop_bytes 8 s).
Definition launchAudiencePattern (s : string) : bool := pattern_tail "._-" 99 s.
Definition TrimPrefix (s p : string) : string := if HasPrefix s p then drop_bytes (String.length p) s else s.

(** A JSON object decoded into a map: of a key given twice the last value stays. *)
Fixpoint decode_map {A} (get : json -> option A) (acc : gmap string A) (l : list (string * json)) : option (gmap string A) :=
  match l with
  | [] => Some acc
  | (k, v) :: l => match get v with Some a => decode_map get (<[k := a]> acc) l | None => None end
  end.
(** [null] decodes to the zero value. *)
Definition json_text (v : json) : option string :=
  match v with JString s => Some s | JNull => Some "" | _ => None end.
Definition json_target (v : json) : option ProductLaunchTarget :=
  match v with
  | JNull => Some (mkTarget "" "")
  | JObject l =>
      if negb (forallb (fun m => existsb (fun k => fold_key (fst m) =s fold_key k) ["url"; "audience"]) l) then None else
      match (let? url := string_field l "url" in let? audience := string_field l "audience" in
             Ok (mkTarget url audience)) with
      | Ok target => Some target
      | Err _ => None
      end
  | _ => None
  end.
Definition json_keys (v : json) : option (gmap string string) :=
  match v with JObject l => decode_map json_text ∅ l | JNull => Some ∅ | _ => None end.

Section Parsing.
Context `{NetURL}.

Definition port_ok (port : string) : bool :=
  match ParseInt port with Some n => (1 <=? n) && (n <=? 65535) | None => false end.
(** The endpoint of a launch target. *)
Definition endpoint_ok (allowInsecure : bool) (url : string) : bool :=
  match url_Parse url with
  | None => false
  | Some u =>
      negb (pu_HasUser u) && negb (pu_Host u =s "") && negb (pu_Hostname u =s "") && (pu_Opaque u =s "")
      && ((pu_Scheme u =s "https") || (allowInsecure && (pu_Scheme u =s "http")))
      && (pu_Path u =s "/auth/platform/session") && (pu_RawPath u =s "") && (pu_RawQuery u =s "")
      && negb (pu_ForceQuery u) && (pu_Fragment u =s "") && (pu_RawFragment u =s "")
      && ParseRequestURI url && ((pu_Port u =s "") || port_ok (pu_Port u))
  end.
Definition target_ok (allowInsecure : bool) (kv : string * ProductLaunchTarget) : bool :=
  launchProductKeyPattern kv.1 && launchAudiencePattern (Audience kv.2)
  && (Audience kv.2 =s TrimPrefix kv.1 "product.") && endpoint_ok allowInsecure (URL kv.2).
Definition parseProductLaunchTargets (value : string) (allowInsecure : bool) : option (gmap string ProductLaunchTarget) :=
  let value := TrimSpace value in
  if value =s "" then Some ∅ else
  match parse value with
  | Some (JObject l) =>
      match decode_map json_target ∅ l with
      | Some targets => if forallb (target_ok allowInsecure) (map_to_list targets) then Some targets else None
      | None => None
      end
  | _ => None
  end.

(** The decoded key of an entry whose id is well-formed. *)
Definition consumer_key (kv : string * string) : option (string * string) :=
  if negb (kv.1 =s TrimSpace kv.1) || negb (ValidateKeyID kv.1) then None else
  match hex_decode (TrimSpace kv.2) with
  | Some key => if len key =? 32 then Some (kv.1, key) else None
  | None => None
  end.
Definition consumer_keys (kv : string * gmap string string) : option (string * gmap string string) :=
  if negb (is_ok (ValidateConsumer kv.1)) || Nat.eqb (size kv.2) 0 then None else
  match mapM consumer_key (map_to_list kv.2) with
  | Some keys => Some (kv.1, list_to_map keys)
  | None => None
  end.
Definition parseReadAuthorityKeys (value : string) : option PublicKeySet :=
  let value := TrimSpace value in
  if value =s "" then Some ∅ else
  match parse value with
  | Some (JObject l) =>
      match decode_map json_keys ∅ l with
      | Some encoded => option_map list_to_map (mapM consumer_keys (map_to_list encoded))
      | None => None
      end
  | _ => None
  end.

(** The port of net.SplitHostPort. *)
Definition split_port (s : string) : option string :=
  match split_host s, last_index ":" s with Some _, Some i => Some (drop_bytes (i + 1) s) | _, _ => None end.
Definition validateHTTPAddr (addr : string) : bool :=
  if ContainsAny addr (String "000" (String "013" (String "010" " ")) ++ String "009" "") then false else
  match split_port addr with Some port => port_ok port | None => false end.
Definition parseBoolean (value : string) : option bool :=
  let value := TrimSpace value in
  if (value =s "") || (value =s "0") then Some false else if value =s "1" then Some true else None.

(** The error is the text after ErrConfiguration. *)
Definition or_default (value fallback : string) : string :=
  if TrimSpace value =s "" then fallback else TrimSpace value.
Definition FromEnvironment (getenv : string -> string) : result string ProcessConfig :=
  let dbPath := or_default (getenv "PLATFORM_DB_PATH") defaultDBPath in
  if contains_byte "000" dbPath then Err "database path" else
  match hex_decode (TrimSpace (getenv "PLATFORM_MFA_KEY")) with
  | None => Err "PLATFORM_MFA_KEY must be configured as 64 hex characters"
  | Some key =>
      if negb (len key =? 32) then Err "PLATFORM_MFA_KEY must be configured as 64 hex characters" else
      let addr := or_default (getenv "PLATFORM_HTTP_ADDR") defaultHTTPAddr in
      if negb (validateHTTPAddr addr) then Err "PLATFORM_HTTP_ADDR" else
      match parseBoolean (getenv "PLATFORM_ALLOW_INSECURE_COOKIES") with
      | None => Err "PLATFORM_ALLOW_INSECURE_COOKIES"
      | Some allowInsecure =>
          match parseReadAuthorityKeys (getenv "PLATFORM_READ_AUTHORITY_KEYS") with
          | None => Err "PLATFORM_READ_AUTHORITY_KEYS"
          | Some keys =>
              match parseProductLaunchTargets (getenv "PLATFORM_PRODUCT_LAUNCH_TARGETS") allowInsecure with
              | None => Err "PLATFORM_PRODUCT_LAUNCH_TARGETS"
              | Some targets =>
                  Ok (mkProcessConfig dbPath key addr allowInsecure defaultMaxHeaders defaultReadHeader
                        defaultReadTimeout defaultWriteTimeout defaultIdleTimeout defaultShutdown keys targets)
              end
          end
      end
  end.
End Parsing.

(** ** assertion/config.go *)
Definition splitValues (value : string) : list string :=
  if TrimSpace value =s "" then [] else
  List.filter (fun p => negb (p =s "")) (map TrimSpace (Split value ",")).
Definition decodeKey (value : string) (size : Z) : option string :=
  let sized x := match x with Some s => if len s =? size then Some s else None | None => None end in
  match sized (hex_decode value), sized (RawStdDecode value), sized (StdDecode value) with
  | Some k, _, _ => Some k
  | _, Some k, _ => Some k
  | _, _, x => x
  end.
(** The entries [id=key] in their order; an id is given once. *)
Fixpoint verification_keys (seen : list (string * string)) (items : list string) : res (list (string * string)) :=
  match items with
  | [] => Ok seen
  | item :: items =>
      let (id, key) := Cut item "=" in
      if negb (contains_byte "=" item) || (TrimSpace id =s "") then Assertion.config_error "verification key entry"
      else if existsb (fun kv => kv.1 =s TrimSpace id) seen then Assertion.config_error "duplicate verification key"
      else match decodeKey (TrimSpace key) 32 with
           | None => Assertion.config_error "verification key encoding"
           | Some publicKey => verification_keys (seen ++ [(TrimSpace id, publicKey)])%list items
           end
  end.
Definition ConfigFromEnvironment (getenv : string -> string) : res Assertion.Config :=
  let issuer := TrimSpace (getenv "PLATFORM_ASSERTION_ISSUER") in
  let keyID := TrimSpace (getenv "PLATFORM_ASSERTION_KEY_ID") in
  let privateText := TrimSpace (getenv "PLATFORM_ASSERTION_PRIVATE_KEY") in
  let audiencesText := TrimSpace (getenv "PLATFORM_ASSERTION_AUDIENCES") in
  if (issuer =s "") || (keyID =s "") || (privateText =s "") || (audiencesText =s "")
  then Assertion.config_error "issuer, key id, private key and audiences are required" else
  match decodeKey privateText 64 with
  | None => Assertion.config_error "private key encoding"
  | Some privateKey =>
      let audiences := splitValues audiencesText in
      if Nat.eqb (List.length audiences) 0 then Assertion.config_error "audiences" else
      let? keys := verification_keys [] (splitValues (getenv "PLATFORM_ASSERTION_VERIFY_KEYS")) in
      Ok (Assertion.mkConfig issuer keyID privateKey keys audiences 0 0)
  end.

(** ** cmd/platform/main.go: the server that listens, over an opened store *)
Inductive start_error :=
| Configuration (what : string)
| AssertionConfiguration (e : error).
Definition start `{NetURL} `{Ed25519} (getenv : string -> string) (store : ReadStore)
  : result start_error (ProcessConfig * Server) :=
  match FromEnvironment getenv with
  | Err what => Err (Configuration what)
  | Ok cfg =>
      match (let? c := ConfigFromEnvironment getenv in Assertion.New c) with
      | Err e => Err (AssertionConfiguration e)
      | Ok assertionIssuer =>
          Ok (cfg, NewServer store
            (mkConfig false (pc_AllowInsecureCookie cfg) 0 true (mkLoginLimiterConfig 0 0 0 0 0) (Some assertionIssuer) 0
               (pc_ReadAuthorityKeys cfg) (pc_ReadAuthorityKeys cfg) (pc_ProductLaunchTargets cfg)))
      end
  end.

(** ** Lemmas *)
Lemma mapped_lookup {A B} (f : string * A -> option (string * B)) l m k b :
  mapM f l = Some m -> (list_to_map m : gmap string B) !! k = Some b ->
  exists kv, In kv l /\ f kv = Some (k, b).
Proof.
  intros Hm Hk. apply elem_of_list_to_map_2, list_elem_of_In in Hk. apply mapM_Some in Hm.
  induction Hm as [|kv x l m Hf _ IH]; [done|]. destruct Hk as [->|Hk]; [by exists kv; split; [left|]|].
  destruct (IH Hk) as (kv' & Hin & Hf'). exists kv'. by split; [right|].
Qed.

Section Facts.
Context `{NetURL}.

Lemma parsed_keys value keys consumer m id key :
  parseReadAuthorityKeys value = Some keys -> keys !! consumer = Some m -> m !! id = Some key ->
  is_ok (ValidateConsumer consumer) = true /\ ValidateKeyID id = true /\ len key = 32.
Proof.
  unfold parseReadAuthorityKeys. destruct (TrimSpace value =s ""); [by intros [= <-]; rewrite lookup_empty|].
  destruct (parse _) as [[| | | | |l]|]; try done. destruct (decode_map _ _ _) as [encoded|]; [|done].
  destruct (mapM consumer_keys _) as [ks|] eqn:Em; [|done]. intros [= <-] Hc Hi.
  destruct (mapped_lookup _ _ _ _ _ Em Hc) as ([c encoded_keys] & _ & Hk). unfold consumer_keys in Hk. cbn [fst snd] in Hk.
  destruct (_ || _) eqn:Eok in Hk; [done|]. destruct (mapM consumer_key _) as [entries|] eqn:Ee; [|done].
  injection Hk as -> <-. destruct (mapped_lookup _ _ _ _ _ Ee Hi) as ([id' text] & _ & Hk). unfold consumer_key in Hk.
  cbn [fst snd] in Hk. destruct (_ || _) eqn:Eid in Hk; [done|]. destruct (hex_decode _) as [bytes|]; [|done].
  destruct (Z.eqb_spec (len bytes) 32); [|done]. injection Hk as -> <-. bool_hyps. done.
Qed.

Lemma HasPrefix_split s p : HasPrefix s p = true -> s = p ++ drop_bytes (String.length p) s.
Proof.
  revert s. induction p as [|c p IH]; intros s Hp; [done|]. destruct s as [|d s]; [done|].
  cbn in Hp. apply andb_true_iff in Hp as [->%Ascii.eqb_eq Hp]. cbn. f_equal. by apply IH.
Qed.
Lemma audience_printable s : launchAudiencePattern s = true -> forall_bytes printable s = true.
Proof.
  assert (forall c, negb (lower_alnum c || contains_byte c "._-") || printable c = true) as Hl
    by (apply all_bytes; vm_compute; reflexivity).
  assert (forall c, lower_alnum c || contains_byte c "._-" = true -> printable c = true) as Hp.
  { intros c Hc. specialize (Hl c). by rewrite Hc in Hl. }
  destruct s as [|c s]; [done|]. unfold launchAudiencePattern, pattern_tail. intros Ht. bool_hyps. cbn [forall_bytes].
  rewrite Hp by (by apply orb_true_iff; left). cbn [andb]. by apply (forall_bytes_impl _ _ _ Hp).
Qed.
Lemma parsed_target value allowInsecure targets k t :
  parseProductLaunchTargets value allowInsecure = Some targets -> targets !! k = Some t ->
  k = "product." ++ Audience t /\ TrimSpace (Audience t) = Audience t /\ endpoint_ok allowInsecure (URL t) = true.
Proof.
  unfold parseProductLaunchTargets. destruct (TrimSpace value =s ""); [by intros [= <-]; rewrite lookup_empty|].
  destruct (parse _) as [[| | | | |l]|]; try done. destruct (decode_map _ _ _) as [m|]; [|done].
  destruct (forallb _ _) eqn:Ef; [|done]. intros [= <-] Hk.
  assert (target_ok allowInsecure (k, t) = true) as Ht.
  { apply (proj1 (forallb_forall _ _) Ef), list_elem_of_In. by apply elem_of_map_to_list. }
  unfold target_ok in Ht. cbn [fst snd] in Ht. apply andb_true_iff in Ht as [Ht He].
  apply andb_true_iff in Ht as [Ht Ha]. apply andb_true_iff in Ht as [Hk' Hp]. split; [|split; [|done]].
  - unfold launchProductKeyPattern in Hk'. apply andb_true_iff in Hk' as [Hpre _]. unfold TrimPrefix in Ha.
    rewrite Hpre in Ha. apply String.eqb_eq in Ha. rewrite Ha. by apply HasPrefix_split.
  - by apply TrimSpace_id, audience_printable.
Qed.
Lemma port_of addr : validateHTTPAddr addr = true ->
  exists port n, split_port addr = Some port /\ ParseInt port = Some n /\ 1 <= n <= 65535.
Proof.
  unfold validateHTTPAddr. destruct (ContainsAny _ _); [done|]. destruct (split_port addr) as [port|]; [|done].
  unfold port_ok. destruct (ParseInt port) as [n|] eqn:E; [|done]. intros ?; bool_hyps. exists port, n. split_and!; try done; lia.
Qed.
End Facts.

(** *** The encodings of a key *)
Definition url_byte (c : ascii) : ascii :=
  if Ascii.eqb c "-" then "+"%char else if Ascii.eqb c "_" then "/"%char else c.
Definition RawStdEncode (s : string) : string := map_bytes url_byte (b64_encode s).
Definition StdEncode (s : string) : string :=
  RawStdEncode s ++ (if len s mod 3 =? 0 then "" else if len s mod 3 =? 1 then "==" else "=").

Lemma hex_decode_encode s : hex_decode (hex_encode s) = Some s.
Proof.
  induction s as [|c s IH]; [done|]. pose proof (byte_code_range c). cbn [hex_encode hex_decode].
  rewrite !hex_val_digit, IH by (Z.to_euclidean_division_equations; lia). do 2 f_equal.
  apply byte_code_inj. rewrite byte_code_of by (Z.to_euclidean_division_equations; lia). Z.to_euclidean_division_equations. lia.
Qed.
Lemma hex_decode_len s t : hex_decode s = Some t -> len s = 2 * len t.
Proof.
  unfold len. revert s t. fix IH 1. intros [|a [|b s]] t; cbn [hex_decode]; [by intros [= <-]|done|].
  destruct (hex_val a), (hex_val b), (hex_decode s) as [t'|] eqn:E; try done. intros [= <-].
  apply IH in E. cbn [String.length]. lia.
Qed.
Lemma b64_length_exact s : len (b64_encode s) = (4 * len s + 2) / 3.
Proof.
  unfold len. induction s as [|a|a b|a b c s IH] using string_ind3; [done| | |];
    repeat match goal with x : ascii |- _ => destruct x end; cbn [b64_encode String.length]; try done.
  rewrite !Nat2Z.inj_succ, IH. Z.to_euclidean_division_equations. lia.
Qed.
Definition std_safe (c : ascii) : bool := negb (contains_byte c crlf) && negb (Ascii.eqb c "=").
Lemma std_alphabet s : forall_bytes std_safe (RawStdEncode s) = true /\ map_bytes std_byte (RawStdEncode s) = b64_encode s.
Proof.
  assert (forall c, negb (b64_safe c) || (std_safe (url_byte c) && Ascii.eqb (std_byte (url_byte c)) c) = true) as Hc
    by (apply all_bytes; vm_compute; reflexivity).
  unfold RawStdEncode. pose proof (b64_encode_safe s) as Hs. induction (b64_encode s) as [|c t IH]; [done|].
  cbn [forall_bytes map_bytes] in *. apply andb_true_iff in Hs as [H1 H2]. destruct (IH H2) as [-> ->].
  specialize (Hc c). rewrite H1 in Hc. apply andb_true_iff in Hc as [-> ->%Ascii.eqb_eq]. done.
Qed.
Lemma map_bytes_length f s : String.length (map_bytes f s) = String.length s.
Proof. induction s; cbn; congruence. Qed.
Lemma without_id p s : forall_bytes (fun c => negb (p c)) s = true -> without p s = s.
Proof. induction s as [|c s IH]; [done|]. cbn. destruct (p c); [done|]. intros H. by rewrite IH. Qed.
Lemma RawStdDecode_encode s : RawStdDecode (RawStdEncode s) = Some s.
Proof. unfold RawStdDecode. destruct (std_alphabet s) as [_ ->]. apply b64_decode_encode. Qed.
Lemma RawStdDecode_padded s t : RawStdDecode (s ++ String "=" t) = None.
Proof.
  unfold RawStdDecode, b64_decode.
  assert (b64_sextets (map_bytes std_byte (s ++ String "=" t)) = None) as ->; [|done].
  induction s as [|c s IH]; [done|]. cbn [String.append map_bytes b64_sextets]. rewrite IH.
  destruct (_ || _); [done|]. by destruct (b64_val _).
Qed.
Lemma StdDecode_padded a s pad : RawStdEncode s = a -> ((String.length a + String.length pad) mod 4 = 0)%nat ->
  pad = "=" \/ pad = "==" -> StdDecode (a ++ pad) = Some s.
Proof.
  intros Ha Hn Hp. destruct (std_alphabet s) as [Hs _]. rewrite Ha in Hs. unfold StdDecode.
  assert (forall d, std_safe d = true -> negb (contains_byte d crlf) = true) as Hd.
  { intros d. unfold std_safe. by intros [? _]%andb_true_iff. }
  rewrite without_id.
  2: { rewrite forall_bytes_app. apply andb_true_iff. split; [by apply (forall_bytes_impl _ _ _ Hd)|].
       by destruct Hp as [->| ->]; vm_compute. }
  assert (String.length (a ++ pad) = (String.length a + String.length pad)%nat) as Hl
    by (pose proof (len_app a pad); unfold len in *; lia).
  rewrite Hl, Hn. cbn [Nat.eqb negb].
  assert ((if HasSuffix (a ++ pad) "==" then 2%nat else if HasSuffix (a ++ pad) "=" then 1%nat else 0%nat)
    = String.length pad) as ->.
  { unfold HasSuffix. rewrite rev_string_app. destruct Hp as [->| ->]; [|by destruct (rev_string a)]. cbn.
    assert (HasPrefix (rev_string a) "=" = false) as ->; [|by destruct (rev_string a)]. rewrite <-forall_bytes_rev in Hs.
    destruct (rev_string a) as [|d t]; [done|]. cbn in *. apply andb_true_iff in Hs as [Hs _]. unfold std_safe in Hs.
    apply andb_true_iff in Hs as [_ Hs]. apply negb_true_iff in Hs. by rewrite Hs. }
  replace (_ + _ - _)%nat with (String.length a) by lia. rewrite substring_prefix, <-Ha. apply RawStdDecode_encode.
Qed.
Lemma raw_length s : String.length (RawStdEncode s) = Z.to_nat ((4 * len s + 2) / 3).
Proof. unfold RawStdEncode. rewrite map_bytes_length. pose proof (b64_length_exact s). unfold len in *. lia. Qed.
Section Startup.
Context `{NetURL} `{UnicodeTables} `{Crypto} `{Ed25519} (secretKey : string).

Lemma effect_targets env s s' :
  effect secretKey env s s' -> sv_productLaunchTargets s' = sv_productLaunchTargets s.
Proof. by destruct 1. Qed.
Lemma start_targets getenv store cfg s k t :
  start getenv store = Ok (cfg, s) -> sv_productLaunchTargets s !! k = Some t ->
  k = "product." ++ Audience t /\ TrimSpace (Audience t) = Audience t
  /\ endpoint_ok (pc_AllowInsecureCookie cfg) (URL t) = true.
Proof.
  unfold start, FromEnvironment. destruct (contains_byte _ _); [done|].
  destruct (hex_decode _) as [key|]; [|done]. destruct (negb (len key =? 32)); [done|].
  destruct (validateHTTPAddr _); [|done]. cbn [negb]. destruct (parseBoolean _) as [insecure|]; [|done].
  destruct (parseReadAuthorityKeys _) as [keys|]; [|done].
  destruct (parseProductLaunchTargets _ _) as [targets|] eqn:Et; [|done].
  match goal with |- match ?x with Ok _ => _ | Err _ => _ end = _ -> _ => destruct x as [issuer|]; [|done] end.
  intros [= <- <-]. cbn. intros Hk. exact (parsed_target _ _ _ _ _ Et Hk).
Qed.
Lemma start_server getenv store cfg s : start getenv store = Ok (cfg, s) ->
  sv_productLaunchTargets s = pc_ProductLaunchTargets cfg.
Proof.
  unfold start. destruct (FromEnvironment getenv) as [c|]; [|done].
  match goal with |- match ?x with Ok _ => _ | Err _ => _ end = _ -> _ => destruct x; [|done] end. by intros [= <- <-].
Qed.
(** What was configured is not changed by serving requests. *)
Lemma served_targets s l : Forall (timely (SessionTTL (sv_cfg s))) l ->
  sv_productLaunchTargets (serve_all secretKey l s) = sv_productLaunchTargets s.
Proof.
  intros Hl. apply (serve_all_invariant secretKey (fun x => sv_productLaunchTargets x = sv_productLaunchTargets s)); [done| |done].
  intros x _ y y' Hy. by rewrite (effect_targets _ _ _ Hy).
Qed.

(** ** Claims *)

(** On a server started from the environment, and whatever it served since,
    the assertion of a handoff is for the one product whose access was proved:
    its audience is the name of that product, and the verifier's table maps it to
    that product only. *)
Theorem handoff_product_bound getenv store cfg s l k r env token :
  start getenv store = Ok (cfg, s) -> Forall (timely (SessionTTL (sv_cfg s))) l ->
  let s' := serve_all secretKey l s in
  handed (Handler secretKey (Protected (PostHandoff k)) r env s').1 = Some token ->
  exists session oid wid claims,
    loadSession r (en_load env) (db_of s') = Ok session
    /\ speaks_for (User_of session) oid (TrimSpace k) wid token env s' claims
    /\ TrimSpace k = "product." ++ Assertion.cl_Audience claims
    /\ (forall product, Assertion.ProductForAudience (Assertion.cl_Audience claims) = Some product -> product = TrimSpace k).
Proof.
  intros Hs Hl s' Hh.
  pose proof (served_targets s l Hl) as Ht. fold s' in Ht.
  unfold Handler, requireSession in Hh. set (r' := requestBodyLimit _ r) in Hh.
  change (loadSession r') with (loadSession r) in Hh.
  destruct (loadSession r (en_load env) (db_of s')) as [session|e] eqn:Es; [|by destruct (Is_NoRows e)].
  cbn [protected] in Hh. apply productHandoff_token in Hh as (_ & _ & oid & wid & claims & t & Hf & Hk & Ha).
  rewrite Ht in Hk. destruct (start_targets _ _ _ _ _ _ Hs Hk) as (Hp & Htrim & _). rewrite Htrim in Ha.
  exists session, oid, wid, claims. split_and!; [done|done|by rewrite Ha|].
  intros product Hpr. rewrite Hp, Ha in *. unfold Assertion.ProductForAudience in Hpr. rewrite Htrim in Hpr.
  destruct (String.eqb_spec (Audience t) "tockrctrl") as [->|]; [by injection Hpr as <-|].
  destruct (String.eqb_spec (Audience t) "tockrims") as [->|]; [by injection Hpr as <-|done].
Qed.
End Startup.

(** A key of the size asked for is read back from each of its encodings:
    hexadecimal, unpadded and padded standard base64; none of the three is taken
    for another one. *)
Theorem key_encodings k n :
  len k = n -> n = 32 \/ n = 64 ->
  decodeKey (hex_encode k) n = Some k /\ decodeKey (RawStdEncode k) n = Some k /\ decodeKey (StdEncode k) n = Some k.
Proof.
  intros Hk Hn.
  assert (n = 32 /\ StdEncode k = RawStdEncode k ++ "=" \/ n = 64 /\ StdEncode k = RawStdEncode k ++ "==") as Hpad.
  { unfold StdEncode. rewrite Hk. destruct Hn as [->| ->]; [left|right]; done. }
  assert (len (RawStdEncode k) = if n =? 32 then 43 else 86) as Hraw.
  { unfold len at 1. rewrite raw_length, Hk. by destruct Hn as [->| ->]. }
  assert (forall s, len s = 43 \/ len s = 44 \/ len s = 86 \/ len s = 88 ->
    match hex_decode s with Some t => if len t =? n then Some t else None | None => None end = None) as Hhex.
  { intros s Hs. destruct (hex_decode s) as [t|] eqn:Et; [|done]. apply hex_decode_len in Et.
    destruct (Z.eqb_spec (len t) n); [|done]. lia. }
  unfold decodeKey. split_and!.
  - rewrite hex_decode_encode, Hk, Z.eqb_refl. done.
  - rewrite Hhex, RawStdDecode_encode, Hk, Z.eqb_refl; [done|]. destruct (n =? 32); lia.
  - assert (RawStdDecode (StdEncode k) = None) as -> by (by destruct Hpad as [[_ ->]|[_ ->]]; apply RawStdDecode_padded).
    assert (StdDecode (StdEncode k) = Some k) as ->.
    { destruct Hpad as [[-> ->]|[-> ->]]; (apply StdDecode_padded; [done|rewrite raw_length, Hk; reflexivity|]); auto. }
    rewrite Hhex, Hk, Z.eqb_refl; [done|].
    destruct Hpad as [[-> ->]|[-> ->]]; rewrite len_app, Hraw; vm_compute; auto.
Qed.

Section Loading.
Context `{NetURL}.

(** C37: a configuration that loads is well-formed: the MFA key has 32 bytes,
    the address a port, the database path no NUL byte; every machine key is a
    32-byte key of a known consumer under a valid id; every launch target's
    product is the one of its audience, at an endpoint of the session path,
    without credentials, over https unless insecure cookies are allowed. *)
Theorem config_sound getenv cfg :
  FromEnvironment getenv = Ok cfg ->
  len (pc_MFAKey cfg) = 32 /\ pc_DBPath cfg <> "" /\ contains_byte "000" (pc_DBPath cfg) = false
  /\ (exists port n, split_port (pc_HTTPAddr cfg) = Some port /\ ParseInt port = Some n /\ 1 <= n <= 65535)
  /\ (forall consumer m id key, pc_ReadAuthorityKeys cfg !! consumer = Some m -> m !! id = Some key ->
       is_ok (ValidateConsumer consumer) = true /\ ValidateKeyID id = true /\ len key = 32)
  /\ (forall k t, pc_ProductLaunchTargets cfg !! k = Some t ->
       k = "product." ++ Audience t
       /\ exists u, url_Parse (URL t) = Some u /\ pu_HasUser u = false /\ pu_Path u = "/auth/platform/session"
            /\ (pc_AllowInsecureCookie cfg = false -> pu_Scheme u = "https")).
Proof.
  unfold FromEnvironment. destruct (contains_byte _ _) eqn:En; [done|].
  destruct (hex_decode _) as [key|]; [|done]. destruct (Z.eqb_spec (len key) 32); [|done]. cbn [negb].
  destruct (validateHTTPAddr _) eqn:Ea; [|done]. cbn [negb]. destruct (parseBoolean _) as [insecure|]; [|done].
  destruct (parseReadAuthorityKeys _) as [keys|] eqn:Ek; [|done].
  destruct (parseProductLaunchTargets _ _) as [targets|] eqn:Et; [|done]. intros [= <-]. cbn.
  split; [done|]. split; [|split; [done|split; [by apply port_of|split]]].
  - unfold or_default. destruct (_ =s "") eqn:E; [done|]. by apply String.eqb_neq.
  - intros consumer m id k. by eapply parsed_keys.
  - intros k t Hk. destruct (parsed_target _ _ _ _ _ Et Hk) as (Hp & _ & He). split; [done|].
    unfold endpoint_ok in He. destruct (url_Parse (URL t)) as [u|]; [|done]. exists u. bool_hyps.
    split; [done|]. split; [done|]. split; [by apply String.eqb_eq|]. intros ->.
    destruct (pu_Scheme u =s "https") eqn:Es; [by apply String.eqb_eq|done].
Qed.
End Loading.

(** ** Witnesses *)
Module Boot.
#[export] Existing Instances ascii_tables toy_crypto Assertion.Sample.toy_ed25519.
Definition endpoint : string := "https://ims.example/auth/platform/session".
(** A net/url that parses this one endpoint. *)
#[export] Instance one_url : NetURL := {|
  url_Parse s := if s =s endpoint then
    Some (mkParsedURL "https" false "ims.example" "ims.example" "" "" "/auth/platform/session" "" "" false "" "")
    else None;
  ParseRequestURI s := s =s endpoint |}.
Definition object (l : list (string * json)) : string := encode_json (JObject l).
Definition getenv (name : string) : string :=
  if name =s "PLATFORM_MFA_KEY" then hex_encode (fit 32 "mfa")
  else if name =s "PLATFORM_HTTP_ADDR" then " 127.0.0.1:9000 "
  else if name =s "PLATFORM_READ_AUTHORITY_KEYS" then
    object [("tockrctrl", JObject [("key-1", JString (hex_encode (fit 32 "machine")))])]
  else if name =s "PLATFORM_PRODUCT_LAUNCH_TARGETS" then
    object [("product.tockrims", JObject [("url", JString endpoint); ("audience", JString "tockrims")])]
  else if name =s "PLATFORM_ASSERTION_ISSUER" then "https://platform.example"
  else if name =s "PLATFORM_ASSERTION_KEY_ID" then "key-1"
  else if name =s "PLATFORM_ASSERTION_PRIVATE_KEY" then RawStdEncode Assertion.Sample.sk
  else if name =s "PLATFORM_ASSERTION_AUDIENCES" then "tockrctrl, tockrims" else "".
Definition no_config : ProcessConfig := mkProcessConfig "" "" "" false 0 0 0 0 0 0 ∅ ∅.
Definition cfg : ProcessConfig := match FromEnvironment getenv with Ok c => c | Err _ => no_config end.
Definition store : ReadStore := mkReadStore Browser.db [] [] [] [].
Definition started : ProcessConfig * Server :=
  match start getenv store with Ok x => x | Err _ => (no_config, Browser.server) end.
End Boot.
#[local] Existing Instances ascii_tables toy_crypto Assertion.Sample.toy_ed25519 Boot.one_url.

Lemma key_encodings_witness :
  decodeKey (hex_encode (fit 32 "k")) 32 = Some (fit 32 "k") /\ decodeKey (RawStdEncode (fit 32 "k")) 32 = Some (fit 32 "k")
  /\ decodeKey (StdEncode (fit 32 "k")) 32 = Some (fit 32 "k").
Proof. apply key_encodings; [vm_compute; reflexivity|by left]. Defined.

Lemma config_sound_witness :
  len (pc_MFAKey Boot.cfg) = 32 /\ exists m, pc_ReadAuthorityKeys Boot.cfg !! "tockrctrl" = Some m /\ size m = 1%nat.
Proof.
  destruct (config_sound Boot.getenv Boot.cfg) as (Hk & _); [vm_compute; reflexivity|]. split; [exact Hk|].
  eexists. split; vm_compute; reflexivity.
Defined.

Lemma handoff_product_bound_witness :
  exists claims, Assertion.cl_Audience claims = "tockrims" /\ Assertion.cl_PlatformUserID claims = "usr_1"
    /\ Assertion.ProductForAudience (Assertion.cl_Audience claims) = Some "product.tockrims".
Proof.
  destruct (handed (Handler "key" (Protected (PostHandoff "product.tockrims")) Browser.handoff Browser.env
    (serve_all "key" [] Boot.started.2)).1) as [token|] eqn:E; [|vm_compute in E; discriminate E].
  destruct (handoff_product_bound "key" Boot.getenv Boot.store Boot.started.1 Boot.started.2 [] "product.tockrims"
    Browser.handoff Browser.env token) as (session & oid & wid & claims & Hs & (a & i & q & _ & _ & _ & Hu & _) & Hp & _).
  - vm_compute; reflexivity.
  - constructor.
  - exact E.
  - exists claims. assert (Assertion.cl_Audience claims = "tockrims") as Ha by (vm_compute in Hp; injection Hp; intros Ha; symmetry; exact Ha).
    rewrite Ha. split; [done|]. split; [|reflexivity]. rewrite Hu. vm_compute in Hs. injection Hs as <-. reflexivity.
Defined.
