(* ===== verification/Headers.v ===== *)
(** The security headers of every response (internal/platform/http/server.go:
    securityHeaders, the outermost middleware), and what they mean for the page
    that hands a launch assertion to a product. *)
From stdpp Require Import base tactics option list gmap strings sorting.
From Stdlib Require Import ZArith Lia Ascii String.
From S2P Require Import Prelude GoStrings GoTime Codec Errors Domain Json Schema Outbox Auth Limiter ReadAuthority.
From S2P Require Import Assertion Identity Product Snapshot Announce System Url Pages Http Login Ui Gateway Serve ServeLaws Launch Config.

Local Open Scope string_scope.
Local Open Scope Z_scope.

Section Headers.
Context `{NetURL}.

Definition form_origin (target : ProductLaunchTarget) : option string :=
  match url_Parse (URL target) with
  | Some u => if negb (pu_Scheme u =s "") && negb (pu_Host u =s "") && negb (pu_HasUser u)
              then Some (pu_Scheme u ++ "://" ++ pu_Host u) else None
  | None => None
  end.
(** The set of origins, in the order in which it is written. *)
Definition form_origins (targets : gmap string ProductLaunchTarget) : list string :=
  sort_by text_lt (elements (list_to_set (omap form_origin (map snd (map_to_list targets))) : gset string)).
Definition form_action (origins : list string) : string :=
  if Nat.ltb 0 (List.length origins) then "'self' " ++ Join origins " " else "'self'".
Definition content_security_policy (origins : list string) : string :=
  "default-src 'self'; style-src 'self'; form-action " ++ form_action origins
  ++ "; frame-ancestors 'none'; base-uri 'none'".
Definition security_headers (targets : gmap string ProductLaunchTarget) : list (string * string) :=
  [("Content-Security-Policy", content_security_policy (form_origins targets));
   ("X-Content-Type-Options", "nosniff"); ("X-Frame-Options", "DENY"); ("Referrer-Policy", "no-referrer");
   ("Permissions-Policy", "camera=(), geolocation=(), microphone=(), payment=(), usb=()");
   ("Cross-Origin-Opener-Policy", "same-origin"); ("Cross-Origin-Resource-Policy", "same-origin")].
(** securityHeaders: set before the handler runs, none of which sets them again. *)
Definition securityHeaders (next : handler) : handler := fun s =>
  let (x, s') := next s in (setHeaders (security_headers (sv_productLaunchTargets s)) x, s').
(** What a client receives. *)
Definition respond `{UnicodeTables} `{Crypto} `{Ed25519} (secretKey : string) (route : Route) (r : Request) (env : Env) : handler :=
  securityHeaders (Handler secretKey route r env).

(** ** Lemmas *)
Lemma in_form_origins targets o :
  In o (form_origins targets) <-> exists k t, targets !! k = Some t /\ form_origin t = Some o.
Proof.
  unfold form_origins. rewrite in_sort_by, <-list_elem_of_In, elem_of_elements, elem_of_list_to_set, list_elem_of_omap.
  split.
  - intros (t & Ht & Ho). rewrite list_elem_of_In in Ht. apply in_map_iff in Ht as ([k t'] & [= ->] & Hin).
    exists k, t. split; [|done]. by apply elem_of_map_to_list, list_elem_of_In.
  - intros (k & t & Hk & Ho). exists t. split; [|done]. rewrite list_elem_of_In. apply in_map_iff. exists (k, t). split; [done|].
    by apply list_elem_of_In, elem_of_map_to_list.
Qed.
(** In strictly ascending order: the text does not depend on the order in which
    the map is walked. *)
Lemma form_origins_sorted targets : StronglySorted (fun a b => text_lt a b = true) (form_origins targets).
Proof.
  assert (NoDup (form_origins targets)) as Hnd.
  { unfold form_origins. rewrite (sort_by_Permutation text_lt). apply NoDup_elements. }
  assert (StronglySorted (fun a b => text_lt b a = false) (form_origins targets)) as Hs.
  { apply sort_by_sorted; [apply text_lt_asym|apply text_ge_trans]. }
  induction Hs as [|o l _ IH Hall]; [constructor|]. apply NoDup_cons in Hnd as [Hn Hnd]. constructor; [by apply IH|].
  apply Forall_forall. intros o' Ho'. destruct (text_lt o o') eqn:E; [done|]. destruct Hn.
  rewrite Forall_forall in Hall. by rewrite (text_lt_total o o' E (Hall _ Ho')).
Qed.
(** The text of the policy, origin by origin. *)
Lemma join_blank l : l <> [] -> " " ++ Join l " " = String.concat "" (map (fun o => " " ++ o) l).
Proof.
  induction l as [|o [|o' l] IH]; intros Hl; [done| |].
  - cbn. by rewrite ?string_app_nil_r.
  - specialize (IH ltac:(done)). cbn [map] in *. change (String.concat "" (?a :: ?b :: ?l)) with (a ++ "" ++ String.concat "" (b :: l)).
    change (Join (o :: o' :: l) " ") with (o ++ " " ++ Join (o' :: l) " "). rewrite IH. by rewrite !string_app_assoc.
Qed.
Lemma policy_text origins : content_security_policy origins = "default-src 'self'; style-src 'self'; form-action 'self'"
  ++ String.concat "" (map (fun o => " " ++ o) origins) ++ "; frame-ancestors 'none'; base-uri 'none'".
Proof.
  unfold content_security_policy, form_action. destruct origins as [|o l]; [done|]. cbn [List.length Nat.ltb Nat.leb].
  rewrite <-join_blank by done. done.
Qed.
(** An endpoint that a configuration admits has an origin. *)
Lemma endpoint_origin allowInsecure t : endpoint_ok allowInsecure (URL t) = true ->
  exists u, url_Parse (URL t) = Some u /\ form_origin t = Some (pu_Scheme u ++ "://" ++ pu_Host u)
    /\ (pu_Scheme u = "https" \/ allowInsecure = true /\ pu_Scheme u = "http").
Proof.
  unfold endpoint_ok, form_origin. destruct (url_Parse (URL t)) as [u|]; [|done]. intros He. bool_hyps. exists u. split; [done|].
  match goal with A : (pu_Scheme u =s "https") || _ = true |- _ => rename A into Hs end.
  assert (pu_Scheme u = "https" \/ allowInsecure = true /\ pu_Scheme u = "http") as Hsch.
  { apply orb_true_iff in Hs as [Hs|Hs]; [left; by apply String.eqb_eq|right].
    apply andb_true_iff in Hs as [? Hs]. split; [done|by apply String.eqb_eq]. }
  split; [|done]. assert (negb (pu_Scheme u =s "") = true) as -> by (by destruct Hsch as [->|[_ ->]]).
  by destruct (pu_Host u =s ""), (pu_HasUser u).
Qed.
End Headers.

Section Handoff.
Context `{NetURL} `{UnicodeTables} `{Crypto} `{Ed25519} (secretKey : string).

(** The handoff page posts to the endpoint configured for its product. *)
Lemma productHandoff_page r env session k s p :
  rs_Body (productHandoff r env session k s).1 = BPage (ProductHandoffPage p) ->
  exists target, sv_productLaunchTargets s !! TrimSpace k = Some target /\ php_TargetURL p = URL target.
Proof.
  unfold productHandoff, uiSession. destruct (Cookie r "platform_csrf") as [c|]; [|done]. destruct (blank c); [done|].
  destruct (negb _); [done|]. destruct (negb _); [done|].
  destruct (sv_productLaunchTargets s !! TrimSpace k) as [target|]; [|done].
  destruct (AssertionIssuer _) as [issuer|]; [|done]. destruct (_ || _) in |- *; [done|]. unfold ui_read.
  assert (forall e, rs_Body (uiNotFoundOrError e) <> BPage (ProductHandoffPage p)) as He.
  { intros e. unfold uiNotFoundOrError. by destruct (any_Is _ _). }
  destruct (ProveProductAccess _ _ _ _ _) as [access|e]; [|intros Hx; by apply He in Hx].
  destruct (ListLaunchableProducts _ _ _ _) as [products|e]; [|intros Hx; by apply He in Hx].
  destruct (find _ _) as [product|] in |- *; [|done]. destruct (Assertion.Issue _ _ _ _ _) as [[token claims]|e]; [|done].
  intros [= <-]. by exists target.
Qed.
Lemma respond_headers route r env s :
  find (fun h => h.1 =s "Content-Security-Policy") (rs_Headers (respond secretKey route r env s).1)
  = Some ("Content-Security-Policy", content_security_policy (form_origins (sv_productLaunchTargets s))).
Proof. unfold respond, securityHeaders. by destruct (Handler _ _ _ _ _). Qed.

(** C39: the policy of every response lets forms post to the configured products
    and nowhere else. On a server started from the environment, and whatever it
    served since, the Content-Security-Policy of each response is the one of its
    launch targets: the origins it lists after 'self' are exactly those of the
    targets, in ascending order without repetition, over https unless insecure
    cookies are allowed; and the page that hands out an assertion posts it to
    one of them, so that the browser does not block the handoff. *)
Theorem form_action_exact getenv store cfg s l route r env :
  start getenv store = Ok (cfg, s) -> Forall (timely (SessionTTL (sv_cfg s))) l ->
  let x := (respond secretKey route r env (serve_all secretKey l s)).1 in
  let origins := form_origins (pc_ProductLaunchTargets cfg) in
  find (fun h => h.1 =s "Content-Security-Policy") (rs_Headers x)
    = Some ("Content-Security-Policy", "default-src 'self'; style-src 'self'; form-action 'self'"
        ++ String.concat "" (map (fun o => " " ++ o) origins) ++ "; frame-ancestors 'none'; base-uri 'none'")
  /\ StronglySorted (fun a b => text_lt a b = true) origins
  /\ (forall o, In o origins <-> exists k t u, pc_ProductLaunchTargets cfg !! k = Some t
       /\ url_Parse (URL t) = Some u /\ o = pu_Scheme u ++ "://" ++ pu_Host u)
  /\ (forall o, In o origins -> HasPrefix o "https://" = true \/ pc_AllowInsecureCookie cfg = true /\ HasPrefix o "http://" = true)
  /\ (forall k p, route = Protected (PostHandoff k) -> rs_Body x = BPage (ProductHandoffPage p) ->
       exists u, url_Parse (php_TargetURL p) = Some u /\ In (pu_Scheme u ++ "://" ++ pu_Host u) origins).
Proof.
  intros Hs Hl x origins.
  assert (forall k t, pc_ProductLaunchTargets cfg !! k = Some t -> exists u, url_Parse (URL t) = Some u
    /\ form_origin t = Some (pu_Scheme u ++ "://" ++ pu_Host u)
    /\ (pu_Scheme u = "https" \/ pc_AllowInsecureCookie cfg = true /\ pu_Scheme u = "http")) as Ht.
  { intros k t Hk. rewrite <-(start_server _ _ _ _ Hs) in Hk.
    destruct (start_targets _ _ _ _ _ _ Hs Hk) as (_ & _ & He). by apply endpoint_origin. }
  pose proof (served_targets secretKey s l Hl) as Hserved. rewrite (start_server _ _ _ _ Hs) in Hserved. split_and!.
  - unfold x. by rewrite respond_headers, Hserved, policy_text.
  - apply form_origins_sorted.
  - intros o. unfold origins. rewrite in_form_origins. split.
    + intros (k & t & Hk & Ho). destruct (Ht _ _ Hk) as (u & Hu & Hu' & _). exists k, t, u. split_and!; [done|done|congruence].
    + intros (k & t & u & Hk & Hu & ->). destruct (Ht _ _ Hk) as (u' & Hu' & Ho & _). exists k, t. split; [done|congruence].
  - intros o (k & t & Hk & Ho)%in_form_origins. destruct (Ht _ _ Hk) as (u & _ & Ho' & Hsch).
    rewrite Ho in Ho'. injection Ho' as ->. destruct Hsch as [->|[Hi ->]]; [left; exact (HasPrefix_app "https://" _)|right; split; [done|exact (HasPrefix_app "http://" _)]].
  - intros k p -> Hp. unfold x, respond, securityHeaders in Hp. unfold Handler, requireSession in Hp.
    destruct (loadSession _ _ _) as [session|e] in Hp; [|by destruct (Is_NoRows e)]. cbn [protected] in Hp.
    destruct (productHandoff _ _ _ _ _) as [y s2] eqn:Ey in Hp. cbn [fst setHeaders rs_Body] in Hp.
    apply (f_equal fst) in Ey. cbn [fst] in Ey. rewrite <-Ey in Hp. apply productHandoff_page in Hp as (t & Hk & ->).
    rewrite Hserved in Hk. destruct (Ht _ _ Hk) as (u & Hu & Ho & _). exists u. split; [done|]. apply in_form_origins. eauto.
Qed.
End Handoff.

(** ** Witness *)
#[local] Existing Instances ascii_tables toy_crypto Assertion.Sample.toy_ed25519 Boot.one_url.
Lemma form_action_exact_witness :
  exists p u, rs_Body (respond "key" (Protected (PostHandoff "product.tockrims")) Browser.handoff Browser.env
      (serve_all "key" [] Boot.started.2)).1 = BPage (ProductHandoffPage p)
    /\ url_Parse (php_TargetURL p) = Some u
    /\ form_origins (pc_ProductLaunchTargets Boot.started.1) = ["https://ims.example"]
    /\ In (pu_Scheme u ++ "://" ++ pu_Host u) (form_origins (pc_ProductLaunchTargets Boot.started.1)).
Proof.
  destruct (rs_Body (respond "key" (Protected (PostHandoff "product.tockrims")) Browser.handoff Browser.env
      (serve_all "key" [] Boot.started.2)).1) as [| | |page] eqn:E; try (vm_compute in E; discriminate E).
  destruct page as [| | | | | | |p| | |] eqn:Ep; try (vm_compute in E; discriminate E).
  destruct (form_action_exact "key" Boot.getenv Boot.store Boot.started.1 Boot.started.2 [] (Protected (PostHandoff "product.tockrims"))
    Browser.handoff Browser.env) as (_ & _ & _ & _ & Hp); [vm_compute; reflexivity|constructor|].
  destruct (Hp "product.tockrims" p eq_refl E) as (u & Hu & Hin). exists p, u. split; [done|]. split; [exact Hu|].
  split; [vm_compute; reflexivity|exact Hin].
Defined.
