(* ===== verification/Reconciliation.v ===== *)
(** internal/platform/reconciliation/reconciliation.go: the read-only mapping of
    the identities of the products to proposed Platform identities. A Go map is
    a [gmap]; the loops over one are order-independent and are written as maps. *)
From stdpp Require Import base tactics option list gmap sets strings sorting.
From Stdlib Require Import ZArith Lia Ascii String Sorted Permutation.
From S2P Require Import Prelude GoStrings GoTime Codec Errors Schema Json JsonLaws Auth.

Local Open Scope string_scope.
Local Open Scope Z_scope.

Definition SchemaVersion : Z := 1.
Definition SourceCTRL := "ctrl".
Definition SourceIMS := "ims".
Definition EntityUser := "user".
Definition EntityOrganisation := "organisation".
Definition EntityWorkspace := "workspace".
Definition EntityOrganisationMembership := "organisation_membership".
Definition EntityWorkspaceMembership := "workspace_membership".
Definition StatusProposed := "proposed".
Definition StatusBlocked := "blocked".
Definition StatusAmbiguous := "ambiguous".
Definition StatusCollision := "collision".

Record SourceRecord := mkSourceRecord {
  src_Source : string; src_SourceVersion : string; src_Entity : string; src_SourceID : string;
  src_MatchKey : string; src_ParentSourceID : string; src_ParentMatchKey : string;
  src_UserSourceID : string; src_UserMatchKey : string; src_Role : string; src_Active : bool }.
Record Inventory := mkInventory { inv_Records : list SourceRecord }.
Record SourceRef := mkSourceRef { ref_Source : string; ref_SourceVersion : string; ref_SourceID : string }.
Record Proposal := mkProposal {
  pr_Entity : string; pr_PlatformID : string; pr_Status : string; pr_Confidence : string;
  pr_MatchKeySHA256 : string; pr_Reason : string; pr_ReviewRequired : bool; pr_SourceRefs : list SourceRef }.
Record Summary := mkSummary {
  sm_RecordCount : Z; sm_ProposalCount : Z; sm_BlockedCount : Z; sm_AmbiguousCount : Z; sm_CollisionCount : Z }.
Record Report := mkReport {
  rp_SchemaVersion : Z; rp_ReportType : string; rp_Summary : Summary; rp_Proposals : list Proposal }.
Record normalizedRecord := mkNormalized { nr_record : SourceRecord; nr_valid : bool; nr_reason : string }.
Record proposalGroup := mkGroup {
  pg_key : string; pg_entity : string; pg_matchKey : string; pg_records : list normalizedRecord;
  pg_base : string; pg_reason : string; pg_platformID : string }.

(** ** Normalisation *)
Definition validEntity (entity : string) : bool :=
  one_of entity [EntityUser; EntityOrganisation; EntityWorkspace; EntityOrganisationMembership; EntityWorkspaceMembership].
Definition requiresParent (entity : string) : bool :=
  one_of entity [EntityWorkspace; EntityOrganisationMembership; EntityWorkspaceMembership].
Definition requiresUser (entity : string) : bool :=
  one_of entity [EntityOrganisationMembership; EntityWorkspaceMembership].
Definition requiresRole (entity : string) : bool :=
  one_of entity [EntityOrganisationMembership; EntityWorkspaceMembership].
Definition isSourceSHA (value : string) : bool := (len value =? 40) && hex_decodable value.
Definition known_source (source : string) : bool := (source =s SourceCTRL) || (source =s SourceIMS).

Definition record_reason (r : SourceRecord) : string :=
  if negb (known_source (src_Source r)) then "unsupported_source"
  else if negb (isSourceSHA (src_SourceVersion r)) then "source_version_provenance_required"
  else if negb (validEntity (src_Entity r)) then "unsupported_entity"
  else if src_SourceID r =s "" then "source_identity_required"
  else if src_MatchKey r =s "" then "canonical_match_key_required"
  else if requiresParent (src_Entity r) && ((src_ParentSourceID r =s "") || (src_ParentMatchKey r =s ""))
  then "parent_identity_reference_required"
  else if requiresUser (src_Entity r) && ((src_UserSourceID r =s "") || (src_UserMatchKey r =s ""))
  then "user_identity_reference_required"
  else if requiresRole (src_Entity r) && (src_Role r =s "") then "membership_role_required" else "".
Definition normalizeRecord `{UnicodeTables} (raw : SourceRecord) : normalizedRecord :=
  let record := mkSourceRecord (ToLower (TrimSpace (src_Source raw))) (ToLower (TrimSpace (src_SourceVersion raw)))
    (ToLower (TrimSpace (src_Entity raw))) (TrimSpace (src_SourceID raw)) (TrimSpace (src_MatchKey raw))
    (TrimSpace (src_ParentSourceID raw)) (TrimSpace (src_ParentMatchKey raw)) (TrimSpace (src_UserSourceID raw))
    (TrimSpace (src_UserMatchKey raw)) (TrimSpace (src_Role raw)) (src_Active raw) in
  mkNormalized record (record_reason record =s "") (record_reason record).

(** ** Keys *)
Definition nul : string := String "000" "".
Definition groupKey (entity matchKey : string) : string := entity ++ nul ++ matchKey.
Definition sourceIdentityKey (r : SourceRecord) : string :=
  src_Source r ++ nul ++ src_Entity r ++ nul ++ src_SourceID r.
(** [string(rune(index))]: a rune is an int32. *)
Definition wrap32 (z : Z) : Z := (z + 2 ^ 31) mod 2 ^ 32 - 2 ^ 31.
Definition invalid_key (index : Z) : string := "invalid" ++ nul ++ encode_rune (wrap32 index).

Section Building.
Context `{UnicodeTables} `{Crypto}.

Definition digest (value : string) : string := hex_encode (sha256 value).
Definition fingerprint (r : SourceRecord) : string :=
  digest (Join [src_Entity r; src_MatchKey r; src_ParentMatchKey r; src_UserMatchKey r; src_Role r] nul).
Definition platform_prefix (entity : string) : string :=
  if entity =s EntityUser then "usr_" else if entity =s EntityOrganisation then "org_"
  else if entity =s EntityWorkspace then "wsp_" else if entity =s EntityOrganisationMembership then "omem_"
  else if entity =s EntityWorkspaceMembership then "wmem_" else "".
Definition stablePlatformID (entity matchKey : string) : string :=
  platform_prefix entity
  ++ b64_encode (substring 0 18 (sha256 ("tockrplatform/pf-b9-s01/platform-id/v1" ++ nul ++ entity ++ nul ++ matchKey))).

(** ** Build *)
Definition with_records (records : list normalizedRecord) (g : proposalGroup) : proposalGroup :=
  mkGroup (pg_key g) (pg_entity g) (pg_matchKey g) records (pg_base g) (pg_reason g) (pg_platformID g).

(** The first loop: the record at [index] joins its group. *)
Definition collect (acc : gmap string proposalGroup * gmap string (gset string)) (ir : Z * SourceRecord) : gmap string proposalGroup * gmap string (gset string) :=
  let '(groups, ids) := acc in
  let record := normalizeRecord ir.2 in
  if negb (nr_valid record) then
    let key := invalid_key ir.1 in
    (<[key := mkGroup key (src_Entity (nr_record record)) "" [record] StatusBlocked (nr_reason record) ""]> groups, ids)
  else
    let key := groupKey (src_Entity (nr_record record)) (src_MatchKey (nr_record record)) in
    let group := default (mkGroup key (src_Entity (nr_record record)) (src_MatchKey (nr_record record)) [] StatusProposed "" "")
      (groups !! key) in
    let sourceKey := sourceIdentityKey (nr_record record) in
    (<[key := with_records (pg_records group ++ [record]) group]> groups,
     <[sourceKey := {[key]} ∪ default ∅ (ids !! sourceKey)]> ids).
Fixpoint numbered {A} (i : Z) (l : list A) : list (Z * A) :=
  match l with [] => [] | x :: l => (i, x) :: numbered (i + 1) l end.
Definition collect_all (records : list SourceRecord) : gmap string proposalGroup * gmap string (gset string) := fold_left collect (numbered 0 records) (∅, ∅).

(** The second loop, on one group. *)
Definition decided (ids : gmap string (gset string)) (records : list normalizedRecord) : string * string :=
  let fingerprints : gset string := list_to_set (map (fun r => fingerprint (nr_record r)) records) in
  let sources : gset string := list_to_set (map (fun r => src_Source (nr_record r)) records) in
  if Nat.ltb 1 (size fingerprints) then (StatusAmbiguous, "canonical_identity_conflict_requires_review")
  else if Nat.ltb (size sources) (List.length records)
  then (StatusCollision, "multiple_records_from_one_source_require_review")
  else if existsb (fun r => Nat.ltb 1 (size (default ∅ (ids !! sourceIdentityKey (nr_record r))))) records
  then (StatusCollision, "source_identity_maps_to_multiple_canonical_keys")
  else (StatusProposed, "").
Definition classify (ids : gmap string (gset string)) (g : proposalGroup) : proposalGroup :=
  if pg_base g =s StatusBlocked then g else
  let '(base, reason) := decided ids (pg_records g) in
  mkGroup (pg_key g) (pg_entity g) (pg_matchKey g) (pg_records g) base reason
    (if base =s StatusProposed then stablePlatformID (pg_entity g) (pg_matchKey g) else "").

Definition hasSourceRef (g : proposalGroup) (source sourceID : string) : bool :=
  existsb (fun r => (src_Source (nr_record r) =s source) && (src_SourceID (nr_record r) =s sourceID)) (pg_records g).
Definition resolved (groups : gmap string proposalGroup) (entity matchKey source sourceID : string) : bool :=
  match groups !! groupKey entity matchKey with
  | Some g => (pg_base g =s StatusProposed) && hasSourceRef g source sourceID
  | None => false
  end.
Definition dependenciesResolved (g : proposalGroup) (groups : gmap string proposalGroup) : bool :=
  forallb (fun n =>
    let r := nr_record n in
    let parentEntity := if src_Entity r =s EntityWorkspaceMembership then EntityWorkspace else EntityOrganisation in
    (negb (requiresParent (src_Entity r))
     || resolved groups parentEntity (src_ParentMatchKey r) (src_Source r) (src_ParentSourceID r))
    && (negb (requiresUser (src_Entity r))
        || resolved groups EntityUser (src_UserMatchKey r) (src_Source r) (src_UserSourceID r))) (pg_records g).

Definition ref_of (r : normalizedRecord) : SourceRef :=
  mkSourceRef (src_Source (nr_record r)) (src_SourceVersion (nr_record r)) (src_SourceID (nr_record r)).
Definition ref_before (a b : SourceRef) : bool :=
  fields_before [(ref_Source a, ref_Source b); (ref_SourceVersion a, ref_SourceVersion b); (ref_SourceID a, ref_SourceID b)].
Definition sourceRefs (records : list normalizedRecord) : list SourceRef := sort_by ref_before (map ref_of records).

Definition proposal_of (groups : gmap string proposalGroup) (g : proposalGroup) : Proposal :=
  let '(status, reason) :=
    if (pg_base g =s StatusProposed) && negb (dependenciesResolved g groups)
    then (StatusBlocked, "related_identity_mapping_unresolved") else (pg_base g, pg_reason g) in
  let proposed := status =s StatusProposed in
  mkProposal (pg_entity g) (if proposed then pg_platformID g else "") status
    (if proposed then "exact-canonical-key" else "")
    (if pg_matchKey g =s "" then "" else digest (pg_matchKey g)) reason true (sourceRefs (pg_records g)).
Definition tally (s : Summary) (p : Proposal) : Summary :=
  let bump status n := if pr_Status p =s status then n + 1 else n in
  mkSummary (sm_RecordCount s) (bump StatusProposed (sm_ProposalCount s)) (bump StatusBlocked (sm_BlockedCount s))
    (bump StatusAmbiguous (sm_AmbiguousCount s)) (bump StatusCollision (sm_CollisionCount s)).
Definition group_before (a b : proposalGroup) : bool := text_lt (pg_key a) (pg_key b).
Definition Build (inventory : Inventory) : Report :=
  let '(collected, ids) := collect_all (inv_Records inventory) in
  let groups : gmap string proposalGroup := classify ids <$> collected in
  let ordered := sort_by group_before (map snd (map_to_list groups)) in
  let proposals := map (proposal_of groups) ordered in
  mkReport SchemaVersion "platform.reconciliation.inventory.v1"
    (fold_left tally proposals (mkSummary (Z.of_nat (List.length (inv_Records inventory))) 0 0 0 0)) proposals.
End Building.

(** ** MarshalReport *)
Definition jstring (k v : string) : string * json := (k, JString v).
Definition jnumber (k : string) (n : Z) : string * json := (k, JNumber (FormatInt n)).
(** [omitempty] on a string *)
Definition optional (k v : string) : list (string * json) := if v =s "" then [] else [jstring k v].
Definition ref_json (r : SourceRef) : json :=
  JObject [jstring "source" (ref_Source r); jstring "source_version" (ref_SourceVersion r); jstring "source_id" (ref_SourceID r)].
Definition proposal_json (p : Proposal) : json :=
  JObject ([jstring "entity" (pr_Entity p)] ++ optional "platform_id" (pr_PlatformID p) ++ [jstring "status" (pr_Status p)]
    ++ optional "confidence" (pr_Confidence p) ++ optional "match_key_sha256" (pr_MatchKeySHA256 p)
    ++ [jstring "reason" (pr_Reason p); ("review_required", JBool (pr_ReviewRequired p));
        ("source_refs", JArray (map ref_json (pr_SourceRefs p)))])%list.
Definition summary_json (s : Summary) : json :=
  JObject [jnumber "record_count" (sm_RecordCount s); jnumber "proposal_count" (sm_ProposalCount s);
    jnumber "blocked_count" (sm_BlockedCount s); jnumber "ambiguous_count" (sm_AmbiguousCount s);
    jnumber "collision_count" (sm_CollisionCount s)].
Definition report_json (r : Report) : json :=
  JObject [jnumber "schema_version" (rp_SchemaVersion r); jstring "report_type" (rp_ReportType r);
    ("summary", summary_json (rp_Summary r)); ("proposals", JArray (map proposal_json (rp_Proposals r)))].
Definition MarshalReport (r : Report) : string := indent 0 (report_json r) ++ String newline "".

(** ** Keys determine what they are made of *)
Lemma validEntity_free e : validEntity e = true -> free_of "000" e = true /\ e <> "invalid".
Proof. intros [<-|[<-|[<-|[<-|[<-|[]]]]]]%one_of_In; done. Qed.
Lemma groupKey_inj e m e' m' :
  validEntity e = true -> validEntity e' = true -> groupKey e m = groupKey e' m' -> e = e' /\ m = m'.
Proof. intros [He _]%validEntity_free [He' _]%validEntity_free. by apply split_first. Qed.
Lemma groupKey_valid e m i : validEntity e = true -> groupKey e m <> invalid_key i.
Proof.
  intros [He Hn]%validEntity_free Hk. destruct (split_first "000" e "invalid" m (encode_rune (wrap32 i))); done.
Qed.
Lemma sourceIdentityKey_inj r r' :
  known_source (src_Source r) = true -> known_source (src_Source r') = true ->
  validEntity (src_Entity r) = true -> validEntity (src_Entity r') = true ->
  sourceIdentityKey r = sourceIdentityKey r' ->
  src_Source r = src_Source r' /\ src_Entity r = src_Entity r' /\ src_SourceID r = src_SourceID r'.
Proof.
  intros Hs Hs' [He _]%validEntity_free [He' _]%validEntity_free Hk.
  assert (forall s, known_source s = true -> free_of "000" s = true) as Hf.
  { intros s Hk'. unfold known_source in Hk'. apply orb_true_iff in Hk' as [->%String.eqb_eq| ->%String.eqb_eq]; done. }
  apply split_first in Hk as [Hks Hk]; [|by apply Hf..]. apply split_first in Hk as [Hke Hki]; done.
Qed.
Lemma invalid_key_inj i j : 0 <= i < 0xD800 -> 0 <= j < 0xD800 -> invalid_key i = invalid_key j -> i = j.
Proof.
  intros Hi Hj Hk. apply split_first in Hk as [_ Hk]; [|done..].
  assert (forall n, 0 <= n < 0xD800 -> fst (decode_rune (encode_rune (wrap32 n) ++ "")) = n) as Hd.
  { intros n Hn. unfold wrap32. rewrite Z.mod_small by lia. replace (n + 2 ^ 31 - 2 ^ 31) with n by lia.
    rewrite encode_rune_decode; [done|]. split; lia. }
  rewrite <-(Hd i Hi), <-(Hd j Hj). by rewrite Hk.
Qed.

(** A valid record has a known source, a known entity and every reference it needs. *)
Lemma valid_record r : record_reason r = "" ->
  known_source (src_Source r) = true /\ validEntity (src_Entity r) = true /\ src_MatchKey r <> "".
Proof.
  unfold record_reason. destruct (known_source _); [|done]. destruct (isSourceSHA _); [|done].
  destruct (validEntity _); [|done]. destruct (src_SourceID r =s ""); [done|].
  destruct (String.eqb_spec (src_MatchKey r) ""); [done|]. done.
Qed.

Section Collected.
Context `{UnicodeTables} `{Crypto}.

Definition normal (l : list SourceRecord) : list normalizedRecord := map normalizeRecord l.
Definition entity_of (n : normalizedRecord) : string := src_Entity (nr_record n).
Definition match_of (n : normalizedRecord) : string := src_MatchKey (nr_record n).
Definition key_of (n : normalizedRecord) : string := groupKey (entity_of n) (match_of n).
(** The valid records of a key, and those of a source identity, in their order. *)
Definition members (key : string) (ns : list normalizedRecord) : list normalizedRecord :=
  List.filter (fun n => nr_valid n && (key_of n =s key)) ns.
Definition observed (sourceKey : string) (ns : list normalizedRecord) : list normalizedRecord :=
  List.filter (fun n => nr_valid n && (sourceIdentityKey (nr_record n) =s sourceKey)) ns.
Definition valid_group (n : normalizedRecord) (ns : list normalizedRecord) : proposalGroup :=
  mkGroup (key_of n) (entity_of n) (match_of n) (members (key_of n) ns) StatusProposed "" "".
Definition blocked_group (i : Z) (n : normalizedRecord) : proposalGroup :=
  mkGroup (invalid_key i) (entity_of n) "" [n] StatusBlocked (nr_reason n) "".

Lemma normalized_valid r : nr_valid (normalizeRecord r) = true ->
  known_source (src_Source (nr_record (normalizeRecord r))) = true /\ validEntity (entity_of (normalizeRecord r)) = true
  /\ match_of (normalizeRecord r) <> "".
Proof. cbn [normalizeRecord nr_valid]. intros Hv%String.eqb_eq. by apply valid_record. Qed.
Lemma members_valid key ns n : In n (members key ns) -> In n ns /\ nr_valid n = true /\ key_of n = key.
Proof. intros [Hin Hn]%filter_In. apply andb_true_iff in Hn as [Hv Hk%String.eqb_eq]. done. Qed.
Lemma In_normal n l : In n (normal l) -> exists r, n = normalizeRecord r /\ In r l.
Proof. intros (r & <- & Hr)%in_map_iff. by exists r. Qed.
Lemma same_key_same_facts n n' l : In n (normal l) -> In n' (normal l) -> nr_valid n = true -> nr_valid n' = true ->
  key_of n = key_of n' -> entity_of n = entity_of n' /\ match_of n = match_of n'.
Proof.
  intros (r & -> & _)%In_normal (r' & -> & _)%In_normal (_ & He & _)%normalized_valid (_ & He' & _)%normalized_valid.
  by apply groupKey_inj.
Qed.

Lemma numbered_app {A} i (l l' : list A) :
  numbered i (l ++ l')%list = (numbered i l ++ numbered (i + Z.of_nat (List.length l)) l')%list.
Proof.
  revert i. induction l as [|x l IH]; intros i; [cbn; f_equal; lia|]. cbn [numbered app List.length].
  rewrite IH. do 3 f_equal. lia.
Qed.
Lemma collect_snoc l r :
  collect_all (l ++ [r])%list = collect (collect_all l) (Z.of_nat (List.length l), r).
Proof. unfold collect_all. rewrite numbered_app, fold_left_app. done. Qed.
Lemma normal_snoc l r : normal (l ++ [r])%list = (normal l ++ [normalizeRecord r])%list.
Proof. unfold normal. by rewrite map_app. Qed.
Lemma members_snoc key ns n :
  members key (ns ++ [n])%list
  = (members key ns ++ (if nr_valid n && (key_of n =s key) then [n] else []))%list.
Proof. unfold members. rewrite List.filter_app. cbn [List.filter]. done. Qed.
Lemma observed_snoc key ns n :
  observed key (ns ++ [n])%list
  = (observed key ns ++ (if nr_valid n && (sourceIdentityKey (nr_record n) =s key) then [n] else []))%list.
Proof. unfold observed. rewrite List.filter_app. cbn [List.filter]. done. Qed.

(** What the first loop collects from the normalized records [ns]. *)
Record collected_as (ns : list normalizedRecord) (groups : gmap string proposalGroup) (ids : gmap string (gset string)) : Prop := {
  co_group k g : groups !! k = Some g ->
    (exists n, In n (members k ns) /\ g = valid_group n ns)
    \/ (exists i n, nth_error ns i = Some n /\ nr_valid n = false /\ k = invalid_key (Z.of_nat i)
                   /\ g = blocked_group (Z.of_nat i) n);
  co_member n : In n ns -> nr_valid n = true -> is_Some (groups !! key_of n);
  co_ids sk : default ∅ (ids !! sk) = (list_to_set (map key_of (observed sk ns)) : gset string) }.

Lemma valid_group_snoc n ns x : key_of n <> key_of x \/ nr_valid x = false ->
  valid_group n (ns ++ [x])%list = valid_group n ns.
Proof.
  intros Hx. unfold valid_group. rewrite members_snoc.
  assert (nr_valid x && (key_of x =s key_of n) = false) as ->; [|by rewrite app_nil_r].
  destruct Hx as [Hne| ->]; [|done]. destruct (String.eqb_spec (key_of x) (key_of n)); [congruence|by rewrite andb_false_r].
Qed.
Lemma collect_invalid l r groups ids :
  let n := normalizeRecord r in
  nr_valid n = false -> collected_as (normal l) groups ids ->
  collected_as (normal (l ++ [r])%list) (<[invalid_key (Z.of_nat (List.length l)) := blocked_group (Z.of_nat (List.length l)) n]> groups) ids.
Proof.
  intros n Hv [Hg Hm Hi]. rewrite normal_snoc. fold n. split.
  - intros k g Hk. destruct (decide (k = invalid_key (Z.of_nat (List.length l)))) as [->|Hne].
    + rewrite lookup_insert_eq in Hk. injection Hk as <-. right. exists (List.length l), n.
      split; [|done]. rewrite nth_error_app2; unfold normal; rewrite length_map; [by rewrite Nat.sub_diag|done].
    + rewrite lookup_insert_ne in Hk by done. destruct (Hg k g Hk) as [(x & Hx & ->)|(i & x & Hx & Hr)].
      * left. exists x. rewrite members_snoc, Hv, app_nil_r. split; [done|]. symmetry. apply valid_group_snoc. by right.
      * right. exists i, x. split; [|done]. rewrite nth_error_app1; [done|]. apply nth_error_Some. by rewrite Hx.
  - intros x [Hx|[<-|[]]]%in_app_iff Hvx; [|congruence].
    apply lookup_insert_is_Some'. right. by apply Hm.
  - intros sk. rewrite observed_snoc, Hv, app_nil_r. apply Hi.
Qed.
Lemma collect_valid l r groups ids :
  let n := normalizeRecord r in
  nr_valid n = true -> collected_as (normal l) groups ids ->
  collected_as (normal (l ++ [r])%list)
    (<[key_of n := with_records (pg_records (default (mkGroup (key_of n) (entity_of n) (match_of n) [] StatusProposed "" "")
                                               (groups !! key_of n)) ++ [n])
                    (default (mkGroup (key_of n) (entity_of n) (match_of n) [] StatusProposed "" "") (groups !! key_of n))]> groups)
    (<[sourceIdentityKey (nr_record n) := {[key_of n]} ∪ default ∅ (ids !! sourceIdentityKey (nr_record n))]> ids).
Proof.
  intros n Hv [Hg Hm Hi]. rewrite normal_snoc. fold n.
  destruct (normalized_valid r Hv) as (_ & He & _).
  assert (with_records (pg_records (default (mkGroup (key_of n) (entity_of n) (match_of n) [] StatusProposed "" "")
            (groups !! key_of n)) ++ [n])
          (default (mkGroup (key_of n) (entity_of n) (match_of n) [] StatusProposed "" "") (groups !! key_of n))
          = valid_group n (normal l ++ [n])) as ->.
  { unfold valid_group. rewrite members_snoc, Hv, String.eqb_refl. cbn [andb].
    destruct (groups !! key_of n) as [g|] eqn:Eg; cbn [default].
    - destruct (Hg _ _ Eg) as [(x & Hx & ->)|(i & x & _ & _ & Hk & _)]; [|by destruct (groupKey_valid _ _ _ He Hk)].
      apply members_valid in Hx as (Hx & Hvx & Hk). unfold valid_group, with_records. cbn.
      apply In_normal in Hx as (r' & -> & _). destruct (normalized_valid r' Hvx) as (_ & He' & _).
      destruct (groupKey_inj _ _ _ _ He' He Hk) as [-> ->]. by rewrite Hk.
    - destruct (members (key_of n) (normal l)) as [|x m] eqn:Em; [done|].
      assert (In x (members (key_of n) (normal l))) as Hx by (rewrite Em; by left).
      apply members_valid in Hx as (Hx & Hvx & Hk). apply Hm in Hx; [|done]. rewrite Hk, Eg in Hx. by destruct Hx. }
  split.
  - intros k g Hk. destruct (decide (k = key_of n)) as [->|Hne].
    + rewrite lookup_insert_eq in Hk. injection Hk as <-. left. exists n. split; [|done].
      rewrite members_snoc, Hv, String.eqb_refl. apply in_or_app. right. by left.
    + rewrite lookup_insert_ne in Hk by done. destruct (Hg k g Hk) as [(x & Hx & ->)|(i & x & Hx & Hr)].
      * left. exists x. rewrite members_snoc. split; [by apply in_or_app; left|]. symmetry. apply valid_group_snoc. left.
        apply members_valid in Hx as (_ & _ & <-). done.
      * right. exists i, x. split; [|done]. rewrite nth_error_app1; [done|]. apply nth_error_Some. by rewrite Hx.
  - intros x [Hx|[<-|[]]]%in_app_iff Hvx; [|rewrite lookup_insert_eq; by eexists].
    apply lookup_insert_is_Some'. right. by apply Hm.
  - intros sk. rewrite observed_snoc, Hv. destruct (String.eqb_spec (sourceIdentityKey (nr_record n)) sk) as [->|Hne]; cbn [andb].
    + rewrite lookup_insert_eq. cbn [default]. rewrite Hi, map_app, list_to_set_app_L. cbn. set_solver.
    + rewrite lookup_insert_ne by done. rewrite app_nil_r. apply Hi.
Qed.
Lemma collect_all_spec l : collected_as (normal l) (collect_all l).1 (collect_all l).2.
Proof.
  induction l as [|r l IH] using rev_ind.
  - split; cbn; [by intros k g; rewrite lookup_empty|done|]. intros sk. by rewrite lookup_empty.
  - rewrite collect_snoc. destruct (collect_all l) as [groups ids]. cbn [fst snd] in IH. unfold collect.
    cbn [fst snd]. destruct (nr_valid (normalizeRecord r)) eqn:Ev; cbn [negb fst snd];
      [by apply collect_valid|by apply collect_invalid].
Qed.
End Collected.

(** ** Nothing is dropped *)
Definition content (groups : gmap string proposalGroup) : list normalizedRecord :=
  List.concat (map (fun kg => pg_records kg.2) (map_to_list groups)).
Lemma content_fresh groups k g : groups !! k = None -> content (<[k := g]> groups) ≡ₚ (pg_records g ++ content groups)%list.
Proof. intros Hk. unfold content. rewrite (concat_perm _ _ (fmap_Permutation _ _ _ (map_to_list_insert _ k g Hk))). done. Qed.
Lemma content_joins groups k g n : groups !! k = Some g ->
  content (<[k := with_records (pg_records g ++ [n])%list g]> groups) ≡ₚ n :: content groups.
Proof.
  intros Hk. rewrite <-insert_delete_eq, content_fresh by apply lookup_delete_eq. cbn [with_records pg_records].
  unfold content. rewrite <-(concat_perm _ _ (fmap_Permutation (fun kg => pg_records kg.2) _ _ (map_to_list_delete _ _ _ Hk))).
  cbn. rewrite <-app_assoc. cbn. by rewrite Permutation_middle.
Qed.

Section Kept.
Context `{UnicodeTables} `{Crypto}.

Lemma content_collected l : Z.of_nat (List.length l) <= 0xD800 -> content (collect_all l).1 ≡ₚ normal l.
Proof.
  induction l as [|r l IH] using rev_ind; intros Hl; [done|]. rewrite length_app in Hl. cbn [List.length] in Hl.
  specialize (IH ltac:(lia)). pose proof (collect_all_spec l) as [Hg Hm _]. rewrite collect_snoc, normal_snoc.
  destruct (collect_all l) as [groups ids]. cbn [fst snd] in *. unfold collect. cbn [fst snd].
  destruct (nr_valid (normalizeRecord r)) eqn:Ev; cbn [negb fst snd].
  - change (groupKey (src_Entity (nr_record (normalizeRecord r))) (src_MatchKey (nr_record (normalizeRecord r))))
      with (key_of (normalizeRecord r)).
    destruct (groups !! key_of (normalizeRecord r)) as [g|] eqn:Eg; cbn [default].
    + rewrite (content_joins _ _ _ _ Eg), IH. apply Permutation_cons_append.
    + rewrite (content_fresh _ _ _ Eg), IH. cbn. apply Permutation_cons_append.
  - rewrite content_fresh; [cbn; rewrite IH; apply Permutation_cons_append|].
    destruct (groups !! _) as [g|] eqn:Eg; [|done].
    destruct (Hg _ _ Eg) as [(x & Hx & _)|(i & x & Hi & _ & Hk & _)].
    + apply members_valid in Hx as (Hx & Hv & Hk). apply In_normal in Hx as (r' & -> & _).
      destruct (normalized_valid r' Hv) as (_ & He & _). by destruct (groupKey_valid _ _ _ He Hk).
    + assert (i < List.length l)%nat by (rewrite <-(length_map normalizeRecord); apply nth_error_Some; unfold normal in Hi; by rewrite Hi).
      apply invalid_key_inj in Hk; lia.
Qed.

Lemma classify_fields ids g :
  pg_key (classify ids g) = pg_key g /\ pg_entity (classify ids g) = pg_entity g /\ pg_matchKey (classify ids g) = pg_matchKey g
  /\ pg_records (classify ids g) = pg_records g.
Proof. unfold classify. destruct (_ =s _); [done|]. by destruct (decided ids (pg_records g)). Qed.
Lemma content_classified ids groups : content (classify ids <$> groups) = content groups.
Proof.
  unfold content. rewrite map_to_list_fmap, map_map. f_equal. apply map_ext. intros [k g]. cbn. apply classify_fields.
Qed.
Lemma proposal_refs groups g : pr_SourceRefs (proposal_of groups g) ≡ₚ map ref_of (pg_records g).
Proof.
  unfold proposal_of. destruct (if _ && _ then _ else _) as [status reason]. cbn. apply sort_by_Permutation.
Qed.

Definition four_statuses (s : string) : bool := one_of s [StatusProposed; StatusBlocked; StatusAmbiguous; StatusCollision].
Lemma decided_status ids ns : one_of (decided ids ns).1 [StatusProposed; StatusAmbiguous; StatusCollision] = true.
Proof. unfold decided. repeat (destruct (Nat.ltb _ _) || destruct (existsb _ _)); done. Qed.
Lemma proposal_status groups g : four_statuses (pg_base g) = true -> four_statuses (pr_Status (proposal_of groups g)) = true.
Proof. unfold proposal_of. intros Hg. by destruct (_ && _). Qed.
Lemma classify_status ids g : four_statuses (pg_base g) = true -> four_statuses (pg_base (classify ids g)) = true.
Proof.
  intros Hg. unfold classify. destruct (_ =s _); [done|]. pose proof (decided_status ids (pg_records g)) as Hd.
  destruct (decided _ _) as [base reason]. cbn [fst] in Hd. apply one_of_In in Hd. apply one_of_In. cbn in *. tauto.
Qed.
Definition total (s : Summary) : Z := sm_ProposalCount s + sm_BlockedCount s + sm_AmbiguousCount s + sm_CollisionCount s.
Lemma tally_total ps s : Forall (fun p => four_statuses (pr_Status p) = true) ps ->
  total (fold_left tally ps s) = total s + Z.of_nat (List.length ps)
  /\ sm_RecordCount (fold_left tally ps s) = sm_RecordCount s.
Proof.
  intros Hp. revert s. induction Hp as [|p ps Hp _ IH]; intros s; [cbn; lia|]. cbn [fold_left List.length].
  destruct (IH (tally s p)) as [-> ->]. split; [|done]. unfold total, tally. cbn.
  apply one_of_In in Hp. cbn in Hp. destruct Hp as [<-|[<-|[<-|[<-|[]]]]]; cbn; lia.
Qed.

(** For an inventory of at most 55296 records the report drops nothing and
    invents nothing: the source references of its proposals are those of the
    records, each once; the summary counts the records, and every proposal under
    exactly one of the four statuses. *)
Theorem build_keeps_records l :
  Z.of_nat (List.length l) <= 0xD800 ->
  let report := Build (mkInventory l) in
  List.concat (map pr_SourceRefs (rp_Proposals report)) ≡ₚ map (fun r => ref_of (normalizeRecord r)) l
  /\ sm_RecordCount (rp_Summary report) = Z.of_nat (List.length l)
  /\ total (rp_Summary report) = Z.of_nat (List.length (rp_Proposals report)).
Proof.
  intros Hl. unfold Build. cbn [inv_Records]. pose proof (content_collected l Hl) as Hc.
  pose proof (collect_all_spec l) as [Hg _ _].
  destruct (collect_all l) as [groups ids]. cbn [fst snd] in *. cbn [rp_Proposals rp_Summary].
  assert (Forall (fun p => four_statuses (pr_Status p) = true)
    (map (proposal_of (classify ids <$> groups)) (sort_by group_before (map snd (map_to_list (classify ids <$> groups))))))
    as Hs.
  { apply List.Forall_forall. intros p (g & <- & Hin%in_sort_by)%in_map_iff. apply proposal_status.
    apply in_map_iff in Hin as ([k g'] & <- & Hin). apply list_elem_of_In, elem_of_map_to_list in Hin.
    rewrite lookup_fmap in Hin. destruct (groups !! k) as [g''|] eqn:Eg; [|done]. injection Hin as <-. apply classify_status.
    by destruct (Hg _ _ Eg) as [(x & _ & ->)|(i & x & _ & _ & _ & ->)]. }
  destruct (tally_total _ (mkSummary (Z.of_nat (List.length l)) 0 0 0 0) Hs) as [Ht Hr]. rewrite Hr, Ht.
  split; [|split; [done|unfold total; cbn [sm_ProposalCount sm_BlockedCount sm_AmbiguousCount sm_CollisionCount]; lia]]. rewrite map_map, (concat_map_perm _ (fun g => map ref_of (pg_records g)))
    by (intros; apply proposal_refs).
  rewrite (concat_perm _ _ (Permutation_map _ (sort_by_Permutation _ _))), <-(map_map pg_records (map ref_of)), <-concat_map,
    map_map. change (List.concat _) with (content (classify ids <$> groups)). rewrite content_classified, Hc. unfold normal.
  by rewrite map_map.
Qed.
End Kept.

(** ** The report does not depend on the order of the inventory *)
Lemma sourceRefs_perm ns ns' : ns ≡ₚ ns' -> sourceRefs ns = sourceRefs ns'.
Proof.
  intros Hp. unfold sourceRefs.
  assert (forall a b, ref_before a b = fields_lt [ref_Source a; ref_SourceVersion a; ref_SourceID a]
    [ref_Source b; ref_SourceVersion b; ref_SourceID b]) as Hr by done.
  apply sort_by_unique.
  - intros a b. rewrite !Hr. apply fields_lt_asym.
  - intros a b c. rewrite !Hr. by apply fields_le_trans.
  - intros [] []. rewrite !Hr. intros H1 H2. apply fields_lt_total in H1; [|done..]. by injection H1 as -> -> ->.
  - by apply Permutation_map.
Qed.

Section Order.
Context `{UnicodeTables} `{Crypto}.

(** Two groups that differ in the order of their records. *)
Definition similar (g g' : proposalGroup) : Prop :=
  pg_key g = pg_key g' /\ pg_entity g = pg_entity g' /\ pg_matchKey g = pg_matchKey g' /\ pg_base g = pg_base g'
  /\ pg_reason g = pg_reason g' /\ pg_platformID g = pg_platformID g' /\ pg_records g ≡ₚ pg_records g'.
Definition all_valid (l : list SourceRecord) : Prop := forall r, In r l -> nr_valid (normalizeRecord r) = true.

Lemma collected_valid l k g : all_valid l -> (collect_all l).1 !! k = Some g ->
  exists n, In n (members k (normal l)) /\ g = valid_group n (normal l).
Proof.
  intros Hl Hk. destruct (co_group _ _ _ (collect_all_spec l) k g Hk) as [Hn|(i & n & Hi & Hv & _)]; [done|].
  apply nth_error_In, In_normal in Hi as (r & -> & Hr). by rewrite (Hl r Hr) in Hv.
Qed.
Lemma collected_perm l l' k g : l ≡ₚ l' -> all_valid l -> (collect_all l).1 !! k = Some g ->
  exists g', (collect_all l').1 !! k = Some g' /\ similar g g'.
Proof.
  intros Hp Hl Hk. destruct (collected_valid l k g Hl Hk) as (n & Hn & ->).
  assert (normal l ≡ₚ normal l') as Hpn by (by apply Permutation_map).
  assert (all_valid l') as Hl' by (intros r Hr; apply Hl; by rewrite Hp).
  apply members_valid in Hn as (Hn & Hv & <-). assert (In n (normal l')) as Hn' by (by rewrite <-Hpn).
  destruct (co_member _ _ _ (collect_all_spec l') n Hn' Hv) as [g' Hg']. exists g'. split; [done|].
  destruct (collected_valid l' _ _ Hl' Hg') as (n' & Hin & ->). apply members_valid in Hin as (Hin & Hv' & Hk').
  destruct (same_key_same_facts n n' l' Hn' Hin Hv Hv' ltac:(done)) as [He Hm].
  unfold similar, valid_group. cbn. rewrite <-Hk', He, Hm. split_and!; try done. by apply filter_perm.
Qed.
Lemma collected_ids_perm l l' sk : l ≡ₚ l' ->
  default ∅ ((collect_all l).2 !! sk) = default ∅ ((collect_all l').2 !! sk).
Proof.
  intros Hp. rewrite !(co_ids _ _ _ (collect_all_spec _)). apply list_to_set_perm_L, Permutation_map, filter_perm.
  by apply Permutation_map.
Qed.

Lemma decided_perm ids ids' ns ns' : ns ≡ₚ ns' ->
  (forall sk, default ∅ (ids !! sk) = default ∅ (ids' !! sk)) -> decided ids ns = decided ids' ns'.
Proof.
  intros Hp Hi. unfold decided.
  rewrite (list_to_set_perm_L _ _ (Permutation_map (fun r => fingerprint (nr_record r)) Hp)),
    (list_to_set_perm_L _ _ (Permutation_map (fun r => src_Source (nr_record r)) Hp)), (Permutation_length Hp),
    (existsb_perm _ _ _ Hp).
  repeat (destruct (Nat.ltb _ _); [done|]).
  replace (existsb (fun r => Nat.ltb 1 (size (default ∅ (ids !! sourceIdentityKey (nr_record r))))) ns')
    with (existsb (fun r => Nat.ltb 1 (size (default ∅ (ids' !! sourceIdentityKey (nr_record r))))) ns'); [done|].
  clear Hp. induction ns' as [|n ns' IH]; [done|]. cbn [existsb]. by rewrite IH, Hi.
Qed.
Lemma classify_similar ids ids' g g' : similar g g' ->
  (forall sk, default ∅ (ids !! sk) = default ∅ (ids' !! sk)) -> similar (classify ids g) (classify ids' g').
Proof.
  intros Hs Hi. pose proof Hs as (Hk & He & Hm & Hb & Hr & Hid & Hp). unfold classify. rewrite <-Hb.
  destruct (_ =s _); [done|]. rewrite (decided_perm ids ids' _ _ Hp Hi). destruct (decided ids' _) as [base reason].
  unfold similar. cbn. by rewrite Hk, He, Hm.
Qed.

(** Groups that agree up to the order of records give the same proposals. *)
Definition all_similar (groups groups' : gmap string proposalGroup) : Prop :=
  forall k, match groups !! k, groups' !! k with
            | Some g, Some g' => similar g g' | None, None => True | _, _ => False end.
Lemma resolved_similar groups groups' e m source id : all_similar groups groups' ->
  resolved groups e m source id = resolved groups' e m source id.
Proof.
  intros Hs. unfold resolved. specialize (Hs (groupKey e m)). destruct (groups !! _), (groups' !! _); try done.
  destruct Hs as (_ & _ & _ & -> & _ & _ & Hp). f_equal. by apply existsb_perm.
Qed.
Lemma proposal_similar groups groups' g g' : all_similar groups groups' -> similar g g' ->
  proposal_of groups g = proposal_of groups' g'.
Proof.
  intros Hs (_ & He & Hm & Hb & Hr & Hid & Hp). unfold proposal_of.
  assert (dependenciesResolved g groups = dependenciesResolved g' groups') as ->.
  { unfold dependenciesResolved. rewrite (forallb_perm _ _ _ Hp). clear Hp Hr Hb Hid.
    induction (pg_records g') as [|n ns IH]; [done|]. cbn [forallb].
    by rewrite IH, !(resolved_similar groups groups') by done. }
  by rewrite He, Hm, Hb, Hr, Hid, (sourceRefs_perm _ _ Hp).
Qed.

(** The proposals of the report, in the order of their keys. *)
Definition keyed (groups : gmap string proposalGroup) : list Proposal :=
  map snd (sort_by (fun a b => text_lt a.1 b.1) (map_to_list (proposal_of groups <$> groups))).
Lemma ordered_keyed groups : (forall k g, groups !! k = Some g -> pg_key g = k) ->
  map (proposal_of groups) (sort_by group_before (map snd (map_to_list groups))) = keyed groups.
Proof.
  intros Hk. unfold keyed. rewrite map_to_list_fmap.
  rewrite (sort_by_map snd group_before (fun a b => text_lt a.1 b.1)).
  2: { intros [k g] [k' g'] Ha%list_elem_of_In%elem_of_map_to_list Hb%list_elem_of_In%elem_of_map_to_list.
       unfold group_before. cbn. by rewrite (Hk _ _ Ha), (Hk _ _ Hb). }
  rewrite (sort_by_map (prod_map id (proposal_of groups)) (fun a b => text_lt a.1 b.1) (fun a b => text_lt a.1 b.1)) by done.
  by rewrite !map_map.
Qed.
Lemma keyed_similar groups groups' : all_similar groups groups' -> keyed groups = keyed groups'.
Proof.
  intros Hs. unfold keyed. replace (proposal_of groups' <$> groups') with (proposal_of groups <$> groups); [done|].
  apply map_eq. intros k. rewrite !lookup_fmap. pose proof (Hs k) as Hk.
  destruct (groups !! k), (groups' !! k); try done. cbn. f_equal. by apply proposal_similar.
Qed.

(** The report of an inventory of valid records does not depend on the
    order in which they are listed. *)
Theorem build_order_irrelevant l l' :
  l ≡ₚ l' -> (forall r, In r l -> nr_valid (normalizeRecord r) = true) ->
  Build (mkInventory l) = Build (mkInventory l').
Proof.
  intros Hp Hl. assert (all_valid l') as Hl' by (intros r Hr; apply Hl; by rewrite Hp).
  assert (all_similar (classify (collect_all l).2 <$> (collect_all l).1) (classify (collect_all l').2 <$> (collect_all l').1)) as Hs.
  { intros k. rewrite !lookup_fmap. destruct ((collect_all l).1 !! k) as [g|] eqn:Eg.
    - destruct (collected_perm l l' k g Hp Hl Eg) as (g' & -> & Hs). cbn. apply classify_similar; [done|].
      intros sk. by apply collected_ids_perm.
    - destruct ((collect_all l').1 !! k) as [g'|] eqn:Eg'; [|done].
      destruct (collected_perm l' l k g' (Permutation_sym Hp) Hl' Eg') as (g & Hg & _). congruence. }
  assert (forall l k g, all_valid l -> (classify (collect_all l).2 <$> (collect_all l).1) !! k = Some g -> pg_key g = k) as Hk.
  { intros l0 k g Hv Hk. rewrite lookup_fmap in Hk. destruct ((collect_all l0).1 !! k) as [g0|] eqn:Eg; [|done].
    injection Hk as <-. rewrite (proj1 (classify_fields _ _)). destruct (collected_valid l0 k g0 Hv Eg) as (n & Hn & ->).
    by apply members_valid in Hn as (_ & _ & <-). }
  unfold Build. cbn [inv_Records]. rewrite (Permutation_length Hp).
  destruct (collect_all l) as [groups ids] eqn:E, (collect_all l') as [groups' ids'] eqn:E'. cbn [fst snd] in Hs.
  rewrite !ordered_keyed; [by rewrite (keyed_similar _ _ Hs)| |].
  - intros k g. specialize (Hk l' k g Hl'). by rewrite E' in Hk.
  - intros k g. specialize (Hk l k g Hl). by rewrite E in Hk.
Qed.
End Order.

(** ** When a mapping is proposed *)
Lemma size_list_to_set_le (l : list string) :
  (size (list_to_set l : gset string) <= List.length l)%nat
  /\ (size (list_to_set l : gset string) = List.length l <-> NoDup l).
Proof.
  induction l as [|x l [IH1 IH2]]; [by split; [|split; [constructor|]]|]. cbn [list_to_set List.length].
  destruct (decide (x ∈ l)) as [Hin|Hn].
  - replace ({[x]} ∪ list_to_set l : gset string) with (list_to_set l : gset string) by set_solver.
    split; [lia|]. rewrite NoDup_cons. split; [lia|by intros [? _]].
  - rewrite size_union, size_singleton by set_solver. split; [lia|]. rewrite NoDup_cons. split; intros Hs.
    + split; [done|]. apply IH2. lia.
    + destruct Hs as [_ Hd%IH2]. lia.
Qed.
Lemma size_one (l : list string) :
  (size (list_to_set l : gset string) <= 1)%nat <-> (forall a b, In a l -> In b l -> a = b).
Proof.
  split.
  - intros Hs a b Ha Hb. apply (size_singleton_inv (list_to_set l : gset string)).
    + destruct (decide (size (list_to_set l : gset string) = 1%nat)); [done|].
      assert (size (list_to_set l : gset string) = 0%nat) as Hz by lia. apply size_empty_inv in Hz.
      apply list_elem_of_In in Ha. set_solver.
    + apply elem_of_list_to_set, list_elem_of_In, Ha.
    + apply elem_of_list_to_set, list_elem_of_In, Hb.
  - intros He. destruct l as [|x l]; [cbn; rewrite size_empty; lia|].
    replace (list_to_set (x :: l) : gset string) with ({[x]} : gset string); [by rewrite size_singleton|].
    apply leibniz_equiv. intros y. rewrite elem_of_singleton, elem_of_list_to_set, list_elem_of_In.
    split; [intros ->; by left|]. intros Hy. by rewrite (He y x Hy (or_introl eq_refl)).
Qed.

Section Decision.
Context `{UnicodeTables} `{Crypto}.

(** An identity nobody disputes: one record per source, all with the same facts,
    and no source record of it is also listed under another key. *)
Definition undisputed (key : string) (ns : list normalizedRecord) : Prop :=
  NoDup (map (fun n => src_Source (nr_record n)) (members key ns))
  /\ (forall a b, In a (members key ns) -> In b (members key ns) -> fingerprint (nr_record a) = fingerprint (nr_record b))
  /\ (forall a b, In a (members key ns) -> In b ns -> nr_valid b = true ->
        sourceIdentityKey (nr_record a) = sourceIdentityKey (nr_record b) -> key_of b = key).
(** The record [(source, id)] is listed under an undisputed identity. *)
Definition linked (ns : list normalizedRecord) (entity matchKey source id : string) : Prop :=
  undisputed (groupKey entity matchKey) ns
  /\ exists b, In b (members (groupKey entity matchKey) ns) /\ src_Source (nr_record b) = source /\ src_SourceID (nr_record b) = id.
Definition parent_entity (r : SourceRecord) : string :=
  if src_Entity r =s EntityWorkspaceMembership then EntityWorkspace else EntityOrganisation.
Definition links_found (ns : list normalizedRecord) (r : SourceRecord) : Prop :=
  (requiresParent (src_Entity r) = true ->
     linked ns (parent_entity r) (src_ParentMatchKey r) (src_Source r) (src_ParentSourceID r))
  /\ (requiresUser (src_Entity r) = true ->
     linked ns EntityUser (src_UserMatchKey r) (src_Source r) (src_UserSourceID r)).

(** The keys under which the source record of [a] is listed. *)
Lemma listed_once l key a : In a (members key (normal l)) ->
  (size (default ∅ ((collect_all l).2 !! sourceIdentityKey (nr_record a))) <= 1)%nat
  <-> (forall b, In b (normal l) -> nr_valid b = true -> sourceIdentityKey (nr_record a) = sourceIdentityKey (nr_record b) ->
         key_of b = key).
Proof.
  intros Ha. rewrite (co_ids _ _ _ (collect_all_spec l)), size_one. apply members_valid in Ha as (Ha & Hav & Hak).
  assert (forall b, In b (observed (sourceIdentityKey (nr_record a)) (normal l)) <->
    In b (normal l) /\ nr_valid b = true /\ sourceIdentityKey (nr_record a) = sourceIdentityKey (nr_record b)) as Ho.
  { intros b. unfold observed. rewrite filter_In, andb_true_iff, String.eqb_eq. naive_solver. }
  split.
  - intros He b Hb Hv Hk. rewrite <-Hak. apply He; apply in_map, Ho; done.
  - intros He x y (b & <- & (? & ? & ?)%Ho)%in_map_iff (c & <- & (? & ? & ?)%Ho)%in_map_iff. by rewrite (He b), (He c).
Qed.
Lemma listed_elsewhere l key :
  existsb (fun r => Nat.ltb 1 (size (default ∅ ((collect_all l).2 !! sourceIdentityKey (nr_record r))))) (members key (normal l)) = false
  <-> (forall a b, In a (members key (normal l)) -> In b (normal l) -> nr_valid b = true ->
         sourceIdentityKey (nr_record a) = sourceIdentityKey (nr_record b) -> key_of b = key).
Proof.
  rewrite <-not_true_iff_false, existsb_exists. split.
  - intros Hn a b Hin. apply listed_once; [done|].
    destruct (Nat.ltb_spec 1 (size (default ∅ ((collect_all l).2 !! sourceIdentityKey (nr_record a))))); [|lia].
    destruct Hn. exists a. split; [done|]. by apply Nat.ltb_lt.
  - intros He (a & Hin & Hlt%Nat.ltb_lt). pose proof (proj2 (listed_once l key a Hin) (fun b => He a b Hin)). lia.
Qed.
Lemma decided_undisputed l key :
  (decided (collect_all l).2 (members key (normal l))).1 = StatusProposed <-> undisputed key (normal l).
Proof.
  pose proof (listed_elsewhere l key) as Hi. unfold undisputed. set (ms := members key (normal l)) in *.
  pose proof (size_list_to_set_le (map (fun n => src_Source (nr_record n)) ms)) as [Hs1 Hs2]. rewrite length_map in Hs1, Hs2.
  pose proof (size_one (map (fun n => fingerprint (nr_record n)) ms)) as Hf.
  assert ((forall a b, In a (map (fun n => fingerprint (nr_record n)) ms) -> In b (map (fun n => fingerprint (nr_record n)) ms) -> a = b)
    <-> (forall a b, In a ms -> In b ms -> fingerprint (nr_record a) = fingerprint (nr_record b))) as Hfm.
  { split; [intros He a b Ha Hb; apply He; by apply (in_map (fun n => fingerprint (nr_record n)))|].
    intros He a b (x & <- & Hx)%in_map_iff (y & <- & Hy)%in_map_iff. by apply He. }
  unfold decided.
  destruct (Nat.ltb_spec 1 (size (list_to_set (map (fun r => fingerprint (nr_record r)) ms) : gset string))).
  { split; [done|]. intros (_ & Hc & _). pose proof (proj2 Hf (proj2 Hfm Hc)). lia. }
  destruct (Nat.ltb_spec (size (list_to_set (map (fun r => src_Source (nr_record r)) ms) : gset string)) (List.length ms)).
  { split; [done|]. intros (Hc & _ & _). pose proof (proj2 Hs2 Hc). lia. }
  destruct (existsb _ ms); cbn [fst].
  - split; [done|]. intros (_ & _ & Hc). by pose proof (proj2 Hi Hc).
  - split; [|done]. intros _. split; [apply (proj1 Hs2); lia|]. split; [exact (proj1 Hfm (proj1 Hf ltac:(lia)))|exact (proj1 Hi eq_refl)].
Qed.

(** The group of a valid record after the second loop. *)
Lemma classified_group l n : In n (normal l) -> nr_valid n = true ->
  (classify (collect_all l).2 <$> (collect_all l).1) !! key_of n
  = Some (classify (collect_all l).2 (valid_group n (normal l))).
Proof.
  intros Hn Hv. destruct (co_member _ _ _ (collect_all_spec l) n Hn Hv) as [g Hg]. rewrite lookup_fmap, Hg. cbn. do 2 f_equal.
  destruct (co_group _ _ _ (collect_all_spec l) _ _ Hg) as [(x & Hx & ->)|(i & x & _ & _ & Hk & _)].
  - apply members_valid in Hx as (Hx & Hvx & Hk). destruct (same_key_same_facts x n l Hx Hn Hvx Hv Hk) as [He Hm].
    unfold valid_group. by rewrite Hk, He, Hm.
  - apply In_normal in Hn as (r & -> & _). destruct (normalized_valid r Hv) as (_ & He & _). by destruct (groupKey_valid _ _ _ He Hk).
Qed.
Lemma classified_base l n :
  pg_base (classify (collect_all l).2 (valid_group n (normal l))) = StatusProposed <-> undisputed (key_of n) (normal l).
Proof.
  rewrite <-decided_undisputed. unfold classify, valid_group. cbn [pg_base pg_records].
  change (StatusProposed =s StatusBlocked) with false. by destruct (decided _ _).
Qed.
Lemma parent_entity_valid r : validEntity (parent_entity r) = true.
Proof. unfold parent_entity. by destruct (_ =s _). Qed.
Lemma resolved_linked l entity matchKey source id : validEntity entity = true ->
  resolved (classify (collect_all l).2 <$> (collect_all l).1) entity matchKey source id = true
  <-> linked (normal l) entity matchKey source id.
Proof.
  intros Hv. unfold linked. split.
  - unfold resolved. rewrite lookup_fmap. destruct ((collect_all l).1 !! groupKey entity matchKey) as [g|] eqn:Eg; [|done].
    destruct (co_group _ _ _ (collect_all_spec l) _ _ Eg) as [(x & Hx & ->)|(i & x & _ & _ & Hk & _)];
      [|by destruct (groupKey_valid _ _ _ Hv Hk)].
    cbn [fmap option_fmap option_map]. pose proof Hx as (_ & _ & Hk)%members_valid.
    intros [Hb%String.eqb_eq%classified_base Hr]%andb_true_iff. rewrite Hk in Hb. split; [done|].
    unfold hasSourceRef in Hr. rewrite (proj2 (proj2 (proj2 (classify_fields _ _)))) in Hr.
    apply existsb_exists in Hr as (b & Hb' & [Hs%String.eqb_eq Hi%String.eqb_eq]%andb_true_iff). cbn in Hb'. rewrite Hk in Hb'.
    by exists b.
  - intros (Hu & b & Hb & <- & <-). pose proof Hb as (Hbn & Hbv & Hbk)%members_valid.
    unfold resolved. rewrite <-Hbk, (classified_group l b Hbn Hbv). rewrite <-Hbk in Hu.
    rewrite (proj2 (classified_base l b) Hu). cbn [andb]. change (StatusProposed =s StatusProposed) with true. cbn [andb].
    unfold hasSourceRef. rewrite (proj2 (proj2 (proj2 (classify_fields _ _)))). apply existsb_exists. exists b. cbn.
    rewrite Hbk, !String.eqb_refl. done.
Qed.
Lemma dependencies_found l ns g : pg_records g = ns ->
  dependenciesResolved g (classify (collect_all l).2 <$> (collect_all l).1) = true
  <-> (forall a, In a ns -> links_found (normal l) (nr_record a)).
Proof.
  intros <-. unfold dependenciesResolved, links_found. rewrite forallb_forall.
  split; intros Hd a Ha; specialize (Hd a Ha); fold (parent_entity (nr_record a)) in *.
  - apply andb_true_iff in Hd as [Hp Hu]. split; intros Hr; rewrite Hr in *; cbn [negb orb] in *;
      (apply resolved_linked; [|done]); [apply parent_entity_valid|done].
  - destruct Hd as [Hp Hu]. apply andb_true_iff. split; apply orb_true_iff;
      [destruct (requiresParent _); [right|by left]|destruct (requiresUser _); [right|by left]];
      (apply resolved_linked; [|auto]); [apply parent_entity_valid|done].
Qed.

(** A proposed mapping comes from valid records. *)
Lemma proposed_from_valid l p :
  In p (rp_Proposals (Build (mkInventory l))) -> pr_Status p = StatusProposed ->
  exists n, In n (normal l) /\ nr_valid n = true /\ pr_Entity p = entity_of n
    /\ pr_MatchKeySHA256 p = digest (match_of n) /\ pr_SourceRefs p = sourceRefs (members (key_of n) (normal l)).
Proof.
  pose proof (collect_all_spec l) as [Hg _ _]. unfold Build. cbn [inv_Records].
  destruct (collect_all l) as [groups ids]. cbn [fst snd rp_Proposals] in *.
  intros (g & <- & Hin%in_sort_by)%in_map_iff. apply in_map_iff in Hin as ([k g'] & <- & Hin). cbn [snd].
  apply list_elem_of_In, elem_of_map_to_list in Hin. rewrite lookup_fmap in Hin.
  destruct (groups !! k) as [g0|] eqn:Eg; [|done]. injection Hin as <-.
  destruct (Hg _ _ Eg) as [(n & Hn & ->)|(i & n & _ & _ & _ & ->)]; [|done].
  apply members_valid in Hn as (Hn & Hv & Hk). intros _. exists n. split; [done|]. split; [done|].
  destruct (In_normal _ _ Hn) as (r & -> & _). destruct (normalized_valid r Hv) as (_ & _ & Hne).
  unfold proposal_of. destruct (classify_fields ids (valid_group (normalizeRecord r) (normal l))) as (_ & -> & -> & ->).
  destruct (if _ && _ then _ else _) as [status reason]. cbn [pr_Entity pr_MatchKeySHA256 pr_SourceRefs valid_group pg_entity pg_matchKey pg_records].
  destruct (String.eqb_spec (match_of (normalizeRecord r)) ""); done.
Qed.

(** C21: the decision on the identity of a valid record: its proposal gathers the
    records with that identity and is proposed, with the identifier derived from
    the entity and the match key, exactly when nobody disputes the identity and
    every parent and user it refers to is listed, by the same source, under an
    undisputed identity. *)
Theorem proposal_decision l n :
  In n (normal l) -> nr_valid n = true ->
  exists p, In p (rp_Proposals (Build (mkInventory l)))
    /\ pr_SourceRefs p ≡ₚ map ref_of (members (key_of n) (normal l))
    /\ (pr_Status p = StatusProposed <->
          undisputed (key_of n) (normal l)
          /\ (forall a, In a (members (key_of n) (normal l)) -> links_found (normal l) (nr_record a)))
    /\ pr_PlatformID p = (if pr_Status p =s StatusProposed then stablePlatformID (entity_of n) (match_of n) else "").
Proof.
  intros Hn Hv. pose proof (classified_group l n Hn Hv) as Hg. unfold Build. cbn [inv_Records].
  destruct (collect_all l) as [groups ids] eqn:E. cbn [fst snd] in Hg.
  set (g := classify ids (valid_group n (normal l))) in *. exists (proposal_of (classify ids <$> groups) g).
  assert (pg_records g = members (key_of n) (normal l)) as Hr by (apply classify_fields).
  assert (pg_base g = StatusProposed <-> undisputed (key_of n) (normal l)) as Hb
    by (pose proof (classified_base l n) as Hb; by rewrite E in Hb).
  pose proof (dependencies_found l _ g Hr) as Hd. rewrite E in Hd. cbn [fst snd] in Hd.
  split; [|split; [by rewrite proposal_refs, Hr|]].
  - cbn [rp_Proposals]. apply in_map, in_sort_by, in_map_iff. exists (key_of n, g). split; [done|].
    by apply list_elem_of_In, elem_of_map_to_list.
  - unfold proposal_of. destruct (String.eqb_spec (pg_base g) StatusProposed) as [Hp|Hp]; cbn [andb].
    + destruct (dependenciesResolved g _) eqn:Ed; cbn [negb pr_Status pr_PlatformID].
      * rewrite Hp. split; [split; [|done]; intros _; split; [by apply Hb|by apply Hd]|].
        change (StatusProposed =s StatusProposed) with true. cbn. revert Hp. unfold g, classify, valid_group. cbn [pg_base].
        change (StatusProposed =s StatusBlocked) with false. cbn [pg_records]. destruct (decided _ _). cbn. by intros ->.
      * split; [|done]. split; [done|]. intros [_ Hl]. by apply Hd in Hl.
    + cbn [pr_Status pr_PlatformID]. split; [split; [done|]; intros [Hu _]; by apply Hb in Hu|].
      by destruct (String.eqb_spec (pg_base g) StatusProposed).
Qed.
End Decision.

(** ** Witnesses and examples *)
Module Observed.
#[export] Existing Instances ascii_tables toy_crypto.
Definition version : string := hex_encode (fit 20 "commit").
Definition record (source entity id key parent parentKey user userKey role : string) : SourceRecord :=
  mkSourceRecord source version entity id key parent parentKey user userKey role true.
Definition user := record "ctrl" "user" "u1" "user-1" "" "" "" "" "".
Definition user_ims := record " IMS " "user" "i7" "user-1" "" "" "" "" "".
Definition org := record "ctrl" "organisation" "o1" "org-1" "" "" "" "" "".
Definition stray := record "ctrl" "workspace" "w1" "ws-1" "o9" "org-9" "" "" "".
Definition member := record "ctrl" "workspace_membership" "m1" "member-1" "w1" "ws-1" "u1" "user-1" "member".
Definition unknown := record "crm" "user" "x" "user-9" "" "" "" "" "".
End Observed.
#[local] Existing Instances ascii_tables toy_crypto.

Lemma build_keeps_records_witness :
  sm_RecordCount (rp_Summary (Build (mkInventory [Observed.user; Observed.unknown; Observed.user_ims]))) = 3.
Proof. apply (build_keeps_records [Observed.user; Observed.unknown; Observed.user_ims]). vm_compute. discriminate. Defined.
Lemma build_order_irrelevant_witness :
  Build (mkInventory [Observed.user; Observed.org; Observed.user_ims])
  = Build (mkInventory [Observed.user_ims; Observed.user; Observed.org]).
Proof.
  apply build_order_irrelevant.
  - apply (Permutation_sym (Permutation_middle [Observed.user; Observed.org] [] Observed.user_ims)).
  - intros r [<-|[<-|[<-|[]]]]; vm_compute; reflexivity.
Defined.
Lemma proposal_decision_witness :
  exists p, In p (rp_Proposals (Build (mkInventory [Observed.user; Observed.user_ims]))) /\ List.length (pr_SourceRefs p) = 2%nat.
Proof.
  destruct (proposal_decision [Observed.user; Observed.user_ims] (normalizeRecord Observed.user)) as (p & Hp & Hr & _).
  - left. reflexivity.
  - vm_compute. reflexivity.
  - exists p. split; [exact Hp|]. rewrite (Permutation_length Hr). vm_compute. reflexivity.
Defined.

(** A parent is followed for one step only: the membership of a workspace whose
    own organisation is unknown is proposed while the workspace is blocked. *)
Example dependency_not_transitive :
  map (fun p => (pr_Entity p, pr_Status p)) (rp_Proposals (Build (mkInventory [Observed.user; Observed.stray; Observed.member])))
  = [("user", StatusProposed); ("workspace", StatusBlocked); ("workspace_membership", StatusProposed)].
Proof. vm_compute. reflexivity. Qed.
(** Beyond 55296 records the keys of invalid records collide. *)
Example invalid_keys_collide : invalid_key 0xD800 = invalid_key 0xD801.
Proof. reflexivity. Qed.
(** A separator inside a match key shifts the fields of a fingerprint. *)
Example fingerprint_ambiguous :
  fingerprint (Observed.record "ctrl" "organisation_membership" "m" "k" "o" ("p" ++ nul ++ "q") "u" "r" "member")
  = fingerprint (Observed.record "ctrl" "organisation_membership" "m" "k" "o" "p" "u" ("q" ++ nul ++ "r") "member").
Proof. reflexivity. Qed.
