(* ===== verification/Fixture.v ===== *)
(** internal/platform/reconciliation/migration.go: manifests built from a report,
    their approval and signature, and the in-memory rehearsal of an import. *)
From stdpp Require Import base tactics option list gmap strings sorting.
From Stdlib Require Import ZArith Lia Ascii String Sorted Permutation.
From S2P Require Import Prelude GoStrings GoTime Codec Errors Schema Json JsonLaws Auth Assertion Reconciliation.

Local Open Scope string_scope.
Local Open Scope Z_scope.

Definition FixtureOnlyScope := "fixture-only".
Definition ImportStatusPaused := "paused".
Definition ImportStatusCompleted := "completed".
Definition ImportStatusIdempotent := "idempotent".
Definition ImportStatusRolledBack := "rolled_back".
Definition checkpointNew := "new".
Definition checkpointRunning := "running".
Definition checkpointPaused := "paused".
Definition checkpointCompleted := "completed".
Definition checkpointRolledBack := "rolled_back".

Record ManifestApproval := mkApproval {
  ma_OperatorID : string; ma_ApprovedAt : string; ma_Reason : string; ma_Scope : string }.
Record ManifestRecord := mkManifestRecord {
  mr_Entity : string; mr_PlatformID : string; mr_MatchKeySHA256 : string; mr_SourceRefs : list SourceRef }.
Record Manifest := mkManifest {
  mf_SchemaVersion : Z; mf_ManifestID : string; mf_ReportSHA256 : string; mf_Scope : string;
  mf_Records : list ManifestRecord; mf_Approval : option ManifestApproval }.
Record SignedManifest := mkSigned { sg_Manifest : Manifest; sg_Algorithm : string; sg_Signature : string }.

(** ** Canonical text and identity *)
Definition approval_json (a : ManifestApproval) : json :=
  JObject [jstring "operator_id" (ma_OperatorID a); jstring "approved_at" (ma_ApprovedAt a);
           jstring "reason" (ma_Reason a); jstring "scope" (ma_Scope a)].
Definition manifest_record_json (r : ManifestRecord) : json :=
  JObject [jstring "entity" (mr_Entity r); jstring "platform_id" (mr_PlatformID r);
           jstring "match_key_sha256" (mr_MatchKeySHA256 r); ("source_refs", JArray (map ref_json (mr_SourceRefs r)))].
Definition manifest_json (m : Manifest) : json :=
  JObject ([jnumber "schema_version" (mf_SchemaVersion m); jstring "manifest_id" (mf_ManifestID m);
            jstring "report_sha256" (mf_ReportSHA256 m); jstring "scope" (mf_Scope m);
            ("records", JArray (map manifest_record_json (mf_Records m)))]
           ++ match mf_Approval m with Some a => [("approval", approval_json a)] | None => [] end)%list.
Definition canonicalManifest (m : Manifest) : string := encode_json (manifest_json m).
Definition with_id (id : string) (m : Manifest) : Manifest :=
  mkManifest (mf_SchemaVersion m) id (mf_ReportSHA256 m) (mf_Scope m) (mf_Records m) (mf_Approval m).
Definition with_approval (a : ManifestApproval) (m : Manifest) : Manifest :=
  mkManifest (mf_SchemaVersion m) (mf_ManifestID m) (mf_ReportSHA256 m) (mf_Scope m) (mf_Records m) (Some a).

Definition isSHA256Hex (value : string) : bool := (len value =? 64) && hex_decodable value.
Definition manifestRecordLess (left right : ManifestRecord) : bool :=
  fields_before [(mr_Entity left, mr_Entity right); (mr_PlatformID left, mr_PlatformID right)].
Definition ref_ok (r : SourceRef) : bool :=
  known_source (ref_Source r) && isSourceSHA (ref_SourceVersion r) && negb (TrimSpace (ref_SourceID r) =s "").
Definition record_ok (r : ManifestRecord) : bool :=
  validEntity (mr_Entity r) && negb (mr_PlatformID r =s "") && isSHA256Hex (mr_MatchKeySHA256 r)
  && negb (Nat.eqb (List.length (mr_SourceRefs r)) 0).
(** The loop over the records; [seen] are the ids before, [previous] the record before. *)
Fixpoint records_ok (seen : list string) (previous : option ManifestRecord) (l : list ManifestRecord) : bool :=
  match l with
  | [] => true
  | r :: l =>
      record_ok r && negb (one_of (mr_PlatformID r) seen)
      && negb (match previous with Some p => manifestRecordLess r p | None => false end)
      && forallb ref_ok (mr_SourceRefs r)
      && records_ok (mr_PlatformID r :: seen) (Some r) l
  end.

Section Manifests.
Context `{Crypto}.

Definition digestBytes (value : string) : string := hex_encode (sha256 value).
Definition manifestIdentity (m : Manifest) : string := digestBytes (canonicalManifest (with_id "" m)).
Definition validateManifestIdentity (m : Manifest) : res unit :=
  if negb (mf_SchemaVersion m =? SchemaVersion) || negb (mf_Scope m =s FixtureOnlyScope)
     || negb (isSHA256Hex (mf_ManifestID m)) || negb (isSHA256Hex (mf_ReportSHA256 m))
     || Nat.eqb (List.length (mf_Records m)) 0 then Err (Sentinel ErrManifestIntegrity)
  else if negb (mf_ManifestID m =s manifestIdentity m) then Err (Sentinel ErrManifestIntegrity)
  else if records_ok [] None (mf_Records m) then Ok tt else Err (Sentinel ErrManifestIntegrity).
Definition validateApprovedManifest (m : Manifest) : res unit :=
  let? _ := validateManifestIdentity m in
  match mf_Approval m with
  | None => Err (Sentinel ErrManifestApprovalRequired)
  | Some a =>
      if negb (ma_Scope a =s FixtureOnlyScope) || (TrimSpace (ma_OperatorID a) =s "") || (TrimSpace (ma_Reason a) =s "")
      then Err (Sentinel ErrManifestApprovalRequired)
      else match Parse (ma_ApprovedAt a) with Some _ => Ok tt | None => Err (Sentinel ErrManifestApprovalRequired) end
  end.

(** ** Building, approving, signing and verifying *)
Definition sortedSourceRefs (refs : list SourceRef) : list SourceRef := sort_by ref_before refs.
(** The records of the proposals, in their order. *)
Fixpoint manifest_records (seen : list string) (ps : list Proposal) : res (list ManifestRecord) :=
  match ps with
  | [] => Ok []
  | p :: ps =>
      if negb (pr_Status p =s StatusProposed) || negb (pr_ReviewRequired p) || (pr_PlatformID p =s "")
         || (pr_MatchKeySHA256 p =s "") || Nat.eqb (List.length (pr_SourceRefs p)) 0
      then Err (Sentinel ErrManifestBlocked)
      else if one_of (pr_PlatformID p) seen then Err (Sentinel ErrManifestIntegrity)
      else let? rest := manifest_records (pr_PlatformID p :: seen) ps in
           Ok (mkManifestRecord (pr_Entity p) (pr_PlatformID p) (pr_MatchKeySHA256 p) (sortedSourceRefs (pr_SourceRefs p)) :: rest)
  end.
Definition BuildManifest (report : Report) : res Manifest :=
  if negb (rp_SchemaVersion report =? SchemaVersion) || negb (rp_ReportType report =s "platform.reconciliation.inventory.v1")
  then Err (Sentinel ErrManifestIntegrity)
  else if Nat.eqb (List.length (rp_Proposals report)) 0 then Err (Sentinel ErrManifestBlocked)
  else
    let? records := manifest_records [] (rp_Proposals report) in
    let manifest := mkManifest SchemaVersion "" (digestBytes (MarshalReport report)) FixtureOnlyScope
                      (sort_by manifestRecordLess records) None in
    Ok (with_id (manifestIdentity manifest) manifest).
Definition ApproveManifest (m : Manifest) (operatorID reason : string) (approvedAt : Z) : res Manifest :=
  let? _ := validateManifestIdentity m in
  if (TrimSpace operatorID =s "") || (TrimSpace reason =s "") || IsZero approvedAt
  then Err (Sentinel ErrManifestApprovalRequired)
  else
    let m := with_approval (mkApproval (TrimSpace operatorID) (formatTime approvedAt) (TrimSpace reason) FixtureOnlyScope) m in
    Ok (with_id (manifestIdentity m) m).
Definition SignManifest `{Ed25519} (m : Manifest) (privateKey : string) : res SignedManifest :=
  if negb (len privateKey =? 64) then Err (Sentinel ErrManifestSignature) else
  let? _ := validateApprovedManifest m in
  Ok (mkSigned m "Ed25519" (b64_encode (ed_sign privateKey (canonicalManifest m)))).
Definition VerifySignedManifest `{Ed25519} (signed : SignedManifest) (publicKey : string) : res unit :=
  if negb (len publicKey =? 32) || negb (sg_Algorithm signed =s "Ed25519") then Err (Sentinel ErrManifestSignature) else
  let? _ := validateApprovedManifest (sg_Manifest signed) in
  match b64_decode (sg_Signature signed) with
  | Some signature =>
      if ed_verify publicKey (canonicalManifest (sg_Manifest signed)) signature then Ok tt else Err (Sentinel ErrManifestSignature)
  | None => Err (Sentinel ErrManifestSignature)
  end.
End Manifests.

(** ** The rehearsal *)
Record checkpoint := mkCheckpoint {
  ck_ManifestID : string; ck_NextIndex : Z; ck_AppliedCount : Z; ck_LastPlatformID : string;
  ck_Status : string; ck_Integrity : string }.
Record appliedRecord := mkApplied { ap_ManifestID : string; ap_Record : ManifestRecord; ap_Order : Z }.
Record AuditEntry := mkAuditEntry { ae_Event : string; ae_ManifestID : string; ae_PlatformID : string; ae_OccurredAt : string }.
Record ImportResult := mkImportResult {
  ir_Status : string; ir_Applied : Z; ir_Skipped : Z; ir_Checkpoint : checkpoint }.
Record FixtureImporter := mkImporter {
  fi_checkpointKey : string; fi_checkpoint : checkpoint; fi_records : gmap string appliedRecord; fi_audit : list AuditEntry }.

Definition checkpoint_json (c : checkpoint) : json :=
  JObject ([jstring "manifest_id" (ck_ManifestID c); jnumber "next_index" (ck_NextIndex c);
            jnumber "applied_count" (ck_AppliedCount c)] ++ optional "last_platform_id" (ck_LastPlatformID c)
           ++ [jstring "status" (ck_Status c); jstring "integrity" (ck_Integrity c)])%list.
Definition with_integrity (mac : string) (c : checkpoint) : checkpoint :=
  mkCheckpoint (ck_ManifestID c) (ck_NextIndex c) (ck_AppliedCount c) (ck_LastPlatformID c) (ck_Status c) mac.
Definition with_status (status : string) (c : checkpoint) : checkpoint :=
  mkCheckpoint (ck_ManifestID c) (ck_NextIndex c) (ck_AppliedCount c) (ck_LastPlatformID c) status (ck_Integrity c).
Definition set_checkpoint (c : checkpoint) (i : FixtureImporter) : FixtureImporter :=
  mkImporter (fi_checkpointKey i) c (fi_records i) (fi_audit i).

Section Importer.
Context `{Crypto} `{Ed25519}.

Definition checkpointMAC (i : FixtureImporter) : string :=
  hex_encode (hmac_sha256 (fi_checkpointKey i) (encode_json (checkpoint_json (with_integrity "" (fi_checkpoint i))))).
Definition sealCheckpoint (i : FixtureImporter) : FixtureImporter :=
  set_checkpoint (with_integrity (checkpointMAC i) (fi_checkpoint i)) i.
(** [sealCheckpoint] after [Status] is set. *)
Definition seal_as (status : string) (i : FixtureImporter) : FixtureImporter :=
  sealCheckpoint (set_checkpoint (with_status status (fi_checkpoint i)) i).

Definition NewFixtureImporter (checkpointKey : string) : res FixtureImporter :=
  if len checkpointKey <? 32 then Err (Sentinel ErrInvalidCheckpointKey) else
  Ok (sealCheckpoint (mkImporter checkpointKey (mkCheckpoint "" 0 0 "" checkpointNew "") ∅ [])).

Definition verifyCheckpoint (i : FixtureImporter) : res unit :=
  let c := fi_checkpoint i in
  if (ck_Integrity c =s "") || negb (ck_Integrity c =s checkpointMAC i) then Err (Sentinel ErrCheckpointIntegrity)
  else if (ck_NextIndex c <? 0) || (ck_AppliedCount c <? 0) || negb (ck_AppliedCount c =? ck_NextIndex c)
  then Err (Sentinel ErrCheckpointIntegrity)
  else if ck_Status c =s checkpointNew then
    if negb (ck_ManifestID c =s "") || negb (ck_NextIndex c =? 0) || negb (ck_AppliedCount c =? 0)
    then Err (Sentinel ErrCheckpointIntegrity) else Ok tt
  else if one_of (ck_Status c) [checkpointRunning; checkpointPaused; checkpointCompleted; checkpointRolledBack]
  then if ck_ManifestID c =s "" then Err (Sentinel ErrCheckpointIntegrity) else Ok tt
  else Err (Sentinel ErrCheckpointIntegrity).

(** One turn of the loop of Apply. *)
Definition apply_record (m : Manifest) (at_ : Z) (record : ManifestRecord) (i : FixtureImporter) : FixtureImporter :=
  let c := fi_checkpoint i in
  sealCheckpoint (mkImporter (fi_checkpointKey i)
    (mkCheckpoint (ck_ManifestID c) (ck_NextIndex c + 1) (ck_AppliedCount c + 1) (mr_PlatformID record) checkpointRunning (ck_Integrity c))
    (<[mr_PlatformID record := mkApplied (mf_ManifestID m) record (ck_NextIndex c)]> (fi_records i))
    (fi_audit i ++ [mkAuditEntry "fixture_import_applied" (mf_ManifestID m) (mr_PlatformID record) (formatTime at_)])).
(** The loop: [budget] records of the rest of the manifest may still be applied; the
    number applied. *)
Fixpoint apply_records (m : Manifest) (at_ : Z) (budget : nat) (rest : list ManifestRecord) (i : FixtureImporter)
  : res Z * FixtureImporter :=
  match budget, rest with
  | S budget, record :: rest =>
      match fi_records i !! mr_PlatformID record with
      | Some _ => (Err (Sentinel ErrCheckpointIntegrity), i)
      | None => let '(n, i) := apply_records m at_ budget rest (apply_record m at_ record i) in
                ((let? n := n in Ok (n + 1)), i)
      end
  | _, _ => (Ok 0, i)
  end.
Definition Apply (signed : SignedManifest) (publicKey : string) (at_ limit : Z) (i : FixtureImporter)
  : res ImportResult * FixtureImporter :=
  let m := sg_Manifest signed in
  let size := Z.of_nat (List.length (mf_Records m)) in
  let c := fi_checkpoint i in
  match VerifySignedManifest signed publicKey with
  | Err e => (Err e, i)
  | Ok _ =>
  if IsZero at_ then (Err (Sentinel ErrInvalidExecutionTime), i) else
  match verifyCheckpoint i with
  | Err e => (Err e, i)
  | Ok _ =>
  if ck_Status c =s checkpointRolledBack then (Err (Sentinel ErrImportAlreadyReversed), i)
  else if negb (ck_Status c =s checkpointNew) && negb (ck_ManifestID c =s mf_ManifestID m)
  then (Err (Sentinel ErrCheckpointManifest), i)
  else if ck_Status c =s checkpointCompleted then (Ok (mkImportResult ImportStatusIdempotent 0 size c), i)
  else
    let i := if ck_Status c =s checkpointNew
             then set_checkpoint (mkCheckpoint (mf_ManifestID m) (ck_NextIndex c) (ck_AppliedCount c) (ck_LastPlatformID c)
                                    checkpointRunning (ck_Integrity c)) i else i in
    let limit := if limit <=? 0 then size - ck_NextIndex c else limit in
    match apply_records m at_ (Z.to_nat limit) (skipn (Z.to_nat (ck_NextIndex c)) (mf_Records m)) i with
    | (Err e, i) => (Err e, i)
    | (Ok applied, i) =>
        let status := if ck_NextIndex (fi_checkpoint i) =? size then checkpointCompleted else checkpointPaused in
        let i := seal_as status i in
        (Ok (mkImportResult status applied 0 (fi_checkpoint i)), i)
    end
  end
  end.
(** [applied] is what the records of the manifest [id] are compared with. *)
Definition Rollback (signed : SignedManifest) (publicKey : string) (at_ : Z) (i : FixtureImporter)
  : res ImportResult * FixtureImporter :=
  let id := mf_ManifestID (sg_Manifest signed) in
  let c := fi_checkpoint i in
  match VerifySignedManifest signed publicKey with
  | Err e => (Err e, i)
  | Ok _ =>
  if IsZero at_ then (Err (Sentinel ErrInvalidExecutionTime), i) else
  match verifyCheckpoint i with
  | Err e => (Err e, i)
  | Ok _ =>
  if (ck_Status c =s checkpointNew) || (ck_Status c =s checkpointRolledBack)
  then (Ok (mkImportResult ImportStatusRolledBack 0 0 c), i)
  else if negb (ck_ManifestID c =s id) then (Err (Sentinel ErrCheckpointManifest), i)
  else
    let kept := filter (fun kv => negb (ap_ManifestID kv.2 =s id) = true) (fi_records i) in
    let removed := Z.of_nat (size (fi_records i)) - Z.of_nat (size kept) in
    let i := sealCheckpoint (mkImporter (fi_checkpointKey i) (mkCheckpoint id 0 0 "" checkpointRolledBack "") kept
               (fi_audit i ++ [mkAuditEntry "fixture_import_rolled_back" id "" (formatTime at_)])) in
    (Ok (mkImportResult ImportStatusRolledBack 0 removed (fi_checkpoint i)), i)
  end
  end.
Definition applied_before (a b : appliedRecord) : bool := ap_Order a <? ap_Order b.
Definition Snapshot (i : FixtureImporter) : list appliedRecord :=
  sort_by applied_before (map snd (map_to_list (fi_records i))).
End Importer.

(** ** Facts about digests and manifests *)
Lemma hex_encode_ok s : hex_decodable (hex_encode s) = true /\ len (hex_encode s) = 2 * len s.
Proof.
  unfold hex_decodable, len. induction s as [|c s [IH1 IH2]]; [done|]. apply andb_true_iff in IH1 as [IHe IHh].
  cbn [hex_encode String.length forall_bytes]. split; [|lia]. apply andb_true_iff. split; [done|].
  rewrite IHh, andb_true_r. pose proof (byte_code_range c).
  assert (forall n, 0 <= n < 16 -> is_hex (hex_digit n) = true) as Hd.
  { intros n Hn. assert (In n [0;1;2;3;4;5;6;7;8;9;10;11;12;13;14;15]) as Hin by (cbn; lia).
    cbn in Hin. repeat destruct Hin as [<-|Hin]; done. }
  rewrite !Hd by (Z.to_euclidean_division_equations; lia). done.
Qed.
Lemma digest_sha `{CryptoLaws} s : isSHA256Hex (digestBytes s) = true.
Proof.
  unfold isSHA256Hex, digestBytes. destruct (hex_encode_ok (sha256 s)) as [-> ->]. by rewrite sha256_length.
Qed.

(** What the loop over the records checks. *)
Lemma records_ok_spec l seen previous : records_ok seen previous l = true ->
  Forall (fun r => record_ok r = true /\ forallb ref_ok (mr_SourceRefs r) = true /\ ~ In (mr_PlatformID r) seen) l
  /\ NoDup (map mr_PlatformID l).
Proof.
  revert seen previous. induction l as [|r l IH]; intros seen previous Hl; [split; constructor|]. cbn [records_ok] in Hl.
  apply andb_true_iff in Hl as [Hl Hrest]. apply andb_true_iff in Hl as [Hl Hrefs]. apply andb_true_iff in Hl as [Hl _].
  apply andb_true_iff in Hl as [Hok Hseen]. apply negb_true_iff in Hseen.
  assert (~ In (mr_PlatformID r) seen) as Hn by (intros Hin%one_of_In; congruence).
  destruct (IH _ _ Hrest) as [Hf Hd]. split.
  - constructor; [done|]. eapply Forall_impl; [exact Hf|]. intros x (Hx1 & Hx2 & Hx3). split_and!; [done|done|].
    intros Hin. apply Hx3. by right.
  - cbn [map]. apply NoDup_cons. split; [|done]. rewrite list_elem_of_In. intros (x & Hx & Hin)%in_map_iff.
    rewrite List.Forall_forall in Hf. destruct (Hf x Hin) as (_ & _ & Hx3). apply Hx3. left. congruence.
Qed.
Lemma records_ok_intro l seen previous :
  Forall (fun r => record_ok r = true /\ forallb ref_ok (mr_SourceRefs r) = true /\ ~ In (mr_PlatformID r) seen) l ->
  NoDup (map mr_PlatformID l) -> StronglySorted (fun a b => manifestRecordLess b a = false) l ->
  match previous with Some p => Forall (fun r => manifestRecordLess r p = false) l | None => True end ->
  records_ok seen previous l = true.
Proof.
  intros Hf Hd Hs. revert seen previous Hf. induction l as [|r l IH]; intros seen previous Hf Hp; [done|]. cbn [records_ok].
  inversion_clear Hf as [|? ? (Hok & Hrefs & Hn) Hf']. apply NoDup_cons in Hd as [Hnin Hd]. inversion_clear Hs as [|? ? Hs' Hr].
  rewrite Hok, Hrefs. cbn [andb].
  destruct (one_of (mr_PlatformID r) seen) eqn:E; [by apply one_of_In in E|]. cbn [negb andb].
  replace (match previous with Some p => manifestRecordLess r p | None => false end) with false
    by (destruct previous as [p|]; [by inversion_clear Hp|done]).
  cbn [negb andb]. apply IH; try done.
  apply List.Forall_forall. intros y Hx. rewrite List.Forall_forall in Hf'. destruct (Hf' y Hx) as (? & ? & Hxn).
  split_and!; [done|done|]. intros [He|Hin]; [|done]. apply Hnin, list_elem_of_In, in_map_iff. by exists y.
Qed.
Lemma verified_manifest `{Crypto} `{Ed25519} signed publicKey : VerifySignedManifest signed publicKey = Ok tt ->
  mf_ManifestID (sg_Manifest signed) <> "" /\ mf_Records (sg_Manifest signed) <> []
  /\ NoDup (map mr_PlatformID (mf_Records (sg_Manifest signed))).
Proof.
  unfold VerifySignedManifest. destruct (_ || _); [done|]. unfold validateApprovedManifest.
  destruct (validateManifestIdentity (sg_Manifest signed)) as [u|] eqn:Ev; [|done]. intros _. unfold validateManifestIdentity in Ev.
  destruct (_ || _) eqn:Eo in Ev; [done|]. destruct (negb _) in Ev; [done|].
  destruct (records_ok [] None _) eqn:Er in Ev; [|done]. apply records_ok_spec in Er as [_ Hd]. split_and!; [| |done].
  - intros He. rewrite He in Eo. cbn in Eo. by rewrite !orb_true_r in Eo.
  - intros He. rewrite He in Eo. cbn in Eo. by rewrite !orb_true_r in Eo.
Qed.

(** ** The rehearsal implements a counter over the manifest *)
Inductive rehearsal := Fresh | Applied (k : nat) | Reversed.
Inductive call := CApply (at_ limit : Z) | CRollback (at_ : Z).
Definition call_time (c : call) : Z := match c with CApply at_ _ => at_ | CRollback at_ => at_ end.

Section Rehearsal.
Context `{Crypto} `{Ed25519} {laws : CryptoLaws}.
Context (signed : SignedManifest) (publicKey : string) (verified : VerifySignedManifest signed publicKey = Ok tt).
#[local] Abbreviation m := (sg_Manifest signed).
#[local] Abbreviation id := (mf_ManifestID m).
#[local] Abbreviation records := (mf_Records m).
#[local] Abbreviation size_ := (List.length records).

(** At most [limit] more records, all of them when it is not positive. *)
Definition advance (limit : Z) (k : nat) : nat :=
  if limit <=? 0 then size_ else Nat.min size_ (k + Z.to_nat limit).
Definition spec_step (c : call) (r : rehearsal) : rehearsal :=
  match c, r with
  | CApply _ limit, Fresh => Applied (advance limit 0)
  | CApply _ limit, Applied k => Applied (advance limit k)
  | CRollback _, Fresh => Fresh
  | _, _ => Reversed
  end.
(** The records applied, numbered. *)
Definition done_records (k : nat) : list appliedRecord :=
  map (fun ir => mkApplied id ir.2 ir.1) (numbered 0 (firstn k records)).
Definition entry (a : appliedRecord) : string * appliedRecord := (mr_PlatformID (ap_Record a), a).
Definition done_map (k : nat) : gmap string appliedRecord := list_to_map (map entry (done_records k)).
Definition applied_entry (at_ : Z) (r : ManifestRecord) : AuditEntry :=
  mkAuditEntry "fixture_import_applied" id (mr_PlatformID r) (formatTime at_).
(** What a call adds to the audit. *)
Definition spec_audit (c : call) (r : rehearsal) : list AuditEntry :=
  match c, r with
  | CApply at_ limit, Fresh => map (applied_entry at_) (firstn (advance limit 0) records)
  | CApply at_ limit, Applied k => map (applied_entry at_) (firstn (advance limit k - k) (skipn k records))
  | CRollback at_, Applied _ => [mkAuditEntry "fixture_import_rolled_back" id "" (formatTime at_)]
  | _, _ => []
  end.
Definition exec_call (c : call) (i : FixtureImporter) : res ImportResult * FixtureImporter :=
  match c with
  | CApply at_ limit => Apply signed publicKey at_ limit i
  | CRollback at_ => Rollback signed publicKey at_ i
  end.

Definition sealed (i : FixtureImporter) : Prop := ck_Integrity (fi_checkpoint i) = checkpointMAC i.
Definition represents (i : FixtureImporter) (r : rehearsal) : Prop :=
  sealed i /\
  match r with
  | Fresh => fi_records i = ∅ /\ fi_checkpoint i = with_integrity (ck_Integrity (fi_checkpoint i)) (mkCheckpoint "" 0 0 "" checkpointNew "")
  | Applied k =>
      (k <= size_)%nat /\ fi_records i = done_map k
      /\ ck_ManifestID (fi_checkpoint i) = id /\ ck_NextIndex (fi_checkpoint i) = Z.of_nat k
      /\ ck_AppliedCount (fi_checkpoint i) = Z.of_nat k
      /\ ck_Status (fi_checkpoint i) = if Nat.eqb k size_ then checkpointCompleted else checkpointPaused
  | Reversed =>
      fi_records i = ∅ /\ fi_checkpoint i = with_integrity (ck_Integrity (fi_checkpoint i)) (mkCheckpoint id 0 0 "" checkpointRolledBack "")
  end.

Lemma sealed_seal i : sealed (sealCheckpoint i).
Proof. done. Qed.
Lemma sealed_nonempty i : sealed i -> (ck_Integrity (fi_checkpoint i) =s "") = false.
Proof using laws.
  intros Hs. rewrite Hs. unfold checkpointMAC.
  pose proof (hmac_sha256_length (fi_checkpointKey i) (encode_json (checkpoint_json (with_integrity "" (fi_checkpoint i))))) as Hl.
  by destruct (hmac_sha256 _ _).
Qed.
Lemma done_keys k : NoDup (map fst (map entry (done_records k))).
Proof.
  apply verified_manifest in verified as (_ & _ & Hd). unfold done_records. rewrite !map_map. cbn [entry fst ap_Record].
  assert (forall i l, map (fun ir : Z * ManifestRecord => mr_PlatformID ir.2) (numbered i l) = map mr_PlatformID l) as Hn.
  { intros i l. revert i. induction l as [|x l IH]; intros i; [done|]. cbn. by rewrite IH. }
  rewrite Hn, <-firstn_map. eapply sublist_NoDup; [exact Hd|apply sublist_take].
Qed.
Lemma done_records_S k r : records !! k = Some r ->
  done_records (S k) = (done_records k ++ [mkApplied id r (Z.of_nat k)])%list.
Proof.
  intros Hr. unfold done_records. pose proof (lookup_lt_Some _ _ _ Hr).
  rewrite (take_S_r _ _ _ Hr), numbered_app, map_app, length_firstn. cbn. repeat f_equal. lia.
Qed.
Lemma done_map_S k r : records !! k = Some r ->
  done_map k !! mr_PlatformID r = None
  /\ done_map (S k) = <[mr_PlatformID r := mkApplied id r (Z.of_nat k)]> (done_map k).
Proof using verified.
  intros Hr. pose proof (done_keys (S k)) as Hd. rewrite (done_records_S _ _ Hr), !map_app in Hd.
  apply NoDup_app in Hd as (_ & Hd & _).
  assert (mr_PlatformID r ∉ (map entry (done_records k)).*1) as Hn.
  { intros Hin. apply (Hd _ Hin). cbn. by apply list_elem_of_singleton. }
  split; [by apply not_elem_of_list_to_map_1|]. unfold done_map. rewrite (done_records_S _ _ Hr), map_app.
  apply (list_to_map_snoc (map entry (done_records k)) (mr_PlatformID r)). exact Hn.
Qed.

(** In the loop, [k] records are applied. *)
Definition running (k : nat) (i : FixtureImporter) : Prop :=
  fi_records i = done_map k /\ ck_ManifestID (fi_checkpoint i) = id
  /\ ck_NextIndex (fi_checkpoint i) = Z.of_nat k /\ ck_AppliedCount (fi_checkpoint i) = Z.of_nat k.
Lemma apply_record_running at_ k r i : records !! k = Some r -> running k i -> running (S k) (apply_record m at_ r i).
Proof using verified.
  intros Hr (Hm & Hid & Hn & Ha). destruct (done_map_S k r Hr) as [_ Hs]. unfold running, apply_record, sealCheckpoint. cbn.
  rewrite Hm, Hid, Hn, Ha, Hs. split_and!; [done|done|lia|lia].
Qed.
Lemma apply_records_run at_ budget k i : running k i ->
  let j := Nat.min budget (size_ - k) in
  exists i', apply_records m at_ budget (skipn k records) i = (Ok (Z.of_nat j), i')
    /\ running (k + j) i' /\ fi_audit i' = (fi_audit i ++ map (applied_entry at_) (firstn j (skipn k records)))%list.
Proof using verified.
  cbv zeta. revert k i. induction budget as [|budget IH]; intros k i Hi.
  - exists i. rewrite Nat.add_0_r, app_nil_r. done.
  - destruct (records !! k) as [r|] eqn:Er.
    + pose proof (lookup_lt_Some _ _ _ Er). rewrite (drop_S _ _ _ Er).
      replace (Nat.min (S budget) (size_ - k)) with (S (Nat.min budget (size_ - S k))) by lia.
      destruct (IH (S k) (apply_record m at_ r i) (apply_record_running at_ k r i Er Hi)) as (i' & Ha & Hr & Hau).
      exists i'. cbn [apply_records]. rewrite (proj1 Hi), (proj1 (done_map_S k r Er)), Ha. split; [|split].
      * do 2 f_equal. lia.
      * by replace (k + S (Nat.min budget (size_ - S k)))%nat with (S k + Nat.min budget (size_ - S k))%nat by lia.
      * rewrite Hau. cbn [firstn map apply_record sealCheckpoint set_checkpoint fi_audit]. by rewrite <-app_assoc.
    + apply lookup_ge_None in Er. rewrite drop_ge by done. exists i. replace (Nat.min (S budget) (size_ - k)) with 0%nat by lia.
      rewrite Nat.add_0_r, app_nil_r. done.
Qed.
Lemma represents_verified i r : represents i r -> verifyCheckpoint i = Ok tt.
Proof using laws verified.
  intros [Hs Hr]. unfold verifyCheckpoint. rewrite (sealed_nonempty i Hs). pose proof (verified_manifest _ _ verified) as (Hid & _ & _).
  unfold sealed in Hs. rewrite <-Hs, String.eqb_refl. cbn [negb orb].
  destruct r as [|k|].
  - destruct Hr as (_ & ->). done.
  - destruct Hr as (_ & _ & -> & -> & -> & ->). rewrite (proj2 (Z.ltb_ge _ _)), Z.eqb_refl by lia. cbn [negb orb].
    destruct (String.eqb_spec id ""); [done|]. by destruct (Nat.eqb k size_).
  - destruct Hr as (_ & ->). cbn. by destruct (String.eqb_spec id "").
Qed.

(** The call after the checks: the loop and the last seal. *)
Lemma apply_finish at_ limit k i : (k <= size_)%nat -> running k i ->
  let n := (if limit <=? 0 then Z.of_nat size_ - Z.of_nat k else limit) in
  exists i' applied, apply_records m at_ (Z.to_nat n) (skipn k records) i = (Ok applied, i')
    /\ represents (seal_as (if ck_NextIndex (fi_checkpoint i') =? Z.of_nat size_ then checkpointCompleted else checkpointPaused) i')
         (Applied (advance limit k))
    /\ fi_audit i' = (fi_audit i ++ map (applied_entry at_) (firstn (advance limit k - k) (skipn k records)))%list.
Proof using verified.
  intros Hk Hi n. destruct (apply_records_run at_ (Z.to_nat n) k i Hi) as (i' & Ha & (Hm & Hid & Hn & Hc) & Hau).
  assert (k + Nat.min (Z.to_nat n) (size_ - k) = advance limit k)%nat as Hadv
    by (unfold advance, n; destruct (Z.leb_spec limit 0); lia).
  rewrite Hadv in Hm, Hn, Hc. replace (Nat.min (Z.to_nat n) (size_ - k)) with (advance limit k - k)%nat in Hau by lia.
  exists i', (Z.of_nat (Nat.min (Z.to_nat n) (size_ - k))). split; [done|]. split; [|done]. split; [apply sealed_seal|].
  unfold seal_as, sealCheckpoint. cbn. split_and!; try done; [lia|]. rewrite Hn.
  destruct (Nat.eqb_spec (advance limit k) size_) as [->|Hne]; [by rewrite Z.eqb_refl|].
  by rewrite (proj2 (Z.eqb_neq _ _)) by lia.
Qed.
Lemma apply_refines at_ limit i r : represents i r -> IsZero at_ = false ->
  represents (Apply signed publicKey at_ limit i).2 (spec_step (CApply at_ limit) r)
  /\ fi_audit (Apply signed publicKey at_ limit i).2 = (fi_audit i ++ spec_audit (CApply at_ limit) r)%list
  /\ is_ok (Apply signed publicKey at_ limit i).1 = match r with Reversed => false | _ => true end.
Proof using laws verified.
  intros Hr Ht. pose proof (represents_verified i r Hr) as Hv. unfold Apply. rewrite verified, Ht, Hv. cbn [negb].
  destruct r as [|k|]; cbn [spec_step spec_audit].
  - destruct Hr as [Hs (Hm & Hc)]. rewrite Hc. cbn [with_integrity ck_Status ck_NextIndex ck_AppliedCount ck_LastPlatformID ck_ManifestID ck_Integrity].
    change (checkpointNew =s checkpointRolledBack) with false. change (checkpointNew =s checkpointNew) with true.
    change (checkpointNew =s checkpointCompleted) with false. cbn [negb andb].
    match goal with |- context[apply_records _ _ _ _ ?x] => set (i1 := x) end.
    assert (running 0 i1) as Hi1 by (unfold running, i1, done_map, done_records; cbn; rewrite firstn_O; done).
    destruct (apply_finish at_ limit 0 i1 ltac:(lia) Hi1) as (i' & applied & Ha & Hr & Hau). change (Z.to_nat 0) with 0%nat. change (Z.of_nat 0) with 0 in Ha. rewrite Ha.
    rewrite Nat.sub_0_r in Hau. by cbn [fst snd].
  - destruct Hr as [Hs (Hk & Hm & Hid & Hn & Hc & Hst)]. rewrite Hst, Hid, Hn, String.eqb_refl, Nat2Z.id.
    destruct (Nat.eqb_spec k size_) as [->|Hne].
    + change (checkpointCompleted =s checkpointRolledBack) with false. change (checkpointCompleted =s checkpointCompleted) with true.
      rewrite andb_false_r. cbn [fst snd].
      assert (advance limit size_ = size_) as -> by (unfold advance; destruct (limit <=? 0); lia).
      rewrite Nat.sub_diag, app_nil_r. split; [|done]. split; [done|]. rewrite Hst, Nat.eqb_refl. done.
    + change (checkpointPaused =s checkpointRolledBack) with false. change (checkpointPaused =s checkpointCompleted) with false.
      change (checkpointPaused =s checkpointNew) with false. rewrite andb_false_r.
      destruct (apply_finish at_ limit k i Hk) as (i' & applied & Ha & Hr & Hau); [done|]. rewrite Ha. by cbn [fst snd].
  - destruct Hr as [Hs (Hm & Hc)]. rewrite Hc. cbn. rewrite app_nil_r. split; [split; [done|]; split; [done|by rewrite Hc]|done].
Qed.
Lemma rollback_all k : filter (fun kv => negb (ap_ManifestID kv.2 =s id) = true) (done_map k) = ∅.
Proof using verified.
  apply map_eq. intros key. rewrite lookup_empty. apply map_lookup_filter_None. right. intros a Ha.
  apply elem_of_list_to_map_2, list_elem_of_In in Ha.
  apply in_map_iff in Ha as (b & Hb & Hin). injection Hb as _ <-.
  apply in_map_iff in Hin as ([n r] & <- & _). cbn. by rewrite String.eqb_refl.
Qed.
Lemma rollback_refines at_ i r : represents i r -> IsZero at_ = false ->
  represents (Rollback signed publicKey at_ i).2 (spec_step (CRollback at_) r)
  /\ fi_audit (Rollback signed publicKey at_ i).2 = (fi_audit i ++ spec_audit (CRollback at_) r)%list
  /\ is_ok (Rollback signed publicKey at_ i).1 = true.
Proof using laws verified.
  intros Hr Ht. pose proof (represents_verified i r Hr) as Hv. unfold Rollback. rewrite verified, Ht, Hv.
  destruct r as [|k|]; cbn [spec_step spec_audit].
  - destruct Hr as [Hs (Hm & Hc)]. rewrite Hc. cbn. rewrite app_nil_r. by split; [split; [|split; [|rewrite Hc]]|].
  - destruct Hr as [Hs (Hk & Hm & Hid & Hn & Hc & Hst)]. rewrite Hst, Hid, String.eqb_refl.
    replace ((_ =s checkpointNew) || _) with false by (by destruct (Nat.eqb k size_)). cbn [negb fst snd].
    split; [|done]. split; [apply sealed_seal|]. unfold sealCheckpoint. cbn. rewrite Hm, rollback_all. done.
  - destruct Hr as [Hs (Hm & Hc)]. rewrite Hc. cbn. rewrite app_nil_r. by split; [split; [|split; [|rewrite Hc]]|].
Qed.

(** A sequence of calls, with the audit they add. *)
Fixpoint spec_run (l : list call) (r : rehearsal) : rehearsal * list AuditEntry :=
  match l with
  | [] => (r, [])
  | c :: l => let '(r', entries) := spec_run l (spec_step c r) in (r', spec_audit c r ++ entries)%list
  end.
Fixpoint run_calls (l : list call) (i : FixtureImporter) : FixtureImporter :=
  match l with [] => i | c :: l => run_calls l (exec_call c i).2 end.
Lemma run_refines l i r : represents i r -> Forall (fun c => IsZero (call_time c) = false) l ->
  represents (run_calls l i) (spec_run l r).1 /\ fi_audit (run_calls l i) = (fi_audit i ++ (spec_run l r).2)%list.
Proof using laws verified.
  intros Hr Hl. revert i r Hr. induction Hl as [|c l Hc _ IH]; intros i r Hr; [by rewrite app_nil_r|].
  cbn [run_calls spec_run].
  assert (represents (exec_call c i).2 (spec_step c r) /\ fi_audit (exec_call c i).2 = (fi_audit i ++ spec_audit c r)%list) as [Hs Ha].
  { destruct c as [at_ limit|at_]; [by destruct (apply_refines at_ limit i r Hr Hc) as (? & ? & _)|].
    by destruct (rollback_refines at_ i r Hr Hc) as (? & ? & _). }
  destruct (IH _ _ Hs) as [Hs' Ha']. destruct (spec_run l (spec_step c r)) as [r' entries]. cbn [fst snd] in *.
  split; [done|]. by rewrite Ha', Ha, <-app_assoc.
Qed.
Lemma numbered_nth {A} i (l : list A) x y : In (x, y) (numbered i l) -> i <= x.
Proof. revert i. induction l as [|z l IH]; intros i; [done|]. intros [[= <- <-]|Hin%IH]; lia. Qed.
Lemma snapshot_done i k : fi_records i = done_map k -> Snapshot i = done_records k.
Proof using verified.
  intros Hm. unfold Snapshot. rewrite Hm.
  assert (forall i l, StronglySorted (fun a b => applied_before b a = false)
    (map (fun ir : Z * ManifestRecord => mkApplied id ir.2 ir.1) (numbered i l))
    /\ NoDup (map ap_Order (map (fun ir : Z * ManifestRecord => mkApplied id ir.2 ir.1) (numbered i l)))) as Hs.
  { intros j l. revert j. induction l as [|x l IH]; intros j; [split; constructor|]. cbn [numbered map].
    destruct (IH (j + 1)) as [IHs IHd]. split.
    - constructor; [done|]. apply List.Forall_forall. intros a ([n r] & <- & Hin)%in_map_iff. apply numbered_nth in Hin.
      unfold applied_before. cbn. apply Z.ltb_ge. lia.
    - apply NoDup_cons. split; [|done]. cbn [ap_Order snd fst]. rewrite list_elem_of_In. intros (a & Ha & Hin)%in_map_iff.
      apply in_map_iff in Hin as ([n r] & <- & Hin). apply numbered_nth in Hin. cbn in Ha. lia. }
  destruct (Hs 0 (firstn k records)) as [Hsort Hnd]. fold (done_records k) in Hsort, Hnd.
  assert (map snd (map_to_list (done_map k)) ≡ₚ done_records k) as Hp.
  { unfold done_map. rewrite (Permutation_map snd (map_to_list_to_map _ (done_keys k))), map_map. cbn. by rewrite map_id. }
  apply (StronglySorted_unique_strong (fun a b => applied_before b a = false)); [|apply sort_by_sorted|done|by rewrite sort_by_Permutation].
  - intros a b Ha Hb Hab Hba. rewrite sort_by_Permutation, Hp in Ha. unfold applied_before in Hab, Hba.
    apply Z.ltb_ge in Hab, Hba. apply list_elem_of_In in Ha, Hb. apply (NoDup_map_inj_in ap_Order (done_records k)); [done..|lia].
  - intros a b. unfold applied_before. lia.
  - intros a b c. unfold applied_before. lia.
Qed.

(** C22: a rehearsal of one signed manifest, started afresh and driven by any
    sequence of applications, with any limits, and roll-backs, is a counter: the
    snapshot holds exactly the first records of the manifest in order, as many as
    were applied, none after a roll-back, and the audit one entry per record
    applied and per roll-back. *)
Theorem rehearsal_counts checkpointKey i l :
  NewFixtureImporter checkpointKey = Ok i ->
  Forall (fun c => IsZero (call_time c) = false) l ->
  Snapshot (run_calls l i) = match (spec_run l Fresh).1 with Applied k => done_records k | _ => [] end
  /\ fi_audit (run_calls l i) = (spec_run l Fresh).2
  /\ forall at_ limit, IsZero at_ = false ->
       is_ok (Apply signed publicKey at_ limit (run_calls l i)).1 = match (spec_run l Fresh).1 with Reversed => false | _ => true end.
Proof using laws verified.
  intros Hi Hl. unfold NewFixtureImporter in Hi. destruct (_ <? _); [done|]. injection Hi as <-.
  assert (represents (sealCheckpoint (mkImporter checkpointKey (mkCheckpoint "" 0 0 "" checkpointNew "") ∅ [])) Fresh) as Hf by done.
  destruct (run_refines l _ _ Hf Hl) as [Hr Ha]. split; [|split; [done|]].
  - destruct (spec_run l Fresh).1 as [|k|]; destruct Hr as [_ Hr].
    + unfold Snapshot. rewrite (proj1 Hr), map_to_list_empty. reflexivity.
    + apply snapshot_done, (proj1 (proj2 Hr)).
    + unfold Snapshot. rewrite (proj1 Hr), map_to_list_empty. reflexivity.
  - intros at_ limit Ht. by destruct (apply_refines at_ limit _ _ Hr Ht) as (_ & _ & ->).
Qed.
End Rehearsal.

(** ** From the inventory to the signed manifest *)
Section Pipeline.
Context `{UnicodeTables} `{Crypto} {laws : CryptoLaws} `{Ed25519} {ed_laws : Ed25519Laws}.

Lemma normalized_refs r : nr_valid (normalizeRecord r) = true -> ref_ok (ref_of (normalizeRecord r)) = true.
Proof.
  unfold normalizeRecord, ref_of, ref_ok, record_reason.
  cbn [nr_valid nr_record ref_Source ref_SourceVersion ref_SourceID src_Source src_SourceVersion src_Entity src_SourceID].
  rewrite TrimSpace_idem.
  destruct (known_source _); [|done]. destruct (isSourceSHA _); [|done]. destruct (validEntity _); [|done].
  by destruct (TrimSpace (src_SourceID r) =s "").
Qed.
Lemma proposed_record l p : In p (rp_Proposals (Build (mkInventory l))) -> pr_Status p = StatusProposed ->
  pr_PlatformID p <> "" -> pr_SourceRefs p <> [] ->
  let r := mkManifestRecord (pr_Entity p) (pr_PlatformID p) (pr_MatchKeySHA256 p) (sortedSourceRefs (pr_SourceRefs p)) in
  record_ok r = true /\ forallb ref_ok (mr_SourceRefs r) = true.
Proof using laws.
  intros Hin Hs Hid Hrefs. destruct (proposed_from_valid l p Hin Hs) as (n & Hn & Hv & -> & -> & Hr). cbv zeta.
  destruct (In_normal _ _ Hn) as (r & -> & _). destruct (normalized_valid r Hv) as (_ & He & _). split.
  - unfold record_ok. cbn [mr_Entity mr_PlatformID mr_MatchKeySHA256 mr_SourceRefs].
    rewrite He. change (digest ?x) with (digestBytes x). rewrite digest_sha. destruct (String.eqb_spec (pr_PlatformID p) ""); [done|].
    cbn [negb andb]. unfold sortedSourceRefs. rewrite (Permutation_length (sort_by_Permutation _ _)). by destruct (pr_SourceRefs p).
  - cbn [mr_SourceRefs]. apply forallb_forall. intros x Hx%in_sort_by. rewrite Hr in Hx. apply in_sort_by, in_map_iff in Hx as (m & <- & Hm).
    apply members_valid in Hm as (Hm & Hmv & _). destruct (In_normal _ _ Hm) as (r' & -> & _). by apply normalized_refs.
Qed.
Lemma manifest_records_Ok l seen ps records : incl ps (rp_Proposals (Build (mkInventory l))) ->
  manifest_records seen ps = Ok records ->
  Forall (fun r => record_ok r = true /\ forallb ref_ok (mr_SourceRefs r) = true /\ ~ In (mr_PlatformID r) seen) records
  /\ NoDup (map mr_PlatformID records) /\ List.length records = List.length ps.
Proof using laws.
  revert seen records. induction ps as [|p ps IH]; intros seen records Hsub Hm; [injection Hm as <-; split_and!; [constructor|constructor|done]|].
  cbn [manifest_records] in Hm. destruct (_ || _) eqn:Eb in Hm; [done|]. destruct (one_of _ seen) eqn:Es; [done|].
  destruct (manifest_records _ ps) as [rest|] eqn:Er; [|done]. injection Hm as <-.
  apply orb_false_iff in Eb as [Eb Hrefs]. apply orb_false_iff in Eb as [Eb _]. apply orb_false_iff in Eb as [Eb Hid].
  apply orb_false_iff in Eb as [Hst%negb_false_iff%String.eqb_eq _]. apply String.eqb_neq in Hid.
  destruct (IH _ _ (fun x Hx => Hsub x (or_intror Hx)) Er) as (Hf & Hd & Hl).
  destruct (proposed_record l p (Hsub p (or_introl eq_refl)) Hst Hid) as [Hok Hrok]; [by destruct (pr_SourceRefs p)|].
  split_and!; [constructor|cbn [map]; apply NoDup_cons; split; [|done]|cbn; lia].
  - split_and!; [done|done|]. cbn. intros Hin%one_of_In. congruence.
  - eapply Forall_impl; [exact Hf|]. intros x (? & ? & Hn). split_and!; [done|done|]. intros Hin. apply Hn. by right.
  - rewrite list_elem_of_In. intros (x & Hx & Hin)%in_map_iff. rewrite List.Forall_forall in Hf.
    destruct (Hf x Hin) as (_ & _ & Hn). apply Hn. left. by rewrite Hx.
Qed.
Lemma manifest_order_sorted l : StronglySorted (fun a b => manifestRecordLess b a = false) (sort_by manifestRecordLess l).
Proof.
  assert (forall a b, manifestRecordLess a b = fields_lt [mr_Entity a; mr_PlatformID a] [mr_Entity b; mr_PlatformID b]) as Hr by done.
  apply sort_by_sorted.
  - intros a b. rewrite !Hr. apply fields_lt_asym.
  - intros a b c. rewrite !Hr. by apply fields_le_trans.
Qed.
Lemma identity_with_id id m : manifestIdentity (with_id id m) = manifestIdentity m.
Proof. done. Qed.
Lemma identified_valid m : mf_SchemaVersion m = SchemaVersion -> mf_Scope m = FixtureOnlyScope ->
  isSHA256Hex (mf_ReportSHA256 m) = true -> mf_Records m <> [] -> records_ok [] None (mf_Records m) = true ->
  validateManifestIdentity (with_id (manifestIdentity m) m) = Ok tt.
Proof using laws.
  intros Hv Hs Hr Hne Hok. unfold validateManifestIdentity. rewrite identity_with_id. cbn [with_id mf_SchemaVersion mf_Scope mf_ManifestID mf_ReportSHA256 mf_Records].
  rewrite Hv, Hs, Hr, Hok, !String.eqb_refl. unfold manifestIdentity at 1. rewrite digest_sha.
  by destruct (mf_Records m).
Qed.
Lemma built_valid inventory m : BuildManifest (Build inventory) = Ok m -> validateManifestIdentity m = Ok tt.
Proof using laws.
  destruct inventory as [l]. unfold BuildManifest. destruct (_ || _); [done|]. destruct (Nat.eqb _ 0) eqn:En; [done|].
  destruct (manifest_records [] _) as [records|] eqn:Er; [|done]. intros [= <-].
  destruct (manifest_records_Ok l [] _ _ (incl_refl _) Er) as (Hf & Hd & Hl).
  apply identified_valid; try done; [apply digest_sha| |].
  - cbn [mf_Records]. intros He. apply Nat.eqb_neq in En. apply En. rewrite <-Hl.
    by rewrite <-(Permutation_length (sort_by_Permutation manifestRecordLess records)), He.
  - cbn [mf_Records]. apply records_ok_intro; [| |apply manifest_order_sorted|done].
    + rewrite sort_by_Permutation. done.
    + by rewrite (Permutation_map _ (sort_by_Permutation _ _)).
Qed.

(** A manifest built from the report of an inventory can always be approved
    by a named operator with a reason, signed, and verified with the matching
    public key. *)
Theorem pipeline_verifies inventory m operator reason at_ privateKey :
  BuildManifest (Build inventory) = Ok m ->
  TrimSpace operator <> "" -> TrimSpace reason <> "" -> four_digit_year at_ -> at_ <> zero_time -> len privateKey = 64 ->
  exists approved signed,
    ApproveManifest m operator reason at_ = Ok approved /\ SignManifest approved privateKey = Ok signed
    /\ VerifySignedManifest signed (ed_public privateKey) = Ok tt
    /\ mf_Records (sg_Manifest signed) = mf_Records m.
Proof using laws ed_laws.
  intros Hb Ho Hr Hy Hz Hk. pose proof (built_valid _ _ Hb) as Hv. unfold ApproveManifest. rewrite Hv.
  apply String.eqb_neq in Ho, Hr. rewrite Ho, Hr. unfold IsZero. rewrite (proj2 (Z.eqb_neq _ _) Hz). cbn [orb].
  set (a := mkApproval _ _ _ _). set (approved := with_id (manifestIdentity (with_approval a m)) (with_approval a m)).
  assert (validateApprovedManifest approved = Ok tt) as Ha.
  { unfold validateManifestIdentity in Hv. destruct (_ || _) eqn:Eo in Hv; [done|]. destruct (negb _) in Hv; [done|].
    destruct (records_ok [] None (mf_Records m)) eqn:Erk; [|done].
    apply orb_false_iff in Eo as [Eo Hne]. apply orb_false_iff in Eo as [Eo Hsha%negb_false_iff].
    apply orb_false_iff in Eo as [Eo _]. apply orb_false_iff in Eo as [Hver%negb_false_iff%Z.eqb_eq Hsc%negb_false_iff%String.eqb_eq].
    unfold validateApprovedManifest, approved.
    rewrite (identified_valid (with_approval a m)); [|done|done|done|cbn [with_approval mf_Records]; by destruct (mf_Records m)|done].
    cbn [with_id with_approval mf_Approval a ma_Scope ma_OperatorID ma_Reason ma_ApprovedAt].
    rewrite String.eqb_refl, !TrimSpace_idem, Ho, Hr. cbn [negb orb]. by rewrite Parse_format. }
  exists approved, (mkSigned approved "Ed25519" (b64_encode (ed_sign privateKey (canonicalManifest approved)))).
  split; [done|]. unfold SignManifest, VerifySignedManifest. rewrite Hk, (ed_public_length privateKey). cbn [negb orb sg_Manifest sg_Algorithm sg_Signature Z.eqb Pos.eqb].
  rewrite Ha, b64_decode_encode, ed_verify_sign. done.
Qed.
End Pipeline.

(** ** Witnesses *)
Module Rehearsal.
#[export] Existing Instances ascii_tables toy_crypto toy_crypto_laws Assertion.Sample.toy_ed25519 Assertion.Sample.toy_laws.
Definition inventory : Inventory := mkInventory [Observed.user; Observed.org; Observed.user_ims].
Definition at_ : Z := Assertion.Sample.t0.
Definition private : string := Assertion.Sample.sk.
Definition manifest : res Manifest := BuildManifest (Build inventory).
Definition signed : SignedManifest := Eval vm_compute in
  match (let? m := manifest in let? m := ApproveManifest m "ops" "rehearsal" at_ in SignManifest m private) with
  | Ok s => s | Err _ => mkSigned (mkManifest 0 "" "" "" [] None) "" "" end.
Definition importer : FixtureImporter := Eval vm_compute in
  match NewFixtureImporter (fit 32 "checkpoint") with
  | Ok i => i | Err _ => mkImporter "" (mkCheckpoint "" 0 0 "" "" "") ∅ [] end.
(** One record, then the rest. *)
Definition calls : list call := [CApply at_ 1; CApply at_ 0].
End Rehearsal.
#[local] Existing Instances ascii_tables toy_crypto toy_crypto_laws Assertion.Sample.toy_ed25519 Assertion.Sample.toy_laws.

Lemma rehearsal_counts_witness :
  Snapshot (run_calls Rehearsal.signed (ed_public Rehearsal.private) Rehearsal.calls Rehearsal.importer)
    = done_records Rehearsal.signed 2
  /\ List.length (mf_Records (sg_Manifest Rehearsal.signed)) = 2%nat.
Proof.
  assert (VerifySignedManifest Rehearsal.signed (ed_public Rehearsal.private) = Ok tt) as Hv by (vm_compute; reflexivity).
  destruct (rehearsal_counts Rehearsal.signed (ed_public Rehearsal.private) Hv
    (fit 32 "checkpoint") Rehearsal.importer Rehearsal.calls) as (Hs & _).
  - vm_compute. reflexivity.
  - repeat constructor.
  - split; [exact Hs|vm_compute; reflexivity].
Defined.
Lemma pipeline_verifies_witness :
  exists signed, VerifySignedManifest signed (ed_public Rehearsal.private) = Ok tt
    /\ List.length (mf_Records (sg_Manifest signed)) = 2%nat.
Proof.
  destruct Rehearsal.manifest as [m|e] eqn:E; [|vm_compute in E; discriminate E].
  destruct (pipeline_verifies Rehearsal.inventory m "ops" "rehearsal" Rehearsal.at_ Rehearsal.private)
    as (approved & signed & _ & _ & Hv & Hr).
  - exact E.
  - vm_compute. discriminate.
  - vm_compute. discriminate.
  - split; [apply Z.leb_le; vm_compute; reflexivity|apply Z.ltb_lt; vm_compute; reflexivity].
  - apply Z.eqb_neq. vm_compute. reflexivity.
  - vm_compute. reflexivity.
  - exists signed. split; [exact Hv|]. rewrite Hr. vm_compute in E. injection E as <-. reflexivity.
Defined.
