(* ===== verification/Production.v ===== *)
(** internal/platform/reconciliation/production.go: the signed manifests of a
    production import. A nil pointer is [None]. *)
From stdpp Require Import base tactics option list gmap strings sorting.
From Stdlib Require Import ZArith Lia Ascii String Sorted Permutation.
From S2P Require Import Prelude GoStrings GoTime Codec Errors Schema Json JsonLaws Auth Assertion Reconciliation Fixture.

Local Open Scope string_scope.
Local Open Scope Z_scope.

Definition ProductionSchemaVersion : Z := 1.
Definition ProductionScope := "production".
Definition ProductionManifestType := "platform.reconciliation.import.v1".
Definition ProductionEntityUser := "user".
Definition ProductionEntityOrganisation := "organisation".
Definition ProductionEntityWorkspace := "workspace".
Definition ProductionEntityOrganisationMembership := "organisation_membership".
Definition ProductionEntityWorkspaceMembership := "workspace_membership".
Definition ProductionEntityProduct := "product".
Definition ProductionEntityOrganisationEntitlement := "organisation_product_entitlement".
Definition ProductionEntityUserAssignment := "user_product_assignment".

Record ProductionSourceSnapshot := mkSnapshot { ss_Source : string; ss_SourceSHA256 : string; ss_ReportSHA256 : string }.
Record ProductionApproval := mkProductionApproval {
  pa_ApprovalID : string; pa_OperatorID : string; pa_ApprovedAt : string; pa_Reason : string; pa_Scope : string; pa_KeyID : string }.
Record ProductionExecution := mkExecution { ex_OperatorID : string; ex_ApprovalID : string; ex_KeyID : string }.
Record ImportHistory := mkHistory { ih_ActorUserID : string; ih_OccurredAt : string; ih_Reason : string }.
Record UserImportPayload := mkUserPayload {
  up_ID : string; up_Email : string; up_DisplayName : string; up_Active : bool; up_CreatedAt : string }.
Record OrganisationImportPayload := mkOrganisationPayload {
  op_ID : string; op_Name : string; op_Status : string; op_CreatedAt : string; op_ArchivedAt : option string; op_History : ImportHistory }.
Record WorkspaceImportPayload := mkWorkspacePayload {
  wp_ID : string; wp_OrganisationID : string; wp_Name : string; wp_Status : string; wp_CreatedAt : string;
  wp_ArchivedAt : option string; wp_History : ImportHistory }.
Record MembershipImportPayload := mkMembershipPayload {
  mp_ID : string; mp_OrganisationID : string; mp_WorkspaceID : string; mp_UserID : string; mp_Role : string; mp_Active : bool;
  mp_AssignedBy : string; mp_AssignedAt : string; mp_RemovedBy : string; mp_RemovedAt : option string; mp_RemovalReason : string }.
Record ProductImportPayload := mkProductPayload {
  pp_Key : string; pp_DisplayName : string; pp_Status : string; pp_CreatedAt : string; pp_RetiredAt : option string; pp_History : ImportHistory }.
Record EntitlementImportPayload := mkEntitlementPayload {
  ep_ID : string; ep_OrganisationID : string; ep_ProductKey : string; ep_Status : string; ep_GrantedBy : string; ep_GrantedAt : string;
  ep_RevokedBy : string; ep_RevokedAt : option string; ep_RevocationReason : string }.
Record AssignmentImportPayload := mkAssignmentPayload {
  as_ID : string; as_UserID : string; as_OrganisationID : string; as_ProductKey : string; as_Status : string; as_AssignedBy : string;
  as_AssignedAt : string; as_RevokedBy : string; as_RevokedAt : option string; as_RevocationReason : string }.
Record ProductionPayload := mkPayload {
  pl_User : option UserImportPayload; pl_Organisation : option OrganisationImportPayload;
  pl_Workspace : option WorkspaceImportPayload; pl_OrganisationMembership : option MembershipImportPayload;
  pl_WorkspaceMembership : option MembershipImportPayload; pl_Product : option ProductImportPayload;
  pl_OrganisationEntitlement : option EntitlementImportPayload; pl_UserAssignment : option AssignmentImportPayload }.
Record ProductionManifestRecord := mkProductionRecord {
  rr_Entity : string; rr_PlatformID : string; rr_MatchKeySHA256 : string; rr_SourceRefs : list SourceRef;
  rr_CreatePolicy : string; rr_Payload : ProductionPayload }.
Record ProductionManifest := mkProduction {
  pm_SchemaVersion : Z; pm_ManifestType : string; pm_Scope : string; pm_ManifestID : string; pm_SourceReportSHA256 : string;
  pm_SourceSnapshots : list ProductionSourceSnapshot; pm_Records : list ProductionManifestRecord; pm_Approval : option ProductionApproval }.
Record SignedProductionManifest := mkSignedProduction { sp_Manifest : ProductionManifest; sp_Algorithm : string; sp_Signature : string }.
Record ProductionImportReceipt := mkReceipt {
  re_ManifestID : string; re_ManifestSHA256 : string; re_SourceReportSHA256 : string; re_OperatorID : string; re_ApprovalID : string;
  re_KeyID : string; re_Status : string; re_NextIndex : Z; re_Applied : Z; re_Skipped : Z; re_Created : Z; re_Reconciled : Z;
  re_Conflicts : Z; re_OccurredAt : string }.
Definition ProductionImportPaused := "paused".
Definition ProductionImportCompleted := "completed".
Definition ProductionImportIdempotent := "idempotent".
Definition ProductionImportRolledBack := "rolled_back".
Definition ProductionImportDryRun := "dry_run".

(** ** The JSON of a manifest *)
(** [omitempty] on a pointer *)
Definition pointer {A} (k : string) (get : A -> json) (v : option A) : list (string * json) :=
  match v with Some a => [(k, get a)] | None => [] end.
Definition history_json (h : ImportHistory) : json :=
  JObject (optional "actor_user_id" (ih_ActorUserID h)
           ++ [jstring "occurred_at" (ih_OccurredAt h); jstring "reason" (ih_Reason h)])%list.
Definition user_payload_json (p : UserImportPayload) : json :=
  JObject [jstring "id" (up_ID p); jstring "email" (up_Email p); jstring "display_name" (up_DisplayName p);
           ("active", JBool (up_Active p)); jstring "created_at" (up_CreatedAt p)].
Definition organisation_payload_json (p : OrganisationImportPayload) : json :=
  JObject ([jstring "id" (op_ID p); jstring "name" (op_Name p); jstring "status" (op_Status p); jstring "created_at" (op_CreatedAt p)]
           ++ pointer "archived_at" JString (op_ArchivedAt p) ++ [("history", history_json (op_History p))])%list.
Definition workspace_payload_json (p : WorkspaceImportPayload) : json :=
  JObject ([jstring "id" (wp_ID p); jstring "organisation_id" (wp_OrganisationID p); jstring "name" (wp_Name p);
            jstring "status" (wp_Status p); jstring "created_at" (wp_CreatedAt p)]
           ++ pointer "archived_at" JString (wp_ArchivedAt p) ++ [("history", history_json (wp_History p))])%list.
Definition membership_payload_json (p : MembershipImportPayload) : json :=
  JObject ([jstring "id" (mp_ID p)] ++ optional "organisation_id" (mp_OrganisationID p)
           ++ optional "workspace_id" (mp_WorkspaceID p)
           ++ [jstring "user_id" (mp_UserID p); jstring "role" (mp_Role p); ("active", JBool (mp_Active p));
               jstring "assigned_by" (mp_AssignedBy p); jstring "assigned_at" (mp_AssignedAt p)]
           ++ optional "removed_by" (mp_RemovedBy p) ++ pointer "removed_at" JString (mp_RemovedAt p)
           ++ optional "removal_reason" (mp_RemovalReason p))%list.
Definition product_payload_json (p : ProductImportPayload) : json :=
  JObject ([jstring "key" (pp_Key p); jstring "display_name" (pp_DisplayName p); jstring "status" (pp_Status p);
            jstring "created_at" (pp_CreatedAt p)]
           ++ pointer "retired_at" JString (pp_RetiredAt p) ++ [("history", history_json (pp_History p))])%list.
Definition revocation_json (by_ : string) (at_ : option string) (reason : string) : list (string * json) :=
  (optional "revoked_by" by_ ++ pointer "revoked_at" JString at_ ++ optional "revocation_reason" reason)%list.
Definition entitlement_payload_json (p : EntitlementImportPayload) : json :=
  JObject ([jstring "id" (ep_ID p); jstring "organisation_id" (ep_OrganisationID p); jstring "product_key" (ep_ProductKey p);
            jstring "status" (ep_Status p); jstring "granted_by" (ep_GrantedBy p); jstring "granted_at" (ep_GrantedAt p)]
           ++ revocation_json (ep_RevokedBy p) (ep_RevokedAt p) (ep_RevocationReason p))%list.
Definition assignment_payload_json (p : AssignmentImportPayload) : json :=
  JObject ([jstring "id" (as_ID p); jstring "user_id" (as_UserID p); jstring "organisation_id" (as_OrganisationID p);
            jstring "product_key" (as_ProductKey p); jstring "status" (as_Status p); jstring "assigned_by" (as_AssignedBy p);
            jstring "assigned_at" (as_AssignedAt p)]
           ++ revocation_json (as_RevokedBy p) (as_RevokedAt p) (as_RevocationReason p))%list.
Definition payload_json (p : ProductionPayload) : json :=
  JObject (pointer "user" user_payload_json (pl_User p) ++ pointer "organisation" organisation_payload_json (pl_Organisation p)
           ++ pointer "workspace" workspace_payload_json (pl_Workspace p)
           ++ pointer "organisation_membership" membership_payload_json (pl_OrganisationMembership p)
           ++ pointer "workspace_membership" membership_payload_json (pl_WorkspaceMembership p)
           ++ pointer "product" product_payload_json (pl_Product p)
           ++ pointer "organisation_entitlement" entitlement_payload_json (pl_OrganisationEntitlement p)
           ++ pointer "user_assignment" assignment_payload_json (pl_UserAssignment p))%list.
(** A nil slice is [null]; the validation refuses an empty one. *)
Definition refs_json (refs : list SourceRef) : json := match refs with [] => JNull | _ => JArray (map ref_json refs) end.
Definition production_record_json (r : ProductionManifestRecord) : json :=
  JObject [jstring "entity" (rr_Entity r); jstring "platform_id" (rr_PlatformID r); jstring "match_key_sha256" (rr_MatchKeySHA256 r);
           ("source_refs", refs_json (rr_SourceRefs r)); jstring "create_policy" (rr_CreatePolicy r);
           ("payload", payload_json (rr_Payload r))].
Definition snapshot_json (s : ProductionSourceSnapshot) : json :=
  JObject [jstring "source" (ss_Source s); jstring "source_sha256" (ss_SourceSHA256 s); jstring "report_sha256" (ss_ReportSHA256 s)].
Definition production_approval_json (a : ProductionApproval) : json :=
  JObject [jstring "approval_id" (pa_ApprovalID a); jstring "operator_id" (pa_OperatorID a); jstring "approved_at" (pa_ApprovedAt a);
           jstring "reason" (pa_Reason a); jstring "scope" (pa_Scope a); jstring "key_id" (pa_KeyID a)].
Definition production_json (m : ProductionManifest) : json :=
  JObject ([jnumber "schema_version" (pm_SchemaVersion m); jstring "manifest_type" (pm_ManifestType m); jstring "scope" (pm_Scope m);
            jstring "manifest_id" (pm_ManifestID m); jstring "source_report_sha256" (pm_SourceReportSHA256 m);
            ("source_snapshots", JArray (map snapshot_json (pm_SourceSnapshots m)));
            ("records", JArray (map production_record_json (pm_Records m)))]
           ++ pointer "approval" production_approval_json (pm_Approval m))%list.
Definition receipt_json (r : ProductionImportReceipt) : json :=
  JObject [jstring "manifest_id" (re_ManifestID r); jstring "manifest_sha256" (re_ManifestSHA256 r);
           jstring "source_report_sha256" (re_SourceReportSHA256 r); jstring "operator_id" (re_OperatorID r);
           jstring "approval_id" (re_ApprovalID r); jstring "key_id" (re_KeyID r); jstring "status" (re_Status r);
           jnumber "next_index" (re_NextIndex r); jnumber "applied" (re_Applied r); jnumber "skipped" (re_Skipped r);
           jnumber "created" (re_Created r); jnumber "reconciled" (re_Reconciled r); jnumber "conflicts" (re_Conflicts r);
           jstring "occurred_at" (re_OccurredAt r)].

(** ** Validation *)
Definition isSourceDigest (value : string) : bool := isSourceSHA value || isSHA256Hex value.
Definition payload_given (entity : string) (p : ProductionPayload) : bool :=
  if entity =s ProductionEntityUser then bool_decide (is_Some (pl_User p))
  else if entity =s ProductionEntityOrganisation then bool_decide (is_Some (pl_Organisation p))
  else if entity =s ProductionEntityWorkspace then bool_decide (is_Some (pl_Workspace p))
  else if entity =s ProductionEntityOrganisationMembership then bool_decide (is_Some (pl_OrganisationMembership p))
  else if entity =s ProductionEntityWorkspaceMembership then bool_decide (is_Some (pl_WorkspaceMembership p))
  else if entity =s ProductionEntityProduct then bool_decide (is_Some (pl_Product p))
  else if entity =s ProductionEntityOrganisationEntitlement then bool_decide (is_Some (pl_OrganisationEntitlement p))
  else if entity =s ProductionEntityUserAssignment then bool_decide (is_Some (pl_UserAssignment p))
  else false.
Definition validProductionRecord (r : ProductionManifestRecord) : bool :=
  one_of (TrimSpace (rr_CreatePolicy r)) ["create_or_reconcile"; "reconcile_only"] && payload_given (rr_Entity r) (rr_Payload r).
Fixpoint rank_in (kind : string) (i : Z) (l : list string) : Z :=
  match l with [] => 999 | allowed :: l => if kind =s allowed then i else rank_in kind (i + 1) l end.
Definition productionRecordRank (kind : string) : Z :=
  rank_in kind 0 [ProductionEntityUser; ProductionEntityOrganisation; ProductionEntityWorkspace;
    ProductionEntityOrganisationMembership; ProductionEntityWorkspaceMembership; ProductionEntityProduct;
    ProductionEntityOrganisationEntitlement; ProductionEntityUserAssignment].
Definition productionRecordLess (left right : ProductionManifestRecord) : bool :=
  let l := productionRecordRank (rr_Entity left) in
  let r := productionRecordRank (rr_Entity right) in
  if negb (l =? r) then l <? r else text_lt (rr_PlatformID left) (rr_PlatformID right).
Definition SortProductionRecords (records : list ProductionManifestRecord) : list ProductionManifestRecord :=
  sort_by productionRecordLess records.

(** The loops over the snapshots and over the records. *)
Fixpoint snapshots_ok (report : string) (seen : list string) (l : list ProductionSourceSnapshot) : bool :=
  match l with
  | [] => true
  | s :: l =>
      known_source (ss_Source s) && isSourceDigest (ss_SourceSHA256 s) && isSHA256Hex (ss_ReportSHA256 s)
      && (ss_ReportSHA256 s =s report) && negb (one_of (ss_Source s) seen) && snapshots_ok report (ss_Source s :: seen) l
  end.
Fixpoint production_records_ok (sources seen : list string) (previous : option ProductionManifestRecord)
    (l : list ProductionManifestRecord) : bool :=
  match l with
  | [] => true
  | r :: l =>
      validProductionRecord r && negb (rr_PlatformID r =s "") && isSHA256Hex (rr_MatchKeySHA256 r)
      && negb (Nat.eqb (List.length (rr_SourceRefs r)) 0)
      && negb (match previous with Some p => productionRecordLess r p | None => false end)
      && negb (one_of (rr_PlatformID r) seen)
      && forallb (fun ref => ref_ok ref && one_of (ref_Source ref) sources) (rr_SourceRefs r)
      && production_records_ok sources (rr_PlatformID r :: seen) (Some r) l
  end.

Section Production.
Context `{Crypto}.

Definition unsigned (m : ProductionManifest) : ProductionManifest :=
  mkProduction (pm_SchemaVersion m) (pm_ManifestType m) (pm_Scope m) "" (pm_SourceReportSHA256 m) (pm_SourceSnapshots m) (pm_Records m) None.
Definition productionManifestIdentity (m : ProductionManifest) : string := digestBytes (encode_json (production_json (unsigned m))).
Definition ProductionManifestID := productionManifestIdentity.
Definition ProductionManifestDigest (m : ProductionManifest) : string := digestBytes (encode_json (production_json m)).

Definition ValidateProductionManifest (m : ProductionManifest) : res unit :=
  if negb (pm_SchemaVersion m =? ProductionSchemaVersion) || negb (pm_ManifestType m =s ProductionManifestType)
     || negb (pm_Scope m =s ProductionScope) || negb (isSHA256Hex (pm_ManifestID m)) || negb (isSHA256Hex (pm_SourceReportSHA256 m))
     || Nat.eqb (List.length (pm_Records m)) 0 || Nat.eqb (List.length (pm_SourceSnapshots m)) 0
  then Err (Sentinel ErrProductionManifestIntegrity)
  else if negb (pm_ManifestID m =s productionManifestIdentity m) then Err (Sentinel ErrProductionManifestIntegrity)
  else match pm_Approval m with
  | None => Err (Sentinel ErrProductionApprovalRequired)
  | Some a =>
      if negb (pa_Scope a =s ProductionScope) || (TrimSpace (pa_ApprovalID a) =s "") || (TrimSpace (pa_OperatorID a) =s "")
         || (TrimSpace (pa_Reason a) =s "") || (TrimSpace (pa_KeyID a) =s "") then Err (Sentinel ErrProductionApprovalRequired)
      else match Parse (pa_ApprovedAt a) with
      | None => Err (Sentinel ErrProductionApprovalRequired)
      | Some _ =>
          if negb (snapshots_ok (pm_SourceReportSHA256 m) [] (pm_SourceSnapshots m)) then Err (Sentinel ErrProductionManifestIntegrity)
          else if production_records_ok (map ss_Source (pm_SourceSnapshots m)) [] None (pm_Records m) then Ok tt
          else Err (Sentinel ErrProductionRecord)
      end
  end.
Definition ValidateProductionExecution (m : ProductionManifest) (e : ProductionExecution) : res unit :=
  match pm_Approval m with
  | None => Err (Sentinel ErrProductionExecution)
  | Some a =>
      if (TrimSpace (ex_OperatorID e) =s "") || (TrimSpace (ex_ApprovalID e) =s "") || (TrimSpace (ex_KeyID e) =s "")
         || negb (ex_OperatorID e =s pa_OperatorID a) || negb (ex_ApprovalID e =s pa_ApprovalID a) || negb (ex_KeyID e =s pa_KeyID a)
      then Err (Sentinel ErrProductionExecution) else Ok tt
  end.
Definition NewProductionManifest (reportSHA : string) (snapshots : list ProductionSourceSnapshot)
    (records : list ProductionManifestRecord) (approval : ProductionApproval) : res ProductionManifest :=
  let m := mkProduction ProductionSchemaVersion ProductionManifestType ProductionScope "" (TrimSpace reportSHA) snapshots
             (SortProductionRecords records) (Some approval) in
  let m := mkProduction (pm_SchemaVersion m) (pm_ManifestType m) (pm_Scope m) (productionManifestIdentity m)
             (pm_SourceReportSHA256 m) (pm_SourceSnapshots m) (pm_Records m) (pm_Approval m) in
  let? _ := ValidateProductionManifest m in Ok m.

Definition SignProductionManifest `{Ed25519} (m : ProductionManifest) (privateKey : string) : res SignedProductionManifest :=
  if negb (len privateKey =? 64) then Err (Sentinel ErrProductionSignature) else
  let? _ := ValidateProductionManifest m in
  Ok (mkSignedProduction m "Ed25519" (b64_encode (ed_sign privateKey (encode_json (production_json m))))).
Definition VerifySignedProductionManifest `{Ed25519} (signed : SignedProductionManifest) (publicKey : string) : res unit :=
  if negb (len publicKey =? 32) || negb (sp_Algorithm signed =s "Ed25519") then Err (Sentinel ErrProductionSignature) else
  let? _ := ValidateProductionManifest (sp_Manifest signed) in
  match b64_decode (sp_Signature signed) with
  | Some signature =>
      if ed_verify publicKey (encode_json (production_json (sp_Manifest signed))) signature then Ok tt
      else Err (Sentinel ErrProductionSignature)
  | None => Err (Sentinel ErrProductionSignature)
  end.
End Production.

(** ** Lemmas *)
Lemma productionRecordLess_asym a b : productionRecordLess a b = true -> productionRecordLess b a = false.
Proof.
  unfold productionRecordLess. destruct (Z.eqb_spec (productionRecordRank (rr_Entity a)) (productionRecordRank (rr_Entity b))) as [->|Hn]; cbn [negb].
  - rewrite Z.eqb_refl. cbn [negb]. apply text_lt_asym.
  - rewrite (proj2 (Z.eqb_neq _ _) (not_eq_sym Hn)). cbn [negb]. intros ?%Z.ltb_lt. apply Z.ltb_ge. lia.
Qed.
Lemma productionRecordLess_false a b : productionRecordLess b a = false ->
  productionRecordRank (rr_Entity a) < productionRecordRank (rr_Entity b)
  \/ productionRecordRank (rr_Entity a) = productionRecordRank (rr_Entity b) /\ text_lt (rr_PlatformID b) (rr_PlatformID a) = false.
Proof.
  unfold productionRecordLess. destruct (Z.eqb_spec (productionRecordRank (rr_Entity b)) (productionRecordRank (rr_Entity a))) as [E|Hn]; cbn [negb].
  - right. by split.
  - intros ?%Z.ltb_ge. left. lia.
Qed.
Lemma productionRecordLess_trans a b c : productionRecordLess b a = false -> productionRecordLess c b = false -> productionRecordLess c a = false.
Proof.
  intros Hab%productionRecordLess_false Hbc%productionRecordLess_false. unfold productionRecordLess.
  destruct (Z.eqb_spec (productionRecordRank (rr_Entity c)) (productionRecordRank (rr_Entity a))) as [E|Hn]; cbn [negb]; [|apply Z.ltb_ge; lia].
  destruct Hab as [?|[? Hab]], Hbc as [?|[? Hbc]]; try lia. by eapply text_ge_trans.
Qed.
Lemma productionRecordLess_total a b : productionRecordLess a b = false -> productionRecordLess b a = false -> rr_PlatformID a = rr_PlatformID b.
Proof.
  intros Hab%productionRecordLess_false Hba%productionRecordLess_false.
  destruct Hab as [?|[? Hab]], Hba as [?|[? Hba]]; try lia. by apply text_lt_total.
Qed.
Lemma production_sorted l : StronglySorted (fun a b => productionRecordLess b a = false) (SortProductionRecords l).
Proof. apply sort_by_sorted; [apply productionRecordLess_asym|apply productionRecordLess_trans]. Qed.
Lemma production_records_distinct sources seen previous l : production_records_ok sources seen previous l = true ->
  NoDup (map rr_PlatformID l) /\ (forall r, In r l -> ~ In (rr_PlatformID r) seen).
Proof.
  revert seen previous. induction l as [|r l IH]; intros seen previous Hl; [split; [constructor|done]|]. cbn [production_records_ok] in Hl. bool_hyps.
  match goal with Hr : production_records_ok _ _ _ l = true |- _ => destruct (IH _ _ Hr) as [Hd Hs] end.
  assert (~ In (rr_PlatformID r) seen) as Hn by (intros Hin%one_of_In; congruence). split.
  - cbn [map]. apply NoDup_cons. split; [|done]. rewrite list_elem_of_In. intros (x & Hx & Hin)%in_map_iff. apply (Hs x Hin). left. congruence.
  - intros x [<-|Hx]; [done|]. intros Hin. apply (Hs x Hx). by right.
Qed.
(** Records with distinct identifiers have one order. *)
Lemma production_sort_perm l l' : NoDup (map rr_PlatformID l) -> l ≡ₚ l' -> SortProductionRecords l' = SortProductionRecords l.
Proof.
  intros Hnd Hp. apply (StronglySorted_unique_strong (fun a b => productionRecordLess b a = false)); try apply production_sorted.
  - intros a b Ha Hb Hab Hba. unfold SortProductionRecords in Ha, Hb. rewrite sort_by_Permutation in Ha, Hb. rewrite <-Hp in Ha.
    apply (NoDup_map_inj_in rr_PlatformID l); [done|by apply list_elem_of_In|by apply list_elem_of_In|]. apply productionRecordLess_total; done.
  - unfold SortProductionRecords. by rewrite !sort_by_Permutation.
Qed.

Section Roundtrip.
Context `{Crypto} `{Ed25519} {ed_laws : Ed25519Laws}.

Lemma validated m : ValidateProductionManifest m = Ok tt ->
  (exists a, pm_Approval m = Some a /\ TrimSpace (pa_OperatorID a) <> "" /\ TrimSpace (pa_ApprovalID a) <> "" /\ TrimSpace (pa_KeyID a) <> "")
  /\ NoDup (map rr_PlatformID (pm_Records m)).
Proof.
  unfold ValidateProductionManifest. destruct (_ || _); [done|]. destruct (negb _); [done|].
  destruct (pm_Approval m) as [a|]; [|done]. destruct (_ || _) eqn:Eo; [done|]. destruct (Parse _); [|done].
  destruct (negb (snapshots_ok _ _ _)); [done|]. destruct (production_records_ok _ _ _ _) eqn:Er; [|done]. intros _. bool_hyps.
  split; [exists a; split; [done|]; split_and!; by apply String.eqb_neq|]. exact (proj1 (production_records_distinct _ _ _ _ Er)).
Qed.
Lemma NewProductionManifest_Ok reportSHA snapshots records approval m :
  NewProductionManifest reportSHA snapshots records approval = Ok m ->
  ValidateProductionManifest m = Ok tt /\ pm_Records m = SortProductionRecords records /\ pm_Approval m = Some approval.
Proof.
  unfold NewProductionManifest. match goal with |- context [ValidateProductionManifest ?x] => set (m' := x) end.
  destruct (ValidateProductionManifest m') as [[]|] eqn:E; [|done]. intros [= <-]. done.
Qed.
Lemma signed_verifies m privateKey signed : SignProductionManifest m privateKey = Ok signed ->
  signed = mkSignedProduction m "Ed25519" (b64_encode (ed_sign privateKey (encode_json (production_json m))))
  /\ VerifySignedProductionManifest signed (ed_public privateKey) = Ok tt.
Proof using ed_laws.
  unfold SignProductionManifest. destruct (negb (len privateKey =? 64)); [done|].
  destruct (ValidateProductionManifest m) as [[]|] eqn:Hv; [|done]. intros [= <-]. split; [done|].
  unfold VerifySignedProductionManifest. rewrite (ed_public_length privateKey).
  cbn [negb orb sp_Manifest sp_Algorithm sp_Signature Z.eqb Pos.eqb String.eqb Ascii.eqb Bool.eqb].
  by rewrite Hv, b64_decode_encode, ed_verify_sign.
Qed.
(** C18: a production manifest that can be built can be signed, and verifies under the
    matching public key for exactly the execution its approval names; its records are
    the given ones sorted by dependency rank and identifier, with distinct identifiers,
    and giving the same records in another order builds the same manifest. *)
Theorem production_roundtrip reportSHA snapshots records approval m privateKey :
  NewProductionManifest reportSHA snapshots records approval = Ok m -> len privateKey = 64 ->
  (exists signed, SignProductionManifest m privateKey = Ok signed /\ sp_Manifest signed = m
     /\ VerifySignedProductionManifest signed (ed_public privateKey) = Ok tt)
  /\ (forall e, ValidateProductionExecution m e = Ok tt <-> e = mkExecution (pa_OperatorID approval) (pa_ApprovalID approval) (pa_KeyID approval))
  /\ pm_Records m ≡ₚ records /\ NoDup (map rr_PlatformID records)
  /\ StronglySorted (fun a b => productionRecordLess b a = false) (pm_Records m)
  /\ (forall records', records ≡ₚ records' -> NewProductionManifest reportSHA snapshots records' approval = Ok m).
Proof using ed_laws.
  intros Hm Hk. destruct (NewProductionManifest_Ok _ _ _ _ _ Hm) as (Hv & Hrec & Hap).
  destruct (validated m Hv) as [(a & Ha & Ho & Hi & Hkey) Hnd]. rewrite Hap in Ha. injection Ha as <-.
  assert (pm_Records m ≡ₚ records) as Hp by (rewrite Hrec; apply sort_by_Permutation).
  assert (NoDup (map rr_PlatformID records)) as Hnd' by (by rewrite <-(Permutation_map rr_PlatformID Hp)).
  split_and!; [| |done|done|rewrite Hrec; apply production_sorted|].
  - exists (mkSignedProduction m "Ed25519" (b64_encode (ed_sign privateKey (encode_json (production_json m))))).
    assert (SignProductionManifest m privateKey = Ok (mkSignedProduction m "Ed25519" (b64_encode (ed_sign privateKey (encode_json (production_json m))))))
      as Hs by (unfold SignProductionManifest; by rewrite Hk, Hv).
    split_and!; [done|done|]. by destruct (signed_verifies _ _ _ Hs) as [_ ?].
  - intros [eo ea ek]. unfold ValidateProductionExecution. rewrite Hap. cbn [ex_OperatorID ex_ApprovalID ex_KeyID]. split.
    + destruct (_ || _) eqn:Eo; [done|]. bool_hyps. intros _.
      repeat match goal with E : (_ =s _) = true |- _ => apply String.eqb_eq in E end. congruence.
    + intros [= -> -> ->]. apply String.eqb_neq in Ho, Hi, Hkey. by rewrite Ho, Hi, Hkey, !String.eqb_refl.
  - intros records' Hp'. unfold NewProductionManifest in *. by rewrite (production_sort_perm records records').
Qed.
End Roundtrip.

(** ** A concrete manifest *)
Module Plan.
#[export] Existing Instances ascii_tables toy_crypto toy_crypto_laws Assertion.Sample.toy_ed25519 Assertion.Sample.toy_laws.
Definition day := "2026-01-01T00:00:00Z".
Definition sha := hex_encode (fit 32 "report").
Definition history := mkHistory "usr_1" day "migration".
Definition no_payload := mkPayload None None None None None None None None.
Definition refs := [mkSourceRef SourceCTRL (hex_encode (fit 20 "v1")) "1"].
Definition user (policy : string) : ProductionManifestRecord :=
  mkProductionRecord ProductionEntityUser "usr_1" sha refs policy
    (mkPayload (Some (mkUserPayload "usr_1" "a@example.com" "Ann" true day)) None None None None None None None).
Definition organisation : ProductionManifestRecord :=
  mkProductionRecord ProductionEntityOrganisation "org_1" sha refs "create_or_reconcile"
    (mkPayload None (Some (mkOrganisationPayload "org_1" "Acme" "active" day None history)) None None None None None None).
Definition product : ProductionManifestRecord :=
  mkProductionRecord ProductionEntityProduct "product.demo" sha refs "create_or_reconcile"
    (mkPayload None None None None None (Some (mkProductPayload "product.demo" "Demo" "active" day None history)) None None).
Definition approval := mkProductionApproval "apr_1" "ops" day "migration" ProductionScope "key-1".
Definition execution := mkExecution "ops" "apr_1" "key-1".
Definition private : string := Assertion.Sample.sk.
Definition public : string := ed_public private.
Definition snapshots := [mkSnapshot SourceCTRL sha sha].
Definition records := [product; organisation; user "create_or_reconcile"].
Definition built := let? m := NewProductionManifest sha snapshots records approval in
  SignProductionManifest m private.
Definition manifest : ProductionManifest := Eval vm_compute in
  match NewProductionManifest sha snapshots records approval with Ok m => m | Err _ => mkProduction 0 "" "" "" "" [] [] None end.
End Plan.
#[local] Existing Instances ascii_tables toy_crypto toy_crypto_laws Assertion.Sample.toy_ed25519 Assertion.Sample.toy_laws.
Lemma production_roundtrip_witness :
  (exists signed, sp_Manifest signed = Plan.manifest /\ VerifySignedProductionManifest signed Plan.public = Ok tt)
  /\ map rr_PlatformID (pm_Records Plan.manifest) = ["usr_1"; "org_1"; "product.demo"]
  /\ ValidateProductionExecution Plan.manifest Plan.execution = Ok tt.
Proof.
  destruct (production_roundtrip Plan.sha Plan.snapshots Plan.records Plan.approval Plan.manifest Plan.private)
    as ((signed & _ & Hs & Hv) & He & _).
  - vm_compute. reflexivity.
  - vm_compute. reflexivity.
  - split; [exists signed; split; [exact Hs|exact Hv]|]. split; [reflexivity|]. apply He. reflexivity.
Defined.

(** A record may carry payloads of other entities beside its own: only its own is looked at. *)
Example several_payloads :
  let r := Plan.user "create_or_reconcile" in
  validProductionRecord (mkProductionRecord (rr_Entity r) (rr_PlatformID r) (rr_MatchKeySHA256 r) (rr_SourceRefs r) (rr_CreatePolicy r)
    (mkPayload (pl_User (rr_Payload r)) (pl_Organisation (rr_Payload Plan.organisation)) None None None None None None)) = true.
Proof. reflexivity. Qed.
