(* ===== verification/Import.v ===== *)
(** internal/db/sqlite/platform_import.go and internal/store/production_import.go:
    the production import. Every record is applied in a transaction of its own
    together with the checkpoint of the run, so an operation is a sequence of
    transactions on the store: what was committed before an error stays.

    The three tables of the import are kept beside the other tables; their rowids
    are not used. [DELETE] checks the foreign keys of the schema: it cascades to
    sessions, enrolments and recovery codes, clears the user of audit and security
    events and fails on any other reference. *)
From stdpp Require Import base tactics option list gmap strings.
From Stdlib Require Import ZArith Lia Ascii String.
From S2P Require Import Prelude GoStrings GoTime Codec Errors Domain Json Events Schema Outbox Auth Assertion Identity.
From S2P Require Import Organisation Workspace Product Reconciliation Fixture Production.

Local Open Scope string_scope.
Local Open Scope Z_scope.

(** ** The tables of the import *)
Record ImportRunRow := mkRunRow {
  ru_manifest_id : string; ru_manifest_digest : string; ru_contract_version : string; ru_source_report_sha256 : string;
  ru_source_snapshots_json : string; ru_approval_id : string; ru_operator_id : string; ru_key_id : string; ru_approved_at : string;
  ru_status : string; ru_next_index : Z; ru_applied_count : Z; ru_created_count : Z; ru_reconciled_count : Z; ru_conflict_count : Z;
  ru_checkpoint_mac : string; ru_created_at : string; ru_updated_at : string; ru_receipt_json : string }.
Record ImportRecordRow := mkImportRecordRow {
  ri_manifest_id : string; ri_record_order : Z; ri_entity_kind : string; ri_platform_id : string; ri_record_digest : string;
  ri_source_refs_json : string; ri_outcome : string; ri_created_by_import : bool; ri_compensated : bool; ri_applied_at : string }.
Record CompensationRow := mkCompensationRow {
  ci_manifest_id : string; ci_record_order : Z; ci_entity_kind : string; ci_platform_id : string; ci_status : string;
  ci_reason : string; ci_occurred_at : string }.
Record ImportStore := mkImportStore {
  im_db : DB; im_runs : list ImportRunRow; im_records : list ImportRecordRow; im_compensations : list CompensationRow }.
Definition set_im_db (d : DB) (s : ImportStore) : ImportStore := mkImportStore d (im_runs s) (im_records s) (im_compensations s).
Definition set_im_runs (t : list ImportRunRow) (s : ImportStore) : ImportStore := mkImportStore (im_db s) t (im_records s) (im_compensations s).
Definition set_im_records (t : list ImportRecordRow) (s : ImportStore) : ImportStore := mkImportStore (im_db s) (im_runs s) t (im_compensations s).
Definition set_im_compensations (t : list CompensationRow) (s : ImportStore) : ImportStore :=
  mkImportStore (im_db s) (im_runs s) (im_records s) t.

(** CHECK(length(trim(x))>0 AND length(x)<=max) and CHECK(length(x)>1 AND length(x)<=max) *)
Definition named (max : Z) (x : string) : bool := negb (sql_blank x) && (sql_length x <=? max).
Definition encoded (max : Z) (x : string) : bool := (1 <? sql_length x) && (sql_length x <=? max).
Definition run_check (r : ImportRunRow) : bool :=
  (sql_length (ru_manifest_id r) =? 64) && (sql_length (ru_manifest_digest r) =? 64)
  && (ru_contract_version r =s ProductionManifestType) && (sql_length (ru_source_report_sha256 r) =? 64)
  && encoded 4096 (ru_source_snapshots_json r) && named 200 (ru_approval_id r) && named 200 (ru_operator_id r) && named 200 (ru_key_id r)
  && one_of (ru_status r) ["running"; "paused"; "completed"; "rolled_back"]
  && (0 <=? ru_next_index r) && (0 <=? ru_applied_count r) && (0 <=? ru_created_count r) && (0 <=? ru_reconciled_count r)
  && (0 <=? ru_conflict_count r) && (sql_length (ru_checkpoint_mac r) =? 64) && encoded 8192 (ru_receipt_json r).
Definition runs_ok (t : list ImportRunRow) (r : ImportRunRow) : bool :=
  fresh (fun x => ru_manifest_id x =s ru_manifest_id r) t && run_check r.
Definition import_records_ok (t : list ImportRecordRow) (r : ImportRecordRow) : bool :=
  fresh (fun x => (ri_manifest_id x =s ri_manifest_id r) && (ri_record_order x =? ri_record_order r)) t
  && fresh (fun x => (ri_manifest_id x =s ri_manifest_id r) && (ri_platform_id x =s ri_platform_id r)) t
  && (0 <=? ri_record_order r) && named 100 (ri_entity_kind r) && named 200 (ri_platform_id r)
  && (sql_length (ri_record_digest r) =? 64) && encoded 4096 (ri_source_refs_json r)
  && one_of (ri_outcome r) ["created"; "reconciled"; "skipped"; "conflict"; "rolled_back"].
Definition compensations_ok (t : list CompensationRow) (r : CompensationRow) : bool :=
  fresh (fun x => (ci_manifest_id x =s ci_manifest_id r) && (ci_record_order x =? ci_record_order r)) t
  && one_of (ci_status r) ["compensated"; "skipped"; "blocked"] && (sql_length (ci_reason r) <=? 500).

Definition constraint_failed : error := Constraint "constraint failed".
(** A step of the other tables inside a transaction of the import. *)
Definition on_db {A} (m : St DB error A) : St ImportStore error A :=
  fun s => match m (im_db s) with Ok (a, d) => Ok (a, set_im_db d s) | Err e => Err e end.
Definition insert_in {R} (e : error) (get : ImportStore -> list R) (set : list R -> ImportStore -> ImportStore)
    (ok : list R -> R -> bool) (r : R) : St ImportStore error unit :=
  fun s => if ok (get s) r then Ok (tt, set (get s ++ [r])%list s) else Err e.
Definition of_manifest (manifestID : string) (r : ImportRunRow) : bool := ru_manifest_id r =s manifestID.
(** UPDATE platform_import_runs ... WHERE manifest_id=?, with the CHECKs of the new rows. *)
Definition update_run (e : error) (manifestID : string) (f : ImportRunRow -> ImportRunRow) : St ImportStore error unit :=
  fun s =>
    let t := update (of_manifest manifestID) f (im_runs s) in
    if forallb run_check (select (of_manifest manifestID) t) then Ok (tt, set_im_runs t s) else Err e.

(** ** Times and optional columns *)
Definition parseImportTime (value : string) : Z := parseTime (TrimSpace value).
Definition parseImportTimeValue (value : string) : res Z :=
  let parsed := parseImportTime value in
  if IsZero parsed then Err (Sentinel ErrProductionRecord) else Ok parsed.
(** A nullable text column, "" when NULL; and the same of a pointer. *)
Definition nullableValue (value : option string) : string := default "" value.
Definition optionalStringValue (value : option string) : string := default "" value.

(** ** Applying one record *)
Record productionImportOutcome := mkOutcome { oc_Outcome : string; oc_Created : bool; oc_CanonicalID : string }.
Definition created_ (id : string) : productionImportOutcome := mkOutcome "created" true id.
Definition reconciled_ (id : string) : productionImportOutcome := mkOutcome "reconciled" false id.
Definition import_record : error := Sentinel ErrProductionImportRecord.
Definition production_record : error := Sentinel ErrProductionRecord.
Definition reconcile_only (r : ProductionManifestRecord) : bool := rr_CreatePolicy r =s "reconcile_only".

Definition importActorTx (publicID : string) : St DB error Z :=
  if TrimSpace publicID =s "" then fail production_record else
  let! row := reads (fun db => active_user db (TrimSpace publicID)) in
  let! u := some_or row (Wrap "resolve import actor" NoRows) in
  ret (u_id u).
Definition optionalImportActorTx (publicID : string) : St DB error (option Z) :=
  if TrimSpace publicID =s "" then ret None else let! id := importActorTx publicID in ret (Some id).

Section Records.
Context `{UnicodeTables}.

(** A row found by its identifier must agree in every column. *)
Definition reconcile (agrees : bool) (id : string) : St DB error productionImportOutcome :=
  if agrees then ret (reconciled_ id) else fail import_record.

Definition applyImportedUserTx (record : ProductionManifestRecord) (rand : option string) : St DB error productionImportOutcome :=
  match pl_User (rr_Payload record) with
  | None => fail production_record
  | Some p =>
      if negb (up_ID p =s rr_PlatformID record) || negb (HasPrefix (up_ID p) "usr_") || (TrimSpace (up_Email p) =s "")
         || (TrimSpace (up_DisplayName p) =s "") then fail production_record else
      let! _ := lift (parseImportTimeValue (up_CreatedAt p)) in
      let! row := reads (fun db => find (has_public_id (up_ID p)) (users db)) in
      match row with
      | None =>
          if reconcile_only record then fail import_record else
          let! _ := within "create imported user" (insert_row users set_users users_ok (fun id =>
            mkUserRow id (up_ID p) (ToLower (TrimSpace (up_Email p))) (TrimSpace (up_DisplayName p)) DummyPasswordHash
              (up_Active p) (up_CreatedAt p) None false None (-1))) in
          let! _ := appendPlatformEventTx EventUserCreated (up_ID p) (parseImportTime (up_CreatedAt p))
            [("user_id", VString (up_ID p)); ("active", VBool (up_Active p))] rand in
          ret (created_ (up_ID p))
      | Some u =>
          reconcile ((u_email u =s ToLower (TrimSpace (up_Email p))) && (u_display_name u =s TrimSpace (up_DisplayName p))
                     && Bool.eqb (u_active u) (up_Active p) && (u_created_at u =s up_CreatedAt p)) (up_ID p)
      end
  end.

Definition applyImportedOrganisationTx (record : ProductionManifestRecord) (rand : option string) : St DB error productionImportOutcome :=
  match pl_Organisation (rr_Payload record) with
  | None => fail production_record
  | Some p =>
      if negb (op_ID p =s rr_PlatformID record) then fail production_record else
      let! _ := lift (parseImportTimeValue (op_CreatedAt p)) in
      let! row := reads (organisation_by_public_id (op_ID p)) in
      match row with
      | None =>
          if reconcile_only record then fail import_record else
          let! actor := importActorTx (ih_ActorUserID (op_History p)) in
          let! _ := insert_row organisations set_organisations organisations_ok (fun id =>
            mkOrganisationRow id (op_ID p) (TrimSpace (op_Name p)) (op_Status p) (op_CreatedAt p) (op_ArchivedAt p)) in
          let! _ := recordOrganisationAuditTx actor (op_ID p) eventOrganisationCreated
            (mkOMD (op_ID p) "" "" "" "" (ih_Reason (op_History p))) (parseImportTime (op_CreatedAt p)) rand in
          ret (created_ (op_ID p))
      | Some o =>
          reconcile ((o_name o =s op_Name p) && (o_status o =s op_Status p) && (o_created_at o =s op_CreatedAt p)
                     && (nullableValue (o_archived_at o) =s optionalStringValue (op_ArchivedAt p))) (op_ID p)
      end
  end.

Definition applyImportedWorkspaceTx (record : ProductionManifestRecord) (rand : option string) : St DB error productionImportOutcome :=
  match pl_Workspace (rr_Payload record) with
  | None => fail production_record
  | Some p =>
      if negb (wp_ID p =s rr_PlatformID record) then fail production_record else
      let! _ := lift (parseImportTimeValue (wp_CreatedAt p)) in
      let! row := reads (workspace_with_organisation (wp_ID p)) in
      match row with
      | None =>
          if reconcile_only record then fail import_record else
          let! actor := importActorTx (ih_ActorUserID (wp_History p)) in
          let! org := reads (organisation_by_public_id (wp_OrganisationID p)) in
          let! o := some_or org (Wrap "resolve imported workspace organisation" NoRows) in
          let! _ := insert_row workspaces set_workspaces workspaces_ok (fun id =>
            mkWorkspaceRow id (wp_ID p) (o_id o) (TrimSpace (wp_Name p)) (wp_Status p) (wp_CreatedAt p) (wp_ArchivedAt p)) in
          let! _ := recordWorkspaceAuditTx actor (wp_ID p) eventWorkspaceCreated
            (mkWMD (wp_ID p) "" "" "" (ih_Reason (wp_History p))) (parseImportTime (wp_CreatedAt p)) rand in
          ret (created_ (wp_ID p))
      | Some (w, o) =>
          reconcile ((o_public_id o =s wp_OrganisationID p) && (w_name w =s wp_Name p) && (w_status w =s wp_Status p)
                     && (w_created_at w =s wp_CreatedAt p)
                     && (nullableValue (w_archived_at w) =s optionalStringValue (wp_ArchivedAt p))) (wp_ID p)
      end
  end.

(** The joins that read a membership back: no row when the organisation (or
    workspace), the user or the assigning user is missing. *)
Definition removed_public_id (db : DB) (id : option Z) : string :=
  match id with Some id => user_public_id db id | None => "" end.
Definition membership_agrees (db : DB) (scope : string) (u a : UserRow) (p : MembershipImportPayload) (scopeID : string) (m : MembershipRow) : bool :=
  (scope =s scopeID) && (u_public_id u =s mp_UserID p) && (m_role m =s mp_Role p) && Bool.eqb (m_active m) (mp_Active p)
  && (u_public_id a =s mp_AssignedBy p) && (m_assigned_at m =s mp_AssignedAt p)
  && (removed_public_id db (m_removed_by m) =s TrimSpace (mp_RemovedBy p))
  && (default "" (m_removed_at m) =s optionalStringValue (mp_RemovedAt p)) && (m_removal_reason m =s mp_RemovalReason p).
(** [None]: no row; otherwise whether it agrees. *)
Definition membership_found (table : DB -> list MembershipRow) (scope_of : DB -> Z -> option string)
    (p : MembershipImportPayload) (scopeID : string) (db : DB) : option bool :=
  match find (fun m => m_public_id m =s mp_ID p) (table db) with
  | Some m =>
      match scope_of db (m_scope m), user_by_id db (m_user_id m), user_by_id db (m_assigned_by m) with
      | Some scope, Some u, Some a => Some (membership_agrees db scope u a p scopeID m)
      | _, _, _ => None
      end
  | None => None
  end.
Definition organisation_public_id (db : DB) (id : Z) : option string :=
  option_map o_public_id (find (fun o => o_id o =? id) (organisations db)).
Definition workspace_public_id (db : DB) (id : Z) : option string :=
  option_map w_public_id (find (fun w => w_id w =? id) (workspaces db)).
Definition imported_membership (p : MembershipImportPayload) (scope userID actor : Z) (remover : option Z) (id : Z) : MembershipRow :=
  mkMembershipRow id (mp_ID p) scope userID (mp_Role p) (mp_Active p) actor (mp_AssignedAt p) remover (mp_RemovedAt p) (mp_RemovalReason p) 1.

Definition applyImportedMembershipTx (record : ProductionManifestRecord) (p : MembershipImportPayload) (organisation : bool)
    (rand : option string) : St DB error productionImportOutcome :=
  if (TrimSpace (mp_AssignedBy p) =s "") || (TrimSpace (mp_AssignedAt p) =s "") || (TrimSpace (mp_Role p) =s "")
  then fail production_record else
  let! assignedTime := lift (parseImportTimeValue (mp_AssignedAt p)) in
  let! found := reads (fun db =>
    if organisation then membership_found organisation_memberships organisation_public_id p (mp_OrganisationID p) db
    else membership_found workspace_memberships workspace_public_id p (mp_WorkspaceID p) db) in
  match found with
  | Some agrees => reconcile agrees (mp_ID p)
  | None =>
      if reconcile_only record then fail import_record else
      let! assignedActor := importActorTx (mp_AssignedBy p) in
      let! removedActor := optionalImportActorTx (mp_RemovedBy p) in
      if organisation then
        let! org := reads (organisation_by_public_id (mp_OrganisationID p)) in let! o := some_or org NoRows in
        let! user := reads (fun db => find (has_public_id (mp_UserID p)) (users db)) in let! u := some_or user NoRows in
        let! _ := insert_row organisation_memberships set_organisation_memberships organisation_memberships_ok
          (imported_membership p (o_id o) (u_id u) assignedActor removedActor) in
        let eventName := if mp_Active p then eventMembershipAdded else eventMembershipDeactivated in
        let! _ := recordOrganisationAuditTx assignedActor (mp_OrganisationID p) eventName
          (mkOMD (mp_OrganisationID p) (mp_ID p) (mp_UserID p) (mp_Role p) "" (mp_RemovalReason p)) assignedTime rand in
        ret (created_ (mp_ID p))
      else
        let! wsp := reads (workspace_by_public_id (mp_WorkspaceID p)) in let! w := some_or wsp NoRows in
        let! user := reads (fun db => find (has_public_id (mp_UserID p)) (users db)) in let! u := some_or user NoRows in
        let! _ := insert_row workspace_memberships set_workspace_memberships workspace_memberships_ok
          (imported_membership p (w_id w) (u_id u) assignedActor removedActor) in
        let eventName := if mp_Active p then eventWorkspaceMembershipAdded else eventWorkspaceMemberRemoved in
        let! _ := recordWorkspaceAuditTx assignedActor (mp_WorkspaceID p) eventName
          (mkWMD (mp_WorkspaceID p) (mp_ID p) (mp_UserID p) (mp_Role p) (mp_RemovalReason p)) assignedTime rand in
        ret (created_ (mp_ID p))
  end.
Definition applyImportedOrganisationMembershipTx (record : ProductionManifestRecord) (rand : option string) : St DB error productionImportOutcome :=
  match pl_OrganisationMembership (rr_Payload record) with
  | None => fail production_record
  | Some p =>
      if negb (mp_ID p =s rr_PlatformID record) || (mp_OrganisationID p =s "") || (mp_UserID p =s "") then fail production_record
      else applyImportedMembershipTx record
             (mkMembershipPayload (mp_ID p) (mp_OrganisationID p) "" (mp_UserID p) (mp_Role p) (mp_Active p) (mp_AssignedBy p)
                (mp_AssignedAt p) (mp_RemovedBy p) (mp_RemovedAt p) (mp_RemovalReason p)) true rand
  end.
Definition applyImportedWorkspaceMembershipTx (record : ProductionManifestRecord) (rand : option string) : St DB error productionImportOutcome :=
  match pl_WorkspaceMembership (rr_Payload record) with
  | None => fail production_record
  | Some p =>
      if negb (mp_ID p =s rr_PlatformID record) || (mp_WorkspaceID p =s "") || (mp_UserID p =s "") then fail production_record
      else applyImportedMembershipTx record
             (mkMembershipPayload (mp_ID p) "" (mp_WorkspaceID p) (mp_UserID p) (mp_Role p) (mp_Active p) (mp_AssignedBy p)
                (mp_AssignedAt p) (mp_RemovedBy p) (mp_RemovedAt p) (mp_RemovalReason p)) false rand
  end.

Definition insert_product (r : ProductRow) : St DB error unit :=
  fun db => if products_ok (products db) r then Ok (tt, set_products (products db ++ [r])%list db) else Err constraint_failed.
Definition applyImportedProductTx (record : ProductionManifestRecord) (rand : option string) : St DB error productionImportOutcome :=
  match pl_Product (rr_Payload record) with
  | None => fail production_record
  | Some p =>
      if negb (pp_Key p =s rr_PlatformID record) then fail production_record else
      let! _ := lift (parseImportTimeValue (pp_CreatedAt p)) in
      let! row := reads (product_by_key (pp_Key p)) in
      match row with
      | None =>
          if reconcile_only record then fail import_record else
          let! actor := importActorTx (ih_ActorUserID (pp_History p)) in
          let! _ := insert_product (mkProductRow (pp_Key p) (pp_DisplayName p) (pp_Status p) (pp_CreatedAt p) (pp_RetiredAt p)) in
          let! _ := recordProductAuditTx actor (pp_Key p) eventProductCreated
            (mkPAD (pp_Key p) "" "" "" "" (pp_Status p) (ih_Reason (pp_History p))) (parseImportTime (pp_CreatedAt p)) rand in
          ret (created_ (pp_Key p))
      | Some r =>
          reconcile ((p_display_name r =s pp_DisplayName p) && (p_status r =s pp_Status p) && (p_created_at r =s pp_CreatedAt p)
                     && (nullableValue (p_retired_at r) =s optionalStringValue (pp_RetiredAt p))) (pp_Key p)
      end
  end.

(** REFERENCES products(product_key) *)
Definition product_exists (key : string) : St DB error unit :=
  let! row := reads (product_by_key key) in let! _ := some_or row constraint_failed in ret tt.
Definition entitlement_agrees (db : DB) (o : OrganisationRow) (g : UserRow) (p : EntitlementImportPayload) (e : EntitlementRow) : bool :=
  (o_public_id o =s ep_OrganisationID p) && (e_product_key e =s ep_ProductKey p) && (e_status e =s ep_Status p)
  && (u_public_id g =s ep_GrantedBy p) && (e_granted_at e =s ep_GrantedAt p)
  && (removed_public_id db (e_revoked_by e) =s ep_RevokedBy p)
  && (default "" (e_revoked_at e) =s optionalStringValue (ep_RevokedAt p)) && (e_revocation_reason e =s ep_RevocationReason p).
Definition applyImportedEntitlementTx (record : ProductionManifestRecord) (rand : option string) : St DB error productionImportOutcome :=
  match pl_OrganisationEntitlement (rr_Payload record) with
  | None => fail production_record
  | Some p =>
      if negb (ep_ID p =s rr_PlatformID record) then fail production_record else
      let! grantedAt := lift (parseImportTimeValue (ep_GrantedAt p)) in
      let! row := reads (fun db => find (fun e => e_public_id e =s ep_ID p) (entitlements db)) in
      match row with
      | Some e =>
          let! o := reads (fun db => find (fun o => o_id o =? e_organisation_id e) (organisations db)) in let! o := some_or o NoRows in
          let! g := reads (fun db => user_by_id db (e_granted_by e)) in let! g := some_or g NoRows in
          let! agrees := reads (fun db => entitlement_agrees db o g p e) in
          reconcile agrees (ep_ID p)
      | None =>
          if reconcile_only record then fail import_record else
          let! actor := importActorTx (ep_GrantedBy p) in
          let! removedActor := optionalImportActorTx (ep_RevokedBy p) in
          let! org := reads (organisation_by_public_id (ep_OrganisationID p)) in let! o := some_or org NoRows in
          let! _ := product_exists (ep_ProductKey p) in
          let! _ := insert_row entitlements set_entitlements entitlements_ok (fun id =>
            mkEntitlementRow id (ep_ID p) (o_id o) (ep_ProductKey p) (ep_Status p) actor (ep_GrantedAt p) removedActor
              (ep_RevokedAt p) (ep_RevocationReason p)) in
          let eventName := if ep_Status p =s "revoked" then eventEntitlementRevoked else eventEntitlementGranted in
          let! _ := recordOrganisationProductAuditTx actor (ep_OrganisationID p) eventName
            (mkPAD (ep_ProductKey p) (ep_OrganisationID p) "" (ep_ID p) "" (ep_Status p) (ep_RevocationReason p)) grantedAt rand in
          ret (created_ (ep_ID p))
      end
  end.

Definition assignment_agrees (db : DB) (u : UserRow) (o : OrganisationRow) (a : UserRow) (p : AssignmentImportPayload) (g : AssignmentRow) : bool :=
  (u_public_id u =s as_UserID p) && (o_public_id o =s as_OrganisationID p) && (g_product_key g =s as_ProductKey p)
  && (g_status g =s as_Status p) && (u_public_id a =s as_AssignedBy p) && (g_assigned_at g =s as_AssignedAt p)
  && (removed_public_id db (g_revoked_by g) =s as_RevokedBy p)
  && (default "" (g_revoked_at g) =s optionalStringValue (as_RevokedAt p)) && (g_revocation_reason g =s as_RevocationReason p).
Definition applyImportedAssignmentTx (record : ProductionManifestRecord) (rand : option string) : St DB error productionImportOutcome :=
  match pl_UserAssignment (rr_Payload record) with
  | None => fail production_record
  | Some p =>
      if negb (as_ID p =s rr_PlatformID record) then fail production_record else
      let! assignedAt := lift (parseImportTimeValue (as_AssignedAt p)) in
      let! row := reads (fun db => find (fun g => g_public_id g =s as_ID p) (assignments db)) in
      match row with
      | Some g =>
          let! u := reads (fun db => user_by_id db (g_user_id g)) in let! u := some_or u NoRows in
          let! o := reads (fun db => find (fun o => o_id o =? g_organisation_id g) (organisations db)) in let! o := some_or o NoRows in
          let! a := reads (fun db => user_by_id db (g_assigned_by g)) in let! a := some_or a NoRows in
          let! agrees := reads (fun db => assignment_agrees db u o a p g) in
          reconcile agrees (as_ID p)
      | None =>
          if reconcile_only record then fail import_record else
          let! actor := importActorTx (as_AssignedBy p) in
          let! removedActor := optionalImportActorTx (as_RevokedBy p) in
          let! user := reads (fun db => find (has_public_id (as_UserID p)) (users db)) in let! u := some_or user NoRows in
          let! org := reads (organisation_by_public_id (as_OrganisationID p)) in let! o := some_or org NoRows in
          let! _ := product_exists (as_ProductKey p) in
          let! _ := insert_row assignments set_assignments assignments_ok (fun id =>
            mkAssignmentRow id (as_ID p) (u_id u) (o_id o) (as_ProductKey p) (as_Status p) actor (as_AssignedAt p) removedActor
              (as_RevokedAt p) (as_RevocationReason p)) in
          let eventName := if as_Status p =s "revoked" then eventAssignmentRevoked else eventAssignmentGranted in
          let! _ := recordOrganisationProductAuditTx actor (as_OrganisationID p) eventName
            (mkPAD (as_ProductKey p) (as_OrganisationID p) (as_UserID p) "" (as_ID p) (as_Status p) (as_RevocationReason p)) assignedAt rand in
          ret (created_ (as_ID p))
      end
  end.

Definition applyProductionRecordTx (record : ProductionManifestRecord) (rand : option string) : St DB error productionImportOutcome :=
  let entity := rr_Entity record in
  if entity =s ProductionEntityUser then applyImportedUserTx record rand
  else if entity =s ProductionEntityOrganisation then applyImportedOrganisationTx record rand
  else if entity =s ProductionEntityWorkspace then applyImportedWorkspaceTx record rand
  else if entity =s ProductionEntityOrganisationMembership then applyImportedOrganisationMembershipTx record rand
  else if entity =s ProductionEntityWorkspaceMembership then applyImportedWorkspaceMembershipTx record rand
  else if entity =s ProductionEntityProduct then applyImportedProductTx record rand
  else if entity =s ProductionEntityOrganisationEntitlement then applyImportedEntitlementTx record rand
  else if entity =s ProductionEntityUserAssignment then applyImportedAssignmentTx record rand
  else fail production_record.
End Records.

(** ** Deleting an imported record *)
(** A reference by a foreign key without an action: [NO ACTION] refuses the deletion. *)
Definition refers (id : Z) (o : option Z) : bool := match o with Some x => x =? id | None => false end.
Definition member_refers (id : Z) (m : MembershipRow) : bool :=
  (m_user_id m =? id) || (m_assigned_by m =? id) || refers id (m_removed_by m).
Definition user_referenced (id : Z) (d : DB) : bool :=
  existsb (member_refers id) (organisation_memberships d) || existsb (member_refers id) (workspace_memberships d)
  || existsb (fun r => (sr_user_id r =? id) || (sr_assigned_by r =? id) || refers id (sr_revoked_by r)) (system_role_assignments d)
  || existsb (fun e => (e_granted_by e =? id) || refers id (e_revoked_by e)) (entitlements d)
  || existsb (fun g => (g_user_id g =? id) || (g_assigned_by g =? id) || refers id (g_revoked_by g)) (assignments d).
Definition organisation_referenced (id : Z) (d : DB) : bool :=
  existsb (fun m => m_scope m =? id) (organisation_memberships d) || existsb (fun w => w_organisation_id w =? id) (workspaces d)
  || existsb (fun e => e_organisation_id e =? id) (entitlements d) || existsb (fun g => g_organisation_id g =? id) (assignments d).
Definition workspace_referenced (id : Z) (d : DB) : bool := existsb (fun m => m_scope m =? id) (workspace_memberships d).
Definition product_referenced (key : string) (d : DB) : bool :=
  existsb (fun e => e_product_key e =s key) (entitlements d) || existsb (fun g => g_product_key g =s key) (assignments d).
(** ON DELETE CASCADE and ON DELETE SET NULL of the tables that refer to a user *)
Definition forget_actor (a : AuditRow) : AuditRow :=
  mkAuditRow (a_id a) None (a_actor_public_id a) (a_aggregate_type a) (a_aggregate_id a) (a_event a) (a_details a) (a_occurred_at a).
Definition forget_user (e : SecurityEventRow) : SecurityEventRow :=
  mkSecurityEventRow (se_id e) None (se_event e) (se_details e) (se_occurred_at e).
Definition cascade_user (u : UserRow) (d : DB) : DB :=
  let id := u_id u in
  set_sessions (delete_rows (fun s => s_user_id s =? id) (sessions d))
  (set_mfa_enrollments (delete_rows (fun e => en_user_id e =? id) (mfa_enrollments d))
  (set_mfa_recovery_codes (delete_rows (fun c => rc_user_id c =? id) (mfa_recovery_codes d))
  (set_security_events (update (fun e => refers id (se_user_id e)) forget_user (security_events d))
  (set_audit_events (update (fun a => refers id (a_actor_user_id a)) forget_actor (audit_events d)) d)))).

Definition rollback_blocked : error := Wrap "delete imported record" (Sentinel ErrProductionImportRollback).
(** DELETE ... WHERE p, when no foreign key refuses it; exactly one row must go. *)
Definition delete_one {R} (get : DB -> list R) (set : list R -> DB -> DB) (p : R -> bool) (referenced : R -> DB -> bool)
    (cascade : R -> DB -> DB) : St DB error unit :=
  fun d =>
    match select p (get d) with
    | [r] => if referenced r d then Err rollback_blocked else Ok (tt, set (delete_rows p (get d)) (cascade r d))
    | _ => Err rollback_blocked
    end.
Definition unreferenced {R} (r : R) (d : DB) : bool := false.
Definition no_cascade {R} (r : R) (d : DB) : DB := d.
Definition deleteImportedRecordTx (entity publicID : string) : St DB error unit :=
  if entity =s ProductionEntityUser then
    delete_one users set_users (has_public_id publicID) (fun u => user_referenced (u_id u)) cascade_user
  else if entity =s ProductionEntityOrganisation then
    delete_one organisations set_organisations (fun o => o_public_id o =s publicID) (fun o => organisation_referenced (o_id o)) no_cascade
  else if entity =s ProductionEntityWorkspace then
    delete_one workspaces set_workspaces (fun w => w_public_id w =s publicID) (fun w => workspace_referenced (w_id w)) no_cascade
  else if entity =s ProductionEntityOrganisationMembership then
    delete_one organisation_memberships set_organisation_memberships (fun m => m_public_id m =s publicID) unreferenced no_cascade
  else if entity =s ProductionEntityWorkspaceMembership then
    delete_one workspace_memberships set_workspace_memberships (fun m => m_public_id m =s publicID) unreferenced no_cascade
  else if entity =s ProductionEntityProduct then
    delete_one products set_products (fun p => p_key p =s publicID) (fun p => product_referenced (p_key p)) no_cascade
  else if entity =s ProductionEntityOrganisationEntitlement then
    delete_one entitlements set_entitlements (fun e => e_public_id e =s publicID) unreferenced no_cascade
  else if entity =s ProductionEntityUserAssignment then
    delete_one assignments set_assignments (fun g => g_public_id g =s publicID) unreferenced no_cascade
  else fail production_record.

(** ** The run *)
Record productionRunState := mkRunState {
  st_ManifestID : string; st_ManifestDigest : string; st_SourceReportSHA256 : string; st_ApprovalID : string; st_OperatorID : string;
  st_KeyID : string; st_ApprovedAt : string; st_Status : string; st_NextIndex : Z; st_Applied : Z; st_Skipped : Z; st_Created : Z;
  st_Reconciled : Z; st_Conflicts : Z; st_LastPlatformID : string; st_OccurredAt : string }.
Definition with_run_status (status occurredAt : string) (r : productionRunState) : productionRunState :=
  mkRunState (st_ManifestID r) (st_ManifestDigest r) (st_SourceReportSHA256 r) (st_ApprovalID r) (st_OperatorID r) (st_KeyID r)
    (st_ApprovedAt r) status (st_NextIndex r) (st_Applied r) (st_Skipped r) (st_Created r) (st_Reconciled r) (st_Conflicts r)
    (st_LastPlatformID r) occurredAt.
Definition with_skipped (skipped : Z) (r : productionRunState) : productionRunState :=
  mkRunState (st_ManifestID r) (st_ManifestDigest r) (st_SourceReportSHA256 r) (st_ApprovalID r) (st_OperatorID r) (st_KeyID r)
    (st_ApprovedAt r) (st_Status r) (st_NextIndex r) (st_Applied r) skipped (st_Created r) (st_Reconciled r) (st_Conflicts r)
    (st_LastPlatformID r) (st_OccurredAt r).
(** The columns of a run that are scanned. *)
Definition state_of_row (r : ImportRunRow) : productionRunState :=
  mkRunState (ru_manifest_id r) (ru_manifest_digest r) (ru_source_report_sha256 r) (ru_approval_id r) (ru_operator_id r) (ru_key_id r)
    (ru_approved_at r) (ru_status r) (ru_next_index r) (ru_applied_count r) 0 (ru_created_count r) (ru_reconciled_count r)
    (ru_conflict_count r) "" (ru_updated_at r).
Definition productionReceiptFromRun (run : productionRunState) (sourceReport : string) : ProductionImportReceipt :=
  mkReceipt (st_ManifestID run) (st_ManifestDigest run) sourceReport (st_OperatorID run) (st_ApprovalID run) (st_KeyID run)
    (st_Status run) (st_NextIndex run) (st_Applied run) (st_Skipped run) (st_Created run) (st_Reconciled run) (st_Conflicts run)
    (st_OccurredAt run).
Definition find_run (manifestID : string) (s : ImportStore) : option ImportRunRow := find (of_manifest manifestID) (im_runs s).
Definition ledger_of (manifestID : string) (s : ImportStore) : list ImportRecordRow :=
  select (fun r => ri_manifest_id r =s manifestID) (im_records s).

(** The identifiers a record needs, each with the text of the error when it is not
    among the identifiers up to the record's own. *)
Definition depends_on (r : ProductionManifestRecord) : option (list (string * string)) :=
  let entity := rr_Entity r in
  let p := rr_Payload r in
  if entity =s ProductionEntityWorkspace then
    option_map (fun p => [(wp_OrganisationID p, "workspace parent is not ordered before child")]) (pl_Workspace p)
  else if entity =s ProductionEntityOrganisationMembership then
    option_map (fun p => [(mp_OrganisationID p, "organisation membership parent is not ordered before child");
                          (mp_UserID p, "membership user is not ordered before child")]) (pl_OrganisationMembership p)
  else if entity =s ProductionEntityWorkspaceMembership then
    option_map (fun p => [(mp_WorkspaceID p, "workspace membership parent is not ordered before child");
                          (mp_UserID p, "membership user is not ordered before child")]) (pl_WorkspaceMembership p)
  else if entity =s ProductionEntityOrganisationEntitlement then
    option_map (fun p => [(ep_OrganisationID p, "entitlement organisation is not ordered before child");
                          (ep_ProductKey p, "entitlement product is not ordered before child")]) (pl_OrganisationEntitlement p)
  else if entity =s ProductionEntityUserAssignment then
    option_map (fun p => [(as_UserID p, "assignment user is not ordered before child");
                          (as_OrganisationID p, "assignment organisation is not ordered before child");
                          (as_ProductKey p, "assignment product is not ordered before child")]) (pl_UserAssignment p)
  else Some [].
Fixpoint dependencies (seen : list string) (l : list ProductionManifestRecord) : res unit :=
  match l with
  | [] => Ok tt
  | r :: l =>
      if one_of (rr_PlatformID r) seen then Err production_record else
      let seen := rr_PlatformID r :: seen in
      match depends_on r with
      | None => Err production_record
      | Some ids =>
          match find (fun id => negb (one_of (fst id) seen)) ids with
          | Some (_, text) => Err (Wrap text production_record)
          | None => dependencies seen l
          end
      end
  end.
Definition validateProductionDependencies (m : ProductionManifest) : res unit := dependencies [] (pm_Records m).

Section Runs.
Context `{UnicodeTables} `{Crypto} `{Ed25519} (secretKey : string).

Definition productionCheckpointMAC (manifestID digest status : string) (next applied created reconciled conflicts : Z) : string :=
  hex_encode (hmac_sha256 secretKey (manifestID ++ nul ++ digest ++ nul ++ status ++ nul ++ FormatInt next ++ nul ++ FormatInt applied
    ++ nul ++ FormatInt created ++ nul ++ FormatInt reconciled ++ nul ++ FormatInt conflicts)).
Definition run_mac (run : productionRunState) : string :=
  productionCheckpointMAC (st_ManifestID run) (st_ManifestDigest run) (st_Status run) (st_NextIndex run) (st_Applied run)
    (st_Created run) (st_Reconciled run) (st_Conflicts run).

Definition validateProductionBoundary (signed : SignedProductionManifest) (publicKey : string) (execution : ProductionExecution) : res unit :=
  let? _ := VerifySignedProductionManifest signed publicKey in ValidateProductionExecution (sp_Manifest signed) execution.

Definition loadProductionRun (m : ProductionManifest) (execution : ProductionExecution) (s : ImportStore) : res productionRunState :=
  match find_run (pm_ManifestID m) s with
  | None => Err (Sentinel ErrProductionImportNotFound)
  | Some row =>
      let run := state_of_row row in
      if negb (st_ManifestDigest run =s ProductionManifestDigest m) || negb (st_SourceReportSHA256 run =s pm_SourceReportSHA256 m)
         || negb (st_ApprovalID run =s ex_ApprovalID execution) || negb (st_OperatorID run =s ex_OperatorID execution)
         || negb (st_KeyID run =s ex_KeyID execution) || negb (ru_checkpoint_mac row =s run_mac run)
      then Err (Sentinel ErrProductionImportCheckpoint)
      else Ok (with_skipped (count (fun r => (ri_manifest_id r =s pm_ManifestID m) && (ri_outcome r =s "reconciled")) (im_records s)) run)
  end.
Definition approvedAt (m : ProductionManifest) : string := match pm_Approval m with Some a => pa_ApprovedAt a | None => "" end.
(** The row inserted for a new run, and the run returned. *)
Definition new_run_row (m : ProductionManifest) (execution : ProductionExecution) (at_ : Z) : ImportRunRow :=
  let now := formatTime at_ in
  let digest := ProductionManifestDigest m in
  let receipt := mkReceipt (pm_ManifestID m) digest (pm_SourceReportSHA256 m) (ex_OperatorID execution) (ex_ApprovalID execution)
                   (ex_KeyID execution) "running" 0 0 0 0 0 0 now in
  mkRunRow (pm_ManifestID m) digest ProductionManifestType (pm_SourceReportSHA256 m)
    (encode_json (JArray (map snapshot_json (pm_SourceSnapshots m)))) (ex_ApprovalID execution) (ex_OperatorID execution)
    (ex_KeyID execution) (approvedAt m) "running" 0 0 0 0 0
    (productionCheckpointMAC (pm_ManifestID m) digest "running" 0 0 0 0 0) now now (encode_json (receipt_json receipt)).
Definition new_run (m : ProductionManifest) (execution : ProductionExecution) : productionRunState :=
  mkRunState (pm_ManifestID m) (ProductionManifestDigest m) (pm_SourceReportSHA256 m) (ex_ApprovalID execution)
    (ex_OperatorID execution) (ex_KeyID execution) (approvedAt m) "running" 0 0 0 0 0 0 "" "".
Definition loadOrCreateProductionRun (m : ProductionManifest) (execution : ProductionExecution) (at_ : Z)
  : St ImportStore error productionRunState := fun s =>
  match loadProductionRun m execution s with
  | Ok run => Ok (run, s)
  | Err e =>
      if negb (errors_Is e ErrProductionImportNotFound) then Err e else
      (let! _ := insert_in (Wrap "create production import run" constraint_failed) im_runs set_im_runs runs_ok (new_run_row m execution at_) in ret (new_run m execution)) s
  end.

(** The columns written by a checkpoint. *)
Definition checkpointed (run : productionRunState) (mac now receipt : string) (r : ImportRunRow) : ImportRunRow :=
  mkRunRow (ru_manifest_id r) (ru_manifest_digest r) (ru_contract_version r) (ru_source_report_sha256 r) (ru_source_snapshots_json r)
    (ru_approval_id r) (ru_operator_id r) (ru_key_id r) (ru_approved_at r) (st_Status run) (st_NextIndex run) (st_Applied run)
    (st_Created run) (st_Reconciled run) (st_Conflicts run) mac (ru_created_at r) now receipt.
Definition run_receipt (m : ProductionManifest) (execution : ProductionExecution) (run : productionRunState) (skipped : Z) (now : string)
  : ProductionImportReceipt :=
  mkReceipt (pm_ManifestID m) (st_ManifestDigest run) (pm_SourceReportSHA256 m) (ex_OperatorID execution) (ex_ApprovalID execution)
    (ex_KeyID execution) (st_Status run) (st_NextIndex run) (st_Applied run) skipped (st_Created run) (st_Reconciled run)
    (st_Conflicts run) now.
(** One more record, of the size of the manifest. *)
Definition next_run (size : Z) (index : Z) (created : bool) (platformID : string) (run : productionRunState) : productionRunState :=
  mkRunState (st_ManifestID run) (st_ManifestDigest run) (st_SourceReportSHA256 run) (st_ApprovalID run) (st_OperatorID run)
    (st_KeyID run) (st_ApprovedAt run) (if index + 1 =? size then ProductionImportCompleted else ProductionImportPaused)
    (index + 1) (st_Applied run + 1) (st_Skipped run)
    (if created then st_Created run + 1 else st_Created run) (if created then st_Reconciled run else st_Reconciled run + 1)
    (st_Conflicts run) platformID (st_OccurredAt run).

Definition applyProductionRecord (m : ProductionManifest) (execution : ProductionExecution) (at_ : Z) (index : Z)
    (record : ProductionManifestRecord) (rand : option string) : St ImportStore error unit :=
  let now := formatTime at_ in
  let! outcome := on_db (applyProductionRecordTx record rand) in
  let! _ := insert_in (Wrap "record production import outcome" constraint_failed) im_records set_im_records import_records_ok
    (mkImportRecordRow (pm_ManifestID m) index (rr_Entity record) (rr_PlatformID record)
       (digestBytes (encode_json (production_record_json record))) (encode_json (refs_json (rr_SourceRefs record)))
       (oc_Outcome outcome) (oc_Created outcome) false now) in
  let! row := reads (find_run (pm_ManifestID m)) in
  let! row := some_or row (Wrap "load production import run in transaction" NoRows) in
  let run := next_run (Z.of_nat (List.length (pm_Records m))) index (oc_Created outcome) (rr_PlatformID record) (state_of_row row) in
  update_run (Wrap "update production import checkpoint" constraint_failed) (pm_ManifestID m)
    (checkpointed run (run_mac run) now (encode_json (receipt_json (run_receipt m execution run 0 now)))).

Definition productionRecordOutcome (manifestID : string) (index : Z) (s : ImportStore) : res (string * bool) :=
  match find (fun r => (ri_manifest_id r =s manifestID) && (ri_record_order r =? index)) (im_records s) with
  | Some r => Ok (ri_outcome r, ri_created_by_import r)
  | None => Err NoRows
  end.

Definition persistProductionRunReceipt (m : ProductionManifest) (execution : ProductionExecution) (run : productionRunState) (at_ : Z)
  : St ImportStore error ProductionImportReceipt :=
  let receipt := run_receipt m execution run (st_Skipped run) (formatTime at_) in
  let! _ := update_run (Wrap "persist production import receipt" constraint_failed) (pm_ManifestID m)
    (checkpointed run (run_mac run) (formatTime at_) (encode_json (receipt_json receipt))) in
  ret receipt.

(** The run in memory after a record. *)
Definition counted (created : bool) (outcome platformID : string) (run : productionRunState) : productionRunState :=
  mkRunState (st_ManifestID run) (st_ManifestDigest run) (st_SourceReportSHA256 run) (st_ApprovalID run) (st_OperatorID run)
    (st_KeyID run) (st_ApprovedAt run) (st_Status run) (st_NextIndex run + 1) (st_Applied run + 1)
    (if outcome =s "reconciled" then st_Skipped run + 1 else st_Skipped run)
    (if created then st_Created run + 1 else st_Created run) (if created then st_Reconciled run else st_Reconciled run + 1)
    (st_Conflicts run) platformID (st_OccurredAt run).
(** The loop of ApplyProductionImport over at most [budget] records of [rest], the
    records from [NextIndex] on; [rs] gives the random bytes of each record. *)
Fixpoint apply_loop (m : ProductionManifest) (execution : ProductionExecution) (at_ : Z) (rs : Z -> option string) (budget : nat)
    (rest : list ProductionManifestRecord) (run : productionRunState) (s : ImportStore) : res productionRunState * ImportStore :=
  match budget, rest with
  | S budget, record :: rest =>
      let index := st_NextIndex run in
      match exec (applyProductionRecord m execution at_ index record (rs index)) s with
      | (Err e, s) => (Err e, s)
      | (Ok _, s) =>
          match productionRecordOutcome (pm_ManifestID m) index s with
          | Err e => (Err e, s)
          | Ok (outcome, created) =>
              apply_loop m execution at_ rs budget rest (counted created outcome (rr_PlatformID record) run) s
          end
      end
  | _, _ => (Ok run, s)
  end.

(** ** Operations *)
Definition DryRunProductionImport (signed : SignedProductionManifest) (publicKey : string) (execution : ProductionExecution) (now : Z)
  : res ProductionImportReceipt :=
  let? _ := validateProductionBoundary signed publicKey execution in
  let m := sp_Manifest signed in
  let? _ := validateProductionDependencies m in
  let size := Z.of_nat (List.length (pm_Records m)) in
  Ok (mkReceipt (pm_ManifestID m) (ProductionManifestDigest m) (pm_SourceReportSHA256 m) (ex_OperatorID execution)
        (ex_ApprovalID execution) (ex_KeyID execution) ProductionImportDryRun size 0 size 0 0 0 (formatTime now)).

Definition decode_receipt (text : string) : option ProductionImportReceipt :=
  match parse text with
  | Some (JObject l) =>
      match (let? a := string_field l "manifest_id" in let? b := string_field l "manifest_sha256" in
             let? c := string_field l "source_report_sha256" in let? d := string_field l "operator_id" in
             let? e := string_field l "approval_id" in let? f := string_field l "key_id" in let? g := string_field l "status" in
             let? h := int_field l "next_index" in let? i := int_field l "applied" in let? j := int_field l "skipped" in
             let? k := int_field l "created" in let? x := int_field l "reconciled" in let? y := int_field l "conflicts" in
             let? z := string_field l "occurred_at" in Ok (mkReceipt a b c d e f g h i j k x y z)) with
      | Ok receipt => Some receipt
      | Err _ => None
      end
  | Some JNull => Some (mkReceipt "" "" "" "" "" "" "" 0 0 0 0 0 0 "")
  | _ => None
  end.
Definition ProductionImportStatus (manifestID : string) (s : ImportStore) : res ProductionImportReceipt :=
  if len secretKey <? 32 then Err (Sentinel ErrProductionImportSecretRequired) else
  match find_run (TrimSpace manifestID) s with
  | None => Err (Sentinel ErrProductionImportNotFound)
  | Some row =>
      let run := state_of_row row in
      if negb (ru_checkpoint_mac row =s productionCheckpointMAC manifestID (ru_manifest_digest row) (ru_status row) (ru_next_index row)
                 (ru_applied_count row) (ru_created_count row) (ru_reconciled_count row) (ru_conflict_count row))
      then Err (Sentinel ErrProductionImportCheckpoint) else
      match decode_receipt (ru_receipt_json row) with
      | None => Err (Sentinel ErrProductionImportCheckpoint)
      | Some receipt =>
          if negb (re_ManifestID receipt =s manifestID) || negb (re_ManifestSHA256 receipt =s ru_manifest_digest row)
             || negb (re_SourceReportSHA256 receipt =s ru_source_report_sha256 row)
          then Err (Sentinel ErrProductionImportCheckpoint) else Ok receipt
      end
  end.

Definition ApplyProductionImport (signed : SignedProductionManifest) (publicKey : string) (execution : ProductionExecution)
    (at_ limit : Z) (rs : Z -> option string) (s : ImportStore) : res ProductionImportReceipt * ImportStore :=
  let m := sp_Manifest signed in
  let size := Z.of_nat (List.length (pm_Records m)) in
  if IsZero at_ then (Err (Sentinel ErrInvalidExecutionTime), s) else
  match (let? _ := validateProductionBoundary signed publicKey execution in validateProductionDependencies m) with
  | Err e => (Err e, s)
  | Ok _ =>
  if len secretKey <? 32 then (Err (Sentinel ErrProductionImportSecretRequired), s) else
  match exec (loadOrCreateProductionRun m execution at_) s with
  | (Err e, s) => (Err e, s)
  | (Ok run, s) =>
      if st_Status run =s "rolled_back" then (Err (Sentinel ErrImportAlreadyReversed), s)
      else if st_Status run =s "completed" then
        (Ok (productionReceiptFromRun (with_skipped size (with_run_status ProductionImportIdempotent (formatTime at_) run))
               (pm_SourceReportSHA256 m)), s)
      else
        let limit := if (limit <=? 0) || (size - st_NextIndex run <? limit) then size - st_NextIndex run else limit in
        match apply_loop m execution at_ rs (Z.to_nat limit) (skipn (Z.to_nat (st_NextIndex run)) (pm_Records m)) run s with
        | (Err e, s) => (Err e, s)
        | (Ok run, s) =>
            let status := if st_NextIndex run =? size then ProductionImportCompleted else ProductionImportPaused in
            exec (persistProductionRunReceipt m execution (with_run_status status (formatTime at_) run) at_) s
        end
  end
  end.

(** The transaction of one compensation, and the loop over them. *)
Definition compensated (r : ImportRecordRow) : ImportRecordRow :=
  mkImportRecordRow (ri_manifest_id r) (ri_record_order r) (ri_entity_kind r) (ri_platform_id r) (ri_record_digest r)
    (ri_source_refs_json r) "rolled_back" (ri_created_by_import r) true (ri_applied_at r).
Definition compensable (manifestID : string) (r : ImportRecordRow) : bool :=
  (ri_manifest_id r =s manifestID) && ri_created_by_import r && negb (ri_compensated r).
Definition compensate (m : ProductionManifest) (at_ : Z) (item : ImportRecordRow) : St ImportStore error unit :=
  let! _ := on_db (deleteImportedRecordTx (ri_entity_kind item) (ri_platform_id item)) in
  let! _ := modify (fun s => set_im_records
    (update (fun r => compensable (pm_ManifestID m) r && (ri_record_order r =? ri_record_order item)) compensated (im_records s)) s) in
  insert_in constraint_failed im_compensations set_im_compensations compensations_ok
    (mkCompensationRow (pm_ManifestID m) (ri_record_order item) (ri_entity_kind item) (ri_platform_id item) "compensated" "" (formatTime at_)).
Fixpoint compensate_all (m : ProductionManifest) (at_ : Z) (items : list ImportRecordRow) (s : ImportStore) : res unit * ImportStore :=
  match items with
  | [] => (Ok tt, s)
  | item :: items =>
      match exec (compensate m at_ item) s with
      | (Err e, s) => (Err e, s)
      | (Ok _, s) => compensate_all m at_ items s
      end
  end.
(** ORDER BY record_order DESC *)
Definition compensations (manifestID : string) (s : ImportStore) : list ImportRecordRow :=
  sort_by (fun a b => ri_record_order b <? ri_record_order a) (select (compensable manifestID) (im_records s)).
Definition RollbackProductionImport (signed : SignedProductionManifest) (publicKey : string) (execution : ProductionExecution)
    (at_ : Z) (s : ImportStore) : res ProductionImportReceipt * ImportStore :=
  let m := sp_Manifest signed in
  if IsZero at_ then (Err (Sentinel ErrInvalidExecutionTime), s) else
  match validateProductionBoundary signed publicKey execution with
  | Err e => (Err e, s)
  | Ok _ =>
  if len secretKey <? 32 then (Err (Sentinel ErrProductionImportSecretRequired), s) else
  match loadProductionRun m execution s with
  | Err e => (Err e, s)
  | Ok run =>
      let run' := with_run_status "rolled_back" (formatTime at_) run in
      if st_Status run =s "rolled_back" then (Ok (productionReceiptFromRun run' (pm_SourceReportSHA256 m)), s) else
      match compensate_all m at_ (compensations (pm_ManifestID m) s) s with
      | (Err e, s) => (Err e, s)
      | (Ok _, s) => exec (persistProductionRunReceipt m execution run' at_) s
      end
  end
  end.
End Runs.

(** ** Steps of a transaction *)
Lemma on_db_Ok {A} (m : St DB error A) s a s' :
  on_db m s = Ok (a, s') <-> exists d, m (im_db s) = Ok (a, d) /\ s' = set_im_db d s.
Proof. unfold on_db. destruct (m (im_db s)) as [[x d]|]; naive_solver. Qed.
Lemma insert_in_Ok {R} e (get : ImportStore -> list R) set ok r s u s' :
  insert_in e get set ok r s = Ok (u, s') <-> ok (get s) r = true /\ s' = set (get s ++ [r])%list s.
Proof. unfold insert_in. destruct u, (ok (get s) r); naive_solver. Qed.
Lemma update_run_Ok e id f s u s' :
  update_run e id f s = Ok (u, s') <->
  forallb run_check (select (of_manifest id) (update (of_manifest id) f (im_runs s))) = true
  /\ s' = set_im_runs (update (of_manifest id) f (im_runs s)) s.
Proof. unfold update_run. destruct u, (forallb _ _); naive_solver. Qed.
Ltac inv_import_step :=
  first [ inv_db_step
        | match goal with
          | H : on_db _ _ = Ok _ |- _ => apply on_db_Ok in H; destruct H as (? & ? & ?); subst
          | H : insert_in _ _ _ _ _ _ = Ok _ |- _ => apply insert_in_Ok in H; destruct H as [? ?]; subst
          | H : update_run _ _ _ _ = Ok _ |- _ => apply update_run_Ok in H; destruct H as [? ?]; subst
          end ].
Ltac inv_import := repeat (inv_import_step; cbn [fst snd] in *).

(** ** What applying a record does *)
(** The table of an entity and the identifier of its rows. *)
Record Table := mkTable { tb_row : Type; tb_rows : DB -> list tb_row; tb_key : tb_row -> string }.
Definition table_of (entity : string) : option Table :=
  if entity =s ProductionEntityUser then Some (mkTable _ users u_public_id)
  else if entity =s ProductionEntityOrganisation then Some (mkTable _ organisations o_public_id)
  else if entity =s ProductionEntityWorkspace then Some (mkTable _ workspaces w_public_id)
  else if entity =s ProductionEntityOrganisationMembership then Some (mkTable _ organisation_memberships m_public_id)
  else if entity =s ProductionEntityWorkspaceMembership then Some (mkTable _ workspace_memberships m_public_id)
  else if entity =s ProductionEntityProduct then Some (mkTable _ products p_key)
  else if entity =s ProductionEntityOrganisationEntitlement then Some (mkTable _ entitlements e_public_id)
  else if entity =s ProductionEntityUserAssignment then Some (mkTable _ assignments g_public_id)
  else None.
Definition ids_of (entity : string) (d : DB) : list string :=
  match table_of entity with Some t => map (tb_key t) (tb_rows t d) | None => [] end.
Definition same_table (entity : string) (d d' : DB) : Prop :=
  match table_of entity with Some t => tb_rows t d' = tb_rows t d | None => True end.
Definition same_tables (d d' : DB) : Prop := forall entity, same_table entity d d'.
Definition row_added (entity id : string) (d d' : DB) : Prop :=
  match table_of entity with Some t => exists r, tb_key t r = id /\ tb_rows t d' = (tb_rows t d ++ [r])%list | None => False end.
(** The row [id] of [entity] is new in [d'], and only it. *)
Definition row_created (entity id : string) (d d' : DB) : Prop :=
  ~ In id (ids_of entity d) /\ row_added entity id d d' /\ forall e, e <> entity -> same_table e d d'.
(** The only row [id] of [entity] is gone in [d'], and only it. *)
Definition row_deleted (entity id : string) (d d' : DB) : Prop :=
  match table_of entity with
  | Some t => (exists r, select (fun x => tb_key t x =s id) (tb_rows t d) = [r])
              /\ tb_rows t d' = delete_rows (fun x => tb_key t x =s id) (tb_rows t d)
  | None => False
  end /\ forall e, e <> entity -> same_table e d d'.
(** *** What a row says of a record, column by column *)
(** A foreign key to the user, organisation or workspace with this identifier. *)
Definition refers_to (d : DB) (id : Z) (publicID : string) : Prop :=
  exists u, In u (users d) /\ u_id u = id /\ u_public_id u = publicID.
Definition of_organisation (d : DB) (id : Z) (publicID : string) : Prop :=
  exists o, In o (organisations d) /\ o_id o = id /\ o_public_id o = publicID.
Definition of_workspace (d : DB) (id : Z) (publicID : string) : Prop :=
  exists w, In w (workspaces d) /\ w_id w = id /\ w_public_id w = publicID.
(** The same for a nullable key; "" stands for none. *)
Definition removed_by (d : DB) (o : option Z) (publicID : string) : Prop :=
  match o with
  | Some id => refers_to d id publicID \/ (forall u, In u (users d) -> u_id u <> id) /\ publicID = ""
  | None => publicID = ""
  end.
Definition same_time (a b : option string) : Prop := default "" a = default "" b.
Section Columns.
Context `{UnicodeTables} (clean : string -> string) (d : DB).
Definition user_row (p : UserImportPayload) (u : UserRow) : Prop :=
  u_email u = ToLower (TrimSpace (up_Email p)) /\ u_display_name u = TrimSpace (up_DisplayName p)
  /\ u_active u = up_Active p /\ u_created_at u = up_CreatedAt p.
Definition organisation_row (p : OrganisationImportPayload) (o : OrganisationRow) : Prop :=
  o_name o = clean (op_Name p) /\ o_status o = op_Status p /\ o_created_at o = op_CreatedAt p
  /\ same_time (o_archived_at o) (op_ArchivedAt p).
Definition workspace_row (p : WorkspaceImportPayload) (w : WorkspaceRow) : Prop :=
  of_organisation d (w_organisation_id w) (wp_OrganisationID p) /\ w_name w = clean (wp_Name p) /\ w_status w = wp_Status p
  /\ w_created_at w = wp_CreatedAt p /\ same_time (w_archived_at w) (wp_ArchivedAt p).
Definition member_row (p : MembershipImportPayload) (m : MembershipRow) : Prop :=
  refers_to d (m_user_id m) (mp_UserID p) /\ m_role m = mp_Role p /\ m_active m = mp_Active p
  /\ refers_to d (m_assigned_by m) (clean (mp_AssignedBy p)) /\ m_assigned_at m = mp_AssignedAt p
  /\ removed_by d (m_removed_by m) (TrimSpace (mp_RemovedBy p)) /\ same_time (m_removed_at m) (mp_RemovedAt p)
  /\ m_removal_reason m = mp_RemovalReason p.
Definition product_row (p : ProductImportPayload) (r : ProductRow) : Prop :=
  p_display_name r = pp_DisplayName p /\ p_status r = pp_Status p /\ p_created_at r = pp_CreatedAt p
  /\ same_time (p_retired_at r) (pp_RetiredAt p).
Definition entitlement_row (p : EntitlementImportPayload) (e : EntitlementRow) : Prop :=
  of_organisation d (e_organisation_id e) (ep_OrganisationID p) /\ e_product_key e = ep_ProductKey p /\ e_status e = ep_Status p
  /\ refers_to d (e_granted_by e) (clean (ep_GrantedBy p)) /\ e_granted_at e = ep_GrantedAt p
  /\ removed_by d (e_revoked_by e) (clean (ep_RevokedBy p)) /\ same_time (e_revoked_at e) (ep_RevokedAt p)
  /\ e_revocation_reason e = ep_RevocationReason p.
Definition assignment_row (p : AssignmentImportPayload) (g : AssignmentRow) : Prop :=
  refers_to d (g_user_id g) (as_UserID p) /\ of_organisation d (g_organisation_id g) (as_OrganisationID p)
  /\ g_product_key g = as_ProductKey p /\ g_status g = as_Status p
  /\ refers_to d (g_assigned_by g) (clean (as_AssignedBy p)) /\ g_assigned_at g = as_AssignedAt p
  /\ removed_by d (g_revoked_by g) (clean (as_RevokedBy p)) /\ same_time (g_revoked_at g) (as_RevokedAt p)
  /\ g_revocation_reason g = as_RevocationReason p.
(** The record's row, found by its identifier, holds what the record says. *)
Definition row_holds (r : ProductionManifestRecord) : Prop :=
  let id := rr_PlatformID r in
  let entity := rr_Entity r in
  if entity =s ProductionEntityUser then
    exists p u, pl_User (rr_Payload r) = Some p /\ In u (users d) /\ u_public_id u = id /\ user_row p u
  else if entity =s ProductionEntityOrganisation then
    exists p o, pl_Organisation (rr_Payload r) = Some p /\ In o (organisations d) /\ o_public_id o = id /\ organisation_row p o
  else if entity =s ProductionEntityWorkspace then
    exists p w, pl_Workspace (rr_Payload r) = Some p /\ In w (workspaces d) /\ w_public_id w = id /\ workspace_row p w
  else if entity =s ProductionEntityOrganisationMembership then
    exists p m, pl_OrganisationMembership (rr_Payload r) = Some p /\ In m (organisation_memberships d) /\ m_public_id m = id
      /\ of_organisation d (m_scope m) (mp_OrganisationID p) /\ member_row p m
  else if entity =s ProductionEntityWorkspaceMembership then
    exists p m, pl_WorkspaceMembership (rr_Payload r) = Some p /\ In m (workspace_memberships d) /\ m_public_id m = id
      /\ of_workspace d (m_scope m) (mp_WorkspaceID p) /\ member_row p m
  else if entity =s ProductionEntityProduct then
    exists p x, pl_Product (rr_Payload r) = Some p /\ In x (products d) /\ p_key x = id /\ product_row p x
  else if entity =s ProductionEntityOrganisationEntitlement then
    exists p e, pl_OrganisationEntitlement (rr_Payload r) = Some p /\ In e (entitlements d) /\ e_public_id e = id /\ entitlement_row p e
  else if entity =s ProductionEntityUserAssignment then
    exists p g, pl_UserAssignment (rr_Payload r) = Some p /\ In g (assignments d) /\ g_public_id g = id /\ assignment_row p g
  else False.
End Columns.
(** Either the row was there and holds every column of the record as it is written,
    or it is new and holds them with the names and the acting users trimmed. *)
Definition applied_exactly `{UnicodeTables} (r : ProductionManifestRecord) (d : DB) (o : productionImportOutcome) (d' : DB) : Prop :=
  (o = reconciled_ (rr_PlatformID r) /\ d' = d /\ row_holds (fun s => s) d r)
  \/ (o = created_ (rr_PlatformID r) /\ reconcile_only r = false /\ row_created (rr_Entity r) (rr_PlatformID r) d d'
      /\ row_holds TrimSpace d' r).

(** Case analysis on the table of an entity. *)
Ltac each_table :=
  unfold same_table, table_of;
  repeat match goal with |- context [?e =s ?k] => destruct (String.eqb_spec e k) as [?|?] end.
Lemma same_tables_refl d : same_tables d d.
Proof. intros e. by each_table. Qed.
Lemma same_tables_trans d1 d2 d3 : same_tables d1 d2 -> same_tables d2 d3 -> same_tables d1 d3.
Proof. intros H1 H2 e. specialize (H1 e). specialize (H2 e). unfold same_table in *. destruct (table_of e); congruence. Qed.
Lemma ignores_log_tables d : ignores_log (same_tables d).
Proof. split; intros v d' Hd e; specialize (Hd e); revert Hd; each_table; exact id. Qed.
Lemma log_keeps_tables {A} (m : St DB error A) d a d' :
  (forall P, ignores_log P -> preserves P m) -> m d = Ok (a, d') -> same_tables d d'.
Proof. intros Hm Hr. apply (Hm _ (ignores_log_tables d) _ _ _ Hr (same_tables_refl d)). Qed.
Lemma find_In_map {R} (f : R -> string) (t : list R) id r : find (fun x => f x =s id) t = Some r -> In id (map f t).
Proof. intros [Hin Hf%String.eqb_eq]%find_some. subst. by apply in_map. Qed.
Lemma fresh_not_in {R} (f : R -> string) (t : list R) id : fresh (fun x => f x =s id) t = true -> ~ In id (map f t).
Proof. intros Hf (x & Hx & Hin)%in_map_iff. apply (proj1 (fresh_spec _ _) Hf) in Hin. by rewrite Hx, String.eqb_refl in Hin. Qed.
Lemma same_tables_ids e d d' : same_tables d d' -> ids_of e d' = ids_of e d.
Proof. intros He. specialize (He e). unfold same_table, ids_of in *. destruct (table_of e); congruence. Qed.
Lemma row_created_same entity id d d1 d1' d' :
  same_tables d d1 -> row_created entity id d1 d1' -> same_tables d1' d' -> row_created entity id d d'.
Proof.
  intros H1 (Hn & Ha & Ho) H2. rewrite (same_tables_ids _ _ _ H1) in Hn. split; [done|]. split.
  - specialize (H1 entity). specialize (H2 entity). unfold row_added, same_table in *.
    destruct (table_of entity); [|done]. destruct Ha as (r & Hr & Hrows). exists r. split; [done|]. congruence.
  - intros e He. specialize (H1 e). specialize (H2 e). specialize (Ho e He). unfold same_table in *. destruct (table_of e); congruence.
Qed.
(** Deleting the row that was created leaves the tables as they were. *)
Lemma deleted_created entity id d d1 d1' d' :
  row_created entity id d d1 -> same_tables d1 d1' -> row_deleted entity id d1' d' -> same_tables d d'.
Proof.
  intros (Hn & Ha & Ho) H1 [Hd Hdo] e. destruct (String.eqb_spec e entity) as [->|He].
  - specialize (H1 entity). unfold row_added, same_table, ids_of in *. destruct (table_of entity) as [t|]; [|done].
    destruct Ha as (r & Hr & Hrows), Hd as [_ Hd]. rewrite Hd, H1, Hrows. unfold delete_rows. rewrite List.filter_app. cbn [List.filter].
    rewrite Hr, String.eqb_refl. cbn [negb]. rewrite app_nil_r. apply forallb_filter_id, forallb_forall. intros x Hx. apply negb_true_iff.
    destruct (String.eqb_spec (tb_key t x) id) as [E|]; [|done]. destruct Hn. rewrite <-E. by apply in_map.
  - specialize (Ho e He). specialize (Hdo e He). specialize (H1 e). unfold same_table in *. destruct (table_of e); congruence.
Qed.

Lemma reconcile_Ok agrees id d o d' : reconcile agrees id d = Ok (o, d') -> agrees = true /\ o = reconciled_ id /\ d' = d.
Proof. unfold reconcile. destruct agrees; intros H; inv_import. by subst. Qed.
Lemma ignores_log_holds `{UnicodeTables} clean r : ignores_log (fun d => row_holds clean d r).
Proof. by split. Qed.
Lemma created_exactly `{UnicodeTables} {A} r d d1 (m : St DB error A) a d' :
  reconcile_only r = false -> row_created (rr_Entity r) (rr_PlatformID r) d d1 -> row_holds TrimSpace d1 r ->
  (forall P, ignores_log P -> preserves P m) -> m d1 = Ok (a, d') -> applied_exactly r d (created_ (rr_PlatformID r)) d'.
Proof.
  intros Hr Hd Hh Hm Ha. right. split_and!; try done.
  - eapply row_created_same; [apply same_tables_refl|done|]. by eapply log_keeps_tables.
  - by apply (Hm _ (ignores_log_holds _ _) _ _ _ Ha).
Qed.
Lemma reconciled_exactly `{UnicodeTables} r d : row_holds (fun s => s) d r -> applied_exactly r d (reconciled_ (rr_PlatformID r)) d.
Proof. intros Hin. by left. Qed.
Create HintDb log.
#[local] Hint Resolve preserves_append_log preserves_organisation_audit preserves_workspace_audit preserves_product_audit
  preserves_organisation_product_audit : log.

Lemma importActorTx_Ok id d a d' :
  importActorTx id d = Ok (a, d') -> d' = d /\ refers_to d a (TrimSpace id).
Proof.
  unfold importActorTx. intros. inv_import. split; [done|].
  match goal with E : active_user _ _ = Some ?u |- _ => apply find_some in E as [Hin [Hp%String.eqb_eq _]%andb_true_iff]; by exists u end.
Qed.
Lemma optionalImportActorTx_Ok id d a d' :
  optionalImportActorTx id d = Ok (a, d') -> d' = d /\ removed_by d a (TrimSpace id).
Proof.
  unfold optionalImportActorTx. intros. inv_import; [split; [done|]; by apply String.eqb_eq|].
  match goal with E : importActorTx _ _ = Ok _ |- _ => apply importActorTx_Ok in E as [-> ?] end. split; [done|]. by left.
Qed.
(** The queries behind the foreign keys. *)
Lemma user_refers d id u publicID : user_by_id d id = Some u -> u_public_id u = publicID -> refers_to d id publicID.
Proof. intros [Hin Hid%Z.eqb_eq]%find_some <-. by exists u. Qed.
Lemma removed_refers d o publicID : removed_public_id d o = publicID -> removed_by d o publicID.
Proof.
  unfold removed_public_id, removed_by. destruct o as [id|]; [|done]. unfold user_public_id.
  destruct (user_by_id d id) as [u|] eqn:E; intros <-; [left; by eapply user_refers|right]. split; [|done].
  intros u Hu. by apply (find_none _ _ E), Z.eqb_neq in Hu.
Qed.
Lemma user_found d id u : find (has_public_id id) (users d) = Some u -> refers_to d (u_id u) id.
Proof. intros [Hin Hid%String.eqb_eq]%find_some. by exists u. Qed.
Lemma organisation_found d id o : organisation_by_public_id id d = Some o -> of_organisation d (o_id o) id.
Proof. intros [Hin Hid%String.eqb_eq]%find_some. by exists o. Qed.
Lemma workspace_found d id w : workspace_by_public_id id d = Some w -> of_workspace d (w_id w) id.
Proof. intros [Hin Hid%String.eqb_eq]%find_some. by exists w. Qed.
Lemma organisation_refers d id o publicID :
  find (fun o => o_id o =? id) (organisations d) = Some o -> o_public_id o = publicID -> of_organisation d id publicID.
Proof. intros [Hin Hid%Z.eqb_eq]%find_some <-. by exists o. Qed.
Lemma find_has {R} (f : R -> string) (t : list R) id r : find (fun x => f x =s id) t = Some r -> In r t /\ f r = id.
Proof. intros [Hin Hid%String.eqb_eq]%find_some. done. Qed.
Lemma snoc_has {R} (t : list R) r : In r (t ++ [r])%list.
Proof. apply in_app_iff. right. by left. Qed.
Create HintDb columns.
#[local] Hint Resolve user_refers removed_refers user_found organisation_found workspace_found organisation_refers : columns.
Lemma product_exists_Ok key d u d' : product_exists key d = Ok (u, d') -> d' = d.
Proof. unfold product_exists. intros. by inv_import. Qed.
Lemma insert_product_Ok r d u d' : insert_product r d = Ok (u, d') -> products_ok (products d) r = true /\ d' = set_products (products d ++ [r])%list d.
Proof. unfold insert_product. destruct (products_ok _ _); naive_solver. Qed.
Section Exact.
Context `{UnicodeTables} (r : ProductionManifestRecord) (rand : option string) (d d' : DB) (o : productionImportOutcome).

(** The steps of an entity's function: the row is found and agrees, or it is inserted and logged. *)
Ltac exactly :=
  inv_import;
  repeat match goal with
         | E : reconcile _ _ _ = Ok _ |- _ => apply reconcile_Ok in E; destruct E as (? & ? & ?); subst
         | E : importActorTx _ _ = Ok _ |- _ => apply importActorTx_Ok in E; destruct E as [? ?]; subst
         | E : optionalImportActorTx _ _ = Ok _ |- _ => apply optionalImportActorTx_Ok in E; destruct E as [? ?]; subst
         | E : product_exists _ _ = Ok _ |- _ => apply product_exists_Ok in E; subst
         | E : insert_product _ _ = Ok _ |- _ => apply insert_product_Ok in E; destruct E; subst
         end;
  bool_hyps;
  repeat match goal with
         | E : (_ =s _) = true |- _ => apply String.eqb_eq in E
         | E : Bool.eqb _ _ = true |- _ => apply eqb_prop in E
         | E : _ = rr_PlatformID _ |- _ => rewrite E in *
         end.
(** The columns of a row, from the comparisons or from the row inserted. *)
Ltac columns :=
  unfold user_row, organisation_row, workspace_row, member_row, product_row, entitlement_row, assignment_row, same_time;
  split_and!; try done; try congruence; eauto with columns.
(** Either branch, for the table whose key is [key]. *)
Ltac found key := apply reconciled_exactly; unfold row_holds;
  match goal with Hent : rr_Entity r = _ |- _ => rewrite Hent end;
  match goal with E : _ = Some ?x |- _ =>
    apply (find_has key) in E; destruct E; eexists _, x; split; [eassumption|]; split; [eassumption|]; split; [assumption|] end.
Ltac inserted key ok :=
  eapply created_exactly; [done| | | |eassumption]; [..|intros; auto with log];
  match goal with Hent : rr_Entity r = _ |- _ => unfold row_holds; rewrite Hent end;
  [split; [apply (fresh_not_in key); unfold ok in *; by bool_hyps|];
   split; [eexists; split; [|reflexivity]; reflexivity|intros e He; by each_table]
  |do 2 eexists; split; [eassumption|]; split; [apply snoc_has|]; split; [done|]].
Lemma user_exact : rr_Entity r = ProductionEntityUser -> applyImportedUserTx r rand d = Ok (o, d') -> applied_exactly r d o d'.
Proof.
  unfold applyImportedUserTx. intros Hent Hrun. destruct (pl_User _) as [p|] eqn:Hp; exactly.
  - found u_public_id. columns.
  - inserted u_public_id users_ok. columns.
Qed.
Lemma organisation_exact :
  rr_Entity r = ProductionEntityOrganisation -> applyImportedOrganisationTx r rand d = Ok (o, d') -> applied_exactly r d o d'.
Proof.
  unfold applyImportedOrganisationTx. intros Hent Hrun. destruct (pl_Organisation _) as [p|] eqn:Hp; exactly.
  - found o_public_id. columns.
  - inserted o_public_id organisations_ok. columns.
Qed.
Lemma workspace_exact :
  rr_Entity r = ProductionEntityWorkspace -> applyImportedWorkspaceTx r rand d = Ok (o, d') -> applied_exactly r d o d'.
Proof.
  unfold applyImportedWorkspaceTx. intros Hent Hrun. destruct (pl_Workspace _) as [p|] eqn:Hp; exactly.
  - unfold workspace_with_organisation in *. destruct (workspace_by_public_id _ _) as [w'|] eqn:E; [|done].
    destruct (find _ (organisations d)) as [o'|] eqn:Eo; [|done]. cbn [option_map] in *. simplify_eq. found w_public_id. columns.
  - inserted w_public_id workspaces_ok. columns.
Qed.
Lemma product_exact :
  rr_Entity r = ProductionEntityProduct -> applyImportedProductTx r rand d = Ok (o, d') -> applied_exactly r d o d'.
Proof.
  unfold applyImportedProductTx. intros Hent Hrun. destruct (pl_Product _) as [p|] eqn:Hp; exactly.
  - found p_key. columns.
  - inserted p_key products_ok. columns.
Qed.
Lemma entitlement_exact :
  rr_Entity r = ProductionEntityOrganisationEntitlement -> applyImportedEntitlementTx r rand d = Ok (o, d') -> applied_exactly r d o d'.
Proof.
  unfold applyImportedEntitlementTx. intros Hent Hrun. destruct (pl_OrganisationEntitlement _) as [p|] eqn:Hp; exactly.
  - unfold entitlement_agrees in *. bool_hyps.
    repeat match goal with E : (_ =s _) = true |- _ => apply String.eqb_eq in E end. found e_public_id. columns.
  - inserted e_public_id entitlements_ok. columns.
Qed.
Lemma assignment_exact :
  rr_Entity r = ProductionEntityUserAssignment -> applyImportedAssignmentTx r rand d = Ok (o, d') -> applied_exactly r d o d'.
Proof.
  unfold applyImportedAssignmentTx. intros Hent Hrun. destruct (pl_UserAssignment _) as [p|] eqn:Hp; exactly.
  - unfold assignment_agrees in *. bool_hyps.
    repeat match goal with E : (_ =s _) = true |- _ => apply String.eqb_eq in E end. found g_public_id. columns.
  - inserted g_public_id assignments_ok. columns.
Qed.
(** The membership that is read back, and its columns. *)
Lemma membership_found_row table scope_of p scopeID :
  membership_found table scope_of p scopeID d = Some true ->
  exists m, In m (table d) /\ m_public_id m = mp_ID p /\ scope_of d (m_scope m) = Some scopeID /\ member_row (fun s => s) d p m.
Proof.
  unfold membership_found. destruct (find _ _) as [m|] eqn:E; [|done]. apply (find_has m_public_id) in E as [Hm Hid].
  destruct (scope_of d (m_scope m)) as [scope|] eqn:Es; [|done]. destruct (user_by_id d (m_user_id m)) as [u|] eqn:Eu; [|done].
  destruct (user_by_id d (m_assigned_by m)) as [a|] eqn:Ea; [|done]. intros [= Hag]. unfold membership_agrees in Hag. bool_hyps.
  repeat match goal with
         | E : (_ =s _) = true |- _ => apply String.eqb_eq in E
         | E : Bool.eqb _ _ = true |- _ => apply eqb_prop in E end.
  exists m. split; [done|]. split; [done|]. split; [congruence|]. columns.
Qed.
Lemma organisation_id_refers id publicID : organisation_public_id d id = Some publicID -> of_organisation d id publicID.
Proof.
  unfold organisation_public_id. destruct (find _ _) as [x|] eqn:E; [|done]. intros [= <-]. by eapply organisation_refers.
Qed.
Lemma workspace_id_refers id publicID : workspace_public_id d id = Some publicID -> of_workspace d id publicID.
Proof.
  unfold workspace_public_id. destruct (find _ _) as [x|] eqn:E; [|done]. intros [= <-].
  apply find_some in E as [Hin Hid%Z.eqb_eq]. by exists x.
Qed.
Lemma imported_membership_row p scope userID assignedBy removedBy next :
  refers_to d userID (mp_UserID p) -> refers_to d assignedBy (TrimSpace (mp_AssignedBy p)) -> removed_by d removedBy (TrimSpace (mp_RemovedBy p)) ->
  member_row TrimSpace d p (imported_membership p scope userID assignedBy removedBy next).
Proof. intros. columns. Qed.
Ltac imported_member :=
  match goal with |- context [imported_membership ?q _ _ _ _ _] => apply (imported_membership_row q) end; [by eapply user_found|done|done].
Lemma organisation_membership_exact : rr_Entity r = ProductionEntityOrganisationMembership ->
  applyImportedOrganisationMembershipTx r rand d = Ok (o, d') -> applied_exactly r d o d'.
Proof.
  unfold applyImportedOrganisationMembershipTx, applyImportedMembershipTx. intros Hent Hrun.
  destruct (pl_OrganisationMembership _) as [p|] eqn:Hp; exactly.
  - apply reconciled_exactly. unfold row_holds. rewrite Hent.
    match goal with E : membership_found _ _ _ _ _ = Some true |- _ => apply membership_found_row in E as (m & Hm & Hid & Hs & Hrow) end.
    apply organisation_id_refers in Hs. by exists p, m.
  - cbn [mp_ID mp_UserID mp_Role mp_Active mp_AssignedBy mp_AssignedAt mp_RemovedBy mp_RemovedAt mp_RemovalReason] in *.
    inserted m_public_id organisation_memberships_ok. split; [by eapply organisation_found|]. imported_member.
Qed.
Lemma workspace_membership_exact : rr_Entity r = ProductionEntityWorkspaceMembership ->
  applyImportedWorkspaceMembershipTx r rand d = Ok (o, d') -> applied_exactly r d o d'.
Proof.
  unfold applyImportedWorkspaceMembershipTx, applyImportedMembershipTx. intros Hent Hrun.
  destruct (pl_WorkspaceMembership _) as [p|] eqn:Hp; exactly.
  - apply reconciled_exactly. unfold row_holds. rewrite Hent.
    match goal with E : membership_found _ _ _ _ _ = Some true |- _ => apply membership_found_row in E as (m & Hm & Hid & Hs & Hrow) end.
    apply workspace_id_refers in Hs. by exists p, m.
  - cbn [mp_ID mp_UserID mp_Role mp_Active mp_AssignedBy mp_AssignedAt mp_RemovedBy mp_RemovedAt mp_RemovalReason] in *.
    inserted m_public_id workspace_memberships_ok. split; [by eapply workspace_found|]. imported_member.
Qed.
Lemma record_exact : applyProductionRecordTx r rand d = Ok (o, d') -> applied_exactly r d o d'.
Proof.
  unfold applyProductionRecordTx.
  repeat match goal with
         | |- context [if rr_Entity r =s ?k then _ else _] => destruct (String.eqb_spec (rr_Entity r) k) as [E|_]
         end; [auto using user_exact, organisation_exact, workspace_exact, organisation_membership_exact,
                 workspace_membership_exact, product_exact, entitlement_exact, assignment_exact..|].
  by intros ?%fail_Ok.
Qed.
End Exact.

(** ** What deleting a record does *)
(** The log: nothing published is taken back, and an audit event at most loses its actor's rowid. *)
Definition same_log (d d' : DB) : Prop :=
  outbox d' = outbox d /\ map forget_actor (audit_events d') = map forget_actor (audit_events d).
Lemma delete_one_Ok {R} (get : DB -> list R) set p referenced cascade d u d' :
  delete_one get set p referenced cascade d = Ok (u, d') ->
  exists r, select p (get d) = [r] /\ referenced r d = false /\ d' = set (delete_rows p (get d)) (cascade r d).
Proof.
  unfold delete_one. intros Hrun. destruct (select p (get d)) as [|r [|]] eqn:E; [done| |done].
  destruct (referenced r d) eqn:Er; [done|]. injection Hrun as _ <-. eauto.
Qed.
Lemma cascade_log u d : same_log d (cascade_user u d).
Proof. split; [done|]. cbn [cascade_user set_sessions set_mfa_enrollments set_mfa_recovery_codes set_security_events set_audit_events audit_events].
  by apply map_update. Qed.
Lemma delete_exact entity id d u d' :
  deleteImportedRecordTx entity id d = Ok (u, d') -> row_deleted entity id d d' /\ same_log d d'.
Proof.
  unfold deleteImportedRecordTx.
  repeat match goal with
         | |- context [if entity =s ?k then delete_one _ _ _ _ _ else _] => destruct (String.eqb_spec entity k) as [->|_]
         end; [intros (r & Hs & Hr & ->)%delete_one_Ok..|by intros ?%fail_Ok].
  all: split; [split; [split; [by exists r|reflexivity]|intros e He; by each_table]|]; first [apply (cascade_log r d)|by split].
Qed.
