(* ===== verification/ImportLaws.v ===== *)
(** The laws of the production import: the ledger and the checkpoint of a run
    agree after every transaction, an interrupted import resumes to the store of
    an uninterrupted one, and a rollback takes back exactly what was imported. *)
From stdpp Require Import base tactics option list gmap strings.
From Stdlib Require Import ZArith Lia Ascii String Sorted Permutation.
From S2P Require Import Prelude GoStrings GoTime Codec Errors Domain Json Events Schema Outbox Auth Assertion Identity.
From S2P Require Import Organisation Workspace Product Reconciliation Fixture Production Import.

Local Open Scope string_scope.
Local Open Scope Z_scope.

(** ** The run row and the ledger of a manifest *)
Lemma find_run_update id f id' t : (forall r, ru_manifest_id (f r) = ru_manifest_id r) ->
  find (of_manifest id') (update (of_manifest id) f t)
  = if id' =s id then option_map f (find (of_manifest id') t) else find (of_manifest id') t.
Proof.
  intros Hf. rewrite find_update by (intros r; unfold of_manifest; by rewrite Hf).
  destruct (find (of_manifest id') t) as [r|] eqn:E; [|by destruct (_ =s _)].
  apply find_some in E as [_ Hr%String.eqb_eq]. cbn. unfold of_manifest. rewrite Hr.
  by destruct (id' =s id).
Qed.
Lemma find_app_other {R} (p : R -> bool) t r : p r = false -> find p (t ++ [r])%list = find p t.
Proof. intros Hr. induction t as [|x t IH]; cbn; [by rewrite Hr|]. by rewrite IH. Qed.
Lemma select_snoc {R} (p : R -> bool) t r : select p (t ++ [r])%list = (select p t ++ (if p r then [r] else []))%list.
Proof. unfold select. rewrite List.filter_app. cbn. by destruct (p r). Qed.

Lemma exec_cases {S E A} (x : St S E A) (t : S) :
  (exists a t', x t = Ok (a, t') /\ exec x t = (Ok a, t')) \/ (exists e, x t = Err e /\ exec x t = (Err e, t)).
Proof. unfold exec. destruct (x t) as [[a t']|e]; eauto. Qed.

(** What the ledger and the row of a run say of each other. *)
Definition accounts (row : ImportRunRow) (ledger : list ImportRecordRow) : Prop :=
  ru_next_index row = Z.of_nat (List.length ledger)
  /\ map ri_record_order ledger = seqZ 0 (ru_next_index row)
  /\ ru_applied_count row = ru_next_index row
  /\ ru_created_count row = count ri_created_by_import ledger
  /\ ru_created_count row + ru_reconciled_count row = ru_applied_count row.
Definition ledger_ok (id : string) (s : ImportStore) : Prop :=
  match find_run id s with Some row => accounts row (ledger_of id s) | None => ledger_of id s = [] end.

Section Laws.
Context `{UnicodeTables} `{Crypto} `{Ed25519} (secretKey : string).
Implicit Types (m : ProductionManifest) (s : ImportStore) (execution : ProductionExecution).

Definition ledger_row m (at_ index : Z) (record : ProductionManifestRecord) (o : productionImportOutcome) : ImportRecordRow :=
  mkImportRecordRow (pm_ManifestID m) index (rr_Entity record) (rr_PlatformID record)
    (digestBytes (encode_json (production_record_json record))) (encode_json (refs_json (rr_SourceRefs record)))
    (oc_Outcome o) (oc_Created o) false (formatTime at_).
Definition record_update m execution (at_ : Z) (run : productionRunState) (skipped : Z) : ImportRunRow -> ImportRunRow :=
  checkpointed run (run_mac secretKey run) (formatTime at_) (encode_json (receipt_json (run_receipt m execution run skipped (formatTime at_)))).
Definition size m : Z := Z.of_nat (List.length (pm_Records m)).

Lemma apply_record_Ok m execution at_ index record rand s u s' :
  applyProductionRecord secretKey m execution at_ index record rand s = Ok (u, s') ->
  exists o d row, applyProductionRecordTx record rand (im_db s) = Ok (o, d)
    /\ find_run (pm_ManifestID m) s = Some row
    /\ import_records_ok (im_records s) (ledger_row m at_ index record o) = true
    /\ let run := next_run (size m) index (oc_Created o) (rr_PlatformID record) (state_of_row row) in
       let t := update (of_manifest (pm_ManifestID m)) (record_update m execution at_ run 0) (im_runs s) in
       forallb run_check (select (of_manifest (pm_ManifestID m)) t) = true
       /\ s' = mkImportStore d t (im_records s ++ [ledger_row m at_ index record o])%list (im_compensations s).
Proof.
  unfold applyProductionRecord. intros Hrun. inv_import. cbn [im_runs im_records im_db im_compensations set_im_db set_im_records set_im_runs] in *.
  exists x. eexists _, _. by split_and!.
Qed.

(** ** Loading a run *)
(** What a run in memory is compared by: not its status, its time or the last record. *)
Definition forget (run : productionRunState) : productionRunState :=
  mkRunState (st_ManifestID run) (st_ManifestDigest run) (st_SourceReportSHA256 run) (st_ApprovalID run) (st_OperatorID run)
    (st_KeyID run) (st_ApprovedAt run) "" (st_NextIndex run) (st_Applied run) (st_Skipped run) (st_Created run) (st_Reconciled run)
    (st_Conflicts run) "" "".
Definition skipped_in (id : string) (t : list ImportRecordRow) : Z :=
  count (fun r => (ri_manifest_id r =s id) && (ri_outcome r =s "reconciled")) t.
Definition terminal (status : string) : bool := one_of status ["completed"; "rolled_back"].
(** The row [row] is a checkpoint that loads. *)
Definition loads m execution (row : ImportRunRow) : Prop :=
  ru_manifest_id row = pm_ManifestID m /\ ru_manifest_digest row = ProductionManifestDigest m
  /\ ru_source_report_sha256 row = pm_SourceReportSHA256 m /\ ru_approval_id row = ex_ApprovalID execution
  /\ ru_operator_id row = ex_OperatorID execution /\ ru_key_id row = ex_KeyID execution
  /\ ru_checkpoint_mac row = run_mac secretKey (state_of_row row).
Lemma loadProductionRun_Ok m execution s run :
  loadProductionRun secretKey m execution s = Ok run <->
  exists row, find_run (pm_ManifestID m) s = Some row /\ loads m execution row
    /\ run = with_skipped (skipped_in (pm_ManifestID m) (im_records s)) (state_of_row row).
Proof.
  unfold loadProductionRun. destruct (find_run _ s) as [row|] eqn:E; [|split; [done|by intros (? & ? & _)]].
  apply find_some in E as [_ Hid%String.eqb_eq].
  destruct (_ || _) eqn:Eo.
  - split; [done|]. intros (row' & [= <-] & (Hi & Hd & Hs & Ha & Ho & Hk & Hm) & _).
    cbn [state_of_row st_ManifestDigest st_SourceReportSHA256 st_ApprovalID st_OperatorID st_KeyID] in Eo.
    rewrite Hd, Hs, Ha, Ho, Hk, Hm, !String.eqb_refl in Eo. done.
  - bool_hyps. split.
    + intros [= <-]. exists row. split; [done|]. split; [|done].
      repeat match goal with E : (_ =s _) = true |- _ => apply String.eqb_eq in E end. by split_and!.
    + by intros (row' & [= <-] & _ & ->).
Qed.
(** The run in memory is the one the store would load. *)
Definition tracks m execution (run : productionRunState) s : Prop :=
  exists row, find_run (pm_ManifestID m) s = Some row /\ loads m execution row
    /\ forget run = forget (with_skipped (skipped_in (pm_ManifestID m) (im_records s)) (state_of_row row)).
(** Nothing of another manifest changes. *)
Definition only (id : string) s s' : Prop :=
  forall id', id' <> id -> find_run id' s' = find_run id' s /\ ledger_of id' s' = ledger_of id' s.
Lemma only_refl id s : only id s s.
Proof. by intros. Qed.
Lemma only_trans id s1 s2 s3 : only id s1 s2 -> only id s2 s3 -> only id s1 s3.
Proof. intros H12 H23 id' Hid. destruct (H12 id' Hid), (H23 id' Hid). split; congruence. Qed.

Lemma loadOrCreate_Ok m execution at_ s run s1 : loadOrCreateProductionRun secretKey m execution at_ s = Ok (run, s1) ->
  (s1 = s /\ loadProductionRun secretKey m execution s = Ok run)
  \/ (find_run (pm_ManifestID m) s = None /\ run = new_run m execution
     /\ s1 = set_im_runs (im_runs s ++ [new_run_row secretKey m execution at_])%list s).
Proof.
  unfold loadOrCreateProductionRun. destruct (loadProductionRun _ _ _ s) as [r|e] eqn:E; [by intros [= -> ->]; left|].
  destruct (negb _) eqn:En; [done|]. intros Hrun. inv_import. right. split; [|done].
  unfold loadProductionRun in E. destruct (find_run _ s); [|done]. destruct (_ || _); [|done]. injection E as <-. done.
Qed.
Lemma no_ledger_skipped id s : ledger_of id s = [] -> skipped_in id (im_records s) = 0.
Proof.
  unfold ledger_of, skipped_in. intros Hl. apply count_zero. intros r Hr. destruct (ri_manifest_id r =s id) eqn:E; [|done].
  assert (In r (select (fun r => ri_manifest_id r =s id) (im_records s))) as Hin by (by apply filter_In). by rewrite Hl in Hin.
Qed.
Lemma start_run m execution at_ s run s1 : ledger_ok (pm_ManifestID m) s ->
  loadOrCreateProductionRun secretKey m execution at_ s = Ok (run, s1) ->
  tracks m execution run s1 /\ ledger_ok (pm_ManifestID m) s1 /\ only (pm_ManifestID m) s s1.
Proof.
  intros Hl Hrun. destruct (loadOrCreate_Ok _ _ _ _ _ _ Hrun) as [[-> Hload]|(Hn & -> & ->)].
  - apply loadProductionRun_Ok in Hload as (row & Hf & Hr & ->). split; [by exists row|]. split; [done|apply only_refl].
  - unfold ledger_ok in Hl. rewrite Hn in Hl.
    assert (find_run (pm_ManifestID m) (set_im_runs (im_runs s ++ [new_run_row secretKey m execution at_])%list s)
            = Some (new_run_row secretKey m execution at_)) as Hf.
    { unfold find_run. cbn [im_runs set_im_runs]. rewrite find_snoc; [done|apply String.eqb_refl|]. intros x Hx. by apply (find_none _ _ Hn). }
    split_and!.
    + eexists. split; [exact Hf|]. split; [by split_and!|].
      change (im_records (set_im_runs _ s)) with (im_records s). by rewrite (no_ledger_skipped _ _ Hl).
    + unfold ledger_ok. rewrite Hf. change (ledger_of _ (set_im_runs _ s)) with (ledger_of (pm_ManifestID m) s). by rewrite Hl.
    + intros id' Hid. split; [|done]. unfold find_run. cbn [im_runs set_im_runs]. apply find_app_other.
      apply String.eqb_neq. cbn. congruence.
Qed.

(** ** The transaction of a record *)
Lemma fresh_ledger_outcome m at_ index record o t :
  import_records_ok t (ledger_row m at_ index record o) = true ->
  find (fun r => (ri_manifest_id r =s pm_ManifestID m) && (ri_record_order r =? index)) (t ++ [ledger_row m at_ index record o])%list
  = Some (ledger_row m at_ index record o).
Proof.
  unfold import_records_ok. intros Hok. bool_hyps. apply find_snoc.
  - cbn. by rewrite String.eqb_refl, Z.eqb_refl.
  - by apply fresh_spec.
Qed.
Lemma skipped_snoc m at_ index record o t :
  skipped_in (pm_ManifestID m) (t ++ [ledger_row m at_ index record o])%list
  = if oc_Outcome o =s "reconciled" then skipped_in (pm_ManifestID m) t + 1 else skipped_in (pm_ManifestID m) t.
Proof.
  unfold skipped_in. rewrite count_snoc. cbn [ri_manifest_id ri_outcome ledger_row]. rewrite String.eqb_refl.
  destruct (oc_Outcome o =s "reconciled"); cbn [andb]; lia.
Qed.
Lemma accounts_next row m at_ record o ledger f :
  accounts row ledger -> ru_next_index (f row) = ru_next_index row + 1 -> ru_applied_count (f row) = ru_applied_count row + 1 ->
  ru_created_count (f row) = (if oc_Created o then ru_created_count row + 1 else ru_created_count row) ->
  ru_reconciled_count (f row) = (if oc_Created o then ru_reconciled_count row else ru_reconciled_count row + 1) ->
  accounts (f row) (ledger ++ [ledger_row m at_ (ru_next_index row) record o])%list.
Proof.
  intros (Hn & Ho & Ha & Hc & Hr) En Ea Ec Er. unfold accounts. rewrite En, Ea, Ec, Er, length_app, map_app, Ho, count_snoc.
  cbn [List.length ri_created_by_import ledger_row map ri_record_order]. split_and!; try lia.
  - rewrite Hn, seqZ_app by lia. done.
  - destruct (oc_Created o); lia.
  - destruct (oc_Created o); lia.
Qed.
(** A row written by a checkpoint of a run that agrees with it loads again. *)
Lemma checkpoint_loads m execution row run now receipt :
  loads m execution row -> st_ManifestID run = ru_manifest_id row -> st_ManifestDigest run = ru_manifest_digest row ->
  loads m execution (checkpointed run (run_mac secretKey run) now receipt row).
Proof.
  intros (Hi & Hd & Hs & Ha & Ho & Hk & Hm) Eid Ed. split_and!; try done.
  cbn [checkpointed ru_checkpoint_mac]. unfold run_mac. cbn [checkpointed state_of_row st_ManifestID st_ManifestDigest st_Status st_NextIndex
    st_Applied st_Created st_Reconciled st_Conflicts ru_manifest_id ru_manifest_digest ru_status ru_next_index ru_applied_count
    ru_created_count ru_reconciled_count ru_conflict_count]. by rewrite Eid, Ed.
Qed.
Lemma only_update m f s d k records : (forall r, ru_manifest_id (f r) = ru_manifest_id r) ->
  (forall id', id' <> pm_ManifestID m -> select (fun r => ri_manifest_id r =s id') records = ledger_of id' s) ->
  only (pm_ManifestID m) s (mkImportStore d (update (of_manifest (pm_ManifestID m)) f (im_runs s)) records k).
Proof.
  intros Hf Hr id' Hid. split; [|by apply Hr]. unfold find_run. cbn [im_runs]. rewrite find_run_update by done.
  by rewrite (proj2 (String.eqb_neq _ _) Hid).
Qed.
Lemma find_run_updated m f s d k records row : (forall r, ru_manifest_id (f r) = ru_manifest_id r) ->
  find_run (pm_ManifestID m) s = Some row ->
  find_run (pm_ManifestID m) (mkImportStore d (update (of_manifest (pm_ManifestID m)) f (im_runs s)) records k) = Some (f row).
Proof. intros Hf Hrow. unfold find_run in *. cbn [im_runs]. rewrite find_run_update, Hrow, String.eqb_refl by done. done. Qed.

Definition status_at m (next : Z) : string := if next =? size m then ProductionImportCompleted else ProductionImportPaused.
Lemma record_step m execution at_ record rand run s u s' :
  tracks m execution run s -> ledger_ok (pm_ManifestID m) s ->
  applyProductionRecord secretKey m execution at_ (st_NextIndex run) record rand s = Ok (u, s') ->
  exists o, applyProductionRecordTx record rand (im_db s) = Ok (o, im_db s')
    /\ im_records s' = (im_records s ++ [ledger_row m at_ (st_NextIndex run) record o])%list
    /\ productionRecordOutcome (pm_ManifestID m) (st_NextIndex run) s' = Ok (oc_Outcome o, oc_Created o)
    /\ tracks m execution (counted (oc_Created o) (oc_Outcome o) (rr_PlatformID record) run) s'
    /\ ledger_ok (pm_ManifestID m) s' /\ only (pm_ManifestID m) s s'
    /\ (exists row, find_run (pm_ManifestID m) s' = Some row /\ ru_status row = status_at m (st_NextIndex run + 1)).
Proof.
  intros (row & Hf & Hloads & Hrun) Hl (o & d & row' & Htx & Hf' & Hok & Hck & ->)%apply_record_Ok.
  rewrite Hf in Hf'. injection Hf' as <-.
  pose proof (f_equal st_NextIndex Hrun) as Hnext. cbn in Hnext. rewrite Hnext in *.
  exists o. cbn [im_db im_records]. split; [done|]. split; [done|].
  set (run' := next_run _ _ _ _ _) in *. set (f := record_update m execution at_ run' 0) in *.
  match goal with |- context [update ?p f ?t] => set (t' := update p f t) in * end.
  match goal with |- context [mkImportStore ?a ?b ?c ?e] => set (s' := mkImportStore a b c e) end.
  assert (find_run (pm_ManifestID m) s' = Some (f row)) as Hrow by (by apply find_run_updated).
  split_and!.
  - unfold productionRecordOutcome. unfold s'. cbn [im_records]. by rewrite fresh_ledger_outcome.
  - exists (f row). split; [done|]. split; [by apply checkpoint_loads|].
    cbn [im_records s']. rewrite skipped_snoc. revert Hrun. generalize (skipped_in (pm_ManifestID m) (im_records s)). intros k Hrun.
    destruct run. cbn in Hrun. injection Hrun as ? ? ? ? ? ? ? ? ? ? ? ? ?. subst.
    unfold f, run', counted. clear. destruct o as [oc [] cid]; cbn [oc_Outcome]; by destruct (oc =s "reconciled").
  - unfold ledger_ok in *. rewrite Hrow. rewrite Hf in Hl. unfold ledger_of, s'. cbn [im_records].
    rewrite select_snoc. cbn [ri_manifest_id ledger_row]. rewrite String.eqb_refl. by apply accounts_next.
  - apply only_update; [done|]. intros id' Hid. unfold ledger_of. rewrite select_snoc. cbn [ri_manifest_id ledger_row].
    rewrite (proj2 (String.eqb_neq _ _) (not_eq_sym Hid)). apply app_nil_r.
  - exists (f row). split; [done|]. done.
Qed.

(** ** The loop and the receipt *)
Lemma loop_tracks m execution at_ rs budget rest run s r s' :
  tracks m execution run s -> ledger_ok (pm_ManifestID m) s ->
  apply_loop secretKey m execution at_ rs budget rest run s = (r, s') ->
  exists run', tracks m execution run' s' /\ ledger_ok (pm_ManifestID m) s' /\ only (pm_ManifestID m) s s'
    /\ forall run'', r = Ok run'' -> run'' = run'.
Proof.
  revert rest run s. induction budget as [|budget IH]; intros rest run s Ht Hl; cbn [apply_loop].
  { intros [= <- <-]. exists run. split_and!; [done|done|apply only_refl|by intros ? [= <-]]. }
  destruct rest as [|record rest]; [intros [= <- <-]; exists run; split_and!; [done|done|apply only_refl|by intros ? [= <-]]|].
  unfold exec. destruct (applyProductionRecord _ _ _ _ _ _ _ s) as [[u s1]|e] eqn:E; [|intros [= <- <-]; by exists run].
  destruct (record_step _ _ _ _ _ _ _ _ _ Ht Hl E) as (o & _ & _ & -> & Ht1 & Hl1 & Ho1 & _). intros Hrun.
  destruct (IH _ _ _ Ht1 Hl1 Hrun) as (run' & Ht' & Hl' & Ho' & Hr). exists run'. split_and!; try done. by eapply only_trans.
Qed.
Lemma loop_split m execution at_ rs j b rest run s :
  apply_loop secretKey m execution at_ rs (j + b) rest run s
  = match apply_loop secretKey m execution at_ rs j rest run s with
    | (Ok run', s') => apply_loop secretKey m execution at_ rs b (skipn j rest) run' s'
    | (Err e, s') => (Err e, s')
    end.
Proof.
  revert rest run s. induction j as [|j IH]; intros rest run s; [done|]. cbn [Nat.add apply_loop skipn].
  destruct rest as [|record rest]; [by destruct b|].
  destruct (exec _ s) as [[u|e] s1]; [|done]. destruct (productionRecordOutcome _ _ _) as [[outcome created]|]; [|done]. apply IH.
Qed.
Lemma loop_next m execution at_ rs j rest run s run' s' :
  apply_loop secretKey m execution at_ rs j rest run s = (Ok run', s') ->
  st_NextIndex run' = st_NextIndex run + Z.of_nat (min j (List.length rest)).
Proof.
  revert rest run s. induction j as [|j IH]; intros rest run s; cbn [apply_loop]; [intros [= -> _]; lia|].
  destruct rest as [|record rest]; [intros [= -> _]; cbn; lia|].
  destruct (exec _ s) as [[u|e] s1]; [|done]. destruct (productionRecordOutcome _ _ _) as [[outcome created]|]; [|done].
  intros Hrun%IH. cbn [List.length Nat.min]. rewrite Hrun. cbn [counted st_NextIndex]. lia.
Qed.
(** The loop only looks at what [forget] keeps. *)
Definition alike (r r' : res productionRunState * ImportStore) : Prop :=
  snd r = snd r' /\ match fst r, fst r' with
    | Ok a, Ok b => forget a = forget b | Err e, Err e' => e = e' | _, _ => False end.
Lemma forget_counted created outcome id run run' :
  forget run = forget run' -> forget (counted created outcome id run) = forget (counted created outcome id run').
Proof. destruct run, run'. unfold forget, counted. cbn. by intros [= -> -> -> -> -> -> -> -> -> -> -> -> ->]. Qed.
Lemma loop_forget m execution at_ rs b rest run run' s : forget run = forget run' ->
  alike (apply_loop secretKey m execution at_ rs b rest run s) (apply_loop secretKey m execution at_ rs b rest run' s).
Proof.
  revert rest run run' s. induction b as [|b IH]; intros rest run run' s Hr; cbn [apply_loop]; [by split|].
  destruct rest as [|record rest]; [by split|]. pose proof (f_equal st_NextIndex Hr) as Hn. cbn in Hn. rewrite Hn.
  destruct (exec _ s) as [[u|e] s1]; [|by split]. destruct (productionRecordOutcome _ _ _) as [[outcome created]|]; [|by split].
  apply IH. by apply forget_counted.
Qed.
(** The final receipt depends on no more. *)
Lemma persist_forget m execution status t at_ run run' s : forget run = forget run' ->
  persistProductionRunReceipt secretKey m execution (with_run_status status t run) at_ s
  = persistProductionRunReceipt secretKey m execution (with_run_status status t run') at_ s.
Proof. destruct run, run'. unfold forget. cbn. by intros [= -> -> -> -> -> -> -> -> -> -> -> -> ->]. Qed.
Lemma persist_Ok m execution run at_ s receipt s' : persistProductionRunReceipt secretKey m execution run at_ s = Ok (receipt, s') ->
  receipt = run_receipt m execution run (st_Skipped run) (formatTime at_)
  /\ s' = set_im_runs (update (of_manifest (pm_ManifestID m)) (record_update m execution at_ run (st_Skipped run)) (im_runs s)) s.
Proof. unfold persistProductionRunReceipt. intros Hrun. by inv_import. Qed.
Lemma persist_tracks m execution status t at_ run s receipt s' :
  tracks m execution run s -> ledger_ok (pm_ManifestID m) s ->
  persistProductionRunReceipt secretKey m execution (with_run_status status t run) at_ s = Ok (receipt, s') ->
  tracks m execution (with_run_status status t run) s' /\ ledger_ok (pm_ManifestID m) s' /\ only (pm_ManifestID m) s s'.
Proof.
  intros (row & Hf & Hloads & Hr) Hl (_ & ->)%persist_Ok.
  set (f := record_update m execution at_ (with_run_status status t run) (st_Skipped (with_run_status status t run))).
  assert (find_run (pm_ManifestID m) (set_im_runs (update (of_manifest (pm_ManifestID m)) f (im_runs s)) s) = Some (f row)) as Hf'
    by (by apply find_run_updated).
  destruct run. cbn in Hr. injection Hr as ? ? ? ? ? ? ? ? ? ? ? ? ?. subst. split_and!.
  - exists (f row). split; [done|]. split; [by apply checkpoint_loads|done].
  - unfold ledger_ok in *. rewrite Hf'. rewrite Hf in Hl. exact Hl.
  - by apply only_update.
Qed.

(** ** One call *)
(** A call of ApplyProductionImport that returned, or one that was stopped after
    [j] of its records were committed. *)
Inductive attempt (signed : SignedProductionManifest) (publicKey : string) : ImportStore -> ImportStore -> Prop :=
| attempt_returns execution at_ limit rs s :
    attempt signed publicKey s (snd (ApplyProductionImport secretKey signed publicKey execution at_ limit rs s))
| attempt_stops execution at_ rs j s run s1 :
    exec (loadOrCreateProductionRun secretKey (sp_Manifest signed) execution at_) s = (Ok run, s1) ->
    terminal (st_Status run) = false ->
    attempt signed publicKey s (snd (apply_loop secretKey (sp_Manifest signed) execution at_ rs j
      (skipn (Z.to_nat (st_NextIndex run)) (pm_Records (sp_Manifest signed))) run s1)).
(** What either comes to: nothing, or the start of a run, some records and
    perhaps a receipt, which is not one of a rollback. *)
Inductive commits m s : ImportStore -> Prop :=
| commits_nothing : commits m s s
| commits_records execution at_ rs j rest run s1 r s' :
    loadOrCreateProductionRun secretKey m execution at_ s = Ok (run, s1) ->
    apply_loop secretKey m execution at_ rs j rest run s1 = (r, s') -> commits m s s'
| commits_receipt execution at_ rs j rest run s1 run2 s2 receipt s' :
    loadOrCreateProductionRun secretKey m execution at_ s = Ok (run, s1) ->
    apply_loop secretKey m execution at_ rs j rest run s1 = (Ok run2, s2) ->
    persistProductionRunReceipt secretKey m execution (with_run_status (status_at m (st_NextIndex run2)) (formatTime at_) run2) at_ s2
      = Ok (receipt, s') -> commits m s s'.
Lemma attempt_commits signed publicKey s s' : attempt signed publicKey s s' -> commits (sp_Manifest signed) s s'.
Proof.
  intros [execution at_ limit rs s2|execution at_ rs j s2 run s1 Hstart _].
  - unfold ApplyProductionImport. destruct (IsZero at_); [constructor|]. destruct (let? _ := _ in _); [|constructor].
    destruct (len secretKey <? 32); [constructor|].
    destruct (exec_cases (loadOrCreateProductionRun secretKey (sp_Manifest signed) execution at_) s2) as [(run & s1 & Hs & ->)|(e & _ & ->)];
      [|constructor].
    destruct (_ =s "rolled_back"); [eapply (commits_records _ _ execution at_ rs 0 []); [exact Hs|reflexivity]|].
    destruct (_ =s "completed"); [eapply (commits_records _ _ execution at_ rs 0 []); [exact Hs|reflexivity]|].
    destruct (apply_loop _ _ _ _ _ _ _ run s1) as [[run2|e] s3] eqn:El; [|by eapply commits_records].
    match goal with |- context [exec ?x s3] => destruct (exec_cases x s3) as [(r & s4 & Hp & ->)|(e & _ & ->)] end;
      [by eapply commits_receipt|by eapply commits_records].
  - destruct (exec_cases (loadOrCreateProductionRun secretKey (sp_Manifest signed) execution at_) s2) as [(run' & s1' & Hs & Ee)|(e & _ & Ee)];
      rewrite Ee in Hstart; [|done]. injection Hstart as -> ->.
    destruct (apply_loop _ _ _ _ _ _ _ run s1) as [r s3] eqn:El. by eapply commits_records.
Qed.
Lemma commits_ledger m s s' : ledger_ok (pm_ManifestID m) s -> commits m s s' ->
  ledger_ok (pm_ManifestID m) s' /\ only (pm_ManifestID m) s s'.
Proof.
  intros Hl [|execution at_ rs j rest run s1 r s2 Hs Hr|execution at_ rs j rest run s1 run2 s2 receipt s3 Hs Hr Hp];
    [split; [done|apply only_refl]|..].
  - destruct (start_run _ _ _ _ _ _ Hl Hs) as (Ht & Hl1 & Ho1).
    destruct (loop_tracks _ _ _ _ _ _ _ _ _ _ Ht Hl1 Hr) as (run' & _ & Hl2 & Ho2 & _). split; [done|by eapply only_trans].
  - destruct (start_run _ _ _ _ _ _ Hl Hs) as (Ht & Hl1 & Ho1).
    destruct (loop_tracks _ _ _ _ _ _ _ _ _ _ Ht Hl1 Hr) as (run' & Ht2 & Hl2 & Ho2 & Hr2). rewrite <-(Hr2 _ eq_refl) in Ht2.
    destruct (persist_tracks _ _ _ _ _ _ _ _ _ Ht2 Hl2 Hp) as (_ & Hl3 & Ho3).
    split; [done|]. eapply only_trans; [|done]. by eapply only_trans.
Qed.

(** ** Rolling back *)
Definition compensated_at m (order : Z) (r : ImportRecordRow) : bool := compensable (pm_ManifestID m) r && (ri_record_order r =? order).
Lemma compensate_Ok m at_ item s u s' : compensate m at_ item s = Ok (u, s') ->
  exists d, deleteImportedRecordTx (ri_entity_kind item) (ri_platform_id item) (im_db s) = Ok (tt, d)
    /\ im_db s' = d /\ im_runs s' = im_runs s
    /\ im_records s' = update (compensated_at m (ri_record_order item)) compensated (im_records s).
Proof. unfold compensate. intros Hrun. inv_import. destruct x. by eexists. Qed.
Lemma ledger_compensated m order s s' id : im_records s' = update (compensated_at m order) compensated (im_records s) ->
  ledger_of id s' = update (compensated_at m order) compensated (ledger_of id s).
Proof. intros E. unfold ledger_of. rewrite E. by apply select_update. Qed.
Lemma accounts_compensated m order row ledger :
  accounts row ledger -> accounts row (update (compensated_at m order) compensated ledger).
Proof.
  intros (Hn & Ho & Ha & Hc & Hr). unfold accounts. rewrite length_update, map_update by done. rewrite count_update by done. done.
Qed.
Lemma compensated_ledger_ok m order s s' id : im_runs s' = im_runs s ->
  im_records s' = update (compensated_at m order) compensated (im_records s) -> ledger_ok id s -> ledger_ok id s'.
Proof.
  intros Er El Hl. unfold ledger_ok, find_run in *. rewrite Er, (ledger_compensated _ _ _ _ _ El).
  destruct (find _ _); [by apply accounts_compensated|by rewrite Hl].
Qed.
Lemma compensate_all_ledger m at_ items s r s' id : compensate_all m at_ items s = (r, s') ->
  (ledger_ok id s -> ledger_ok id s') /\ im_runs s' = im_runs s.
Proof.
  revert s. induction items as [|item items IH]; intros s; cbn [compensate_all]; [by intros [= _ <-]|].
  destruct (exec_cases (compensate m at_ item) s) as [(u & s1 & Hc & ->)|(e & _ & ->)]; [|by intros [= _ <-]].
  apply compensate_Ok in Hc as (d & _ & _ & Er & El). intros [Hl' Hr']%IH. split; [|congruence].
  intros Hl. by eapply Hl', compensated_ledger_ok.
Qed.
(** What a rollback comes to. *)
Lemma rollback_cases signed publicKey execution at_ s r s' :
  RollbackProductionImport secretKey signed publicKey execution at_ s = (r, s') ->
  (s' = s /\ (forall receipt, r = Ok receipt -> exists row, find_run (pm_ManifestID (sp_Manifest signed)) s = Some row /\ ru_status row = "rolled_back"))
  \/ exists row s1, find_run (pm_ManifestID (sp_Manifest signed)) s = Some row /\ loads (sp_Manifest signed) execution row
     /\ ((exists e, compensate_all (sp_Manifest signed) at_ (compensations (pm_ManifestID (sp_Manifest signed)) s) s = (Err e, s1)
          /\ r = Err e /\ s' = s1)
         \/ compensate_all (sp_Manifest signed) at_ (compensations (pm_ManifestID (sp_Manifest signed)) s) s = (Ok tt, s1)
          /\ exec (persistProductionRunReceipt secretKey (sp_Manifest signed) execution (with_run_status "rolled_back" (formatTime at_)
                (with_skipped (skipped_in (pm_ManifestID (sp_Manifest signed)) (im_records s)) (state_of_row row))) at_) s1 = (r, s')).
Proof.
  unfold RollbackProductionImport. set (m := sp_Manifest signed). destruct (IsZero at_); [intros [= <- <-]; by left|].
  destruct (validateProductionBoundary _ _ _); [|intros [= <- <-]; by left].
  destruct (len secretKey <? 32); [intros [= <- <-]; by left|].
  destruct (loadProductionRun _ _ _ s) as [run|e] eqn:E; [|intros [= <- <-]; by left].
  apply loadProductionRun_Ok in E as (row & Hf & Hloads & ->).
  destruct (_ =s "rolled_back") eqn:Es; [intros [= <- <-]; left; split; [done|]; intros; exists row; by apply String.eqb_eq in Es|].
  destruct (compensate_all _ _ _ s) as [[[]|e] s1] eqn:Ec; intros Hr; right; exists row, s1; (split; [done|]); (split; [done|]).
  - right. by split.
  - injection Hr as <- <-. left. by exists e.
Qed.
Lemma rolled_back_row m execution at_ row k s1 r s' : find_run (pm_ManifestID m) s1 = Some row -> loads m execution row ->
  exec (persistProductionRunReceipt secretKey m execution (with_run_status "rolled_back" (formatTime at_) (with_skipped k (state_of_row row))) at_) s1
    = (r, s') ->
  only (pm_ManifestID m) s1 s' /\ im_db s' = im_db s1 /\ im_records s' = im_records s1
  /\ (forall receipt, r = Ok receipt -> exists row', find_run (pm_ManifestID m) s' = Some row' /\ ru_status row' = "rolled_back"
        /\ loads m execution row')
  /\ (ledger_ok (pm_ManifestID m) s1 -> ledger_ok (pm_ManifestID m) s').
Proof.
  intros Hf Hloads Hp. match type of Hp with exec ?x s1 = _ => destruct (exec_cases x s1) as [(receipt & s2 & Hr & Ee)|(e & _ & Ee)] end;
    rewrite Ee in Hp; injection Hp as <- <-; [|split_and!; [apply only_refl|done..]].
  apply persist_Ok in Hr as [_ ->]. set (f := record_update m execution at_ _ _).
  assert (find_run (pm_ManifestID m) (set_im_runs (update (of_manifest (pm_ManifestID m)) f (im_runs s1)) s1) = Some (f row)) as Hf'
    by (by apply find_run_updated).
  split_and!; [by apply only_update|done|done| |].
  - intros. exists (f row). split; [done|]. split; [done|]. by apply checkpoint_loads.
  - unfold ledger_ok. rewrite Hf', Hf. done.
Qed.

(** ** Any sequence of calls *)
(** Calls on any manifests, each complete or stopped between two transactions, and
    anything the platform does to its own tables in between. *)
Inductive import_step : ImportStore -> ImportStore -> Prop :=
| step_attempt signed publicKey s s' : attempt signed publicKey s s' -> import_step s s'
| step_rollback signed publicKey execution at_ s :
    import_step s (snd (RollbackProductionImport secretKey signed publicKey execution at_ s))
| step_rollback_stops m at_ j s :
    import_step s (snd (compensate_all m at_ (firstn j (compensations (pm_ManifestID m) s)) s))
| step_platform d s : import_step s (set_im_db d s).
Lemma step_ledger s s' : import_step s s' -> (forall id, ledger_ok id s) -> forall id, ledger_ok id s'.
Proof.
  intros Hstep Hl id. destruct Hstep as [signed publicKey s s' Ha|signed publicKey execution at_ s|m at_ j s|d s].
  - destruct (commits_ledger _ _ _ (Hl _) (attempt_commits _ _ _ _ Ha)) as [Hm Ho].
    destruct (String.eqb_spec id (pm_ManifestID (sp_Manifest signed))) as [->|Hid]; [done|].
    unfold ledger_ok. destruct (Ho id Hid) as [-> ->]. apply Hl.
  - destruct (RollbackProductionImport _ _ _ _ _ s) as [r s'] eqn:E.
    apply rollback_cases in E as [[-> _]|(row & s1 & Hf & Hloads & [(e & Hc & _ & ->)|[Hc Hp]])]; [apply Hl|..];
      destruct (compensate_all_ledger _ _ _ _ _ _ id Hc) as [Hl1 Hr1]; [by apply Hl1|].
    apply rolled_back_row in Hp as (Ho & _ & _ & _ & Hl2); [|unfold find_run in *; by rewrite Hr1|done]. cbn [snd].
    destruct (String.eqb_spec id (pm_ManifestID (sp_Manifest signed))) as [->|Hid]; [by apply Hl2, Hl1|].
    unfold ledger_ok. destruct (Ho id Hid) as [-> ->]. by apply Hl1.
  - destruct (compensate_all _ _ _ s) as [r s'] eqn:E. by apply (proj1 (compensate_all_ledger _ _ _ _ _ _ id E)).
  - exact (Hl id).
Qed.
(** C15: the ledger and the checkpoint of every import run agree, whatever sequence of
    applications and rollbacks was called, of any manifests and whenever the process
    stopped: the records of a run are numbered from 0 without gaps up to its next
    index, its applied count is that index, its created count is the number of records
    marked as created, the rest are reconciled, and no records are kept without a run. *)
Theorem ledger_exact s0 s : im_runs s0 = [] -> im_records s0 = [] -> rtc import_step s0 s -> forall id, ledger_ok id s.
Proof.
  intros Hr Hl Hsteps. assert (forall id, ledger_ok id s0) as H0'.
  { intros id. unfold ledger_ok, find_run, ledger_of. by rewrite Hr, Hl. }
  clear Hr Hl. induction Hsteps as [|s0 s1 s Hstep _ IH]; [done|]. apply IH. by eapply step_ledger.
Qed.

(** ** Rolling back takes back what was imported *)
(** The rows created since [d0], in order. *)
Inductive trail (d0 : DB) : list (string * string) -> DB -> Prop :=
| trail_nil d : same_tables d0 d -> trail d0 [] d
| trail_snoc l d entity id d' : trail d0 l d -> row_created entity id d d' -> trail d0 (l ++ [(entity, id)])%list d'.
Lemma trail_same d0 l d d' : trail d0 l d -> same_tables d d' -> trail d0 l d'.
Proof.
  intros Ht Hd. destruct Ht as [d Hs|l d entity id d1 Ht Hc]; [constructor; by eapply same_tables_trans|].
  econstructor; [done|]. eapply row_created_same; [apply same_tables_refl|done|done].
Qed.
Lemma trail_undo d0 l entity id d d' : trail d0 (l ++ [(entity, id)])%list d -> row_deleted entity id d d' -> trail d0 l d'.
Proof.
  intros Ht Hd. remember (l ++ [(entity, id)])%list as l' eqn:El. destruct Ht as [|l1 d1 e1 id1 d2 Ht Hc]; [by destruct l|].
  apply app_inj_tail in El as [-> [= -> ->]]. eapply trail_same; [done|].
  eapply deleted_created; [done|apply same_tables_refl|done].
Qed.
Definition created_rows m s : list ImportRecordRow := select (compensable (pm_ManifestID m)) (im_records s).
Definition imported_row (r : ImportRecordRow) : string * string := (ri_entity_kind r, ri_platform_id r).
(** Since [d0] only the run of [m] changed the tables, and it was not reversed. *)
Definition imported m (d0 : DB) s : Prop :=
  trail d0 (map imported_row (created_rows m s)) (im_db s)
  /\ (forall row, find_run (pm_ManifestID m) s = Some row -> ru_status row <> "rolled_back").
Lemma select_and {R} (p q : R -> bool) t : select (fun r => p r && q r) t = select q (select p t).
Proof. unfold select. induction t as [|r t IH]; [done|]. cbn. destruct (p r); cbn; [destruct (q r)|]; by rewrite IH. Qed.
Definition created_row (r : ImportRecordRow) : bool := ri_created_by_import r && negb (ri_compensated r).
Lemma created_of_ledger m s : created_rows m s = select created_row (ledger_of (pm_ManifestID m) s).
Proof. unfold created_rows, ledger_of. rewrite <-select_and. apply List.filter_ext. intros r. unfold compensable, created_row. by rewrite andb_assoc. Qed.
Lemma seqZ_sorted n k : StronglySorted Z.lt (seqZ k (Z.of_nat n)).
Proof.
  revert k. induction n as [|n IH]; intros k; [constructor|]. rewrite seqZ_cons by lia. rewrite Nat2Z.inj_succ, Z.pred_succ.
  constructor; [apply IH|]. apply Forall_forall. intros x Hx. apply elem_of_seqZ in Hx. lia.
Qed.
Lemma StronglySorted_unmap {A B} (f : A -> B) (P : B -> B -> Prop) l :
  StronglySorted P (map f l) -> StronglySorted (fun a b => P (f a) (f b)) l.
Proof.
  induction l as [|a l IH]; cbn; intros Hs; [constructor|]. apply StronglySorted_inv in Hs as [Hs Ha].
  constructor; [by apply IH|]. rewrite List.Forall_forall in *. intros x Hx. apply Ha. by apply in_map.
Qed.
Lemma StronglySorted_filter {A} (P : A -> A -> Prop) p l : StronglySorted P l -> StronglySorted P (List.filter p l).
Proof.
  induction 1 as [|a l Hs IH Ha]; cbn; [constructor|]. destruct (p a); [|done]. constructor; [done|].
  rewrite Forall_forall in *. intros x Hx. apply Ha. apply list_elem_of_In in Hx. apply filter_In in Hx as [Hx _]. by apply list_elem_of_In.
Qed.
Definition before (a b : ImportRecordRow) : Prop := ri_record_order a < ri_record_order b.
Lemma created_sorted m s : ledger_ok (pm_ManifestID m) s -> StronglySorted before (created_rows m s).
Proof.
  unfold ledger_ok. intros Hl. rewrite created_of_ledger. apply StronglySorted_filter.
  destruct (find_run _ s) as [row|]; [|rewrite Hl; constructor].
  destruct Hl as (Hn & Ho & _). apply (StronglySorted_unmap ri_record_order Z.lt). rewrite Ho, Hn. apply seqZ_sorted.
Qed.
(** ORDER BY record_order DESC reverses rows that are in order. *)
Lemma sort_descending (l : list ImportRecordRow) : StronglySorted before l ->
  sort_by (fun a b => ri_record_order b <? ri_record_order a) l = rev l.
Proof.
  unfold sort_by. enough (forall acc, (forall a b, In a acc -> In b l -> before a b) -> StronglySorted before l ->
    fold_left (fun acc r => insert_by (fun a b => ri_record_order b <? ri_record_order a) r acc) l acc = (rev l ++ acc)%list) as Hgen.
  { intros Hs. rewrite (Hgen []) by done. apply app_nil_r. }
  induction l as [|x l IH]; intros acc Hacc Hs; [done|]. cbn [fold_left rev]. apply StronglySorted_inv in Hs as [Hs Hx].
  rewrite Forall_forall in Hx.
  assert (insert_by (fun a b => ri_record_order b <? ri_record_order a) x acc = x :: acc) as ->.
  { destruct acc as [|a acc]; [done|]. cbn. by rewrite (proj2 (Z.ltb_lt _ _) (Hacc a x (or_introl eq_refl) (or_introl eq_refl))). }
  rewrite IH; [by rewrite <-app_assoc| |done]. intros a b [<-|Ha] Hb; [apply Hx; by apply list_elem_of_In|]. apply Hacc; [done|by right].
Qed.
Lemma StronglySorted_snoc {A} (P : A -> A -> Prop) l x y : StronglySorted P (l ++ [x])%list -> In y l -> P y x.
Proof.
  induction l as [|a l IH]; [done|]. cbn. intros Hs [->|Hy]; apply StronglySorted_inv in Hs as [Hs Ha]; [|by apply IH].
  rewrite Forall_forall in Ha. apply Ha, list_elem_of_In, in_app_iff. right. by left.
Qed.
Lemma StronglySorted_init {A} (P : A -> A -> Prop) l x : StronglySorted P (l ++ [x])%list -> StronglySorted P l.
Proof.
  induction l as [|a l IH]; cbn; intros Hs; [constructor|]. apply StronglySorted_inv in Hs as [Hs Ha].
  constructor; [by apply IH|]. by apply Forall_app in Ha as [Ha _].
Qed.
(** Compensating the last of the created rows leaves the others. *)
Lemma created_compensated m s s' l item : created_rows m s = (l ++ [item])%list -> StronglySorted before (l ++ [item])%list ->
  im_records s' = update (compensated_at m (ri_record_order item)) compensated (im_records s) -> created_rows m s' = l.
Proof.
  intros Hc Hs Hu. unfold created_rows in *. rewrite Hu.
  assert (forall t, select (compensable (pm_ManifestID m)) (update (compensated_at m (ri_record_order item)) compensated t)
    = select (fun r => negb (ri_record_order r =? ri_record_order item)) (select (compensable (pm_ManifestID m)) t)) as ->.
  { unfold select, update, compensated_at. induction t as [|r t IH]; [done|]. cbn [map List.filter].
    destruct (compensable (pm_ManifestID m) r) eqn:Er; cbn [andb]; [|by rewrite Er].
    destruct (ri_record_order r =? ri_record_order item) eqn:Eo; cbn [List.filter negb]; rewrite ?Er, ?Eo; cbn [negb]; [|by rewrite IH].
    unfold compensable at 1. cbn [compensated ri_compensated negb]. by rewrite andb_false_r. }
  rewrite Hc, select_snoc, Z.eqb_refl. cbn [negb]. rewrite app_nil_r. apply forallb_filter_id, forallb_forall.
  intros x Hx. apply negb_true_iff, Z.eqb_neq. pose proof (StronglySorted_snoc _ _ _ _ Hs Hx) as Hb. unfold before in Hb. lia.
Qed.
Lemma compensate_all_trail m at_ d0 l s s' :
  created_rows m s = l -> StronglySorted before l -> trail d0 (map imported_row l) (im_db s) ->
  compensate_all m at_ (rev l) s = (Ok tt, s') -> same_tables d0 (im_db s') /\ same_log (im_db s) (im_db s').
Proof.
  revert s. induction l as [|item l IH] using rev_ind; intros s Hc Hs Ht.
  { cbn. intros [= <-]. split; [|by split]. by inversion Ht as [d Hd|l' ? ? ? ? ? ? El]; [|destruct l']. }
  rewrite rev_app_distr. cbn [rev List.app compensate_all].
  destruct (exec_cases (compensate m at_ item) s) as [(u & s1 & Hci & ->)|(e & _ & ->)]; [|done]. intros Hr.
  apply compensate_Ok in Hci as (d & Hdel & Hd & _ & Hu). apply delete_exact in Hdel as [Hdel Hlog]. subst d.
  rewrite map_app in Ht. cbn [map imported_row] in Ht.
  destruct (IH s1) as [Hsame Hlog']; [by eapply created_compensated|by eapply StronglySorted_init|by eapply trail_undo|done|].
  split; [done|]. destruct Hlog as [Ho Ha], Hlog' as [Ho' Ha']. split; congruence.
Qed.

(** Records and receipts keep the trail. *)
Lemma loop_imported m execution at_ rs d0 budget rest run s r s' :
  tracks m execution run s -> ledger_ok (pm_ManifestID m) s -> imported m d0 s ->
  apply_loop secretKey m execution at_ rs budget rest run s = (r, s') -> imported m d0 s'.
Proof.
  revert rest run s. induction budget as [|budget IH]; intros rest run s Ht Hl Hi; cbn [apply_loop]; [by intros [= _ <-]|].
  destruct rest as [|record rest]; [by intros [= _ <-]|].
  destruct (exec_cases (applyProductionRecord secretKey m execution at_ (st_NextIndex run) record (rs (st_NextIndex run))) s)
    as [(u & s1 & E & ->)|(e & _ & ->)]; [|by intros [= _ <-]].
  destruct (record_step _ _ _ _ _ _ _ _ _ Ht Hl E) as (o & Htx & Hrec & -> & Ht1 & Hl1 & _ & row & Hrow & Hst). apply IH; [done|done|].
  destruct Hi as [Htrail _]. split.
  - unfold created_rows. rewrite Hrec, select_snoc, map_app. unfold compensable at 2. cbn [ri_manifest_id ri_created_by_import ri_compensated ledger_row].
    rewrite String.eqb_refl. destruct (record_exact _ _ _ _ _ Htx) as [(-> & Hd & _)|(-> & _ & Hc & _)]; cbn [oc_Created created_ reconciled_ andb negb map].
    + rewrite app_nil_r, Hd. exact Htrail.
    + by apply (trail_snoc _ _ _ (rr_Entity record) (rr_PlatformID record) _ Htrail).
  - rewrite Hrow. intros ? [= <-]. rewrite Hst. unfold status_at. by destruct (_ =? _).
Qed.
Lemma start_imported m execution at_ d0 s run s1 :
  imported m d0 s -> loadOrCreateProductionRun secretKey m execution at_ s = Ok (run, s1) -> imported m d0 s1.
Proof.
  intros Hi Hs. destruct (loadOrCreate_Ok _ _ _ _ _ _ Hs) as [[-> _]|(Hn & -> & ->)]; [done|]. destruct Hi as [Htrail _].
  split; [exact Htrail|]. intros row. unfold find_run in *. cbn [im_runs set_im_runs].
  rewrite find_snoc; [by intros [= <-]|apply String.eqb_refl|]. intros x Hx. by apply (find_none _ _ Hn).
Qed.
Lemma commits_imported m d0 s s' : ledger_ok (pm_ManifestID m) s -> imported m d0 s -> commits m s s' -> imported m d0 s'.
Proof.
  intros Hl Hi [|execution at_ rs j rest run s1 r s2 Hs Hr|execution at_ rs j rest run s1 run2 s2 receipt s3 Hs Hr Hp]; [done|..];
    destruct (start_run _ _ _ _ _ _ Hl Hs) as (Ht & Hl1 & _); pose proof (start_imported _ _ _ _ _ _ _ Hi Hs) as Hi1.
  - by eapply loop_imported.
  - pose proof (loop_imported _ _ _ _ _ _ _ _ _ _ _ Ht Hl1 Hi1 Hr) as [Htrail Hnot].
    destruct (loop_tracks _ _ _ _ _ _ _ _ _ _ Ht Hl1 Hr) as (run' & (row & Hf & _) & _).
    apply persist_Ok in Hp as [_ ->]. split; [exact Htrail|]. intros row'.
    set (f := record_update m execution at_ _ _).
    assert (find_run (pm_ManifestID m) (set_im_runs (update (of_manifest (pm_ManifestID m)) f (im_runs s2)) s2) = Some (f row)) as ->
      by (by apply find_run_updated). intros [= <-].
    cbn. unfold status_at. by destruct (_ =? _).
Qed.
Lemma attempts_imported signed publicKey s s' : rtc (attempt signed publicKey) s s' ->
  find_run (pm_ManifestID (sp_Manifest signed)) s = None -> ledger_ok (pm_ManifestID (sp_Manifest signed)) s ->
  ledger_ok (pm_ManifestID (sp_Manifest signed)) s' /\ imported (sp_Manifest signed) (im_db s) s'.
Proof.
  intros Hsteps Hn Hl.
  assert (imported (sp_Manifest signed) (im_db s) s) as Hi.
  { split; [|by rewrite Hn]. unfold ledger_ok in Hl. rewrite Hn in Hl. rewrite created_of_ledger, Hl. constructor. apply same_tables_refl. }
  revert Hl Hi. clear Hn. generalize (im_db s). intros d0. induction Hsteps as [|s s1 s' Hstep _ IH]; [done|]. intros Hl Hi.
  apply attempt_commits in Hstep. destruct (commits_ledger _ _ _ Hl Hstep) as [Hl1 _]. apply IH; [done|]. exact (commits_imported _ _ _ _ Hl Hi Hstep).
Qed.
(** A reversed run is never applied again. *)
Lemma reversed_stays signed publicKey execution at_ limit rs s row :
  find_run (pm_ManifestID (sp_Manifest signed)) s = Some row -> ru_status row = "rolled_back" ->
  exists e, ApplyProductionImport secretKey signed publicKey execution at_ limit rs s = (Err e, s).
Proof.
  intros Hf Hs. unfold ApplyProductionImport. destruct (IsZero at_); [eauto|]. destruct (let? _ := _ in _); [|eauto].
  destruct (len secretKey <? 32); [eauto|].
  destruct (exec_cases (loadOrCreateProductionRun secretKey (sp_Manifest signed) execution at_) s) as [(run & s1 & Hrun & ->)|(e & _ & ->)]; [|eauto].
  apply loadOrCreate_Ok in Hrun as [[-> Hload]|(Hn & _)]; [|by rewrite Hf in Hn].
  apply loadProductionRun_Ok in Hload as (row' & Hf' & _ & ->). rewrite Hf in Hf'. injection Hf' as <-.
  cbn [with_skipped state_of_row st_Status]. rewrite Hs. eauto.
Qed.
(** C13: a rollback takes back exactly what was imported. When a manifest was new to the
    store, and was then applied in any number of calls (complete, failed or stopped
    between two records), a rollback that succeeds leaves the tables of users,
    organisations, workspaces, memberships, products, entitlements and assignments as
    they were before the first call; no event of the outbox or of the audit log is
    taken back, and the manifest is never applied again. *)
Theorem rollback_restores signed publicKey s s1 execution at_ receipt s2 :
  find_run (pm_ManifestID (sp_Manifest signed)) s = None -> ledger_ok (pm_ManifestID (sp_Manifest signed)) s ->
  rtc (attempt signed publicKey) s s1 ->
  RollbackProductionImport secretKey signed publicKey execution at_ s1 = (Ok receipt, s2) ->
  same_tables (im_db s) (im_db s2) /\ same_log (im_db s1) (im_db s2)
  /\ forall publicKey execution at_ limit rs, exists e,
       ApplyProductionImport secretKey signed publicKey execution at_ limit rs s2 = (Err e, s2).
Proof.
  intros Hn Hl Hsteps Hroll. destruct (attempts_imported _ _ _ _ Hsteps Hn Hl) as [Hl1 [Htrail Hnot]].
  apply rollback_cases in Hroll as [[-> Hr]|(row & s3 & Hf & Hloads & [(e & _ & [=] & _)|[Hc Hp]])].
  { destruct (Hr _ eq_refl) as (row & Hf & Hs). by destruct (Hnot _ Hf). }
  unfold compensations in Hc. fold (created_rows (sp_Manifest signed) s1) in Hc.
  pose proof (created_sorted _ _ Hl1) as Hsorted. rewrite sort_descending in Hc by done.
  destruct (compensate_all_trail _ _ _ _ _ _ eq_refl Hsorted Htrail Hc) as [Hsame Hlog].
  destruct (compensate_all_ledger _ _ _ _ _ _ (pm_ManifestID (sp_Manifest signed)) Hc) as [_ Hruns].
  apply rolled_back_row in Hp as (_ & Hd & _ & Hst & _); [|unfold find_run in *; by rewrite Hruns|done].
  rewrite Hd. split; [done|]. split; [done|]. intros. destruct (Hst _ eq_refl) as (row' & Hf' & Hs' & _). by eapply reversed_stays.
Qed.

(** ** Resuming *)
Lemma apply_record_intro m execution at_ index record rand s o d row :
  applyProductionRecordTx record rand (im_db s) = Ok (o, d) -> find_run (pm_ManifestID m) s = Some row ->
  import_records_ok (im_records s) (ledger_row m at_ index record o) = true ->
  let run := next_run (size m) index (oc_Created o) (rr_PlatformID record) (state_of_row row) in
  let t := update (of_manifest (pm_ManifestID m)) (record_update m execution at_ run 0) (im_runs s) in
  forallb run_check (select (of_manifest (pm_ManifestID m)) t) = true ->
  applyProductionRecord secretKey m execution at_ index record rand s
  = Ok (tt, mkImportStore d t (im_records s ++ [ledger_row m at_ index record o])%list (im_compensations s)).
Proof.
  intros Htx Hf Hok run t Hck. unfold applyProductionRecord.
  rewrite (bind_value _ _ s o (set_im_db d s)) by (unfold on_db; by rewrite Htx).
  rewrite (bind_value _ _ _ tt (mkImportStore d (im_runs s) (im_records s ++ [ledger_row m at_ index record o])%list (im_compensations s)))
    by (unfold insert_in; cbn [im_records set_im_db]; unfold ledger_row in Hok; by rewrite Hok).
  rewrite bind_reads. change (find_run (pm_ManifestID m) (mkImportStore d (im_runs s) _ _)) with (find_run (pm_ManifestID m) s). rewrite Hf.
  rewrite (bind_value _ _ _ row _ eq_refl). unfold update_run. cbn [im_runs].
  match goal with |- context [forallb ?c ?l] => change (forallb c l) with (forallb run_check (select (of_manifest (pm_ManifestID m)) t)) end.
  by rewrite Hck.
Qed.
Lemma update_twice {R} (p : R -> bool) f g (t : list R) :
  (forall r, p (f r) = p r) -> (forall r, g (f r) = g r) -> update p g (update p f t) = update p g t.
Proof. intros Hp Hg. unfold update. rewrite map_map. apply map_ext. intros r. destruct (p r) eqn:E; [by rewrite Hp, E, Hg|by rewrite E]. Qed.
(** A receipt written in between is overwritten by the next record. *)
Lemma record_checkpointed m execution at_ record rand run s status t k u s2 :
  tracks m execution run s ->
  applyProductionRecord secretKey m execution at_ (st_NextIndex run) record rand s = Ok (u, s2) ->
  applyProductionRecord secretKey m execution at_ (st_NextIndex run) record rand
    (set_im_runs (update (of_manifest (pm_ManifestID m)) (record_update m execution at_ (with_run_status status t run) k) (im_runs s)) s)
  = Ok (tt, s2).
Proof.
  intros (row & Hf & Hloads & Hr) (o & d & row' & Htx & Hf' & Hok & Hck & ->)%apply_record_Ok.
  rewrite Hf in Hf'. injection Hf' as <-.
  set (f := record_update m execution at_ (with_run_status status t run) k).
  assert (find_run (pm_ManifestID m) (set_im_runs (update (of_manifest (pm_ManifestID m)) f (im_runs s)) s) = Some (f row)) as Hrow
    by (by apply find_run_updated).
  destruct run. cbn in Hr. injection Hr as ? ? ? ? ? ? ? ? ? ? ? ? ?. subst.
  match goal with Hck : forallb _ (select _ (update _ ?g _)) = true |- _ =>
    assert (update (of_manifest (pm_ManifestID m)) g (update (of_manifest (pm_ManifestID m)) f (im_runs s))
            = update (of_manifest (pm_ManifestID m)) g (im_runs s)) as Htwice by (by apply update_twice); rewrite <-Htwice in Hck |- * end.
  exact (apply_record_intro m execution at_ _ record rand
    (set_im_runs (update (of_manifest (pm_ManifestID m)) f (im_runs s)) s) o d (f row) Htx Hrow Hok Hck).
Qed.
Lemma loop_checkpointed m execution at_ rs b record rest run s status t k run2 s2 :
  tracks m execution run s ->
  apply_loop secretKey m execution at_ rs (S b) (record :: rest) run s = (Ok run2, s2) ->
  apply_loop secretKey m execution at_ rs (S b) (record :: rest) run
    (set_im_runs (update (of_manifest (pm_ManifestID m)) (record_update m execution at_ (with_run_status status t run) k) (im_runs s)) s)
  = (Ok run2, s2).
Proof.
  intros Ht. cbn [apply_loop]. unfold exec.
  destruct (applyProductionRecord _ _ _ _ _ _ _ s) as [[u s1]|e] eqn:E; [|done].
  by rewrite (record_checkpointed _ _ _ _ _ _ _ _ _ _ _ _ Ht E).
Qed.
Lemma loop_status m execution at_ rs b rest run s run' s' : tracks m execution run s -> ledger_ok (pm_ManifestID m) s ->
  apply_loop secretKey m execution at_ rs b rest run s = (Ok run', s') ->
  (run' = run /\ s' = s) \/ exists row, find_run (pm_ManifestID m) s' = Some row /\ ru_status row = status_at m (st_NextIndex run').
Proof.
  revert rest run s. induction b as [|b IH]; intros rest run s Ht Hl; cbn [apply_loop]; [intros [= <- <-]; by left|].
  destruct rest as [|record rest]; [intros [= <- <-]; by left|].
  destruct (exec_cases (applyProductionRecord secretKey m execution at_ (st_NextIndex run) record (rs (st_NextIndex run))) s)
    as [(u & s1 & E & ->)|(e & _ & ->)]; [|done].
  destruct (record_step _ _ _ _ _ _ _ _ _ Ht Hl E) as (o & _ & _ & -> & Ht1 & Hl1 & _ & row & Hrow & Hst). intros Hrun. right.
  destruct (IH _ _ _ Ht1 Hl1 Hrun) as [[-> ->]|?]; [|done]. by exists row.
Qed.

Section Resuming.
Context (signed : SignedProductionManifest) (publicKey : string) (execution : ProductionExecution) (at_ : Z) (rs : Z -> option string).
#[local] Abbreviation m := (sp_Manifest signed).
#[local] Abbreviation id := (pm_ManifestID m).
#[local] Abbreviation records_from n := (skipn (Z.to_nat n) (pm_Records m)).
#[local] Abbreviation loop := (apply_loop secretKey m execution at_ rs).
#[local] Abbreviation apply := (ApplyProductionImport secretKey signed publicKey execution at_).
#[local] Abbreviation receipt_of run := (persistProductionRunReceipt secretKey m execution
  (with_run_status (status_at m (st_NextIndex run)) (formatTime at_) run) at_).

(** A call that is allowed, on a run that loads. *)
Definition allowed : Prop :=
  IsZero at_ = false /\ (exists u, (let? _ := validateProductionBoundary signed publicKey execution in validateProductionDependencies m) = Ok u)
  /\ (len secretKey <? 32) = false.
Definition batch (limit : Z) (run : productionRunState) : Z :=
  if (limit <=? 0) || (size m - st_NextIndex run <? limit) then size m - st_NextIndex run else limit.
Lemma apply_running limit s run s1 : allowed -> loadOrCreateProductionRun secretKey m execution at_ s = Ok (run, s1) ->
  terminal (st_Status run) = false ->
  apply limit rs s = match loop (Z.to_nat (batch limit run)) (records_from (st_NextIndex run)) run s1 with
                     | (Ok run2, s2) => exec (receipt_of run2) s2 | (Err e, s2) => (Err e, s2) end.
Proof.
  intros (Hz & (u & Hb) & Hk) Hs Ht. unfold ApplyProductionImport. rewrite Hz, Hb, Hk. unfold exec at 1. rewrite Hs.
  unfold terminal, one_of in Ht. cbn [existsb] in Ht. bool_hyps.
  repeat match goal with E : (st_Status run =s _) = false |- _ => rewrite E; clear E end. done.
Qed.
Lemma apply_allowed limit s receipt s' : apply limit rs s = (Ok receipt, s') ->
  allowed /\ exists run s1, loadOrCreateProductionRun secretKey m execution at_ s = Ok (run, s1)
    /\ (terminal (st_Status run) = false
        \/ st_Status run = "completed" /\ s' = s1 /\ re_Applied receipt = st_Applied run /\ re_Created receipt = st_Created run
           /\ re_Reconciled receipt = st_Reconciled run).
Proof.
  unfold ApplyProductionImport, allowed. destruct (IsZero at_); [done|]. destruct (let? _ := _ in _) as [u|] eqn:Eb; [|done].
  destruct (len secretKey <? 32) eqn:Ek; [done|].
  destruct (exec_cases (loadOrCreateProductionRun secretKey m execution at_) s) as [(run & s1 & Hs & ->)|(e & _ & ->)]; [|done].
  destruct (st_Status run =s "rolled_back") eqn:Er; [done|]. destruct (st_Status run =s "completed") eqn:Ec.
  - intros [= <- <-]. split; [split_and!; try done; by exists u|]. exists run, s1. split; [done|]. right.
    split; [by apply String.eqb_eq|]. done.
  - intros _. split; [split_and!; try done; by exists u|]. exists run, s1. split; [done|]. left.
    unfold terminal, one_of. cbn [existsb]. by rewrite Er, Ec.
Qed.
Lemma load_existing s run : loadProductionRun secretKey m execution s = Ok run ->
  loadOrCreateProductionRun secretKey m execution at_ s = Ok (run, s).
Proof. unfold loadOrCreateProductionRun. by intros ->. Qed.
Lemma tracked_load run s : tracks m execution run s -> exists row run', find_run id s = Some row
  /\ loadProductionRun secretKey m execution s = Ok run' /\ forget run' = forget run /\ st_Status run' = ru_status row.
Proof.
  intros (row & Hf & Hl & Hr). exists row, (with_skipped (skipped_in id (im_records s)) (state_of_row row)).
  split; [done|]. split; [apply loadProductionRun_Ok; by exists row|]. by rewrite Hr.
Qed.
(** Going on from a tracked run is going on from the store. *)
Lemma apply_continues run s row : allowed -> tracks m execution run s -> find_run id s = Some row -> terminal (ru_status row) = false ->
  apply 0 rs s = match loop (Z.to_nat (size m - st_NextIndex run)) (records_from (st_NextIndex run)) run s with
                 | (Ok run2, s2) => exec (receipt_of run2) s2 | (Err e, s2) => (Err e, s2) end.
Proof.
  intros Ha Ht Hf Hst. destruct (tracked_load _ _ Ht) as (row' & run' & Hf' & Hload & Hforget & Hs).
  rewrite Hf in Hf'. injection Hf' as <-. rewrite <-Hs in Hst.
  rewrite (apply_running 0 s run' s Ha (load_existing _ _ Hload) Hst). unfold batch. cbn [orb Z.leb Z.compare].
  pose proof (f_equal st_NextIndex Hforget) as Hn. cbn in Hn. rewrite Hn.
  destruct (loop_forget m execution at_ rs (Z.to_nat (size m - st_NextIndex run)) (records_from (st_NextIndex run)) _ _ s Hforget) as [Es Er].
  destruct (loop _ _ run' s) as [[a|e] sa], (loop _ _ run s) as [[b|e'] sb]; cbn [fst snd] in *; subst; try done.
  unfold exec. pose proof (f_equal st_NextIndex Er) as Hn2. cbn in Hn2. rewrite Hn2. by rewrite (persist_forget _ _ _ _ _ _ _ _ Er).
Qed.
Lemma start_status s run s1 : loadOrCreateProductionRun secretKey m execution at_ s = Ok (run, s1) ->
  exists row, find_run id s1 = Some row /\ ru_status row = st_Status run.
Proof.
  intros [[-> Hload]|(Hn & -> & ->)]%loadOrCreate_Ok.
  - apply loadProductionRun_Ok in Hload as (row & Hf & _ & ->). by exists row.
  - exists (new_run_row secretKey m execution at_). split; [|done]. unfold find_run in *. cbn [im_runs set_im_runs].
    rewrite find_snoc; [done|apply String.eqb_refl|]. intros x Hx. by apply (find_none _ _ Hn).
Qed.
(** The uninterrupted loop, cut after [j] records. *)
Lemma loop_cut j run s runF sF : 0 <= st_NextIndex run <= size m -> Z.of_nat j <= size m - st_NextIndex run ->
  loop (Z.to_nat (size m - st_NextIndex run)) (records_from (st_NextIndex run)) run s = (Ok runF, sF) ->
  exists runj sj, loop j (records_from (st_NextIndex run)) run s = (Ok runj, sj)
    /\ st_NextIndex runj = st_NextIndex run + Z.of_nat j
    /\ loop (Z.to_nat (size m - st_NextIndex runj)) (records_from (st_NextIndex runj)) runj sj = (Ok runF, sF).
Proof.
  intros Hn Hj. replace (Z.to_nat (size m - st_NextIndex run)) with (j + Z.to_nat (size m - st_NextIndex run - Z.of_nat j))%nat by lia.
  rewrite loop_split. destruct (loop j _ run s) as [[runj|e] sj] eqn:E; [|done]. intros Hrest. exists runj, sj.
  split; [done|]. apply loop_next in E. rewrite length_skipn, min_l in E by (unfold size in *; lia).
  split; [done|]. rewrite E. rewrite skipn_skipn in Hrest.
  replace (Z.to_nat (st_NextIndex run + Z.of_nat j)) with (j + Z.to_nat (st_NextIndex run))%nat by lia.
  replace (size m - (st_NextIndex run + Z.of_nat j)) with (size m - st_NextIndex run - Z.of_nat j) by lia. exact Hrest.
Qed.
Lemma cut_running j run s runj sj row0 : tracks m execution run s -> ledger_ok id s ->
  find_run id s = Some row0 -> terminal (ru_status row0) = false ->
  loop j (records_from (st_NextIndex run)) run s = (Ok runj, sj) -> st_NextIndex runj < size m ->
  tracks m execution runj sj /\ ledger_ok id sj /\ exists row, find_run id sj = Some row /\ terminal (ru_status row) = false.
Proof.
  intros Ht Hl Hf Hst Hj Hlt. destruct (loop_tracks _ _ _ _ _ _ _ _ _ _ Ht Hl Hj) as (r & Htj & Hlj & _ & Hr).
  rewrite <-(Hr _ eq_refl) in Htj. split; [done|]. split; [done|].
  destruct (loop_status _ _ _ _ _ _ _ _ _ _ Ht Hl Hj) as [[-> ->]|(row & Hrow & Hs)]; [by exists row0|].
  exists row. split; [done|]. rewrite Hs. unfold status_at. by rewrite (proj2 (Z.eqb_neq _ _)) by lia.
Qed.
Definition bounded s : Prop := forall row, find_run id s = Some row -> ru_next_index row <= size m.
Lemma tracks_next run s : tracks m execution run s -> exists row, find_run id s = Some row /\ ru_next_index row = st_NextIndex run.
Proof. intros (row & Hf & _ & Hr). exists row. split; [done|]. apply (f_equal st_NextIndex) in Hr. by cbn in Hr. Qed.
Lemma tracks_bounded run s : tracks m execution run s -> st_NextIndex run <= size m -> bounded s.
Proof. intros (row & Hf & <-)%tracks_next Hn row' Hf'. rewrite Hf in Hf'. by injection Hf' as <-. Qed.
Lemma start_bounds s run s1 : ledger_ok id s -> bounded s -> loadOrCreateProductionRun secretKey m execution at_ s = Ok (run, s1) ->
  0 <= st_NextIndex run <= size m.
Proof.
  intros Hl Hb [[-> Hload]|(Hn & -> & ->)]%loadOrCreate_Ok; [|unfold size; cbn; lia].
  apply loadProductionRun_Ok in Hload as (row & Hf & _ & ->). cbn. split; [|by apply Hb].
  unfold ledger_ok in Hl. rewrite Hf in Hl. destruct Hl as [-> _]. lia.
Qed.
(** The result of the whole: the run and the store before the receipt. *)
Lemma whole s run s1 receipt s' : allowed -> loadOrCreateProductionRun secretKey m execution at_ s = Ok (run, s1) ->
  terminal (st_Status run) = false -> apply 0 rs s = (Ok receipt, s') ->
  exists runF sF, loop (Z.to_nat (size m - st_NextIndex run)) (records_from (st_NextIndex run)) run s1 = (Ok runF, sF)
    /\ receipt_of runF sF = Ok (receipt, s').
Proof.
  intros Ha Hs Ht. rewrite (apply_running _ _ _ _ Ha Hs Ht). unfold batch. cbn [orb Z.leb Z.compare].
  destruct (loop _ _ run s1) as [[runF|e] sF]; [|done]. intros Hp. exists runF, sF. split; [done|]. unfold exec in Hp.
  destruct (receipt_of runF sF) as [[r t]|]; [|done]. by injection Hp as -> ->.
Qed.
(** Two interruptions: a stop before the last record, and a limit. *)
Inductive interrupted : ImportStore -> ImportStore -> Prop :=
| interrupted_stop s run s1 j :
    exec (loadOrCreateProductionRun secretKey m execution at_) s = (Ok run, s1) -> terminal (st_Status run) = false ->
    Z.of_nat j < size m - st_NextIndex run -> interrupted s (snd (loop j (records_from (st_NextIndex run)) run s1))
| interrupted_limit s limit : interrupted s (snd (apply limit rs s))
| interrupted_again s s1 s2 : interrupted s s1 -> interrupted s1 s2 -> interrupted s s2.
Definition same_counts (r r' : ProductionImportReceipt) : Prop :=
  re_Applied r' = re_Applied r /\ re_Created r' = re_Created r /\ re_Reconciled r' = re_Reconciled r.
Definition resumes s receipt s' : Prop :=
  ledger_ok id s /\ bounded s /\ exists receipt', apply 0 rs s = (Ok receipt', s') /\ same_counts receipt receipt'.
Lemma resumes_cut run s1 receipt s' runF sF j runj sj : allowed -> ledger_ok id s1 -> tracks m execution run s1 ->
  0 <= st_NextIndex run -> (exists row0, find_run id s1 = Some row0 /\ terminal (ru_status row0) = false) ->
  receipt_of runF sF = Ok (receipt, s') ->
  loop j (records_from (st_NextIndex run)) run s1 = (Ok runj, sj) -> st_NextIndex runj < size m ->
  loop (Z.to_nat (size m - st_NextIndex runj)) (records_from (st_NextIndex runj)) runj sj = (Ok runF, sF) ->
  resumes sj receipt s'.
Proof.
  intros Ha Hl1 Ht Hn (row0 & Hf0 & Hst0) Hp Hj Hlt Hrest.
  destruct (cut_running _ _ _ _ _ _ Ht Hl1 Hf0 Hst0 Hj Hlt) as (Htj & Hlj & row & Hrow & Hst).
  split; [done|]. split; [eapply tracks_bounded; [done|lia]|]. exists receipt. split; [|done].
  rewrite (apply_continues runj sj row Ha Htj Hrow Hst), Hrest. unfold exec. by rewrite Hp.
Qed.
Lemma receipt_counts run s receipt s' : receipt_of run s = Ok (receipt, s') ->
  re_Applied receipt = st_Applied run /\ re_Created receipt = st_Created run /\ re_Reconciled receipt = st_Reconciled run.
Proof. by intros [-> _]%persist_Ok. Qed.
(** A finished run answers a further call with the same counts. *)
Lemma finished_again run s receipt s' : allowed -> tracks m execution run s -> ledger_ok id s -> st_NextIndex run = size m ->
  receipt_of run s = Ok (receipt, s') -> resumes s' receipt s'.
Proof.
  intros Ha Ht Hl Hn Hp. destruct (persist_tracks _ _ _ _ _ _ _ _ _ Ht Hl Hp) as (Ht' & Hl' & _).
  split; [done|]. split; [eapply tracks_bounded; [done|cbn; lia]|].
  destruct (tracked_load _ _ Ht') as (row & run' & Hf & Hload & Hforget & Hst).
  assert (ru_status row = "completed") as Hc.
  { apply persist_Ok in Hp as [_ ->]. destruct Ht as (row0 & Hf0 & _). set (f := record_update m execution at_ _ _) in *.
    assert (find_run id (set_im_runs (update (of_manifest id) f (im_runs s)) s) = Some (f row0)) as Hf' by (by apply find_run_updated).
    rewrite Hf' in Hf. injection Hf as <-. cbn. unfold status_at. by rewrite Hn, Z.eqb_refl. }
  destruct Ha as (Hz & (u & Hb) & Hk). unfold ApplyProductionImport. rewrite Hz, Hb, Hk. unfold exec at 1. rewrite (load_existing _ _ Hload), Hst, Hc.
  eexists. split; [reflexivity|]. apply receipt_counts in Hp as (Ea & Ec & Er).
  pose proof (f_equal st_Applied Hforget) as Fa. pose proof (f_equal st_Created Hforget) as Fc. pose proof (f_equal st_Reconciled Hforget) as Fr.
  cbn in Fa, Fc, Fr. unfold same_counts. cbn. by rewrite Ea, Ec, Er, Fa, Fc, Fr.
Qed.
(** A batch that ends before the last record. *)
Lemma resumes_batch run s1 receipt s' runF sF j runj sj : allowed -> ledger_ok id s1 -> tracks m execution run s1 ->
  0 <= st_NextIndex run -> (exists row0, find_run id s1 = Some row0 /\ terminal (ru_status row0) = false) ->
  receipt_of runF sF = Ok (receipt, s') ->
  loop j (records_from (st_NextIndex run)) run s1 = (Ok runj, sj) -> 0 <= st_NextIndex runj < size m ->
  loop (Z.to_nat (size m - st_NextIndex runj)) (records_from (st_NextIndex runj)) runj sj = (Ok runF, sF) ->
  resumes (snd (exec (receipt_of runj) sj)) receipt s'.
Proof.
  intros Ha Hl1 Ht Hn Hrow0 Hp Hj Hlt Hrest. destruct (exec_cases (receipt_of runj) sj) as [(r & s2 & Hr & ->)|(e & _ & ->)];
    [|by eapply resumes_cut; [..|apply Hlt|]].
  destruct Hrow0 as (row0 & Hf0 & Hst0). destruct (cut_running _ _ _ _ _ _ Ht Hl1 Hf0 Hst0 Hj (proj2 Hlt)) as (Htj & Hlj & _).
  destruct (persist_tracks _ _ _ _ _ _ _ _ _ Htj Hlj Hr) as (Ht2 & Hl2 & _). cbn [snd].
  split; [done|]. split; [eapply tracks_bounded; [done|cbn; lia]|]. exists receipt. split; [|done].
  apply persist_Ok in Hr as [_ ->]. destruct Htj as (rowj & Hfj & Hloads & Hforget). set (f := record_update m execution at_ _ _) in *.
  assert (find_run id (set_im_runs (update (of_manifest id) f (im_runs sj)) sj) = Some (f rowj)) as Hf' by (by apply find_run_updated).
  assert (terminal (ru_status (f rowj)) = false) as Hst.
  { cbn. unfold status_at. by rewrite (proj2 (Z.eqb_neq _ _)) by lia. }
  rewrite (apply_continues _ _ _ Ha Ht2 Hf' Hst). cbn [with_run_status st_NextIndex].
  destruct (Z.to_nat (size m - st_NextIndex runj)) as [|b] eqn:Eb; [lia|].
  destruct (records_from (st_NextIndex runj)) as [|record rest] eqn:El.
  { apply (f_equal List.length) in El. rewrite length_skipn in El. unfold size in *. cbn in El. lia. }
  assert (tracks m execution runj sj) as Htj by (by exists rowj).
  pose proof (loop_checkpointed _ _ _ _ _ _ _ _ _ (status_at m (st_NextIndex runj)) (formatTime at_) (st_Skipped runj) _ _ Htj Hrest) as Hrest2.
  assert (forget (with_run_status (status_at m (st_NextIndex runj)) (formatTime at_) runj) = forget runj) as Hfg by done.
  destruct (loop_forget m execution at_ rs (S b) (record :: rest) _ _
    (set_im_runs (update (of_manifest id) f (im_runs sj)) sj) Hfg) as [Es Er].
  unfold f in Es, Er |- *. cbn [with_run_status st_Skipped] in Es, Er |- *.
  rewrite Hrest2 in Es, Er. destruct (loop _ _ (with_run_status _ _ runj) _) as [[a|e] sa]; cbn [fst snd] in *; subst; [|done].
  unfold exec. pose proof (f_equal st_NextIndex Er) as Hn2. cbn in Hn2. rewrite Hn2.
  by rewrite (persist_forget _ _ _ _ _ _ _ _ Er), Hp.
Qed.
Lemma interrupted_resumes s s1 receipt s' : interrupted s s1 -> ledger_ok id s -> bounded s ->
  apply 0 rs s = (Ok receipt, s') -> resumes s1 receipt s'.
Proof.
  intros Hint. revert receipt. induction Hint as [s run s1 j Hs Ht Hj|s limit|s s1 s2 _ IH1 _ IH2]; intros receipt Hl Hb Hap.
  - destruct (exec_cases (loadOrCreateProductionRun secretKey m execution at_) s) as [(run' & s1' & Hs' & Ee)|(e & _ & Ee)];
      rewrite Ee in Hs; [|done]. injection Hs as -> ->. destruct (apply_allowed _ _ _ _ Hap) as [Ha _].
    destruct (start_run _ _ _ _ _ _ Hl Hs') as (Htr & Hl1 & _). pose proof (start_bounds _ _ _ Hl Hb Hs') as Hn.
    destruct (whole _ _ _ _ _ Ha Hs' Ht Hap) as (runF & sF & Hloop & Hp).
    destruct (loop_cut j _ _ _ _ Hn ltac:(lia) Hloop) as (runj & sj & Hcut & Hnj & Hrest). rewrite Hcut. cbn [snd].
    destruct (start_status _ _ _ Hs') as (row & Hrow & Hst). rewrite <-Hst in Ht.
    eapply resumes_cut; [done|done|exact Htr|lia|by exists row|done|done|lia|done].
  - destruct (apply_allowed _ _ _ _ Hap) as [Ha (run & s1 & Hs & [Ht|(Hc & -> & _)])].
    + destruct (start_run _ _ _ _ _ _ Hl Hs) as (Htr & Hl1 & _). pose proof (start_bounds _ _ _ Hl Hb Hs) as Hn.
      destruct (whole _ _ _ _ _ Ha Hs Ht Hap) as (runF & sF & Hloop & Hp).
      rewrite (apply_running limit _ _ _ Ha Hs Ht).
      assert (0 <= batch limit run <= size m - st_NextIndex run) as Hbatch.
      { unfold batch. destruct (limit <=? 0) eqn:E1; cbn [orb]; [lia|]. destruct (_ <? limit) eqn:E2; lia. }
      destruct (loop_cut (Z.to_nat (batch limit run)) _ _ _ _ Hn ltac:(lia) Hloop) as (runj & sj & Hcut & Hnj & Hrest). rewrite Hcut.
      destruct (start_status _ _ _ Hs) as (row & Hrow & Hst). rewrite <-Hst in Ht.
      destruct (decide (batch limit run < size m - st_NextIndex run)) as [Hlt|Hge].
      * eapply resumes_batch; [done|done|exact Htr|lia|by exists row|done|done|lia|done].
      * assert (batch limit run = size m - st_NextIndex run) as Heq by lia. rewrite Heq, Hloop in Hcut. injection Hcut as <- <-.
        unfold exec. rewrite Hp. cbn [snd]. destruct (loop_tracks _ _ _ _ _ _ _ _ _ _ Htr Hl1 Hloop) as (r & HtF & HlF & _ & Hr).
        rewrite <-(Hr _ eq_refl) in HtF. eapply finished_again; [done|done|done|lia|done].
    + assert (snd (apply limit rs s) = s /\ s1 = s) as [-> ->].
      { destruct (loadOrCreate_Ok _ _ _ _ _ _ Hs) as [[-> _]|(_ & -> & _)]; [split; [|done]|done].
        destruct Ha as (Hz & (u & Hbd) & Hk). unfold ApplyProductionImport. rewrite Hz, Hbd, Hk. unfold exec at 1. by rewrite Hs, Hc. }
      split; [done|]. split; [done|]. by exists receipt.
  - destruct (IH1 _ Hl Hb Hap) as (Hl1 & Hb1 & receipt1 & Hap1 & Hc1).
    destruct (IH2 _ Hl1 Hb1 Hap1) as (Hl2 & Hb2 & receipt2 & Hap2 & Hc2).
    split; [done|]. split; [done|]. exists receipt2. split; [done|]. unfold same_counts in *. naive_solver congruence.
Qed.
(** C14: an import can be interrupted and resumed without a difference. Whatever calls
    with a limit were made before, and whenever the process stopped between two records,
    calling the import again ends in the very store, and with the counts, that one
    uninterrupted call would have ended in. *)
Theorem import_resumes s s1 receipt s' : ledger_ok id s -> bounded s -> interrupted s s1 -> apply 0 rs s = (Ok receipt, s') ->
  exists receipt', apply 0 rs s1 = (Ok receipt', s') /\ same_counts receipt receipt'.
Proof. intros Hl Hb Hi Hap. by destruct (interrupted_resumes _ _ _ _ Hi Hl Hb Hap) as (_ & _ & ?). Qed.
End Resuming.


Lemma dependencies_Ok seen l u : dependencies seen l = Ok u ->
  NoDup (map rr_PlatformID l) /\ (forall r, In r l -> ~ In (rr_PlatformID r) seen)
  /\ forall pre r post, l = (pre ++ r :: post)%list -> exists ids, depends_on r = Some ids
       /\ forall id, In id (map fst ids) -> In id seen \/ In id (map rr_PlatformID (pre ++ [r])).
Proof.
  revert seen. induction l as [|r l IH]; intros seen; cbn [dependencies]; [intros _; split_and!; [constructor|done|by intros [|]]|].
  destruct (one_of (rr_PlatformID r) seen) eqn:En; [done|]. destruct (depends_on r) as [ids|] eqn:Ed; [|done].
  destruct (find _ ids) as [[? ?]|] eqn:Ef; [done|]. intros (Hnd & Hs & Hd)%IH.
  assert (~ In (rr_PlatformID r) seen) as Hn by (intros Hin%one_of_In; by rewrite Hin in En).
  split_and!.
  - cbn [map]. constructor; [|done]. intros Hin%list_elem_of_In. apply in_map_iff in Hin as (r' & Er & Hr'). apply (Hs _ Hr'). left. congruence.
  - intros r' [<-|Hr']; [done|]. intros Hin. apply (Hs _ Hr'). by right.
  - intros [|r0 pre] r' post E; cbn [List.app] in E; injection E as -> ->.
    + exists ids. split; [done|]. intros id (d & <- & Hid)%in_map_iff. pose proof (find_none _ _ Ef d Hid) as Hf. apply negb_false_iff, one_of_In in Hf as [<-|Hin]; [right; by left|by left].
    + destruct (Hd pre r' post eq_refl) as (ids' & Hids & Hin). exists ids'. split; [done|]. intros id Hid.
      destruct (Hin id Hid) as [[<-|Hseen]|Hpre]; [right; by left|by left|right; by right].
Qed.
(** The manifest is valid, signed under [publicKey], and its approval is this execution's. *)
Definition authorised (signed : SignedProductionManifest) (publicKey : string) (execution : ProductionExecution) : Prop :=
  ValidateProductionManifest (sp_Manifest signed) = Ok tt
  /\ (exists signature, b64_decode (sp_Signature signed) = Some signature
       /\ ed_verify publicKey (encode_json (production_json (sp_Manifest signed))) signature = true)
  /\ exists a, pm_Approval (sp_Manifest signed) = Some a /\ ex_OperatorID execution = pa_OperatorID a
       /\ ex_ApprovalID execution = pa_ApprovalID a /\ ex_KeyID execution = pa_KeyID a.
(** Every record comes after the records it depends on. *)
Definition ordered m : Prop :=
  NoDup (map rr_PlatformID (pm_Records m))
  /\ forall pre r post, pm_Records m = (pre ++ r :: post)%list -> exists ids, depends_on r = Some ids
       /\ forall id, In id (map fst ids) -> In id (map rr_PlatformID (pre ++ [r])).
(** The call changed the store or succeeded. *)
Definition effective {A} (r : res A * ImportStore) s : Prop := snd r <> s \/ exists receipt, fst r = Ok receipt.
Lemma not_effective {A} (e : error) s : ~ effective (Err e : res A, s) s.
Proof. by intros [?|[? ?]]. Qed.
Lemma boundary_authorised signed publicKey execution u :
  validateProductionBoundary signed publicKey execution = Ok u -> authorised signed publicKey execution.
Proof.
  unfold validateProductionBoundary, VerifySignedProductionManifest, ValidateProductionExecution, authorised.
  destruct (_ || _); [done|]. destruct (ValidateProductionManifest _) as [[]|] eqn:Ev; [|done].
  destruct (b64_decode _) as [signature|] eqn:Eb; [|done]. destruct (ed_verify _ _ signature) eqn:Es; [|done].
  destruct (pm_Approval _) as [a|] eqn:Ea; [|done]. cbn beta iota. destruct (_ || _) eqn:Eo; [done|]. intros _. bool_hyps.
  repeat match goal with E : (_ =s _) = true |- _ => apply String.eqb_eq in E end.
  split_and!; [done|by exists signature|by exists a].
Qed.
Lemma dependencies_ordered m u : validateProductionDependencies m = Ok u -> ordered m.
Proof.
  intros (Hnd & _ & Hd)%dependencies_Ok. split; [done|].
  intros pre r post Hp. destruct (Hd pre r post Hp) as (ids & Hids & Hin). exists ids. split; [done|]. intros id Hid. by destruct (Hin id Hid).
Qed.
Lemma apply_authorised signed publicKey execution at_ limit rs s :
  effective (ApplyProductionImport secretKey signed publicKey execution at_ limit rs s) s ->
  authorised signed publicKey execution /\ ordered (sp_Manifest signed).
Proof.
  unfold ApplyProductionImport. destruct (IsZero at_); [by intros ?%not_effective|].
  destruct (validateProductionBoundary _ _ _) as [u|e] eqn:E; cbn beta iota; [|by intros ?%not_effective].
  destruct (validateProductionDependencies _) as [u'|e] eqn:Ed; [|by intros ?%not_effective]. intros _.
  split; [by eapply boundary_authorised|by eapply dependencies_ordered].
Qed.
Lemma rollback_authorised signed publicKey execution at_ s :
  effective (RollbackProductionImport secretKey signed publicKey execution at_ s) s -> authorised signed publicKey execution.
Proof.
  unfold RollbackProductionImport. destruct (IsZero at_); [by intros ?%not_effective|].
  destruct (validateProductionBoundary _ _ _) as [u|e] eqn:E; [|by intros ?%not_effective]. intros _. by eapply boundary_authorised.
Qed.
(** Only an approved, signed and ordered manifest is imported. If a call of
    ApplyProductionImport or RollbackProductionImport changes anything or succeeds, then
    the manifest is valid, the signature verifies over its JSON under the given public
    key, and its approval names exactly the operator, the approval and the key of the
    execution; and of an import, no identifier occurs twice and every record comes after
    all the records it depends on. *)
Theorem import_authorised signed publicKey execution at_ limit rs s :
  (effective (ApplyProductionImport secretKey signed publicKey execution at_ limit rs s) s
   -> authorised signed publicKey execution /\ ordered (sp_Manifest signed))
  /\ (effective (RollbackProductionImport secretKey signed publicKey execution at_ s) s -> authorised signed publicKey execution).
Proof. split; [apply apply_authorised|apply rollback_authorised]. Qed.
End Laws.

(** ** A concrete migration *)
Module Migration.
#[export] Existing Instances ascii_tables toy_crypto toy_crypto_laws Assertion.Sample.toy_ed25519 Assertion.Sample.toy_laws.
Definition signed : SignedProductionManifest := Eval vm_compute in
  match Plan.built with Ok s => s | Err _ => mkSignedProduction (mkProduction 0 "" "" "" "" [] [] None) "" "" end.
Definition secret : string := fit 32 "secret".
Definition at_ : Z := Assertion.Sample.t0.
Definition rs (i : Z) : option string := Some (fit 18 (FormatInt i)).
Definition empty : ImportStore := mkImportStore empty_db [] [] [].
Definition apply (limit : Z) := ApplyProductionImport secret signed Plan.public Plan.execution at_ limit rs.
Definition rollback := RollbackProductionImport secret signed Plan.public Plan.execution at_.
(** One record of three, all of them, and all of them taken back. *)
Definition one : ImportStore := Eval vm_compute in snd (apply 1 empty).
Definition all : ImportStore := Eval vm_compute in snd (apply 0 empty).
Definition reversed : ImportStore := Eval vm_compute in snd (rollback one).
Definition receipt_of (r : res ProductionImportReceipt * ImportStore) : ProductionImportReceipt :=
  match fst r with Ok receipt => receipt | Err _ => mkReceipt "" "" "" "" "" "" "" 0 0 0 0 0 0 "" end.
Definition completed : ProductionImportReceipt := Eval vm_compute in receipt_of (apply 0 empty).
Definition taken_back : ProductionImportReceipt := Eval vm_compute in receipt_of (rollback one).
Lemma one_attempt : attempt secret signed Plan.public empty one.
Proof.
  assert (one = snd (apply 1 empty)) as -> by (vm_compute; reflexivity). apply attempt_returns.
Qed.
End Migration.
#[local] Existing Instances ascii_tables toy_crypto toy_crypto_laws Assertion.Sample.toy_ed25519 Assertion.Sample.toy_laws.

Lemma ledger_exact_witness :
  ledger_ok (pm_ManifestID (sp_Manifest Migration.signed)) Migration.one /\ List.length (im_records Migration.one) = 1%nat.
Proof.
  split; [|reflexivity].
  apply (ledger_exact Migration.secret Migration.empty); [reflexivity|reflexivity|].
  eapply rtc_l; [|apply rtc_refl]. apply step_attempt with Migration.signed Plan.public. apply Migration.one_attempt.
Defined.
Lemma rollback_restores_witness :
  users (im_db Migration.reversed) = [] /\ List.length (users (im_db Migration.one)) = 1%nat
  /\ exists e, Migration.apply 0 Migration.reversed = (Err e, Migration.reversed).
Proof.
  destruct (rollback_restores Migration.secret Migration.signed Plan.public Migration.empty Migration.one Plan.execution Migration.at_
    Migration.taken_back Migration.reversed) as (Hsame & _ & Hagain).
  - reflexivity.
  - reflexivity.
  - eapply rtc_l; [|apply rtc_refl]. apply Migration.one_attempt.
  - vm_compute. reflexivity.
  - split; [exact (Hsame ProductionEntityUser)|]. split; [reflexivity|]. exact (Hagain Plan.public Plan.execution Migration.at_ 0 Migration.rs).
Defined.
Lemma import_resumes_witness :
  exists receipt, ApplyProductionImport Migration.secret Migration.signed Plan.public Plan.execution Migration.at_ 0 Migration.rs Migration.one
    = (Ok receipt, Migration.all)
  /\ same_counts Migration.completed receipt /\ List.length (im_records Migration.one) = 1%nat /\ List.length (im_records Migration.all) = 3%nat.
Proof.
  destruct (import_resumes Migration.secret Migration.signed Plan.public Plan.execution Migration.at_ Migration.rs
    Migration.empty Migration.one Migration.completed Migration.all) as (receipt & Hr & Hc).
  - reflexivity.
  - intros row Hrow. discriminate Hrow.
  - assert (Migration.one = snd (Migration.apply 1 Migration.empty)) as -> by (vm_compute; reflexivity). apply interrupted_limit.
  - vm_compute. reflexivity.
  - exists receipt. split; [exact Hr|]. split; [exact Hc|]. split; reflexivity.
Defined.
Lemma import_authorised_witness : authorised Migration.signed Plan.public Plan.execution /\ ordered (sp_Manifest Migration.signed).
Proof.
  apply (import_authorised Migration.secret Migration.signed Plan.public Plan.execution Migration.at_ 0 Migration.rs Migration.empty).
  right. eexists. vm_compute. reflexivity.
Defined.

(** ** Seen on concrete manifests *)
(** A policy padded with a space passes the validation, which trims it, and is not
    reconcile_only to the import, which does not: the user is created. *)
Example padded_policy_creates :
  validProductionRecord (Plan.user " reconcile_only") = true
  /\ match applyProductionRecordTx (Plan.user " reconcile_only") (Some (fit 18 "1")) empty_db with
     | Ok (o, d) => oc_Created o = true /\ map u_public_id (users d) = ["usr_1"]
     | Err _ => False
     end
  /\ applyProductionRecordTx (Plan.user "reconcile_only") (Some (fit 18 "1")) empty_db = Err import_record.
Proof. vm_compute. auto. Qed.
(** A name is stored trimmed and compared as it came: the record that created the
    organisation no longer agrees with it. *)
Example padded_name_conflicts :
  let record := mkProductionRecord ProductionEntityOrganisation "org_1" Plan.sha Plan.refs "create_or_reconcile"
    (mkPayload None (Some (mkOrganisationPayload "org_1" " Acme" "active" Plan.day None Plan.history)) None None None None None None) in
  match applyProductionRecordTx record (Some (fit 18 "2")) (im_db Migration.one) with
  | Ok (o, d) => oc_Created o = true /\ applyProductionRecordTx record (Some (fit 18 "3")) d = Err import_record
  | Err _ => False
  end.
Proof. vm_compute. auto. Qed.
(** A workspace imported as archived is published as active. *)
Example archived_published_active :
  let record := mkProductionRecord ProductionEntityWorkspace "wsp_1" Plan.sha Plan.refs "create_or_reconcile"
    (mkPayload None None (Some (mkWorkspacePayload "wsp_1" "org_1" "Lab" "archived" Plan.day (Some Plan.day) Plan.history))
       None None None None None) in
  match applyProductionRecordTx record (Some (fit 18 "9")) (im_db Migration.all) with
  | Ok (_, d) => map w_status (workspaces d) = ["archived"]
      /\ map ob_payload (skipn 3 (outbox d)) = [encode_json (JObject [("active", JBool true); jstring "organisation_id" "org_1"; jstring "workspace_id" "wsp_1"])]
  | Err _ => False
  end.
Proof. vm_compute. auto. Qed.
