(* ===== verification/ImportKeeps.v ===== *)
(** The invariants of the platform's components under the production import: what
    the transaction of one record, and the deletion that takes one back, keep of
    them, and which of their clauses they need an exception of. *)
From stdpp Require Import base tactics option list strings.
From Stdlib Require Import ZArith Lia Ascii String.
From S2P Require Import Prelude GoStrings GoTime Codec Errors Domain Events Schema Outbox Auth Identity.
From S2P Require Import Mfa Organisation Workspace Product Command Projection Announce System Reconciliation Production Import.

Local Open Scope string_scope.
Local Open Scope Z_scope.

(** ** Deleting rows of a table *)
Lemma In_delete_rows {R} (p : R -> bool) t x : In x (delete_rows p t) <-> In x t /\ p x = false.
Proof. unfold delete_rows. by rewrite filter_In, negb_true_iff. Qed.
Lemma ids_unique_delete `{Row R} p (t : list R) : ids_unique t -> ids_unique (delete_rows p t).
Proof. unfold ids_unique, delete_rows. apply NoDup_map_filter. Qed.
Lemma NoDup_map_delete {R B} (f : R -> B) p t : NoDup (map f t) -> NoDup (map f (delete_rows p t)).
Proof. apply NoDup_map_filter. Qed.
Lemma count_delete_le {R} (q p : R -> bool) t : count q (delete_rows p t) <= count q t.
Proof.
  unfold count, select, delete_rows. induction t as [|x t IH]; [done|]. cbn. destruct (p x), (q x) eqn:E; cbn; rewrite ?E; cbn; lia.
Qed.
Lemma count_delete_same {R} (q p : R -> bool) t :
  (forall x, In x t -> p x = true -> q x = false) -> count q (delete_rows p t) = count q t.
Proof.
  unfold count, select, delete_rows. induction t as [|x t IH]; [done|]. intros Hp. cbn.
  specialize (IH (fun y Hy => Hp y (or_intror Hy))). destruct (p x) eqn:E; cbn.
  - rewrite (Hp x (or_introl eq_refl) E). exact IH.
  - destruct (q x); cbn; lia.
Qed.

(** ** Organisations *)
Section Organisations.
Context (imported joined removable : string -> Prop).
#[local] Abbreviation org_wf' := (org_wf_except imported joined removable).

(** More exceptions, and less that may be deleted. *)
Lemma org_wf_weaken (imported' joined' removable' : string -> Prop) os ms :
  (forall id, imported id -> imported' id) -> (forall id, joined id -> joined' id) -> (forall id, removable' id -> removable id) ->
  org_wf' os ms -> org_wf_except imported' joined' removable' os ms.
Proof.
  intros Hi Hj Hr Hwf. split; try apply Hwf.
  - intros o Ho Hs Hn. apply Hwf; auto.
  - intros o m Ho Hs Hm Hact. apply Hj. by eapply Hwf.
  - intros o m Ho Hs Hn Hm Hid. apply Hwf; auto.
  - intros id Hid. by apply (oe_live _ _ _ _ _ Hwf), Hr.
Qed.
(** An imported organisation, without members. *)
Lemma org_wf_import os ms o :
  org_wf' os ms -> organisations_ok os o = true -> o_id o = next_id os -> imported (o_public_id o) -> org_wf' (os ++ [o])%list ms.
Proof.
  intros Hwf Hok Hid Hi. assert (forall x, In x os -> o_id x <> o_id o) as Hfresh by (by apply ids_lt_next).
  unfold organisations_ok in Hok. bool_hyps. split; try apply Hwf.
  - by apply ids_unique_snoc; [apply Hwf|].
  - by apply NoDup_map_snoc; [apply Hwf|].
  - intros m Hm. destruct (oe_scopes _ _ _ _ _ Hwf m Hm) as (x & ? & ?). exists x. split; [apply in_or_app; by left|done].
  - intros x [Hx|[<-|[]]]%in_app_or; [by apply Hwf|done].
  - intros x [Hx|[<-|[]]]%in_app_or Hs Hn; [by apply Hwf|done].
  - intros x m [Hx|[<-|[]]]%in_app_or Hs Hm Hact; [by eapply Hwf|]. apply active_scope in Hact.
    destruct (oe_scopes _ _ _ _ _ Hwf m Hm) as (y & Hy & E). destruct (Hfresh y Hy). congruence.
  - intros x m [Hx|[<-|[]]]%in_app_or Hs Hn Hm Hr; [by apply Hwf|done].
Qed.
(** An imported membership, of any role, active or not, in any organisation. *)
Lemma org_wf_join os ms r o :
  org_wf' os ms -> organisation_memberships_ok ms r = true -> m_id r = next_id ms -> In o os -> o_id o = m_scope r ->
  joined (m_public_id r) ->
  org_wf_except imported joined (fun id => removable id \/ id = m_public_id r) os (ms ++ [r])%list.
Proof.
  intros Hwf Hok Hid Ho Hscope Hj.
  assert (forall x, In x os -> o_status x = OrganisationActive -> ~ imported (o_public_id x) -> owner_of (o_id x) r = false) as Hown.
  { intros x Hx Hs Hn. apply not_true_is_false. intros How.
    pose proof (oe_owner _ _ _ _ _ Hwf x Hx Hs Hn) as Hc. by rewrite (proj2 (member_once _ _ (o_id x) 0 Hok) How) in Hc. }
  split; try apply Hwf.
  - by apply ids_unique_snoc; [apply Hwf|].
  - intros m [Hm|[<-|[]]]%in_app_or; [by apply Hwf|by exists o].
  - intros x Hx Hs Hn. rewrite count_snoc, Hown, Z.add_0_r by done. by apply Hwf.
  - intros s. rewrite count_snoc. destruct (owner_of s r) eqn:E; [|rewrite Z.add_0_r; apply Hwf].
    rewrite (proj2 (member_once _ _ s 0 Hok) E). lia.
  - intros x m Hx Hs [Hm|[<-|[]]]%in_app_or Hact; [by eapply Hwf|done].
  - intros s uid. rewrite count_snoc. destruct (current_member s uid r) eqn:E; [|rewrite Z.add_0_r; apply Hwf].
    rewrite (proj1 (member_once _ _ s uid Hok) E). lia.
  - intros x m Hx Hs Hn [Hm|[<-|[]]]%in_app_or Hr; [|by apply Hown]. destruct Hr as [Hr|Hr]; [by apply Hwf|].
    unfold organisation_memberships_ok in Hok. bool_hyps.
    match goal with Hf : fresh (fun x => m_public_id x =s _) ms = true |- _ => rewrite fresh_spec in Hf; specialize (Hf m Hm) end.
    by rewrite Hr, String.eqb_refl in *.
  - intros id [Hr| ->]; rewrite map_app; apply in_or_app; [left; by apply (oe_live _ _ _ _ _ Hwf)|right; by left].
Qed.
(** A membership that may be deleted is deleted. *)
Lemma org_wf_unjoin (removable' : string -> Prop) os ms id :
  org_wf' os ms -> removable id -> (forall x, removable' x -> removable x /\ x <> id) ->
  org_wf_except imported joined removable' os (delete_rows (fun m => m_public_id m =s id) ms).
Proof.
  intros Hwf Hid Hr. split; try apply Hwf.
  - by apply ids_unique_delete, Hwf.
  - intros m [Hm _]%In_delete_rows. by apply Hwf.
  - intros o Ho Hs Hn. rewrite count_delete_same; [by apply Hwf|]. intros m Hm E%String.eqb_eq. apply Hwf; [done..|]. by rewrite E.
  - intros s. etransitivity; [apply count_delete_le|apply Hwf].
  - intros o m Ho Hs [Hm _]%In_delete_rows Hact. by eapply Hwf.
  - intros s uid. etransitivity; [apply count_delete_le|apply Hwf].
  - intros o m Ho Hs Hn [Hm _]%In_delete_rows [Hr' _]%Hr. by apply Hwf.
  - intros x [Hx Hne]%Hr. apply (oe_live _ _ _ _ _ Hwf), in_map_iff in Hx as (m & <- & Hm).
    apply in_map, In_delete_rows. split; [done|]. by apply String.eqb_neq.
Qed.
(** An organisation without memberships is deleted. *)
Lemma org_wf_remove os ms p :
  org_wf' os ms -> (forall o m, In o os -> p o = true -> In m ms -> m_scope m <> o_id o) -> org_wf' (delete_rows p os) ms.
Proof.
  intros Hwf Hp. split; try apply Hwf.
  - by apply ids_unique_delete, Hwf.
  - by apply NoDup_map_delete, Hwf.
  - intros m Hm. destruct (oe_scopes _ _ _ _ _ Hwf m Hm) as (o & Ho & E). exists o. split; [|done]. apply In_delete_rows. split; [done|].
    apply not_true_is_false. intros Hpo. by destruct (Hp o m Ho Hpo Hm).
  - intros o [Ho _]%In_delete_rows. by apply Hwf.
  - intros o [Ho _]%In_delete_rows. by apply Hwf.
  - intros o m [Ho _]%In_delete_rows. by apply Hwf.
  - intros o m [Ho _]%In_delete_rows. by apply Hwf.
Qed.
End Organisations.

(** ** Workspaces *)
Section Workspaces.
Context (joined : string -> Prop).
#[local] Abbreviation workspace_wf' := (workspace_wf_except joined).

Lemma workspace_wf_weaken (joined' : string -> Prop) ws ms :
  (forall id, joined id -> joined' id) -> workspace_wf' ws ms -> workspace_wf_except joined' ws ms.
Proof. intros Hj Hwf. split; try apply Hwf. intros w m Hw Hs Hm Hact. apply Hj. by eapply Hwf. Qed.
Lemma workspace_wf_unjoin ws ms p : workspace_wf' ws ms -> workspace_wf' ws (delete_rows p ms).
Proof.
  intros Hwf. split; try apply Hwf.
  - by apply ids_unique_delete, Hwf.
  - intros m [Hm _]%In_delete_rows. by apply Hwf.
  - intros w m Hw Hs [Hm _]%In_delete_rows. by apply Hwf.
  - intros s uid. etransitivity; [apply count_delete_le|apply Hwf].
Qed.
Lemma workspace_wf_remove ws ms p :
  workspace_wf' ws ms -> (forall w m, In w ws -> p w = true -> In m ms -> m_scope m <> w_id w) -> workspace_wf' (delete_rows p ws) ms.
Proof.
  intros Hwf Hp. split; try apply Hwf.
  - by apply ids_unique_delete, Hwf.
  - by apply NoDup_map_delete, Hwf.
  - intros m Hm. destruct (we_scopes _ _ _ Hwf m Hm) as (w & Hw & E). exists w. split; [|done]. apply In_delete_rows. split; [done|].
    apply not_true_is_false. intros Hpw. by destruct (Hp w m Hw Hpw Hm).
  - intros w [Hw _]%In_delete_rows. by apply Hwf.
  - intros w m [Hw _]%In_delete_rows. by apply Hwf.
Qed.
End Workspaces.

(** ** Products and grants *)
Lemma product_wf_insert ps es gs p : product_wf ps es gs -> products_ok ps p = true -> product_wf (ps ++ [p])%list es gs.
Proof.
  intros Hwf Hok. unfold products_ok in Hok. bool_hyps. split; try apply Hwf.
  - by apply NoDup_map_snoc; [apply Hwf|].
  - intros x [Hx|[<-|[]]]%in_app_or; [by apply Hwf|]. by unfold product_status_ok.
  - intros e He. destruct (pw_ent_product _ _ _ Hwf e He) as (x & ? & ?). exists x. split; [apply in_or_app; by left|done].
  - intros g Hg. destruct (pw_asg_product _ _ _ Hwf g Hg) as (x & ? & ?). exists x. split; [apply in_or_app; by left|done].
Qed.
Lemma product_wf_remove ps es gs p :
  product_wf ps es gs -> (forall x, In x ps -> p x = true -> (forall e, In e es -> e_product_key e <> p_key x)
    /\ (forall g, In g gs -> g_product_key g <> p_key x)) -> product_wf (delete_rows p ps) es gs.
Proof.
  intros Hwf Hp. split; try apply Hwf.
  - by apply NoDup_map_delete, Hwf.
  - intros x [Hx _]%In_delete_rows. by apply Hwf.
  - intros e He. destruct (pw_ent_product _ _ _ Hwf e He) as (x & Hx & E). exists x. split; [|done]. apply In_delete_rows. split; [done|].
    apply not_true_is_false. intros Hpx. by destruct (proj1 (Hp x Hx Hpx) e He).
  - intros g Hg. destruct (pw_asg_product _ _ _ Hwf g Hg) as (x & Hx & E). exists x. split; [|done]. apply In_delete_rows. split; [done|].
    apply not_true_is_false. intros Hpx. by destruct (proj2 (Hp x Hx Hpx) g Hg).
Qed.
Lemma product_wf_revoke_rows ps es gs p q : product_wf ps es gs -> product_wf ps (delete_rows p es) (delete_rows q gs).
Proof.
  intros Hwf. split; try apply Hwf.
  - by apply ids_unique_delete, Hwf.
  - by apply NoDup_map_delete, Hwf.
  - intros e [He _]%In_delete_rows. by apply Hwf.
  - intros e [He _]%In_delete_rows. by apply Hwf.
  - intros o key. etransitivity; [apply count_delete_le|apply Hwf].
  - by apply ids_unique_delete, Hwf.
  - by apply NoDup_map_delete, Hwf.
  - intros g [Hg _]%In_delete_rows. by apply Hwf.
  - intros g [Hg _]%In_delete_rows. by apply Hwf.
  - intros uid o key. etransitivity; [apply count_delete_le|apply Hwf].
Qed.
Lemma delete_none {R} (t : list R) : delete_rows (fun _ => false) t = t.
Proof. unfold delete_rows. induction t as [|x t IH]; [done|]. cbn. by f_equal. Qed.

(** ** Users *)
Lemma users_wf_delete t p : users_wf t -> users_wf (delete_rows p t).
Proof. intros Hwf. split; [by apply ids_unique_delete, Hwf|by apply NoDup_map_delete, Hwf]. Qed.

(** ** The transaction of a record *)
Section Records.
Context `{UnicodeTables}.

Lemma preserves_importActor P id : preserves P (importActorTx id).
Proof. unfold importActorTx. frame_tx. Qed.
Hint Resolve preserves_importActor : frame.
Lemma preserves_optionalImportActor P id : preserves P (optionalImportActorTx id).
Proof. unfold optionalImportActorTx. frame_ops. Qed.
Lemma preserves_product_exists P key : preserves P (product_exists key).
Proof. unfold product_exists. frame_tx. Qed.
Lemma preserves_insert_product (P : DB -> Prop) r :
  (forall db, P db -> products_ok (products db) r = true -> P (set_products (products db ++ [r])%list db)) -> preserves P (insert_product r).
Proof. intros HP db u db' [Hok ->]%insert_product_Ok Hdb. by apply HP. Qed.
Hint Resolve preserves_optionalImportActor preserves_product_exists : frame.
Hint Extern 1 (preserves _ (insert_product _)) => (apply preserves_insert_product; intros ? ? _; assumption) : frame.

(** A record's transaction, for an invariant of tables it does not write. *)
Ltac frame_record :=
  unfold applyProductionRecordTx, applyImportedUserTx, applyImportedOrganisationTx, applyImportedWorkspaceTx,
    applyImportedOrganisationMembershipTx, applyImportedWorkspaceMembershipTx, applyImportedMembershipTx,
    applyImportedProductTx, applyImportedEntitlementTx, applyImportedAssignmentTx, reconcile; frame_ops.

Lemma record_session record rand : preserves session_inv (applyProductionRecordTx record rand).
Proof. frame_record. Qed.
Lemma record_command record rand : preserves command_inv (applyProductionRecordTx record rand).
Proof. frame_record. Qed.
Lemma record_projection record rand : preserves projection_inv (applyProductionRecordTx record rand).
Proof. frame_record. Qed.
Lemma record_user record rand : preserves user_inv (applyProductionRecordTx record rand).
Proof. frame_record. by apply preserves_users_insert. Qed.

(** A foreign key to a product is checked. *)
Lemma product_exists_found key d u d' : product_exists key d = Ok (u, d') ->
  d' = d /\ exists p, In p (products d) /\ p_key p = key.
Proof.
  unfold product_exists. intros. inv_import. split; [done|].
  match goal with E : product_by_key _ _ = Some ?x |- _ => apply product_by_key_In in E as [Hin Hk]; by exists x end.
Qed.
(** The steps up to the row that was inserted. *)
Ltac inv_record :=
  inv_import;
  repeat match goal with
         | E : reconcile _ _ _ = Ok _ |- _ => apply reconcile_Ok in E; destruct E as (? & ? & ?); subst
         | E : importActorTx _ _ = Ok _ |- _ => apply importActorTx_Ok in E; destruct E as [? ?]; subst
         | E : optionalImportActorTx _ _ = Ok _ |- _ => apply optionalImportActorTx_Ok in E; destruct E as [? ?]; subst
         | E : product_exists _ _ = Ok _ |- _ => apply product_exists_found in E; destruct E as (? & ? & ? & ?); subst
         | E : insert_product _ _ = Ok _ |- _ => apply insert_product_Ok in E; destruct E; subst
         end; try assumption.
Lemma entitlement_product record rand : preserves product_inv (applyImportedEntitlementTx record rand).
Proof.
  intros db res db' Hop Hwf. unfold applyImportedEntitlementTx in Hop. destruct (pl_OrganisationEntitlement _) as [p|]; inv_record.
  strip_product_log product_inv_log. by eapply product_wf_entitle.
Qed.
Lemma assignment_product record rand : preserves product_inv (applyImportedAssignmentTx record rand).
Proof.
  intros db res db' Hop Hwf. unfold applyImportedAssignmentTx in Hop. destruct (pl_UserAssignment _) as [p|]; inv_record.
  strip_product_log product_inv_log. by eapply product_wf_assign.
Qed.
Hint Resolve entitlement_product assignment_product : frame.
Lemma record_product record rand : preserves product_inv (applyProductionRecordTx record rand).
Proof.
  unfold applyProductionRecordTx. frame_tx; [..|by auto with frame|by auto with frame].
  all: try solve [frame_record].
  unfold applyImportedProductTx, reconcile. frame_ops. apply preserves_insert_product. intros db Hdb Hok.
  by apply product_wf_insert.
Qed.

(** *** Events at valid times *)
(** The times the record's event is announced at are of a four-digit year. *)
Definition dated (r : ProductionManifestRecord) : Prop :=
  let p := rr_Payload r in
  (forall x, pl_User p = Some x -> four_digit_year (parseImportTime (up_CreatedAt x)))
  /\ (forall x, pl_Organisation p = Some x -> four_digit_year (parseImportTime (op_CreatedAt x)))
  /\ (forall x, pl_Workspace p = Some x -> four_digit_year (parseImportTime (wp_CreatedAt x)))
  /\ (forall x, pl_OrganisationMembership p = Some x -> four_digit_year (parseImportTime (mp_AssignedAt x)))
  /\ (forall x, pl_WorkspaceMembership p = Some x -> four_digit_year (parseImportTime (mp_AssignedAt x)))
  /\ (forall x, pl_Product p = Some x -> four_digit_year (parseImportTime (pp_CreatedAt x)))
  /\ (forall x, pl_OrganisationEntitlement p = Some x -> four_digit_year (parseImportTime (ep_GrantedAt x)))
  /\ (forall x, pl_UserAssignment p = Some x -> four_digit_year (parseImportTime (as_AssignedAt x))).
Lemma parseImportTimeValue_Ok v t : parseImportTimeValue v = Ok t -> t = parseImportTime v.
Proof. unfold parseImportTimeValue. destruct (IsZero _); congruence. Qed.
Ltac announced_at :=
  lazymatch goal with
  | |- preserves _ (appendPlatformEventTx _ _ _ _ _) => apply preserves_append
  | |- preserves _ (recordOrganisationAuditTx _ _ _ _ _ _) => apply outbox_organisation_audit
  | |- preserves _ (recordWorkspaceAuditTx _ _ _ _ _ _) => apply outbox_workspace_audit
  | |- preserves _ (recordProductAuditTx _ _ _ _ _ _) => apply outbox_product_audit
  | |- preserves _ (recordOrganisationProductAuditTx _ _ _ _ _ _) => apply outbox_organisation_product_audit
  end.
Lemma record_outbox record rand : dated record -> preserves outbox_inv (applyProductionRecordTx record rand).
Proof.
  intros (H1 & H2 & H3 & H4 & H5 & H6 & H7 & H8).
  unfold applyProductionRecordTx, applyImportedUserTx, applyImportedOrganisationTx, applyImportedWorkspaceTx,
    applyImportedOrganisationMembershipTx, applyImportedWorkspaceMembershipTx, applyImportedMembershipTx,
    applyImportedProductTx, applyImportedEntitlementTx, applyImportedAssignmentTx, reconcile. frame_tx.
  all: try solve [eauto with frame].
  all: repeat match goal with E : parseImportTimeValue _ = Ok _ |- _ => apply parseImportTimeValue_Ok in E; subst end.
  all: announced_at; cbn [mp_AssignedAt]; auto.
Qed.

(** *** Changes are announced *)
Lemma record_extends db record rand : preserves (extends db) (applyProductionRecordTx record rand).
Proof.
  frame_record; unfold_records; frame_tx; auto 2 with history.
Qed.
Hint Resolve preserves_importActor preserves_optionalImportActor preserves_product_exists : history.
Hint Extern 1 (preserves _ (insert_product _)) => (apply preserves_insert_product; intros ? ? _; assumption) : history.
(** Down to the row that is inserted and its event, or to the row found. *)
Ltac announce_step :=
  lazymatch goal with
  | |- announces (Prelude.fail _) => apply announces_emits, emits_fail
  | |- announces (reconcile _ _) => apply announces_quiet; intros ?; unfold reconcile; frame_tx
  | |- announces (if ?b then _ else _) => destruct b
  | |- announces (match ?x with Some _ => _ | None => _ end) => destruct x
  | |- announces (let (_, _) := ?x in _) => destruct x
  | |- announces (bind _ _) =>
      first [ apply announces_read; [intros ?; solve [frame_ops]|intros ?] | apply announces_emits; solve [emits_tx] ]
  end.
Lemma record_announces record rand : announces (applyProductionRecordTx record rand).
Proof.
  unfold applyProductionRecordTx, applyImportedUserTx, applyImportedOrganisationTx, applyImportedWorkspaceTx,
    applyImportedOrganisationMembershipTx, applyImportedWorkspaceMembershipTx, applyImportedMembershipTx,
    applyImportedProductTx, applyImportedEntitlementTx, applyImportedAssignmentTx.
  repeat (cbv beta zeta; announce_step).
Qed.

(** *** Organisations and workspaces, with the exceptions they need *)
Lemma organisation_org imported joined removable record rand o d d' :
  (oc_Created o = true -> imported (rr_PlatformID record)) ->
  applyImportedOrganisationTx record rand d = Ok (o, d') -> org_inv_except imported joined removable d ->
  org_inv_except imported joined removable d'.
Proof.
  intros Hi Hop Hwf. unfold applyImportedOrganisationTx in Hop. destruct (pl_Organisation _) as [p|]; inv_record.
  strip_log (org_inv_except_log imported joined removable). apply org_wf_import; [done..|]. bool_hyps.
  match goal with E : (op_ID p =s _) = true |- _ => apply String.eqb_eq in E end. cbn [o_public_id].
  match goal with E : op_ID p = _ |- _ => rewrite E end. by apply Hi.
Qed.
Lemma membership_org imported joined removable record rand o d d' :
  (oc_Created o = true -> joined (rr_PlatformID record)) ->
  applyImportedOrganisationMembershipTx record rand d = Ok (o, d') -> org_inv_except imported joined removable d ->
  org_inv_except imported joined (fun id => removable id \/ (oc_Created o = true /\ id = rr_PlatformID record)) d'.
Proof.
  intros Hj Hop Hwf. unfold applyImportedOrganisationMembershipTx, applyImportedMembershipTx in Hop.
  destruct (pl_OrganisationMembership _) as [p|]; inv_record.
  - eapply org_wf_weaken; [..|exact Hwf]; [done|done|]. intros id [?|[? _]]; [done|]. subst. done.
  - match goal with |- org_inv_except ?i ?j ?r _ => strip_log (org_inv_except_log i j r) end. bool_hyps.
    match goal with E : (mp_ID p =s _) = true |- _ => apply String.eqb_eq in E end.
    match goal with Ho : organisation_by_public_id _ _ = Some ?o, Hok : organisation_memberships_ok _ ?row = true |- _ =>
      apply find_some in Ho as [Ho _]; pose proof (org_wf_join _ _ _ _ _ row o Hwf Hok) as Hwf' end.
    eapply org_wf_weaken; [..|apply Hwf']; try done; cbn [imported_membership m_public_id mp_ID].
    + intros id [?|[_ ->]]; [by left|by right].
    + match goal with E : mp_ID p = _ |- _ => rewrite E end. by apply Hj.
Qed.
(** The workspace's row, and its members. *)
Lemma workspace_workspace joined record rand : preserves (workspace_inv_except joined) (applyImportedWorkspaceTx record rand).
Proof.
  intros db res db' Hop Hwf. unfold applyImportedWorkspaceTx in Hop. destruct (pl_Workspace _) as [p|]; inv_record.
  strip_workspace_log (workspace_inv_except_log joined). by apply workspace_wf_insert.
Qed.
Lemma membership_workspace joined record rand o d d' :
  (oc_Created o = true -> joined (rr_PlatformID record)) ->
  applyImportedWorkspaceMembershipTx record rand d = Ok (o, d') -> workspace_inv_except joined d -> workspace_inv_except joined d'.
Proof.
  intros Hj Hop Hwf. unfold applyImportedWorkspaceMembershipTx, applyImportedMembershipTx in Hop.
  destruct (pl_WorkspaceMembership _) as [p|]; inv_record.
  strip_workspace_log (workspace_inv_except_log joined). bool_hyps.
  match goal with E : (mp_ID p =s _) = true |- _ => apply String.eqb_eq in E end.
  match goal with Hw : workspace_by_public_id _ _ = Some ?w |- _ => apply find_some in Hw as [Hw _] end.
  eapply workspace_wf_add; [done..|]. right. cbn [imported_membership m_public_id mp_ID].
  match goal with E : mp_ID p = _ |- _ => rewrite E end. by apply Hj.
Qed.
Lemma record_org imported joined removable record rand o d d' :
  (rr_Entity record = ProductionEntityOrganisation -> oc_Created o = true -> imported (rr_PlatformID record)) ->
  (rr_Entity record = ProductionEntityOrganisationMembership -> oc_Created o = true -> joined (rr_PlatformID record)) ->
  applyProductionRecordTx record rand d = Ok (o, d') -> org_inv_except imported joined removable d ->
  org_inv_except imported joined (fun id => removable id
    \/ (rr_Entity record = ProductionEntityOrganisationMembership /\ oc_Created o = true /\ id = rr_PlatformID record)) d'.
Proof.
  intros Hi Hj Hop Hwf. unfold applyProductionRecordTx in Hop.
  assert (forall m : St DB error _, preserves (org_inv_except imported joined removable) m -> m d = Ok (o, d') ->
    rr_Entity record <> ProductionEntityOrganisationMembership ->
    org_inv_except imported joined (fun id => removable id
      \/ (rr_Entity record = ProductionEntityOrganisationMembership /\ oc_Created o = true /\ id = rr_PlatformID record)) d') as Hother.
  { intros m Hm Hr Hne. eapply org_wf_weaken; [..|by apply (Hm _ _ _ Hr)]; [done|done|]. intros id [?|[? _]]; done. }
  repeat match type of Hop with
         | context [if rr_Entity record =s ?k then _ else _] => destruct (String.eqb_spec (rr_Entity record) k) as [E|?]
         end; [| | | | | | | |by apply fail_Ok in Hop].
  all: try solve [match type of Hop with ?m _ = _ => apply (Hother m); [frame_record|exact Hop|by rewrite E] end].
  - eapply org_wf_weaken; [..|eapply organisation_org; [|exact Hop|exact Hwf]]; [done|done| |by apply Hi].
    intros id [?|[Ho _]]; [done|by rewrite E in Ho].
  - eapply org_wf_weaken; [..|eapply membership_org; [|exact Hop|exact Hwf]]; [done|done| |by apply Hj].
    intros id [?|(_ & ? & ?)]; [by left|by right].
Qed.
Lemma record_workspace joined record rand o d d' :
  (rr_Entity record = ProductionEntityWorkspaceMembership -> oc_Created o = true -> joined (rr_PlatformID record)) ->
  applyProductionRecordTx record rand d = Ok (o, d') -> workspace_inv_except joined d -> workspace_inv_except joined d'.
Proof.
  intros Hj Hop Hwf. unfold applyProductionRecordTx in Hop.
  repeat match type of Hop with
         | context [if rr_Entity record =s ?k then _ else _] => destruct (String.eqb_spec (rr_Entity record) k) as [E|?]
         end; [| | | | | | | |by apply fail_Ok in Hop].
  3: by apply (workspace_workspace _ _ _ _ _ _ Hop).
  4: by eapply membership_workspace; [by apply Hj|exact Hop|].
  all: match type of Hop with ?m _ = _ =>
         assert (preserves (workspace_inv_except joined) m) as Hm by frame_record; by apply (Hm _ _ _ Hop) end.
Qed.
End Records.

(** ** The deletion that takes a record back *)
Lemma select_one {R} (p : R -> bool) t r x : select p t = [r] -> In x t -> p x = true -> x = r.
Proof. intros Hs Hx Hp. assert (In x (select p t)) as Hin by (by apply filter_In). rewrite Hs in Hin. by destruct Hin as [<-|[]]. Qed.
Section Deleting.
Context (entity publicID : string) (d d' : DB) (u : unit).
Hypothesis Hrun : deleteImportedRecordTx entity publicID d = Ok (u, d').

(** The table whose row goes, with what refers to it, or any other table. *)
Ltac deleted :=
  unfold deleteImportedRecordTx in Hrun;
  repeat match type of Hrun with
         | context [if entity =s ?k then _ else _] => destruct (String.eqb_spec entity k) as [?|?]
         end; [..|by apply fail_Ok in Hrun]; apply delete_one_Ok in Hrun; destruct Hrun as (r & Hsel & Href & ->); try assumption.
Lemma delete_user : user_inv d -> user_inv d'.
Proof. intros Hwf. deleted. by apply users_wf_delete. Qed.
Lemma delete_session : session_inv d -> session_inv d'.
Proof. intros Hwf. deleted. by apply sessions_wf_delete. Qed.
Lemma delete_command : command_inv d -> command_inv d'.
Proof. intros Hwf. deleted. Qed.
Lemma delete_projection : projection_inv d -> projection_inv d'.
Proof. intros Hwf. deleted. Qed.
Lemma delete_outbox : outbox_inv d -> outbox_inv d'.
Proof. intros Hwf. deleted. Qed.
Lemma delete_product : product_inv d -> product_inv d'.
Proof.
  intros Hwf. deleted.
  - apply product_wf_remove; [done|]. intros x Hx Hp. apply (select_one _ _ _ x Hsel Hx) in Hp as ->.
    unfold product_referenced in Href. apply orb_false_iff in Href as [He Hg].
    split; intros y Hy E; [revert He|revert Hg]; apply not_false_iff_true, existsb_exists; exists y; by rewrite E, String.eqb_refl.
  - pose proof (product_wf_revoke_rows _ _ _ (fun e => e_public_id e =s publicID) (fun _ => false) Hwf) as H. by rewrite delete_none in H.
  - pose proof (product_wf_revoke_rows _ _ _ (fun _ => false) (fun g => g_public_id g =s publicID) Hwf) as H. by rewrite delete_none in H.
Qed.
Lemma delete_org imported joined (removable removable' : string -> Prop) :
  (entity = ProductionEntityOrganisationMembership -> removable publicID) ->
  (forall x, removable' x -> removable x /\ (entity = ProductionEntityOrganisationMembership -> x <> publicID)) ->
  org_inv_except imported joined removable d -> org_inv_except imported joined removable' d'.
Proof.
  intros Hr Hr' Hwf. assert (org_inv_except imported joined removable' d) as Hw.
  { eapply org_wf_weaken; [..|exact Hwf]; [done|done|]. by intros id [? _]%Hr'. }
  deleted.
  - apply org_wf_remove; [done|]. intros o m Ho Hp Hm E. apply (select_one _ _ _ o Hsel Ho) in Hp as ->.
    unfold organisation_referenced in Href. rewrite !orb_false_iff in Href. destruct Href as [[[Hf _] _] _].
    revert Hf. apply not_false_iff_true, existsb_exists. exists m. by rewrite E, Z.eqb_refl.
  - eapply org_wf_unjoin; [exact Hwf|by apply Hr|]. intros x Hx. destruct (Hr' x Hx) as [? Hne]. split; [done|]. by apply Hne.
Qed.
Lemma delete_workspace joined : workspace_inv_except joined d -> workspace_inv_except joined d'.
Proof.
  intros Hwf. deleted; [|by apply workspace_wf_unjoin].
  apply workspace_wf_remove; [done|]. intros w m Hw Hp Hm E. apply (select_one _ _ _ w Hsel Hw) in Hp as ->.
  unfold workspace_referenced in Href. revert Href. apply not_false_iff_true, existsb_exists. exists m. by rewrite E, Z.eqb_refl.
Qed.
End Deleting.
