(* ===== verification/ImportSystem.v ===== *)
(** The whole store with the production import: the transactions that change it, the
    platform's own, the import's and the rollback's, in any order, with the
    consistency of every component in each state they reach, and the events that
    announce what they change. *)
From stdpp Require Import base tactics option list strings relations.
From Stdlib Require Import ZArith Lia Ascii String.
From S2P Require Import Prelude GoStrings GoTime Codec Errors Domain Events Schema Outbox Auth Assertion Identity.
From S2P Require Import Mfa Organisation Workspace Product Command Projection Announce System Reconciliation Production.
From S2P Require Import Import ImportLaws ImportKeeps.

Local Open Scope string_scope.
Local Open Scope Z_scope.

(** ** What the import may leave behind *)
(** The identifiers of the records that an import created, taken back or not. *)
Definition created_as (entity : string) (s : ImportStore) (id : string) : Prop :=
  exists r, In r (im_records s) /\ ri_entity_kind r = entity /\ ri_created_by_import r = true /\ ri_platform_id r = id.
(** The memberships of organisations that an import created and did not take back. *)
Definition live_member (r : ImportRecordRow) : bool :=
  (ri_entity_kind r =s ProductionEntityOrganisationMembership) && created_row r.
Definition live_members (s : ImportStore) : list string := map ri_platform_id (select live_member (im_records s)).
Definition record_key (r : ImportRecordRow) : string * Z := (ri_manifest_id r, ri_record_order r).

(** Every component is consistent: an active organisation that no import created has
    exactly one owner, no organisation has two, and only members that an import
    created are active in archived organisations and workspaces. *)
Record consistent (s : ImportStore) : Prop := {
  co_users : user_inv (im_db s);
  co_sessions : session_inv (im_db s);
  co_organisations : org_inv_except (created_as ProductionEntityOrganisation s)
    (created_as ProductionEntityOrganisationMembership s) (fun id => In id (live_members s)) (im_db s);
  co_workspaces : workspace_inv_except (created_as ProductionEntityWorkspaceMembership s) (im_db s);
  co_products : product_inv (im_db s);
  co_commands : command_inv (im_db s);
  co_outbox : outbox_inv (im_db s);
  co_projections : projection_inv (im_db s);
  co_live : NoDup (live_members s);
  co_keys : NoDup (map record_key (im_records s)) }.

Definition empty_store : ImportStore := mkImportStore empty_db [] [] [].
Lemma consistent_empty : consistent empty_store.
Proof.
  split; [split; constructor|split; [constructor|constructor|done]| | |apply product_inv_empty|apply command_inv_empty
         |apply outbox_inv_empty|apply projection_inv_empty|constructor|constructor].
  - eapply org_wf_weaken; [..|apply org_wf_iff, org_inv_empty]; [done|done|]. by intros id [].
  - eapply workspace_wf_weaken; [|apply workspace_wf_iff, workspace_inv_empty]. done.
Qed.
(** Where no import created anything the exceptions are empty. *)
Lemma consistent_strict s : consistent s -> (forall r, In r (im_records s) -> ri_created_by_import r = false) ->
  org_inv (im_db s) /\ workspace_inv (im_db s).
Proof.
  intros Hc Hnone. assert (forall entity id, created_as entity s id -> nobody id) as Hempty.
  { intros entity id (r & Hr & _ & Hcr & _). by rewrite (Hnone r Hr) in Hcr. }
  split.
  - apply org_wf_iff. eapply org_wf_weaken; [..|exact (co_organisations _ Hc)]; [by apply Hempty|by apply Hempty|done].
  - apply workspace_wf_iff. eapply workspace_wf_weaken; [|exact (co_workspaces _ Hc)]. by apply Hempty.
Qed.

(** ** The transactions *)
Section Transactions.
Context `{UnicodeTables} `{Crypto} `{Ed25519} (secretKey : string).

(** One committed transaction: of a method of the platform, the provisioning of
    system roles, the start of an import's run, one record of a manifest, the receipt
    of a run, or one compensation of a rollback, of a record that is to be taken back. *)
Inductive transaction : ImportStore -> ImportStore -> Prop :=
| commit_operation A (m : St DB error A) a d s :
    operation secretKey A m -> m (im_db s) = Ok (a, d) -> transaction s (set_im_db d s)
| commit_provision roles s : transaction s (set_im_db (set_system_role_assignments roles (im_db s)) s)
| commit_run m execution at_ s run s' :
    loadOrCreateProductionRun secretKey m execution at_ s = Ok (run, s') -> transaction s s'
| commit_record m execution at_ index record rand s u s' :
    dated record -> applyProductionRecord secretKey m execution at_ index record rand s = Ok (u, s') -> transaction s s'
| commit_receipt m execution run at_ s receipt s' :
    persistProductionRunReceipt secretKey m execution run at_ s = Ok (receipt, s') -> transaction s s'
| commit_compensation m at_ item s u s' :
    In item (compensations (pm_ManifestID m) s) -> compensate m at_ item s = Ok (u, s') -> transaction s s'.

Lemma consistent_same s s' : im_db s' = im_db s -> im_records s' = im_records s -> consistent s -> consistent s'.
Proof.
  destruct s as [d runs records comps], s' as [d' runs' records' comps']. cbn. intros -> -> [].
  split; assumption.
Qed.

(** *** The platform's methods *)
Lemma operation_consistent A (m : St DB error A) a d s :
  operation secretKey A m -> m (im_db s) = Ok (a, d) -> consistent s -> consistent (set_im_db d s).
Proof.
  intros Hop Hm Hc. destruct s as [db runs records comps]. destruct Hc. cbn in *. split; try assumption; cbn [im_db set_im_db].
  - by eapply (operation_user secretKey).
  - by eapply (operation_session secretKey).
  - by eapply (operation_org_except secretKey).
  - by eapply (operation_workspace_except secretKey).
  - by eapply (operation_product secretKey).
  - by eapply (operation_command secretKey).
  - by eapply (operation_outbox secretKey).
  - by eapply (operation_projection secretKey).
Qed.

(** *** A record *)
Lemma created_as_snoc entity s s' r id : im_records s' = (im_records s ++ [r])%list ->
  created_as entity s id -> created_as entity s' id.
Proof. intros E (x & Hx & Hrest). exists x. rewrite E. split; [apply in_app_iff; by left|done]. Qed.
Lemma created_as_new s s' m at_ index record o : im_records s' = (im_records s ++ [ledger_row m at_ index record o])%list ->
  oc_Created o = true -> created_as (rr_Entity record) s' (rr_PlatformID record).
Proof. intros E Ho. eexists. rewrite E. split; [apply in_app_iff; right; by left|]. done. Qed.
Lemma live_members_snoc s s' m at_ index record o : im_records s' = (im_records s ++ [ledger_row m at_ index record o])%list ->
  live_members s' = (live_members s
    ++ if (rr_Entity record =s ProductionEntityOrganisationMembership) && oc_Created o then [rr_PlatformID record] else [])%list.
Proof.
  intros E. unfold live_members. rewrite E, select_snoc, map_app. f_equal. unfold live_member, created_row.
  cbn [ledger_row ri_entity_kind ri_created_by_import ri_compensated]. rewrite andb_true_r. by destruct (_ && _).
Qed.
Lemma record_consistent m execution at_ index record rand s u s' :
  dated record -> applyProductionRecord secretKey m execution at_ index record rand s = Ok (u, s') -> consistent s -> consistent s'.
Proof.
  intros Hdated Hrun Hc. apply apply_record_Ok in Hrun as (o & d & row & Htx & _ & Hok & _ & ->).
  set (s' := mkImportStore _ _ _ _).
  assert (im_records s' = (im_records s ++ [ledger_row m at_ index record o])%list) as Hrec by done.
  pose proof (live_members_snoc _ _ _ _ _ _ _ Hrec) as Hlive. pose proof (created_as_new _ _ _ _ _ _ _ Hrec) as Hnew.
  pose proof (fun entity id => created_as_snoc entity s s' _ id Hrec) as Hold.
  assert (rr_Entity record = ProductionEntityOrganisation -> oc_Created o = true ->
    created_as ProductionEntityOrganisation s' (rr_PlatformID record)) as Hi by (intros <-; exact Hnew).
  assert (rr_Entity record = ProductionEntityOrganisationMembership -> oc_Created o = true ->
    created_as ProductionEntityOrganisationMembership s' (rr_PlatformID record)) as Hj by (intros <-; exact Hnew).
  split; cbn [s' im_db].
  - by apply (record_user _ _ _ _ _ Htx), Hc.
  - by apply (record_session _ _ _ _ _ Htx), Hc.
  - eapply org_wf_weaken; [..|eapply (record_org (created_as ProductionEntityOrganisation s')
      (created_as ProductionEntityOrganisationMembership s') (fun id => In id (live_members s)) _ _ _ _ _ Hi Hj Htx)]; [done|done|..].
    + intros id. rewrite Hlive, in_app_iff. intros [Hid|Hid]; [by left|right].
      destruct (String.eqb_spec (rr_Entity record) ProductionEntityOrganisationMembership), (oc_Created o); try done.
      by destruct Hid as [<-|[]].
    + eapply org_wf_weaken; [..|apply Hc]; auto.
  - eapply record_workspace; [|exact Htx|eapply workspace_wf_weaken; [|apply Hc]; auto]. intros E Ho. rewrite <-E. by apply Hnew.
  - by apply (record_product _ _ _ _ _ Htx), Hc.
  - by apply (record_command _ _ _ _ _ Htx), Hc.
  - by apply (record_outbox _ _ Hdated _ _ _ Htx), Hc.
  - by apply (record_projection _ _ _ _ _ Htx), Hc.
  - rewrite Hlive. destruct (_ && _) eqn:E; [|rewrite app_nil_r; apply Hc]. bool_hyps.
    apply NoDup_app. split; [apply Hc|]. split; [|apply NoDup_singleton].
    intros id Hid ->%list_elem_of_singleton. apply list_elem_of_In in Hid.
    apply (oe_live _ _ _ _ _ (co_organisations _ Hc)) in Hid.
    destruct (record_exact _ _ _ _ _ Htx) as [(-> & _)|(_ & _ & (Hn & _) & _)]; [done|]. apply Hn.
    match goal with Hk : (rr_Entity record =s _) = true |- _ => apply String.eqb_eq in Hk; rewrite Hk end. exact Hid.
  - cbn [s' im_records]. rewrite map_app. apply NoDup_app. split; [apply Hc|]. split; [|apply NoDup_singleton].
    intros k Hk ->%list_elem_of_singleton. apply list_elem_of_In, in_map_iff in Hk as (r & Hr & Hin).
    unfold import_records_ok in Hok. bool_hyps.
    match goal with Hf : fresh (fun x => _ && (ri_record_order x =? _)) _ = true |- _ => rewrite fresh_spec in Hf; specialize (Hf r Hin) end.
    injection Hr as Hm Ho. by rewrite Hm, Ho, String.eqb_refl, Z.eqb_refl in *.
Qed.

(** *** A compensation *)
(** The row of the ledger is marked, and it is no longer live. *)
Lemma live_compensated p t :
  map ri_platform_id (select live_member (update p compensated t))
  = map ri_platform_id (List.filter (fun r => negb (p r)) (select live_member t)).
Proof.
  unfold select, update. induction t as [|r t IH]; [done|]. cbn [map List.filter]. destruct (p r) eqn:Ep.
  - assert (live_member (compensated r) = false) as -> by (unfold live_member, created_row; cbn; by rewrite !andb_false_r).
    destruct (live_member r); cbn [List.filter map]; rewrite ?Ep; exact IH.
  - destruct (live_member r) eqn:El; cbn [List.filter map]; rewrite ?El, ?Ep; cbn [negb map]; by rewrite IH.
Qed.
Lemma created_as_compensated entity s s' p id : im_records s' = update p compensated (im_records s) ->
  created_as entity s id -> created_as entity s' id.
Proof.
  intros E (r & Hr & Hk & Hc & Hid). exists (if p r then compensated r else r). rewrite E. split; [apply in_update; eauto|].
  by destruct (p r).
Qed.
Lemma in_compensations id item s : In item (compensations id s) <-> In item (im_records s) /\ compensable id item = true.
Proof. unfold compensations. by rewrite in_sort_by, filter_In. Qed.
Lemma compensation_consistent m at_ item s u s' :
  In item (compensations (pm_ManifestID m) s) -> compensate m at_ item s = Ok (u, s') -> consistent s -> consistent s'.
Proof.
  intros [Hin Hcomp]%in_compensations Hrun Hc. apply compensate_Ok in Hrun as (d & Hdel & <- & _ & Hrec).
  set (p := compensated_at m (ri_record_order item)) in *. assert (p item = true) as Hp by (unfold p, compensated_at; by rewrite Hcomp, Z.eqb_refl).
  assert (live_members s' = map ri_platform_id (List.filter (fun r => negb (p r)) (select live_member (im_records s)))) as Hlive
    by (unfold live_members; rewrite Hrec; apply live_compensated).
  assert (ri_entity_kind item = ProductionEntityOrganisationMembership -> In item (select live_member (im_records s))) as Hitem.
  { intros E. apply filter_In. split; [done|]. unfold live_member, created_row. rewrite E, String.eqb_refl.
    unfold compensable in Hcomp. bool_hyps.
    by repeat match goal with E : ri_created_by_import _ = _ |- _ => rewrite E | E : ri_compensated _ = _ |- _ => rewrite E end. }
  pose proof (fun entity id => created_as_compensated entity s s' p id Hrec) as Hold.
  split.
  - by eapply delete_user, Hc.
  - by eapply delete_session, Hc.
  - eapply org_wf_weaken with (removable := fun id => In id (live_members s')); [..|eapply delete_org; [exact Hdel|..|apply Hc]].
    + apply Hold.
    + apply Hold.
    + done.
    + intros E%Hitem. by apply in_map.
    + rewrite Hlive. intros x (r & <- & [Hr Hpr]%filter_In)%in_map_iff. split; [by apply in_map|]. intros E%Hitem Heq.
      assert (r = item) as -> by (eapply (NoDup_map_inj_in ri_platform_id); [apply Hc|done..]). by rewrite Hp in Hpr.
  - eapply workspace_wf_weaken; [apply Hold|]. by eapply delete_workspace, Hc.
  - by eapply delete_product, Hc.
  - by eapply delete_command, Hc.
  - by eapply delete_outbox, Hc.
  - by eapply delete_projection, Hc.
  - rewrite Hlive. apply NoDup_map_filter, Hc.
  - rewrite Hrec, map_update by done. apply Hc.
Qed.

Lemma transaction_consistent s s' : transaction s s' -> consistent s -> consistent s'.
Proof.
  destruct 1 as [A m a d s Hop Hm|roles s|m execution at_ s run s' Hr|m execution at_ index record rand s u s' Hd Hr
                |m execution run at_ s receipt s' Hr|m at_ item s u s' Hin Hr]; intros Hc.
  - by eapply operation_consistent.
  - destruct s as [db runs records comps], Hc. cbn in *. by split.
  - apply loadOrCreate_Ok in Hr as [[-> _]|(_ & _ & ->)]; [done|]. by apply (consistent_same s).
  - by eapply record_consistent.
  - apply persist_Ok in Hr as [_ ->]. by apply (consistent_same s).
  - by eapply compensation_consistent.
Qed.

(** ** The calls of the import are such transactions *)
Lemma loop_transactions m execution at_ rs budget rest run s r s' :
  Forall dated rest -> apply_loop secretKey m execution at_ rs budget rest run s = (r, s') -> rtc transaction s s'.
Proof.
  revert rest run s. induction budget as [|budget IH]; intros rest run s Hd; cbn [apply_loop]; [by intros [= _ <-]|].
  destruct rest as [|record rest]; [by intros [= _ <-]|]. apply Forall_cons in Hd as [Hd Hrest].
  destruct (exec_cases (applyProductionRecord secretKey m execution at_ (st_NextIndex run) record (rs (st_NextIndex run))) s)
    as [(u & s1 & E & ->)|(e & _ & ->)]; [|by intros [= _ <-]].
  destruct (productionRecordOutcome _ _ s1) as [[outcome created]|].
  - intros Hr. eapply rtc_l; [by eapply commit_record|by eapply IH].
  - intros [= _ <-]. apply rtc_once. by eapply commit_record.
Qed.
Lemma import_transactions signed publicKey execution at_ limit rs s :
  Forall dated (pm_Records (sp_Manifest signed)) ->
  rtc transaction s (ApplyProductionImport secretKey signed publicKey execution at_ limit rs s).2.
Proof.
  intros Hd. unfold ApplyProductionImport. destruct (IsZero at_); [done|]. destruct (let? _ := _ in _); [|done].
  destruct (len secretKey <? 32); [done|].
  destruct (exec_cases (loadOrCreateProductionRun secretKey (sp_Manifest signed) execution at_) s) as [(run & s1 & Hs & ->)|(e & _ & ->)];
    [|done].
  eapply rtc_l; [by eapply commit_run|]. destruct (_ =s "rolled_back"); [done|]. destruct (_ =s "completed"); [done|].
  destruct (apply_loop _ _ _ _ _ _ _ run s1) as [r s2] eqn:El. apply loop_transactions in El; [|by apply Forall_drop].
  destruct r as [run2|]; [|done]. etransitivity; [exact El|].
  match goal with |- context [exec ?x s2] => destruct (exec_cases x s2) as [(receipt & s3 & Hp & ->)|(e & _ & ->)] end; [|done].
  apply rtc_once. by eapply commit_receipt.
Qed.
Lemma compensations_transactions m at_ items s r s' :
  (forall item, In item items -> In item (compensations (pm_ManifestID m) s)) -> NoDup (map ri_record_order items) ->
  compensate_all m at_ items s = (r, s') -> rtc transaction s s'.
Proof.
  revert s. induction items as [|item items IH]; intros s Hin Hd; cbn [compensate_all]; [by intros [= _ <-]|].
  cbn [map] in Hd. apply NoDup_cons in Hd as [Hn Hd].
  destruct (exec_cases (compensate m at_ item) s) as [(u & s1 & E & ->)|(e & _ & ->)]; [|by intros [= _ <-]].
  intros Hr. eapply rtc_l; [eapply commit_compensation; [by apply Hin; left|exact E]|]. eapply IH; [|done|exact Hr].
  apply compensate_Ok in E as (d & _ & _ & _ & Hrec).
  intros x Hx. pose proof (Hin x (or_intror Hx)) as [Hxs Hxc]%in_compensations. apply in_compensations. split; [|done].
  rewrite Hrec. apply in_update. exists x. split; [done|]. unfold compensated_at. rewrite Hxc.
  destruct (Z.eqb_spec (ri_record_order x) (ri_record_order item)) as [Heq|]; [|done].
  destruct Hn. rewrite <-Heq. by apply list_elem_of_In, in_map.
Qed.
Lemma compensations_once id s : consistent s -> NoDup (map ri_record_order (compensations id s)).
Proof.
  intros Hc. unfold compensations. rewrite sort_by_Permutation. apply (NoDup_fmap_1 (pair id)).
  assert (forall l, (forall r, In r l -> ri_manifest_id r = id) -> pair id <$> map ri_record_order l = map record_key l) as Hl.
  { intros l Hl. unfold fmap. rewrite <-list_fmap_compose. apply map_ext_in. intros r Hr. unfold record_key. cbn. by rewrite (Hl r Hr). }
  rewrite Hl; [apply NoDup_map_filter, Hc|]. intros r [_ Hr]%filter_In. unfold compensable in Hr. bool_hyps. by apply String.eqb_eq.
Qed.
Lemma rollback_transactions signed publicKey execution at_ s :
  consistent s -> rtc transaction s (RollbackProductionImport secretKey signed publicKey execution at_ s).2.
Proof.
  intros Hc. destruct (RollbackProductionImport _ _ _ _ _ s) as [r s'] eqn:E. cbn [snd].
  assert (forall r0 s1, compensate_all (sp_Manifest signed) at_ (compensations (pm_ManifestID (sp_Manifest signed)) s) s = (r0, s1) ->
    rtc transaction s s1) as Hall by (intros r0 s1; apply compensations_transactions; [done|by apply compensations_once]).
  apply rollback_cases in E as [[-> _]|(row & s1 & _ & _ & [(e & Hcomp & _ & ->)|[Hcomp Hp]])]; [done|by eapply Hall|].
  etransitivity; [by eapply Hall|]. match type of Hp with exec ?x s1 = _ => destruct (exec_cases x s1) as [(u & s2 & Hr & Ee)|(e & _ & Ee)] end;
    rewrite Ee in Hp; injection Hp as _ <-; [|done]. apply rtc_once. by eapply commit_receipt.
Qed.

(** ** Every state the store can reach *)
(** A transaction, or a whole call of the import or of the rollback, whatever they
    return; a call that is interrupted is the transactions it committed. *)
Inductive store_step : ImportStore -> ImportStore -> Prop :=
| step_transaction s s' : transaction s s' -> store_step s s'
| step_ApplyProductionImport signed publicKey execution at_ limit rs s :
    Forall dated (pm_Records (sp_Manifest signed)) ->
    store_step s (ApplyProductionImport secretKey signed publicKey execution at_ limit rs s).2
| step_RollbackProductionImport signed publicKey execution at_ s :
    store_step s (RollbackProductionImport secretKey signed publicKey execution at_ s).2.
Lemma step_consistent s s' : store_step s s' -> consistent s -> consistent s'.
Proof.
  intros Hstep Hc. assert (rtc transaction s s') as Hrun.
  { destruct Hstep; [by apply rtc_once|by apply import_transactions|by apply rollback_transactions]. }
  clear Hstep. induction Hrun as [|s s1 s' Ht _ IH]; [done|]. by apply IH, (transaction_consistent s).
Qed.

(** C1: in every state the store can reach from an empty database, by any transactions
    of the platform's methods and of the production import and its rollback, complete or
    interrupted, in any order, every component is consistent. Rowids and public
    identifiers are unique; sessions are bounded; an organisation never has two owners,
    and an active one has exactly one unless an import created it; a user is a current
    member of an organisation or workspace at most once, and only members that an import
    created are active in an archived one; grants are current at most once; stored
    command results are unique per key; outbox events are valid and numbered without
    gaps; and every projection has applied its streams in order. Where no import created
    a record there is no exception: every active organisation has exactly one owner and
    archived organisations and workspaces have no active members. The snapshots and
    nonces of the read authority are in tables of their own, which this state leaves out. *)
Theorem store_consistent s : rtc store_step empty_store s ->
  consistent s
  /\ ((forall r, In r (im_records s) -> ri_created_by_import r = false) -> org_inv (im_db s) /\ workspace_inv (im_db s)).
Proof.
  intros Hrun. assert (consistent s) as Hc; [|split; [done|by apply consistent_strict]].
  assert (forall s0, rtc store_step s0 s -> consistent s0 -> consistent s) as Hall; [|by apply (Hall _ Hrun), consistent_empty].
  clear. intros s0 Hrun. induction Hrun as [|s0 s1 s Hstep _ IH]; [done|]. intros Hc. by apply IH, (step_consistent s0).
Qed.

(** ** Changes and their events *)
(** C9: no change goes unannounced but a rollback's. A transaction, of the platform or of
    the production import, that changes any organisation, workspace, membership, product,
    entitlement, assignment or the status of any user has appended at least one event to
    the outbox, or it is the compensation of one record of an import: then exactly the
    row that the record created is gone, and the outbox is as it was. *)
Theorem store_changes_announced s s' : transaction s s' -> directory (im_db s') <> directory (im_db s) ->
  announced (im_db s) (im_db s')
  \/ exists m at_ item u, In item (compensations (pm_ManifestID m) s) /\ compensate m at_ item s = Ok (u, s')
       /\ row_deleted (ri_entity_kind item) (ri_platform_id item) (im_db s) (im_db s') /\ outbox (im_db s') = outbox (im_db s).
Proof.
  destruct 1 as [A m a d s Hop Hm|roles s|m execution at_ s run s' Hr|m execution at_ index record rand s u s' Hd Hr
                |m execution run at_ s receipt s' Hr|m at_ item s u s' Hin Hr]; intros Hne.
  - left. eapply announces_announced; [intros db; by eapply operation_extends|by eapply operation_announces|exact Hm|exact Hne].
  - done.
  - apply loadOrCreate_Ok in Hr as [[-> _]|(_ & _ & ->)]; done.
  - apply apply_record_Ok in Hr as (o & d & row & Htx & _ & _ & _ & ->). left.
    eapply announces_announced; [intros db; apply record_extends|apply record_announces|exact Htx|exact Hne].
  - apply persist_Ok in Hr as [_ ->]. done.
  - right. exists m, at_, item, u. split; [done|]. split; [done|].
    apply compensate_Ok in Hr as (d & Hdel & <- & _). by apply delete_exact in Hdel as [? [? _]].
Qed.
End Transactions.

(** ** An import, and what a rollback does not announce *)
#[local] Existing Instances ascii_tables toy_crypto toy_crypto_laws Assertion.Sample.toy_ed25519 Assertion.Sample.toy_laws.
Module Rollout.
Definition started : ImportStore := Eval vm_compute in
  snd (exec (loadOrCreateProductionRun Migration.secret (sp_Manifest Migration.signed) Plan.execution Migration.at_) empty_store).
Definition first_record := applyProductionRecord Migration.secret (sp_Manifest Migration.signed) Plan.execution Migration.at_ 0
  (Plan.user "create_or_reconcile") (Migration.rs 0).
Definition registered : ImportStore := Eval vm_compute in snd (exec first_record started).
Lemma registered_runs : first_record started = Ok (tt, registered).
Proof. vm_compute. reflexivity. Qed.
Lemma all_applied : (Migration.apply 0 empty_store).2 = Migration.all.
Proof. vm_compute. reflexivity. Qed.
Ltac dates := split_and!; intros x Hx; try discriminate Hx; injection Hx as <-; vm_compute; intuition discriminate.
Lemma user_dated : dated (Plan.user "create_or_reconcile").
Proof. unfold dated. dates. Qed.
Lemma plan_dated : Forall dated (pm_Records (sp_Manifest Migration.signed)).
Proof.
  cbn [Migration.signed sp_Manifest pm_Records]. repeat (apply Forall_cons; split); [..|apply Forall_nil_2]; unfold dated; dates.
Qed.
End Rollout.
(** The imported organisation is active and has no owner. *)
Lemma store_consistent_witness :
  consistent Migration.all /\ map o_status (organisations (im_db Migration.all)) = [OrganisationActive]
  /\ organisation_memberships (im_db Migration.all) = [].
Proof.
  split; [|split; reflexivity].
  apply (store_consistent Migration.secret Migration.all). rewrite <-Rollout.all_applied.
  apply rtc_once. apply step_ApplyProductionImport. exact Rollout.plan_dated.
Defined.
Lemma store_changes_announced_witness : announced (im_db Rollout.started) (im_db Rollout.registered)
  /\ map u_public_id (users (im_db Rollout.registered)) = ["usr_1"].
Proof.
  split; [|reflexivity].
  destruct (store_changes_announced Migration.secret Rollout.started Rollout.registered) as [Ha|(m & at_ & item & u & Hin & _)].
  - eapply commit_record; [exact Rollout.user_dated|exact Rollout.registered_runs].
  - intros Heq. discriminate (f_equal snd Heq).
  - exact Ha.
  - destruct Hin.
Defined.
(** The rollback of the import takes the user back and announces nothing: the feed
    still ends with the user's creation. *)
Example rollback_unannounced :
  map u_public_id (users (im_db Migration.one)) = ["usr_1"] /\ users (im_db Migration.reversed) = []
  /\ outbox (im_db Migration.reversed) = outbox (im_db Migration.one)
  /\ map ob_event_type (outbox (im_db Migration.reversed)) = [EventUserCreated].
Proof. repeat split. Qed.
(** An active member is imported into an archived organisation. *)
Example imported_into_archived :
  let day := Plan.day in
  let record := mkProductionRecord ProductionEntityOrganisationMembership "omem_1" Plan.sha Plan.refs "create_or_reconcile"
    (mkPayload None None None
       (Some (mkMembershipPayload "omem_1" "org_1" "" "usr_1" "owner" true "usr_1" day "" None "")) None None None None) in
  let archived := set_organisations (update (fun _ => true) (archived_organisation Migration.at_) (organisations (im_db Migration.all)))
    (im_db Migration.all) in
  match applyProductionRecordTx record (Some (fit 18 "7")) archived with
  | Ok (o, d) => oc_Created o = true /\ map o_status (organisations d) = [OrganisationArchived]
      /\ map m_active (organisation_memberships d) = [true]
  | Err _ => False
  end.
Proof. vm_compute. auto. Qed.
