(* ===== verification/Structs.v ===== *)
(** What the files of Go values share: structs as memory (Decode.v), and the
    lemmas and tactics with which a struct of a file is shown to be written and
    read back field by field. *)
From stdpp Require Import base tactics option list strings.
From Stdlib Require Import ZArith Lia Ascii String.
From S2P Require Import Prelude GoStrings GoTime Errors Codec Json JsonLaws Decode Reconciliation Production.

Local Open Scope string_scope.
Local Open Scope Z_scope.

(** ** Fields *)
Definition field (omits : bool) (name : string) (t : ty) : string * bool * ty := (name, omits, t).

(** ** Values as memory *)
Definition pointer_mem {A} (to : A -> mem) (o : option A) : mem := MPointer (option_map to o).
(** A slice that is nil when it is empty, and one that is not. *)
Definition slice_mem {A} (to : A -> mem) (l : list A) : mem :=
  MSlice (match l with [] => None | _ => Some (map to l, []) end).
Definition made_mem {A} (to : A -> mem) (l : list A) : mem := MSlice (Some (map to l, [])).

(** ** Memory as values *)
Definition text_of (m : mem) : string := match m with MString s => s | _ => "" end.
Definition flag_of (m : mem) : bool := match m with MBool b => b | _ => false end.
Definition int_of (m : mem) : Z := match m with MInt n => n | _ => 0 end.
Definition pointer_of {A} (get : mem -> A) (m : mem) : option A := match m with MPointer o => option_map get o | _ => None end.
Definition slice_of {A} (get : mem -> A) (m : mem) : list A :=
  match m with MSlice (Some (l, _)) => map get l | _ => [] end.


(** ** The memory of a value is read back *)
Lemma pointer_of_mem {A} (to : A -> mem) get o : (forall a, get (to a) = a) -> pointer_of get (pointer_mem to o) = o.
Proof. intros Ha. destruct o; cbn; by rewrite ?Ha. Qed.
Lemma slice_of_mem {A} (to : A -> mem) get l : (forall a, get (to a) = a) -> slice_of get (slice_mem to l) = l.
Proof. intros Ha. destruct l; cbn; [done|]. rewrite map_map, Ha. f_equal. rewrite (map_ext _ id) by done. apply map_id. Qed.
Lemma made_of_mem {A} (to : A -> mem) get l : (forall a, get (to a) = a) -> slice_of get (made_mem to l) = l.
Proof. intros Ha. cbn. rewrite map_map, (map_ext _ id) by done. apply map_id. Qed.
Create HintDb of_mem.
#[export] Hint Resolve pointer_of_mem slice_of_mem made_of_mem : of_mem.
#[export] Hint Extern 1 (text_of (MString _) = _) => reflexivity : of_mem.
Ltac of_mem x := destruct x; cbn [fields_of text_of flag_of int_of]; f_equal; auto with of_mem.

(** ** The JSON of a value is that of its memory *)
Lemma marshal_pointer {A} (to : A -> mem) (get : A -> json) t k o :
  (forall a, marshal t (to a) = get a) ->
  (if is_empty (pointer_mem to o) then [] else [(k, marshal (TPointer t) (pointer_mem to o))]) = pointer k get o.
Proof. intros Ha. destruct o as [a|]; [|done]. cbn. by rewrite Ha. Qed.
Lemma marshal_made {A} (to : A -> mem) (get : A -> json) t l :
  (forall a, marshal t (to a) = get a) -> marshal (TSlice t) (made_mem to l) = JArray (map get l).
Proof. intros Ha. cbn. rewrite map_map. f_equal. by apply map_ext. Qed.
Create HintDb marshals.
Create Rewrite HintDb marshals.
#[export] Hint Extern 1 (marshal TString (MString _) = _) => reflexivity : marshals.
Lemma marshal_struct fs ms : marshal (TStruct fs) (MStruct ms) = JObject (encode_struct marshal fs ms).
Proof. done. Qed.
(** Field by field; a pointer is omitted when nil. *)
Ltac marshals :=
  rewrite marshal_struct; cbn [encode_struct field field_name field_omits fst snd andb app is_empty];
  repeat match goal with
    | |- context [if is_empty (pointer_mem MString ?o) then [] else [(?k, marshal (TPointer ?t) _)]] =>
        rewrite (marshal_pointer MString JString t k o) by done
    | |- context [if is_empty (pointer_mem ?to ?o) then [] else [(?k, marshal (TPointer ?t) (pointer_mem ?to ?o))]] =>
        erewrite (marshal_pointer to _ t k o) by (intros; eauto with nocore marshals)
    | |- context [marshal (TSlice ?t) (made_mem ?to ?l)] => erewrite (marshal_made to _ t l) by (intros; eauto with nocore marshals)
    end;
  rewrite ?List.app_nil_r; autorewrite with marshals; reflexivity.

(** ** The memory of a value has its type *)
Lemma fits_pointer {A} (to : A -> mem) t o : (forall a, fits t (to a) = true) -> fits (TPointer t) (pointer_mem to o) = true.
Proof. intros Ha. destruct o; cbn; auto. Qed.
Lemma fits_elements {A} (to : A -> mem) t l : (forall a, fits t (to a) = true) -> forallb (fits t) (map to l) = true.
Proof. intros Ha. induction l as [|a l IH]; [done|]. cbn. by rewrite Ha. Qed.
Lemma fits_made {A} (to : A -> mem) t l : (forall a, fits t (to a) = true) -> fits (TSlice t) (made_mem to l) = true.
Proof. intros Ha. by apply fits_elements. Qed.
Lemma fits_slice {A} (to : A -> mem) t l : (forall a, fits t (to a) = true) -> fits (TSlice t) (slice_mem to l) = true.
Proof. intros Ha. destruct l; [done|]. by apply (fits_elements to t (_ :: _)). Qed.
Create HintDb fits.
#[export] Hint Resolve fits_pointer fits_made fits_slice : fits.
#[export] Hint Extern 0 (fits TString (MString _) = true) => reflexivity : fits.
#[export] Hint Extern 0 (fits TBool (MBool _) = true) => reflexivity : fits.
Lemma fits_fields fs ms : fits (TStruct fs) (MStruct ms) = fits_struct fits fs ms.
Proof. done. Qed.
Lemma fits_next f fs m ms : fits f.2 m = true -> negb (field_omits f && empty_slice m) = true -> fits_struct fits fs ms = true ->
  fits_struct fits (f :: fs) (m :: ms) = true.
Proof. intros Hm Ho Hms. cbn [fits_struct]. by rewrite Hm, Ho, Hms. Qed.
(** A field after the other. *)
Ltac fits :=
  rewrite fits_fields; repeat (apply fits_next; [cbn [field snd]; auto with fits|reflexivity|]); reflexivity.

(** ** What is read is valid *)
Lemma valid_fields_of m : valid_mem m = true -> forallb valid_mem (fields_of m) = true.
Proof. by destruct m. Qed.
Lemma valid_text_of m : valid_mem m = true -> valid_mem (MString (text_of m)) = true.
Proof. by destruct m. Qed.
Lemma valid_int_of m : valid_mem m = true -> valid_mem (MInt (int_of m)) = true.
Proof. by destruct m. Qed.
Lemma valid_pointer_of {A} (to : A -> mem) get m : (forall m, valid_mem m = true -> valid_mem (to (get m)) = true) ->
  valid_mem m = true -> valid_mem (pointer_mem to (pointer_of get m)) = true.
Proof. intros Ha. destruct m as [| | |[m|]| |]; try done. cbn. apply Ha. Qed.
Lemma valid_elements {A} (to : A -> mem) get l : (forall m, valid_mem m = true -> valid_mem (to (get m)) = true) ->
  forallb valid_mem l = true -> forallb valid_mem (map to (map get l)) = true.
Proof. intros Ha. induction l as [|m l IH]; [done|]. cbn. intros [Hm Hl]%andb_true_iff. rewrite Ha by done. by apply IH. Qed.
Lemma valid_made_of {A} (to : A -> mem) get m : (forall m, valid_mem m = true -> valid_mem (to (get m)) = true) ->
  valid_mem m = true -> valid_mem (made_mem to (slice_of get m)) = true.
Proof.
  intros Ha. destruct m as [| | | |[[l sp]|]|]; try done. cbn [valid_mem slice_of made_mem forallb]. intros [Hl _]%andb_true_iff.
  by rewrite valid_elements.
Qed.
Lemma valid_slice_of {A} (to : A -> mem) get m : (forall m, valid_mem m = true -> valid_mem (to (get m)) = true) ->
  valid_mem m = true -> valid_mem (slice_mem to (slice_of get m)) = true.
Proof.
  intros Ha. destruct m as [| | | |[[l sp]|]|]; try done. intros [Hl _]%andb_true_iff. destruct l as [|m l]; [done|].
  cbn [slice_of slice_mem map valid_mem forallb]. rewrite andb_true_r. exact (valid_elements to get (m :: l) Ha Hl).
Qed.
Create HintDb valid_of.
#[export] Hint Resolve valid_text_of valid_int_of valid_pointer_of valid_made_of valid_slice_of : valid_of.
#[export] Hint Extern 0 (valid_mem (MBool _) = true) => reflexivity : valid_of.
Lemma valid_next m ms : valid_mem m = true -> forallb valid_mem ms = true -> forallb valid_mem (m :: ms) = true.
Proof. intros Hm Hms. cbn. by rewrite Hm. Qed.
(** As many fields as the type has, or the zero value; [fields] projects them. *)
Ltac valid_of fields m :=
  let Hm := fresh in
  intros Hm; apply valid_fields_of in Hm; destruct (fields_of m) as [|? l]; [reflexivity|];
  repeat match goal with |- context [match ?l with [] => _ | _ => _ end] => is_var l; destruct l end; try reflexivity;
  cbn [forallb] in Hm; repeat match goal with H : _ && _ = true |- _ => apply andb_true_iff in H as [? H] end;
  match goal with |- valid_mem (?f ?x) = true => unfold f end;
  fields (); repeat (apply valid_next; [auto with valid_of|]); reflexivity.

(** ** SourceRef (reconciliation.go), which both kinds of manifests list *)
Definition source_ref_type : ty := TStruct [field false "source" TString; field false "source_version" TString;
  field false "source_id" TString].
Definition source_ref_mem (x : SourceRef) : mem := MStruct [MString (ref_Source x);
  MString (ref_SourceVersion x); MString (ref_SourceID x)].
Definition source_ref_of (m : mem) : SourceRef :=
  match fields_of m with
  | [a; b; c] =>
      mkSourceRef (text_of a) (text_of b) (text_of c)
  | _ => mkSourceRef "" "" ""
  end.
Lemma source_ref_of_mem x : source_ref_of (source_ref_mem x) = x.
Proof. unfold source_ref_of, source_ref_mem. of_mem x. Qed.
#[export] Hint Resolve source_ref_of_mem : of_mem.
Lemma marshal_source_ref x : marshal source_ref_type (source_ref_mem x) = ref_json x.
Proof. unfold source_ref_type, source_ref_mem, ref_json. marshals. Qed.
#[export] Hint Resolve marshal_source_ref : marshals.
#[export] Hint Rewrite marshal_source_ref : marshals.
Lemma marshal_refs l : marshal (TSlice source_ref_type) (slice_mem source_ref_mem l) = refs_json l.
Proof. destruct l as [|r l]; [done|]. apply (marshal_made source_ref_mem ref_json source_ref_type (r :: l)). intros. apply marshal_source_ref. Qed.
#[export] Hint Rewrite marshal_refs : marshals.
Lemma fits_source_ref x : fits source_ref_type (source_ref_mem x) = true.
Proof. unfold source_ref_type, source_ref_mem. fits. Qed.
#[export] Hint Resolve fits_source_ref : fits.
(** The projections of the types of this file. *)
Ltac source_ref_fields _ := cbn [valid_mem ref_Source ref_SourceVersion ref_SourceID].
Lemma valid_source_ref_of m : valid_mem m = true -> valid_mem (source_ref_mem (source_ref_of m)) = true.
Proof. unfold source_ref_of. valid_of source_ref_fields m. Qed.
#[export] Hint Resolve valid_source_ref_of : valid_of.
