(* ===== verification/Files.v ===== *)
(** The files the command lines read (cmd/platform-import/main.go and
    cmd/platform-manifest/main.go: decodeFile, readHexKey). A file is what
    os.ReadFile makes of its path, a parameter. *)
From stdpp Require Import base tactics option list strings.
From Stdlib Require Import ZArith Lia Ascii String.
From S2P Require Import Prelude GoStrings GoTime Errors Config.

Local Open Scope string_scope.
Local Open Scope Z_scope.

Section Files.
Context (ReadFile : string -> res string).

(** [decode] is the decoder at the type of the destination. *)
Definition decodeFile {A} (decode : string -> option A) (path : string) : res A :=
  let? data := ReadFile path in match decode data with Some x => Ok x | None => Err (Text "json") end.
Definition readHexKey (path : string) (length : Z) : res string :=
  let? data := wrap "read key" (ReadFile path) in
  match hex_decode (TrimSpace data) with
  | Some key => if negb (len key =? length) then Err (Text ("key must be " ++ FormatInt length ++ " hex bytes")) else Ok key
  | None => Err (Text ("key must be " ++ FormatInt length ++ " hex bytes"))
  end.

Lemma decodeFile_Ok {A} (decode : string -> option A) path x : decodeFile decode path = Ok x <->
  exists text, ReadFile path = Ok text /\ decode text = Some x.
Proof.
  unfold decodeFile. destruct (ReadFile path) as [text|]; cbn; [|naive_solver]. destruct (decode text) eqn:E; naive_solver.
Qed.
Lemma readHexKey_length path n key : readHexKey path n = Ok key -> len key = n.
Proof.
  unfold readHexKey. destruct (ReadFile path) as [data|]; [|done]. cbn [wrap]. destruct (hex_decode _) as [k|]; [|done].
  destruct (len k =? n) eqn:E; [|done]. intros [= <-]. by apply Z.eqb_eq.
Qed.
End Files.
