(* ===== verification/ReportFile.v ===== *)
(** The files of the commands platform-reconcile and platform-manifest: the Go
    types of an inventory, a report and a signed fixture manifest (reconciliation.go
    and migration.go of internal/platform/reconciliation) for the decoder of
    Decode.v, and the values of Reconciliation.v and Fixture.v as their memory. *)
From stdpp Require Import base tactics option list strings.
From Stdlib Require Import ZArith Lia Ascii String.
From S2P Require Import Prelude GoStrings GoTime Errors Codec Schema Json JsonLaws Decode Auth Assertion Reconciliation Fixture Production Structs.

Local Open Scope string_scope.
Local Open Scope Z_scope.

(** ** The types, with their tags *)
Definition source_type : ty := TStruct [field false "source" TString; field false "source_version" TString;
  field false "entity" TString; field false "source_id" TString; field false "match_key" TString;
  field true "parent_source_id" TString; field true "parent_match_key" TString;
  field true "user_source_id" TString; field true "user_match_key" TString; field true "role" TString;
  field false "active" TBool].
Definition inventory_type : ty := TStruct [field false "records" (TSlice source_type)].
Definition proposal_type : ty := TStruct [field false "entity" TString; field true "platform_id" TString;
  field false "status" TString; field true "confidence" TString; field true "match_key_sha256" TString;
  field false "reason" TString; field false "review_required" TBool;
  field false "source_refs" (TSlice source_ref_type)].
Definition summary_type : ty := TStruct [field false "record_count" TInt; field false "proposal_count" TInt;
  field false "blocked_count" TInt; field false "ambiguous_count" TInt; field false "collision_count" TInt].
Definition report_type : ty := TStruct [field false "schema_version" TInt; field false "report_type" TString;
  field false "summary" summary_type; field false "proposals" (TSlice proposal_type)].
Definition fixture_approval_type : ty := TStruct [field false "operator_id" TString;
  field false "approved_at" TString; field false "reason" TString; field false "scope" TString].
Definition fixture_record_type : ty := TStruct [field false "entity" TString; field false "platform_id" TString;
  field false "match_key_sha256" TString; field false "source_refs" (TSlice source_ref_type)].
Definition fixture_type : ty := TStruct [field false "schema_version" TInt; field false "manifest_id" TString;
  field false "report_sha256" TString; field false "scope" TString;
  field false "records" (TSlice fixture_record_type); field true "approval" (TPointer fixture_approval_type)].
Definition signed_fixture_type : ty := TStruct [field false "manifest" fixture_type;
  field false "algorithm" TString; field false "signature" TString].

(** ** Values as memory *)
Definition source_mem (x : SourceRecord) : mem := MStruct [MString (src_Source x);
  MString (src_SourceVersion x); MString (src_Entity x); MString (src_SourceID x); MString (src_MatchKey x);
  MString (src_ParentSourceID x); MString (src_ParentMatchKey x); MString (src_UserSourceID x);
  MString (src_UserMatchKey x); MString (src_Role x); MBool (src_Active x)].
Definition inventory_mem (x : Inventory) : mem := MStruct [made_mem source_mem (inv_Records x)].
Definition proposal_mem (x : Proposal) : mem := MStruct [MString (pr_Entity x); MString (pr_PlatformID x);
  MString (pr_Status x); MString (pr_Confidence x); MString (pr_MatchKeySHA256 x); MString (pr_Reason x);
  MBool (pr_ReviewRequired x); made_mem source_ref_mem (pr_SourceRefs x)].
Definition summary_mem (x : Summary) : mem := MStruct [MInt (sm_RecordCount x); MInt (sm_ProposalCount x);
  MInt (sm_BlockedCount x); MInt (sm_AmbiguousCount x); MInt (sm_CollisionCount x)].
Definition report_mem (x : Report) : mem := MStruct [MInt (rp_SchemaVersion x); MString (rp_ReportType x);
  summary_mem (rp_Summary x); made_mem proposal_mem (rp_Proposals x)].
Definition fixture_approval_mem (x : ManifestApproval) : mem := MStruct [MString (ma_OperatorID x);
  MString (ma_ApprovedAt x); MString (ma_Reason x); MString (ma_Scope x)].
Definition fixture_record_mem (x : ManifestRecord) : mem := MStruct [MString (mr_Entity x);
  MString (mr_PlatformID x); MString (mr_MatchKeySHA256 x); made_mem source_ref_mem (mr_SourceRefs x)].
Definition fixture_mem (x : Manifest) : mem := MStruct [MInt (mf_SchemaVersion x); MString (mf_ManifestID x);
  MString (mf_ReportSHA256 x); MString (mf_Scope x); made_mem fixture_record_mem (mf_Records x);
  pointer_mem fixture_approval_mem (mf_Approval x)].
Definition signed_fixture_mem (x : SignedManifest) : mem := MStruct [fixture_mem (sg_Manifest x);
  MString (sg_Algorithm x); MString (sg_Signature x)].

(** ** Memory as values *)
Definition source_of (m : mem) : SourceRecord :=
  match fields_of m with
  | [a; b; c; d; e; f; g; h; i; j; k] =>
      mkSourceRecord (text_of a) (text_of b) (text_of c) (text_of d) (text_of e) (text_of f) (text_of g)
        (text_of h) (text_of i) (text_of j) (flag_of k)
  | _ => mkSourceRecord "" "" "" "" "" "" "" "" "" "" false
  end.
Definition inventory_of (m : mem) : Inventory :=
  match fields_of m with
  | [a] =>
      mkInventory (slice_of source_of a)
  | _ => mkInventory []
  end.
Definition proposal_of (m : mem) : Proposal :=
  match fields_of m with
  | [a; b; c; d; e; f; g; h] =>
      mkProposal (text_of a) (text_of b) (text_of c) (text_of d) (text_of e) (text_of f) (flag_of g)
        (slice_of source_ref_of h)
  | _ => mkProposal "" "" "" "" "" "" false []
  end.
Definition summary_of (m : mem) : Summary :=
  match fields_of m with
  | [a; b; c; d; e] =>
      mkSummary (int_of a) (int_of b) (int_of c) (int_of d) (int_of e)
  | _ => mkSummary 0 0 0 0 0
  end.
Definition report_of (m : mem) : Report :=
  match fields_of m with
  | [a; b; c; d] =>
      mkReport (int_of a) (text_of b) (summary_of c) (slice_of proposal_of d)
  | _ => mkReport 0 "" (mkSummary 0 0 0 0 0) []
  end.
Definition fixture_approval_of (m : mem) : ManifestApproval :=
  match fields_of m with
  | [a; b; c; d] =>
      mkApproval (text_of a) (text_of b) (text_of c) (text_of d)
  | _ => mkApproval "" "" "" ""
  end.
Definition fixture_record_of (m : mem) : ManifestRecord :=
  match fields_of m with
  | [a; b; c; d] =>
      mkManifestRecord (text_of a) (text_of b) (text_of c) (slice_of source_ref_of d)
  | _ => mkManifestRecord "" "" "" []
  end.
Definition fixture_of (m : mem) : Manifest :=
  match fields_of m with
  | [a; b; c; d; e; f] =>
      mkManifest (int_of a) (text_of b) (text_of c) (text_of d) (slice_of fixture_record_of e)
        (pointer_of fixture_approval_of f)
  | _ => mkManifest 0 "" "" "" [] None
  end.
Definition signed_fixture_of (m : mem) : SignedManifest :=
  match fields_of m with
  | [a; b; c] =>
      mkSigned (fixture_of a) (text_of b) (text_of c)
  | _ => mkSigned (mkManifest 0 "" "" "" [] None) "" ""
  end.

(** Decode with DisallowUnknownFields of one value; nothing is read after it. *)
Definition decode_inventory (text : string) : option Inventory := option_map inventory_of (decode inventory_type text).
Definition decode_report (text : string) : option Report := option_map report_of (decode report_type text).
Definition decode_fixture (text : string) : option SignedManifest := option_map signed_fixture_of (decode signed_fixture_type text).
Definition signed_fixture_json (x : SignedManifest) : json :=
  JObject [("manifest", manifest_json (sg_Manifest x)); jstring "algorithm" (sg_Algorithm x); jstring "signature" (sg_Signature x)].

(** ** Read back, written, typed and valid *)
Lemma source_of_mem x : source_of (source_mem x) = x.
Proof. unfold source_of, source_mem. of_mem x. Qed.
#[export] Hint Resolve source_of_mem : of_mem.
Lemma inventory_of_mem x : inventory_of (inventory_mem x) = x.
Proof. unfold inventory_of, inventory_mem. of_mem x. Qed.
#[export] Hint Resolve inventory_of_mem : of_mem.
Lemma proposal_of_mem x : proposal_of (proposal_mem x) = x.
Proof. unfold proposal_of, proposal_mem. of_mem x. Qed.
#[export] Hint Resolve proposal_of_mem : of_mem.
Lemma summary_of_mem x : summary_of (summary_mem x) = x.
Proof. unfold summary_of, summary_mem. of_mem x. Qed.
#[export] Hint Resolve summary_of_mem : of_mem.
Lemma report_of_mem x : report_of (report_mem x) = x.
Proof. unfold report_of, report_mem. of_mem x. Qed.
#[export] Hint Resolve report_of_mem : of_mem.
Lemma fixture_approval_of_mem x : fixture_approval_of (fixture_approval_mem x) = x.
Proof. unfold fixture_approval_of, fixture_approval_mem. of_mem x. Qed.
#[export] Hint Resolve fixture_approval_of_mem : of_mem.
Lemma fixture_record_of_mem x : fixture_record_of (fixture_record_mem x) = x.
Proof. unfold fixture_record_of, fixture_record_mem. of_mem x. Qed.
#[export] Hint Resolve fixture_record_of_mem : of_mem.
Lemma fixture_of_mem x : fixture_of (fixture_mem x) = x.
Proof. unfold fixture_of, fixture_mem. of_mem x. Qed.
#[export] Hint Resolve fixture_of_mem : of_mem.
Lemma signed_fixture_of_mem x : signed_fixture_of (signed_fixture_mem x) = x.
Proof. unfold signed_fixture_of, signed_fixture_mem. of_mem x. Qed.
#[export] Hint Resolve signed_fixture_of_mem : of_mem.
Lemma marshal_proposal x : marshal proposal_type (proposal_mem x) = proposal_json x.
Proof. unfold proposal_type, proposal_mem, proposal_json. marshals. Qed.
#[export] Hint Resolve marshal_proposal : marshals.
#[export] Hint Rewrite marshal_proposal : marshals.
Lemma marshal_summary x : marshal summary_type (summary_mem x) = summary_json x.
Proof. unfold summary_type, summary_mem, summary_json. marshals. Qed.
#[export] Hint Resolve marshal_summary : marshals.
#[export] Hint Rewrite marshal_summary : marshals.
Lemma marshal_report x : marshal report_type (report_mem x) = report_json x.
Proof. unfold report_type, report_mem, report_json. marshals. Qed.
#[export] Hint Resolve marshal_report : marshals.
#[export] Hint Rewrite marshal_report : marshals.
Lemma marshal_fixture_approval x : marshal fixture_approval_type (fixture_approval_mem x) = approval_json x.
Proof. unfold fixture_approval_type, fixture_approval_mem, approval_json. marshals. Qed.
#[export] Hint Resolve marshal_fixture_approval : marshals.
#[export] Hint Rewrite marshal_fixture_approval : marshals.
Lemma marshal_fixture_record x : marshal fixture_record_type (fixture_record_mem x) = manifest_record_json x.
Proof. unfold fixture_record_type, fixture_record_mem, manifest_record_json. marshals. Qed.
#[export] Hint Resolve marshal_fixture_record : marshals.
#[export] Hint Rewrite marshal_fixture_record : marshals.
Lemma marshal_fixture x : marshal fixture_type (fixture_mem x) = manifest_json x.
Proof. unfold fixture_type, fixture_mem, manifest_json. marshals. Qed.
#[export] Hint Resolve marshal_fixture : marshals.
#[export] Hint Rewrite marshal_fixture : marshals.
Lemma marshal_signed_fixture x : marshal signed_fixture_type (signed_fixture_mem x) = signed_fixture_json x.
Proof. unfold signed_fixture_type, signed_fixture_mem, signed_fixture_json. marshals. Qed.
#[export] Hint Resolve marshal_signed_fixture : marshals.
#[export] Hint Rewrite marshal_signed_fixture : marshals.
Lemma fits_proposal x : fits proposal_type (proposal_mem x) = true.
Proof. unfold proposal_type, proposal_mem. fits. Qed.
#[export] Hint Resolve fits_proposal : fits.
Lemma fits_summary x : valid_mem (summary_mem x) = true -> fits summary_type (summary_mem x) = true.
Proof.
  unfold summary_type, summary_mem. cbn [valid_mem forallb]. rewrite !andb_true_iff. intros (? & ? & ? & ? & ? & _). fits.
Qed.
#[export] Hint Resolve fits_summary : fits.
Lemma fits_report x : valid_mem (report_mem x) = true -> fits report_type (report_mem x) = true.
Proof.
  unfold report_type, report_mem. cbn [valid_mem forallb]. rewrite !andb_true_iff. intros (? & _ & Hs & _ & _). fits.
Qed.
Lemma fits_fixture_approval x : fits fixture_approval_type (fixture_approval_mem x) = true.
Proof. unfold fixture_approval_type, fixture_approval_mem. fits. Qed.
#[export] Hint Resolve fits_fixture_approval : fits.
Lemma fits_fixture_record x : fits fixture_record_type (fixture_record_mem x) = true.
Proof. unfold fixture_record_type, fixture_record_mem. fits. Qed.
#[export] Hint Resolve fits_fixture_record : fits.
Lemma fits_fixture m : in_int64 (mf_SchemaVersion m) = true -> fits fixture_type (fixture_mem m) = true.
Proof. intros Hv. unfold fixture_type, fixture_mem. fits. Qed.
#[export] Hint Resolve fits_fixture : fits.
Lemma fits_signed_fixture x : in_int64 (mf_SchemaVersion (sg_Manifest x)) = true ->
  fits signed_fixture_type (signed_fixture_mem x) = true.
Proof. intros Hv. unfold signed_fixture_type, signed_fixture_mem. fits. Qed.
(** The projections of the types of this file. *)
Ltac report_fields _ := cbn [valid_mem src_Source src_SourceVersion src_Entity src_SourceID src_MatchKey
  src_ParentSourceID src_ParentMatchKey src_UserSourceID src_UserMatchKey src_Role src_Active inv_Records
  pr_Entity pr_PlatformID pr_Status pr_Confidence pr_MatchKeySHA256 pr_Reason pr_ReviewRequired pr_SourceRefs
  sm_RecordCount sm_ProposalCount sm_BlockedCount sm_AmbiguousCount sm_CollisionCount rp_SchemaVersion
  rp_ReportType rp_Summary rp_Proposals ma_OperatorID ma_ApprovedAt ma_Reason ma_Scope mr_Entity mr_PlatformID
  mr_MatchKeySHA256 mr_SourceRefs mf_SchemaVersion mf_ManifestID mf_ReportSHA256 mf_Scope mf_Records mf_Approval
  sg_Manifest sg_Algorithm sg_Signature].
Lemma valid_source_of m : valid_mem m = true -> valid_mem (source_mem (source_of m)) = true.
Proof. unfold source_of. valid_of report_fields m. Qed.
#[export] Hint Resolve valid_source_of : valid_of.
Lemma valid_inventory_of m : valid_mem m = true -> valid_mem (inventory_mem (inventory_of m)) = true.
Proof. unfold inventory_of. valid_of report_fields m. Qed.
#[export] Hint Resolve valid_inventory_of : valid_of.
Lemma valid_proposal_of m : valid_mem m = true -> valid_mem (proposal_mem (proposal_of m)) = true.
Proof. unfold proposal_of. valid_of report_fields m. Qed.
#[export] Hint Resolve valid_proposal_of : valid_of.
Lemma valid_summary_of m : valid_mem m = true -> valid_mem (summary_mem (summary_of m)) = true.
Proof. unfold summary_of. valid_of report_fields m. Qed.
#[export] Hint Resolve valid_summary_of : valid_of.
Lemma valid_report_of m : valid_mem m = true -> valid_mem (report_mem (report_of m)) = true.
Proof. unfold report_of. valid_of report_fields m. Qed.
#[export] Hint Resolve valid_report_of : valid_of.
Lemma valid_fixture_approval_of m : valid_mem m = true -> valid_mem (fixture_approval_mem (fixture_approval_of m)) = true.
Proof. unfold fixture_approval_of. valid_of report_fields m. Qed.
#[export] Hint Resolve valid_fixture_approval_of : valid_of.
Lemma valid_fixture_record_of m : valid_mem m = true -> valid_mem (fixture_record_mem (fixture_record_of m)) = true.
Proof. unfold fixture_record_of. valid_of report_fields m. Qed.
#[export] Hint Resolve valid_fixture_record_of : valid_of.
Lemma valid_fixture_of m : valid_mem m = true -> valid_mem (fixture_mem (fixture_of m)) = true.
Proof. unfold fixture_of. valid_of report_fields m. Qed.
#[export] Hint Resolve valid_fixture_of : valid_of.
Lemma valid_signed_fixture_of m : valid_mem m = true -> valid_mem (signed_fixture_mem (signed_fixture_of m)) = true.
Proof. unfold signed_fixture_of. valid_of report_fields m. Qed.
#[export] Hint Resolve valid_signed_fixture_of : valid_of.

(** ** Reports and fixture manifests, and their files *)
Definition valid_report (r : Report) : bool := valid_mem (report_mem r).
Definition valid_fixture (m : Manifest) : bool := valid_mem (fixture_mem m).
Lemma report_type_good : good report_type = true /\ valid_ty report_type = true.
Proof. by vm_compute. Qed.
Lemma signed_fixture_type_good : good signed_fixture_type = true /\ valid_ty signed_fixture_type = true.
Proof. by vm_compute. Qed.
(** What platform-reconcile writes is read back by platform-manifest. *)
Lemma decode_report_text r : valid_report r = true -> decode_report (MarshalReport r) = Some r.
Proof.
  intros Hr. destruct report_type_good as [Hg Ht]. unfold decode_report, MarshalReport. rewrite <-marshal_report.
  destruct (decode_text report_type (report_mem r) (String newline "") Hg Ht (fits_report r Hr) Hr) as [_ ->]; [by do 3 right|].
  cbn [option_map]. by rewrite report_of_mem.
Qed.
Lemma valid_fixture_version m : valid_fixture m = true -> in_int64 (mf_SchemaVersion m) = true.
Proof. unfold valid_fixture, fixture_mem. cbn [valid_mem forallb]. by intros [? _]%andb_true_iff. Qed.
Lemma valid_signed_fixture x : valid_mem (signed_fixture_mem x) = true -> valid_fixture (sg_Manifest x) = true.
Proof. unfold signed_fixture_mem. cbn [valid_mem forallb]. by intros [? _]%andb_true_iff. Qed.
Lemma decode_fixture_text x : valid_mem (signed_fixture_mem x) = true -> decode_fixture (indent 0 (signed_fixture_json x)) = Some x.
Proof.
  intros Hx. destruct signed_fixture_type_good as [Hg Ht]. unfold decode_fixture. rewrite <-marshal_signed_fixture.
  pose proof (fits_signed_fixture x (valid_fixture_version _ (valid_signed_fixture x Hx))) as Hf.
  destruct (decode_text signed_fixture_type (signed_fixture_mem x) "" Hg Ht Hf Hx I) as [_ Hd]. rewrite string_app_nil_r in Hd.
  rewrite Hd. cbn [option_map]. by rewrite signed_fixture_of_mem.
Qed.
Lemma decode_report_valid text r : decode_report text = Some r -> valid_report r = true.
Proof.
  unfold decode_report. destruct (decode report_type text) as [m|] eqn:E; [|done]. intros [= <-].
  apply valid_report_of. by eapply decode_valid_mem.
Qed.

(** A manifest built from a report of UTF-8 strings has none but those. *)
Lemma valid_made {A} (to : A -> mem) l : valid_mem (made_mem to l) = true <-> Forall (fun a => valid_mem (to a) = true) l.
Proof.
  unfold made_mem. cbn [valid_mem forallb]. rewrite andb_true_r, forallb_forall, Forall_forall. split.
  - intros Hl a Ha. apply Hl, in_map, list_elem_of_In, Ha.
  - intros Hl m (a & <- & Ha)%in_map_iff. by apply Hl, list_elem_of_In.
Qed.
Lemma valid_proposal_record p refs : valid_mem (proposal_mem p) = true -> refs ≡ₚ pr_SourceRefs p ->
  valid_mem (fixture_record_mem (mkManifestRecord (pr_Entity p) (pr_PlatformID p) (pr_MatchKeySHA256 p) refs)) = true.
Proof.
  unfold proposal_mem, fixture_record_mem. cbn [valid_mem forallb mr_Entity mr_PlatformID mr_MatchKeySHA256 mr_SourceRefs].
  rewrite !andb_true_iff. intros (He & Hp & _ & _ & Hk & _ & _ & Hr & _) Hperm. split_and!; try done.
  apply (valid_made source_ref_mem). apply (valid_made source_ref_mem) in Hr. by rewrite Hperm.
Qed.
Lemma valid_manifest_records seen ps records : manifest_records seen ps = Ok records ->
  Forall (fun p => valid_mem (proposal_mem p) = true) ps -> Forall (fun r => valid_mem (fixture_record_mem r) = true) records.
Proof.
  revert seen records. induction ps as [|p ps IH]; intros seen records; cbn [manifest_records]; [intros [= <-]; constructor|].
  destruct (_ || _); [done|]. destruct (one_of _ _); [done|]. destruct (manifest_records _ ps) as [rest|] eqn:E; [|done].
  intros [= <-] [Hp Hps]%Forall_cons. constructor; [|by eapply IH]. apply valid_proposal_record; [done|apply sort_by_Permutation].
Qed.
Lemma digest_utf8 `{CryptoLaws} s : valid_utf8 (digestBytes s) = true.
Proof.
  apply printable_utf8. pose proof (digest_sha s) as Hs. unfold isSHA256Hex, hex_decodable in Hs. bool_hyps.
  eapply forall_bytes_impl; [|done]. intros c. unfold is_hex, printable. lia.
Qed.
Lemma valid_with_id id m : valid_utf8 id = true -> valid_fixture m = true -> valid_fixture (with_id id m) = true.
Proof.
  unfold valid_fixture, fixture_mem. cbn [valid_mem forallb with_id mf_SchemaVersion mf_ManifestID mf_ReportSHA256 mf_Scope mf_Records mf_Approval].
  intros ->. rewrite !andb_true_iff. tauto.
Qed.
Lemma valid_built `{CryptoLaws} report m : valid_report report = true -> BuildManifest report = Ok m -> valid_fixture m = true.
Proof.
  intros Hr. unfold BuildManifest. destruct (_ || _); [done|]. destruct (Nat.eqb _ 0); [done|].
  destruct (manifest_records [] _) as [records|] eqn:E; [|done]. intros [= <-]. apply valid_with_id; [apply digest_utf8|].
  unfold valid_fixture, fixture_mem. cbn [valid_mem forallb mf_SchemaVersion mf_ManifestID mf_ReportSHA256 mf_Scope mf_Records mf_Approval pointer_mem option_map].
  rewrite digest_utf8. change (in_int64 SchemaVersion) with true. change (valid_utf8 "") with true.
  change (valid_utf8 FixtureOnlyScope) with true. cbn [andb]. rewrite andb_true_r. apply (valid_made fixture_record_mem). rewrite sort_by_Permutation. eapply valid_manifest_records; [done|].
  unfold valid_report, report_mem in Hr. cbn [valid_mem forallb] in Hr. rewrite !andb_true_iff in Hr.
  apply (valid_made proposal_mem). tauto.
Qed.
Lemma valid_approved `{CryptoLaws} m operatorID reason t approved :
  valid_fixture m = true -> valid_utf8 (TrimSpace operatorID) = true -> valid_utf8 (TrimSpace reason) = true ->
  ApproveManifest m operatorID reason t = Ok approved -> valid_fixture approved = true.
Proof.
  intros Hm Ho Hr. unfold ApproveManifest. destruct (validateManifestIdentity m); [|done]. destruct (_ || _); [done|].
  intros [= <-]. apply valid_with_id; [apply digest_utf8|]. unfold valid_fixture, fixture_mem in *.
  cbn [valid_mem forallb with_approval mf_SchemaVersion mf_ManifestID mf_ReportSHA256 mf_Scope mf_Records mf_Approval] in *.
  rewrite !andb_true_iff in *. destruct Hm as (? & ? & ? & ? & ? & _). split_and!; try done.
  unfold fixture_approval_mem. cbn [valid_mem forallb pointer_mem option_map ma_OperatorID ma_ApprovedAt ma_Reason ma_Scope].
  by rewrite Ho, Hr, (printable_utf8 _ (formatTime_printable _)).
Qed.
Lemma valid_signed_of_approved m signature : valid_fixture m = true ->
  valid_mem (signed_fixture_mem (mkSigned m "Ed25519" (b64_encode signature))) = true.
Proof.
  intros Hm. unfold signed_fixture_mem. cbn [sg_Manifest sg_Algorithm sg_Signature valid_mem forallb].
  by rewrite (Hm : valid_mem _ = true), (printable_utf8 _ (b64_printable _)).
Qed.
