(* ===== verification/ReportTool.v ===== *)
(** The commands of the migration rehearsal: cmd/platform-reconcile/main.go, which
    turns an inventory into a report, and cmd/platform-manifest/main.go, which
    signs and verifies a manifest built from one. *)
From stdpp Require Import base tactics option list gmap strings.
From Stdlib Require Import ZArith Lia Ascii String Permutation.
From S2P Require Import Prelude GoStrings GoTime Codec Errors Schema Json JsonLaws Decode Auth Assertion Reconciliation Fixture Production.
From S2P Require Import Structs ReportFile Files.

Local Open Scope string_scope.
Local Open Scope Z_scope.

Section Commands.
Context `{UnicodeTables} `{Crypto} `{Ed25519} (ReadFile : string -> res string) (Stdin : string).

(** platform-reconcile: what is written to the output. *)
Definition readInput (path : string) : res string :=
  if path =s "" then Ok Stdin else wrap "open inventory" (ReadFile path).
Definition platform_reconcile (inputPath : string) : res string :=
  let? input := readInput inputPath in
  match decode_inventory input with
  | None => Err (Wrap "decode inventory" (Text "json"))
  | Some inventory => Ok (MarshalReport (Build inventory))
  end.

(** platform-manifest *)
Definition sign (reportPath keyPath operatorID reason approvedAt : string) : res string :=
  if (reportPath =s "") || (keyPath =s "") then Err (Text "sign requires -report and -key") else
  let? report := wrap "decode report" (decodeFile ReadFile decode_report reportPath) in
  let? manifest := wrap "build manifest" (BuildManifest report) in
  match Parse approvedAt with
  | None => Err (Wrap "parse approved-at" (Text "time"))
  | Some when =>
      let? manifest := wrap "approve manifest" (ApproveManifest manifest operatorID reason when) in
      let? key := readHexKey ReadFile keyPath 64 in
      let? signed := wrap "sign manifest" (SignManifest manifest key) in
      Ok (indent 0 (signed_fixture_json signed))
  end.
Definition verified_text (signed : SignedManifest) : string :=
  indent 0 (JObject [jstring "manifest_id" (mf_ManifestID (sg_Manifest signed)); jstring "scope" (mf_Scope (sg_Manifest signed));
    jstring "status" "verified"]).
Definition verify (manifestPath keyPath : string) : res string :=
  if (manifestPath =s "") || (keyPath =s "") then Err (Text "verify requires -manifest and -key") else
  let? signed := wrap "decode signed manifest" (decodeFile ReadFile decode_fixture manifestPath) in
  let? key := readHexKey ReadFile keyPath 32 in
  let? _ := wrap "verify manifest" (VerifySignedManifest signed key) in
  Ok (verified_text signed).
Definition platform_manifest (operation reportPath manifestPath keyPath operatorID reason approvedAt : string) : res string :=
  let operation := ToLower (TrimSpace operation) in
  if operation =s "sign" then sign reportPath keyPath operatorID reason approvedAt
  else if operation =s "verify" then verify manifestPath keyPath
  else Err (Text "operation must be sign or verify").
End Commands.

(** ** Laws *)
(** Nothing of the report is lost in the manifest. *)
Lemma manifest_records_ids seen ps records : manifest_records seen ps = Ok records ->
  map mr_PlatformID records = map pr_PlatformID ps /\ Forall (fun p => pr_Status p = StatusProposed) ps.
Proof.
  revert seen records. induction ps as [|p ps IH]; intros seen records; cbn [manifest_records]; [intros [= <-]; by split|].
  destruct (_ || _) eqn:E; [done|]. destruct (one_of _ _); [done|]. destruct (manifest_records _ ps) as [rest|] eqn:Er; [|done].
  intros [= <-]. destruct (IH _ _ Er) as [Hm Hf]. cbn [map]. rewrite Hm. split; [done|]. constructor; [|done].
  repeat apply orb_false_iff in E as [E _]. by apply negb_false_iff, String.eqb_eq in E.
Qed.
Lemma built_ids `{Crypto} report m : BuildManifest report = Ok m ->
  map mr_PlatformID (mf_Records m) ≡ₚ map pr_PlatformID (rp_Proposals report)
  /\ Forall (fun p => pr_Status p = StatusProposed) (rp_Proposals report).
Proof.
  unfold BuildManifest. destruct (_ || _); [done|]. destruct (Nat.eqb _ 0); [done|].
  destruct (manifest_records [] _) as [records|] eqn:E; [|done]. intros [= <-]. cbn [with_id mf_Records].
  apply manifest_records_ids in E as [Hm Hf]. split; [|done]. by rewrite (Permutation_map _ (sort_by_Permutation _ _)), Hm.
Qed.
Lemma approval_of_approved `{Crypto} m operatorID reason t approved : ApproveManifest m operatorID reason t = Ok approved ->
  mf_Approval approved = Some (mkApproval (TrimSpace operatorID) (formatTime t) (TrimSpace reason) FixtureOnlyScope).
Proof. unfold ApproveManifest. destruct (validateManifestIdentity m); [|done]. destruct (_ || _); [done|]. by intros [= <-]. Qed.

Section Composition.
Context `{UnicodeTables} `{Crypto} {laws : CryptoLaws} `{Ed25519} {ed_laws : Ed25519Laws}.
Context (ReadFile : string -> res string) (Stdin : string).

(** C20: the commands of a rehearsal compose through their files. What
    platform-reconcile writes for an inventory is read by platform-manifest as the
    very report that Build made of it. If every identity of it is proposed, so that
    a manifest can be built, then an operator with a name, a reason, a time and a
    private key gets a signed manifest whose records are exactly the proposals and
    whose approval says who approved it, when and why, and the file of it is verified with the public key; otherwise signing ends with the
    error of BuildManifest. (The strings of the report are UTF-8, as those read
    from JSON are, and so are the operator's name and reason.) *)
Theorem rehearsal_commands_compose inputPath input inventory reportPath keyPath operatorID reason approvedAt when key :
  readInput ReadFile Stdin inputPath = Ok input -> decode_inventory input = Some inventory -> valid_report (Build inventory) = true ->
  platform_reconcile ReadFile Stdin inputPath = ReadFile reportPath ->
  reportPath <> "" -> keyPath <> "" -> Parse approvedAt = Some when -> readHexKey ReadFile keyPath 64 = Ok key ->
  decodeFile ReadFile decode_report reportPath = Ok (Build inventory)
  /\ match BuildManifest (Build inventory) with
     | Err e => sign ReadFile reportPath keyPath operatorID reason approvedAt = Err (Wrap "build manifest" e)
     | Ok m =>
         TrimSpace operatorID <> "" -> TrimSpace reason <> "" -> valid_utf8 (TrimSpace operatorID) = true ->
         valid_utf8 (TrimSpace reason) = true -> four_digit_year when -> when <> zero_time ->
         exists signed, sign ReadFile reportPath keyPath operatorID reason approvedAt = Ok (indent 0 (signed_fixture_json signed))
           /\ map mr_PlatformID (mf_Records (sg_Manifest signed)) ≡ₚ map pr_PlatformID (rp_Proposals (Build inventory))
           /\ Forall (fun p => pr_Status p = StatusProposed) (rp_Proposals (Build inventory))
           /\ mf_Approval (sg_Manifest signed)
              = Some (mkApproval (TrimSpace operatorID) (formatTime when) (TrimSpace reason) FixtureOnlyScope)
           /\ forall manifestPath publicPath, ReadFile manifestPath = Ok (indent 0 (signed_fixture_json signed)) ->
                readHexKey ReadFile publicPath 32 = Ok (ed_public key) -> manifestPath <> "" -> publicPath <> "" ->
                verify ReadFile manifestPath publicPath = Ok (verified_text signed)
     end.
Proof using laws ed_laws.
  intros Hin Hinv Hvalid Hfile Hrp Hkp Hwhen Hkey. unfold platform_reconcile in Hfile. rewrite Hin, Hinv in Hfile. symmetry in Hfile.
  assert (decodeFile ReadFile decode_report reportPath = Ok (Build inventory)) as Hdec.
  { apply decodeFile_Ok. eexists. split; [exact Hfile|by apply decode_report_text]. }
  split; [done|]. apply String.eqb_neq in Hrp, Hkp. unfold sign. rewrite Hrp, Hkp, Hdec. cbn [orb wrap].
  destruct (BuildManifest (Build inventory)) as [m|e] eqn:Hm; [|done]. intros Ho Hr Hvo Hvr Hy Hz. cbn [wrap].
  destruct (pipeline_verifies inventory m operatorID reason when key Hm Ho Hr Hy Hz (readHexKey_length _ _ _ _ Hkey))
    as (approved & signed & Ha & Hs & Hv & Hrec).
  rewrite Hwhen, Ha. cbn [wrap]. rewrite Hkey, Hs. cbn [wrap]. exists signed. destruct (built_ids _ _ Hm) as [Hids Hprop].
  assert (sg_Manifest signed = approved /\ decode_fixture (indent 0 (signed_fixture_json signed)) = Some signed) as [Hsg Htext].
  { unfold SignManifest in Hs. destruct (negb _) in Hs; [done|]. destruct (validateApprovedManifest approved) in Hs; [|done].
    injection Hs as <-. split; [done|]. apply decode_fixture_text, valid_signed_of_approved.
    eapply valid_approved; [|exact Hvo|exact Hvr|exact Ha]. by eapply valid_built. }
  split; [done|]. split; [by rewrite Hrec|]. split; [done|]. split; [by rewrite Hsg, (approval_of_approved _ _ _ _ _ Ha)|].
  intros manifestPath publicPath Hmf Hpk Hmp%String.eqb_neq Hpp%String.eqb_neq.
  unfold verify. rewrite Hmp, Hpp. cbn [orb].
  assert (decodeFile ReadFile decode_fixture manifestPath = Ok signed) as ->.
  { apply decodeFile_Ok. by eexists. }
  cbn [wrap]. rewrite Hpk, Hv. done.
Qed.
End Composition.

(** ** A rehearsal from files *)
Module Desk.
#[export] Existing Instances ascii_tables toy_crypto toy_crypto_laws Assertion.Sample.toy_ed25519 Assertion.Sample.toy_laws.
Definition inventory_text : string := Eval vm_compute in
  encode_json (marshal inventory_type (inventory_mem Rehearsal.inventory)) ++ String newline "".
Definition report : Report := Eval vm_compute in Build Rehearsal.inventory.
Definition report_text : string := Eval vm_compute in MarshalReport report.
Definition day := "2026-01-01T00:00:00Z".
Definition when : Z := Eval vm_compute in default 0 (Parse day).
Definition files (signed_text path : string) : res string :=
  if path =s "inventory.json" then Ok inventory_text else if path =s "report.json" then Ok report_text
  else if path =s "private.hex" then Ok (hex_encode Rehearsal.private)
  else if path =s "public.hex" then Ok (hex_encode (ed_public Rehearsal.private))
  else if path =s "signed.json" then Ok signed_text else Err (Text "no such file").
Definition signed_text : string := Eval vm_compute in
  match sign (files "") "report.json" "private.hex" "ops" "rehearsal" day with Ok text => text | Err _ => "" end.
Definition ReadFile : string -> res string := files signed_text.
End Desk.
#[local] Existing Instances ascii_tables toy_crypto toy_crypto_laws Assertion.Sample.toy_ed25519 Assertion.Sample.toy_laws.

(** The four runs of the two commands, as an operator types them. *)
Example desk_runs :
  platform_reconcile Desk.ReadFile "" "inventory.json" = Ok Desk.report_text
  /\ platform_manifest Desk.ReadFile " Sign " "report.json" "" "private.hex" "ops" "rehearsal" Desk.day = Ok Desk.signed_text
  /\ is_ok (platform_manifest Desk.ReadFile "verify" "" "signed.json" "public.hex" "" "" "") = true
  /\ is_ok (platform_manifest Desk.ReadFile "verify" "" "report.json" "public.hex" "" "" "") = false.
Proof. vm_compute. split_and!; reflexivity. Qed.
Lemma desk_inventory : decode_inventory Desk.inventory_text = Some Rehearsal.inventory.
Proof. vm_compute. reflexivity. Qed.
Lemma desk_valid : valid_report (Build Rehearsal.inventory) = true.
Proof. vm_compute. reflexivity. Qed.
Lemma desk_reconciles : platform_reconcile Desk.ReadFile "" "inventory.json" = Desk.ReadFile "report.json".
Proof. vm_compute. reflexivity. Qed.
Lemma desk_key : readHexKey Desk.ReadFile "private.hex" 64 = Ok Rehearsal.private.
Proof. vm_compute. reflexivity. Qed.
Lemma desk_when : Parse Desk.day = Some Desk.when /\ four_digit_year Desk.when /\ Desk.when <> zero_time.
Proof. split_and!; [vm_compute; reflexivity|split; [apply Z.leb_le|apply Z.ltb_lt]; vm_compute; reflexivity|apply Z.eqb_neq; vm_compute; reflexivity]. Qed.
Lemma desk_builds : exists m, BuildManifest (Build Rehearsal.inventory) = Ok m.
Proof. eexists. vm_compute. reflexivity. Qed.
Lemma rehearsal_commands_compose_witness :
  exists signed, sign Desk.ReadFile "report.json" "private.hex" "ops" "rehearsal" Desk.day = Ok (indent 0 (signed_fixture_json signed))
    /\ map mr_PlatformID (mf_Records (sg_Manifest signed)) ≡ₚ map pr_PlatformID (rp_Proposals (Build Rehearsal.inventory)).
Proof.
  destruct desk_when as (Hw & Hy & Hz). destruct desk_builds as [m Hm].
  pose proof (rehearsal_commands_compose Desk.ReadFile "" "inventory.json" Desk.inventory_text Rehearsal.inventory "report.json"
    "private.hex" "ops" "rehearsal" Desk.day Desk.when Rehearsal.private eq_refl desk_inventory desk_valid desk_reconciles) as H.
  assert ("report.json" <> "") as H1 by discriminate. assert ("private.hex" <> "") as H2 by discriminate.
  specialize (H H1 H2 Hw desk_key). rewrite Hm in H. destruct H as [_ H].
  assert (TrimSpace "ops" <> "") as H3 by (vm_compute; discriminate).
  assert (TrimSpace "rehearsal" <> "") as H4 by (vm_compute; discriminate).
  assert (valid_utf8 (TrimSpace "ops") = true) as H5 by (vm_compute; reflexivity).
  assert (valid_utf8 (TrimSpace "rehearsal") = true) as H6 by (vm_compute; reflexivity).
  destruct (H H3 H4 H5 H6 Hy Hz) as (signed & Hs & Hids & _). exists signed. split; [exact Hs|exact Hids].
Defined.
