(* ===== verification/ManifestFile.v ===== *)
(** The files of the production import (cmd/platform-import/main.go: decodeFile):
    the Go types of a signed manifest (internal/platform/reconciliation/
    production.go, reconciliation.go: SourceRef) for the decoder of Decode.v, and
    the values of Production.v as the memory of those types. *)
From stdpp Require Import base tactics option list strings.
From Stdlib Require Import ZArith Lia Ascii String.
From S2P Require Import Prelude GoStrings GoTime Errors Codec Json JsonLaws Decode Auth Assertion Reconciliation Fixture Production Structs.

Local Open Scope string_scope.
Local Open Scope Z_scope.

(** ** The types, with their tags *)
Definition history_type : ty := TStruct [field true "actor_user_id" TString; field false "occurred_at" TString;
  field false "reason" TString].
Definition user_type : ty := TStruct [field false "id" TString; field false "email" TString;
  field false "display_name" TString; field false "active" TBool; field false "created_at" TString].
Definition organisation_type : ty := TStruct [field false "id" TString; field false "name" TString;
  field false "status" TString; field false "created_at" TString; field true "archived_at" (TPointer TString);
  field false "history" history_type].
Definition workspace_type : ty := TStruct [field false "id" TString; field false "organisation_id" TString;
  field false "name" TString; field false "status" TString; field false "created_at" TString;
  field true "archived_at" (TPointer TString); field false "history" history_type].
Definition membership_type : ty := TStruct [field false "id" TString; field true "organisation_id" TString;
  field true "workspace_id" TString; field false "user_id" TString; field false "role" TString;
  field false "active" TBool; field false "assigned_by" TString; field false "assigned_at" TString;
  field true "removed_by" TString; field true "removed_at" (TPointer TString);
  field true "removal_reason" TString].
Definition product_type : ty := TStruct [field false "key" TString; field false "display_name" TString;
  field false "status" TString; field false "created_at" TString; field true "retired_at" (TPointer TString);
  field false "history" history_type].
Definition entitlement_type : ty := TStruct [field false "id" TString; field false "organisation_id" TString;
  field false "product_key" TString; field false "status" TString; field false "granted_by" TString;
  field false "granted_at" TString; field true "revoked_by" TString; field true "revoked_at" (TPointer TString);
  field true "revocation_reason" TString].
Definition assignment_type : ty := TStruct [field false "id" TString; field false "user_id" TString;
  field false "organisation_id" TString; field false "product_key" TString; field false "status" TString;
  field false "assigned_by" TString; field false "assigned_at" TString; field true "revoked_by" TString;
  field true "revoked_at" (TPointer TString); field true "revocation_reason" TString].
Definition payload_type : ty := TStruct [field true "user" (TPointer user_type);
  field true "organisation" (TPointer organisation_type); field true "workspace" (TPointer workspace_type);
  field true "organisation_membership" (TPointer membership_type);
  field true "workspace_membership" (TPointer membership_type); field true "product" (TPointer product_type);
  field true "organisation_entitlement" (TPointer entitlement_type);
  field true "user_assignment" (TPointer assignment_type)].
Definition record_type : ty := TStruct [field false "entity" TString; field false "platform_id" TString;
  field false "match_key_sha256" TString; field false "source_refs" (TSlice source_ref_type);
  field false "create_policy" TString; field false "payload" payload_type].
Definition snapshot_type : ty := TStruct [field false "source" TString; field false "source_sha256" TString;
  field false "report_sha256" TString].
Definition approval_type : ty := TStruct [field false "approval_id" TString; field false "operator_id" TString;
  field false "approved_at" TString; field false "reason" TString; field false "scope" TString;
  field false "key_id" TString].
Definition manifest_type : ty := TStruct [field false "schema_version" TInt;
  field false "manifest_type" TString; field false "scope" TString; field false "manifest_id" TString;
  field false "source_report_sha256" TString; field false "source_snapshots" (TSlice snapshot_type);
  field false "records" (TSlice record_type); field true "approval" (TPointer approval_type)].
Definition signed_type : ty := TStruct [field false "manifest" manifest_type; field false "algorithm" TString;
  field false "signature" TString].

(** ** Values as memory *)
Definition history_mem (x : ImportHistory) : mem := MStruct [MString (ih_ActorUserID x);
  MString (ih_OccurredAt x); MString (ih_Reason x)].
Definition user_mem (x : UserImportPayload) : mem := MStruct [MString (up_ID x); MString (up_Email x);
  MString (up_DisplayName x); MBool (up_Active x); MString (up_CreatedAt x)].
Definition organisation_mem (x : OrganisationImportPayload) : mem := MStruct [MString (op_ID x);
  MString (op_Name x); MString (op_Status x); MString (op_CreatedAt x); pointer_mem MString (op_ArchivedAt x);
  history_mem (op_History x)].
Definition workspace_mem (x : WorkspaceImportPayload) : mem := MStruct [MString (wp_ID x);
  MString (wp_OrganisationID x); MString (wp_Name x); MString (wp_Status x); MString (wp_CreatedAt x);
  pointer_mem MString (wp_ArchivedAt x); history_mem (wp_History x)].
Definition membership_mem (x : MembershipImportPayload) : mem := MStruct [MString (mp_ID x);
  MString (mp_OrganisationID x); MString (mp_WorkspaceID x); MString (mp_UserID x); MString (mp_Role x);
  MBool (mp_Active x); MString (mp_AssignedBy x); MString (mp_AssignedAt x); MString (mp_RemovedBy x);
  pointer_mem MString (mp_RemovedAt x); MString (mp_RemovalReason x)].
Definition product_mem (x : ProductImportPayload) : mem := MStruct [MString (pp_Key x);
  MString (pp_DisplayName x); MString (pp_Status x); MString (pp_CreatedAt x);
  pointer_mem MString (pp_RetiredAt x); history_mem (pp_History x)].
Definition entitlement_mem (x : EntitlementImportPayload) : mem := MStruct [MString (ep_ID x);
  MString (ep_OrganisationID x); MString (ep_ProductKey x); MString (ep_Status x); MString (ep_GrantedBy x);
  MString (ep_GrantedAt x); MString (ep_RevokedBy x); pointer_mem MString (ep_RevokedAt x);
  MString (ep_RevocationReason x)].
Definition assignment_mem (x : AssignmentImportPayload) : mem := MStruct [MString (as_ID x);
  MString (as_UserID x); MString (as_OrganisationID x); MString (as_ProductKey x); MString (as_Status x);
  MString (as_AssignedBy x); MString (as_AssignedAt x); MString (as_RevokedBy x);
  pointer_mem MString (as_RevokedAt x); MString (as_RevocationReason x)].
Definition payload_mem (x : ProductionPayload) : mem := MStruct [pointer_mem user_mem (pl_User x);
  pointer_mem organisation_mem (pl_Organisation x); pointer_mem workspace_mem (pl_Workspace x);
  pointer_mem membership_mem (pl_OrganisationMembership x);
  pointer_mem membership_mem (pl_WorkspaceMembership x); pointer_mem product_mem (pl_Product x);
  pointer_mem entitlement_mem (pl_OrganisationEntitlement x); pointer_mem assignment_mem (pl_UserAssignment x)].
Definition record_mem (x : ProductionManifestRecord) : mem := MStruct [MString (rr_Entity x);
  MString (rr_PlatformID x); MString (rr_MatchKeySHA256 x); slice_mem source_ref_mem (rr_SourceRefs x);
  MString (rr_CreatePolicy x); payload_mem (rr_Payload x)].
Definition snapshot_mem (x : ProductionSourceSnapshot) : mem := MStruct [MString (ss_Source x);
  MString (ss_SourceSHA256 x); MString (ss_ReportSHA256 x)].
Definition approval_mem (x : ProductionApproval) : mem := MStruct [MString (pa_ApprovalID x);
  MString (pa_OperatorID x); MString (pa_ApprovedAt x); MString (pa_Reason x); MString (pa_Scope x);
  MString (pa_KeyID x)].
Definition manifest_mem (x : ProductionManifest) : mem := MStruct [MInt (pm_SchemaVersion x);
  MString (pm_ManifestType x); MString (pm_Scope x); MString (pm_ManifestID x);
  MString (pm_SourceReportSHA256 x); made_mem snapshot_mem (pm_SourceSnapshots x);
  made_mem record_mem (pm_Records x); pointer_mem approval_mem (pm_Approval x)].
Definition signed_mem (x : SignedProductionManifest) : mem := MStruct [manifest_mem (sp_Manifest x);
  MString (sp_Algorithm x); MString (sp_Signature x)].

(** ** Memory as values *)
Definition history_of (m : mem) : ImportHistory :=
  match fields_of m with
  | [a; b; c] =>
      mkHistory (text_of a) (text_of b) (text_of c)
  | _ => mkHistory "" "" ""
  end.
Definition user_of (m : mem) : UserImportPayload :=
  match fields_of m with
  | [a; b; c; d; e] =>
      mkUserPayload (text_of a) (text_of b) (text_of c) (flag_of d) (text_of e)
  | _ => mkUserPayload "" "" "" false ""
  end.
Definition organisation_of (m : mem) : OrganisationImportPayload :=
  match fields_of m with
  | [a; b; c; d; e; f] =>
      mkOrganisationPayload (text_of a) (text_of b) (text_of c) (text_of d) (pointer_of text_of e)
        (history_of f)
  | _ => mkOrganisationPayload "" "" "" "" None (mkHistory "" "" "")
  end.
Definition workspace_of (m : mem) : WorkspaceImportPayload :=
  match fields_of m with
  | [a; b; c; d; e; f; g] =>
      mkWorkspacePayload (text_of a) (text_of b) (text_of c) (text_of d) (text_of e) (pointer_of text_of f)
        (history_of g)
  | _ => mkWorkspacePayload "" "" "" "" "" None (mkHistory "" "" "")
  end.
Definition membership_of (m : mem) : MembershipImportPayload :=
  match fields_of m with
  | [a; b; c; d; e; f; g; h; i; j; k] =>
      mkMembershipPayload (text_of a) (text_of b) (text_of c) (text_of d) (text_of e) (flag_of f) (text_of g)
        (text_of h) (text_of i) (pointer_of text_of j) (text_of k)
  | _ => mkMembershipPayload "" "" "" "" "" false "" "" "" None ""
  end.
Definition product_of (m : mem) : ProductImportPayload :=
  match fields_of m with
  | [a; b; c; d; e; f] =>
      mkProductPayload (text_of a) (text_of b) (text_of c) (text_of d) (pointer_of text_of e) (history_of f)
  | _ => mkProductPayload "" "" "" "" None (mkHistory "" "" "")
  end.
Definition entitlement_of (m : mem) : EntitlementImportPayload :=
  match fields_of m with
  | [a; b; c; d; e; f; g; h; i] =>
      mkEntitlementPayload (text_of a) (text_of b) (text_of c) (text_of d) (text_of e) (text_of f) (text_of g)
        (pointer_of text_of h) (text_of i)
  | _ => mkEntitlementPayload "" "" "" "" "" "" "" None ""
  end.
Definition assignment_of (m : mem) : AssignmentImportPayload :=
  match fields_of m with
  | [a; b; c; d; e; f; g; h; i; j] =>
      mkAssignmentPayload (text_of a) (text_of b) (text_of c) (text_of d) (text_of e) (text_of f) (text_of g)
        (text_of h) (pointer_of text_of i) (text_of j)
  | _ => mkAssignmentPayload "" "" "" "" "" "" "" "" None ""
  end.
Definition payload_of (m : mem) : ProductionPayload :=
  match fields_of m with
  | [a; b; c; d; e; f; g; h] =>
      mkPayload (pointer_of user_of a) (pointer_of organisation_of b) (pointer_of workspace_of c)
        (pointer_of membership_of d) (pointer_of membership_of e) (pointer_of product_of f)
        (pointer_of entitlement_of g) (pointer_of assignment_of h)
  | _ => mkPayload None None None None None None None None
  end.
Definition record_of (m : mem) : ProductionManifestRecord :=
  match fields_of m with
  | [a; b; c; d; e; f] =>
      mkProductionRecord (text_of a) (text_of b) (text_of c) (slice_of source_ref_of d) (text_of e)
        (payload_of f)
  | _ => mkProductionRecord "" "" "" [] "" (mkPayload None None None None None None None None)
  end.
Definition snapshot_of (m : mem) : ProductionSourceSnapshot :=
  match fields_of m with
  | [a; b; c] =>
      mkSnapshot (text_of a) (text_of b) (text_of c)
  | _ => mkSnapshot "" "" ""
  end.
Definition approval_of (m : mem) : ProductionApproval :=
  match fields_of m with
  | [a; b; c; d; e; f] =>
      mkProductionApproval (text_of a) (text_of b) (text_of c) (text_of d) (text_of e) (text_of f)
  | _ => mkProductionApproval "" "" "" "" "" ""
  end.
Definition manifest_of (m : mem) : ProductionManifest :=
  match fields_of m with
  | [a; b; c; d; e; f; g; h] =>
      mkProduction (int_of a) (text_of b) (text_of c) (text_of d) (text_of e) (slice_of snapshot_of f)
        (slice_of record_of g) (pointer_of approval_of h)
  | _ => mkProduction 0 "" "" "" "" [] [] None
  end.
Definition signed_of (m : mem) : SignedProductionManifest :=
  match fields_of m with
  | [a; b; c] =>
      mkSignedProduction (manifest_of a) (text_of b) (text_of c)
  | _ => mkSignedProduction (mkProduction 0 "" "" "" "" [] [] None) "" ""
  end.

(** decodeFile of a signed manifest: one strict value, and nothing is read after it. *)
Definition decode_signed (text : string) : option SignedProductionManifest := option_map signed_of (decode signed_type text).
Definition signed_json (x : SignedProductionManifest) : json :=
  JObject [("manifest", production_json (sp_Manifest x)); jstring "algorithm" (sp_Algorithm x); jstring "signature" (sp_Signature x)].

(** ** Read back, written, typed and valid *)
Lemma history_of_mem x : history_of (history_mem x) = x.
Proof. unfold history_of, history_mem. of_mem x. Qed.
#[export] Hint Resolve history_of_mem : of_mem.
Lemma user_of_mem x : user_of (user_mem x) = x.
Proof. unfold user_of, user_mem. of_mem x. Qed.
#[export] Hint Resolve user_of_mem : of_mem.
Lemma organisation_of_mem x : organisation_of (organisation_mem x) = x.
Proof. unfold organisation_of, organisation_mem. of_mem x. Qed.
#[export] Hint Resolve organisation_of_mem : of_mem.
Lemma workspace_of_mem x : workspace_of (workspace_mem x) = x.
Proof. unfold workspace_of, workspace_mem. of_mem x. Qed.
#[export] Hint Resolve workspace_of_mem : of_mem.
Lemma membership_of_mem x : membership_of (membership_mem x) = x.
Proof. unfold membership_of, membership_mem. of_mem x. Qed.
#[export] Hint Resolve membership_of_mem : of_mem.
Lemma product_of_mem x : product_of (product_mem x) = x.
Proof. unfold product_of, product_mem. of_mem x. Qed.
#[export] Hint Resolve product_of_mem : of_mem.
Lemma entitlement_of_mem x : entitlement_of (entitlement_mem x) = x.
Proof. unfold entitlement_of, entitlement_mem. of_mem x. Qed.
#[export] Hint Resolve entitlement_of_mem : of_mem.
Lemma assignment_of_mem x : assignment_of (assignment_mem x) = x.
Proof. unfold assignment_of, assignment_mem. of_mem x. Qed.
#[export] Hint Resolve assignment_of_mem : of_mem.
Lemma payload_of_mem x : payload_of (payload_mem x) = x.
Proof. unfold payload_of, payload_mem. of_mem x. Qed.
#[export] Hint Resolve payload_of_mem : of_mem.
Lemma record_of_mem x : record_of (record_mem x) = x.
Proof. unfold record_of, record_mem. of_mem x. Qed.
#[export] Hint Resolve record_of_mem : of_mem.
Lemma snapshot_of_mem x : snapshot_of (snapshot_mem x) = x.
Proof. unfold snapshot_of, snapshot_mem. of_mem x. Qed.
#[export] Hint Resolve snapshot_of_mem : of_mem.
Lemma approval_of_mem x : approval_of (approval_mem x) = x.
Proof. unfold approval_of, approval_mem. of_mem x. Qed.
#[export] Hint Resolve approval_of_mem : of_mem.
Lemma manifest_of_mem x : manifest_of (manifest_mem x) = x.
Proof. unfold manifest_of, manifest_mem. of_mem x. Qed.
#[export] Hint Resolve manifest_of_mem : of_mem.
Lemma signed_of_mem x : signed_of (signed_mem x) = x.
Proof. unfold signed_of, signed_mem. of_mem x. Qed.
#[export] Hint Resolve signed_of_mem : of_mem.
Lemma marshal_history x : marshal history_type (history_mem x) = history_json x.
Proof. unfold history_type, history_mem, history_json. marshals. Qed.
#[export] Hint Resolve marshal_history : marshals.
#[export] Hint Rewrite marshal_history : marshals.
Lemma marshal_user x : marshal user_type (user_mem x) = user_payload_json x.
Proof. unfold user_type, user_mem, user_payload_json. marshals. Qed.
#[export] Hint Resolve marshal_user : marshals.
#[export] Hint Rewrite marshal_user : marshals.
Lemma marshal_organisation x : marshal organisation_type (organisation_mem x) = organisation_payload_json x.
Proof. unfold organisation_type, organisation_mem, organisation_payload_json. marshals. Qed.
#[export] Hint Resolve marshal_organisation : marshals.
#[export] Hint Rewrite marshal_organisation : marshals.
Lemma marshal_workspace x : marshal workspace_type (workspace_mem x) = workspace_payload_json x.
Proof. unfold workspace_type, workspace_mem, workspace_payload_json. marshals. Qed.
#[export] Hint Resolve marshal_workspace : marshals.
#[export] Hint Rewrite marshal_workspace : marshals.
Lemma marshal_membership x : marshal membership_type (membership_mem x) = membership_payload_json x.
Proof. unfold membership_type, membership_mem, membership_payload_json. marshals. Qed.
#[export] Hint Resolve marshal_membership : marshals.
#[export] Hint Rewrite marshal_membership : marshals.
Lemma marshal_product x : marshal product_type (product_mem x) = product_payload_json x.
Proof. unfold product_type, product_mem, product_payload_json. marshals. Qed.
#[export] Hint Resolve marshal_product : marshals.
#[export] Hint Rewrite marshal_product : marshals.
Lemma marshal_entitlement x : marshal entitlement_type (entitlement_mem x) = entitlement_payload_json x.
Proof. unfold entitlement_type, entitlement_mem, entitlement_payload_json. marshals. Qed.
#[export] Hint Resolve marshal_entitlement : marshals.
#[export] Hint Rewrite marshal_entitlement : marshals.
Lemma marshal_assignment x : marshal assignment_type (assignment_mem x) = assignment_payload_json x.
Proof. unfold assignment_type, assignment_mem, assignment_payload_json. marshals. Qed.
#[export] Hint Resolve marshal_assignment : marshals.
#[export] Hint Rewrite marshal_assignment : marshals.
Lemma marshal_payload x : marshal payload_type (payload_mem x) = payload_json x.
Proof. unfold payload_type, payload_mem, payload_json. marshals. Qed.
#[export] Hint Resolve marshal_payload : marshals.
#[export] Hint Rewrite marshal_payload : marshals.
Lemma marshal_record x : marshal record_type (record_mem x) = production_record_json x.
Proof. unfold record_type, record_mem, production_record_json. marshals. Qed.
#[export] Hint Resolve marshal_record : marshals.
#[export] Hint Rewrite marshal_record : marshals.
Lemma marshal_snapshot x : marshal snapshot_type (snapshot_mem x) = snapshot_json x.
Proof. unfold snapshot_type, snapshot_mem, snapshot_json. marshals. Qed.
#[export] Hint Resolve marshal_snapshot : marshals.
#[export] Hint Rewrite marshal_snapshot : marshals.
Lemma marshal_approval x : marshal approval_type (approval_mem x) = production_approval_json x.
Proof. unfold approval_type, approval_mem, production_approval_json. marshals. Qed.
#[export] Hint Resolve marshal_approval : marshals.
#[export] Hint Rewrite marshal_approval : marshals.
Lemma marshal_manifest x : marshal manifest_type (manifest_mem x) = production_json x.
Proof. unfold manifest_type, manifest_mem, production_json. marshals. Qed.
#[export] Hint Resolve marshal_manifest : marshals.
#[export] Hint Rewrite marshal_manifest : marshals.
Lemma marshal_signed x : marshal signed_type (signed_mem x) = signed_json x.
Proof. unfold signed_type, signed_mem, signed_json. marshals. Qed.
#[export] Hint Resolve marshal_signed : marshals.
#[export] Hint Rewrite marshal_signed : marshals.
Lemma fits_history x : fits history_type (history_mem x) = true.
Proof. unfold history_type, history_mem. fits. Qed.
#[export] Hint Resolve fits_history : fits.
Lemma fits_user x : fits user_type (user_mem x) = true.
Proof. unfold user_type, user_mem. fits. Qed.
#[export] Hint Resolve fits_user : fits.
Lemma fits_organisation x : fits organisation_type (organisation_mem x) = true.
Proof. unfold organisation_type, organisation_mem. fits. Qed.
#[export] Hint Resolve fits_organisation : fits.
Lemma fits_workspace x : fits workspace_type (workspace_mem x) = true.
Proof. unfold workspace_type, workspace_mem. fits. Qed.
#[export] Hint Resolve fits_workspace : fits.
Lemma fits_membership x : fits membership_type (membership_mem x) = true.
Proof. unfold membership_type, membership_mem. fits. Qed.
#[export] Hint Resolve fits_membership : fits.
Lemma fits_product x : fits product_type (product_mem x) = true.
Proof. unfold product_type, product_mem. fits. Qed.
#[export] Hint Resolve fits_product : fits.
Lemma fits_entitlement x : fits entitlement_type (entitlement_mem x) = true.
Proof. unfold entitlement_type, entitlement_mem. fits. Qed.
#[export] Hint Resolve fits_entitlement : fits.
Lemma fits_assignment x : fits assignment_type (assignment_mem x) = true.
Proof. unfold assignment_type, assignment_mem. fits. Qed.
#[export] Hint Resolve fits_assignment : fits.
Lemma fits_payload x : fits payload_type (payload_mem x) = true.
Proof. unfold payload_type, payload_mem. fits. Qed.
#[export] Hint Resolve fits_payload : fits.
Lemma fits_record x : fits record_type (record_mem x) = true.
Proof. unfold record_type, record_mem. fits. Qed.
#[export] Hint Resolve fits_record : fits.
Lemma fits_snapshot x : fits snapshot_type (snapshot_mem x) = true.
Proof. unfold snapshot_type, snapshot_mem. fits. Qed.
#[export] Hint Resolve fits_snapshot : fits.
Lemma fits_approval x : fits approval_type (approval_mem x) = true.
Proof. unfold approval_type, approval_mem. fits. Qed.
#[export] Hint Resolve fits_approval : fits.
Lemma fits_manifest m : in_int64 (pm_SchemaVersion m) = true -> fits manifest_type (manifest_mem m) = true.
Proof. intros Hv. unfold manifest_type, manifest_mem. fits. Qed.
#[export] Hint Resolve fits_manifest : fits.
Lemma fits_signed x : in_int64 (pm_SchemaVersion (sp_Manifest x)) = true -> fits signed_type (signed_mem x) = true.
Proof. intros Hv. unfold signed_type, signed_mem. fits. Qed.
(** The projections of the types of this file. *)
Ltac manifest_fields _ := cbn [valid_mem ih_ActorUserID ih_OccurredAt ih_Reason up_ID up_Email up_DisplayName
  up_Active up_CreatedAt op_ID op_Name op_Status op_CreatedAt op_ArchivedAt op_History wp_ID wp_OrganisationID
  wp_Name wp_Status wp_CreatedAt wp_ArchivedAt wp_History mp_ID mp_OrganisationID mp_WorkspaceID mp_UserID
  mp_Role mp_Active mp_AssignedBy mp_AssignedAt mp_RemovedBy mp_RemovedAt mp_RemovalReason pp_Key pp_DisplayName
  pp_Status pp_CreatedAt pp_RetiredAt pp_History ep_ID ep_OrganisationID ep_ProductKey ep_Status ep_GrantedBy
  ep_GrantedAt ep_RevokedBy ep_RevokedAt ep_RevocationReason as_ID as_UserID as_OrganisationID as_ProductKey
  as_Status as_AssignedBy as_AssignedAt as_RevokedBy as_RevokedAt as_RevocationReason pl_User pl_Organisation
  pl_Workspace pl_OrganisationMembership pl_WorkspaceMembership pl_Product pl_OrganisationEntitlement
  pl_UserAssignment rr_Entity rr_PlatformID rr_MatchKeySHA256 rr_SourceRefs rr_CreatePolicy rr_Payload ss_Source
  ss_SourceSHA256 ss_ReportSHA256 pa_ApprovalID pa_OperatorID pa_ApprovedAt pa_Reason pa_Scope pa_KeyID
  pm_SchemaVersion pm_ManifestType pm_Scope pm_ManifestID pm_SourceReportSHA256 pm_SourceSnapshots pm_Records
  pm_Approval sp_Manifest sp_Algorithm sp_Signature].
Lemma valid_history_of m : valid_mem m = true -> valid_mem (history_mem (history_of m)) = true.
Proof. unfold history_of. valid_of manifest_fields m. Qed.
#[export] Hint Resolve valid_history_of : valid_of.
Lemma valid_user_of m : valid_mem m = true -> valid_mem (user_mem (user_of m)) = true.
Proof. unfold user_of. valid_of manifest_fields m. Qed.
#[export] Hint Resolve valid_user_of : valid_of.
Lemma valid_organisation_of m : valid_mem m = true -> valid_mem (organisation_mem (organisation_of m)) = true.
Proof. unfold organisation_of. valid_of manifest_fields m. Qed.
#[export] Hint Resolve valid_organisation_of : valid_of.
Lemma valid_workspace_of m : valid_mem m = true -> valid_mem (workspace_mem (workspace_of m)) = true.
Proof. unfold workspace_of. valid_of manifest_fields m. Qed.
#[export] Hint Resolve valid_workspace_of : valid_of.
Lemma valid_membership_of m : valid_mem m = true -> valid_mem (membership_mem (membership_of m)) = true.
Proof. unfold membership_of. valid_of manifest_fields m. Qed.
#[export] Hint Resolve valid_membership_of : valid_of.
Lemma valid_product_of m : valid_mem m = true -> valid_mem (product_mem (product_of m)) = true.
Proof. unfold product_of. valid_of manifest_fields m. Qed.
#[export] Hint Resolve valid_product_of : valid_of.
Lemma valid_entitlement_of m : valid_mem m = true -> valid_mem (entitlement_mem (entitlement_of m)) = true.
Proof. unfold entitlement_of. valid_of manifest_fields m. Qed.
#[export] Hint Resolve valid_entitlement_of : valid_of.
Lemma valid_assignment_of m : valid_mem m = true -> valid_mem (assignment_mem (assignment_of m)) = true.
Proof. unfold assignment_of. valid_of manifest_fields m. Qed.
#[export] Hint Resolve valid_assignment_of : valid_of.
Lemma valid_payload_of m : valid_mem m = true -> valid_mem (payload_mem (payload_of m)) = true.
Proof. unfold payload_of. valid_of manifest_fields m. Qed.
#[export] Hint Resolve valid_payload_of : valid_of.
Lemma valid_record_of m : valid_mem m = true -> valid_mem (record_mem (record_of m)) = true.
Proof. unfold record_of. valid_of manifest_fields m. Qed.
#[export] Hint Resolve valid_record_of : valid_of.
Lemma valid_snapshot_of m : valid_mem m = true -> valid_mem (snapshot_mem (snapshot_of m)) = true.
Proof. unfold snapshot_of. valid_of manifest_fields m. Qed.
#[export] Hint Resolve valid_snapshot_of : valid_of.
Lemma valid_approval_of m : valid_mem m = true -> valid_mem (approval_mem (approval_of m)) = true.
Proof. unfold approval_of. valid_of manifest_fields m. Qed.
#[export] Hint Resolve valid_approval_of : valid_of.
Lemma valid_manifest_of m : valid_mem m = true -> valid_mem (manifest_mem (manifest_of m)) = true.
Proof. unfold manifest_of. valid_of manifest_fields m. Qed.
#[export] Hint Resolve valid_manifest_of : valid_of.
Lemma valid_signed_of m : valid_mem m = true -> valid_mem (signed_mem (signed_of m)) = true.
Proof. unfold signed_of. valid_of manifest_fields m. Qed.
#[export] Hint Resolve valid_signed_of : valid_of.

(** ** Manifests and their texts *)
Lemma signed_type_good : good signed_type = true /\ valid_ty signed_type = true.
Proof. by vm_compute. Qed.
Lemma manifest_type_good : good manifest_type = true /\ valid_ty manifest_type = true.
Proof. by vm_compute. Qed.
(** A manifest as a file can hold it: strings of UTF-8 and a version of 64 bits. *)
Definition valid_manifest (m : ProductionManifest) : bool := valid_mem (manifest_mem m).
Lemma valid_version m : valid_manifest m = true -> in_int64 (pm_SchemaVersion m) = true.
Proof. unfold valid_manifest, manifest_mem. cbn [valid_mem forallb]. by intros [? _]%andb_true_iff. Qed.
Lemma valid_signed_manifest x : valid_mem (signed_mem x) = true -> valid_manifest (sp_Manifest x) = true.
Proof. unfold signed_mem. cbn [valid_mem forallb]. by intros [? _]%andb_true_iff. Qed.
(** The text that is signed determines the manifest. *)
Lemma production_text_inj m m' : valid_manifest m = true -> valid_manifest m' = true ->
  encode_json (production_json m) = encode_json (production_json m') -> m = m'.
Proof.
  intros Hm Hm' He. destruct manifest_type_good as [Hg Ht]. rewrite <-!marshal_manifest in He.
  rewrite <-(manifest_of_mem m), <-(manifest_of_mem m'). f_equal.
  exact (marshal_text_inj manifest_type _ _ Hg Ht (fits_manifest m (valid_version m Hm)) (fits_manifest m' (valid_version m' Hm')) Hm Hm' He).
Qed.
Lemma decode_signed_valid text x : decode_signed text = Some x -> valid_mem (signed_mem x) = true.
Proof.
  unfold decode_signed. destruct (decode signed_type text) as [m|] eqn:E; [|done]. intros [= <-].
  apply valid_signed_of. by eapply decode_valid_mem.
Qed.
Lemma decode_signed_text x rest : valid_mem (signed_mem x) = true -> ends_value rest ->
  decode_signed (encode_json (signed_json x) ++ rest) = Some x /\ decode_signed (indent 0 (signed_json x) ++ rest) = Some x.
Proof.
  intros Hx Hr. destruct signed_type_good as [Hg Ht]. pose proof (fits_signed x (valid_version _ (valid_signed_manifest _ Hx))) as Hf.
  unfold decode_signed. rewrite <-marshal_signed. destruct (decode_text signed_type (signed_mem x) rest Hg Ht Hf Hx Hr) as [-> ->].
  cbn [option_map]. by rewrite signed_of_mem.
Qed.

Section Signed.
Context `{Crypto} `{Ed25519} {ed_laws : Ed25519Laws}.
(** C19: a signed manifest survives its file. What SignProductionManifest returns for a
    manifest of UTF-8 strings is read back from its JSON, on one line or indented,
    exactly as it was, with any separator after it, and still verifies; and a file, however it is written, that
    holds a manifest with the signed text holds that manifest. *)
Theorem signed_manifest_reads_back m privateKey signed rest :
  SignProductionManifest m privateKey = Ok signed -> valid_manifest m = true -> ends_value rest ->
  decode_signed (encode_json (signed_json signed) ++ rest) = Some signed
  /\ decode_signed (indent 0 (signed_json signed) ++ rest) = Some signed
  /\ VerifySignedProductionManifest signed (ed_public privateKey) = Ok tt
  /\ forall text signed', decode_signed text = Some signed' ->
       encode_json (production_json (sp_Manifest signed')) = encode_json (production_json m) -> sp_Manifest signed' = m.
Proof using ed_laws.
  intros Hs Hm Hr. destruct (signed_verifies _ _ _ Hs) as [-> Hv].
  match goal with |- context [signed_json ?x] => destruct (decode_signed_text x rest) as [H1 H2]; [|done|] end.
  { unfold signed_mem. cbn [sp_Manifest sp_Algorithm sp_Signature valid_mem forallb].
    by rewrite (Hm : valid_mem _ = true), (printable_utf8 _ (b64_printable _)). }
  split; [exact H1|]. split; [exact H2|]. split; [exact Hv|].
  intros text signed' Hd He. apply production_text_inj; [|done|done]. by apply valid_signed_manifest, (decode_signed_valid text).
Qed.
End Signed.
#[local] Existing Instances ascii_tables toy_crypto toy_crypto_laws Assertion.Sample.toy_ed25519 Assertion.Sample.toy_laws.
Definition plan_signed : SignedProductionManifest := Eval vm_compute in
  match Plan.built with Ok x => x | Err _ => mkSignedProduction Plan.manifest "" "" end.
Lemma plan_signs : SignProductionManifest Plan.manifest Plan.private = Ok plan_signed.
Proof. vm_compute. reflexivity. Qed.
Lemma plan_valid : valid_manifest Plan.manifest = true.
Proof. vm_compute. reflexivity. Qed.
Lemma signed_manifest_reads_back_witness : decode_signed (encode_json (signed_json plan_signed) ++ "}") = Some plan_signed.
Proof.
  apply (signed_manifest_reads_back Plan.manifest Plan.private plan_signed "}").
  - exact plan_signs.
  - exact plan_valid.
  - right. left. reflexivity.
Defined.
