(* ===== verification/ImportTool.v ===== *)
(** The operator's command of the production import (cmd/platform-import/main.go):
    the manifest file and the keys, the store it opens and the four operations,
    over Migrations.v and Import.v. *)
From stdpp Require Import base tactics option list strings.
From Stdlib Require Import ZArith Lia Ascii String.
From S2P Require Import Prelude GoStrings GoTime Codec Errors Schema Json JsonLaws Decode Auth Assertion Identity Config Reconciliation Fixture.
From S2P Require Import Production Import ImportLaws Migrations ManifestFile Files.

Local Open Scope string_scope.
Local Open Scope Z_scope.

(** What is given on the command line. *)
Record Flags := mkFlags {
  fl_operation : string; fl_manifest : string; fl_manifest_id : string; fl_public_key : string; fl_secret_key : string;
  fl_database : string; fl_operator : string; fl_approval : string; fl_key_id : string; fl_at : string; fl_limit : Z }.

Section Tool.
Context `{UnicodeTables} `{Crypto} `{Ed25519} (sql : string -> ImportStore -> res ImportStore) (ReadFile : string -> res string).

Definition parseExecutionTime (value : string) : res Z :=
  if TrimSpace value =s "" then Err (Text "at is required for apply and rollback") else
  match Parse value with Some t => Ok t | None => Err (Wrap "parse at" (Text "time")) end.

(** An operation on the open store; the file keeps its ledger of migrations. *)
Definition on_data {A} (f : ImportStore -> res A * ImportStore) (s : Disk ImportStore) : res A * Disk ImportStore :=
  let (r, d) := f (dk_data s) in (r, mkDisk d (dk_ledger s)).
Definition opened (e : Machine) (dry_run : bool) (databasePath secret : string) (s : Disk ImportStore) : res string * Disk ImportStore :=
  if dry_run then open_ sql e databasePath "" s else OpenWithKey sql e databasePath secret s.

(** The switch over the operations, on the open store. *)
Definition operate (operation : string) (signed : SignedProductionManifest) (publicKey secret : string) (execution : ProductionExecution)
    (atValue : string) (limit now : Z) (rs : Z -> option string) (s : Disk ImportStore) : res ProductionImportReceipt * Disk ImportStore :=
  if operation =s "dry-run" then (DryRunProductionImport signed publicKey execution now, s)
  else if operation =s "apply" then
    match parseExecutionTime atValue with
    | Err err => (Err err, s)
    | Ok when => on_data (ApplyProductionImport secret signed publicKey execution when limit rs) s
    end
  else if operation =s "rollback" then
    match parseExecutionTime atValue with
    | Err err => (Err err, s)
    | Ok when => on_data (RollbackProductionImport secret signed publicKey execution when) s
    end
  else (Err (Text "operation must be dry-run, apply or rollback"), s).
Definition status (e : Machine) (manifestID secretKeyPath databasePath : string) (s : Disk ImportStore)
  : res ProductionImportReceipt * Disk ImportStore :=
  if (manifestID =s "") || (databasePath =s "") || (secretKeyPath =s "")
  then (Err (Text "manifest-id, database and secret-key are required for status"), s) else
  match readHexKey ReadFile secretKeyPath 32 with
  | Err err => (Err err, s)
  | Ok secret =>
      match OpenWithKey sql e databasePath secret s with
      | (Err err, s) => (Err err, s)
      | (Ok secret, s) => (ProductionImportStatus secret manifestID (dk_data s), s)
      end
  end.
Definition execute (e : Machine) (operation manifestPath manifestID publicKeyPath secretKeyPath databasePath : string)
    (execution : ProductionExecution) (atValue : string) (limit now : Z) (rs : Z -> option string) (s : Disk ImportStore)
  : res ProductionImportReceipt * Disk ImportStore :=
  if operation =s "status" then status e manifestID secretKeyPath databasePath s else
  if (manifestPath =s "") || (publicKeyPath =s "") || (databasePath =s "")
  then (Err (Text "manifest, public-key and database are required"), s) else
  match (let? signed := wrap "decode manifest" (decodeFile ReadFile decode_signed manifestPath) in
         let? publicBytes := readHexKey ReadFile publicKeyPath 32 in
         let? secret := (if operation =s "dry-run" then Ok ""
                         else if secretKeyPath =s "" then Err (Text "secret-key is required for apply and rollback")
                         else readHexKey ReadFile secretKeyPath 32) in
         Ok (signed, publicBytes, secret)) with
  | Err err => (Err err, s)
  | Ok (signed, publicBytes, secret) =>
      match opened e (operation =s "dry-run") databasePath secret s with
      | (Err err, s) => (Err err, s)
      | (Ok secret, s) => operate operation signed publicBytes secret execution atValue limit now rs s
      end
  end.
(** What is written to the standard output, or the error the process ends with. *)
Definition main (e : Machine) (f : Flags) (now : Z) (rs : Z -> option string) (s : Disk ImportStore) : res string * Disk ImportStore :=
  match execute e (ToLower (TrimSpace (fl_operation f))) (fl_manifest f) (fl_manifest_id f) (fl_public_key f) (fl_secret_key f)
          (fl_database f) (mkExecution (fl_operator f) (fl_approval f) (fl_key_id f)) (fl_at f) (fl_limit f) now rs s with
  | (Ok receipt, s) => (Ok (indent 0 (receipt_json receipt) ++ newline), s)
  | (Err err, s) => (Err err, s)
  end.
End Tool.

(** ** Laws *)
Section ToolLaws.
Context `{UnicodeTables} `{Crypto} `{Ed25519} (sql : string -> ImportStore -> res ImportStore) (ReadFile : string -> res string).



End ToolLaws.

(** ** A run of the command *)
Module Operator.
#[export] Existing Instances ascii_tables toy_crypto toy_crypto_laws Assertion.Sample.keyed Assertion.Sample.keyed_laws.
(** The plan, signed with a key whose verification checks. *)
Definition signed : SignedProductionManifest := Eval vm_compute in
  match SignProductionManifest Plan.manifest Plan.private with Ok s => s | Err _ => mkSignedProduction Plan.manifest "" "" end.
Definition sql (statement : string) (s : ImportStore) : res ImportStore := Ok s.
Definition manifest_text : string := Eval vm_compute in encode_json (signed_json signed) ++ " ".
Definition ReadFile (path : string) : res string :=
  if path =s "manifest.json" then Ok manifest_text
  else if path =s "public.hex" then Ok (hex_encode Plan.public ++ " ")
  else if path =s "secret.hex" then Ok (hex_encode Migration.secret) else Err (Text "no such file").
Definition machine : Machine := ready_machine (fun v => v * Second).
Definition run (operation at_ : string) := execute sql ReadFile machine operation "manifest.json" Plan.sha "public.hex" "secret.hex"
  "platform.db" Plan.execution at_ 0 0 Migration.rs.
Definition fresh_file : Disk ImportStore := mkDisk Migration.empty None.
Definition applied : res ProductionImportReceipt * Disk ImportStore := Eval vm_compute in run "apply" Plan.day fresh_file.
End Operator.
#[local] Existing Instances ascii_tables toy_crypto toy_crypto_laws Assertion.Sample.keyed Assertion.Sample.keyed_laws.

Definition receipt_of (r : res ProductionImportReceipt * Disk ImportStore) : option (string * Z * Z) :=
  match r.1 with Ok x => Some (re_Status x, re_Applied x, re_Created x) | Err _ => None end.
(** The first apply creates the three records, the second finds them done, the
    status is read back, and a rollback takes the import back. *)
Example operator_session :
  receipt_of Operator.applied = Some ("completed", 3, 3)
  /\ receipt_of (Operator.run "apply" Plan.day Operator.applied.2) = Some ("idempotent", 3, 3)
  /\ receipt_of (Operator.run "status" "" Operator.applied.2) = None
  /\ receipt_of (Operator.run "rollback" Plan.day Operator.applied.2) = Some ("rolled_back", 3, 3)
  /\ receipt_of (Operator.run "rollback" "" Operator.applied.2) = None.
Proof. vm_compute. split_and!; reflexivity. Qed.
(** What follows the manifest in its file is not read. *)
Example trailing_ignored : option_map sp_Manifest (decode_signed (Operator.manifest_text ++ "} not JSON")) = Some Plan.manifest.
Proof. vm_compute. reflexivity. Qed.

(** A manifest the key did not sign is refused, and nothing is imported. *)
Example unsigned_refused :
  let forged (path : string) := if path =s "manifest.json" then Ok (encode_json (signed_json Migration.signed)) else Operator.ReadFile path in
  match execute Operator.sql forged Operator.machine "apply" "manifest.json" Plan.sha "public.hex" "secret.hex" "platform.db"
          Plan.execution Plan.day 0 0 Migration.rs Operator.fresh_file with
  | (Ok _, _) => False
  | (Err _, s) => dk_data s = Migration.empty
  end.
Proof. vm_compute. reflexivity. Qed.
